(* ===== verification/_CoqProject ===== *)
-Q . S2P
Prelude.v
Monad.v
Chain.v
Timers.v
TimerProps.v
Endpoint.v
AuditRing.v
DrvQueue.v
DrvQueueProps.v
Kernel.v
Sched.v
RunQueue.v
Init.v
SchedProps.v
Ipc.v
IpcInv.v
Deadlock.v
IpcStep.v
Notify.v
IpcSend.v
IpcRecv.v
IpcPend.v
IpcAsync.v
IpcCall.v
System.v
Clock.v
Vm.v
AuditCall.v
Privctl.v
Irq.v
IrqInv.v
Grants.v
Boot.v
Cancel.v
Clear.v
SysProps.v
GrantProps.v
GrantLib.v
ClockProps.v
AlarmLib.v
GrantLibProps.v
VmProps.v
IrqProps.v
BootProps.v
PrivProps.v
Switch.v
SwitchProps.v
SchedSrv.v
SchedSrvProps.v
Quantum.v
Macd.v
MacdProps.v
