(* ===== verification/Prelude.v ===== *)
(** * GergiOS: a verification development of the microkernel core

    GergiOS is a MINIX 3 system: a small kernel under [src/minix/kernel] runs
    drivers, servers and user programs as processes that talk by messages.  The
    development models the kernel for its default target (x86_64 LP64, one
    processor, assertions enabled) together with the parts of user space that
    are glued to it: the timer, alarm and grant libraries, the scheduling server
    with its clients, the audit daemon, the policy daemon of mandatory access
    control with its compiler and library, and the steps of VM and RS that bring
    the boot image to life.

    ** How the model relates to the code

    The state of the kernel is one record, [kstate] (Kernel): the process table
    ([struct proc]), the privilege table ([struct priv]), run queues, timers,
    interrupt hooks, IPC filter pool, audit ring, and the user memory the kernel
    reads or writes (message buffers, asynchronous tables, grant tables) as
    finite maps from addresses; an address that is not mapped is one that cannot
    be accessed.  A pointer into a table is its index and [None] is [NULL], so
    that the intrusive lists of the code (run queues, caller queues, timer
    queue, request list, interrupt lines) are links through the tables exactly
    as in C.  Integers are kept at their width with [u32], [u64], [i32].

    Every function of the code is a definition of the same name in the monad [M]
    (Monad): it finishes with a result and a new state ([Done]) or stops
    ([Stop]) on [panic] or a failed assertion, on an access outside a table, or
    because a loop ran out of fuel.  Theorems about operations state [Done], so
    they include absence of panics, of wild accesses and of endless loops.  Fuel
    is the number of entries a loop can visit: the table size for lists through
    a table (the invariants say that no list visits an entry twice), the number
    of chunks or slots for scans, 32 ids for a line; a theorem that a function
    finishes is the proof that its fuel is enough.

    Code outside [src] and hardware are arguments or data of the state: the
    functions of MAC hooks, the copies through page tables, the handlers of the
    call vector, [malloc] of the grant library, the label lookup of RS, time
    stamps.

    ** Files

    - Prelude, Monad, Chain: integers and bit masks, the monad, the theory of
      intrusive singly linked lists.
    - Timers, TimerProps: [lib/libtimers]; the queue is sorted across the
      wrap-around of the clock.
    - Endpoint: [include/minix/endpoint.h], [bitmap.h]; Kernel, Init: [proc.h],
      [priv.h], [proc_init]; Sched: run queues of [proc.c], [sched_rt.c],
      [do_schedule.c], [do_schedctl.c], [do_setscheduler.c].  RunQueue states the
      invariant [wf] and the abstraction [rq], one list per priority; SchedProps
      proves that setting and clearing run-time flags, choosing a process and
      changing its priority refine the operations on these lists.
    - Ipc: send, receive, notify, asynchronous send, deadlock detection, MAC
      hooks, filters and signals of [proc.c], [system.c], [mac_hooks.c].  IpcInv
      has the invariant [ipc_ok] of message passing on a view of the process
      table; IpcStep the elementary steps; Deadlock, Notify, IpcSend, IpcRecv,
      IpcPend, IpcAsync and IpcCall the operations, up to the trap handler
      [do_ipc].
    - System: privileges, filters, cleaning up, the kernel-call dispatcher of
      [system.c] and the calls [do_fork], [do_runctl], [do_capctl],
      [do_statectl], [do_setgrant], [do_exit], [do_kill], [do_getksig],
      [do_endksig]; Cancel and Clear: what is left when a process goes;
      SysProps: send masks, capabilities.
    - Privctl, PrivProps: [do_privctl.c].
    - Clock, ClockProps: [clock.c] and the calls on time; AlarmLib: the watchdog
      timers of services ([lib/libsys/timers.c]) on top of the kernel's alarms.
    - Vm, VmProps: copies, message delivery and the requests to the memory
      server ([memory.c], [do_copy.c], [do_vmctl.c]); Grants, GrantProps:
      [do_safecopy.c] and the other calls that use grants; GrantLib,
      GrantLibProps: [lib/libsys/safecopies.c] on top of them.
    - AuditRing, AuditCall: [audit.c] and the audit daemon.
    - DrvQueue, DrvQueueProps: [drvqueue.c], also as single memory accesses that
      interleave.
    - Irq, IrqInv, IrqProps: [interrupt.c], [msix.c], [irq_thread.c],
      [do_irqctl.c], [do_clear.c].
    - Switch, SwitchProps: [switch_to_user] and [idle] of [proc.c], the way out of
      the kernel.
    - SchedSrv, SchedSrvProps: the scheduling server ([servers/sched]), the
      library that reaches it ([lib/libsys/sched_start.c] and others) and its use
      by PM ([servers/pm/schedule.c]), on top of [do_schedule] and the alarms of
      the kernel; Quantum: what happens from the end of a quantum in the kernel
      to the new one SCHED gives.
    - Macd, MacdProps: mandatory access control in user space: the policy daemon
      ([servers/macd]), [usr.bin/mac-compile] and [lib/libmac].
    - Boot, BootProps: the start ([main.c], [table.c], [init_clock],
      [irq_thread_init], [system_init], [do_exec.c]; VM's [exec_bootproc]; RS's
      [sef_cb_init_fresh]).

    ** What the theorems show

    Safety: from every state that satisfies the invariants, the IPC trap with
    any registers, the clock interrupt, device interrupts, requests of drivers,
    the removal of a process, privilege changes and the requests to the
    scheduling server finish and keep them; the start establishes them
    ([boot_establishes]).  Functional correctness: each operation does what its
    comment promises, on every branch.  Refinement: run queues, timer queues,
    the audit ring, the driver queue and the grant table behave as lists or
    sets of what they hold.  Access control: IPC permissions,
    capabilities and grants cannot be bypassed by the modelled paths; the
    MAC policy decides by its first applicable rule, means the same as text and
    compiled, and reaches the servers that ask.
    Liveness: alarms go off on time, interrupts reach their drivers, memory
    requests are answered, the kernel resumes the best process that can run,
    and a process whose quantum ended runs again.  Some theorems show that the
    code does not keep what it promises; each is listed with the place in the
    code as a finding of the manifest.

    ** Not modelled

    The hardware: registers, page tables, interrupt controller, FPU, assembly
    entry paths and the cycle counter behind accounting (its values are data).
    SMP, which the default configuration leaves out.  Debugging output, sanity
    checks that are compiled out, profiling and the watchdog.  The body of the
    interrupt threads, which is entered in assembly and which no start reaches.
    Kernel calls that only report ([do_getinfo]), trace ([do_trace]) or talk to
    devices.  Of user space, everything but the parts named above: the servers
    and drivers are programs of their own that the kernel does not trust, and
    the theorems hold for whatever they do. *)

From stdpp Require Export base numbers list option gmap strings.
From Stdlib Require Export ZArith Lia.

Open Scope Z_scope.

(** ** C truth values and machine widths *)

(** [x & f] used as a condition. *)
Definition has (x f : Z) : bool := negb (Z.land x f =? 0).

(** [(x & f) == f]. *)
Definition isset (x f : Z) : bool := Z.land x f =? f.

(** [x |= f] and [x &= ~f]. *)
Definition flag_set (x f : Z) : Z := Z.lor x f.
Definition flag_clr (x f : Z) : Z := Z.land x (Z.lnot f).

(** Unsigned wrap-around at 32 and 64 bits. *)
Definition u32 (x : Z) : Z := x mod 2 ^ 32.
Definition u64 (x : Z) : Z := x mod 2 ^ 64.
Definition INT_MAX : Z := 2147483647.
Definition i32 (x : Z) : Z := (x + 2 ^ 31) mod 2 ^ 32 - 2 ^ 31.
Definition i64 (x : Z) : Z := (x + 2 ^ 63) mod 2 ^ 64 - 2 ^ 63.
Definition u16 (x : Z) : Z := x mod 2 ^ 16.
Definition i16 (x : Z) : Z := (x + 2 ^ 15) mod 2 ^ 16 - 2 ^ 15.

(** ** Single-bit masks

    Every flag the kernel tests is a power of two; the class records the bit
    number so that tests and updates become statements about [Z.testbit]. *)
Class SingleBit (f : Z) := {
  bit_of : Z;
  bit_of_nonneg : 0 <= bit_of;
  bit_of_spec : f = 2 ^ bit_of
}.
Arguments bit_of f {_}.

Ltac single_bit k :=
  refine {| bit_of := k |}; [lia | reflexivity].

Create HintDb flags.

Section SingleBitFacts.
Context (f : Z) `{!SingleBit f}.

Lemma testbit_single j : Z.testbit f j = (j =? bit_of f).
Proof.
  destruct SingleBit0 as [k Hk ->]; cbn.
  destruct (Z.eqb_spec j k) as [->|Hne]; [by apply Z.pow2_bits_true|].
  by apply Z.pow2_bits_false.
Qed.

Lemma has_testbit x : has x f = Z.testbit x (bit_of f).
Proof.
  unfold has. destruct (Z.testbit x (bit_of f)) eqn:E.
  - apply negb_true_iff, Z.eqb_neq. intros H0.
    assert (Z.testbit (Z.land x f) (bit_of f) = true) as H1
      by (rewrite Z.land_spec, E, testbit_single, Z.eqb_refl; done).
    rewrite H0, Z.bits_0 in H1. done.
  - apply negb_false_iff, Z.eqb_eq. apply Z.bits_inj_0. intros j.
    rewrite Z.land_spec, testbit_single.
    destruct (Z.eqb_spec j (bit_of f)) as [->|]; [by rewrite E|].
    by rewrite andb_false_r.
Qed.

Lemma isset_has x : isset x f = has x f.
Proof.
  rewrite has_testbit. unfold isset.
  destruct (Z.testbit x (bit_of f)) eqn:E.
  - apply Z.eqb_eq. apply Z.bits_inj. intros j.
    rewrite Z.land_spec, testbit_single.
    destruct (Z.eqb_spec j (bit_of f)) as [->|]; [by rewrite E|].
    by rewrite andb_false_r.
  - apply Z.eqb_neq. intros H0.
    assert (Z.testbit (Z.land x f) (bit_of f) = true) as H1
      by (rewrite H0, testbit_single; apply Z.eqb_refl).
    rewrite Z.land_spec, E in H1. done.
Qed.

Lemma has_flag_set_same x : has (flag_set x f) f = true.
Proof.
  rewrite has_testbit. unfold flag_set.
  rewrite Z.lor_spec, testbit_single, Z.eqb_refl. apply orb_true_r.
Qed.

Lemma has_flag_clr_same x : has (flag_clr x f) f = false.
Proof.
  rewrite has_testbit. unfold flag_clr.
  rewrite Z.land_spec, Z.lnot_spec, testbit_single, Z.eqb_refl
    by apply bit_of_nonneg.
  apply andb_false_r.
Qed.

Lemma has_zero : has 0 f = false.
Proof. rewrite has_testbit. apply Z.bits_0. Qed.

Lemma has_nonzero x : has x f = true -> x <> 0.
Proof. intros H ->. by rewrite has_zero in H. Qed.

Lemma flag_set_nonzero x : flag_set x f <> 0.
Proof. apply has_nonzero, has_flag_set_same. Qed.

Lemma flag_clr_id x : has x f = false -> flag_clr x f = x.
Proof.
  rewrite has_testbit. intros E. apply Z.bits_inj'. intros j Hj.
  unfold flag_clr. rewrite Z.land_spec, Z.lnot_spec, testbit_single by done.
  destruct (Z.eqb_spec j (bit_of f)) as [->|]; [by rewrite E|].
  by rewrite andb_true_r.
Qed.

Lemma flag_set_id x : has x f = true -> flag_set x f = x.
Proof.
  rewrite has_testbit. intros E. apply Z.bits_inj'. intros j Hj.
  unfold flag_set. rewrite Z.lor_spec, testbit_single.
  destruct (Z.eqb_spec j (bit_of f)) as [->|]; [by rewrite E|].
  by rewrite orb_false_r.
Qed.

Lemma flag_clr_set x : has x f = false -> flag_clr (flag_set x f) f = x.
Proof.
  rewrite has_testbit. intros E. apply Z.bits_inj'. intros j Hj.
  unfold flag_clr, flag_set.
  rewrite Z.land_spec, Z.lor_spec, Z.lnot_spec, testbit_single by done.
  destruct (Z.eqb_spec j (bit_of f)) as [->|]; [by rewrite E|].
  by rewrite orb_false_r, andb_true_r.
Qed.
End SingleBitFacts.

Section TwoBits.
Context (f g : Z) `{!SingleBit f, !SingleBit g}.

Lemma bit_of_eqb : (bit_of g =? bit_of f) = (f =? g).
Proof.
  rewrite (bit_of_spec (f:=f)) at 2. rewrite (bit_of_spec (f:=g)) at 2.
  pose proof (bit_of_nonneg (f:=f)). pose proof (bit_of_nonneg (f:=g)).
  destruct (Z.eqb_spec (bit_of g) (bit_of f)) as [E|E]; symmetry.
  - apply Z.eqb_eq. by rewrite E.
  - apply Z.eqb_neq. intros E'. apply E. symmetry. apply (Z.pow_inj_r 2); [lia..|done].
Qed.

Lemma has_flag_set x : has (flag_set x f) g = has x g || (f =? g).
Proof.
  rewrite !(has_testbit g). unfold flag_set.
  by rewrite Z.lor_spec, (testbit_single f), bit_of_eqb.
Qed.

Lemma has_flag_clr x : has (flag_clr x f) g = has x g && negb (f =? g).
Proof.
  rewrite !(has_testbit g). unfold flag_clr.
  rewrite Z.land_spec, Z.lnot_spec, (testbit_single f) by apply bit_of_nonneg.
  by rewrite bit_of_eqb.
Qed.
End TwoBits.

(** [x |= f] and [x &= ~f] keep a 32-bit flags word non-negative. *)
Lemma flag_set_nonneg x f : 0 <= x -> 0 <= f -> 0 <= flag_set x f.
Proof. intros. unfold flag_set. by apply Z.lor_nonneg. Qed.

Lemma flag_clr_nonneg x f : 0 <= x -> 0 <= flag_clr x f.
Proof. intros. unfold flag_clr. apply Z.land_nonneg. by left. Qed.

(** ** Subsets of bit masks *)
Definition subset_mask (a b : Z) : Prop := Z.land a (Z.lnot b) = 0.

Lemma subset_mask_spec a b :
  subset_mask a b <-> forall i, 0 <= i -> Z.testbit a i = true -> Z.testbit b i = true.
Proof.
  unfold subset_mask. split.
  - intros H i Hi Ha. assert (Z.testbit (Z.land a (Z.lnot b)) i = false) as E
      by (rewrite H; apply Z.bits_0).
    rewrite Z.land_spec, Z.lnot_spec, Ha in E by done. cbn in E.
    by apply negb_false_iff in E.
  - intros H. apply Z.bits_inj'. intros i Hi.
    rewrite Z.land_spec, Z.lnot_spec, Z.bits_0 by done.
    destruct (Z.testbit a i) eqn:E; [|done]. by rewrite (H i Hi E).
Qed.

Lemma subset_mask_refl a : subset_mask a a.
Proof. by apply subset_mask_spec. Qed.

Lemma subset_mask_trans a b c :
  subset_mask a b -> subset_mask b c -> subset_mask a c.
Proof. rewrite !subset_mask_spec. eauto. Qed.

Lemma subset_mask_land_l a b : subset_mask (Z.land a b) a.
Proof.
  apply subset_mask_spec. intros i _. rewrite Z.land_spec.
  by intros [? _]%andb_true_iff.
Qed.

Lemma subset_mask_land_r a b : subset_mask (Z.land a b) b.
Proof.
  apply subset_mask_spec. intros i _. rewrite Z.land_spec.
  by intros [_ ?]%andb_true_iff.
Qed.

(** ** Tactics *)

(** Split the innermost [match] scrutinee found in a hypothesis or goal. *)
Ltac split_match :=
  match goal with
  | H : context [match ?x with _ => _ end] |- _ =>
      lazymatch x with
      | context [match _ with _ => _ end] => fail
      | _ => destruct x eqn:?
      end
  | |- context [match ?x with _ => _ end] =>
      lazymatch x with
      | context [match _ with _ => _ end] => fail
      | _ => destruct x eqn:?
      end
  end.
