(* ===== verification/Monad.v ===== *)
(** * State, failure and records

    Both the kernel and the user-space libraries are translated into the state
    monad [M S] over their global state: an operation either finishes with a
    result and a new state, or stops, on a failed assertion or [panic], on an
    access outside a table (undefined in C) or because a loop did not finish
    within its fuel.  [setter] derives the update of a record field. *)

From S2P Require Import Prelude.

(** [setter eta f] is the update of field [f] of a record, read off the record's
    eta expansion. *)
Ltac setter eta f :=
  let v := fresh "v" in
  let r := fresh "r" in
  intros v r;
  let t := eval cbv beta delta [eta] in (eta r) in
  lazymatch eval pattern (f r) in t with
  | ?G _ => let u := eval cbv beta in (G v) in exact u
  end.

Inductive stop :=
| Panic      (* a failed assertion or a call of [panic] *)
| BadAccess  (* an access outside a table, or through [NULL] *)
| NoFuel.    (* a loop that did not end within its fuel *)

Inductive outcome (S A : Type) :=
| Done (a : A) (s : S)
| Stop (why : stop).
Arguments Done {S A} a s.
Arguments Stop {S A} why.

Definition M (S A : Type) : Type := S -> outcome S A.

Section Operations.
Context {S : Type}.

Definition ret {A} (a : A) : M S A := fun s => Done a s.
Definition halt {A} (why : stop) : M S A := fun _ => Stop why.
Definition bind {A B} (m : M S A) (k : A -> M S B) : M S B :=
  fun s => match m s with Done a s' => k a s' | Stop w => Stop w end.
Definition get : M S S := fun s => Done s s.
Definition modify (f : S -> S) : M S unit := fun s => Done tt (f s).
Definition gets {A} (f : S -> A) : M S A := fun s => Done (f s) s.
Definition assert (b : bool) : M S unit := if b then ret tt else halt Panic.

Fixpoint for_each {A} (l : list A) (body : A -> M S unit) : M S unit :=
  match l with
  | [] => ret tt
  | x :: l' => bind (body x) (fun _ => for_each l' body)
  end.
End Operations.

Declare Scope k_scope.
Delimit Scope k_scope with K.
Notation "x <- m ;; k" := (bind m (fun x => k))
  (at level 100, m at next level, right associativity) : k_scope.
Notation "m ;; k" := (bind m (fun _ => k)) (at level 100, right associativity) : k_scope.
Open Scope k_scope.

(** ** Computation rules *)
Section Compute.
Context {S A B : Type}.
Implicit Types (s : S).

Lemma bind_ret (a : A) (k : A -> M S B) s : bind (ret a) k s = k a s.
Proof. done. Qed.
Lemma bind_assert (b : bool) (k : unit -> M S B) s : b = true -> bind (assert b) k s = k tt s.
Proof. by intros ->. Qed.
Lemma bind_done (m : M S A) (k : A -> M S B) a s s' : m s = Done a s' -> bind m k s = k a s'.
Proof. intros H. unfold bind. by rewrite H. Qed.
Lemma bind_assoc {C} (m : M S A) (k : A -> M S B) (k' : B -> M S C) s :
  bind (bind m k) k' s = bind m (fun a => bind (k a) k') s.
Proof. unfold bind. by destruct (m s). Qed.
End Compute.
