(* ===== verification/Chain.v ===== *)
(** * Intrusive singly linked lists

    The kernel threads its queues through the process table itself: the run
    queues through [p_nextready], the queues of blocked senders through
    [p_q_link].  [chain next h l] says that following [next] from the head
    pointer [h] visits exactly the nodes of [l] and then reaches [NULL].  The
    lemmas here are the ones the run queues and the caller queues share: a
    chain is determined by its head, cannot visit a node twice, and is updated
    by appending, pushing and unlinking a node. *)

From S2P Require Import Prelude.

Implicit Types (next : Z -> option Z) (h e : option Z) (l : list Z) (x y : Z).

Fixpoint chain next h l : Prop :=
  match l with
  | [] => h = None
  | x :: l' => h = Some x /\ chain next (next x) l'
  end.

(** A segment: from [h], the nodes of [l], then the pointer [e]. *)
Fixpoint lseg next h l e : Prop :=
  match l with
  | [] => h = e
  | x :: l' => h = Some x /\ lseg next (next x) l' e
  end.

Lemma chain_lseg next h l : chain next h l <-> lseg next h l None.
Proof. revert h. induction l as [|x l IH]; intros h; cbn; [done|]. by rewrite IH. Qed.

Lemma lseg_app next h l1 l2 e :
  lseg next h (l1 ++ l2) e <-> exists m, lseg next h l1 m /\ lseg next m l2 e.
Proof.
  revert h. induction l1 as [|x l1 IH]; intros h; cbn.
  - split; [eauto|]. by intros (m & -> & ?).
  - rewrite IH. naive_solver.
Qed.

Lemma chain_app next h l1 l2 :
  chain next h (l1 ++ l2) <-> exists m, lseg next h l1 m /\ chain next m l2.
Proof. rewrite chain_lseg, lseg_app. by setoid_rewrite chain_lseg. Qed.

Lemma chain_det next h l1 l2 : chain next h l1 -> chain next h l2 -> l1 = l2.
Proof.
  revert h l2. induction l1 as [|x l1 IH]; intros h [|y l2]; cbn; naive_solver.
Qed.

(** A [NULL]-terminated chain has no cycle. *)
Lemma chain_NoDup next h l : chain next h l -> NoDup l.
Proof.
  revert h. induction l as [|x l IH]; intros h; [constructor|].
  intros [_ Hc]. constructor; [|eauto].
  intros (l1 & l2 & ->)%list_elem_of_split.
  assert (chain next (next x) l2) as H2.
  { apply chain_app in Hc as (m & _ & Hc). by destruct Hc as [_ Hc]. }
  apply (chain_det _ _ _ _ Hc) in H2. apply (f_equal length) in H2.
  rewrite length_app in H2. cbn in H2. lia.
Qed.

Lemma lseg_ext next next' h l e :
  (forall x, x ∈ l -> next' x = next x) -> lseg next h l e -> lseg next' h l e.
Proof.
  revert h. induction l as [|x l IH]; intros h Hx; cbn; [done|].
  intros [-> ?]. split; [done|]. rewrite Hx by set_solver. apply IH; [|done].
  intros. apply Hx. set_solver.
Qed.

Lemma chain_ext next next' h l :
  (forall x, x ∈ l -> next' x = next x) -> chain next h l -> chain next' h l.
Proof. rewrite !chain_lseg. apply lseg_ext. Qed.

Lemma chain_head_None next l : chain next None l -> l = [].
Proof. destruct l; [done|]. by intros [? _]. Qed.

Lemma chain_head next x l : chain next (Some x) l -> exists l', l = x :: l'.
Proof. destruct l as [|y l]; [done|]. intros [[= ->] _]. eauto. Qed.

Lemma chain_nil_head next h l : chain next h l -> h = None <-> l = [].
Proof. destruct l; cbn; naive_solver. Qed.

(** ** Updates of a link function *)

Definition upd next x e : Z -> option Z := fun y => if y =? x then e else next y.

Lemma upd_same next x e : upd next x e x = e.
Proof. unfold upd. by rewrite Z.eqb_refl. Qed.

Lemma upd_other next x e y : y <> x -> upd next x e y = next y.
Proof. intros. unfold upd. by rewrite (proj2 (Z.eqb_neq _ _)). Qed.

(** Adding [x] at the end of a non-empty chain: the last node is linked to
    [x], and [x] becomes the end. *)
Lemma chain_snoc next h l t x :
  chain next h l -> last l = Some t -> x ∉ l ->
  chain (upd (upd next t (Some x)) x None) h (l ++ [x]).
Proof.
  intros Hc Ht Hx.
  pose proof (chain_NoDup _ _ _ Hc) as Hnd.
  apply last_Some in Ht as (l' & ->).
  apply chain_app in Hc as (m & Hl & [-> Hn]).
  rewrite <- app_assoc. apply chain_app. exists (Some t). split.
  - eapply lseg_ext; [|done]. intros y Hy.
    apply NoDup_app in Hnd as (_ & Hdis & _).
    rewrite !upd_other; set_solver.
  - cbn. split; [done|]. rewrite (upd_other _ x), upd_same by set_solver.
    split; [done|]. by rewrite upd_same.
Qed.

(** Adding [x] in front. *)
Lemma chain_push next h l x :
  chain next h l -> x ∉ l -> chain (upd next x h) (Some x) (x :: l).
Proof.
  intros Hc Hx. cbn. split; [done|]. rewrite upd_same.
  eapply chain_ext; [|done]. intros y Hy. rewrite upd_other; set_solver.
Qed.

Lemma chain_singleton next x : chain (upd next x None) (Some x) [x].
Proof. cbn. by rewrite upd_same. Qed.

(** Unlinking [x]: either the head pointer or the predecessor's link skips it. *)
Lemma chain_unlink_head next x l :
  chain next (Some x) (x :: l) -> chain next (next x) l.
Proof. by intros [_ ?]. Qed.

Lemma chain_unlink next h l1 y x l2 :
  chain next h (l1 ++ y :: x :: l2) ->
  chain (upd next y (next x)) h (l1 ++ y :: l2).
Proof.
  intros Hc. pose proof (chain_NoDup _ _ _ Hc) as Hnd.
  apply chain_app in Hc as (m & Hl & -> & Hy & Hc).
  apply NoDup_app in Hnd as (_ & Hdis & Hnd).
  apply NoDup_cons in Hnd as [Hnotin Hnd].
  apply chain_app. exists (Some y). split.
  - eapply lseg_ext; [|done]. intros z Hz. rewrite upd_other; set_solver.
  - cbn. split; [done|]. rewrite upd_same.
    eapply chain_ext; [|done]. intros z Hz. rewrite upd_other; set_solver.
Qed.

(** ** Removal of one element from a list without duplicates *)
Definition remove1 x l : list Z := filter (fun y => y <> x) l.

Lemma remove1_notin x l : x ∉ l -> remove1 x l = l.
Proof.
  intros H. unfold remove1. induction l as [|y l IH]; [done|].
  rewrite filter_cons_True by set_solver. f_equal. apply IH. set_solver.
Qed.

Lemma remove1_split x l1 l2 :
  x ∉ l1 -> x ∉ l2 -> remove1 x (l1 ++ x :: l2) = l1 ++ l2.
Proof.
  intros H1 H2. unfold remove1. rewrite filter_app, filter_cons_False by naive_solver.
  f_equal; by apply remove1_notin.
Qed.

Lemma elem_of_remove1 x y l : y ∈ remove1 x l <-> y <> x /\ y ∈ l.
Proof. unfold remove1. by rewrite list_elem_of_filter. Qed.

(** ** Walking a chain with fuel: the executable abstraction *)
Fixpoint walk (fuel : nat) next h : list Z :=
  match fuel, h with
  | S n, Some x => x :: walk n next (next x)
  | _, _ => []
  end.

Lemma walk_chain fuel next h l :
  chain next h l -> (length l <= fuel)%nat -> walk fuel next h = l.
Proof.
  revert h l. induction fuel as [|n IH]; intros h [|x l] Hc Hlen; cbn in *; try lia.
  - done.
  - by subst.
  - destruct Hc as [-> Hc]. f_equal. apply IH; [done|lia].
Qed.

(** A chain through a finite set of nodes is no longer than the set. *)
Lemma NoDup_length_le (l : list Z) (X : gset Z) :
  NoDup l -> (forall x, x ∈ l -> x ∈ X) -> (length l <= size X)%nat.
Proof.
  intros Hnd Hin. rewrite <- (size_list_to_set (C:=gset Z)) by done.
  apply subseteq_size. intros x. rewrite elem_of_list_to_set. apply Hin.
Qed.

(** Cutting some links leaves finite chains. *)
Lemma chain_prune next next' h l :
  (forall x, next' x = next x \/ next' x = None) ->
  chain next h l -> exists l', chain next' h l' /\ l' `prefix_of` l.
Proof.
  intros Hn. revert h. induction l as [|x l IH]; intros h; cbn.
  - intros ->. by exists [].
  - intros [-> Hc]. destruct (Hn x) as [E|E].
    + destruct (IH _ Hc) as (l' & Hl' & Hp). exists (x :: l'). split.
      * split; [done|]. by rewrite E.
      * by apply prefix_cons.
    + exists [x]. split; [split; [done|by rewrite E]|]. apply prefix_cons, prefix_nil.
Qed.

(** Adding the link from [x] to [d], when the chain from [d] avoids [x]: all
    chains stay finite. *)
Lemma chain_add_link next x d ld h l :
  chain next (Some d) ld -> x ∉ ld -> chain next h l ->
  exists l', chain (upd next x (Some d)) h l'.
Proof.
  intros Hd Hx. assert (chain (upd next x (Some d)) (Some d) ld) as Hd'.
  { eapply chain_ext; [|exact Hd]. intros y Hy. apply upd_other. set_solver. }
  revert h. induction l as [|y l IH]; intros h; cbn.
  - intros ->. by exists [].
  - intros [-> Hc]. destruct (Z.eq_dec y x) as [->|Hne].
    + exists (x :: ld). split; [done|]. by rewrite upd_same.
    + destruct (IH _ Hc) as [l' Hl']. exists (y :: l'). split; [done|]. by rewrite upd_other.
Qed.

(** No node of a chain links back to its first node. *)
Lemma chain_no_return next z l y : chain next (Some z) l -> y ∈ l -> next y <> Some z.
Proof.
  intros Hc (l1 & l2 & ->)%list_elem_of_split E.
  pose proof Hc as (m & _ & [_ H2])%chain_app. rewrite E in H2.
  apply (chain_det _ _ _ _ Hc) in H2. apply (f_equal length) in H2.
  rewrite length_app in H2. cbn in H2. lia.
Qed.

(** Every element but the first has a predecessor in the chain. *)
Lemma chain_pred next h l y :
  chain next h l -> y ∈ l -> h <> Some y -> exists x, x ∈ l /\ next x = Some y.
Proof.
  revert h. induction l as [|x l IH]; intros h Hc Hy Hh; [by apply elem_of_nil in Hy|].
  destruct Hc as [-> Hc]. apply elem_of_cons in Hy as [->|Hy]; [done|].
  destruct (decide (next x = Some y)) as [E|E]; [exists x; split; [set_solver|done]|].
  destruct (IH (next x) Hc Hy E) as (z & ? & ?). exists z. split; [set_solver|done].
Qed.

(** ** Pointers into a chain

    A C loop over a list with a pointer to a pointer that has passed the nodes of
    [pre] holds the address of the head pointer or of the link of the
    last of them. *)
Definition peek next h (pre : list Z) : option Z :=
  match last pre with None => h | Some y => next y end.
Definition relink next (pre : list Z) (v : option Z) : Z -> option Z :=
  match last pre with None => next | Some y => upd next y v end.
Definition rehead h (pre : list Z) (v : option Z) : option Z :=
  match last pre with None => v | Some _ => h end.

Lemma chain_peek next h pre suf : chain next h (pre ++ suf) -> peek next h pre = head suf.
Proof.
  intros (m & Hl & Hc)%chain_app.
  assert (m = head suf) as <- by (destruct suf as [|x suf]; [done|by destruct Hc as [-> _]]).
  unfold peek. destruct (last pre) as [y|] eqn:Hlast.
  - apply last_Some in Hlast as (l & ->). apply lseg_app in Hl as (? & _ & -> & Hy). exact Hy.
  - apply last_None in Hlast as ->. exact Hl.
Qed.

(** Writing through the pointer replaces what follows. *)
Lemma chain_relink next h pre suf suf' v :
  chain next h (pre ++ suf) -> chain next v suf' -> (forall x, x ∈ pre -> x ∉ suf') ->
  chain (relink next pre v) (rehead h pre v) (pre ++ suf').
Proof.
  intros Hc Hv Hd. pose proof (chain_NoDup _ _ _ Hc) as (Hnd & _)%NoDup_app.
  unfold relink, rehead. destruct (last pre) as [y|] eqn:Hlast.
  - apply last_Some in Hlast as (l & ->). apply NoDup_app in Hnd as (_ & Hl & _).
    apply chain_app. exists v. split.
    + apply chain_app in Hc as (m & Hc & _). apply lseg_app in Hc as (m' & Hc & Hy).
      apply lseg_app. exists m'. split; [|cbn; rewrite upd_same; by destruct Hy].
      eapply lseg_ext; [|done]. intros x Hx. apply upd_other. intros ->. apply (Hl _ Hx). set_solver.
    + eapply chain_ext; [|done]. intros x Hx. apply upd_other. intros ->. apply (Hd y); set_solver.
  - by apply last_None in Hlast as ->.
Qed.

(** Deciding the chain of a concrete structure. *)
Fixpoint chainb (next : Z -> option Z) (h : option Z) (l : list Z) : bool :=
  match l with
  | [] => bool_decide (h = None)
  | x :: l' => bool_decide (h = Some x) && chainb next (next x) l'
  end.

Lemma chainb_sound next h l : chainb next h l = true -> chain next h l.
Proof.
  revert h. induction l as [|x l IH]; intros h; cbn.
  - by intros ?%bool_decide_eq_true.
  - intros [?%bool_decide_eq_true ?]%andb_true_iff. auto.
Qed.
