(* ===== verification/Timers.v ===== *)
(** * The timer library

    Models [lib/libtimers] ([tmrs_settimer], [tmrs_clrtimer],
    [tmrs_exptimers]) and the macros of [include/minix/timers.h].  The library
    works on a queue of timers linked through the timer structures; the kernel
    and the user-space services each keep one.  [clock_t] is an unsigned 32-bit
    number that wraps around, and times are compared by their difference. *)

From S2P Require Import Prelude Monad Chain.

Definition TMRDIFF_MAX : Z := INT_MAX.
Definition TMR_NEVER : Z := u32 (TMRDIFF_MAX + 1).

(** A [minix_timer_t *] is a number, a [tmr_func_t] the number of a function;
    [None] is [NULL]. *)
Record minix_timer := mkTmr {
  tmr_next : option Z;
  tmr_exp_time : Z;
  tmr_func : option Z;
  tmr_arg : Z
}.
Definition eta_minix_timer (r : minix_timer) : minix_timer :=
  mkTmr (tmr_next r) (tmr_exp_time r) (tmr_func r) (tmr_arg r).
Definition set_tmr_next : option Z -> minix_timer -> minix_timer := ltac:(setter eta_minix_timer tmr_next).
Definition set_tmr_exp_time : Z -> minix_timer -> minix_timer := ltac:(setter eta_minix_timer tmr_exp_time).
Definition set_tmr_func : option Z -> minix_timer -> minix_timer := ltac:(setter eta_minix_timer tmr_func).
Definition set_tmr_arg : Z -> minix_timer -> minix_timer := ltac:(setter eta_minix_timer tmr_arg).

(** The timer structures and the head of the queue. *)
Record tqueue := mkTq { t_tab : gmap Z minix_timer; t_head : option Z }.

Definition tmr_is_set (t : minix_timer) : bool := match tmr_func t with Some _ => true | None => false end.
Definition tmr_is_first (a b : Z) : bool := u32 (b - a) <=? TMRDIFF_MAX.
Definition tmr_has_expired (t : minix_timer) (now : Z) : bool := tmr_is_first (tmr_exp_time t) now.

(** The state [S] of a program holds its timers. *)
Class TimerStore (S : Type) := {
  ts_get : S -> tqueue;
  ts_put : tqueue -> S -> S;
  ts_get_put : forall q s, ts_get (ts_put q s) = q;
  ts_put_put : forall q q' s, ts_put q (ts_put q' s) = ts_put q s;
  ts_put_get : forall s, ts_put (ts_get s) s = s
}.

Section Library.
Context {S : Type} `{!TimerStore S}.

Definition get_tmr (tp : Z) : M S minix_timer := fun s =>
  match t_tab (ts_get s) !! tp with Some t => Done t s | None => Stop BadAccess end.
Definition upd_tmr (tp : Z) (f : minix_timer -> minix_timer) : M S unit := fun s =>
  let q := ts_get s in
  match t_tab q !! tp with
  | Some t => Done tt (ts_put (mkTq (<[tp := f t]> (t_tab q)) (t_head q)) s)
  | None => Stop BadAccess
  end.

(** [minix_timer_t **atp]. *)
Inductive tmr_loc := TmrHead | TmrNext (tp : Z).
Definition read_tmr (atp : tmr_loc) : M S (option Z) :=
  match atp with
  | TmrHead => gets (fun s => t_head (ts_get s))
  | TmrNext tp => t <- get_tmr tp ;; ret (tmr_next t)
  end.
Definition write_tmr (atp : tmr_loc) (v : option Z) : M S unit :=
  match atp with
  | TmrHead => modify (fun s => ts_put (mkTq (t_tab (ts_get s)) v) s)
  | TmrNext tp => upd_tmr tp (set_tmr_next v)
  end.

(** The expiration time of the head, when there is one. *)
Definition head_time : M S (option Z) :=
  h <- read_tmr TmrHead ;;
  match h with
  | None => ret None
  | Some tp => t <- get_tmr tp ;; ret (Some (tmr_exp_time t))
  end.

Fixpoint clr_loop (fuel : nat) (tp : Z) (atp : tmr_loc) : M S unit :=
  match fuel with
  | O => halt NoFuel
  | Datatypes.S fuel' =>
      x <- read_tmr atp ;;
      match x with
      | None => ret tt
      | Some y =>
          if y =? tp then t <- get_tmr tp ;; write_tmr atp (tmr_next t)
          else clr_loop fuel' tp (TmrNext y)
      end
  end.

(** A queue holds each timer at most once. *)
Definition tmr_fuel : M S nat := gets (fun s => Datatypes.S (size (t_tab (ts_get s)))).

(** The answer: whether the queue was not empty, its head time then, and the
    new head time or 0. *)
Definition tmrs_clrtimer (tp : Z) : M S (bool * option Z * Z) :=
  prev_time <- head_time ;;
  upd_tmr tp (set_tmr_func None) ;;
  fuel <- tmr_fuel ;;
  clr_loop fuel tp TmrHead ;;
  next_time <- head_time ;;
  ret (match prev_time with Some _ => true | None => false end, prev_time, default 0 next_time).

(** Walk to the first timer that is not due before [exp_time]. *)
Fixpoint set_loop (fuel : nat) (exp_time : Z) (atp : tmr_loc) : M S tmr_loc :=
  match fuel with
  | O => halt NoFuel
  | Datatypes.S fuel' =>
      x <- read_tmr atp ;;
      match x with
      | None => ret atp
      | Some y =>
          t <- get_tmr y ;;
          if tmr_is_first exp_time (tmr_exp_time t) then ret atp
          else set_loop fuel' exp_time (TmrNext y)
      end
  end.

Definition tmrs_settimer (tp exp_time watchdog arg : Z) : M S (bool * option Z * option Z) :=
  old_head <- head_time ;;
  t <- get_tmr tp ;;
  (if tmr_is_set t then tmrs_clrtimer tp ;; ret tt else ret tt) ;;
  upd_tmr tp (fun t => set_tmr_arg arg (set_tmr_func (Some watchdog) (set_tmr_exp_time exp_time t))) ;;
  fuel <- tmr_fuel ;;
  atp <- set_loop fuel exp_time TmrHead ;;
  next <- read_tmr atp ;;
  upd_tmr tp (set_tmr_next next) ;;
  write_tmr atp (Some tp) ;;
  new_head <- head_time ;;
  ret (match old_head with Some _ => true | None => false end, old_head, new_head).

(** [call f arg] runs the watchdog function [f]; calling [NULL] is undefined.
    The answer is the new head time, if there is a timer left. *)
Fixpoint exp_loop (fuel : nat) (call : Z -> Z -> M S unit) (now : Z) : M S unit :=
  match fuel with
  | O => halt NoFuel
  | Datatypes.S fuel' =>
      x <- read_tmr TmrHead ;;
      match x with
      | None => ret tt
      | Some tp =>
          t <- get_tmr tp ;;
          if negb (tmr_has_expired t now) then ret tt
          else
            write_tmr TmrHead (tmr_next t) ;;
            upd_tmr tp (set_tmr_func None) ;;
            match tmr_func t with
            | None => halt BadAccess
            | Some f => call f (tmr_arg t) ;; exp_loop fuel' call now
            end
      end
  end.

Definition tmrs_exptimers (fuel : nat) (call : Z -> Z -> M S unit) (now : Z) : M S (option Z) :=
  exp_loop fuel call now ;; head_time.
End Library.
