(* ===== verification/TimerProps.v ===== *)
(** * Properties of the timer library

    A queue of timers is well formed with respect to a time [b] when it is a
    chain without cycles that holds exactly the timers in use, in the order in
    which they are due, all of them due at most [TMRDIFF_MAX] ticks after [b].
    Setting, clearing and expiring timers keep that, whatever the wrap-around
    of the clock; and expiry runs exactly the timers that are due, in order. *)

From Stdlib Require Import Sorting.Sorted.
From S2P Require Import Prelude Monad Chain Timers.

(** The ticks from [b] to the time [x]. *)
Definition ticks_to (b x : Z) : Z := u32 (x - b).

(** Within half the range of the clock, [tmr_is_first] is the order of the
    distances. *)
Lemma tmr_is_first_spec b x y :
  ticks_to b x <= TMRDIFF_MAX -> ticks_to b y <= TMRDIFF_MAX ->
  tmr_is_first x y = (ticks_to b x <=? ticks_to b y).
Proof.
  unfold tmr_is_first, ticks_to, TMRDIFF_MAX, INT_MAX, u32. intros Hx Hy.
  pose proof (Z.mod_pos_bound (x - b) (2 ^ 32)) as Bx.
  pose proof (Z.mod_pos_bound (y - b) (2 ^ 32)) as By.
  set (dx := (x - b) mod 2 ^ 32) in *. set (dy := (y - b) mod 2 ^ 32) in *.
  assert ((y - x) mod 2 ^ 32 = (dy - dx) mod 2 ^ 32) as ->.
  { unfold dx, dy. rewrite <- Zminus_mod. f_equal. lia. }
  destruct (Z.leb_spec dx dy).
  - rewrite Z.mod_small by lia. apply Z.leb_le. lia.
  - rewrite <- (Z.mod_unique (dy - dx) (2 ^ 32) (-1) (dy - dx + 2 ^ 32)) by lia.
    apply Z.leb_gt. lia.
Qed.

(** ** Well-formed queues *)
Definition tnext (q : tqueue) (x : Z) : option Z := t_tab q !! x ≫= tmr_next.
Definition due (b : Z) (q : tqueue) (x : Z) : Z :=
  match t_tab q !! x with Some t => ticks_to b (tmr_exp_time t) | None => 0 end.

Record tq_ok (b : Z) (q : tqueue) (l : list Z) : Prop := {
  tq_chain : chain (tnext q) (t_head q) l;
  tq_used : forall x t, t_tab q !! x = Some t -> x ∈ l <-> is_Some (tmr_func t);
  tq_tab : forall x, x ∈ l -> is_Some (t_tab q !! x) /\ due b q x <= TMRDIFF_MAX;
  tq_sorted : StronglySorted (fun x y => due b q x <= due b q y) l
}.

(** What the timers stand for, apart from their links. *)
Definition unlinked (t : minix_timer) : minix_timer := set_tmr_next None t.
Definition data (q : tqueue) : gmap Z minix_timer := unlinked <$> t_tab q.

Lemma data_lookup q q' x t :
  data q' = data q -> t_tab q !! x = Some t ->
  exists t', t_tab q' !! x = Some t' /\ unlinked t' = unlinked t.
Proof.
  intros H Hx. apply (f_equal (lookup x)) in H. unfold data in H.
  rewrite !lookup_fmap, Hx in H. cbn in H. apply fmap_Some in H as (t' & ? & ?). eauto.
Qed.

Lemma due_data b q q' x : data q' !! x = data q !! x -> due b q' x = due b q x.
Proof.
  unfold data, due. rewrite !lookup_fmap. intros H.
  destruct (t_tab q' !! x) as [t'|], (t_tab q !! x) as [t|]; try done.
  cbn in H. injection H as E _ _. by rewrite E.
Qed.

(** ** Pointers into the queue *)
Definition tloc (pre : list Z) : tmr_loc :=
  match last pre with None => TmrHead | Some y => TmrNext y end.
Definition put_link (q : tqueue) (pre : list Z) (v : option Z) : tqueue :=
  match last pre with
  | None => mkTq (t_tab q) v
  | Some y => mkTq (alter (set_tmr_next v) y (t_tab q)) (t_head q)
  end.
Definition in_tab (q : tqueue) (l : list Z) : Prop := forall x, x ∈ l -> is_Some (t_tab q !! x).

Lemma put_link_next q pre v x :
  in_tab q pre -> tnext (put_link q pre v) x = relink (tnext q) pre v x.
Proof.
  intros Hin. unfold put_link, relink. destruct (last pre) as [y|] eqn:Hl; [|done].
  destruct (Hin y) as [t Ht]; [apply last_Some in Hl as (? & ->); set_solver|].
  unfold tnext, upd. cbn. destruct (Z.eqb_spec x y) as [->|].
  - by rewrite lookup_alter_eq, Ht.
  - by rewrite lookup_alter_ne.
Qed.

Lemma put_link_head q pre v : t_head (put_link q pre v) = rehead (t_head q) pre v.
Proof. unfold put_link, rehead. by destruct (last pre). Qed.

Lemma put_link_data q pre v : data (put_link q pre v) = data q.
Proof.
  unfold put_link, data. destruct (last pre) as [y|]; [|done]. cbn. apply map_eq. intros x.
  rewrite !lookup_fmap. destruct (decide (x = y)) as [->|].
  - rewrite lookup_alter_eq. by destruct (t_tab q !! y).
  - by rewrite lookup_alter_ne.
Qed.

Lemma put_link_chain q pre suf suf' v :
  chain (tnext q) (t_head q) (pre ++ suf) -> in_tab q pre -> chain (tnext q) v suf' ->
  (forall x, x ∈ pre -> x ∉ suf') ->
  chain (tnext (put_link q pre v)) (t_head (put_link q pre v)) (pre ++ suf').
Proof.
  intros Hc Hin Hv Hd. rewrite put_link_head.
  eapply chain_ext; [intros; by apply put_link_next|]. by eapply chain_relink.
Qed.

(** The expiration time at the head of a queue. *)
Definition first_due (q : tqueue) (l : list Z) : option Z :=
  head l ≫= (fun x => tmr_exp_time <$> t_tab q !! x).

Lemma first_due_some q l : in_tab q l ->
  match first_due q l with Some _ => true | None => false end = bool_decide (l <> []).
Proof.
  intros Hin. unfold first_due. destruct l as [|x l]; [done|].
  destruct (Hin x) as [t Ht]; [set_solver|]. cbn. by rewrite Ht.
Qed.

Section Run.
Context {S : Type} `{!TimerStore S}.
Implicit Types (s : S).

Lemma read_tmr_at s pre suf :
  chain (tnext (ts_get s)) (t_head (ts_get s)) (pre ++ suf) -> in_tab (ts_get s) pre ->
  read_tmr (tloc pre) s = Done (head suf) s.
Proof.
  intros Hc%chain_peek Hin. unfold tloc, peek in *. destruct (last pre) as [y|] eqn:Hl.
  - destruct (Hin y) as [t Ht]; [apply last_Some in Hl as (? & ->); set_solver|].
    cbn. unfold bind, get_tmr. rewrite Ht. unfold tnext in Hc. rewrite Ht in Hc. cbn in Hc. by rewrite Hc.
  - cbn. unfold gets. by rewrite Hc.
Qed.

Lemma write_tmr_at s pre v :
  in_tab (ts_get s) pre -> write_tmr (tloc pre) v s = Done tt (ts_put (put_link (ts_get s) pre v) s).
Proof.
  intros Hin. unfold tloc, put_link. destruct (last pre) as [y|] eqn:Hl; [|done].
  destruct (Hin y) as [t Ht]; [apply last_Some in Hl as (? & ->); set_solver|].
  cbn. unfold upd_tmr. rewrite Ht. do 3 f_equal. apply map_eq. intros x.
  destruct (decide (x = y)) as [->|]; [by rewrite lookup_insert_eq, lookup_alter_eq, Ht|].
  by rewrite lookup_insert_ne, lookup_alter_ne.
Qed.

Lemma get_tmr_run s x t : t_tab (ts_get s) !! x = Some t -> get_tmr x s = Done t s.
Proof. unfold get_tmr. by intros ->. Qed.

Lemma upd_tmr_run s x t f :
  t_tab (ts_get s) !! x = Some t ->
  upd_tmr x f s = Done tt (ts_put (mkTq (<[x := f t]> (t_tab (ts_get s))) (t_head (ts_get s))) s).
Proof. unfold upd_tmr. by intros ->. Qed.

Lemma head_time_run s l :
  chain (tnext (ts_get s)) (t_head (ts_get s)) l -> in_tab (ts_get s) l ->
  head_time s = Done (first_due (ts_get s) l) s.
Proof.
  intros Hc Hin. unfold head_time. rewrite (bind_done _ _ _ _ _ (read_tmr_at s [] l Hc ltac:(easy))).
  destruct l as [|x l]; [done|]. cbn. destruct (Hin x) as [t Ht]; [set_solver|].
  rewrite (bind_done _ _ _ _ _ (get_tmr_run _ _ _ Ht)). unfold first_due. cbn. by rewrite Ht.
Qed.

(** The loop unlinks the timer if it is in the rest of the queue. *)
Lemma clr_loop_run s tp fuel pre suf :
  chain (tnext (ts_get s)) (t_head (ts_get s)) (pre ++ suf) -> in_tab (ts_get s) (pre ++ suf) ->
  tp ∉ pre -> (length suf < fuel)%nat ->
  exists q, clr_loop fuel tp (tloc pre) s = Done tt (ts_put q s) /\ data q = data (ts_get s)
    /\ chain (tnext q) (t_head q) (remove1 tp (pre ++ suf)).
Proof.
  revert pre suf. induction fuel as [|fuel IH]; intros pre suf Hc Hin Hp Hlen; [lia|].
  assert (in_tab (ts_get s) pre) as Hpre by (intros x ?; apply Hin; set_solver).
  cbn. rewrite (bind_done _ _ _ _ _ (read_tmr_at s pre suf Hc Hpre)). destruct suf as [|y suf]; cbn.
  - exists (ts_get s). rewrite ts_put_get, app_nil_r, remove1_notin by done.
    by rewrite app_nil_r in Hc.
  - destruct (Z.eqb_spec y tp) as [->|Hne].
    + destruct (Hin tp) as [t Ht]; [set_solver|]. rewrite (bind_done _ _ _ _ _ (get_tmr_run _ _ _ Ht)).
      rewrite write_tmr_at by done. eexists. split; [done|]. split; [apply put_link_data|].
      pose proof (chain_NoDup _ _ _ Hc) as (_ & Hd & [Hns _]%NoDup_cons)%NoDup_app.
      rewrite remove1_split by done. eapply put_link_chain; [done|done| |set_solver].
      apply chain_app in Hc as (m & _ & [_ Hc]). unfold tnext in Hc at 2. by rewrite Ht in Hc.
    + specialize (IH (pre ++ [y]) suf). unfold tloc in IH at 1. rewrite last_snoc, <- app_assoc in IH.
      apply IH; [done|done|set_solver|cbn in Hlen; lia].
Qed.

Lemma fuel_enough (q : tqueue) l : NoDup l -> in_tab q l -> (length l < Datatypes.S (size (t_tab q)))%nat.
Proof.
  intros Hnd Hin. pose proof (NoDup_length_le l (dom (t_tab q)) Hnd) as H. rewrite size_dom in H.
  enough (length l <= size (t_tab q))%nat by lia. apply H. intros x Hx. apply elem_of_dom. auto.
Qed.

Lemma tq_in_tab b q l : tq_ok b q l -> in_tab q l.
Proof. intros H x Hx. apply (tq_tab _ _ _ H), Hx. Qed.

(** Changing a timer that is not queued, or only its function. *)
Lemma set_data q x t h : data (mkTq (<[x := t]> (t_tab q)) h) = <[x := unlinked t]> (data q).
Proof. unfold data. cbn. by rewrite fmap_insert. Qed.

Lemma sorted_remove b q l x :
  StronglySorted (fun x y => due b q x <= due b q y) l ->
  StronglySorted (fun x y => due b q x <= due b q y) (remove1 x l).
Proof.
  induction 1 as [|y l _ IH Hall]; [constructor|]. unfold remove1. rewrite filter_cons.
  case_decide; [|done]. constructor; [done|]. rewrite Forall_forall in *.
  intros z Hz. apply Hall. by apply (elem_of_remove1 x z l) in Hz as [_ ?].
Qed.

Lemma sorted_ext b q q' l :
  (forall x, x ∈ l -> due b q' x = due b q x) ->
  StronglySorted (fun x y => due b q x <= due b q y) l ->
  StronglySorted (fun x y => due b q' x <= due b q' y) l.
Proof.
  intros He. induction 1 as [|y l _ IH Hall]; [constructor|].
  constructor; [apply IH; set_solver|]. rewrite Forall_forall in *. intros z Hz.
  rewrite (He y), (He z) by set_solver. auto.
Qed.

(** A queue whose timers are as in [q] but for [tp], which is stopped. *)
Lemma cleared_ok b q q' l tp t :
  tq_ok b q l -> t_tab q !! tp = Some t ->
  data q' = <[tp := unlinked (set_tmr_func None t)]> (data q) ->
  chain (tnext q') (t_head q') (remove1 tp l) -> tq_ok b q' (remove1 tp l).
Proof.
  intros Hok Ht Hd Hc.
  assert (forall x, x <> tp -> data q' !! x = data q !! x) as Hx
    by (intros x Hne; by rewrite Hd, lookup_insert_ne).
  assert (forall x, x ∈ remove1 tp l -> due b q' x = due b q x) as He
    by (intros x [Hne _]%elem_of_remove1; by apply due_data, Hx).
  split; [done| | |].
  - intros x t' Hx'. assert (data q' !! x = Some (unlinked t')) as E by (unfold data; by rewrite lookup_fmap, Hx').
    rewrite elem_of_remove1. destruct (decide (x = tp)) as [->|Hne].
    + rewrite Hd, lookup_insert_eq in E. apply (inj Some) in E. injection E as _ Hf _. rewrite <- Hf.
      split; [naive_solver|by intros []].
    + rewrite Hx in E by done. unfold data in E. rewrite lookup_fmap in E.
      apply fmap_Some in E as (t0 & Ht0 & E). injection E as _ Hf _. rewrite Hf.
      rewrite <- (tq_used _ _ _ Hok x t0 Ht0). naive_solver.
  - intros x Hm. rewrite (He x Hm). apply elem_of_remove1 in Hm as [Hne Hm].
    destruct (tq_tab _ _ _ Hok x Hm) as [[t0 Ht0] Hdue]. split; [|done].
    specialize (Hx x Hne). unfold data in Hx. rewrite !lookup_fmap, Ht0 in Hx.
    apply fmap_Some in Hx as (? & ? & _). eauto.
  - eapply sorted_ext; [exact He|]. apply sorted_remove, Hok.
Qed.

(** Clearing a timer takes it out of the queue and changes nothing else; the
    answer reports the head before and after. *)
Lemma tmrs_clrtimer_run s b l tp t :
  tq_ok b (ts_get s) l -> t_tab (ts_get s) !! tp = Some t ->
  exists q, tmrs_clrtimer tp s =
      Done (bool_decide (l <> []), first_due (ts_get s) l, default 0 (first_due q (remove1 tp l))) (ts_put q s)
    /\ tq_ok b q (remove1 tp l)
    /\ data q = <[tp := unlinked (set_tmr_func None t)]> (data (ts_get s)).
Proof.
  intros Hok Ht. unfold tmrs_clrtimer.
  pose proof (tq_chain _ _ _ Hok) as Hc. pose proof (tq_in_tab _ _ _ Hok) as Hin.
  rewrite (bind_done _ _ _ _ _ (head_time_run s l Hc Hin)).
  rewrite (bind_done _ _ _ _ _ (upd_tmr_run s tp t _ Ht)).
  set (q1 := mkTq _ _). unfold tmr_fuel, gets. rewrite bind_done with (a := Datatypes.S (size (t_tab (ts_get (ts_put q1 s)))))
    (s' := ts_put q1 s) by done.
  assert (forall x, tnext q1 x = tnext (ts_get s) x) as Hn.
  { intros x. unfold tnext, q1. cbn. destruct (decide (x = tp)) as [->|]; [|by rewrite lookup_insert_ne].
    by rewrite lookup_insert_eq, Ht. }
  assert (chain (tnext q1) (t_head q1) l) as Hc1 by (eapply chain_ext; [intros; apply Hn|exact Hc]).
  assert (in_tab q1 l) as Hin1.
  { intros x Hx. unfold q1. cbn. destruct (decide (x = tp)) as [->|]; [by rewrite lookup_insert_eq|].
    rewrite lookup_insert_ne by done. auto. }
  rewrite ts_get_put.
  destruct (clr_loop_run (ts_put q1 s) tp (Datatypes.S (size (t_tab q1))) [] l) as (q & Hr & Hd & Hcl);
    rewrite ?ts_get_put in *; [done|done|set_solver|by apply fuel_enough; [eapply chain_NoDup|]|].
  rewrite (bind_done _ _ _ _ _ Hr), ts_put_put.
  assert (data q = <[tp := unlinked (set_tmr_func None t)]> (data (ts_get s))) as Hdq
    by (rewrite Hd; apply set_data).
  pose proof (cleared_ok _ _ _ _ _ _ Hok Ht Hdq Hcl) as Hok'.
  rewrite (bind_done _ _ _ _ _ (head_time_run (ts_put q s) (remove1 tp l)
    ltac:(by rewrite ts_get_put) ltac:(rewrite ts_get_put; by eapply tq_in_tab))).
  exists q. split; [|done]. rewrite ts_get_put. unfold ret. do 3 f_equal. by apply first_due_some.
Qed.

(** The loop stops before the first timer that is not due before [e]. *)
Lemma set_loop_run s e fuel pre suf :
  chain (tnext (ts_get s)) (t_head (ts_get s)) (pre ++ suf) -> in_tab (ts_get s) (pre ++ suf) ->
  (length suf < fuel)%nat ->
  exists mid suf', suf = mid ++ suf' /\ set_loop fuel e (tloc pre) s = Done (tloc (pre ++ mid)) s
    /\ (forall x t, x ∈ mid -> t_tab (ts_get s) !! x = Some t -> tmr_is_first e (tmr_exp_time t) = false)
    /\ (forall x t, head suf' = Some x -> t_tab (ts_get s) !! x = Some t ->
         tmr_is_first e (tmr_exp_time t) = true).
Proof.
  revert pre suf. induction fuel as [|fuel IH]; intros pre suf Hc Hin Hlen; [lia|].
  assert (in_tab (ts_get s) pre) as Hpre by (intros x ?; apply Hin; set_solver).
  cbn. rewrite (bind_done _ _ _ _ _ (read_tmr_at s pre suf Hc Hpre)). destruct suf as [|y suf]; cbn.
  - exists [], []. rewrite (app_nil_r pre). split; [done|]. split; [done|]. split; [set_solver|done].
  - destruct (Hin y) as [t Ht]; [set_solver|]. rewrite (bind_done _ _ _ _ _ (get_tmr_run _ _ _ Ht)).
    destruct (tmr_is_first e (tmr_exp_time t)) eqn:E.
    + exists [], (y :: suf). rewrite (app_nil_r pre). split; [done|]. split; [done|]. split; [set_solver|].
      cbn. intros x t' [= <-] Ht'. rewrite Ht in Ht'. by injection Ht' as <-.
    + destruct (IH (pre ++ [y]) suf) as (mid & suf' & -> & Hr & H1 & H2);
        [by rewrite <- app_assoc..|cbn in Hlen; lia|].
      exists (y :: mid), suf'. unfold tloc in Hr at 1. rewrite last_snoc, <- app_assoc in Hr.
      split; [done|]. split; [exact Hr|]. split; [|exact H2].
      intros x t' [->|Hx]%elem_of_cons Ht'; [|by eapply H1].
      rewrite Ht in Ht'. by injection Ht' as <-.
Qed.

(** The queue [q] with the timer [tp], which is not in it, set to [t]. *)
Lemma sorted_insert b q l1 l2 x :
  StronglySorted (fun x y => due b q x <= due b q y) (l1 ++ l2) ->
  (forall y, y ∈ l1 -> due b q y <= due b q x) -> (forall y, y ∈ l2 -> due b q x <= due b q y) ->
  StronglySorted (fun x y => due b q x <= due b q y) (l1 ++ x :: l2).
Proof.
  induction l1 as [|z l1 IH]; cbn; intros Hs H1 H2.
  - constructor; [done|]. rewrite Forall_forall. auto.
  - inversion Hs as [|? ? Hs' Hall]; subst. constructor; [apply IH; set_solver|].
    rewrite Forall_forall in *. intros y. rewrite elem_of_app, elem_of_cons.
    intros [?|[->|?]]; [apply Hall; set_solver|apply H1; set_solver|apply Hall; set_solver].
Qed.

Lemma inserted_ok b q q' l1 l2 tp t :
  tq_ok b q (l1 ++ l2) -> t_tab q !! tp = Some t -> tmr_func t = None ->
  forall e f a, ticks_to b e <= TMRDIFF_MAX ->
  data q' = <[tp := mkTmr None e (Some f) a]> (data q) ->
  chain (tnext q') (t_head q') (l1 ++ tp :: l2) ->
  (forall x, x ∈ l1 -> due b q x < ticks_to b e) -> (forall x, x ∈ l2 -> ticks_to b e <= due b q x) ->
  tq_ok b q' (l1 ++ tp :: l2).
Proof.
  intros Hok Ht Hf e f a Hw Hd Hc H1 H2.
  assert (tp ∉ l1 ++ l2) as Hni by (rewrite (tq_used _ _ _ Hok tp t Ht), Hf; by intros []).
  assert (forall x, x <> tp -> data q' !! x = data q !! x) as Hx
    by (intros x Hne; by rewrite Hd, lookup_insert_ne).
  assert (exists t', t_tab q' !! tp = Some t' /\ unlinked t' = mkTmr None e (Some f) a) as (t' & Ht' & Eu).
  { apply (f_equal (lookup tp)) in Hd. rewrite lookup_insert_eq in Hd. unfold data in Hd.
    rewrite lookup_fmap in Hd. apply fmap_Some in Hd as (? & ? & ?). eauto. }
  assert (due b q' tp = ticks_to b e) as Etp.
  { unfold due. rewrite Ht'. injection Eu as -> _ _. done. }
  assert (forall x, x ∈ l1 ++ l2 -> due b q' x = due b q x) as He
    by (intros x Hm; apply due_data, Hx; by intros ->).
  split; [done| | |].
  - intros x u Hu. destruct (decide (x = tp)) as [->|Hne].
    + rewrite Ht' in Hu. injection Hu as <-. injection Eu as _ -> _. split; [done|set_solver].
    + specialize (Hx x Hne). unfold data in Hx. rewrite !lookup_fmap, Hu in Hx. cbn in Hx.
      symmetry in Hx. apply fmap_Some in Hx as (u0 & Hu0 & E). injection E as _ -> _.
      rewrite <- (tq_used _ _ _ Hok x u0 Hu0). set_solver.
  - intros x Hm. destruct (decide (x = tp)) as [->|Hne]; [rewrite Ht', Etp; eauto|].
    assert (x ∈ l1 ++ l2) as Hm' by set_solver. rewrite (He x Hm').
    destruct (tq_tab _ _ _ Hok x Hm') as [[u Hu] ?]. split; [|done].
    specialize (Hx x Hne). unfold data in Hx. rewrite !lookup_fmap, Hu in Hx.
    apply fmap_Some in Hx as (? & ? & _). eauto.
  - apply sorted_insert.
    + eapply sorted_ext; [exact He|apply Hok].
    + intros y Hy. rewrite Etp, He by set_solver. specialize (H1 y Hy). lia.
    + intros y Hy. rewrite Etp, He by set_solver. auto.
Qed.

(** A timer in use is stopped first. *)
Lemma settimer_stop s b l tp t :
  tq_ok b (ts_get s) l -> t_tab (ts_get s) !! tp = Some t ->
  exists q t', (if tmr_is_set t then tmrs_clrtimer tp ;; ret tt else ret tt) s = Done tt (ts_put q s)
    /\ tq_ok b q (remove1 tp l) /\ t_tab q !! tp = Some t' /\ tmr_func t' = None
    /\ data q = <[tp := unlinked (set_tmr_func None t)]> (data (ts_get s)).
Proof.
  intros Hok Ht. unfold tmr_is_set. destruct (tmr_func t) as [f|] eqn:Hf.
  - destruct (tmrs_clrtimer_run s b l tp t Hok Ht) as (q & Hr & Hok' & Hd).
    assert (exists t', t_tab q !! tp = Some t' /\ tmr_func t' = None) as (t' & Ht' & Hf').
    { apply (f_equal (lookup tp)) in Hd. rewrite lookup_insert_eq in Hd. unfold data in Hd.
      rewrite lookup_fmap in Hd. apply fmap_Some in Hd as (t' & ? & E). exists t'. split; [done|].
      by injection E as _ <- _. }
    exists q, t'. unfold bind. rewrite Hr. done.
  - exists (ts_get s), t. rewrite ts_put_get. split_and!; [done| |done|done|].
    + rewrite remove1_notin; [done|]. rewrite (tq_used _ _ _ Hok tp t Ht), Hf. by intros [].
    + symmetry. apply insert_id. unfold data. rewrite lookup_fmap, Ht. cbn. f_equal.
      unfold unlinked, set_tmr_func, set_tmr_next. cbn. by rewrite Hf.
Qed.

(** Where the loop stops splits the queue by the time [e]. *)
Lemma place_order b q l1 l2 e :
  tq_ok b q (l1 ++ l2) -> ticks_to b e <= TMRDIFF_MAX ->
  (forall x t, x ∈ l1 -> t_tab q !! x = Some t -> tmr_is_first e (tmr_exp_time t) = false) ->
  (forall x t, head l2 = Some x -> t_tab q !! x = Some t -> tmr_is_first e (tmr_exp_time t) = true) ->
  (forall x, x ∈ l1 -> due b q x < ticks_to b e) /\ (forall x, x ∈ l2 -> ticks_to b e <= due b q x).
Proof.
  intros Hok Hw H1 H2.
  assert (forall x, x ∈ l1 ++ l2 -> exists t, t_tab q !! x = Some t /\ due b q x = ticks_to b (tmr_exp_time t)
    /\ tmr_is_first e (tmr_exp_time t) = (ticks_to b e <=? due b q x)) as Hx.
  { intros x Hx. destruct (tq_tab _ _ _ Hok x Hx) as [[t Ht] Hd]. exists t.
    unfold due in *. rewrite Ht in *. split_and!; [done..|]. by apply tmr_is_first_spec. }
  split.
  - intros x Hm. destruct (Hx x) as (t & Ht & Hd & E); [set_solver|]. rewrite (H1 x t Hm Ht) in E.
    by apply Z.leb_gt.
  - destruct l2 as [|y l2]; [set_solver|]. destruct (Hx y) as (t & Ht & Hd & E); [set_solver|].
    rewrite (H2 y t eq_refl Ht) in E. symmetry in E. apply Z.leb_le in E.
    intros x [->|Hm]%elem_of_cons; [done|]. etrans; [exact E|].
    pose proof (tq_sorted _ _ _ Hok) as Hs. clear -Hs Hm. induction l1 as [|z l1 IH]; cbn in Hs.
    + inversion Hs as [|? ? _ Hall]; subst. rewrite Forall_forall in Hall. by apply Hall.
    + inversion Hs; subst. auto.
Qed.

(** The timer [tp], linked to the rest of the queue, is put behind [l1]. *)
Lemma link_chain q l1 l2 tp t :
  chain (tnext q) (t_head q) (l1 ++ l2) -> in_tab q (l1 ++ l2) -> tp ∉ l1 ++ l2 ->
  t_tab q !! tp = Some t ->
  let q' := put_link (mkTq (<[tp := set_tmr_next (head l2) t]> (t_tab q)) (t_head q)) l1 (Some tp) in
  chain (tnext q') (t_head q') (l1 ++ tp :: l2).
Proof.
  intros Hc Hin Hni Ht. set (q2 := mkTq _ _). cbn zeta.
  assert (forall x, x <> tp -> t_tab q2 !! x = t_tab q !! x) as Hx2
    by (intros x Hne; unfold q2; cbn; by rewrite lookup_insert_ne).
  assert (chain (tnext q2) (t_head q2) (l1 ++ l2)) as Hc2.
  { eapply chain_ext; [|exact Hc]. intros x Hx. unfold tnext. rewrite Hx2; [done|]. by intros ->. }
  apply put_link_chain with l2; [done| | |].
  - intros x Hx. rewrite Hx2; [apply Hin; set_solver|]. intros ->. apply Hni. set_solver.
  - cbn. split; [done|]. assert (tnext q2 tp = head l2) as ->
      by (unfold tnext, q2; cbn; by rewrite lookup_insert_eq).
    apply chain_app in Hc2 as (m & _ & Hm). by destruct l2 as [|y l2]; [|destruct Hm as [-> Hm]].
  - intros x Hx1 [->|Hx3]%elem_of_cons; [set_solver|].
    pose proof (chain_NoDup _ _ _ Hc) as (_ & Hd & _)%NoDup_app. by apply (Hd x).
Qed.

(** Filling in and linking a stopped timer. *)
Lemma settimer_place s b l tp t e f a :
  tq_ok b (ts_get s) l -> t_tab (ts_get s) !! tp = Some t -> tmr_func t = None ->
  ticks_to b e <= TMRDIFF_MAX ->
  exists q l1 l2, l = l1 ++ l2
    /\ (forall B (k : M S B),
        (upd_tmr tp (fun t => set_tmr_arg a (set_tmr_func (Some f) (set_tmr_exp_time e t))) ;;
         fuel <- tmr_fuel ;; atp <- set_loop fuel e TmrHead ;; next <- read_tmr atp ;;
         upd_tmr tp (set_tmr_next next) ;; write_tmr atp (Some tp) ;; k) s = k (ts_put q s))
    /\ tq_ok b q (l1 ++ tp :: l2) /\ data q = <[tp := mkTmr None e (Some f) a]> (data (ts_get s))
    /\ (forall x, x ∈ l1 -> due b (ts_get s) x < ticks_to b e)
    /\ (forall x, x ∈ l2 -> ticks_to b e <= due b (ts_get s) x).
Proof.
  intros Hok Ht Hf Hw.
  assert (tp ∉ l) as Hni by (rewrite (tq_used _ _ _ Hok tp t Ht), Hf; by intros []).
  pose proof (upd_tmr_run s tp t (fun t => set_tmr_arg a (set_tmr_func (Some f) (set_tmr_exp_time e t))) Ht) as R1.
  cbn beta in R1. set (t1 := set_tmr_arg _ _) in R1. set (q1 := mkTq _ _) in R1.
  assert (forall x, x <> tp -> t_tab q1 !! x = t_tab (ts_get s) !! x) as Hx1
    by (intros x Hne; unfold q1; cbn; by rewrite lookup_insert_ne).
  assert (chain (tnext q1) (t_head q1) l) as Hc1.
  { eapply chain_ext; [|apply Hok]. intros x Hx. unfold tnext. rewrite Hx1; [done|]. by intros ->. }
  assert (in_tab q1 l) as Hin1.
  { intros x Hx. rewrite Hx1 by (by intros ->). by apply (tq_tab _ _ _ Hok). }
  destruct (set_loop_run (ts_put q1 s) e (Datatypes.S (size (t_tab q1))) [] l)
    as (l1 & l2 & -> & Hr & H1 & H2); rewrite ?ts_get_put in *; [done..| |].
  { apply fuel_enough; [by eapply chain_NoDup|done]. }
  assert (t_tab q1 !! tp = Some t1) as Ht1 by apply lookup_insert_eq.
  destruct (place_order b (ts_get s) l1 l2 e Hok Hw) as [Ho1 Ho2].
  { intros x t' Hx Ht'. apply (H1 x); [done|]. rewrite Hx1; [done|]. set_solver. }
  { intros x t' Hx Ht'. apply (H2 x); [done|]. rewrite Hx1; [done|]. destruct l2; [done|]. set_solver. }
  set (q2 := mkTq (<[tp := set_tmr_next (head l2) t1]> (t_tab q1)) (t_head q1)).
  assert (data (put_link q2 l1 (Some tp)) = <[tp := mkTmr None e (Some f) a]> (data (ts_get s))) as Hd.
  { rewrite put_link_data. unfold q2. rewrite set_data. unfold q1. by rewrite set_data, insert_insert_eq. }
  exists (put_link q2 l1 (Some tp)), l1, l2. split; [done|]. split.
  - intros B k. rewrite (bind_done _ _ _ _ _ R1). unfold tmr_fuel, gets.
    rewrite bind_done with (a := Datatypes.S (size (t_tab q1))) (s' := ts_put q1 s) by (by rewrite ts_get_put).
    rewrite (bind_done _ _ _ _ _ Hr). cbn [app].
    rewrite (bind_done _ _ _ _ _ (read_tmr_at (ts_put q1 s) l1 l2 ltac:(by rewrite ts_get_put)
      ltac:(rewrite ts_get_put; intros x Hx; apply Hin1; set_solver))).
    rewrite (bind_done _ _ _ _ _ (upd_tmr_run (ts_put q1 s) tp t1 _ ltac:(by rewrite ts_get_put))).
    rewrite !ts_get_put, ts_put_put. erewrite bind_done.
    2: { apply write_tmr_at. rewrite ts_get_put. intros x Hx. cbn.
         rewrite lookup_insert_ne by set_solver. apply Hin1. set_solver. }
    by rewrite ts_get_put, ts_put_put.
  - split; [|done]. eapply inserted_ok; [exact Hok|done..|exact Hd| |done|done]. by apply link_chain.
Qed.

Lemma tmrs_settimer_run s b l tp t e f a :
  tq_ok b (ts_get s) l -> t_tab (ts_get s) !! tp = Some t -> ticks_to b e <= TMRDIFF_MAX ->
  exists q l1 l2,
    tmrs_settimer tp e f a s =
      Done (bool_decide (l <> []), first_due (ts_get s) l, first_due q (l1 ++ tp :: l2)) (ts_put q s)
    /\ remove1 tp l = l1 ++ l2 /\ tq_ok b q (l1 ++ tp :: l2)
    /\ data q = <[tp := mkTmr None e (Some f) a]> (data (ts_get s))
    /\ (forall x, x ∈ l1 -> due b (ts_get s) x < ticks_to b e)
    /\ (forall x, x ∈ l2 -> ticks_to b e <= due b (ts_get s) x).
Proof.
  intros Hok Ht Hw. unfold tmrs_settimer.
  rewrite (bind_done _ _ _ _ _ (head_time_run s l (tq_chain _ _ _ Hok) (tq_in_tab _ _ _ Hok))).
  rewrite (bind_done _ _ _ _ _ (get_tmr_run _ _ _ Ht)).
  destruct (settimer_stop s b l tp t Hok Ht) as (q1 & t1 & Hr1 & Hok1 & Ht1 & Hf1 & Hd1).
  rewrite (bind_done _ _ _ _ _ Hr1).
  destruct (settimer_place (ts_put q1 s) b (remove1 tp l) tp t1 e f a)
    as (q & l1 & l2 & Hl & Hr & Hok2 & Hd & H1 & H2); rewrite ?ts_get_put in *; [done..|].
  assert (forall x, x ∈ l1 ++ l2 -> due b q1 x = due b (ts_get s) x) as He.
  { intros x Hx. rewrite <- Hl in Hx. apply elem_of_remove1 in Hx as [Hne _]. apply due_data.
    by rewrite Hd1, lookup_insert_ne. }
  exists q, l1, l2. rewrite Hr, ts_put_put. split_and!; [|done|done| | |].
  - pose proof (head_time_run (ts_put q s) (l1 ++ tp :: l2)) as Hh. rewrite ts_get_put in Hh.
    rewrite (bind_done _ _ _ _ _ (Hh (tq_chain _ _ _ Hok2) (tq_in_tab _ _ _ Hok2))).
    unfold ret. do 3 f_equal. apply (first_due_some (ts_get s)). by eapply tq_in_tab.
  - by rewrite Hd, Hd1, insert_insert_eq.
  - intros x Hx. rewrite <- (He x) by set_solver. auto.
  - intros x Hx. rewrite <- (He x) by set_solver. auto.
Qed.

(** C24: setting a timer keeps the queue sorted.  Whatever the wrap-around of the
    clock, as long as all times are within half its range, [tmrs_settimer]
    finishes, moves the timer behind those that are due earlier and before
    those that are not, changes no other timer, and reports whether there was
    a timer before and the old and the new head times. *)
Theorem tmrs_settimer_correct s b l tp t e f a :
  tq_ok b (ts_get s) l -> t_tab (ts_get s) !! tp = Some t -> ticks_to b e <= TMRDIFF_MAX ->
  exists q l1 l2,
    tmrs_settimer tp e f a s =
      Done (bool_decide (l <> []), first_due (ts_get s) l, first_due q (l1 ++ tp :: l2)) (ts_put q s)
    /\ remove1 tp l = l1 ++ l2 /\ tq_ok b q (l1 ++ tp :: l2)
    /\ data q = <[tp := mkTmr None e (Some f) a]> (data (ts_get s))
    /\ (forall x, x ∈ l1 -> due b (ts_get s) x < ticks_to b e)
    /\ (forall x, x ∈ l2 -> ticks_to b e <= due b (ts_get s) x).
Proof. apply tmrs_settimer_run. Qed.

(** ** Expiry *)

(** The head timer taken off the queue and stopped. *)
Definition popped (q : tqueue) (x : Z) (t : minix_timer) : tqueue :=
  mkTq (<[x := set_tmr_func None t]> (t_tab q)) (tmr_next t).

(** The timers of a list fire one after the other: each is stopped and its
    watchdog function runs, on the state the ones before left. *)
Inductive fires (call : Z -> Z -> M S unit) : list Z -> S -> S -> Prop :=
| fires_nil s : fires call [] s s
| fires_cons x t f l s s' s'' :
    t_tab (ts_get s) !! x = Some t -> tmr_func t = Some f ->
    call f (tmr_arg t) (ts_put (popped (ts_get s) x t) s) = Done tt s' ->
    fires call l s' s'' -> fires call (x :: l) s s''.

Lemma popped_ok b q x t l : tq_ok b q (x :: l) -> t_tab q !! x = Some t -> tq_ok b (popped q x t) l.
Proof.
  intros Hok Ht. pose proof (tq_chain _ _ _ Hok) as Hc.
  pose proof (chain_NoDup _ _ _ Hc) as [Hx Hnd]%NoDup_cons.
  assert (remove1 x (x :: l) = l) as E by (apply (remove1_split x [] l); set_solver).
  rewrite <- E. eapply cleared_ok; [done|done|apply set_data|]. rewrite E.
  destruct Hc as [_ Hc]. unfold tnext in Hc at 2. rewrite Ht in Hc. cbn in Hc.
  eapply chain_ext; [|exact Hc]. intros y Hy. unfold tnext, popped. cbn.
  rewrite lookup_insert_ne; [done|]. by intros ->.
Qed.

(** Counting from a later time, a timer is due that much earlier. *)
Lemma due_shift b c q x :
  is_Some (t_tab q !! x) -> due b q x <= TMRDIFF_MAX -> ticks_to b c <= due b q x ->
  due c q x = due b q x - ticks_to b c.
Proof.
  intros [t Ht] Hd Hc. unfold due, ticks_to, u32, TMRDIFF_MAX, INT_MAX in *. rewrite Ht in *.
  pose proof (Z.mod_pos_bound (c - b) (2 ^ 32)) as Bc.
  replace (tmr_exp_time t - c) with ((tmr_exp_time t - b) - (c - b)) by lia.
  rewrite Zminus_mod. apply Z.mod_small. lia.
Qed.

(** From a later time on, the timers not due before it are as well formed. *)
Lemma tq_shift b c q l :
  tq_ok b q l -> (forall x, x ∈ l -> ticks_to b c <= due b q x) -> tq_ok c q l.
Proof.
  intros Hok Hc.
  assert (forall x, x ∈ l -> due c q x = due b q x - ticks_to b c) as He.
  { intros x Hx. destruct (tq_tab _ _ _ Hok x Hx) as [Ht Hd]. apply due_shift; auto. }
  split; [apply Hok..| |].
  - intros x Hx. destruct (tq_tab _ _ _ Hok x Hx) as [Ht Hd]. split; [done|]. rewrite He by done.
    pose proof (Z.mod_pos_bound (c - b) (2 ^ 32)) as Bc. unfold ticks_to, u32. lia.
  - pose proof (tq_sorted _ _ _ Hok) as Hs. clear -He Hs. induction Hs as [|y l Hs IH Hall]; [constructor|].
    constructor; [apply IH; set_solver|]. rewrite Forall_forall in *. intros z Hz.
    rewrite (He y), (He z) by set_solver. specialize (Hall z Hz). lia.
Qed.

Lemma sorted_head_due b q x l y :
  tq_ok b q (x :: l) -> y ∈ x :: l -> due b q x <= due b q y.
Proof.
  intros Hok [->|Hy]%elem_of_cons; [done|]. pose proof (tq_sorted _ _ _ Hok) as Hs.
  inversion Hs as [|? ? _ Hall]; subst. rewrite Forall_forall in Hall. auto.
Qed.

(** A watchdog function finishes, keeps the invariant [I] of the program and
    leaves the queue alone. *)
Context (call : Z -> Z -> M S unit) (I : S -> Prop).
Hypothesis call_ok : forall x t f s, I s -> t_tab (ts_get s) !! x = Some t -> tmr_func t = Some f ->
  exists s', call f (tmr_arg t) (ts_put (popped (ts_get s) x t) s) = Done tt s' /\ I s'
    /\ ts_get s' = popped (ts_get s) x t.

Lemma exp_loop_run fuel b now l s :
  I s -> tq_ok b (ts_get s) l -> ticks_to b now <= TMRDIFF_MAX -> (length l < fuel)%nat ->
  exists ex rest s', l = ex ++ rest /\ exp_loop fuel call now s = Done tt s' /\ I s'
    /\ fires call ex s s' /\ tq_ok b (ts_get s') rest
    /\ (forall x, x ∈ ex -> due b (ts_get s) x <= ticks_to b now)
    /\ (forall x, x ∈ rest -> ticks_to b now < due b (ts_get s') x)
    /\ (forall x, x ∉ ex -> t_tab (ts_get s') !! x = t_tab (ts_get s) !! x).
Proof.
  intros HI Hok Hw. revert s l HI Hok. induction fuel as [|fuel IH]; intros s l HI Hok Hlen; [lia|].
  cbn [exp_loop]. rewrite (bind_done _ _ _ _ _ (read_tmr_at s [] l (tq_chain _ _ _ Hok) ltac:(easy))).
  destruct l as [|x l]; cbn [head].
  { exists [], [], s. split_and!; try done; [constructor|set_solver|set_solver]. }
  destruct (tq_tab _ _ _ Hok x) as [[t Ht] Hd]; [set_solver|].
  rewrite (bind_done _ _ _ _ _ (get_tmr_run _ _ _ Ht)). unfold tmr_has_expired.
  assert (due b (ts_get s) x = ticks_to b (tmr_exp_time t)) as Ex by (unfold due; by rewrite Ht).
  rewrite (tmr_is_first_spec b) by (rewrite <- ?Ex; done). rewrite <- Ex.
  destruct (Z.leb_spec (due b (ts_get s) x) (ticks_to b now)) as [Hle|Hgt]; cbn [negb].
  - destruct (proj1 (tq_used _ _ _ Hok x t Ht)) as [f Hf]; [set_solver|]. rewrite Hf.
    change (write_tmr TmrHead) with (write_tmr (tloc [])).
    rewrite (bind_done _ _ _ _ _ (write_tmr_at s [] _ ltac:(easy))).
    erewrite (bind_done _ _ _ _ _ (upd_tmr_run _ x t _ _)). rewrite !ts_get_put, ts_put_put.
    change (mkTq _ _) with (popped (ts_get s) x t).
    destruct (call_ok x t f s HI Ht Hf) as (s1 & Hc & HI1 & E1). rewrite (bind_done _ _ _ _ _ Hc).
    destruct (IH s1 l HI1) as (ex & rest & s' & -> & Hr & HI' & Hf' & Hok' & H1 & H2 & H3);
      [rewrite E1; by apply popped_ok|cbn in Hlen; lia|].
    pose proof (chain_NoDup _ _ _ (tq_chain _ _ _ Hok)) as [Hx _]%NoDup_cons.
    exists (x :: ex), rest, s'. split_and!; try done; [by econstructor| |].
    + intros y [->|Hy]%elem_of_cons; [done|]. rewrite <- (due_data b (ts_get s) (ts_get s1)); [auto|].
      rewrite E1. unfold popped. rewrite set_data. apply lookup_insert_ne. set_solver.
    + intros y Hy. rewrite H3, E1 by set_solver. cbn. rewrite lookup_insert_ne by set_solver. done.
  - exists [], (x :: l), s. split_and!; try done; [constructor|set_solver|].
    intros y Hy. pose proof (sorted_head_due _ _ _ _ _ Hok Hy). lia.
  Unshelve. rewrite ts_get_put. exact Ht.
Qed.
End Run.

(** ** Deciding well-formedness of a concrete queue *)
Fixpoint sortedb (le : Z -> Z -> bool) (l : list Z) : bool :=
  match l with [] => true | x :: l' => forallb (le x) l' && sortedb le l' end.

Definition tq_okb (b : Z) (q : tqueue) (l : list Z) : bool :=
  chainb (tnext q) (t_head q) l
  && forallb (fun xt => eqb (bool_decide (fst xt ∈ l)) (tmr_is_set (snd xt))) (map_to_list (t_tab q))
  && forallb (fun x => bool_decide (is_Some (t_tab q !! x)) && (due b q x <=? TMRDIFF_MAX)) l
  && sortedb (fun x y => due b q x <=? due b q y) l.

Lemma tq_okb_sound b q l : tq_okb b q l = true -> tq_ok b q l.
Proof.
  unfold tq_okb. rewrite !andb_true_iff, !forallb_forall.
  intros (((H1 & H2) & H3) & H4). split; [by apply chainb_sound| | |].
  - intros x t Hx. specialize (H2 (x, t)). cbn in H2. rewrite eqb_true_iff in H2.
    assert (bool_decide (x ∈ l) = tmr_is_set t) as E by (apply H2, list_elem_of_In; by apply elem_of_map_to_list).
    rewrite <- (bool_decide_eq_true (x ∈ l)), E. unfold tmr_is_set. destruct (tmr_func t); [done|].
    split; [done|by intros []].
  - intros x Hx. specialize (H3 x ltac:(by apply list_elem_of_In)).
    rewrite andb_true_iff, bool_decide_eq_true, Z.leb_le in H3. done.
  - clear -H4. induction l as [|x l IH]; cbn in H4; constructor; apply andb_true_iff in H4 as [H5 H4]; [auto|].
    rewrite forallb_forall in H5. apply Forall_forall. intros y Hy. apply Z.leb_le, H5. by apply list_elem_of_In.
Qed.

(** A program whose whole state is a queue of timers. *)
#[export] Program Instance timers_only : TimerStore tqueue := { ts_get q := q; ts_put q _ := q }.
Next Obligation. done. Qed.
Next Obligation. done. Qed.
Next Obligation. done. Qed.

(** Two timers across the wrap-around of the clock, and an idle one. *)
Definition wrap_example : tqueue :=
  mkTq (<[1 := mkTmr (Some 2) 0xfffffff0 (Some 1) 10]>
       (<[2 := mkTmr None 5 (Some 1) 20]> (<[3 := mkTmr None 0 None 0]> ∅))) (Some 1).

Lemma tmrs_settimer_correct_witness :
  exists q l1 l2,
    tmrs_settimer 3 0xfffffffe 1 30 wrap_example =
      Done (bool_decide ([1; 2] <> []), first_due wrap_example [1; 2], first_due q (l1 ++ 3 :: l2)) q
    /\ remove1 3 [1; 2] = l1 ++ l2 /\ tq_ok 0xffffff00 q (l1 ++ 3 :: l2)
    /\ data q = <[3 := mkTmr None 0xfffffffe (Some 1) 30]> (data wrap_example)
    /\ (forall x, x ∈ l1 -> due 0xffffff00 wrap_example x < ticks_to 0xffffff00 0xfffffffe)
    /\ (forall x, x ∈ l2 -> ticks_to 0xffffff00 0xfffffffe <= due 0xffffff00 wrap_example x).
Proof.
  refine (tmrs_settimer_correct (S := tqueue) wrap_example 0xffffff00 [1; 2] 3 (mkTmr None 0 None 0) 0xfffffffe 1 30 _ _ _).
  - apply tq_okb_sound. vm_compute. reflexivity.
  - reflexivity.
  - vm_compute. discriminate.
Defined.
