(* ===== verification/Endpoint.v ===== *)
(** * Endpoints and system bit maps

    Models [include/minix/endpoint.h] (the split of an endpoint number into a
    process slot and a generation) and the bit maps of [include/minix/bitmap.h]
    and [kernel/const.h] over which pending notifications, pending asynchronous
    messages and allowed IPC targets are kept. *)

From S2P Require Import Prelude.

(** ** Endpoint numbers *)
Module Endpoint.

Definition MAX_NR_TASKS : Z := 1023.
Definition ENDPOINT_GENERATION_SHIFT : Z := 15.
Definition ENDPOINT_GENERATION_SIZE : Z := Z.shiftl 1 ENDPOINT_GENERATION_SHIFT.
Definition ENDPOINT_MAX_GENERATION : Z := INT_MAX / ENDPOINT_GENERATION_SIZE - 1.
Definition ENDPOINT_SLOT_TOP : Z := ENDPOINT_GENERATION_SIZE - MAX_NR_TASKS.

Definition ANY : Z := ENDPOINT_SLOT_TOP - 1.
Definition NONE : Z := ENDPOINT_SLOT_TOP - 2.
Definition SELF : Z := ENDPOINT_SLOT_TOP - 3.
Definition MAX_NR_PROCS : Z := ENDPOINT_SLOT_TOP - 3.

Definition ENDPOINT (g p : Z) : Z := Z.shiftl g ENDPOINT_GENERATION_SHIFT + p.
Definition ENDPOINT_G (e : Z) : Z := Z.shiftr (e + MAX_NR_TASKS) ENDPOINT_GENERATION_SHIFT.
Definition ENDPOINT_P (e : Z) : Z :=
  Z.land (e + MAX_NR_TASKS) (ENDPOINT_GENERATION_SIZE - 1) - MAX_NR_TASKS.

(** The special sources that IPC filters accept ([include/minix/ipc_filter.h]). *)
Definition ANY_USR : Z := ENDPOINT 1 (ENDPOINT_P ANY).
Definition ANY_SYS : Z := ENDPOINT 2 (ENDPOINT_P ANY).
Definition ANY_TSK : Z := ENDPOINT 3 (ENDPOINT_P ANY).

Lemma ENDPOINT_eq g p : ENDPOINT g p = g * 32768 + p.
Proof. unfold ENDPOINT. rewrite Z.shiftl_mul_pow2 by done. done. Qed.

Lemma ENDPOINT_G_eq e : ENDPOINT_G e = (e + 1023) / 32768.
Proof. unfold ENDPOINT_G. rewrite Z.shiftr_div_pow2 by done. done. Qed.

Lemma ENDPOINT_P_eq e : ENDPOINT_P e = (e + 1023) mod 32768 - 1023.
Proof.
  unfold ENDPOINT_P.
  change (ENDPOINT_GENERATION_SIZE - 1) with (Z.ones 15).
  by rewrite Z.land_ones by done.
Qed.

Lemma ENDPOINT_G_P e : ENDPOINT (ENDPOINT_G e) (ENDPOINT_P e) = e.
Proof.
  rewrite ENDPOINT_eq, ENDPOINT_G_eq, ENDPOINT_P_eq.
  pose proof (Z.div_mod (e + 1023) 32768). lia.
Qed.

Lemma ENDPOINT_P_ENDPOINT g p :
  - MAX_NR_TASKS <= p < ENDPOINT_SLOT_TOP -> ENDPOINT_P (ENDPOINT g p) = p.
Proof.
  intros Hp. change (-1023 <= p < 31745) in Hp. rewrite ENDPOINT_P_eq, ENDPOINT_eq.
  replace (g * 32768 + p + 1023) with (p + 1023 + g * 32768) by lia.
  rewrite Z.mod_add, Z.mod_small by lia. lia.
Qed.

Lemma ENDPOINT_G_ENDPOINT g p :
  - MAX_NR_TASKS <= p < ENDPOINT_SLOT_TOP -> ENDPOINT_G (ENDPOINT g p) = g.
Proof.
  intros Hp. change (-1023 <= p < 31745) in Hp. rewrite ENDPOINT_G_eq, ENDPOINT_eq.
  replace (g * 32768 + p + 1023) with (p + 1023 + g * 32768) by lia.
  rewrite Z.div_add, Z.div_small by lia. lia.
Qed.

Lemma ENDPOINT_bounds g p :
  0 <= g <= ENDPOINT_MAX_GENERATION -> - MAX_NR_TASKS <= p < ENDPOINT_SLOT_TOP ->
  - MAX_NR_TASKS <= ENDPOINT g p <= INT_MAX.
Proof.
  change ENDPOINT_MAX_GENERATION with 65534. change MAX_NR_TASKS with 1023.
  change ENDPOINT_SLOT_TOP with 31745. change INT_MAX with 2147483647.
  rewrite ENDPOINT_eq. lia.
Qed.

(** C20: every pair of a generation the kernel can assign and a slot of the
    endpoint layout is packed into an endpoint that fits a signed 32-bit
    integer and unpacks to the same pair; so two live pairs never share an
    endpoint. *)
Theorem endpoint_roundtrip g p :
  0 <= g <= ENDPOINT_MAX_GENERATION -> - MAX_NR_TASKS <= p < ENDPOINT_SLOT_TOP ->
  ENDPOINT_G (ENDPOINT g p) = g /\ ENDPOINT_P (ENDPOINT g p) = p
  /\ - MAX_NR_TASKS <= ENDPOINT g p <= INT_MAX
  /\ (forall g' p', - MAX_NR_TASKS <= p' < ENDPOINT_SLOT_TOP ->
        ENDPOINT g' p' = ENDPOINT g p -> g' = g /\ p' = p).
Proof.
  intros Hg Hp. split_and!.
  - by apply ENDPOINT_G_ENDPOINT.
  - by apply ENDPOINT_P_ENDPOINT.
  - by apply ENDPOINT_bounds.
  - by apply ENDPOINT_bounds.
  - intros g' p' Hp' E. split.
    + rewrite <- (ENDPOINT_G_ENDPOINT g' p'), E by done. by apply ENDPOINT_G_ENDPOINT.
    + rewrite <- (ENDPOINT_P_ENDPOINT g' p'), E by done. by apply ENDPOINT_P_ENDPOINT.
Qed.

Lemma endpoint_roundtrip_witness :
  ENDPOINT_G (ENDPOINT 7 12) = 7 /\ ENDPOINT_P (ENDPOINT 7 (-2)) = -2.
Proof.
  split.
  - apply (endpoint_roundtrip 7 12); split; vm_compute; congruence.
  - apply (endpoint_roundtrip 7 (-2)); split; vm_compute; congruence.
Defined.

End Endpoint.
Export Endpoint.

(** ** System bit maps

    [sys_map_t] is an array of 32-bit chunks; bit [b] is bit [b % 32] of chunk
    [b / 32]. *)
Module SysMap.

Definition BITCHUNK_BITS : Z := 32.
Definition NR_SYS_PROCS : Z := 128.
Definition NR_SYS_CHUNKS : Z := (NR_SYS_PROCS + BITCHUNK_BITS - 1) / BITCHUNK_BITS.

Notation sys_map := (list Z) (only parsing).

Definition MAP_CHUNK (map : sys_map) (bit : Z) : Z :=
  nth (Z.to_nat (bit / BITCHUNK_BITS)) map 0.
Definition CHUNK_OFFSET (bit : Z) : Z := bit mod BITCHUNK_BITS.

Definition get_sys_bit (map : sys_map) (bit : Z) : bool :=
  has (MAP_CHUNK map bit) (Z.shiftl 1 (CHUNK_OFFSET bit)).
Definition get_sys_bits (map : sys_map) (bit : Z) : Z := MAP_CHUNK map bit.
Definition set_sys_bit (map : sys_map) (bit : Z) : sys_map :=
  <[Z.to_nat (bit / BITCHUNK_BITS) :=
      flag_set (MAP_CHUNK map bit) (Z.shiftl 1 (CHUNK_OFFSET bit))]> map.
Definition unset_sys_bit (map : sys_map) (bit : Z) : sys_map :=
  <[Z.to_nat (bit / BITCHUNK_BITS) :=
      flag_clr (MAP_CHUNK map bit) (Z.shiftl 1 (CHUNK_OFFSET bit))]> map.

Definition empty_map : sys_map := replicate (Z.to_nat NR_SYS_CHUNKS) 0.

(** The array holds [NR_SYS_CHUNKS] unsigned 32-bit words. *)
Definition map_ok (map : sys_map) : Prop :=
  length map = Z.to_nat NR_SYS_CHUNKS /\ Forall (fun c => 0 <= c < 2 ^ 32) map.

Definition bit_ok (bit : Z) : Prop := 0 <= bit < NR_SYS_PROCS.

#[export] Instance offset_single bit : SingleBit (Z.shiftl 1 (CHUNK_OFFSET bit)).
Proof.
  refine {| bit_of := CHUNK_OFFSET bit |}.
  - unfold CHUNK_OFFSET. by apply Z.mod_pos_bound.
  - rewrite Z.shiftl_1_l. done.
Defined.

Lemma offset_range bit : 0 <= CHUNK_OFFSET bit < 32.
Proof. unfold CHUNK_OFFSET. by apply Z.mod_pos_bound. Qed.

Lemma chunk_in_range map bit :
  map_ok map -> bit_ok bit -> (Z.to_nat (bit / BITCHUNK_BITS) < length map)%nat.
Proof.
  intros [-> _] [H0 H1]. unfold NR_SYS_PROCS, BITCHUNK_BITS in *.
  change (Z.to_nat NR_SYS_CHUNKS) with 4%nat.
  assert (0 <= bit / 32 < 4); [|lia].
  split; [by apply Z.div_pos|]. apply Z.div_lt_upper_bound; lia.
Qed.

Lemma same_bit a b :
  0 <= a -> 0 <= b ->
  Z.to_nat (a / BITCHUNK_BITS) = Z.to_nat (b / BITCHUNK_BITS) ->
  CHUNK_OFFSET a = CHUNK_OFFSET b -> a = b.
Proof.
  unfold CHUNK_OFFSET, BITCHUNK_BITS. intros Ha Hb Hd Hm.
  assert (0 <= a / 32) by by apply Z.div_pos.
  assert (0 <= b / 32) by by apply Z.div_pos.
  rewrite (Z.div_mod a 32), (Z.div_mod b 32) by lia. lia.
Qed.

Lemma MAP_CHUNK_insert map a b c :
  (Z.to_nat (a / BITCHUNK_BITS) < length map)%nat ->
  MAP_CHUNK (<[Z.to_nat (a / BITCHUNK_BITS) := c]> map) b =
  if decide (Z.to_nat (a / BITCHUNK_BITS) = Z.to_nat (b / BITCHUNK_BITS))
  then c else MAP_CHUNK map b.
Proof.
  intros Hlt. unfold MAP_CHUNK.
  case_decide as E.
  - rewrite <- E. apply nth_lookup_Some. by apply list_lookup_insert_eq.
  - destruct (map !! Z.to_nat (b / BITCHUNK_BITS)) as [d|] eqn:Hd.
    + rewrite (nth_lookup_Some _ _ _ _ Hd). apply nth_lookup_Some.
      by rewrite list_lookup_insert_ne.
    + rewrite !nth_overflow; [done| |].
      * by apply lookup_ge_None.
      * rewrite length_insert. by apply lookup_ge_None.
Qed.

Lemma get_set_sys_bit map a b :
  map_ok map -> bit_ok a -> bit_ok b ->
  get_sys_bit (set_sys_bit map a) b = get_sys_bit map b || (a =? b).
Proof.
  intros Hm Ha Hb. unfold get_sys_bit, set_sys_bit.
  rewrite MAP_CHUNK_insert by by apply chunk_in_range.
  case_decide as E.
  - erewrite has_flag_set by apply _.
    erewrite <- bit_of_eqb. cbn.
    replace (MAP_CHUNK map a) with (MAP_CHUNK map b)
      by (unfold MAP_CHUNK; by rewrite E).
    f_equal. destruct (Z.eqb_spec a b) as [->|Hne]; [apply Z.eqb_refl|].
    apply Z.eqb_neq. intros Ho. apply Hne. destruct Ha, Hb. by apply same_bit.
  - destruct (Z.eqb_spec a b) as [->|]; [done|]. by rewrite orb_false_r.
Qed.

Lemma get_unset_sys_bit map a b :
  map_ok map -> bit_ok a -> bit_ok b ->
  get_sys_bit (unset_sys_bit map a) b = get_sys_bit map b && negb (a =? b).
Proof.
  intros Hm Ha Hb. unfold get_sys_bit, unset_sys_bit.
  rewrite MAP_CHUNK_insert by by apply chunk_in_range.
  case_decide as E.
  - erewrite has_flag_clr by apply _.
    erewrite <- bit_of_eqb. cbn.
    replace (MAP_CHUNK map a) with (MAP_CHUNK map b)
      by (unfold MAP_CHUNK; by rewrite E).
    f_equal. f_equal. destruct (Z.eqb_spec a b) as [->|Hne]; [apply Z.eqb_refl|].
    apply Z.eqb_neq. intros Ho. apply Hne. destruct Ha, Hb. by apply same_bit.
  - destruct (Z.eqb_spec a b) as [->|]; [done|]. by rewrite andb_true_r.
Qed.

Lemma Forall_chunk map bit :
  map_ok map -> 0 <= MAP_CHUNK map bit < 2 ^ 32.
Proof.
  intros [_ HF]. unfold MAP_CHUNK.
  destruct (map !! Z.to_nat (bit / BITCHUNK_BITS)) as [c|] eqn:E.
  - rewrite (nth_lookup_Some _ _ _ _ E). by eapply (Forall_lookup_1 _ _ _ _ HF).
  - rewrite nth_overflow; [lia|]. by apply lookup_ge_None.
Qed.

(** A 32-bit value is below [2^32] iff it has no bit at or above 32. *)
Lemma u32_bits x : 0 <= x -> x < 2 ^ 32 <-> forall j, 32 <= j -> Z.testbit x j = false.
Proof.
  intros Hx. split.
  - intros Hlt j Hj. rewrite <- (Z.mod_small x (2 ^ 32)) by lia.
    by apply Z.mod_pow2_bits_high.
  - intros Hb. assert (x mod 2 ^ 32 = x) as <-; [|by apply Z.mod_pos_bound].
    apply Z.bits_inj'. intros j Hj. destruct (Z.lt_ge_cases j 32).
    + by rewrite Z.mod_pow2_bits_low by lia.
    + rewrite Z.mod_pow2_bits_high by lia. symmetry. by apply Hb.
Qed.

Lemma map_ok_insert map n c :
  map_ok map -> 0 <= c < 2 ^ 32 -> map_ok (<[n := c]> map).
Proof.
  intros [Hl HF] Hc. split; [by rewrite length_insert|]. by apply Forall_insert.
Qed.

Lemma map_ok_set map b : map_ok map -> map_ok (set_sys_bit map b).
Proof.
  intros Hm. apply map_ok_insert; [done|]. pose proof (Forall_chunk map b Hm) as [H0 H1].
  assert (0 <= flag_set (MAP_CHUNK map b) (Z.shiftl 1 (CHUNK_OFFSET b))) as Hn.
  { apply flag_set_nonneg; [done|]. rewrite Z.shiftl_1_l. pose proof (offset_range b). lia. }
  split; [done|]. apply u32_bits; [done|]. intros j Hj. unfold flag_set.
  rewrite Z.lor_spec, (testbit_single (Z.shiftl 1 (CHUNK_OFFSET b))). cbn.
  rewrite (proj1 (u32_bits _ H0) H1 j Hj). cbn. apply Z.eqb_neq.
  pose proof (offset_range b). lia.
Qed.

Lemma map_ok_unset map b : map_ok map -> map_ok (unset_sys_bit map b).
Proof.
  intros Hm. apply map_ok_insert; [done|]. pose proof (Forall_chunk map b Hm) as [H0 H1].
  split; [by apply flag_clr_nonneg|]. apply u32_bits; [by apply flag_clr_nonneg|].
  intros j Hj. unfold flag_clr. by rewrite Z.land_spec, (proj1 (u32_bits _ H0) H1 j Hj).
Qed.

Lemma map_ok_empty : map_ok empty_map.
Proof. split; [done|]. apply Forall_replicate. lia. Qed.

Lemma get_sys_bit_empty b : get_sys_bit empty_map b = false.
Proof.
  unfold get_sys_bit. erewrite has_testbit.
  replace (MAP_CHUNK empty_map b) with 0; [apply Z.bits_0|].
  unfold MAP_CHUNK. symmetry. by destruct (Z.to_nat (b / BITCHUNK_BITS)) as [|[|[|[|[|]]]]].
Qed.

(** A chunk is zero exactly when none of its 32 bits is set. *)
Lemma chunk_zero map base :
  map_ok map -> base mod 32 = 0 ->
  get_sys_bits map base = 0 <->
  forall i, 0 <= i < 32 -> get_sys_bit map (base + i) = false.
Proof.
  intros Hm Hb. pose proof (Forall_chunk map base Hm) as [H0 H1].
  assert (forall i, 0 <= i < 32 ->
    get_sys_bit map (base + i) = Z.testbit (MAP_CHUNK map base) i) as Hbit.
  { intros i Hi. unfold get_sys_bit. erewrite has_testbit. cbn.
    pose proof (Z.div_mod base 32 ltac:(lia)) as Hd. rewrite Hb in Hd.
    assert ((base + i) / 32 = base / 32) as E1.
    { rewrite Hd at 1. replace (32 * (base / 32) + 0 + i) with (i + (base / 32) * 32) by lia.
      rewrite Z.div_add, (Z.div_small i) by lia. lia. }
    unfold MAP_CHUNK, CHUNK_OFFSET, BITCHUNK_BITS. rewrite E1. f_equal.
    rewrite Hd at 1. replace (32 * (base / 32) + 0 + i) with (i + (base / 32) * 32) by lia.
    rewrite Z.mod_add by lia. by apply Z.mod_small. }
  unfold get_sys_bits. split.
  - intros E i Hi. rewrite Hbit, E by done. apply Z.bits_0.
  - intros H. apply Z.bits_inj'. intros j Hj. rewrite Z.bits_0.
    destruct (Z.lt_ge_cases j 32).
    + rewrite <- Hbit by done. by apply H.
    + by apply (proj1 (u32_bits _ H0) H1).
Qed.

End SysMap.
Export SysMap.
