(* ===== verification/AuditRing.v ===== *)
(** * The audit ring (kernel/audit.c)

    The kernel logs security-relevant events into a ring of
    [AUDIT_BUFFER_ENTRIES] records.  This file holds the ring, [audit_log] and
    the abstract log it stands for: the list of all records logged since boot,
    of which the ring keeps the newest.  The kernel call that hands the records
    out and the daemon that collects them are in AuditCall. *)

From S2P Require Import Prelude Monad.

Definition AUDIT_BUFFER_ENTRIES : Z := 1024.
Definition AUDIT_MASK : Z := AUDIT_BUFFER_ENTRIES - 1.
Definition AUDIT_AUTH_SUCCESS : Z := 1.
Definition AUDIT_PRIV_CHANGE : Z := 3.
Definition AUDIT_IPC_DENIED : Z := 4.
Definition AUDIT_SYSCALL_AUTH : Z := 7.
Definition AUDIT_MAC_VIOLATION : Z := 8.
Definition AUDIT_SERVICE_CRASH : Z := 10.

(** The room of [ar_extra]. *)
Definition AR_EXTRA : Z := 32.

(** [struct audit_record] (include/minix/audit.h). *)
Record audit_record := mkAudit {
  ar_serial : Z;
  ar_type : Z;
  ar_result : Z;
  ar_timestamp : Z;
  ar_subject : Z;
  ar_object : Z;
  ar_extra_len : Z;
  ar_extra : list Z
}.

(** [audit_buf], [audit_write_idx] and [audit_serial]. *)
Record audit_ring := mkRing {
  audit_buf : gmap Z audit_record;
  audit_write_idx : Z;
  audit_serial : Z
}.

(** What [audit_log] puts into the payload: [extra_len] bytes of [extra] (when
    it is not [NULL]), zeroes behind them. *)
Definition fill_extra (extra : option (list Z)) (extra_len : Z) : list Z :=
  match extra with
  | Some bytes =>
      if 0 <? extra_len
      then take (Z.to_nat extra_len) bytes ++ replicate (Z.to_nat (AR_EXTRA - extra_len)) 0
      else replicate (Z.to_nat AR_EXTRA) 0
  | None => replicate (Z.to_nat AR_EXTRA) 0
  end.

(** [audit_log]; [now] is what [get_monotonic] returns. *)
Definition audit_log (now type result subject object : Z) (extra : option (list Z)) (extra_len : Z)
    (r : audit_ring) : Z * audit_ring :=
  let type := u32 type in
  let extra_len := u32 extra_len in
  if (type =? 0) || (AUDIT_SERVICE_CRASH <? type) || (AR_EXTRA <? extra_len) then (0, r)
  else
    let idx := audit_write_idx r in
    let serial := u32 (audit_serial r + 1) in
    let rec := mkAudit serial type result now subject object extra_len (fill_extra extra extra_len) in
    (i32 serial, mkRing (<[Z.land idx AUDIT_MASK := rec]> (audit_buf r)) (u32 (idx + 1)) serial).

(** ** The log the ring stands for *)

(** The ring holds the newest records of [log]: the [i]-th event is in slot
    [i mod AUDIT_BUFFER_ENTRIES] until it is overwritten, also after the
    32-bit counters have wrapped around. *)
Record ring_of (r : audit_ring) (log : list audit_record) : Prop := {
  ro_idx : audit_write_idx r = u32 (Z.of_nat (length log));
  ro_serial : audit_serial r = u32 (Z.of_nat (length log));
  ro_buf : forall i a, Z.of_nat (length log) - AUDIT_BUFFER_ENTRIES <= Z.of_nat i ->
    log !! i = Some a -> audit_buf r !! (Z.of_nat i mod AUDIT_BUFFER_ENTRIES) = Some a
}.

Definition audit_init : audit_ring := mkRing ∅ 0 0.

Lemma ring_of_init : ring_of audit_init [].
Proof. by split. Qed.

Lemma land_mask x : Z.land x AUDIT_MASK = x mod AUDIT_BUFFER_ENTRIES.
Proof. change AUDIT_MASK with (Z.ones 10). by rewrite Z.land_ones. Qed.

Lemma u32_slot n : u32 n mod AUDIT_BUFFER_ENTRIES = n mod AUDIT_BUFFER_ENTRIES.
Proof. unfold u32. apply Z.mod_mod_divide. by exists (2 ^ 22). Qed.

Lemma u32_succ n : u32 (u32 n + 1) = u32 (n + 1).
Proof. unfold u32. by rewrite Zplus_mod_idemp_l. Qed.

(** Events closer than the size of the ring are in different slots. *)
Lemma slot_inj i j :
  i mod AUDIT_BUFFER_ENTRIES = j mod AUDIT_BUFFER_ENTRIES -> Z.abs (i - j) < AUDIT_BUFFER_ENTRIES -> i = j.
Proof.
  intros E H. pose proof (Z.div_mod i AUDIT_BUFFER_ENTRIES ltac:(done)).
  pose proof (Z.div_mod j AUDIT_BUFFER_ENTRIES ltac:(done)).
  assert (i - j = AUDIT_BUFFER_ENTRIES * (i / AUDIT_BUFFER_ENTRIES - j / AUDIT_BUFFER_ENTRIES)) as D by lia.
  unfold AUDIT_BUFFER_ENTRIES in *. nia.
Qed.

(** Logging an acceptable event appends its record, with the next serial
    number, to the log; anything else is refused. *)
Lemma audit_log_run now type result subject object extra extra_len r log :
  ring_of r log ->
  let n := Z.of_nat (length log) in
  let rec := mkAudit (u32 (n + 1)) (u32 type) result now subject object (u32 extra_len) (fill_extra extra (u32 extra_len)) in
  if (u32 type =? 0) || (AUDIT_SERVICE_CRASH <? u32 type) || (AR_EXTRA <? u32 extra_len)
  then audit_log now type result subject object extra extra_len r = (0, r)
  else exists r', audit_log now type result subject object extra extra_len r = (i32 (u32 (n + 1)), r')
         /\ ring_of r' (log ++ [rec]).
Proof.
  intros [Hi Hs Hb] n rec. unfold audit_log. cbv zeta. destruct (_ || _ || _); [done|].
  rewrite Hs, u32_succ. fold n rec. eexists. split; [done|].
  assert (Z.of_nat (length (log ++ [rec])) = n + 1) as Hl by (rewrite length_app; cbn; lia).
  split; cbn [audit_write_idx audit_serial audit_buf]; rewrite ?Hl; [by rewrite Hi, u32_succ|done|].
  intros i a Hlo Ha. rewrite Hi, land_mask, u32_slot. fold n.
  apply lookup_app_Some in Ha as [Ha|[Hge Ha]].
  - pose proof (lookup_lt_Some _ _ _ Ha). rewrite lookup_insert_ne; [by apply Hb; [lia|]|].
    intros E%slot_inj; lia.
  - apply list_lookup_singleton_Some in Ha as [E <-].
    replace (Z.of_nat i) with n by lia. apply lookup_insert_eq.
Qed.
