(* ===== verification/DrvQueueProps.v ===== *)
(** * The driver queue is a FIFO for one producer

    Whatever the interleaving of the loads and stores of one producer and the
    consumer, and wherever the 32-bit indices wrap around, the entries popped
    are the entries pushed, whole and in order; with two producers an entry can
    be lost. *)

From S2P Require Import Prelude Monad DrvQueue.

Lemma dq_mask x : Z.land x DRV_QUEUE_MASK = x mod DRV_QUEUE_SIZE.
Proof. change DRV_QUEUE_MASK with (Z.ones 8). by rewrite Z.land_ones. Qed.

Lemma dq_slot x : Z.land (u32 x) DRV_QUEUE_MASK = x mod DRV_QUEUE_SIZE.
Proof. rewrite dq_mask. unfold u32. apply Z.mod_mod_divide. by exists (2 ^ 24). Qed.

Lemma u32_diff a b : 0 <= a - b < 2 ^ 32 -> u32 (u32 a - u32 b) = a - b.
Proof. intros H. unfold u32. rewrite <- Zminus_mod. by apply Z.mod_small. Qed.

Lemma u32_inc a : u32 (u32 a + 1) = u32 (a + 1).
Proof. unfold u32. by rewrite Zplus_mod_idemp_l. Qed.

Lemma u32_same a b : 0 <= a - b < 2 ^ 32 -> u32 a = u32 b -> a = b.
Proof. intros H E. pose proof (u32_diff a b H) as D. rewrite E, Z.sub_diag in D. change (u32 0) with 0 in D. lia. Qed.

Lemma slot_ne i j : i < j < i + DRV_QUEUE_SIZE -> i mod DRV_QUEUE_SIZE <> j mod DRV_QUEUE_SIZE.
Proof.
  intros H E. pose proof (Z.div_mod i DRV_QUEUE_SIZE ltac:(done)). pose proof (Z.div_mod j DRV_QUEUE_SIZE ltac:(done)).
  unfold DRV_QUEUE_SIZE in *. nia.
Qed.

Lemma dq_at_store i j e q : dq_at (store i e q) j = if decide (i = j) then e else dq_at q j.
Proof.
  unfold dq_at, store. cbn [dq_entries]. case_decide as Hd.
  - subst. by rewrite lookup_insert_eq.
  - by rewrite lookup_insert_ne.
Qed.

(** ** Entries written and read field by field *)

(** The first [k] fields agree. *)
Definition agree (k : nat) (x e : drv_queue_entry) : Prop := forall j, (j < k)%nat -> field j x = field j e.

Lemma agree_all x e : agree 5 x e -> x = e.
Proof.
  intros H. destruct x, e. pose proof (H 0%nat ltac:(lia)) as H0. pose proof (H 1%nat ltac:(lia)) as H1.
  pose proof (H 2%nat ltac:(lia)) as H2. pose proof (H 3%nat ltac:(lia)) as H3. pose proof (H 4%nat ltac:(lia)) as H4.
  cbn in *. by subst.
Qed.

Lemma agree_step k x e : (k < 5)%nat -> agree k x e -> agree (S k) (store_field k (field k e) x) e.
Proof.
  intros Hk H j Hj. destruct (decide (j = k)) as [->|Hne].
  - destruct x, e. by do 5 (destruct k as [|k]; [done|]).
  - rewrite <- (H j ltac:(lia)). destruct x, e. clear H.
    do 5 (destruct k as [|k]; [do 5 (destruct j as [|j]; [done || lia|]); lia|]). lia.
Qed.

(** ** The invariant *)
Section Invariant.
Context (base : Z).

(** How many entries were pushed and popped, counted from [base]. *)
Definition pushes (s : qsys) : Z := base + Z.of_nat (length (q_pushed s)).
Definition pops (s : qsys) : Z := base + Z.of_nat (length (q_popped s)).

Definition prod_ok (s : qsys) (p : producer) : Prop :=
  match p with
  | PIdle => True
  | PHead e h => h = u32 (pushes s)
  | PTail e h t => h = u32 (pushes s)
      /\ exists m, t = u32 m /\ m <= pops s /\ pushes s - m <= DRV_QUEUE_SIZE
  | PFill e h k => h = u32 (pushes s) /\ pushes s - pops s < DRV_QUEUE_SIZE /\ (k <= 5)%nat
      /\ agree k (dq_at (q_mem s) (pushes s mod DRV_QUEUE_SIZE)) e
  end.

Definition cons_ok (s : qsys) (c : consumer) : Prop :=
  match c with
  | CIdle => True
  | CTail t => t = u32 (pops s)
  | CHead t h => t = u32 (pops s) /\ exists n, h = u32 n /\ pops s <= n <= pushes s
  | CRead t k got => t = u32 (pops s) /\ pops s < pushes s /\ (k <= 5)%nat
      /\ agree k got (dq_at (q_mem s) (pops s mod DRV_QUEUE_SIZE))
  end.

Record spsc (s : qsys) : Prop := {
  sp_head : dq_head (q_mem s) = u32 (pushes s);
  sp_tail : dq_tail (q_mem s) = u32 (pops s);
  sp_size : pops s <= pushes s <= pops s + DRV_QUEUE_SIZE;
  sp_prefix : q_popped s = take (length (q_popped s)) (q_pushed s);
  sp_mem : forall i e, (length (q_popped s) <= i)%nat -> q_pushed s !! i = Some e ->
    dq_at (q_mem s) ((base + Z.of_nat i) mod DRV_QUEUE_SIZE) = e;
  sp_prod : exists p, q_prods s = [p] /\ prod_ok s p;
  sp_cons : cons_ok s (q_cons s)
}.

(** A store to the slot behind the last entry does not touch the others. *)
Lemma store_mem s i e x :
  spsc s -> pushes s - pops s < DRV_QUEUE_SIZE -> (length (q_popped s) <= i)%nat -> q_pushed s !! i = Some e ->
  dq_at (store (pushes s mod DRV_QUEUE_SIZE) x (q_mem s)) ((base + Z.of_nat i) mod DRV_QUEUE_SIZE) = e.
Proof.
  intros Hs Hroom Hi He. rewrite dq_at_store, decide_False; [by apply (sp_mem _ Hs)|].
  pose proof (lookup_lt_Some _ _ _ He). symmetry. apply slot_ne. unfold pushes, pops in *. lia.
Qed.

Lemma cons_ok_store s x :
  spsc s -> pushes s - pops s < DRV_QUEUE_SIZE -> 
  forall s', q_mem s' = store (pushes s mod DRV_QUEUE_SIZE) x (q_mem s) -> q_pushed s' = q_pushed s ->
  q_popped s' = q_popped s -> cons_ok s' (q_cons s).
Proof.
  intros Hs Hroom s' Hm Hp Hq. pose proof (sp_cons _ Hs) as Hc. unfold cons_ok, pushes, pops in *. rewrite Hp, Hq, Hm.
  destruct (q_cons s) as [| | |t k got]; [done..|]. destruct Hc as (Ht & Hlt & Hk & Ha). split_and!; try done.
  rewrite dq_at_store, decide_False; [done|]. symmetry. apply slot_ne. lia.
Qed.

Lemma prod_step_spsc s p :
  spsc s -> q_prods s = [p] -> prod_ok s p ->
  let '(p', q', l) := prod_step p s in spsc (mkQsys q' [p'] (q_cons s) l (q_popped s)).
Proof.
  intros Hs Hps Hp. pose proof Hs as [H1 H2 H3 H4 H5 H6 H7]. destruct p as [|e h|e h t|e h k]; cbn [prod_step].
  - split; try done. by exists PIdle.
  - split; try done. exists (PTail e h (dq_tail (q_mem s))). split; [done|]. cbn in *. split; [done|].
    exists (pops s). unfold pushes, pops in *. cbn. split_and!; [done|lia..].
  - destruct Hp as (-> & m & -> & Hm & Hroom). unfold pushes, pops in *.
    rewrite u32_diff by (unfold DRV_QUEUE_SIZE in *; lia).
    destruct (Z.leb_spec DRV_QUEUE_SIZE (base + Z.of_nat (length (q_pushed s)) - m)); (split; try done); [by exists PIdle|].
    eexists. split; [done|]. cbn. split_and!; try done; [unfold pushes, pops; cbn; lia|lia|]. intros j Hj. lia.
  - destruct Hp as (-> & Hroom & Hk & Ha). rewrite dq_slot. destruct (Nat.ltb_spec k 5) as [Hlt|Hge].
    + split; try done.
      * intros i x Hi Hx. by apply store_mem.
      * eexists. split; [done|]. split_and!; try done. cbn. change (pushes (mkQsys _ _ _ _ _)) with (pushes s).
        rewrite dq_at_store, decide_True by done. by apply agree_step.
      * match goal with |- cons_ok ?s' _ => exact (cons_ok_store s _ Hs Hroom s' eq_refl eq_refl eq_refl) end.
    + replace k with 5%nat in * by lia. apply agree_all in Ha.
      assert (pushes (mkQsys (set_head (u32 (u32 (pushes s) + 1)) (q_mem s)) [PIdle] (q_cons s) (q_pushed s ++ [e]) (q_popped s))
              = pushes s + 1) as Hn by (unfold pushes; cbn; rewrite length_app; cbn; lia).
      split; rewrite ?Hn; try done.
      * apply u32_inc.
      * change (pops (mkQsys _ _ _ _ _)) with (pops s). lia.
      * cbn. rewrite take_app_le; [done|]. unfold pushes, pops in *. lia.
      * cbn. intros i x Hi Hx. apply lookup_app_Some in Hx as [Hx|[Hl Hx]]; [by apply H5|].
        apply list_lookup_singleton_Some in Hx as [E <-]. rewrite <- Ha. unfold dq_at, pushes. cbn.
        do 3 f_equal. lia.
      * by exists PIdle.
      * cbn. unfold cons_ok in *. rewrite ?Hn. change (pops (mkQsys _ _ _ _ _)) with (pops s).
        destruct (q_cons s) as [| |t h'|t k' got]; [done..| |].
        -- destruct H7 as (-> & n & -> & Hle). split; [done|]. exists n. split; [done|lia].
        -- destruct H7 as (-> & ? & ? & ?). split_and!; try done. lia.
Qed.

Lemma cons_step_spsc s : spsc s -> spsc (cons_step s).
Proof.
  intros Hs. pose proof Hs as [H1 H2 H3 H4 H5 (p & Hps & Hp) H7]. unfold cons_step.
  destruct (q_cons s) as [|t|t h|t k got]; cbn [cons_ok] in H7.
  - split; try done. by exists p.
  - split; try done; [by exists p|]. cbn. split; [done|]. exists (pushes s). unfold pushes, pops in *. cbn. split; [done|lia].
  - destruct H7 as (-> & n & -> & Hle). destruct (Z.eqb_spec (u32 n) (u32 (pops s))) as [E|Hne]; (split; try done); [by exists p..|].
    cbn. unfold pushes, pops in *. cbn. split_and!; [done| |lia|intros j Hj; lia].
    destruct (decide (n = base + Z.of_nat (length (q_popped s)))); [congruence|lia].
  - destruct H7 as (-> & Hlt & Hk & Ha). rewrite dq_slot. destruct (Nat.ltb_spec k 5) as [Hlt5|Hge].
    + split; try done; [by exists p|]. cbn. split_and!; [done|done|lia|]. by apply agree_step.
    + replace k with 5%nat in * by lia. apply agree_all in Ha. subst got.
      set (got := dq_at (q_mem s) (pops s mod DRV_QUEUE_SIZE)).
      assert (pops (mkQsys (set_tail (u32 (u32 (pops s) + 1)) (q_mem s)) (q_prods s) CIdle (q_pushed s) (q_popped s ++ [got]))
              = pops s + 1) as Hn by (unfold pops; cbn; rewrite length_app; cbn; lia).
      assert (length (q_popped s) < length (q_pushed s))%nat as Hlen by (unfold pushes, pops in Hlt; lia).
      split; rewrite ?Hn; try done.
      * apply u32_inc.
      * change (pushes (mkQsys _ _ _ _ _)) with (pushes s). lia.
      * cbn. destruct (lookup_lt_is_Some_2 _ _ Hlen) as [x Hx]. rewrite length_app. cbn. rewrite Nat.add_1_r, (take_S_r _ _ x Hx), <- H4.
        do 2 f_equal. unfold got, pops. apply (H5 _ _ (Nat.le_refl _) Hx).
      * cbn. intros i x Hi Hx. apply H5; [|done]. rewrite length_app in Hi. cbn in Hi. lia.
      * exists p. split; [done|]. unfold prod_ok in *. rewrite ?Hn. change (pushes (mkQsys _ _ _ _ _)) with (pushes s).
        destruct p as [|e h|e h t|e h k']; [done..| |].
        -- destruct Hp as (-> & m & -> & ? & ?). split; [done|]. exists m. split_and!; [done|lia|lia].
        -- destruct Hp as (-> & ? & ? & ?). split_and!; try done. lia.
Qed.

Lemma qstep_spsc c s : spsc s -> spsc (qstep c s).
Proof.
  intros Hs. pose proof (sp_prod _ Hs) as (p & Hps & Hp). destruct c as [i e|i|]; cbn [qstep].
  - rewrite Hps. destruct i as [|i]; [|done]. cbn. destruct p; try done. destruct Hs. split; try done. cbn.
    eexists. split; [done|]. done.
  - rewrite Hps. destruct i as [|i]; [|done]. cbn [lookup list_lookup]. pose proof (prod_step_spsc s p Hs Hps Hp) as H.
    by destruct (prod_step p s) as [[p' q'] l].
  - by apply cons_step_spsc.
Qed.

Lemma qrun_spsc sched s : spsc s -> spsc (qrun sched s).
Proof. revert s. induction sched as [|c sched IH]; intros s Hs; [done|]. by apply IH, qstep_spsc. Qed.

Lemma qstart_spsc : spsc (qstart 1 base).
Proof.
  split; unfold pushes, pops; cbn; rewrite ?Z.add_0_r; try done; [unfold DRV_QUEUE_SIZE; lia|]. by exists PIdle.
Qed.
End Invariant.

(** ** The queue as a FIFO *)

(** The entries in the queue. *)
Definition in_queue (s : qsys) : list drv_queue_entry := drop (length (q_popped s)) (q_pushed s).

(** An undisturbed pop on a queue in any state of the protocol. *)
Lemma pop_run base s :
  spsc base s ->
  match in_queue s with
  | [] => drvqueue_pop (q_mem s) = (None, q_mem s)
  | e :: _ => drvqueue_pop (q_mem s) = (Some e, set_tail (u32 (pops base s + 1)) (q_mem s))
  end.
Proof.
  intros [H1 H2 H3 H4 H5 _ _]. unfold drvqueue_pop. rewrite H1, H2, dq_slot, u32_inc.
  destruct (in_queue s) as [|e l] eqn:E; unfold in_queue in E.
  - apply (f_equal length) in E. rewrite length_drop in E. cbn in E.
    replace (pushes base s) with (pops base s) by (unfold pushes, pops in *; lia). by rewrite Z.eqb_refl.
  - assert (q_pushed s !! length (q_popped s) = Some e) as He.
    { rewrite <- (Nat.add_0_r (length _)), <- lookup_drop, E. done. }
    pose proof (lookup_lt_Some _ _ _ He). rewrite (H5 _ _ (Nat.le_refl _) He : dq_at _ (pops base s mod _) = e).
    destruct (Z.eqb_spec (u32 (pushes base s)) (u32 (pops base s))) as [Eq%u32_same|]; [|unfold DRV_QUEUE_SIZE in *; lia|done].
    unfold pushes, pops in Eq. lia.
Qed.

(** C36: the driver queue is a FIFO.  For one producer and the consumer,
    whatever the order of their single loads and stores and wherever the
    indices start, the entries popped so far followed by the entries in the
    queue are exactly the entries pushed: nothing is lost, duplicated, torn or
    reordered.  The queue never holds more than [DRV_QUEUE_SIZE] entries,
    [drvqueue_pending] counts them, a pop undisturbed from here returns the
    oldest, and a push is refused only when the queue is full. *)
Theorem drvqueue_fifo base sched e :
  let s := qrun sched (qstart 1 base) in
  let n := Z.of_nat (length (in_queue s)) in
  q_pushed s = q_popped s ++ in_queue s
  /\ n <= DRV_QUEUE_SIZE
  /\ drvqueue_pending (q_mem s) = n
  /\ fst (drvqueue_pop (q_mem s)) = head (in_queue s)
  /\ (fst (push_queue e (q_mem s)) = 0 <-> n < DRV_QUEUE_SIZE).
Proof.
  intros s n. pose proof (qrun_spsc base sched _ (qstart_spsc base)) as Hs. fold s in Hs.
  pose proof (pop_run base s Hs) as Hpop. destruct Hs as [H1 H2 H3 H4 _ _ _].
  assert (n = pushes base s - pops base s) as Hn.
  { unfold n, in_queue. rewrite length_drop. unfold pushes, pops in *. lia. }
  assert (u32 (dq_head (q_mem s) - dq_tail (q_mem s)) = n) as Hd
    by (rewrite H1, H2, u32_diff; unfold DRV_QUEUE_SIZE in *; lia).
  split_and!.
  - unfold in_queue. by rewrite H4 at 1; rewrite take_drop.
  - lia.
  - unfold drvqueue_pending, i32. rewrite Hd, Z.mod_small; unfold DRV_QUEUE_SIZE in *; lia.
  - by destruct (in_queue s); rewrite Hpop.
  - unfold push_queue. rewrite Hd. destruct (Z.leb_spec DRV_QUEUE_SIZE n); cbn; (split; [done || lia|lia || done]).
Qed.

(** ** Undisturbed, the accesses make up the operations *)

Lemma store_store i x y q : store i y (store i x q) = store i y q.
Proof. unfold store. cbn. by rewrite insert_insert_eq. Qed.

Lemma dq_at_here i x q : dq_at (store i x q) i = x.
Proof. by rewrite dq_at_store, decide_True. Qed.

Lemma store_fields x e :
  store_field 4 (field 4 e) (store_field 3 (field 3 e) (store_field 2 (field 2 e)
    (store_field 1 (field 1 e) (store_field 0 (field 0 e) x)))) = e.
Proof. by destruct x, e. Qed.

Lemma qrun_app l1 l2 s : qrun (l1 ++ l2) s = qrun l2 (qrun l1 s).
Proof. revert s. induction l1 as [|c l1 IH]; intros s; [done|]. apply IH. Qed.

Lemma fill_step q e h k c pu po :
  (k < 5)%nat -> let i := Z.land h DRV_QUEUE_MASK in
  qstep (Prod 0) (mkQsys q [PFill e h k] c pu po)
  = mkQsys (store i (store_field k (field k e) (dq_at q i)) q) [PFill e h (S k)] c pu po.
Proof. intros Hk i. unfold qstep, prod_step. cbn [q_prods lookup list_lookup q_mem]. by rewrite (proj2 (Nat.ltb_lt k 5) Hk). Qed.

Lemma fill_step_run q e h c pu po :
  qrun (replicate 5 (Prod 0)) (mkQsys q [PFill e h 0] c pu po)
  = mkQsys (store (Z.land h DRV_QUEUE_MASK) e q) [PFill e h 5] c pu po.
Proof.
  cbn [replicate qrun]. do 5 (rewrite fill_step by lia; cbv zeta).
  by rewrite !dq_at_here, !store_store, store_fields.
Qed.

Lemma idle_run n q c pu po : qrun (replicate n (Prod 0)) (mkQsys q [PIdle] c pu po) = mkQsys q [PIdle] c pu po.
Proof. by induction n. Qed.

Lemma push_alone s e :
  q_prods s = [PIdle] ->
  let s' := qrun (Push 0 e :: replicate 8 (Prod 0)) s in
  q_mem s' = snd (push_queue e (q_mem s)) /\ q_prods s' = [PIdle]
  /\ q_pushed s' = q_pushed s ++ (if fst (push_queue e (q_mem s)) =? 0 then [e] else []).
Proof.
  destruct s as [q ps c pu po]. cbn [q_prods q_mem q_pushed]. intros ->. unfold push_queue.
  change (qrun (Push 0 e :: replicate 8 (Prod 0)) (mkQsys q [PIdle] c pu po))
    with (qrun (replicate 5 (Prod 0) ++ [Prod 0])
      (mkQsys q [if DRV_QUEUE_SIZE <=? u32 (dq_head q - dq_tail q) then PIdle else PFill e (dq_head q) 0] c pu po)).
  rewrite qrun_app. destruct (DRV_QUEUE_SIZE <=? u32 (dq_head q - dq_tail q)).
  - rewrite idle_run. cbn. by rewrite app_nil_r.
  - by rewrite fill_step_run.
Qed.

Lemma read_step q ps t k got pu po :
  (k < 5)%nat ->
  qstep Cons (mkQsys q ps (CRead t k got) pu po)
  = mkQsys q ps (CRead t (S k) (store_field k (field k (dq_at q (Z.land t DRV_QUEUE_MASK))) got)) pu po.
Proof. intros Hk. unfold qstep, cons_step. cbn [q_cons q_mem]. by rewrite (proj2 (Nat.ltb_lt k 5) Hk). Qed.

Lemma pop_alone s e q' :
  q_cons s = CIdle -> drvqueue_pop (q_mem s) = (Some e, q') ->
  let s' := qrun (replicate 9 Cons) s in
  q_mem s' = q' /\ q_popped s' = q_popped s ++ [e] /\ q_cons s' = CIdle.
Proof.
  destruct s as [q ps c pu po]. cbn [q_cons q_mem q_popped]. intros ->. unfold drvqueue_pop.
  destruct (dq_head q =? dq_tail q) eqn:E; [done|]. intros [= <- <-].
  change (replicate 9 Cons) with ([Cons; Cons; Cons] ++ replicate 5 Cons ++ [Cons]). rewrite qrun_app.
  assert (qrun [Cons; Cons; Cons] (mkQsys q ps CIdle pu po) = mkQsys q ps (CRead (dq_tail q) 0 cmd_zero) pu po) as ->
    by (cbn; by rewrite E).
  rewrite qrun_app. cbn [replicate qrun]. do 5 (rewrite read_step by lia). by rewrite store_fields.
Qed.

(** ** Two producers *)

(** Two producers push at the same time: both read the same head. *)
Definition race (a b : drv_queue_entry) : list choice :=
  [Push 0 a; Push 1 b] ++ concat (replicate 8 [Prod 0; Prod 1]).

(** Property: with two producers a command is lost.  Two pushes that overlap
    both report success, but the queue then holds one entry, the one stored
    last, and the other is gone. *)
Theorem drvqueue_race a b :
  let s := qrun (race a b) (qstart 2 0) in
  q_pushed s = [a; b] /\ q_prods s = [PIdle; PIdle]
  /\ drvqueue_pending (q_mem s) = 1 /\ fst (drvqueue_pop (q_mem s)) = Some b
  /\ fst (drvqueue_pop (snd (drvqueue_pop (q_mem s)))) = None.
Proof. destruct a, b. vm_compute. done. Qed.
