(* ===== verification/Kernel.v ===== *)
(** * The kernel's data: process table, privilege table, run queues

    Models [kernel/proc.h], [kernel/priv.h], [kernel/ipc_filter.h],
    [kernel/cpulocals.h] and the constants they use, for the default
    single-processor configuration ([CONFIG_SMP] is off).

    A [struct proc *] is the slot number of the process, a [struct priv *] the
    index of the privilege structure; [None] is [NULL].  The idle process and
    its privilege structure, which are not part of the two tables, live under
    the keys [idle_proc] and [idle_priv].  The kernel runs in the monad [K]:
    an operation either finishes with a result and a new state, or stops, on a
    failed assertion or [panic], on an access outside a table (undefined in C)
    or because a loop did not finish within its fuel. *)

From S2P Require Import Prelude Monad Timers Endpoint AuditRing DrvQueue.

(** ** Constants *)
Definition NR_TASKS : Z := 5.
Definition NR_PROCS : Z := 256.
Definition NR_SCHED_QUEUES : Z := 16.
Definition TASK_Q : Z := 0.
Definition PMAGIC : Z := 0xC0FFEE1.
Definition STACK_GUARD : Z := 0xDEADBEEF.
Definition NR_IRQ_VECTORS : Z := 64.
Definition NR_IRQ_HOOKS : Z := 128.
Definition NULL_PRIV_ID : Z := -1.
Definition NR_BOOT_PROCS : Z := 17.
Definition NR_STATIC_PRIV_IDS : Z := NR_BOOT_PROCS.

(** Process numbers of the tasks and servers of the boot image. *)
Definition ASYNCM : Z := -5.
Definition IDLE : Z := -4.
Definition CLOCK : Z := -3.
Definition SYSTEM : Z := -2.
Definition KERNEL : Z := -1.
Definition HARDWARE : Z := KERNEL.
Definition PM_PROC_NR : Z := 0.
Definition VFS_PROC_NR : Z := 1.
Definition RS_PROC_NR : Z := 2.
Definition SCHED_PROC_NR : Z := 4.
Definition VM_PROC_NR : Z := 8.
Definition ROOT_USR_PROC_NR : Z := 11.
Definition USER_PRIV_ID : Z := NR_TASKS + ROOT_USR_PROC_NR.

Definition idle_proc : Z := -100.
Definition idle_priv : Z := 1000.

(** Error codes ([sys/errno.h] with [_SIGN] negative). *)
Definition OK : Z := 0.
Definition EPERM : Z := -1.
Definition ENOENT : Z := -2.
Definition ESRCH : Z := -3.
Definition E2BIG : Z := -7.
Definition ENOMEM : Z := -12.
Definition EFAULT : Z := -14.
Definition EBUSY : Z := -16.
Definition EINVAL : Z := -22.
Definition ENOSPC : Z := -28.
Definition EDOM : Z := -33.
Definition EAGAIN : Z := -35.
Definition ENOTREADY : Z := -201.
Definition EDEADSRCDST : Z := -202.
Definition EDONTREPLY : Z := -203.
Definition ELOCKED : Z := -208.
Definition EBADCALL : Z := -209.
Definition ECALLDENIED : Z := -210.
Definition ETRAPDENIED : Z := -211.
Definition EBADREQUEST : Z := -212.

(** Runtime flags: a process is runnable iff they are all clear. *)
Definition RTS_SLOT_FREE : Z := 0x01.
Definition RTS_PROC_STOP : Z := 0x02.
Definition RTS_SENDING : Z := 0x04.
Definition RTS_RECEIVING : Z := 0x08.
Definition RTS_SIGNALED : Z := 0x10.
Definition RTS_SIG_PENDING : Z := 0x20.
Definition RTS_P_STOP : Z := 0x40.
Definition RTS_NO_PRIV : Z := 0x80.
Definition RTS_NO_ENDPOINT : Z := 0x100.
Definition RTS_VMINHIBIT : Z := 0x200.
Definition RTS_PAGEFAULT : Z := 0x400.
Definition RTS_VMREQUEST : Z := 0x800.
Definition RTS_VMREQTARGET : Z := 0x1000.
Definition RTS_PREEMPTED : Z := 0x4000.
Definition RTS_NO_QUANTUM : Z := 0x8000.
Definition RTS_BOOTINHIBIT : Z := 0x10000.

(** Misc flags: they do not suspend the process. *)
Definition MF_REPLY_PEND : Z := 0x001.
Definition MF_VIRT_TIMER : Z := 0x002.
Definition MF_PROF_TIMER : Z := 0x004.
Definition MF_KCALL_RESUME : Z := 0x008.
Definition MF_DELIVERMSG : Z := 0x040.
Definition MF_SIG_DELAY : Z := 0x080.
Definition MF_SC_ACTIVE : Z := 0x100.
Definition MF_SC_DEFER : Z := 0x200.
Definition MF_SC_TRACE : Z := 0x400.
Definition MF_FPU_INITIALIZED : Z := 0x1000.
Definition MF_SENDING_FROM_KERNEL : Z := 0x2000.
Definition MF_CONTEXT_SET : Z := 0x4000.
Definition MF_SPROF_SEEN : Z := 0x8000.
Definition MF_STEP : Z := 0x40000.
Definition MF_MSGFAILED : Z := 0x80000.
Definition MF_NICED : Z := 0x100000.

(** Privilege flags ([include/minix/const.h]). *)
Definition PREEMPTIBLE : Z := 0x002.
Definition BILLABLE : Z := 0x004.
Definition DYN_PRIV_ID : Z := 0x008.
Definition SYS_PROC : Z := 0x010.
Definition CHECK_IO_PORT : Z := 0x020.
Definition CHECK_IRQ : Z := 0x040.
Definition CHECK_MEM : Z := 0x080.

Ltac flag_instance k := refine {| bit_of := k |}; [lia | reflexivity].
#[export] Instance bit_slot_free : SingleBit RTS_SLOT_FREE. Proof. flag_instance 0. Defined.
#[export] Instance bit_proc_stop : SingleBit RTS_PROC_STOP. Proof. flag_instance 1. Defined.
#[export] Instance bit_sending : SingleBit RTS_SENDING. Proof. flag_instance 2. Defined.
#[export] Instance bit_receiving : SingleBit RTS_RECEIVING. Proof. flag_instance 3. Defined.
#[export] Instance bit_signaled : SingleBit RTS_SIGNALED. Proof. flag_instance 4. Defined.
#[export] Instance bit_sig_pending : SingleBit RTS_SIG_PENDING. Proof. flag_instance 5. Defined.
#[export] Instance bit_p_stop : SingleBit RTS_P_STOP. Proof. flag_instance 6. Defined.
#[export] Instance bit_no_priv : SingleBit RTS_NO_PRIV. Proof. flag_instance 7. Defined.
#[export] Instance bit_no_endpoint : SingleBit RTS_NO_ENDPOINT. Proof. flag_instance 8. Defined.
#[export] Instance bit_vminhibit : SingleBit RTS_VMINHIBIT. Proof. flag_instance 9. Defined.
#[export] Instance bit_pagefault : SingleBit RTS_PAGEFAULT. Proof. flag_instance 10. Defined.
#[export] Instance bit_vmrequest : SingleBit RTS_VMREQUEST. Proof. flag_instance 11. Defined.
#[export] Instance bit_preempted : SingleBit RTS_PREEMPTED. Proof. flag_instance 14. Defined.
#[export] Instance bit_no_quantum : SingleBit RTS_NO_QUANTUM. Proof. flag_instance 15. Defined.
#[export] Instance bit_reply_pend : SingleBit MF_REPLY_PEND. Proof. flag_instance 0. Defined.
#[export] Instance bit_delivermsg : SingleBit MF_DELIVERMSG. Proof. flag_instance 6. Defined.
#[export] Instance bit_sig_delay : SingleBit MF_SIG_DELAY. Proof. flag_instance 7. Defined.
#[export] Instance bit_sc_active : SingleBit MF_SC_ACTIVE. Proof. flag_instance 8. Defined.
#[export] Instance bit_sc_defer : SingleBit MF_SC_DEFER. Proof. flag_instance 9. Defined.
#[export] Instance bit_sc_trace : SingleBit MF_SC_TRACE. Proof. flag_instance 10. Defined.
#[export] Instance bit_from_kernel : SingleBit MF_SENDING_FROM_KERNEL. Proof. flag_instance 13. Defined.
#[export] Instance bit_preemptible : SingleBit PREEMPTIBLE. Proof. flag_instance 1. Defined.
#[export] Instance bit_billable : SingleBit BILLABLE. Proof. flag_instance 2. Defined.
#[export] Instance bit_sys_proc : SingleBit SYS_PROC. Proof. flag_instance 4. Defined.

(** ** Data *)

(** The message payloads the kernel itself builds, and uninterpreted bytes for
    the others. *)
Inductive payload :=
| M_raw (bytes : list Z)
| M_notify (timestamp interrupts sigset : Z)
| M_krn_lsys_schedule (acnt_queue acnt_deqs acnt_ipc_sync acnt_ipc_async
    acnt_preempt acnt_cpu acnt_cpu_load : Z).

(** [mac_context_t]: the contexts the kernel hooks are called with. *)
Inductive mac_context :=
| mac_ipc (mac_src mac_dst mac_call_nr : Z)
| mac_privctl (mac_caller mac_target mac_request : Z).

(** [message]. *)
Record message := mkMsg {
  m_source : Z;
  m_type : Z;
  m_body : payload
}.

Definition eta_message (r : message) : message :=
  mkMsg (m_source r) (m_type r) (m_body r).
Definition set_m_source : Z -> message -> message := ltac:(setter eta_message m_source).
Definition set_m_type : Z -> message -> message := ltac:(setter eta_message m_type).
Definition set_m_body : payload -> message -> message := ltac:(setter eta_message m_body).

(** [struct proc]: [p_accounting]. *)
Record accounting := mkAcct {
  a_enter_queue : Z; (* time when enqueued (cycles) *)
  a_time_in_queue : Z;
  a_dequeues : Z;
  a_ipc_sync : Z;
  a_ipc_async : Z;
  a_preempted : Z
}.

Definition eta_accounting (r : accounting) : accounting :=
  mkAcct (a_enter_queue r) (a_time_in_queue r) (a_dequeues r) (a_ipc_sync r)
    (a_ipc_async r) (a_preempted r).
Definition set_a_enter_queue : Z -> accounting -> accounting := ltac:(setter eta_accounting a_enter_queue).
Definition set_a_time_in_queue : Z -> accounting -> accounting := ltac:(setter eta_accounting a_time_in_queue).
Definition set_a_dequeues : Z -> accounting -> accounting := ltac:(setter eta_accounting a_dequeues).
Definition set_a_ipc_sync : Z -> accounting -> accounting := ltac:(setter eta_accounting a_ipc_sync).
Definition set_a_ipc_async : Z -> accounting -> accounting := ltac:(setter eta_accounting a_ipc_async).
Definition set_a_preempted : Z -> accounting -> accounting := ltac:(setter eta_accounting a_preempted).

(** [struct proc]: [p_vmrequest]. *)
Record vmrequest_t := mkVmreq {
  vr_nextrequestor : option Z; (* next in vmrequest chain *)
  vr_type : Z; (* suspended operation *)
  vr_reqmsg : message; (* suspended request message *)
  vr_req_type : Z;
  vr_target : Z;
  vr_start : Z;
  vr_length : Z;
  vr_writeflag : Z;
  vr_vmresult : Z
}.

Definition eta_vmrequest_t (r : vmrequest_t) : vmrequest_t :=
  mkVmreq (vr_nextrequestor r) (vr_type r) (vr_reqmsg r) (vr_req_type r) (vr_target r)
    (vr_start r) (vr_length r) (vr_writeflag r) (vr_vmresult r).
Definition set_vr_nextrequestor : option Z -> vmrequest_t -> vmrequest_t := ltac:(setter eta_vmrequest_t vr_nextrequestor).
Definition set_vr_type : Z -> vmrequest_t -> vmrequest_t := ltac:(setter eta_vmrequest_t vr_type).
Definition set_vr_reqmsg : message -> vmrequest_t -> vmrequest_t := ltac:(setter eta_vmrequest_t vr_reqmsg).
Definition set_vr_req_type : Z -> vmrequest_t -> vmrequest_t := ltac:(setter eta_vmrequest_t vr_req_type).
Definition set_vr_target : Z -> vmrequest_t -> vmrequest_t := ltac:(setter eta_vmrequest_t vr_target).
Definition set_vr_start : Z -> vmrequest_t -> vmrequest_t := ltac:(setter eta_vmrequest_t vr_start).
Definition set_vr_length : Z -> vmrequest_t -> vmrequest_t := ltac:(setter eta_vmrequest_t vr_length).
Definition set_vr_writeflag : Z -> vmrequest_t -> vmrequest_t := ltac:(setter eta_vmrequest_t vr_writeflag).
Definition set_vr_vmresult : Z -> vmrequest_t -> vmrequest_t := ltac:(setter eta_vmrequest_t vr_vmresult).

(** [struct proc] (kernel/proc.h). *)
Record proc := mkProc {
  p_retreg : Z; (* p_reg.retreg *)
  p_ipc_status : Z; (* p_reg.IPC_STATUS_REG *)
  p_nr : Z; (* number of this process *)
  p_priv : option Z; (* index in the privilege table *)
  p_rts_flags : Z; (* runnable only if zero *)
  p_misc_flags : Z;
  p_priority : Z;
  p_cpu_time_left : Z;
  p_quantum_size_ms : Z;
  p_scheduler : option Z; (* who gets the out-of-quantum message *)
  p_sched_class : Z;
  p_rt_priority : Z;
  p_kthread : Z; (* 1 for a kernel thread *)
  p_cpu : Z;
  p_accounting : accounting;
  p_dequeued : Z;
  p_user_time : Z;
  p_sys_time : Z;
  p_virt_left : Z;
  p_prof_left : Z;
  p_cycles : Z;
  p_kcall_cycles : Z;
  p_kipc_cycles : Z;
  p_tick_cycles : Z;
  p_nextready : option Z; (* next ready process *)
  p_caller_q : option Z; (* list of procs wishing to send *)
  p_q_link : option Z; (* next proc wishing to send *)
  p_getfrom_e : Z;
  p_sendto_e : Z;
  p_pending : Z; (* pending kernel signals *)
  p_name : string;
  p_endpoint : Z;
  p_sendmsg : message;
  p_delivermsg : message;
  p_delivermsg_vir : Z;
  p_vmrequest : vmrequest_t;
  p_magic : Z;
  p_defer : Z * Z * Z;
  p_drvqueue : option Z (* the CPU whose driver queue the process uses *)
}.

Definition eta_proc (r : proc) : proc :=
  mkProc (p_retreg r) (p_ipc_status r) (p_nr r) (p_priv r) (p_rts_flags r)
    (p_misc_flags r) (p_priority r) (p_cpu_time_left r) (p_quantum_size_ms r)
    (p_scheduler r) (p_sched_class r) (p_rt_priority r) (p_kthread r) (p_cpu r)
    (p_accounting r) (p_dequeued r) (p_user_time r) (p_sys_time r) (p_virt_left r)
    (p_prof_left r) (p_cycles r) (p_kcall_cycles r) (p_kipc_cycles r) (p_tick_cycles r)
    (p_nextready r) (p_caller_q r) (p_q_link r) (p_getfrom_e r) (p_sendto_e r)
    (p_pending r) (p_name r) (p_endpoint r) (p_sendmsg r) (p_delivermsg r)
    (p_delivermsg_vir r) (p_vmrequest r) (p_magic r) (p_defer r) (p_drvqueue r).
Definition set_p_retreg : Z -> proc -> proc := ltac:(setter eta_proc p_retreg).
Definition set_p_ipc_status : Z -> proc -> proc := ltac:(setter eta_proc p_ipc_status).
Definition set_p_nr : Z -> proc -> proc := ltac:(setter eta_proc p_nr).
Definition set_p_priv : option Z -> proc -> proc := ltac:(setter eta_proc p_priv).
Definition set_p_rts_flags : Z -> proc -> proc := ltac:(setter eta_proc p_rts_flags).
Definition set_p_misc_flags : Z -> proc -> proc := ltac:(setter eta_proc p_misc_flags).
Definition set_p_priority : Z -> proc -> proc := ltac:(setter eta_proc p_priority).
Definition set_p_cpu_time_left : Z -> proc -> proc := ltac:(setter eta_proc p_cpu_time_left).
Definition set_p_quantum_size_ms : Z -> proc -> proc := ltac:(setter eta_proc p_quantum_size_ms).
Definition set_p_scheduler : option Z -> proc -> proc := ltac:(setter eta_proc p_scheduler).
Definition set_p_sched_class : Z -> proc -> proc := ltac:(setter eta_proc p_sched_class).
Definition set_p_rt_priority : Z -> proc -> proc := ltac:(setter eta_proc p_rt_priority).
Definition set_p_kthread : Z -> proc -> proc := ltac:(setter eta_proc p_kthread).
Definition set_p_cpu : Z -> proc -> proc := ltac:(setter eta_proc p_cpu).
Definition set_p_accounting : accounting -> proc -> proc := ltac:(setter eta_proc p_accounting).
Definition set_p_dequeued : Z -> proc -> proc := ltac:(setter eta_proc p_dequeued).
Definition set_p_user_time : Z -> proc -> proc := ltac:(setter eta_proc p_user_time).
Definition set_p_sys_time : Z -> proc -> proc := ltac:(setter eta_proc p_sys_time).
Definition set_p_virt_left : Z -> proc -> proc := ltac:(setter eta_proc p_virt_left).
Definition set_p_prof_left : Z -> proc -> proc := ltac:(setter eta_proc p_prof_left).
Definition set_p_cycles : Z -> proc -> proc := ltac:(setter eta_proc p_cycles).
Definition set_p_kcall_cycles : Z -> proc -> proc := ltac:(setter eta_proc p_kcall_cycles).
Definition set_p_kipc_cycles : Z -> proc -> proc := ltac:(setter eta_proc p_kipc_cycles).
Definition set_p_tick_cycles : Z -> proc -> proc := ltac:(setter eta_proc p_tick_cycles).
Definition set_p_nextready : option Z -> proc -> proc := ltac:(setter eta_proc p_nextready).
Definition set_p_caller_q : option Z -> proc -> proc := ltac:(setter eta_proc p_caller_q).
Definition set_p_q_link : option Z -> proc -> proc := ltac:(setter eta_proc p_q_link).
Definition set_p_getfrom_e : Z -> proc -> proc := ltac:(setter eta_proc p_getfrom_e).
Definition set_p_sendto_e : Z -> proc -> proc := ltac:(setter eta_proc p_sendto_e).
Definition set_p_pending : Z -> proc -> proc := ltac:(setter eta_proc p_pending).
Definition set_p_name : string -> proc -> proc := ltac:(setter eta_proc p_name).
Definition set_p_endpoint : Z -> proc -> proc := ltac:(setter eta_proc p_endpoint).
Definition set_p_sendmsg : message -> proc -> proc := ltac:(setter eta_proc p_sendmsg).
Definition set_p_delivermsg : message -> proc -> proc := ltac:(setter eta_proc p_delivermsg).
Definition set_p_delivermsg_vir : Z -> proc -> proc := ltac:(setter eta_proc p_delivermsg_vir).
Definition set_p_vmrequest : vmrequest_t -> proc -> proc := ltac:(setter eta_proc p_vmrequest).
Definition set_p_magic : Z -> proc -> proc := ltac:(setter eta_proc p_magic).
Definition set_p_defer : Z * Z * Z -> proc -> proc := ltac:(setter eta_proc p_defer).
Definition set_p_drvqueue : option Z -> proc -> proc := ltac:(setter eta_proc p_drvqueue).

Record io_range := mkIo {
  ior_base : Z;
  ior_limit : Z
}.

Record mem_range := mkMem {
  mr_base : Z;
  mr_limit : Z
}.

(** [struct priv] (kernel/priv.h); the I/O, memory and IRQ tables are lists whose length is the C counter. *)
Record priv := mkPriv {
  s_proc_nr : Z; (* associated process *)
  s_id : Z;
  s_flags : Z;
  s_init_flags : Z;
  s_asyntab : Z;
  s_asynsize : Z;
  s_asynendpoint : Z;
  s_trap_mask : Z;
  s_ipc_to : sys_map;
  s_k_call_mask : list Z;
  s_sig_mgr : Z;
  s_bak_sig_mgr : Z;
  s_notify_pending : sys_map;
  s_asyn_pending : sys_map;
  s_int_pending : Z;
  s_sig_pending : Z;
  s_ipcf : option Z; (* first filter in the pool *)
  s_stack_guard : option Z; (* the guard word; None is a null pointer *)
  s_diag_sig : bool;
  s_io_tab : list io_range;
  s_mem_tab : list mem_range;
  s_irq_tab : list Z;
  s_cap_effective : Z;
  s_cap_permitted : Z;
  s_cap_bound : Z;
  s_grant_table : Z;
  s_grant_entries : Z;
  s_grant_endpoint : Z;
  s_state_table : Z;
  s_state_entries : Z
}.

Definition eta_priv (r : priv) : priv :=
  mkPriv (s_proc_nr r) (s_id r) (s_flags r) (s_init_flags r) (s_asyntab r)
    (s_asynsize r) (s_asynendpoint r) (s_trap_mask r) (s_ipc_to r) (s_k_call_mask r)
    (s_sig_mgr r) (s_bak_sig_mgr r) (s_notify_pending r) (s_asyn_pending r)
    (s_int_pending r) (s_sig_pending r) (s_ipcf r) (s_stack_guard r) (s_diag_sig r)
    (s_io_tab r) (s_mem_tab r) (s_irq_tab r) (s_cap_effective r) (s_cap_permitted r)
    (s_cap_bound r) (s_grant_table r) (s_grant_entries r) (s_grant_endpoint r)
    (s_state_table r) (s_state_entries r).
Definition set_s_proc_nr : Z -> priv -> priv := ltac:(setter eta_priv s_proc_nr).
Definition set_s_id : Z -> priv -> priv := ltac:(setter eta_priv s_id).
Definition set_s_flags : Z -> priv -> priv := ltac:(setter eta_priv s_flags).
Definition set_s_init_flags : Z -> priv -> priv := ltac:(setter eta_priv s_init_flags).
Definition set_s_asyntab : Z -> priv -> priv := ltac:(setter eta_priv s_asyntab).
Definition set_s_asynsize : Z -> priv -> priv := ltac:(setter eta_priv s_asynsize).
Definition set_s_asynendpoint : Z -> priv -> priv := ltac:(setter eta_priv s_asynendpoint).
Definition set_s_trap_mask : Z -> priv -> priv := ltac:(setter eta_priv s_trap_mask).
Definition set_s_ipc_to : sys_map -> priv -> priv := ltac:(setter eta_priv s_ipc_to).
Definition set_s_k_call_mask : list Z -> priv -> priv := ltac:(setter eta_priv s_k_call_mask).
Definition set_s_sig_mgr : Z -> priv -> priv := ltac:(setter eta_priv s_sig_mgr).
Definition set_s_bak_sig_mgr : Z -> priv -> priv := ltac:(setter eta_priv s_bak_sig_mgr).
Definition set_s_notify_pending : sys_map -> priv -> priv := ltac:(setter eta_priv s_notify_pending).
Definition set_s_asyn_pending : sys_map -> priv -> priv := ltac:(setter eta_priv s_asyn_pending).
Definition set_s_int_pending : Z -> priv -> priv := ltac:(setter eta_priv s_int_pending).
Definition set_s_sig_pending : Z -> priv -> priv := ltac:(setter eta_priv s_sig_pending).
Definition set_s_ipcf : option Z -> priv -> priv := ltac:(setter eta_priv s_ipcf).
Definition set_s_stack_guard : option Z -> priv -> priv := ltac:(setter eta_priv s_stack_guard).
Definition set_s_diag_sig : bool -> priv -> priv := ltac:(setter eta_priv s_diag_sig).
Definition set_s_io_tab : list io_range -> priv -> priv := ltac:(setter eta_priv s_io_tab).
Definition set_s_mem_tab : list mem_range -> priv -> priv := ltac:(setter eta_priv s_mem_tab).
Definition set_s_irq_tab : list Z -> priv -> priv := ltac:(setter eta_priv s_irq_tab).
Definition set_s_cap_effective : Z -> priv -> priv := ltac:(setter eta_priv s_cap_effective).
Definition set_s_cap_permitted : Z -> priv -> priv := ltac:(setter eta_priv s_cap_permitted).
Definition set_s_cap_bound : Z -> priv -> priv := ltac:(setter eta_priv s_cap_bound).
Definition set_s_grant_table : Z -> priv -> priv := ltac:(setter eta_priv s_grant_table).
Definition set_s_grant_entries : Z -> priv -> priv := ltac:(setter eta_priv s_grant_entries).
Definition set_s_grant_endpoint : Z -> priv -> priv := ltac:(setter eta_priv s_grant_endpoint).
Definition set_s_state_table : Z -> priv -> priv := ltac:(setter eta_priv s_state_table).
Definition set_s_state_entries : Z -> priv -> priv := ltac:(setter eta_priv s_state_entries).

(** [ipc_filter_el_t] (include/minix/ipc_filter.h). *)
Record ipc_filter_el := mkIpcfEl {
  el_flags : Z;
  el_m_source : Z;
  el_m_type : Z
}.

(** [ipc_filter_t] (kernel/ipc_filter.h). *)
Record ipc_filter := mkIpcf {
  f_type : Z;
  f_flags : Z;
  f_next : option Z;
  f_elements : list ipc_filter_el
}.

Definition eta_ipc_filter (r : ipc_filter) : ipc_filter :=
  mkIpcf (f_type r) (f_flags r) (f_next r) (f_elements r).
Definition set_f_type : Z -> ipc_filter -> ipc_filter := ltac:(setter eta_ipc_filter f_type).
Definition set_f_flags : Z -> ipc_filter -> ipc_filter := ltac:(setter eta_ipc_filter f_flags).
Definition set_f_next : option Z -> ipc_filter -> ipc_filter := ltac:(setter eta_ipc_filter f_next).
Definition set_f_elements : list ipc_filter_el -> ipc_filter -> ipc_filter := ltac:(setter eta_ipc_filter f_elements).

(** [asynmsg_t] (include/minix/ipc.h). *)
Record asynmsg := mkAsyn {
  am_flags : Z;
  am_dst : Z;
  am_result : Z;
  am_msg : message
}.

Definition eta_asynmsg (r : asynmsg) : asynmsg :=
  mkAsyn (am_flags r) (am_dst r) (am_result r) (am_msg r).
Definition set_am_flags : Z -> asynmsg -> asynmsg := ltac:(setter eta_asynmsg am_flags).
Definition set_am_dst : Z -> asynmsg -> asynmsg := ltac:(setter eta_asynmsg am_dst).
Definition set_am_result : Z -> asynmsg -> asynmsg := ltac:(setter eta_asynmsg am_result).
Definition set_am_msg : message -> asynmsg -> asynmsg := ltac:(setter eta_asynmsg am_msg).

(** [cp_grant_t] (include/minix/safecopies.h); the union [cp_u] is kept as its words, which the three kinds of grant share. *)
Record cp_grant := mkGrant {
  cp_flags : Z;
  cp_seq : Z;
  cp_w0 : Z; (* the int at offset 0 of the union *)
  cp_w4 : Z; (* the int at offset 4 *)
  cp_w8 : Z; (* the long at offset 8 *)
  cp_w16 : Z; (* the long at offset 16 *)
  cp_faulted : Z
}.

Definition eta_cp_grant (r : cp_grant) : cp_grant :=
  mkGrant (cp_flags r) (cp_seq r) (cp_w0 r) (cp_w4 r) (cp_w8 r) (cp_w16 r)
    (cp_faulted r).
Definition set_cp_flags : Z -> cp_grant -> cp_grant := ltac:(setter eta_cp_grant cp_flags).
Definition set_cp_seq : Z -> cp_grant -> cp_grant := ltac:(setter eta_cp_grant cp_seq).
Definition set_cp_w0 : Z -> cp_grant -> cp_grant := ltac:(setter eta_cp_grant cp_w0).
Definition set_cp_w4 : Z -> cp_grant -> cp_grant := ltac:(setter eta_cp_grant cp_w4).
Definition set_cp_w8 : Z -> cp_grant -> cp_grant := ltac:(setter eta_cp_grant cp_w8).
Definition set_cp_w16 : Z -> cp_grant -> cp_grant := ltac:(setter eta_cp_grant cp_w16).
Definition set_cp_faulted : Z -> cp_grant -> cp_grant := ltac:(setter eta_cp_grant cp_faulted).

(** [irq_hook_t] (kernel/type.h); the handler of every hook of the table is [generic_handler]. *)
Record irq_hook := mkHook {
  h_next : option Z; (* next hook in chain *)
  h_irq : Z;
  h_id : Z;
  h_proc_nr_e : Z; (* NONE if not in use *)
  h_notify_id : Z;
  h_policy : Z
}.

Definition eta_irq_hook (r : irq_hook) : irq_hook :=
  mkHook (h_next r) (h_irq r) (h_id r) (h_proc_nr_e r) (h_notify_id r) (h_policy r).
Definition set_h_next : option Z -> irq_hook -> irq_hook := ltac:(setter eta_irq_hook h_next).
Definition set_h_irq : Z -> irq_hook -> irq_hook := ltac:(setter eta_irq_hook h_irq).
Definition set_h_id : Z -> irq_hook -> irq_hook := ltac:(setter eta_irq_hook h_id).
Definition set_h_proc_nr_e : Z -> irq_hook -> irq_hook := ltac:(setter eta_irq_hook h_proc_nr_e).
Definition set_h_notify_id : Z -> irq_hook -> irq_hook := ltac:(setter eta_irq_hook h_notify_id).
Definition set_h_policy : Z -> irq_hook -> irq_hook := ltac:(setter eta_irq_hook h_policy).

(** [struct irq_thread] (kernel/irq_thread.h); the only handler ever registered is [irq_thread_device_handler]. *)
Record irq_thread := mkIthr {
  it_irq : Z;
  it_rt_prio : Z;
  it_endpoint : Z;
  it_handler : bool; (* irq_thread_device_handler, or NULL *)
  it_registered : Z;
  it_proc : option Z;
  it_handled_count : Z;
  it_run_count : Z;
  it_signal_tsc : Z;
  it_last_latency : Z;
  it_max_latency : Z;
  it_total_latency : Z
}.

Definition eta_irq_thread (r : irq_thread) : irq_thread :=
  mkIthr (it_irq r) (it_rt_prio r) (it_endpoint r) (it_handler r) (it_registered r)
    (it_proc r) (it_handled_count r) (it_run_count r) (it_signal_tsc r)
    (it_last_latency r) (it_max_latency r) (it_total_latency r).
Definition set_it_irq : Z -> irq_thread -> irq_thread := ltac:(setter eta_irq_thread it_irq).
Definition set_it_rt_prio : Z -> irq_thread -> irq_thread := ltac:(setter eta_irq_thread it_rt_prio).
Definition set_it_endpoint : Z -> irq_thread -> irq_thread := ltac:(setter eta_irq_thread it_endpoint).
Definition set_it_handler : bool -> irq_thread -> irq_thread := ltac:(setter eta_irq_thread it_handler).
Definition set_it_registered : Z -> irq_thread -> irq_thread := ltac:(setter eta_irq_thread it_registered).
Definition set_it_proc : option Z -> irq_thread -> irq_thread := ltac:(setter eta_irq_thread it_proc).
Definition set_it_handled_count : Z -> irq_thread -> irq_thread := ltac:(setter eta_irq_thread it_handled_count).
Definition set_it_run_count : Z -> irq_thread -> irq_thread := ltac:(setter eta_irq_thread it_run_count).
Definition set_it_signal_tsc : Z -> irq_thread -> irq_thread := ltac:(setter eta_irq_thread it_signal_tsc).
Definition set_it_last_latency : Z -> irq_thread -> irq_thread := ltac:(setter eta_irq_thread it_last_latency).
Definition set_it_max_latency : Z -> irq_thread -> irq_thread := ltac:(setter eta_irq_thread it_max_latency).
Definition set_it_total_latency : Z -> irq_thread -> irq_thread := ltac:(setter eta_irq_thread it_total_latency).

(** [struct irq_thread_mmio] (kernel/irq_thread.c). *)
Record irq_thread_mmio := mkMmio {
  mm_valid : Z;
  mm_phys_addr : Z;
  mm_virt_addr : Z
}.

(** [struct loadinfo] (include/minix/type.h). *)
Record loadinfo := mkLoad {
  proc_last_slot : Z;
  proc_load_history : gmap Z Z;
  last_clock : Z
}.

Definition eta_loadinfo (r : loadinfo) : loadinfo :=
  mkLoad (proc_last_slot r) (proc_load_history r) (last_clock r).
Definition set_proc_last_slot : Z -> loadinfo -> loadinfo := ltac:(setter eta_loadinfo proc_last_slot).
Definition set_proc_load_history : gmap Z Z -> loadinfo -> loadinfo := ltac:(setter eta_loadinfo proc_load_history).
Definition set_last_clock : Z -> loadinfo -> loadinfo := ltac:(setter eta_loadinfo last_clock).

(** The kernel's global state. *)
Record kstate := mkK {
  procs : gmap Z proc; (* the process table *)
  privs : gmap Z priv; (* the privilege table *)
  ipc_filter_pool : gmap Z ipc_filter;
  run_q_head : gmap Z Z;
  run_q_tail : gmap Z Z;
  proc_ptr : Z; (* the running process *)
  bill_ptr : Z;
  vmrequest : option Z; (* list of procs waiting for VM *)
  k_tsc : Z; (* what read_tsc_64 reads *)
  k_monotonic : Z; (* what get_monotonic returns *)
  k_tsc_per_ms : Z;
  k_cpu_load : Z; (* what cpu_load returns *)
  k_notify_buff : message; (* m_notify_buff *)
  k_mac_hooks : list Z; (* registered hook functions *)
  k_hook_fn : Z -> Z -> mac_context -> Z; (* the code of a hook function *)
  umem : gmap (Z * Z) message; (* user messages *)
  atab : gmap (Z * Z) asynmsg; (* user tables of asynchronous messages *)
  gtab : gmap (Z * Z) cp_grant; (* user grant-table entries *)
  k_timers : tqueue; (* s_alarm_timer of each priv, clock_timers *)
  k_realtime : Z;
  k_boottime : Z;
  adjtime_delta : Z;
  system_hz : Z;
  kloadinfo : loadinfo;
  irq_hooks : gmap Z irq_hook;
  irq_handlers : gmap Z Z; (* first hook of each line *)
  irq_actids : gmap Z Z; (* active hooks of each line *)
  hw_masked : gmap Z bool; (* lines masked at the interrupt controller *)
  msix_bitmap : Z;
  irq_threads : gmap Z irq_thread; (* irq_thread_table *)
  irq_mmio : gmap Z irq_thread_mmio;
  k_audit : audit_ring; (* audit_buf, audit_write_idx, audit_serial *)
  urec : gmap (Z * Z) audit_record; (* user buffers of audit records *)
  drv_queues : gmap Z drv_queue (* cpu_drv_queues *)
}.

Definition eta_kstate (r : kstate) : kstate :=
  mkK (procs r) (privs r) (ipc_filter_pool r) (run_q_head r) (run_q_tail r) (proc_ptr r)
    (bill_ptr r) (vmrequest r) (k_tsc r) (k_monotonic r) (k_tsc_per_ms r) (k_cpu_load r)
    (k_notify_buff r) (k_mac_hooks r) (k_hook_fn r) (umem r) (atab r) (gtab r)
    (k_timers r) (k_realtime r) (k_boottime r) (adjtime_delta r) (system_hz r)
    (kloadinfo r) (irq_hooks r) (irq_handlers r) (irq_actids r) (hw_masked r)
    (msix_bitmap r) (irq_threads r) (irq_mmio r) (k_audit r) (urec r) (drv_queues r).
Definition set_procs : gmap Z proc -> kstate -> kstate := ltac:(setter eta_kstate procs).
Definition set_privs : gmap Z priv -> kstate -> kstate := ltac:(setter eta_kstate privs).
Definition set_ipc_filter_pool : gmap Z ipc_filter -> kstate -> kstate := ltac:(setter eta_kstate ipc_filter_pool).
Definition set_run_q_head : gmap Z Z -> kstate -> kstate := ltac:(setter eta_kstate run_q_head).
Definition set_run_q_tail : gmap Z Z -> kstate -> kstate := ltac:(setter eta_kstate run_q_tail).
Definition set_proc_ptr : Z -> kstate -> kstate := ltac:(setter eta_kstate proc_ptr).
Definition set_bill_ptr : Z -> kstate -> kstate := ltac:(setter eta_kstate bill_ptr).
Definition set_vmrequest : option Z -> kstate -> kstate := ltac:(setter eta_kstate vmrequest).
Definition set_k_tsc : Z -> kstate -> kstate := ltac:(setter eta_kstate k_tsc).
Definition set_k_monotonic : Z -> kstate -> kstate := ltac:(setter eta_kstate k_monotonic).
Definition set_k_tsc_per_ms : Z -> kstate -> kstate := ltac:(setter eta_kstate k_tsc_per_ms).
Definition set_k_cpu_load : Z -> kstate -> kstate := ltac:(setter eta_kstate k_cpu_load).
Definition set_k_notify_buff : message -> kstate -> kstate := ltac:(setter eta_kstate k_notify_buff).
Definition set_k_mac_hooks : list Z -> kstate -> kstate := ltac:(setter eta_kstate k_mac_hooks).
Definition set_k_hook_fn : (Z -> Z -> mac_context -> Z) -> kstate -> kstate := ltac:(setter eta_kstate k_hook_fn).
Definition set_umem : gmap (Z * Z) message -> kstate -> kstate := ltac:(setter eta_kstate umem).
Definition set_atab : gmap (Z * Z) asynmsg -> kstate -> kstate := ltac:(setter eta_kstate atab).
Definition set_gtab : gmap (Z * Z) cp_grant -> kstate -> kstate := ltac:(setter eta_kstate gtab).
Definition set_k_timers : tqueue -> kstate -> kstate := ltac:(setter eta_kstate k_timers).
Definition set_k_realtime : Z -> kstate -> kstate := ltac:(setter eta_kstate k_realtime).
Definition set_k_boottime : Z -> kstate -> kstate := ltac:(setter eta_kstate k_boottime).
Definition set_adjtime_delta : Z -> kstate -> kstate := ltac:(setter eta_kstate adjtime_delta).
Definition set_system_hz : Z -> kstate -> kstate := ltac:(setter eta_kstate system_hz).
Definition set_kloadinfo : loadinfo -> kstate -> kstate := ltac:(setter eta_kstate kloadinfo).
Definition set_irq_hooks : gmap Z irq_hook -> kstate -> kstate := ltac:(setter eta_kstate irq_hooks).
Definition set_irq_handlers : gmap Z Z -> kstate -> kstate := ltac:(setter eta_kstate irq_handlers).
Definition set_irq_actids : gmap Z Z -> kstate -> kstate := ltac:(setter eta_kstate irq_actids).
Definition set_hw_masked : gmap Z bool -> kstate -> kstate := ltac:(setter eta_kstate hw_masked).
Definition set_msix_bitmap : Z -> kstate -> kstate := ltac:(setter eta_kstate msix_bitmap).
Definition set_irq_threads : gmap Z irq_thread -> kstate -> kstate := ltac:(setter eta_kstate irq_threads).
Definition set_irq_mmio : gmap Z irq_thread_mmio -> kstate -> kstate := ltac:(setter eta_kstate irq_mmio).
Definition set_k_audit : audit_ring -> kstate -> kstate := ltac:(setter eta_kstate k_audit).
Definition set_urec : gmap (Z * Z) audit_record -> kstate -> kstate := ltac:(setter eta_kstate urec).
Definition set_drv_queues : gmap Z drv_queue -> kstate -> kstate := ltac:(setter eta_kstate drv_queues).

(** ** The kernel monad *)
Definition K (A : Type) : Type := M kstate A.

(** [proc_addr(n)->...] and its update; an index outside the table is undefined. *)
Definition get_proc (n : Z) : K proc := fun s =>
  match procs s !! n with Some p => Done p s | None => Stop BadAccess end.
Definition upd_proc (n : Z) (f : proc -> proc) : K unit := fun s =>
  match procs s !! n with
  | Some p => Done tt (set_procs (<[n := f p]> (procs s)) s)
  | None => Stop BadAccess
  end.

(** [priv[id]], and [priv(rp)], the structure [rp->p_priv] points to. *)
Definition get_priv_id (id : Z) : K priv := fun s =>
  match privs s !! id with Some p => Done p s | None => Stop BadAccess end.
Definition upd_priv_id (id : Z) (f : priv -> priv) : K unit := fun s =>
  match privs s !! id with
  | Some p => Done tt (set_privs (<[id := f p]> (privs s)) s)
  | None => Stop BadAccess
  end.
Definition priv_of (p : proc) : K priv :=
  match p_priv p with Some id => get_priv_id id | None => halt BadAccess end.
Definition upd_priv_of (p : proc) (f : priv -> priv) : K unit :=
  match p_priv p with Some id => upd_priv_id id f | None => halt BadAccess end.

(** ** Macros of [kernel/proc.h] *)
Definition isokprocn (n : Z) : bool := (0 <=? n + NR_TASKS) && (n + NR_TASKS <? NR_PROCS + NR_TASKS).
Definition isemptyp (p : proc) : bool := p_rts_flags p =? RTS_SLOT_FREE.
Definition iskerneln (n : Z) : bool := n <? 0.
Definition proc_is_runnable (p : proc) : bool := p_rts_flags p =? 0.
Definition proc_ptr_ok (p : proc) : bool := p_magic p =? PMAGIC.
Definition RTS_ISSET (p : proc) (f : Z) : bool := isset (p_rts_flags p) f.
Definition MF_ISSET (p : proc) (f : Z) : bool := has (p_misc_flags p) f.
Definition proc_kernel_scheduler (p : proc) : bool :=
  match p_scheduler p with None => true | Some n => n =? p_nr p end.
Definition P_BLOCKEDON (p : proc) : Z :=
  if has (p_rts_flags p) RTS_SENDING then p_sendto_e p
  else if has (p_rts_flags p) RTS_RECEIVING then p_getfrom_e p
  else NONE.

Definition proc_table : list Z := map (fun i => Z.of_nat i - NR_TASKS) (seq 0 (Z.to_nat (NR_PROCS + NR_TASKS))).
Definition priv_table : list Z := map Z.of_nat (seq 0 (Z.to_nat NR_SYS_PROCS)).
Definition irq_hook_table : list Z := map Z.of_nat (seq 0 (Z.to_nat NR_IRQ_HOOKS)).
Definition irq_vectors : list Z := map Z.of_nat (seq 0 (Z.to_nat NR_IRQ_VECTORS)).

(** [isokendpt_f]: the slot of an endpoint, when a live process of that slot
    carries exactly this endpoint. *)
Definition isokendpt (e : Z) : K (option Z) :=
  let n := ENDPOINT_P e in
  if isokprocn n then
    p <- get_proc n ;;
    ret (if negb (isemptyp p) && (p_endpoint p =? e) then Some n else None)
  else ret None.

(** [okendpt]: the same, fatal when the endpoint is not valid. *)
Definition okendpt (e : Z) : K Z :=
  r <- isokendpt e ;;
  match r with Some n => ret n | None => halt Panic end.

(** ** Computation rules of the monad *)
Section Compute.
Context {A : Type}.
Implicit Types (s : kstate).

Lemma bind_get_proc n p (k : proc -> K A) s :
  procs s !! n = Some p -> bind (get_proc n) k s = k p s.
Proof. intros H. unfold bind, get_proc. by rewrite H. Qed.
Lemma bind_upd_proc n p f (k : unit -> K A) s :
  procs s !! n = Some p ->
  bind (upd_proc n f) k s = k tt (set_procs (<[n := f p]> (procs s)) s).
Proof. intros H. unfold bind, upd_proc. by rewrite H. Qed.
Lemma bind_priv_of p id pv (k : priv -> K A) s :
  p_priv p = Some id -> privs s !! id = Some pv -> bind (priv_of p) k s = k pv s.
Proof. intros H1 H2. unfold bind, priv_of, get_priv_id. by rewrite H1, H2. Qed.
End Compute.

Lemma upd_proc_done n p f s :
  procs s !! n = Some p ->
  upd_proc n f s = Done tt (set_procs (<[n := f p]> (procs s)) s).
Proof. intros H. unfold upd_proc. by rewrite H. Qed.

Lemma get_proc_done n p s : procs s !! n = Some p -> get_proc n s = Done p s.
Proof. intros H. unfold get_proc. by rewrite H. Qed.
