(* ===== verification/Sched.v ===== *)
(** * Run queues and the scheduling classes

    Models the scheduling half of [kernel/proc.c] ([enqueue], [enqueue_head],
    [dequeue], [pick_proc]), the runtime-flag macros of [kernel/proc.h]
    ([RTS_SET], [RTS_UNSET], [RTS_SETFLAGS]), the real-time classes of
    [kernel/sched_rt.c] and [kernel/sched_rt.h], [sched_proc] of
    [kernel/system.c] and the kernel calls [do_schedule], [do_schedctl] and
    [do_setscheduler].

    The run queues are kept the way the code keeps them, as arrays of head and
    tail pointers into the process table linked by [p_nextready]; the theorems
    relate them to one list of processes per priority. *)

From S2P Require Import Prelude Monad Timers Endpoint Chain Kernel.

(** ** Operations *)

Definition cpuid : Z := 0.

(** [ms_2_cpu_time]. *)
Definition ms_2_cpu_time (ms : Z) : K Z :=
  f <- gets k_tsc_per_ms ;; ret (u64 (f * ms)).

(** *** Real-time classes *)
Definition SCHED_OTHER : Z := 0.
Definition SCHED_FIFO : Z := 1.
Definition SCHED_RR : Z := 2.
Definition RT_PRIO_MIN : Z := 1.
Definition RT_PRIO_MAX : Z := 99.
Definition RT_RR_QUANTUM_MS : Z := 100.

Definition rt_prio_to_queue (rt_prio : Z) : Z :=
  if rt_prio <=? 0 then -1
  else if RT_PRIO_MAX <=? rt_prio then 0
  else (NR_SCHED_QUEUES - 1) -
       Z.quot ((rt_prio - RT_PRIO_MIN) * (NR_SCHED_QUEUES - 1)) (RT_PRIO_MAX - RT_PRIO_MIN).

Definition proc_is_rt (p : proc) : bool :=
  (p_sched_class p =? SCHED_FIFO) || (p_sched_class p =? SCHED_RR).

Definition proc_effective_prio (p : proc) : Z :=
  if proc_is_rt p then rt_prio_to_queue (p_rt_priority p) else p_priority p.

Definition sched_rt_may_preempt (current new_p : proc) : bool :=
  if proc_is_rt current && proc_is_rt new_p then
    p_rt_priority current <? p_rt_priority new_p
  else if proc_is_rt new_p && negb (proc_is_rt current) then true
  else if negb (proc_is_rt new_p) then p_priority new_p <? p_priority current
  else false.

(** *** The run-queue arrays *)
Definition rdyq_ok (q : Z) : bool := (0 <=? q) && (q <? NR_SCHED_QUEUES).

Definition get_head (q : Z) : K (option Z) :=
  if rdyq_ok q then gets (fun s => run_q_head s !! q) else halt BadAccess.
Definition get_tail (q : Z) : K (option Z) :=
  if rdyq_ok q then gets (fun s => run_q_tail s !! q) else halt BadAccess.
Definition put_head (q : Z) (v : option Z) : K unit :=
  if rdyq_ok q
  then modify (fun s => set_run_q_head (partial_alter (fun _ => v) q (run_q_head s)) s)
  else halt BadAccess.
Definition put_tail (q : Z) (v : option Z) : K unit :=
  if rdyq_ok q
  then modify (fun s => set_run_q_tail (partial_alter (fun _ => v) q (run_q_tail s)) s)
  else halt BadAccess.

(** A pointer to a queue pointer ([struct proc **xpp]): the head of a run queue
    or the link of a process. *)
Inductive rq_loc := RqHead (q : Z) | RqNext (n : Z).

Definition read_loc (x : rq_loc) : K (option Z) :=
  match x with
  | RqHead q => get_head q
  | RqNext n => p <- get_proc n ;; ret (p_nextready p)
  end.
Definition write_loc (x : rq_loc) (v : option Z) : K unit :=
  match x with
  | RqHead q => put_head q v
  | RqNext n => upd_proc n (set_p_nextready v)
  end.

(** One more than the number of slots: a walk over a run queue visits each
    process at most once and then reads the final [NULL]. *)
Definition rq_fuel : nat := S (Z.to_nat (NR_PROCS + NR_TASKS)).

Fixpoint dequeue_loop (fuel : nat) (rp q : Z) (prev_xp : option Z) (xpp : rq_loc) : K unit :=
  match fuel with
  | O => halt NoFuel
  | S fuel' =>
      cur <- read_loc xpp ;;
      match cur with
      | None => ret tt
      | Some x =>
          if x =? rp then
            px <- get_proc x ;;
            write_loc xpp (p_nextready px) ;;
            t <- get_tail q ;;
            if bool_decide (t = Some rp) then put_tail q prev_xp else ret tt
          else dequeue_loop fuel' rp q (Some x) (RqNext x)
      end
  end.

Definition note_dequeued (tsc now : Z) (p : proc) : proc :=
  let a := p_accounting p in
  let a := set_a_dequeues (u64 (a_dequeues a + 1)) a in
  let a := if a_enter_queue a =? 0 then a
           else set_a_enter_queue 0
                  (set_a_time_in_queue (u64 (a_time_in_queue a + u64 (tsc - a_enter_queue a))) a) in
  set_p_dequeued now (set_p_accounting a p).

Definition dequeue (rp : Z) : K unit :=
  p <- get_proc rp ;;
  let q := p_priority p in
  assert (proc_ptr_ok p) ;;
  assert (negb (proc_is_runnable p)) ;;
  (if iskerneln rp
   then pv <- priv_of p ;;
        match s_stack_guard pv with
        | Some w => assert (w =? STACK_GUARD)
        | None => halt BadAccess
        end
   else ret tt) ;;
  dequeue_loop rq_fuel rp q None (RqHead q) ;;
  s <- get ;;
  upd_proc rp (note_dequeued (k_tsc s) (k_monotonic s)).

(** *** Runtime flags *)
Definition RTS_SET (rp f : Z) : K unit :=
  p <- get_proc rp ;;
  let rts := p_rts_flags p in
  upd_proc rp (set_p_rts_flags (flag_set rts f)) ;;
  if (rts =? 0) && negb (flag_set rts f =? 0) then dequeue rp else ret tt.

(** [enqueue]: link the process at the end of the queue of its priority. *)
Definition enqueue_link (rp q : Z) : K unit :=
  h <- get_head q ;;
  match h with
  | None =>
      put_head q (Some rp) ;; put_tail q (Some rp) ;;
      upd_proc rp (set_p_nextready None)
  | Some _ =>
      t <- get_tail q ;;
      match t with
      | None => halt BadAccess
      | Some t =>
          upd_proc t (set_p_nextready (Some rp)) ;;
          put_tail q (Some rp) ;;
          upd_proc rp (set_p_nextready None)
      end
  end.

(** [enqueue]: the running process loses the processor to a better one. *)
Definition enqueue_preempt (rp : Z) : K unit :=
  r <- get_proc rp ;;
  if cpuid =? p_cpu r then
    cur <- gets proc_ptr ;;
    p <- get_proc cur ;;
    pv <- priv_of p ;;
    if has (s_flags pv) PREEMPTIBLE
       && (sched_rt_may_preempt p r || (p_priority r <? p_priority p))
    then RTS_SET cur RTS_PREEMPTED else ret tt
  else ret tt.

(** The time stamp goes to the running process, not to [rp]. *)
Definition note_enter_queue : K unit :=
  s <- get ;;
  upd_proc (proc_ptr s) (fun p =>
    set_p_accounting (set_a_enter_queue (k_tsc s) (p_accounting p)) p).

Definition enqueue (rp : Z) : K unit :=
  p <- get_proc rp ;;
  let q := p_priority p in
  assert (proc_is_runnable p) ;;
  assert (0 <=? q) ;;
  enqueue_link rp q ;;
  enqueue_preempt rp ;;
  note_enter_queue.

Definition enqueue_head (rp : Z) : K unit :=
  p <- get_proc rp ;;
  let q := p_priority p in
  assert (proc_ptr_ok p) ;;
  assert (proc_is_runnable p) ;;
  assert (negb (p_cpu_time_left p =? 0)) ;;
  assert (0 <=? q) ;;
  h <- get_head q ;;
  match h with
  | None =>
      put_head q (Some rp) ;; put_tail q (Some rp) ;;
      upd_proc rp (set_p_nextready None)
  | Some x =>
      upd_proc rp (set_p_nextready (Some x)) ;;
      put_head q (Some rp)
  end ;;
  note_enter_queue ;;
  upd_proc rp (fun p =>
    let a := p_accounting p in
    set_p_accounting
      (set_a_preempted (u64 (a_preempted a + 1))
         (set_a_dequeues (u64 (a_dequeues a - 1)) a)) p).

Definition RTS_UNSET (rp f : Z) : K unit :=
  p <- get_proc rp ;;
  let rts := p_rts_flags p in
  upd_proc rp (set_p_rts_flags (flag_clr rts f)) ;;
  if negb (rts =? 0) && (flag_clr rts f =? 0) then enqueue rp else ret tt.

Definition RTS_SETFLAGS (rp f : Z) : K unit :=
  p <- get_proc rp ;;
  (if proc_is_runnable p && negb (f =? 0) then dequeue rp else ret tt) ;;
  upd_proc rp (set_p_rts_flags f).

(** *** Choosing a process *)
Fixpoint pick_proc_loop (n : nat) (q : Z) : K (option Z) :=
  match n with
  | O => ret None
  | S n' =>
      h <- get_head q ;;
      match h with
      | None => pick_proc_loop n' (q + 1)
      | Some rp =>
          p <- get_proc rp ;;
          assert (proc_is_runnable p) ;;
          pv <- priv_of p ;;
          (if has (s_flags pv) BILLABLE then modify (set_bill_ptr rp) else ret tt) ;;
          ret (Some rp)
      end
  end.

Definition pick_proc : K (option Z) := pick_proc_loop (Z.to_nat NR_SCHED_QUEUES) 0.

(** *** Quantum and class changes *)
Definition sched_rt_handle_quantum (rp : Z) : K bool :=
  p <- get_proc rp ;;
  if negb (proc_is_rt p) then ret false
  else if p_sched_class p =? SCHED_FIFO then
    t <- ms_2_cpu_time 1000000 ;;
    upd_proc rp (set_p_cpu_time_left t) ;;
    ret true
  else
    t <- ms_2_cpu_time (p_quantum_size_ms p) ;;
    upd_proc rp (set_p_cpu_time_left t) ;;
    RTS_UNSET rp RTS_NO_QUANTUM ;;
    ret true.

Definition sched_rt_set_class (rp sched_class rt_prio rr_quantum_ms : Z) : K Z :=
  if (sched_class <? SCHED_OTHER) || (SCHED_RR <? sched_class) then ret EINVAL
  else if sched_class =? SCHED_OTHER then
    upd_proc rp (fun p => set_p_rt_priority 0 (set_p_sched_class SCHED_OTHER p)) ;;
    ret OK
  else if (rt_prio <? RT_PRIO_MIN) || (RT_PRIO_MAX <? rt_prio) then ret EINVAL
  else
    upd_proc rp (fun p =>
      set_p_priority (rt_prio_to_queue rt_prio)
        (set_p_rt_priority rt_prio (set_p_sched_class sched_class p))) ;;
    (if sched_class =? SCHED_RR then
       let qms := if 0 <? rr_quantum_ms then rr_quantum_ms else RT_RR_QUANTUM_MS in
       t <- ms_2_cpu_time qms ;;
       upd_proc rp (fun p => set_p_cpu_time_left t (set_p_quantum_size_ms qms p))
     else
       t <- ms_2_cpu_time 1000000 ;;
       upd_proc rp (fun p => set_p_cpu_time_left t (set_p_quantum_size_ms 0 p))) ;;
    ret OK.

(** [do_setscheduler(caller, m_ptr)], with the four message fields as arguments. *)
Definition do_setscheduler (caller endpt sched_class rt_prio m2_l1 : Z) : K Z :=
  let rr_quantum := i32 m2_l1 in
  ok <- isokendpt endpt ;;
  match ok with
  | None => ret EINVAL
  | Some n =>
      p <- get_proc n ;;
      c <- get_proc caller ;;
      if negb (sched_class =? SCHED_OTHER)
         && negb (p_endpoint c =? p_endpoint p)
         && negb (p_endpoint c =? PM_PROC_NR) && negb (p_endpoint c =? RS_PROC_NR)
      then ret EPERM
      else
        r <- sched_rt_set_class n sched_class rt_prio rr_quantum ;;
        if negb (r =? OK) then ret r
        else
          p' <- get_proc n ;;
          (if proc_is_runnable p' then
             RTS_SET n RTS_NO_QUANTUM ;;
             t <- ms_2_cpu_time
                    (if (sched_class =? SCHED_RR) && (0 <? rr_quantum)
                     then rr_quantum else RT_RR_QUANTUM_MS) ;;
             upd_proc n (set_p_cpu_time_left t) ;;
             RTS_UNSET n RTS_NO_QUANTUM
           else ret tt) ;;
          ret OK
  end.

(** [sched_proc] ([cpu] is only read with [CONFIG_SMP]). *)
Definition sched_proc (rp priority quantum cpu : Z) (niced : bool) : K Z :=
  if ((priority <? TASK_Q) && negb (priority =? -1)) || (NR_SCHED_QUEUES <? priority)
  then ret EINVAL
  else if (quantum <? 1) && negb (quantum =? -1) then ret EINVAL
  else
    p <- get_proc rp ;;
    (if proc_is_runnable p then RTS_SET rp RTS_NO_QUANTUM else ret tt) ;;
    p <- get_proc rp ;;
    (if proc_is_runnable p then RTS_SET rp RTS_NO_QUANTUM else ret tt) ;;
    (if negb (priority =? -1) then upd_proc rp (set_p_priority priority) else ret tt) ;;
    (if negb (quantum =? -1) then
       t <- ms_2_cpu_time quantum ;;
       upd_proc rp (fun p => set_p_cpu_time_left t (set_p_quantum_size_ms quantum p))
     else ret tt) ;;
    upd_proc rp (fun p => set_p_misc_flags
      (if niced then flag_set (p_misc_flags p) MF_NICED
       else flag_clr (p_misc_flags p) MF_NICED) p) ;;
    RTS_UNSET rp RTS_NO_QUANTUM ;;
    ret OK.

Definition do_schedule (caller endpt priority quantum cpu : Z) (niced : bool) : K Z :=
  ok <- isokendpt endpt ;;
  match ok with
  | None => ret EINVAL
  | Some n =>
      p <- get_proc n ;;
      if bool_decide (p_scheduler p = Some caller)
      then sched_proc n priority quantum cpu niced
      else ret EPERM
  end.

Definition SCHEDCTL_FLAG_KERNEL : Z := 1.

Definition do_schedctl (caller flags endpt priority quantum cpu : Z) : K Z :=
  if has flags (Z.lnot SCHEDCTL_FLAG_KERNEL) then ret EINVAL
  else
    ok <- isokendpt endpt ;;
    match ok with
    | None => ret EINVAL
    | Some n =>
        if isset flags SCHEDCTL_FLAG_KERNEL then
          r <- sched_proc n priority quantum cpu false ;;
          if negb (r =? OK) then ret r
          else upd_proc n (set_p_scheduler None) ;; ret OK
        else upd_proc n (set_p_scheduler (Some caller)) ;; ret OK
    end.
