(* ===== verification/RunQueue.v ===== *)
(** * The run queues refine one list per priority

    The abstraction of the run-queue arrays and links of [Sched] and the
    behaviour of [enqueue], [dequeue] and the runtime-flag macros in terms of
    it: a process is in exactly one queue, the one of its priority, if and only
    if its runtime flags are all clear. *)

From S2P Require Import Prelude Monad Timers Endpoint Chain Kernel Sched.

(** ** Abstraction *)

Definition nextready (s : kstate) (n : Z) : option Z :=
  match procs s !! n with Some p => p_nextready p | None => None end.

(** The arrays of [s] represent the queues [L]. *)
Definition rqs (s : kstate) (L : Z -> list Z) : Prop :=
  forall q, rdyq_ok q = true ->
    chain (nextready s) (run_q_head s !! q) (L q) /\ run_q_tail s !! q = last (L q).

(** Which processes are queued: those of [R], each in the queue of its
    priority. *)
Definition rq_mem (s : kstate) (L : Z -> list Z) (R : Z -> Prop) : Prop :=
  forall q n, rdyq_ok q = true ->
    (n ∈ L q <-> R n /\ p_priority <$> procs s !! n = Some q).

Record queued (s : kstate) (L : Z -> list Z) (R : Z -> Prop) : Prop := {
  queued_rqs : rqs s L;
  queued_mem : rq_mem s L R;
  queued_slot : forall n, R n -> isokprocn n = true
}.

Definition runnable (s : kstate) (n : Z) : Prop :=
  isokprocn n = true /\ exists p, procs s !! n = Some p /\ p_rts_flags p = 0.

(** What the queue operations leave alone: everything but the links, the
    accounting and the head and tail arrays. *)
Definition acct0 : accounting := mkAcct 0 0 0 0 0 0.
Definition erase (p : proc) : proc :=
  set_p_nextready None (set_p_accounting acct0 (set_p_dequeued 0 p)).
Arguments erase : simpl never.
(** Two states that agree up to [er] on every process and exactly on the rest,
    except the head and tail arrays. *)
Definition erase_k (er : proc -> proc) (s : kstate) : kstate :=
  set_run_q_head ∅ (set_run_q_tail ∅ (set_procs (er <$> procs s) s)).
Definition kframe (er : proc -> proc) (s s' : kstate) : Prop := erase_k er s = erase_k er s'.

Section Kframe.
Context (er : proc -> proc).
Implicit Types (s : kstate) (p : proc).

#[global] Instance kframe_equiv : Equivalence (kframe er).
Proof.
  split; unfold kframe.
  - by intros s.
  - by intros s s'.
  - intros s1 s2 s3. congruence.
Qed.

Lemma kframe_procs s s' : kframe er s s' -> er <$> procs s = er <$> procs s'.
Proof. intros H. apply (f_equal procs) in H. exact H. Qed.

Lemma kframe_lookup s s' n p :
  kframe er s s' -> procs s !! n = Some p ->
  exists p', procs s' !! n = Some p' /\ er p = er p'.
Proof.
  intros H%kframe_procs Hp. apply (f_equal (fun m : gmap Z proc => m !! n)) in H.
  rewrite !lookup_fmap, Hp in H. cbn in H.
  destruct (procs s' !! n) as [p'|] eqn:E; cbn in H; [|done].
  exists p'. split; [done|]. by apply (inj Some) in H.
Qed.

Lemma kframe_lookup_r s s' n p' :
  kframe er s s' -> procs s' !! n = Some p' ->
  exists p, procs s !! n = Some p /\ er p = er p'.
Proof.
  intros H Hp. symmetry in H. destruct (kframe_lookup _ _ _ _ H Hp) as (p & ? & ?). eauto.
Qed.

(** A field the frame does not erase has the same value before and after. *)
Lemma kframe_field {A} (f : proc -> A) s s' n :
  (forall p, f (er p) = f p) -> kframe er s s' ->
  f <$> procs s !! n = f <$> procs s' !! n.
Proof.
  intros Hf H%kframe_procs. apply (f_equal (fun m : gmap Z proc => m !! n)) in H.
  rewrite !lookup_fmap in H.
  destruct (procs s !! n) as [p|], (procs s' !! n) as [p'|]; cbn in *; try done.
  apply (inj Some) in H. rewrite <- (Hf p), <- (Hf p'), H. done.
Qed.

(** The same for a component of the state other than the processes. *)
Lemma kframe_state {A} (f : kstate -> A) s s' :
  (forall s, f (erase_k er s) = f s) -> kframe er s s' -> f s = f s'.
Proof. intros Hf H. rewrite <- (Hf s), <- (Hf s'). by rewrite H. Qed.

(** Changing one process in what the frame erases. *)
Lemma er_insert (m : gmap Z proc) n p p' :
  m !! n = Some p -> er p' = er p -> er <$> <[n := p']> m = er <$> m.
Proof.
  intros Hp He. rewrite fmap_insert, He. apply insert_id. by rewrite lookup_fmap, Hp.
Qed.

Lemma kframe_set_procs s n p p' :
  procs s !! n = Some p -> er p' = er p ->
  kframe er s (set_procs (<[n := p']> (procs s)) s).
Proof.
  intros Hp He. unfold kframe, erase_k. cbn. by rewrite (er_insert _ _ _ _ Hp He).
Qed.
End Kframe.

Notation sframe := (kframe erase).

Lemma sframe_privs s s' : sframe s s' -> privs s = privs s'.
Proof. by apply kframe_state. Qed.
Lemma sframe_proc_ptr s s' : sframe s s' -> proc_ptr s = proc_ptr s'.
Proof. by apply kframe_state. Qed.

Lemma sframe_runnable s s' n : sframe s s' -> runnable s n <-> runnable s' n.
Proof.
  intros H. pose proof (kframe_field erase p_rts_flags s s' n (fun _ => eq_refl) H) as E.
  unfold runnable. split; intros (Hn & p & Hp & Hr); split; try done.
  - rewrite Hp in E. cbn in E. destruct (procs s' !! n) as [p'|]; cbn in E; [|done].
    exists p'. split; [done|]. injection E as <-. done.
  - rewrite Hp in E. cbn in E. destruct (procs s !! n) as [p'|]; cbn in E; [|done].
    exists p'. split; [done|]. injection E as ->. done.
Qed.

Lemma nextready_insert s n p v x :
  procs s !! n = Some p ->
  nextready (set_procs (<[n := set_p_nextready v p]> (procs s)) s) x =
  upd (nextready s) n v x.
Proof.
  intros Hp. unfold nextready, upd. cbn. destruct (Z.eqb_spec x n) as [->|Hne].
  - by simplify_map_eq.
  - by simplify_map_eq.
Qed.

Lemma rdyq_ok_spec q : rdyq_ok q = true <-> 0 <= q < 16.
Proof. unfold rdyq_ok, NR_SCHED_QUEUES. rewrite andb_true_iff, Z.leb_le, Z.ltb_lt. done. Qed.

Lemma isokprocn_spec n : isokprocn n = true <-> -5 <= n < 256.
Proof. unfold isokprocn, NR_PROCS, NR_TASKS. rewrite andb_true_iff, Z.leb_le, Z.ltb_lt. lia. Qed.

(** The queues of a well-kept state are pairwise disjoint. *)
Lemma rq_mem_disj s L R q1 q2 n :
  rq_mem s L R -> rdyq_ok q1 = true -> rdyq_ok q2 = true ->
  n ∈ L q1 -> n ∈ L q2 -> q1 = q2.
Proof.
  intros H H1 H2 [_ E1]%H [_ E2]%H; [|done..]. rewrite E1 in E2. by injection E2.
Qed.

Lemma elem_of_proc_table n : n ∈ proc_table <-> isokprocn n = true.
Proof.
  rewrite isokprocn_spec. unfold proc_table, NR_TASKS, NR_PROCS. rewrite list_elem_of_fmap. split.
  - intros (i & -> & Hi%elem_of_seq). lia.
  - intros Hn. exists (Z.to_nat (n + 5)). rewrite elem_of_seq. lia.
Qed.

Lemma table_length l :
  NoDup l -> (forall n, n ∈ l -> isokprocn n = true) -> (length l <= Z.to_nat (NR_PROCS + NR_TASKS))%nat.
Proof.
  intros Hnd Hin. transitivity (size (list_to_set proc_table : gset Z)); [|vm_compute; lia].
  apply NoDup_length_le; [done|]. intros x Hx. by apply elem_of_list_to_set, elem_of_proc_table, Hin.
Qed.

Lemma rqs_length s L R q :
  queued s L R -> rdyq_ok q = true -> (length (L q) <= Z.to_nat (NR_PROCS + NR_TASKS))%nat.
Proof.
  intros [Hr Hm Hs] Hq. destruct (Hr q Hq) as [Hc _].
  apply table_length; [by eapply chain_NoDup|]. intros x [Hx _]%Hm; auto.
Qed.

(** The executable view of a queue. *)
Definition rq (s : kstate) (q : Z) : list Z :=
  walk (Z.to_nat (NR_PROCS + NR_TASKS)) (nextready s) (run_q_head s !! q).

Lemma rq_queued s L R q : queued s L R -> rdyq_ok q = true -> rq s q = L q.
Proof.
  intros H Hq. apply walk_chain; [by apply (queued_rqs _ _ _ H)|].
  by eapply rqs_length.
Qed.

(** ** [dequeue] unlinks the process *)

(** The pointer [xpp] and the previous process [prev_xp] after the loop has
    passed the processes of [pre]. *)
Definition loc_at (q : Z) (pre : list Z) : rq_loc :=
  match last pre with None => RqHead q | Some y => RqNext y end.

Lemma read_loc_at s q pre suf :
  rdyq_ok q = true ->
  (forall n, n ∈ pre -> is_Some (procs s !! n)) ->
  chain (nextready s) (run_q_head s !! q) (pre ++ suf) ->
  read_loc (loc_at q pre) s = Done (head suf) s.
Proof.
  intros Hq Hin Hc. apply chain_app in Hc as (m & Hl & Hc).
  assert (m = head suf) as ->.
  { destruct suf as [|x suf]; [by destruct m|]. by destruct Hc as [-> _]. }
  unfold loc_at. destruct (last pre) as [y|] eqn:Hlast.
  - apply last_Some in Hlast as (l' & ->).
    apply lseg_app in Hl as (m' & _ & -> & Hy). cbn in Hy.
    destruct (Hin y) as [p Hp]; [set_solver|].
    cbn. erewrite bind_get_proc by done. cbn. f_equal.
    unfold nextready in Hy. by rewrite Hp in Hy.
  - apply last_None in Hlast as ->. cbn in *. unfold get_head. rewrite Hq. unfold gets. by rewrite Hl.
Qed.

(** Writing through [xpp] at the position of [x] unlinks [x]. *)
Lemma write_loc_at s q pre x suf :
  rdyq_ok q = true ->
  (forall n, n ∈ pre -> is_Some (procs s !! n)) ->
  chain (nextready s) (run_q_head s !! q) (pre ++ x :: suf) ->
  exists s', write_loc (loc_at q pre) (nextready s x) s = Done tt s'
    /\ chain (nextready s') (run_q_head s' !! q) (pre ++ suf)
    /\ (forall n, n ∉ pre -> nextready s' n = nextready s n)
    /\ (forall q', q' <> q -> run_q_head s' !! q' = run_q_head s !! q')
    /\ run_q_tail s' = run_q_tail s /\ sframe s s'.
Proof.
  intros Hq Hin Hc. unfold loc_at. destruct (last pre) as [y|] eqn:Hlast.
  - apply last_Some in Hlast as (l' & ->).
    destruct (Hin y) as [p Hp]; [set_solver|].
    eexists. split; [cbn; by apply upd_proc_done|]. split_and!; cbn.
    + eapply chain_ext; [intros; by apply nextready_insert|].
      rewrite <- app_assoc. apply chain_unlink. by rewrite <- app_assoc in Hc.
    + intros n Hn. rewrite nextready_insert by done. apply upd_other. set_solver.
    + done.
    + done.
    + by apply (kframe_set_procs erase s y p).
  - apply last_None in Hlast as ->. cbn in *. destruct Hc as [_ Hc].
    unfold put_head. rewrite Hq. eexists. split; [done|]. split_and!; cbn.
    + by rewrite lookup_partial_alter_eq.
    + done.
    + intros q' Hne. by rewrite lookup_partial_alter_ne.
    + done.
    + done.
Qed.

(** Replace the queue of one priority. *)
Definition updq (L : Z -> list Z) (q : Z) (l : list Z) : Z -> list Z :=
  fun q' => if q' =? q then l else L q'.

Lemma updq_same L q l : updq L q l q = l.
Proof. unfold updq. by rewrite Z.eqb_refl. Qed.
Lemma updq_other L q l q' : q' <> q -> updq L q l q' = L q'.
Proof. intros. unfold updq. by rewrite (proj2 (Z.eqb_neq _ _)). Qed.

Lemma queued_in_table s L R q n :
  queued s L R -> rdyq_ok q = true -> n ∈ L q -> is_Some (procs s !! n).
Proof.
  intros H Hq [_ E]%(queued_mem _ _ _ H); [|done].
  destruct (procs s !! n); [eauto|done].
Qed.

(** The unlinked process was last exactly when nothing followed it. *)
Lemma last_unlink (pre suf : list Z) x :
  NoDup (pre ++ x :: suf) ->
  last (pre ++ suf) =
  if bool_decide (last (pre ++ x :: suf) = Some x) then last pre else last (pre ++ x :: suf).
Proof.
  intros Hnd. destruct suf as [|y suf] using rev_ind.
  - rewrite app_nil_r, last_snoc. by rewrite bool_decide_eq_true_2.
  - assert (last (pre ++ x :: suf ++ [y]) = Some y) as ->
      by (change (x :: suf ++ [y]) with ((x :: suf) ++ [y]); by rewrite app_assoc, last_snoc).
    rewrite app_assoc, last_snoc. rewrite bool_decide_eq_false_2; [done|].
    intros [= ->]. apply NoDup_app in Hnd as (_ & _ & [Hx _]%NoDup_cons). set_solver.
Qed.

Lemma dequeue_loop_spec s L R q rp fuel pre suf :
  queued s L R -> rdyq_ok q = true -> L q = pre ++ suf -> rp ∉ pre ->
  (length suf < fuel)%nat ->
  exists s', dequeue_loop fuel rp q (last pre) (loc_at q pre) s = Done tt s'
    /\ rqs s' (updq L q (remove1 rp (L q))) /\ sframe s s'.
Proof.
  intros HQ Hq. revert pre suf. induction fuel as [|fuel IH]; intros pre suf HL Hpre Hlen; [lia|].
  assert (forall n, n ∈ pre -> is_Some (procs s !! n)) as Hin.
  { intros n Hn. eapply queued_in_table; [done..|]. rewrite HL. set_solver. }
  destruct (queued_rqs _ _ _ HQ q Hq) as [Hc Ht]. rewrite HL in Hc, Ht.
  cbn. erewrite bind_done by by eapply read_loc_at.
  destruct suf as [|x suf]; cbn.
  - exists s. split_and!; [done| |done]. rewrite HL, app_nil_r, remove1_notin by done.
    intros q' Hq'. unfold updq. destruct (Z.eqb_spec q' q) as [->|]; [|by apply HQ].
    rewrite app_nil_r in Hc, Ht. done.
  - destruct (Z.eqb_spec x rp) as [->|Hne].
    + destruct (queued_in_table s L R q rp HQ Hq) as [px Hpx]; [rewrite HL; set_solver|].
      erewrite bind_get_proc by done.
      destruct (write_loc_at s q pre rp suf Hq Hin Hc) as (s1 & Hw & Hc1 & Hn1 & Hh1 & Ht1 & Hf1).
      unfold nextready in Hw at 1. rewrite Hpx in Hw. erewrite bind_done by done.
      pose proof (chain_NoDup _ _ _ Hc) as Hnd.
      assert (remove1 rp (L q) = pre ++ suf) as Hrm.
      { rewrite HL. apply remove1_split; [done|].
        apply NoDup_app in Hnd as (_ & _ & [? _]%NoDup_cons). done. }
      pose proof (last_unlink pre suf rp Hnd) as Hlast.
      assert (forall q', rdyq_ok q' = true -> q' <> q ->
        chain (nextready s1) (run_q_head s1 !! q') (L q')) as Hoth.
      { intros q' Hq' Hne. rewrite Hh1 by done.
        eapply chain_ext; [|by apply (queued_rqs _ _ _ HQ)].
        intros n Hn. apply Hn1. intros Hn'. apply Hne.
        eapply rq_mem_disj; [by apply (queued_mem _ _ _ HQ)|done..|]. rewrite HL. set_solver. }
      unfold get_tail, put_tail. rewrite Hq. unfold gets at 1. unfold bind.
      rewrite Ht1, Ht, Hrm.
      assert (forall s', nextready s' = nextready s1 -> run_q_head s' = run_q_head s1 ->
        run_q_tail s' !! q = last (pre ++ suf) ->
        (forall q', q' <> q -> run_q_tail s' !! q' = run_q_tail s !! q') ->
        rqs s' (updq L q (pre ++ suf))) as Hfin.
      { intros s' En Eh Et Eo q' Hq'. unfold updq. rewrite En, Eh.
        destruct (Z.eqb_spec q' q) as [->|Hne]; [done|].
        split; [by apply Hoth|]. rewrite Eo by done. by apply HQ. }
      case_bool_decide as Htl; eexists; (split; [done|]); (split; [apply Hfin|done]); try done.
      * cbn. by rewrite lookup_partial_alter_eq.
      * intros q' Hne. cbn. by rewrite lookup_partial_alter_ne, Ht1.
      * by rewrite Ht1, Ht.
      * intros. by rewrite Ht1.
    + specialize (IH (pre ++ [x]) suf).
      replace (loc_at q (pre ++ [x])) with (RqNext x) in IH
        by (unfold loc_at; by rewrite last_snoc).
      rewrite last_snoc in IH. apply IH; [by rewrite <- app_assoc|set_solver|cbn in Hlen; lia].
Qed.

(** Links, heads and tails unchanged: the same queues. *)
Lemma rqs_ext s s' L :
  (forall n, nextready s' n = nextready s n) ->
  run_q_head s' = run_q_head s -> run_q_tail s' = run_q_tail s ->
  rqs s L -> rqs s' L.
Proof.
  intros Hn Hh Ht HL q Hq. rewrite Hh, Ht. destruct (HL q Hq). split; [|done].
  eapply chain_ext; [|done]. auto.
Qed.

Lemma nextready_set_same s n p p' x :
  procs s !! n = Some p -> p_nextready p' = p_nextready p ->
  nextready (set_procs (<[n := p']> (procs s)) s) x = nextready s x.
Proof.
  intros Hp He. unfold nextready. cbn. destruct (decide (x = n)) as [->|].
  - by rewrite lookup_insert_eq, Hp, He.
  - by rewrite lookup_insert_ne.
Qed.

Lemma sframe_mem s s' L R : sframe s s' -> rq_mem s L R <-> rq_mem s' L R.
Proof.
  intros H. unfold rq_mem.
  by setoid_rewrite (kframe_field erase p_priority s s' _ (fun _ => eq_refl) H).
Qed.

Lemma rq_mem_remove s L R q rp p :
  rq_mem s L R -> procs s !! rp = Some p -> p_priority p = q ->
  rq_mem s (updq L q (remove1 rp (L q))) (fun n => R n /\ n <> rp).
Proof.
  intros H Hp Hpr q' n Hq'. unfold updq. destruct (Z.eqb_spec q' q) as [->|Hne].
  - rewrite elem_of_remove1, (H q n Hq'). naive_solver.
  - rewrite (H q' n Hq'). split; [|naive_solver]. intros [HR E]. split; [|done].
    split; [done|]. intros ->. rewrite Hp in E. cbn in E. congruence.
Qed.

Lemma dequeue_spec s L R rp p :
  queued s L R -> procs s !! rp = Some p -> rdyq_ok (p_priority p) = true ->
  proc_ptr_ok p = true -> p_rts_flags p <> 0 -> 0 <= rp ->
  exists s', dequeue rp s = Done tt s'
    /\ queued s' (updq L (p_priority p) (remove1 rp (L (p_priority p)))) (fun n => R n /\ n <> rp)
    /\ sframe s s'.
Proof.
  intros HQ Hp Hq Hok Hrts Hn. unfold dequeue.
  erewrite bind_get_proc by done. rewrite bind_assert by done.
  rewrite bind_assert by (apply negb_true_iff, Z.eqb_neq; done).
  replace (iskerneln rp) with false by (symmetry; apply Z.ltb_ge; lia).
  rewrite bind_ret.
  edestruct (dequeue_loop_spec s L R (p_priority p) rp rq_fuel [] (L (p_priority p)))
    as (s1 & Hd & Hr & Hf); [done|done|done|set_solver| |].
  { pose proof (rqs_length s L R _ HQ Hq). unfold rq_fuel. lia. }
  cbn [last] in Hd. change (loc_at (p_priority p) []) with (RqHead (p_priority p)) in Hd.
  erewrite bind_done by done.
  destruct (kframe_lookup erase _ _ _ _ Hf Hp) as (p1 & Hp1 & He).
  unfold bind, get. erewrite upd_proc_done by done.
  assert (sframe s1 (set_procs (<[rp := note_dequeued (k_tsc s1) (k_monotonic s1) p1]> (procs s1)) s1)) as Hf2
    by (by eapply (kframe_set_procs erase)).
  eexists. split; [done|]. split; [|by etrans]. split.
  - eapply rqs_ext; [..|done]; [|done..]. intros n. by eapply nextready_set_same.
  - eapply sframe_mem; [symmetry; etrans; [exact Hf|exact Hf2]|].
    eapply rq_mem_remove; [by apply HQ|done..].
  - intros n [HR _]. by apply (queued_slot _ _ _ HQ).
Qed.

(** ** [enqueue] appends the process *)
Lemma rq_mem_add s L R q rp p :
  rq_mem s L R -> procs s !! rp = Some p -> p_priority p = q ->
  rq_mem s (updq L q (L q ++ [rp])) (fun n => R n \/ n = rp).
Proof.
  intros H Hp Hpr q' n Hq'. unfold updq. destruct (Z.eqb_spec q' q) as [->|Hne].
  - rewrite elem_of_app, (H q n Hq'), list_elem_of_singleton.
    split; [|naive_solver]. intros [?| ->]; [naive_solver|]. split; [by right|].
    rewrite Hp. cbn. congruence.
  - rewrite (H q' n Hq'). split; [naive_solver|]. intros [[HR | ->] E]; [done|].
    rewrite Hp in E. cbn in E. congruence.
Qed.

Lemma queued_fresh s L R q n : queued s L R -> ~ R n -> rdyq_ok q = true -> n ∉ L q.
Proof. intros HQ Hn Hq [? _]%(queued_mem _ _ _ HQ); done. Qed.

(** The process becomes the tail of a queue whose tail was [t]. *)
Lemma rqs_append s s2 L R q rp t :
  queued s L R -> ~ R rp -> rdyq_ok q = true -> last (L q) = Some t ->
  (forall n, nextready s2 n = upd (upd (nextready s) t (Some rp)) rp None n) ->
  run_q_head s2 = run_q_head s -> run_q_tail s2 = <[q := rp]> (run_q_tail s) ->
  rqs s2 (updq L q (L q ++ [rp])).
Proof.
  intros HQ HnR Hq Hlast Hn2 Hh Ht q' Hq'. rewrite Hh, Ht. unfold updq.
  destruct (queued_rqs _ _ _ HQ q' Hq') as [Hc' Ht'].
  destruct (Z.eqb_spec q' q) as [->|Hne]; cbn.
  - rewrite lookup_insert_eq, last_snoc. split; [|done].
    eapply chain_ext; [intros; apply Hn2|]. by apply chain_snoc; [| |eapply queued_fresh].
  - rewrite lookup_insert_ne by done. split; [|done].
    eapply chain_ext; [|done]. intros n Hn'. rewrite Hn2.
    rewrite upd_other by (intros ->; by apply (queued_fresh _ _ _ q' rp HQ HnR Hq')).
    apply upd_other. intros ->. apply Hne. eapply rq_mem_disj; [apply HQ|done..|].
    apply last_Some in Hlast as (? & ->). set_solver.
Qed.

(** The process becomes the only one of a queue. *)
Lemma rqs_first s s2 L R q rp :
  queued s L R -> ~ R rp -> L q = [] ->
  (forall n, nextready s2 n = upd (nextready s) rp None n) ->
  run_q_head s2 = <[q := rp]> (run_q_head s) -> run_q_tail s2 = <[q := rp]> (run_q_tail s) ->
  rqs s2 (updq L q (L q ++ [rp])).
Proof.
  intros HQ HnR HL Hn2 Hh Ht q' Hq'. rewrite Hh, Ht. unfold updq.
  destruct (queued_rqs _ _ _ HQ q' Hq') as [Hc' Ht'].
  destruct (Z.eqb_spec q' q) as [->|Hne]; cbn.
  - rewrite HL, !lookup_insert_eq. cbn. split; [|done]. split; [done|]. rewrite Hn2. apply upd_same.
  - rewrite !lookup_insert_ne by done. split; [|done].
    eapply chain_ext; [|done]. intros n Hn'. rewrite Hn2. apply upd_other.
    intros ->. by apply (queued_fresh _ _ _ q' rp HQ HnR Hq').
Qed.

Lemma enqueue_link_spec s L R rp p q :
  queued s L R -> ~ R rp -> procs s !! rp = Some p -> p_priority p = q ->
  rdyq_ok q = true -> isokprocn rp = true ->
  exists s', enqueue_link rp q s = Done tt s'
    /\ queued s' (updq L q (L q ++ [rp])) (fun n => R n \/ n = rp)
    /\ sframe s s'.
Proof.
  intros HQ HnR Hp Hpr Hq Hn.
  destruct (queued_rqs _ _ _ HQ q Hq) as [Hc Ht].
  assert (forall s', sframe s s' -> rqs s' (updq L q (L q ++ [rp])) ->
    queued s' (updq L q (L q ++ [rp])) (fun n => R n \/ n = rp) /\ sframe s s') as Hfin.
  { intros s' Hf Hr. split; [split|done]; [done| |].
    - eapply sframe_mem; [by symmetry|]. eapply rq_mem_add; [apply HQ|done..].
    - intros n [HR | ->]; [|done]. by apply (queued_slot _ _ _ HQ). }
  unfold enqueue_link, get_head, get_tail, put_head, put_tail. rewrite Hq.
  unfold bind, gets, modify.
  destruct (run_q_head s !! q) as [h|] eqn:Hh.
  - destruct (chain_head _ _ _ Hc) as (l' & HL).
    destruct (last (L q)) as [t|] eqn:Hlast; [|by apply last_None in Hlast; rewrite Hlast in HL].
    assert (t ∈ L q) as Htq by (apply last_Some in Hlast as (? & ->); set_solver).
    rewrite Ht. destruct (queued_in_table s L R q t HQ Hq Htq) as [pt Hpt].
    assert (t <> rp) as Htr by (intros ->; by apply (queued_fresh _ _ _ q rp HQ HnR Hq)).
    rewrite (upd_proc_done _ _ _ _ Hpt). cbn.
    assert (<[t := set_p_nextready (Some rp) pt]> (procs s) !! rp = Some p) as Hp'
      by by rewrite lookup_insert_ne.
    unfold upd_proc. cbn. rewrite Hp'. eexists. split; [done|]. apply Hfin.
    { unfold kframe, erase_k. cbn.
      rewrite (er_insert erase _ rp p) by done. by rewrite (er_insert erase _ t pt). }
    eapply rqs_append; [done..| |done|done].
    intros n. unfold nextready, upd. cbn.
    destruct (Z.eqb_spec n rp) as [->|]; [by rewrite lookup_insert_eq|].
    rewrite lookup_insert_ne by done.
    destruct (Z.eqb_spec n t) as [->|]; [by rewrite lookup_insert_eq|]. by rewrite lookup_insert_ne.
  - unfold upd_proc. cbn. rewrite Hp. eexists. split; [done|]. apply Hfin.
    { unfold kframe, erase_k. cbn. by rewrite (er_insert erase _ rp p). }
    eapply rqs_first; [done..|by eapply chain_head_None| |done|done].
    intros n. unfold nextready, upd. cbn.
    destruct (Z.eqb_spec n rp) as [->|]; [by rewrite lookup_insert_eq|]. by rewrite lookup_insert_ne.
Qed.

(** ** The scheduling invariant *)

Definition prio_ok (s : kstate) : Prop :=
  forall n p, procs s !! n = Some p -> runnable s n -> rdyq_ok (p_priority p) = true.

(** What every process-table slot satisfies: the slot number, the magic word,
    and that tasks (and the idle process) are stopped for good. *)
Record slots_ok (s : kstate) : Prop := {
  slot_some : forall n, isokprocn n = true -> is_Some (procs s !! n);
  slot_magic : forall n p, procs s !! n = Some p -> isokprocn n = true ->
    p_nr p = n /\ proc_ptr_ok p = true /\ p_cpu p = cpuid;
  slot_task : forall n p, procs s !! n = Some p -> n < 0 ->
    has (p_rts_flags p) RTS_PROC_STOP = true;
  slot_dom : forall n, is_Some (procs s !! n) -> isokprocn n = true \/ n = idle_proc
}.

(** The running process exists and has a privilege structure. *)
Definition cur_ok (s : kstate) : Prop :=
  exists p id pv, procs s !! proc_ptr s = Some p /\ p_priv p = Some id
    /\ privs s !! id = Some pv.

Record wf_sched (s : kstate) : Prop := {
  ws_queues : exists L, queued s L (runnable s);
  ws_prio : prio_ok s;
  ws_slots : slots_ok s;
  ws_cur : cur_ok s
}.

Lemma runnable_nonneg s n : slots_ok s -> runnable s n -> 0 <= n.
Proof.
  intros H (Hn & p & Hp & Hr). destruct (Z.lt_ge_cases n 0); [|done].
  pose proof (slot_task _ H n p Hp ltac:(done)) as Hs.
  rewrite Hr, has_zero in Hs by apply _. done.
Qed.

Lemma sframe_slots s s' : sframe s s' -> slots_ok s -> slots_ok s'.
Proof.
  intros Hf [H1 H2 H3 H4]. split.
  - intros n Hn. destruct (H1 n Hn) as [p Hp].
    destruct (kframe_lookup erase _ _ _ _ Hf Hp) as (p' & ? & _). eauto.
  - intros n p' Hp' Hn. destruct (kframe_lookup_r erase _ _ _ _ Hf Hp') as (p & Hp & He).
    destruct (H2 n p Hp Hn) as (E1 & E2 & E3).
    pose proof (f_equal p_cpu He : p_cpu p = p_cpu p').
    pose proof (f_equal p_nr He : p_nr p = p_nr p').
    pose proof (f_equal p_magic He : p_magic p = p_magic p').
    unfold proc_ptr_ok in *. split_and!; congruence.
  - intros n p' Hp' Hn. destruct (kframe_lookup_r erase _ _ _ _ Hf Hp') as (p & Hp & He).
    rewrite <- (f_equal p_rts_flags He : p_rts_flags p = p_rts_flags p'). by apply (H3 n).
  - intros n [p' Hp']. destruct (kframe_lookup_r erase _ _ _ _ Hf Hp') as (p & Hp & _). eauto.
Qed.

Lemma sframe_prio s s' : sframe s s' -> prio_ok s -> prio_ok s'.
Proof.
  intros Hf H n p' Hp' Hr. destruct (kframe_lookup_r erase _ _ _ _ Hf Hp') as (p & Hp & He).
  rewrite <- (f_equal p_priority He : p_priority p = p_priority p').
  eapply H; [done|]. by eapply sframe_runnable.
Qed.

Lemma sframe_cur s s' : sframe s s' -> cur_ok s -> cur_ok s'.
Proof.
  intros Hf (p & id & pv & Hp & Hid & Hpv).
  destruct (kframe_lookup erase _ _ _ _ Hf Hp) as (p' & Hp' & He).
  pose proof (f_equal p_priv He : p_priv p = p_priv p').
  exists p', id, pv. rewrite <- (sframe_proc_ptr _ _ Hf), <- (sframe_privs _ _ Hf). split_and!; [done|congruence|done].
Qed.

(** Changing the runtime flags of one process. *)
Definition with_rts (s : kstate) (n : Z) (p : proc) (v : Z) : kstate :=
  set_procs (<[n := set_p_rts_flags v p]> (procs s)) s.

Lemma with_rts_lookup s n p v m :
  procs (with_rts s n p v) !! m =
  if decide (m = n) then Some (set_p_rts_flags v p) else procs s !! m.
Proof.
  unfold with_rts. cbn. case_decide as E; [subst; by rewrite lookup_insert_eq|].
  by rewrite lookup_insert_ne.
Qed.

Lemma with_rts_self s n p v : procs (with_rts s n p v) !! n = Some (set_p_rts_flags v p).
Proof. rewrite with_rts_lookup. by rewrite decide_True. Qed.

Lemma with_rts_runnable s n p v m :
  procs s !! n = Some p ->
  runnable (with_rts s n p v) m <->
  if decide (m = n) then isokprocn n = true /\ v = 0 else runnable s m.
Proof.
  intros Hp. unfold runnable. rewrite with_rts_lookup. case_decide as E; subst; [|done].
  split.
  - by intros (? & p' & <-%(inj Some) & ?).
  - intros [? ->]. split; [done|]. by eexists.
Qed.

Lemma with_rts_slots s n p v :
  slots_ok s -> procs s !! n = Some p -> (n < 0 -> has v RTS_PROC_STOP = true) ->
  slots_ok (with_rts s n p v).
Proof.
  intros [H1 H2 H3 H4] Hp Hv. split.
  - intros m Hm. rewrite with_rts_lookup. case_decide; eauto.
  - intros m p'. rewrite with_rts_lookup. case_decide as E; [|by apply H2].
    subst. intros <-%(inj Some) Hn. exact (H2 n p Hp Hn).
  - intros m p'. rewrite with_rts_lookup. case_decide as E; [|by apply H3].
    subst. by intros <-%(inj Some).
  - intros m. rewrite with_rts_lookup. case_decide as E; [|by apply H4]. subst. eauto.
Qed.

Lemma with_rts_cur s n p v : procs s !! n = Some p -> cur_ok s -> cur_ok (with_rts s n p v).
Proof.
  intros Hp (c & id & pv & Hc & Hid & Hpv).
  assert (exists c', procs (with_rts s n p v) !! proc_ptr s = Some c' /\ p_priv c' = Some id)
    as (c' & Hc' & Hid').
  { rewrite with_rts_lookup. case_decide as E; [|eauto].
    rewrite E, Hp in Hc. apply (inj Some) in Hc as <-. by eexists. }
  by exists c', id, pv.
Qed.

Lemma with_rts_rqs s n p v L : procs s !! n = Some p -> rqs s L -> rqs (with_rts s n p v) L.
Proof.
  intros Hp. apply rqs_ext; [|done..]. intros m. by eapply nextready_set_same.
Qed.

Lemma with_rts_mem s n p v L R :
  procs s !! n = Some p -> rq_mem s L R -> rq_mem (with_rts s n p v) L R.
Proof.
  intros Hp H q m Hq. rewrite (H q m Hq), with_rts_lookup.
  case_decide as E; [|done]. by rewrite E, Hp.
Qed.

(** [s'] carries out the flag change on [n]: the flags are [v], the frame is
    kept, and the queues follow. *)
Lemma queued_ext s L R R' :
  (forall n, R n <-> R' n) -> queued s L R -> queued s L R'.
Proof.
  intros H [H1 H2 H3]. split; [done| |].
  - intros q n Hq. by rewrite <- H, (H2 q n Hq).
  - intros n Hn. apply H3. by apply H.
Qed.

Lemma wf_sched_frame s s' L :
  sframe s s' -> prio_ok s -> slots_ok s -> cur_ok s -> queued s' L (runnable s') -> wf_sched s'.
Proof.
  intros Hf H1 H2 H3 HQ. split.
  - by exists L.
  - by eapply sframe_prio.
  - by eapply sframe_slots.
  - by eapply sframe_cur.
Qed.

Lemma with_rts_prio s n p v :
  prio_ok s -> procs s !! n = Some p -> (v = 0 -> rdyq_ok (p_priority p) = true) ->
  prio_ok (with_rts s n p v).
Proof.
  intros H Hp Hv m p' Hp' Hr. apply with_rts_runnable in Hr; [|done].
  rewrite with_rts_lookup in Hp'. case_decide as E; [|by eapply H].
  subst. apply (inj Some) in Hp' as <-. apply Hv. by destruct Hr.
Qed.

Lemma flag_set_zero x f : flag_set x f = 0 -> x = 0.
Proof. unfold flag_set. rewrite Z.lor_eq_0_iff. tauto. Qed.

Lemma flag_set_keeps x f g `{!SingleBit g} : has x g = true -> has (flag_set x f) g = true.
Proof.
  rewrite !(has_testbit g). unfold flag_set. rewrite Z.lor_spec. by intros ->.
Qed.

(** New flags that leave a process as runnable as it was keep the queues. *)
Lemma with_rts_same s L n p v :
  wf_sched s -> queued s L (runnable s) -> procs s !! n = Some p ->
  (p_rts_flags p = 0 <-> v = 0) -> slots_ok (with_rts s n p v) -> cur_ok (with_rts s n p v) ->
  queued (with_rts s n p v) L (runnable (with_rts s n p v)) /\ wf_sched (with_rts s n p v).
Proof.
  intros Hwf HQ Hp Hv Hslots Hcur.
  assert (forall m, runnable s m <-> runnable (with_rts s n p v) m) as Hrm.
  { intros m. rewrite with_rts_runnable by done. case_decide as Em; [|done]. subst m.
    split; [intros (? & p' & Hp' & ?)|intros [? ?%Hv]; split; [done|by exists p]].
    rewrite Hp in Hp'. apply (inj Some) in Hp' as <-. split; [done|]. by apply Hv. }
  assert (queued (with_rts s n p v) L (runnable (with_rts s n p v))) as HQ'.
  { eapply queued_ext; [exact Hrm|]. split; [by apply with_rts_rqs, HQ|by apply with_rts_mem, HQ|apply HQ]. }
  split; [done|]. eapply (wf_sched_frame (with_rts s n p v)); [done| |done..].
  intros m p' Hp' Hr'. pose proof (proj2 (Hrm m) Hr') as Hr.
  rewrite with_rts_lookup in Hp'. case_decide as Em; [|by eapply (ws_prio _ Hwf)].
  subst. apply (inj Some) in Hp' as <-. cbn. by eapply (ws_prio _ Hwf).
Qed.

(** [RTS_SET] on a well-kept state: it sets the flags, and takes a process that
    was runnable out of the queue of its priority. *)
Lemma RTS_SET_spec s n p f L :
  wf_sched s -> queued s L (runnable s) -> procs s !! n = Some p ->
  exists s', RTS_SET n f s = Done tt s'
    /\ sframe (with_rts s n p (flag_set (p_rts_flags p) f)) s'
    /\ queued s' (if (p_rts_flags p =? 0) && negb (flag_set (p_rts_flags p) f =? 0)
                  then updq L (p_priority p) (remove1 n (L (p_priority p))) else L)
         (runnable s')
    /\ wf_sched s'.
Proof.
  intros Hwf HQ Hp. set (v := flag_set (p_rts_flags p) f).
  assert (slots_ok (with_rts s n p v)) as Hslots.
  { apply with_rts_slots; [apply Hwf|done|]. intros Hn. apply flag_set_keeps; [apply _|].
    by apply (slot_task _ (ws_slots _ Hwf) n p Hp Hn). }
  assert (cur_ok (with_rts s n p v)) as Hcur by (by apply with_rts_cur, Hwf).
  assert (v = 0 -> p_rts_flags p = 0) as Hv0 by apply flag_set_zero.
  unfold RTS_SET. erewrite bind_get_proc by done. erewrite bind_upd_proc by done.
  change (set_procs _ s) with (with_rts s n p v). fold v.
  destruct ((p_rts_flags p =? 0) && negb (v =? 0)) eqn:E.
  - apply andb_true_iff in E as [E0%Z.eqb_eq E1%negb_true_iff%Z.eqb_neq].
    assert (prio_ok (with_rts s n p v)) as Hprio.
    { apply with_rts_prio; [apply Hwf|done|]. intros. by destruct E1. }
    destruct (slot_dom _ (ws_slots _ Hwf) n) as [Hn| ->]; [by eexists| |].
    2: { pose proof (slot_task _ (ws_slots _ Hwf) _ p Hp ltac:(done)) as Hs.
         rewrite E0, has_zero in Hs by apply _. done. }
    assert (runnable s n) as Hr by (split; [done|by exists p]).
    assert (procs (with_rts s n p v) !! n = Some (set_p_rts_flags v p)) as Hp1
      by (rewrite with_rts_lookup; by rewrite decide_True).
    destruct (dequeue_spec (with_rts s n p v) L (runnable s) n (set_p_rts_flags v p))
      as (s' & Hd & HQ' & Hf); [|done|..].
    { split; [by apply with_rts_rqs, HQ|by apply with_rts_mem, HQ|apply HQ]. }
    { exact (ws_prio _ Hwf n p Hp Hr). }
    { exact (proj1 (proj2 (slot_magic _ (ws_slots _ Hwf) n p Hp Hn))). }
    { done. }
    { eapply runnable_nonneg; [apply Hwf|exact Hr]. }
    exists s'. split; [done|]. split; [done|].
    assert (queued s' (updq L (p_priority p) (remove1 n (L (p_priority p)))) (runnable s')) as HQ''.
    { eapply queued_ext; [|exact HQ']. intros m. rewrite <- (sframe_runnable _ _ m Hf).
      rewrite with_rts_runnable by done. case_decide; naive_solver. }
    split; [done|]. by eapply wf_sched_frame.
  - exists (with_rts s n p v). split; [done|]. split; [done|]. apply with_rts_same; try done.
    apply andb_false_iff in E as [E%Z.eqb_neq|E%negb_false_iff%Z.eqb_eq]; naive_solver.
Qed.


(** ** [enqueue] *)

(** Whether the process [r] that becomes ready takes the processor from the
    running process [c] with privileges [pv]. *)
Definition preempts (c : proc) (pv : priv) (r : proc) : bool :=
  has (s_flags pv) PREEMPTIBLE && (sched_rt_may_preempt c r || (p_priority r <? p_priority c)).

Lemma preempts_irrefl c pv : preempts c pv c = false.
Proof.
  unfold preempts, sched_rt_may_preempt. rewrite !Z.ltb_irrefl.
  destruct (proc_is_rt c); cbn; by rewrite andb_false_r.
Qed.

(** The frame of operations that may also preempt the running process. *)
Definition erase_pre (p : proc) : proc :=
  erase (set_p_rts_flags (flag_clr (p_rts_flags p) RTS_PREEMPTED) p).
Arguments erase_pre : simpl never.
Record wframe (s s' : kstate) : Prop := {
  wframe_k : kframe erase_pre s s';
  wframe_rts : forall n, n <> proc_ptr s ->
    p_rts_flags <$> procs s !! n = p_rts_flags <$> procs s' !! n
}.

Lemma wframe_proc_ptr s s' : wframe s s' -> proc_ptr s = proc_ptr s'.
Proof. intros [H _]. by apply (kframe_state erase_pre proc_ptr) in H. Qed.

#[global] Instance wframe_equiv : Equivalence wframe.
Proof.
  split.
  - done.
  - intros s s' H. pose proof (wframe_proc_ptr _ _ H) as E. destruct H as [H1 H2].
    split; [by symmetry|]. intros n Hn. symmetry. apply H2. congruence.
  - intros s1 s2 s3 H H'. pose proof (wframe_proc_ptr _ _ H) as E.
    destruct H as [H1 H2], H' as [H1' H2']. split; [by etrans|]. intros n Hn.
    rewrite (H2 n Hn). apply H2'. congruence.
Qed.

Lemma erase_pre_erase p p' : erase p = erase p' -> erase_pre p = erase_pre p'.
Proof.
  intros H. pose proof (f_equal p_rts_flags H : p_rts_flags p = p_rts_flags p') as E.
  unfold erase_pre. rewrite E.
  exact (f_equal (set_p_rts_flags (flag_clr (p_rts_flags p') RTS_PREEMPTED)) H).
Qed.

Lemma sframe_wframe s s' : sframe s s' -> wframe s s'.
Proof.
  intros H. split; [|intros n _; by apply (kframe_field erase p_rts_flags)].
  unfold kframe, erase_k in *.
  assert (erase_pre <$> procs s = erase_pre <$> procs s') as ->.
  { apply map_eq. intros n. rewrite !lookup_fmap.
    destruct (procs s !! n) as [p|] eqn:Hp; cbn.
    - destruct (kframe_lookup erase s s' n p H Hp) as (p' & -> & He). cbn.
      f_equal. by apply erase_pre_erase.
    - destruct (procs s' !! n) as [p'|] eqn:Hp'; [|done].
      destruct (kframe_lookup_r erase s s' n p' H Hp') as (p & ? & _). congruence. }
  exact (f_equal (set_procs (erase_pre <$> procs s')) H).
Qed.

Lemma flag_clr_set_same x f `{!SingleBit f} : flag_clr (flag_set x f) f = flag_clr x f.
Proof.
  apply Z.bits_inj'. intros j Hj. unfold flag_clr, flag_set.
  rewrite !Z.land_spec, Z.lor_spec, Z.lnot_spec, (testbit_single f) by done.
  by destruct (Z.testbit x j), (j =? bit_of f).
Qed.

Lemma wframe_preempt s p :
  procs s !! proc_ptr s = Some p ->
  wframe s (with_rts s (proc_ptr s) p (flag_set (p_rts_flags p) RTS_PREEMPTED)).
Proof.
  intros Hp. split.
  - apply (kframe_set_procs erase_pre s _ p); [done|].
    unfold erase_pre. cbn. by rewrite (flag_clr_set_same _ RTS_PREEMPTED).
  - intros n Hn. rewrite with_rts_lookup. by rewrite decide_False.
Qed.

Lemma has_erase_pre p f `{!SingleBit f} :
  f <> RTS_PREEMPTED -> has (p_rts_flags (erase_pre p)) f = has (p_rts_flags p) f.
Proof.
  intros Hne. unfold erase_pre, erase. cbn. rewrite (has_flag_clr RTS_PREEMPTED f).
  rewrite (proj2 (Z.eqb_neq RTS_PREEMPTED f)) by congruence. by rewrite andb_true_r.
Qed.

Lemma queued_sframe s s' L :
  sframe s s' -> rqs s' L -> queued s L (runnable s) -> queued s' L (runnable s').
Proof.
  intros Hf Hr HQ. eapply queued_ext; [intros m; by apply sframe_runnable|].
  split; [done| |apply HQ]. eapply sframe_mem; [by symmetry|apply HQ].
Qed.

Lemma note_enter_queue_spec s L :
  wf_sched s -> queued s L (runnable s) ->
  exists s', note_enter_queue s = Done tt s' /\ sframe s s'
    /\ queued s' L (runnable s') /\ wf_sched s'.
Proof.
  intros Hwf HQ. destruct (ws_cur _ Hwf) as (c & id & pv & Hc & _).
  unfold note_enter_queue, bind, get. rewrite (upd_proc_done _ _ _ _ Hc).
  match goal with |- context [Done tt ?s'] => set (s1 := s') end.
  assert (sframe s s1) as Hf by by eapply (kframe_set_procs erase).
  assert (queued s1 L (runnable s1)) as HQ1.
  { eapply queued_sframe; [done| |done]. eapply rqs_ext; [..|apply HQ]; [|done..].
    intros n. by eapply nextready_set_same. }
  exists s1. split; [done|]. split; [done|]. split; [done|].
  eapply wf_sched_frame; [done|apply Hwf..|done].
Qed.

(** The queues after [rp] was linked at [L'] and the running process [cur] was
    perhaps preempted. *)
Definition after_preempt (L' : Z -> list Z) (cur : Z) (c : proc) (pre : bool) : Z -> list Z :=
  if pre && (p_rts_flags c =? 0)
  then updq L' (p_priority c) (remove1 cur (L' (p_priority c))) else L'.

Lemma enqueue_preempt_spec s L rp r c pv id :
  wf_sched s -> queued s L (runnable s) -> procs s !! rp = Some r -> p_cpu r = cpuid ->
  procs s !! proc_ptr s = Some c -> p_priv c = Some id -> privs s !! id = Some pv ->
  exists s', enqueue_preempt rp s = Done tt s'
    /\ sframe (if preempts c pv r
               then with_rts s (proc_ptr s) c (flag_set (p_rts_flags c) RTS_PREEMPTED) else s) s'
    /\ queued s' (after_preempt L (proc_ptr s) c (preempts c pv r)) (runnable s')
    /\ wf_sched s'.
Proof.
  intros Hwf HQ Hr Hcpu Hc Hid Hpv. unfold enqueue_preempt.
  erewrite bind_get_proc by done. rewrite Hcpu. cbn [cpuid Z.eqb].
  unfold gets at 1. unfold bind at 1.
  erewrite bind_get_proc by done. erewrite bind_priv_of by done.
  change (has (s_flags pv) PREEMPTIBLE && _) with (preempts c pv r).
  unfold after_preempt. destruct (preempts c pv r); cbn [andb].
  - destruct (RTS_SET_spec s (proc_ptr s) c RTS_PREEMPTED L Hwf HQ Hc) as (s' & E & Hf & HQ' & Hwf').
    exists s'. split; [done|]. split; [done|]. split; [|done].
    rewrite (proj2 (Z.eqb_neq (flag_set _ _) 0)), andb_true_r in HQ'; [done|].
    apply flag_set_nonzero. apply _.
  - by exists s.
Qed.

Lemma sframe_with_rts s s' n p p' v :
  sframe s s' -> erase p = erase p' -> sframe (with_rts s n p v) (with_rts s' n p' v).
Proof.
  intros H He. unfold kframe, erase_k, with_rts in *. cbn.
  rewrite !fmap_insert, (kframe_procs erase s s' H).
  rewrite (f_equal (set_p_rts_flags v) He : erase (set_p_rts_flags v p) = erase (set_p_rts_flags v p')).
  exact (f_equal (set_procs _) H).
Qed.

Lemma preempts_erase c c' pv r r' :
  erase c = erase c' -> erase r = erase r' -> preempts c pv r = preempts c' pv r'.
Proof.
  intros Hc Hr. unfold preempts, sched_rt_may_preempt, proc_is_rt.
  rewrite (f_equal p_sched_class Hc : p_sched_class c = p_sched_class c').
  rewrite (f_equal p_rt_priority Hc : p_rt_priority c = p_rt_priority c').
  rewrite (f_equal p_priority Hc : p_priority c = p_priority c').
  rewrite (f_equal p_sched_class Hr : p_sched_class r = p_sched_class r').
  rewrite (f_equal p_rt_priority Hr : p_rt_priority r = p_rt_priority r').
  by rewrite (f_equal p_priority Hr : p_priority r = p_priority r').
Qed.

Lemma enqueue_spec s L R rp p c id pv :
  queued s L R -> ~ R rp -> (forall m, runnable s m <-> R m \/ m = rp) ->
  prio_ok s -> slots_ok s ->
  procs s !! rp = Some p -> p_rts_flags p = 0 -> isokprocn rp = true ->
  procs s !! proc_ptr s = Some c -> p_priv c = Some id -> privs s !! id = Some pv ->
  exists s', enqueue rp s = Done tt s'
    /\ sframe (if preempts c pv p
               then with_rts s (proc_ptr s) c (flag_set (p_rts_flags c) RTS_PREEMPTED) else s) s'
    /\ queued s' (after_preempt (updq L (p_priority p) (L (p_priority p) ++ [rp]))
                    (proc_ptr s) c (preempts c pv p)) (runnable s')
    /\ wf_sched s'.
Proof.
  intros HQ HnR HR Hprio Hslots Hp Hrts Hn Hc Hid Hpv.
  assert (rdyq_ok (p_priority p) = true) as Hq by (eapply Hprio; [done|]; apply HR; by right).
  unfold enqueue. erewrite bind_get_proc by done.
  rewrite bind_assert by by apply Z.eqb_eq.
  rewrite bind_assert by (apply rdyq_ok_spec in Hq; apply Z.leb_le; lia).
  destruct (enqueue_link_spec s L R rp p _ HQ HnR Hp eq_refl Hq Hn) as (s1 & E1 & HQ1 & Hf1).
  erewrite bind_done by done.
  assert (queued s1 (updq L (p_priority p) (L (p_priority p) ++ [rp])) (runnable s1)) as HQ1'.
  { eapply queued_ext; [|done]. intros m. rewrite <- (sframe_runnable _ _ m Hf1). by rewrite HR. }
  assert (wf_sched s1) as Hwf1.
  { eapply wf_sched_frame; [done..| |done]. by exists c, id, pv. }
  destruct (kframe_lookup erase s s1 rp p Hf1 Hp) as (p1 & Hp1 & He1).
  destruct (kframe_lookup erase s s1 _ c Hf1 Hc) as (c1 & Hc1 & Hec).
  destruct (slot_magic _ (ws_slots _ Hwf1) rp p1 Hp1 Hn) as (_ & _ & Hcpu).
  rewrite (sframe_proc_ptr _ _ Hf1) in Hc1 |- *.
  destruct (enqueue_preempt_spec s1 _ rp p1 c1 pv id Hwf1 HQ1' Hp1 Hcpu Hc1)
    as (s2 & E2 & Hf2 & HQ2 & Hwf2).
  { by rewrite <- (f_equal p_priv Hec : p_priv c = p_priv c1). }
  { by rewrite <- (sframe_privs _ _ Hf1). }
  erewrite bind_done by done.
  destruct (note_enter_queue_spec s2 _ Hwf2 HQ2) as (s3 & E3 & Hf3 & HQ3 & Hwf3).
  exists s3. split; [done|].
  rewrite (preempts_erase c c1 pv p p1 Hec He1).
  unfold after_preempt in *.
  rewrite (f_equal p_rts_flags Hec : p_rts_flags c = p_rts_flags c1).
  rewrite (f_equal p_priority Hec : p_priority c = p_priority c1).
  split; [|done]. etrans; [|exact Hf3]. etrans; [|exact Hf2].
  destruct (preempts c1 pv p1); [|done]. by apply sframe_with_rts.
Qed.

Lemma flag_clr_keeps x f g `{!SingleBit g} :
  has f g = false -> has x g = true -> has (flag_clr x f) g = true.
Proof.
  rewrite !(has_testbit g). unfold flag_clr.
  rewrite Z.land_spec, Z.lnot_spec by apply bit_of_nonneg. by intros -> ->.
Qed.

(** [RTS_UNSET] on a well-kept state clears the flags and appends a process
    that becomes runnable to the queue of its priority; a running process it
    beats is preempted. *)
Definition wakes (p : proc) (f : Z) : bool :=
  negb (p_rts_flags p =? 0) && (flag_clr (p_rts_flags p) f =? 0).

Lemma wakes_false p f : wakes p f = false -> p_rts_flags p = 0 <-> flag_clr (p_rts_flags p) f = 0.
Proof.
  intros E. split; [intros H0; rewrite H0; apply Z.land_0_l|]. intros H0.
  destruct (Z.eq_dec (p_rts_flags p) 0) as [|H1]; [done|].
  unfold wakes in E. by rewrite H0, (proj2 (Z.eqb_neq _ _) H1) in E.
Qed.

Section Unset.
Context (s : kstate) (n : Z) (p : proc) (f : Z) (L : Z -> list Z).
Context (Hwf : wf_sched s) (HQ : queued s L (runnable s)) (Hp : procs s !! n = Some p).
Context (Hf : n < 0 -> has f RTS_PROC_STOP = false).
Context (Hpr : flag_clr (p_rts_flags p) f = 0 -> rdyq_ok (p_priority p) = true).
Let v := flag_clr (p_rts_flags p) f.
Let s1 := with_rts s n p v.

Lemma unset_slots : slots_ok s1.
Proof.
  apply with_rts_slots; [apply Hwf|done|]. intros Hn. apply flag_clr_keeps; [apply _|auto|].
  by apply (slot_task _ (ws_slots _ Hwf) n p Hp Hn).
Qed.
Lemma unset_prio : prio_ok s1.
Proof. by apply with_rts_prio; [apply Hwf|..]. Qed.
Lemma unset_lookup : procs s1 !! n = Some (set_p_rts_flags v p).
Proof. unfold s1. rewrite with_rts_lookup. by rewrite decide_True. Qed.

Lemma unset_isok : v = 0 -> isokprocn n = true.
Proof.
  intros E1. destruct (slot_dom _ (ws_slots _ Hwf) n) as [?|E]; [by eexists|done|].
  assert (n < 0) as Hlt by (rewrite E; done).
  pose proof (slot_task _ unset_slots n _ unset_lookup Hlt) as Hs.
  change (has v RTS_PROC_STOP = true) in Hs. by rewrite E1, has_zero in Hs by apply _.
Qed.

Lemma RTS_UNSET_full c id pv :
  procs s1 !! proc_ptr s = Some c -> p_priv c = Some id -> privs s !! id = Some pv ->
  exists s', RTS_UNSET n f s = Done tt s'
    /\ sframe (if wakes p f && preempts c pv p
               then with_rts s1 (proc_ptr s) c (flag_set (p_rts_flags c) RTS_PREEMPTED) else s1) s'
    /\ queued s' (if wakes p f
                  then after_preempt (updq L (p_priority p) (L (p_priority p) ++ [n]))
                         (proc_ptr s) c (preempts c pv p) else L) (runnable s')
    /\ wf_sched s'.
Proof.
  intros Hc Hid Hpv.
  assert (rqs s1 L) as Hrqs by (by apply with_rts_rqs, HQ).
  assert (rq_mem s1 L (runnable s)) as Hmem by (by apply with_rts_mem, HQ).
  pose proof unset_slots as Hslots. pose proof unset_prio as Hprio.
  unfold RTS_UNSET. erewrite bind_get_proc by done. erewrite bind_upd_proc by done.
  change (set_procs _ s) with s1. fold (wakes p f).
  destruct (wakes p f) eqn:E.
  - apply andb_true_iff in E as [E0%negb_true_iff%Z.eqb_neq E1%Z.eqb_eq].
    destruct (enqueue_spec s1 L (runnable s) n (set_p_rts_flags v p) c id pv)
      as (s' & E & Hfr & HQ' & Hwf'); try done.
    + split; [done|done|apply HQ].
    + intros (_ & p' & Hp' & ?). rewrite Hp in Hp'. by apply (inj Some) in Hp' as <-.
    + pose proof (unset_isok E1).
      intros m. unfold s1. rewrite with_rts_runnable by done. case_decide; naive_solver.
    + exact unset_lookup.
    + by apply unset_isok.
    + exists s'. split; [exact E|]. split; [exact Hfr|]. split; [exact HQ'|exact Hwf'].
  - exists s1. split; [done|]. split; [done|].
    assert (queued s1 L (runnable s1)) as HQ1.
    { eapply queued_ext; [|split; [exact Hrqs|exact Hmem|apply HQ]].
      intros m. unfold s1. rewrite with_rts_runnable by done. case_decide as Em; [|done]. subst m.
      unfold v. rewrite <- (wakes_false _ _ E). unfold runnable. rewrite Hp. naive_solver. }
    split; [done|]. eapply (wf_sched_frame s1 _ L); [done..| |done].
    by apply with_rts_cur, Hwf.
Qed.

Lemma RTS_UNSET_spec :
  exists s', RTS_UNSET n f s = Done tt s' /\ wframe s1 s' /\ wf_sched s'
    /\ (runnable s' n <-> runnable s1 n).
Proof.
  destruct (with_rts_cur s n p v Hp (ws_cur _ Hwf)) as (c & id & pv & Hc & Hid & Hpv).
  destruct (RTS_UNSET_full c id pv Hc Hid Hpv) as (s' & E & Hfr & HQ' & Hwf').
  exists s'. split; [done|]. split_and!; [| done|].
  - destruct (wakes p f && preempts c pv p); [|by apply sframe_wframe].
    etrans; [exact (wframe_preempt _ _ Hc)|by apply sframe_wframe].
  - rewrite <- (sframe_runnable _ _ n Hfr).
    destruct (wakes p f && preempts c pv p) eqn:Epre; [|done].
    rewrite with_rts_runnable by done. case_decide as Ecur; [|done].
    pose proof unset_lookup as Hn. rewrite Ecur in Hn. unfold s1 in Hn.
    cbn [proc_ptr with_rts set_procs] in Hc. rewrite Hc in Hn. apply (inj Some) in Hn as ->. apply andb_true_iff in Epre as [_ Epre].
    change (preempts p pv p = true) in Epre. by rewrite preempts_irrefl in Epre.
Qed.
End Unset.

(** ** Checking the invariant on a concrete state *)

Definition queues : list Z := map Z.of_nat (seq 0 16).

Lemma elem_of_queues q : q ∈ queues <-> rdyq_ok q = true.
Proof.
  rewrite rdyq_ok_spec. unfold queues. rewrite list_elem_of_fmap. split.
  - intros (i & -> & Hi%elem_of_seq). lia.
  - intros Hq. exists (Z.to_nat q). rewrite elem_of_seq. lia.
Qed.

Definition proc_at (s : kstate) (n : Z) (f : proc -> bool) : bool :=
  match procs s !! n with Some p => f p | None => false end.

Definition slot_okb (s : kstate) (n : Z) : bool :=
  proc_at s n (fun p => (p_nr p =? n) && proc_ptr_ok p && (p_cpu p =? cpuid)
    && ((0 <=? n) || has (p_rts_flags p) RTS_PROC_STOP)
    && (negb (p_rts_flags p =? 0) ||
        (rdyq_ok (p_priority p) && bool_decide (n ∈ rq s (p_priority p))))).

Definition queue_okb (s : kstate) (q : Z) : bool :=
  chainb (nextready s) (run_q_head s !! q) (rq s q)
  && bool_decide (run_q_tail s !! q = last (rq s q))
  && forallb (fun n => isokprocn n &&
       proc_at s n (fun p => (p_rts_flags p =? 0) && (p_priority p =? q))) (rq s q).

Definition wf_schedb (s : kstate) : bool :=
  forallb (slot_okb s) proc_table
  && forallb (queue_okb s) queues
  && forallb (fun np => isokprocn (fst np)
       || ((fst np =? idle_proc) && has (p_rts_flags (snd np)) RTS_PROC_STOP)) (map_to_list (procs s))
  && match procs s !! proc_ptr s with
     | Some p => match p_priv p with Some id => bool_decide (is_Some (privs s !! id)) | None => false end
     | None => false
     end.

Lemma slot_okb_spec s n :
  slot_okb s n = true <->
  exists p, procs s !! n = Some p /\ p_nr p = n /\ proc_ptr_ok p = true /\ p_cpu p = cpuid
    /\ (n < 0 -> has (p_rts_flags p) RTS_PROC_STOP = true)
    /\ (p_rts_flags p = 0 -> rdyq_ok (p_priority p) = true /\ n ∈ rq s (p_priority p)).
Proof.
  unfold slot_okb, proc_at. destruct (procs s !! n) as [p|]; [|naive_solver].
  rewrite !andb_true_iff, !orb_true_iff, !andb_true_iff, negb_true_iff, !Z.eqb_eq, Z.eqb_neq,
    Z.leb_le, bool_decide_eq_true.
  split.
  - intros ((((H1 & H2) & H3) & H4) & H5). exists p. split_and!; try done.
    + intros. destruct H4; [lia|done].
    + intros. by destruct H5.
  - intros (p' & [= <-] & ? & ? & ? & H4 & H5). split_and!; try done.
    + destruct (Z.le_gt_cases 0 n); auto.
    + destruct (Z.eq_dec (p_rts_flags p) 0); auto.
Qed.

Lemma queue_okb_spec s q :
  queue_okb s q = true ->
  chain (nextready s) (run_q_head s !! q) (rq s q) /\ run_q_tail s !! q = last (rq s q)
  /\ forall n, n ∈ rq s q -> isokprocn n = true
       /\ exists p, procs s !! n = Some p /\ p_rts_flags p = 0 /\ p_priority p = q.
Proof.
  unfold queue_okb. rewrite !andb_true_iff, bool_decide_eq_true, forallb_forall.
  intros [[H1%chainb_sound H2] H3]. split_and!; try done. intros n Hn%list_elem_of_In.
  specialize (H3 n Hn). rewrite andb_true_iff in H3. destruct H3 as [Hok H3].
  unfold proc_at in H3. destruct (procs s !! n) as [p|]; [|done].
  rewrite andb_true_iff, !Z.eqb_eq in H3. naive_solver.
Qed.

Lemma wf_schedb_sound s : wf_schedb s = true -> wf_sched s.
Proof.
  unfold wf_schedb. rewrite !andb_true_iff, !forallb_forall.
  intros [[[Hs Hq] Hd] Hc].
  assert (forall n, isokprocn n = true -> slot_okb s n = true) as Hs'.
  { intros n Hn. by apply Hs, list_elem_of_In, elem_of_proc_table. }
  assert (forall q, rdyq_ok q = true -> queue_okb s q = true) as Hq'.
  { intros q Hk. by apply Hq, list_elem_of_In, elem_of_queues. }
  assert (forall n p, procs s !! n = Some p -> isokprocn n = true \/
    n = idle_proc /\ has (p_rts_flags p) RTS_PROC_STOP = true) as Hd'.
  { intros n p Hp. specialize (Hd (n, p)). cbn in Hd. rewrite orb_true_iff, andb_true_iff, Z.eqb_eq in Hd.
    apply Hd, list_elem_of_In. by apply elem_of_map_to_list. }
  clear Hs Hq Hd. split.
  - exists (rq s). split.
    + intros q Hk. by destruct (queue_okb_spec s q (Hq' q Hk)) as (? & ? & _).
    + intros q n Hk. destruct (queue_okb_spec s q (Hq' q Hk)) as (_ & _ & Hin). split.
      * intros Hn. destruct (Hin n Hn) as (Hok & p & Hp & Hr & Hpr).
        split; [split; [done|by exists p]|]. rewrite Hp. cbn. congruence.
      * intros [(Hok & p & Hp & Hr) E]. rewrite Hp in E. injection E as E.
        destruct (proj1 (slot_okb_spec s n) (Hs' n Hok)) as (p' & Hp' & _ & _ & _ & _ & H).
        rewrite Hp in Hp'. apply (inj Some) in Hp' as <-. rewrite <- E. by apply H.
    + by intros n [? _].
  - intros n p Hp (Hok & p' & Hp' & Hr). rewrite Hp in Hp'. apply (inj Some) in Hp' as <-.
    destruct (proj1 (slot_okb_spec s n) (Hs' n Hok)) as (p' & Hp' & _ & _ & _ & _ & H).
    rewrite Hp in Hp'. apply (inj Some) in Hp' as <-. by apply H.
  - split.
    + intros n Hn. destruct (proj1 (slot_okb_spec s n) (Hs' n Hn)) as (p & Hp & _). eauto.
    + intros n p Hp Hn. destruct (proj1 (slot_okb_spec s n) (Hs' n Hn)) as (p' & Hp' & ? & ? & ? & _).
      rewrite Hp in Hp'. by apply (inj Some) in Hp' as <-.
    + intros n p Hp Hlt. destruct (Hd' n p Hp) as [Hn|[_ ?]]; [|done].
      destruct (proj1 (slot_okb_spec s n) (Hs' n Hn)) as (p' & Hp' & _ & _ & _ & H & _).
      rewrite Hp in Hp'. apply (inj Some) in Hp' as <-. by apply H.
    + intros n [p Hp]. destruct (Hd' n p Hp) as [|[? _]]; auto.
  - destruct (procs s !! proc_ptr s) as [p|] eqn:Hp; [|done].
    destruct (p_priv p) as [id|] eqn:Hid; [|done]. apply bool_decide_eq_true in Hc as [pv Hpv].
    by exists p, id, pv.
Qed.
