(* ===== verification/Init.v ===== *)
(** * The tables as [proc_init] leaves them, and example systems

    [bss] is the zero-initialised image of the kernel's tables, [proc_init]
    (kernel/proc.c) the routine that announces every slot free.  The second
    part builds small concrete systems on top of it (the kernel tasks stopped,
    a few processes with chosen flags); they are the inputs at which the
    theorems of the development are instantiated. *)

From S2P Require Import Prelude Monad Timers Endpoint AuditRing DrvQueue Chain Kernel Sched RunQueue.

Definition NOTIFY_MESSAGE : Z := 0x1000.
Definition IDL_F : Z := Z.lor SYS_PROC BILLABLE.
Definition TSK_F : Z := SYS_PROC.
Definition SRV_F : Z := Z.lor SYS_PROC PREEMPTIBLE.
Definition USR_F : Z := Z.lor BILLABLE PREEMPTIBLE.

Definition msg0 : message := mkMsg 0 0 (M_raw []).
Definition proc_zero : proc :=
  mkProc 0 0 0 None 0 0 0 0 0 None 0 0 0 0 acct0 0 0 0 0 0 0 0 0 0 None None None
    0 0 0 EmptyString 0 msg0 msg0 0 (mkVmreq None 0 msg0 0 0 0 0 0 0) 0 (0, 0, 0) None.
Definition map_zero : sys_map := [0; 0; 0; 0].
Definition priv_zero : priv :=
  mkPriv 0 0 0 0 0 0 0 0 map_zero [0; 0] 0 0 map_zero map_zero 0 0 None None false [] [] [] 0 0 0
    0 0 0 0 0.

Definition tab {A} (l : list Z) (a : A) : gmap Z A := list_to_map (map (fun n => (n, a)) l).

(** The pool has two filters for every privilege structure. *)
Definition pool_zero : gmap Z ipc_filter :=
  tab (map Z.of_nat (seq 0 (Z.to_nat (2 * NR_SYS_PROCS)))) (mkIpcf 0 0 None []).

Definition bss : kstate :=
  mkK (tab (idle_proc :: proc_table) proc_zero) (tab (idle_priv :: priv_table) priv_zero) pool_zero ∅ ∅
    0 0 None 0 0 1 0 (mkMsg 0 NOTIFY_MESSAGE (M_raw [])) [] (fun _ _ _ => 0) ∅ ∅
    ∅ (mkTq (tab priv_table (mkTmr None 0 None 0)) None) 0 0 0 100 (mkLoad 0 ∅ 0)
    (tab irq_hook_table (mkHook None 0 0 0 0 0)) ∅ (tab irq_vectors 0) ∅ 0
    (tab irq_vectors (mkIthr 0 0 0 false 0 None 0 0 0 0 0 0)) (tab irq_vectors (mkMmio 0 0 0)) audit_init ∅
    (tab [0] (mkDrvq 0 0 ∅)).

Definition sched_rt_proc_init (p : proc) : proc :=
  set_p_rt_priority 0 (set_p_sched_class SCHED_OTHER p).

(** [arch_proc_reset] clears registers and the state of the FPU, and
    [arch_proc_setcontext] marks the context as set. *)
Definition arch_proc_reset (p : proc) : proc :=
  set_p_misc_flags (flag_set (p_misc_flags p) MF_CONTEXT_SET) p.

Definition proc_init : K unit :=
  for_each proc_table (fun i =>
    upd_proc i (fun rp =>
      arch_proc_reset (sched_rt_proc_init
        (set_p_quantum_size_ms 0 (set_p_priority 0 (set_p_scheduler None
          (set_p_endpoint (ENDPOINT 0 i) (set_p_nr i
            (set_p_magic PMAGIC (set_p_rts_flags RTS_SLOT_FREE rp)))))))))) ;;
  for_each priv_table (fun i =>
    upd_priv_id i (fun sp =>
      set_s_bak_sig_mgr NONE (set_s_sig_mgr NONE (set_s_id i (set_s_proc_nr NONE sp))))) ;;
  upd_priv_id idle_priv (set_s_flags IDL_F) ;;
  upd_proc idle_proc (fun ip =>
    set_p_name "idle0"
      (set_p_rts_flags (flag_set (p_rts_flags ip) RTS_PROC_STOP)
        (set_p_priv (Some idle_priv) (set_p_endpoint IDLE ip)))).

(** ** Example systems *)

Definition run_state {A} (m : K A) (s : kstate) : kstate :=
  match m s with Done _ s' => s' | Stop _ => s end.

(** Whether a run ends with the given result; the final state is then
    [run_state]. *)
Definition ends_with {A} `{EqDecision A} (m : K A) (s : kstate) (r : A) : bool :=
  match m s with Done a _ => bool_decide (a = r) | Stop _ => false end.

Lemma run_done {A} `{EqDecision A} (m : K A) s r :
  ends_with m s r = true -> m s = Done r (run_state m s).
Proof.
  unfold ends_with, run_state. destruct (m s); [|done]. by intros ->%bool_decide_eq_true.
Qed.

Definition init_state : kstate := run_state proc_init bss.

(** A live process of slot [n], generation 1, with the given privilege
    structure, runtime flags and priority. *)
Definition live_proc (n id rts prio : Z) : proc :=
  set_p_priority prio (set_p_rts_flags rts (set_p_priv (Some id)
    (set_p_endpoint (ENDPOINT (if n <? ROOT_USR_PROC_NR then 0 else 1) n)
      (set_p_nr n (set_p_magic PMAGIC proc_zero))))).

Definition all_map : sys_map := [0xffffffff; 0xffffffff; 0xffffffff; 0xffffffff].
Definition live_priv (n id flags : Z) : priv :=
  set_s_ipc_to all_map (set_s_trap_mask (-1) (set_s_flags flags
    (set_s_proc_nr n (set_s_id id (set_s_bak_sig_mgr NONE
      (set_s_sig_mgr (if n <? 0 then NONE else RS_PROC_NR) priv_zero)))))).

Definition with_procs (l : list proc) (s : kstate) : kstate :=
  set_procs (list_to_map (map (fun p => (p_nr p, p)) l) ∪ procs s) s.
Definition with_privs (l : list priv) (s : kstate) : kstate :=
  set_privs (list_to_map (map (fun p => (s_id p, p)) l) ∪ privs s) s.

(** The five kernel tasks, stopped, with their static privilege structures. *)
Definition task_nrs : list Z := [ASYNCM; IDLE; CLOCK; SYSTEM; KERNEL].
Definition task_state : kstate :=
  with_procs (map (fun n => live_proc n (n + NR_TASKS) RTS_PROC_STOP 0) task_nrs)
    (with_privs (map (fun n => live_priv n (n + NR_TASKS) TSK_F) task_nrs) init_state).

(** Make the listed processes ready, in order, and let [cur] run. *)
Definition example (l : list proc) (pl : list priv) (cur : Z) : kstate :=
  let s := set_proc_ptr idle_proc
             (with_procs (map (fun p => set_p_rts_flags (flag_set (p_rts_flags p) RTS_NO_QUANTUM) p) l)
               (with_privs pl task_state)) in
  set_proc_ptr cur (run_state (for_each l (fun p => RTS_UNSET (p_nr p) RTS_NO_QUANTUM)) s).

(** The contents of a slot of a concrete state. *)
Definition slot (s : kstate) (n : Z) : proc :=
  match procs s !! n with Some p => p | None => proc_zero end.
Definition pslot (s : kstate) (id : Z) : priv :=
  match privs s !! id with Some p => p | None => priv_zero end.

Lemma slot_lookup s n : bool_decide (is_Some (procs s !! n)) = true -> procs s !! n = Some (slot s n).
Proof. intros [p Hp]%bool_decide_eq_true. unfold slot. by rewrite Hp. Qed.
Lemma pslot_lookup s n : bool_decide (is_Some (privs s !! n)) = true -> privs s !! n = Some (pslot s n).
Proof. intros [p Hp]%bool_decide_eq_true. unfold pslot. by rewrite Hp. Qed.

Ltac by_vm := vm_compute; reflexivity.
Ltac by_slot := apply slot_lookup; vm_compute; reflexivity.
Ltac by_pslot := apply pslot_lookup; vm_compute; reflexivity.
Ltac by_wf := apply wf_schedb_sound; vm_compute; reflexivity.
