(* ===== verification/SchedProps.v ===== *)
(** * What the scheduler guarantees

    The scheduling operations of [Sched] seen through the abstraction of
    [RunQueue]: the run queues are one list per priority ([rq s q]), runtime
    flags move processes in and out of them, [pick_proc] takes the head of the
    best non-empty one, and the kernel calls that change a priority or a class
    keep or break this. *)

From S2P Require Import Prelude Monad Timers Endpoint Chain Kernel Sched RunQueue Init.

(** ** The executable queues are the queues *)

Lemma queued_rq s L R : queued s L R -> queued s (rq s) R.
Proof.
  intros H. assert (forall q, rdyq_ok q = true -> rq s q = L q) as E
    by (intros; by eapply rq_queued). destruct H as [H1 H2 H3]. split.
  - intros q Hq. rewrite (E q Hq). by apply H1.
  - intros q n Hq. rewrite (E q Hq). by apply H2.
  - done.
Qed.

Lemma wf_queued s : wf_sched s -> queued s (rq s) (runnable s).
Proof. intros [[L HQ] _ _ _]. by eapply queued_rq. Qed.

Lemma wf_rq_NoDup s q : wf_sched s -> rdyq_ok q = true -> NoDup (rq s q).
Proof. intros H Hq. eapply chain_NoDup. by apply (queued_rqs _ _ _ (wf_queued s H)). Qed.

Lemma wf_rq_mem s q n :
  wf_sched s -> rdyq_ok q = true ->
  n ∈ rq s q <-> runnable s n /\ p_priority <$> procs s !! n = Some q.
Proof. intros H Hq. by apply (queued_mem _ _ _ (wf_queued s H)). Qed.

(** ** Updates the run queues do not notice *)

Record sched_same (p p' : proc) : Prop := {
  ss_nr : p_nr p' = p_nr p;
  ss_magic : p_magic p' = p_magic p;
  ss_cpu : p_cpu p' = p_cpu p;
  ss_rts : p_rts_flags p' = p_rts_flags p;
  ss_next : p_nextready p' = p_nextready p;
  ss_priv : p_priv p' = p_priv p;
  ss_prio : p_rts_flags p = 0 -> p_priority p' = p_priority p
}.

(** The same, apart from the privileges. *)
Record sched_kept (p p' : proc) : Prop := {
  sk_nr : p_nr p' = p_nr p;
  sk_magic : p_magic p' = p_magic p;
  sk_cpu : p_cpu p' = p_cpu p;
  sk_rts : p_rts_flags p' = p_rts_flags p;
  sk_next : p_nextready p' = p_nextready p;
  sk_prio : p_rts_flags p = 0 -> p_priority p' = p_priority p
}.

Lemma sched_same_kept p p' : sched_same p p' -> sched_kept p p'.
Proof. by intros []. Qed.

Section Upd.
Context (s : kstate) (n : Z) (p p' : proc).
Context (Hp : procs s !! n = Some p) (Hsame : sched_kept p p').
Let s1 := set_procs (<[n := p']> (procs s)) s.

Lemma upd_lookup m : procs s1 !! m = if decide (m = n) then Some p' else procs s !! m.
Proof.
  unfold s1. cbn. case_decide as E; [subst; by rewrite lookup_insert_eq|].
  by rewrite lookup_insert_ne.
Qed.

Lemma upd_field {A} (f : proc -> A) m :
  f p' = f p -> f <$> procs s1 !! m = f <$> procs s !! m.
Proof. intros E. rewrite upd_lookup. case_decide as Em; [|done]. rewrite Em, Hp. cbn. by rewrite E. Qed.

Lemma upd_runnable m : runnable s1 m <-> runnable s m.
Proof.
  unfold runnable. rewrite upd_lookup. case_decide as Em; [|done]. rewrite Em, Hp.
  split; intros (? & q & <-%(inj Some) & H); split; try done; eexists; split; try done.
  - by rewrite <- (sk_rts _ _ Hsame).
  - by rewrite (sk_rts _ _ Hsame).
Qed.

Lemma upd_queued L : queued s L (runnable s) -> queued s1 L (runnable s1).
Proof.
  intros [H1 H2 H3]. split.
  - eapply (rqs_ext s); [|done|done|exact H1]. intros m. unfold nextready. rewrite upd_lookup.
    case_decide as Em; [|done]. rewrite Em, Hp. apply (sk_next _ _ Hsame).
  - intros q m Hq. rewrite (H2 q m Hq), upd_runnable.
    split; intros [Hr E]; split; try done; rewrite upd_lookup in *; case_decide as Em; try done;
      subst m; destruct Hr as (_ & p0 & Hp0 & Hr); rewrite Hp in Hp0;
      apply (inj Some) in Hp0 as <-; rewrite Hp in *; cbn in *; rewrite <- E;
      f_equal; [|symmetry]; by apply (sk_prio _ _ Hsame).
  - intros m Hm. apply H3. by apply upd_runnable.
Qed.

Lemma upd_kept : wf_sched s -> cur_ok s1 -> wf_sched s1.
Proof.
  intros [[L HQ] Hprio [S1 S2 S3 S4] _] Hcur.
  assert (forall m, is_Some (procs s1 !! m) <-> is_Some (procs s !! m)) as Hdom.
  { intros m. rewrite upd_lookup. case_decide as Em; [|done]. rewrite Em, Hp. split; by eexists. }
  split.
  - exists L. by apply upd_queued.
  - intros m q Hq Hr. apply upd_runnable in Hr. rewrite upd_lookup in Hq.
    case_decide as Em; [|by eapply Hprio]. apply (inj Some) in Hq as <-. subst m.
    rewrite (sk_prio _ _ Hsame); [by eapply Hprio|].
    destruct Hr as (_ & p0 & Hp0 & Hr). rewrite Hp in Hp0. by apply (inj Some) in Hp0 as <-.
  - split.
    + intros m Hm. apply Hdom. auto.
    + intros m q Hq Hm. rewrite upd_lookup in Hq. case_decide as Em; [|by eapply S2].
      apply (inj Some) in Hq as <-. subst m. unfold proc_ptr_ok.
      rewrite (sk_nr _ _ Hsame), (sk_magic _ _ Hsame), (sk_cpu _ _ Hsame). by apply S2.
    + intros m q Hq Hm. rewrite upd_lookup in Hq. case_decide as Em; [|by eapply S3].
      apply (inj Some) in Hq as <-. subst m. rewrite (sk_rts _ _ Hsame). by eapply S3.
    + intros m Hm. apply S4. by apply Hdom.
  - exact Hcur.
Qed.

Lemma upd_wf : p_priv p' = p_priv p -> wf_sched s -> wf_sched s1.
Proof.
  intros HP Hw. apply upd_kept; [done|]. destruct Hw as [_ _ _ (c & id & pv & Hc & Hid & Hpv)].
  pose proof (upd_field p_priv (proc_ptr s) HP) as E. rewrite Hc in E.
  destruct (procs s1 !! proc_ptr s) as [c'|] eqn:Hc'; [|done].
  exists c', id, pv. cbn in E. injection E as E. split_and!; [done|by rewrite E|exact Hpv].
Qed.

Lemma upd_rq : wf_sched s -> forall q, rdyq_ok q = true -> rq s1 q = rq s q.
Proof. intros H q Hq. eapply rq_queued; [|done]. by apply upd_queued, wf_queued. Qed.
End Upd.

(** ** Runtime flags *)

(** C6: [RTS_SET] on a well-formed state finishes, sets exactly the given flags
    of the process and nothing else outside the queue links and the accounting,
    takes a process that was runnable out of the queue of its priority, leaves
    every other queue as it was, and keeps the scheduling invariant. *)
Theorem rts_set_refines s n p f :
  wf_sched s -> procs s !! n = Some p ->
  exists s', RTS_SET n f s = Done tt s' /\ wf_sched s'
    /\ sframe (with_rts s n p (flag_set (p_rts_flags p) f)) s'
    /\ forall q, rdyq_ok q = true ->
         rq s' q = if (p_rts_flags p =? 0) && negb (flag_set (p_rts_flags p) f =? 0)
                      && (q =? p_priority p)
                   then remove1 n (rq s q) else rq s q.
Proof.
  intros Hwf Hp. destruct (RTS_SET_spec s n p f _ Hwf (wf_queued s Hwf) Hp) as (s' & E & Hf & HQ & Hwf').
  exists s'. split_and!; try done. intros q Hq. rewrite (rq_queued _ _ _ _ HQ Hq).
  destruct (_ && _); [|done]. unfold updq. cbn. by destruct (Z.eqb_spec q (p_priority p)) as [->|].
Qed.

(** C5: [RTS_UNSET] on a well-formed state finishes and keeps the scheduling
    invariant.  When the flags become clear the process is appended to the
    queue of its priority, and if it beats the running process (which must be
    preemptible) that process leaves its own queue; otherwise the queues do not
    change. *)
Theorem rts_unset_refines s n p f c id pv :
  wf_sched s -> procs s !! n = Some p ->
  (n < 0 -> has f RTS_PROC_STOP = false) ->
  (flag_clr (p_rts_flags p) f = 0 -> rdyq_ok (p_priority p) = true) ->
  procs s !! proc_ptr s = Some c -> p_priv c = Some id -> privs s !! id = Some pv ->
  exists s', RTS_UNSET n f s = Done tt s' /\ wf_sched s'
    /\ wframe (with_rts s n p (flag_clr (p_rts_flags p) f)) s'
    /\ forall q, rdyq_ok q = true ->
         rq s' q =
           if wakes p f then
             let l := if q =? p_priority p then rq s q ++ [n] else rq s q in
             if preempts c pv p && (p_rts_flags c =? 0) && (q =? p_priority c)
             then remove1 (proc_ptr s) l else l
           else rq s q.
Proof.
  intros Hwf Hp Hf Hpr Hc Hid Hpv. pose proof (wf_queued s Hwf) as HQ.
  set (s1 := with_rts s n p (flag_clr (p_rts_flags p) f)).
  assert (exists c', procs s1 !! proc_ptr s = Some c' /\ p_priv c' = Some id
     /\ preempts c' pv p = preempts c pv p /\ p_priority c' = p_priority c
     /\ (preempts c pv p = true -> p_rts_flags c' = p_rts_flags c)) as (c' & Hc' & Hid' & E1 & E2 & E3).
  { unfold s1. rewrite with_rts_lookup. case_decide as Ec; [|by exists c].
    rewrite Ec, Hp in Hc. apply (inj Some) in Hc as <-. eexists. split_and!; [done|exact Hid|done|done|].
    by rewrite preempts_irrefl. }
  destruct (RTS_UNSET_full s n p f _ Hwf HQ Hp Hf Hpr c' id pv Hc' Hid' Hpv) as (s' & E & Hfr & HQ' & Hwf').
  exists s'. split_and!; [done|done| |].
  - destruct (wakes p f && _); [|by apply sframe_wframe].
    etrans; [exact (wframe_preempt s1 _ Hc')|by apply sframe_wframe].
  - intros q Hq. rewrite (rq_queued _ _ _ _ HQ' Hq). destruct (wakes p f); [|done].
    unfold after_preempt. rewrite E1. destruct (preempts c pv p) eqn:Epre; cbn.
    + rewrite E3 by done. rewrite E2. destruct (p_rts_flags c =? 0); cbn; unfold updq.
      * destruct (Z.eqb_spec q (p_priority c)) as [->|].
        -- by destruct (Z.eqb_spec (p_priority c) (p_priority p)) as [->|].
        -- by destruct (Z.eqb_spec q (p_priority p)) as [->|].
      * by destruct (Z.eqb_spec q (p_priority p)) as [->|].
    + unfold updq. by destruct (Z.eqb_spec q (p_priority p)) as [->|].
Qed.

(** ** Choosing the next process *)

(** Every runnable process has a privilege structure. *)
Definition runnable_priv (s : kstate) : Prop :=
  forall n p, runnable s n -> procs s !! n = Some p ->
    exists id pv, p_priv p = Some id /\ privs s !! id = Some pv.

Definition runnable_privb (s : kstate) : bool :=
  forallb (fun n => proc_at s n (fun p => negb (p_rts_flags p =? 0) ||
    match p_priv p with Some id => bool_decide (is_Some (privs s !! id)) | None => false end)) proc_table.

Lemma runnable_privb_sound s : runnable_privb s = true -> runnable_priv s.
Proof.
  unfold runnable_privb. rewrite forallb_forall. intros H n p (Hn & p' & Hp' & Hr) Hp.
  rewrite Hp in Hp'. apply (inj Some) in Hp' as <-.
  specialize (H n). unfold proc_at in H. rewrite Hp, Hr in H. cbn in H.
  specialize (H ltac:(by apply list_elem_of_In, elem_of_proc_table)).
  destruct (p_priv p) as [id|]; [|done].
  apply bool_decide_eq_true in H as [pv Hpv]. eauto.
Qed.

(** The result of [pick_proc]: the head of the first non-empty queue. *)
Fixpoint first_ready (s : kstate) (k : nat) (q : Z) : option Z :=
  match k with
  | O => None
  | S k' => match head (rq s q) with Some n => Some n | None => first_ready s k' (q + 1) end
  end.

Lemma first_ready_Some s k q n :
  first_ready s k q = Some n ->
  exists q', q <= q' < q + Z.of_nat k /\ head (rq s q') = Some n
    /\ forall i, q <= i < q' -> rq s i = [].
Proof.
  revert q. induction k as [|k IH]; intros q; cbn [first_ready]; [done|].
  destruct (head (rq s q)) as [m|] eqn:E.
  - intros [= ->]. exists q. split_and!; [lia|lia|done|]. intros. lia.
  - intros (q' & ? & ? & Hb)%IH. exists q'. split_and!; [lia|lia|done|]. intros i Hi.
    destruct (Z.eq_dec i q) as [->|]; [by apply head_None|apply Hb; lia].
Qed.

Lemma first_ready_None s k q :
  first_ready s k q = None -> forall i, q <= i < q + Z.of_nat k -> rq s i = [].
Proof.
  revert q. induction k as [|k IH]; intros q; cbn [first_ready]; [intros; lia|].
  destruct (head (rq s q)) as [m|] eqn:E; [done|]. intros H i Hi.
  destruct (Z.eq_dec i q) as [->|]; [by apply head_None|apply (IH (q + 1)); [done|lia]].
Qed.

(** The privilege structure of the process in slot [n]. *)
Definition priv_at (s : kstate) (n : Z) : option priv :=
  match procs s !! n with
  | Some p => match p_priv p with Some id => privs s !! id | None => None end
  | None => None
  end.

Definition billed (s : kstate) (n : Z) : kstate :=
  match priv_at s n with
  | Some pv => if has (s_flags pv) BILLABLE then set_bill_ptr n s else s
  | None => s
  end.

Lemma pick_proc_loop_spec s k q :
  wf_sched s -> runnable_priv s -> 0 <= q -> q + Z.of_nat k <= 16 ->
  pick_proc_loop k q s =
    Done (first_ready s k q) (match first_ready s k q with Some n => billed s n | None => s end).
Proof.
  intros Hwf Hpv. revert q. induction k as [|k IH]; intros q Hq Hk; cbn [pick_proc_loop first_ready]; [done|].
  assert (rdyq_ok q = true) as Hok by (apply rdyq_ok_spec; lia).
  destruct (queued_rqs _ _ _ (wf_queued s Hwf) q Hok) as [Hc _].
  unfold get_head. rewrite Hok. unfold bind at 1, gets.
  destruct (run_q_head s !! q) as [h|] eqn:Hh.
  - destruct (chain_head _ _ _ Hc) as [l Hl].
    assert (runnable s h) as Hr by (apply (wf_rq_mem s q h Hwf Hok); rewrite Hl; set_solver).
    pose proof Hr as (Hn & p & Hp & Hr0). destruct (Hpv h p Hr Hp) as (id & pv & Hid & Hpv').
    erewrite bind_get_proc by done. rewrite bind_assert by (by apply Z.eqb_eq).
    erewrite bind_priv_of by done. rewrite Hl. cbn [head]. unfold billed, priv_at.
    rewrite Hp, Hid, Hpv'. by destruct (has (s_flags pv) BILLABLE).
  - rewrite (chain_head_None _ _ Hc). cbn [head]. apply IH; lia.
Qed.

Lemma pick_proc_run s :
  wf_sched s -> runnable_priv s ->
  exists r s', pick_proc s = Done r s' /\
    match r with
    | Some n => s' = billed s n /\ runnable s n /\
        exists q, rdyq_ok q = true /\ head (rq s q) = Some n
          /\ forall m p, runnable s m -> procs s !! m = Some p -> q <= p_priority p
    | None => s' = s /\ forall n, ~ runnable s n
    end.
Proof.
  intros Hwf Hpv. unfold pick_proc. change (Z.to_nat NR_SCHED_QUEUES) with 16%nat.
  rewrite pick_proc_loop_spec by (done || lia).
  eexists _, _. split; [done|].
  destruct (first_ready _ _ _) as [n|] eqn:E.
  - apply first_ready_Some in E as (q & Hq & Hh & Hlt).
    assert (rdyq_ok q = true) as Hok by (apply rdyq_ok_spec; lia).
    split; [done|]. apply head_Some in Hh as [l Hl]. split.
    { apply (wf_rq_mem s q n Hwf Hok). rewrite Hl. set_solver. }
    exists q. rewrite Hl. split_and!; try done. intros m p Hm Hp.
    pose proof (ws_prio _ Hwf m p Hp Hm) as Hpr.
    destruct (Z.le_gt_cases q (p_priority p)) as [|Hlt']; [done|].
    assert (m ∈ rq s (p_priority p)) as Hin by (apply wf_rq_mem; [done..|]; by rewrite Hp).
    apply rdyq_ok_spec in Hpr. rewrite Hlt in Hin by lia. by apply elem_of_nil in Hin.
  - split; [done|]. intros n Hr. pose proof Hr as (Hn & p & Hp & _).
    pose proof (ws_prio _ Hwf n p Hp Hr) as Hpr.
    assert (n ∈ rq s (p_priority p)) as Hin by (apply wf_rq_mem; [done..|]; by rewrite Hp).
    apply rdyq_ok_spec in Hpr. rewrite (first_ready_None _ _ _ E) in Hin by lia. by apply elem_of_nil in Hin.
Qed.

(** C7: [pick_proc] finishes on every well-formed state and chooses the head of
    the non-empty run queue with the smallest index, that is the process that
    has waited longest at the best priority; it answers [NULL] only when no
    process is runnable, and changes nothing but the process to bill. *)
Theorem pick_proc_correct s :
  wf_sched s -> runnable_priv s ->
  exists r s', pick_proc s = Done r s' /\
    match r with
    | Some n => s' = billed s n /\ runnable s n /\
        exists q, rdyq_ok q = true /\ head (rq s q) = Some n
          /\ forall m p, runnable s m -> procs s !! m = Some p -> q <= p_priority p
    | None => s' = s /\ forall n, ~ runnable s n
    end.
Proof. apply pick_proc_run. Qed.

(** ** Changing priority and quantum *)

(** The process is taken off its queue before its priority changes. *)
Lemma unqueue_spec s n p :
  wf_sched s -> procs s !! n = Some p ->
  exists s1 p1, (if proc_is_runnable p then RTS_SET n RTS_NO_QUANTUM else ret tt) s = Done tt s1
    /\ wf_sched s1 /\ procs s1 !! n = Some p1 /\ p_rts_flags p1 <> 0
    /\ flag_clr (p_rts_flags p1) RTS_NO_QUANTUM = flag_clr (p_rts_flags p) RTS_NO_QUANTUM
    /\ p_priority p1 = p_priority p /\ p_sched_class p1 = p_sched_class p
    /\ k_tsc_per_ms s1 = k_tsc_per_ms s.
Proof.
  intros Hwf Hp. unfold proc_is_runnable. destruct (Z.eqb_spec (p_rts_flags p) 0) as [E|E].
  - destruct (RTS_SET_spec s n p RTS_NO_QUANTUM _ Hwf (wf_queued s Hwf) Hp) as (s1 & Hs & Hf & _ & Hwf1).
    destruct (kframe_lookup erase _ _ n _ Hf (with_rts_self _ _ _ _)) as (p1 & Hp1 & He).
    pose proof (f_equal p_rts_flags He : flag_set (p_rts_flags p) RTS_NO_QUANTUM = p_rts_flags p1) as Er.
    exists s1, p1. split_and!; try done.
    + rewrite <- Er, E. done.
    + rewrite <- Er, E. done.
    + exact (eq_sym (f_equal p_priority He : p_priority p = p_priority p1)).
    + exact (eq_sym (f_equal p_sched_class He : p_sched_class p = p_sched_class p1)).
    + symmetry. exact (kframe_state erase k_tsc_per_ms _ _ (fun _ => eq_refl) Hf).
  - exists s, p. by split_and!.
Qed.

(** A field update of a process that is not queued. *)
Lemma upd_unqueued s n p f :
  wf_sched s -> procs s !! n = Some p -> sched_same p (f p) ->
  exists s', upd_proc n f s = Done tt s' /\ wf_sched s' /\ procs s' !! n = Some (f p)
    /\ k_tsc_per_ms s' = k_tsc_per_ms s.
Proof.
  intros Hwf Hp Hs. rewrite (upd_proc_done _ _ _ _ Hp). eexists. split; [done|].
  split; [by eapply upd_wf; [|apply sched_same_kept|apply ss_priv|]|]. cbn. by rewrite lookup_insert_eq.
Qed.

(** What [sched_proc] does to the process between taking it off its queue and
    putting it back. *)
Definition sched_params (p : proc) (priority quantum t : Z) (niced : bool) : proc :=
  let p := if negb (priority =? -1) then set_p_priority priority p else p in
  let p := if negb (quantum =? -1)
           then set_p_cpu_time_left t (set_p_quantum_size_ms quantum p) else p in
  set_p_misc_flags (if niced then flag_set (p_misc_flags p) MF_NICED
                    else flag_clr (p_misc_flags p) MF_NICED) p.

Lemma sched_proc_prefix s n p priority quantum cpu niced :
  wf_sched s -> procs s !! n = Some p ->
  -1 <= priority <= 16 -> quantum = -1 \/ 1 <= quantum ->
  exists s2 p1 t, wf_sched s2 /\ procs s2 !! n = Some (sched_params p1 priority quantum t niced)
    /\ p_rts_flags p1 <> 0
    /\ flag_clr (p_rts_flags p1) RTS_NO_QUANTUM = flag_clr (p_rts_flags p) RTS_NO_QUANTUM
    /\ p_priority p1 = p_priority p
    /\ sched_proc n priority quantum cpu niced s = (RTS_UNSET n RTS_NO_QUANTUM ;; ret OK) s2.
Proof.
  intros Hwf Hp Hpr Hq. unfold sched_proc, TASK_Q, NR_SCHED_QUEUES.
  replace ((_ && _) || _) with false by (destruct (Z.ltb_spec priority 0), (Z.eqb_spec priority (-1)), (Z.ltb_spec 16 priority); cbn; lia || done).
  replace ((quantum <? 1) && negb (quantum =? -1)) with false
    by (destruct (Z.ltb_spec quantum 1), (Z.eqb_spec quantum (-1)); cbn; lia || done).
  erewrite bind_get_proc by done.
  destruct (unqueue_spec s n p Hwf Hp) as (s1 & p1 & E1 & Hwf1 & Hp1 & Hr1 & Ec1 & Epr1 & _ & _).
  erewrite bind_done by exact E1. erewrite bind_get_proc by done.
  unfold proc_is_runnable at 1. rewrite (proj2 (Z.eqb_neq _ _) Hr1), bind_ret.
  set (pa := if negb (priority =? -1) then set_p_priority priority p1 else p1).
  assert (exists sa, (if negb (priority =? -1) then upd_proc n (set_p_priority priority) else ret tt) s1
     = Done tt sa /\ wf_sched sa /\ procs sa !! n = Some pa) as (sa & Ea & Hwfa & Hpa).
  { subst pa. destruct (negb _); [|by exists s1].
    destruct (upd_unqueued s1 n p1 (set_p_priority priority)) as (sa & ? & ? & ? & _); [done..| |by exists sa].
    by split. }
  assert (p_rts_flags pa = p_rts_flags p1) as Era by (subst pa; by destruct (negb _)).
  erewrite bind_done by exact Ea. set (t := u64 (k_tsc_per_ms sa * quantum)).
  set (pb := if negb (quantum =? -1) then set_p_cpu_time_left t (set_p_quantum_size_ms quantum pa) else pa).
  assert (exists sb, (if negb (quantum =? -1) then
       t <- ms_2_cpu_time quantum ;;
       upd_proc n (fun p => set_p_cpu_time_left t (set_p_quantum_size_ms quantum p))
     else ret tt) sa = Done tt sb /\ wf_sched sb /\ procs sb !! n = Some pb) as (sb & Eb & Hwfb & Hpb).
  { subst pb. destruct (negb (quantum =? -1)); [|by exists sa].
    destruct (upd_unqueued sa n pa (fun p => set_p_cpu_time_left t (set_p_quantum_size_ms quantum p)))
      as (sb & ? & ? & ? & _); [done..| |by exists sb]. by split. }
  erewrite bind_done by exact Eb.
  destruct (upd_unqueued sb n pb (fun p => set_p_misc_flags
      (if niced then flag_set (p_misc_flags p) MF_NICED
       else flag_clr (p_misc_flags p) MF_NICED) p)) as (sc & Ec & Hwfc & Hpc & _); [done..|by split|].
  erewrite bind_done by exact Ec. exists sc, p1, t. by split_and!.
Qed.

Lemma sched_params_fields p priority quantum t niced :
  p_rts_flags (sched_params p priority quantum t niced) = p_rts_flags p
  /\ p_priority (sched_params p priority quantum t niced) = (if priority =? -1 then p_priority p else priority).
Proof. unfold sched_params. by destruct (priority =? -1), (quantum =? -1). Qed.

(** C15: [sched_proc] with a priority of a run queue (or -1 to keep it) and a
    positive quantum (or -1) finishes with [OK], keeps the scheduling
    invariant, and leaves the process in the queue of the new priority exactly
    when nothing but a used-up quantum kept it from running. *)
Theorem sched_proc_correct s n p priority quantum cpu niced :
  wf_sched s -> procs s !! n = Some p -> rdyq_ok (p_priority p) = true ->
  -1 <= priority < NR_SCHED_QUEUES -> quantum = -1 \/ 1 <= quantum ->
  let prio := if priority =? -1 then p_priority p else priority in
  exists s', sched_proc n priority quantum cpu niced s = Done OK s' /\ wf_sched s'
    /\ p_priority <$> procs s' !! n = Some prio
    /\ (n ∈ rq s' prio <-> isokprocn n = true /\ flag_clr (p_rts_flags p) RTS_NO_QUANTUM = 0).
Proof.
  intros Hwf Hp Hok Hpr Hq prio. unfold NR_SCHED_QUEUES in Hpr.
  assert (rdyq_ok prio = true) as Hprio.
  { unfold prio. destruct (Z.eqb_spec priority (-1)); [done|]. apply rdyq_ok_spec. lia. }
  destruct (sched_proc_prefix s n p priority quantum cpu niced) as
    (s2 & p1 & t & Hwf2 & Hp2 & Hr1 & Ec & Epr & ->); [done..|lia|done|].
  set (p2 := sched_params p1 priority quantum t niced) in *.
  destruct (sched_params_fields p1 priority quantum t niced) as [Er2 Epr2]. fold p2 in Er2, Epr2.
  rewrite Epr in Epr2. fold prio in Epr2.
  destruct (RTS_UNSET_spec s2 n p2 RTS_NO_QUANTUM _ Hwf2 (wf_queued _ Hwf2) Hp2) as (s' & E & Hf & Hwf' & Hrun).
  { done. } { intros _. by rewrite Epr2. }
  exists s'. erewrite bind_done by exact E. split; [done|]. split; [done|].
  pose proof (kframe_field erase_pre p_priority _ _ n (fun _ => eq_refl) (wframe_k _ _ Hf)) as Ep.
  rewrite with_rts_self in Ep. change (Some (p_priority p2) = p_priority <$> procs s' !! n) in Ep.
  rewrite Epr2 in Ep. split; [done|].
  rewrite (wf_rq_mem s' prio n Hwf' Hprio), <- Ep, Hrun, with_rts_runnable by done.
  rewrite decide_True, Er2, Ec by done. naive_solver.
Qed.

(** Property: the range check of [sched_proc] accepts [NR_SCHED_QUEUES], one more than
    the last run queue: a runnable process moved there makes [enqueue] index
    the run-queue arrays out of bounds. *)
Theorem sched_proc_off_by_one s n p quantum cpu niced :
  wf_sched s -> runnable s n -> procs s !! n = Some p -> quantum = -1 \/ 1 <= quantum ->
  sched_proc n NR_SCHED_QUEUES quantum cpu niced s = Stop BadAccess.
Proof.
  intros Hwf (_ & p' & Hp' & Hr) Hp Hq. rewrite Hp in Hp'. apply (inj Some) in Hp' as <-.
  destruct (sched_proc_prefix s n p NR_SCHED_QUEUES quantum cpu niced) as
    (s2 & p1 & t & Hwf2 & Hp2 & Hr1 & Ec & Epr & ->); [done..|].
  destruct (sched_params_fields p1 NR_SCHED_QUEUES quantum t niced) as [Er2 Epr2].
  set (p2 := sched_params p1 NR_SCHED_QUEUES quantum t niced) in *.
  unfold RTS_UNSET. rewrite bind_assoc. erewrite bind_get_proc by done.
  rewrite bind_assoc. erewrite bind_upd_proc by done.
  rewrite Er2, Ec, Hr, (proj2 (Z.eqb_neq _ _) Hr1). change (flag_clr 0 RTS_NO_QUANTUM) with 0.
  change (negb false && (0 =? 0)) with true. cbv iota.
  set (p3 := set_p_rts_flags 0 p2). set (s3 := set_procs _ _).
  assert (procs s3 !! n = Some p3) as Hp3 by (by cbn; rewrite lookup_insert_eq).
  unfold enqueue. rewrite bind_assoc. erewrite bind_get_proc by done.
  assert (p_priority p3 = NR_SCHED_QUEUES) as -> by exact Epr2.
  rewrite bind_assoc, bind_assert by done. rewrite bind_assoc, bind_assert by done. done.
Qed.

(** ** Real-time classes *)

(** Property: the map from real-time priorities to run queues stays within the
    queues and is order-reversing: a better real-time priority never gets a
    worse queue.  Priority 99 gets queue 0, and priority 1 gets the last
    queue, 15, and not 14 as the comment of [rt_prio_to_queue] says. *)
Theorem rt_prio_to_queue_spec a b :
  RT_PRIO_MIN <= a <= b -> b <= RT_PRIO_MAX ->
  rdyq_ok (rt_prio_to_queue a) = true
  /\ rt_prio_to_queue b <= rt_prio_to_queue a
  /\ rt_prio_to_queue RT_PRIO_MAX = 0 /\ rt_prio_to_queue RT_PRIO_MIN = 15.
Proof.
  unfold RT_PRIO_MIN, RT_PRIO_MAX. intros Ha Hb. rewrite rdyq_ok_spec.
  assert (forall x, 1 <= x <= 99 -> rt_prio_to_queue x = 15 - (x - 1) * 15 / 98) as E.
  { intros x Hx. unfold rt_prio_to_queue, NR_SCHED_QUEUES, RT_PRIO_MAX, RT_PRIO_MIN.
    destruct (Z.leb_spec x 0); [lia|]. destruct (Z.leb_spec 99 x).
    - by replace x with 99 by lia.
    - rewrite Z.quot_div_nonneg by lia. done. }
  rewrite !E by lia.
  pose proof (Z.div_le_mono ((a - 1) * 15) ((b - 1) * 15) 98).
  pose proof (Z.div_pos ((a - 1) * 15) 98). pose proof (Z.div_lt_upper_bound ((a - 1) * 15) 98 16).
  split_and!; try done; lia.
Qed.

(** Property: the preemption test is not an order: a first-in-first-out real-time
    process and an ordinary process with a better queue each preempt the other,
    while the class is documented to run until it blocks or a better real-time
    process comes. *)
Theorem rt_preemption_not_an_order rt_prio prio :
  RT_PRIO_MIN <= rt_prio <= RT_PRIO_MAX -> 0 <= prio < rt_prio_to_queue rt_prio ->
  forall p, p_sched_class p = SCHED_FIFO -> p_rt_priority p = rt_prio ->
    p_priority p = rt_prio_to_queue rt_prio ->
  forall r, p_sched_class r = SCHED_OTHER -> p_priority r = prio ->
  sched_rt_may_preempt p r = true /\ sched_rt_may_preempt r p = true.
Proof.
  intros Hrt Hpr p Hc Hp1 Hp2 r Hrc Hr. unfold sched_rt_may_preempt, proc_is_rt.
  rewrite Hc, Hrc, Hp2, Hr. cbn. split; [|done]. apply Z.ltb_lt. lia.
Qed.

Lemma bind_ms_2_cpu_time {A} ms (k : Z -> K A) s :
  bind (ms_2_cpu_time ms) k s = k (u64 (k_tsc_per_ms s * ms)) s.
Proof. done. Qed.

(** Property: when the quantum of a runnable real-time process ends,
    [sched_rt_handle_quantum] renews the quantum and reports it handled, but
    moves nothing: a round-robin process keeps its place in its queue, while
    the comments say it goes to the end. *)
Theorem rt_quantum_no_rotation s n p :
  wf_sched s -> procs s !! n = Some p -> p_rts_flags p = 0 -> proc_is_rt p = true ->
  exists s', sched_rt_handle_quantum n s = Done true s' /\ wf_sched s'
    /\ p_cpu_time_left <$> procs s' !! n =
         Some (u64 (k_tsc_per_ms s *
           (if p_sched_class p =? SCHED_FIFO then 1000000 else p_quantum_size_ms p)))
    /\ forall q, rdyq_ok q = true -> rq s' q = rq s q.
Proof.
  intros Hwf Hp Hr Hrt. unfold sched_rt_handle_quantum. erewrite bind_get_proc by done. rewrite Hrt.
  cbn [negb]. set (ms := if p_sched_class p =? SCHED_FIFO then 1000000 else p_quantum_size_ms p).
  set (t := u64 (k_tsc_per_ms s * ms)). set (p1 := set_p_cpu_time_left t p).
  set (s1 := set_procs (<[n := p1]> (procs s)) s).
  assert (sched_same p p1) as Hs by by split.
  assert (procs s1 !! n = Some p1) as Hp1 by (by cbn; rewrite lookup_insert_eq).
  assert (forall v, v = 0 -> set_procs (<[n := set_p_rts_flags v p1]> (procs s1)) s1 = s1) as Hid.
  { intros v ->. unfold s1. cbn. rewrite insert_insert_eq. unfold p1. rewrite <- Hr. by destruct p. }
  exists s1. split.
  - subst t ms. destruct (p_sched_class p =? SCHED_FIFO).
    + rewrite bind_ms_2_cpu_time. by erewrite bind_upd_proc by done.
    + rewrite bind_ms_2_cpu_time. erewrite bind_upd_proc by done. fold p1 s1.
      unfold RTS_UNSET. rewrite bind_assoc. erewrite bind_get_proc by done.
      change (p_rts_flags p1) with (p_rts_flags p). rewrite Hr. cbn [Z.eqb negb andb].
      rewrite bind_assoc. erewrite bind_upd_proc by done. by rewrite Hid.
  - split; [by eapply upd_wf; [|apply sched_same_kept|apply ss_priv|]|]. split; [by rewrite Hp1|]. intros. by eapply upd_rq; [|apply sched_same_kept|..].
Qed.

(** ** The [SYS_SETSCHEDULER] call *)

Lemma isokendpt_valid s n p :
  procs s !! n = Some p -> isokprocn n = true -> ENDPOINT_P (p_endpoint p) = n ->
  isemptyp p = false -> isokendpt (p_endpoint p) s = Done (Some n) s.
Proof.
  intros Hp Hn He Hl. unfold isokendpt. rewrite He, Hn. erewrite bind_get_proc by done.
  rewrite Hl, Z.eqb_refl. done.
Qed.

(** Property: a process that is neither the target, the process manager nor the
    reincarnation server is refused a real-time class for another process, and
    nothing changes. *)
Theorem setscheduler_denied s caller c n p sched_class rt_prio quantum :
  procs s !! caller = Some c -> procs s !! n = Some p -> isokprocn n = true ->
  ENDPOINT_P (p_endpoint p) = n -> isemptyp p = false ->
  sched_class <> SCHED_OTHER -> p_endpoint c <> p_endpoint p ->
  p_endpoint c <> PM_PROC_NR -> p_endpoint c <> RS_PROC_NR ->
  do_setscheduler caller (p_endpoint p) sched_class rt_prio quantum s = Done EPERM s.
Proof.
  intros Hc Hp Hn He Hl H1 H2 H3 H4. unfold do_setscheduler.
  rewrite (bind_done _ _ _ _ _ (isokendpt_valid s n p Hp Hn He Hl)). erewrite bind_get_proc by done.
  erewrite bind_get_proc by done. by rewrite !(proj2 (Z.eqb_neq _ _)) by done.
Qed.

(** Three processes in queue 7 and one that asks for a real-time class. *)
Definition rt_example : kstate :=
  example [live_proc RS_PROC_NR 7 0 4; live_proc 12 16 0 7; live_proc 13 16 0 7; live_proc 14 16 0 7]
    [live_priv RS_PROC_NR 7 SRV_F; live_priv 11 16 USR_F] RS_PROC_NR.

Definition rt_after : kstate :=
  run_state (do_setscheduler RS_PROC_NR (ENDPOINT 1 13) SCHED_FIFO 99 0) rt_example.

(** Changing the class of a runnable process can corrupt the run queues.
    [sched_rt_set_class] replaces the priority before [do_setscheduler] takes
    the process off its queue, so [dequeue] looks in the wrong queue and the
    process stays linked in the old one while [enqueue] links it in the new
    one: the state of the example is well-formed before the call and not
    after, the process is in two queues and the one behind it in the old queue
    is runnable but in none. *)
Lemma setscheduler_corrupts_queues :
  exists s', do_setscheduler RS_PROC_NR (ENDPOINT 1 13) SCHED_FIFO 99 0 rt_example = Done OK s'
    /\ wf_sched rt_example /\ ~ wf_sched s'
    /\ rq rt_example 7 = [12; 13; 14]
    /\ rq s' 7 = [12; 13] /\ rq s' 0 = [13] /\ runnable s' 14.
Proof.
  assert (do_setscheduler RS_PROC_NR (ENDPOINT 1 13) SCHED_FIFO 99 0 rt_example = Done OK rt_after) as Hs
    by (unfold rt_after; apply (run_done (do_setscheduler RS_PROC_NR (ENDPOINT 1 13) SCHED_FIFO 99 0) rt_example OK);
        vm_compute; reflexivity).
  exists rt_after. split; [exact Hs|]. clear Hs.
  split; [apply wf_schedb_sound; by vm_compute|].
  assert (rq rt_after 7 = [12; 13]) as E7 by (by vm_compute).
  assert (rq rt_after 0 = [13]) as E0 by (by vm_compute).
  split.
  - intros Hwf. destruct (proj1 (wf_rq_mem rt_after 7 13 Hwf eq_refl)) as [_ A]; [rewrite E7; by right; left|].
    destruct (proj1 (wf_rq_mem rt_after 0 13 Hwf eq_refl)) as [_ B]; [rewrite E0; by left|].
    rewrite A in B. discriminate B.
  - split; [vm_compute; reflexivity|]. split; [exact E7|]. split; [exact E0|]. split; [done|].
    assert (proc_at rt_after 14 (fun p => p_rts_flags p =? 0) = true) as E by (by vm_compute).
    unfold proc_at in E. destruct (procs rt_after !! 14) as [p|]; [|done].
    exists p. split; [reflexivity|]. by apply Z.eqb_eq.
Qed.

(** ** The theorems at concrete states *)

Definition rt_stopped : kstate := run_state (RTS_SET 13 RTS_P_STOP) rt_example.

Lemma rts_set_refines_witness :
  wf_sched rt_example /\ rq rt_example 7 = [12; 13; 14]
  /\ exists s', RTS_SET 13 RTS_P_STOP rt_example = Done tt s' /\ rq s' 7 = [12; 14].
Proof.
  split; [by_wf|]. split; [by_vm|].
  destruct (rts_set_refines rt_example 13 (slot rt_example 13) RTS_P_STOP) as (s' & E & _ & _ & H);
    [by_wf|by_slot|].
  exists s'. split; [exact E|]. rewrite (H 7 eq_refl). by_vm.
Defined.

Lemma rts_unset_refines_witness :
  wf_sched rt_stopped /\ rq rt_stopped 7 = [12; 14]
  /\ exists s', RTS_UNSET 13 RTS_P_STOP rt_stopped = Done tt s' /\ rq s' 7 = [12; 14; 13].
Proof.
  split; [by_wf|]. split; [by_vm|].
  destruct (rts_unset_refines rt_stopped 13 (slot rt_stopped 13) RTS_P_STOP
    (slot rt_stopped RS_PROC_NR) 7 (pslot rt_stopped 7)) as (s' & E & _ & _ & H);
    [by_wf|by_slot|intros; lia|intros _; by_vm|by_slot|by_vm|by_pslot|].
  exists s'. split; [exact E|]. rewrite (H 7 eq_refl). by_vm.
Defined.

Lemma pick_proc_correct_witness :
  wf_sched rt_example /\ runnable_priv rt_example
  /\ rq rt_example 4 = [RS_PROC_NR]
  /\ exists s', pick_proc rt_example = Done (Some RS_PROC_NR) s' /\ s' = billed rt_example RS_PROC_NR.
Proof.
  assert (runnable_priv rt_example) as Hpv by (apply runnable_privb_sound; by_vm).
  split; [by_wf|]. split; [exact Hpv|]. split; [by_vm|].
  destruct (pick_proc_correct rt_example) as (r & s' & E & H); [by_wf|exact Hpv|].
  assert (ends_with pick_proc rt_example (Some RS_PROC_NR) = true) as Er by by_vm.
  unfold ends_with in Er. rewrite E in Er. apply bool_decide_eq_true in Er as ->.
  exists s'. split; [exact E|]. exact (proj1 H).
Defined.

Lemma sched_proc_correct_witness :
  exists s', sched_proc 13 3 200 (-1) false rt_example = Done OK s' /\ 13 ∈ rq s' 3.
Proof.
  destruct (sched_proc_correct rt_example 13 (slot rt_example 13) 3 200 (-1) false)
    as (s' & E & _ & _ & H); [by_wf|by_slot|by_vm|done|right; lia|].
  exists s'. split; [exact E|]. apply H. split; by_vm.
Defined.

Lemma sched_proc_off_by_one_witness :
  wf_sched rt_example /\ sched_proc 13 NR_SCHED_QUEUES (-1) (-1) false rt_example = Stop BadAccess.
Proof.
  split; [by_wf|].
  apply (sched_proc_off_by_one rt_example 13 (slot rt_example 13) (-1) (-1) false).
  - by_wf.
  - split; [by_vm|]. exists (slot rt_example 13). split; [by_slot|by_vm].
  - by_slot.
  - left. reflexivity.
Defined.

Lemma rt_prio_to_queue_spec_witness : rt_prio_to_queue 60 <= rt_prio_to_queue 50.
Proof. apply (rt_prio_to_queue_spec 50 60); unfold RT_PRIO_MIN, RT_PRIO_MAX; lia. Defined.

Definition fifo_proc : proc :=
  set_p_rt_priority 40 (set_p_sched_class SCHED_FIFO (live_proc 13 16 0 (rt_prio_to_queue 40))).

Lemma rt_preemption_not_an_order_witness :
  sched_rt_may_preempt fifo_proc (live_proc 12 16 0 7) = true
  /\ sched_rt_may_preempt (live_proc 12 16 0 7) fifo_proc = true.
Proof.
  apply (rt_preemption_not_an_order 40 7); try reflexivity.
  - unfold RT_PRIO_MIN, RT_PRIO_MAX. lia.
  - vm_compute. split; congruence.
Defined.

(** The second process of queue 7 is a round-robin process. *)
Definition rr_example : kstate :=
  example [live_proc RS_PROC_NR 7 0 4; live_proc 12 16 0 7;
           set_p_quantum_size_ms 100 (set_p_rt_priority 50 (set_p_sched_class SCHED_RR (live_proc 13 16 0 7)));
           live_proc 14 16 0 7]
    [live_priv RS_PROC_NR 7 SRV_F; live_priv 11 16 USR_F] 13.

Lemma rt_quantum_no_rotation_witness :
  exists s', sched_rt_handle_quantum 13 rr_example = Done true s' /\ rq s' 7 = [12; 13; 14].
Proof.
  destruct (rt_quantum_no_rotation rr_example 13 (slot rr_example 13)) as (s' & E & _ & _ & H);
    [by_wf|by_slot|by_vm|by_vm|].
  exists s'. split; [exact E|]. rewrite (H 7 eq_refl). by_vm.
Defined.

Lemma setscheduler_denied_witness :
  do_setscheduler 12 (ENDPOINT 1 13) SCHED_RR 50 100 rt_example = Done EPERM rt_example.
Proof.
  change (ENDPOINT 1 13) with (p_endpoint (slot rt_example 13)).
  apply (setscheduler_denied rt_example 12 (slot rt_example 12) 13 (slot rt_example 13));
    [by_slot|by_slot|by_vm|by_vm|by_vm|done| | |]; vm_compute; congruence.
Defined.
