(* ===== verification/Ipc.v ===== *)
(** * Message passing: send, receive, notify, asynchronous send, signals

    Models the message-passing half of [kernel/proc.c] ([do_ipc],
    [do_sync_ipc], [mini_send], [mini_receive], [mini_notify], [mini_senda] and
    the functions they use), the receive conditions of [kernel/ipc.h], the MAC
    hook chain of [kernel/system/mac_hooks.c], the IPC filters and the signal
    routines of [kernel/system.c] that message passing calls.

    A process's memory is not modelled byte by byte: [umem] holds the messages
    and [atab] the entries of asynchronous-send tables that are mapped, by
    endpoint and address; an address that is in neither is unmapped and a copy
    from it fails. *)

From S2P Require Import Prelude Monad Timers Endpoint Chain Kernel Sched Init.

(** ** Constants *)
Definition SEND : Z := 1.
Definition RECEIVE : Z := 2.
Definition SENDREC : Z := 3.
Definition NOTIFY : Z := 4.
Definition SENDNB : Z := 5.
Definition MINIX_KERNINFO : Z := 6.
Definition SENDA : Z := 16.
Definition IPCNO_HIGHEST : Z := SENDA.

Definition NON_BLOCKING : Z := 0x0080.
Definition FROM_KERNEL : Z := 0x0100.
Definition IPC_FLG_MSG_FROM_KERNEL : Z := 1.
Definition IPC_STATUS_CALL_TO (call : Z) : Z := Z.shiftl (Z.land call 0x3F) 0.
Definition IPC_STATUS_FLAGS (flgs : Z) : Z := Z.shiftl flgs 16.

Definition AMF_VALID : Z := 1.
Definition AMF_DONE : Z := 2.
Definition AMF_NOTIFY : Z := 4.
Definition AMF_NOREPLY : Z := 8.
Definition AMF_NOTIFY_ERR : Z := 16.
Definition AMF_ALL : Z := 31.

Definition SIGILL : Z := 4.
Definition SIGTRAP : Z := 5.
Definition SIGABRT : Z := 6.
Definition SIGEMT : Z := 7.
Definition SIGFPE : Z := 8.
Definition SIGBUS : Z := 10.
Definition SIGSEGV : Z := 11.
Definition SIGSNDELAY : Z := 70.
Definition SIGKMEM : Z := 71.
Definition SIGKMESS : Z := 72.
Definition SIGKSIGSM : Z := 73.
Definition SIGKSIG : Z := 74.

Definition SIGS_IS_LETHAL (sig : Z) : bool :=
  (sig =? SIGILL) || (sig =? SIGBUS) || (sig =? SIGFPE) || (sig =? SIGSEGV)
  || (sig =? SIGEMT) || (sig =? SIGABRT).

(** [sigset_t] as the number with bit [n - 1] for signal [n]. *)
Definition sigaddset (s n : Z) : Z := Z.lor s (Z.shiftl 1 (n - 1)).
Definition sigismember (s n : Z) : bool := Z.testbit s (n - 1).

Definition CAP_IPC_OWNER : Z := Z.shiftl 1 6.
Definition MAC_IPC_SEND : Z := 1.
Definition MAC_ALLOW : Z := 0.
Definition MAC_DENY : Z := -1.

(** ** Short-circuit conditions *)
Definition andK (a b : K bool) : K bool := x <- a ;; if x then b else ret false.
Definition orK (a b : K bool) : K bool := x <- a ;; if x then ret true else b.

(** ** User memory *)
Definition ASYNMSG_SIZE : Z := 88.
Definition ASYNMSG_MSG : Z := 16.

(** The address of entry [i] of a table of asynchronous messages. *)
Definition asyn_addr (table_v i : Z) : Z := u64 (table_v + i * ASYNMSG_SIZE).

(** The message at address [v] of the process with endpoint [e]. *)
Definition user_msg (s : kstate) (e v : Z) : option message :=
  match umem s !! (e, v) with
  | Some m => Some m
  | None => match atab s !! (e, v - ASYNMSG_MSG) with
            | Some t => Some (am_msg t)
            | None => None
            end
  end.

(** A [message *] argument: the address, and the message when it points to
    kernel memory. *)
Record msg_ptr := mkPtr { ptr_addr : Z; ptr_kernel : option message }.

(** ** Privilege lookups ([kernel/priv.h]) *)
Definition nr_to_id (nr : Z) : K Z := p <- get_proc nr ;; pv <- priv_of p ;; ret (s_id pv).
Definition id_to_nr (id : Z) : K Z := pv <- get_priv_id id ;; ret (s_proc_nr pv).
Definition may_send_to (rp nr : Z) : K bool :=
  p <- get_proc rp ;; pv <- priv_of p ;; id <- nr_to_id nr ;; ret (get_sys_bit (s_ipc_to pv) id).
Definition may_asynsend_to (rp nr : Z) : K bool :=
  orK (may_send_to rp nr) (p <- get_proc rp ;; ret (p_nr p =? nr)).

(** ** MAC hooks ([kernel/system/mac_hooks.c]) *)
Definition MAX_KERNEL_MAC_HOOKS : nat := 4.

(** [None] is the [NULL] hook, which clears the chain. *)
Definition mac_register_kernel_hook (hook : option Z) : K unit :=
  match hook with
  | None => modify (set_k_mac_hooks [])
  | Some h =>
      hooks <- gets k_mac_hooks ;;
      if (MAX_KERNEL_MAC_HOOKS <=? length hooks)%nat then ret tt
      else if existsb (Z.eqb h) hooks then ret tt
      else modify (set_k_mac_hooks (hooks ++ [h]))
  end.

Fixpoint mac_check_loop (call : Z -> Z) (hooks : list Z) : Z :=
  match hooks with
  | [] => MAC_ALLOW
  | h :: hooks' =>
      let r := call h in
      if negb (r =? MAC_ALLOW) then MAC_DENY else mac_check_loop call hooks'
  end.

Definition mac_kernel_check (what : Z) (ctx : mac_context) : K Z :=
  s <- get ;;
  if (length (k_mac_hooks s) =? 0)%nat then ret MAC_ALLOW
  else ret (mac_check_loop (fun h => k_hook_fn s h what ctx) (k_mac_hooks s)).

Definition mac_hook_init : K unit := modify (set_k_mac_hooks []).

(** ** IPC filters ([kernel/ipc_filter.h], [kernel/system.c]) *)
Definition IPCF_NONE : Z := 0.
Definition IPCF_BLACKLIST : Z := 1.
Definition IPCF_WHITELIST : Z := 2.
Definition IPCF_MATCH_M_SOURCE : Z := 0x1.
Definition IPCF_MATCH_M_TYPE : Z := 0x2.
Definition IPCF_POOL_SIZE : Z := 2 * NR_SYS_PROCS.
(** A filter chain has at most as many filters as the pool. *)
Definition ipcf_fuel : nat := S (Z.to_nat IPCF_POOL_SIZE).

(** [*ipcf] for a pointer into the pool. *)
Definition get_ipcf (f : Z) : K ipc_filter := fun s =>
  match ipc_filter_pool s !! f with Some x => Done x s | None => Stop BadAccess end.

Definition IPCF_IS_USR_EP (ep : Z) : K bool :=
  p <- get_proc (ENDPOINT_P ep) ;; pv <- priv_of p ;; ret (negb (has (s_flags pv) SYS_PROC)).
Definition IPCF_IS_TSK_EP (ep : Z) : bool := iskerneln (ENDPOINT_P ep).
Definition IPCF_IS_SYS_EP (ep : Z) : K bool :=
  u <- IPCF_IS_USR_EP ep ;; ret (negb u && negb (IPCF_IS_TSK_EP ep)).

(** The message being filtered: its source, and its type when it was read. *)
Definition IPCF_EL_MATCH_M_TYPE (el : ipc_filter_el) (m_type : option Z) : K bool :=
  if negb (has (el_flags el) IPCF_MATCH_M_TYPE) then ret true
  else match m_type with
       | Some t => ret (el_m_type el =? t)
       | None => halt BadAccess
       end.
Definition IPCF_EL_MATCH_M_SOURCE_ANY_EP (es ms : Z) : K bool :=
  orK (if es =? ANY_USR then IPCF_IS_USR_EP ms else ret false)
    (orK (if es =? ANY_SYS then IPCF_IS_SYS_EP ms else ret false)
       (ret ((es =? ANY_TSK) && IPCF_IS_TSK_EP ms))).
Definition IPCF_EL_MATCH_M_SOURCE (el : ipc_filter_el) (m_source : Z) : K bool :=
  if negb (has (el_flags el) IPCF_MATCH_M_SOURCE) || (el_m_source el =? m_source) then ret true
  else IPCF_EL_MATCH_M_SOURCE_ANY_EP (el_m_source el) m_source.
Definition IPCF_EL_MATCH (el : ipc_filter_el) (m_source : Z) (m_type : option Z) : K bool :=
  andK (IPCF_EL_MATCH_M_TYPE el m_type) (IPCF_EL_MATCH_M_SOURCE el m_source).

Fixpoint ipcf_any_match (els : list ipc_filter_el) (m_source : Z) (m_type : option Z) : K bool :=
  match els with
  | [] => ret false
  | el :: els' => orK (IPCF_EL_MATCH el m_source m_type) (ipcf_any_match els' m_source m_type)
  end.

(** Whether some filter of the chain looks at the message type. *)
Fixpoint ipcf_get_mtype (fuel : nat) (f : Z) : K bool :=
  match fuel with
  | O => halt NoFuel
  | S fuel' =>
      ipcf <- get_ipcf f ;;
      if has (f_flags ipcf) IPCF_MATCH_M_TYPE then ret true
      else match f_next ipcf with Some f' => ipcf_get_mtype fuel' f' | None => ret false end
  end.

Fixpoint ipcf_allow (fuel : nat) (f : Z) (allow : bool) (m_source : Z) (m_type : option Z) : K bool :=
  match fuel with
  | O => halt NoFuel
  | S fuel' =>
      ipcf <- get_ipcf f ;;
      let white := f_type ipcf =? IPCF_WHITELIST in
      allow' <- (if negb (Bool.eqb allow white) then
                   hit <- ipcf_any_match (f_elements ipcf) m_source m_type ;;
                   ret (if hit : bool then white else allow)
                 else ret allow) ;;
      match f_next ipcf with
      | Some f' => ipcf_allow fuel' f' allow' m_source m_type
      | None => ret allow'
      end
  end.

(** The pair [m_src_v], [m_src_p]: a user address, or a kernel message, which
    [allow_ipc_filtered_msg] stamps with the source. *)
Inductive msg_src :=
| FromUser (v : Z)
| FromNotify          (* [&m_notify_buff] *)
| FromSendmsg (n : Z) (* [&sender->p_sendmsg] *)
| FromLocal (m_type : Z).

Definition allow_ipc_filtered_msg (rp src_e : Z) (src : msg_src) : K bool :=
  p <- get_proc rp ;; pv <- priv_of p ;;
  match s_ipcf pv with
  | None => ret true
  | Some f =>
      f0 <- get_ipcf f ;;
      let allow0 := f_type f0 =? IPCF_BLACKLIST in
      match src with
      | FromUser v =>
          assert (negb (v =? 0)) ;;
          get_mtype <- ipcf_get_mtype ipcf_fuel f ;;
          if get_mtype : bool then
            s <- get ;;
            match user_msg s src_e v with
            | None => ret true
            | Some m => ipcf_allow ipcf_fuel f allow0 src_e (Some (m_type m))
            end
          else ipcf_allow ipcf_fuel f allow0 src_e None
      | FromNotify =>
          s <- get ;;
          modify (set_k_notify_buff (set_m_source src_e (k_notify_buff s))) ;;
          ipcf_allow ipcf_fuel f allow0 src_e (Some (m_type (k_notify_buff s)))
      | FromSendmsg n =>
          sp <- get_proc n ;;
          upd_proc n (set_p_sendmsg (set_m_source src_e (p_sendmsg sp))) ;;
          ipcf_allow ipcf_fuel f allow0 src_e (Some (m_type (p_sendmsg sp)))
      | FromLocal t => ipcf_allow ipcf_fuel f allow0 src_e (Some t)
      end
  end.

(** ** Who can receive ([kernel/ipc.h]) *)
Definition CANRECEIVE (receive_e src_e dst : Z) (src : msg_src) : K bool :=
  if negb ((receive_e =? ANY) || (receive_e =? src_e)) then ret false
  else
    p <- get_proc dst ;; pv <- priv_of p ;;
    match s_ipcf pv with
    | None => ret true
    | Some _ => allow_ipc_filtered_msg dst src_e src
    end.

Definition WILLRECEIVE (src_e dst : Z) (src : msg_src) : K bool :=
  p <- get_proc dst ;;
  if RTS_ISSET p RTS_RECEIVING && negb (RTS_ISSET p RTS_SENDING)
  then CANRECEIVE (p_getfrom_e p) src_e dst src
  else ret false.

Definition IPC_STATUS_ADD (n m : Z) : K unit :=
  upd_proc n (fun p =>
    if has (p_misc_flags p) MF_REPLY_PEND then p
    else set_p_ipc_status (Z.lor (p_ipc_status p) m) p).
Definition IPC_STATUS_ADD_CALL (n call : Z) : K unit := IPC_STATUS_ADD n (IPC_STATUS_CALL_TO call).
Definition IPC_STATUS_ADD_FLAGS (n flags : Z) : K unit := IPC_STATUS_ADD n (IPC_STATUS_FLAGS flags).

(** ** Notifications *)

(** [BuildNotifyMessage], returning the message; the pending interrupts or
    signals of the destination are moved into it. *)
Definition BuildNotifyMessage (src dst : Z) : K message :=
  s <- get ;;
  p <- get_proc dst ;;
  if src =? HARDWARE then
    pv <- priv_of p ;;
    upd_priv_of p (set_s_int_pending 0) ;;
    ret (mkMsg 0 NOTIFY_MESSAGE (M_notify (k_monotonic s) (s_int_pending pv) 0))
  else if src =? SYSTEM then
    pv <- priv_of p ;;
    upd_priv_of p (set_s_sig_pending 0) ;;
    ret (mkMsg 0 NOTIFY_MESSAGE (M_notify (k_monotonic s) 0 (s_sig_pending pv)))
  else ret (mkMsg 0 NOTIFY_MESSAGE (M_notify (k_monotonic s) 0 0)).

(** Store a message for a process and mark it for delivery. *)
Definition deliver (n : Z) (m : message) (source : Z) : K unit :=
  upd_proc n (fun p =>
    set_p_misc_flags (flag_set (p_misc_flags p) MF_DELIVERMSG)
      (set_p_delivermsg (set_m_source source m) p)).

Definition mini_notify (caller dst_e : Z) : K Z :=
  r <- isokendpt dst_e ;;
  match r with
  | None => ret EDEADSRCDST
  | Some dst =>
      c <- get_proc caller ;;
      w <- WILLRECEIVE (p_endpoint c) dst FromNotify ;;
      d <- get_proc dst ;;
      if (w : bool) && negb (has (p_misc_flags d) MF_REPLY_PEND) then
        assert (negb (has (p_misc_flags d) MF_DELIVERMSG)) ;;
        m <- BuildNotifyMessage (p_nr c) dst ;;
        deliver dst m (p_endpoint c) ;;
        IPC_STATUS_ADD_CALL dst NOTIFY ;;
        RTS_UNSET dst RTS_RECEIVING ;;
        ret OK
      else
        cpv <- priv_of c ;;
        upd_priv_of d (fun pv =>
          set_s_notify_pending (set_sys_bit (s_notify_pending pv) (s_id cpv)) pv) ;;
        ret OK
  end.

(** ** Signals ([kernel/system.c]) *)
Definition send_sig (ep sig_nr : Z) : K Z :=
  r <- isokendpt ep ;;
  match r with
  | None => ret EINVAL
  | Some n =>
      p <- get_proc n ;;
      match p_priv p with
      | None => ret ENOENT
      | Some id =>
          upd_priv_id id (fun pv => set_s_sig_pending (sigaddset (s_sig_pending pv) sig_nr) pv) ;;
          mini_notify SYSTEM (p_endpoint p) ;;
          ret OK
      end
  end.

(** [cause_sig] calls itself at most once: the second time there is no backup
    signal manager left. *)
Fixpoint cause_sig_rec (fuel : nat) (proc_nr sig_nr : Z) : K unit :=
  match fuel with
  | O => halt NoFuel
  | S fuel' =>
      rp <- get_proc proc_nr ;;
      pv <- priv_of rp ;;
      let sig_mgr := if s_sig_mgr pv =? SELF then p_endpoint rp else s_sig_mgr pv in
      if p_endpoint rp =? sig_mgr then
        if SIGS_IS_LETHAL sig_nr then
          let bak := s_bak_sig_mgr pv in
          ok <- (if bak =? NONE then ret None else isokendpt bak) ;;
          match ok with
          | Some mgr =>
              upd_priv_of rp (fun pv => set_s_bak_sig_mgr NONE (set_s_sig_mgr bak pv)) ;;
              RTS_UNSET mgr RTS_NO_PRIV ;;
              cause_sig_rec fuel' proc_nr sig_nr
          | None => halt Panic
          end
        else
          upd_priv_of rp (fun pv => set_s_sig_pending (sigaddset (s_sig_pending pv) sig_nr) pv) ;;
          r <- send_sig (p_endpoint rp) SIGKSIGSM ;;
          if r =? OK then ret tt else halt Panic
      else if sigismember (p_pending rp) sig_nr then ret tt
      else
        upd_proc proc_nr (fun p => set_p_pending (sigaddset (p_pending p) sig_nr) p) ;;
        if RTS_ISSET rp RTS_SIGNALED then ret tt
        else
          RTS_SET proc_nr (Z.lor RTS_SIGNALED RTS_SIG_PENDING) ;;
          r <- send_sig sig_mgr SIGKSIG ;;
          if r =? OK then ret tt else halt Panic
  end.
Definition cause_sig (proc_nr sig_nr : Z) : K unit := cause_sig_rec 2 proc_nr sig_nr.

Definition sig_delay_done (rp : Z) : K unit :=
  upd_proc rp (fun p => set_p_misc_flags (flag_clr (p_misc_flags p) MF_SIG_DELAY) p) ;;
  p <- get_proc rp ;;
  cause_sig (p_nr p) SIGSNDELAY.

(** [send_diag_sig]. *)
Definition send_diag_sig : K unit :=
  for_each priv_table (fun id =>
    pv <- get_priv_id id ;;
    if negb (s_proc_nr pv =? NONE) && s_diag_sig pv then
      p <- get_proc (s_proc_nr pv) ;;
      send_sig (p_endpoint p) SIGKMESS ;;
      ret tt
    else ret tt).

(** ** Deadlock detection *)

(** One step per process of the chain, and one more. *)
Definition dl_fuel : nat := S (Z.to_nat (NR_PROCS + NR_TASKS)).

Fixpoint deadlock_loop (fuel : nat) (function cp_e : Z) (group_size src_dst_e : Z) : K Z :=
  match fuel with
  | O => halt NoFuel
  | S fuel' =>
      if src_dst_e =? ANY then ret 0
      else
        slot <- okendpt src_dst_e ;;
        xp <- get_proc slot ;;
        assert (proc_ptr_ok xp) ;;
        assert (negb (RTS_ISSET xp RTS_SLOT_FREE)) ;;
        let group_size' := group_size + 1 in
        let e' := P_BLOCKEDON xp in
        if e' =? NONE then ret 0
        else if e' =? cp_e then
          if (group_size' =? 2)
             && has (Z.lxor (p_rts_flags xp) (Z.shiftl function 2)) RTS_SENDING
          then ret 0
          else ret group_size'
        else deadlock_loop fuel' function cp_e group_size' e'
  end.

Definition deadlock (function cp src_dst_e : Z) : K Z :=
  c <- get_proc cp ;;
  deadlock_loop dl_fuel function (p_endpoint c) 1 src_dst_e.

(** ** Pending notifications and asynchronous messages *)

(** [while (!get_sys_bit(map, src_id)) src_id++], within one chunk. *)
Fixpoint scan_bit (fuel : nat) (map : sys_map) (src_id : Z) : K Z :=
  match fuel with
  | O => halt NoFuel
  | S fuel' => if get_sys_bit map src_id then ret src_id else scan_bit fuel' map (src_id + 1)
  end.

Fixpoint scan_chunks (chunks : nat) (map : sys_map) (src_id : Z) : K Z :=
  match chunks with
  | O => ret src_id
  | S chunks' =>
      if negb (get_sys_bits map src_id =? 0) then scan_bit (Z.to_nat BITCHUNK_BITS) map src_id
      else scan_chunks chunks' map (src_id + BITCHUNK_BITS)
  end.

Definition has_pending (map : sys_map) (src_p : Z) : K Z :=
  if negb (src_p =? ANY) then
    src_id <- nr_to_id src_p ;;
    ret (if get_sys_bit map src_id then src_id else NULL_PRIV_ID)
  else
    src_id <- scan_chunks (Z.to_nat (NR_SYS_PROCS / BITCHUNK_BITS)) map 0 ;;
    ret (if src_id <? NR_SYS_PROCS then src_id else NULL_PRIV_ID).

Definition has_pending_notify (caller src_p : Z) : K Z :=
  c <- get_proc caller ;; pv <- priv_of c ;; has_pending (s_notify_pending pv) src_p.
Definition has_pending_asend (caller src_p : Z) : K Z :=
  c <- get_proc caller ;; pv <- priv_of c ;; has_pending (s_asyn_pending pv) src_p.
Definition unset_notify_pending (caller src_id : Z) : K unit :=
  c <- get_proc caller ;;
  upd_priv_of c (fun pv => set_s_notify_pending (unset_sys_bit (s_notify_pending pv) src_id) pv).

(** ** Send *)

(** [struct proc **xpp] into a caller queue. *)
Inductive cq_loc := CqHead (n : Z) | CqLink (n : Z).

Definition read_cq (x : cq_loc) : K (option Z) :=
  match x with
  | CqHead n => p <- get_proc n ;; ret (p_caller_q p)
  | CqLink n => p <- get_proc n ;; ret (p_q_link p)
  end.
Definition write_cq (x : cq_loc) (v : option Z) : K unit :=
  match x with
  | CqHead n => upd_proc n (set_p_caller_q v)
  | CqLink n => upd_proc n (set_p_q_link v)
  end.

Definition cq_fuel : nat := S (Z.to_nat (NR_PROCS + NR_TASKS)).

(** Walk to the end of the queue [xpp] points into and link the caller there. *)
Fixpoint cq_append (fuel : nat) (caller : Z) (xpp : cq_loc) : K unit :=
  match fuel with
  | O => halt NoFuel
  | S fuel' =>
      x <- read_cq xpp ;;
      match x with
      | Some n => cq_append fuel' caller (CqLink n)
      | None => write_cq xpp (Some caller)
      end
  end.

(** [copy_msg_from_user]: the message at the address, or [None] on a fault. *)
Definition copy_msg_from_user (caller_e : Z) (m_ptr : msg_ptr) : K (option message) :=
  gets (fun s => user_msg s caller_e (ptr_addr m_ptr)).

(** The message the sender hands over: from user space, or [*m_ptr] when the
    kernel sends on behalf of a process. *)
Definition fetch_msg (caller_e : Z) (m_ptr : msg_ptr) (flags : Z) : K (option message) :=
  if negb (has flags FROM_KERNEL) then copy_msg_from_user caller_e m_ptr
  else match ptr_kernel m_ptr with Some m => ret (Some m) | None => halt BadAccess end.

(** [mini_send], the destination waits for the message. *)
Definition mini_send_deliver (caller dst : Z) (m_ptr : msg_ptr) (flags : Z) : K Z :=
  c <- get_proc caller ;;
  d <- get_proc dst ;;
  assert (negb (has (p_misc_flags d) MF_DELIVERMSG)) ;;
  m <- fetch_msg (p_endpoint c) m_ptr flags ;;
  match m with
  | None => ret EFAULT
  | Some m =>
      (if has flags FROM_KERNEL then IPC_STATUS_ADD_FLAGS dst IPC_FLG_MSG_FROM_KERNEL else ret tt) ;;
      deliver dst m (p_endpoint c) ;;
      c <- get_proc caller ;;
      IPC_STATUS_ADD_CALL dst
        (if has (p_misc_flags c) MF_REPLY_PEND then SENDREC
         else if has flags NON_BLOCKING then SENDNB else SEND) ;;
      upd_proc dst (fun d => set_p_misc_flags (flag_clr (p_misc_flags d) MF_REPLY_PEND) d) ;;
      RTS_UNSET dst RTS_RECEIVING ;;
      ret OK
  end.

(** [mini_send], the destination does not wait: block and queue the caller. *)
Definition mini_send_block (caller dst dst_e : Z) (m_ptr : msg_ptr) (flags : Z) : K Z :=
  if has flags NON_BLOCKING then ret ENOTREADY
  else
    d <- deadlock SEND caller dst_e ;;
    if negb (d =? 0) then ret ELOCKED
    else
      c <- get_proc caller ;;
      m <- fetch_msg (p_endpoint c) m_ptr flags ;;
      match m with
      | None => ret EFAULT
      | Some m =>
          upd_proc caller (set_p_sendmsg m) ;;
          (if has flags FROM_KERNEL
           then upd_proc caller (fun c =>
                  set_p_misc_flags (flag_set (p_misc_flags c) MF_SENDING_FROM_KERNEL) c)
           else ret tt) ;;
          RTS_SET caller RTS_SENDING ;;
          upd_proc caller (set_p_sendto_e dst_e) ;;
          c <- get_proc caller ;;
          assert (bool_decide (p_q_link c = None)) ;;
          cq_append cq_fuel caller (CqHead dst) ;;
          ret OK
      end.

Definition mini_send (caller dst_e : Z) (m_ptr : msg_ptr) (flags : Z) : K Z :=
  let dst := ENDPOINT_P dst_e in
  d <- get_proc dst ;;
  if RTS_ISSET d RTS_NO_ENDPOINT then ret EDEADSRCDST
  else
    c <- get_proc caller ;;
    w <- WILLRECEIVE (p_endpoint c) dst (FromUser (ptr_addr m_ptr)) ;;
    if w : bool then mini_send_deliver caller dst m_ptr flags
    else mini_send_block caller dst dst_e m_ptr flags.

(** ** Asynchronous send *)

(** [A_RETR]: read entry [i] of the table at [table_v] of process [caller];
    [None] is the failed copy.  A destination [SELF] is replaced. *)
Definition A_RETR (caller table_v i : Z) : K (option asynmsg) :=
  c <- get_proc caller ;;
  s <- get ;;
  match atab s !! (p_endpoint c, asyn_addr table_v i) with
  | None => ret None
  | Some t => ret (Some (if am_dst t =? SELF then set_am_dst (p_endpoint c) t else t))
  end.

(** [A_INSRT]: write the entry back; a failed copy is ignored. *)
Definition A_INSRT (caller table_v i : Z) (tabent : asynmsg) : K unit :=
  c <- get_proc caller ;;
  modify (fun s =>
    let k := (p_endpoint c, asyn_addr table_v i) in
    match atab s !! k with
    | Some _ => set_atab (<[k := tabent]> (atab s)) s
    | None => s
    end).

Definition bad_flags (flags : Z) : bool :=
  has flags (Z.lnot AMF_ALL) || negb (has flags AMF_VALID).

(** Store the result of an entry; the answer tells whether the sender wants a
    notification. *)
Definition store_result (caller table_v i : Z) (tabent : asynmsg) (flags r : Z) : K bool :=
  A_INSRT caller table_v i (set_am_flags (Z.lor flags AMF_DONE) (set_am_result r tabent)) ;;
  ret (has flags AMF_NOTIFY || (negb (r =? OK) && has flags AMF_NOTIFY_ERR)).

(** [try_deliver_senda]: why entry [tabent] cannot be sent, and to which slot. *)
Definition senda_dst (caller : Z) (tabent : asynmsg) : K (Z * Z) :=
  ok <- isokendpt (am_dst tabent) ;;
  match ok with
  | None => ret (EDEADSRCDST, 0)
  | Some dst_p =>
      if iskerneln dst_p then ret (ECALLDENIED, dst_p)
      else
        may <- may_asynsend_to caller dst_p ;;
        if negb may then ret (ECALLDENIED, dst_p)
        else
          d <- get_proc dst_p ;;
          ret (if RTS_ISSET d RTS_NO_ENDPOINT then EDEADSRCDST else OK, dst_p)
  end.

(** One entry of the table: the flags ([done], [do_notify]) after it. *)
Definition senda_entry (caller table_v i : Z) (acc : bool * bool) : K (bool * bool) :=
  let '(done, do_notify) := acc in
  t <- A_RETR caller table_v i ;;
  match t with
  | None => ret acc
  | Some tabent =>
      let flags := am_flags tabent in
      if flags =? 0 then ret acc
      else if bad_flags flags then ret acc
      else if has flags AMF_DONE then ret acc
      else
        rd <- senda_dst caller tabent ;;
        let '(r, dst) := rd : Z * Z in
        c <- get_proc caller ;;
        w <- (if r =? OK then
                andK (WILLRECEIVE (p_endpoint c) dst
                        (FromUser (u64 (asyn_addr table_v i + ASYNMSG_MSG))))
                     (d <- get_proc dst ;;
                      ret (negb (has flags AMF_NOREPLY) || negb (has (p_misc_flags d) MF_REPLY_PEND)))
              else ret false) ;;
        if w : bool then
          deliver dst (am_msg tabent) (p_endpoint c) ;;
          IPC_STATUS_ADD_CALL dst SENDA ;;
          RTS_UNSET dst RTS_RECEIVING ;;
          nt <- store_result caller table_v i tabent flags r ;;
          ret (done, do_notify || nt)
        else if r =? OK then
          d <- get_proc dst ;;
          cpv <- priv_of c ;;
          upd_priv_of d (fun pv => set_s_asyn_pending (set_sys_bit (s_asyn_pending pv) (s_id cpv)) pv) ;;
          ret (false, do_notify)
        else
          nt <- store_result caller table_v i tabent flags r ;;
          ret (done, do_notify || nt)
  end.

Fixpoint senda_loop (n : nat) (caller table_v i : Z) (acc : bool * bool) : K (bool * bool) :=
  match n with
  | O => ret acc
  | S n' => acc' <- senda_entry caller table_v i acc ;; senda_loop n' caller table_v (i + 1) acc'
  end.

Definition MAX_ASYN : Z := 16 * (NR_TASKS + NR_PROCS).

Definition try_deliver_senda (caller table size : Z) : K Z :=
  c <- get_proc caller ;;
  upd_priv_of c (fun pv =>
    set_s_asynendpoint (p_endpoint c) (set_s_asynsize 0 (set_s_asyntab (-1) pv))) ;;
  if size =? 0 then ret OK
  else if MAX_ASYN <? size then ret EDOM
  else
    r <- senda_loop (Z.to_nat size) caller table 0 (true, false) ;;
    let '(done, do_notify) := r : bool * bool in
    (if do_notify then _ <- mini_notify ASYNCM (p_endpoint c) ;; ret tt else ret tt) ;;
    (if negb done then upd_priv_of c (fun pv => set_s_asynsize size (set_s_asyntab table pv))
     else ret tt) ;;
    ret OK.

Definition mini_senda (caller table size : Z) : K Z :=
  c <- get_proc caller ;; pv <- priv_of c ;;
  if negb (has (s_flags pv) SYS_PROC) then ret EPERM
  else try_deliver_senda caller table size.

(** The outcome of scanning a table in [try_one]: a failed copy jumps to
    [asyn_error], otherwise [r], [done] and [do_notify]. *)
Inductive scan := ScanFault | ScanEnd (r : Z) (done do_notify : bool).

Fixpoint try_one_loop (n : nat) (receive_e src dst table_v i : Z) (r : Z) (done : bool) : K scan :=
  match n with
  | O => ret (ScanEnd r done false)
  | S n' =>
      t <- A_RETR src table_v i ;;
      match t with
      | None => ret ScanFault
      | Some tabent =>
          let flags := am_flags tabent in
          let next r done := try_one_loop n' receive_e src dst table_v (i + 1) r done in
          if flags =? 0 then next r done
          else if bad_flags flags then
            nt <- store_result src table_v i tabent flags EINVAL ;;
            ret (ScanEnd EINVAL false nt)
          else if has flags AMF_DONE then next r done
          else
            d <- get_proc dst ;;
            sp <- get_proc src ;;
            if negb (am_dst tabent =? p_endpoint d) then next r false
            else
              can <- CANRECEIVE receive_e (p_endpoint sp) dst
                       (FromUser (u64 (asyn_addr table_v i + ASYNMSG_MSG))) ;;
              if negb can then next r false
              else if has flags AMF_NOREPLY && has (p_misc_flags d) MF_REPLY_PEND then next r false
              else
                deliver dst (am_msg tabent) (p_endpoint sp) ;;
                nt <- store_result src table_v i tabent flags OK ;;
                ret (ScanEnd OK false nt)
      end
  end.

(** The end of a scan: notify the sender, forget the table when it is done or
    mark the receiver again. *)
Definition try_one_end (sp d : proc) (id : Z) (done do_notify : bool) : K unit :=
  (if do_notify then _ <- mini_notify ASYNCM (p_endpoint sp) ;; ret tt else ret tt) ;;
  if done then upd_priv_of sp (fun pv => set_s_asynsize 0 (set_s_asyntab (-1) pv))
  else upd_priv_of d (fun pv => set_s_asyn_pending (set_sys_bit (s_asyn_pending pv) id) pv).

(** [try_one] once the pending bit is cleared; [privp] is the structure of the
    sender on entry. *)
Definition try_one_table (receive_e src dst : Z) (sp d : proc) (privp : priv) : K Z :=
  let size := s_asynsize privp in
  let table_v := s_asyntab privp in
  if size =? 0 then ret EAGAIN
  else if negb (s_asynendpoint privp =? p_endpoint sp) then ret EAGAIN
  else
    may <- may_asynsend_to src (p_nr d) ;;
    if negb may then ret ECALLDENIED
    else
      o <- try_one_loop (Z.to_nat size) receive_e src dst table_v 0 EAGAIN true ;;
      match o with
      | ScanFault => ret EFAULT
      | ScanEnd r done do_notify => try_one_end sp d (s_id privp) done do_notify ;; ret r
      end.

Definition try_one (receive_e src dst : Z) : K Z :=
  sp <- get_proc src ;; privp <- priv_of sp ;;
  if negb (has (s_flags privp) SYS_PROC) then ret EPERM
  else
    d <- get_proc dst ;;
    upd_priv_of d (fun pv => set_s_asyn_pending (unset_sys_bit (s_asyn_pending pv) (s_id privp)) pv) ;;
    try_one_table receive_e src dst sp d privp.

Fixpoint try_async_loop (ids : list Z) (caller : Z) : K Z :=
  match ids with
  | [] => ret ESRCH
  | id :: ids' =>
      privp <- get_priv_id id ;;
      if s_proc_nr privp =? NONE then try_async_loop ids' caller
      else
        c <- get_proc caller ;; cpv <- priv_of c ;;
        if negb (get_sys_bit (s_asyn_pending cpv) (s_id privp)) then try_async_loop ids' caller
        else
          assert (negb (has (p_misc_flags c) MF_DELIVERMSG)) ;;
          r <- try_one ANY (s_proc_nr privp) caller ;;
          if r =? OK then ret r else try_async_loop ids' caller
  end.

Definition try_async (caller : Z) : K Z := try_async_loop priv_table caller.

Fixpoint cancel_loop (n : nat) (src dst table_v i : Z) (done do_notify : bool) : K scan :=
  match n with
  | O => ret (ScanEnd OK done do_notify)
  | S n' =>
      t <- A_RETR src table_v i ;;
      match t with
      | None => ret ScanFault
      | Some tabent =>
          let flags := am_flags tabent in
          let next done do_notify := cancel_loop n' src dst table_v (i + 1) done do_notify in
          if flags =? 0 then next done do_notify
          else if negb (bad_flags flags) && has flags AMF_DONE then next done do_notify
          else
            d <- get_proc dst ;;
            if negb (am_dst tabent =? p_endpoint d) then next false do_notify
            else
              nt <- store_result src table_v i tabent flags
                      (if bad_flags flags then EINVAL else EDEADSRCDST) ;;
              next done (do_notify || nt)
      end
  end.

Definition cancel_async (src dst : Z) : K Z :=
  sp <- get_proc src ;; privp <- priv_of sp ;;
  if negb (has (s_flags privp) SYS_PROC) then ret EPERM
  else
    let size := s_asynsize privp in
    let table_v := s_asyntab privp in
    upd_priv_of sp (fun pv => set_s_asynsize 0 (set_s_asyntab (-1) pv)) ;;
    d <- get_proc dst ;;
    upd_priv_of d (fun pv => set_s_asyn_pending (unset_sys_bit (s_asyn_pending pv) (s_id privp)) pv) ;;
    if size =? 0 then ret EAGAIN
    else
      may <- may_send_to src (p_nr d) ;;
      if negb may then ret ECALLDENIED
      else
        o <- cancel_loop (Z.to_nat size) src dst table_v 0 true false ;;
        match o with
        | ScanFault => ret OK
        | ScanEnd _ done do_notify =>
            (if do_notify then _ <- mini_notify ASYNCM (p_endpoint sp) ;; ret tt else ret tt) ;;
            (if negb done then upd_priv_of sp (fun pv => set_s_asynsize size (set_s_asyntab table_v pv))
             else ret tt) ;;
            ret OK
        end.

(** ** Receive *)

(** The end of a receive that got a message. *)
Definition receive_done (caller : Z) : K Z :=
  upd_proc caller (fun c => set_p_misc_flags (flag_clr (p_misc_flags c) MF_REPLY_PEND) c) ;;
  ret OK.

(** The notification of [src_proc_nr], which is acceptable, is delivered. *)
Definition take_notify (caller src_e src_id src_proc_nr sender_e : Z) : K unit :=
  assert (negb (src_proc_nr =? NONE)) ;;
  unset_notify_pending caller src_id ;;
  c <- get_proc caller ;;
  assert (negb (has (p_misc_flags c) MF_DELIVERMSG)) ;;
  assert ((src_e =? ANY) || (sender_e =? src_e)) ;;
  m <- BuildNotifyMessage src_proc_nr caller ;;
  deliver caller m sender_e ;;
  IPC_STATUS_ADD_CALL caller NOTIFY.

(** A pending notification is delivered; the answer tells whether there was
    one. *)
Definition receive_notify (caller src_e src_p : Z) : K bool :=
  c <- get_proc caller ;;
  if has (p_misc_flags c) MF_REPLY_PEND then ret false
  else
    src_id <- has_pending_notify caller src_p ;;
    if src_id =? NULL_PRIV_ID then ret false
    else
      src_proc_nr <- id_to_nr src_id ;;
      sp <- get_proc src_proc_nr ;;
      can <- CANRECEIVE src_e (p_endpoint sp) caller FromNotify ;;
      if negb can then ret false
      else take_notify caller src_e src_id src_proc_nr (p_endpoint sp) ;; ret true.

(** A pending asynchronous message is delivered. *)
Definition receive_async (caller src_e src_p : Z) : K bool :=
  id <- has_pending_asend caller src_p ;;
  if id =? NULL_PRIV_ID then ret false
  else
    r <- (if negb (src_p =? ANY) then try_one src_e src_p caller else try_async caller) ;;
    if r =? OK then IPC_STATUS_ADD_CALL caller SENDA ;; ret true else ret false.

(** The message of the blocked [sender] is copied and the sender released. *)
Definition take_message (caller sender : Z) : K unit :=
  sp <- get_proc sender ;;
  assert (negb (RTS_ISSET sp RTS_SLOT_FREE)) ;;
  assert (negb (RTS_ISSET sp RTS_NO_ENDPOINT)) ;;
  c <- get_proc caller ;;
  assert (negb (has (p_misc_flags c) MF_DELIVERMSG)) ;;
  deliver caller (p_sendmsg sp) (p_endpoint sp) ;;
  RTS_UNSET sender RTS_SENDING ;;
  sp <- get_proc sender ;;
  IPC_STATUS_ADD_CALL caller (if has (p_misc_flags sp) MF_REPLY_PEND then SENDREC else SEND) ;;
  (if has (p_misc_flags sp) MF_SENDING_FROM_KERNEL then
     IPC_STATUS_ADD_FLAGS caller IPC_FLG_MSG_FROM_KERNEL ;;
     upd_proc sender (fun p =>
       set_p_misc_flags (flag_clr (p_misc_flags p) MF_SENDING_FROM_KERNEL) p)
   else ret tt).

(** [xpp] points to the [sender], which leaves the queue. *)
Definition take_unlink (sender : Z) (xpp : cq_loc) : K unit :=
  sp <- get_proc sender ;;
  write_cq xpp (p_q_link sp) ;;
  upd_proc sender (set_p_q_link None).

Definition receive_take (caller sender : Z) (xpp : cq_loc) : K bool :=
  take_message caller sender ;;
  sp <- get_proc sender ;;
  (if has (p_misc_flags sp) MF_SIG_DELAY then sig_delay_done sender else ret tt) ;;
  take_unlink sender xpp ;;
  ret true.

(** The first acceptable sender of the caller queue hands over its message. *)
Fixpoint receive_queue (fuel : nat) (caller src_e : Z) (xpp : cq_loc) : K bool :=
  match fuel with
  | O => halt NoFuel
  | S fuel' =>
      x <- read_cq xpp ;;
      match x with
      | None => ret false
      | Some sender =>
          sp <- get_proc sender ;;
          can <- CANRECEIVE src_e (p_endpoint sp) caller (FromSendmsg sender) ;;
          if negb can then receive_queue fuel' caller src_e (CqLink sender)
          else receive_take caller sender xpp
      end
  end.

(** No message: block, unless that is not wanted or would deadlock. *)
Definition receive_block (caller src_e flags : Z) : K Z :=
  if has flags NON_BLOCKING then ret ENOTREADY
  else
    d <- deadlock RECEIVE caller src_e ;;
    if negb (d =? 0) then ret ELOCKED
    else
      upd_proc caller (set_p_getfrom_e src_e) ;;
      RTS_SET caller RTS_RECEIVING ;;
      ret OK.

(** Look for a message: notifications first, then asynchronous messages, then
    the queue of blocked senders. *)
Definition receive_find (caller src_e src_p : Z) : K bool :=
  orK (receive_notify caller src_e src_p)
    (orK (receive_async caller src_e src_p)
       (receive_queue cq_fuel caller src_e (CqHead caller))).

Definition mini_receive (caller src_e m_buff_usr flags : Z) : K Z :=
  c <- get_proc caller ;;
  assert (negb (has (p_misc_flags c) MF_DELIVERMSG)) ;;
  upd_proc caller (set_p_delivermsg_vir m_buff_usr) ;;
  src_p <- (if src_e =? ANY then ret ANY else okendpt src_e) ;;
  dead <- (if src_e =? ANY then ret false
           else sp <- get_proc src_p ;; ret (RTS_ISSET sp RTS_NO_ENDPOINT)) ;;
  if dead : bool then ret EDEADSRCDST
  else
    c <- get_proc caller ;;
    found <- (if RTS_ISSET c RTS_SENDING then ret false else receive_find caller src_e src_p) ;;
    if found : bool then receive_done caller else receive_block caller src_e flags.

(** ** The system call *)

Definition ipc_call_named (call_nr : Z) : bool :=
  (call_nr =? SEND) || (call_nr =? RECEIVE) || (call_nr =? SENDREC) || (call_nr =? NOTIFY)
  || (call_nr =? SENDA) || (call_nr =? SENDNB).

(** The checks of [do_sync_ipc] on the endpoint: the slot, or the error. *)
Definition sync_ipc_target (caller call_nr src_dst_e : Z) : K (Z + Z) :=
  if src_dst_e =? ANY then
    ret (if negb (call_nr =? RECEIVE) then inl EINVAL else inr src_dst_e)
  else
    ok <- isokendpt src_dst_e ;;
    match ok with
    | None => ret (inl EDEADSRCDST)
    | Some src_dst_p =>
        if call_nr =? RECEIVE then ret (inr src_dst_p)
        else
          c <- get_proc caller ;;
          v <- mac_kernel_check MAC_IPC_SEND (mac_ipc (p_endpoint c) src_dst_e call_nr) ;;
          if negb (v =? MAC_ALLOW) then ret (inl ECALLDENIED)
          else
            pv <- priv_of c ;;
            may <- (if has (s_cap_effective pv) CAP_IPC_OWNER then ret true
                    else may_send_to caller src_dst_p) ;;
            ret (if negb may then inl ECALLDENIED else inr src_dst_p)
    end.

(** The call itself, once it is allowed. *)
Definition sync_ipc_action (caller call_nr src_dst_e : Z) (m_ptr : msg_ptr) : K Z :=
  if call_nr =? SENDREC then
    upd_proc caller (fun c => set_p_misc_flags (flag_set (p_misc_flags c) MF_REPLY_PEND) c) ;;
    r <- mini_send caller src_dst_e m_ptr 0 ;;
    if negb (r =? OK) then ret r else mini_receive caller src_dst_e (ptr_addr m_ptr) 0
  else if call_nr =? SEND then mini_send caller src_dst_e m_ptr 0
  else if call_nr =? RECEIVE then
    upd_proc caller (fun c =>
      set_p_ipc_status 0 (set_p_misc_flags (flag_clr (p_misc_flags c) MF_REPLY_PEND) c)) ;;
    mini_receive caller src_dst_e (ptr_addr m_ptr) 0
  else if call_nr =? NOTIFY then mini_notify caller src_dst_e
  else if call_nr =? SENDNB then mini_send caller src_dst_e m_ptr NON_BLOCKING
  else ret EBADCALL.

Definition do_sync_ipc (caller call_nr src_dst_e : Z) (m_ptr : msg_ptr) : K Z :=
  assert (negb (call_nr =? SENDA)) ;;
  if (call_nr <? 0) || (IPCNO_HIGHEST <? call_nr) || (32 <=? call_nr)
     || negb (ipc_call_named call_nr)
  then ret ETRAPDENIED
  else
    t <- sync_ipc_target caller call_nr src_dst_e ;;
    match t with
    | inl e => ret e
    | inr src_dst_p =>
        c <- get_proc caller ;; pv <- priv_of c ;;
        if negb (has (s_trap_mask pv) (Z.shiftl 1 call_nr)) then ret ETRAPDENIED
        else if negb (call_nr =? SENDREC) && negb (call_nr =? RECEIVE) && iskerneln src_dst_p
        then ret ETRAPDENIED
        else sync_ipc_action caller call_nr src_dst_e m_ptr
    end.

(** [do_ipc(r1, r2, r3)] for the running process.  [kerninfo] is the global
    [minix_kerninfo_user]; the billing pointer and the second return register
    of [MINIX_KERNINFO] are not part of the state. *)
Definition do_ipc (kerninfo r1 r2 r3 : Z) : K Z :=
  let call_nr := i32 r1 in
  caller <- gets proc_ptr ;;
  c <- get_proc caller ;;
  assert (negb (RTS_ISSET c RTS_SLOT_FREE)) ;;
  let traced := Z.land (p_misc_flags c) (Z.lor MF_SC_TRACE MF_SC_DEFER) in
  if traced =? MF_SC_TRACE then
    upd_proc caller (fun c =>
      set_p_defer (r1, r2, r3)
        (set_p_misc_flags
           (flag_set (flag_clr (p_misc_flags c) MF_SC_TRACE) MF_SC_DEFER) c)) ;;
    cause_sig (p_nr c) SIGTRAP ;;
    c <- get_proc caller ;;
    ret (p_retreg c)
  else
    (if negb (traced =? 0) then
       upd_proc caller (fun c => set_p_misc_flags (flag_clr (p_misc_flags c) MF_SC_DEFER) c) ;;
       assert (negb (has (p_misc_flags c) MF_SC_ACTIVE)) ;;
       upd_proc caller (fun c => set_p_misc_flags (flag_set (p_misc_flags c) MF_SC_ACTIVE) c)
     else ret tt) ;;
    c <- get_proc caller ;;
    if has (p_misc_flags c) MF_DELIVERMSG then halt Panic
    else if (call_nr =? SENDREC) || (call_nr =? SEND) || (call_nr =? RECEIVE) || (call_nr =? NOTIFY)
            || (call_nr =? SENDNB) then
      upd_proc caller (fun c =>
        let a := p_accounting c in set_p_accounting (set_a_ipc_sync (u64 (a_ipc_sync a + 1)) a) c) ;;
      do_sync_ipc caller call_nr (i32 r2) (mkPtr r3 None)
    else if call_nr =? SENDA then
      upd_proc caller (fun c =>
        let a := p_accounting c in set_p_accounting (set_a_ipc_async (u64 (a_ipc_async a + 1)) a) c) ;;
      if MAX_ASYN <? u64 r2 then ret EDOM else mini_senda caller r3 (u64 r2)
    else if call_nr =? MINIX_KERNINFO then
      if kerninfo =? 0 then ret EBADCALL else ret OK
    else ret EBADCALL.

(** ** Out of quantum *)
Definition SCHEDULING_NO_QUANTUM : Z := 0xF01.

Definition reset_proc_accounting (p : proc) : proc :=
  set_p_accounting
    (set_a_enter_queue 0 (set_a_time_in_queue 0 (set_a_dequeues 0
      (set_a_ipc_async 0 (set_a_ipc_sync 0 (set_a_preempted 0 (p_accounting p))))))) p.

(** [kaddr] is the address of the message on the kernel stack. *)
Definition notify_scheduler (kaddr p_nr_ : Z) : K unit :=
  p <- get_proc p_nr_ ;;
  assert (negb (proc_kernel_scheduler p)) ;;
  RTS_SET p_nr_ RTS_NO_QUANTUM ;;
  p <- get_proc p_nr_ ;;
  s <- get ;;
  let a := p_accounting p in
  let m_no_quantum := mkMsg (p_endpoint p) SCHEDULING_NO_QUANTUM
    (M_krn_lsys_schedule (u32 (a_time_in_queue a / k_tsc_per_ms s)) (a_dequeues a) (a_ipc_sync a)
       (a_ipc_async a) (a_preempted a) cpuid (k_cpu_load s)) in
  upd_proc p_nr_ reset_proc_accounting ;;
  match p_scheduler p with
  | None => halt BadAccess
  | Some sch =>
      sp <- get_proc sch ;;
      err <- mini_send p_nr_ (p_endpoint sp) (mkPtr kaddr (Some m_no_quantum)) FROM_KERNEL ;;
      if negb (err =? 0) then halt Panic else ret tt
  end.

Definition proc_no_time (kaddr p_nr_ : Z) : K unit :=
  handled <- sched_rt_handle_quantum p_nr_ ;;
  if handled : bool then ret tt
  else
    p <- get_proc p_nr_ ;;
    notify <- (if proc_kernel_scheduler p then ret false
               else pv <- priv_of p ;; ret (has (s_flags pv) PREEMPTIBLE)) ;;
    if notify : bool then notify_scheduler kaddr p_nr_
    else
      t <- ms_2_cpu_time (p_quantum_size_ms p) ;;
      upd_proc p_nr_ (set_p_cpu_time_left t).
