(* ===== verification/IpcInv.v ===== *)
(** * The message-passing invariant

    What message passing sees of a process ([ipcv]), the invariant that makes
    the calls of [Ipc] run to completion, and how the elementary changes
    (delivering a message, blocking a sender, releasing one) keep it:
    - every live slot carries an endpoint of its own and a privilege structure;
    - a pending bit belongs to a live process;
    - a process waiting to receive has no undelivered message;
    - the processes blocked sending to a process are exactly those linked in
      its caller queue;
    - blocked processes wait for live ones, and the wait-for chains are finite. *)

From S2P Require Import Prelude Monad Timers Endpoint Chain Kernel Sched RunQueue Init SchedProps Ipc.

(** ** The view *)
Record ipcv := mkV {
  v_nr : Z;
  v_ep : Z;
  v_priv : option Z;
  v_cq : option Z;          (* head of the caller queue *)
  v_link : option Z;        (* next in the queue this process is in *)
  v_send : option Z;        (* blocked sending to this endpoint *)
  v_recv : option Z;        (* blocked receiving from this endpoint *)
  v_noend : bool;
  v_empty : bool;           (* [isemptyp] *)
  v_fbit : bool;            (* [RTS_SLOT_FREE] *)
  v_misc : Z;
  v_dmsg : message;         (* [p_delivermsg] *)
  v_dvir : Z;
  v_smsg : message;         (* [p_sendmsg] *)
  v_status : Z;
  v_ret : Z;                (* return register *)
  v_vmwait : bool;          (* [RTS_VMREQUEST] *)
  v_vmreq : vmrequest_t     (* the request to VM *)
}.

Definition ipc_of (p : proc) : ipcv :=
  mkV (p_nr p) (p_endpoint p) (p_priv p) (p_caller_q p) (p_q_link p)
    (if has (p_rts_flags p) RTS_SENDING then Some (p_sendto_e p) else None)
    (if has (p_rts_flags p) RTS_RECEIVING then Some (p_getfrom_e p) else None)
    (has (p_rts_flags p) RTS_NO_ENDPOINT) (isemptyp p) (has (p_rts_flags p) RTS_SLOT_FREE)
    (p_misc_flags p) (p_delivermsg p) (p_delivermsg_vir p) (p_sendmsg p) (p_ipc_status p)
    (p_retreg p) (has (p_rts_flags p) RTS_VMREQUEST) (p_vmrequest p).
Arguments ipc_of : simpl never.

(** The next in the list of processes waiting for VM. *)
Definition v_vmnext (v : ipcv) : option Z := vr_nextrequestor (v_vmreq v).

Notation views := (gmap Z ipcv).
Definition view (s : kstate) : views := ipc_of <$> procs s.

Implicit Types (V : gmap Z ipcv) (P : gmap Z priv) (v w : ipcv) (pv : priv).

Definition live V (n : Z) v : Prop :=
  isokprocn n = true /\ V !! n = Some v /\ v_empty v = false.

Definition qlink V (n : Z) : option Z :=
  match V !! n with Some v => v_link v | None => None end.

(** Whom a process waits for ([P_BLOCKEDON]); nobody when it waits for any. *)
Definition v_blocked v : Z :=
  match v_send v with
  | Some e => e
  | None => match v_recv v with Some e => e | None => NONE end
  end.
Definition blk V (n : Z) : option Z :=
  match V !! n with
  | Some v => if (v_blocked v =? ANY) || (v_blocked v =? NONE) then None
              else Some (ENDPOINT_P (v_blocked v))
  | None => None
  end.

Definition pending pv (b : Z) : bool :=
  get_sys_bit (s_notify_pending pv) b || get_sys_bit (s_asyn_pending pv) b.

Record core V P : Prop := {
  c_ep : forall n v, live V n v -> ENDPOINT_P (v_ep v) = n /\ v_fbit v = false /\ v_nr v = n;
  c_priv : forall n v, live V n v ->
    exists id pv, v_priv v = Some id /\ bit_ok id /\ P !! id = Some pv
      /\ exists w, live V (s_proc_nr pv) w;
  c_privs : forall id pv, bit_ok id -> P !! id = Some pv ->
    s_id pv = id /\ map_ok (s_notify_pending pv) /\ map_ok (s_asyn_pending pv);
  c_pend : forall id pv b, bit_ok id -> P !! id = Some pv -> bit_ok b -> pending pv b = true ->
    exists pv' w, P !! b = Some pv' /\ live V (s_proc_nr pv') w;
  c_dlv : forall n v, live V n v -> v_recv v <> None -> has (v_misc v) MF_DELIVERMSG = false;
  c_task : forall n, n < 0 -> isokprocn n = true -> exists v, live V n v;
  c_all : forall id, bit_ok id -> is_Some (P !! id)
}.

Definition queues_ok V (C : Z -> list Z) : Prop :=
  forall n v, live V n v ->
    chain (qlink V) (v_cq v) (C n)
    /\ forall m, m ∈ C n <-> exists w, live V m w /\ v_send w = Some (v_ep v).

Definition waits_for V (e : Z) (noend : bool) : Prop :=
  exists m w, live V m w /\ v_ep w = e /\ (noend = true -> v_noend w = false).

Record links V : Prop := {
  l_queue : exists C, queues_ok V C;
  l_link : forall n v, live V n v -> v_send v = None -> v_link v = None;
  l_send : forall n v e, live V n v -> v_send v = Some e -> waits_for V e true;
  l_recv : forall n v e, live V n v -> v_recv v = Some e -> e = ANY \/ waits_for V e false;
  l_both : forall n v e e', live V n v -> v_send v = Some e -> v_recv v = Some e' -> e' = e;
  l_noend : forall n v, live V n v -> v_noend v = true -> v_send v = None;
  l_task : forall n v e, live V n v -> v_send v = Some e -> 0 <= n;
  l_acyc : forall n v, live V n v -> exists l, chain (blk V) (Some n) l
}.

(** ** Completing receives

    [relax V V']: the processes keep their place in the queues; some receives
    are completed, and message buffers, flags and status words may change. *)
Record keeps v v' : Prop := {
  k_nr : v_nr v' = v_nr v;
  k_ep : v_ep v' = v_ep v;
  k_priv : v_priv v' = v_priv v;
  k_cq : v_cq v' = v_cq v;
  k_link : v_link v' = v_link v;
  k_send : v_send v' = v_send v;
  k_recv : v_recv v' = v_recv v \/ v_recv v' = None;
  k_noend : v_noend v' = v_noend v;
  k_empty : v_empty v' = v_empty v;
  k_fbit : v_fbit v' = v_fbit v;
  k_smsg : v_smsg v' = v_smsg v
}.

#[export] Instance keeps_refl : Reflexive keeps.
Proof. intros v. split; auto. Qed.
#[export] Instance keeps_trans : Transitive keeps.
Proof. intros a b c [] []. split; try congruence. naive_solver congruence. Qed.

Definition relax V V' : Prop :=
  forall n, match V !! n, V' !! n with
            | Some v, Some v' => keeps v v'
            | None, None => True
            | _, _ => False
            end.

#[export] Instance relax_refl : Reflexive relax.
Proof. intros V n. by destruct (V !! n). Qed.
#[export] Instance relax_trans : Transitive relax.
Proof.
  intros V1 V2 V3 H1 H2 n. specialize (H1 n). specialize (H2 n).
  destruct (V1 !! n), (V2 !! n), (V3 !! n); try done. by etrans.
Qed.

Lemma relax_insert V n v v' : V !! n = Some v -> keeps v v' -> relax V (<[n := v']> V).
Proof.
  intros Hv Hk m. destruct (Z.eq_dec m n) as [->|Hne].
  - by rewrite Hv, lookup_insert_eq.
  - rewrite lookup_insert_ne by done. by destruct (V !! m).
Qed.

Lemma relax_live V V' n v : relax V V' -> live V n v -> exists v', live V' n v' /\ keeps v v'.
Proof.
  intros H (Hn & Hv & He). specialize (H n). rewrite Hv in H.
  destruct (V' !! n) as [v'|] eqn:Hv'; [|done]. exists v'. split; [|done].
  split_and!; [done..|]. by rewrite (k_empty _ _ H).
Qed.

Lemma relax_live_r V V' n v' : relax V V' -> live V' n v' -> exists v, live V n v /\ keeps v v'.
Proof.
  intros H (Hn & Hv & He). specialize (H n). rewrite Hv in H.
  destruct (V !! n) as [v|] eqn:Hv'; [|done]. exists v. split; [|done].
  split_and!; [done..|]. by rewrite <- (k_empty _ _ H).
Qed.

Lemma relax_qlink V V' n : relax V V' -> qlink V' n = qlink V n.
Proof.
  intros H. specialize (H n). unfold qlink. destruct (V !! n), (V' !! n); try done. apply H.
Qed.

Lemma relax_blk V V' n : relax V V' -> blk V' n = blk V n \/ blk V' n = None.
Proof.
  intros H. specialize (H n). unfold blk, v_blocked.
  destruct (V !! n) as [v|], (V' !! n) as [v'|]; try done; [|by left].
  rewrite (k_send _ _ H). destruct (v_send v); [by left|].
  destruct (k_recv _ _ H) as [->| ->]; [by left|]. by right.
Qed.

Lemma relax_waits V V' e b : relax V V' -> waits_for V e b -> waits_for V' e b.
Proof.
  intros H (m & w & Hw & He & Hb). destruct (relax_live _ _ _ _ H Hw) as (w' & Hw' & Hk).
  exists m, w'. split_and!; [done|by rewrite (k_ep _ _ Hk)|]. rewrite (k_noend _ _ Hk). done.
Qed.

Lemma relax_queues V V' C : relax V V' -> queues_ok V C -> queues_ok V' C.
Proof.
  intros H HC n v' Hl'. destruct (relax_live_r _ _ _ _ H Hl') as (v & Hl & Hk).
  destruct (HC n v Hl) as [Hc Hm]. split.
  - rewrite (k_cq _ _ Hk). eapply chain_ext; [|exact Hc]. intros. by apply relax_qlink.
  - intros m. rewrite Hm, (k_ep _ _ Hk). split; intros (w & Hw & Hs).
    + destruct (relax_live _ _ _ _ H Hw) as (w' & ? & Hkw). exists w'. by rewrite (k_send _ _ Hkw).
    + destruct (relax_live_r _ _ _ _ H Hw) as (w' & ? & Hkw). exists w'. by rewrite <- (k_send _ _ Hkw).
Qed.

Lemma links_relax V V' : relax V V' -> links V -> links V'.
Proof.
  intros H [[C HC] H2 H3 H4 H5 H6 H7 H8]. split.
  - exists C. by eapply relax_queues.
  - intros n v' Hl Hs. destruct (relax_live_r _ _ _ _ H Hl) as (v & Hl' & Hk).
    rewrite (k_link _ _ Hk). eapply H2; [done|]. by rewrite <- (k_send _ _ Hk).
  - intros n v' e Hl Hs. destruct (relax_live_r _ _ _ _ H Hl) as (v & Hl' & Hk).
    eapply relax_waits; [done|]. eapply H3; [done|]. by rewrite <- (k_send _ _ Hk).
  - intros n v' e Hl Hs. destruct (relax_live_r _ _ _ _ H Hl) as (v & Hl' & Hk).
    destruct (k_recv _ _ Hk) as [E|E]; rewrite Hs in E; [|done].
    destruct (H4 n v e Hl' (eq_sym E)) as [?|?]; [by left|right]. by eapply relax_waits.
  - intros n v' e e' Hl Hs Hr. destruct (relax_live_r _ _ _ _ H Hl) as (v & Hl' & Hk).
    destruct (k_recv _ _ Hk) as [E|E]; rewrite Hr in E; [|done].
    eapply (H5 n v); [done| |done]. by rewrite <- (k_send _ _ Hk).
  - intros n v' Hl Hs. destruct (relax_live_r _ _ _ _ H Hl) as (v & Hl' & Hk).
    rewrite (k_send _ _ Hk). eapply H6; [done|]. by rewrite <- (k_noend _ _ Hk).
  - intros n v' e Hl Hs. destruct (relax_live_r _ _ _ _ H Hl) as (v & Hl' & Hk).
    eapply H7; [done|]. by rewrite <- (k_send _ _ Hk).
  - intros n v' Hl. destruct (relax_live_r _ _ _ _ H Hl) as (v & Hl' & Hk).
    destruct (H8 n v Hl') as [l Hc]. destruct (chain_prune _ (blk V') _ _ (fun x => relax_blk V V' x H) Hc)
      as (l' & ? & _). eauto.
Qed.

Definition dlv_ok V : Prop :=
  forall n v, live V n v -> v_recv v <> None -> has (v_misc v) MF_DELIVERMSG = false.

(** Changes that leave the identity of the processes alone. *)
Record ident v v' : Prop := {
  i_nr : v_nr v' = v_nr v;
  i_ep : v_ep v' = v_ep v;
  i_priv : v_priv v' = v_priv v;
  i_empty : v_empty v' = v_empty v;
  i_fbit : v_fbit v' = v_fbit v
}.

Definition idents V V' : Prop :=
  forall n, match V !! n, V' !! n with
            | Some v, Some v' => ident v v'
            | None, None => True
            | _, _ => False
            end.

#[export] Instance ident_refl : Reflexive ident.
Proof. by intros v. Qed.
#[export] Instance ident_trans : Transitive ident.
Proof. intros a b c [] []. split; congruence. Qed.
#[export] Instance idents_refl : Reflexive idents.
Proof. intros V n. by destruct (V !! n). Qed.
#[export] Instance idents_trans : Transitive idents.
Proof.
  intros V1 V2 V3 H1 H2 n. specialize (H1 n). specialize (H2 n).
  destruct (V1 !! n), (V2 !! n), (V3 !! n); try done. by etrans.
Qed.

Lemma relax_idents V V' : relax V V' -> idents V V'.
Proof.
  intros H n. specialize (H n). destruct (V !! n), (V' !! n); try done. by destruct H; split.
Qed.

Lemma idents_insert V n v v' : V !! n = Some v -> ident v v' -> idents V (<[n := v']> V).
Proof.
  intros Hv Hk m. destruct (Z.eq_dec m n) as [->|Hne].
  - by rewrite Hv, lookup_insert_eq.
  - rewrite lookup_insert_ne by done. by destruct (V !! m).
Qed.

Lemma idents_live V V' n v : idents V V' -> live V n v -> exists v', live V' n v' /\ ident v v'.
Proof.
  intros H (Hn & Hv & He). specialize (H n). rewrite Hv in H.
  destruct (V' !! n) as [v'|] eqn:Hv'; [|done]. exists v'. split; [|done].
  split_and!; [done..|]. by rewrite (i_empty _ _ H).
Qed.

Lemma idents_live_r V V' n v' : idents V V' -> live V' n v' -> exists v, live V n v /\ ident v v'.
Proof.
  intros H (Hn & Hv & He). specialize (H n). rewrite Hv in H.
  destruct (V !! n) as [v|] eqn:Hv'; [|done]. exists v. split; [|done].
  split_and!; [done..|]. by rewrite <- (i_empty _ _ H).
Qed.

Lemma core_idents V V' P : idents V V' -> dlv_ok V' -> core V P -> core V' P.
Proof.
  intros H Hd [H1 H2 H3 H4 H5 H6 H7]. split.
  - intros n v' Hl. destruct (idents_live_r _ _ _ _ H Hl) as (v & Hl' & Hk).
    rewrite (i_ep _ _ Hk), (i_fbit _ _ Hk), (i_nr _ _ Hk). by apply H1.
  - intros n v' Hl. destruct (idents_live_r _ _ _ _ H Hl) as (v & Hl' & Hk).
    rewrite (i_priv _ _ Hk). destruct (H2 n v Hl') as (id & pv & ? & ? & ? & w & Hw).
    destruct (idents_live _ _ _ _ H Hw) as (w' & ? & _). eauto 10.
  - done.
  - intros id pv b Hid Hpv Hb Hp. destruct (H4 id pv b Hid Hpv Hb Hp) as (pv' & w & ? & Hw).
    destruct (idents_live _ _ _ _ H Hw) as (w' & ? & _). eauto.
  - done.
  - intros n Hn Hok. destruct (H6 n Hn Hok) as [v Hv].
    destruct (idents_live _ _ _ _ H Hv) as (w' & ? & _). eauto.
  - done.
Qed.

Lemma core_relax V V' P : relax V V' -> dlv_ok V' -> core V P -> core V' P.
Proof. intros H. by apply core_idents, relax_idents. Qed.

(** Changes of privilege structures that keep the associations and only add
    pending bits of live processes. *)
Definition prelax V P P' : Prop :=
  forall id, match P !! id, P' !! id with
             | Some pv, Some pv' =>
                 s_id pv' = s_id pv /\ s_proc_nr pv' = s_proc_nr pv
                 /\ (s_ipcf pv' = s_ipcf pv /\ s_sig_mgr pv' = s_sig_mgr pv)
                 /\ (map_ok (s_notify_pending pv) -> map_ok (s_notify_pending pv'))
                 /\ (map_ok (s_asyn_pending pv) -> map_ok (s_asyn_pending pv'))
                 /\ (map_ok (s_notify_pending pv) -> map_ok (s_asyn_pending pv) ->
                     forall b, bit_ok b -> pending pv' b = true -> pending pv b = true
                       \/ exists pb w, P !! b = Some pb /\ live V (s_proc_nr pb) w)
             | None, None => True
             | _, _ => False
             end.

Lemma core_prelax V P P' : prelax V P P' -> core V P -> core V P'.
Proof.
  intros H [H1 H2 H3 H4 H5 H6 H7].
  assert (forall id pv, P !! id = Some pv -> exists pv', P' !! id = Some pv' /\ s_proc_nr pv' = s_proc_nr pv) as HP.
  { intros id pv Hp. specialize (H id). rewrite Hp in H. destruct (P' !! id); [|done]. naive_solver. }
  assert (forall id pv', P' !! id = Some pv' -> exists pv, P !! id = Some pv) as HP'.
  { intros id pv' Hp. specialize (H id). rewrite Hp in H. destruct (P !! id); [|done]. eauto. }
  split; try done.
  - intros n v Hl. destruct (H2 n v Hl) as (id & pv & ? & ? & Hp & w & Hw).
    destruct (HP _ _ Hp) as (pv' & ? & E). exists id, pv'. rewrite E. eauto.
  - intros id pv' Hid Hp'. destruct (HP' _ _ Hp') as [pv Hp]. specialize (H id).
    rewrite Hp, Hp' in H. destruct H as (E & _ & _ & Ha & Hb & _).
    destruct (H3 id pv Hid Hp) as (? & ? & ?). rewrite E. auto.
  - intros id pv' b Hid Hp' Hb Hpe. destruct (HP' _ _ Hp') as [pv Hp]. specialize (H id) as Hi.
    rewrite Hp, Hp' in Hi. destruct Hi as (_ & _ & _ & _ & _ & Hadd).
    destruct (H3 id pv Hid Hp) as (_ & M1 & M2).
    destruct (Hadd M1 M2 b Hb Hpe) as [Hold|(pb & w & Hpb & Hw)].
    + destruct (H4 id pv b Hid Hp Hb Hold) as (pb & w & Hpb & Hw).
      destruct (HP _ _ Hpb) as (pb' & ? & E). exists pb', w. by rewrite E.
    + destruct (HP _ _ Hpb) as (pb' & ? & E). exists pb', w. by rewrite E.
  - intros id Hid. destruct (H7 id Hid) as [pv Hp]. destruct (HP _ _ Hp) as (pv' & ? & _). by eexists.
Qed.

(** ** From states to views *)

Definition cur_live (s : kstate) : Prop :=
  exists p, procs s !! proc_ptr s = Some p /\ has (p_rts_flags p) RTS_SLOT_FREE = false.
Definition prio_all (s : kstate) : Prop :=
  forall n p, procs s !! n = Some p -> rdyq_ok (p_priority p) = true.

Record base (s : kstate) : Prop := {
  b_sched : wf_sched s;
  b_cur : cur_live s;
  b_prio : prio_all s
}.

(** Everything but the process table and the run queues. *)
Definition rest (s : kstate) : kstate := set_run_q_head ∅ (set_run_q_tail ∅ (set_procs ∅ s)).

Lemma kframe_rest er s s' : kframe er s s' -> rest s = rest s'.
Proof. intros H. exact (f_equal (set_procs ∅) H). Qed.

Lemma rest_field {A} (f : kstate -> A) s s' :
  (forall s, f (rest s) = f s) -> rest s = rest s' -> f s = f s'.
Proof. intros Hf H. rewrite <- (Hf s), <- (Hf s'). by rewrite H. Qed.

Lemma rest_privs s s' : rest s = rest s' -> privs s = privs s'.
Proof. by apply rest_field. Qed.
Lemma rest_proc_ptr s s' : rest s = rest s' -> proc_ptr s = proc_ptr s'.
Proof. by apply rest_field. Qed.

Lemma view_lookup s n p : procs s !! n = Some p -> view s !! n = Some (ipc_of p).
Proof. intros H. unfold view. by rewrite lookup_fmap, H. Qed.

Lemma view_lookup_inv s n v : view s !! n = Some v -> exists p, procs s !! n = Some p /\ ipc_of p = v.
Proof.
  unfold view. rewrite lookup_fmap. destruct (procs s !! n) as [p|]; [|done]. intros [= <-]. eauto.
Qed.

Lemma has_zero_one x : x = RTS_SLOT_FREE -> has x RTS_SLOT_FREE = true.
Proof. by intros ->. Qed.

Lemma isemptyp_fbit p : has (p_rts_flags p) RTS_SLOT_FREE = false -> isemptyp p = false.
Proof. intros H. apply Z.eqb_neq. intros E. by rewrite (has_zero_one _ E) in H. Qed.

(** [ipc_of] does not look at what the scheduler changes. *)
Lemma ipc_of_erase p p' : erase p = erase p' -> ipc_of p = ipc_of p'.
Proof. intros H. exact (f_equal ipc_of H). Qed.

Lemma sframe_view s s' : sframe s s' -> view s = view s'.
Proof.
  intros H. apply map_eq. intros n. unfold view. rewrite !lookup_fmap.
  apply (kframe_field erase ipc_of s s' n (fun _ => eq_refl) H).
Qed.

Lemma ipc_of_erase_pre p p' :
  erase_pre p = erase_pre p' -> isemptyp p = isemptyp p' -> ipc_of p = ipc_of p'.
Proof.
  intros H He. unfold ipc_of. rewrite He.
  assert (forall f `{!SingleBit f}, f <> RTS_PREEMPTED ->
    has (p_rts_flags p) f = has (p_rts_flags p') f) as Hf.
  { intros f ? Hne. rewrite <- (has_erase_pre p f Hne), <- (has_erase_pre p' f Hne). by rewrite H. }
  rewrite (Hf RTS_SENDING _), (Hf RTS_RECEIVING _), (Hf RTS_NO_ENDPOINT _), (Hf RTS_SLOT_FREE _),
    (Hf RTS_VMREQUEST _) by done.
  by rewrite (f_equal p_nr H : p_nr p = p_nr p'), (f_equal p_endpoint H : p_endpoint p = p_endpoint p'),
    (f_equal p_priv H : p_priv p = p_priv p'), (f_equal p_caller_q H : p_caller_q p = p_caller_q p'),
    (f_equal p_q_link H : p_q_link p = p_q_link p'), (f_equal p_sendto_e H : p_sendto_e p = p_sendto_e p'),
    (f_equal p_getfrom_e H : p_getfrom_e p = p_getfrom_e p'),
    (f_equal p_misc_flags H : p_misc_flags p = p_misc_flags p'),
    (f_equal p_delivermsg H : p_delivermsg p = p_delivermsg p'),
    (f_equal p_delivermsg_vir H : p_delivermsg_vir p = p_delivermsg_vir p'),
    (f_equal p_sendmsg H : p_sendmsg p = p_sendmsg p'),
    (f_equal p_ipc_status H : p_ipc_status p = p_ipc_status p'),
    (f_equal p_retreg H : p_retreg p = p_retreg p'), (f_equal p_vmrequest H : p_vmrequest p = p_vmrequest p').
Qed.

Lemma wframe_view s s' : wframe s s' -> cur_live s -> view s = view s'.
Proof.
  intros H (c & Hc & Hf). apply map_eq. intros n. unfold view. rewrite !lookup_fmap.
  destruct (procs s !! n) as [p|] eqn:Hp; cbn.
  - destruct (kframe_lookup erase_pre s s' n p (wframe_k _ _ H) Hp) as (p' & Hp' & He).
    rewrite Hp'. cbn. f_equal. apply ipc_of_erase_pre; [done|].
    destruct (Z.eq_dec n (proc_ptr s)) as [->|Hne].
    + rewrite Hp in Hc. apply (inj Some) in Hc as <-. rewrite !isemptyp_fbit; [done| |done].
      by rewrite <- (has_erase_pre p' RTS_SLOT_FREE), <- He, (has_erase_pre p RTS_SLOT_FREE) by done.
    + pose proof (wframe_rts _ _ H n Hne) as E. rewrite Hp, Hp' in E. injection E as E.
      unfold isemptyp. by rewrite E.
  - destruct (procs s' !! n) as [p'|] eqn:Hp'; [|done].
    destruct (kframe_lookup_r erase_pre s s' n p' (wframe_k _ _ H) Hp') as (p & ? & _). congruence.
Qed.

Lemma view_upd s n p' : view (set_procs (<[n := p']> (procs s)) s) = <[n := ipc_of p']> (view s).
Proof. unfold view. cbn. by rewrite fmap_insert. Qed.

(** A field update that the scheduler does not notice. *)
Lemma upd_base s n p f :
  base s -> procs s !! n = Some p -> sched_same p (f p) -> p_priority (f p) = p_priority p ->
  exists s', upd_proc n f s = Done tt s' /\ base s' /\ view s' = <[n := ipc_of (f p)]> (view s)
    /\ rest s' = rest s /\ procs s' !! n = Some (f p)
    /\ forall m, m <> n -> procs s' !! m = procs s !! m.
Proof.
  intros [Hw Hc Hpr] Hp Hs Hprio. rewrite (upd_proc_done _ _ _ _ Hp). eexists. split; [done|].
  split; [split|split; [apply view_upd|split; [done|split]]].
  - by eapply upd_wf; [|apply sched_same_kept|apply ss_priv|].
  - destruct Hc as (c & Hc & Hf). unfold cur_live. cbn.
    destruct (Z.eq_dec (proc_ptr s) n) as [E|Hne].
    + rewrite E, lookup_insert_eq. eexists. split; [done|]. rewrite E, Hp in Hc.
      apply (inj Some) in Hc as <-. by rewrite (ss_rts _ _ Hs).
    + rewrite lookup_insert_ne by done. eauto.
  - intros m q. cbn. destruct (Z.eq_dec m n) as [->|Hne].
    + rewrite lookup_insert_eq. intros <-%(inj Some). rewrite Hprio. by eapply Hpr.
    + rewrite lookup_insert_ne by done. apply Hpr.
  - cbn. by rewrite lookup_insert_eq.
  - intros m Hm. cbn. by rewrite lookup_insert_ne.
Qed.

Lemma kframe_prio er s s' : (forall p, p_priority (er p) = p_priority p) -> kframe er s s' -> prio_all s -> prio_all s'.
Proof.
  intros Her H Hp n p' Hp'. destruct (kframe_lookup_r er s s' n p' H Hp') as (p & Hp0 & He).
  rewrite <- (Her p'), <- He, Her. by eapply Hp.
Qed.

Lemma prio_all_rts s n p x : procs s !! n = Some p -> prio_all s -> prio_all (with_rts s n p x).
Proof.
  intros Hp H m q. rewrite with_rts_lookup. case_decide; [|apply H].
  intros <-%(inj Some). exact (H n p Hp).
Qed.

Lemma cur_live_rts s n p x :
  procs s !! n = Some p -> (has (p_rts_flags p) RTS_SLOT_FREE = false -> has x RTS_SLOT_FREE = false) ->
  cur_live s -> cur_live (with_rts s n p x).
Proof.
  intros Hp Hx (c & Hc & Hf). unfold cur_live. rewrite with_rts_lookup. cbn.
  case_decide as E; [|eauto]. eexists. split; [done|]. rewrite E, Hp in Hc.
  apply (inj Some) in Hc as <-. by apply Hx.
Qed.

Lemma cur_live_frame er s s' :
  (forall p, has (p_rts_flags (er p)) RTS_SLOT_FREE = has (p_rts_flags p) RTS_SLOT_FREE) ->
  kframe er s s' -> cur_live s -> cur_live s'.
Proof.
  intros Her H (c & Hc & Hf). destruct (kframe_lookup er s s' _ c H Hc) as (c' & Hc' & He).
  exists c'. rewrite <- (rest_proc_ptr _ _ (kframe_rest _ _ _ H)). split; [done|].
  by rewrite <- Her, <- He, Her.
Qed.

Lemma RTS_SET_view s n p f :
  base s -> procs s !! n = Some p -> has f RTS_SLOT_FREE = false ->
  exists s', RTS_SET n f s = Done tt s' /\ base s'
    /\ view s' = <[n := ipc_of (set_p_rts_flags (flag_set (p_rts_flags p) f) p)]> (view s)
    /\ rest s' = rest s.
Proof.
  intros [Hw Hc Hpr] Hp Hf.
  destruct (RTS_SET_spec s n p f _ Hw (wf_queued _ Hw) Hp) as (s' & E & Hfr & _ & Hw').
  set (s1 := with_rts s n p (flag_set (p_rts_flags p) f)) in *.
  assert (cur_live s1) as Hc1.
  { apply cur_live_rts; [done| |done]. intros H0. rewrite (has_testbit RTS_SLOT_FREE) in *.
    unfold flag_set. by rewrite Z.lor_spec, H0, Hf. }
  exists s'. split_and!; [done| |rewrite <- (sframe_view _ _ Hfr); apply view_upd|].
  - split; [done| |].
    + eapply (cur_live_frame erase); [done|exact Hfr|exact Hc1].
    + eapply (kframe_prio erase); [done|done|]. by apply prio_all_rts.
  - symmetry. by apply kframe_rest in Hfr.
Qed.

Lemma has_pre_slot_free p : has (p_rts_flags (erase_pre p)) RTS_SLOT_FREE = has (p_rts_flags p) RTS_SLOT_FREE.
Proof. exact (has_erase_pre p RTS_SLOT_FREE ltac:(done)). Qed.

Lemma RTS_UNSET_view s n p f :
  base s -> procs s !! n = Some p -> has f RTS_PROC_STOP = false ->
  exists s', RTS_UNSET n f s = Done tt s' /\ base s'
    /\ view s' = <[n := ipc_of (set_p_rts_flags (flag_clr (p_rts_flags p) f) p)]> (view s)
    /\ rest s' = rest s.
Proof.
  intros [Hw Hc Hpr] Hp Hf.
  destruct (RTS_UNSET_spec s n p f _ Hw (wf_queued _ Hw) Hp) as (s' & E & Hfr & Hw' & _);
    [done|intros _; by eapply Hpr|].
  set (s1 := with_rts s n p (flag_clr (p_rts_flags p) f)) in *.
  assert (cur_live s1) as Hc1.
  { apply cur_live_rts; [done| |done]. intros H0. rewrite (has_testbit RTS_SLOT_FREE) in *.
    unfold flag_clr. by rewrite Z.land_spec, H0. }
  exists s'. split_and!; [done| |rewrite <- (wframe_view _ _ Hfr Hc1); apply view_upd|].
  - split; [done| |].
    + eapply (cur_live_frame erase_pre); [apply has_pre_slot_free|apply Hfr|done].
    + eapply (kframe_prio erase_pre); [done|apply Hfr|]. by apply prio_all_rts.
  - symmetry. exact (kframe_rest _ _ _ (wframe_k _ _ Hfr)).
Qed.

(** ** The whole invariant, and checking it on a concrete state *)

Record wf (s : kstate) : Prop := {
  wf_b : base s;
  wf_c : core (view s) (privs s);
  wf_l : links (view s)
}.

Definition liveb V (n : Z) : bool :=
  isokprocn n && match V !! n with Some v => negb (v_empty v) | None => false end.

Definition for_live V (f : Z -> ipcv -> bool) : bool :=
  forallb (fun n => match V !! n with Some v => v_empty v || f n v | None => false end) proc_table.

Lemma liveb_spec V n : liveb V n = true <-> exists v, live V n v.
Proof.
  unfold liveb, live. rewrite andb_true_iff. destruct (V !! n) as [v|].
  - rewrite negb_true_iff. naive_solver.
  - naive_solver.
Qed.

Lemma for_live_sound V f : for_live V f = true -> forall n v, live V n v -> f n v = true.
Proof.
  unfold for_live. rewrite forallb_forall. intros H n v (Hn & Hv & He).
  specialize (H n ltac:(by apply list_elem_of_In, elem_of_proc_table)). by rewrite Hv, He in H.
Qed.

Definition map_okb (m : sys_map) : bool :=
  (length m =? Z.to_nat NR_SYS_CHUNKS)%nat && forallb (fun c => (0 <=? c) && (c <? 2 ^ 32)) m.
Lemma map_okb_sound m : map_okb m = true -> map_ok m.
Proof.
  unfold map_okb. rewrite andb_true_iff, Nat.eqb_eq, forallb_forall. intros [? H]. split; [done|].
  apply Forall_forall. intros c Hc%list_elem_of_In. specialize (H c Hc).
  rewrite andb_true_iff, Z.leb_le, Z.ltb_lt in H. done.
Qed.

Lemma elem_of_priv_table b : bit_ok b -> In b priv_table.
Proof.
  intros [? ?]. unfold priv_table, NR_SYS_PROCS in *. apply in_map_iff.
  exists (Z.to_nat b). rewrite in_seq. lia.
Qed.

Definition coreb V P : bool :=
  for_live V (fun n v =>
    (ENDPOINT_P (v_ep v) =? n) && negb (v_fbit v) && (v_nr v =? n)
    && (match v_priv v with
        | Some id => (0 <=? id) && (id <? NR_SYS_PROCS)
            && match P !! id with Some pv => liveb V (s_proc_nr pv) | None => false end
        | None => false
        end)
    && (bool_decide (v_recv v = None) || negb (has (v_misc v) MF_DELIVERMSG)))
  && forallb (fun id => match P !! id with
       | Some pv => (s_id pv =? id) && map_okb (s_notify_pending pv) && map_okb (s_asyn_pending pv)
           && forallb (fun b => negb (pending pv b)
                || match P !! b with Some pb => liveb V (s_proc_nr pb) | None => false end) priv_table
       | None => false
       end) priv_table
  && forallb (fun n => (0 <=? n) || liveb V n) proc_table.

Lemma coreb_sound V P : coreb V P = true -> core V P.
Proof.
  unfold coreb. rewrite !andb_true_iff, !forallb_forall. intros [[H1 H2] H3].
  pose proof (for_live_sound _ _ H1) as H1'. clear H1. rename H1' into H1.
  assert (forall n v, live V n v -> ENDPOINT_P (v_ep v) = n /\ v_fbit v = false /\ v_nr v = n
    /\ (exists id pv, v_priv v = Some id /\ bit_ok id /\ P !! id = Some pv /\ exists w, live V (s_proc_nr pv) w)
    /\ (v_recv v <> None -> has (v_misc v) MF_DELIVERMSG = false)) as Hlv.
  { intros n v Hl. specialize (H1 n v Hl).
    rewrite !andb_true_iff, orb_true_iff, !negb_true_iff, !Z.eqb_eq, bool_decide_eq_true in H1.
    destruct H1 as ((((E & F) & N) & Pv) & D). split_and!; [done|done|done| |by destruct D].
    destruct (v_priv v) as [id|]; [|done]. rewrite !andb_true_iff, Z.leb_le, Z.ltb_lt in Pv.
    destruct Pv as [Hid Pv]. destruct (P !! id) as [pv|] eqn:Ep; [|done].
    apply liveb_spec in Pv. by exists id, pv. }
  assert (forall id pv, bit_ok id -> P !! id = Some pv -> s_id pv = id /\ map_ok (s_notify_pending pv)
    /\ map_ok (s_asyn_pending pv) /\ forall b, bit_ok b -> pending pv b = true ->
      exists pv' w, P !! b = Some pv' /\ live V (s_proc_nr pv') w) as Hpv.
  { intros id pv Hid Hp. specialize (H2 id (elem_of_priv_table id Hid)). rewrite Hp in H2.
    rewrite !andb_true_iff, Z.eqb_eq, forallb_forall in H2. destruct H2 as (((E & A) & B) & C).
    split_and!; [done|by apply map_okb_sound..|]. intros b Hb Hpe.
    specialize (C b (elem_of_priv_table b Hb)). rewrite Hpe in C. cbn in C.
    destruct (P !! b) as [pb|]; [|done]. apply liveb_spec in C as [w Hw]. by exists pb, w. }
  split.
  - intros n v Hl. by destruct (Hlv n v Hl) as (? & ? & ? & _).
  - intros n v Hl. by destruct (Hlv n v Hl) as (_ & _ & _ & ? & _).
  - intros id pv Hid Hp. by destruct (Hpv id pv Hid Hp) as (? & ? & ? & _).
  - intros id pv b Hid Hp. destruct (Hpv id pv Hid Hp) as (_ & _ & _ & H). apply H.
  - intros n v Hl. by destruct (Hlv n v Hl) as (_ & _ & _ & _ & ?).
  - intros n Hn Hok. specialize (H3 n ltac:(by apply list_elem_of_In, elem_of_proc_table)).
    rewrite orb_true_iff, Z.leb_le in H3. destruct H3 as [?|H3]; [lia|]. by apply liveb_spec in H3.
  - intros id Hid. specialize (H2 id (elem_of_priv_table id Hid)). destruct (P !! id); [by eexists|done].
Qed.

Definition table_size : nat := Z.to_nat (NR_PROCS + NR_TASKS).

(** The caller queue of a process, executably. *)
Definition cq V (n : Z) : list Z :=
  match V !! n with Some v => walk table_size (qlink V) (v_cq v) | None => [] end.

Definition waitsb V (e : Z) (noend : bool) : bool :=
  match V !! ENDPOINT_P e with
  | Some w => isokprocn (ENDPOINT_P e) && negb (v_empty w) && (v_ep w =? e)
              && (negb noend || negb (v_noend w))
  | None => false
  end.

Lemma waitsb_sound V e b : waitsb V e b = true -> waits_for V e b.
Proof.
  unfold waitsb. destruct (V !! ENDPOINT_P e) as [w|] eqn:E; [|done].
  rewrite !andb_true_iff, orb_true_iff, !negb_true_iff, Z.eqb_eq. intros (((A & B) & C) & D).
  exists (ENDPOINT_P e), w. split_and!; [by split_and!|done|]. intros ->. by destruct D.
Qed.

Definition linksb V : bool :=
  for_live V (fun n v =>
    match v_send v with
    | None => bool_decide (v_link v = None)
    | Some e => waitsb V e true && negb (v_noend v) && (0 <=? n)
        && match v_recv v with Some e' => e' =? e | None => true end
    end
    && match v_recv v with None => true | Some e => (e =? ANY) || waitsb V e false end
    && chainb (qlink V) (v_cq v) (cq V n)
    && forallb (fun m => liveb V m
         && match V !! m with Some w => bool_decide (v_send w = Some (v_ep v)) | None => false end) (cq V n)
    && for_live V (fun m w => negb (bool_decide (v_send w = Some (v_ep v))) || bool_decide (m ∈ cq V n))
    && chainb (blk V) (Some n) (walk table_size (blk V) (Some n))).

Lemma linksb_queue V n v :
  forallb (fun m => liveb V m
    && match V !! m with Some w => bool_decide (v_send w = Some (v_ep v)) | None => false end) (cq V n) = true ->
  for_live V (fun m w => negb (bool_decide (v_send w = Some (v_ep v))) || bool_decide (m ∈ cq V n)) = true ->
  forall m, m ∈ cq V n <-> exists w, live V m w /\ v_send w = Some (v_ep v).
Proof.
  rewrite forallb_forall. intros H1 H2 m. split.
  - intros Hm%list_elem_of_In. specialize (H1 m Hm). rewrite andb_true_iff in H1.
    destruct H1 as [Hlv Hs]. apply liveb_spec in Hlv as [w Hw]. rewrite (proj1 (proj2 Hw)) in Hs.
    apply bool_decide_eq_true in Hs. by exists w.
  - intros (w & Hw & Hs). pose proof (for_live_sound _ _ H2 m w Hw) as H.
    cbn beta in H. rewrite orb_true_iff, negb_true_iff, bool_decide_eq_false, bool_decide_eq_true in H.
    by destruct H.
Qed.

Lemma linksb_sound V : linksb V = true -> links V.
Proof.
  intros H. pose proof (for_live_sound _ _ H) as HH. clear H.
  assert (forall n v, live V n v ->
    (match v_send v with
     | None => bool_decide (v_link v = None)
     | Some e => waitsb V e true && negb (v_noend v) && (0 <=? n)
         && match v_recv v with Some e' => e' =? e | None => true end
     end = true)
    /\ (match v_recv v with None => true | Some e => (e =? ANY) || waitsb V e false end = true)
    /\ chain (qlink V) (v_cq v) (cq V n)
    /\ (forall m, m ∈ cq V n <-> exists w, live V m w /\ v_send w = Some (v_ep v))
    /\ exists l, chain (blk V) (Some n) l) as HL.
  { intros n v Hl. specialize (HH n v Hl). rewrite !andb_true_iff in HH.
    destruct HH as (((((A & B) & C) & D) & E) & F). split_and!; [done|done| | |].
    - by apply chainb_sound.
    - by apply linksb_queue.
    - eexists. by apply chainb_sound. }
  clear HH. split.
  - exists (cq V). intros n v Hl. by destruct (HL n v Hl) as (_ & _ & ? & ? & _).
  - intros n v Hl Hs. destruct (HL n v Hl) as (A & _). rewrite Hs in A. by apply bool_decide_eq_true in A.
  - intros n v e Hl Hs. destruct (HL n v Hl) as (A & _). rewrite Hs, !andb_true_iff in A.
    apply waitsb_sound, A.
  - intros n v e Hl Hs. destruct (HL n v Hl) as (_ & A & _). rewrite Hs, orb_true_iff, Z.eqb_eq in A.
    destruct A as [?|A]; [by left|right]. by apply waitsb_sound.
  - intros n v e e' Hl Hs Hr. destruct (HL n v Hl) as (A & _). rewrite Hs, Hr, !andb_true_iff, Z.eqb_eq in A. apply A.
  - intros n v Hl Hs. destruct (HL n v Hl) as (A & _). destruct (v_send v); [|done].
    rewrite !andb_true_iff, Hs in A. cbn in A. naive_solver.
  - intros n v e Hl Hs. destruct (HL n v Hl) as (A & _). rewrite Hs, !andb_true_iff, Z.leb_le in A. apply A.
  - intros n v Hl. by destruct (HL n v Hl) as (_ & _ & _ & _ & ?).
Qed.

Definition baseb (s : kstate) : bool :=
  wf_schedb s
  && match procs s !! proc_ptr s with
     | Some p => negb (has (p_rts_flags p) RTS_SLOT_FREE) | None => false end
  && forallb (fun np => rdyq_ok (p_priority (snd np))) (map_to_list (procs s)).

Lemma baseb_sound s : baseb s = true -> base s.
Proof.
  unfold baseb. rewrite !andb_true_iff, forallb_forall. intros [[A B] C].
  split; [by apply wf_schedb_sound| |].
  - unfold cur_live. destruct (procs s !! proc_ptr s) as [p|]; [|done].
    exists p. by rewrite negb_true_iff in B.
  - intros n p Hp. specialize (C (n, p)). cbn in C. apply C, list_elem_of_In.
    by apply elem_of_map_to_list.
Qed.

Definition wfb (s : kstate) : bool := baseb s && coreb (view s) (privs s) && linksb (view s).

Lemma wfb_sound s : wfb s = true -> wf s.
Proof.
  unfold wfb. rewrite !andb_true_iff. intros [[A B] C].
  split; [by apply baseb_sound|by apply coreb_sound|by apply linksb_sound].
Qed.

Ltac by_live := split; [by_vm|split; [apply view_lookup; by_slot|by_vm]].
