(* ===== verification/Deadlock.v ===== *)
(** * Deadlock detection

    [deadlock] (kernel/proc.c) follows the chain of blocked processes from the
    destination of a call.  On states where the wait-for chains are finite it
    always ends, and finds a cycle exactly when the chain leads back to the
    caller; the exception is the pair that sends to and receives from each
    other.  Outside such states it need not end; [dl_example] is a small table
    to run it on. *)

From S2P Require Import Prelude Monad Timers Endpoint Chain Kernel Sched RunQueue Init SchedProps Ipc IpcInv.

(** Whether the blocked process and the call are one send and one receive. *)
Definition opposite (function : Z) (v : ipcv) : bool :=
  if function =? SEND then bool_decide (v_send v = None) else negb (bool_decide (v_send v = None)).

(** The result, computed from the processes of the chain. *)
Fixpoint dl (V : views) (function cp_e : Z) (g : Z) (l : list Z) : Z :=
  match l with
  | [] => 0
  | x :: l' =>
      match V !! x with
      | None => 0
      | Some v =>
          if v_blocked v =? NONE then 0
          else if v_blocked v =? cp_e then
            if (g + 1 =? 2) && opposite function v then 0 else g + 1
          else dl V function cp_e (g + 1) l'
      end
  end.

Lemma v_blocked_P p : v_blocked (ipc_of p) = P_BLOCKEDON p.
Proof.
  unfold v_blocked, ipc_of, P_BLOCKEDON. cbn.
  by destruct (has (p_rts_flags p) RTS_SENDING), (has (p_rts_flags p) RTS_RECEIVING).
Qed.

Lemma opposite_flags function p :
  function = SEND \/ function = RECEIVE ->
  has (Z.lxor (p_rts_flags p) (Z.shiftl function 2)) RTS_SENDING = opposite function (ipc_of p).
Proof.
  intros [-> | ->]; unfold opposite, ipc_of; cbn [v_send Z.eqb SEND RECEIVE Pos.eqb];
    rewrite (has_testbit RTS_SENDING), Z.lxor_spec.
  - change (Z.testbit (Z.shiftl 1 2) (bit_of RTS_SENDING)) with true.
    rewrite <- (has_testbit RTS_SENDING). by destruct (has (p_rts_flags p) RTS_SENDING).
  - change (Z.testbit (Z.shiftl 2 2) (bit_of RTS_SENDING)) with false.
    rewrite <- (has_testbit RTS_SENDING). by destruct (has (p_rts_flags p) RTS_SENDING).
Qed.

Section Chains.
Context (s : kstate) (Hb : base s) (Hc : core (view s) (privs s)) (Hl : links (view s)).

Lemma live_isokendpt n v : live (view s) n v -> isokendpt (v_ep v) s = Done (Some n) s.
Proof.
  intros (Hn & Hv & He). destruct (view_lookup_inv _ _ _ Hv) as (p & Hp & <-).
  destruct (c_ep _ _ Hc n (ipc_of p)) as [E _]; [done|].
  by apply isokendpt_valid.
Qed.

Lemma isokendpt_live e n : isokendpt e s = Done (Some n) s -> exists v, live (view s) n v /\ v_ep v = e.
Proof.
  unfold isokendpt. destruct (isokprocn (ENDPOINT_P e)) eqn:Hn; [|done].
  destruct (procs s !! ENDPOINT_P e) as [p|] eqn:Hp; [|by unfold bind, get_proc; rewrite Hp].
  erewrite bind_get_proc by done. destruct (isemptyp p) eqn:He; cbn; [done|].
  destruct (Z.eqb_spec (p_endpoint p) e) as [E|]; [|done]. intros [= <-].
  exists (ipc_of p). split; [|done]. split_and!; [done|by apply view_lookup|done].
Qed.

Lemma isokendpt_total e : exists r, isokendpt e s = Done r s.
Proof.
  unfold isokendpt. destruct (isokprocn (ENDPOINT_P e)) eqn:Hn; [|by eexists].
  destruct (slot_some _ (ws_slots _ (b_sched _ Hb)) _ Hn) as [p Hp].
  erewrite bind_get_proc by done. by eexists.
Qed.

(** The special endpoints belong to no slot. *)
Lemma live_ep n v : live (view s) n v -> v_ep v <> ANY /\ v_ep v <> NONE.
Proof.
  intros H. destruct (c_ep _ _ Hc n v H) as [E _]. destruct H as (Hn & _).
  split; intros E'; rewrite E' in E; subst n; by vm_compute in Hn.
Qed.

Lemma blk_live n m v :
  live (view s) n v -> blk (view s) n = Some m -> exists w, live (view s) m w /\ v_ep w = v_blocked v.
Proof.
  intros Hv. unfold blk. rewrite (proj1 (proj2 Hv)).
  destruct (Z.eqb_spec (v_blocked v) ANY) as [|HA]; [done|].
  destruct (Z.eqb_spec (v_blocked v) NONE) as [|HN]; [done|]. intros [= <-].
  assert (waits_for (view s) (v_blocked v) false) as (m & w & Hw & E & _).
  { unfold v_blocked in *. destruct (v_send v) as [e|] eqn:Es.
    - destruct (l_send _ Hl n v e Hv Es) as (m & w & ? & ? & _). by exists m, w.
    - destruct (v_recv v) as [e|] eqn:Er; [|done]. by destruct (l_recv _ Hl n v e Hv Er). }
  exists w. rewrite <- E. by destruct (c_ep _ _ Hc m w Hw) as [-> _].
Qed.

Lemma blk_chain_live n v l m :
  live (view s) n v -> chain (blk (view s)) (Some n) l -> m ∈ l -> exists w, live (view s) m w.
Proof.
  revert n v. induction l as [|x l IH]; intros n v Hv Hch Hm; [by apply elem_of_nil in Hm|].
  destruct Hch as [[= <-] Hch]. apply elem_of_cons in Hm as [->|Hm]; [by eexists|].
  destruct (blk (view s) n) as [y|] eqn:E; [|apply chain_head_None in Hch as ->; by apply elem_of_nil in Hm].
  destruct (blk_live n y v Hv E) as (w & Hw & _). by eapply IH.
Qed.

Lemma blk_chain_length n v l :
  live (view s) n v -> chain (blk (view s)) (Some n) l -> (length l <= Z.to_nat (NR_PROCS + NR_TASKS))%nat.
Proof.
  intros Hv Hch. apply table_length; [by eapply chain_NoDup|]. intros m Hm.
  by destruct (blk_chain_live n v l m Hv Hch Hm) as [w (Hok & _)].
Qed.

Lemma okendpt_live n v : live (view s) n v -> okendpt (v_ep v) s = Done n s.
Proof. intros H. unfold okendpt. by rewrite (bind_done _ _ _ _ _ (live_isokendpt n v H)). Qed.

Lemma deadlock_loop_spec function cp_e l n v g fuel :
  function = SEND \/ function = RECEIVE ->
  live (view s) n v -> chain (blk (view s)) (Some n) l -> (length l < fuel)%nat ->
  deadlock_loop fuel function cp_e g (v_ep v) s = Done (dl (view s) function cp_e g l) s.
Proof.
  intros Hfun. revert n v g fuel. induction l as [|x l IH]; intros n v g fuel Hv Hch Hfuel; [done|].
  destruct Hch as [[= <-] Hch]. destruct fuel as [|fuel]; [lia|]. cbn [deadlock_loop dl].
  rewrite (proj2 (Z.eqb_neq _ _) (proj1 (live_ep n v Hv))).
  rewrite (bind_done _ _ _ _ _ (okendpt_live n v Hv)).
  destruct (c_ep _ _ Hc n v Hv) as (_ & Hfb & _).
  pose proof Hv as (Hn & Hvn & Hve). rewrite Hvn.
  destruct (view_lookup_inv _ _ _ Hvn) as (p & Hp & <-). erewrite bind_get_proc by done.
  destruct (slot_magic _ (ws_slots _ (b_sched _ Hb)) n p Hp Hn) as (_ & Hm & _).
  rewrite bind_assert by done.
  assert (RTS_ISSET p RTS_SLOT_FREE = false) as Hfree.
  { unfold RTS_ISSET. by rewrite isset_has by apply _. }
  rewrite bind_assert by (by rewrite Hfree). rewrite <- v_blocked_P, opposite_flags by done.
  destruct (Z.eqb_spec (v_blocked (ipc_of p)) NONE) as [|HN]; [done|].
  destruct (v_blocked (ipc_of p) =? cp_e); [by destruct (_ && _)|].
  destruct (blk (view s) n) as [y|] eqn:E.
  - destruct (blk_live n y (ipc_of p) Hv E) as (w & Hw & <-). apply (IH y w); [done..|]. cbn in Hfuel. lia.
  - apply chain_head_None in Hch as ->. destruct fuel as [|fuel]; [cbn in Hfuel; lia|].
    cbn [deadlock_loop dl]. unfold blk in E. rewrite Hvn in E.
    destruct (Z.eqb_spec (v_blocked (ipc_of p)) ANY) as [->|]; [done|].
    by rewrite (proj2 (Z.eqb_neq _ _) HN) in E.
Qed.

(** [deadlock] always ends. *)
Lemma deadlock_run function cp c n v :
  function = SEND \/ function = RECEIVE -> procs s !! cp = Some c -> live (view s) n v ->
  exists l, chain (blk (view s)) (Some n) l
    /\ deadlock function cp (v_ep v) s = Done (dl (view s) function (p_endpoint c) 1 l) s.
Proof.
  intros Hfun Hp Hv. destruct (l_acyc _ Hl n v Hv) as [l Hch]. exists l. split; [done|].
  unfold deadlock. erewrite bind_get_proc by done. eapply deadlock_loop_spec; [done..|].
  pose proof (blk_chain_length n v l Hv Hch). unfold dl_fuel. lia.
Qed.

Lemma deadlock_any function cp c :
  procs s !! cp = Some c -> deadlock function cp ANY s = Done 0 s.
Proof. intros Hp. unfold deadlock. by erewrite bind_get_proc by done. Qed.
End Chains.

(** ** What the result means *)

(** A process of the chain that waits for the caller, other than the partner
    of a direct exchange. *)
Definition closes (V : views) (function cp_e first : Z) (l : list Z) : Prop :=
  exists x w, x ∈ l /\ V !! x = Some w /\ v_blocked w = cp_e
    /\ ~ (x = first /\ opposite function w = true).

Lemma dl_tail V function cp_e g l h :
  cp_e <> NONE -> 2 <= g -> chain (blk V) h l ->
  dl V function cp_e g l <> 0 <-> exists x w, x ∈ l /\ V !! x = Some w /\ v_blocked w = cp_e.
Proof.
  intros HN. revert g h. induction l as [|x l IH]; intros g h Hg Hch; cbn [dl].
  - split; [done|]. intros (x & w & Hx & _). by apply elem_of_nil in Hx.
  - destruct Hch as [_ Hch]. unfold blk in Hch. destruct (V !! x) as [v|] eqn:Hv.
    2:{ apply chain_head_None in Hch as ->. split; [done|].
        intros (y & w & Hy & Hw & _). apply list_elem_of_singleton in Hy as ->. congruence. }
    destruct (Z.eqb_spec (v_blocked v) NONE) as [E|E].
    { rewrite orb_true_r in Hch. apply chain_head_None in Hch as ->. split; [done|].
      intros (y & w & Hy & Hw & Eb). apply list_elem_of_singleton in Hy as ->. congruence. }
    destruct (Z.eqb_spec (v_blocked v) cp_e) as [Ec|Ec].
    + replace (g + 1 =? 2) with false by (symmetry; apply Z.eqb_neq; lia). cbn [andb].
      split; [|lia]. intros _. exists x, v. split_and!; [set_solver|done|done].
    + rewrite (IH (g + 1) _ ltac:(lia) Hch). split.
      * intros (y & w & Hy & ? & ?). exists y, w. split_and!; [set_solver|done|done].
      * intros (y & w & Hy & Hw & Eb). apply elem_of_cons in Hy as [->|Hy]; [congruence|]. by exists y, w.
Qed.

Lemma dl_closes V function cp_e n l :
  cp_e <> NONE -> chain (blk V) (Some n) l ->
  dl V function cp_e 1 l <> 0 <-> closes V function cp_e n l.
Proof.
  intros HN Hch. destruct l as [|x l]; [discriminate Hch|].
  pose proof (chain_NoDup _ _ _ Hch) as Hnd. destruct Hch as [[= <-] Hch].
  apply NoDup_cons in Hnd as [Hni _]. cbn [dl]. unfold blk in Hch. unfold closes.
  destruct (V !! n) as [v|] eqn:Hv.
  2:{ apply chain_head_None in Hch as ->. split; [done|].
      intros (y & w & Hy & Hw & _). apply list_elem_of_singleton in Hy as ->. congruence. }
  destruct (Z.eqb_spec (v_blocked v) NONE) as [E|E].
  { rewrite orb_true_r in Hch. apply chain_head_None in Hch as ->. split; [done|].
    intros (y & w & Hy & Hw & Eb & _). apply list_elem_of_singleton in Hy as ->. congruence. }
  destruct (Z.eqb_spec (v_blocked v) cp_e) as [Ec|Ec].
  - cbn [Z.add Z.eqb Pos.add Pos.eqb andb]. destruct (opposite function v) eqn:Eo.
    + split; [done|]. intros (y & w & Hy & Hw & Eb & Hne).
      apply elem_of_cons in Hy as [->|Hy]; [naive_solver congruence|].
      assert (blk V y = blk V n) as Ey by (unfold blk; rewrite Hv, Hw, Ec, Eb; done).
      change (chain (blk V) (if (v_blocked v =? ANY) || false then None
        else Some (ENDPOINT_P (v_blocked v))) l) in Hch.
      assert (chain (blk V) (blk V n) l) as Hch'.
      { unfold blk at 2. rewrite Hv, (proj2 (Z.eqb_neq _ _) E). exact Hch. }
      destruct (blk V n) as [z|] eqn:Ez; [by apply (chain_no_return _ _ _ _ Hch' Hy) in Ey|].
      apply chain_head_None in Hch' as ->. by apply elem_of_nil in Hy.
    + split; [|done]. intros _. exists n, v. split_and!; [set_solver|done|done|]. intros [_ ?]. congruence.
  - rewrite (dl_tail V function cp_e 2 l _ HN ltac:(lia) Hch). split.
    + intros (y & w & Hy & ? & ?). exists y, w. split_and!; [set_solver|done|done|]. intros [-> _]. done.
    + intros (y & w & Hy & Hw & Eb & _). apply elem_of_cons in Hy as [->|Hy]; [congruence|]. by exists y, w.
Qed.

(** C10: deadlock detection is exact.  On a well-formed state [deadlock]
    terminates without changing anything, and reports a deadlock if and only
    if some process on the wait-for chain of the destination waits for the
    caller, the destination itself being excused when one of the two sends and
    the other receives. *)
Theorem deadlock_correct s function cp c n v :
  wf s -> function = SEND \/ function = RECEIVE ->
  procs s !! cp = Some c -> live (view s) cp (ipc_of c) -> live (view s) n v ->
  exists l r, chain (blk (view s)) (Some n) l
    /\ deadlock function cp (v_ep v) s = Done r s
    /\ (r <> 0 <-> closes (view s) function (p_endpoint c) n l).
Proof.
  intros [Hb Hc Hl] Hfun Hp Hcp Hv.
  destruct (deadlock_run s Hb Hc Hl function cp c n v Hfun Hp Hv) as (l & Hch & E).
  eexists l, _. split; [done|]. split; [exact E|]. apply dl_closes; [|done].
  exact (proj2 (live_ep s Hc cp (ipc_of c) Hcp)).
Qed.

(** A process that waits for itself makes the search go round for ever. *)
Lemma deadlock_spins s n v function cp_e g fuel :
  base s -> core (view s) (privs s) -> live (view s) n v ->
  v_blocked v = v_ep v -> cp_e <> v_ep v ->
  deadlock_loop fuel function cp_e g (v_ep v) s = Stop NoFuel.
Proof.
  intros Hb Hc Hv Hself Hne. revert g. induction fuel as [|fuel IH]; intros g; [done|].
  cbn [deadlock_loop]. destruct (live_ep s Hc n v Hv) as [HA HN].
  rewrite (proj2 (Z.eqb_neq _ _) HA), (bind_done _ _ _ _ _ (okendpt_live s Hc n v Hv)).
  destruct (c_ep _ _ Hc n v Hv) as (_ & Hfb & _). pose proof Hv as (Hn & Hvn & Hve).
  destruct (view_lookup_inv _ _ _ Hvn) as (p & Hp & <-). erewrite bind_get_proc by done.
  destruct (slot_magic _ (ws_slots _ (b_sched _ Hb)) n p Hp Hn) as (_ & Hm & _).
  assert (RTS_ISSET p RTS_SLOT_FREE = false) as Hfree.
  { unfold RTS_ISSET. by rewrite isset_has by apply _. }
  rewrite bind_assert by done. rewrite bind_assert by (by rewrite Hfree).
  rewrite <- v_blocked_P, Hself, (proj2 (Z.eqb_neq _ _) HN).
  rewrite (proj2 (Z.eqb_neq _ _)) by congruence. apply IH.
Qed.

(** 11 waits for 12, 12 waits for RS: a send from RS to 11 would close the
    circle. *)
Definition dl_circle : kstate :=
  run_state (do_sync_ipc 11 RECEIVE (ENDPOINT 1 12) (mkPtr 0x1000 None) ;;
             do_sync_ipc 12 RECEIVE RS_PROC_NR (mkPtr 0x1000 None))
    (example [live_proc RS_PROC_NR 7 0 4; live_proc 11 16 0 7; live_proc 12 16 0 7]
      [live_priv RS_PROC_NR 7 SRV_F; live_priv 11 16 USR_F] RS_PROC_NR).

Lemma deadlock_correct_witness :
  (exists l r, chain (blk (view dl_circle)) (Some 11) l
    /\ deadlock SEND RS_PROC_NR (ENDPOINT 1 11) dl_circle = Done r dl_circle
    /\ (r <> 0 <-> closes (view dl_circle) SEND RS_PROC_NR 11 l))
  /\ ends_with (deadlock SEND RS_PROC_NR (ENDPOINT 1 11)) dl_circle 3 = true.
Proof.
  split; [|by_vm].
  apply (deadlock_correct dl_circle SEND RS_PROC_NR (slot dl_circle RS_PROC_NR) 11 (ipc_of (slot dl_circle 11)));
    [apply wfb_sound; by_vm|by left|by_slot|by_live|by_live].
Defined.

(** RS, two user processes; RS calls [RECEIVE] on its own endpoint. *)
Definition dl_example : kstate :=
  example [live_proc RS_PROC_NR 7 0 4; live_proc 11 16 0 7; live_proc 12 16 0 7]
    [live_priv RS_PROC_NR 7 SRV_F; live_priv 11 16 USR_F] RS_PROC_NR.
Definition dl_self : kstate :=
  run_state (do_sync_ipc RS_PROC_NR RECEIVE RS_PROC_NR (mkPtr 0x1000 None)) dl_example.

Lemma dl_self_base : base dl_self /\ core (view dl_self) (privs dl_self).
Proof.
  split; [apply baseb_sound; by_vm|apply coreb_sound; by_vm].
Qed.
