(* ===== verification/IpcStep.v ===== *)
(** * The elementary steps of message passing on views

    How the operations of the kernel monad that [Ipc] is built from act on the
    view of a state: updates of processes and privilege structures, the receive
    conditions when no IPC filter is installed, and the delivery of a message
    to a waiting process. *)

From S2P Require Import Prelude Monad Timers Endpoint Chain Kernel Sched RunQueue Init SchedProps Ipc IpcInv Deadlock.

(** [s'] is reached from [s]: a well-formed run-queue state with view [V'] and
    privilege table [P'], and nothing else changed. *)
Record goes (s s' : kstate) (V' : views) (P' : gmap Z priv) : Prop := {
  g_base : base s';
  g_view : view s' = V';
  g_privs : privs s' = P';
  g_rest : rest (set_privs ∅ s') = rest (set_privs ∅ s)
}.

Lemma goes_refl s : base s -> goes s s (view s) (privs s).
Proof. by split. Qed.

Lemma goes_trans s1 s2 s3 V2 P2 V3 P3 :
  goes s1 s2 V2 P2 -> goes s2 s3 V3 P3 -> goes s1 s3 V3 P3.
Proof. intros [] []. split; try done. congruence. Qed.

Lemma goes_field {A} (f : kstate -> A) s s' V P :
  (forall s, f (rest (set_privs ∅ s)) = f s) -> goes s s' V P -> f s' = f s.
Proof. intros Hf []. rewrite <- (Hf s'), <- (Hf s). congruence. Qed.

Lemma goes_of_rest s s' V :
  base s' -> view s' = V -> rest s' = rest s -> goes s s' V (privs s).
Proof.
  intros Hb Hv Hr. split; [done..| |].
  - by apply rest_privs.
  - exact (f_equal (set_privs ∅) Hr).
Qed.

(** ** Primitive steps *)

Lemma step_upd s n p f :
  base s -> procs s !! n = Some p -> sched_same p (f p) -> p_priority (f p) = p_priority p ->
  exists s', upd_proc n f s = Done tt s' /\ goes s s' (<[n := ipc_of (f p)]> (view s)) (privs s)
    /\ procs s' !! n = Some (f p) /\ forall m, m <> n -> procs s' !! m = procs s !! m.
Proof.
  intros Hb Hp Hs Hpr. destruct (upd_base s n p f Hb Hp Hs Hpr) as (s' & E & Hb' & Hv & Hr & H1 & H2).
  exists s'. split; [done|]. split; [by apply goes_of_rest|]. done.
Qed.

Lemma step_set s n p f :
  base s -> procs s !! n = Some p -> has f RTS_SLOT_FREE = false ->
  exists s', RTS_SET n f s = Done tt s'
    /\ goes s s' (<[n := ipc_of (set_p_rts_flags (flag_set (p_rts_flags p) f) p)]> (view s)) (privs s).
Proof.
  intros Hb Hp Hf. destruct (RTS_SET_view s n p f Hb Hp Hf) as (s' & E & Hb' & Hv & Hr).
  exists s'. split; [done|]. by apply goes_of_rest.
Qed.

Lemma step_unset s n p f :
  base s -> procs s !! n = Some p -> has f RTS_PROC_STOP = false ->
  exists s', RTS_UNSET n f s = Done tt s'
    /\ goes s s' (<[n := ipc_of (set_p_rts_flags (flag_clr (p_rts_flags p) f) p)]> (view s)) (privs s).
Proof.
  intros Hb Hp Hf. destruct (RTS_UNSET_view s n p f Hb Hp Hf) as (s' & E & Hb' & Hv & Hr).
  exists s'. split; [done|]. by apply goes_of_rest.
Qed.

Lemma base_privs s P' :
  base s -> (forall id, is_Some (privs s !! id) -> is_Some (P' !! id)) -> base (set_privs P' s).
Proof.
  intros [[HQ Hpr Hs Hcur] Hc Hp] HP. split; [|exact Hc|exact Hp].
  split; [destruct HQ as [L HQ]; exists L; by destruct HQ; split|exact Hpr|by destruct Hs; split|].
  destruct Hcur as (c & id & pv & H1 & H2 & H3). destruct (HP id) as [pv' Hpv']; [by eexists|].
  by exists c, id, pv'.
Qed.

Lemma step_priv s id pv f :
  base s -> privs s !! id = Some pv ->
  exists s', upd_priv_id id f s = Done tt s' /\ goes s s' (view s) (<[id := f pv]> (privs s))
    /\ procs s' = procs s.
Proof.
  intros Hb Hpv. unfold upd_priv_id. rewrite Hpv. eexists. split; [done|]. split; [|done].
  split; try done. apply base_privs; [done|]. intros i Hi.
  destruct (Z.eq_dec i id) as [->|]; [rewrite lookup_insert_eq; by eexists|by rewrite lookup_insert_ne].
Qed.

Lemma step_priv_of s p id pv f :
  base s -> p_priv p = Some id -> privs s !! id = Some pv ->
  exists s', upd_priv_of p f s = Done tt s' /\ goes s s' (view s) (<[id := f pv]> (privs s))
    /\ procs s' = procs s.
Proof. intros Hb Hid Hpv. unfold upd_priv_of. rewrite Hid. by apply step_priv. Qed.

(** ** Receive conditions without filters *)

Definition no_filters (P : gmap Z priv) : Prop := forall id pv, P !! id = Some pv -> s_ipcf pv = None.

(** The process waits for a message from [e]. *)
Definition will (v : ipcv) (e : Z) : bool :=
  match v_send v, v_recv v with
  | None, Some g => (g =? ANY) || (g =? e)
  | _, _ => false
  end.

Section NoFilter.
Context (s : kstate) (Hc : core (view s) (privs s)) (Hnf : no_filters (privs s)).

Lemma live_priv_of n p :
  procs s !! n = Some p -> live (view s) n (ipc_of p) ->
  exists id pv, p_priv p = Some id /\ bit_ok id /\ privs s !! id = Some pv /\ s_id pv = id /\ s_ipcf pv = None
    /\ exists w, live (view s) (s_proc_nr pv) w.
Proof.
  intros Hp Hl. destruct (c_priv _ _ Hc n _ Hl) as (id & pv & Hid & Hok & Hpv & Hw).
  exists id, pv. destruct (c_privs _ _ Hc id pv Hok Hpv) as (? & _). split_and!; try done. by eapply Hnf.
Qed.

Lemma CANRECEIVE_nf receive_e src_e dst v src :
  live (view s) dst v -> CANRECEIVE receive_e src_e dst src s = Done ((receive_e =? ANY) || (receive_e =? src_e)) s.
Proof.
  intros Hl. unfold CANRECEIVE. destruct ((receive_e =? ANY) || (receive_e =? src_e)); [|done].
  destruct (view_lookup_inv _ _ _ (proj1 (proj2 Hl))) as (p & Hp & <-).
  destruct (live_priv_of dst p Hp Hl) as (id & pv & Hid & _ & Hpv & _ & Hf & _). cbn [negb].
  erewrite bind_get_proc by done. erewrite bind_priv_of by done. by rewrite Hf.
Qed.

Lemma WILLRECEIVE_nf src_e dst v src :
  live (view s) dst v -> WILLRECEIVE src_e dst src s = Done (will v src_e) s.
Proof.
  intros Hl. unfold WILLRECEIVE. destruct (view_lookup_inv _ _ _ (proj1 (proj2 Hl))) as (p & Hp & <-).
  erewrite bind_get_proc by done. unfold RTS_ISSET. rewrite !isset_has by apply _.
  unfold will, ipc_of. cbn. destruct (has (p_rts_flags p) RTS_SENDING).
  - by rewrite andb_false_r.
  - destruct (has (p_rts_flags p) RTS_RECEIVING); cbn [andb negb]; [|done].
    by eapply CANRECEIVE_nf.
Qed.
End NoFilter.

(** ** Changes of a view *)
Definition eta_ipcv (v : ipcv) : ipcv :=
  mkV (v_nr v) (v_ep v) (v_priv v) (v_cq v) (v_link v) (v_send v) (v_recv v) (v_noend v) (v_empty v)
    (v_fbit v) (v_misc v) (v_dmsg v) (v_dvir v) (v_smsg v) (v_status v) (v_ret v) (v_vmwait v) (v_vmreq v).
Definition set_v_cq : option Z -> ipcv -> ipcv := ltac:(setter eta_ipcv v_cq).
Definition set_v_link : option Z -> ipcv -> ipcv := ltac:(setter eta_ipcv v_link).
Definition set_v_send : option Z -> ipcv -> ipcv := ltac:(setter eta_ipcv v_send).
Definition set_v_recv : option Z -> ipcv -> ipcv := ltac:(setter eta_ipcv v_recv).
Definition set_v_misc : Z -> ipcv -> ipcv := ltac:(setter eta_ipcv v_misc).
Definition set_v_dmsg : message -> ipcv -> ipcv := ltac:(setter eta_ipcv v_dmsg).
Definition set_v_dvir : Z -> ipcv -> ipcv := ltac:(setter eta_ipcv v_dvir).
Definition set_v_smsg : message -> ipcv -> ipcv := ltac:(setter eta_ipcv v_smsg).
Definition set_v_ret : Z -> ipcv -> ipcv := ltac:(setter eta_ipcv v_ret).
Definition set_v_noend : bool -> ipcv -> ipcv := ltac:(setter eta_ipcv v_noend).
Definition set_v_vmwait : bool -> ipcv -> ipcv := ltac:(setter eta_ipcv v_vmwait).
Definition set_v_vmreq : vmrequest_t -> ipcv -> ipcv := ltac:(setter eta_ipcv v_vmreq).
Definition set_v_vmnext (x : option Z) (v : ipcv) : ipcv := set_v_vmreq (set_vr_nextrequestor x (v_vmreq v)) v.
Definition set_v_status : Z -> ipcv -> ipcv := ltac:(setter eta_ipcv v_status).

(** A message is stored for the process. *)
Definition v_deliver (m : message) (source : Z) (v : ipcv) : ipcv :=
  set_v_misc (flag_set (v_misc v) MF_DELIVERMSG) (set_v_dmsg (set_m_source source m) v).
(** The status word is extended, unless a reply is awaited. *)
Definition v_status_add (x : Z) (v : ipcv) : ipcv :=
  if has (v_misc v) MF_REPLY_PEND then v else set_v_status (Z.lor (v_status v) x) v.
Definition v_no_reply (v : ipcv) : ipcv := set_v_misc (flag_clr (v_misc v) MF_REPLY_PEND) v.

Lemma fbit_rts p f `{!SingleBit f} :
  f <> RTS_SLOT_FREE -> has (p_rts_flags p) RTS_SLOT_FREE = false ->
  has (flag_set (p_rts_flags p) f) RTS_SLOT_FREE = false
  /\ has (flag_clr (p_rts_flags p) f) RTS_SLOT_FREE = false.
Proof.
  intros Hne Hf. rewrite (has_flag_set f RTS_SLOT_FREE), (has_flag_clr f RTS_SLOT_FREE), Hf.
  by rewrite (proj2 (Z.eqb_neq _ _) Hne).
Qed.

Ltac rts_view p f :=
  let H := fresh in
  intros H; destruct (fbit_rts p f ltac:(done) H) as [Hset Hclr];
  unfold ipc_of; cbn [p_nr p_endpoint p_priv p_caller_q p_q_link p_rts_flags p_sendto_e p_getfrom_e
    p_misc_flags p_delivermsg p_delivermsg_vir p_sendmsg p_ipc_status set_p_rts_flags];
  rewrite (isemptyp_fbit p H); rewrite ?isemptyp_fbit by done;
  rewrite ?(has_flag_set f RTS_SENDING), ?(has_flag_set f RTS_RECEIVING), ?(has_flag_set f RTS_NO_ENDPOINT),
    ?(has_flag_set f RTS_VMREQUEST), ?(has_flag_clr f RTS_VMREQUEST),
    ?(has_flag_clr f RTS_SENDING), ?(has_flag_clr f RTS_RECEIVING), ?(has_flag_clr f RTS_NO_ENDPOINT),
    ?Hset, ?Hclr, ?H;
  cbn [Z.eqb Pos.eqb negb f]; rewrite ?andb_true_r, ?orb_false_r, ?orb_true_r, ?andb_false_r; try reflexivity.

Lemma ipc_unset_recv p :
  has (p_rts_flags p) RTS_SLOT_FREE = false ->
  ipc_of (set_p_rts_flags (flag_clr (p_rts_flags p) RTS_RECEIVING) p) = set_v_recv None (ipc_of p).
Proof. rts_view p RTS_RECEIVING. Qed.

Lemma ipc_unset_send p :
  has (p_rts_flags p) RTS_SLOT_FREE = false ->
  ipc_of (set_p_rts_flags (flag_clr (p_rts_flags p) RTS_SENDING) p) = set_v_send None (ipc_of p).
Proof. rts_view p RTS_SENDING. Qed.

Lemma ipc_set_recv p :
  has (p_rts_flags p) RTS_SLOT_FREE = false ->
  ipc_of (set_p_rts_flags (flag_set (p_rts_flags p) RTS_RECEIVING) p)
  = set_v_recv (Some (p_getfrom_e p)) (ipc_of p).
Proof. rts_view p RTS_RECEIVING. Qed.

Lemma ipc_set_send p :
  has (p_rts_flags p) RTS_SLOT_FREE = false ->
  ipc_of (set_p_rts_flags (flag_set (p_rts_flags p) RTS_SENDING) p)
  = set_v_send (Some (p_sendto_e p)) (ipc_of p).
Proof. rts_view p RTS_SENDING. Qed.

Lemma ipc_set_noend p :
  has (p_rts_flags p) RTS_SLOT_FREE = false ->
  ipc_of (set_p_rts_flags (flag_set (p_rts_flags p) RTS_NO_ENDPOINT) p) = set_v_noend true (ipc_of p).
Proof. rts_view p RTS_NO_ENDPOINT. Qed.

Lemma ipc_unset_vmwait p :
  has (p_rts_flags p) RTS_SLOT_FREE = false ->
  ipc_of (set_p_rts_flags (flag_clr (p_rts_flags p) RTS_VMREQUEST) p) = set_v_vmwait false (ipc_of p).
Proof. rts_view p RTS_VMREQUEST. Qed.

(** ** Steps on views *)

Lemma v_upd s n v f g :
  base s -> view s !! n = Some v ->
  (forall p, ipc_of (f p) = g (ipc_of p)) -> (forall p, sched_same p (f p)) ->
  (forall p, p_priority (f p) = p_priority p) ->
  exists s', upd_proc n f s = Done tt s' /\ goes s s' (<[n := g v]> (view s)) (privs s).
Proof.
  intros Hb Hv Hg Hs Hp. destruct (view_lookup_inv _ _ _ Hv) as (p & Hpp & <-).
  destruct (step_upd s n p f Hb Hpp (Hs p) (Hp p)) as (s' & E & HG & _).
  exists s'. split; [done|]. by rewrite <- Hg.
Qed.

Lemma v_deliver_step s n v m src :
  base s -> view s !! n = Some v ->
  exists s', deliver n m src s = Done tt s' /\ goes s s' (<[n := v_deliver m src v]> (view s)) (privs s).
Proof. intros Hb Hv. by apply (v_upd s n v). Qed.

Lemma v_status_step s n v x :
  base s -> view s !! n = Some v ->
  exists s', IPC_STATUS_ADD n x s = Done tt s' /\ goes s s' (<[n := v_status_add x v]> (view s)) (privs s).
Proof.
  intros Hb Hv. apply (v_upd s n v); try done; intros p; unfold v_status_add.
  - unfold ipc_of at 2. cbn. by destruct (has (p_misc_flags p) MF_REPLY_PEND).
  - by destruct (has (p_misc_flags p) MF_REPLY_PEND).
  - by destruct (has (p_misc_flags p) MF_REPLY_PEND).
Qed.

Lemma v_no_reply_step s n v :
  base s -> view s !! n = Some v ->
  exists s', upd_proc n (fun d => set_p_misc_flags (flag_clr (p_misc_flags d) MF_REPLY_PEND) d) s = Done tt s'
    /\ goes s s' (<[n := v_no_reply v]> (view s)) (privs s).
Proof. intros Hb Hv. by apply (v_upd s n v). Qed.

Lemma v_unset_recv_step s n v :
  v_fbit v = false -> base s -> view s !! n = Some v ->
  exists s', RTS_UNSET n RTS_RECEIVING s = Done tt s'
    /\ goes s s' (<[n := set_v_recv None v]> (view s)) (privs s).
Proof.
  intros Hf Hb Hv. destruct (view_lookup_inv _ _ _ Hv) as (p & Hp & <-).
  destruct (step_unset s n p RTS_RECEIVING Hb Hp eq_refl) as (s' & E & HG).
  exists s'. split; [done|]. by rewrite ipc_unset_recv in HG.
Qed.

Lemma v_unset_send_step s n v :
  v_fbit v = false -> base s -> view s !! n = Some v ->
  exists s', RTS_UNSET n RTS_SENDING s = Done tt s'
    /\ goes s s' (<[n := set_v_send None v]> (view s)) (privs s).
Proof.
  intros Hf Hb Hv. destruct (view_lookup_inv _ _ _ Hv) as (p & Hp & <-).
  destruct (step_unset s n p RTS_SENDING Hb Hp eq_refl) as (s' & E & HG).
  exists s'. split; [done|]. by rewrite ipc_unset_send in HG.
Qed.

(** Marking a process blocked sends to the old target first; then the target
    is stored. *)
Lemma v_set_send_step s n v :
  v_fbit v = false -> base s -> view s !! n = Some v ->
  exists s' e, RTS_SET n RTS_SENDING s = Done tt s'
    /\ goes s s' (<[n := set_v_send (Some e) v]> (view s)) (privs s).
Proof.
  intros Hf Hb Hv. destruct (view_lookup_inv _ _ _ Hv) as (p & Hp & <-).
  destruct (step_set s n p RTS_SENDING Hb Hp eq_refl) as (s' & E & HG).
  exists s', (p_sendto_e p). split; [done|]. by rewrite ipc_set_send in HG.
Qed.

Lemma v_sendto_step s n v e e' :
  base s -> view s !! n = Some (set_v_send (Some e') v) ->
  exists s', upd_proc n (set_p_sendto_e e) s = Done tt s'
    /\ goes s s' (<[n := set_v_send (Some e) v]> (view s)) (privs s).
Proof.
  intros Hb Hv. apply (v_upd s n _ _ (fun v => match v_send v with Some _ => set_v_send (Some e) v | None => v end) Hb Hv); try done.
  intros p. unfold ipc_of. cbn. by destruct (has (p_rts_flags p) RTS_SENDING).
Qed.

Lemma v_set_recv_step s n v e :
  v_fbit v = false -> base s -> view s !! n = Some v -> v_recv v = None ->
  exists s1 s2, upd_proc n (set_p_getfrom_e e) s = Done tt s1 /\ RTS_SET n RTS_RECEIVING s1 = Done tt s2
    /\ goes s s2 (<[n := set_v_recv (Some e) v]> (view s)) (privs s).
Proof.
  intros Hf Hb Hv Hr. destruct (view_lookup_inv _ _ _ Hv) as (p & Hp & <-).
  destruct (step_upd s n p (set_p_getfrom_e e) Hb Hp) as (s1 & E1 & G1 & Hp1 & _); [by split|done|].
  assert (ipc_of (set_p_getfrom_e e p) = ipc_of p) as Ei.
  { unfold ipc_of in *. cbn in *. by destruct (has (p_rts_flags p) RTS_RECEIVING). }
  rewrite Ei, (insert_id (view s)) in G1 by done.
  destruct (step_set s1 n _ RTS_RECEIVING (g_base _ _ _ _ G1) Hp1 eq_refl) as (s2 & E2 & G2).
  exists s1, s2. split_and!; [done..|]. rewrite ipc_set_recv, Ei in G2 by done.
  rewrite (g_view _ _ _ _ G1), (g_privs _ _ _ _ G1) in G2. by eapply goes_trans.
Qed.

(** Reading a process whose view is known. *)
Lemma get_view {A} s n v (k : proc -> K A) :
  view s !! n = Some v -> exists p, procs s !! n = Some p /\ ipc_of p = v /\ bind (get_proc n) k s = k p s.
Proof.
  intros Hv. destruct (view_lookup_inv _ _ _ Hv) as (p & Hp & E). exists p. split_and!; [done..|].
  by erewrite bind_get_proc by done.
Qed.

(** Composition: one more step on process [n]. *)
Lemma step_on {A} s0 s n v v' V P (m : K unit) (k : unit -> K A) :
  goes s0 s (<[n := v]> V) P ->
  (base s -> view s !! n = Some v ->
    exists s', m s = Done tt s' /\ goes s s' (<[n := v']> (view s)) (privs s)) ->
  exists s', bind m k s = k tt s' /\ goes s0 s' (<[n := v']> V) P.
Proof.
  intros HG Hm. destruct Hm as (s' & E & HG'); [apply HG|rewrite (g_view _ _ _ _ HG); apply lookup_insert_eq|].
  exists s'. rewrite (bind_done _ _ _ _ _ E). split; [done|].
  rewrite (g_view _ _ _ _ HG), (g_privs _ _ _ _ HG), insert_insert_eq in HG'. by eapply goes_trans.
Qed.

(** Run the next operation of the goal, a step on process [n] of state [s]
    reached from [s0]. *)
Ltac vstep s0 s n v' G lem s1 G1 :=
  match goal with
  | |- context [bind ?m ?k s] =>
      destruct (step_on s0 s n _ v' _ _ m k G lem) as (s1 & -> & G1); cbn beta
  end.

Lemma goes_start s n v P : base s -> view s !! n = Some v -> privs s = P -> goes s s (<[n := v]> (view s)) P.
Proof. intros Hb Hv <-. rewrite insert_id by done. by apply goes_refl. Qed.

Lemma goes_lookup s s' n v V P : goes s s' (<[n := v]> V) P -> view s' !! n = Some v.
Proof. intros H. rewrite (g_view _ _ _ _ H). apply lookup_insert_eq. Qed.

Lemma goes_lookup_ne s s' n v V P m : goes s s' (<[n := v]> V) P -> m <> n -> view s' !! m = V !! m.
Proof. intros H Hm. rewrite (g_view _ _ _ _ H). by apply lookup_insert_ne. Qed.

(** A waiting process gets a message and is released. *)
Definition v_wake (m : message) (src x : Z) (v : ipcv) : ipcv :=
  set_v_recv None (v_status_add x (v_deliver m src v)).

Lemma v_wake_fbit m src x v : v_fbit (v_status_add x (v_deliver m src v)) = v_fbit v.
Proof. unfold v_status_add. by destruct (has _ _). Qed.

Lemma wake_spec {A} s0 s n v V P m src x (k : unit -> K A) :
  goes s0 s (<[n := v]> V) P -> v_fbit v = false ->
  exists s', bind (deliver n m src) (fun _ => bind (IPC_STATUS_ADD n x)
      (fun _ => bind (RTS_UNSET n RTS_RECEIVING) k)) s = k tt s'
    /\ goes s0 s' (<[n := v_wake m src x v]> V) P.
Proof.
  intros HG Hf. set (v2 := v_status_add x (v_deliver m src v)).
  assert (v_fbit v2 = false) as Hf2 by (by unfold v2; rewrite v_wake_fbit).
  vstep s0 s n (v_deliver m src v) HG (v_deliver_step s n v m src) s1 HG1.
  vstep s0 s1 n v2 HG1 (v_status_step s1 n (v_deliver m src v) x) s2 HG2.
  vstep s0 s2 n (v_wake m src x v) HG2 (v_unset_recv_step s2 n v2 Hf2) s3 HG3.
  by exists s3.
Qed.

Lemma v_wake_keeps m src x v : keeps v (v_wake m src x v).
Proof.
  unfold v_wake, v_status_add. destruct (has _ _); split; try done; by right.
Qed.
