(* ===== verification/Notify.v ===== *)
(** * Notifications and signals

    [mini_notify] either hands a notification to a process that waits for it
    or records it in the receiver's bit map, and never loses or duplicates it;
    [send_sig] and [cause_sig] are built on it.  All of them run to completion
    on well-formed states and keep the queues of blocked senders and the
    wait-for chains. *)

From S2P Require Import Prelude Monad Timers Endpoint Chain Kernel Sched RunQueue Init SchedProps Ipc IpcInv Deadlock IpcStep.

(** Every process but the kernel tasks has a signal manager that is alive. *)
Definition mgr_ok (V : views) (P : gmap Z priv) : Prop :=
  forall n v id pv, live V n v -> 0 <= n -> v_priv v = Some id -> P !! id = Some pv ->
    s_sig_mgr pv = SELF \/ exists m w, live V m w /\ v_ep w = s_sig_mgr pv.

(** What notifications and signals need, and keep. *)
Record ready (s : kstate) : Prop := {
  r_base : base s;
  r_core : core (view s) (privs s);
  r_nf : no_filters (privs s);
  r_mgr : mgr_ok (view s) (privs s)
}.

(** Deciding both on concrete states. *)
Definition no_filtersb (P : gmap Z priv) : bool :=
  forallb (fun ip => bool_decide (s_ipcf (snd ip) = None)) (map_to_list P).
Definition mgr_okb (V : views) (P : gmap Z priv) : bool :=
  for_live V (fun n v => (n <? 0) || match v_priv v with
    | Some id => match P !! id with
        | Some pv => (s_sig_mgr pv =? SELF) || waitsb V (s_sig_mgr pv) false
        | None => true
        end
    | None => true
    end).

Lemma no_filtersb_sound P : no_filtersb P = true -> no_filters P.
Proof.
  unfold no_filtersb. rewrite forallb_forall. intros H id pv Hp.
  specialize (H (id, pv)). cbn in H. apply (bool_decide_eq_true (s_ipcf pv = None)), H, list_elem_of_In.
  by apply elem_of_map_to_list.
Qed.

Lemma mgr_okb_sound V P : mgr_okb V P = true -> mgr_ok V P.
Proof.
  intros H n v id pv Hl H0 Hid Hpv. pose proof (for_live_sound _ _ H n v Hl) as Hn. cbn beta in Hn.
  rewrite Hid, Hpv, (proj2 (Z.ltb_ge n 0) H0) in Hn. cbn [orb] in Hn.
  rewrite orb_true_iff, Z.eqb_eq in Hn. destruct Hn as [?|Hn]; [by left|right].
  apply waitsb_sound in Hn as (m & w & ? & ? & _). by exists m, w.
Qed.

Lemma mgr_relax V V' P P' : idents V V' -> prelax V P P' -> mgr_ok V P -> mgr_ok V' P'.
Proof.
  intros HV HP H n v' id pv' Hl H0 Hid Hpv'. destruct (idents_live_r _ _ _ _ HV Hl) as (v & Hv & Hk).
  specialize (HP id). rewrite Hpv' in HP. destruct (P !! id) as [pv|] eqn:Hpv; [|done].
  destruct HP as (_ & _ & [_ ->] & _). rewrite (i_priv _ _ Hk) in Hid.
  destruct (H n v id pv Hv H0 Hid Hpv) as [?|(m & w & Hw & E)]; [by left|right].
  destruct (idents_live _ _ _ _ HV Hw) as (w' & ? & Hk'). exists m, w'. by rewrite (i_ep _ _ Hk').
Qed.

Lemma prelax_nf V P P' : prelax V P P' -> no_filters P -> no_filters P'.
Proof.
  intros H Hn id pv' Hp'. specialize (H id). rewrite Hp' in H. destruct (P !! id) as [pv|] eqn:E; [|done].
  destruct H as (_ & _ & [-> _] & _). by eapply Hn.
Qed.

Lemma prelax_refl V P : prelax V P P.
Proof. intros id. destruct (P !! id); [|done]. split_and!; auto. Qed.

Lemma prelax_insert V P id pv pv' :
  P !! id = Some pv ->
  s_id pv' = s_id pv -> s_proc_nr pv' = s_proc_nr pv ->
  s_ipcf pv' = s_ipcf pv /\ s_sig_mgr pv' = s_sig_mgr pv ->
  (map_ok (s_notify_pending pv) -> map_ok (s_notify_pending pv')) ->
  (map_ok (s_asyn_pending pv) -> map_ok (s_asyn_pending pv')) ->
  (map_ok (s_notify_pending pv) -> map_ok (s_asyn_pending pv) -> forall b, bit_ok b ->
     pending pv' b = true -> pending pv b = true
       \/ exists pb w, P !! b = Some pb /\ live V (s_proc_nr pb) w) ->
  prelax V P (<[id := pv']> P).
Proof.
  intros Hp H1 H2 H3 H4 H5 H6 i. destruct (Z.eq_dec i id) as [->|Hne].
  - by rewrite Hp, lookup_insert_eq.
  - rewrite lookup_insert_ne by done. apply prelax_refl.
Qed.

(** A privilege update that leaves pending bits, owner and filters alone. *)
Lemma prelax_same V P id pv pv' :
  P !! id = Some pv -> s_id pv' = s_id pv -> s_proc_nr pv' = s_proc_nr pv ->
  s_ipcf pv' = s_ipcf pv /\ s_sig_mgr pv' = s_sig_mgr pv ->
  s_notify_pending pv' = s_notify_pending pv -> s_asyn_pending pv' = s_asyn_pending pv ->
  prelax V P (<[id := pv']> P).
Proof.
  intros Hp H1 H2 H3 H4 H5. apply (prelax_insert V P id pv); try done; try congruence.
  intros _ _ b _. unfold pending. rewrite H4, H5. by left.
Qed.

Lemma prelax_trans V V' P P' P'' :
  relax V V' -> prelax V P P' -> prelax V' P' P'' ->
  (forall b pb w, P' !! b = Some pb -> live V' (s_proc_nr pb) w ->
     exists pb0 w0, P !! b = Some pb0 /\ live V (s_proc_nr pb0) w0) ->
  prelax V P P''.
Proof.
  intros HV H1 H2 Hback i. specialize (H1 i). specialize (H2 i).
  destruct (P !! i) as [p|], (P' !! i) as [p'|], (P'' !! i) as [p''|]; try done.
  destruct H1 as (A1 & A2 & A3 & A4 & A5 & A6), H2 as (B1 & B2 & B3 & B4 & B5 & B6).
  destruct A3 as [A3 A3'], B3 as [B3 B3'].
  split_and!; try congruence; [auto|auto|].
  intros M1 M2 b Hb Hp. destruct (B6 (A4 M1) (A5 M2) b Hb Hp) as [Hp'|(pb & w & Hpb & Hw)]; [auto|].
  right. by eapply Hback.
Qed.

Lemma prelax_idents V V' P P' : idents V V' -> prelax V' P P' -> prelax V P P'.
Proof.
  intros HI H i. specialize (H i). destruct (P !! i), (P' !! i); try done.
  destruct H as (? & ? & [? ?] & ? & ? & H). split_and!; try done.
  intros M1 M2 b Hb Hp. destruct (H M1 M2 b Hb Hp) as [?|(pb & w & Hpb & Hw)]; [by left|right].
  exists pb. destruct (idents_live_r _ _ _ _ HI Hw) as (w0 & Hw0 & _). by exists w0.
Qed.

(** ** The notification message *)

(** The message for a notification from [src], with the interrupts or signals
    of the receiver's structure [pv], and the structure afterwards. *)
Definition notify_msg (now src : Z) (pv : priv) : message :=
  mkMsg 0 NOTIFY_MESSAGE
    (M_notify now (if src =? HARDWARE then s_int_pending pv else 0)
       (if src =? HARDWARE then 0 else if src =? SYSTEM then s_sig_pending pv else 0)).
Definition notify_taken (src : Z) (pv : priv) : priv :=
  if src =? HARDWARE then set_s_int_pending 0 pv
  else if src =? SYSTEM then set_s_sig_pending 0 pv else pv.

Lemma build_spec s src dst p id pv :
  base s -> procs s !! dst = Some p -> p_priv p = Some id -> privs s !! id = Some pv ->
  exists s', BuildNotifyMessage src dst s = Done (notify_msg (k_monotonic s) src pv) s'
    /\ goes s s' (view s) (<[id := notify_taken src pv]> (privs s)).
Proof.
  intros Hb Hp Hid Hpv. unfold BuildNotifyMessage, notify_msg, notify_taken.
  rewrite (bind_done _ _ s s s) by done. erewrite bind_get_proc by done.
  destruct (src =? HARDWARE) eqn:E1; [|destruct (src =? SYSTEM) eqn:E2].
  - erewrite bind_priv_of by done.
    destruct (step_priv_of s p id pv (set_s_int_pending 0) Hb Hid Hpv) as (s' & E & HG & _).
    rewrite (bind_done _ _ _ _ _ E). by exists s'.
  - erewrite bind_priv_of by done.
    destruct (step_priv_of s p id pv (set_s_sig_pending 0) Hb Hid Hpv) as (s' & E & HG & _).
    rewrite (bind_done _ _ _ _ _ E). by exists s'.
  - exists s. split; [done|]. rewrite insert_id by done. by apply goes_refl.
Qed.

Lemma notify_taken_same V P id pv src : P !! id = Some pv -> prelax V P (<[id := notify_taken src pv]> P).
Proof.
  intros Hp. apply (prelax_same V P id pv); [done|..];
    unfold notify_taken; by destruct (src =? HARDWARE), (src =? SYSTEM).
Qed.

(** Recording the notification of the process with privilege id [b]. *)
Definition notify_mark (b : Z) (pv : priv) : priv :=
  set_s_notify_pending (set_sys_bit (s_notify_pending pv) b) pv.

Lemma notify_mark_relax V P id pv b pb w :
  P !! id = Some pv -> bit_ok b -> P !! b = Some pb -> live V (s_proc_nr pb) w ->
  prelax V P (<[id := notify_mark b pv]> P).
Proof.
  intros Hp Hb Hpb Hw. apply (prelax_insert V P id pv); try done.
  - cbn. apply map_ok_set.
  - intros M1 M2 b' Hb'. unfold pending. cbn. rewrite get_set_sys_bit by done.
    destruct (Z.eqb_spec b b') as [<-|].
    + intros _. right. by exists pb, w.
    + rewrite orb_false_r. by left.
Qed.

(** ** [mini_notify] *)

Lemma mini_notify_spec s caller c cid dst_e :
  ready s -> procs s !! caller = Some c -> live (view s) caller (ipc_of c) -> p_priv c = Some cid ->
  (isokendpt dst_e s = Done None s /\ mini_notify caller dst_e s = Done EDEADSRCDST s)
  \/ exists dst v id pv s',
       live (view s) dst v /\ v_ep v = dst_e /\ v_priv v = Some id /\ privs s !! id = Some pv
       /\ mini_notify caller dst_e s = Done OK s'
       /\ if will v (p_endpoint c) && negb (has (v_misc v) MF_REPLY_PEND)
          then goes s s' (<[dst := v_wake (notify_msg (k_monotonic s) caller pv) (p_endpoint c)
                                     (IPC_STATUS_CALL_TO NOTIFY) v]> (view s))
                 (<[id := notify_taken caller pv]> (privs s))
          else goes s s' (view s) (<[id := notify_mark cid pv]> (privs s)).
Proof.
  intros [Hb Hc Hnf Hmg] Hcp Hcl Hcid. unfold mini_notify.
  destruct (isokendpt_total s Hb dst_e) as [r Er]. destruct r as [dst|].
  2:{ left. split; [done|]. by rewrite (bind_done _ _ _ _ _ Er). }
  right. destruct (isokendpt_live s dst_e dst Er) as (v & Hv & He).
  destruct (view_lookup_inv _ _ _ (proj1 (proj2 Hv))) as (d & Hd & <-).
  destruct (live_priv_of s Hc Hnf dst d Hd Hv) as (id & pv & Hid & Hok & Hpv & _).
  destruct (live_priv_of s Hc Hnf caller c Hcp Hcl) as (cid' & cpv & Hcid' & _ & Hcpv & Hsid & _).
  rewrite Hcid in Hcid'. injection Hcid' as <-.
  rewrite (bind_done _ _ _ _ _ Er). cbn beta iota. erewrite bind_get_proc by done.
  rewrite (bind_done _ _ _ _ _ (WILLRECEIVE_nf s Hc Hnf (p_endpoint c) dst (ipc_of d) FromNotify Hv)).
  erewrite bind_get_proc by done. change (p_misc_flags d) with (v_misc (ipc_of d)).
  destruct (will (ipc_of d) (p_endpoint c) && negb (has (v_misc (ipc_of d)) MF_REPLY_PEND)) eqn:Ew.
  - assert (has (v_misc (ipc_of d)) MF_DELIVERMSG = false) as Hdl.
    { apply (c_dlv _ _ Hc dst _ Hv). apply andb_true_iff in Ew as [Ew _]. unfold will in Ew.
      destruct (v_send (ipc_of d)); [done|]. by destruct (v_recv (ipc_of d)). }
    rewrite bind_assert by (by rewrite Hdl). destruct (c_ep _ _ Hc caller _ Hcl) as (_ & _ & Hnr).
    change (v_nr (ipc_of c)) with (p_nr c) in Hnr. rewrite Hnr.
    destruct (build_spec s caller dst d id pv Hb Hd Hid Hpv) as (s1 & E1 & HG1).
    rewrite (bind_done _ _ _ _ _ E1).
    destruct (c_ep _ _ Hc dst _ Hv) as (_ & Hfb & _).
    rewrite <- (insert_id (view s) dst (ipc_of d)) in HG1 by apply Hv.
    destruct (wake_spec s s1 dst (ipc_of d) (view s) _ (notify_msg (k_monotonic s) caller pv) (p_endpoint c)
      (IPC_STATUS_CALL_TO NOTIFY) (fun _ => ret OK) HG1 Hfb) as (s2 & E2 & HG2).
    exists dst, (ipc_of d), id, pv, s2. split_and!; try done. by rewrite Ew.
  - rewrite (bind_priv_of c cid cpv) by done. rewrite Hsid.
    destruct (step_priv_of s d id pv (fun pv =>
      set_s_notify_pending (set_sys_bit (s_notify_pending pv) cid) pv) Hb Hid Hpv) as (s1 & E1 & HG1 & _).
    rewrite (bind_done _ _ _ _ _ E1). exists dst, (ipc_of d), id, pv, s1.
    split_and!; try done. by rewrite Ew.
Qed.

Lemma dlv_insert V n v' : dlv_ok V -> v_recv v' = None \/ has (v_misc v') MF_DELIVERMSG = false ->
  dlv_ok (<[n := v']> V).
Proof.
  intros H Hv m w (Hm & Hw & He) Hr. destruct (Z.eq_dec m n) as [->|Hne].
  - rewrite lookup_insert_eq in Hw. injection Hw as <-. by destruct Hv.
  - rewrite lookup_insert_ne in Hw by done. by apply (H m w).
Qed.

(** The part of the outcome that callers rely on: message passing goes on,
    receives may be completed, and tables of asynchronous messages change. *)
Definition rest0 (s : kstate) : kstate := rest (set_privs ∅ (set_atab ∅ s)).

(** The kernel only writes results into the tables, never messages, and what it
    has written is marked as done. *)
Definition same_msgs (T T' : gmap (Z * Z) asynmsg) : Prop :=
  forall k t', T' !! k = Some t' ->
    exists t, T !! k = Some t /\ am_msg t = am_msg t' /\ (has (am_flags t') AMF_DONE = false -> t = t').

#[export] Instance same_msgs_refl : Reflexive same_msgs.
Proof. intros T k t ?. by exists t. Qed.
#[export] Instance same_msgs_trans : Transitive same_msgs.
Proof.
  intros T1 T2 T3 H1 H2 k t3 H3. destruct (H2 k t3 H3) as (t2 & Ht2 & E2 & D2).
  destruct (H1 k t2 Ht2) as (t1 & Ht1 & E1 & D1). exists t1. split; [done|]. split; [congruence|].
  intros Hd. specialize (D2 Hd). subst t2. by apply D1.
Qed.

Record moved (s s' : kstate) : Prop := {
  m_ready : ready s';
  m_relax : relax (view s) (view s');
  m_prelax : prelax (view s) (privs s) (privs s');
  m_atab : same_msgs (atab s) (atab s');
  m_rest : rest0 s' = rest0 s
}.

(** Processes that do not wait for a message are left alone. *)
Definition awake (V V' : views) : Prop :=
  forall n v, V !! n = Some v -> v_recv v = None -> V' !! n = Some v.
Record notified (s s' : kstate) : Prop := {
  n_moved :> moved s s';
  n_awake : awake (view s) (view s')
}.

Lemma awake_insert V n v v' : V !! n = Some v -> v_recv v <> None -> awake V (<[n := v']> V).
Proof. intros Hv Hr m w Hw Hn. rewrite lookup_insert_ne; [done|]. intros ->. congruence. Qed.

Lemma goes_moved s s' V' P' :
  ready s -> goes s s' V' P' -> relax (view s) V' -> dlv_ok V' -> prelax (view s) (privs s) P' ->
  moved s s'.
Proof.
  intros [Hb Hc Hnf Hm] [G1 G2 G3 G4] HR Hd HP. rewrite <- G2 in *. rewrite <- G3 in *.
  split; try done.
  - split; [done| |by eapply prelax_nf|by eapply mgr_relax; [apply relax_idents|..]].
    eapply core_relax; [done|done|]. by eapply core_prelax.
  - by rewrite (f_equal atab G4 : atab s' = atab s).
  - exact (f_equal (set_atab ∅) G4).
Qed.

Lemma goes_notified s s' V' P' :
  ready s -> goes s s' V' P' -> relax (view s) V' -> awake (view s) V' -> dlv_ok V' ->
  prelax (view s) (privs s) P' -> notified s s'.
Proof.
  intros Hr HG HR HA Hd HP. split; [by eapply goes_moved|]. by rewrite (g_view _ _ _ _ HG).
Qed.

Lemma moved_refl s : ready s -> moved s s.
Proof. intros H. split; [done|done|apply prelax_refl|done|done]. Qed.
Lemma notified_refl s : ready s -> notified s s.
Proof. intros H. split; [by apply moved_refl|]. by intros n v ? ?. Qed.

Lemma prelax_back V V' P P' b pb w :
  relax V V' -> prelax V P P' -> P' !! b = Some pb -> live V' (s_proc_nr pb) w ->
  exists pb0 w0, P !! b = Some pb0 /\ live V (s_proc_nr pb0) w0.
Proof.
  intros HV HP Hpb Hw. specialize (HP b). rewrite Hpb in HP. destruct (P !! b) as [pb0|]; [|done].
  destruct HP as (_ & E & _). destruct (relax_live_r _ _ _ _ HV Hw) as (w0 & Hw0 & _).
  rewrite E in Hw0. by exists pb0, w0.
Qed.

Lemma moved_trans s1 s2 s3 : moved s1 s2 -> moved s2 s3 -> moved s1 s3.
Proof.
  intros [A1 A2 A3 A4 A5] [B1 B2 B3 B4 B5]. split; [done|by etrans| |by etrans|congruence].
  eapply prelax_trans; [exact A2|done|done|]. intros b pb w. by apply prelax_back.
Qed.
Lemma notified_trans s1 s2 s3 : notified s1 s2 -> notified s2 s3 -> notified s1 s3.
Proof.
  intros [A1 A2] [B1 B2]. split; [by eapply moved_trans|]. intros n v Hv Hr. by apply B2, Hr; apply A2.
Qed.

Lemma mini_notify_ready s caller v dst_e :
  ready s -> live (view s) caller v -> exists r s', mini_notify caller dst_e s = Done r s' /\ notified s s'.
Proof.
  intros Hr Hv. destruct (view_lookup_inv _ _ _ (proj1 (proj2 Hv))) as (c & Hcp & <-).
  pose proof Hr as [Hb Hc Hnf Hmg].
  destruct (live_priv_of s Hc Hnf caller c Hcp Hv) as (cid & cpv & Hcid & Hok & Hcpv & _ & _ & w & Hw).
  destruct (mini_notify_spec s caller c cid dst_e Hr Hcp Hv Hcid) as
    [[_ E]|(dst & v & id & pv & s' & Hl & _ & Hid & Hpv & E & HG)]; [by eexists _, s; split; [|apply notified_refl]|].
  exists OK, s'. split; [done|].
  assert (forall x y z, v_recv (v_wake x y z v) = None) as Hn by done.
  destruct (_ && _) eqn:Ew.
  - eapply goes_notified; [done|exact HG| | | |by apply notify_taken_same].
    + eapply relax_insert; [apply Hl|apply v_wake_keeps].
    + eapply awake_insert; [apply Hl|]. intros Er. unfold will in Ew. rewrite Er in Ew.
      by destruct (v_send v).
    + apply dlv_insert; [exact (c_dlv _ _ Hc)|by left].
  - eapply goes_notified; [done|exact HG|done|by intros ???|exact (c_dlv _ _ Hc)|]. by eapply notify_mark_relax.
Qed.

(** ** Signals *)

Lemma core_system V P : core V P -> exists v, live V SYSTEM v.
Proof. intros H. by apply (c_task _ _ H). Qed.

(** Steps that do not change the view, and change one privilege structure in
    fields message passing does not look at. *)
Lemma priv_notified s id pv f :
  ready s -> privs s !! id = Some pv -> s_id (f pv) = s_id pv -> s_proc_nr (f pv) = s_proc_nr pv ->
  s_ipcf (f pv) = s_ipcf pv /\ s_sig_mgr (f pv) = s_sig_mgr pv ->
  s_notify_pending (f pv) = s_notify_pending pv -> s_asyn_pending (f pv) = s_asyn_pending pv ->
  exists s', upd_priv_id id f s = Done tt s' /\ notified s s' /\ procs s' = procs s.
Proof.
  intros Hr Hpv H1 H2 H3 H4 H5. destruct (step_priv s id pv f (r_base _ Hr) Hpv) as (s' & E & HG & Hps).
  exists s'. split; [done|]. split; [|done].
  eapply goes_notified; [done|exact HG|done|by intros ???|exact (c_dlv _ _ (r_core _ Hr))|].
  by apply (prelax_same _ _ _ pv).
Qed.

Lemma live_proc_of s n v : live (view s) n v -> exists p, procs s !! n = Some p /\ ipc_of p = v.
Proof. intros (_ & H & _). by apply view_lookup_inv. Qed.

Lemma notified_live s s' n v : notified s s' -> live (view s) n v -> exists v', live (view s') n v' /\ keeps v v'.
Proof. intros H. apply relax_live, m_relax, H. Qed.

Lemma send_sig_ready s n v sig :
  ready s -> live (view s) n v ->
  exists s', send_sig (v_ep v) sig s = Done OK s' /\ notified s s'.
Proof.
  intros Hr Hv. pose proof Hr as [Hb Hc Hnf Hm]. unfold send_sig.
  rewrite (bind_done _ _ _ _ _ (live_isokendpt s Hc n v Hv)). cbn beta iota.
  destruct (live_proc_of s n v Hv) as (p & Hp & <-). erewrite bind_get_proc by done.
  destruct (live_priv_of s Hc Hnf n p Hp Hv) as (id & pv & Hid & _ & Hpv & _). rewrite Hid.
  destruct (priv_notified s id pv (fun pv => set_s_sig_pending (sigaddset (s_sig_pending pv) sig) pv) Hr Hpv)
    as (s1 & E1 & N1 & _); try done.
  rewrite (bind_done _ _ _ _ _ E1).
  destruct (core_system _ _ Hc) as [vs Hs].
  destruct (notified_live _ _ _ _ N1 Hs) as (vs' & Hs' & _).
  destruct (mini_notify_ready s1 SYSTEM vs' (p_endpoint p) (m_ready _ _ N1) Hs') as (r & s2 & E2 & N2).
  rewrite (bind_done _ _ _ _ _ E2). exists s2. split; [done|]. by eapply notified_trans.
Qed.

(** A change of a process that its view does not show. *)
Lemma upd_notified s n p f :
  ready s -> procs s !! n = Some p -> ipc_of (f p) = ipc_of p -> sched_same p (f p) ->
  p_priority (f p) = p_priority p ->
  exists s', upd_proc n f s = Done tt s' /\ notified s s' /\ view s' = view s.
Proof.
  intros Hr Hp Hi Hs Hpr. destruct (step_upd s n p f (r_base _ Hr) Hp Hs Hpr) as (s' & E & HG & _).
  rewrite Hi, (insert_id (view s)) in HG by (by apply view_lookup).
  exists s'. split; [done|]. split; [|apply HG].
  eapply goes_notified; [done|exact HG|done|by intros ???|exact (c_dlv _ _ (r_core _ Hr))|apply prelax_refl].
Qed.

Lemma ipc_set_signaled p :
  has (p_rts_flags p) RTS_SLOT_FREE = false ->
  ipc_of (set_p_rts_flags (flag_set (p_rts_flags p) (Z.lor RTS_SIGNALED RTS_SIG_PENDING)) p) = ipc_of p.
Proof.
  intros H. replace (flag_set (p_rts_flags p) (Z.lor RTS_SIGNALED RTS_SIG_PENDING))
    with (flag_set (flag_set (p_rts_flags p) RTS_SIGNALED) RTS_SIG_PENDING)
    by (unfold flag_set; by rewrite Z.lor_assoc).
  destruct (fbit_rts p RTS_SIGNALED ltac:(done) H) as [H1 _].
  destruct (fbit_rts (set_p_rts_flags (flag_set (p_rts_flags p) RTS_SIGNALED) p) RTS_SIG_PENDING ltac:(done) H1) as [H2 _].
  cbn in H2. unfold ipc_of. cbn [p_rts_flags set_p_rts_flags p_nr p_endpoint p_priv p_caller_q p_q_link
    p_sendto_e p_getfrom_e p_misc_flags p_delivermsg p_delivermsg_vir p_sendmsg p_ipc_status].
  rewrite H2, H, !isemptyp_fbit by done.
  rewrite (has_flag_set RTS_SIG_PENDING RTS_SENDING), (has_flag_set RTS_SIG_PENDING RTS_RECEIVING),
    (has_flag_set RTS_SIG_PENDING RTS_NO_ENDPOINT), (has_flag_set RTS_SIGNALED RTS_SENDING),
    (has_flag_set RTS_SIGNALED RTS_RECEIVING), (has_flag_set RTS_SIGNALED RTS_NO_ENDPOINT),
    (has_flag_set RTS_SIG_PENDING RTS_VMREQUEST), (has_flag_set RTS_SIGNALED RTS_VMREQUEST).
  by rewrite !orb_false_r.
Qed.

Lemma set_signaled_notified s n p :
  ready s -> procs s !! n = Some p -> has (p_rts_flags p) RTS_SLOT_FREE = false ->
  exists s', RTS_SET n (Z.lor RTS_SIGNALED RTS_SIG_PENDING) s = Done tt s' /\ notified s s' /\ view s' = view s.
Proof.
  intros Hr Hp Hf.
  destruct (step_set s n p (Z.lor RTS_SIGNALED RTS_SIG_PENDING) (r_base _ Hr) Hp eq_refl) as (s' & E & HG).
  rewrite ipc_set_signaled, (insert_id (view s)) in HG by (done || by apply view_lookup).
  exists s'. split; [done|]. split; [|apply HG].
  eapply goes_notified; [done|exact HG|done|by intros ???|exact (c_dlv _ _ (r_core _ Hr))|apply prelax_refl].
Qed.

(** [cause_sig] for a signal that does not kill a system process. *)
Lemma cause_sig_ready s n v sig :
  ready s -> live (view s) n v -> 0 <= n -> SIGS_IS_LETHAL sig = false ->
  exists s', cause_sig n sig s = Done tt s' /\ notified s s'.
Proof.
  intros Hr Hv H0 Hl. pose proof Hr as [Hb Hc Hnf Hm]. unfold cause_sig. cbn [cause_sig_rec].
  destruct (live_proc_of s n v Hv) as (p & Hp & <-). erewrite bind_get_proc by done.
  destruct (live_priv_of s Hc Hnf n p Hp Hv) as (id & pv & Hid & _ & Hpv & _).
  erewrite bind_priv_of by done. rewrite Hl.
  set (mgr := if s_sig_mgr pv =? SELF then p_endpoint p else s_sig_mgr pv).
  assert (exists m w, live (view s) m w /\ v_ep w = mgr) as (m & w & Hw & Hmg).
  { subst mgr. destruct (Z.eqb_spec (s_sig_mgr pv) SELF); [by exists n, (ipc_of p)|].
    by destruct (Hm n _ id pv Hv H0 Hid Hpv). }
  destruct (p_endpoint p =? mgr).
  - unfold upd_priv_of. rewrite Hid.
    destruct (priv_notified s id pv (fun pv => set_s_sig_pending (sigaddset (s_sig_pending pv) sig) pv) Hr Hpv)
      as (s1 & E1 & N1 & Hps); try done.
    rewrite (bind_done _ _ _ _ _ E1).
    destruct (notified_live _ _ _ _ N1 Hv) as (v1 & Hv1 & Hk).
    destruct (send_sig_ready s1 n v1 SIGKSIGSM (m_ready _ _ N1) Hv1) as (s2 & E2 & N2).
    rewrite (k_ep _ _ Hk) in E2. change (v_ep (ipc_of p)) with (p_endpoint p) in E2.
    rewrite (bind_done _ _ _ _ _ E2). exists s2. split; [done|]. by eapply notified_trans.
  - destruct (sigismember (p_pending p) sig); [exists s; by split; [|apply notified_refl]|].
    destruct (upd_notified s n p (fun p => set_p_pending (sigaddset (p_pending p) sig) p) Hr Hp)
      as (s1 & E1 & N1 & V1); try done.
    rewrite (bind_done _ _ _ _ _ E1).
    destruct (RTS_ISSET p RTS_SIGNALED); [by exists s1|].
    rewrite <- V1 in Hv. destruct (live_proc_of s1 n _ Hv) as (p1 & Hp1 & _).
    destruct (c_ep _ _ (r_core _ (m_ready _ _ N1)) n _ Hv) as (_ & Hfb & _).
    assert (has (p_rts_flags p1) RTS_SLOT_FREE = false) as Hf1.
    { rewrite <- Hfb. pose proof (proj1 (proj2 Hv)) as E. rewrite (view_lookup _ _ _ Hp1) in E.
      apply (inj Some) in E. exact (f_equal v_fbit E). }
    destruct (set_signaled_notified s1 n p1 (m_ready _ _ N1) Hp1 Hf1) as (s2 & E2 & N2 & V2).
    rewrite (bind_done _ _ _ _ _ E2). rewrite <- V1, <- V2 in Hw.
    destruct (send_sig_ready s2 m w SIGKSIG (m_ready _ _ N2) Hw) as (s3 & E3 & N3).
    rewrite Hmg in E3. rewrite (bind_done _ _ _ _ _ E3). exists s3. split; [done|].
    eapply notified_trans; [done|]. by eapply notified_trans.
Qed.
