(* ===== verification/IpcSend.v ===== *)
(** * Sending

    [mini_send] hands the message to a receiver that waits for it, or blocks
    the sender at the end of the receiver's queue; both keep the invariant of
    [IpcInv].  Outside it, a sender to a process that receives from itself
    spins in the search for a deadlock. *)

From S2P Require Import Prelude Monad Timers Endpoint Chain Kernel Sched RunQueue Init SchedProps Ipc IpcInv Deadlock IpcStep Notify.

(** ** Blocking a sender, on views *)

(** The sender [c] with its message and target. *)
Definition v_block (e : Z) (m : message) (misc : Z) (v : ipcv) : ipcv :=
  set_v_send (Some e) (set_v_misc misc (set_v_smsg m v)).

(** Append [c] to the queue of [dst], whose processes are [l]. *)
Definition append_q (V : views) (dst c : Z) (l : list Z) : views :=
  match last l with
  | None => alter (set_v_cq (Some c)) dst V
  | Some t => alter (set_v_link (Some c)) t V
  end.

(** What [append_q] leaves alone. *)
Record same_but_links (v v' : ipcv) : Prop := {
  sl_nr : v_nr v' = v_nr v;
  sl_ep : v_ep v' = v_ep v;
  sl_priv : v_priv v' = v_priv v;
  sl_send : v_send v' = v_send v;
  sl_recv : v_recv v' = v_recv v;
  sl_noend : v_noend v' = v_noend v;
  sl_empty : v_empty v' = v_empty v;
  sl_fbit : v_fbit v' = v_fbit v;
  sl_misc : v_misc v' = v_misc v
}.

Lemma alter_lookup (f : ipcv -> ipcv) (V : views) n m :
  alter f n V !! m = if decide (m = n) then f <$> V !! m else V !! m.
Proof.
  case_decide as E; [subst; by rewrite lookup_alter_eq|]. by rewrite lookup_alter_ne.
Qed.

Lemma append_q_lookup V dst c l m :
  match V !! m, append_q V dst c l !! m with
  | Some v, Some v' => same_but_links v v'
  | None, None => True
  | _, _ => False
  end.
Proof.
  unfold append_q. destruct (last l) as [t|]; rewrite alter_lookup; case_decide; destruct (V !! m); by try split.
Qed.

Lemma append_q_live V dst c l m v' :
  live (append_q V dst c l) m v' -> exists v, live V m v /\ same_but_links v v'.
Proof.
  intros (Hn & Hv & He). pose proof (append_q_lookup V dst c l m) as H. rewrite Hv in H.
  destruct (V !! m) as [v|] eqn:E; [|done]. exists v. split; [|done].
  split_and!; [done..|]. by rewrite <- (sl_empty _ _ H).
Qed.

Lemma append_q_live_r V dst c l m v :
  live V m v -> exists v', live (append_q V dst c l) m v' /\ same_but_links v v'.
Proof.
  intros (Hn & Hv & He). pose proof (append_q_lookup V dst c l m) as H. rewrite Hv in H.
  destruct (append_q V dst c l !! m) as [v'|] eqn:E; [|done]. exists v'. split; [|done].
  split_and!; [done..|]. by rewrite (sl_empty _ _ H).
Qed.

(** The links after an append. *)
Lemma append_q_qlink V dst c l n :
  qlink V c = None -> (forall t, last l = Some t -> is_Some (V !! t) /\ t <> c) ->
  qlink (append_q V dst c l) n =
  match last l with None => qlink V n | Some t => upd (upd (qlink V) t (Some c)) c None n end.
Proof.
  intros Hc Ht. unfold append_q, qlink in *. destruct (last l) as [t|]; rewrite alter_lookup.
  - destruct (Ht t eq_refl) as [[w Hw] Hne]. unfold upd. case_decide as E.
    + subst n. rewrite Hw. cbn. rewrite (proj2 (Z.eqb_neq t c) Hne). by rewrite Z.eqb_refl.
    + destruct (Z.eqb_spec n c) as [->|]; [done|]. by rewrite (proj2 (Z.eqb_neq n t) E).
  - case_decide; [|done]. by destruct (V !! n).
Qed.

Section Block.
Context (V : views) (C : Z -> list Z) (c dst : Z) (vc vc' vd : ipcv) (ld : list Z).
Context (HL : links V) (HC : queues_ok V C).
Context (Hep : forall n v, live V n v -> ENDPOINT_P (v_ep v) = n).
Context (Hlc : live V c vc) (Hsend : v_send vc = None) (Hrecv : v_recv vc = None) (Hnoc : v_noend vc = false) (Hc0 : 0 <= c).
Context (Hld : live V dst vd) (Hnod : v_noend vd = false) (Hne : c <> dst).
Context (Hch : chain (blk V) (Some dst) ld) (Hav : c ∉ ld).
(** The sender after it is marked blocked. *)
Context (K1 : v_nr vc' = v_nr vc) (K2 : v_ep vc' = v_ep vc) (K3 : v_priv vc' = v_priv vc)
  (K4 : v_cq vc' = v_cq vc) (K5 : v_link vc' = v_link vc) (K6 : v_send vc' = Some (v_ep vd))
  (K7 : v_recv vc' = None) (K8 : v_noend vc' = v_noend vc) (K9 : v_empty vc' = v_empty vc).
Let V1 := <[c := vc']> V.
Let V2 := append_q V1 dst c (C dst).

Lemma V1_lookup m : V1 !! m = if decide (m = c) then Some vc' else V !! m.
Proof.
  unfold V1. case_decide as E; [subst; apply lookup_insert_eq|]. by rewrite lookup_insert_ne.
Qed.

Lemma V1_live m w1 :
  live V1 m w1 -> exists w, live V m w /\ v_ep w1 = v_ep w /\ v_cq w1 = v_cq w /\ v_link w1 = v_link w
    /\ v_noend w1 = v_noend w /\ (m <> c -> w1 = w) /\ (m = c -> w1 = vc').
Proof.
  intros (Hn & Hv & He). rewrite V1_lookup in Hv. case_decide as E.
  - injection Hv as <-. subst m. exists vc. by split_and!.
  - exists w1. by split_and!.
Qed.

Lemma V1_live_r m w : live V m w -> exists w1, live V1 m w1 /\ v_ep w1 = v_ep w /\ v_noend w1 = v_noend w
  /\ (m <> c -> w1 = w).
Proof.
  intros Hw. destruct (decide (m = c)) as [->|Hmc].
  - exists vc'. assert (w = vc) as -> by (destruct Hw as (_ & ? & _), Hlc as (_ & ? & _); congruence).
    split_and!; [|done..]. split_and!; [apply Hlc|rewrite V1_lookup; by rewrite decide_True|].
    rewrite K9. apply Hlc.
  - exists w. split_and!; [|done..]. split_and!; [apply Hw|rewrite V1_lookup|apply Hw].
    rewrite decide_False by done. apply Hw.
Qed.

Lemma Hlink : v_link vc = None.
Proof. by apply (l_link _ HL c). Qed.

Lemma V1_qlink n : qlink V1 n = qlink V n.
Proof.
  unfold qlink. rewrite V1_lookup. case_decide as E; [|done]. subst n.
  rewrite (proj1 (proj2 Hlc)). congruence.
Qed.

Lemma qlink_c : qlink V1 c = None.
Proof. rewrite V1_qlink. unfold qlink. rewrite (proj1 (proj2 Hlc)). exact Hlink. Qed.

Lemma c_fresh n v : live V n v -> c ∉ C n.
Proof.
  intros Hn Hin. apply (HC n v Hn) in Hin as (w & Hw & E).
  assert (w = vc) as -> by (destruct Hw as (_ & ? & _), Hlc as (_ & ? & _); congruence). congruence.
Qed.

Lemma last_ok t : last (C dst) = Some t -> is_Some (V1 !! t) /\ t <> c.
Proof.
  intros Ht. assert (t ∈ C dst) as Hin by (apply last_Some in Ht as (? & ->); set_solver).
  split; [|intros ->; by apply (c_fresh dst vd Hld)].
  apply (HC dst vd Hld) in Hin as (w & (_ & Hw & _) & _). rewrite V1_lookup.
  case_decide; by eexists.
Qed.

Lemma same_target n n' v v' m : live V n v -> live V n' v' -> m ∈ C n -> m ∈ C n' -> n = n'.
Proof.
  intros Hv Hv' H1 H2. apply (HC n v Hv) in H1 as (w & Hw & E). apply (HC n' v' Hv') in H2 as (w' & Hw' & E').
  destruct Hw as (_ & Hw & _), Hw' as (_ & Hw' & _). rewrite Hw in Hw'. injection Hw' as <-.
  rewrite E in E'. injection E' as E'. rewrite <- (Hep n v Hv), <- (Hep n' v' Hv'). congruence.
Qed.

Definition C2 (n : Z) : list Z := if n =? dst then C dst ++ [c] else C n.

Lemma block_chain n v2 : live V2 n v2 -> chain (qlink V2) (v_cq v2) (C2 n).
Proof.
  intros Hv2. pose proof (fun n => append_q_qlink V1 dst c (C dst) n qlink_c last_ok) as HQ.
  destruct (append_q_live _ _ _ _ _ _ Hv2) as (v1 & Hv1 & _).
  destruct (V1_live n v1 Hv1) as (v & Hv & _ & Ecq & _). destruct (HC n v Hv) as [Hcn _].
  assert (v_cq v2 = if (n =? dst) && bool_decide (last (C dst) = None) then Some c else v_cq v) as ->.
  { destruct Hv2 as (_ & Hv2 & _). unfold V2, append_q in Hv2. destruct (last (C dst)) as [t|];
      rewrite alter_lookup, (proj1 (proj2 Hv1)) in Hv2; cbn in Hv2; rewrite andb_comm; cbn.
    - case_decide; injection Hv2 as <-; exact Ecq.
    - case_decide as E; injection Hv2 as <-.
      + subst n. by rewrite Z.eqb_refl.
      + by rewrite (proj2 (Z.eqb_neq _ _) E). }
  unfold C2. destruct (Z.eqb_spec n dst) as [->|Hnd]; cbn [andb].
  - assert (v = vd) as -> by (destruct Hv as (_ & ? & _), Hld as (_ & ? & _); congruence).
    destruct (last (C dst)) as [t|] eqn:Ht.
    + rewrite bool_decide_eq_false_2 by done.
      eapply chain_ext; [|apply (chain_snoc (qlink V) (v_cq vd) (C dst) t c Hcn Ht)].
      * intros x _. unfold V2. rewrite HQ. unfold upd. by rewrite V1_qlink.
      * by apply (c_fresh dst vd).
    + rewrite bool_decide_eq_true_2 by done. apply last_None in Ht. rewrite Ht.
      split; [done|]. unfold V2. rewrite HQ. exact qlink_c.
  - eapply chain_ext; [|exact Hcn]. intros x Hx. unfold V2. rewrite HQ.
    destruct (last (C dst)) as [t|] eqn:Ht; [|apply V1_qlink].
    assert (x <> c) by (intros ->; by apply (c_fresh n v Hv)).
    assert (x <> t).
    { intros ->. apply Hnd. eapply (same_target n dst v vd t); try done.
      apply last_Some in Ht as (? & ->). set_solver. }
    by rewrite !upd_other, V1_qlink by done.
Qed.

Lemma V2_live n v2 : live V2 n v2 -> exists v, live V n v /\ v_ep v2 = v_ep v
  /\ v_noend v2 = v_noend v
  /\ (n <> c -> v_send v2 = v_send v /\ v_recv v2 = v_recv v)
  /\ (n = c -> v_send v2 = Some (v_ep vd) /\ v_recv v2 = None).
Proof.
  intros Hv2. destruct (append_q_live _ _ _ _ _ _ Hv2) as (v1 & Hv1 & S).
  destruct (V1_live n v1 Hv1) as (v & Hv & E & _ & _ & En & H1 & H2). exists v.
  rewrite (sl_ep _ _ S), (sl_noend _ _ S), (sl_send _ _ S), (sl_recv _ _ S). split_and!; try done.
  - intros Hn. by rewrite H1.
  - intros Hn. by rewrite H2.
Qed.

Lemma V2_live_r n v : live V n v -> exists v2, live V2 n v2 /\ v_ep v2 = v_ep v /\ v_noend v2 = v_noend v
  /\ (n <> c -> v_send v2 = v_send v) /\ (n = c -> v_send v2 = Some (v_ep vd)).
Proof.
  intros Hv. destruct (V1_live_r n v Hv) as (v1 & Hv1 & E & En & H1).
  destruct (append_q_live_r V1 dst c (C dst) n v1 Hv1) as (v2 & Hv2 & S). exists v2.
  rewrite (sl_ep _ _ S), (sl_noend _ _ S), (sl_send _ _ S). split_and!; try done.
  - intros Hn. by rewrite H1.
  - intros ->. destruct Hv1 as (_ & Hv1 & _). rewrite V1_lookup, decide_True in Hv1 by done. by injection Hv1 as <-.
Qed.

Lemma block_members n v2 :
  live V2 n v2 -> forall m, m ∈ C2 n <-> exists w, live V2 m w /\ v_send w = Some (v_ep v2).
Proof.
  intros Hv2 m. destruct (V2_live n v2 Hv2) as (v & Hv & -> & _). destruct (HC n v Hv) as [_ Hm].
  assert (m ∈ C2 n <-> m ∈ C n \/ (m = c /\ n = dst)) as ->.
  { unfold C2. destruct (Z.eqb_spec n dst) as [->|]; [|naive_solver].
    rewrite elem_of_app, list_elem_of_singleton. naive_solver. }
  rewrite (Hm m). split.
  - intros [(w & Hw & E)|[-> ->]].
    + assert (m <> c) as Hmc.
      { intros ->. destruct Hw as (_ & Hw & _), Hlc as (_ & Hl & _). congruence. }
      destruct (V2_live_r m w Hw) as (w2 & Hw2 & _ & _ & H & _). exists w2. by rewrite H.
    + assert (v = vd) as -> by (destruct Hv as (_ & ? & _), Hld as (_ & ? & _); congruence).
      destruct (V2_live_r c vc Hlc) as (w2 & Hw2 & _ & _ & _ & H). exists w2. by rewrite H.
  - intros (w2 & Hw2 & E). destruct (V2_live m w2 Hw2) as (w & Hw & _ & _ & H1 & H2).
    destruct (decide (m = c)) as [->|Hmc].
    + right. split; [done|]. destruct (H2 eq_refl) as [H2' _]. rewrite E in H2'. injection H2' as E'.
      rewrite <- (Hep n v Hv), <- (Hep dst vd Hld). congruence.
    + left. exists w. destruct (H1 Hmc) as [H1' _]. by rewrite <- H1'.
Qed.

Lemma block_link n v2 : live V2 n v2 -> v_send v2 = None -> v_link v2 = None.
Proof.
  intros Hv2 Hs. destruct (V2_live n v2 Hv2) as (v & Hv & _ & _ & H1 & H2).
  destruct (decide (n = c)) as [->|Hnc]; [destruct (H2 eq_refl); congruence|].
  pose proof (append_q_qlink V1 dst c (C dst) n qlink_c last_ok) as HQ.
  unfold qlink at 1 in HQ. fold V2 in HQ. rewrite (proj1 (proj2 Hv2)) in HQ. rewrite HQ.
  assert (qlink V1 n = None) as HN.
  { rewrite V1_qlink. unfold qlink. rewrite (proj1 (proj2 Hv)). apply (l_link _ HL n v Hv).
    destruct (H1 Hnc) as [<- _]. done. }
  destruct (last (C dst)) as [t|] eqn:Ht; [|done]. rewrite !upd_other; [done| |done].
  intros ->. assert (t ∈ C dst) as Hin by (apply last_Some in Ht as (? & ->); set_solver).
  apply (HC dst vd Hld) in Hin as (w & (_ & Hw & _) & E). destruct (H1 Hnc) as [E1 _].
  destruct Hv as (_ & Hv & _). congruence.
Qed.

Lemma V2_waits e b : waits_for V e b -> waits_for V2 e b.
Proof.
  intros (m & w & Hw & E & Hb). destruct (V2_live_r m w Hw) as (w2 & Hw2 & E2 & En & _).
  exists m, w2. rewrite E2, En. done.
Qed.

Lemma V2_blk n : blk V2 n = upd (blk V) c (Some dst) n.
Proof.
  assert (blk V2 n = blk V1 n) as ->.
  { pose proof (append_q_lookup V1 dst c (C dst) n) as H. unfold blk, v_blocked. fold V2 in H.
    destruct (V1 !! n), (V2 !! n); try done. by rewrite (sl_send _ _ H), (sl_recv _ _ H). }
  unfold upd, blk at 1. rewrite V1_lookup. case_decide as E.
  - subst n. rewrite Z.eqb_refl. unfold v_blocked. rewrite K6.
    assert (isokprocn (ENDPOINT_P (v_ep vd)) = true) as Hok by (rewrite (Hep dst vd Hld); apply Hld).
    destruct (Z.eqb_spec (v_ep vd) ANY) as [E|_]; [rewrite E in Hok; by vm_compute in Hok|].
    destruct (Z.eqb_spec (v_ep vd) NONE) as [E|_]; [rewrite E in Hok; by vm_compute in Hok|].
    cbn. f_equal. by apply Hep.
  - by rewrite (proj2 (Z.eqb_neq _ _) E).
Qed.

Lemma links_block : links V2.
Proof.
  split.
  - exists C2. intros n v2 Hv2. split; [by apply block_chain|by apply block_members].
  - exact block_link.
  - intros n v2 e Hv2 Hs. apply V2_waits. destruct (V2_live n v2 Hv2) as (v & Hv & _ & _ & H1 & H2).
    destruct (decide (n = c)) as [->|Hnc].
    + destruct (H2 eq_refl) as [E _]. rewrite Hs in E. injection E as ->. by exists dst, vd.
    + destruct (H1 Hnc) as [E _]. apply (l_send _ HL n v); [done|congruence].
  - intros n v2 e Hv2 Hr. destruct (V2_live n v2 Hv2) as (v & Hv & _ & _ & H1 & H2).
    destruct (decide (n = c)) as [->|Hnc]; [destruct (H2 eq_refl); congruence|].
    destruct (H1 Hnc) as [_ E]. rewrite Hr in E.
    destruct (l_recv _ HL n v e Hv (eq_sym E)) as [?|?]; [by left|right]. by apply V2_waits.
  - intros n v2 e e' Hv2 Hs Hr. destruct (V2_live n v2 Hv2) as (v & Hv & _ & _ & H1 & H2).
    destruct (decide (n = c)) as [->|Hnc]; [destruct (H2 eq_refl); congruence|].
    destruct (H1 Hnc) as [E1 E2]. apply (l_both _ HL n v); congruence.
  - intros n v2 Hv2 Hs. destruct (V2_live n v2 Hv2) as (v & Hv & _ & En & H1 & H2).
    destruct (decide (n = c)) as [->|Hnc].
    + assert (v = vc) as -> by (destruct Hv as (_ & ? & _), Hlc as (_ & ? & _); congruence). congruence.
    + destruct (H1 Hnc) as [-> _]. apply (l_noend _ HL n v Hv). congruence.
  - intros n v2 e Hv2 Hs. destruct (V2_live n v2 Hv2) as (v & Hv & _ & _ & H1 & _).
    destruct (decide (n = c)) as [->|Hnc]; [done|].
    destruct (H1 Hnc) as [E _]. apply (l_task _ HL n v e Hv). congruence.
  - intros n v2 Hv2. destruct (V2_live n v2 Hv2) as (v & Hv & _).
    destruct (l_acyc _ HL n v Hv) as [l Hl].
    destruct (chain_add_link _ c dst ld _ _ Hch Hav Hl) as [l' Hl'].
    exists l'. eapply chain_ext; [|exact Hl']. intros x _. apply V2_blk.
Qed.
End Block.

(** ** Running the append *)

Lemma alter_as_insert (f : ipcv -> ipcv) (V : views) n v : V !! n = Some v -> alter f n V = <[n := f v]> V.
Proof.
  intros Hv. apply map_eq. intros m. rewrite alter_lookup. case_decide as E.
  - subst. by rewrite Hv, lookup_insert_eq.
  - by rewrite lookup_insert_ne.
Qed.

Lemma read_cq_link s x v : view s !! x = Some v -> read_cq (CqLink x) s = Done (v_link v) s.
Proof.
  intros Hv. destruct (view_lookup_inv _ _ _ Hv) as (p & Hp & <-). unfold read_cq.
  by erewrite bind_get_proc by done.
Qed.
Lemma read_cq_head s x v : view s !! x = Some v -> read_cq (CqHead x) s = Done (v_cq v) s.
Proof.
  intros Hv. destruct (view_lookup_inv _ _ _ Hv) as (p & Hp & <-). unfold read_cq.
  by erewrite bind_get_proc by done.
Qed.

Lemma write_link_step s x v y :
  base s -> view s !! x = Some v ->
  exists s', write_cq (CqLink x) y s = Done tt s' /\ goes s s' (<[x := set_v_link y v]> (view s)) (privs s).
Proof. intros Hb Hv. by apply (v_upd s x v). Qed.
Lemma write_head_step s x v y :
  base s -> view s !! x = Some v ->
  exists s', write_cq (CqHead x) y s = Done tt s' /\ goes s s' (<[x := set_v_cq y v]> (view s)) (privs s).
Proof. intros Hb Hv. by apply (v_upd s x v). Qed.

Lemma last_cons_default (l : list Z) x y : List.last (y :: l) x = List.last l y.
Proof.
  revert x y. induction l as [|z l IH]; intros x y; [done|].
  change (List.last (z :: l) x = List.last (z :: l) y). by rewrite !IH.
Qed.

Lemma last_default (l : list Z) x : last (x :: l) = Some (List.last l x).
Proof.
  revert x. induction l as [|y l IH]; intros x; [done|].
  change (last (y :: l) = Some (List.last (y :: l) x)). by rewrite IH, last_cons_default.
Qed.

Lemma cq_append_link s c x suf fuel :
  base s -> (forall y, y ∈ x :: suf -> is_Some (view s !! y)) ->
  chain (qlink (view s)) (qlink (view s) x) suf -> (length suf < fuel)%nat ->
  exists s', cq_append fuel c (CqLink x) s = Done tt s'
    /\ goes s s' (alter (set_v_link (Some c)) (List.last suf x) (view s)) (privs s).
Proof.
  intros Hb. revert x fuel. induction suf as [|y suf IH]; intros x fuel Hin Hch Hfuel;
    (destruct fuel as [|fuel]; [lia|]); cbn [cq_append];
    (destruct (Hin x) as [v Hv]; [set_solver|]); rewrite (bind_done _ _ _ _ _ (read_cq_link s x v Hv));
    unfold qlink in Hch at 2; rewrite Hv in Hch.
  - change (v_link v = None) in Hch. rewrite Hch. cbn [List.last].
    destruct (write_link_step s x v (Some c) Hb Hv) as (s' & E & HG). exists s'.
    split; [done|]. by rewrite (alter_as_insert _ _ _ v Hv).
  - destruct Hch as [-> Hch]. destruct (IH y fuel) as (s' & E & HG); [set_solver|exact Hch|cbn in Hfuel; lia|].
    exists s'. split; [done|]. by rewrite last_cons_default.
Qed.

Lemma cq_append_spec s c dst vd l :
  base s -> view s !! dst = Some vd -> chain (qlink (view s)) (v_cq vd) l ->
  (forall y, y ∈ l -> is_Some (view s !! y)) -> (length l <= table_size)%nat ->
  exists s', cq_append cq_fuel c (CqHead dst) s = Done tt s'
    /\ goes s s' (append_q (view s) dst c l) (privs s).
Proof.
  intros Hb Hv Hch Hin Hlen. unfold cq_fuel. fold table_size. cbn [cq_append].
  rewrite (bind_done _ _ _ _ _ (read_cq_head s dst vd Hv)). unfold append_q.
  destruct l as [|x l].
  - change (v_cq vd = None) in Hch. rewrite Hch. cbn [last].
    destruct (write_head_step s dst vd (Some c) Hb Hv) as (s' & E & HG). exists s'.
    split; [done|]. by rewrite (alter_as_insert _ _ _ vd Hv).
  - destruct Hch as [-> Hch]. rewrite last_default.
    destruct (cq_append_link s c x l table_size) as (s' & E & HG); [done|done|done| |].
    + cbn in Hlen. lia.
    + by exists s'.
Qed.

(** ** [mini_send] *)

(** The full invariant of message passing without IPC filters. *)
Record ipc_ok (s : kstate) : Prop := {
  ok_wf : wf s;
  ok_nf : no_filters (privs s);
  ok_mgr : mgr_ok (view s) (privs s)
}.

Lemma ipc_ok_ready s : ipc_ok s -> ready s.
Proof. intros [[] ? ?]. by split. Qed.

Definition ipc_okb (s : kstate) : bool :=
  wfb s && no_filtersb (privs s) && mgr_okb (view s) (privs s).
Lemma ipc_okb_sound s : ipc_okb s = true -> ipc_ok s.
Proof.
  unfold ipc_okb. rewrite !andb_true_iff. intros [[A B] C].
  split; [by apply wfb_sound|by apply no_filtersb_sound|by apply mgr_okb_sound].
Qed.

(** The message a sender hands over, [None] when it cannot be read. *)
Definition fetched (s : kstate) (e : Z) (m_ptr : msg_ptr) (flags : Z) : option message :=
  if has flags FROM_KERNEL then ptr_kernel m_ptr else user_msg s e (ptr_addr m_ptr).

Definition send_call (vc : ipcv) (flags : Z) : Z :=
  if has (v_misc vc) MF_REPLY_PEND then SENDREC else if has flags NON_BLOCKING then SENDNB else SEND.

(** The receiver after it got the message. *)
Definition v_got (m : message) (src call : Z) (kern : bool) (v : ipcv) : ipcv :=
  set_v_recv None (v_no_reply (v_status_add (IPC_STATUS_CALL_TO call) (v_deliver m src
    (if kern then v_status_add (IPC_STATUS_FLAGS IPC_FLG_MSG_FROM_KERNEL) v else v)))).

Definition block_misc (flags misc : Z) : Z :=
  if has flags FROM_KERNEL then flag_set misc MF_SENDING_FROM_KERNEL else misc.

(** The possible ends of [mini_send] from [caller] to [dst]. *)
Inductive sent (s : kstate) (caller dst : Z) (vc vd : ipcv) (om : option message) (flags : Z)
  : Z -> kstate -> Prop :=
| sent_dead : v_noend vd = true -> sent s caller dst vc vd om flags EDEADSRCDST s
| sent_fault : om = None -> sent s caller dst vc vd om flags EFAULT s
| sent_delivered m s' :
    v_noend vd = false -> will vd (v_ep vc) = true -> om = Some m ->
    goes s s' (<[dst := v_got m (v_ep vc) (send_call vc flags) (has flags FROM_KERNEL) vd]> (view s)) (privs s) ->
    sent s caller dst vc vd om flags OK s'
| sent_notready :
    will vd (v_ep vc) = false -> has flags NON_BLOCKING = true -> sent s caller dst vc vd om flags ENOTREADY s
| sent_locked l :
    will vd (v_ep vc) = false -> chain (blk (view s)) (Some dst) l ->
    closes (view s) SEND (v_ep vc) dst l -> sent s caller dst vc vd om flags ELOCKED s
| sent_queued m l q s' :
    v_noend vd = false -> will vd (v_ep vc) = false -> has flags NON_BLOCKING = false -> om = Some m ->
    chain (blk (view s)) (Some dst) l -> ~ closes (view s) SEND (v_ep vc) dst l ->
    chain (qlink (view s)) (v_cq vd) q ->
    goes s s' (append_q (<[caller := v_block (v_ep vd) m (block_misc flags (v_misc vc)) vc]> (view s))
                 dst caller q) (privs s) ->
    sent s caller dst vc vd om flags OK s'.

Lemma fetch_msg_spec s e m_ptr flags :
  (has flags FROM_KERNEL = true -> is_Some (ptr_kernel m_ptr)) ->
  fetch_msg e m_ptr flags s = Done (fetched s e m_ptr flags) s.
Proof.
  intros H. unfold fetch_msg, fetched. destruct (has flags FROM_KERNEL); cbn [negb]; [|done].
  by destruct (H eq_refl) as [m ->].
Qed.

Section Send.
Context (s : kstate) (caller dst : Z) (vc vd : ipcv) (m_ptr : msg_ptr) (flags : Z).
Context (Hok : ipc_ok s) (Hlc : live (view s) caller vc) (Hld : live (view s) dst vd).
Context (Hne : caller <> dst).
Context (Hker : has flags FROM_KERNEL = true -> is_Some (ptr_kernel m_ptr)).
Let om := fetched s (v_ep vc) m_ptr flags.

Lemma send_deliver_run :
  v_noend vd = false -> will vd (v_ep vc) = true ->
  exists r s', mini_send_deliver caller dst m_ptr flags s = Done r s' /\ sent s caller dst vc vd om flags r s'.
Proof.
  intros Hnd Hw. pose proof Hok as [[Hb Hc Hl] Hnf Hm]. unfold mini_send_deliver.
  destruct (live_proc_of s caller vc Hlc) as (c & Hcp & Ec).
  destruct (live_proc_of s dst vd Hld) as (d & Hd & Ed).
  erewrite bind_get_proc by done. erewrite bind_get_proc by done.
  rewrite bind_assert.
  2:{ assert (has (v_misc vd) MF_DELIVERMSG = false) as Hdl.
      { apply (c_dlv _ _ Hc dst vd Hld). unfold will in Hw.
        destruct (v_send vd); [done|]. by destruct (v_recv vd). }
      rewrite <- Ed in Hdl. exact (f_equal negb Hdl). }
  rewrite (f_equal v_ep Ec : p_endpoint c = v_ep vc).
  rewrite (bind_done _ _ _ _ _ (fetch_msg_spec s (v_ep vc) m_ptr flags Hker)). fold om.
  destruct om as [m|] eqn:Eom; [|exists EFAULT, s; split; [done|by apply sent_fault]].
  destruct (c_ep _ _ Hc dst vd Hld) as (_ & Hfb & _).
  pose proof (goes_start s dst vd (privs s) Hb (proj1 (proj2 Hld)) eq_refl) as G0.
  set (vd1 := if has flags FROM_KERNEL then v_status_add (IPC_STATUS_FLAGS IPC_FLG_MSG_FROM_KERNEL) vd else vd).
  assert (v_fbit vd1 = false) as Hfb1.
  { unfold vd1, v_status_add. by destruct (has flags FROM_KERNEL), (has (v_misc vd) MF_REPLY_PEND). }
  assert (base s -> view s !! dst = Some vd -> exists s1,
    (if has flags FROM_KERNEL then IPC_STATUS_ADD_FLAGS dst IPC_FLG_MSG_FROM_KERNEL else ret tt) s = Done tt s1
    /\ goes s s1 (<[dst := vd1]> (view s)) (privs s)) as H1.
  { intros ? ?. unfold vd1. destruct (has flags FROM_KERNEL); [by apply v_status_step|by exists s]. }
  vstep s s dst vd1 G0 H1 s1 G1.
  vstep s s1 dst (v_deliver m (v_ep vc) vd1) G1 (v_deliver_step s1 dst vd1 m (v_ep vc)) s2 G2.
  assert (view s2 !! caller = Some vc) as Hc2.
  { rewrite (goes_lookup_ne _ _ _ _ _ _ caller G2) by done. apply Hlc. }
  destruct (view_lookup_inv _ _ _ Hc2) as (c2 & Hcp2 & Ec2). erewrite bind_get_proc by done.
  rewrite (f_equal v_misc Ec2 : p_misc_flags c2 = v_misc vc). fold (send_call vc flags).
  set (vd2 := v_status_add (IPC_STATUS_CALL_TO (send_call vc flags)) (v_deliver m (v_ep vc) vd1)).
  vstep s s2 dst vd2 G2 (v_status_step s2 dst (v_deliver m (v_ep vc) vd1) (IPC_STATUS_CALL_TO (send_call vc flags))) s3 G3.
  vstep s s3 dst (v_no_reply vd2) G3 (v_no_reply_step s3 dst vd2) s4 G4.
  assert (v_fbit (v_no_reply vd2) = false) as Hfb2.
  { change (v_fbit vd2 = false). unfold vd2. by rewrite v_wake_fbit. }
  vstep s s4 dst (set_v_recv None (v_no_reply vd2)) G4
    (v_unset_recv_step s4 dst (v_no_reply vd2) Hfb2) s5 G5.
  exists OK, s5. split; [done|]. by eapply sent_delivered.
Qed.

(** The caller is marked blocked and holds its message. *)
Lemma send_mark_run m :
  exists s1, goes s s1 (<[caller := v_block (v_ep vd) m (block_misc flags (v_misc vc)) vc]> (view s)) (privs s)
    /\ forall k : K Z,
    (upd_proc caller (set_p_sendmsg m) ;;
     (if has flags FROM_KERNEL
      then upd_proc caller (fun c => set_p_misc_flags (flag_set (p_misc_flags c) MF_SENDING_FROM_KERNEL) c)
      else ret tt) ;;
     RTS_SET caller RTS_SENDING ;; upd_proc caller (set_p_sendto_e (v_ep vd)) ;; k) s = k s1.
Proof.
  pose proof Hok as [[Hb Hc Hl] Hnf Hm]. destruct (c_ep _ _ Hc caller vc Hlc) as (_ & Hfb & _).
  pose proof (goes_start s caller vc (privs s) Hb (proj1 (proj2 Hlc)) eq_refl) as G0.
  destruct (v_upd s caller vc (set_p_sendmsg m) (set_v_smsg m) Hb (proj1 (proj2 Hlc))) as (s1 & E1 & G1); try done.
  set (v1 := set_v_smsg m vc) in *. set (v2 := set_v_misc (block_misc flags (v_misc vc)) v1).
  assert (exists s2, (if has flags FROM_KERNEL
      then upd_proc caller (fun c => set_p_misc_flags (flag_set (p_misc_flags c) MF_SENDING_FROM_KERNEL) c)
      else ret tt) s1 = Done tt s2 /\ goes s s2 (<[caller := v2]> (view s)) (privs s)) as (s2 & E2 & G2).
  { unfold v2, block_misc. destruct (has flags FROM_KERNEL).
    - destruct (v_upd s1 caller v1 (fun c => set_p_misc_flags (flag_set (p_misc_flags c) MF_SENDING_FROM_KERNEL) c)
        (fun v => set_v_misc (flag_set (v_misc v) MF_SENDING_FROM_KERNEL) v) (g_base _ _ _ _ G1) (goes_lookup _ _ _ _ _ _ G1))
        as (s2 & E2 & G2); try done.
      exists s2. split; [done|]. rewrite (g_view _ _ _ _ G1), (g_privs _ _ _ _ G1), insert_insert_eq in G2.
      by eapply goes_trans.
    - exists s1. split; [done|]. replace (set_v_misc (v_misc vc) v1) with v1 by (by destruct vc). done. }
  destruct (v_set_send_step s2 caller v2 Hfb (g_base _ _ _ _ G2) (goes_lookup _ _ _ _ _ _ G2)) as (s3 & e & E3 & G3).
  rewrite (g_view _ _ _ _ G2), (g_privs _ _ _ _ G2), insert_insert_eq in G3.
  destruct (v_sendto_step s3 caller v2 (v_ep vd) e (g_base _ _ _ _ G3) (goes_lookup _ _ _ _ _ _ G3)) as (s4 & E4 & G4).
  rewrite (g_view _ _ _ _ G3), (g_privs _ _ _ _ G3), insert_insert_eq in G4.
  exists s4. split; [eapply goes_trans; [exact G2|]; by eapply goes_trans|]. intros k.
  rewrite (bind_done _ _ _ _ _ E1), (bind_done _ _ _ _ _ E2), (bind_done _ _ _ _ _ E3), (bind_done _ _ _ _ _ E4). done.
Qed.

Lemma send_block_run :
  v_noend vd = false -> will vd (v_ep vc) = false -> v_send vc = None -> v_recv vc = None ->
  exists r s', mini_send_block caller dst (v_ep vd) m_ptr flags s = Done r s' /\ sent s caller dst vc vd om flags r s'.
Proof.
  intros Hnd Hw Hs Hr. pose proof Hok as [[Hb Hc Hl] Hnf Hm]. unfold mini_send_block.
  destruct (has flags NON_BLOCKING) eqn:Enb; [exists ENOTREADY, s; split; [done|by apply sent_notready]|].
  destruct (live_proc_of s caller vc Hlc) as (c & Hcp & Ec).
  destruct (deadlock_run s Hb Hc Hl SEND caller c dst vd (or_introl eq_refl) Hcp Hld) as (l & Hch & Ed).
  rewrite (bind_done _ _ _ _ _ Ed). rewrite (f_equal v_ep Ec : p_endpoint c = v_ep vc).
  pose proof (dl_closes (view s) SEND (v_ep vc) dst l (proj2 (live_ep s Hc caller vc Hlc)) Hch) as Hcl.
  destruct (Z.eqb_spec (dl (view s) SEND (v_ep vc) 1 l) 0) as [E0|E0]; cbn [negb].
  2:{ exists ELOCKED, s. split; [done|]. eapply sent_locked; [done..|]. by apply Hcl. }
  erewrite bind_get_proc by done. rewrite (f_equal v_ep Ec : p_endpoint c = v_ep vc).
  rewrite (bind_done _ _ _ _ _ (fetch_msg_spec s (v_ep vc) m_ptr flags Hker)). fold om.
  destruct om as [m|] eqn:Eom; [|exists EFAULT, s; split; [done|by apply sent_fault]].
  destruct (send_mark_run m) as (s1 & G1 & Hrun). rewrite Hrun. clear Hrun.
  pose proof (goes_lookup _ _ _ _ _ _ G1) as Hv1.
  destruct (view_lookup_inv _ _ _ Hv1) as (c1 & Hc1 & Ec1). erewrite bind_get_proc by done.
  rewrite bind_assert.
  2:{ apply bool_decide_eq_true_2. rewrite (f_equal v_link Ec1 : p_q_link c1 = v_link vc). by apply (l_link _ Hl caller). }
  destruct (l_queue _ Hl) as [C HC]. destruct (HC dst vd Hld) as [Hq Hmem].
  destruct (cq_append_spec s1 caller dst vd (C dst)) as (s2 & E2 & G2).
  - apply G1.
  - rewrite (goes_lookup_ne _ _ _ _ _ _ dst G1) by done. apply Hld.
  - rewrite (g_view _ _ _ _ G1). eapply chain_ext; [|exact Hq]. intros x _. unfold qlink.
    destruct (Z.eq_dec x caller) as [->|]; [|by rewrite lookup_insert_ne].
    by rewrite lookup_insert_eq, (proj1 (proj2 Hlc)).
  - intros y (w & Hw' & _)%Hmem. rewrite (g_view _ _ _ _ G1).
    destruct (Z.eq_dec y caller) as [->|]; [rewrite lookup_insert_eq; by eexists|].
    rewrite lookup_insert_ne by done. exists w. apply Hw'.
  - apply table_length; [by eapply chain_NoDup|]. intros y (w & Hw' & _)%Hmem. apply Hw'.
  - rewrite (bind_done _ _ _ _ _ E2). exists OK, s2. split; [done|].
    rewrite (g_view _ _ _ _ G1), (g_privs _ _ _ _ G1) in G2.
    eapply sent_queued; [done|done|done|done|exact Hch| |exact Hq|by eapply goes_trans].
    intros Hcl'. by apply Hcl in Hcl'.
Qed.

Lemma mini_send_run :
  v_send vc = None -> v_recv vc = None ->
  exists r s', mini_send caller (v_ep vd) m_ptr flags s = Done r s' /\ sent s caller dst vc vd om flags r s'.
Proof.
  intros Hs Hr. pose proof Hok as [[Hb Hc Hl] Hnf Hm]. unfold mini_send.
  destruct (c_ep _ _ Hc dst vd Hld) as (Ep & _ & _). rewrite Ep.
  destruct (live_proc_of s dst vd Hld) as (d & Hd & Ed). erewrite bind_get_proc by done.
  unfold RTS_ISSET. rewrite isset_has by apply _. rewrite (f_equal v_noend Ed : has (p_rts_flags d) RTS_NO_ENDPOINT = v_noend vd).
  destruct (v_noend vd) eqn:En; [exists EDEADSRCDST, s; split; [done|by apply sent_dead]|].
  destruct (live_proc_of s caller vc Hlc) as (c & Hcp & Ec). erewrite bind_get_proc by done.
  rewrite (bind_done _ _ _ _ _ (WILLRECEIVE_nf s Hc Hnf (p_endpoint c) dst vd (FromUser (ptr_addr m_ptr)) Hld)).
  rewrite (f_equal v_ep Ec : p_endpoint c = v_ep vc).
  destruct (will vd (v_ep vc)) eqn:Ew; [by apply send_deliver_run|by apply send_block_run].
Qed.
End Send.

(** ** The invariant after a send *)

(** A chain that does not close leaves the caller out. *)
Lemma open_chain s caller dst vc vd l :
  wf s -> live (view s) caller vc -> live (view s) dst vd -> caller <> dst ->
  will vd (v_ep vc) = false -> chain (blk (view s)) (Some dst) l ->
  ~ closes (view s) SEND (v_ep vc) dst l -> caller ∉ l.
Proof.
  intros [Hb Hc Hl] Hlc Hld Hne Hw Hch Hcl Hin. apply Hcl.
  destruct (chain_pred _ _ _ caller Hch Hin) as (x & Hx & Ex); [congruence|].
  destruct (blk_chain_live s Hc Hl dst vd l x Hld Hch Hx) as [w Hw'].
  destruct (blk_live s Hc Hl x caller w Hw' Ex) as (wc & Hwc & Ec).
  assert (wc = vc) as -> by (destruct Hwc as (_ & ? & _), Hlc as (_ & ? & _); congruence).
  exists x, w. split_and!; [done|apply Hw'|done|]. intros [-> Ho].
  assert (w = vd) as -> by (destruct Hw' as (_ & ? & _), Hld as (_ & ? & _); congruence).
  unfold opposite in Ho. cbn in Ho. apply bool_decide_eq_true in Ho. unfold will in Hw.
  unfold v_blocked in Ec. rewrite Ho in *. destruct (v_recv vd) as [g|].
  - subst g. by rewrite Z.eqb_refl, orb_true_r in Hw.
  - by destruct (live_ep s Hc caller vc Hlc).
Qed.

Lemma v_got_keeps m src call kern v : keeps v (v_got m src call kern v).
Proof.
  unfold v_got, v_status_add, v_no_reply. destruct kern; repeat destruct (has _ MF_REPLY_PEND);
    split; try done; by right.
Qed.

Lemma append_q_idents V dst c l : idents V (append_q V dst c l).
Proof.
  intros n. pose proof (append_q_lookup V dst c l n) as H. destruct (V !! n), (append_q V dst c l !! n); try done.
  by destruct H; split.
Qed.

Lemma append_q_dlv V dst c l : dlv_ok V -> dlv_ok (append_q V dst c l).
Proof.
  intros H n v' Hl Hr. destruct (append_q_live _ _ _ _ _ _ Hl) as (v & Hv & Hs).
  rewrite (sl_misc _ _ Hs). apply (H n v Hv). by rewrite <- (sl_recv _ _ Hs).
Qed.

Lemma moved_ipc_ok s s' : ipc_ok s -> moved s s' -> ipc_ok s'.
Proof.
  intros [[Hb Hc Hl] Hnf Hm] [[Hb' Hc' Hnf' Hm'] HR HP Hat Hrest]. split; [|done|done].
  split; [done|done|]. by eapply links_relax.
Qed.

Lemma idents_ipc_ok s s' V' :
  ipc_ok s -> goes s s' V' (privs s) -> idents (view s) V' -> dlv_ok V' -> links V' -> ipc_ok s'.
Proof.
  intros [[Hb Hc Hl] Hnf Hm] [G1 G2 G3 G4] HI Hd HL. subst V'. split; rewrite ?G3; [|done|].
  - split; [done| |done]. rewrite G3. by eapply core_idents.
  - eapply mgr_relax; [done|apply prelax_refl|done].
Qed.

Lemma sent_ok s caller dst vc vd om flags r s' :
  ipc_ok s -> live (view s) caller vc -> live (view s) dst vd -> caller <> dst -> 0 <= caller ->
  v_send vc = None -> v_recv vc = None -> v_noend vc = false ->
  sent s caller dst vc vd om flags r s' -> ipc_ok s'.
Proof.
  intros Hok Hlc Hld Hne H0 Hs Hr Hnc Hsent. pose proof Hok as [[Hb Hc Hl] Hnf Hm].
  destruct Hsent as [| |m s' Hnd Hw Hm' HG| | |m l q s' Hnd Hw Hnb Hm' Hch Hcl Hq HG]; try done.
  - eapply moved_ipc_ok; [done|].
    eapply goes_moved; [by apply ipc_ok_ready|exact HG| | |apply prelax_refl].
    + eapply relax_insert; [apply Hld|apply v_got_keeps].
    + apply dlv_insert; [exact (c_dlv _ _ Hc)|by left].
  - destruct (l_queue _ Hl) as [C HC].
    assert (q = C dst) as -> by (destruct (HC dst vd Hld) as [Hq' _]; by eapply chain_det).
    eapply idents_ipc_ok; [done|exact HG| | |].
    + etrans; [|apply append_q_idents]. eapply idents_insert; [apply Hlc|by split].
    + apply append_q_dlv, dlv_insert; [exact (c_dlv _ _ Hc)|by left].
    + eapply links_block; try done.
      * intros n v Hn. by destruct (c_ep _ _ Hc n v Hn).
      * by apply (open_chain s caller dst vc vd l).
Qed.

(** C2: sending is total, exact and safe.  From a well-formed state without IPC
    filters, [mini_send] of a running process to another live process ends in
    one of its documented results: [EDEADSRCDST] to a process that is exiting,
    [EFAULT] when the message cannot be read, the message delivered to a
    receiver that waits for it, [ENOTREADY] or [ELOCKED] with nothing changed,
    or the caller blocked at the end of the queue of the receiver; and the
    invariant (queues, wait-for chains, run queues) holds afterwards. *)
Theorem mini_send_correct s caller dst vc vd m_ptr flags :
  ipc_ok s -> live (view s) caller vc -> live (view s) dst vd -> caller <> dst -> 0 <= caller ->
  v_send vc = None -> v_recv vc = None -> v_noend vc = false ->
  (has flags FROM_KERNEL = true -> is_Some (ptr_kernel m_ptr)) ->
  exists r s', mini_send caller (v_ep vd) m_ptr flags s = Done r s'
    /\ sent s caller dst vc vd (fetched s (v_ep vc) m_ptr flags) flags r s'
    /\ ipc_ok s'.
Proof.
  intros Hok Hlc Hld Hne H0 Hs Hr Hnc Hker.
  destruct (mini_send_run s caller dst vc vd m_ptr flags Hok Hlc Hld Hne Hker Hs Hr) as (r & s' & E & Hsent).
  exists r, s'. split_and!; [done..|]. exact (sent_ok s caller dst vc vd _ flags r s' Hok Hlc Hld Hne H0 Hs Hr Hnc Hsent).
Qed.

(** RS and three user processes; 11 has a message at address 4096, 12 waits
    for any message, and 13 is blocked sending to RS. *)
Definition ipc_example : kstate :=
  run_state (do_sync_ipc 12 RECEIVE ANY (mkPtr 0x2000 None) ;;
             do_sync_ipc 13 SEND RS_PROC_NR (mkPtr 0x1000 None))
    (set_umem (<[(ENDPOINT 1 11, 0x1000) := mkMsg 0 77 (M_raw [1; 2; 3])]>
              (<[(ENDPOINT 1 13, 0x1000) := mkMsg 0 78 (M_raw [4])]> ∅))
      (example [live_proc RS_PROC_NR 7 0 4; live_proc 11 16 0 7; live_proc 12 16 0 7; live_proc 13 16 0 7]
        [live_priv RS_PROC_NR 7 SRV_F; live_priv 11 16 USR_F] 11)).

Ltac by_ok := apply ipc_okb_sound; by_vm.

Lemma mini_send_correct_witness :
  exists r s', mini_send 11 (ENDPOINT 1 12) (mkPtr 0x1000 None) 0 ipc_example = Done r s'
    /\ sent ipc_example 11 12 (ipc_of (slot ipc_example 11)) (ipc_of (slot ipc_example 12))
         (fetched ipc_example (ENDPOINT 1 11) (mkPtr 0x1000 None) 0) 0 r s'
    /\ ipc_ok s'.
Proof.
  apply (mini_send_correct ipc_example 11 12 (ipc_of (slot ipc_example 11)) (ipc_of (slot ipc_example 12))
    (mkPtr 0x1000 None) 0); [by_ok|by_live|by_live|lia|lia|by_vm|by_vm|by_vm|intros H; discriminate H].
Defined.

(** ** A process that waits for itself *)

(** C21: a process that waits for itself hangs the kernel.  Once a live process
    waits to receive from its own endpoint, a state that [RECEIVE] on one's own
    endpoint reaches, every blocking send of any other live process to it makes
    [deadlock] follow the same process for ever, whatever the number of steps, so
    that [mini_send] never returns. *)
Theorem receive_from_self_hangs s n v caller vc m_ptr flags :
  ready s -> live (view s) n v -> v_send v = None -> v_recv v = Some (v_ep v) -> v_noend v = false ->
  live (view s) caller vc -> caller <> n -> has flags NON_BLOCKING = false ->
  (forall fuel g, deadlock_loop fuel SEND (v_ep vc) g (v_ep v) s = Stop NoFuel)
  /\ mini_send caller (v_ep v) m_ptr flags s = Stop NoFuel.
Proof.
  intros [Hb Hc Hnf Hm] Hv Hs Hr He Hvc Hne Hfl.
  assert (v_ep vc <> v_ep v) as Hep.
  { intros E. apply Hne. destruct (c_ep _ _ Hc n v Hv) as (<- & _), (c_ep _ _ Hc caller vc Hvc) as (<- & _). by rewrite E. }
  assert (forall fuel g, deadlock_loop fuel SEND (v_ep vc) g (v_ep v) s = Stop NoFuel) as Hspin.
  { intros fuel g. apply (deadlock_spins s n); try done. unfold v_blocked. by rewrite Hs, Hr. }
  split; [exact Hspin|]. unfold mini_send. destruct (c_ep _ _ Hc n v Hv) as (-> & _).
  destruct (live_proc_of s n v Hv) as (d & Hd & Ed). erewrite bind_get_proc by done.
  unfold RTS_ISSET. rewrite isset_has by apply _. rewrite (f_equal v_noend Ed : has (p_rts_flags d) RTS_NO_ENDPOINT = v_noend v), He.
  destruct (live_proc_of s caller vc Hvc) as (c & Hcp & Ec). erewrite bind_get_proc by done.
  rewrite (bind_done _ _ _ _ _ (WILLRECEIVE_nf s Hc Hnf (p_endpoint c) n v (FromUser (ptr_addr m_ptr)) Hv)).
  rewrite (f_equal v_ep Ec : p_endpoint c = v_ep vc). unfold will. rewrite Hs, Hr.
  destruct (live_ep s Hc n v Hv) as [HA _]. rewrite (proj2 (Z.eqb_neq _ _) HA), (proj2 (Z.eqb_neq (v_ep v) (v_ep vc))) by congruence.
  cbn [orb]. unfold mini_send_block, deadlock. rewrite Hfl, bind_assoc. erewrite bind_get_proc by done.
  rewrite (f_equal v_ep Ec : p_endpoint c = v_ep vc). unfold bind at 1. by rewrite Hspin.
Qed.

(** RS receives from itself, then 12 sends to it. *)
Lemma receive_from_self_hangs_witness :
  wf dl_example /\ do_sync_ipc RS_PROC_NR RECEIVE RS_PROC_NR (mkPtr 0x1000 None) dl_example = Done OK dl_self
  /\ mini_send 12 RS_PROC_NR (mkPtr 0x2000 None) 0 dl_self = Stop NoFuel.
Proof.
  split; [apply wfb_sound; by_vm|]. split.
  { unfold dl_self. apply (run_done (do_sync_ipc RS_PROC_NR RECEIVE RS_PROC_NR (mkPtr 0x1000 None)) dl_example OK). by_vm. }
  apply (receive_from_self_hangs dl_self RS_PROC_NR (ipc_of (slot dl_self RS_PROC_NR)) 12 (ipc_of (slot dl_self 12)) (mkPtr 0x2000 None) 0);
    [|by_live|by_vm|by_vm|by_vm|by_live|discriminate|by_vm].
  destruct dl_self_base as [Hb Hc]. split; [exact Hb|exact Hc|..].
  - apply no_filtersb_sound. by_vm.
  - apply mgr_okb_sound. by_vm.
Defined.
