(* ===== verification/IpcRecv.v ===== *)
(** * Receiving

    [mini_receive] takes the first message it can: a pending notification, a
    pending asynchronous message, or the message of the first acceptable
    process of the caller queue, which is released; otherwise it blocks.  The
    invariant of [IpcInv] holds again afterwards. *)

From S2P Require Import Prelude Monad Timers Endpoint Chain Kernel Sched RunQueue Init SchedProps Ipc IpcInv Deadlock IpcStep Notify IpcSend.

(** ** Releasing a sender, on views *)

(** Where the pointer to the released process is. *)
Definition put_cq (x : cq_loc) (y : option Z) (V : views) : views :=
  match x with
  | CqHead n => alter (set_v_cq y) n V
  | CqLink n => alter (set_v_link y) n V
  end.

(** [x] leaves the queue: [loc] points to its successor. *)
Definition unqueue (V : views) (loc : cq_loc) (x : Z) : views :=
  alter (set_v_link None) x (put_cq loc (qlink V x) V).
Definition release (V : views) (loc : cq_loc) (x : Z) : views :=
  unqueue (alter (set_v_send None) x V) loc x.

(** The location that points to [x] in the queue [l1 ++ x :: l2] of [n]. *)
Definition loc_of (n : Z) (l1 : list Z) : cq_loc :=
  match last l1 with None => CqHead n | Some y => CqLink y end.

(** Updates of one kind of field respect [relax]. *)
Lemma relax_alter V V' n (f : ipcv -> ipcv) :
  (forall v v', keeps v v' -> keeps (f v) (f v')) -> relax V V' -> relax (alter f n V) (alter f n V').
Proof.
  intros Hf H m. specialize (H m). rewrite !alter_lookup. case_decide; [|done].
  destruct (V !! m), (V' !! m); try done. by apply Hf.
Qed.

Lemma keeps_set_link y v v' : keeps v v' -> keeps (set_v_link y v) (set_v_link y v').
Proof. intros []. by split. Qed.
Lemma keeps_set_cq y v v' : keeps v v' -> keeps (set_v_cq y v) (set_v_cq y v').
Proof. intros []. by split. Qed.
Lemma keeps_set_send y v v' : keeps v v' -> keeps (set_v_send y v) (set_v_send y v').
Proof. intros []. by split. Qed.

Lemma relax_put_cq V V' loc y : relax V V' -> relax (put_cq loc y V) (put_cq loc y V').
Proof. destruct loc; apply relax_alter; [apply keeps_set_cq|apply keeps_set_link]. Qed.

Lemma relax_unqueue V V' loc x : relax V V' -> relax (unqueue V loc x) (unqueue V' loc x).
Proof.
  intros H. unfold unqueue. rewrite (relax_qlink V V' x H).
  apply relax_alter; [apply keeps_set_link|by apply relax_put_cq].
Qed.

Section Release.
Context (V : views) (C : Z -> list Z) (c x : Z) (vc vx : ipcv) (l1 l2 : list Z).
Context (HL : links V) (HC : queues_ok V C).
Context (Hep : forall n v, live V n v -> ENDPOINT_P (v_ep v) = n).
Context (Hlc : live V c vc) (Hlx : live V x vx) (Hq : C c = l1 ++ x :: l2).
Let nx := v_link vx.
Let V2 := release V (loc_of c l1) x.

(** What the release does to the process [m]. *)
Definition rel (m : Z) (w : ipcv) : ipcv :=
  let w1 := if decide (m = x) then set_v_send None w else w in
  let w2 := match last l1 with
            | None => if decide (m = c) then set_v_cq nx w1 else w1
            | Some y => if decide (m = y) then set_v_link nx w1 else w1
            end in
  if decide (m = x) then set_v_link None w2 else w2.

Lemma rel_lookup m : V2 !! m = rel m <$> V !! m.
Proof.
  assert (qlink (alter (set_v_send None) x V) x = nx) as Hnx.
  { unfold qlink. rewrite lookup_alter_eq, (proj1 (proj2 Hlx)). done. }
  unfold V2, release, unqueue, loc_of, rel. rewrite Hnx, alter_lookup.
  destruct (last l1); cbn [put_cq]; rewrite !alter_lookup; repeat case_decide; subst; try done;
    by destruct (V !! _).
Qed.

Lemma rel_same m w :
  v_ep (rel m w) = v_ep w /\ v_recv (rel m w) = v_recv w /\ v_noend (rel m w) = v_noend w
  /\ v_empty (rel m w) = v_empty w /\ v_send (rel m w) = if decide (m = x) then None else v_send w.
Proof. unfold rel. destruct (last l1); repeat case_decide; done. Qed.

Lemma rel_live m w2 : live V2 m w2 -> exists w, live V m w /\ w2 = rel m w.
Proof.
  intros (Hm & Hw & He). rewrite rel_lookup in Hw. destruct (V !! m) as [w|] eqn:E; [|done].
  injection Hw as <-. exists w. split; [|done]. destruct (rel_same m w) as (_ & _ & _ & Ee & _).
  split_and!; [done..|]. by rewrite <- Ee.
Qed.

Lemma rel_live_r m w : live V m w -> live V2 m (rel m w).
Proof.
  intros (Hm & Hw & He). destruct (rel_same m w) as (_ & _ & _ & Ee & _).
  split_and!; [done|by rewrite rel_lookup, Hw|by rewrite Ee].
Qed.

Lemma x_sends : v_send vx = Some (v_ep vc).
Proof.
  assert (x ∈ C c) as Hin by (rewrite Hq; set_solver).
  apply (HC c vc Hlc) in Hin as (w & Hw & E).
  assert (w = vx) as -> by (destruct Hw as (_ & ? & _), Hlx as (_ & ? & _); congruence). done.
Qed.

Lemma c_chain : chain (qlink V) (v_cq vc) (l1 ++ x :: l2).
Proof. rewrite <- Hq. apply (HC c vc Hlc). Qed.

Lemma not_x m : m ∈ l1 ++ l2 -> m <> x.
Proof.
  intros Hm ->. pose proof (chain_NoDup _ _ _ c_chain) as Hnd.
  apply NoDup_app in Hnd as (_ & Hd & Hnd). apply NoDup_cons in Hnd as [Hx _].
  apply elem_of_app in Hm as [Hm|Hm]; [apply (Hd x Hm); set_solver|done].
Qed.

Lemma V2_qlink m : m <> x ->
  qlink V2 m = match last l1 with Some y => upd (qlink V) y nx m | None => qlink V m end.
Proof.
  intros Hm. unfold qlink. rewrite rel_lookup. destruct (V !! m) as [w|] eqn:E; cbn.
  - unfold rel, upd. rewrite !(decide_False (P := m = x)) by done.
    destruct (last l1) as [y|] eqn:Hy.
    + destruct (Z.eqb_spec m y) as [->|Hmy]; repeat case_decide; try done; by rewrite E.
    + by case_decide.
  - destruct (last l1) as [y|] eqn:Hy; [|done]. unfold upd. destruct (Z.eqb_spec m y) as [->|Hmy]; [|by rewrite E].
    assert (y ∈ C c) as Hin by (rewrite Hq; apply last_Some in Hy as (? & ->); set_solver).
    apply (HC c vc Hlc) in Hin as (w & (_ & Hw & _) & _). congruence.
Qed.

Lemma qlink_x : qlink V x = nx.
Proof. unfold qlink. by rewrite (proj1 (proj2 Hlx)). Qed.

Lemma rel_chain : chain (qlink V2) (v_cq (rel c vc)) (l1 ++ l2).
Proof.
  pose proof c_chain as Hch. unfold rel. destruct (last l1) as [y|] eqn:Hy.
  - assert (v_cq (if decide (c = x) then set_v_link None
        (if decide (c = y) then set_v_link nx (if decide (c = x) then set_v_send None vc else vc)
         else (if decide (c = x) then set_v_send None vc else vc))
        else (if decide (c = y) then set_v_link nx (if decide (c = x) then set_v_send None vc else vc)
         else (if decide (c = x) then set_v_send None vc else vc))) = v_cq vc) as ->
      by (repeat case_decide; done).
    pose proof Hy as (l & El)%last_Some.
    assert (chain (upd (qlink V) y (qlink V x)) (v_cq vc) (l1 ++ l2)) as H.
    { clear -Hch El. rewrite El in *. rewrite <- app_assoc in *. by apply chain_unlink. }
    eapply chain_ext; [|exact H]. intros m Hm. rewrite V2_qlink by (by apply not_x).
    rewrite Hy. by rewrite qlink_x.
  - pose proof Hy as En%last_None. rewrite (decide_True (P := c = c)) by done.
    assert (chain (qlink V2) nx l2) as H.
    { rewrite <- qlink_x. rewrite En in Hch. destruct Hch as [_ Hch]. eapply chain_ext; [|exact Hch].
      intros m Hm. rewrite V2_qlink by (apply not_x; set_solver). by rewrite Hy. }
    replace (l1 ++ l2) with l2 by (by rewrite En). case_decide; exact H.
Qed.

Lemma rel_cq m w : m <> c -> v_cq (rel m w) = v_cq w.
Proof. intros Hm. unfold rel. destruct (last l1); repeat case_decide; done. Qed.

Lemma one_queue n n' v v' m : live V n v -> live V n' v' -> m ∈ C n -> m ∈ C n' -> n = n'.
Proof. by apply same_target. Qed.

Lemma rel_queues : queues_ok V2 (fun m => if m =? c then l1 ++ l2 else C m).
Proof.
  intros m w2 Hw2. destruct (rel_live m w2 Hw2) as (w & Hw & ->).
  destruct (rel_same m w) as (-> & _). destruct (HC m w Hw) as [Hch Hmem]. split.
  - destruct (Z.eqb_spec m c) as [->|Hmc].
    + assert (w = vc) as -> by (destruct Hw as (_ & ? & _), Hlc as (_ & ? & _); congruence). apply rel_chain.
    + rewrite rel_cq by done. eapply chain_ext; [|exact Hch]. intros z Hz.
      assert (z ∉ C c) as Hzc by (intros ?; by apply Hmc, (one_queue m c w vc z)).
      rewrite Hq in Hzc. rewrite V2_qlink by set_solver. destruct (last l1) as [y|] eqn:Hy; [|done].
      apply upd_other. intros ->. apply last_Some in Hy as (? & ->). set_solver.
  - intros z. assert (z ∈ (if m =? c then l1 ++ l2 else C m) <-> z <> x /\ z ∈ C m) as ->.
    { destruct (Z.eqb_spec m c) as [->|Hmc].
      - rewrite Hq. pose proof (not_x z). set_solver.
      - split; [|naive_solver]. intros Hz. split; [|done]. intros ->. apply Hmc.
        apply (one_queue m c w vc x); try done. rewrite Hq. set_solver. }
    rewrite Hmem. split.
    + intros (Hzx & u & Hu & E). exists (rel z u). split; [by apply rel_live_r|].
      destruct (rel_same z u) as (_ & _ & _ & _ & ->). by rewrite decide_False.
    + intros (u2 & Hu2 & E). destruct (rel_live z u2 Hu2) as (u & Hu & ->).
      destruct (rel_same z u) as (_ & _ & _ & _ & Es). rewrite Es in E. case_decide; [done|]. split; [done|]. eauto.
Qed.

Lemma rel_waits e b : waits_for V e b -> waits_for V2 e b.
Proof.
  intros (m & w & Hw & E & Hb). exists m, (rel m w). destruct (rel_same m w) as (-> & _ & -> & _).
  split_and!; [by apply rel_live_r|done..].
Qed.

Lemma rel_blk m : blk V2 m = blk V m \/ blk V2 m = None.
Proof.
  unfold blk. rewrite rel_lookup. destruct (V !! m) as [w|] eqn:E; [|by left]. cbn.
  unfold v_blocked. destruct (rel_same m w) as (_ & -> & _ & _ & ->).
  case_decide as D; [|by left]. subst m.
  assert (w = vx) as -> by (destruct Hlx as (_ & ? & _); congruence).
  rewrite x_sends. destruct (v_recv vx) as [e|] eqn:Er; [|by right].
  rewrite (l_both _ HL x vx (v_ep vc) e Hlx x_sends Er). by left.
Qed.

Lemma links_release : links V2.
Proof.
  split.
  - eexists. apply rel_queues.
  - intros m w2 Hw2. destruct (rel_live m w2 Hw2) as (w & Hw & ->).
    destruct (rel_same m w) as (_ & _ & _ & _ & ->). intros Hs.
    unfold rel. case_decide as D; [by destruct (last l1); repeat case_decide|].
    destruct (last l1) as [y|] eqn:Hy; repeat case_decide; try (by apply (l_link _ HL m w)). subst y.
    assert (m ∈ C c) as Hin by (rewrite Hq; apply last_Some in Hy as (? & ->); set_solver).
    apply (HC c vc Hlc) in Hin as (u & (_ & Hu & _) & E). destruct Hw as (_ & Hw & _). congruence.
  - intros m w2 e Hw2. destruct (rel_live m w2 Hw2) as (w & Hw & ->).
    destruct (rel_same m w) as (_ & _ & _ & _ & ->). case_decide; [done|]. intros Hs.
    by eapply rel_waits, l_send.
  - intros m w2 e Hw2. destruct (rel_live m w2 Hw2) as (w & Hw & ->).
    destruct (rel_same m w) as (_ & -> & _). intros Hs.
    destruct (l_recv _ HL m w e Hw Hs) as [?|?]; [by left|right]. by apply rel_waits.
  - intros m w2 e e' Hw2. destruct (rel_live m w2 Hw2) as (w & Hw & ->).
    destruct (rel_same m w) as (_ & -> & _ & _ & ->). case_decide; [done|]. by apply (l_both _ HL m w).
  - intros m w2 Hw2. destruct (rel_live m w2 Hw2) as (w & Hw & ->).
    destruct (rel_same m w) as (_ & _ & -> & _ & ->). case_decide; [done|]. by apply (l_noend _ HL m w).
  - intros m w2 e Hw2. destruct (rel_live m w2 Hw2) as (w & Hw & ->).
    destruct (rel_same m w) as (_ & _ & _ & _ & ->). case_decide; [done|]. by apply (l_task _ HL m w).
  - intros m w2 Hw2. destruct (rel_live m w2 Hw2) as (w & Hw & ->).
    destruct (l_acyc _ HL m w Hw) as [l Hl].
    destruct (chain_prune _ (blk V2) _ _ rel_blk Hl) as (l' & ? & _). eauto.
Qed.
End Release.

(** ** Searching the caller queue *)

(** [src_e] accepts a message of [e]. *)
Definition accepts (src_e e : Z) : bool := (src_e =? ANY) || (src_e =? e).
Definition acc (V : views) (src_e n : Z) : bool :=
  match V !! n with Some v => accepts src_e (v_ep v) | None => false end.

Definition next_loc (loc : cq_loc) (l1 : list Z) : cq_loc :=
  match last l1 with None => loc | Some y => CqLink y end.

Lemma next_loc_cons loc y l1 : next_loc (CqLink y) l1 = next_loc loc (y :: l1).
Proof. unfold next_loc. destruct l1 as [|z l1]; [done|]. by rewrite last_cons_cons, last_default. Qed.

Lemma receive_queue_run s caller vc src_e :
  core (view s) (privs s) -> no_filters (privs s) -> live (view s) caller vc ->
  forall l loc fuel h, read_cq loc s = Done h s -> chain (qlink (view s)) h l ->
  (forall y, y ∈ l -> exists w, live (view s) y w) -> (length l < fuel)%nat ->
  (Forall (fun y => acc (view s) src_e y = false) l /\ receive_queue fuel caller src_e loc s = Done false s)
  \/ exists l1 x l2, l = l1 ++ x :: l2 /\ Forall (fun y => acc (view s) src_e y = false) l1
       /\ acc (view s) src_e x = true
       /\ receive_queue fuel caller src_e loc s = receive_take caller x (next_loc loc l1) s.
Proof.
  intros Hc Hnf Hlc. induction l as [|y l IH]; intros loc fuel h Hrd Hch Hin Hfuel;
    (destruct fuel as [|fuel]; [lia|]); cbn [receive_queue]; rewrite (bind_done _ _ _ _ _ Hrd).
  - change (h = None) in Hch. subst h. by left.
  - destruct Hch as [-> Hch]. destruct (Hin y) as [w Hw]; [set_solver|].
    destruct (live_proc_of s y w Hw) as (p & Hp & Ep). erewrite bind_get_proc by done.
    rewrite (bind_done _ _ _ _ _ (CANRECEIVE_nf s Hc Hnf src_e (p_endpoint p) caller vc _ Hlc)).
    assert (acc (view s) src_e y = (src_e =? ANY) || (src_e =? p_endpoint p)) as Ha.
    { unfold acc. rewrite (proj1 (proj2 Hw)), <- Ep. done. }
    destruct ((src_e =? ANY) || (src_e =? p_endpoint p)); cbn [negb].
    + right. exists [], y, l. by split_and!.
    + unfold qlink in Hch at 2. rewrite (proj1 (proj2 Hw)) in Hch.
      destruct (IH (CqLink y) fuel (v_link w)) as [[Hf E]|(l1 & x & l2 & -> & Hf & Hx & E)].
      * by apply read_cq_link, Hw.
      * done.
      * intros z Hz. apply Hin. set_solver.
      * cbn in Hfuel. lia.
      * left. split; [by constructor|done].
      * right. exists (y :: l1), x, l2. rewrite (next_loc_cons loc y l1) in E. split_and!; [done|by constructor|done..].
Qed.

(** ** Taking a message *)

Lemma alter_idents V n f : (forall v, ident v (f v)) -> idents V (alter f n V).
Proof.
  intros Hf m. rewrite alter_lookup. case_decide; destruct (V !! m); try done. by apply Hf.
Qed.

Lemma alter_dlv V n f :
  (forall v, v_recv (f v) = v_recv v /\ v_misc (f v) = v_misc v /\ v_empty (f v) = v_empty v) ->
  dlv_ok V -> dlv_ok (alter f n V).
Proof.
  intros Hf H m w (Hm & Hw & He). rewrite alter_lookup in Hw. case_decide; [|by apply (H m w)].
  destruct (V !! m) as [v|] eqn:E; [|done]. injection Hw as <-. destruct (Hf v) as (-> & -> & E').
  rewrite E' in He. by apply (H m v).
Qed.

Lemma unqueue_idents V loc x : idents V (unqueue V loc x).
Proof.
  unfold unqueue. etrans; [|by apply alter_idents]. destruct loc; by apply alter_idents.
Qed.
Lemma unqueue_dlv V loc x : dlv_ok V -> dlv_ok (unqueue V loc x).
Proof. intros H. unfold unqueue. apply alter_dlv; [done|]. destruct loc; by apply alter_dlv. Qed.

Lemma ready_goes s s' V' :
  ready s -> goes s s' V' (privs s) -> idents (view s) V' -> dlv_ok V' -> ready s'.
Proof.
  intros [Hb Hc Hnf Hm] [G1 G2 G3 G4] HI Hd. subst V'. split; rewrite ?G3; [done| |done|].
  - by eapply core_idents.
  - eapply mgr_relax; [done|apply prelax_refl|done].
Qed.

(** The receiver and the sender after the message is handed over. *)
Definition v_took (vx v : ipcv) : ipcv :=
  let v1 := v_status_add (IPC_STATUS_CALL_TO (if has (v_misc vx) MF_REPLY_PEND then SENDREC else SEND))
              (v_deliver (v_smsg vx) (v_ep vx) v) in
  if has (v_misc vx) MF_SENDING_FROM_KERNEL then v_status_add (IPC_STATUS_FLAGS IPC_FLG_MSG_FROM_KERNEL) v1 else v1.
Definition v_released (vx : ipcv) : ipcv :=
  set_v_misc (if has (v_misc vx) MF_SENDING_FROM_KERNEL then flag_clr (v_misc vx) MF_SENDING_FROM_KERNEL
              else v_misc vx) (set_v_send None vx).

Lemma v_took_keeps vx v : keeps v (v_took vx v).
Proof.
  unfold v_took, v_status_add. destruct (has (v_misc vx) MF_SENDING_FROM_KERNEL); repeat destruct (has _ MF_REPLY_PEND);
    split; try done; by left.
Qed.

Lemma take_message_run s caller vc x vx :
  ready s -> live (view s) caller vc -> live (view s) x vx -> x <> caller ->
  has (v_misc vc) MF_DELIVERMSG = false -> v_noend vx = false ->
  exists s', take_message caller x s = Done tt s'
    /\ goes s s' (<[x := v_released vx]> (<[caller := v_took vx vc]> (view s))) (privs s).
Proof.
  intros [Hb Hc Hnf Hm] Hlc Hlx Hne Hdl Hend. unfold take_message.
  destruct (c_ep _ _ Hc x vx Hlx) as (_ & Hfx & _). destruct (c_ep _ _ Hc caller vc Hlc) as (_ & Hfc & _).
  destruct (live_proc_of s x vx Hlx) as (px & Hpx & Ex). destruct (live_proc_of s caller vc Hlc) as (pc & Hpc & Ec).
  erewrite bind_get_proc by done. unfold RTS_ISSET. rewrite !isset_has by apply _.
  rewrite bind_assert by (by rewrite (f_equal v_fbit Ex : has (p_rts_flags px) RTS_SLOT_FREE = v_fbit vx), Hfx).
  rewrite bind_assert by (by rewrite (f_equal v_noend Ex : has (p_rts_flags px) RTS_NO_ENDPOINT = v_noend vx), Hend).
  erewrite bind_get_proc by done.
  rewrite bind_assert by (by rewrite (f_equal v_misc Ec : p_misc_flags pc = v_misc vc), Hdl).
  rewrite (f_equal v_smsg Ex : p_sendmsg px = v_smsg vx), (f_equal v_ep Ex : p_endpoint px = v_ep vx).
  pose proof (goes_start s caller vc (privs s) Hb (proj1 (proj2 Hlc)) eq_refl) as G0.
  vstep s s caller (v_deliver (v_smsg vx) (v_ep vx) vc) G0 (v_deliver_step s caller vc (v_smsg vx) (v_ep vx)) s1 G1.
  set (v1 := v_deliver (v_smsg vx) (v_ep vx) vc) in *.
  assert (view s1 !! x = Some vx) as Hx1 by (rewrite (goes_lookup_ne _ _ _ _ _ _ x G1) by done; apply Hlx).
  destruct (v_unset_send_step s1 x vx Hfx (g_base _ _ _ _ G1) Hx1) as (s2 & E2 & G2).
  rewrite (bind_done _ _ _ _ _ E2). rewrite (g_view _ _ _ _ G1), (g_privs _ _ _ _ G1) in G2.
  pose proof (goes_trans _ _ _ _ _ _ _ G1 G2) as G12. clear G1 G2.
  destruct (get_view s2 x (set_v_send None vx)
    (fun sp => IPC_STATUS_ADD_CALL caller (if has (p_misc_flags sp) MF_REPLY_PEND then SENDREC else SEND) ;;
      (if has (p_misc_flags sp) MF_SENDING_FROM_KERNEL then
         IPC_STATUS_ADD_FLAGS caller IPC_FLG_MSG_FROM_KERNEL ;;
         upd_proc x (fun p => set_p_misc_flags (flag_clr (p_misc_flags p) MF_SENDING_FROM_KERNEL) p)
       else ret tt))) as (p2 & Hp2 & Ep2 & ->); [by eapply goes_lookup|].
  rewrite (f_equal v_misc Ep2 : p_misc_flags p2 = v_misc vx). rewrite insert_insert_ne in G12 by done.
  set (call := IPC_STATUS_CALL_TO (if has (v_misc vx) MF_REPLY_PEND then SENDREC else SEND)).
  vstep s s2 caller (v_status_add call v1) G12 (v_status_step s2 caller v1 call) s3 G3.
  unfold v_took, v_released. fold v1 call. destruct (has (v_misc vx) MF_SENDING_FROM_KERNEL).
  - set (fl := IPC_STATUS_FLAGS IPC_FLG_MSG_FROM_KERNEL).
    vstep s s3 caller (v_status_add fl (v_status_add call v1)) G3
      (v_status_step s3 caller (v_status_add call v1) fl) s4 G4.
    rewrite insert_insert_ne in G4 by done.
    destruct (v_upd s4 x _ (fun p => set_p_misc_flags (flag_clr (p_misc_flags p) MF_SENDING_FROM_KERNEL) p)
      (fun v => set_v_misc (flag_clr (v_misc v) MF_SENDING_FROM_KERNEL) v) (g_base _ _ _ _ G4)
      (goes_lookup _ _ _ _ _ _ G4)) as (s5 & E5 & G5); try done.
    exists s5. split; [done|]. rewrite (g_view _ _ _ _ G4), (g_privs _ _ _ _ G4), insert_insert_eq in G5.
    by eapply goes_trans.
  - exists s3. split; [done|]. rewrite insert_insert_ne in G3 by done.
    replace (set_v_misc (v_misc vx) (set_v_send None vx)) with (set_v_send None vx) by (by destruct vx). done.
Qed.

(** All processes but [x] that do not wait for a message are left alone. *)
Definition awake_but (x : Z) (V V' : views) : Prop :=
  forall n v, n <> x -> V !! n = Some v -> v_recv v = None -> V' !! n = Some v.

Lemma sig_delay_run s x vx :
  ready s -> live (view s) x vx -> 0 <= x ->
  exists s', sig_delay_done x s = Done tt s' /\ moved s s' /\ awake_but x (view s) (view s').
Proof.
  intros Hr Hlx H0. pose proof Hr as [Hb Hc Hnf Hm]. unfold sig_delay_done.
  set (vx1 := set_v_misc (flag_clr (v_misc vx) MF_SIG_DELAY) vx).
  destruct (v_upd s x vx (fun p => set_p_misc_flags (flag_clr (p_misc_flags p) MF_SIG_DELAY) p)
    (fun v => set_v_misc (flag_clr (v_misc v) MF_SIG_DELAY) v) Hb (proj1 (proj2 Hlx))) as (s1 & E1 & G1); try done.
  rewrite (bind_done _ _ _ _ _ E1). fold vx1 in G1.
  assert (moved s s1) as M1.
  { eapply goes_moved; [done|exact G1| | |apply prelax_refl].
    - eapply relax_insert; [apply Hlx|]. split; try done. by left.
    - apply dlv_insert; [exact (c_dlv _ _ Hc)|]. destruct (v_recv vx) eqn:Er; [right|by left]. cbn.
      rewrite (has_flag_clr MF_SIG_DELAY MF_DELIVERMSG).
      by rewrite (c_dlv _ _ Hc x vx Hlx) by congruence. }
  assert (live (view s1) x vx1) as Hl1 by (split_and!; [apply Hlx|by eapply goes_lookup|apply Hlx]).
  destruct (live_proc_of s1 x vx1 Hl1) as (p1 & Hp1 & Ep1). erewrite bind_get_proc by done.
  destruct (c_ep _ _ Hc x vx Hlx) as (_ & _ & Hnr).
  rewrite (f_equal v_nr Ep1 : p_nr p1 = v_nr vx), Hnr.
  destruct (cause_sig_ready s1 x vx1 SIGSNDELAY (m_ready _ _ M1) Hl1 H0) as (s2 & E2 & N2); [done|].
  exists s2. split; [done|]. split; [by eapply moved_trans, N2|].
  intros n v Hn Hv Hr'. apply (n_awake _ _ N2); [|done]. by rewrite (goes_lookup_ne _ _ _ _ _ _ n G1).
Qed.

Lemma write_cq_run s loc y :
  base s -> (forall n, loc = CqHead n \/ loc = CqLink n -> is_Some (view s !! n)) ->
  exists s', write_cq loc y s = Done tt s' /\ goes s s' (put_cq loc y (view s)) (privs s).
Proof.
  intros Hb Hloc. destruct loc as [n|n]; (destruct (Hloc n) as [v Hv]; [tauto|]); cbn [put_cq];
    rewrite (alter_as_insert _ _ _ v Hv); [by apply write_head_step|by apply write_link_step].
Qed.

Lemma put_cq_lookup loc y (V : views) n : is_Some (V !! n) -> is_Some (put_cq loc y V !! n).
Proof.
  intros [v Hv]. destruct loc; cbn [put_cq]; rewrite alter_lookup; case_decide; rewrite Hv; by eexists.
Qed.

Lemma take_unlink_run s x vx loc :
  base s -> view s !! x = Some vx ->
  (forall n, loc = CqHead n \/ loc = CqLink n -> is_Some (view s !! n)) ->
  exists s', take_unlink x loc s = Done tt s' /\ goes s s' (unqueue (view s) loc x) (privs s).
Proof.
  intros Hb Hx Hloc. unfold take_unlink, unqueue.
  destruct (view_lookup_inv _ _ _ Hx) as (p & Hp & Ep). erewrite bind_get_proc by done.
  assert (qlink (view s) x = p_q_link p) as Eq by (unfold qlink; rewrite Hx, <- Ep; done).
  rewrite Eq. destruct (write_cq_run s loc (p_q_link p) Hb Hloc) as (s1 & E1 & G1).
  rewrite (bind_done _ _ _ _ _ E1).
  destruct (put_cq_lookup loc (p_q_link p) (view s) x) as [v1 Hv1]; [by eexists|].
  destruct (v_upd s1 x v1 (set_p_q_link None) (set_v_link None) (g_base _ _ _ _ G1)) as (s2 & E2 & G2); try done.
  { by rewrite (g_view _ _ _ _ G1). }
  exists s2. split; [done|]. rewrite (g_view _ _ _ _ G1), (g_privs _ _ _ _ G1) in G2.
  rewrite (alter_as_insert _ _ _ v1 Hv1). by eapply goes_trans.
Qed.

(** [v'] is [v] with the message of [w] delivered: contents, source, status. *)
Record carries (v v' : ipcv) (m : message) (src status : Z) : Prop := {
  cr_msg : v_dmsg v' = set_m_source src m;
  cr_misc : v_misc v' = flag_set (v_misc v) MF_DELIVERMSG;
  cr_status : v_status v' = (if has (v_misc v) MF_REPLY_PEND then v_status v else Z.lor (v_status v) status);
  cr_vir : v_dvir v' = v_dvir v
}.

(** The status bits of a message taken from the queue. *)
Definition take_status (vx : ipcv) : Z :=
  let call := IPC_STATUS_CALL_TO (if has (v_misc vx) MF_REPLY_PEND then SENDREC else SEND) in
  if has (v_misc vx) MF_SENDING_FROM_KERNEL then Z.lor call (IPC_STATUS_FLAGS IPC_FLG_MSG_FROM_KERNEL) else call.

Lemma reply_deliver m src v : has (v_misc (v_deliver m src v)) MF_REPLY_PEND = has (v_misc v) MF_REPLY_PEND.
Proof. cbn. rewrite (has_flag_set MF_DELIVERMSG MF_REPLY_PEND). by rewrite orb_false_r. Qed.

Lemma v_took_carries vx v : carries v (v_took vx v) (v_smsg vx) (v_ep vx) (take_status vx).
Proof.
  unfold v_took, take_status. set (d := v_deliver (v_smsg vx) (v_ep vx) v).
  assert (has (v_misc d) MF_REPLY_PEND = has (v_misc v) MF_REPLY_PEND) as Hd by apply reply_deliver.
  destruct (has (v_misc v) MF_REPLY_PEND) eqn:E.
  - assert (forall z, v_status_add z d = d) as Hs by (intros z; unfold v_status_add; by rewrite Hd).
    rewrite !Hs. destruct (has (v_misc vx) MF_SENDING_FROM_KERNEL); split; try done; by rewrite E.
  - assert (forall z y, v_status_add z (set_v_status y d) = set_v_status (Z.lor y z) d) as Hs.
    { intros z y. unfold v_status_add. change (v_misc (set_v_status y d)) with (v_misc d). by rewrite Hd. }
    assert (forall z, v_status_add z d = set_v_status (Z.lor (v_status v) z) d) as Hs1.
    { intros z. unfold v_status_add. by rewrite Hd. }
    rewrite Hs1, Hs. destruct (has (v_misc vx) MF_SENDING_FROM_KERNEL); split; try done; rewrite E; try done.
    cbn. by rewrite Z.lor_assoc.
Qed.

Record taken (s s' : kstate) (caller x : Z) (vc vx : ipcv) (l1 : list Z) : Prop := {
  t_ok : ipc_ok s';
  t_prelax : prelax (view s) (privs s) (privs s');
  t_rest : rest0 s' = rest0 s;
  t_relax : relax (release (view s) (loc_of caller l1) x) (view s');
  t_msg : exists vc', view s' !! caller = Some vc' /\ carries vc vc' (v_smsg vx) (v_ep vx) (take_status vx)
}.

Lemma carries_cq v v' y m src st : carries v v' m src st -> carries v (set_v_cq y v') m src st.
Proof. intros []. by split. Qed.

Section Take.
Context (s : kstate) (caller x : Z) (vc vx : ipcv) (C : Z -> list Z) (l1 l2 : list Z).
Context (Hok : ipc_ok s) (Hlc : live (view s) caller vc) (Hlx : live (view s) x vx).
Context (Hsend : v_send vc = None) (Hrecv : v_recv vc = None) (Hdl : has (v_misc vc) MF_DELIVERMSG = false).
Context (HC : queues_ok (view s) C) (Hq : C caller = l1 ++ x :: l2).

Lemma in_queue y : y ∈ C caller -> exists w, live (view s) y w /\ v_send w = Some (v_ep vc) /\ y <> caller.
Proof.
  intros (w & Hw & E)%(HC caller vc Hlc). exists w. split_and!; [done..|]. intros ->.
  destruct Hw as (_ & Hw & _), Hlc as (_ & H & _). congruence.
Qed.

Lemma loc_in n : loc_of caller l1 = CqHead n \/ loc_of caller l1 = CqLink n -> n = caller \/ n ∈ C caller.
Proof.
  unfold loc_of. destruct (last l1) as [y|] eqn:E; intros [H|H]; try done; injection H as <-; [right|by left].
  rewrite Hq. apply last_Some in E as (? & ->). set_solver.
Qed.

Lemma took_relax :
  relax (alter (set_v_send None) x (view s)) (<[x := v_released vx]> (<[caller := v_took vx vc]> (view s))).
Proof.
  intros m. rewrite alter_lookup. case_decide as E.
  - subst m. rewrite (proj1 (proj2 Hlx)), lookup_insert_eq. cbn. split; try done. by left.
  - rewrite lookup_insert_ne by done. destruct (Z.eq_dec m caller) as [->|Hm].
    + rewrite (proj1 (proj2 Hlc)), lookup_insert_eq. apply v_took_keeps.
    + rewrite lookup_insert_ne by done. by destruct (view s !! m).
Qed.

Lemma took_ready s1 :
  goes s s1 (<[x := v_released vx]> (<[caller := v_took vx vc]> (view s))) (privs s) -> ready s1.
Proof.
  intros G. pose proof Hok as [[Hb Hc Hl] Hnf Hm]. eapply ready_goes; [by apply ipc_ok_ready|exact G| |].
  - etrans; [|apply relax_idents, took_relax]. by apply alter_idents.
  - apply dlv_insert; [apply dlv_insert; [exact (c_dlv _ _ Hc)|left]|].
    + destruct (k_recv _ _ (v_took_keeps vx vc)); congruence.
    + destruct (v_recv vx) eqn:Er; [right|by left].
      pose proof (c_dlv _ _ Hc x vx Hlx ltac:(congruence)) as Hd. unfold v_released. cbn.
      destruct (has (v_misc vx) MF_SENDING_FROM_KERNEL); [|done].
      by rewrite (has_flag_clr MF_SENDING_FROM_KERNEL MF_DELIVERMSG), Hd.
Qed.

(** The receiver keeps its message when the queue is relinked. *)
Lemma take_caller (V2 : views) :
  x <> caller -> V2 !! caller = Some (v_took vx vc) ->
  exists vc', unqueue V2 (loc_of caller l1) x !! caller = Some vc'
    /\ carries vc vc' (v_smsg vx) (v_ep vx) (take_status vx).
Proof.
  intros Hne HV. unfold unqueue. rewrite alter_lookup, decide_False by done.
  pose proof (v_took_carries vx vc) as Hcr. unfold loc_of.
  destruct (last l1) as [y|] eqn:E; cbn [put_cq]; rewrite alter_lookup.
  - rewrite decide_False; [by eexists|]. intros <-.
    destruct (in_queue caller) as (_ & _ & _ & ?); [|done].
    rewrite Hq. apply last_Some in E as (? & ->). set_solver.
  - rewrite decide_True, HV by done. eexists. split; [done|]. by apply carries_cq.
Qed.

(** After the message is handed over, with or without a delayed signal, the
    sender is taken off the queue. *)
Lemma take_finish s1 s2 :
  goes s s1 (<[x := v_released vx]> (<[caller := v_took vx vc]> (view s))) (privs s) ->
  moved s1 s2 -> awake_but x (view s1) (view s2) -> x <> caller ->
  exists s', take_unlink x (loc_of caller l1) s2 = Done tt s' /\ taken s s' caller x vc vx l1.
Proof.
  intros G1 [[Hb2 Hc2 Hnf2 Hm2] HR HP Hat Hrest] HA Hne. pose proof Hok as [[Hb Hc Hl] Hnf Hm].
  rewrite (g_view _ _ _ _ G1) in HR, HP, HA. rewrite (g_privs _ _ _ _ G1) in HP.
  pose proof (transitivity took_relax HR) as HR2.
  assert (idents (view s) (view s2)) as HI.
  { etrans; [|apply relax_idents, HR2]. by apply alter_idents. }
  assert (forall n, is_Some (view s !! n) -> is_Some (view s2 !! n)) as Hdom.
  { intros n [v Hv]. specialize (HI n). rewrite Hv in HI. by destruct (view s2 !! n). }
  destruct (Hdom x) as [vx2 Hx2]; [by eexists; apply Hlx|].
  destruct (take_unlink_run s2 x vx2 (loc_of caller l1) Hb2 Hx2) as (s3 & E3 & G3).
  { intros n [->|(w & (_ & Hw & _) & _)%in_queue]%loc_in; apply Hdom; [by eexists; apply Hlc|by eexists]. }
  exists s3. split; [done|].
  assert (prelax (view s) (privs s) (privs s2)) as HP2.
  { eapply prelax_idents; [|exact HP]. etrans; [|apply relax_idents, took_relax]. by apply alter_idents. }
  pose proof (unqueue_idents (view s2) (loc_of caller l1) x) as HI3.
  split.
  - split; rewrite ?(g_view _ _ _ _ G3), ?(g_privs _ _ _ _ G3).
    + split; rewrite ?(g_view _ _ _ _ G3), ?(g_privs _ _ _ _ G3); [apply G3| |].
      * eapply core_idents; [exact HI3|by apply unqueue_dlv; exact (c_dlv _ _ Hc2)|done].
      * eapply links_relax; [apply relax_unqueue, HR2|].
        eapply (links_release (view s) C caller x vc vx l1 l2); try done.
        intros n v Hn. by destruct (c_ep _ _ Hc n v Hn).
    + done.
    + eapply mgr_relax; [exact HI3|apply prelax_refl|done].
  - by rewrite (g_privs _ _ _ _ G3).
  - rewrite <- (f_equal (set_atab ∅) (g_rest _ _ _ _ G1) : rest0 s1 = rest0 s), <- Hrest.
    exact (f_equal (set_atab ∅) (g_rest _ _ _ _ G3)).
  - rewrite (g_view _ _ _ _ G3). by apply relax_unqueue.
  - rewrite (g_view _ _ _ _ G3). apply take_caller; [done|]. apply HA; [done| |].
    + rewrite lookup_insert_ne by done. apply lookup_insert_eq.
    + destruct (k_recv _ _ (v_took_keeps vx vc)); congruence.
Qed.

Lemma receive_take_run :
  exists s', receive_take caller x (loc_of caller l1) s = Done true s' /\ taken s s' caller x vc vx l1.
Proof.
  pose proof Hok as [[Hb Hc Hl] Hnf Hm].
  destruct (in_queue x) as (w & Hw & Hs & Hne); [rewrite Hq; set_solver|].
  assert (w = vx) as -> by (destruct Hw as (_ & ? & _), Hlx as (_ & ? & _); congruence).
  assert (v_noend vx = false) as Hend.
  { destruct (v_noend vx) eqn:E; [|done]. by rewrite (l_noend _ Hl x vx Hlx E) in Hs. }
  unfold receive_take.
  destruct (take_message_run s caller vc x vx (ipc_ok_ready _ Hok) Hlc Hlx Hne Hdl Hend) as (s1 & E1 & G1).
  rewrite (bind_done _ _ _ _ _ E1). pose proof (took_ready s1 G1) as R1.
  assert (live (view s1) x (v_released vx)) as Hl1.
  { split_and!; [apply Hlx|by eapply goes_lookup|apply Hlx]. }
  destruct (live_proc_of s1 x _ Hl1) as (p1 & Hp1 & Ep1). erewrite bind_get_proc by done.
  assert (exists s2, (if has (p_misc_flags p1) MF_SIG_DELAY then sig_delay_done x else ret tt) s1 = Done tt s2
    /\ moved s1 s2 /\ awake_but x (view s1) (view s2)) as (s2 & E2 & M2 & A2).
  { destruct (has (p_misc_flags p1) MF_SIG_DELAY).
    - eapply sig_delay_run; [done|done|]. by eapply (l_task _ Hl x vx).
    - exists s1. split_and!; [done|by apply moved_refl|]. by intros ????. }
  rewrite (bind_done _ _ _ _ _ E2).
  destruct (take_finish s1 s2 G1 M2 A2 Hne) as (s3 & E3 & T3). rewrite (bind_done _ _ _ _ _ E3). by exists s3.
Qed.
End Take.

(** The queue part of a receive: nothing acceptable is queued, or the first
    acceptable sender's message is taken. *)
Inductive queue_result (s : kstate) (caller : Z) (vc : ipcv) (src_e : Z) : bool -> kstate -> Prop :=
| queue_none l :
    chain (qlink (view s)) (v_cq vc) l -> Forall (fun y => acc (view s) src_e y = false) l ->
    queue_result s caller vc src_e false s
| queue_first l1 x l2 vx s' :
    chain (qlink (view s)) (v_cq vc) (l1 ++ x :: l2) -> live (view s) x vx ->
    Forall (fun y => acc (view s) src_e y = false) l1 -> accepts src_e (v_ep vx) = true ->
    taken s s' caller x vc vx l1 ->
    queue_result s caller vc src_e true s'.

Lemma receive_queue_correct s caller vc src_e :
  ipc_ok s -> live (view s) caller vc -> v_send vc = None -> v_recv vc = None ->
  has (v_misc vc) MF_DELIVERMSG = false ->
  exists b s', receive_queue cq_fuel caller src_e (CqHead caller) s = Done b s'
    /\ queue_result s caller vc src_e b s'.
Proof.
  intros Hok Hlc Hs Hr Hd. pose proof Hok as [[Hb Hc Hl] Hnf Hm]. destruct (l_queue _ Hl) as [C HC].
  destruct (HC caller vc Hlc) as [Hch Hmem].
  assert (forall y, y ∈ C caller -> exists w, live (view s) y w) as Hin.
  { intros y (w & Hw & _)%Hmem. by exists w. }
  destruct (receive_queue_run s caller vc src_e Hc Hnf Hlc (C caller) (CqHead caller) cq_fuel (v_cq vc))
    as [[Hf E]|(l1 & x & l2 & Eq & Hf & Hx & E)]; [by apply read_cq_head, Hlc|done|done| | |].
  - apply le_n_S, table_length; [by eapply chain_NoDup|]. intros y (w & Hw)%Hin. apply Hw.
  - exists false, s. split; [done|]. by eapply queue_none.
  - destruct (Hin x) as [vx Hlx]; [rewrite Eq; set_solver|].
    destruct (receive_take_run s caller x vc vx C l1 l2 Hok Hlc Hlx Hs Hr Hd HC Eq) as (s' & Et & T).
    exists true, s'. change (next_loc (CqHead caller) l1) with (loc_of caller l1) in E.
    rewrite E. split; [done|]. rewrite Eq in Hch. eapply queue_first; [done|done|done| |done].
    unfold acc in Hx. by rewrite (proj1 (proj2 Hlx)) in Hx.
Qed.
