(* ===== verification/IpcPend.v ===== *)
(** * Pending notifications

    The search for a pending source ([has_pending]) and the delivery of a
    pending notification to a receiver. *)

From S2P Require Import Prelude Monad Timers Endpoint Chain Kernel Sched RunQueue Init SchedProps Ipc IpcInv Deadlock IpcStep Notify IpcSend IpcRecv.

(** ** [has_pending] *)

(** [r] is the lowest set bit of the map, or [NULL_PRIV_ID]. *)
Definition first_pending (map : sys_map) (r : Z) : Prop :=
  (r = NULL_PRIV_ID /\ forall b, bit_ok b -> get_sys_bit map b = false)
  \/ (bit_ok r /\ get_sys_bit map r = true /\ forall b, 0 <= b < r -> get_sys_bit map b = false).

Lemma scan_bit_run map s hi : get_sys_bit map hi = true ->
  forall fuel i, i <= hi -> (Z.to_nat (hi - i) < fuel)%nat ->
  exists r, scan_bit fuel map i s = Done r s /\ i <= r <= hi /\ get_sys_bit map r = true
    /\ forall b, i <= b < r -> get_sys_bit map b = false.
Proof.
  intros Hhi. induction fuel as [|fuel IH]; intros i Hi Hf; [lia|]. cbn [scan_bit].
  destruct (get_sys_bit map i) eqn:E.
  - exists i. split_and!; [done|lia|lia|done|lia].
  - assert (i <> hi) by (intros ->; congruence).
    destruct (IH (i + 1)) as (r & Er & Hr & Hg & Hlow); [lia|lia|].
    exists r. split_and!; [done|lia|lia|done|]. intros b Hb. destruct (Z.eq_dec b i) as [->|]; [done|].
    apply Hlow. lia.
Qed.

Lemma bit_in_chunk map base :
  map_ok map -> base mod 32 = 0 -> get_sys_bits map base <> 0 ->
  exists i, 0 <= i < 32 /\ get_sys_bit map (base + i) = true.
Proof.
  intros Hm Hb Hn. destruct (decide (Exists (fun i => get_sys_bit map (base + i) = true) (seqZ 0 32))) as [He|Hno].
  - apply Exists_exists in He as (i & Hi%elem_of_seqZ & E). exists i. split; [lia|done].
  - exfalso. apply Hn, (chunk_zero map base Hm Hb). intros i Hi.
    destruct (get_sys_bit map (base + i)) eqn:E; [|done]. exfalso. apply Hno, Exists_exists. exists i.
    split; [apply elem_of_seqZ; lia|done].
Qed.

Lemma scan_chunks_run map s : map_ok map ->
  forall n base, 0 <= base -> base mod 32 = 0 ->
  (forall b, 0 <= b < base -> get_sys_bit map b = false) ->
  exists r, scan_chunks n map base s = Done r s
    /\ ((r = base + 32 * Z.of_nat n /\ forall b, 0 <= b < r -> get_sys_bit map b = false)
        \/ (base <= r < base + 32 * Z.of_nat n /\ get_sys_bit map r = true
            /\ forall b, 0 <= b < r -> get_sys_bit map b = false)).
Proof.
  intros Hm. induction n as [|n IH]; intros base H0 Hb Hlow; cbn [scan_chunks].
  - exists base. split; [done|]. left. split; [lia|done].
  - destruct (Z.eqb_spec (get_sys_bits map base) 0) as [E|E]; cbn [negb].
    + pose proof (proj1 (chunk_zero map base Hm Hb) E) as Hz.
      destruct (IH (base + 32)) as (r & Er & Hr).
      * lia.
      * rewrite Z.add_mod, Hb by lia. done.
      * intros b Hb'. destruct (Z.lt_ge_cases b base); [apply Hlow; lia|].
        replace b with (base + (b - base)) by lia. apply Hz. lia.
      * exists r. split; [done|]. destruct Hr as [[-> ?]|(? & ? & ?)]; [left|right]; split_and!; try done; lia.
    + destruct (bit_in_chunk map base Hm Hb E) as (i & Hi & Hg).
      destruct (scan_bit_run map s (base + i) Hg (Z.to_nat BITCHUNK_BITS) base) as (r & Er & Hr & Hgr & Hl).
      * lia.
      * change (Z.to_nat BITCHUNK_BITS) with 32%nat. lia.
      * exists r. split; [done|]. right. split_and!; [lia|lia|done|].
        intros b Hb'. destruct (Z.lt_ge_cases b base); [apply Hlow; lia|]. apply Hl. lia.
Qed.

Lemma has_pending_any map s :
  map_ok map -> exists r, has_pending map ANY s = Done r s /\ first_pending map r.
Proof.
  intros Hm. unfold has_pending. rewrite Z.eqb_refl. cbn [negb].
  destruct (scan_chunks_run map s Hm 4 0) as (r & Er & Hr); [lia|done|lia|].
  change (Z.to_nat (NR_SYS_PROCS / BITCHUNK_BITS)) with 4%nat. rewrite (bind_done _ _ _ _ _ Er).
  change (0 + 32 * Z.of_nat 4) with NR_SYS_PROCS in Hr. eexists. split; [done|].
  destruct Hr as [[-> Hl]|(Hr & Hg & Hl)].
  - rewrite Z.ltb_irrefl. left. split; [done|]. intros b Hb. by apply Hl.
  - rewrite (proj2 (Z.ltb_lt _ _)) by lia. right. by split_and!.
Qed.

Lemma nr_to_id_run s n v :
  core (view s) (privs s) -> live (view s) n v ->
  exists id, v_priv v = Some id /\ bit_ok id /\ nr_to_id n s = Done id s.
Proof.
  intros Hc Hl. destruct (c_priv _ _ Hc n v Hl) as (id & pv & Hid & Hok & Hpv & _).
  destruct (live_proc_of s n v Hl) as (p & Hp & Ep). exists id. split_and!; [done|apply Hok..|].
  unfold nr_to_id. erewrite bind_get_proc by done.
  rewrite (bind_priv_of p id pv) by (by rewrite (f_equal v_priv Ep : p_priv p = v_priv v) || done).
  by destruct (c_privs _ _ Hc id pv Hok Hpv) as (-> & _).
Qed.

(** A source asked for is live, or any. *)
Definition src_ok (V : views) (src_e src_p : Z) : Prop :=
  (src_e = ANY /\ src_p = ANY) \/ exists w, live V src_p w /\ v_ep w = src_e.

(** Process [n] owns structure [b] and is an acceptable source. *)
Record owner (s : kstate) (src_e b n : Z) (w : ipcv) : Prop := {
  ow_ok : bit_ok b;
  ow_live : live (view s) n w;
  ow_priv : v_priv w = Some b;
  ow_nr : exists pb, privs s !! b = Some pb /\ s_proc_nr pb = n;
  ow_acc : accepts src_e (v_ep w) = true
}.

(** The only acceptable process is the source asked for. *)
Lemma owner_src s src_e src_p v b n w :
  core (view s) (privs s) -> live (view s) src_p v -> v_ep v = src_e -> owner s src_e b n w ->
  n = src_p /\ w = v /\ v_priv v = Some b.
Proof.
  intros Hc Hv <- [_ Hw Hp _ Ha]. unfold accepts in Ha.
  rewrite (proj2 (Z.eqb_neq _ _) (proj1 (live_ep s Hc src_p v Hv))) in Ha. apply Z.eqb_eq in Ha.
  assert (n = src_p) as -> by (destruct (c_ep _ _ Hc n w Hw) as (<- & _), (c_ep _ _ Hc src_p v Hv) as (<- & _); by rewrite Ha).
  assert (w = v) as -> by (destruct Hw as (_ & ? & _), Hv as (_ & ? & _); congruence). done.
Qed.

(** A bit [r] of the map that is asked for: the lowest one for any source. *)
Record asked_bit (s : kstate) (map : sys_map) (src_p r : Z) : Prop := {
  ab_ok : bit_ok r;
  ab_set : get_sys_bit map r = true;
  ab_low : src_p = ANY -> forall b, 0 <= b < r -> get_sys_bit map b = false;
  ab_src : src_p <> ANY -> exists v, live (view s) src_p v /\ v_priv v = Some r
}.

Lemma has_pending_run s src_e src_p map :
  core (view s) (privs s) -> src_ok (view s) src_e src_p -> map_ok map ->
  exists r, has_pending map src_p s = Done r s
    /\ ((r = NULL_PRIV_ID /\ forall b n w, owner s src_e b n w -> get_sys_bit map b = false)
        \/ asked_bit s map src_p r).
Proof.
  intros Hc [[-> ->]|(w & Hw & He)] Hm.
  - destruct (has_pending_any map s Hm) as (r & Er & [[-> H]|(? & ? & ?)]); (eexists; split; [exact Er|]).
    + left. split; [done|]. intros b n w Ho. apply H, Ho.
    + right. by split.
  - unfold has_pending. assert (src_p <> ANY) as Hne by (intros ->; by destruct Hw as (Hn & _)).
    rewrite (proj2 (Z.eqb_neq _ _) Hne). cbn [negb]. destruct (nr_to_id_run s src_p w Hc Hw) as (id & Hid & Hok & E).
    rewrite (bind_done _ _ _ _ _ E). eexists. split; [done|]. destruct (get_sys_bit map id) eqn:Eg.
    + right. split; try done. intros _. by exists w.
    + left. split; [done|]. intros b n u Ho. destruct (owner_src s src_e src_p w b n u Hc Hw He Ho) as (_ & _ & Hb).
      rewrite Hid in Hb. by injection Hb as <-.
Qed.

(** ** Pending notifications *)

(** The receiver got a message [m] from the live process [n]. *)
Record got (s s' : kstate) (caller : Z) (vc : ipcv) (src_e n : Z) (m : message) (st : Z) : Prop := {
  got_moved : moved s s';
  got_src : exists w, live (view s) n w /\ accepts src_e (v_ep w) = true
    /\ exists vc', view s' !! caller = Some vc' /\ v_recv vc' = None /\ carries vc vc' m (v_ep w) st
}.

Definition notify_unmark (b : Z) (pv : priv) : priv :=
  set_s_notify_pending (unset_sys_bit (s_notify_pending pv) b) pv.

Lemma notify_unmark_relax V P id pv b :
  P !! id = Some pv -> bit_ok b -> prelax V P (<[id := notify_unmark b pv]> P).
Proof.
  intros Hp Hb. apply (prelax_insert V P id pv); try done.
  - cbn. apply map_ok_unset.
  - intros M1 M2 b' Hb'. unfold pending. cbn. rewrite get_unset_sys_bit by done. left.
    by destruct (get_sys_bit (s_notify_pending pv) b').
Qed.

Definition v_notified (m : message) (src st : Z) (v : ipcv) : ipcv := v_status_add st (v_deliver m src v).

Lemma v_notified_carries m src st v : carries v (v_notified m src st v) m src st.
Proof.
  unfold v_notified, v_status_add. rewrite reply_deliver.
  destruct (has (v_misc v) MF_REPLY_PEND) eqn:E; split; try done; by rewrite E.
Qed.
Lemma v_notified_keeps m src st v : keeps v (v_notified m src st v).
Proof. unfold v_notified, v_status_add. destruct (has _ _); split; try done; by left. Qed.

Lemma v_status_keeps z v : keeps v (v_status_add z v).
Proof. unfold v_status_add. destruct (has (v_misc v) MF_REPLY_PEND); split; try done; by left. Qed.

(** A message is stored for a process that does not wait. *)
Lemma deliver_moved s s' caller vc v' P' :
  ready s -> live (view s) caller vc -> keeps vc v' -> v_recv v' = None ->
  goes s s' (<[caller := v']> (view s)) P' -> prelax (view s) (privs s) P' -> moved s s'.
Proof.
  intros Hr Hlc Hk Hn HG HP. eapply goes_moved; [done|exact HG| | |done].
  - eapply relax_insert; [apply Hlc|done].
  - apply dlv_insert; [exact (c_dlv _ _ (r_core _ Hr))|by left].
Qed.

Lemma take_notify_run s caller vc id pv src_e n w b :
  ready s -> live (view s) caller vc -> v_recv vc = None -> has (v_misc vc) MF_DELIVERMSG = false ->
  v_priv vc = Some id -> privs s !! id = Some pv -> bit_ok b -> live (view s) n w ->
  accepts src_e (v_ep w) = true ->
  exists s', take_notify caller src_e b n (v_ep w) s = Done tt s'
    /\ moved s s' /\ view s' = <[caller := v_notified (notify_msg (k_monotonic s) n pv) (v_ep w)
                                   (IPC_STATUS_CALL_TO NOTIFY) vc]> (view s)
    /\ privs s' = <[id := notify_taken n (notify_unmark b pv)]> (privs s).
Proof.
  intros Hr Hlc Hrv Hd Hid Hpv Hb Hw Ha. unfold take_notify, unset_notify_pending. rewrite bind_assert.
  2:{ destruct (Z.eqb_spec n NONE) as [En|]; [|done]. destruct Hw as (Hn & _). rewrite En in Hn. by vm_compute in Hn. }
  destruct (live_proc_of s caller vc Hlc) as (c & Hcp & Ec). rewrite bind_assoc.
  erewrite bind_get_proc by done.
  assert (p_priv c = Some id) as Hcid by (by rewrite (f_equal v_priv Ec : p_priv c = v_priv vc)).
  destruct (step_priv_of s c id pv (fun pv => set_s_notify_pending (unset_sys_bit (s_notify_pending pv) b) pv)
    (r_base _ Hr) Hcid Hpv) as (s1 & E1 & G1 & Hps).
  rewrite (bind_done _ _ _ _ _ E1). change (set_s_notify_pending _ pv) with (notify_unmark b pv) in G1.
  assert (procs s1 !! caller = Some c) as Hc1 by (by rewrite Hps). erewrite bind_get_proc by done.
  rewrite bind_assert by (by rewrite (f_equal v_misc Ec : p_misc_flags c = v_misc vc), Hd).
  rewrite bind_assert by (rewrite <- Ha; unfold accepts; by rewrite (Z.eqb_sym src_e (v_ep w))).
  assert (privs s1 !! id = Some (notify_unmark b pv)) as Hpv1 by (rewrite (g_privs _ _ _ _ G1); apply lookup_insert_eq).
  destruct (build_spec s1 n caller c id _ (g_base _ _ _ _ G1) Hc1 Hcid Hpv1) as (s2 & E2 & G2).
  rewrite (bind_done _ _ _ _ _ E2). rewrite (g_view _ _ _ _ G1), (g_privs _ _ _ _ G1), insert_insert_eq in G2.
  pose proof (goes_trans _ _ _ _ _ _ _ G1 G2) as G.
  rewrite (goes_field k_monotonic _ _ _ _ (fun _ => eq_refl) G1).
  change (notify_msg (k_monotonic s) n (notify_unmark b pv)) with (notify_msg (k_monotonic s) n pv).
  set (m := notify_msg (k_monotonic s) n pv).
  rewrite <- (insert_id (view s) caller vc) in G by apply Hlc.
  vstep s s2 caller (v_deliver m (v_ep w) vc) G (v_deliver_step s2 caller vc m (v_ep w)) s3 G3.
  destruct (v_status_step s3 caller (v_deliver m (v_ep w) vc) (IPC_STATUS_CALL_TO NOTIFY)
    (g_base _ _ _ _ G3) (goes_lookup _ _ _ _ _ _ G3)) as (s4 & E4 & G4).
  rewrite (g_view _ _ _ _ G3), (g_privs _ _ _ _ G3), insert_insert_eq in G4.
  pose proof (goes_trans _ _ _ _ _ _ _ G3 G4) as G4'. clear G4. rename G4' into G4.
  exists s4. split; [done|]. split; [|split; apply G4].
  eapply deliver_moved; [done|exact Hlc|apply v_notified_keeps| |exact G4|].
  - destruct (k_recv _ _ (v_notified_keeps m (v_ep w) (IPC_STATUS_CALL_TO NOTIFY) vc)); congruence.
  - pose proof (notify_unmark_relax (view s) (privs s) id pv b Hpv Hb) as H1.
    pose proof (notify_taken_same (view s) (<[id := notify_unmark b pv]> (privs s)) id (notify_unmark b pv) n
      (lookup_insert_eq _ _ _)) as H2. rewrite insert_insert_eq in H2.
    eapply prelax_trans; [reflexivity|exact H1|exact H2|]. intros b' pb u. by apply prelax_back.
Qed.

(** The notification of [n], whose bit is the one asked for, is pending. *)
Definition notifies (s : kstate) (pv : priv) (src_p n b : Z) : Prop :=
  asked_bit s (s_notify_pending pv) src_p b /\ exists pb, privs s !! b = Some pb /\ s_proc_nr pb = n.

(** No acceptable process has a notification pending that may be taken. *)
Definition no_notify (s : kstate) (vc : ipcv) (src_e : Z) : Prop :=
  has (v_misc vc) MF_REPLY_PEND = true
  \/ forall id pv b n w, v_priv vc = Some id -> privs s !! id = Some pv -> owner s src_e b n w ->
       get_sys_bit (s_notify_pending pv) b = false.

Lemma receive_notify_run s caller vc src_e src_p :
  ready s -> live (view s) caller vc -> v_recv vc = None -> has (v_misc vc) MF_DELIVERMSG = false ->
  src_ok (view s) src_e src_p ->
  (receive_notify caller src_e src_p s = Done false s /\ no_notify s vc src_e)
  \/ exists s' n id pv b, receive_notify caller src_e src_p s = Done true s'
       /\ v_priv vc = Some id /\ privs s !! id = Some pv
       /\ has (v_misc vc) MF_REPLY_PEND = false /\ notifies s pv src_p n b
       /\ privs s' = <[id := notify_taken n (notify_unmark b pv)]> (privs s)
       /\ got s s' caller vc src_e n (notify_msg (k_monotonic s) n pv) (IPC_STATUS_CALL_TO NOTIFY).
Proof.
  intros Hr Hlc Hrv Hd Hsrc. pose proof Hr as [Hb Hc Hnf Hm]. unfold receive_notify.
  destruct (live_proc_of s caller vc Hlc) as (c & Hcp & Ec). erewrite bind_get_proc by done.
  rewrite (f_equal v_misc Ec : p_misc_flags c = v_misc vc). unfold no_notify.
  destruct (has (v_misc vc) MF_REPLY_PEND); [left; split; [done|by left]|].
  destruct (c_priv _ _ Hc caller vc Hlc) as (id & pv & Hid & Hok & Hpv & _).
  destruct (c_privs _ _ Hc id pv Hok Hpv) as (_ & Hm1 & _).
  unfold has_pending_notify. rewrite bind_assoc. erewrite bind_get_proc by done. rewrite bind_assoc.
  rewrite (bind_priv_of c id pv) by (by rewrite (f_equal v_priv Ec : p_priv c = v_priv vc) || done).
  destruct (has_pending_run s src_e src_p _ Hc Hsrc Hm1) as (r & Er & Hr').
  rewrite (bind_done _ _ _ _ _ Er). destruct Hr' as [[-> Hno]|Hab].
  { left. split; [done|]. right. intros id' pv' b n w Hid' Hpv'. rewrite Hid in Hid'. injection Hid' as <-.
    rewrite Hpv in Hpv'. injection Hpv' as <-. apply Hno. }
  pose proof Hab as [Hbr Hg _ Hsp].
  destruct (Z.eqb_spec r NULL_PRIV_ID) as [E|_]; [unfold bit_ok in Hbr; rewrite E in Hbr; by destruct Hbr|].
  destruct (c_pend _ _ Hc id pv r Hok Hpv Hbr) as (pr & w & Hpr & Hw); [unfold pending; by rewrite Hg|].
  unfold id_to_nr. rewrite bind_assoc.
  rewrite (bind_done _ _ pr s s) by (unfold get_priv_id; by rewrite Hpr). rewrite bind_ret.
  destruct (live_proc_of s (s_proc_nr pr) w Hw) as (p & Hp & Ep). erewrite bind_get_proc by done.
  rewrite (bind_done _ _ _ _ _ (CANRECEIVE_nf s Hc Hnf src_e (p_endpoint p) caller vc FromNotify Hlc)).
  rewrite (f_equal v_ep Ep : p_endpoint p = v_ep w). fold (accepts src_e (v_ep w)).
  destruct (accepts src_e (v_ep w)) eqn:Ea; cbn [negb]; [right|left].
  - destruct (take_notify_run s caller vc id pv src_e (s_proc_nr pr) w r Hr Hlc Hrv Hd Hid Hpv Hbr Hw Ea) as (s' & E & M & EV & EP).
    exists s', (s_proc_nr pr), id, pv, r. split_and!; [by rewrite (bind_done _ _ _ _ _ E)|done..|split; [done|by exists pr]|done|].
    split; [done|]. exists w. split_and!; [done..|]. eexists. rewrite EV. split_and!; [apply lookup_insert_eq| |apply v_notified_carries].
    destruct (k_recv _ _ (v_notified_keeps (notify_msg (k_monotonic s) (s_proc_nr pr) pv) (v_ep w) (IPC_STATUS_CALL_TO NOTIFY) vc)); congruence.
  - split; [done|]. right. intros id' pv' b n u _ _ Ho. destruct Hsrc as [[Hany _]|(v & Hv & He)]; [by rewrite Hany in Ea|].
    destruct (owner_src s src_e src_p v b n u Hc Hv He Ho) as (-> & -> & Hbv). destruct (ow_nr _ _ _ _ _ Ho) as (pb & Hpb & En).
    destruct Hsp as (v' & Hv' & Hr'); [intros ->; by destruct Hv as (Hn & _)|].
    assert (v' = v) as -> by (destruct Hv as (_ & ? & _), Hv' as (_ & ? & _); congruence).
    assert (b = r) as -> by congruence. assert (pb = pr) as -> by congruence.
    assert (w = v) as -> by (rewrite En in Hw; destruct Hv as (_ & ? & _), Hw as (_ & ? & _); congruence).
    unfold accepts in Ea. by rewrite He, Z.eqb_refl, orb_true_r in Ea.
Qed.
