(* ===== verification/IpcAsync.v ===== *)
(** * Asynchronous messages for a receiver

    The scan of the tables of asynchronous messages ([try_one], [try_async]) on
    behalf of a receiver: which entry of which table is delivered, and that none
    is overlooked. *)

From S2P Require Import Prelude Monad Timers Endpoint Chain Kernel Sched RunQueue Init SchedProps Ipc IpcInv Deadlock IpcStep Notify IpcSend IpcRecv IpcPend.

(** ** Tables of asynchronous messages *)

Lemma base_atab s T : base s -> base (set_atab T s).
Proof.
  intros [[HQ Hpr Hs Hcur] Hc Hp]. split; [|exact Hc|exact Hp].
  split; [destruct HQ as [L HQ]; exists L; by destruct HQ; split|exact Hpr|by destruct Hs; split|exact Hcur].
Qed.

(** Only the table of the sender changes. *)
Record tabled (s s' : kstate) : Prop := {
  tb_view : view s' = view s;
  tb_privs : privs s' = privs s;
  tb_notified : notified s s'
}.

Lemma tabled_refl s : ready s -> tabled s s.
Proof. intros H. split; [done..|by apply notified_refl]. Qed.

Lemma tabled_set s T : ready s -> same_msgs (atab s) T -> tabled s (set_atab T s).
Proof.
  intros [Hb Hc Hnf Hm] HT. split; [done..|]. split; [|by intros n v ? ?].
  split; [|done|apply prelax_refl|done|done]. split; [by apply base_atab|done..].
Qed.

(** What [A_RETR] makes of an entry of the process with endpoint [own]. *)
Definition resolve (own : Z) (t : asynmsg) : asynmsg := if am_dst t =? SELF then set_am_dst own t else t.

Lemma A_RETR_eq s src w t i : live (view s) src w ->
  A_RETR src t i s = Done (resolve (v_ep w) <$> atab s !! (v_ep w, asyn_addr t i)) s.
Proof.
  intros Hw. unfold A_RETR. destruct (live_proc_of s src w Hw) as (p & Hp & Ep). erewrite bind_get_proc by done.
  rewrite (bind_done _ _ s s s) by done. rewrite (f_equal v_ep Ep : p_endpoint p = v_ep w). by destruct (atab s !! _).
Qed.

Lemma A_RETR_run s src w t i : live (view s) src w ->
  exists o, A_RETR src t i s = Done o s
    /\ forall e, o = Some e -> exists t0, atab s !! (v_ep w, asyn_addr t i) = Some t0 /\ am_msg t0 = am_msg e.
Proof.
  intros Hw. rewrite (A_RETR_eq s src w t i Hw). eexists. split; [done|]. intros e He.
  destruct (atab s !! _) as [t0|]; [|done]. exists t0. split; [done|]. injection He as <-. unfold resolve. by destruct (_ =? _).
Qed.

Lemma store_result_run s src w t i e flags r :
  ready s -> live (view s) src w ->
  (exists t0, atab s !! (v_ep w, asyn_addr t i) = Some t0 /\ am_msg t0 = am_msg e) ->
  exists b s', store_result src t i e flags r s = Done b s' /\ tabled s s'
    /\ atab s' = <[(v_ep w, asyn_addr t i) := set_am_flags (Z.lor flags AMF_DONE) (set_am_result r e)]> (atab s).
Proof.
  intros Hr Hw (t0 & Ht & Em). unfold store_result, A_INSRT. destruct (live_proc_of s src w Hw) as (p & Hp & Ep).
  rewrite bind_assoc. erewrite bind_get_proc by done.
  match goal with |- context [modify ?g] => set (f := g) end.
  exists (has flags AMF_NOTIFY || (negb (r =? OK) && has flags AMF_NOTIFY_ERR)), (f s). split; [done|]. unfold f.
  rewrite (f_equal v_ep Ep : p_endpoint p = v_ep w), Ht. split; [|done]. apply tabled_set; [done|].
  intros k t' Hk. destruct (decide (k = (v_ep w, asyn_addr t i))) as [->|Hne].
  - rewrite lookup_insert_eq in Hk. injection Hk as <-. exists t0. split; [done|]. split; [done|].
    pose proof (has_flag_set_same AMF_DONE flags) as Hd. unfold flag_set in Hd. cbn. by rewrite Hd.
  - rewrite lookup_insert_ne in Hk by done. by exists t'.
Qed.

(** ** What is offered to a receiver *)

(** Entry [t] of the process with endpoint [own] is a message for [vd]. *)
Definition goes_to (t : asynmsg) (own : Z) (vd : ipcv) : bool :=
  negb (bad_flags (am_flags t)) && negb (has (am_flags t) AMF_DONE)
  && ((if am_dst t =? SELF then own else am_dst t) =? v_ep vd)
  && negb (has (am_flags t) AMF_NOREPLY && has (v_misc vd) MF_REPLY_PEND).

(** A scan goes on after [t]. *)
Definition skipped (t : asynmsg) (own : Z) (vd : ipcv) : bool :=
  (am_flags t =? 0) || negb (bad_flags (am_flags t)) && negb (goes_to t own vd).

(** Entry [i] of the table, the first message for [vd] from entry [i0] on. *)
Record picks (T : gmap (Z * Z) asynmsg) (own tab : Z) (vd : ipcv) (i0 size i : Z) (t : asynmsg) : Prop := {
  pk_in : i0 <= i < size;
  pk_at : T !! (own, asyn_addr tab i) = Some t;
  pk_to : goes_to t own vd = true;
  pk_first : forall j, i0 <= j < i -> exists u, T !! (own, asyn_addr tab j) = Some u /\ skipped u own vd = true
}.

(** [n] has asynchronous messages for [dst], the first one in entry [i]. *)
Definition offers (s : kstate) (n : Z) (w : ipcv) (dst : Z) (vd : ipcv) (i : Z) (t : asynmsg) : Prop :=
  exists id pv idd, v_priv w = Some id /\ privs s !! id = Some pv /\ v_priv vd = Some idd
    /\ has (s_flags pv) SYS_PROC = true /\ s_asynendpoint pv = v_ep w
    /\ (get_sys_bit (s_ipc_to pv) idd = true \/ n = dst)
    /\ picks (atab s) (v_ep w) (s_asyntab pv) vd 0 (s_asynsize pv) i t.

(** The entry is done, with result [OK]. *)
Definition entry_done (s s' : kstate) (w : ipcv) (i : Z) : Prop :=
  exists id pv t', v_priv w = Some id /\ privs s !! id = Some pv
    /\ atab s' !! (v_ep w, asyn_addr (s_asyntab pv) i) = Some t' /\ has (am_flags t') AMF_DONE = true /\ am_result t' = OK.

(** [m] is a message for [vd] in the table of [w]. *)
Definition from_table (s : kstate) (w vd : ipcv) (m : message) : Prop :=
  exists a t, atab s !! (v_ep w, a) = Some t /\ goes_to t (v_ep w) vd = true /\ am_msg t = m.

Lemma goes_to_not_done t own vd : goes_to t own vd = true -> has (am_flags t) AMF_DONE = false.
Proof. unfold goes_to. rewrite !andb_true_iff, !negb_true_iff. tauto. Qed.

Lemma from_table_moved s s' w w' vd m : moved s s' -> v_ep w' = v_ep w -> from_table s' w' vd m -> from_table s w vd m.
Proof.
  intros M E (a & t & Ht & Hg & Em). rewrite E in Ht, Hg. destruct (m_atab _ _ M _ _ Ht) as (t0 & ? & ? & D).
  specialize (D (goes_to_not_done _ _ _ Hg)). subst t0. by exists a, t.
Qed.

Lemma offers_table s n w dst vd i t : offers s n w dst vd i t -> from_table s w vd (am_msg t).
Proof. intros (id & pv & idd & _ & _ & _ & _ & _ & _ & []). by eexists _, t. Qed.

(** The fields of a structure that an offer depends on. *)
Definition asyn_of (pv : priv) := (s_flags pv, s_ipc_to pv, s_asynendpoint pv, s_asyntab pv, s_asynsize pv).

Lemma picks_same T T' own tab vd vd' i0 size i t :
  (forall a, T' !! (own, a) = T !! (own, a)) -> v_ep vd' = v_ep vd -> v_misc vd' = v_misc vd ->
  picks T own tab vd i0 size i t -> picks T' own tab vd' i0 size i t.
Proof.
  intros HT He Hm [H1 H2 H3 H4].
  assert (forall u, goes_to u own vd' = goes_to u own vd) as Hg by (intros u; unfold goes_to; by rewrite He, Hm).
  split; [done|by rewrite HT|by rewrite Hg|]. intros j Hj. destruct (H4 j Hj) as (u & Hu & Hs). exists u.
  split; [by rewrite HT|]. unfold skipped. by rewrite Hg.
Qed.

Lemma offers_same s s' n w w' dst vd vd' i t :
  v_ep w' = v_ep w -> v_priv w' = v_priv w ->
  v_ep vd' = v_ep vd -> v_misc vd' = v_misc vd -> v_priv vd' = v_priv vd ->
  (forall a, atab s' !! (v_ep w, a) = atab s !! (v_ep w, a)) ->
  (forall id, v_priv w = Some id -> asyn_of <$> privs s' !! id = asyn_of <$> privs s !! id) ->
  offers s n w dst vd i t -> offers s' n w' dst vd' i t.
Proof.
  intros Ew Pw Ed Md Pd HT HP (id & pv & idd & Hid & Hpv & Hidd & Hf & He & Hs & Hk).
  specialize (HP id Hid). rewrite Hpv in HP. destruct (privs s' !! id) as [pv'|] eqn:Hpv'; [|done].
  injection HP as E1 E2 E3 E4 E5. exists id, pv', idd. rewrite Pw, Pd, Ew, E1, E2, E3, E4, E5.
  split_and!; try done. by eapply picks_same.
Qed.

Lemma entry_done_same s0 s s' w w' i :
  v_ep w' = v_ep w -> v_priv w' = v_priv w ->
  (forall id, v_priv w = Some id -> asyn_of <$> privs s0 !! id = asyn_of <$> privs s !! id) ->
  entry_done s s' w' i -> entry_done s0 s' w i.
Proof.
  intros Ew Pw HP (id & pv & t' & Hid & Hpv & H). rewrite Pw in Hid. rewrite Ew in H. specialize (HP id Hid).
  rewrite Hpv in HP. destruct (privs s0 !! id) as [pv0|] eqn:Hpv0; [|done]. injection HP as _ _ _ E _.
  exists id, pv0, t'. by rewrite E.
Qed.

(** ** What a scan leaves alone *)

(** Of what receivers look at, only the table of endpoint [e], and what structure
    [id] says of its own table and of itself as a pending sender, changes. *)
Record aframe (s s' : kstate) (e id : Z) : Prop := {
  af_atab : forall k, k.1 <> e -> atab s' !! k = atab s !! k;
  af_priv : forall j, j <> id -> asyn_of <$> privs s' !! j = asyn_of <$> privs s !! j;
  af_pend : forall j b, bit_ok j -> bit_ok b -> b <> id ->
    (fun pv => get_sys_bit (s_asyn_pending pv) b) <$> privs s' !! j = (fun pv => get_sys_bit (s_asyn_pending pv) b) <$> privs s !! j
}.

Lemma aframe_refl s e id : aframe s s e id.
Proof. by split. Qed.
Lemma aframe_trans s1 s2 s3 e id : aframe s1 s2 e id -> aframe s2 s3 e id -> aframe s1 s3 e id.
Proof.
  intros [A1 A2 A3] [B1 B2 B3]. split.
  - intros k Hk. by rewrite B1, A1.
  - intros j Hj. by rewrite B2, A2.
  - intros j b Hj Hb Hne. by rewrite B3, A3.
Qed.

(** One structure changes. *)
Lemma aframe_insert s s' e id j pv pv' :
  atab s' = atab s -> privs s !! j = Some pv -> privs s' = <[j := pv']> (privs s) ->
  (j <> id -> asyn_of pv' = asyn_of pv) ->
  (bit_ok j -> forall b, bit_ok b -> b <> id -> get_sys_bit (s_asyn_pending pv') b = get_sys_bit (s_asyn_pending pv) b) ->
  aframe s s' e id.
Proof.
  intros HT Hpv HP Ha Hb. split; [by rewrite HT|..].
  - intros k Hk. rewrite HP. destruct (decide (k = j)) as [->|Hne]; [|by rewrite lookup_insert_ne].
    rewrite lookup_insert_eq, Hpv. cbn. by rewrite Ha.
  - intros k b Hk Hb' Hne. rewrite HP. destruct (decide (k = j)) as [->|Hne']; [|by rewrite lookup_insert_ne].
    rewrite lookup_insert_eq, Hpv. cbn. by rewrite Hb.
Qed.

Lemma mini_notify_aframe s caller v dst_e r s' e id :
  ready s -> live (view s) caller v -> mini_notify caller dst_e s = Done r s' -> aframe s s' e id.
Proof.
  intros Hr Hv E. destruct (live_proc_of s caller v Hv) as (c & Hc & <-).
  destruct (c_priv _ _ (r_core _ Hr) caller _ Hv) as (cid & _ & Hcid & _).
  destruct (mini_notify_spec s caller c cid dst_e Hr Hc Hv Hcid) as
    [[_ E']|(dst & w & idd & pv & s1 & _ & _ & _ & Hpv & E' & G)]; rewrite E in E'; injection E' as _ <-; [apply aframe_refl|].
  destruct (_ && _); (eapply aframe_insert; [exact (goes_field atab _ _ _ _ (fun _ => eq_refl) G)|exact Hpv|apply G|..]).
  - intros _. unfold notify_taken. by destruct (caller =? HARDWARE), (caller =? SYSTEM).
  - intros _ b _ _. unfold notify_taken. by destruct (caller =? HARDWARE), (caller =? SYSTEM).
  - done.
  - done.
Qed.

(** ** One table *)

(** What a scan from entry [i0] on for the receiver [dst] did. *)
Inductive scanned (s : kstate) (receive_e dst : Z) (vd w : ipcv) (tab i0 size : Z) : scan -> kstate -> Prop :=
| scanned_fault :
    (accepts receive_e (v_ep w) = true -> forall i t, ~ picks (atab s) (v_ep w) tab vd i0 size i t) -> scanned s receive_e dst vd w tab i0 size ScanFault s
| scanned_none r done nt s' :
    r <> OK -> tabled s s' -> (forall k, k.1 <> v_ep w -> atab s' !! k = atab s !! k) ->
    (accepts receive_e (v_ep w) = true -> forall i t, ~ picks (atab s) (v_ep w) tab vd i0 size i t) ->
    scanned s receive_e dst vd w tab i0 size (ScanEnd r done nt) s'
| scanned_got i t nt s' :
    accepts receive_e (v_ep w) = true -> picks (atab s) (v_ep w) tab vd i0 size i t -> moved s s' -> privs s' = privs s ->
    atab s' = <[(v_ep w, asyn_addr tab i) := set_am_flags (Z.lor (am_flags t) AMF_DONE) (set_am_result OK (resolve (v_ep w) t))]> (atab s) ->
    view s' = <[dst := v_deliver (am_msg t) (v_ep w) vd]> (view s) ->
    scanned s receive_e dst vd w tab i0 size (ScanEnd OK false nt) s'.

Lemma v_deliver_keeps m src v : keeps v (v_deliver m src v).
Proof. split; try done. by left. Qed.

Section Picks.
Context (T : gmap (Z * Z) asynmsg) (own tab : Z) (vd : ipcv) (i0 size : Z).

Lemma picks_skip t i u :
  T !! (own, asyn_addr tab i0) = Some t -> skipped t own vd = true ->
  picks T own tab vd (i0 + 1) size i u <-> picks T own tab vd i0 size i u /\ i0 < i.
Proof.
  intros Ht Hs. split.
  - intros [H1 H2 H3 H4]. split; [|lia]. split; [lia|done|done|]. intros j Hj.
    destruct (decide (j = i0)) as [->|]; [by exists t|]. apply H4. lia.
  - intros [[H1 H2 H3 H4] Hlt]. split; [lia|done|done|]. intros j Hj. apply H4. lia.
Qed.

Lemma skipped_not_to t : skipped t own vd = true -> goes_to t own vd = false.
Proof.
  unfold skipped. rewrite orb_true_iff, andb_true_iff, !negb_true_iff. intros [E|[_ H]]; [|done].
  apply Z.eqb_eq in E. unfold goes_to. by rewrite E.
Qed.

Lemma picks_head t i u :
  T !! (own, asyn_addr tab i0) = Some t -> skipped t own vd = true -> picks T own tab vd i0 size i u -> i0 < i.
Proof.
  intros Ht Hs [H1 H2 H3 _]. destruct (decide (i = i0)) as [->|]; [|lia]. rewrite Ht in H2. injection H2 as <-.
  by rewrite skipped_not_to in H3.
Qed.

(** The scan stops at an entry that is no message for the receiver. *)
Lemma picks_stop i u :
  (forall t, T !! (own, asyn_addr tab i0) = Some t -> goes_to t own vd = false /\ skipped t own vd = false) ->
  ~ picks T own tab vd i0 size i u.
Proof.
  intros Ht [H1 H2 H3 H4]. destruct (decide (i = i0)) as [->|].
  - destruct (Ht u H2). congruence.
  - destruct (H4 i0) as (t & E & Hs); [lia|]. destruct (Ht t E). congruence.
Qed.
End Picks.

Lemma scanned_next s receive_e dst vd w tab i0 size t o s' :
  atab s !! (v_ep w, asyn_addr tab i0) = Some t -> skipped t (v_ep w) vd = true ->
  scanned s receive_e dst vd w tab (i0 + 1) size o s' -> scanned s receive_e dst vd w tab i0 size o s'.
Proof.
  intros Ht Hs H.
  assert (forall i u, picks (atab s) (v_ep w) tab vd i0 size i u -> picks (atab s) (v_ep w) tab vd (i0 + 1) size i u) as Hp.
  { intros i u Hp. apply (picks_skip _ _ _ _ _ _ t); [done..|]. split; [done|]. by eapply picks_head. }
  destruct H as [Hn|r dn nt s' Hne Tb HT Hn|i u nt s' Ha Hk M P T V].
  - apply scanned_fault. intros Ha i u Hk. by eapply (Hn Ha), Hp.
  - apply scanned_none; try done. intros Ha i u Hk. by eapply (Hn Ha), Hp.
  - eapply scanned_got; try done. by apply (picks_skip _ _ _ _ _ _ t) in Hk as [? _].
Qed.

Lemma scanned_refused s receive_e dst vd w tab i0 i1 size o s' :
  accepts receive_e (v_ep w) = false ->
  scanned s receive_e dst vd w tab i1 size o s' -> scanned s receive_e dst vd w tab i0 size o s'.
Proof.
  intros Ha [?|r dn nt s1 ? ? ? _|? ? ? ? Ha' _ _ _ _ _]; [|by apply scanned_none; try done; congruence|congruence].
  apply scanned_fault. congruence.
Qed.

(** The message of entry [i] is handed over and the entry marked done. *)
Lemma deliver_entry_run s src w dst vd receive_e t i size t0 :
  ready s -> live (view s) src w -> live (view s) dst vd -> v_recv vd = None -> accepts receive_e (v_ep w) = true ->
  i < size -> atab s !! (v_ep w, asyn_addr t i) = Some t0 -> goes_to t0 (v_ep w) vd = true ->
  let e := resolve (v_ep w) t0 in
  exists o s', (deliver dst (am_msg e) (v_ep w) ;; nt <- store_result src t i e (am_flags e) OK ;; ret (ScanEnd OK false nt)) s
    = Done o s' /\ scanned s receive_e dst vd w t i size o s'.
Proof.
  intros Hr Hw Hd Hrv Ha Hi Ht Hg e. assert (am_flags e = am_flags t0 /\ am_msg e = am_msg t0) as [Ef Em]
    by (unfold e, resolve; by destruct (am_dst t0 =? SELF)).
  destruct (v_deliver_step s dst vd (am_msg e) (v_ep w) (r_base _ Hr) (proj1 (proj2 Hd))) as (s1 & E1 & G1).
  rewrite (bind_done _ _ _ _ _ E1).
  assert (moved s s1) as M1.
  { eapply deliver_moved; [done|exact Hd|apply v_deliver_keeps|done|exact G1|apply prelax_refl]. }
  destruct (relax_live _ _ _ _ (m_relax _ _ M1) Hw) as (w1 & Hw1 & K1).
  pose proof (goes_field atab _ _ _ _ (fun _ => eq_refl) G1) as HT1.
  destruct (store_result_run s1 src w1 t i e (am_flags e) OK (m_ready _ _ M1) Hw1) as (b & s2 & E2 & T2 & HT2).
  { rewrite HT1, (k_ep _ _ K1). by exists t0. }
  rewrite (bind_done _ _ _ _ _ E2). eexists _, s2. split; [done|]. rewrite HT1, (k_ep _ _ K1), Ef in HT2. rewrite Em in G1.
  apply (scanned_got _ _ _ _ _ _ _ _ i t0); [done|split; [lia|done|done|lia]|eapply moved_trans; [done|apply T2]| |done|].
  - by rewrite (tb_privs _ _ T2), (g_privs _ _ _ _ G1).
  - by rewrite (tb_view _ _ T2), (g_view _ _ _ _ G1).
Qed.

Lemma try_one_loop_run s src w dst vd receive_e t :
  ready s -> live (view s) src w -> live (view s) dst vd -> v_recv vd = None ->
  forall n i r done, r <> OK ->
  exists o s', try_one_loop n receive_e src dst t i r done s = Done o s'
    /\ scanned s receive_e dst vd w t i (i + Z.of_nat n) o s'.
Proof.
  intros Hr Hw Hd Hrv. pose proof Hr as [Hb Hc Hnf Hm].
  induction n as [|n IH]; intros i r dn Hne; cbn [try_one_loop].
  { exists (ScanEnd r dn false), s. split; [done|]. apply scanned_none; [done|by apply tabled_refl|done|].
    intros _ j u [Hj _ _ _]. lia. }
  rewrite (bind_done _ _ _ _ _ (A_RETR_eq s src w t i Hw)). replace (i + Z.of_nat (S n)) with (i + 1 + Z.of_nat n) by lia.
  destruct (atab s !! (v_ep w, asyn_addr t i)) as [t0|] eqn:Ht; cbn [fmap option_fmap option_map].
  2:{ exists ScanFault, s. split; [done|]. apply scanned_fault. intros _ j u. apply picks_stop. congruence. }
  set (e := resolve (v_ep w) t0). assert (am_flags e = am_flags t0 /\ am_msg e = am_msg t0) as [Ef Em]
    by (unfold e, resolve; by destruct (am_dst t0 =? SELF)). rewrite Ef.
  assert (am_dst e = if am_dst t0 =? SELF then v_ep w else am_dst t0) as Edst by (unfold e, resolve; by destruct (am_dst t0 =? SELF)).
  assert (forall r' dn', r' <> OK -> skipped t0 (v_ep w) vd = true -> exists o s',
    try_one_loop n receive_e src dst t (i + 1) r' dn' s = Done o s'
    /\ scanned s receive_e dst vd w t i (i + 1 + Z.of_nat n) o s') as Hnext.
  { intros r' dn' Hr' Hs. destruct (IH (i + 1) r' dn' Hr') as (o & s' & E & S). exists o, s'. split; [done|]. by eapply scanned_next. }
  assert (skipped t0 (v_ep w) vd = (am_flags t0 =? 0) || negb (bad_flags (am_flags t0)) && negb (goes_to t0 (v_ep w) vd)) as Hsk by done.
  destruct (am_flags t0 =? 0) eqn:E0; [by apply Hnext|]. cbn [orb] in Hsk.
  assert (exists u, atab s !! (v_ep w, asyn_addr t i) = Some u /\ am_msg u = am_msg e) as Ho by (exists t0; by split).
  destruct (bad_flags (am_flags t0)) eqn:Ebf.
  { destruct (store_result_run s src w t i e (am_flags t0) EINVAL Hr Hw Ho) as (b & s' & E & T & HT).
    rewrite (bind_done _ _ _ _ _ E). eexists _, s'. split; [done|]. apply scanned_none; [done|done| |].
    - intros k Hk. rewrite HT, lookup_insert_ne; [done|]. intros <-. done.
    - intros _ j u. apply picks_stop. intros t1 Ht1. rewrite Ht in Ht1. injection Ht1 as <-.
      split; [|done]. unfold goes_to. by rewrite Ebf. }
  cbn [negb andb] in Hsk. unfold goes_to in Hsk. rewrite Ebf in Hsk. cbn [negb andb] in Hsk.
  destruct (has (am_flags t0) AMF_DONE) eqn:Edn; [by apply Hnext|]. cbn [negb andb] in Hsk.
  destruct (live_proc_of s dst vd Hd) as (d & Hdp & Ed). destruct (live_proc_of s src w Hw) as (p & Hp & Ep).
  erewrite bind_get_proc by done. erewrite bind_get_proc by done.
  rewrite Edst, (f_equal v_ep Ed : p_endpoint d = v_ep vd).
  destruct ((if am_dst t0 =? SELF then v_ep w else am_dst t0) =? v_ep vd) eqn:Edt; cbn [negb]; [|by apply Hnext].
  cbn [andb] in Hsk. rewrite (bind_done _ _ _ _ _ (CANRECEIVE_nf s Hc Hnf receive_e (p_endpoint p) dst vd _ Hd)).
  rewrite (f_equal v_ep Ep : p_endpoint p = v_ep w). fold (accepts receive_e (v_ep w)).
  destruct (accepts receive_e (v_ep w)) eqn:Ea; cbn [negb].
  2:{ destruct (IH (i + 1) r false Hne) as (o & s' & E & S). exists o, s'. split; [done|]. by eapply scanned_refused. }
  rewrite (f_equal v_misc Ed : p_misc_flags d = v_misc vd).
  destruct (has (am_flags t0) AMF_NOREPLY && has (v_misc vd) MF_REPLY_PEND) eqn:Enr; [by apply Hnext|].
  rewrite <- Ef. apply (deliver_entry_run s src w dst vd receive_e t i _ t0); try done; [lia|].
  unfold goes_to. by rewrite Ebf, Edn, Edt, Enr.
Qed.

Lemma priv_step s p id pv f :
  ready s -> p_priv p = Some id -> privs s !! id = Some pv ->
  prelax (view s) (privs s) (<[id := f pv]> (privs s)) ->
  exists s', upd_priv_of p f s = Done tt s' /\ notified s s' /\ view s' = view s
    /\ privs s' = <[id := f pv]> (privs s) /\ procs s' = procs s.
Proof.
  intros Hr Hid Hpv HP. destruct (step_priv_of s p id pv f (r_base _ Hr) Hid Hpv) as (s' & E & G & Hps).
  exists s'. split_and!; [done| |apply G|apply G|done].
  eapply goes_notified; [done|exact G|done|by intros ???|exact (c_dlv _ _ (r_core _ Hr))|done].
Qed.

Definition asyn_mark (b : Z) (pv : priv) : priv :=
  set_s_asyn_pending (set_sys_bit (s_asyn_pending pv) b) pv.
Definition asyn_unmark (b : Z) (pv : priv) : priv :=
  set_s_asyn_pending (unset_sys_bit (s_asyn_pending pv) b) pv.

Lemma asyn_unmark_relax V P id pv b :
  P !! id = Some pv -> bit_ok b -> prelax V P (<[id := asyn_unmark b pv]> P).
Proof.
  intros Hp Hb. apply (prelax_insert V P id pv); try done.
  - cbn. apply map_ok_unset.
  - intros M1 M2 b' Hb'. unfold pending. cbn. rewrite get_unset_sys_bit by done. left.
    destruct (get_sys_bit (s_notify_pending pv) b'); [done|]. by destruct (get_sys_bit (s_asyn_pending pv) b').
Qed.

Lemma asyn_mark_relax V P id pv b pb w :
  P !! id = Some pv -> bit_ok b -> P !! b = Some pb -> live V (s_proc_nr pb) w ->
  prelax V P (<[id := asyn_mark b pv]> P).
Proof.
  intros Hp Hb Hpb Hw. apply (prelax_insert V P id pv); try done.
  - cbn. apply map_ok_set.
  - intros M1 M2 b' Hb'. unfold pending. cbn. rewrite get_set_sys_bit by done.
    destruct (Z.eqb_spec b b') as [<-|].
    + intros _. right. by exists pb, w.
    + rewrite orb_false_r. by left.
Qed.

(** Privilege structures stay in the table. *)
Lemma prelax_lookup V P P' id pv :
  prelax V P P' -> P !! id = Some pv -> exists pv', P' !! id = Some pv' /\ s_proc_nr pv' = s_proc_nr pv.
Proof.
  intros H Hp. specialize (H id). rewrite Hp in H. destruct (P' !! id) as [pv'|]; [|done].
  exists pv'. split; [done|]. apply H.
Qed.

Lemma may_send_run s n v m w :
  core (view s) (privs s) -> live (view s) n v -> live (view s) m w -> exists b, may_send_to n m s = Done b s.
Proof.
  intros Hc Hn Hm. unfold may_send_to. destruct (live_proc_of s n v Hn) as (p & Hp & Ep).
  destruct (c_priv _ _ Hc n v Hn) as (id & pv & Hid & _ & Hpv & _). erewrite bind_get_proc by done.
  rewrite (bind_priv_of p id pv) by (by rewrite (f_equal v_priv Ep : p_priv p = v_priv v) || done).
  destruct (nr_to_id_run s m w Hc Hm) as (i & _ & _ & E). rewrite (bind_done _ _ _ _ _ E). by eexists.
Qed.

Lemma may_asynsend_run s n v m w :
  core (view s) (privs s) -> live (view s) n v -> live (view s) m w ->
  exists b id pv idd, may_asynsend_to n m s = Done b s /\ v_priv v = Some id /\ privs s !! id = Some pv /\ v_priv w = Some idd
    /\ (b = true <-> get_sys_bit (s_ipc_to pv) idd = true \/ n = m).
Proof.
  intros Hc Hn Hm. unfold may_asynsend_to, orK, may_send_to. destruct (live_proc_of s n v Hn) as (p & Hp & Ep).
  destruct (c_priv _ _ Hc n v Hn) as (id & pv & Hid & _ & Hpv & _).
  destruct (nr_to_id_run s m w Hc Hm) as (i & Hi & _ & E). destruct (c_ep _ _ Hc n v Hn) as (_ & _ & Hnr).
  rewrite bind_assoc. erewrite bind_get_proc by done. rewrite bind_assoc.
  rewrite (bind_priv_of p id pv) by (by rewrite (f_equal v_priv Ep : p_priv p = v_priv v) || done).
  rewrite bind_assoc, (bind_done _ _ _ _ _ E), bind_ret. destruct (get_sys_bit (s_ipc_to pv) i) eqn:Eg.
  - exists true, id, pv, i. split_and!; try done. rewrite Eg. split; [by left|done].
  - erewrite bind_get_proc by done. rewrite (f_equal v_nr Ep : p_nr p = v_nr v), Hnr.
    exists (n =? m), id, pv, i. split_and!; try done. rewrite Eg, Z.eqb_eq. split; [by right|by intros [?|?]].
Qed.

Lemma upd_priv_of_atab p f s s' : upd_priv_of p f s = Done tt s' -> atab s' = atab s.
Proof.
  unfold upd_priv_of, upd_priv_id. destruct (p_priv p) as [id|]; [|done]. destruct (privs s !! id); [|done].
  intros E. by injection E as <-.
Qed.

(** Telling the sender about a finished message. *)
Lemma asyn_notify_run s e (b : bool) :
  ready s -> exists s', (if b then _ <- mini_notify ASYNCM e ;; ret tt else ret tt) s = Done tt s' /\ notified s s'
    /\ atab s' = atab s /\ forall e' id, aframe s s' e' id.
Proof.
  intros Hr. destruct b; [|exists s; split_and!; [done|by apply notified_refl|done|intros; apply aframe_refl]].
  destruct (c_task _ _ (r_core _ Hr) ASYNCM) as [v Hv]; [done|done|].
  destruct (mini_notify_ready s ASYNCM v e Hr Hv) as (r & s' & E & N).
  rewrite (bind_done _ _ _ _ _ E). exists s'. split_and!; [done..| |intros; by eapply mini_notify_aframe].
  destruct (live_proc_of s ASYNCM v Hv) as (c & Hc & <-). destruct (c_priv _ _ (r_core _ Hr) ASYNCM _ Hv) as (cid & _ & Hcid & _).
  destruct (mini_notify_spec s ASYNCM c cid e Hr Hc Hv Hcid) as
    [[_ E']|(dst & w & idd & pv & s1 & _ & _ & _ & _ & E' & G)]; rewrite E in E'; injection E' as _ <-; [done|].
  by destruct (_ && _); apply (goes_field atab _ _ _ _ (fun _ => eq_refl) G).
Qed.

(** The end of a scan: the sender is told, and the table forgotten or the
    receiver marked again. *)
Lemma try_one_end_run s src w id pv p dst vd idd d (nt dn : bool) :
  ready s -> live (view s) src w -> v_priv w = Some id -> bit_ok id -> privs s !! id = Some pv ->
  p_priv p = Some id -> view s !! dst = Some vd -> v_recv vd = None ->
  p_priv d = Some idd -> is_Some (privs s !! idd) ->
  exists s', try_one_end p d id dn nt s = Done tt s' /\ moved s s' /\ view s' !! dst = Some vd
    /\ atab s' = atab s /\ forall e, aframe s s' e id.
Proof.
  intros Hr Hw Hid Hok Hpv Hp Hd Hrv Hdd [pvd Hpd]. unfold try_one_end.
  destruct (asyn_notify_run s (p_endpoint p) nt Hr) as (s1 & E1 & N1 & T1 & A1). rewrite (bind_done _ _ _ _ _ E1).
  pose proof (n_awake _ _ N1 dst vd Hd Hrv) as Hd1.
  destruct (prelax_lookup _ _ _ _ _ (m_prelax _ _ N1) Hpv) as (pv1 & Hpv1 & Enr).
  destruct (prelax_lookup _ _ _ _ _ (m_prelax _ _ N1) Hpd) as (pvd1 & Hpd1 & _).
  destruct dn.
  - destruct (priv_step s1 p id pv1 (fun pv => set_s_asynsize 0 (set_s_asyntab (-1) pv)) (m_ready _ _ N1) Hp Hpv1)
      as (s2 & E2 & N2 & V2 & P2 & _); [by apply (prelax_same _ _ _ pv1)|]. pose proof (upd_priv_of_atab _ _ _ _ E2) as T2.
    exists s2. split_and!; [done|eapply moved_trans; [apply N1|apply N2]|by rewrite V2|by rewrite T2|].
    intros e. eapply aframe_trans; [apply A1|]. eapply aframe_insert; [done|exact Hpv1|exact P2|done|done].
  - assert (exists w1, live (view s1) (s_proc_nr pv1) w1) as [w1 Hw1].
    { destruct (c_priv _ _ (r_core _ Hr) src w Hw) as (id' & pv' & Hid' & _ & Hpv' & u & Hu).
      rewrite Hid in Hid'. injection Hid' as <-. rewrite Hpv in Hpv'. injection Hpv' as <-.
      rewrite Enr. destruct (notified_live _ _ _ _ N1 Hu) as (u' & Hu' & _). by exists u'. }
    destruct (priv_step s1 d idd pvd1 (fun pv => set_s_asyn_pending (set_sys_bit (s_asyn_pending pv) id) pv)
        (m_ready _ _ N1) Hdd Hpd1) as (s2 & E2 & N2 & V2 & P2 & _); [by eapply asyn_mark_relax|].
    pose proof (upd_priv_of_atab _ _ _ _ E2) as T2.
    exists s2. split_and!; [done|eapply moved_trans; [apply N1|apply N2]|by rewrite V2|by rewrite T2|].
    intros e. eapply aframe_trans; [apply A1|]. eapply aframe_insert; [done|exact Hpd1|exact P2|done|].
    intros Hj b Hb Hne. destruct (c_privs _ _ (r_core _ (m_ready _ _ N1)) idd pvd1 Hj Hpd1) as (_ & _ & Hm2).
    cbn. rewrite get_set_sys_bit by done. rewrite (proj2 (Z.eqb_neq id b)) by congruence. apply orb_false_r.
Qed.

(** The outcome of [try_one]: the first message of the sender for the receiver is
    delivered, or there is none and the receiver is untouched. *)
Definition tried (s s' : kstate) (receive_e src : Z) (w : ipcv) (dst : Z) (vd : ipcv) (r : Z) : Prop :=
  moved s s' /\ (forall id, v_priv w = Some id -> aframe s s' (v_ep w) id)
  /\ if r =? OK then accepts receive_e (v_ep w) = true
                     /\ exists i t, offers s src w dst vd i t /\ entry_done s s' w i
                          /\ view s' !! dst = Some (v_deliver (am_msg t) (v_ep w) vd)
     else view s' !! dst = Some vd
          /\ (accepts receive_e (v_ep w) = true -> forall i t, ~ offers s src w dst vd i t).

(** Nothing is done when the table is not looked at. *)
Lemma tried_none s receive_e src w dst vd r :
  ready s -> live (view s) dst vd -> r <> OK -> (forall i t, ~ offers s src w dst vd i t) ->
  tried s s receive_e src w dst vd r.
Proof.
  intros Hr Hd Hne Ho. split; [by apply moved_refl|]. split; [intros; apply aframe_refl|].
  rewrite (proj2 (Z.eqb_neq r OK) Hne). split; [apply Hd|]. intros _. exact Ho.
Qed.

Section OneTable.
Context (s : kstate) (src : Z) (w : ipcv) (id : Z) (pv : priv) (p : proc) (dst : Z) (vd : ipcv) (idd : Z) (d : proc).
Context (Hr : ready s) (Hw : live (view s) src w) (Hid : v_priv w = Some id) (Hok : bit_ok id) (Hpv : privs s !! id = Some pv).
Context (Hpid : p_priv p = Some id) (Hpe : p_endpoint p = v_ep w).
Context (Hd : live (view s) dst vd) (Hrv : v_recv vd = None) (Hdid : p_priv d = Some idd) (Hidd : v_priv vd = Some idd) (Hnr : p_nr d = dst).

(** An offer is one of the structure the sender has. *)
Lemma offers_inv i t : offers s src w dst vd i t ->
  s_asynendpoint pv = v_ep w /\ picks (atab s) (v_ep w) (s_asyntab pv) vd 0 (s_asynsize pv) i t.
Proof.
  intros (id' & pv' & idd' & Hid' & Hpv' & _ & _ & He & _ & Hk). rewrite Hid in Hid'. injection Hid' as <-.
  rewrite Hpv in Hpv'. by injection Hpv' as <-.
Qed.

Lemma finish_run t v2 nt dn :
  moved s t -> view t !! dst = Some v2 -> v_recv v2 = None ->
  exists s', try_one_end p d id dn nt t = Done tt s' /\ moved s s' /\ view s' !! dst = Some v2
    /\ atab s' = atab t /\ forall e, aframe t s' e id.
Proof.
  intros M2 Hv2 Hr2. destruct (relax_live _ _ _ _ (m_relax _ _ M2) Hw) as (w2 & Hw2 & Kw).
  destruct (prelax_lookup _ _ _ _ _ (m_prelax _ _ M2) Hpv) as (pv2 & Hpv2 & _).
  destruct (c_priv _ _ (r_core _ Hr) dst vd Hd) as (idd' & pvd & Hidd' & _ & Hpvd & _). rewrite Hidd in Hidd'. injection Hidd' as <-.
  destruct (prelax_lookup _ _ _ _ _ (m_prelax _ _ M2) Hpvd) as (pvd2 & Hpvd2 & _).
  destruct (try_one_end_run t src w2 id pv2 p dst v2 idd d nt dn (m_ready _ _ M2) Hw2) as (s' & E & M' & V' & T' & A'); try done;
    [by rewrite (k_priv _ _ Kw)|].
  exists s'. split_and!; [done|by eapply moved_trans|done|done|done].
Qed.

Lemma try_one_table_run privp receive_e :
  s_id privp = id -> asyn_of privp = asyn_of pv -> has (s_flags privp) SYS_PROC = true ->
  exists r s', try_one_table receive_e src dst p d privp s = Done r s' /\ tried s s' receive_e src w dst vd r.
Proof.
  intros Hsid Ha Hsys. injection Ha as E1 E2 E3 E4 E5. unfold try_one_table. rewrite Hsid, Hnr, E3, E4, E5, Hpe.
  destruct (Z.eqb_spec (s_asynsize pv) 0) as [E0|E0].
  { exists EAGAIN, s. split; [done|]. apply tried_none; try done. intros i t Ho. apply offers_inv in Ho as [_ [Hi _ _ _]]. lia. }
  destruct (Z.eqb_spec (s_asynendpoint pv) (v_ep w)) as [Ee|Ee]; cbn [negb].
  2:{ exists EAGAIN, s. split; [done|]. apply tried_none; try done. intros i t Ho. by apply offers_inv in Ho as [? _]. }
  destruct (may_asynsend_run s src w dst vd (r_core _ Hr) Hw Hd) as (b & id' & pv' & idd' & Eb & Hid' & Hpv' & Hidd' & Hb).
  rewrite Hid in Hid'. injection Hid' as <-. rewrite Hpv in Hpv'. injection Hpv' as <-. rewrite Hidd in Hidd'. injection Hidd' as <-.
  rewrite (bind_done _ _ _ _ _ Eb). destruct b; cbn [negb].
  2:{ exists ECALLDENIED, s. split; [done|]. apply tried_none; try done.
      intros i t (id' & pv' & idd' & Hid' & Hpv' & Hidd' & _ & _ & Hm & _). rewrite Hid in Hid'. injection Hid' as <-.
      rewrite Hpv in Hpv'. injection Hpv' as <-. rewrite Hidd in Hidd'. injection Hidd' as <-. by apply Hb in Hm. }
  destruct (try_one_loop_run s src w dst vd receive_e (s_asyntab pv) Hr Hw Hd Hrv (Z.to_nat (s_asynsize pv))
    0 EAGAIN true) as (o & s2 & Eo & Hs); [done|]. rewrite (bind_done _ _ _ _ _ Eo).
  assert (forall i t, picks (atab s) (v_ep w) (s_asyntab pv) vd 0 (s_asynsize pv) i t ->
    picks (atab s) (v_ep w) (s_asyntab pv) vd 0 (0 + Z.of_nat (Z.to_nat (s_asynsize pv))) i t) as Hsz.
  { intros i t [Hi ? ? ?]. split; try done. lia. }
  destruct Hs as [Hn|r dn nt s2 Hne T2 HT2 Hn|i t nt s2 Hac Hk M2 P2 T2 V2].
  - exists EFAULT, s. split; [done|]. split; [by apply moved_refl|]. split; [intros; apply aframe_refl|]. split; [apply Hd|].
    intros Hac i t Ho. apply offers_inv in Ho as [_ Hk]. by eapply (Hn Hac), Hsz.
  - destruct (finish_run s2 vd nt dn (n_moved _ _ (tb_notified _ _ T2))) as (s' & E & M' & V' & T' & A');
      [rewrite (tb_view _ _ T2); apply Hd|done|].
    rewrite (bind_done _ _ _ _ _ E). exists r, s'. split; [done|]. split; [done|]. split.
    + intros id' Hid'. rewrite Hid in Hid'. injection Hid' as <-. eapply aframe_trans; [|apply A']. split; [done|..]; by rewrite (tb_privs _ _ T2).
    + rewrite (proj2 (Z.eqb_neq r OK) Hne). split; [done|]. intros Hac i t Ho. apply offers_inv in Ho as [_ Hk]. by eapply (Hn Hac), Hsz.
  - destruct (finish_run s2 (v_deliver (am_msg t) (v_ep w) vd) nt false M2) as (s' & E & M' & V' & T' & A');
      [rewrite V2; apply lookup_insert_eq|done|].
    rewrite (bind_done _ _ _ _ _ E). exists OK, s'. split; [done|]. split; [done|]. split.
    + intros id' Hid'. rewrite Hid in Hid'. injection Hid' as <-. eapply aframe_trans; [|apply A']. split; [|by rewrite P2..].
      intros k Hke. rewrite T2, lookup_insert_ne; [done|]. intros <-. done.
    + split; [done|]. exists i, t. split_and!; [|..|done].
      * exists id, pv, idd. rewrite E1 in Hsys. split_and!; try done; [by apply Hb|]. destruct Hk. split; try done. lia.
      * exists id, pv. eexists. split_and!; [done..|rewrite T', T2; apply lookup_insert_eq| |done].
        pose proof (has_flag_set_same AMF_DONE (am_flags t)) as Hf. unfold flag_set in Hf. cbn. by rewrite Hf.
Qed.
End OneTable.

Lemma try_one_run s src w dst vd receive_e :
  ready s -> live (view s) src w -> live (view s) dst vd -> v_recv vd = None ->
  exists r s', try_one receive_e src dst s = Done r s' /\ tried s s' receive_e src w dst vd r.
Proof.
  intros Hr Hw Hd Hrv. pose proof Hr as [Hb Hc Hnf Hm]. unfold try_one.
  destruct (live_proc_of s src w Hw) as (p & Hp & Ep). destruct (live_proc_of s dst vd Hd) as (d & Hdp & Ed).
  destruct (c_priv _ _ Hc src w Hw) as (id & pv & Hid & Hok & Hpv & _).
  destruct (c_priv _ _ Hc dst vd Hd) as (idd & pvd & Hidd & Hokd & Hpvd & _).
  assert (p_priv p = Some id) as Hpid by (by rewrite (f_equal v_priv Ep : p_priv p = v_priv w)).
  assert (p_priv d = Some idd) as Hdid by (by rewrite (f_equal v_priv Ed : p_priv d = v_priv vd)).
  destruct (c_privs _ _ Hc id pv Hok Hpv) as (Hsid & _). destruct (c_ep _ _ Hc dst vd Hd) as (_ & _ & Hnr).
  erewrite bind_get_proc by done. rewrite (bind_priv_of p id pv) by done.
  destruct (has (s_flags pv) SYS_PROC) eqn:Hsys; cbn [negb].
  2:{ exists EPERM, s. split; [done|]. apply tried_none; try done. intros i t (id' & pv' & _ & Hid' & Hpv' & _ & Hs & _). congruence. }
  erewrite bind_get_proc by done. rewrite Hsid.
  destruct (priv_step s d idd pvd (fun pv => set_s_asyn_pending (unset_sys_bit (s_asyn_pending pv) id) pv) Hr Hdid Hpvd)
    as (s1 & E1 & N1 & V1 & P1 & _); [by apply asyn_unmark_relax|]. pose proof (upd_priv_of_atab _ _ _ _ E1) as T1.
  rewrite (bind_done _ _ _ _ _ E1).
  assert (forall j, asyn_of <$> privs s1 !! j = asyn_of <$> privs s !! j) as HA.
  { intros j. rewrite P1. destruct (decide (j = idd)) as [->|]; [by rewrite lookup_insert_eq, Hpvd|by rewrite lookup_insert_ne]. }
  assert (aframe s s1 (v_ep w) id) as A1.
  { eapply aframe_insert; [done|exact Hpvd|exact P1|done|]. intros Hj b Hb' Hne.
    destruct (c_privs _ _ Hc idd pvd Hj Hpvd) as (_ & _ & Hm2). cbn. rewrite get_unset_sys_bit by done.
    rewrite (proj2 (Z.eqb_neq id b)) by congruence. apply andb_true_r. }
  pose proof (HA id) as HAid. rewrite Hpv in HAid. destruct (privs s1 !! id) as [pv1|] eqn:Hpv1; [|done]. apply (inj Some) in HAid.
  assert (forall i t, offers s1 src w dst vd i t <-> offers s src w dst vd i t) as Hof.
  { intros i t. split; apply offers_same; try done; intros; by rewrite ?T1, ?HA. }
  destruct (try_one_table_run s1 src w id pv1 p dst vd idd d (m_ready _ _ N1)) with (privp := pv) (receive_e := receive_e)
    as (r & s' & E & M & A & Hres); try done.
  { by rewrite V1. } { exact (f_equal v_ep Ep). } { by rewrite V1. } { by rewrite (f_equal v_nr Ed : p_nr d = v_nr vd). }
  exists r, s'. split; [done|]. split; [eapply moved_trans; [apply N1|done]|]. split.
  { intros id' Hid'. rewrite Hid in Hid'. injection Hid' as <-. eapply aframe_trans; [exact A1|]. by apply A. }
  destruct (r =? OK).
  - destruct Hres as (Ha & i & t & Ho & Htk & Hv). split; [done|]. exists i, t. split; [by apply Hof|]. split; [|done].
    by eapply entry_done_same; [..|exact Htk].
  - destruct Hres as [Hv Hno]. split; [done|]. intros Ha i t Ho%Hof. by apply (Hno Ha i t).
Qed.

Lemma moved_live s s' n v : moved s s' -> live (view s) n v -> exists v', live (view s') n v' /\ keeps v v'.
Proof. intros H. apply relax_live, m_relax, H. Qed.

(** ** All tables *)

(** Every structure that names a live process is the one of that process. *)
Definition owners (s : kstate) : Prop :=
  forall id pv w, bit_ok id -> privs s !! id = Some pv -> live (view s) (s_proc_nr pv) w -> v_priv w = Some id.

Lemma owners_moved s s' : moved s s' -> owners s -> owners s'.
Proof.
  intros M Ho id pv w Hid Hpv Hw. pose proof (m_prelax _ _ M id) as HP. rewrite Hpv in HP.
  destruct (privs s !! id) as [pv0|] eqn:Hpv0; [|done]. destruct HP as (_ & En & _). rewrite En in Hw.
  destruct (relax_live_r _ _ _ _ (m_relax _ _ M) Hw) as (w0 & Hw0 & K). rewrite (k_priv _ _ K). by eapply Ho.
Qed.

(** The messages of [n], an acceptable process marked as pending. *)
Definition async_of (s : kstate) (dst : Z) (vd : ipcv) (src_e b n : Z) (w : ipcv) (i : Z) (t : asynmsg) : Prop :=
  owner s src_e b n w
  /\ (exists id pv, v_priv vd = Some id /\ privs s !! id = Some pv /\ get_sys_bit (s_asyn_pending pv) b = true)
  /\ offers s n w dst vd i t.

(** After the scan of the table of another process, what is left is the same. *)
Section After.
Context (s s1 : kstate) (dst : Z) (vd : ipcv) (id n : Z) (w : ipcv).
Context (Hr : ready s) (M : moved s s1) (A : aframe s s1 (v_ep w) id) (Hw : live (view s) n w) (Hid : v_priv w = Some id).
Context (Hd : live (view s) dst vd).

Lemma after_other b n' w' w1 :
  b <> id -> live (view s) n' w' -> v_priv w' = Some b -> keeps w' w1 ->
  (forall a, atab s1 !! (v_ep w', a) = atab s !! (v_ep w', a))
  /\ forall j, v_priv w' = Some j -> asyn_of <$> privs s1 !! j = asyn_of <$> privs s !! j.
Proof.
  intros Hne Hw' Hb K. pose proof (r_core _ Hr) as Hc. split.
  - intros a. apply (af_atab _ _ _ _ A). cbn. intros E.
    destruct (c_ep _ _ Hc n w Hw) as (E1 & _), (c_ep _ _ Hc n' w' Hw') as (E2 & _). rewrite E, E1 in E2. subst n'.
    assert (w' = w) as -> by (destruct Hw as (_ & ? & _), Hw' as (_ & ? & _); congruence). congruence.
  - intros j Hj. rewrite Hb in Hj. injection Hj as <-. by apply (af_priv _ _ _ _ A).
Qed.

Lemma pend_after b : bit_ok b -> b <> id ->
  (exists i pv, v_priv vd = Some i /\ privs s1 !! i = Some pv /\ get_sys_bit (s_asyn_pending pv) b = true)
  <-> exists i pv, v_priv vd = Some i /\ privs s !! i = Some pv /\ get_sys_bit (s_asyn_pending pv) b = true.
Proof.
  intros Hb Hne. destruct (c_priv _ _ (r_core _ Hr) dst vd Hd) as (i & pvd & Hi & Hok & Hpvd & _).
  pose proof (af_pend _ _ _ _ A i b Hok Hb Hne) as E. rewrite Hpvd in E. destruct (privs s1 !! i) as [pv1|] eqn:Hp1; [|done].
  apply (inj Some) in E. split; intros (j & q & Hj & Hq & Hg); rewrite Hi in Hj; injection Hj as <-.
  - rewrite Hp1 in Hq. injection Hq as <-. exists i, pvd. split_and!; [done..|]. by rewrite <- E.
  - rewrite Hpvd in Hq. injection Hq as <-. exists i, pv1. split_and!; [done..|]. by rewrite E.
Qed.

Lemma async_forward src_e b n' w' i t : b <> id -> async_of s dst vd src_e b n' w' i t ->
  exists w1, async_of s1 dst vd src_e b n' w1 i t.
Proof.
  intros Hne (Ho & Hp & Hof). pose proof Ho as [Hb Hw' Hbw (pb & Hpb & En) Ha].
  destruct (moved_live _ _ _ _ M Hw') as (w1 & Hw1 & K). exists w1.
  destruct (after_other b n' w' w1 Hne Hw' Hbw K) as [HT HP]. split; [|split; [by apply pend_after|]].
  - split; [done|done|by rewrite (k_priv _ _ K)| |by rewrite (k_ep _ _ K)].
    destruct (prelax_lookup _ _ _ _ _ (m_prelax _ _ M) Hpb) as (pb1 & Hpb1 & E1). exists pb1. split; [done|congruence].
  - by eapply offers_same; [apply K|apply K|..|exact Hof].
Qed.

Lemma async_back src_e b n' w1 i t : b <> id -> async_of s1 dst vd src_e b n' w1 i t ->
  exists w', live (view s) n' w' /\ keeps w' w1 /\ async_of s dst vd src_e b n' w' i t
    /\ forall s2, entry_done s1 s2 w1 i -> entry_done s s2 w' i.
Proof.
  intros Hne (Ho & Hp & Hof). pose proof Ho as [Hb Hw1 Hbw (pb1 & Hpb1 & En) Ha].
  destruct (relax_live_r _ _ _ _ (m_relax _ _ M) Hw1) as (w' & Hw' & K). exists w'. split; [done|]. split; [done|].
  rewrite (k_priv _ _ K) in Hbw. destruct (after_other b n' w' w1 Hne Hw' Hbw K) as [HT HP]. split.
  - split; [|split; [by apply pend_after|]].
    + split; [done|done|done| |by rewrite <- (k_ep _ _ K)]. pose proof (m_prelax _ _ M b) as E. rewrite Hpb1 in E.
      destruct (privs s !! b) as [pb|] eqn:Hpb; [|done]. exists pb. split; [done|]. destruct E as (_ & <- & _). done.
    + eapply (offers_same s1 s n' w1 w'); try done; [by rewrite (k_ep _ _ K)|by rewrite (k_priv _ _ K)|..].
      * intros a. by rewrite (k_ep _ _ K), HT.
      * intros j Hj. rewrite (k_priv _ _ K) in Hj. by rewrite HP.
  - intros s2. apply entry_done_same; [apply K|apply K|]. intros j Hj. by rewrite HP.
Qed.
End After.

(** A message was delivered: it is one for the receiver, and under [exact] the
    first one of a process marked as pending, whose entry is now done. *)
Definition delivered_from (s s' : kstate) (src_e dst : Z) (vd : ipcv) (exact : Prop) (ids : list Z) : Prop :=
  exists n w m, live (view s) n w /\ accepts src_e (v_ep w) = true /\ from_table s w vd m
    /\ view s' !! dst = Some (v_deliver m (v_ep w) vd)
    /\ (exact -> exists b i t, b ∈ ids /\ async_of s dst vd src_e b n w i t /\ entry_done s s' w i /\ am_msg t = m).

Lemma try_async_loop_run dst vd ids : Forall bit_ok ids -> NoDup ids -> forall s,
  ready s -> live (view s) dst vd -> v_recv vd = None -> has (v_misc vd) MF_DELIVERMSG = false ->
  exists r s', try_async_loop ids dst s = Done r s' /\ moved s s'
    /\ if r =? OK then delivered_from s s' ANY dst vd (owners s) ids
       else view s' !! dst = Some vd
            /\ (owners s -> forall b n w i t, b ∈ ids -> ~ async_of s dst vd ANY b n w i t).
Proof.
  induction 1 as [|id ids Hid _ IH]; intros Hnd s Hr Hd Hrv Hdl; cbn [try_async_loop].
  { exists ESRCH, s. split; [done|]. split; [by apply moved_refl|]. change (ESRCH =? OK) with false. split; [apply Hd|].
    intros _ b n w i t Hb. by apply elem_of_nil in Hb. }
  apply NoDup_cons in Hnd as [Hni Hnd]. specialize (IH Hnd).
  pose proof Hr as [Hb Hc Hnf Hm]. destruct (c_all _ _ Hc id Hid) as [pv Hpv].
  rewrite (bind_done _ _ pv s s) by (unfold get_priv_id; by rewrite Hpv).
  (* the structure [id] has nothing to offer: go on with the others *)
  assert ((forall n w i t, ~ async_of s dst vd ANY id n w i t) -> exists r s', try_async_loop ids dst s = Done r s' /\ moved s s'
    /\ if r =? OK then delivered_from s s' ANY dst vd (owners s) (id :: ids)
       else view s' !! dst = Some vd
            /\ (owners s -> forall b n w i t, b ∈ id :: ids -> ~ async_of s dst vd ANY b n w i t)) as Hskip.
  { intros Hno. destruct (IH s Hr Hd Hrv Hdl) as (r & s' & E & M & H). exists r, s'. split; [done|]. split; [done|].
    destruct (r =? OK).
    - destruct H as (n & w & m & ? & ? & ? & ? & Hx). exists n, w, m. split_and!; try done. intros Ho.
      destruct (Hx Ho) as (b & i & t & ? & ?). exists b, i, t. split; [by right|done].
    - destruct H as [Hv H]. split; [done|]. intros Ho b n w i t [->|Hbi]%elem_of_cons; [apply Hno|by apply H]. }
  destruct (Z.eqb_spec (s_proc_nr pv) NONE) as [En|_].
  { apply Hskip. intros n w i t ([_ (Hn & _) _ (pb & Hpb & <-) _] & _). rewrite Hpv in Hpb. injection Hpb as <-. by rewrite En in Hn. }
  destruct (live_proc_of s dst vd Hd) as (d & Hdp & Ed).
  destruct (c_priv _ _ Hc dst vd Hd) as (idd & pvd & Hidd & Hokd & Hpvd & _).
  erewrite bind_get_proc by done.
  rewrite (bind_priv_of d idd pvd) by (by rewrite (f_equal v_priv Ed : p_priv d = v_priv vd) || done).
  destruct (c_privs _ _ Hc id pv Hid Hpv) as (Hsid & _). rewrite Hsid.
  destruct (get_sys_bit (s_asyn_pending pvd) id) eqn:Eg; cbn [negb].
  2:{ apply Hskip. intros n w i t (_ & (j & q & Hj & Hq & Hg) & _). congruence. }
  rewrite bind_assert by (by rewrite (f_equal v_misc Ed : p_misc_flags d = v_misc vd), Hdl).
  destruct (c_pend _ _ Hc idd pvd id Hokd Hpvd Hid) as (pv' & w & Hpv' & Hw); [unfold pending; by rewrite Eg, orb_true_r|].
  rewrite Hpv in Hpv'. injection Hpv' as <-.
  destruct (try_one_run s (s_proc_nr pv) w dst vd ANY Hr Hw Hd Hrv) as (r & s1 & E1 & M1 & A1 & Hres).
  rewrite (bind_done _ _ _ _ _ E1). destruct (r =? OK) eqn:Er.
  - exists r, s1. rewrite Er. split_and!; [done..|]. destruct Hres as (Ha & i & t & Ho & Htk & Hv).
    exists (s_proc_nr pv), w, (am_msg t). split_and!; [done..|by eapply offers_table|done|]. intros Hown.
    exists id, i, t. split; [by left|]. split; [|by split]. split; [split; try done; [by eapply Hown|by exists pv]|].
    split; [by exists idd, pvd|done].
  - destruct Hres as [Hv1 Hno1]. assert (live (view s1) dst vd) as Hd1 by (split_and!; [apply Hd|done|apply Hd]).
    destruct (IH s1 (m_ready _ _ M1) Hd1 Hrv Hdl) as (r' & s2 & E2 & M2 & Hres2).
    exists r', s2. split_and!; [done|by eapply moved_trans|]. destruct (r' =? OK).
    + destruct Hres2 as (n & u & m & Hu & _ & Hft & Hv & Hx). destruct (relax_live_r _ _ _ _ (m_relax _ _ M1) Hu) as (u0 & Hu0 & Ku).
      rewrite (k_ep _ _ Ku) in Hv. exists n, u0, m. split_and!; [done..|by eapply (from_table_moved s s1); [done|apply Ku|]|done|].
      intros Hown. pose proof (Hown id pv w Hid Hpv Hw) as Hwid.
      destruct (Hx (owners_moved _ _ M1 Hown)) as (b & i & t & Hbi & Has & Htk & Em).
      destruct (async_back s s1 dst vd id (s_proc_nr pv) w Hr M1 (A1 id Hwid) Hw Hwid Hd ANY b n u i t) as (u1 & Hu1 & _ & Has' & Htk');
        [intros ->; done|done|].
      assert (u1 = u0) as -> by (destruct Hu0 as (_ & ? & _), Hu1 as (_ & ? & _); congruence).
      exists b, i, t. split; [by right|]. split; [done|]. split; [by apply Htk'|done].
    + destruct Hres2 as [Hv2 Hno2]. split; [done|]. intros Hown b n u i t Hbi Has. pose proof (Hown id pv w Hid Hpv Hw) as Hwid.
      apply elem_of_cons in Hbi as [->|Hbi].
      * destruct Has as ([_ Hu _ (pb & Hpb & En) _] & _ & Hof). rewrite Hpv in Hpb. injection Hpb as <-. subst n.
        assert (u = w) as -> by (destruct Hu as (_ & ? & _), Hw as (_ & ? & _); congruence). by apply (Hno1 eq_refl i t).
      * destruct (async_forward s s1 dst vd id (s_proc_nr pv) w Hr M1 (A1 id Hwid) Hw Hwid Hd ANY b n u i t) as (u1 & Has1);
          [intros ->; done|done|]. by eapply (Hno2 (owners_moved _ _ M1 Hown)).
Qed.

(** The first message that [n], marked as pending, has for the receiver. *)
Definition async_from (s : kstate) (dst : Z) (vd : ipcv) (n : Z) (w : ipcv) (i : Z) (t : asynmsg) : Prop :=
  (exists b id pv, v_priv w = Some b /\ v_priv vd = Some id /\ privs s !! id = Some pv /\ get_sys_bit (s_asyn_pending pv) b = true)
  /\ offers s n w dst vd i t.

(** No acceptable process marked as pending has a message for the receiver. *)
Definition no_async (s : kstate) (dst : Z) (vd : ipcv) (src_e : Z) : Prop :=
  (src_e = ANY -> owners s) -> forall b n w i t, ~ async_of s dst vd src_e b n w i t.

Lemma async_of_from s dst vd src_e b n w i t : async_of s dst vd src_e b n w i t -> async_from s dst vd n w i t.
Proof. intros ([_ _ Hb _ _] & (id & pv & ? & ? & ?) & Ho). split; [by exists b, id, pv|done]. Qed.

Lemma priv_table_nodup : NoDup priv_table.
Proof. apply NoDup_fmap_2; [intros a b E; lia|]. apply NoDup_seq. Qed.
Lemma priv_table_ok : Forall bit_ok priv_table.
Proof.
  apply Forall_forall. intros b Hb'. apply list_elem_of_In, in_map_iff in Hb' as (k & <- & Hk%in_seq). unfold bit_ok, NR_SYS_PROCS in *. lia.
Qed.

(** The pending asynchronous messages of the source, or of all processes. *)
Lemma receive_tables_run s caller vc src_e src_p id pv i :
  ready s -> live (view s) caller vc -> v_recv vc = None -> has (v_misc vc) MF_DELIVERMSG = false ->
  src_ok (view s) src_e src_p -> v_priv vc = Some id -> privs s !! id = Some pv -> asked_bit s (s_asyn_pending pv) src_p i ->
  exists r s', (if negb (src_p =? ANY) then try_one src_e src_p caller else try_async caller) s = Done r s' /\ moved s s'
    /\ if r =? OK
       then exists n w m, live (view s) n w /\ accepts src_e (v_ep w) = true /\ from_table s w vc m
              /\ view s' !! caller = Some (v_deliver m (v_ep w) vc)
              /\ ((src_e = ANY -> owners s) -> exists j t, async_from s caller vc n w j t /\ entry_done s s' w j /\ am_msg t = m)
       else view s' !! caller = Some vc /\ no_async s caller vc src_e.
Proof.
  intros Hr Hlc Hrv Hdl Hsrc Hid Hpv Hab. destruct Hsrc as [[-> ->]|(v & Hv & He)].
  - destruct (try_async_loop_run caller vc priv_table priv_table_ok priv_table_nodup s Hr Hlc Hrv Hdl) as (r & s' & E & M & H).
    exists r, s'. split; [done|]. split; [done|]. destruct (r =? OK).
    + destruct H as (n & w & m & ? & ? & ? & ? & Hx). exists n, w, m. split_and!; try done. intros Ho.
      destruct (Hx (Ho eq_refl)) as (b & j & t & _ & Ha & ? & ?). exists j, t. split; [by eapply async_of_from|done].
    + destruct H as [? Hno]. split; [done|]. intros Ho b n w j t Ha. apply (Hno (Ho eq_refl) b n w j t); [|done].
      destruct Ha as ([Hb _ _ _ _] & _). unfold priv_table. apply list_elem_of_In, in_map_iff. exists (Z.to_nat b).
      unfold bit_ok in Hb. split; [lia|]. apply in_seq. lia.
  - assert (src_p <> ANY) as Hne by (intros ->; by destruct Hv as (Hn & _)). rewrite (proj2 (Z.eqb_neq _ _) Hne). cbn [negb].
    destruct (ab_src _ _ _ _ Hab Hne) as (v' & Hv' & Hi).
    assert (v' = v) as -> by (destruct Hv as (_ & ? & _), Hv' as (_ & ? & _); congruence).
    destruct (try_one_run s src_p v caller vc src_e Hr Hv Hlc Hrv) as (r & s' & E & M & _ & H).
    exists r, s'. split; [done|]. split; [done|]. destruct (r =? OK).
    + destruct H as (Ha & j & t & Ho & Htk & Hv1). exists src_p, v, (am_msg t). split_and!; [done..|by eapply offers_table|done|].
      intros _. exists j, t. split; [|done]. split; [|done]. exists i, id, pv. split_and!; try done. apply Hab.
    + destruct H as [? Hno]. split; [done|]. intros _ b n w j t (Ho & _ & Hof).
      destruct (owner_src s src_e src_p v b n w (r_core _ Hr) Hv He Ho) as (-> & -> & _). by apply (Hno (ow_acc _ _ _ _ _ Ho) j t).
Qed.

Lemma receive_async_run s caller vc src_e src_p :
  ready s -> live (view s) caller vc -> v_recv vc = None ->
  has (v_misc vc) MF_DELIVERMSG = false -> src_ok (view s) src_e src_p ->
  exists b s', receive_async caller src_e src_p s = Done b s' /\ moved s s'
    /\ if b : bool then exists n w m, live (view s) n w /\ got s s' caller vc src_e n m (IPC_STATUS_CALL_TO SENDA) /\ from_table s w vc m
                      /\ ((src_e = ANY -> owners s) -> exists j t, async_from s caller vc n w j t /\ entry_done s s' w j /\ am_msg t = m)
       else view s' !! caller = Some vc /\ no_async s caller vc src_e.
Proof.
  intros Hr Hlc Hrv Hdl Hsrc. pose proof Hr as [Hb Hc Hnf Hm]. unfold receive_async, has_pending_asend.
  destruct (live_proc_of s caller vc Hlc) as (c & Hcp & Ec).
  destruct (c_priv _ _ Hc caller vc Hlc) as (id & pv & Hid & Hok & Hpv & _).
  destruct (c_privs _ _ Hc id pv Hok Hpv) as (_ & _ & Hm2).
  rewrite bind_assoc. erewrite bind_get_proc by done. rewrite bind_assoc.
  rewrite (bind_priv_of c id pv) by (by rewrite (f_equal v_priv Ec : p_priv c = v_priv vc) || done).
  destruct (has_pending_run s src_e src_p _ Hc Hsrc Hm2) as (i & Ei & [[-> Hno]|Hab]); rewrite (bind_done _ _ _ _ _ Ei).
  { exists false, s. split; [done|]. split; [by apply moved_refl|]. split; [apply Hlc|].
    intros _ b n w j t (Ho & (id' & pv' & Hid' & Hpv' & Hg) & _). specialize (Hno b n w Ho). congruence. }
  destruct (Z.eqb_spec i NULL_PRIV_ID) as [E|_]; [pose proof (ab_ok _ _ _ _ Hab) as Hbr; unfold bit_ok in Hbr; rewrite E in Hbr; by destruct Hbr|].
  destruct (receive_tables_run s caller vc src_e src_p id pv i Hr Hlc Hrv Hdl Hsrc Hid Hpv Hab) as (r & s1 & E1 & M1 & Hres).
  rewrite (bind_done _ _ _ _ _ E1). destruct (r =? OK); [|by exists false, s1].
  destruct Hres as (n & w & m & Hw & Ha & Hft & Hv1 & Hx).
  destruct (v_status_step s1 caller _ (IPC_STATUS_CALL_TO SENDA) (r_base _ (m_ready _ _ M1)) Hv1) as (s2 & E2 & G2).
  change (v_status_add _ _) with (v_notified m (v_ep w) (IPC_STATUS_CALL_TO SENDA) vc) in G2.
  unfold IPC_STATUS_ADD_CALL. rewrite (bind_done _ _ _ _ _ E2). exists true, s2.
  set (v2 := v_notified m (v_ep w) (IPC_STATUS_CALL_TO SENDA) vc) in *.
  assert (v_recv v2 = None) as Hr2 by (destruct (k_recv _ _ (v_notified_keeps m (v_ep w) (IPC_STATUS_CALL_TO SENDA) vc)); unfold v2; congruence).
  assert (live (view s1) caller (v_deliver m (v_ep w) vc)) as Hl1 by (split_and!; [apply Hlc|done|apply Hlc]).
  assert (moved s s2) as M2.
  { eapply moved_trans; [done|]. eapply deliver_moved; [apply M1|exact Hl1| |exact Hr2|exact G2|apply prelax_refl].
    apply v_status_keeps. }
  split_and!; [done..|]. exists n, w, m. split; [done|]. split; [|split; [done|]].
  - split; [done|]. exists w. split_and!; [done..|]. exists v2. split_and!; [by eapply goes_lookup|done|apply v_notified_carries].
  - intros Ho. destruct (Hx Ho) as (j & t & Haf & (id' & pv' & t' & ? & ? & Ht & ?) & Em). exists j, t. split; [done|]. split; [|done].
    exists id', pv', t'. by rewrite (goes_field atab _ _ _ _ (fun _ => eq_refl) G2).
Qed.
