(* ===== verification/IpcCall.v ===== *)
(** * The IPC system calls

    [mini_receive] as a whole, the synchronous calls with their access
    control, and asynchronous sends: every call runs to completion, gives one
    of its documented results, and keeps the invariant. *)

From S2P Require Import Prelude Monad Timers Endpoint Chain Kernel Sched RunQueue Init SchedProps Ipc IpcInv Deadlock IpcStep Notify IpcSend IpcRecv IpcPend IpcAsync.

(** ** Blocking a receiver, on views *)

Section Wait.
Context (V : views) (c : Z) (vc : ipcv) (e : Z).
Context (HL : links V) (Hlc : live V c vc) (Hrv : v_recv vc = None).
Context (Hse : v_send vc = None \/ v_send vc = Some e).
Context (Hsrc : e = ANY \/ waits_for V e false).
Context (Hac : v_send vc = None -> e <> ANY -> exists l, chain (blk V) (Some (ENDPOINT_P e)) l /\ c ∉ l).
Let vc' := set_v_recv (Some e) vc.
Let V' := <[c := vc']> V.

Lemma wait_live m w' : live V' m w' -> exists w, live V m w /\ w' = (if m =? c then vc' else w)
  /\ (m = c -> w = vc).
Proof.
  intros (Hm & Hw & He). unfold V' in Hw. destruct (Z.eqb_spec m c) as [->|Hne].
  - rewrite lookup_insert_eq in Hw. injection Hw as <-. by exists vc.
  - rewrite lookup_insert_ne in Hw by done. by exists w'.
Qed.

Lemma wait_live_r m w : live V m w -> live V' m (if m =? c then vc' else w).
Proof.
  intros (Hm & Hw & He). unfold V'. destruct (Z.eqb_spec m c) as [->|Hne].
  - split_and!; [done|apply lookup_insert_eq|apply Hlc].
  - split_and!; [done|by rewrite lookup_insert_ne|done].
Qed.

Lemma wait_same m w (w' : ipcv) : (m = c -> w = vc) -> w' = (if m =? c then vc' else w) ->
  v_ep w' = v_ep w /\ v_cq w' = v_cq w /\ v_link w' = v_link w /\ v_send w' = v_send w /\ v_noend w' = v_noend w.
Proof. intros H ->. destruct (Z.eqb_spec m c) as [E|]; [|done]. by rewrite (H E). Qed.

Lemma wait_qlink m : qlink V' m = qlink V m.
Proof.
  unfold qlink, V'. destruct (Z.eq_dec m c) as [->|Hne]; [|by rewrite lookup_insert_ne].
  by rewrite lookup_insert_eq, (proj1 (proj2 Hlc)).
Qed.

Lemma wait_waits e' b : waits_for V e' b -> waits_for V' e' b.
Proof.
  intros (m & w & Hw & E & Hb). exists m, (if m =? c then vc' else w). split; [by apply wait_live_r|].
  destruct (wait_same m w (if m =? c then vc' else w)) as (-> & _ & _ & _ & ->); [|done|done].
  intros ->. destruct Hw as (_ & ? & _), Hlc as (_ & ? & _). congruence.
Qed.

Lemma wait_queues C : queues_ok V C -> queues_ok V' C.
Proof.
  intros HC m w' Hw'. destruct (wait_live m w' Hw') as (w & Hw & Ew & Hmc).
  destruct (wait_same m w w' Hmc Ew) as (-> & -> & _). destruct (HC m w Hw) as [Hch Hmem]. split.
  - eapply chain_ext; [|exact Hch]. intros x _. apply wait_qlink.
  - intros x. rewrite Hmem. split.
    + intros (u & Hu & E). exists (if x =? c then vc' else u). split; [by apply wait_live_r|].
      destruct (Z.eqb_spec x c) as [->|]; [|done]. destruct Hu as (_ & ? & _), Hlc as (_ & ? & _).
      assert (u = vc) as -> by congruence. done.
    + intros (u' & Hu' & E). destruct (wait_live x u' Hu') as (u & Hu & Eu & Hxc).
      destruct (wait_same x u u' Hxc Eu) as (_ & _ & _ & Es & _). exists u. by rewrite <- Es.
Qed.

Lemma wait_acyc m w : live V m w -> exists l, chain (blk V') (Some m) l.
Proof.
  intros Hw. destruct (l_acyc _ HL m w Hw) as [l Hl].
  assert (forall x, x <> c -> blk V' x = blk V x) as Ho by (intros x Hx; unfold blk, V'; by rewrite lookup_insert_ne).
  assert (blk V' c = if bool_decide (v_send vc = None) then
    (if (e =? ANY) || (e =? NONE) then None else Some (ENDPOINT_P e)) else blk V c) as Ec.
  { unfold blk, V', v_blocked, vc'. rewrite lookup_insert_eq, (proj1 (proj2 Hlc)). cbn. by destruct (v_send vc). }
  destruct (v_send vc) as [e'|] eqn:Es; cbn in Ec.
  - exists l. eapply chain_ext; [|exact Hl]. intros x _. destruct (Z.eq_dec x c) as [->|]; [done|by apply Ho].
  - destruct ((e =? ANY) || (e =? NONE)) eqn:Ee.
    + assert (forall x, blk V' x = blk V x \/ blk V' x = None) as Hp.
      { intros x. destruct (Z.eq_dec x c) as [->|]; [by right|left; by apply Ho]. }
      destruct (chain_prune (blk V) (blk V') (Some m) l Hp Hl) as (l' & ? & _). by exists l'.
    + apply orb_false_iff in Ee as [Ea _]. apply Z.eqb_neq in Ea. destruct (Hac eq_refl Ea) as (ld & Hld & Hni).
      destruct (chain_add_link _ c (ENDPOINT_P e) ld _ _ Hld Hni Hl) as [l' Hl']. exists l'.
      eapply chain_ext; [|exact Hl']. intros x _. unfold upd. destruct (Z.eqb_spec x c) as [->|]; [done|by apply Ho].
Qed.

Lemma links_wait : links V'.
Proof.
  destruct HL as [[C HC] H2 H3 H4 H5 H6 H7 H8]. split.
  - exists C. by apply wait_queues.
  - intros m w' Hw'. destruct (wait_live m w' Hw') as (w & Hw & Ew & Hmc).
    destruct (wait_same m w w' Hmc Ew) as (_ & _ & -> & -> & _). by apply (H2 m w).
  - intros m w' e' Hw'. destruct (wait_live m w' Hw') as (w & Hw & Ew & Hmc).
    destruct (wait_same m w w' Hmc Ew) as (_ & _ & _ & -> & _). intros Hs. by apply wait_waits, (H3 m w).
  - intros m w' e' Hw' Hr. destruct (wait_live m w' Hw') as (w & Hw & Ew & Hmc). subst w'.
    destruct (Z.eqb_spec m c) as [->|].
    + injection Hr as <-. destruct Hsrc as [?|?]; [by left|right]. by apply wait_waits.
    + destruct (H4 m w e' Hw Hr) as [?|?]; [by left|right]. by apply wait_waits.
  - intros m w' e1 e2 Hw' Hs Hr. destruct (wait_live m w' Hw') as (w & Hw & Ew & Hmc). subst w'.
    destruct (Z.eqb_spec m c) as [->|]; [|by apply (H5 m w)].
    injection Hr as <-. change (v_send vc = Some e1) in Hs. destruct Hse; congruence.
  - intros m w' Hw'. destruct (wait_live m w' Hw') as (w & Hw & Ew & Hmc).
    destruct (wait_same m w w' Hmc Ew) as (_ & _ & _ & -> & ->). by apply (H6 m w).
  - intros m w' e' Hw'. destruct (wait_live m w' Hw') as (w & Hw & Ew & Hmc).
    destruct (wait_same m w w' Hmc Ew) as (_ & _ & _ & -> & _). by apply (H7 m w).
  - intros m w' Hw'. destruct (wait_live m w' Hw') as (w & Hw & _). by apply (wait_acyc m w).
Qed.
End Wait.

(** ** [receive_block] *)

(** The ends of a receive that found no message. *)
Inductive blocked (s : kstate) (caller : Z) (vc : ipcv) (src_e src_p flags : Z) : Z -> kstate -> Prop :=
| blocked_notready : has flags NON_BLOCKING = true -> blocked s caller vc src_e src_p flags ENOTREADY s
| blocked_locked l :
    has flags NON_BLOCKING = false -> src_e <> ANY -> chain (blk (view s)) (Some src_p) l ->
    closes (view s) RECEIVE (v_ep vc) src_p l -> blocked s caller vc src_e src_p flags ELOCKED s
| blocked_wait s' :
    has flags NON_BLOCKING = false ->
    (src_e <> ANY -> forall l, chain (blk (view s)) (Some src_p) l -> ~ closes (view s) RECEIVE (v_ep vc) src_p l) ->
    goes s s' (<[caller := set_v_recv (Some src_e) vc]> (view s)) (privs s) ->
    blocked s caller vc src_e src_p flags OK s'.

Section BlockReceiver.
Context (s : kstate) (caller : Z) (vc : ipcv) (src_e src_p flags : Z).
Context (Hok : ipc_ok s) (Hlc : live (view s) caller vc) (Hrv : v_recv vc = None).
Context (Hsrc : src_ok (view s) src_e src_p) (Hne : src_p <> caller).

Lemma receive_block_run :
  exists r s', receive_block caller src_e flags s = Done r s' /\ blocked s caller vc src_e src_p flags r s'.
Proof.
  pose proof Hok as [[Hb Hc Hl] Hnf Hm]. unfold receive_block.
  destruct (has flags NON_BLOCKING) eqn:En; [exists ENOTREADY, s; split; [done|by apply blocked_notready]|].
  destruct (live_proc_of s caller vc Hlc) as (c & Hcp & Ec).
  destruct (c_ep _ _ Hc caller vc Hlc) as (_ & Hfb & _).
  assert (exists d, deadlock RECEIVE caller src_e s = Done d s
    /\ (d <> 0 -> src_e <> ANY /\ exists l, chain (blk (view s)) (Some src_p) l /\ closes (view s) RECEIVE (v_ep vc) src_p l)
    /\ (d = 0 -> src_e <> ANY -> forall l, chain (blk (view s)) (Some src_p) l -> ~ closes (view s) RECEIVE (v_ep vc) src_p l))
    as (d & Ed & Hd1 & Hd0).
  { destruct Hsrc as [[-> ->]|(w & Hw & <-)].
    - exists 0. split; [by eapply deadlock_any|]. done.
    - destruct (deadlock_run s Hb Hc Hl RECEIVE caller c src_p w (or_intror eq_refl) Hcp Hw) as (l & Hch & Ed).
      rewrite (f_equal v_ep Ec : p_endpoint c = v_ep vc) in Ed.
      pose proof (dl_closes (view s) RECEIVE (v_ep vc) src_p l (proj2 (live_ep s Hc caller vc Hlc)) Hch) as Hcl.
      eexists. split; [exact Ed|]. split.
      + intros Hd. split; [by apply (live_ep s Hc src_p w)|]. exists l. split; [done|]. by apply Hcl.
      + intros Hd _ l' Hch' Hcl'. rewrite (chain_det _ _ _ _ Hch' Hch) in Hcl'. by apply Hcl in Hcl'. }
  rewrite (bind_done _ _ _ _ _ Ed). destruct (Z.eqb_spec d 0) as [E0|E0]; cbn [negb].
  - destruct (v_set_recv_step s caller vc src_e Hfb Hb (proj1 (proj2 Hlc)) Hrv) as (s1 & s2 & E1 & E2 & G).
    rewrite (bind_done _ _ _ _ _ E1), (bind_done _ _ _ _ _ E2). exists OK, s2. split; [done|].
    apply blocked_wait; [done|by apply Hd0|done].
  - destruct (Hd1 E0) as (Ha & l & Hch & Hcl). exists ELOCKED, s. split; [done|]. by eapply blocked_locked.
Qed.

Context (Hdl : has (v_misc vc) MF_DELIVERMSG = false).
Context (Hse : v_send vc = None \/ v_send vc = Some src_e).
(** The source is not waiting to send to the caller. *)
Context (Hnq : v_send vc = None -> forall w, live (view s) src_p w -> v_send w <> Some (v_ep vc)).

Lemma receive_block_ok r s' : blocked s caller vc src_e src_p flags r s' -> ipc_ok s'.
Proof.
  intros [ | |s1 Hnb Hcl HG]; try exact Hok. pose proof Hok as [[Hb Hc Hl] Hnf Hm].
  eapply idents_ipc_ok; [exact Hok|exact HG| | |].
  - eapply idents_insert; [apply Hlc|by split].
  - apply dlv_insert; [exact (c_dlv _ _ Hc)|by right].
  - apply links_wait; try done.
    + destruct Hsrc as [[-> _]|(w & Hw & <-)]; [by left|right]. by exists src_p, w.
    + intros Hs Ha. destruct Hsrc as [[? _]|(w & Hw & <-)]; [done|].
      destruct (c_ep _ _ Hc src_p w Hw) as (-> & _). destruct (l_acyc _ Hl src_p w Hw) as [l Hch].
      exists l. split; [done|]. intros Hin. apply (Hcl Ha l Hch).
      destruct (chain_pred _ _ _ caller Hch Hin) as (x & Hx & Ex); [congruence|].
      destruct (blk_chain_live s Hc Hl src_p w l x Hw Hch Hx) as [u Hu].
      destruct (blk_live s Hc Hl x caller u Hu Ex) as (uc & Huc & Ec).
      assert (uc = vc) as -> by (destruct Huc as (_ & ? & _), Hlc as (_ & ? & _); congruence).
      exists x, u. split_and!; [done|apply Hu|done|]. intros [-> Ho].
      unfold opposite in Ho. cbn in Ho. apply negb_true_iff, bool_decide_eq_false in Ho.
      unfold v_blocked in Ec. destruct (v_send u) as [e|] eqn:Es; [|done]. subst e. by apply (Hnq Hs u).
Qed.
End BlockReceiver.

(** ** [mini_receive] *)

(** Where a received message comes from: a notification of [n], the lowest one
    pending if any will do, which is then the only one no longer pending; when no
    notification may be taken, the first asynchronous message that [n] has for
    the caller, which is then done; when there is neither, the message of [n],
    blocked in the caller queue with nobody acceptable in front of it, which is
    then released. *)
Inductive source (s s' : kstate) (caller : Z) (vc : ipcv) (src_e src_p n : Z) (w : ipcv) : message -> Prop :=
| source_notify id pv pv' b :
    v_priv vc = Some id -> privs s !! id = Some pv -> has (v_misc vc) MF_REPLY_PEND = false ->
    notifies s pv src_p n b -> privs s' = <[id := pv']> (privs s) ->
    (forall b', bit_ok b' -> get_sys_bit (s_notify_pending pv') b' = get_sys_bit (s_notify_pending pv) b' && negb (b =? b')) ->
    source s s' caller vc src_e src_p n w (notify_msg (k_monotonic s) n pv)
| source_async m :
    no_notify s vc src_e -> from_table s w vc m ->
    ((src_e = ANY -> owners s) -> exists i t, async_from s caller vc n w i t /\ entry_done s s' w i /\ am_msg t = m) ->
    source s s' caller vc src_e src_p n w m
| source_queue l1 l2 w' :
    no_notify s vc src_e -> no_async s caller vc src_e ->
    chain (qlink (view s)) (v_cq vc) (l1 ++ n :: l2) -> Forall (fun y => acc (view s) src_e y = false) l1 ->
    view s' !! n = Some w' -> v_send w' = None ->
    source s s' caller vc src_e src_p n w (v_smsg w).

Inductive received (s : kstate) (caller : Z) (vc : ipcv) (src_e src_p addr flags : Z) : Z -> kstate -> Prop :=
| received_dead w s' :
    live (view s) src_p w -> v_noend w = true ->
    goes s s' (<[caller := set_v_dvir addr vc]> (view s)) (privs s) ->
    received s caller vc src_e src_p addr flags EDEADSRCDST s'
| received_msg n w m vc' s' :
    v_send vc = None -> live (view s) n w -> accepts src_e (v_ep w) = true -> source s s' caller vc src_e src_p n w m ->
    view s' !! caller = Some vc' -> v_recv vc' = None -> v_dmsg vc' = set_m_source (v_ep w) m ->
    v_dvir vc' = addr -> has (v_misc vc') MF_DELIVERMSG = true ->
    received s caller vc src_e src_p addr flags OK s'
| received_none s1 r s' :
    moved s s1 -> view s1 !! caller = Some (set_v_dvir addr vc) ->
    (v_send vc = None -> no_notify s vc src_e /\ no_async s caller vc src_e
       /\ exists l, chain (qlink (view s)) (v_cq vc) l /\ Forall (fun y => acc (view s) src_e y = false) l) ->
    blocked s1 caller (set_v_dvir addr vc) src_e src_p flags r s' ->
    received s caller vc src_e src_p addr flags r s'.

Lemma relax_acc V V' src_e n : relax V V' -> acc V' src_e n = acc V src_e n.
Proof.
  intros H. specialize (H n). unfold acc. destruct (V !! n), (V' !! n); try done. by rewrite (k_ep _ _ H).
Qed.

Lemma relax_chain V V' h l : relax V V' -> chain (qlink V') h l -> chain (qlink V) h l.
Proof. intros H. apply chain_ext. intros x _. symmetry. by apply relax_qlink. Qed.

Lemma relax_forall V V' src_e l : relax V V' ->
  Forall (fun y => acc V' src_e y = false) l -> Forall (fun y => acc V src_e y = false) l.
Proof. intros H Hf. eapply Forall_impl; [exact Hf|]. intros y. cbn beta. by rewrite (relax_acc V V'). Qed.

Lemma src_ok_moved s s' src_e src_p : moved s s' -> src_ok (view s) src_e src_p -> src_ok (view s') src_e src_p.
Proof.
  intros M [?|(w & Hw & <-)]; [by left|right]. destruct (moved_live _ _ _ _ M Hw) as (w' & Hw' & K).
  exists w'. by rewrite (k_ep _ _ K).
Qed.

(** A message is found before the caller is considered for blocking. *)
Inductive found (s : kstate) (caller : Z) (vc : ipcv) (src_e src_p : Z) : bool -> kstate -> Prop :=
| found_none s' l :
    ipc_ok s' -> moved s s' -> view s' !! caller = Some vc -> no_notify s vc src_e -> no_async s caller vc src_e ->
    chain (qlink (view s)) (v_cq vc) l ->
    Forall (fun y => acc (view s) src_e y = false) l -> found s caller vc src_e src_p false s'
| found_msg n w m st vc' s' :
    ipc_ok s' -> live (view s) n w -> accepts src_e (v_ep w) = true -> source s s' caller vc src_e src_p n w m ->
    live (view s') caller vc' -> v_recv vc' = None -> carries vc vc' m (v_ep w) st ->
    found s caller vc src_e src_p true s'.

Lemma got_found s s' caller vc src_e src_p n m st :
  ipc_ok s -> live (view s) caller vc -> got s s' caller vc src_e n m st ->
  (forall w, live (view s) n w -> source s s' caller vc src_e src_p n w m) -> found s caller vc src_e src_p true s'.
Proof.
  intros Hok Hlc [M (w & Hw & Ha & vc' & Hv & Hr & Hcr)] Hs.
  eapply (found_msg s caller vc src_e src_p n w m st vc'); try done; [by eapply moved_ipc_ok|by apply Hs|].
  destruct (moved_live _ _ _ _ M Hlc) as (vc'' & Hl & _).
  assert (vc'' = vc') as <- by (destruct Hl as (_ & ? & _); congruence). done.
Qed.

(** The queue is looked at last; [s1] is the state after the search for
    asynchronous messages. *)
Lemma queue_found s s1 s2 caller vc src_e src_p b :
  ipc_ok s -> moved s s1 -> ipc_ok s1 -> live (view s1) caller vc -> v_send vc = None -> v_recv vc = None -> ipc_ok s2 ->
  no_notify s vc src_e -> no_async s caller vc src_e ->
  queue_result s1 caller vc src_e b s2 -> found s caller vc src_e src_p b s2.
Proof.
  intros Hok M1 Hok1 Hl1 Hs Hrv Hok2 Hnn Hna Hq. pose proof (m_relax _ _ M1) as HR.
  destruct Hq as [l Hch Hf|l1 x l2 vx s2 Hch Hx Hf Ha [T1 T2 T3 T4 (vc' & Hv & Hcr)]].
  { eapply found_none; [done|done|apply Hl1|done|done|by eapply relax_chain|by eapply relax_forall]. }
  destruct (relax_live_r _ _ _ _ HR Hx) as (w & Hw & K).
  set (V2 := release (view s1) (loc_of caller l1) x) in *. assert (relax V2 (view s2)) as HR2 by exact T4.
  assert (forall m u, live (view s1) m u -> live V2 m (rel caller x vx l1 m u)) as Hrl.
  { intros m u Hu. by eapply (rel_live_r _ (fun _ => l1 ++ x :: l2) _ _ _ _ l2). }
  destruct (relax_live _ _ _ _ HR2 (Hrl _ _ Hl1)) as (vc2 & Hl2 & K2).
  destruct (relax_live _ _ _ _ HR2 (Hrl _ _ Hx)) as (vx2 & Hx2 & Kx).
  assert (vc2 = vc') as -> by (destruct Hl2 as (_ & ? & _); congruence).
  eapply (found_msg s caller vc src_e src_p x w (v_smsg vx) _ vc'); [done|done|by rewrite <- (k_ep _ _ K)| |done| |].
  - rewrite (k_smsg _ _ K). eapply source_queue; [done|done|by eapply relax_chain|by eapply relax_forall|apply Hx2|].
    rewrite (k_send _ _ Kx). pose proof (rel_same caller x vx l1 x vx) as (_ & _ & _ & _ & ->). by rewrite decide_True.
  - pose proof (rel_same caller x vx l1 caller vc) as (_ & Er & _). rewrite Hrv in Er.
    destruct (k_recv _ _ K2) as [->| ->]; [exact Er|done].
  - rewrite <- (k_ep _ _ K). exact Hcr.
Qed.

Lemma receive_find_run s caller vc src_e src_p :
  ipc_ok s -> live (view s) caller vc -> v_send vc = None -> v_recv vc = None ->
  has (v_misc vc) MF_DELIVERMSG = false -> src_ok (view s) src_e src_p ->
  exists b s', receive_find caller src_e src_p s = Done b s' /\ found s caller vc src_e src_p b s'.
Proof.
  intros Hok Hlc Hs Hrv Hdl Hsrc. pose proof (ipc_ok_ready s Hok) as Hr. unfold receive_find, orK.
  destruct (receive_notify_run s caller vc src_e src_p Hr Hlc Hrv Hdl Hsrc)
    as [[E Hnn]|(s1 & n & id & pv & b & E & Hid & Hpv & Hrp & Hnt & HP & Hg)]; rewrite (bind_done _ _ _ _ _ E).
  2:{ exists true, s1. split; [done|]. eapply got_found; [done|done|exact Hg|]. intros w _. eapply source_notify; [done..|exact HP|].
      destruct (c_priv _ _ (r_core _ Hr) caller vc Hlc) as (id' & pv' & Hid' & Hbo & _). rewrite Hid in Hid'. injection Hid' as <-.
      destruct (c_privs _ _ (r_core _ Hr) id pv Hbo Hpv) as (_ & Hmap & _). intros b' Hb'. destruct Hnt as [[Hb _ _ _] _].
      rewrite <- get_unset_sys_bit by done. unfold notify_taken. by destruct (n =? HARDWARE), (n =? SYSTEM). }
  destruct (receive_async_run s caller vc src_e src_p Hr Hlc Hrv Hdl Hsrc) as (b & s1 & E1 & M1 & Hres).
  rewrite (bind_done _ _ _ _ _ E1). destruct b.
  { exists true, s1. split; [done|]. destruct Hres as (n & w & m & Hw & Hg & Hft & Hx).
    eapply got_found; [done|done|exact Hg|]. intros w' Hw'.
    assert (w' = w) as -> by (destruct Hw as (_ & ? & _), Hw' as (_ & ? & _); congruence). by apply source_async. }
  destruct Hres as [Hv1 Hna]. pose proof (moved_ipc_ok _ _ Hok M1) as Hok1.
  assert (live (view s1) caller vc) as Hl1 by (split_and!; [apply Hlc|done|apply Hlc]).
  destruct (receive_queue_correct s1 caller vc src_e Hok1 Hl1 Hs Hrv Hdl) as (b & s2 & E2 & Hq).
  exists b, s2. split; [done|]. assert (ipc_ok s2) as Hok2 by (by destruct Hq as [|? ? ? ? ? ? ? ? ? []]).
  by eapply queue_found.
Qed.

Lemma found_none_inv s caller vc src_e src_p s' :
  found s caller vc src_e src_p false s' -> exists l, ipc_ok s' /\ moved s s' /\ view s' !! caller = Some vc
    /\ no_notify s vc src_e /\ no_async s caller vc src_e
    /\ chain (qlink (view s)) (v_cq vc) l /\ Forall (fun y => acc (view s) src_e y = false) l.
Proof. inversion 1. eauto 10. Qed.

Section Receive.
Context (s : kstate) (caller : Z) (vc : ipcv) (src_e src_p addr flags : Z).
Context (Hok : ipc_ok s) (Hlc : live (view s) caller vc) (Hrv : v_recv vc = None).
Context (Hdl : has (v_misc vc) MF_DELIVERMSG = false).
Context (Hsrc : src_ok (view s) src_e src_p) (Hne : src_p <> caller).
Context (Hse : v_send vc = None \/ v_send vc = Some src_e).
Let vc1 := set_v_dvir addr vc.

Lemma dvir_moved s1 : goes s s1 (<[caller := vc1]> (view s)) (privs s) -> moved s s1.
Proof.
  intros G. apply (deliver_moved s s1 caller vc vc1 (privs s)); [by apply ipc_ok_ready|done| |done|done|apply prelax_refl].
  split; try done. by left.
Qed.

(** The state with the buffer address stored has the same sources. *)
Section Stored.
Context (s1 : kstate) (G : goes s s1 (<[caller := vc1]> (view s)) (privs s)).

Lemma stored_live n w : live (view s) n w -> exists w1, live (view s1) n w1 /\ keeps w w1.
Proof. apply moved_live, dvir_moved, G. Qed.

Lemma stored_owner b n w : owner s src_e b n w -> exists w1, owner s1 src_e b n w1 /\ keeps w w1.
Proof.
  intros [Hb Hw Hp Hn Ha]. destruct (stored_live n w Hw) as (w1 & Hw1 & K). exists w1. split; [|done].
  split; [done|done|by rewrite (k_priv _ _ K)|by rewrite (g_privs _ _ _ _ G)|by rewrite (k_ep _ _ K)].
Qed.

Lemma stored_atab : atab s1 = atab s.
Proof. exact (goes_field atab _ _ _ _ (fun _ => eq_refl) G). Qed.

Lemma stored_offers n w w1 i t : keeps w w1 -> offers s n w caller vc i t <-> offers s1 n w1 caller vc1 i t.
Proof.
  intros K. split; apply offers_same; try done; try (by rewrite (k_ep _ _ K)); try (by rewrite (k_priv _ _ K));
    intros; by rewrite ?stored_atab, ?(g_privs _ _ _ _ G).
Qed.

Lemma stored_no_notify : no_notify s1 vc1 src_e -> no_notify s vc src_e.
Proof.
  intros [H|H]; [by left|right]. intros id pv b n w Hid Hpv Ho. destruct (stored_owner b n w Ho) as (w1 & Ho1 & _).
  apply (H id pv b n w1); [done| |done]. by rewrite (g_privs _ _ _ _ G).
Qed.

Lemma stored_no_async : no_async s1 caller vc1 src_e -> no_async s caller vc src_e.
Proof.
  intros H Hown b n w i t (Ho & Hp & Hof). destruct (stored_owner b n w Ho) as (w1 & Ho1 & K).
  apply (H (fun E => owners_moved _ _ (dvir_moved s1 G) (Hown E)) b n w1 i t).
  split; [done|]. split; [by rewrite (g_privs _ _ _ _ G)|]. by apply (stored_offers n w w1).
Qed.

Lemma source_back s2 s3 n w w0 m v3 :
  keeps w0 w -> privs s3 = privs s2 -> atab s3 = atab s2 ->
  view s3 = <[caller := v3]> (view s2) -> (forall u, view s2 !! caller = Some u -> v_send v3 = v_send u) ->
  source s1 s2 caller vc1 src_e src_p n w m -> source s s3 caller vc src_e src_p n w0 m.
Proof.
  intros K HP HT HV H3 Hs. pose proof (dvir_moved s1 G) as M.
  destruct Hs as [id pv pv' b Hid Hpv Hrp [[H1 H2 H3' H4] H5] HP' Hb|m Hnn Hft Hx|l1 l2 w' Hnn Hna Hch Hfa Hw' Hsd].
  - rewrite (goes_field k_monotonic _ _ _ _ (fun _ => eq_refl) G). rewrite (g_privs _ _ _ _ G) in Hpv, HP', H5.
    eapply source_notify; [done..| |by rewrite HP|done]. split; [|done]. split; [done..|].
    intros Ha. destruct (H4 Ha) as (v & Hv & Ep). destruct (relax_live_r _ _ _ _ (m_relax _ _ M) Hv) as (v0 & Hv0 & K0).
    exists v0. by rewrite <- (k_priv _ _ K0).
  - apply source_async; [by apply stored_no_notify|by eapply (from_table_moved s s1 w0 w vc); [exact M|apply K|]|].
    intros Ho. destruct Hx as (i & t & [(b & id & pv & Hb & Hid & Hpv & Hg) Hof] & Hed & Em); [intros E; eapply owners_moved; [exact M|by apply Ho]|].
    exists i, t. split; [|split; [|done]].
    + split; [|by apply (stored_offers n w0 w)]. exists b, id, pv. rewrite <- (k_priv _ _ K), <- (g_privs _ _ _ _ G). done.
    + destruct Hed as (id' & pv2 & t' & Hid' & Hpv' & Ht & ?). exists id', pv2, t'.
      rewrite HT, <- (k_ep _ _ K), <- (k_priv _ _ K), <- (g_privs _ _ _ _ G). done.
  - rewrite (k_smsg _ _ K).
    assert (exists w3, view s3 !! n = Some w3 /\ v_send w3 = None) as (w3 & Hw3 & Hs3).
    { rewrite HV. destruct (decide (n = caller)) as [->|]; [exists v3; by rewrite lookup_insert_eq, (H3 w' Hw')|exists w'; by rewrite lookup_insert_ne]. }
    apply (source_queue _ _ _ _ _ _ _ _ l1 l2 w3); [by apply stored_no_notify|by apply stored_no_async|
      by eapply relax_chain; [apply M|]|by eapply relax_forall; [apply M|]|done|done].
Qed.
End Stored.

(** The message is found; the reply flag is cleared. *)
Lemma receive_done_run s1 s2 :
  goes s s1 (<[caller := vc1]> (view s)) (privs s) -> v_send vc = None -> found s1 caller vc1 src_e src_p true s2 ->
  exists s', receive_done caller s2 = Done OK s' /\ ipc_ok s' /\ received s caller vc src_e src_p addr flags OK s'.
Proof.
  intros G1 Hs Hf. pose proof (dvir_moved s1 G1) as M1. remember true as b eqn:Hb.
  destruct Hf as [|n w m st vc' s2 Hok2 Hw Ha Hsrc' Hl2 Hr2 Hcr]; [done|].
  unfold receive_done.
  destruct (v_no_reply_step s2 caller vc' (r_base _ (ipc_ok_ready _ Hok2)) (proj1 (proj2 Hl2))) as (s3 & E3 & G3).
  rewrite (bind_done _ _ _ _ _ E3). exists s3. split; [done|].
  assert (moved s2 s3) as M3.
  { apply (deliver_moved s2 s3 caller vc' (v_no_reply vc') (privs s2)); [by apply ipc_ok_ready|done| |done|done|apply prelax_refl].
    split; try done. by left. }
  split; [by eapply moved_ipc_ok|].
  destruct (relax_live_r _ _ _ _ (m_relax _ _ M1) Hw) as (w0 & Hw0 & K).
  eapply (received_msg s caller vc src_e src_p addr flags n w0 m (v_no_reply vc')); try done.
  - by rewrite <- (k_ep _ _ K).
  - eapply (source_back s1 G1 s2 s3 n w w0 m (v_no_reply vc')); [done|apply G3|exact (goes_field atab _ _ _ _ (fun _ => eq_refl) G3)|apply G3| |done].
    intros u Hu. rewrite (proj1 (proj2 Hl2)) in Hu. by injection Hu as <-.
  - by eapply goes_lookup.
  - rewrite <- (k_ep _ _ K). apply Hcr.
  - apply Hcr.
  - cbn. rewrite (cr_misc _ _ _ _ _ Hcr), (has_flag_clr MF_REPLY_PEND MF_DELIVERMSG),
      (has_flag_set MF_DELIVERMSG MF_DELIVERMSG). by rewrite orb_true_r.
Qed.

(** Nothing is found: the caller blocks, or the call fails. *)
Lemma receive_none_run s1 s2 :
  goes s s1 (<[caller := vc1]> (view s)) (privs s) ->
  ipc_ok s2 -> moved s1 s2 -> view s2 !! caller = Some vc1 ->
  (v_send vc = None -> no_notify s vc src_e /\ no_async s caller vc src_e
     /\ exists l, chain (qlink (view s)) (v_cq vc) l /\ Forall (fun y => acc (view s) src_e y = false) l) ->
  exists r s', receive_block caller src_e flags s2 = Done r s' /\ ipc_ok s'
    /\ received s caller vc src_e src_p addr flags r s'.
Proof.
  intros G1 Hok2 M2 Hv2 Hq. pose proof (moved_trans _ _ _ (dvir_moved s1 G1) M2) as M.
  assert (live (view s2) caller vc1) as Hl2 by (split_and!; [apply Hlc|done|apply Hlc]).
  pose proof (src_ok_moved _ _ _ _ M Hsrc) as Hsrc2.
  destruct (receive_block_run s2 caller vc1 src_e src_p flags Hok2 Hl2 Hrv Hsrc2 Hne) as (r & s' & E & B).
  exists r, s'. split; [done|]. split; [|by eapply received_none].
  eapply (receive_block_ok s2 caller vc1 src_e src_p flags Hok2 Hl2 Hsrc2 Hne Hdl Hse); [|exact B].
  intros Hs w Hw Hsw. change (v_ep vc1) with (v_ep vc) in Hsw.
  destruct (relax_live_r _ _ _ _ (m_relax _ _ M) Hw) as (w0 & Hw0 & K). rewrite (k_send _ _ K) in Hsw.
  destruct (Hq Hs) as (_ & _ & l & Hch & Hf). pose proof Hok as [[Hb Hc Hl] _ _]. destruct (l_queue _ Hl) as [C HC].
  destruct (HC caller vc Hlc) as [Hch' Hmem]. rewrite (chain_det _ _ _ _ Hch Hch') in Hf.
  assert (src_p ∈ C caller) as Hin by (apply Hmem; by exists w0).
  pose proof (proj1 (Forall_forall _ _) Hf src_p Hin) as Hacc. unfold acc in Hacc. rewrite (proj1 (proj2 Hw0)) in Hacc.
  unfold accepts in Hacc. destruct Hsrc as [[-> _]|(u & Hu & Eu)]; [done|].
  assert (u = w0) as -> by (destruct Hu as (_ & ? & _), Hw0 as (_ & ? & _); congruence).
  by rewrite Eu, Z.eqb_refl, orb_true_r in Hacc.
Qed.

Lemma mini_receive_run :
  exists r s', mini_receive caller src_e addr flags s = Done r s' /\ ipc_ok s'
    /\ received s caller vc src_e src_p addr flags r s'.
Proof.
  pose proof Hok as [[Hb Hc Hl] Hnf Hm]. unfold mini_receive.
  destruct (live_proc_of s caller vc Hlc) as (c & Hcp & Ec). erewrite bind_get_proc by done.
  rewrite bind_assert by (by rewrite (f_equal v_misc Ec : p_misc_flags c = v_misc vc), Hdl).
  destruct (v_upd s caller vc (set_p_delivermsg_vir addr) (set_v_dvir addr) Hb (proj1 (proj2 Hlc)))
    as (s1 & E1 & G1); try done. rewrite (bind_done _ _ _ _ _ E1). fold vc1 in G1.
  pose proof (dvir_moved s1 G1) as M1. pose proof (moved_ipc_ok _ _ Hok M1) as Hok1.
  pose proof Hok1 as [[Hb1 Hc1 Hl1] _ _].
  assert (live (view s1) caller vc1) as Hlc1 by (split_and!; [apply Hlc|by eapply goes_lookup|apply Hlc]).
  pose proof (src_ok_moved _ _ _ _ M1 Hsrc) as Hsrc1.
  assert ((if src_e =? ANY then ret ANY else okendpt src_e) s1 = Done src_p s1) as Esrc.
  { destruct Hsrc1 as [[-> ->]|(w & Hw & <-)]; [done|].
    rewrite (proj2 (Z.eqb_neq _ _) (proj1 (live_ep s1 Hc1 src_p w Hw))). by apply okendpt_live. }
  rewrite (bind_done _ _ _ _ _ Esrc).
  assert (exists dead, (if src_e =? ANY then ret false
      else sp <- get_proc src_p ;; ret (RTS_ISSET sp RTS_NO_ENDPOINT)) s1 = Done dead s1
    /\ (dead = true -> exists w, live (view s) src_p w /\ v_noend w = true)) as (dead & Edead & Hdead).
  { destruct Hsrc as [[-> ->]|(w & Hw & <-)]; [by exists false|].
    rewrite (proj2 (Z.eqb_neq _ _) (proj1 (live_ep s Hc src_p w Hw))).
    destruct (moved_live _ _ _ _ M1 Hw) as (w1 & Hw1 & K). destruct (live_proc_of s1 src_p w1 Hw1) as (p & Hp & Ep).
    erewrite bind_get_proc by done. eexists. split; [done|]. unfold RTS_ISSET. rewrite isset_has by apply _.
    rewrite (f_equal v_noend Ep : has (p_rts_flags p) RTS_NO_ENDPOINT = v_noend w1), (k_noend _ _ K). by exists w. }
  rewrite (bind_done _ _ _ _ _ Edead).
  destruct dead.
  { destruct (Hdead eq_refl) as (w & Hw & Hn). exists EDEADSRCDST, s1. split_and!; [done..|]. by eapply received_dead. }
  destruct (live_proc_of s1 caller vc1 Hlc1) as (c1 & Hcp1 & Ec1). erewrite bind_get_proc by done.
  unfold RTS_ISSET. rewrite isset_has by apply _.
  assert (v_send vc = if has (p_rts_flags c1) RTS_SENDING then Some (p_sendto_e c1) else None) as Esend
    by (exact (eq_sym (f_equal v_send Ec1))).
  destruct (has (p_rts_flags c1) RTS_SENDING).
  - rewrite bind_ret. apply (receive_none_run s1 s1); try done; [by apply moved_refl, ipc_ok_ready|apply Hlc1|].
    rewrite Esend. done.
  - destruct (receive_find_run s1 caller vc1 src_e src_p Hok1 Hlc1 Esend Hrv Hdl Hsrc1) as (b & s2 & E2 & F).
    rewrite (bind_done _ _ _ _ _ E2). destruct b.
    + destruct (receive_done_run s1 s2 G1 Esend F) as (s' & E & ? & ?). exists OK, s'. by split_and!.
    + destruct (found_none_inv _ _ _ _ _ _ F) as (l & Hok2 & M2 & Hv2 & Hnn & Hna & Hch & Hf).
      apply (receive_none_run s1 s2); try done. intros _.
      split; [by eapply stored_no_notify|]. split; [by eapply stored_no_async|]. exists l.
      split; [by eapply relax_chain; [apply M1|]|by eapply relax_forall; [apply M1|]].
Qed.
End Receive.

(** A process that runs in user mode: nothing is pending for it. *)
Record running (V : views) (n : Z) (v : ipcv) : Prop := {
  ru_live : live V n v;
  ru_user : 0 <= n;
  ru_send : v_send v = None;
  ru_recv : v_recv v = None;
  ru_end : v_noend v = false;
  ru_dlv : has (v_misc v) MF_DELIVERMSG = false
}.

(** C3: receiving is total, exact and safe.  From a well-formed state without
    IPC filters, [mini_receive] of a running process from any process or from
    another live one ends in one of four ways, and the invariant holds
    afterwards.  The source is dying: [EDEADSRCDST].  Or one message of a live,
    accepted process is stored for delivery, stamped with its endpoint: its
    pending notification, the lowest one if any will do, whose bit and no other
    is then cleared; or, when no notification may be taken, an asynchronous
    message of its table that is addressed to the caller and not done; or, when
    there is none of these either, the message of the first acceptable process
    of the caller queue, which is released.  Or nothing of all this is there for
    the caller: it fails with [ENOTREADY] or [ELOCKED], or blocks.  That the
    asynchronous message is the first one offered, is marked done, and that none
    is overlooked, is stated for a given source always, and for any source where
    every privilege structure that names a live process belongs to it. *)
Theorem mini_receive_correct s caller vc src_e src_p addr flags :
  ipc_ok s -> running (view s) caller vc -> src_ok (view s) src_e src_p -> src_p <> caller ->
  exists r s', mini_receive caller src_e addr flags s = Done r s' /\ ipc_ok s'
    /\ received s caller vc src_e src_p addr flags r s'.
Proof.
  intros Hok [Hl H0 Hs Hr He Hd] Hsrc Hne.
  apply mini_receive_run; try done. by left.
Qed.

(** 13 is blocked sending to RS. *)
Lemma mini_receive_correct_witness :
  exists r s', mini_receive RS_PROC_NR ANY 0x3000 0 ipc_example = Done r s' /\ ipc_ok s'
    /\ received ipc_example RS_PROC_NR (ipc_of (slot ipc_example RS_PROC_NR)) ANY ANY 0x3000 0 r s'.
Proof.
  apply (mini_receive_correct ipc_example RS_PROC_NR (ipc_of (slot ipc_example RS_PROC_NR)) ANY ANY 0x3000 0);
    [by_ok|split; [by_live|done|by_vm|by_vm|by_vm|by_vm]|by left|done].
Defined.

(** ** The synchronous calls *)

(** The caller and the destination after a successful send. *)
Lemma sent_caller s caller dst vc vd om r s' :
  live (view s) caller vc -> live (view s) dst vd -> caller <> dst -> v_send vc = None -> v_recv vc = None ->
  has (v_misc vc) MF_DELIVERMSG = false ->
  sent s caller dst vc vd om 0 r s' -> r = OK ->
  exists vc', live (view s') caller vc' /\ v_recv vc' = None /\ (v_send vc' = None \/ v_send vc' = Some (v_ep vd))
    /\ has (v_misc vc') MF_DELIVERMSG = false /\ exists w, live (view s') dst w /\ v_ep w = v_ep vd.
Proof.
  intros Hlc Hld Hne Hs Hr Hd Hsent. destruct Hsent as [| |m s' Hnd Hw Hm HG| | |m l q s' Hnd Hw Hnb Hm Hch Hcl Hq HG];
    try (intros E; vm_compute in E; discriminate E); intros _.
  - pose proof (v_got_keeps m (v_ep vc) (send_call vc 0) (has 0 FROM_KERNEL) vd) as K.
    exists vc. split_and!; try done; [split_and!; [apply Hlc| |apply Hlc]|by left|].
    + rewrite (goes_lookup_ne _ _ _ _ _ _ caller HG) by done. apply Hlc.
    + eexists. split; [split_and!; [apply Hld|by eapply goes_lookup|rewrite (k_empty _ _ K); apply Hld]|apply K].
  - set (vb := v_block (v_ep vd) m (block_misc 0 (v_misc vc)) vc) in HG.
    assert (live (<[caller := vb]> (view s)) caller vb) as Hb by (split_and!; [apply Hlc|apply lookup_insert_eq|apply Hlc]).
    assert (live (<[caller := vb]> (view s)) dst vd) as Hd' by (split_and!; [apply Hld|rewrite lookup_insert_ne by done; apply Hld|apply Hld]).
    destruct (append_q_live_r _ dst caller q _ _ Hb) as (vc' & Hc' & S).
    destruct (append_q_live_r _ dst caller q _ _ Hd') as (w & Hw' & S').
    exists vc'. rewrite (g_view _ _ _ _ HG). split_and!; [done| | | |].
    + by rewrite (sl_recv _ _ S).
    + right. by rewrite (sl_send _ _ S).
    + by rewrite (sl_misc _ _ S).
    + exists w. by rewrite (sl_ep _ _ S').
Qed.

(** Setting flags of the caller that message passing does not look at. *)
Lemma flags_moved s caller vc f g :
  ipc_ok s -> running (view s) caller vc ->
  (forall p, ipc_of (f p) = g (ipc_of p)) -> (forall p, sched_same p (f p)) ->
  (forall p, p_priority (f p) = p_priority p) -> keeps vc (g vc) ->
  has (v_misc (g vc)) MF_DELIVERMSG = false ->
  exists s', upd_proc caller f s = Done tt s' /\ ipc_ok s' /\ moved s s' /\ running (view s') caller (g vc).
Proof.
  intros Hok [Hl H0 Hs Hr He Hd] Hg Hss Hpr K Hd'. pose proof Hok as [[Hb Hc Hlk] Hnf Hm].
  destruct (v_upd s caller vc f g Hb (proj1 (proj2 Hl)) Hg Hss Hpr) as (s' & E & G).
  assert (v_recv (g vc) = None) as Hr' by (destruct (k_recv _ _ K); congruence).
  assert (moved s s') as M.
  { apply (deliver_moved s s' caller vc (g vc) (privs s)); [by apply ipc_ok_ready|done|done|done|done|apply prelax_refl]. }
  exists s'. split_and!; [done|by eapply moved_ipc_ok|done|]. split; try done.
  - split_and!; [apply Hl|by eapply goes_lookup|rewrite (k_empty _ _ K); apply Hl].
  - by rewrite (k_send _ _ K).
  - by rewrite (k_noend _ _ K).
Qed.

Lemma sendrec_run s caller vc dst vd m_ptr :
  ipc_ok s -> running (view s) caller vc -> live (view s) dst vd -> caller <> dst ->
  exists r s', (r <- mini_send caller (v_ep vd) m_ptr 0 ;;
    if negb (r =? OK) then ret r else mini_receive caller (v_ep vd) (ptr_addr m_ptr) 0) s = Done r s' /\ ipc_ok s'.
Proof.
  intros Hok [Hl H0 Hs Hr He Hd] Hld Hne.
  destruct (mini_send_run s caller dst vc vd m_ptr 0 Hok Hl Hld Hne ltac:(done) Hs Hr) as (r & s1 & E1 & S1).
  rewrite (bind_done _ _ _ _ _ E1). pose proof (sent_ok _ _ _ _ _ _ _ _ _ Hok Hl Hld Hne H0 Hs Hr He S1) as Hok1.
  destruct (Z.eqb_spec r OK) as [E|E]; cbn [negb]; [|by exists r, s1].
  destruct (sent_caller _ _ _ _ _ _ _ _ Hl Hld Hne Hs Hr Hd S1 E) as (vc' & Hl' & Hr' & Hs' & Hd' & w & Hw & Ew).
  destruct (mini_receive_run s1 caller vc' (v_ep vd) dst (ptr_addr m_ptr) 0) as (r' & s2 & E2 & Hok2 & _); try done.
  - right. by exists w.
  - by exists r', s2.
Qed.

Lemma sync_ipc_action_run s caller vc call e p m_ptr :
  ipc_ok s -> running (view s) caller vc -> src_ok (view s) e p -> (e = ANY -> call = RECEIVE) -> p <> caller ->
  exists r s', sync_ipc_action caller call e m_ptr s = Done r s' /\ ipc_ok s'.
Proof.
  intros Hok Hru Hsrc Hany Hne. pose proof Hru as [Hl H0 Hs Hr He Hd]. unfold sync_ipc_action.
  destruct (call =? SENDREC) eqn:E1.
  { destruct Hsrc as [[-> _]|(w & Hw & <-)]; [rewrite Hany in E1 by done; done|].
    destruct (flags_moved s caller vc (fun c => set_p_misc_flags (flag_set (p_misc_flags c) MF_REPLY_PEND) c)
      (fun v => set_v_misc (flag_set (v_misc v) MF_REPLY_PEND) v) Hok Hru) as (s1 & Eu & Hok1 & M1 & Hru1); try done.
    - split; try done. by left.
    - cbn. by rewrite (has_flag_set MF_REPLY_PEND MF_DELIVERMSG), Hd.
    - rewrite (bind_done _ _ _ _ _ Eu). destruct (moved_live _ _ _ _ M1 Hw) as (w1 & Hw1 & K).
      rewrite <- (k_ep _ _ K). by eapply sendrec_run. }
  destruct (call =? SEND) eqn:E2.
  { destruct Hsrc as [[-> _]|(w & Hw & <-)]; [rewrite Hany in E2 by done; done|].
    destruct (mini_send_run s caller p vc w m_ptr 0 Hok Hl Hw (not_eq_sym Hne) ltac:(done) Hs Hr) as (r & s1 & E & S).
    exists r, s1. split; [done|]. exact (sent_ok _ _ _ _ _ _ _ _ _ Hok Hl Hw (not_eq_sym Hne) H0 Hs Hr He S). }
  destruct (call =? RECEIVE) eqn:E3.
  { destruct (flags_moved s caller vc (fun c => set_p_ipc_status 0 (set_p_misc_flags (flag_clr (p_misc_flags c) MF_REPLY_PEND) c))
      (fun v => set_v_status 0 (set_v_misc (flag_clr (v_misc v) MF_REPLY_PEND) v)) Hok Hru) as (s1 & Eu & Hok1 & M1 & Hru1); try done.
    - split; try done. by left.
    - cbn. by rewrite (has_flag_clr MF_REPLY_PEND MF_DELIVERMSG), Hd.
    - rewrite (bind_done _ _ _ _ _ Eu). destruct Hru1 as [Hl1 _ Hs1 Hr1 _ Hd1].
      destruct (mini_receive_run s1 caller _ e p (ptr_addr m_ptr) 0 Hok1 Hl1) as (r & s2 & E & Hok2 & _); try done.
      + by eapply src_ok_moved.
      + by left.
      + by exists r, s2. }
  destruct Hsrc as [[-> _]|(w & Hw & <-)]; [rewrite Hany in E3 by done; done|].
  destruct (call =? NOTIFY).
  { destruct (mini_notify_ready s caller vc (v_ep w) (ipc_ok_ready _ Hok) Hl) as (r & s1 & E & N).
    exists r, s1. split; [done|]. by eapply moved_ipc_ok, N. }
  destruct (call =? SENDNB); [|by exists EBADCALL, s].
  destruct (mini_send_run s caller p vc w m_ptr NON_BLOCKING Hok Hl Hw (not_eq_sym Hne) ltac:(done) Hs Hr) as (r & s1 & E & S).
  exists r, s1. split; [done|]. exact (sent_ok _ _ _ _ _ _ _ _ _ Hok Hl Hw (not_eq_sym Hne) H0 Hs Hr He S).
Qed.

(** ** Access control *)

(** Every hook of the chain allows the message. *)
Definition hooks_allow (s : kstate) (src dst call : Z) : Prop :=
  forall h, h ∈ k_mac_hooks s -> k_hook_fn s h MAC_IPC_SEND (mac_ipc src dst call) = MAC_ALLOW.

(** The policy for the call [call] on endpoint [e]: the trap mask has the call;
    only a receive may name no process; sending needs the consent of the hooks
    and either the capability or the bit of the destination in the send mask;
    kernel tasks are only called with [SENDREC]. *)
Record permitted (s : kstate) (vc : ipcv) (pv : priv) (call e : Z) : Prop := {
  pm_call : ipc_call_named call = true;
  pm_trap : has (s_trap_mask pv) (Z.shiftl 1 call) = true;
  pm_any : e = ANY -> call = RECEIVE;
  pm_dst : e <> ANY -> exists n w id, live (view s) n w /\ v_ep w = e /\ v_priv w = Some id
    /\ (call = RECEIVE \/ (hooks_allow s (v_ep vc) e call
          /\ (has (s_cap_effective pv) CAP_IPC_OWNER = true \/ get_sys_bit (s_ipc_to pv) id = true)))
    /\ (n < 0 -> call = SENDREC \/ call = RECEIVE)
}.

Lemma mac_check_loop_spec call hooks :
  mac_check_loop call hooks = MAC_ALLOW <-> forall h, h ∈ hooks -> call h = MAC_ALLOW.
Proof.
  induction hooks as [|h hooks IH]; cbn.
  - split; [|done]. intros _ h Hh. by apply elem_of_nil in Hh.
  - destruct (Z.eqb_spec (call h) MAC_ALLOW) as [E|E]; cbn [negb].
    + rewrite IH. split; [|intros H h' Hh'; apply H; set_solver].
      intros H h' [->|Hh']%elem_of_cons; [done|by apply H].
    + split; [done|]. intros H. exfalso. apply E, H. set_solver.
Qed.

Lemma mac_kernel_check_run s what ctx :
  exists v, mac_kernel_check what ctx s = Done v s
    /\ (v = MAC_ALLOW <-> forall h, h ∈ k_mac_hooks s -> k_hook_fn s h what ctx = MAC_ALLOW).
Proof.
  unfold mac_kernel_check. rewrite (bind_done _ _ s s s) by done.
  destruct (k_mac_hooks s) as [|h hooks] eqn:E; cbn [length Nat.eqb].
  - exists MAC_ALLOW. split; [done|]. split; [|done]. intros _ h Hh. by apply elem_of_nil in Hh.
  - eexists. split; [done|]. apply (mac_check_loop_spec (fun h => k_hook_fn s h what ctx)).
Qed.

Definition sync_errors : list Z := [ETRAPDENIED; ECALLDENIED; EINVAL; EDEADSRCDST].

(** The checks either refuse the call, or establish the policy's conditions on
    the destination. *)
Lemma sync_ipc_target_run s caller vc id pv call e :
  ipc_ok s -> live (view s) caller vc -> v_priv vc = Some id -> privs s !! id = Some pv ->
  (exists err, sync_ipc_target caller call e s = Done (inl err) s /\ err ∈ sync_errors)
  \/ exists p, sync_ipc_target caller call e s = Done (inr p) s /\ src_ok (view s) e p
       /\ (e = ANY -> call = RECEIVE)
       /\ (e <> ANY -> exists w i, live (view s) p w /\ v_ep w = e /\ v_priv w = Some i
             /\ (call = RECEIVE \/ (hooks_allow s (v_ep vc) e call
                   /\ (has (s_cap_effective pv) CAP_IPC_OWNER = true \/ get_sys_bit (s_ipc_to pv) i = true)))).
Proof.
  intros Hok Hlc Hid Hpv. pose proof Hok as [[Hb Hc Hl] Hnf Hm]. unfold sync_ipc_target.
  destruct (Z.eqb_spec e ANY) as [->|Ha].
  { destruct (Z.eqb_spec call RECEIVE) as [->|]; cbn [negb].
    - right. exists ANY. split_and!; [done|by left|done|done].
    - left. exists EINVAL. split; [done|]. unfold sync_errors. set_solver. }
  destruct (isokendpt_total s Hb e) as [[p|] Er]; rewrite (bind_done _ _ _ _ _ Er).
  2:{ left. exists EDEADSRCDST. split; [done|]. unfold sync_errors. set_solver. }
  destruct (isokendpt_live s e p Er) as (w & Hw & Ew).
  destruct (nr_to_id_run s p w Hc Hw) as (i & Hi & _ & Ei).
  destruct (Z.eqb_spec call RECEIVE) as [->|Hnr].
  { right. exists p. split_and!; [done|right; by exists w|done|]. intros _. exists w, i. split_and!; try done. by left. }
  destruct (live_proc_of s caller vc Hlc) as (c & Hcp & Ec). erewrite bind_get_proc by done.
  rewrite (f_equal v_ep Ec : p_endpoint c = v_ep vc).
  destruct (mac_kernel_check_run s MAC_IPC_SEND (mac_ipc (v_ep vc) e call)) as (v & Ev & Hv).
  rewrite (bind_done _ _ _ _ _ Ev). destruct (Z.eqb_spec v MAC_ALLOW) as [Ea|Ea]; cbn [negb].
  2:{ left. exists ECALLDENIED. split; [done|]. unfold sync_errors. set_solver. }
  assert (p_priv c = Some id) as Hcid by (by rewrite (f_equal v_priv Ec : p_priv c = v_priv vc)).
  rewrite (bind_priv_of c id pv) by done.
  assert (exists may, (if has (s_cap_effective pv) CAP_IPC_OWNER then ret true else may_send_to caller p) s = Done may s
    /\ (may = true -> has (s_cap_effective pv) CAP_IPC_OWNER = true \/ get_sys_bit (s_ipc_to pv) i = true))
    as (may & Emay & Hmay).
  { destruct (has (s_cap_effective pv) CAP_IPC_OWNER); [exists true; split; [done|by left]|].
    unfold may_send_to. erewrite bind_get_proc by done. rewrite (bind_priv_of c id pv) by done.
    rewrite (bind_done _ _ _ _ _ Ei). eexists. split; [done|]. by right. }
  rewrite (bind_done _ _ _ _ _ Emay). destruct may; cbn [negb].
  - right. exists p. split_and!; [done|right; by exists w|done|]. intros _. exists w, i. split_and!; try done.
    right. split; [|by apply Hmay]. exact (proj1 Hv Ea).
  - left. exists ECALLDENIED. split; [done|]. unfold sync_errors. set_solver.
Qed.

(** The remaining checks and the call itself. *)
Lemma do_sync_ipc_run s caller vc id pv call e m_ptr :
  ipc_ok s -> live (view s) caller vc -> v_priv vc = Some id -> privs s !! id = Some pv -> call <> SENDA ->
  (exists err, do_sync_ipc caller call e m_ptr s = Done err s /\ err ∈ sync_errors)
  \/ exists p, permitted s vc pv call e /\ src_ok (view s) e p /\ (e = ANY -> call = RECEIVE)
       /\ do_sync_ipc caller call e m_ptr s = sync_ipc_action caller call e m_ptr s.
Proof.
  intros Hok Hlc Hid Hpv Hna. unfold do_sync_ipc. rewrite bind_assert by (by rewrite (proj2 (Z.eqb_neq _ _) Hna)).
  destruct ((call <? 0) || (IPCNO_HIGHEST <? call) || (32 <=? call) || negb (ipc_call_named call)) eqn:En.
  { left. exists ETRAPDENIED. split; [done|]. unfold sync_errors. set_solver. }
  apply orb_false_iff in En as [_ Hnm%negb_false_iff].
  destruct (sync_ipc_target_run s caller vc id pv call e Hok Hlc Hid Hpv) as [(err & E & Hin)|(p & E & Hsrc & Hany & Hdst)];
    rewrite (bind_done _ _ _ _ _ E); [left; by exists err|].
  destruct (live_proc_of s caller vc Hlc) as (c & Hcp & Ec). erewrite bind_get_proc by done.
  rewrite (bind_priv_of c id pv) by (by rewrite (f_equal v_priv Ec : p_priv c = v_priv vc) || done).
  destruct (has (s_trap_mask pv) (Z.shiftl 1 call)) eqn:Et; cbn [negb].
  2:{ left. exists ETRAPDENIED. split; [done|]. unfold sync_errors. set_solver. }
  destruct (negb (call =? SENDREC) && negb (call =? RECEIVE) && iskerneln p) eqn:Ek.
  { left. exists ETRAPDENIED. split; [done|]. unfold sync_errors. set_solver. }
  right. exists p. split_and!; try done. split; try done. intros Ha.
  destruct (Hdst Ha) as (w & i & Hw & Ew & Hi & Hp). exists p, w, i. split_and!; try done.
  intros Hneg. rewrite !andb_false_iff, !negb_false_iff, !Z.eqb_eq in Ek. destruct Ek as [[?|?]|Ek]; [by left|by right|].
  unfold iskerneln in Ek. apply Z.ltb_ge in Ek. lia.
Qed.

(** C11: access control is complete.  A synchronous call that the policy does not
    permit (trap mask, destination alive, kernel MAC hooks, send mask or the
    override capability, calls to kernel tasks) is refused with an error and
    changes nothing. *)
Theorem ipc_access_control s caller vc id pv call e m_ptr :
  ipc_ok s -> live (view s) caller vc -> v_priv vc = Some id -> privs s !! id = Some pv -> call <> SENDA ->
  ~ permitted s vc pv call e ->
  exists err, do_sync_ipc caller call e m_ptr s = Done err s /\ err ∈ sync_errors.
Proof.
  intros Hok Hlc Hid Hpv Hna Hnp.
  destruct (do_sync_ipc_run s caller vc id pv call e m_ptr Hok Hlc Hid Hpv Hna) as [?|(p & Hp & _)]; [done|by destruct Hnp].
Qed.

Lemma mask_forbids s vc pv call n w i :
  core (view s) (privs s) -> live (view s) n w -> v_priv w = Some i -> call <> RECEIVE ->
  has (s_cap_effective pv) CAP_IPC_OWNER = false -> get_sys_bit (s_ipc_to pv) i = false ->
  ~ permitted s vc pv call (v_ep w).
Proof.
  intros Hc Hw Hi Hnr Hcap Hbit [_ _ _ Hd]. destruct (live_ep s Hc n w Hw) as [Ha _].
  destruct (Hd Ha) as (n' & w' & i' & Hw' & Ew & Hi' & Hp & _).
  assert (n' = n) as ->.
  { destruct (c_ep _ _ Hc n' w' Hw') as [<- _]. destruct (c_ep _ _ Hc n w Hw) as [<- _]. congruence. }
  assert (w' = w) as -> by (destruct Hw as (_ & ? & _), Hw' as (_ & ? & _); congruence).
  rewrite Hi in Hi'. injection Hi' as <-. destruct Hp as [?|[_ [?|?]]]; congruence.
Qed.

(** 11 may send to nobody. *)
Definition acl_example : kstate :=
  example [live_proc RS_PROC_NR 7 0 4; live_proc 11 16 0 7]
    [live_priv RS_PROC_NR 7 SRV_F; set_s_ipc_to empty_map (live_priv 11 16 USR_F)] 11.

Lemma ipc_access_control_witness :
  exists err, do_sync_ipc 11 SEND RS_PROC_NR (mkPtr 0x1000 None) acl_example = Done err acl_example
    /\ err ∈ sync_errors.
Proof.
  apply (ipc_access_control acl_example 11 (ipc_of (slot acl_example 11)) 16 (pslot acl_example 16));
    [by_ok|by_live|by_vm|by_pslot|done|].
  apply (mask_forbids acl_example _ _ SEND RS_PROC_NR (ipc_of (slot acl_example RS_PROC_NR)) 7);
    [apply coreb_sound; by_vm|by_live|by_vm|done|by_vm|by_vm].
Defined.

(** ** Asynchronous sends *)

Lemma senda_dst_run s caller w e :
  ready s -> live (view s) caller w ->
  exists r d, senda_dst caller e s = Done (r, d) s /\ (r = OK -> exists v, live (view s) d v).
Proof.
  intros Hr Hw. pose proof Hr as [Hb Hc Hnf Hm]. unfold senda_dst.
  destruct (isokendpt_total s Hb (am_dst e)) as [[d|] E]; rewrite (bind_done _ _ _ _ _ E).
  2:{ by exists EDEADSRCDST, 0. }
  destruct (isokendpt_live s _ d E) as (v & Hv & _).
  destruct (iskerneln d); [by exists ECALLDENIED, d|].
  destruct (may_asynsend_run s caller w d v Hc Hw Hv) as (b & _ & _ & _ & Eb & _). rewrite (bind_done _ _ _ _ _ Eb).
  destruct b; cbn [negb]; [|by exists ECALLDENIED, d].
  destruct (live_proc_of s d v Hv) as (p & Hp & _). erewrite bind_get_proc by done.
  eexists _, d. split; [done|]. intros _. by exists v.
Qed.

(** The test whether an entry can be delivered at once. *)
Lemma senda_will_run s d v r c_e src flags :
  ready s -> (r = OK -> live (view s) d v) ->
  exists b, (if r =? OK then
      andK (WILLRECEIVE c_e d src)
        (d <- get_proc d ;; ret (negb (has flags AMF_NOREPLY) || negb (has (p_misc_flags d) MF_REPLY_PEND)))
    else ret false) s = Done b s /\ (b = true -> r = OK /\ will v c_e = true).
Proof.
  intros [Hb Hc Hnf Hm] Hd. destruct (Z.eqb_spec r OK) as [E|E]; [|by exists false]. specialize (Hd E).
  unfold andK. rewrite (bind_done _ _ _ _ _ (WILLRECEIVE_nf s Hc Hnf c_e d v src Hd)).
  destruct (will v c_e) eqn:Ew; [|by exists false].
  destruct (live_proc_of s d v Hd) as (p & Hp & _). erewrite bind_get_proc by done. by eexists.
Qed.

(** An asynchronous message is handed to a process that waits for it. *)
Lemma wake_moved s s' d v m src x :
  ready s -> live (view s) d v -> goes s s' (<[d := v_wake m src x v]> (view s)) (privs s) -> moved s s'.
Proof.
  intros Hr Hd G. eapply goes_moved; [done|exact G| | |apply prelax_refl].
  - eapply relax_insert; [apply Hd|apply v_wake_keeps].
  - apply dlv_insert; [exact (c_dlv _ _ (r_core _ Hr))|by left].
Qed.

Lemma store_moved s caller w t i e flags r :
  ready s -> live (view s) caller w ->
  (exists t0, atab s !! (v_ep w, asyn_addr t i) = Some t0 /\ am_msg t0 = am_msg e) ->
  exists b s', store_result caller t i e flags r s = Done b s' /\ moved s s'.
Proof.
  intros Hr Hw Ht. destruct (store_result_run s caller w t i e flags r Hr Hw Ht) as (b & s' & E & T & _).
  exists b, s'. split; [done|]. apply T.
Qed.

Lemma senda_entry_run s caller w t i a :
  ready s -> live (view s) caller w -> exists a' s', senda_entry caller t i a s = Done a' s' /\ moved s s'.
Proof.
  intros Hr Hw. pose proof Hr as [Hb Hc Hnf Hm]. destruct a as [dn nt]. unfold senda_entry.
  pose proof (moved_refl s Hr) as M0.
  destruct (A_RETR_run s caller w t i Hw) as (o & Eo & Ho). rewrite (bind_done _ _ _ _ _ Eo).
  destruct o as [e|]; [|by eexists _, s]. specialize (Ho e eq_refl).
  destruct (am_flags e =? 0); [by eexists _, s|]. destruct (bad_flags (am_flags e)); [by eexists _, s|].
  destruct (has (am_flags e) AMF_DONE); [by eexists _, s|].
  destruct (senda_dst_run s caller w e Hr Hw) as (r & d & Ed & Hd). rewrite (bind_done _ _ _ _ _ Ed).
  destruct (live_proc_of s caller w Hw) as (c & Hcp & Ec). erewrite bind_get_proc by done.
  rewrite (f_equal v_ep Ec : p_endpoint c = v_ep w).
  assert (exists v, r = OK -> live (view s) d v) as [v Hv].
  { destruct (Z.eq_dec r OK) as [E|E]; [destruct (Hd E) as [v Hv]; by exists v|by exists w]. }
  destruct (senda_will_run s d v r (v_ep w) (FromUser (u64 (asyn_addr t i + ASYNMSG_MSG))) (am_flags e) Hr Hv)
    as (b & Eb & Hwill). rewrite (bind_done _ _ _ _ _ Eb). destruct b.
  - destruct (Hwill eq_refl) as [-> Hw']. specialize (Hv eq_refl). destruct (c_ep _ _ Hc d v Hv) as (_ & Hfb & _).
    pose proof (goes_start s d v (privs s) Hb (proj1 (proj2 Hv)) eq_refl) as G0.
    destruct (wake_spec s s d v (view s) (privs s) (am_msg e) (v_ep w) (IPC_STATUS_CALL_TO SENDA)
      (fun _ => nt0 <- store_result caller t i e (am_flags e) OK ;; ret (dn, nt || nt0)) G0 Hfb) as (s1 & E1 & G1).
    unfold IPC_STATUS_ADD_CALL. rewrite E1. pose proof (wake_moved s s1 d v _ _ _ Hr Hv G1) as M1.
    destruct (moved_live _ _ _ _ M1 Hw) as (w1 & Hw1 & K1).
    destruct (store_moved s1 caller w1 t i e (am_flags e) OK (m_ready _ _ M1) Hw1) as (b & s2 & E2 & M2).
    { rewrite (goes_field atab _ _ _ _ (fun _ => eq_refl) G1), (k_ep _ _ K1). exact Ho. }
    rewrite (bind_done _ _ _ _ _ E2). eexists _, s2. split; [done|]. by eapply moved_trans.
  - destruct (Z.eqb_spec r OK) as [->|Hne].
    + specialize (Hv eq_refl). destruct (live_proc_of s d v Hv) as (p & Hp & Ep). erewrite bind_get_proc by done.
      destruct (c_priv _ _ Hc caller w Hw) as (id & pv & Hid & Hok & Hpv & u & Hu).
      destruct (c_priv _ _ Hc d v Hv) as (idd & pvd & Hidd & Hokd & Hpvd & _).
      destruct (c_privs _ _ Hc id pv Hok Hpv) as (Hsid & _).
      rewrite (bind_priv_of c id pv) by (by rewrite (f_equal v_priv Ec : p_priv c = v_priv w) || done). rewrite Hsid.
      destruct (priv_step s p idd pvd (fun pv0 => set_s_asyn_pending (set_sys_bit (s_asyn_pending pv0) id) pv0) Hr)
        as (s1 & E1 & N1 & _); [by rewrite (f_equal v_priv Ep : p_priv p = v_priv v)|done|by eapply asyn_mark_relax|].
      rewrite (bind_done _ _ _ _ _ E1). eexists _, s1. split; [done|]. apply N1.
    + destruct (store_moved s caller w t i e (am_flags e) r Hr Hw Ho) as (b & s2 & E2 & M2).
      rewrite (bind_done _ _ _ _ _ E2). by eexists _, s2.
Qed.

Lemma senda_loop_run caller t n : forall s w i a,
  ready s -> live (view s) caller w -> exists a' s', senda_loop n caller t i a s = Done a' s' /\ moved s s'.
Proof.
  induction n as [|n IH]; intros s w i a Hr Hw; cbn [senda_loop].
  - exists a, s. split; [done|]. by apply moved_refl.
  - destruct (senda_entry_run s caller w t i a Hr Hw) as (a1 & s1 & E1 & M1). rewrite (bind_done _ _ _ _ _ E1).
    destruct (moved_live _ _ _ _ M1 Hw) as (w1 & Hw1 & _).
    destruct (IH s1 w1 (i + 1) a1 (m_ready _ _ M1) Hw1) as (a2 & s2 & E2 & M2).
    exists a2, s2. split; [done|]. by eapply moved_trans.
Qed.

Lemma mini_senda_run s caller w t size :
  ready s -> live (view s) caller w -> exists r s', mini_senda caller t size s = Done r s' /\ moved s s'.
Proof.
  intros Hr Hw. pose proof Hr as [Hb Hc Hnf Hm]. unfold mini_senda, try_deliver_senda.
  destruct (live_proc_of s caller w Hw) as (c & Hcp & Ec).
  destruct (c_priv _ _ Hc caller w Hw) as (id & pv & Hid & Hok & Hpv & _).
  assert (p_priv c = Some id) as Hcid by (by rewrite (f_equal v_priv Ec : p_priv c = v_priv w)).
  erewrite bind_get_proc by done. rewrite (bind_priv_of c id pv) by done.
  destruct (has (s_flags pv) SYS_PROC); cbn [negb]; [|exists EPERM, s; split; [done|by apply moved_refl]].
  erewrite bind_get_proc by done.
  destruct (priv_step s c id pv (fun pv => set_s_asynendpoint (p_endpoint c) (set_s_asynsize 0 (set_s_asyntab (-1) pv)))
    Hr Hcid Hpv) as (s1 & E1 & N1 & V1 & P1 & _); [by apply (prelax_same _ _ _ pv)|].
  rewrite (bind_done _ _ _ _ _ E1). destruct (size =? 0); [exists OK, s1; split; [done|apply N1]|].
  destruct (MAX_ASYN <? size); [exists EDOM, s1; split; [done|apply N1]|]. rewrite <- V1 in Hw.
  destruct (senda_loop_run caller t (Z.to_nat size) s1 w 0 (true, false) (m_ready _ _ N1) Hw) as ([dn nt] & s2 & E2 & M2).
  rewrite (bind_done _ _ _ _ _ E2). destruct (asyn_notify_run s2 (p_endpoint c) nt (m_ready _ _ M2)) as (s3 & E3 & N3 & _).
  rewrite (bind_done _ _ _ _ _ E3).
  pose proof (moved_trans _ _ _ (n_moved _ _ N1) (moved_trans _ _ _ M2 (n_moved _ _ N3))) as M3.
  destruct (prelax_lookup _ _ _ _ _ (m_prelax _ _ M3) Hpv) as (pv3 & Hpv3 & _).
  assert (exists s4, (if negb dn then upd_priv_of c (fun pv => set_s_asynsize size (set_s_asyntab t pv)) else ret tt) s3
    = Done tt s4 /\ moved s3 s4) as (s4 & E4 & M4).
  { destruct dn; cbn [negb]; [exists s3; split; [done|by apply moved_refl, M3]|].
    destruct (priv_step s3 c id pv3 (fun pv => set_s_asynsize size (set_s_asyntab t pv)) (m_ready _ _ M3) Hcid Hpv3)
      as (s4 & E4 & N4 & _); [by apply (prelax_same _ _ _ pv3)|]. exists s4. split; [done|apply N4]. }
  rewrite (bind_done _ _ _ _ _ E4). exists OK, s4. split; [done|]. by eapply moved_trans.
Qed.

(** ** The trap *)

Lemma sync_safe s caller vc call e m_ptr :
  ipc_ok s -> running (view s) caller vc -> call <> SENDA -> e <> v_ep vc ->
  exists r s', do_sync_ipc caller call e m_ptr s = Done r s' /\ ipc_ok s'.
Proof.
  intros Hok Hru Hna Hne. pose proof Hru as [Hl _ _ _ _ _]. pose proof Hok as [[Hb Hc Hlk] Hnf Hm].
  destruct (c_priv _ _ Hc caller vc Hl) as (id & pv & Hid & _ & Hpv & _).
  destruct (do_sync_ipc_run s caller vc id pv call e m_ptr Hok Hl Hid Hpv Hna) as [(err & E & _)|(p & _ & Hsrc & Hany & E)].
  - by exists err, s.
  - rewrite E. apply (sync_ipc_action_run s caller vc call e p); try done.
    destruct Hsrc as [[_ ->]|(w & Hw & <-)].
    + intros <-. destruct Hl as (Hn & _). by vm_compute in Hn.
    + intros ->. apply Hne. destruct Hw as (_ & ? & _), Hl as (_ & ? & _). congruence.
Qed.

Lemma keeps_misc x v : keeps v (set_v_misc x v).
Proof. split; try done. by left. Qed.

(** The system call itself, after tracing is dealt with. *)
Lemma do_ipc_call s caller vc kerninfo call e sz r3 :
  ipc_ok s -> running (view s) caller vc -> (call <> SENDA -> e <> v_ep vc) ->
  exists r s', (c <- get_proc caller ;;
    if has (p_misc_flags c) MF_DELIVERMSG then halt Panic
    else if (call =? SENDREC) || (call =? SEND) || (call =? RECEIVE) || (call =? NOTIFY) || (call =? SENDNB) then
      upd_proc caller (fun c =>
        let a := p_accounting c in set_p_accounting (set_a_ipc_sync (u64 (a_ipc_sync a + 1)) a) c) ;;
      do_sync_ipc caller call e (mkPtr r3 None)
    else if call =? SENDA then
      upd_proc caller (fun c =>
        let a := p_accounting c in set_p_accounting (set_a_ipc_async (u64 (a_ipc_async a + 1)) a) c) ;;
      if MAX_ASYN <? sz then ret EDOM else mini_senda caller r3 sz
    else if call =? MINIX_KERNINFO then
      if kerninfo =? 0 then ret EBADCALL else ret OK
    else ret EBADCALL) s = Done r s' /\ ipc_ok s'.
Proof.
  intros Hok Hru Hne. pose proof Hru as [Hl H0 Hs Hr He Hd].
  destruct (live_proc_of s caller vc Hl) as (c & Hcp & Ec). erewrite bind_get_proc by done.
  rewrite (f_equal v_misc Ec : p_misc_flags c = v_misc vc), Hd.
  destruct ((call =? SENDREC) || (call =? SEND) || (call =? RECEIVE) || (call =? NOTIFY) || (call =? SENDNB)) eqn:E1.
  { destruct (flags_moved s caller vc (fun c => let a := p_accounting c in
      set_p_accounting (set_a_ipc_sync (u64 (a_ipc_sync a + 1)) a) c) (fun v => v) Hok Hru) as (s1 & Eu & Hok1 & _ & Hru1); try done.
    rewrite (bind_done _ _ _ _ _ Eu). assert (call <> SENDA) as Hna by (intros ->; done).
    by apply (sync_safe s1 caller vc); auto. }
  destruct (call =? SENDA).
  { destruct (flags_moved s caller vc (fun c => let a := p_accounting c in
      set_p_accounting (set_a_ipc_async (u64 (a_ipc_async a + 1)) a) c) (fun v => v) Hok Hru) as (s1 & Eu & Hok1 & _ & Hru1); try done.
    rewrite (bind_done _ _ _ _ _ Eu). destruct (MAX_ASYN <? sz); [by exists EDOM, s1|].
    destruct (mini_senda_run s1 caller vc r3 sz (ipc_ok_ready _ Hok1) (ru_live _ _ _ Hru1)) as (r & s2 & E2 & M2).
    exists r, s2. split; [done|]. by eapply moved_ipc_ok. }
  destruct (call =? MINIX_KERNINFO); [destruct (kerninfo =? 0)|]; by eexists _, s.
Qed.

Lemma land_single x f `{!SingleBit f} : Z.land x f = if has x f then f else 0.
Proof.
  destruct (has x f) eqn:E; rewrite (has_testbit f) in E.
  - apply Z.bits_inj'. intros i Hi. rewrite Z.land_spec, (testbit_single f i) by done.
    destruct (Z.eqb_spec i (bit_of f)) as [->|]; [by rewrite E|by rewrite andb_false_r].
  - apply Z.bits_inj'. intros i Hi. rewrite Z.land_spec, (testbit_single f i), Z.bits_0 by done.
    destruct (Z.eqb_spec i (bit_of f)) as [->|]; [by rewrite E|by rewrite andb_false_r].
Qed.

Lemma defer_set x :
  Z.land x (Z.lor MF_SC_TRACE MF_SC_DEFER) <> MF_SC_TRACE -> Z.land x (Z.lor MF_SC_TRACE MF_SC_DEFER) <> 0 ->
  has x MF_SC_DEFER = true.
Proof.
  rewrite Z.land_lor_distr_r, (land_single x MF_SC_TRACE), (land_single x MF_SC_DEFER). destruct (has x MF_SC_DEFER); [done|].
  rewrite Z.lor_0_r. by destruct (has x MF_SC_TRACE).
Qed.

(** C1: the IPC trap is safe.  From a well-formed state without IPC filters,
    the trap of the running process with any register contents, except a
    synchronous call on its own endpoint, returns to the dispatcher with the
    invariant intact, whether the process is traced or not. *)
Theorem do_ipc_safe s vc kerninfo r1 r2 r3 :
  ipc_ok s -> running (view s) (proc_ptr s) vc ->
  (has (v_misc vc) MF_SC_DEFER = true -> has (v_misc vc) MF_SC_ACTIVE = false) ->
  (i32 r1 <> SENDA -> i32 r2 <> v_ep vc) ->
  exists r s', do_ipc kerninfo r1 r2 r3 s = Done r s' /\ ipc_ok s'.
Proof.
  intros Hok Hru Hact Hne. pose proof Hru as [Hl H0 Hs Hr He Hd]. pose proof Hok as [[Hb Hc Hlk] Hnf Hm].
  unfold do_ipc. rewrite (bind_done _ _ (proc_ptr s) s s) by done.
  set (caller := proc_ptr s) in *. destruct (live_proc_of s caller vc Hl) as (c & Hcp & Ec). erewrite bind_get_proc by done.
  destruct (c_ep _ _ Hc caller vc Hl) as (_ & Hfb & Hnr).
  unfold RTS_ISSET at 1. rewrite isset_has by apply _.
  rewrite bind_assert by (by rewrite (f_equal v_fbit Ec : has (p_rts_flags c) RTS_SLOT_FREE = v_fbit vc), Hfb).
  rewrite (f_equal v_misc Ec : p_misc_flags c = v_misc vc), (f_equal v_nr Ec : p_nr c = v_nr vc), Hnr.
  set (traced := Z.land (v_misc vc) (Z.lor MF_SC_TRACE MF_SC_DEFER)). cbn zeta.
  assert (forall a b `{!SingleBit a, !SingleBit b}, a <> MF_DELIVERMSG -> b <> MF_DELIVERMSG ->
    has (flag_set (flag_clr (v_misc vc) a) b) MF_DELIVERMSG = false) as Hfl.
  { intros a b ? ? Ha Hb'. rewrite (has_flag_set b MF_DELIVERMSG), (has_flag_clr a MF_DELIVERMSG), Hd.
    by rewrite (proj2 (Z.eqb_neq _ _) Hb'). }
  destruct (Z.eqb_spec traced MF_SC_TRACE) as [|Ht].
  { destruct (flags_moved s caller vc (fun c => set_p_defer (r1, r2, r3)
        (set_p_misc_flags (flag_set (flag_clr (p_misc_flags c) MF_SC_TRACE) MF_SC_DEFER) c))
      (fun v => set_v_misc (flag_set (flag_clr (v_misc v) MF_SC_TRACE) MF_SC_DEFER) v) Hok Hru)
      as (s1 & Eu & Hok1 & _ & Hru1); try done; [apply keeps_misc|exact (Hfl MF_SC_TRACE MF_SC_DEFER _ _ ltac:(done) ltac:(done))|].
    rewrite (bind_done _ _ _ _ _ Eu). destruct Hru1 as [Hl1 _ _ _ _ _].
    destruct (cause_sig_ready s1 caller _ SIGTRAP (ipc_ok_ready _ Hok1) Hl1 H0) as (s2 & E2 & N2); [done|].
    rewrite (bind_done _ _ _ _ _ E2). destruct (notified_live _ _ _ _ N2 Hl1) as (v2 & Hl2 & _).
    destruct (live_proc_of s2 caller v2 Hl2) as (c2 & Hc2 & _). erewrite bind_get_proc by done.
    eexists _, s2. split; [done|]. by eapply moved_ipc_ok, N2. }
  destruct (Z.eqb_spec traced 0) as [Et|Et]; cbn [negb].
  { rewrite bind_ret. by apply do_ipc_call with (vc := vc). }
  assert (has (v_misc vc) MF_SC_DEFER = true) as Hdf by (by apply defer_set).
  destruct (flags_moved s caller vc (fun c => set_p_misc_flags (flag_clr (p_misc_flags c) MF_SC_DEFER) c)
    (fun v => set_v_misc (flag_clr (v_misc v) MF_SC_DEFER) v) Hok Hru) as (s1 & E1 & Hok1 & M1 & Hru1); try done.
  { apply keeps_misc. }
  { cbn. by rewrite (has_flag_clr MF_SC_DEFER MF_DELIVERMSG), Hd. }
  rewrite bind_assoc, (bind_done _ _ _ _ _ E1), bind_assoc.
  rewrite bind_assert by (by rewrite (Hact Hdf)).
  destruct (flags_moved s1 caller _ (fun c => set_p_misc_flags (flag_set (p_misc_flags c) MF_SC_ACTIVE) c)
    (fun v => set_v_misc (flag_set (v_misc v) MF_SC_ACTIVE) v) Hok1 Hru1) as (s2 & E2 & Hok2 & M2 & Hru2); try done.
  { apply keeps_misc. }
  { exact (Hfl MF_SC_DEFER MF_SC_ACTIVE _ _ ltac:(done) ltac:(done)). }
  rewrite (bind_done _ _ _ _ _ E2). by eapply do_ipc_call.
Qed.

Lemma do_ipc_safe_witness :
  exists r s', do_ipc 0 SENDREC (ENDPOINT 1 12) 0x1000 ipc_example = Done r s' /\ ipc_ok s'.
Proof.
  apply (do_ipc_safe ipc_example (ipc_of (slot ipc_example 11)) 0 SENDREC (ENDPOINT 1 12) 0x1000);
    [by_ok|split; [by_live|vm_compute; congruence|by_vm|by_vm|by_vm|by_vm]|by_vm|intros _; vm_compute; congruence].
Defined.

(** ** Asynchronous sends escape the MAC hooks *)

(** A hook that denies every message is installed; RS sends to 12, which waits
    for any message. *)
Definition mac_example : kstate :=
  set_k_hook_fn (fun _ _ _ => MAC_DENY) (set_k_mac_hooks [1]
    (set_atab (<[(RS_PROC_NR, 0x5000) := mkAsyn AMF_VALID (ENDPOINT 1 12) 0 (mkMsg 0 99 (M_raw [7]))]> ∅)
       (set_proc_ptr RS_PROC_NR ipc_example))).
Definition mac_after : kstate := run_state (do_ipc 0 SENDA 1 0x5000) mac_example.

(** Property: asynchronous sends are not subject to mandatory access control.  With a
    hook installed that denies every message, [SEND] to a waiting process is
    refused with [ECALLDENIED] and changes nothing, but the same sender's
    [SENDA] to the same process succeeds and delivers the message. *)
Theorem senda_bypasses_mac :
  ends_with (do_ipc 0 SEND (ENDPOINT 1 12) 0x1000) mac_example ECALLDENIED = true
  /\ do_ipc 0 SENDA 1 0x5000 mac_example = Done OK mac_after
  /\ v_dmsg (ipc_of (slot mac_after 12)) = mkMsg RS_PROC_NR 99 (M_raw [7])
  /\ v_recv (ipc_of (slot mac_example 12)) = Some ANY /\ v_recv (ipc_of (slot mac_after 12)) = None.
Proof.
  split; [by_vm|]. split.
  { unfold mac_after. apply (run_done (do_ipc 0 SENDA 1 0x5000) mac_example OK). by_vm. }
  split; [by_vm|]. split; by_vm.
Qed.

(** ** Notifications *)

(** C12: a notification is never lost, and never delivered twice.
    [mini_notify] either reports a dead destination and changes nothing, or
    succeeds.  Exactly when the destination waits for a message of the sender and
    not for a reply, it gets the notification, with the pending interrupts (from
    [HARDWARE]) or signals (from [SYSTEM]), which are then no longer pending.
    Otherwise no process is touched and the sender's bit, and no other, is set
    in the destination's map.  Other privilege structures stay as they are, and
    the invariant holds afterwards. *)
Theorem mini_notify_correct s caller vc cid dst_e :
  ipc_ok s -> live (view s) caller vc -> v_priv vc = Some cid ->
  (isokendpt dst_e s = Done None s /\ mini_notify caller dst_e s = Done EDEADSRCDST s)
  \/ exists dst v id pv pv' s',
       live (view s) dst v /\ v_ep v = dst_e /\ v_priv v = Some id /\ privs s !! id = Some pv
       /\ mini_notify caller dst_e s = Done OK s' /\ ipc_ok s' /\ privs s' = <[id := pv']> (privs s)
       /\ if will v (v_ep vc) && negb (has (v_misc v) MF_REPLY_PEND)
          then view s' = <[dst := v_wake (notify_msg (k_monotonic s) caller pv) (v_ep vc)
                                   (IPC_STATUS_CALL_TO NOTIFY) v]> (view s)
               /\ s_notify_pending pv' = s_notify_pending pv
               /\ s_int_pending pv' = (if caller =? HARDWARE then 0 else s_int_pending pv)
               /\ s_sig_pending pv' = (if caller =? SYSTEM then 0 else s_sig_pending pv)
          else view s' = view s
               /\ s_int_pending pv' = s_int_pending pv /\ s_sig_pending pv' = s_sig_pending pv
               /\ forall b, bit_ok b ->
                    get_sys_bit (s_notify_pending pv') b = get_sys_bit (s_notify_pending pv) b || (cid =? b).
Proof.
  intros Hok Hl Hcid. pose proof (ipc_ok_ready s Hok) as Hr. pose proof Hok as [[Hb Hc Hlk] Hnf Hm].
  destruct (live_proc_of s caller vc Hl) as (c & Hcp & <-).
  destruct (c_priv _ _ Hc caller _ Hl) as (cid' & pvc & Hcid' & Hokc & _). rewrite Hcid in Hcid'. injection Hcid' as <-.
  destruct (mini_notify_spec s caller c cid dst_e Hr Hcp Hl Hcid) as
    [?|(dst & v & id & pv & s' & Hv & Ev & Hid & Hpv & E & G)]; [by left|right].
  assert (ipc_ok s') as Hok'.
  { destruct (mini_notify_ready s caller _ dst_e Hr Hl) as (r & s1 & E1 & N). rewrite E in E1. injection E1 as _ <-.
    by eapply moved_ipc_ok, N. }
  change (v_ep (ipc_of c)) with (p_endpoint c).
  destruct (will v (p_endpoint c) && negb (has (v_misc v) MF_REPLY_PEND)) eqn:Ew.
  - exists dst, v, id, pv, (notify_taken caller pv), s'. rewrite Ew. split_and!; try done; try apply G.
    all: unfold notify_taken; destruct (Z.eqb_spec caller HARDWARE) as [->|]; [done|by destruct (caller =? SYSTEM)].
  - exists dst, v, id, pv, (notify_mark cid pv), s'. rewrite Ew. split_and!; try done; try apply G. intros b Hb'.
    destruct (c_priv _ _ Hc dst v Hv) as (id' & pv' & Hid' & Hokd & Hpv' & _).
    rewrite Hid in Hid'. injection Hid' as <-. rewrite Hpv in Hpv'. injection Hpv' as <-.
    destruct (c_privs _ _ Hc id pv Hokd Hpv) as (_ & Hmap & _). cbn. by rewrite get_set_sys_bit.
Qed.

Lemma mini_notify_correct_witness :
  ends_with (mini_notify RS_PROC_NR (ENDPOINT 1 12)) ipc_example OK = true
  /\ ((isokendpt (ENDPOINT 1 12) ipc_example = Done None ipc_example
       /\ mini_notify RS_PROC_NR (ENDPOINT 1 12) ipc_example = Done EDEADSRCDST ipc_example)
      \/ exists s', mini_notify RS_PROC_NR (ENDPOINT 1 12) ipc_example = Done OK s' /\ ipc_ok s').
Proof.
  split; [by_vm|].
  destruct (mini_notify_correct ipc_example RS_PROC_NR (ipc_of (slot ipc_example RS_PROC_NR)) 7 (ENDPOINT 1 12))
    as [?|(dst & v & id & pv & pv' & s' & _ & _ & _ & _ & E & Hok & _)]; [by_ok|by_live|by_vm|by left|right].
  exists s'. exact (conj E Hok).
Defined.

(** C19: a pending source is found fairly by number.  On a well-formed bit map
    [has_pending] for any source answers the lowest set bit, and
    [NULL_PRIV_ID] exactly when no bit is set. *)
Theorem has_pending_first map s :
  map_ok map -> exists r, has_pending map ANY s = Done r s /\ first_pending map r.
Proof. apply has_pending_any. Qed.

Lemma has_pending_first_witness :
  exists r, has_pending (set_sys_bit (set_sys_bit empty_map 70) 99) ANY ipc_example = Done r ipc_example
    /\ first_pending (set_sys_bit (set_sys_bit empty_map 70) 99) r.
Proof. apply (has_pending_first (set_sys_bit (set_sys_bit empty_map 70) 99)). apply map_okb_sound. by_vm. Defined.
