(* ===== verification/System.v ===== *)
(** * The system task: privileges, cleaning up, filters, kernel calls

    Models [kernel/system.c] (the kernel-call dispatcher, the allocation of
    privilege structures, send masks, the cleaning up of a process that goes
    away, the installation of IPC filters, the tables of I/O, memory and
    interrupt permissions) and the kernel calls of [kernel/system/]:
    [do_fork], [do_exit], [do_kill], [do_getksig], [do_endksig], [do_runctl],
    [do_capctl], [do_statectl] and [do_setgrant].

    A handler takes the process number of its caller and the fields of the
    request message it reads, and returns the status with the reply fields it
    writes. *)

From S2P Require Import Prelude Monad Timers Endpoint Chain Kernel Sched Init Ipc.

(** ** Constants *)
Definition KERNEL_CALL : Z := 0x600.
Definition NR_SYS_CALLS : Z := 61.
Definition VMSUSPEND : Z := -996.
Definition VMSTYPE_KERNELCALL : Z := 1.
Definition NSIG : Z := 64.
Definition NR_IRQ : nat := 16.
Definition NR_IO_RANGE : nat := 64.
Definition NR_MEM_RANGE : nat := 20.
Definition PFF_VMINHIBIT : Z := 0x01.
Definition RC_STOP : Z := 0.
Definition RC_RESUME : Z := 1.
Definition RC_DELAY : Z := 1.
Definition SYS_STATE_CLEAR_IPC_REFS : Z := 1.
Definition SYS_STATE_SET_STATE_TABLE : Z := 2.
Definition SYS_STATE_ADD_IPC_BL_FILTER : Z := 3.
Definition SYS_STATE_ADD_IPC_WL_FILTER : Z := 4.
Definition SYS_STATE_CLEAR_IPC_FILTERS : Z := 5.
Definition CAP_SYS_ADMIN : Z := Z.shiftl 1 4.
Definition CAP_MAX : Z := 13.
Definition CAP_FULL : Z := Z.shiftl 1 CAP_MAX - 1.
Definition CAP_OP_GET : Z := 1.
Definition CAP_OP_SET : Z := 2.
Definition CAP_OP_BOUND_GET : Z := 3.
Definition CAP_OP_BOUND_SET : Z := 4.
Definition CAP_OP_LIST : Z := 5.
Definition IPCF_MAX_ELEMENTS : Z := NR_SYS_PROCS * 2.
Definition IPCF_EL_SIZE : Z := 12.
Definition PROC_NAME_LEN : nat := 16.

(** The macro [priv(rp)] compared with [NULL]. *)
Definition upd_priv (rp : Z) (f : priv -> priv) : K unit := p <- get_proc rp ;; upd_priv_of p f.
Definition priv_at (rp : Z) : K priv := p <- get_proc rp ;; priv_of p.

(** ** Privilege structures *)
Definition dyn_priv_table : list Z := skipn (Z.to_nat NR_STATIC_PRIV_IDS) priv_table.

(** The first structure that belongs to no process. *)
Fixpoint find_free_priv (ids : list Z) : K (option Z) :=
  match ids with
  | [] => ret None
  | id :: ids' =>
      pv <- get_priv_id id ;;
      if s_proc_nr pv =? NONE then ret (Some id) else find_free_priv ids'
  end.

Definition is_static_priv_id (id : Z) : bool := (0 <=? id) && (id <? NR_STATIC_PRIV_IDS).

Definition assign_priv (rc sp : Z) : K Z :=
  upd_proc rc (set_p_priv (Some sp)) ;;
  p <- get_proc rc ;;
  upd_priv_id sp (set_s_proc_nr (p_nr p)) ;;
  ret OK.

Definition get_priv (rc priv_id : Z) : K Z :=
  if priv_id =? NULL_PRIV_ID then
    sp <- find_free_priv dyn_priv_table ;;
    match sp with
    | None => ret ENOSPC
    | Some sp => assign_priv rc sp
    end
  else if negb (is_static_priv_id priv_id) then ret EINVAL
  else
    pv <- get_priv_id priv_id ;;
    if negb (s_proc_nr pv =? NONE) then ret EBUSY
    else assign_priv rc priv_id.

(** ** Send masks *)
Definition set_ipc_to (id : Z) (pv : priv) : priv := set_s_ipc_to (set_sys_bit (s_ipc_to pv) id) pv.
Definition unset_ipc_to (id : Z) (pv : priv) : priv := set_s_ipc_to (unset_sys_bit (s_ipc_to pv) id) pv.

Definition set_sendto_bit (rp id : Z) : K unit :=
  nr <- id_to_nr id ;;
  pv <- priv_at rp ;;
  if (nr =? NONE) || (s_id pv =? id) then upd_priv rp (unset_ipc_to id)
  else
    upd_priv rp (set_ipc_to id) ;;
    tv <- get_priv_id id ;;
    if has (s_trap_mask tv) (Z.lnot (Z.shiftl 1 RECEIVE))
    then upd_priv_id id (set_ipc_to (s_id pv)) else ret tt.

Definition unset_sendto_bit (rp id : Z) : K unit :=
  upd_priv rp (unset_ipc_to id) ;;
  pv <- priv_at rp ;;
  upd_priv_id id (unset_ipc_to (s_id pv)).

Definition fill_sendto_mask (rp : Z) (map : sys_map) : K unit :=
  for_each priv_table (fun i =>
    if get_sys_bit map i then set_sendto_bit rp i else unset_sendto_bit rp i).

(** ** Cleaning up *)

(** [struct proc **rpp] into the list of processes waiting for VM. *)
Inductive vm_loc := VmHead | VmNext (n : Z).
Definition read_vm (x : vm_loc) : K (option Z) :=
  match x with
  | VmHead => gets vmrequest
  | VmNext n => p <- get_proc n ;; ret (vr_nextrequestor (p_vmrequest p))
  end.
Definition write_vm (x : vm_loc) (v : option Z) : K unit :=
  match x with
  | VmHead => modify (set_vmrequest v)
  | VmNext n => upd_proc n (fun p =>
      set_p_vmrequest (set_vr_nextrequestor v (p_vmrequest p)) p)
  end.

Fixpoint clear_memreq_loop (fuel : nat) (rp : Z) (rpp : vm_loc) : K unit :=
  match fuel with
  | O => halt NoFuel
  | S fuel' =>
      x <- read_vm rpp ;;
      match x with
      | None => ret tt
      | Some n =>
          if n =? rp then p <- get_proc rp ;; write_vm rpp (vr_nextrequestor (p_vmrequest p))
          else clear_memreq_loop fuel' rp (VmNext n)
      end
  end.

Definition clear_memreq (rp : Z) : K unit :=
  p <- get_proc rp ;;
  if negb (RTS_ISSET p RTS_VMREQUEST) then ret tt
  else clear_memreq_loop cq_fuel rp VmHead ;; RTS_UNSET rp RTS_VMREQUEST.

(** Walk the caller queue and unlink [rc]; its own link keeps its value. *)
Fixpoint clear_ipc_loop (fuel : nat) (rc : Z) (xpp : cq_loc) : K unit :=
  match fuel with
  | O => halt NoFuel
  | S fuel' =>
      x <- read_cq xpp ;;
      match x with
      | None => ret tt
      | Some n =>
          if n =? rc then p <- get_proc n ;; write_cq xpp (p_q_link p)
          else clear_ipc_loop fuel' rc (CqLink n)
      end
  end.

Definition clear_ipc (rc : Z) : K unit :=
  p <- get_proc rc ;;
  (if RTS_ISSET p RTS_SENDING then
     target_proc <- okendpt (p_sendto_e p) ;;
     clear_ipc_loop cq_fuel rc (CqHead target_proc) ;;
     RTS_UNSET rc RTS_SENDING
   else ret tt) ;;
  RTS_UNSET rc RTS_RECEIVING.

(** [while ((src_id = has_pending_asend(rc, ANY)) != NULL_PRIV_ID)]. *)
Fixpoint cancel_pending (fuel : nat) (rc : Z) : K unit :=
  match fuel with
  | O => halt NoFuel
  | S fuel' =>
      src_id <- has_pending_asend rc ANY ;;
      if src_id =? NULL_PRIV_ID then ret tt
      else
        src <- id_to_nr src_id ;;
        cancel_async src rc ;;
        cancel_pending fuel' rc
  end.

(** Each round clears one of the [NR_SYS_PROCS] bits. *)
Definition pending_fuel : nat := S (Z.to_nat NR_SYS_PROCS).

Definition clear_refs_of (rc caller_ret rp : Z) : K unit :=
  p <- get_proc rp ;;
  if isemptyp p then ret tt
  else
    c <- get_proc rc ;; cpv <- priv_of c ;;
    upd_priv_of p (fun pv =>
      set_s_asyn_pending (unset_sys_bit (s_asyn_pending pv) (s_id cpv))
        (set_s_notify_pending (unset_sys_bit (s_notify_pending pv) (s_id cpv)) pv)) ;;
    if P_BLOCKEDON p =? p_endpoint c then
      upd_proc rp (set_p_retreg caller_ret) ;;
      clear_ipc rp
    else ret tt.

Definition clear_ipc_refs (rc caller_ret : Z) : K unit :=
  cancel_pending pending_fuel rc ;;
  for_each proc_table (clear_refs_of rc caller_ret).

Definition clear_endpoint (rc : Z) : K unit :=
  p <- get_proc rc ;;
  (if isemptyp p then halt Panic else ret tt) ;;
  RTS_SET rc RTS_NO_ENDPOINT ;;
  pv <- priv_at rc ;;
  (if has (s_flags pv) SYS_PROC then upd_priv rc (set_s_asynsize 0) else ret tt) ;;
  clear_ipc rc ;;
  clear_ipc_refs rc EDEADSRCDST ;;
  clear_memreq rc.

(** ** Installing IPC filters *)
Definition upd_ipcf (f : Z) (g : ipc_filter -> ipc_filter) : K unit := fun s =>
  match ipc_filter_pool s !! f with
  | Some x => Done tt (set_ipc_filter_pool (<[f := g x]> (ipc_filter_pool s)) s)
  | None => Stop BadAccess
  end.

Definition ipcf_pool : list Z := map Z.of_nat (seq 0 (Z.to_nat IPCF_POOL_SIZE)).

(** [IPCF_POOL_ALLOCATE_SLOT]. *)
Fixpoint ipcf_allocate (slots : list Z) (type : Z) : K (option Z) :=
  match slots with
  | [] => ret None
  | i :: slots' =>
      f <- get_ipcf i ;;
      if f_type f =? IPCF_NONE then upd_ipcf i (set_f_type type) ;; ret (Some i)
      else ipcf_allocate slots' type
  end.

Definition ipcf_free_slot (f : Z) : K unit := upd_ipcf f (set_f_type IPCF_NONE).

Definition IPCF_IS_ANY_EP (ep : Z) : bool := (ep =? ANY_USR) || (ep =? ANY_SYS) || (ep =? ANY_TSK).
Definition IPCF_EL_CHECK (el : ipc_filter_el) : K bool :=
  if negb (has (el_flags el) IPCF_MATCH_M_TYPE || has (el_flags el) IPCF_MATCH_M_SOURCE) then ret false
  else if negb (has (el_flags el) IPCF_MATCH_M_SOURCE) || IPCF_IS_ANY_EP (el_m_source el) then ret true
  else ok <- isokendpt (el_m_source el) ;; ret (match ok with Some _ => true | None => false end).

(** The union of the flags of the elements, or [None] when one is invalid. *)
Fixpoint check_elements (els : list ipc_filter_el) (flags : Z) : K (option Z) :=
  match els with
  | [] => ret (Some flags)
  | el :: els' =>
      ok <- IPCF_EL_CHECK el ;;
      if negb ok then ret None else check_elements els' (Z.lor flags (el_flags el))
  end.

Definition check_ipc_filter (ipcf : option Z) (fill_flags : bool) : K Z :=
  match ipcf with
  | None => ret OK
  | Some f =>
      x <- get_ipcf f ;;
      flags <- check_elements (f_elements x) 0 ;;
      match flags with
      | None => ret EINVAL
      | Some flags =>
          if fill_flags then upd_ipcf f (set_f_flags flags) ;; ret OK
          else ret (if negb (f_flags x =? flags) then EINVAL else OK)
      end
  end.

(** [ipc_filter_t **ipcfp]. *)
Inductive ipcf_loc := IpcfHead (rp : Z) | IpcfNext (f : Z).
Definition read_ipcf (x : ipcf_loc) : K (option Z) :=
  match x with
  | IpcfHead rp => pv <- priv_at rp ;; ret (s_ipcf pv)
  | IpcfNext f => g <- get_ipcf f ;; ret (f_next g)
  end.
Definition write_ipcf (x : ipcf_loc) (v : option Z) : K unit :=
  match x with
  | IpcfHead rp => upd_priv rp (set_s_ipcf v)
  | IpcfNext f => upd_ipcf f (set_f_next v)
  end.

Fixpoint ipcf_append (fuel : nat) (ipcfp : ipcf_loc) (ipcf : Z) : K unit :=
  match fuel with
  | O => halt NoFuel
  | S fuel' =>
      x <- read_ipcf ipcfp ;;
      match x with
      | Some f => ipcf_append fuel' (IpcfNext f) ipcf
      | None => write_ipcf ipcfp (Some ipcf)
      end
  end.

(** [read_els e address n] is what [data_copy] reads at [address] of process
    [e], [n] filter elements, or [None] when the copy fails with [EFAULT]. *)
Definition add_ipc_filter (read_els : Z -> Z -> Z -> option (list ipc_filter_el))
    (rp type address len : Z) : K Z :=
  if negb (type =? IPCF_BLACKLIST) && negb (type =? IPCF_WHITELIST) then ret EINVAL
  else if negb (len mod IPCF_EL_SIZE =? 0) then ret EINVAL
  else
    let num_elements := i32 (len / IPCF_EL_SIZE) in
    if (num_elements <=? 0) || (IPCF_MAX_ELEMENTS <? num_elements) then ret E2BIG
    else
      slot <- ipcf_allocate ipcf_pool type ;;
      match slot with
      | None => ret ENOMEM
      | Some ipcf =>
          upd_ipcf ipcf (set_f_next None) ;;
          p <- get_proc rp ;;
          r <- (match read_els (p_endpoint p) address num_elements with
                | None => ret EFAULT
                | Some els => upd_ipcf ipcf (set_f_elements els) ;; check_ipc_filter (Some ipcf) true
                end) ;;
          if negb (r =? OK) then ipcf_free_slot ipcf ;; ret r
          else ipcf_append ipcf_fuel (IpcfHead rp) ipcf ;; ret OK
      end.

Fixpoint clear_filters_loop (fuel : nat) (ipcf : option Z) : K unit :=
  match fuel with
  | O => halt NoFuel
  | S fuel' =>
      match ipcf with
      | None => ret tt
      | Some curr => f <- get_ipcf curr ;; ipcf_free_slot curr ;; clear_filters_loop fuel' (f_next f)
      end
  end.

Definition clear_ipc_filters (rp : Z) : K unit :=
  pv <- priv_at rp ;;
  clear_filters_loop ipcf_fuel (s_ipcf pv) ;;
  upd_priv rp (set_s_ipcf None) ;;
  p <- get_proc rp ;;
  s <- get ;;
  if (p_endpoint p =? VM_PROC_NR) && negb (bool_decide (vmrequest s = None)) then
    r <- send_sig VM_PROC_NR SIGKMEM ;;
    if negb (r =? OK) then halt Panic else ret tt
  else ret tt.

(** The requester and the target are not looked at. *)
Definition allow_ipc_filtered_memreq (src_rp dst_rp : Z) : K bool :=
  pv <- priv_at VM_PROC_NR ;;
  match s_ipcf pv with
  | None => ret true
  | Some _ => allow_ipc_filtered_msg VM_PROC_NR SYSTEM (FromLocal NOTIFY_MESSAGE)
  end.

(** ** Permission tables *)
Definition io_eqb (a b : io_range) : bool := (ior_base a =? ior_base b) && (ior_limit a =? ior_limit b).
Definition mem_eqb (a b : mem_range) : bool := (mr_base a =? mr_base b) && (mr_limit a =? mr_limit b).

Definition priv_add_irq (rp irq : Z) : K Z :=
  upd_priv rp (fun pv => set_s_flags (flag_set (s_flags pv) CHECK_IRQ) pv) ;;
  pv <- priv_at rp ;;
  if existsb (Z.eqb irq) (s_irq_tab pv) then ret OK
  else if (NR_IRQ <=? length (s_irq_tab pv))%nat then ret ENOMEM
  else upd_priv rp (fun pv => set_s_irq_tab (s_irq_tab pv ++ [irq]) pv) ;; ret OK.

Definition priv_add_io (rp : Z) (ior : io_range) : K Z :=
  upd_priv rp (fun pv => set_s_flags (flag_set (s_flags pv) CHECK_IO_PORT) pv) ;;
  pv <- priv_at rp ;;
  if existsb (io_eqb ior) (s_io_tab pv) then ret OK
  else if (NR_IO_RANGE <=? length (s_io_tab pv))%nat then ret ENOMEM
  else upd_priv rp (fun pv => set_s_io_tab (s_io_tab pv ++ [ior]) pv) ;; ret OK.

Definition priv_add_mem (rp : Z) (memr : mem_range) : K Z :=
  upd_priv rp (fun pv => set_s_flags (flag_set (s_flags pv) CHECK_MEM) pv) ;;
  pv <- priv_at rp ;;
  if existsb (mem_eqb memr) (s_mem_tab pv) then ret OK
  else if (NR_MEM_RANGE <=? length (s_mem_tab pv))%nat then ret ENOMEM
  else upd_priv rp (fun pv => set_s_mem_tab (s_mem_tab pv ++ [memr]) pv) ;; ret OK.

(** ** Kernel calls *)

(** *** Fork *)
Definition fork_name (name : string) : string :=
  if (String.length name + 2 <? PROC_NAME_LEN)%nat then (name +:+ "*F")%string else name.

(** The fields the child does not take from the parent. *)
Definition fork_child (gen slot : Z) (rpp : proc) : proc :=
  set_p_name (fork_name (p_name rpp))
  (set_p_prof_left 0 (set_p_virt_left 0
  (set_p_misc_flags (flag_clr (p_misc_flags rpp)
     (Z.lor MF_VIRT_TIMER (Z.lor MF_PROF_TIMER (Z.lor MF_SC_TRACE (Z.lor MF_SPROF_SEEN MF_STEP)))))
  (set_p_sys_time 0 (set_p_user_time 0 (set_p_retreg 0
  (set_p_endpoint (ENDPOINT gen slot) (set_p_nr slot rpp)))))))).

(** The reply holds the endpoint of the child and the address of the message
    the parent waits for.  [save_fpu] and the segment registers are not part of
    the state. *)
Definition do_fork (caller endpt slot flags : Z) : K (Z * option (Z * Z)) :=
  ok <- isokendpt endpt ;;
  match ok with
  | None => ret (EINVAL, None)
  | Some p_proc =>
      rpp <- get_proc p_proc ;;
      rpc <- get_proc slot ;;
      if isemptyp rpp || negb (isemptyp rpc) then ret (EINVAL, None)
      else
        assert (negb (has (p_misc_flags rpp) MF_DELIVERMSG)) ;;
        if negb (RTS_ISSET rpp RTS_RECEIVING) then ret (EINVAL, None)
        else
          let gen := ENDPOINT_G (p_endpoint rpc) + 1 in
          let gen := if ENDPOINT_MAX_GENERATION <=? gen then 1 else gen in
          upd_proc slot (fun _ => fork_child gen slot rpp) ;;
          RTS_SET slot RTS_NO_QUANTUM ;;
          upd_proc slot (fun p =>
            set_p_tick_cycles 0 (set_p_kipc_cycles 0 (set_p_kcall_cycles 0 (set_p_cycles 0
              (set_p_cpu_time_left 0 (reset_proc_accounting p)))))) ;;
          pv <- priv_of rpp ;;
          (if has (s_flags pv) SYS_PROC then
             upd_proc slot (fun p =>
               set_p_rts_flags (flag_set (p_rts_flags p) RTS_NO_PRIV) (set_p_priv (Some USER_PRIV_ID) p))
           else ret tt) ;;
          (if has flags PFF_VMINHIBIT then RTS_SET slot RTS_VMINHIBIT else ret tt) ;;
          RTS_UNSET slot (Z.lor RTS_SIGNALED (Z.lor RTS_SIG_PENDING RTS_P_STOP)) ;;
          upd_proc slot (set_p_pending 0) ;;
          ret (OK, Some (ENDPOINT gen slot, p_delivermsg_vir rpp))
  end.

(** *** Signals *)
Definition do_exit (caller : Z) : K Z :=
  c <- get_proc caller ;; cause_sig (p_nr c) SIGABRT ;; ret EDONTREPLY.

Definition do_kill (caller endpt sig_nr : Z) : K Z :=
  ok <- isokendpt endpt ;;
  match ok with
  | None => ret EINVAL
  | Some proc_nr =>
      if NSIG <=? sig_nr then ret EINVAL
      else if iskerneln proc_nr then ret EPERM
      else cause_sig proc_nr sig_nr ;; ret OK
  end.

Definition user_table : list Z := skipn (Z.to_nat NR_TASKS) proc_table.

(** The first signaled process of the caller, and its pending signals. *)
Fixpoint getksig_loop (slots : list Z) (caller : Z) : K (option (Z * Z)) :=
  match slots with
  | [] => ret None
  | rp :: slots' =>
      p <- get_proc rp ;;
      if RTS_ISSET p RTS_SIGNALED then
        c <- get_proc caller ;; pv <- priv_of p ;;
        if negb (p_endpoint c =? s_sig_mgr pv) then getksig_loop slots' caller
        else
          upd_proc rp (set_p_pending 0) ;;
          RTS_UNSET rp RTS_SIGNALED ;;
          ret (Some (p_endpoint p, p_pending p))
      else getksig_loop slots' caller
  end.

(** The reply: the endpoint, or [NONE], and the map when there is one. *)
Definition do_getksig (caller : Z) : K (Z * Z * option Z) :=
  r <- getksig_loop user_table caller ;;
  match r with
  | Some (e, map) => ret (OK, e, Some map)
  | None => ret (OK, NONE, None)
  end.

Definition do_endksig (caller endpt : Z) : K Z :=
  ok <- isokendpt endpt ;;
  match ok with
  | None => ret EINVAL
  | Some proc_nr =>
      p <- get_proc proc_nr ;; c <- get_proc caller ;; pv <- priv_of p ;;
      if negb (p_endpoint c =? s_sig_mgr pv) then ret EPERM
      else if negb (RTS_ISSET p RTS_SIG_PENDING) then ret EINVAL
      else
        (if negb (RTS_ISSET p RTS_SIGNALED) then RTS_UNSET proc_nr RTS_SIG_PENDING else ret tt) ;;
        ret OK
  end.

(** *** Stopping a process *)
Definition runctl_switch (proc_nr action : Z) : K Z :=
  if action =? RC_STOP then RTS_SET proc_nr RTS_PROC_STOP ;; ret OK
  else if action =? RC_RESUME then
    p <- get_proc proc_nr ;;
    assert (RTS_ISSET p RTS_PROC_STOP) ;;
    RTS_UNSET proc_nr RTS_PROC_STOP ;; ret OK
  else ret EINVAL.

Definition do_runctl (caller endpt action flags : Z) : K Z :=
  ok <- isokendpt endpt ;;
  match ok with
  | None => ret EINVAL
  | Some proc_nr =>
      if iskerneln proc_nr then ret EPERM
      else if (action =? RC_STOP) && has flags RC_DELAY then
        p <- get_proc proc_nr ;;
        (if RTS_ISSET p RTS_SENDING || has (p_misc_flags p) MF_SC_DEFER
         then upd_proc proc_nr (fun p =>
                set_p_misc_flags (flag_set (p_misc_flags p) MF_SIG_DELAY) p)
         else ret tt) ;;
        p <- get_proc proc_nr ;;
        if has (p_misc_flags p) MF_SIG_DELAY then ret EBUSY else runctl_switch proc_nr action
      else runctl_switch proc_nr action
  end.

(** *** Capabilities *)
Definition u64_not (x : Z) : Z := u64 (Z.lnot x).

Definition restrict_caps (caps : Z) (pv : priv) : priv :=
  let bound := Z.land (s_cap_bound pv) caps in
  set_s_cap_effective (Z.land (s_cap_effective pv) bound)
    (set_s_cap_permitted (Z.land (s_cap_permitted pv) bound) (set_s_cap_bound bound pv)).

(** The status, and the mask the reply holds when one is written. *)
Definition do_capctl (caller endpt op caps : Z) : K (Z * option Z) :=
  cpv <- priv_at caller ;;
  if negb (has (s_flags cpv) SYS_PROC) then ret (EPERM, None)
  else
    c <- get_proc caller ;;
    ok <- (if endpt =? SELF then n <- okendpt (p_endpoint c) ;; ret (Some n) else isokendpt endpt) ;;
    match ok with
    | None => ret (EINVAL, None)
    | Some rp =>
        pv <- priv_at rp ;;
        if op =? CAP_OP_GET then ret (OK, Some (s_cap_effective pv))
        else if op =? CAP_OP_SET then
          if has caps (u64_not (s_cap_permitted pv)) then ret (EPERM, None)
          else if has caps (u64_not (s_cap_bound pv)) then ret (EPERM, None)
          else if negb (caller =? rp) && negb (has (s_cap_effective cpv) CAP_SYS_ADMIN)
          then ret (EPERM, None)
          else upd_priv rp (set_s_cap_effective caps) ;; ret (OK, None)
        else if op =? CAP_OP_BOUND_GET then ret (OK, Some (s_cap_bound pv))
        else if op =? CAP_OP_BOUND_SET then
          if negb (has (s_cap_effective cpv) CAP_SYS_ADMIN) then ret (EPERM, None)
          else if negb (has (s_cap_bound pv) (u64_not caps)) && negb (caps =? s_cap_bound pv)
          then ret (EPERM, None)
          else upd_priv rp (restrict_caps caps) ;; ret (OK, None)
        else if op =? CAP_OP_LIST then ret (OK, Some CAP_FULL)
        else ret (EINVAL, None)
    end.

(** *** State and grants *)
Definition do_statectl (read_els : Z -> Z -> Z -> option (list ipc_filter_el))
    (caller request address len : Z) : K Z :=
  if request =? SYS_STATE_CLEAR_IPC_REFS then clear_ipc_refs caller EDEADSRCDST ;; ret OK
  else if request =? SYS_STATE_SET_STATE_TABLE then
    upd_priv caller (fun pv => set_s_state_entries len (set_s_state_table address pv)) ;; ret OK
  else if request =? SYS_STATE_ADD_IPC_BL_FILTER
  then add_ipc_filter read_els caller IPCF_BLACKLIST address (u64 len)
  else if request =? SYS_STATE_ADD_IPC_WL_FILTER
  then add_ipc_filter read_els caller IPCF_WHITELIST address (u64 len)
  else if request =? SYS_STATE_CLEAR_IPC_FILTERS then clear_ipc_filters caller ;; ret OK
  else ret EINVAL.

Definition do_setgrant (caller addr size : Z) : K Z :=
  c <- get_proc caller ;;
  if RTS_ISSET c RTS_NO_PRIV || bool_decide (p_priv c = None) then ret EPERM
  else
    upd_priv_of c (fun pv =>
      set_s_grant_endpoint (p_endpoint c) (set_s_grant_entries size (set_s_grant_table addr pv))) ;;
    ret OK.

(** ** Dispatching kernel calls

    [call_vec] maps a call number to its handler, which gets the caller and the
    request and returns the status and the message as it left it. *)
Definition handler : Type := Z -> message -> K (Z * message).

Definition GET_BIT (map : list Z) (bit : Z) : bool :=
  has (MAP_CHUNK map bit) (Z.shiftl 1 (CHUNK_OFFSET bit)).

Definition kernel_call_dispatch (call_vec : Z -> option handler) (caller : Z) (msg : message)
    : K (Z * message) :=
  let call_nr := i32 (m_type msg - KERNEL_CALL) in
  if (call_nr <? 0) || (NR_SYS_CALLS <=? call_nr) then ret (EBADREQUEST, msg)
  else
    pv <- priv_at caller ;;
    if negb (GET_BIT (s_k_call_mask pv) call_nr) then ret (ECALLDENIED, msg)
    else match call_vec call_nr with
         | Some h => h caller msg
         | None => ret (EBADREQUEST, msg)
         end.

(** [copy_msg_to_user]: whether the copy failed. *)
Definition copy_msg_to_user (e v : Z) (m : message) : K bool := fun s =>
  match umem s !! (e, v) with
  | Some _ => Done false (set_umem (<[(e, v) := m]> (umem s)) s)
  | None =>
      match atab s !! (e, v - ASYNMSG_MSG) with
      | Some t => Done false (set_atab (<[(e, v - ASYNMSG_MSG) := set_am_msg m t]> (atab s)) s)
      | None => Done true s
      end
  end.

Definition upd_saved (caller : Z) (f : message -> message) : K unit :=
  upd_proc caller (fun p =>
    set_p_vmrequest (set_vr_reqmsg (f (vr_reqmsg (p_vmrequest p))) (p_vmrequest p)) p).

(** The message of the call is on the kernel stack, or the saved request of the
    caller itself when the call is resumed ([saved]). *)
Definition kernel_call_finish (caller : Z) (msg : message) (saved : bool) (result : Z) : K unit :=
  if result =? VMSUSPEND then
    p <- get_proc caller ;;
    assert (RTS_ISSET p RTS_VMREQUEST) ;;
    assert (vr_type (p_vmrequest p) =? VMSTYPE_KERNELCALL) ;;
    upd_saved caller (fun _ => msg) ;;
    upd_proc caller (fun p => set_p_misc_flags (flag_set (p_misc_flags p) MF_KCALL_RESUME) p)
  else
    upd_saved caller (set_m_source NONE) ;;
    if negb (result =? EDONTREPLY) then
      let msg := set_m_type result (set_m_source SYSTEM msg) in
      (if saved then upd_saved caller (fun _ => msg) else ret tt) ;;
      p <- get_proc caller ;;
      failed <- copy_msg_to_user (p_endpoint p) (p_delivermsg_vir p) msg ;;
      if failed : bool then cause_sig (p_nr p) SIGSEGV else ret tt
    else ret tt.

(** The billing pointer [kbill_kcall] is not part of the state. *)
Definition kernel_call (call_vec : Z -> option handler) (m_user caller : Z) : K unit :=
  upd_proc caller (set_p_delivermsg_vir m_user) ;;
  c <- get_proc caller ;;
  m <- copy_msg_from_user (p_endpoint c) (mkPtr m_user None) ;;
  match m with
  | Some msg =>
      r <- kernel_call_dispatch call_vec caller (set_m_source (p_endpoint c) msg) ;;
      kernel_call_finish caller (snd r) false (fst r)
  | None => cause_sig (p_nr c) SIGSEGV
  end.

Definition kernel_call_resume (call_vec : Z -> option handler) (caller : Z) : K unit :=
  c <- get_proc caller ;;
  assert (negb (RTS_ISSET c RTS_SLOT_FREE)) ;;
  assert (negb (RTS_ISSET c RTS_VMREQUEST)) ;;
  assert (m_source (vr_reqmsg (p_vmrequest c)) =? p_endpoint c) ;;
  r <- kernel_call_dispatch call_vec caller (vr_reqmsg (p_vmrequest c)) ;;
  upd_saved caller (fun _ => snd r) ;;
  upd_proc caller (fun p => set_p_misc_flags (flag_clr (p_misc_flags p) MF_KCALL_RESUME) p) ;;
  kernel_call_finish caller (snd r) true (fst r).
