(* ===== verification/Clock.v ===== *)
(** * The clock: ticks, alarms, virtual timers, time

    Models [kernel/clock.c] and the kernel calls [do_setalarm], [do_vtimer],
    [do_times], [do_settime] and [do_stime].  The kernel's timers are the alarm
    timers of the privilege structures, so a [minix_timer_t *] is the index of
    the structure; the only watchdog function is [cause_alarm]. *)

From S2P Require Import Prelude Monad Timers Endpoint Chain Kernel Sched Init Ipc System.

Definition SIGVTALRM : Z := 26.
Definition SIGPROF : Z := 27.
Definition VT_VIRTUAL : Z := 1.
Definition VT_PROF : Z := 2.
Definition CLOCK_REALTIME : Z := 0.
Definition LONG_MAX : Z := 2 ^ 63 - 1.
Definition LONG_MIN : Z := - 2 ^ 63.
Definition LOAD_UNIT_SECS : Z := 6.
Definition LOAD_HISTORY : Z := 60 * 15 / LOAD_UNIT_SECS.

#[export] Program Instance kernel_timers : TimerStore kstate :=
  { ts_get := k_timers; ts_put := set_k_timers }.
Next Obligation. done. Qed.
Next Obligation. done. Qed.
Next Obligation. by intros []. Qed.

Definition get_monotonic : K Z := gets k_monotonic.

(** ** Kernel timers *)

(** [cause_alarm] notifies the owner of the timer on behalf of [CLOCK]. *)
Definition cause_alarm (proc_nr_e : Z) : K unit := mini_notify CLOCK proc_nr_e ;; ret tt.

Definition CAUSE_ALARM : Z := 1.
Definition watchdog (func arg : Z) : K unit :=
  if func =? CAUSE_ALARM then cause_alarm arg else halt BadAccess.

Definition set_kernel_timer (tp exp_time func arg : Z) : K unit :=
  tmrs_settimer tp exp_time func arg ;; ret tt.

Definition reset_kernel_timer (tp : Z) : K unit :=
  t <- get_tmr tp ;;
  if tmr_is_set t then tmrs_clrtimer tp ;; ret tt else ret tt.

(** [do_setalarm]: the reply holds the ticks left of the previous alarm and the
    current time.  [exp_time] is a [clock_t] read into a [long]. *)
Definition do_setalarm (caller exp_time abs_time : Z) : K (Z * option (Z * Z)) :=
  c <- get_proc caller ;; pv <- priv_of c ;;
  if negb (has (s_flags pv) SYS_PROC) then ret (EPERM, None)
  else match p_priv c with
       | None => halt BadAccess
       | Some tp =>
           uptime <- get_monotonic ;;
           t <- get_tmr tp ;;
           let time_left :=
             if negb (tmr_is_set t) then TMR_NEVER
             else if tmr_is_first uptime (tmr_exp_time t) then u32 (tmr_exp_time t - uptime)
             else 0 in
           (if (abs_time =? 0) && (exp_time =? 0) then reset_kernel_timer tp
            else set_kernel_timer tp (u32 (if abs_time =? 0 then exp_time + uptime else exp_time))
                   CAUSE_ALARM (p_endpoint c)) ;;
           ret (OK, Some (time_left, uptime))
       end.

(** ** Virtual timers *)

(** The flag and the ticks-left field of one of the two timers. *)
Definition vt_flag (which : Z) : Z := if which =? VT_VIRTUAL then MF_VIRT_TIMER else MF_PROF_TIMER.
Definition vt_left (which : Z) (p : proc) : Z := if which =? VT_VIRTUAL then p_virt_left p else p_prof_left p.
Definition set_vt_left (which v : Z) (p : proc) : proc :=
  if which =? VT_VIRTUAL then set_p_virt_left v p else set_p_prof_left v p.

(** [do_vtimer]: the reply holds the previous ticks left. *)
Definition do_vtimer (caller which set value endpt : Z) : K (Z * option Z) :=
  cpv <- priv_at caller ;;
  if negb (has (s_flags cpv) SYS_PROC) then ret (EPERM, None)
  else if negb (which =? VT_VIRTUAL) && negb (which =? VT_PROF) then ret (EINVAL, None)
  else
    c <- get_proc caller ;;
    ok <- isokendpt (if endpt =? SELF then p_endpoint c else i32 endpt) ;;
    match ok with
    | None => ret (EINVAL, None)
    | Some rp =>
        p <- get_proc rp ;;
        let flag := vt_flag which in
        let old_value := if has (p_misc_flags p) flag then vt_left which p else 0 in
        (if negb (set =? 0) then
           upd_proc rp (fun p =>
             if 0 <? value
             then set_p_misc_flags (flag_set (flag_clr (p_misc_flags p) flag) flag)
                    (set_vt_left which (u32 value) p)
             else set_p_misc_flags (flag_clr (p_misc_flags p) flag) (set_vt_left which 0 p))
         else ret tt) ;;
        ret (OK, Some old_value)
    end.

Definition vt_off (which : Z) (p : proc) : proc :=
  set_vt_left which 0 (set_p_misc_flags (flag_clr (p_misc_flags p) (vt_flag which)) p).

(** One of the two timers: when it has run out, it is switched off and the
    process signalled. *)
Definition vtimer_check_one (rp which sig : Z) : K unit :=
  p <- get_proc rp ;;
  if has (p_misc_flags p) (vt_flag which) && (vt_left which p =? 0) then
    upd_proc rp (vt_off which) ;;
    cause_sig (p_nr p) sig
  else ret tt.

Definition vtimer_check (rp : Z) : K unit :=
  vtimer_check_one rp VT_VIRTUAL SIGVTALRM ;; vtimer_check_one rp VT_PROF SIGPROF.

(** ** The tick *)

(** Count a run queue. *)
Fixpoint count_queue (fuel : nat) (p : option Z) (enqueued : Z) : K Z :=
  match fuel with
  | O => halt NoFuel
  | S fuel' =>
      match p with
      | None => ret enqueued
      | Some n => x <- get_proc n ;; count_queue fuel' (p_nextready x) (enqueued + 1)
      end
  end.

Fixpoint count_queues (qs : list Z) (enqueued : Z) : K Z :=
  match qs with
  | [] => ret enqueued
  | q :: qs' => h <- get_head q ;; n <- count_queue (S rq_fuel) h enqueued ;; count_queues qs' n
  end.

Definition sched_queues : list Z := map Z.of_nat (seq 0 (Z.to_nat NR_SCHED_QUEUES)).

(** The frequency is not 0: [init_clock] replaces one outside 2 to 50000.  (The
    division of the model is 0 where the processor would trap.) *)
Definition load_update : K unit :=
  s <- get ;;
  let slot := u16 ((k_monotonic s / system_hz s / LOAD_UNIT_SECS) mod LOAD_HISTORY) in
  (if negb (slot =? proc_last_slot (kloadinfo s)) then
     modify (fun s => set_kloadinfo
       (set_proc_last_slot slot
          (set_proc_load_history (<[slot := 0]> (proc_load_history (kloadinfo s))) (kloadinfo s))) s)
   else ret tt) ;;
  enqueued <- count_queues sched_queues 0 ;;
  modify (fun s => set_kloadinfo
    (set_last_clock (k_monotonic s)
       (set_proc_load_history
          (<[slot := u16 (default 0 (proc_load_history (kloadinfo s) !! slot) + enqueued)]>
             (proc_load_history (kloadinfo s))) (kloadinfo s))) s).

(** The time of day: one tick, or two or none while [adjtime] has ticks to make
    up or lose, on every other interrupt. *)
Definition tick_time (s : kstate) : kstate :=
  let uptime := u32 (k_monotonic s + 1) in
  let d := adjtime_delta s in
  let s := set_k_monotonic uptime s in
  if negb (d =? 0) && negb (Z.land uptime 1 =? 0) then
    set_adjtime_delta (d + (if 0 <? d then -1 else 1))
      (set_k_realtime (u32 (k_realtime s + (if 0 <? d then 2 else 0))) s)
  else set_k_realtime (u32 (k_realtime s + 1)) s.

Definition charge_user (p : proc) : proc := set_p_user_time (u32 (p_user_time p + 1)) p.
Definition charge_sys (p : proc) : proc := set_p_sys_time (u32 (p_sys_time p + 1)) p.

(** [if ((p->p_misc_flags & MF_..._TIMER) && (p->p_..._left > 0)) p->p_..._left--]. *)
Definition vt_tick (which : Z) (p : proc) : proc :=
  if has (p_misc_flags p) (vt_flag which) && (0 <? vt_left which p)
  then set_vt_left which (vt_left which p - 1) p else p.

(** [if (clock_timers != NULL && tmr_has_expired(..)) tmrs_exptimers(..)]. *)
Definition run_timers : K unit :=
  h <- read_tmr TmrHead ;;
  match h with
  | None => ret tt
  | Some tp =>
      t <- get_tmr tp ;;
      now <- get_monotonic ;;
      if tmr_has_expired t now then
        fuel <- tmr_fuel ;; tmrs_exptimers fuel watchdog now ;; ret tt
      else ret tt
  end.

(** Charge the tick to the current process [p], and to [billp] when [p] is not
    billable. *)
Definition charge_tick (p billp : Z) : K unit :=
  upd_proc p charge_user ;;
  pv <- priv_at p ;;
  (if negb (has (s_flags pv) BILLABLE) then upd_proc billp charge_sys else ret tt) ;;
  upd_proc p (vt_tick VT_VIRTUAL) ;;
  upd_proc p (vt_tick VT_PROF) ;;
  (if negb (has (s_flags pv) BILLABLE) then upd_proc billp (vt_tick VT_PROF) else ret tt).

(** [timer_int_handler]; the watchdog counter and the serial debugger are not
    part of the state, [arch_timer_int_handler] does nothing. *)
Definition timer_int_handler : K Z :=
  modify tick_time ;;
  p <- gets proc_ptr ;;
  billp <- gets bill_ptr ;;
  charge_tick p billp ;;
  vtimer_check p ;;
  (if negb (p =? billp) then vtimer_check billp else ret tt) ;;
  load_update ;;
  run_timers ;;
  ret 1.

(** ** Time calls *)

(** The user and system time of the process, if it exists, and the clocks. *)
Definition do_times (caller endpt : Z) : K (Z * option (Z * Z) * (Z * Z * Z)) :=
  c <- get_proc caller ;;
  let e := if endpt =? SELF then p_endpoint c else endpt in
  ok <- (if negb (e =? NONE) then isokendpt e else ret None) ;;
  times <- match ok with
           | Some n => p <- get_proc n ;; ret (Some (p_user_time p, p_sys_time p))
           | None => ret None
           end ;;
  s <- get ;;
  ret (OK, times, (k_monotonic s, k_realtime s, k_boottime s)).

Definition do_stime (caller boot_time : Z) : K Z := modify (set_k_boottime boot_time) ;; ret OK.

(** [sec] and [nsec] are 64-bit, the ticks of [adjtime] 32-bit. *)
Definition do_settime (caller now clock_id sec nsec : Z) : K Z :=
  if negb (clock_id =? CLOCK_REALTIME) then ret EINVAL
  else
    s <- get ;;
    let hz := system_hz s in
    let sub := Z.quot nsec (1000000000 / hz) in
    if now =? 0 then modify (set_adjtime_delta (i32 (i64 (sec * hz) + sub))) ;; ret OK
    else
      let boottime := k_boottime s in
      let timediff_ticks := i64 (i64 (sec - boottime) * hz) in
      if (sec <=? boottime) || (timediff_ticks <? Z.quot LONG_MIN 2) || (Z.quot LONG_MAX 2 <? timediff_ticks)
      then modify (set_k_boottime sec) ;; modify (set_k_realtime 1) ;; ret OK
      else modify (set_k_realtime (u32 (timediff_ticks + sub))) ;; ret OK.
