(* ===== verification/Vm.v ===== *)
(** * Copies between processes and requests to the memory server

    Models the kernel side of memory requests: [vm_suspend] and [delivermsg] of
    [kernel/proc.c], [virtual_copy_f], [data_copy] and [vm_check_range] of
    [kernel/arch/x86_64/memory.c], and the calls [do_vmctl] and [do_copy].  A
    process whose memory is not mapped is put on the list [vmrequest], linked
    through the process table, until the server VM has replied.  The copy
    through the page tables, [lin_lin_copy], is an argument: it copies between
    two processes ([None] is physical memory) and answers [OK], [EFAULT_SRC] or
    [EFAULT_DST]. *)

From S2P Require Import Prelude Monad Timers Endpoint Chain Kernel Sched Init Ipc System.

Definition E2BIG : Z := -7.
Definition EFAULT_SRC : Z := -995.
Definition EFAULT_DST : Z := -994.
Definition VMPTYPE_CHECK : Z := 1.
Definition VMSTYPE_DELIVERMSG : Z := 2.
Definition VMSTYPE_MAP : Z := 3.
Definition VMCTL_CLEAR_PAGEFAULT : Z := 12.
Definition VMCTL_MEMREQ_GET : Z := 14.
Definition VMCTL_MEMREQ_REPLY : Z := 15.
Definition VMCTL_KERN_PHYSMAP : Z := 27.
Definition VMCTL_KERN_MAP_REPLY : Z := 28.
Definition VMCTL_VMINHIBIT_SET : Z := 30.
Definition VMCTL_VMINHIBIT_CLEAR : Z := 31.
Definition VMCTL_CLEARMAPCACHE : Z := 32.
Definition VMCTL_BOOTINHIBIT_CLEAR : Z := 33.
Definition CP_FLAG_TRY : Z := 1.
Definition MESSAGE_SIZE : Z := 72.

(** [endpoint_lookup]: the slot of a live endpoint. *)
Definition endpoint_lookup (e : Z) : K (option Z) := isokendpt e.

(** ** Suspending a process *)

Definition upd_vmrequest (n : Z) (f : vmrequest_t -> vmrequest_t) : K unit :=
  upd_proc n (fun p => set_p_vmrequest (f (p_vmrequest p)) p).

Definition vm_suspend (caller target linaddr len type writeflag : Z) : K unit :=
  c <- get_proc caller ;;
  assert (negb (RTS_ISSET c RTS_VMREQUEST)) ;;
  t <- get_proc target ;;
  assert (negb (RTS_ISSET t RTS_VMREQUEST)) ;;
  RTS_SET caller RTS_VMREQUEST ;;
  upd_vmrequest caller (fun v =>
    set_vr_type type (set_vr_writeflag writeflag (set_vr_length len (set_vr_start linaddr
      (set_vr_target (p_endpoint t) (set_vr_req_type VMPTYPE_CHECK v)))))) ;;
  head <- read_vm VmHead ;;
  upd_vmrequest caller (set_vr_nextrequestor head) ;;
  (match head with
   | Some _ => ret tt
   | None => r <- send_sig VM_PROC_NR SIGKMEM ;; if negb (r =? OK) then halt Panic else ret tt
   end) ;;
  write_vm VmHead (Some caller).

(** [delivermsg]: hand the stored message to the process. *)
Definition delivermsg (rp : Z) : K unit :=
  p <- get_proc rp ;;
  assert (negb (RTS_ISSET p RTS_VMREQUEST)) ;;
  assert (has (p_misc_flags p) MF_DELIVERMSG) ;;
  assert (negb (m_source (p_delivermsg p) =? NONE)) ;;
  failed <- copy_msg_to_user (p_endpoint p) (p_delivermsg_vir p) (p_delivermsg p) ;;
  if failed : bool then
    if has (p_misc_flags p) MF_MSGFAILED then cause_sig (p_nr p) SIGSEGV
    else
      vm_suspend rp rp (p_delivermsg_vir p) MESSAGE_SIZE VMSTYPE_DELIVERMSG 1 ;;
      upd_proc rp (fun p => set_p_misc_flags (flag_set (p_misc_flags p) MF_MSGFAILED) p)
  else
    upd_proc rp (fun p =>
      let p := set_p_misc_flags (flag_clr (p_misc_flags p) (Z.lor MF_DELIVERMSG MF_MSGFAILED))
                 (set_p_delivermsg (set_m_source NONE (p_delivermsg p)) p) in
      if negb (has (p_misc_flags p) MF_CONTEXT_SET) then set_p_retreg OK p else p).

(** ** Copies *)

(** [struct vir_addr]; the endpoint [NONE] stands for physical memory. *)
Record vir_addr := mkVir { proc_nr_e : Z; va_offset : Z }.

(** The result of the request a resumed caller had waited for. *)
Definition check_resumed_caller (caller : option Z) : K Z :=
  match caller with
  | None => ret OK
  | Some c =>
      p <- get_proc c ;;
      if has (p_misc_flags p) MF_KCALL_RESUME then
        assert (negb (vr_vmresult (p_vmrequest p) =? VMSUSPEND)) ;; ret (vr_vmresult (p_vmrequest p))
      else ret OK
  end.

(** The process of an address: [None] for a dead endpoint, [Some None] for
    physical memory. *)
Definition vir_proc (a : vir_addr) : K (option (option Z)) :=
  if proc_nr_e a =? NONE then ret (Some None)
  else
    ok <- isokendpt (proc_nr_e a) ;;
    match ok with None => ret None | Some n => ret (Some (Some n)) end.

Section Copy.
Context (lin_lin_copy : option Z -> Z -> option Z -> Z -> Z -> K Z).

Definition virtual_copy_f (caller : option Z) (src dst : vir_addr) (bytes : Z) (vmcheck : bool) : K Z :=
  assert (eqb vmcheck (match caller with Some _ => true | None => false end)) ;;
  if bytes <=? 0 then ret EDOM
  else
    sp <- vir_proc src ;;
    match sp with
    | None => ret ESRCH
    | Some sp =>
        dp <- vir_proc dst ;;
        match dp with
        | None => ret ESRCH
        | Some dp =>
            r <- check_resumed_caller caller ;;
            if negb (r =? OK) then ret r
            else
              r <- lin_lin_copy sp (va_offset src) dp (va_offset dst) bytes ;;
              if negb (r =? OK) then
                if negb (r =? EFAULT_SRC) && negb (r =? EFAULT_DST) then halt Panic
                else match caller with
                     | None => ret r
                     | Some c =>
                         let '(lin, target, writeflag) :=
                           if r =? EFAULT_SRC then (va_offset src, sp, 0) else (va_offset dst, dp, 1) in
                         match target with
                         | None => halt Panic
                         | Some t => vm_suspend c t lin bytes VMSTYPE_KERNELCALL writeflag ;; ret VMSUSPEND
                         end
                     end
              else ret OK
        end
    end.

Definition virtual_copy (src dst : vir_addr) (bytes : Z) : K Z := virtual_copy_f None src dst bytes false.
Definition virtual_copy_vmcheck (caller : Z) (src dst : vir_addr) (bytes : Z) : K Z :=
  virtual_copy_f (Some caller) src dst bytes true.

Definition data_copy (from_proc from_addr to_proc to_addr bytes : Z) : K Z :=
  assert (negb (from_proc =? NONE)) ;; assert (negb (to_proc =? NONE)) ;;
  virtual_copy (mkVir from_proc from_addr) (mkVir to_proc to_addr) bytes.

Definition data_copy_vmcheck (caller from_proc from_addr to_proc to_addr bytes : Z) : K Z :=
  assert (negb (from_proc =? NONE)) ;; assert (negb (to_proc =? NONE)) ;;
  virtual_copy_vmcheck caller (mkVir from_proc from_addr) (mkVir to_proc to_addr) bytes.

(** [do_copy]: one of the two addresses, with [SELF] resolved. *)
Definition copy_endpt (caller e : Z) : K (option Z) :=
  c <- get_proc caller ;;
  let e := if e =? SELF then p_endpoint c else e in
  if e =? NONE then ret (Some e)
  else ok <- isokendpt e ;; match ok with None => ret None | Some _ => ret (Some e) end.

Definition do_copy (caller src_endpt src_addr dst_endpt dst_addr bytes flags : Z) : K Z :=
  s <- copy_endpt caller src_endpt ;;
  match s with
  | None => ret EINVAL
  | Some src_e =>
      d <- copy_endpt caller dst_endpt ;;
      match d with
      | None => ret EINVAL
      | Some dst_e =>
          if negb (bytes =? u64 bytes) then ret E2BIG
          else if has flags CP_FLAG_TRY then
            c <- get_proc caller ;;
            assert (p_endpoint c =? VFS_PROC_NR) ;;
            r <- virtual_copy (mkVir src_e src_addr) (mkVir dst_e dst_addr) bytes ;;
            ret (if (r =? EFAULT_SRC) || (r =? EFAULT_DST) then EFAULT else r)
          else virtual_copy_vmcheck caller (mkVir src_e src_addr) (mkVir dst_e dst_addr) bytes
      end
  end.
End Copy.

Definition vm_check_range (caller target vir_addr bytes writeflag : Z) : K Z :=
  c <- get_proc caller ;;
  if has (p_misc_flags c) MF_KCALL_RESUME && negb (vr_vmresult (p_vmrequest c) =? OK)
  then ret (vr_vmresult (p_vmrequest c))
  else vm_suspend caller target vir_addr bytes VMSTYPE_KERNELCALL writeflag ;; ret VMSUSPEND.

(** ** The calls of VM *)

(** The reply fields of [VMCTL_MEMREQ_GET]: [int] for the target, the address
    and the length, [short] for the flag. *)
Record memreq := mkMemreq {
  mrg_target : Z;
  mrg_addr : Z;
  mrg_length : Z;
  mrg_flag : Z;
  mrg_requestor : Z
}.

(** The first request that VM may get, taken off the list. *)
Fixpoint memreq_get (fuel : nat) (rpp : vm_loc) : K (Z * option memreq) :=
  match fuel with
  | O => halt NoFuel
  | S fuel' =>
      x <- read_vm rpp ;;
      match x with
      | None => ret (ENOENT, None)
      | Some rp =>
          p <- get_proc rp ;;
          assert (RTS_ISSET p RTS_VMREQUEST) ;;
          let v := p_vmrequest p in
          target <- okendpt (vr_target v) ;;
          ok <- allow_ipc_filtered_memreq rp target ;;
          if negb ok then memreq_get fuel' (VmNext rp)
          else
            (if negb (vr_req_type v =? VMPTYPE_CHECK) then halt Panic else ret tt) ;;
            upd_vmrequest rp (set_vr_vmresult VMSUSPEND) ;;
            write_vm rpp (vr_nextrequestor v) ;;
            ret (vr_req_type v,
                 Some (mkMemreq (vr_target v) (i32 (vr_start v)) (i32 (vr_length v)) (i16 (vr_writeflag v)) (p_endpoint p)))
      end
  end.

Definition memreq_reply (proc_nr value : Z) : K Z :=
  p <- get_proc proc_nr ;;
  assert (RTS_ISSET p RTS_VMREQUEST) ;;
  assert (vr_vmresult (p_vmrequest p) =? VMSUSPEND) ;;
  target <- okendpt (vr_target (p_vmrequest p)) ;;
  upd_vmrequest proc_nr (set_vr_vmresult value) ;;
  assert (negb (value =? VMSUSPEND)) ;;
  let type := vr_type (p_vmrequest p) in
  (if type =? VMSTYPE_KERNELCALL then
     upd_proc proc_nr (fun p => set_p_misc_flags (flag_set (p_misc_flags p) MF_KCALL_RESUME) p)
   else if type =? VMSTYPE_DELIVERMSG then
     assert (has (p_misc_flags p) MF_DELIVERMSG) ;; assert (proc_nr =? target) ;;
     assert (RTS_ISSET p RTS_VMREQUEST)
   else if type =? VMSTYPE_MAP then assert (RTS_ISSET p RTS_VMREQUEST)
   else halt Panic) ;;
  RTS_UNSET proc_nr RTS_VMREQUEST ;; ret OK.

(** [arch param value p] performs the requests of the architecture: the
    physical mappings of the kernel, its cache of mappings, page tables. *)
Definition do_vmctl (arch : Z -> Z -> Z -> K Z) (caller who param value : Z) : K (Z * option memreq) :=
  c <- get_proc caller ;;
  ok <- isokendpt (if who =? SELF then p_endpoint c else who) ;;
  match ok with
  | None => ret (EINVAL, None)
  | Some proc_nr =>
      p <- get_proc proc_nr ;;
      if param =? VMCTL_CLEAR_PAGEFAULT then
        assert (RTS_ISSET p RTS_PAGEFAULT) ;; RTS_UNSET proc_nr RTS_PAGEFAULT ;; ret (OK, None)
      else if param =? VMCTL_MEMREQ_GET then memreq_get (S cq_fuel) VmHead
      else if param =? VMCTL_MEMREQ_REPLY then r <- memreq_reply proc_nr value ;; ret (r, None)
      else if param =? VMCTL_VMINHIBIT_SET then RTS_SET proc_nr RTS_VMINHIBIT ;; ret (OK, None)
      else if param =? VMCTL_VMINHIBIT_CLEAR then
        assert (RTS_ISSET p RTS_VMINHIBIT) ;; RTS_UNSET proc_nr RTS_VMINHIBIT ;; ret (OK, None)
      else if param =? VMCTL_BOOTINHIBIT_CLEAR then RTS_UNSET proc_nr RTS_BOOTINHIBIT ;; ret (OK, None)
      else r <- arch param value proc_nr ;; ret (r, None)
  end.
