(* ===== verification/AuditCall.v ===== *)
(** * Reading the audit ring: the kernel call and the daemon

    Models [do_audit] of kernel/audit.c, which copies the newest records of the
    ring into the caller's memory, and the part of servers/auditd/auditd.c that
    collects them: [poll_kernel_buffer] and the handlers of the main loop that
    call it.  The records the daemon writes, one line each, are its log file;
    whether a [write] succeeds and what [open_log] returns are arguments. *)

From S2P Require Import Prelude Monad Timers Endpoint AuditRing Kernel Sched Init Ipc System Clock Vm.

Definition AUDIT_OP_GET_COUNT : Z := 1.
Definition AUDIT_OP_RETRIEVE : Z := 2.
Definition AUDIT_OP_STATUS : Z := 3.
Definition AUDIT_OP_LOG : Z := 4.
Definition AUDIT_RECORD_SIZE : Z := 72.

(** The fields of the message: [AUDIT_OP] is [m1_i2], [AUDIT_COUNT] is [m1_i3]
    and [AUDIT_BUF] is [m1_p1]. *)
Record audit_msg := mkAmsg { m1_i1 : Z; m1_i2 : Z; m1_i3 : Z; m1_p1 : Z }.
Definition set_count (n : Z) (m : audit_msg) : audit_msg := mkAmsg (m1_i1 m) (m1_i2 m) n (m1_p1 m).

Definition audit_zero : audit_record := mkAudit 0 0 0 0 0 0 0 (replicate 32 0).

(** The [n] slots of the ring from [i] on. *)
Definition ring_slice (r : audit_ring) (i n : Z) : list audit_record :=
  map (fun k => default audit_zero (audit_buf r !! k)) (seqZ i n).

(** [data_copy] of records to a user buffer, up to the first address that is
    not mapped. *)
Fixpoint put_records (e addr : Z) (l : list audit_record) (mem : gmap (Z * Z) audit_record)
    : Z * gmap (Z * Z) audit_record :=
  match l with
  | [] => (OK, mem)
  | x :: l' =>
      match mem !! (e, addr) with
      | Some _ => put_records e (addr + AUDIT_RECORD_SIZE) l' (<[(e, addr) := x]> mem)
      | None => (EFAULT_DST, mem)
      end
  end.
Definition copy_records (e addr i n : Z) : K Z := fun s =>
  let '(r, mem) := put_records e addr (ring_slice (k_audit s) i n) (urec s) in Done r (set_urec mem s).

(** [audit_log] called by the kernel. *)
Definition k_audit_log (type result subject object : Z) : K Z :=
  now <- get_monotonic ;;
  fun s => let '(r, ring) := audit_log now type result subject object None 0 (k_audit s) in
           Done r (set_k_audit ring s).

(** The copies of [AUDIT_OP_RETRIEVE]: [count] records from slot [start_idx] on,
    in two pieces when they wrap around. *)
Definition audit_copy (e user_buf start_idx count : Z) : K Z :=
  let first_chunk := if AUDIT_BUFFER_ENTRIES <? start_idx + count then AUDIT_BUFFER_ENTRIES - start_idx else count in
  let remaining := if AUDIT_BUFFER_ENTRIES <? start_idx + count then count - first_chunk else 0 in
  r <- (if 0 <? first_chunk then copy_records e user_buf start_idx first_chunk else ret OK) ;;
  if negb (r =? OK) then ret r
  else if 0 <? remaining then copy_records e (user_buf + first_chunk * AUDIT_RECORD_SIZE) 0 remaining
  else ret OK.

Definition audit_retrieve (caller : Z) (m : audit_msg) : K (Z * audit_msg) :=
  if (m1_i3 m <=? 0) || (AUDIT_BUFFER_ENTRIES <? m1_i3 m) then ret (EINVAL, m)
  else if m1_p1 m =? 0 then ret (EFAULT, m)
  else
    c <- get_proc caller ;;
    avail <- gets (fun s => audit_write_idx (k_audit s)) ;;
    let count := Z.min (Z.min (m1_i3 m) avail) AUDIT_BUFFER_ENTRIES in
    if count =? 0 then ret (OK, set_count 0 m)
    else
      r <- audit_copy (p_endpoint c) (m1_p1 m) (Z.land (avail - count) AUDIT_MASK) count ;;
      if negb (r =? OK) then ret (r, m) else ret (OK, set_count count m).

Definition do_audit (caller : Z) (m : audit_msg) : K (Z * audit_msg) :=
  if m1_i2 m =? AUDIT_OP_GET_COUNT then
    idx <- gets (fun s => audit_write_idx (k_audit s)) ;;
    ret (OK, set_count (if AUDIT_BUFFER_ENTRIES <=? idx then AUDIT_BUFFER_ENTRIES else idx) m)
  else if m1_i2 m =? AUDIT_OP_RETRIEVE then audit_retrieve caller m
  else if m1_i2 m =? AUDIT_OP_STATUS then
    idx <- gets (fun s => audit_write_idx (k_audit s)) ;;
    ret (OK, mkAmsg (i32 idx) (m1_i2 m) AUDIT_BUFFER_ENTRIES (m1_p1 m))
  else if m1_i2 m =? AUDIT_OP_LOG then
    k_audit_log (u32 (m1_i1 m)) (m1_i3 m) (i32 (m1_p1 m)) NONE ;;
    ret (OK, m)
  else ret (EINVAL, m).

(** ** What a reader gets *)

Lemma put_records_run e l : forall addr mem,
  (forall k, (k < length l)%nat -> is_Some (mem !! (e, addr + Z.of_nat k * AUDIT_RECORD_SIZE))) ->
  exists mem', put_records e addr l mem = (OK, mem')
    /\ (forall k x, l !! k = Some x -> mem' !! (e, addr + Z.of_nat k * AUDIT_RECORD_SIZE) = Some x)
    /\ (forall a, (forall k, (k < length l)%nat -> a <> (e, addr + Z.of_nat k * AUDIT_RECORD_SIZE)) -> mem' !! a = mem !! a).
Proof.
  induction l as [|x l IH]; intros addr mem Hm; cbn [put_records].
  { by exists mem. }
  destruct (Hm 0%nat ltac:(cbn; lia)) as [y Hy]. rewrite Z.add_0_r in Hy. rewrite Hy.
  destruct (IH (addr + AUDIT_RECORD_SIZE) (<[(e, addr) := x]> mem)) as (mem' & E & H1 & H2).
  { intros k Hk. apply lookup_insert_is_Some'. right.
    replace (_ + _ + _) with (addr + Z.of_nat (S k) * AUDIT_RECORD_SIZE) by lia. apply Hm. cbn. lia. }
  exists mem'. split; [done|]. split.
  - intros [|k] z Hz.
    + injection Hz as <-. rewrite Z.add_0_r. rewrite H2; [by rewrite lookup_insert_eq|].
      intros k Hk. injection. unfold AUDIT_RECORD_SIZE. lia.
    + replace (addr + _) with (addr + AUDIT_RECORD_SIZE + Z.of_nat k * AUDIT_RECORD_SIZE) by lia. by apply H1.
  - intros a Ha. rewrite H2.
    + rewrite lookup_insert_ne; [done|]. intros <-. apply (Ha 0%nat); [cbn; lia|]. f_equal. lia.
    + intros k Hk ->. apply (Ha (S k)); [cbn; lia|]. f_equal. lia.
Qed.

(** Slots of the ring that hold the events [lo..lo+n-1]. *)
Lemma ring_slice_log r log lo n :
  ring_of r log -> (length log <= lo + Z.to_nat AUDIT_BUFFER_ENTRIES)%nat -> (lo + n <= length log)%nat ->
  Z.of_nat lo mod AUDIT_BUFFER_ENTRIES + Z.of_nat n <= AUDIT_BUFFER_ENTRIES ->
  ring_slice r (Z.of_nat lo mod AUDIT_BUFFER_ENTRIES) (Z.of_nat n) = take n (drop lo log).
Proof.
  intros Hr Hlo Hn Hw. apply list_eq. intros k. unfold ring_slice. rewrite list_lookup_fmap.
  destruct (decide (k < n)%nat) as [Hk|Hk].
  - rewrite lookup_seqZ_lt by lia. cbn. rewrite lookup_take_lt, lookup_drop by done.
    destruct (lookup_lt_is_Some_2 log (lo + k)) as [x Hx]; [lia|]. rewrite Hx.
    assert (Z.of_nat (lo + k) mod AUDIT_BUFFER_ENTRIES = Z.of_nat lo mod AUDIT_BUFFER_ENTRIES + Z.of_nat k) as E.
    { rewrite Nat2Z.inj_add, <- Zplus_mod_idemp_l, (Z.mod_small (_ + _)); [done|].
      pose proof (Z.mod_pos_bound (Z.of_nat lo) AUDIT_BUFFER_ENTRIES ltac:(done)). lia. }
    rewrite <- E, (ro_buf _ _ Hr (lo + k) x); [done| |done]. unfold AUDIT_BUFFER_ENTRIES in *. lia.
  - rewrite lookup_seqZ_ge by lia. cbn. symmetry. apply lookup_ge_None. rewrite length_take. lia.
Qed.

Lemma put_records_app e l1 l2 : forall addr mem mem1 mem2,
  put_records e addr l1 mem = (OK, mem1) ->
  put_records e (addr + Z.of_nat (length l1) * AUDIT_RECORD_SIZE) l2 mem1 = (OK, mem2) ->
  put_records e addr (l1 ++ l2) mem = (OK, mem2).
Proof.
  induction l1 as [|x l1 IH]; intros addr mem mem1 mem2 H1 H2; cbn [put_records app] in *.
  - injection H1 as <-. by rewrite Z.add_0_r in H2.
  - destruct (mem !! (e, addr)); [|done]. eapply IH; [exact H1|].
    by replace (addr + AUDIT_RECORD_SIZE + Z.of_nat (length l1) * AUDIT_RECORD_SIZE)
      with (addr + Z.of_nat (length (x :: l1)) * AUDIT_RECORD_SIZE) by (cbn [length]; lia).
Qed.

Lemma put_records_split e l1 l2 addr mem mem2 :
  put_records e addr (l1 ++ l2) mem = (OK, mem2) ->
  exists mem1, put_records e addr l1 mem = (OK, mem1)
    /\ put_records e (addr + Z.of_nat (length l1) * AUDIT_RECORD_SIZE) l2 mem1 = (OK, mem2).
Proof.
  revert addr mem. induction l1 as [|x l1 IH]; intros addr mem H; cbn [put_records app length] in *.
  - exists mem. by rewrite Z.add_0_r.
  - destruct (mem !! (e, addr)); [|done]. destruct (IH _ _ H) as (mem1 & E1 & E2). exists mem1. split; [done|].
    by replace (addr + Z.of_nat (S (length l1)) * AUDIT_RECORD_SIZE)
      with (addr + AUDIT_RECORD_SIZE + Z.of_nat (length l1) * AUDIT_RECORD_SIZE) by lia.
Qed.

Lemma copy_records_run e addr i n l mem s :
  ring_slice (k_audit s) i n = l -> put_records e addr l (urec s) = (OK, mem) ->
  copy_records e addr i n s = Done OK (set_urec mem s).
Proof. intros Hl Hp. unfold copy_records. by rewrite Hl, Hp. Qed.

(** The newest [n] events. *)
Definition newest (n : Z) (log : list audit_record) : list audit_record := drop (length log - Z.to_nat n) log.

Lemma audit_copy_run s e addr log lo mem :
  ring_of (k_audit s) log -> (lo < length log)%nat -> (length log <= lo + Z.to_nat AUDIT_BUFFER_ENTRIES)%nat ->
  put_records e addr (drop lo log) (urec s) = (OK, mem) ->
  audit_copy e addr (Z.of_nat lo mod AUDIT_BUFFER_ENTRIES) (Z.of_nat (length log) - Z.of_nat lo) s
  = Done OK (set_urec mem s).
Proof.
  intros Hr Hlo Hring Hput. pose proof (ring_slice_log (k_audit s) log) as Hsl. unfold audit_copy.
  set (start := Z.of_nat lo mod AUDIT_BUFFER_ENTRIES) in *.
  pose proof (Z.mod_pos_bound (Z.of_nat lo) AUDIT_BUFFER_ENTRIES ltac:(done)) as Hst. fold start in Hst.
  assert (Z.of_nat (Z.to_nat AUDIT_BUFFER_ENTRIES) = AUDIT_BUFFER_ENTRIES) as HB by done.
  destruct (Z.ltb_spec AUDIT_BUFFER_ENTRIES (start + (Z.of_nat (length log) - Z.of_nat lo))) as [Hwrap|Hfit].
  - set (n1 := Z.to_nat (AUDIT_BUFFER_ENTRIES - start)).
    assert (Z.of_nat (lo + n1) mod AUDIT_BUFFER_ENTRIES = 0) as Hz.
    { replace (Z.of_nat (lo + n1)) with (Z.of_nat lo - start + 1 * AUDIT_BUFFER_ENTRIES) by lia.
      rewrite Z.mod_add by done. unfold start. by rewrite Zminus_mod, Zmod_mod, Z.sub_diag. }
    rewrite <- (take_drop n1 (drop lo log)), drop_drop in Hput. apply put_records_split in Hput as (mem1 & E1 & E2).
    rewrite length_take, length_drop in E2. replace (n1 `min` (length log - lo))%nat with n1 in E2 by lia.
    replace (AUDIT_BUFFER_ENTRIES - start) with (Z.of_nat n1) by lia. rewrite (proj2 (Z.ltb_lt 0 (Z.of_nat n1))) by lia.
    rewrite (bind_done _ _ _ _ _ (copy_records_run _ _ _ _ _ _ _ (Hsl lo n1 Hr ltac:(lia) ltac:(lia) ltac:(lia)) E1)).
    cbn [negb Z.eqb OK]. rewrite (proj2 (Z.ltb_lt 0 _)) by lia.
    specialize (Hsl (lo + n1)%nat (length log - (lo + n1))%nat Hr ltac:(lia) ltac:(lia) ltac:(lia)). rewrite Hz in Hsl.
    rewrite take_ge in Hsl by (rewrite length_drop; lia).
    rewrite (copy_records_run e _ 0 _ (drop (lo + n1) log) mem); [by destruct s| |exact E2].
    rewrite <- Hsl. cbn. f_equal. lia.
  - replace (Z.of_nat (length log) - Z.of_nat lo) with (Z.of_nat (length log - lo)) by lia.
    rewrite (proj2 (Z.ltb_lt 0 _)) by lia.
    rewrite (bind_done _ _ OK s (set_urec mem s)); [done|]. eapply copy_records_run; [|exact Hput].
    etransitivity; [exact (Hsl lo (length log - lo)%nat Hr ltac:(lia) ltac:(lia) ltac:(lia))|].
    apply take_ge. rewrite length_drop. lia.
Qed.

Lemma newest_min n log : 0 <= n -> newest (Z.min n (Z.of_nat (length log))) log = newest n log.
Proof. intros Hn. unfold newest. f_equal. lia. Qed.

Lemma retrieve_run s caller c m log mem :
  procs s !! caller = Some c -> ring_of (k_audit s) log -> Z.of_nat (length log) < 2 ^ 32 ->
  0 < m1_i3 m <= AUDIT_BUFFER_ENTRIES -> m1_p1 m <> 0 ->
  put_records (p_endpoint c) (m1_p1 m) (newest (m1_i3 m) log) (urec s) = (OK, mem) ->
  audit_retrieve caller m s
  = Done (OK, set_count (Z.min (m1_i3 m) (Z.of_nat (length log))) m) (set_urec mem s).
Proof.
  intros Hc Hr Hlen Hcnt Hbuf Hput. unfold audit_retrieve.
  rewrite (proj2 (Z.leb_gt _ _) (proj1 Hcnt)), (proj2 (Z.ltb_ge _ _) (proj2 Hcnt)), (proj2 (Z.eqb_neq _ _) Hbuf). cbn [orb].
  erewrite bind_get_proc by done. rewrite (bind_done _ _ (Z.of_nat (length log)) s s)
    by (unfold gets; rewrite (ro_idx _ _ Hr); f_equal; unfold u32; rewrite Z.mod_small; lia).
  rewrite (Z.min_l (Z.min _ _)) by lia. rewrite <- newest_min in Hput by lia.
  set (cnt := Z.min (m1_i3 m) (Z.of_nat (length log))) in *. unfold newest in Hput.
  set (lo := (length log - Z.to_nat cnt)%nat) in *. destruct (Z.eqb_spec cnt 0) as [E0|Hne].
  { rewrite drop_ge in Hput by lia. injection Hput as <-. rewrite E0. by destruct s. }
  rewrite land_mask. replace (Z.of_nat (length log) - cnt) with (Z.of_nat lo) by lia.
  replace cnt with (Z.of_nat (length log) - Z.of_nat lo) at 1 by lia.
  rewrite (bind_done _ _ _ _ _ (audit_copy_run s _ _ log lo mem Hr ltac:(lia) ltac:(lia) Hput)). done.
Qed.

(** C37: the ring is a log.  Starting from the empty ring of boot, every
    acceptable event the kernel logs is appended with the next serial number
    and the current time, whatever the number of events so far and across the
    wrap-around of the counters; an event of an unknown type is refused and
    changes nothing. *)
Theorem audit_log_refines s log type result subject object :
  ring_of audit_init [] /\
  (ring_of (k_audit s) log ->
   let n := Z.of_nat (length log) in
   let rec := mkAudit (u32 (n + 1)) (u32 type) result (k_monotonic s) subject object 0 (replicate 32 0) in
   if (u32 type =? 0) || (AUDIT_SERVICE_CRASH <? u32 type)
   then k_audit_log type result subject object s = Done 0 s
   else exists r, k_audit_log type result subject object s = Done (i32 (u32 (n + 1))) (set_k_audit r s)
          /\ ring_of r (log ++ [rec])).
Proof.
  split; [exact ring_of_init|]. intros Hr n rec.
  pose proof (audit_log_run (k_monotonic s) type result subject object None 0 _ _ Hr) as H. cbn zeta in H.
  change (u32 0) with 0 in H. rewrite (orb_comm _ (AR_EXTRA <? 0)) in H. cbn [AR_EXTRA Z.ltb Z.compare orb] in H.
  unfold k_audit_log, get_monotonic. rewrite (bind_done _ _ (k_monotonic s) s s) by done.
  destruct ((u32 type =? 0) || (AUDIT_SERVICE_CRASH <? u32 type)).
  - rewrite H. by destruct s.
  - destruct H as (r & -> & Hr'). exists r. split; [done|]. exact Hr'.
Qed.

Lemma audit_log_refines_witness :
  exists r, k_audit_log AUDIT_MAC_VIOLATION EPERM 7 8 bss = Done 1 (set_k_audit r bss)
    /\ ring_of r [mkAudit 1 AUDIT_MAC_VIOLATION EPERM 0 7 8 0 (replicate 32 0)].
Proof.
  destruct (audit_log_refines bss [] AUDIT_MAC_VIOLATION EPERM 7 8) as [_ H].
  destruct (H ring_of_init) as (r & E & Hr). exists r. split; [exact E|exact Hr].
Defined.

(** C38: a reader gets the newest events, oldest first.  As long as fewer than
    2^32 events have been logged, when a process asks for [n] records, [do_audit] copies the newest [n] events (or all of
    them if there are fewer) to consecutive places of its buffer, in the order
    they were logged, also when they wrap around in the ring; it reports their
    number and changes nothing else. *)
Theorem audit_retrieve_newest s caller c m log :
  procs s !! caller = Some c -> ring_of (k_audit s) log -> Z.of_nat (length log) < 2 ^ 32 ->
  m1_i2 m = AUDIT_OP_RETRIEVE -> 0 < m1_i3 m <= AUDIT_BUFFER_ENTRIES -> m1_p1 m <> 0 ->
  (forall k, Z.of_nat k < m1_i3 m -> is_Some (urec s !! (p_endpoint c, m1_p1 m + Z.of_nat k * AUDIT_RECORD_SIZE))) ->
  let got := newest (m1_i3 m) log in
  exists mem, do_audit caller m s = Done (OK, set_count (Z.of_nat (length got)) m) (set_urec mem s)
    /\ (forall k x, got !! k = Some x -> mem !! (p_endpoint c, m1_p1 m + Z.of_nat k * AUDIT_RECORD_SIZE) = Some x)
    /\ (forall a, (forall k, Z.of_nat k < m1_i3 m -> a <> (p_endpoint c, m1_p1 m + Z.of_nat k * AUDIT_RECORD_SIZE)) ->
         mem !! a = urec s !! a).
Proof.
  intros Hc Hr Hlen Hop Hcnt Hbuf Hmap got.
  assert (Z.of_nat (length got) = Z.min (m1_i3 m) (Z.of_nat (length log))) as Hn
    by (unfold got, newest; rewrite length_drop; lia).
  destruct (put_records_run (p_endpoint c) got (m1_p1 m) (urec s)) as (mem & E & H1 & H2); [intros k Hk; apply Hmap; lia|].
  exists mem. rewrite Hn. split.
  - unfold do_audit. rewrite Hop. exact (retrieve_run s caller c m log mem Hc Hr Hlen Hcnt Hbuf E).
  - split; [exact H1|]. intros a Ha. apply H2. intros k Hk. apply Ha. lia.
Qed.

(** ** The daemon *)

Definition AUDITD_RQ_BASE : Z := 0x1C00.
Definition AUDITD_RQ_STATUS : Z := AUDITD_RQ_BASE + 0.
Definition AUDITD_RQ_ENABLE : Z := AUDITD_RQ_BASE + 1.
Definition AUDITD_RQ_DISABLE : Z := AUDITD_RQ_BASE + 2.
Definition AUDITD_RQ_REOPEN : Z := AUDITD_RQ_BASE + 3.
Definition AUDITD_RQ_POLL_NOW : Z := AUDITD_RQ_BASE + 4.
Definition AUDITD_RQ_ROTATE : Z := AUDITD_RQ_BASE + 5.

(** The daemon: the kernel, its own slot, the records it has written to the
    log, the descriptor of the log, and [enabled] and [poll_interval] of
    [auditd_cfg]. *)
Record auditd := mkAuditd {
  ad_kernel : kstate;
  ad_self : Z;
  ad_log : list audit_record;
  log_fd : Z;
  ad_enabled : Z;
  ad_poll_interval : Z
}.
Definition eta_auditd (r : auditd) : auditd :=
  mkAuditd (ad_kernel r) (ad_self r) (ad_log r) (log_fd r) (ad_enabled r) (ad_poll_interval r).
Definition set_ad_kernel : kstate -> auditd -> auditd := ltac:(setter eta_auditd ad_kernel).
Definition set_ad_log : list audit_record -> auditd -> auditd := ltac:(setter eta_auditd ad_log).
Definition set_log_fd : Z -> auditd -> auditd := ltac:(setter eta_auditd log_fd).
Definition set_ad_enabled : Z -> auditd -> auditd := ltac:(setter eta_auditd ad_enabled).

(** The address of [audit_records]. *)
Definition audit_records : Z := 4096.

Section Daemon.
(** Whether [write] of a line succeeds, what [open_log] returns, and the forced
    rotation. *)
Context (write_ok : list audit_record -> audit_record -> bool) (open_log : auditd -> Z) (handle_rotate : M auditd Z).

Definition sys_audit (m : audit_msg) : M auditd (Z * audit_msg) := fun d =>
  match do_audit (ad_self d) m (ad_kernel d) with
  | Done r s => Done r (set_ad_kernel s d)
  | Stop w => Stop w
  end.

Definition write_record (rec : audit_record) : M auditd unit := fun d =>
  if 0 <=? log_fd d then
    if write_ok (ad_log d) rec
    then Done tt (set_ad_log (ad_log d ++ [rec]) d)
    else Done tt (set_log_fd (open_log d) d)
  else Done tt d.

(** The [i]-th record of the daemon's buffer. *)
Definition buffered (d : auditd) (i : Z) : audit_record :=
  match procs (ad_kernel d) !! ad_self d with
  | Some c => default audit_zero (urec (ad_kernel d) !! (p_endpoint c, audit_records + i * AUDIT_RECORD_SIZE))
  | None => audit_zero
  end.

(** [poll_kernel_buffer], without the rotation of the file. *)
Definition poll_kernel_buffer : M auditd unit :=
  rm <- sys_audit (mkAmsg 0 AUDIT_OP_GET_COUNT 0 0) ;;
  let '(r, m) := rm in
  if negb (r =? OK) then ret tt
  else if m1_i3 m <=? 0 then ret tt
  else
    rm <- sys_audit (mkAmsg 0 AUDIT_OP_RETRIEVE (m1_i3 m) audit_records) ;;
    let '(r, m) := rm in
    if negb (r =? OK) then ret tt
    else if m1_i3 m <=? 0 then ret tt
    else for_each (seqZ 0 (m1_i3 m)) (fun i => rec <- gets (fun d => buffered d i) ;; write_record rec).

Definition set_poll_alarm : M auditd unit := fun d =>
  match do_setalarm (ad_self d) (ad_poll_interval d) 0 (ad_kernel d) with
  | Done _ s => Done tt (set_ad_kernel s d)
  | Stop w => Stop w
  end.

Definition handle_enable : M auditd Z := modify (set_ad_enabled 1) ;; set_poll_alarm ;; ret OK.
Definition handle_disable : M auditd Z := modify (set_ad_enabled 0) ;; ret OK.
Definition handle_reopen (errno : Z) : M auditd Z :=
  modify (fun d => set_log_fd (open_log d) d) ;;
  fd <- gets log_fd ;;
  ret (if 0 <=? fd then OK else errno).
Definition handle_poll : M auditd Z :=
  on <- gets ad_enabled ;;
  (if negb (on =? 0) then poll_kernel_buffer else ret tt) ;;
  ret OK.

(** [SIGALRM] in [sef_cb_signal_handler]. *)
Definition on_sigalrm : M auditd unit :=
  on <- gets ad_enabled ;;
  (if negb (on =? 0) then poll_kernel_buffer else ret tt) ;;
  if negb (on =? 0) then set_poll_alarm else ret tt.

(** One request of the main loop: the type of the reply. *)
Definition auditd_request (m_type errno : Z) : M auditd Z :=
  if m_type =? AUDITD_RQ_STATUS then ret OK
  else if m_type =? AUDITD_RQ_ENABLE then handle_enable
  else if m_type =? AUDITD_RQ_DISABLE then handle_disable
  else if m_type =? AUDITD_RQ_REOPEN then handle_reopen errno
  else if m_type =? AUDITD_RQ_POLL_NOW then handle_poll
  else if m_type =? AUDITD_RQ_ROTATE then handle_rotate
  else ret EINVAL.

(** ** What the daemon writes *)

Lemma write_run d rec :
  0 <= log_fd d -> (forall f x, write_ok f x = true) ->
  write_record rec d = Done tt (set_ad_log (ad_log d ++ [rec]) d).
Proof. intros Hfd Hw. unfold write_record. by rewrite (proj2 (Z.leb_le _ _) Hfd), Hw. Qed.

Lemma write_all l : forall d,
  0 <= log_fd d -> (forall f x, write_ok f x = true) ->
  for_each l (fun i => rec <- gets (fun d => buffered d i) ;; write_record rec) d
  = Done tt (set_ad_log (ad_log d ++ map (buffered d) l) d).
Proof.
  induction l as [|i l IH]; intros d Hfd Hw; cbn [for_each map].
  { rewrite app_nil_r. by destruct d. }
  rewrite bind_assoc, (bind_done _ _ (buffered d i) d d) by done. rewrite (bind_done _ _ _ _ _ (write_run d _ Hfd Hw)).
  rewrite IH by done. cbn. rewrite <- app_assoc. by destruct d.
Qed.

(** The buffer of the daemon is mapped. *)
Definition buffer_mapped (s : kstate) (e : Z) : Prop :=
  forall k, Z.of_nat k < AUDIT_BUFFER_ENTRIES ->
    is_Some (urec s !! (e, audit_records + Z.of_nat k * AUDIT_RECORD_SIZE)).

Lemma poll_run d c log :
  procs (ad_kernel d) !! ad_self d = Some c -> ring_of (k_audit (ad_kernel d)) log ->
  Z.of_nat (length log) < 2 ^ 32 -> buffer_mapped (ad_kernel d) (p_endpoint c) ->
  0 <= log_fd d -> (forall f x, write_ok f x = true) ->
  exists mem, poll_kernel_buffer d = Done tt (set_ad_log (ad_log d ++ newest AUDIT_BUFFER_ENTRIES log)
      (set_ad_kernel (set_urec mem (ad_kernel d)) d))
    /\ buffer_mapped (set_urec mem (ad_kernel d)) (p_endpoint c).
Proof.
  intros Hc Hr Hlen Hmap Hfd Hw. set (s := ad_kernel d) in *. set (n := Z.min AUDIT_BUFFER_ENTRIES (Z.of_nat (length log))).
  assert (sys_audit (mkAmsg 0 AUDIT_OP_GET_COUNT 0 0) d = Done (OK, mkAmsg 0 AUDIT_OP_GET_COUNT n 0) d) as E1.
  { unfold sys_audit, do_audit. cbn -[Z.leb]. fold s. rewrite (ro_idx _ _ Hr). unfold u32. rewrite Z.mod_small by lia.
    replace (if AUDIT_BUFFER_ENTRIES <=? _ then _ else _) with n by (unfold n; destruct (Z.leb_spec AUDIT_BUFFER_ENTRIES (Z.of_nat (length log))); lia).
    by destruct d. }
  unfold poll_kernel_buffer. rewrite (bind_done _ _ _ _ _ E1). cbn [negb Z.eqb OK m1_i3].
  destruct (Z.leb_spec n 0) as [Hn|Hn].
  { exists (urec s). assert (log = []) as -> by (apply nil_length_inv; unfold n, AUDIT_BUFFER_ENTRIES in Hn; lia). cbn. rewrite app_nil_r. split; [|exact Hmap].
    by destruct d as [k ? ? ? ? ?], k. }
  set (m := mkAmsg 0 AUDIT_OP_RETRIEVE n audit_records). set (got := newest AUDIT_BUFFER_ENTRIES log).
  assert (newest n log = got) as Hgot by (unfold n; by rewrite newest_min).
  assert (Z.of_nat (length got) = n) as Hgl by (unfold got, newest; rewrite length_drop; unfold AUDIT_BUFFER_ENTRIES in *; lia).
  destruct (put_records_run (p_endpoint c) got audit_records (urec s)) as (mem & E & H1 & H2); [intros k Hk; apply Hmap; lia|].
  assert (sys_audit m d = Done (OK, m) (set_ad_kernel (set_urec mem s) d)) as E2.
  { unfold sys_audit, do_audit. cbn -[audit_retrieve]. fold s.
    rewrite (retrieve_run s (ad_self d) c m log mem Hc Hr Hlen); [| |done|by rewrite <- Hgot in E].
    - unfold set_count, m. cbn [m1_i3 m1_i1 m1_i2 m1_p1]. by replace (Z.min n (Z.of_nat (length log))) with n by lia.
    - cbn. unfold n. lia. }
  rewrite (bind_done _ _ _ _ _ E2). cbn [negb Z.eqb OK m1_i3 m]. rewrite (proj2 (Z.leb_gt n 0) Hn).
  rewrite write_all by done. exists mem. split.
  - do 3 f_equal. apply list_eq. intros k. rewrite list_lookup_fmap. destruct (decide (k < length got)%nat) as [Hk|Hk].
    + rewrite lookup_seqZ_lt, Z.add_0_l by lia. destruct (lookup_lt_is_Some_2 _ _ Hk) as [x Hx]. cbn [fmap option_fmap option_map]. unfold buffered. cbn -[Z.mul Z.add]. fold s.
      by rewrite Hc, (H1 k x Hx), Hx.
    + rewrite lookup_seqZ_ge by lia. symmetry. apply lookup_ge_None. lia.
  - intros k Hk. cbn. destruct (decide (k < length got)%nat) as [Hlt|Hge].
    + destruct (lookup_lt_is_Some_2 _ _ Hlt) as [x Hx]. rewrite (H1 k x Hx). by eexists.
    + rewrite H2; [by apply Hmap|]. intros j Hj. injection. unfold AUDIT_RECORD_SIZE. lia.
Qed.
End Daemon.

(** Property: the daemon writes everything it can see, again and again.  One
    poll appends the newest [AUDIT_BUFFER_ENTRIES] events to the log file,
    completely and in order; but the daemon does not remember how far it has
    read, so that the next poll, with no event in between, writes the same
    records a second time. *)
Theorem auditd_poll_repeats write_ok open_log d c log :
  procs (ad_kernel d) !! ad_self d = Some c -> ring_of (k_audit (ad_kernel d)) log ->
  Z.of_nat (length log) < 2 ^ 32 -> buffer_mapped (ad_kernel d) (p_endpoint c) ->
  0 <= log_fd d -> (forall f x, write_ok f x = true) ->
  let new := newest AUDIT_BUFFER_ENTRIES log in
  let poll := poll_kernel_buffer write_ok open_log in
  exists d1 d2, poll d = Done tt d1 /\ ad_log d1 = ad_log d ++ new
    /\ poll d1 = Done tt d2 /\ ad_log d2 = (ad_log d ++ new) ++ new
    /\ k_audit (ad_kernel d2) = k_audit (ad_kernel d).
Proof.
  intros Hc Hr Hlen Hmap Hfd Hw new poll.
  destruct (poll_run write_ok open_log d c log Hc Hr Hlen Hmap Hfd Hw) as (mem & E & Hmap1).
  set (d1 := set_ad_log _ _) in E.
  destruct (poll_run write_ok open_log d1 c log Hc Hr Hlen Hmap1 Hfd Hw) as (mem2 & E2 & _).
  by do 2 eexists.
Qed.

(** A process of slot 0 whose buffer is mapped, and one event. *)
Definition audit_memory : gmap (Z * Z) audit_record :=
  list_to_map (map (fun k => ((0, audit_records + k * AUDIT_RECORD_SIZE), audit_zero)) (seqZ 0 AUDIT_BUFFER_ENTRIES)).
Definition audit_event : audit_record := mkAudit 1 AUDIT_MAC_VIOLATION EPERM 0 7 8 0 (replicate 32 0).
Definition audit_example : kstate :=
  set_urec audit_memory (run_state (k_audit_log AUDIT_MAC_VIOLATION EPERM 7 8) bss).

Lemma audit_memory_mapped : buffer_mapped audit_example 0.
Proof.
  intros k Hk. change (urec audit_example) with audit_memory. apply not_eq_None_Some. intros H%not_elem_of_list_to_map.
  apply H. clear H. rewrite <- list_fmap_compose. apply list_elem_of_fmap. exists (Z.of_nat k). split; [done|].
  apply elem_of_seqZ. lia.
Qed.

Lemma audit_example_ring : ring_of (k_audit audit_example) [audit_event].
Proof.
  destruct (audit_log_run 0 AUDIT_MAC_VIOLATION EPERM 7 8 None 0 _ _ ring_of_init) as (r & E & H).
  injection E as <-. exact H.
Qed.

Lemma audit_retrieve_newest_witness :
  exists mem, do_audit 0 (mkAmsg 0 AUDIT_OP_RETRIEVE 16 audit_records) audit_example
    = Done (OK, mkAmsg 0 AUDIT_OP_RETRIEVE 1 audit_records) (set_urec mem audit_example)
    /\ mem !! (0, audit_records) = Some audit_event.
Proof.
  destruct (audit_retrieve_newest audit_example 0 proc_zero (mkAmsg 0 AUDIT_OP_RETRIEVE 16 audit_records) [audit_event])
    as (mem & E & H & _).
  - by_vm.
  - exact audit_example_ring.
  - done.
  - done.
  - done.
  - done.
  - intros k Hk. apply audit_memory_mapped. cbn in Hk. unfold AUDIT_BUFFER_ENTRIES. lia.
  - exists mem. split; [exact E|]. exact (H 0%nat audit_event eq_refl).
Defined.

Lemma auditd_poll_repeats_witness :
  exists d1 d2, poll_kernel_buffer (fun _ _ => true) (fun _ => -1) (mkAuditd audit_example 0 [] 3 1 1000) = Done tt d1
    /\ poll_kernel_buffer (fun _ _ => true) (fun _ => -1) d1 = Done tt d2
    /\ ad_log d2 = [audit_event; audit_event].
Proof.
  destruct (auditd_poll_repeats (fun _ _ => true) (fun _ => -1) (mkAuditd audit_example 0 [] 3 1 1000) proc_zero [audit_event])
    as (d1 & d2 & E1 & _ & E2 & E3 & _).
  - by_vm.
  - exact audit_example_ring.
  - done.
  - exact audit_memory_mapped.
  - done.
  - done.
  - exists d1, d2. exact (conj E1 (conj E2 E3)).
Defined.
