(* ===== verification/Privctl.v ===== *)
(** * Privilege control

    Models [kernel/system/do_privctl.c]: a system process lets a process run
    that waits for its privileges, gives it a privilege structure of its own or
    the one user processes share, and adds resources.  What the copies from the
    caller's memory give is an argument: [copy_priv], [copy_io], [copy_mem] and
    [copy_irq] map an endpoint and an address to an error code or to the object
    there.  Two of these copies are not checked; [stack_io] and [stack_irq] are
    what the kernel stack then holds. *)

From S2P Require Import Prelude Monad Timers Endpoint AuditRing Chain Kernel Sched Init Ipc System Clock Vm AuditCall.

Definition SYS_PRIV_ALLOW : Z := 1.
Definition SYS_PRIV_DISALLOW : Z := 2.
Definition SYS_PRIV_SET_SYS : Z := 3.
Definition SYS_PRIV_SET_USER : Z := 4.
Definition SYS_PRIV_ADD_IO : Z := 5.
Definition SYS_PRIV_ADD_MEM : Z := 6.
Definition SYS_PRIV_ADD_IRQ : Z := 7.
Definition SYS_PRIV_QUERY_MEM : Z := 8.
Definition SYS_PRIV_UPDATE_SYS : Z := 9.
Definition SYS_PRIV_YIELD : Z := 10.
Definition SYS_PRIV_CLEAR_IPC_REFS : Z := 11.
Definition MAC_PRIVCTL_SET_SYS : Z := 4.
Definition DSRV_F : Z := Z.lor SRV_F DYN_PRIV_ID.
Definition DSRV_I : Z := 0.
Definition DSRV_T : Z := -1.
Definition DSRV_SM : Z := RS_PROC_NR.
Definition CAP_BASE : Z := 0.
Definition SYS_CALL_MASK_SIZE : nat := 2.

(** All targets, and all kernel calls. *)
Definition ALL_TARGETS : sys_map := foldl set_sys_bit map_zero priv_table.
Definition ALL_CALLS : list Z := replicate SYS_CALL_MASK_SIZE (u32 (-1)).

(** A [struct priv] in the caller's memory: the tables are whole arrays there,
    with counts of their own. *)
Record user_priv := mkUpriv { up_priv : priv; up_nr_irq : Z; up_nr_io_range : Z; up_nr_mem_range : Z }.

(** [m_lsys_krn_sys_privctl] *)
Record privctl := mkPrivctl { pc_endpt : Z; pc_request : Z; pc_arg_ptr : Z; pc_phys_start : Z; pc_phys_len : Z }.

(** A table of resources: copied when the flags say so and the count is in
    range. *)
Definition update_tab (rp : Z) (flag nr : Z) (max : nat) (f : priv -> priv) (k : K Z) (flags : Z) : K Z :=
  if has flags flag then
    if (nr <? 0) || (Z.of_nat max <? nr) then ret EINVAL
    else upd_priv rp f ;; k
  else k.

Definition update_priv (rp : Z) (u : user_priv) : K Z :=
  let pu := up_priv u in
  upd_priv rp (fun pv =>
    set_s_bak_sig_mgr (s_bak_sig_mgr pu) (set_s_sig_mgr (s_sig_mgr pu)
      (set_s_init_flags (s_init_flags pu) (set_s_flags (s_flags pu) pv)))) ;;
  update_tab rp CHECK_IRQ (up_nr_irq u) NR_IRQ (set_s_irq_tab (take (Z.to_nat (up_nr_irq u)) (s_irq_tab pu)))
    (update_tab rp CHECK_IO_PORT (up_nr_io_range u) NR_IO_RANGE (set_s_io_tab (take (Z.to_nat (up_nr_io_range u)) (s_io_tab pu)))
      (update_tab rp CHECK_MEM (up_nr_mem_range u) NR_MEM_RANGE (set_s_mem_tab (take (Z.to_nat (up_nr_mem_range u)) (s_mem_tab pu)))
        (upd_priv rp (set_s_trap_mask (s_trap_mask pu)) ;;
         fill_sendto_mask rp (s_ipc_to pu) ;;
         upd_priv rp (set_s_k_call_mask (s_k_call_mask pu)) ;;
         upd_priv rp (fun pv =>
           if negb (s_cap_effective pu =? 0) || negb (s_cap_permitted pu =? 0)
           then set_s_cap_permitted (Z.land (s_cap_permitted pu) (s_cap_bound pv))
                  (set_s_cap_effective (Z.land (s_cap_effective pu) (s_cap_bound pv)) pv)
           else pv) ;;
         ret OK)
        (s_flags pu))
      (s_flags pu))
    (s_flags pu).

(** [*priv(rp) = *priv(caller)], which also copies the alarm timer. *)
Definition copy_timer (from to : Z) : K unit :=
  t <- get_tmr from ;;
  modify (fun s => set_k_timers (mkTq (<[to := t]> (t_tab (k_timers s))) (t_head (k_timers s))) s).

(** The structure copied from the caller, with its id and process number back,
    and nothing pending. *)
Definition inherited (priv_id proc_nr : Z) (cpv : priv) : priv :=
  set_s_sig_pending 0 (set_s_int_pending 0 (set_s_notify_pending map_zero (set_s_asyn_pending map_zero
    (set_s_proc_nr proc_nr (set_s_id priv_id cpv))))).

Definition default_masks (endpoint : Z) (pv : priv) : priv :=
  set_s_trap_mask DSRV_T (set_s_init_flags DSRV_I (set_s_flags DSRV_F
    (set_s_diag_sig false (set_s_asynendpoint endpoint (set_s_asynsize 0 (set_s_asyntab (u64 (-1)) pv)))))).

Definition default_resources (endpoint : Z) (pv : priv) : priv :=
  set_s_ipcf None (set_s_state_entries 0 (set_s_state_table 0
    (set_s_grant_endpoint endpoint (set_s_grant_entries 0 (set_s_grant_table 0
      (set_s_cap_bound CAP_FULL (set_s_cap_permitted CAP_BASE (set_s_cap_effective CAP_BASE
        (set_s_irq_tab [] (set_s_mem_tab [] (set_s_io_tab []
          (set_s_bak_sig_mgr NONE (set_s_sig_mgr DSRV_SM (set_s_k_call_mask ALL_CALLS pv)))))))))))))).

(** The privilege structure of [rp], set to the defaults. *)
Definition init_sys_priv (caller rp proc_nr priv_id : Z) : K Z :=
  i <- get_priv rp priv_id ;;
  if negb (i =? OK) then ret i
  else
    pv <- priv_at rp ;;
    cpv <- priv_at caller ;;
    c <- get_proc caller ;;
    p <- get_proc rp ;;
    (match p_priv c with Some cid => copy_timer cid (s_id pv) | None => halt BadAccess end) ;;
    upd_priv rp (fun _ => inherited (s_id pv) proc_nr cpv) ;;
    reset_kernel_timer (s_id pv) ;;
    upd_priv rp (default_masks (p_endpoint p)) ;;
    fill_sendto_mask rp ALL_TARGETS ;;
    upd_priv rp (default_resources (p_endpoint p)) ;;
    ret OK.

(** The structure id the caller asks for. *)
Definition asked_id (a : option user_priv) : Z :=
  match a with
  | Some u => if negb (has (s_flags (up_priv u)) DYN_PRIV_ID) then s_id (up_priv u) else NULL_PRIV_ID
  | None => NULL_PRIV_ID
  end.

Section Copies.
Context (copy_priv : Z -> Z -> Z + user_priv) (copy_io : Z -> Z -> Z + io_range) (copy_mem : Z -> Z -> Z + mem_range)
  (copy_irq : Z -> Z -> Z + Z) (stack_io : io_range) (stack_irq : Z).

(** The structure the caller passes, if any. *)
Definition priv_arg (c : proc) (m : privctl) : Z + option user_priv :=
  if pc_arg_ptr m =? 0 then inr None
  else match copy_priv (p_endpoint c) (pc_arg_ptr m) with inl r => inl r | inr u => inr (Some u) end.

Definition priv_set_sys (caller rp proc_nr : Z) (m : privctl) : K Z :=
  c <- get_proc caller ;;
  p <- get_proc rp ;;
  v <- mac_kernel_check MAC_PRIVCTL_SET_SYS (mac_privctl (p_endpoint c) (p_endpoint p) SYS_PRIV_SET_SYS) ;;
  if negb (v =? MAC_ALLOW) then k_audit_log AUDIT_MAC_VIOLATION EPERM (p_endpoint c) (p_endpoint p) ;; ret EPERM
  else if negb (RTS_ISSET p RTS_NO_PRIV) then ret EPERM
  else
    match priv_arg c m with
    | inl r => ret r
    | inr a =>
        i <- init_sys_priv caller rp proc_nr (asked_id a) ;;
        if negb (i =? OK) then ret i
        else
          r <- (match a with Some u => update_priv rp u | None => ret OK end) ;;
          if negb (r =? OK) then ret r
          else k_audit_log AUDIT_SYSCALL_AUTH OK (p_endpoint c) (p_endpoint p) ;; ret OK
    end.

(** Adding a resource, logged when it works. *)
Definition priv_add (caller rp : Z) (add : K Z) : K Z :=
  c <- get_proc caller ;;
  p <- get_proc rp ;;
  r <- add ;;
  (if r =? OK then k_audit_log AUDIT_PRIV_CHANGE OK (p_endpoint c) (p_endpoint p) ;; ret tt else ret tt) ;;
  ret r.

Definition priv_query_mem (rp : Z) (m : privctl) : K Z :=
  let addr := pc_phys_start m in
  let limit := u64 (addr + pc_phys_len m - 1) in
  if limit <? addr then ret EPERM
  else
    p <- get_proc rp ;;
    match p_priv p with
    | None => ret EPERM
    | Some id =>
        sp <- get_priv_id id ;;
        ret (if existsb (fun r => (mr_base r <=? addr) && (limit <=? mr_limit r)) (s_mem_tab sp) then OK else EPERM)
    end.

(** Letting the process run: it must wait for its privileges and have them. *)
Definition priv_allow (caller rp : Z) (yield : bool) : K Z :=
  c <- get_proc caller ;;
  p <- get_proc rp ;;
  bad <- orK (ret (negb (RTS_ISSET p RTS_NO_PRIV))) (pv <- priv_of p ;; ret (s_proc_nr pv =? NONE)) ;;
  if (bad : bool) then k_audit_log AUDIT_IPC_DENIED EPERM (p_endpoint c) (p_endpoint p) ;; ret EPERM
  else
    (if yield then RTS_SET caller RTS_NO_PRIV else ret tt) ;;
    RTS_UNSET rp RTS_NO_PRIV ;;
    k_audit_log AUDIT_PRIV_CHANGE OK (p_endpoint c) (p_endpoint p) ;;
    ret OK.

Definition priv_disallow (caller rp : Z) : K Z :=
  c <- get_proc caller ;;
  p <- get_proc rp ;;
  if RTS_ISSET p RTS_NO_PRIV then k_audit_log AUDIT_IPC_DENIED EPERM (p_endpoint c) (p_endpoint p) ;; ret EPERM
  else
    RTS_SET rp RTS_NO_PRIV ;;
    k_audit_log AUDIT_PRIV_CHANGE OK (p_endpoint c) (p_endpoint p) ;;
    ret OK.

Definition priv_set_user (caller rp : Z) : K Z :=
  c <- get_proc caller ;;
  p <- get_proc rp ;;
  if negb (RTS_ISSET p RTS_NO_PRIV) then ret EPERM
  else
    upd_proc rp (set_p_priv (Some USER_PRIV_ID)) ;;
    upd_priv rp (fun pv => set_s_cap_bound CAP_BASE (set_s_cap_permitted CAP_BASE (set_s_cap_effective CAP_BASE pv))) ;;
    k_audit_log AUDIT_SYSCALL_AUTH OK (p_endpoint c) (p_endpoint p) ;;
    ret OK.

Definition priv_update_sys (caller rp : Z) (m : privctl) : K Z :=
  c <- get_proc caller ;;
  p <- get_proc rp ;;
  if pc_arg_ptr m =? 0 then ret EINVAL
  else match copy_priv (p_endpoint c) (pc_arg_ptr m) with
       | inl r => ret r
       | inr u =>
           r <- update_priv rp u ;;
           if negb (r =? OK) then ret r
           else k_audit_log AUDIT_PRIV_CHANGE OK (p_endpoint c) (p_endpoint p) ;; ret OK
       end.

(** Adding needs a process that does not wait for its privileges. *)
Definition unless_no_priv (rp : Z) (k : K Z) : K Z :=
  p <- get_proc rp ;; if RTS_ISSET p RTS_NO_PRIV then ret EPERM else k.

Definition privctl_request (caller rp : Z) (m : privctl) : K Z :=
  c <- get_proc caller ;;
  let req := pc_request m in
  let e := p_endpoint c in
  if req =? SYS_PRIV_ALLOW then priv_allow caller rp false
  else if req =? SYS_PRIV_YIELD then priv_allow caller rp true
  else if req =? SYS_PRIV_DISALLOW then priv_disallow caller rp
  else if req =? SYS_PRIV_CLEAR_IPC_REFS then clear_ipc_refs rp EDEADSRCDST ;; ret OK
  else if req =? SYS_PRIV_SET_SYS then priv_set_sys caller rp rp m
  else if req =? SYS_PRIV_SET_USER then priv_set_user caller rp
  else if req =? SYS_PRIV_ADD_IO then
    unless_no_priv rp (priv_add caller rp
      (priv_add_io rp (match copy_io e (pc_arg_ptr m) with inr r => r | inl _ => stack_io end)))
  else if req =? SYS_PRIV_ADD_MEM then
    unless_no_priv rp (match copy_mem e (pc_arg_ptr m) with
      | inl r => ret r
      | inr x => priv_add caller rp (priv_add_mem rp x)
      end)
  else if req =? SYS_PRIV_ADD_IRQ then
    unless_no_priv rp (priv_add caller rp
      (priv_add_irq rp (match copy_irq e (pc_arg_ptr m) with inr r => r | inl _ => stack_irq end)))
  else if req =? SYS_PRIV_QUERY_MEM then priv_query_mem rp m
  else if req =? SYS_PRIV_UPDATE_SYS then priv_update_sys caller rp m
  else ret EINVAL.

Definition do_privctl (caller : Z) (m : privctl) : K Z :=
  cpv <- priv_at caller ;;
  c <- get_proc caller ;;
  if negb (has (s_flags cpv) SYS_PROC) then k_audit_log AUDIT_IPC_DENIED EPERM (p_endpoint c) NONE ;; ret EPERM
  else
    r <- isokendpt (if pc_endpt m =? SELF then p_endpoint c else pc_endpt m) ;;
    match r with
    | None => if pc_endpt m =? SELF then halt Panic else ret EINVAL
    | Some proc_nr => privctl_request caller proc_nr m
    end.
End Copies.
