(* ===== verification/Irq.v ===== *)
(** * Hardware interrupts (kernel/interrupt.c, msix.c, irq_thread.c, do_irqctl.c, do_clear.c)

    Drivers attach hooks of the table [irq_hooks] to interrupt lines; the hooks
    of a line are linked through [next] from [irq_handlers].  Every hook of a
    line has an id, a bit of its own; [irq_actids] holds the ids of the hooks
    whose driver has not yet enabled the line again, and the line is masked at
    the interrupt controller as long as there is one.  The controller itself is
    the map [hw_masked]; acknowledging an interrupt has no effect on the model.

    Ids are kept as their 32-bit patterns ([1 << 31] is negative as a C [int]). *)

From S2P Require Import Prelude Monad Timers Endpoint AuditRing DrvQueue Chain Kernel Sched Init Ipc System Clock.

Definition IRQ_SETPOLICY : Z := 1.
Definition IRQ_RMPOLICY : Z := 2.
Definition IRQ_ENABLE : Z := 3.
Definition IRQ_DISABLE : Z := 4.
Definition IRQ_MSIX_ALLOC : Z := 5.
Definition IRQ_MSIX_FREE : Z := 6.
Definition IRQ_MSIX_SETPOLICY : Z := 7.
Definition IRQ_DRVQUEUE_SETUP : Z := 8.
Definition IRQ_THREAD_SET_PRIORITY : Z := 9.
Definition IRQ_THREAD_SET_MMIO : Z := 10.
Definition IRQ_REENABLE : Z := 0x001.
Definition NR_MSIX_IRQS : Z := 16.
Definition MSIX_IRQ_BASE : Z := 48.
Definition IRQ_THREAD_BASE : Z := 12.
Definition NR_IRQ_THREADS : Z := 64.
Definition IRQ_PRIO_MIN : Z := 1.
Definition IRQ_PRIO_MAX : Z := 99.
Definition IRQ_THREAD_MMIO_BASE : Z := 0xFFFFF000.
Definition IRQ_THREAD_MMIO_PAGES : Z := 4.
Definition X86_64_PAGE_SIZE : Z := 4096.
Definition CSK_T : Z := Z.shiftl 1 RECEIVE.

Definition IS_MSIX_IRQ (irq : Z) : bool := (MSIX_IRQ_BASE <=? irq) && (irq <? MSIX_IRQ_BASE + NR_MSIX_IRQS).
Definition MSIX_IRQ (idx : Z) : Z := MSIX_IRQ_BASE + idx.

(** ** The tables *)
Definition get_hook (h : Z) : K irq_hook := fun s =>
  match irq_hooks s !! h with Some k => Done k s | None => Stop BadAccess end.
Definition upd_hook (h : Z) (f : irq_hook -> irq_hook) : K unit := fun s =>
  match irq_hooks s !! h with
  | Some k => Done tt (set_irq_hooks (<[h := f k]> (irq_hooks s)) s)
  | None => Stop BadAccess
  end.
Definition get_act (irq : Z) : K Z := fun s =>
  match irq_actids s !! irq with Some a => Done a s | None => Stop BadAccess end.
Definition put_act (irq a : Z) : K unit := modify (fun s => set_irq_actids (<[irq := a]> (irq_actids s)) s).

(** [irq_hook_t **line]: the head of a line or the link of a hook. *)
Inductive irq_loc := IrqHead (irq : Z) | IrqNext (h : Z).
Definition read_irq (x : irq_loc) : K (option Z) :=
  match x with
  | IrqHead irq => gets (fun s => irq_handlers s !! irq)
  | IrqNext h => k <- get_hook h ;; ret (h_next k)
  end.
Definition write_irq (x : irq_loc) (v : option Z) : K unit :=
  match x with
  | IrqHead irq => modify (fun s => set_irq_handlers (partial_alter (fun _ => v) irq (irq_handlers s)) s)
  | IrqNext h => upd_hook h (set_h_next v)
  end.

(** The interrupt controller. *)
Definition hw_intr_mask (irq : Z) : K unit := modify (fun s => set_hw_masked (<[irq := true]> (hw_masked s)) s).
Definition hw_intr_unmask (irq : Z) : K unit := modify (fun s => set_hw_masked (<[irq := false]> (hw_masked s)) s).

(** No line has more hooks than the table. *)
Definition line_fuel : nat := S (Z.to_nat NR_IRQ_HOOKS).

(** ** [interrupt.c] *)

(** The end of the line and the ids in use on it, or [None] when the hook is
    already there. *)
Fixpoint line_end (fuel : nat) (hook : Z) (line : irq_loc) (bitmap : Z) : K (option (irq_loc * Z)) :=
  match fuel with
  | O => halt NoFuel
  | S fuel' =>
      x <- read_irq line ;;
      match x with
      | None => ret (Some (line, bitmap))
      | Some h =>
          if hook =? h then ret None
          else k <- get_hook h ;; line_end fuel' hook (IrqNext h) (Z.lor bitmap (h_id k))
      end
  end.

(** The lowest id not in use: [for (id = 1; id != 0; id <<= 1)]; 0 when all 32
    are. *)
Fixpoint free_id (fuel : nat) (id bitmap : Z) : Z :=
  match fuel with
  | O => 0
  | S fuel' =>
      if id =? 0 then 0
      else if has bitmap id then free_id fuel' (u32 (Z.shiftl id 1)) bitmap
      else id
  end.

(** What [put_irq_handler] and [put_msix_handler] share: link the hook at the
    end of its line, under a free id.  Answers whether it was not there yet. *)
Definition link_hook (hook irq : Z) : K bool :=
  (if (irq <? 0) || (NR_IRQ_VECTORS <=? irq) then halt Panic else ret tt) ;;
  r <- line_end line_fuel hook (IrqHead irq) 0 ;;
  match r with
  | None => ret false
  | Some (line, bitmap) =>
      let id := free_id 33 1 bitmap in
      (if id =? 0 then halt Panic else ret tt) ;;
      upd_hook hook (fun k => set_h_id id (set_h_irq irq (set_h_next None k))) ;;
      write_irq line (Some hook) ;;
      ret true
  end.

(** [if ((irq_actids[hook->irq] &= ~hook->id) == 0) hw_intr_unmask(hook->irq)]. *)
Definition enable_irq (hook : Z) : K unit :=
  k <- get_hook hook ;;
  a <- get_act (h_irq k) ;;
  put_act (h_irq k) (flag_clr a (h_id k)) ;;
  if flag_clr a (h_id k) =? 0 then hw_intr_unmask (h_irq k) else ret tt.

Definition put_irq_handler (hook irq : Z) : K unit :=
  linked <- link_hook hook irq ;;
  if (linked : bool) then enable_irq hook else ret tt.

Definition put_msix_handler (hook irq : Z) : K unit :=
  (if negb (IS_MSIX_IRQ irq) then halt Panic else ret tt) ;;
  link_hook hook irq ;; ret tt.

Fixpoint rm_loop (fuel : nat) (irq id : Z) (line : irq_loc) : K unit :=
  match fuel with
  | O => halt NoFuel
  | S fuel' =>
      x <- read_irq line ;;
      match x with
      | None => ret tt
      | Some h =>
          k <- get_hook h ;;
          if h_id k =? id then
            write_irq line (h_next k) ;;
            a <- get_act irq ;;
            (if has a id then put_act irq (flag_clr a id) else ret tt) ;;
            rm_loop fuel' irq id line
          else rm_loop fuel' irq id (IrqNext h)
      end
  end.

Definition rm_irq_handler (hook : Z) : K unit :=
  k <- get_hook hook ;;
  let irq := h_irq k in
  (if (irq <? 0) || (NR_IRQ_VECTORS <=? irq) then halt Panic else ret tt) ;;
  rm_loop line_fuel irq (h_id k) (IrqHead irq) ;;
  x <- read_irq (IrqHead irq) ;;
  match x with
  | None => hw_intr_mask irq
  | Some _ => a <- get_act irq ;; if a =? 0 then hw_intr_unmask irq else ret tt
  end.

(** The result is false when the hook was already disabled. *)
Definition disable_irq (hook : Z) : K bool :=
  k <- get_hook hook ;;
  a <- get_act (h_irq k) ;;
  if has a (h_id k) then ret false
  else put_act (h_irq k) (flag_set a (h_id k)) ;; hw_intr_mask (h_irq k) ;; ret true.

(** ** [msix.c]: one bit per vector in a single word *)
Fixpoint msix_find (n : nat) (i : Z) : K Z :=
  match n with
  | O => ret (-1)
  | S n' =>
      b <- gets msix_bitmap ;;
      if negb (has b (Z.shiftl 1 i)) then modify (set_msix_bitmap (Z.lor b (Z.shiftl 1 i))) ;; ret (MSIX_IRQ i)
      else msix_find n' (i + 1)
  end.
Definition msix_alloc_irq : K Z := msix_find (Z.to_nat NR_MSIX_IRQS) 0.

Definition msix_free_irq (irq : Z) : K unit :=
  let idx := irq - MSIX_IRQ_BASE in
  if (idx <? 0) || (NR_MSIX_IRQS <=? idx) then ret tt
  else modify (fun s => set_msix_bitmap (flag_clr (msix_bitmap s) (Z.shiftl 1 idx)) s).

Definition msix_is_allocated (irq : Z) : K bool :=
  let idx := irq - MSIX_IRQ_BASE in
  if (idx <? 0) || (NR_MSIX_IRQS <=? idx) then ret false
  else b <- gets msix_bitmap ;; ret (Z.testbit b idx).

(** ** [irq_thread.c] *)
Definition get_thread (irq : Z) : K irq_thread := fun s =>
  match irq_threads s !! irq with Some t => Done t s | None => Stop BadAccess end.
Definition upd_thread (irq : Z) (f : irq_thread -> irq_thread) : K unit := fun s =>
  match irq_threads s !! irq with
  | Some t => Done tt (set_irq_threads (<[irq := f t]> (irq_threads s)) s)
  | None => Stop BadAccess
  end.
Definition bad_thread (irq : Z) : bool := (irq <? 0) || (NR_IRQ_THREADS <=? irq).

(** [irq_thread_register] with [irq_thread_device_handler]. *)
Definition irq_thread_register (irq : Z) : K Z :=
  if bad_thread irq then ret EINVAL
  else upd_thread irq (fun t => set_it_registered 1 (set_it_handler true t)) ;; ret OK.

Definition irq_thread_signal (irq : Z) : K unit :=
  if bad_thread irq then ret tt
  else
    it <- get_thread irq ;;
    if (it_registered it =? 0) || (it_endpoint it =? NONE) then ret tt
    else
      tsc <- gets k_tsc ;;
      upd_thread irq (set_it_signal_tsc tsc) ;;
      mini_notify HARDWARE (it_endpoint it) ;;
      ret tt.

Definition irq_thread_set_priority (irq prio : Z) : K Z :=
  if bad_thread irq then ret EINVAL
  else if (prio <? IRQ_PRIO_MIN) || (IRQ_PRIO_MAX <? prio) then ret EINVAL
  else
    it <- get_thread irq ;;
    match it_proc it with
    | None => ret ESRCH
    | Some rp =>
        upd_thread irq (set_it_rt_prio prio) ;;
        sched_rt_set_class rp SCHED_FIFO prio 0
    end.

(** The mapping of a page of device memory, with the page table it may need,
    belongs to the architecture: its result is an argument.  That of the removal
    is ignored. *)
Section Mmio.
Context (pg_remap_page : Z -> Z -> Z).

Definition irq_thread_set_mmio (irq phys_addr : Z) : K Z :=
  if bad_thread irq then ret EINVAL
  else
    let page_idx := irq mod IRQ_THREAD_MMIO_PAGES in
    let vaddr := IRQ_THREAD_MMIO_BASE + page_idx * X86_64_PAGE_SIZE in
    let r := pg_remap_page vaddr phys_addr in
    if negb (r =? OK) then ret r
    else modify (fun s => set_irq_mmio (<[irq := mkMmio 1 phys_addr vaddr]> (irq_mmio s)) s) ;; ret OK.

Definition irq_thread_unregister (irq : Z) : K Z :=
  if bad_thread irq then ret EINVAL
  else
    upd_thread irq (fun t => set_it_registered 0 (set_it_handler false t)) ;;
    s <- get ;;
    match irq_mmio s !! irq with
    | None => halt BadAccess
    | Some m =>
        (if negb (mm_valid m =? 0) then modify (set_irq_mmio (<[irq := mkMmio 0 0 0]> (irq_mmio s))) else ret tt) ;;
        ret OK
    end.

(** ** Delivery *)

(** [1 << notify_id] for an [int]: shifting out of the word is undefined. *)
Definition int_bit (notify_id : Z) : K Z :=
  if notify_id <? 31 then ret (Z.shiftl 1 notify_id)
  else if notify_id =? 31 then ret (u64 (- 2 ^ 31))
  else halt BadAccess.

(** [generic_handler]; the entropy it gathers is not modelled. *)
Definition generic_handler (hook : Z) : K bool :=
  k <- get_hook hook ;;
  r <- isokendpt (h_proc_nr_e k) ;;
  match r with
  | None => halt Panic
  | Some proc_nr =>
      b <- int_bit (h_notify_id k) ;;
      upd_priv proc_nr (fun pv => set_s_int_pending (Z.lor (s_int_pending pv) b) pv) ;;
      mini_notify HARDWARE (h_proc_nr_e k) ;;
      ret (has (h_policy k) IRQ_REENABLE)
  end.

Fixpoint handle_loop (fuel : nat) (irq : Z) (hook : option Z) : K unit :=
  match fuel with
  | O => halt NoFuel
  | S fuel' =>
      match hook with
      | None => ret tt
      | Some h =>
          k <- get_hook h ;;
          a <- get_act irq ;;
          put_act irq (flag_set a (h_id k)) ;;
          reenable <- generic_handler h ;;
          k <- get_hook h ;;
          (if (reenable : bool) then a <- get_act (h_irq k) ;; put_act (h_irq k) (flag_clr a (h_id k)) else ret tt) ;;
          k <- get_hook h ;;
          handle_loop fuel' irq (h_next k)
      end
  end.

Definition irq_handle (irq : Z) : K unit :=
  assert ((0 <=? irq) && (irq <? NR_IRQ_VECTORS)) ;;
  hw_intr_mask irq ;;
  hook <- read_irq (IrqHead irq) ;;
  match hook with
  | None => ret tt
  | Some _ =>
      handle_loop line_fuel irq hook ;;
      irq_thread_signal irq ;;
      a <- get_act irq ;;
      if a =? 0 then hw_intr_unmask irq else ret tt
  end.

(** ** [do_irqctl] *)
Record irqctl := mkIrqctl { iq_request : Z; iq_vector : Z; iq_policy : Z; iq_hook_id : Z }.

(** The first hook of the table that satisfies a test. *)
Fixpoint find_hook (test : irq_hook -> bool) (l : list Z) : K (option Z) :=
  match l with
  | [] => ret None
  | h :: l' => k <- get_hook h ;; if test k then ret (Some h) else find_hook test l'
  end.

(** The hook for a policy: the caller's hook with this id, taken off its line,
    or a free one. *)
Definition policy_hook (e notify_id : Z) : K (option Z) :=
  old <- find_hook (fun k => (h_proc_nr_e k =? e) && (h_notify_id k =? notify_id)) irq_hook_table ;;
  match old with
  | Some h => rm_irq_handler h ;; ret (Some h)
  | None => find_hook (fun k => h_proc_nr_e k =? NONE) irq_hook_table
  end.

Definition set_policy_of (e notify_id policy : Z) (k : irq_hook) : irq_hook :=
  set_h_policy (u64 policy) (set_h_notify_id notify_id (set_h_proc_nr_e e k)).

(** [notify_id > CHAR_BIT * sizeof(irq_id_t) - 1], compared unsigned. *)
Definition bad_notify_id (n : Z) : bool := 63 <? u64 n.

Definition irq_setpolicy (caller : Z) (m : irqctl) : K (Z * option Z) :=
  let irq_vec := iq_vector m in
  if (irq_vec <? 0) || (NR_IRQ_VECTORS <=? irq_vec) then ret (EINVAL, None)
  else
    c <- get_proc caller ;;
    match p_priv c with
    | None => ret (EPERM, None)
    | Some id =>
        pv <- get_priv_id id ;;
        if has (s_flags pv) CHECK_IRQ && negb (bool_decide (irq_vec ∈ s_irq_tab pv)) then ret (EPERM, None)
        else if bad_notify_id (iq_hook_id m) then ret (EINVAL, None)
        else
          h <- policy_hook (p_endpoint c) (iq_hook_id m) ;;
          match h with
          | None => ret (ENOSPC, None)
          | Some h =>
              upd_hook h (set_policy_of (p_endpoint c) (iq_hook_id m) (iq_policy m)) ;;
              put_irq_handler h irq_vec ;;
              (if irq_vec <? NR_IRQ_THREADS
               then r <- irq_thread_register irq_vec ;; ret (r, Some (h + 1))
               else ret (OK, Some (h + 1)))
          end
    end.

Definition irq_msix_setpolicy (caller : Z) (m : irqctl) : K (Z * option Z) :=
  let irq_vec := iq_vector m in
  alloc <- msix_is_allocated irq_vec ;;
  if negb (IS_MSIX_IRQ irq_vec) || negb alloc then ret (EINVAL, None)
  else
    c <- get_proc caller ;;
    match p_priv c with
    | None => ret (EPERM, None)
    | Some _ =>
        if bad_notify_id (iq_hook_id m) then ret (EINVAL, None)
        else
          h <- policy_hook (p_endpoint c) (iq_hook_id m) ;;
          match h with
          | None => ret (ENOSPC, None)
          | Some h =>
              upd_hook h (set_policy_of (p_endpoint c) (iq_hook_id m) (iq_policy m)) ;;
              put_msix_handler h irq_vec ;;
              ret (OK, Some (h + 1))
          end
    end.

(** The checks of a request about an existing hook. *)
Definition own_hook (e h : Z) (act : K (Z * option Z)) : K (Z * option Z) :=
  if (NR_IRQ_HOOKS <=? h) || (h <? 0) then ret (EINVAL, None)
  else
    k <- get_hook h ;;
    if h_proc_nr_e k =? NONE then ret (EINVAL, None)
    else if negb (h_proc_nr_e k =? e) then ret (EPERM, None)
    else act.

Definition irq_rmpolicy (h : Z) : K (Z * option Z) :=
  rm_irq_handler h ;;
  upd_hook h (set_h_proc_nr_e NONE) ;;
  k <- get_hook h ;;
  (if (0 <=? h_irq k) && (h_irq k <? NR_IRQ_THREADS) then irq_thread_unregister (h_irq k) ;; ret tt else ret tt) ;;
  ret (OK, None).

(** [drvqueue_attach] (kernel/drvqueue.c), on a single processor. *)
Definition drvqueue_attach (e cpu : Z) : K Z :=
  if CONFIG_MAX_CPUS <=? cpu then ret EINVAL
  else
    r <- isokendpt e ;;
    match r with
    | None => ret EINVAL
    | Some n => upd_proc n (set_p_drvqueue (Some cpu)) ;; ret OK
    end.

Definition do_irqctl (caller : Z) (m : irqctl) : K (Z * option Z) :=
  c <- get_proc caller ;;
  let e := p_endpoint c in
  let h := iq_hook_id m - 1 in
  let irq_vec := iq_vector m in
  let req := iq_request m in
  if req =? IRQ_ENABLE then own_hook e h (enable_irq h ;; ret (OK, None))
  else if req =? IRQ_DISABLE then own_hook e h (disable_irq h ;; ret (OK, None))
  else if req =? IRQ_SETPOLICY then irq_setpolicy caller m
  else if req =? IRQ_RMPOLICY then own_hook e h (irq_rmpolicy h)
  else if req =? IRQ_MSIX_ALLOC then
    irq <- msix_alloc_irq ;;
    if irq <? 0 then ret (ENOSPC, None) else ret (OK, Some (irq + 1))
  else if req =? IRQ_MSIX_FREE then
    alloc <- msix_is_allocated irq_vec ;;
    if negb (IS_MSIX_IRQ irq_vec) || negb alloc then ret (EINVAL, None)
    else msix_free_irq irq_vec ;; ret (OK, None)
  else if req =? IRQ_MSIX_SETPOLICY then irq_msix_setpolicy caller m
  else if req =? IRQ_THREAD_SET_PRIORITY then
    if bad_thread irq_vec then ret (EINVAL, None)
    else if (iq_policy m <? 1) || (99 <? iq_policy m) then ret (EINVAL, None)
    else r <- irq_thread_set_priority irq_vec (iq_policy m) ;; ret (r, None)
  else if req =? IRQ_THREAD_SET_MMIO then
    if bad_thread irq_vec then ret (EINVAL, None)
    else if u32 (iq_policy m) =? 0 then ret (EINVAL, None)
    else r <- irq_thread_set_mmio irq_vec (u32 (iq_policy m)) ;; ret (r, None)
  else if req =? IRQ_DRVQUEUE_SETUP then
    r <- drvqueue_attach e (u32 irq_vec) ;; ret (r, None)
  else ret (EINVAL, None).
End Mmio.

(** ** [do_clear]: the end of a process *)

(** One entry of the hook table: release it when its owner goes. *)
Definition release_hook (e h : Z) : K unit :=
  k <- get_hook h ;;
  if h_proc_nr_e k =? e then
    alloc <- msix_is_allocated (h_irq k) ;;
    (if IS_MSIX_IRQ (h_irq k) && alloc then msix_free_irq (h_irq k) else ret tt) ;;
    rm_irq_handler h ;;
    upd_hook h (set_h_proc_nr_e NONE)
  else ret tt.

(** The address space and the FPU of the process are the architecture's. *)
Definition do_clear (caller endpt : Z) : K Z :=
  r <- isokendpt endpt ;;
  match r with
  | None => ret EINVAL
  | Some exit_p =>
      rc <- get_proc exit_p ;;
      if isemptyp rc then ret OK
      else
        for_each irq_hook_table (release_hook (p_endpoint rc)) ;;
        clear_endpoint exit_p ;;
        (match p_priv rc with
         | None => halt BadAccess
         | Some tp => reset_kernel_timer tp
         end) ;;
        RTS_SETFLAGS exit_p RTS_SLOT_FREE ;;
        upd_proc exit_p (fun p => set_p_misc_flags (flag_clr (p_misc_flags p) MF_FPU_INITIALIZED) p) ;;
        pv <- priv_at exit_p ;;
        (if has (s_flags pv) SYS_PROC then upd_priv exit_p (set_s_proc_nr NONE) else ret tt) ;;
        ret OK
  end.
