(* ===== verification/IrqInv.v ===== *)
(** * The interrupt tables: invariant and operations

    The four interrupt tables as one value ([irqs]), the invariant that ties
    them together, and what linking, unlinking, enabling and disabling a hook
    do to them:
    - the hooks of a line form a chain, and a hook is in use exactly when it is
      on the line it names;
    - the hooks of a line have different ids, each a single bit;
    - only hooks of the line are active on it;
    - a line of the interrupt controller that has hooks is masked exactly while
      one of them is active. *)

From S2P Require Import Prelude Monad Timers Endpoint AuditRing DrvQueue Chain Kernel Sched Init Ipc System Clock Irq.

(** ** The tables of a state *)
Record irqs := mkIrqs {
  q_hooks : gmap Z irq_hook;
  q_heads : gmap Z Z;
  q_act : gmap Z Z;
  q_mask : gmap Z bool
}.
Definition irqs_of (s : kstate) : irqs := mkIrqs (irq_hooks s) (irq_handlers s) (irq_actids s) (hw_masked s).
Definition with_irqs (t : irqs) (s : kstate) : kstate :=
  set_hw_masked (q_mask t) (set_irq_actids (q_act t) (set_irq_handlers (q_heads t) (set_irq_hooks (q_hooks t) s))).

Lemma with_irqs_of s : with_irqs (irqs_of s) s = s.
Proof. by destruct s. Qed.
Lemma with_irqs_twice t t' s : with_irqs t (with_irqs t' s) = with_irqs t s.
Proof. done. Qed.
Lemma irqs_of_with t s : irqs_of (with_irqs t s) = t.
Proof. by destruct t. Qed.

Definition put_hooks (H : gmap Z irq_hook) (t : irqs) : irqs := mkIrqs H (q_heads t) (q_act t) (q_mask t).
Definition put_heads (H : gmap Z Z) (t : irqs) : irqs := mkIrqs (q_hooks t) H (q_act t) (q_mask t).
Definition put_acts (A : gmap Z Z) (t : irqs) : irqs := mkIrqs (q_hooks t) (q_heads t) A (q_mask t).
Definition put_masks (K : gmap Z bool) (t : irqs) : irqs := mkIrqs (q_hooks t) (q_heads t) (q_act t) K.

Definition qnext (t : irqs) (h : Z) : option Z := match q_hooks t !! h with Some k => h_next k | None => None end.

(** What a hook says, apart from its link. *)
Definition hdata (t : irqs) : gmap Z irq_hook := set_h_next None <$> q_hooks t.

Lemma hdata_lookup t h k : q_hooks t !! h = Some k -> hdata t !! h = Some (set_h_next None k).
Proof. intros H. unfold hdata. by rewrite lookup_fmap, H. Qed.
Lemma hdata_inv t h d : hdata t !! h = Some d -> exists k, q_hooks t !! h = Some k /\ d = set_h_next None k.
Proof. unfold hdata. rewrite lookup_fmap. intros (k & -> & H)%fmap_Some. by exists k. Qed.

Implicit Types (D : gmap Z irq_hook) (A : gmap Z Z) (L : Z -> list Z) (x : option Z).

Definition vector (irq : Z) : Prop := 0 <= irq < NR_IRQ_VECTORS.

(** ** The invariant

    [x] is a hook in transit: off all lines, whatever it says. *)
Record hooks_ok D L x : Prop := {
  ho_tab : forall h, is_Some (D !! h) <-> 0 <= h < NR_IRQ_HOOKS;
  ho_on : forall irq h, vector irq -> h ∈ L irq -> x <> Some h /\
    exists d j, D !! h = Some d /\ h_irq d = irq /\ h_proc_nr_e d <> NONE /\ 0 <= j < 32 /\ h_id d = 2 ^ j;
  ho_used : forall h d, D !! h = Some d -> h_proc_nr_e d <> NONE -> x <> Some h ->
    vector (h_irq d) /\ h ∈ L (h_irq d) /\ 0 <= h_notify_id d < 64;
  ho_ids : forall irq h h' d d', vector irq -> h ∈ L irq -> h' ∈ L irq -> D !! h = Some d -> D !! h' = Some d' ->
    h_id d = h_id d' -> h = h';
  ho_own : forall h h' d d', D !! h = Some d -> D !! h' = Some d' -> x <> Some h -> x <> Some h' ->
    h_proc_nr_e d <> NONE -> h_proc_nr_e d = h_proc_nr_e d' -> h_notify_id d = h_notify_id d' -> h = h'
}.

(** The hook of a line with a given bit. *)
Definition has_bit D (l : list Z) (j : Z) : Prop := exists h d, h ∈ l /\ D !! h = Some d /\ h_id d = 2 ^ j.

Record acts_ok D A (Mk : gmap Z bool) L : Prop := {
  ac_some : forall irq, vector irq -> exists a, A !! irq = Some a /\ 0 <= a;
  ac_bits : forall irq a j, vector irq -> A !! irq = Some a -> 0 <= j -> Z.testbit a j = true -> has_bit D (L irq) j;
  ac_mask : forall irq a, vector irq -> IS_MSIX_IRQ irq = false -> L irq <> [] -> A !! irq = Some a ->
    Mk !! irq = Some (negb (a =? 0))
}.

Definition lines (t : irqs) L : Prop := forall irq, vector irq -> chain (qnext t) (q_heads t !! irq) (L irq).

Record irqs_ok (t : irqs) L x : Prop := {
  iq_lines : lines t L;
  iq_hooks : hooks_ok (hdata t) L x;
  iq_acts : acts_ok (hdata t) (q_act t) (q_mask t) L
}.

(** A function changed at one line. *)
Definition at_line L (irq : Z) (l : list Z) : Z -> list Z := fun i => if i =? irq then l else L i.
Lemma at_line_same L irq l : at_line L irq l irq = l.
Proof. unfold at_line. by rewrite Z.eqb_refl. Qed.
Lemma at_line_other L irq l i : i <> irq -> at_line L irq l i = L i.
Proof. intros. unfold at_line. by rewrite (proj2 (Z.eqb_neq _ _)). Qed.

(** A hook is on one line only. *)
Lemma on_one_line D L x irq irq' h : hooks_ok D L x -> vector irq -> vector irq' -> h ∈ L irq -> h ∈ L irq' -> irq = irq'.
Proof.
  intros Ho Hi Hi' H H'. destruct (ho_on _ _ _ Ho irq h Hi H) as (_ & d & _ & Hd & <- & _).
  destruct (ho_on _ _ _ Ho irq' h Hi' H') as (_ & d' & _ & Hd' & <- & _). congruence.
Qed.

Lemma line_length t L x irq : irqs_ok t L x -> vector irq -> (length (L irq) <= Z.to_nat NR_IRQ_HOOKS)%nat.
Proof.
  intros H Hi. pose proof (chain_NoDup _ _ _ (iq_lines _ _ _ H irq Hi)) as Hnd.
  assert (length (L irq) <= length (seqZ 0 NR_IRQ_HOOKS))%nat as Hl.
  { apply submseteq_length, NoDup_submseteq; [done|]. intros h Hh.
    destruct (ho_on _ _ _ (iq_hooks _ _ _ H) irq h Hi Hh) as (_ & d & _ & Hd & _).
    apply elem_of_seqZ. rewrite Z.add_0_l. apply (ho_tab _ _ _ (iq_hooks _ _ _ H)). by exists d. }
  by rewrite length_seqZ in Hl.
Qed.

(** ** Reading and writing a line *)
Definition loc_of (irq : Z) (pre : list Z) : irq_loc :=
  match last pre with None => IrqHead irq | Some y => IrqNext y end.

Definition write_line (irq : Z) (pre : list Z) (v : option Z) (t : irqs) : irqs :=
  match last pre with
  | None => put_heads (partial_alter (fun _ => v) irq (q_heads t)) t
  | Some y => match q_hooks t !! y with
              | Some k => put_hooks (<[y := set_h_next v k]> (q_hooks t)) t
              | None => t
              end
  end.

Section Walk.
Context (s : kstate).

Lemma get_hook_run t h k : q_hooks t !! h = Some k -> get_hook h (with_irqs t s) = Done k (with_irqs t s).
Proof. intros H. unfold get_hook. change (irq_hooks (with_irqs t s)) with (q_hooks t). by rewrite H. Qed.

Lemma upd_hook_run t h k f :
  q_hooks t !! h = Some k ->
  upd_hook h f (with_irqs t s) = Done tt (with_irqs (put_hooks (<[h := f k]> (q_hooks t)) t) s).
Proof. intros H. unfold upd_hook. change (irq_hooks (with_irqs t s)) with (q_hooks t). by rewrite H. Qed.

Lemma get_act_run t irq a : q_act t !! irq = Some a -> get_act irq (with_irqs t s) = Done a (with_irqs t s).
Proof. intros H. unfold get_act. change (irq_actids (with_irqs t s)) with (q_act t). by rewrite H. Qed.

Lemma put_act_run t irq a : put_act irq a (with_irqs t s) = Done tt (with_irqs (put_acts (<[irq := a]> (q_act t)) t) s).
Proof. done. Qed.

Lemma read_line t irq pre suf :
  chain (qnext t) (q_heads t !! irq) (pre ++ suf) -> (forall y, y ∈ pre -> is_Some (q_hooks t !! y)) ->
  read_irq (loc_of irq pre) (with_irqs t s) = Done (head suf) (with_irqs t s).
Proof.
  intros Hc Hs. pose proof (chain_peek _ _ _ _ Hc) as Hp. unfold peek in Hp. unfold loc_of.
  destruct (last pre) as [y|] eqn:Hl; cbn [read_irq].
  - destruct (Hs y) as [k Hk]; [apply last_Some in Hl as (l & ->); set_solver|].
    rewrite (bind_done _ _ _ _ _ (get_hook_run t y k Hk)). unfold qnext in Hp. rewrite Hk in Hp. by rewrite <- Hp.
  - rewrite <- Hp. done.
Qed.

Lemma write_line_run t irq pre v :
  (forall y, y ∈ pre -> is_Some (q_hooks t !! y)) ->
  write_irq (loc_of irq pre) v (with_irqs t s) = Done tt (with_irqs (write_line irq pre v t) s).
Proof.
  intros Hs. unfold loc_of, write_line. destruct (last pre) as [y|] eqn:Hl; cbn [write_irq]; [|done].
  destruct (Hs y) as [k Hk]; [apply last_Some in Hl as (l & ->); set_solver|].
  rewrite (upd_hook_run t y k _ Hk). by rewrite Hk.
Qed.
End Walk.

Lemma write_line_data irq pre v t : hdata (write_line irq pre v t) = hdata t.
Proof.
  unfold write_line. destruct (last pre) as [y|]; [|done]. destruct (q_hooks t !! y) as [k|] eqn:Hk; [|done].
  unfold hdata. cbn. rewrite fmap_insert. apply insert_id. rewrite lookup_fmap, Hk. done.
Qed.
Lemma write_line_rest irq pre v t : q_act (write_line irq pre v t) = q_act t /\ q_mask (write_line irq pre v t) = q_mask t.
Proof. unfold write_line. destruct (last pre); [|done]. by destruct (q_hooks t !! _). Qed.

Lemma hook_some t L x irq y : irqs_ok t L x -> vector irq -> y ∈ L irq -> is_Some (q_hooks t !! y).
Proof.
  intros H Hi Hy. destruct (ho_on _ _ _ (iq_hooks _ _ _ H) irq y Hi Hy) as (_ & d & _ & Hd & _).
  destruct (hdata_inv _ _ _ Hd) as (k & Hk & _). by exists k.
Qed.

(** What a write to a line does to the chains. *)
Lemma write_line_next irq pre v t h :
  (forall y, y ∈ pre -> is_Some (q_hooks t !! y)) ->
  qnext (write_line irq pre v t) h = relink (qnext t) pre v h.
Proof.
  intros Hs. unfold write_line, relink. destruct (last pre) as [y|] eqn:Hl; [|done].
  destruct (Hs y) as [k Hk]; [apply last_Some in Hl as (l & ->); set_solver|]. rewrite Hk. unfold qnext, upd. cbn.
  destruct (Z.eqb_spec h y) as [->|Hne]; [by rewrite lookup_insert_eq|by rewrite lookup_insert_ne].
Qed.

Lemma write_line_head irq pre v t i :
  q_heads (write_line irq pre v t) !! i = if i =? irq then rehead (q_heads t !! irq) pre v else q_heads t !! i.
Proof.
  unfold write_line, rehead. destruct (last pre) as [y|].
  - assert (q_heads (match q_hooks t !! y with Some k => put_hooks (<[y:=set_h_next v k]> (q_hooks t)) t | None => t end)
      = q_heads t) as -> by (by destruct (q_hooks t !! y)).
    by destruct (Z.eqb_spec i irq) as [->|].
  - cbn. destruct (Z.eqb_spec i irq) as [->|Hne]; [apply lookup_partial_alter_eq|by rewrite lookup_partial_alter_ne].
Qed.

Lemma relink_other next pre v h : h ∉ pre -> relink next pre v h = next h.
Proof.
  intros Hh. unfold relink. destruct (last pre) as [y|] eqn:Hl; [|done]. apply upd_other. intros ->.
  apply Hh. apply last_Some in Hl as (l & ->). set_solver.
Qed.

Lemma write_line_lines t L irq pre suf suf' v :
  lines t L -> vector irq -> L irq = pre ++ suf -> (forall y, y ∈ L irq -> is_Some (q_hooks t !! y)) ->
  chain (qnext t) v suf' -> (forall h, h ∈ pre -> h ∉ suf') ->
  (forall i h, vector i -> i <> irq -> h ∈ L i -> h ∉ L irq) ->
  lines (write_line irq pre v t) (at_line L irq (pre ++ suf')).
Proof.
  intros HL Hi Hl Hs Hv Hd Hdis i Hvi. assert (forall y, y ∈ pre -> is_Some (q_hooks t !! y)) as Hs' by (intros y Hy; apply Hs; rewrite Hl; set_solver).
  rewrite write_line_head. unfold at_line. destruct (Z.eqb_spec i irq) as [->|Hne].
  - eapply chain_ext; [intros h _; by apply write_line_next|]. apply (chain_relink _ _ pre suf); [|done|done].
    rewrite <- Hl. by apply HL.
  - eapply chain_ext; [|by apply HL]. intros h Hh. rewrite write_line_next by done. apply relink_other.
    intros Hp. apply (Hdis i h Hvi Hne Hh). rewrite Hl. set_solver.
Qed.

Lemma other_lines t L x irq : irqs_ok t L x -> vector irq -> forall i h, vector i -> i <> irq -> h ∈ L i -> h ∉ L irq.
Proof. intros H Hi i h Hvi Hne Hh Hh'. apply Hne. by eapply on_one_line; [apply H|..]. Qed.

(** ** Ids *)
Definition hid (t : irqs) (h : Z) : Z := match q_hooks t !! h with Some k => h_id k | None => 0 end.
Definition ids (t : irqs) (b : Z) (l : list Z) : Z := foldl (fun b h => Z.lor b (hid t h)) b l.

Lemma ids_spec t l : forall b j, Z.testbit (ids t b l) j = true <-> Z.testbit b j = true \/ exists h, h ∈ l /\ Z.testbit (hid t h) j = true.
Proof.
  induction l as [|h l IH]; intros b j; cbn [ids foldl].
  - split; [by left|]. intros [?|(h & Hh & _)]; [done|by apply elem_of_nil in Hh].
  - change (foldl _ ?c l) with (ids t c l). rewrite IH, Z.lor_spec, orb_true_iff.
    split; [intros [[?|?]|(y & Hy & ?)]|intros [?|(y & [->|Hy]%elem_of_cons & ?)]]; auto.
    + right. exists h. set_solver.
    + right. exists y. set_solver.
    + right. by exists y.
Qed.

Lemma free_id_step fuel k b :
  0 <= k <= 32 -> k + Z.of_nat fuel = 33 ->
  let id := if k =? 32 then 0 else 2 ^ k in
  (forall j, k <= j < 32 -> Z.testbit b j = true) /\ free_id fuel id b = 0
  \/ exists j, k <= j < 32 /\ free_id fuel id b = 2 ^ j /\ Z.testbit b j = false.
Proof.
  revert k. induction fuel as [|fuel IH]; intros k Hk Hf id; [lia|]. cbn [free_id].
  destruct (Z.eqb_spec k 32) as [->|Hne]; subst id; [left; split; [lia|done]|].
  assert (2 ^ k =? 0 = false) as -> by (apply Z.eqb_neq; pose proof (Z.pow_pos_nonneg 2 k); lia).
  assert (has b (2 ^ k) = Z.testbit b k) as ->.
  { by rewrite (@has_testbit (2 ^ k) (Build_SingleBit (2 ^ k) k ltac:(lia) eq_refl)). }
  destruct (Z.testbit b k) eqn:Eb; [|right; exists k; split; [lia|done]].
  assert (u32 (Z.shiftl (2 ^ k) 1) = if k + 1 =? 32 then 0 else 2 ^ (k + 1)) as ->.
  { rewrite Z.shiftl_mul_pow2, <- Z.pow_add_r by lia. unfold u32. destruct (Z.eqb_spec (k + 1) 32) as [->|]; [done|].
    apply Z.mod_small. split; [lia|]. apply Z.pow_lt_mono_r; lia. }
  destruct (IH (k + 1) ltac:(lia) ltac:(lia)) as [[H1 H2]|(j & Hj & H1 & H2)].
  - left. split; [|done]. intros j Hj. destruct (Z.eq_dec j k) as [->|]; [done|]. apply H1. lia.
  - right. exists j. split; [lia|done].
Qed.

Lemma free_id_spec b :
  (forall j, 0 <= j < 32 -> Z.testbit b j = true) /\ free_id 33 1 b = 0
  \/ exists j, 0 <= j < 32 /\ free_id 33 1 b = 2 ^ j /\ Z.testbit b j = false.
Proof. exact (free_id_step 33 0 b ltac:(lia) ltac:(lia)). Qed.

Lemma pow2_bit j i : 0 <= j -> Z.testbit (2 ^ j) i = true <-> i = j.
Proof.
  intros Hj. destruct (Z.eq_dec i j) as [->|Hne]; [by rewrite Z.pow2_bits_true|].
  rewrite Z.pow2_bits_false by done. done.
Qed.

Lemma hid_bit t L x irq h : irqs_ok t L x -> vector irq -> h ∈ L irq -> exists j, 0 <= j < 32 /\ hid t h = 2 ^ j.
Proof.
  intros H Hi Hh. destruct (ho_on _ _ _ (iq_hooks _ _ _ H) irq h Hi Hh) as (_ & d & j & Hd & _ & _ & Hj & Hid).
  destruct (hdata_inv _ _ _ Hd) as (k & Hk & ->). exists j. split; [done|]. unfold hid. by rewrite Hk.
Qed.

(** A line with fewer than 32 hooks has a free id, one with 32 has none. *)
Lemma ids_room t L x irq :
  irqs_ok t L x -> vector irq -> (length (L irq) < 32)%nat ->
  exists j, 0 <= j < 32 /\ free_id 33 1 (ids t 0 (L irq)) = 2 ^ j /\ forall h, h ∈ L irq -> hid t h <> 2 ^ j.
Proof.
  intros H Hi Hlen. destruct (free_id_spec (ids t 0 (L irq))) as [[Hall _]|(j & Hj & Hf & Hb)].
  - exfalso. assert (length (seqZ 0 32) <= length (map (hid t) (L irq)))%nat as Hl; [|rewrite length_map, length_seqZ in Hl; lia].
    rewrite <- (length_map (Z.pow 2) (seqZ 0 32)). apply submseteq_length, NoDup_submseteq.
    + apply (bool_decide_unpack _). vm_compute. exact I.
    + intros p (j & -> & Hj%elem_of_seqZ)%list_elem_of_fmap.
      specialize (Hall j ltac:(lia)). apply ids_spec in Hall as [Hz|(h & Hh & Hb)]; [by rewrite Z.bits_0 in Hz|].
      destruct (hid_bit t L x irq h H Hi Hh) as (i & Hi' & E). rewrite E, pow2_bit in Hb by lia. subst i.
      apply list_elem_of_fmap. by exists h.
  - exists j. split; [done|]. split; [done|]. intros h Hh E. apply not_true_iff_false in Hb. apply Hb, ids_spec.
    right. exists h. split; [done|]. rewrite E. apply pow2_bit; lia.
Qed.

Lemma ids_full t L x irq :
  irqs_ok t L x -> vector irq -> length (L irq) = 32%nat -> free_id 33 1 (ids t 0 (L irq)) = 0.
Proof.
  intros H Hi Hlen. destruct (free_id_spec (ids t 0 (L irq))) as [[_ ?]|(j & Hj & _ & Hb)]; [done|exfalso].
  assert (length (L irq) <= length (remove1 j (seqZ 0 32)))%nat as Hl.
  { assert (NoDup (map (fun h => Z.log2 (hid t h)) (L irq))) as Hnd.
    - apply NoDup_fmap_2_strong; [|by eapply chain_NoDup, H]. intros h h' Hh Hh' E.
      destruct (hid_bit t L x irq h H Hi Hh) as (i & ? & Ei). destruct (hid_bit t L x irq h' H Hi Hh') as (i' & ? & Ei').
      rewrite Ei, Ei', !Z.log2_pow2 in E by lia. subst i'.
      destruct (ho_on _ _ _ (iq_hooks _ _ _ H) irq h Hi Hh) as (_ & d & _ & Hd & _).
      destruct (ho_on _ _ _ (iq_hooks _ _ _ H) irq h' Hi Hh') as (_ & d' & _ & Hd' & _).
      apply (ho_ids _ _ _ (iq_hooks _ _ _ H) irq h h' d d' Hi Hh Hh' Hd Hd').
      destruct (hdata_inv _ _ _ Hd) as (k & Hk & ->). destruct (hdata_inv _ _ _ Hd') as (k' & Hk' & ->).
      unfold hid in Ei, Ei'. rewrite Hk in Ei. rewrite Hk' in Ei'. cbn. congruence.
    - rewrite <- (length_map (fun h => Z.log2 (hid t h))). apply submseteq_length, NoDup_submseteq; [done|].
      intros i (h & -> & Hh)%list_elem_of_fmap. destruct (hid_bit t L x irq h H Hi Hh) as (i & ? & Ei). rewrite Ei, Z.log2_pow2 by lia.
      apply elem_of_remove1. split; [|apply elem_of_seqZ; lia]. intros ->. apply not_true_iff_false in Hb. apply Hb, ids_spec.
      right. exists h. split; [done|]. rewrite Ei. apply pow2_bit; lia. }
  assert (length (remove1 j (seqZ 0 32)) < length (seqZ 0 32))%nat as Hl2.
  { unfold remove1. apply length_filter_lt with j; [apply elem_of_seqZ; lia|]. by intros ?. }
  rewrite length_seqZ in Hl2. lia.
Qed.

(** ** Linking a hook *)

Lemma loc_snoc irq pre h : loc_of irq (pre ++ [h]) = IrqNext h.
Proof. unfold loc_of. by rewrite last_snoc. Qed.

Lemma line_end_run s t irq hook : forall suf pre b fuel,
  chain (qnext t) (q_heads t !! irq) (pre ++ suf) -> (forall y, y ∈ pre ++ suf -> is_Some (q_hooks t !! y)) ->
  hook ∉ suf -> (length suf < fuel)%nat ->
  line_end fuel hook (loc_of irq pre) b (with_irqs t s) = Done (Some (loc_of irq (pre ++ suf), ids t b suf)) (with_irqs t s).
Proof.
  induction suf as [|h suf IH]; intros pre b fuel Hc Hs Hn Hf; (destruct fuel as [|fuel]; [lia|]); cbn [line_end].
  - rewrite (bind_done _ _ _ _ _ (read_line s t irq pre [] Hc ltac:(intros; apply Hs; set_solver))). by rewrite app_nil_r.
  - rewrite (bind_done _ _ _ _ _ (read_line s t irq pre (h :: suf) Hc ltac:(intros; apply Hs; set_solver))). cbn [head].
    assert (hook =? h = false) as -> by (apply Z.eqb_neq; set_solver).
    destruct (Hs h) as [k Hk]; [set_solver|]. rewrite (bind_done _ _ _ _ _ (get_hook_run s t h k Hk)).
    rewrite <- (loc_snoc irq pre h). rewrite (cons_middle h pre suf), app_assoc in Hc, Hs.
    rewrite IH; [|done|done|set_solver|cbn in Hf; lia]. rewrite <- app_assoc. cbn [app ids foldl].
    do 3 f_equal. unfold ids, hid. cbn. by rewrite Hk.
Qed.

Definition linked (irq hook id : Z) (l : list Z) (k : irq_hook) (t : irqs) : irqs :=
  write_line irq l (Some hook)
    (put_hooks (<[hook := set_h_id id (set_h_irq irq (set_h_next None k))]> (q_hooks t)) t).

Lemma off_lines t L h irq : irqs_ok t L (Some h) -> vector irq -> h ∉ L irq.
Proof. intros H Hi Hh. by destruct (ho_on _ _ _ (iq_hooks _ _ _ H) irq h Hi Hh) as [? _]. Qed.

Lemma vector_bound irq : vector irq -> (irq <? 0) || (NR_IRQ_VECTORS <=? irq) = false.
Proof. intros [H1 H2]. by rewrite (proj2 (Z.ltb_ge _ _) H1), (proj2 (Z.leb_gt _ _) H2). Qed.

Lemma link_hook_end s t L irq hook :
  irqs_ok t L (Some hook) -> vector irq ->
  line_end line_fuel hook (IrqHead irq) 0 (with_irqs t s)
  = Done (Some (loc_of irq (L irq), ids t 0 (L irq))) (with_irqs t s).
Proof.
  intros H Hi. pose proof (line_length _ _ _ _ H Hi) as Hl.
  exact (line_end_run s t irq hook (L irq) [] 0 line_fuel (iq_lines _ _ _ H irq Hi)
    (fun y Hy => hook_some _ _ _ _ _ H Hi Hy) (off_lines _ _ _ _ H Hi) ltac:(unfold line_fuel; lia)).
Qed.

Lemma link_hook_run s t L irq hook k :
  irqs_ok t L (Some hook) -> vector irq -> (length (L irq) < 32)%nat -> q_hooks t !! hook = Some k ->
  exists j, 0 <= j < 32 /\ (forall h, h ∈ L irq -> hid t h <> 2 ^ j)
    /\ link_hook hook irq (with_irqs t s) = Done true (with_irqs (linked irq hook (2 ^ j) (L irq) k t) s).
Proof.
  intros H Hi Hlen Hk. destruct (ids_room _ _ _ _ H Hi Hlen) as (j & Hj & Hf & Hne). exists j. split; [done|]. split; [done|].
  unfold link_hook. rewrite vector_bound by done. rewrite bind_ret, (bind_done _ _ _ _ _ (link_hook_end s t L irq hook H Hi)).
  cbn zeta. rewrite Hf. assert (2 ^ j =? 0 = false) as -> by (apply Z.eqb_neq; pose proof (Z.pow_pos_nonneg 2 j); lia).
  rewrite bind_ret, (bind_done _ _ _ _ _ (upd_hook_run s t hook k _ Hk)).
  erewrite (bind_done (write_irq _ _)); [done|]. apply write_line_run. intros y Hy. cbn.
  destruct (decide (y = hook)) as [->|Hyn]; [by rewrite lookup_insert_eq|]. rewrite lookup_insert_ne by done. by eapply hook_some.
Qed.

Lemma link_hook_full s t L irq hook :
  irqs_ok t L (Some hook) -> vector irq -> length (L irq) = 32%nat -> link_hook hook irq (with_irqs t s) = Stop Panic.
Proof.
  intros H Hi Hlen. unfold link_hook. rewrite vector_bound by done.
  rewrite bind_ret, (bind_done _ _ _ _ _ (link_hook_end s t L irq hook H Hi)). cbn zeta. by rewrite (ids_full _ _ _ _ H Hi Hlen).
Qed.

Lemma linked_data irq hook id l k t :
  hdata (linked irq hook id l k t) = <[hook := set_h_id id (set_h_irq irq (set_h_next None k))]> (hdata t).
Proof. unfold linked. rewrite write_line_data. unfold hdata. cbn. by rewrite fmap_insert. Qed.

Lemma linked_lines irq hook id k t L :
  irqs_ok t L (Some hook) -> vector irq -> q_hooks t !! hook = Some k ->
  lines (linked irq hook id (L irq) k t) (at_line L irq (L irq ++ [hook])).
Proof.
  intros H Hi Hk. set (k' := set_h_id id (set_h_irq irq (set_h_next None k))).
  set (t1 := put_hooks (<[hook := k']> (q_hooks t)) t).
  assert (forall h, h <> hook -> qnext t1 h = qnext t h) as Hq by (intros h Hh; unfold qnext; cbn; by rewrite lookup_insert_ne).
  assert (lines t1 L) as HL.
  { intros i Hvi. eapply chain_ext; [|apply (iq_lines _ _ _ H i Hvi)]. intros h Hh. apply Hq. intros ->. by eapply off_lines. }
  apply (write_line_lines t1 L irq (L irq) [] [hook] (Some hook)); try done.
  - by rewrite app_nil_r.
  - intros y Hy. cbn. rewrite lookup_insert_ne; [by eapply hook_some|]. intros ->. by eapply off_lines.
  - split; [done|]. unfold qnext, t1. cbn. by rewrite lookup_insert_eq.
  - intros h Hh ->%list_elem_of_singleton. by eapply off_lines.
  - by apply (other_lines _ _ _ _ H).
Qed.

Lemma linked_hooks D L irq hook d j :
  hooks_ok D L (Some hook) -> vector irq -> h_irq d = irq -> h_id d = 2 ^ j -> 0 <= j < 32 ->
  is_Some (D !! hook) -> (forall h e, h ∈ L irq -> D !! h = Some e -> h_id e <> 2 ^ j) ->
  h_proc_nr_e d <> NONE -> 0 <= h_notify_id d < 64 ->
  (forall h e, D !! h = Some e -> h <> hook -> h_proc_nr_e e = h_proc_nr_e d -> h_notify_id e <> h_notify_id d) ->
  hooks_ok (<[hook := d]> D) (at_line L irq (L irq ++ [hook])) None.
Proof.
  intros H Hi Hdi Hid Hj Hs Hne Hp Hn Hown.
  assert (forall i h, vector i -> h ∈ at_line L irq (L irq ++ [hook]) i -> h ∈ L i /\ h <> hook \/ h = hook /\ i = irq) as Hin.
  { intros i h Hvi Hh. assert (h ∈ L i -> h <> hook) as Hoff by (intros Hl ->; by destruct (ho_on _ _ _ H i hook Hvi Hl)).
    destruct (Z.eq_dec i irq) as [->|Hni].
    - rewrite at_line_same in Hh. apply elem_of_app in Hh as [Hh| ->%list_elem_of_singleton]; auto.
    - rewrite at_line_other in Hh by done. auto. }
  split.
  - intros h. rewrite <- (ho_tab _ _ _ H h). destruct (decide (h = hook)) as [->|Hh]; [by rewrite lookup_insert_eq|by rewrite lookup_insert_ne].
  - intros i h Hvi Hh. split; [done|]. destruct (Hin i h Hvi Hh) as [[Hl Hh']|[-> ->]].
    + rewrite lookup_insert_ne by done. by apply (ho_on _ _ _ H).
    + rewrite lookup_insert_eq. by exists d, j.
  - intros h e He Hu _. destruct (decide (h = hook)) as [->|Hh].
    + rewrite lookup_insert_eq in He. injection He as <-. rewrite Hdi, at_line_same. split; [done|]. split; [set_solver|done].
    + rewrite lookup_insert_ne in He by done. destruct (ho_used _ _ _ H h e He Hu) as (? & ? & ?); [congruence|].
      split; [done|]. split; [|done]. unfold at_line. destruct (Z.eqb_spec (h_irq e) irq) as [E|]; [|done]. rewrite E in *. set_solver.
  - intros i h h' e e' Hvi Hh Hh' He He' E. 
    destruct (Hin i h Hvi Hh) as [[Hl Hh1]|[E1 Ei1]], (Hin i h' Hvi Hh') as [[Hl' Hh1']|[E2 Ei2]]; [| | |congruence]; subst.
    + rewrite lookup_insert_ne in He, He' by done. by apply (ho_ids _ _ _ H i h h' e e').
    + rewrite lookup_insert_ne in He by done. rewrite lookup_insert_eq in He'. injection He' as <-.
      destruct (Hne h e Hl He). congruence.
    + rewrite lookup_insert_eq in He. injection He as <-. rewrite lookup_insert_ne in He' by done.
      destruct (Hne h' e' Hl' He'). congruence.
  - intros h h' e e' He He' _ _ Hu Ep En. destruct (decide (h = hook)) as [->|Hh], (decide (h' = hook)) as [->|Hh']; [done|..].
    + rewrite lookup_insert_eq in He. injection He as <-. rewrite lookup_insert_ne in He' by done.
      destruct (Hown h' e' He' Hh'); congruence.
    + rewrite lookup_insert_ne in He by done. rewrite lookup_insert_eq in He'. injection He' as <-.
      destruct (Hown h e He Hh); congruence.
    + rewrite lookup_insert_ne in He, He' by done. apply (ho_own _ _ _ H h h' e e'); congruence.
Qed.

(** ** Active hooks and the mask of a line *)

Lemma clr_bit a j i : 0 <= i -> 0 <= j -> Z.testbit (flag_clr a (2 ^ j)) i = true <-> Z.testbit a i = true /\ i <> j.
Proof.
  intros Hi Hj. unfold flag_clr. rewrite Z.land_spec, Z.lnot_spec by done. rewrite andb_true_iff, negb_true_iff.
  rewrite <- (not_true_iff_false (Z.testbit (2 ^ j) i)), pow2_bit by done. done.
Qed.
Lemma set_bit a j i : 0 <= j -> Z.testbit (flag_set a (2 ^ j)) i = true <-> Z.testbit a i = true \/ i = j.
Proof. intros Hj. unfold flag_set. by rewrite Z.lor_spec, orb_true_iff, pow2_bit. Qed.

Lemma acts_line D D' A Mk Mk' L l irq a' :
  acts_ok D A Mk L -> vector irq -> 0 <= a' ->
  (forall i, i <> irq -> Mk' !! i = Mk !! i) ->
  (forall i h d, vector i -> i <> irq -> h ∈ L i -> D !! h = Some d -> D' !! h = Some d) ->
  (forall j, 0 <= j -> Z.testbit a' j = true -> has_bit D' l j) ->
  (IS_MSIX_IRQ irq = false -> l <> [] -> Mk' !! irq = Some (negb (a' =? 0))) ->
  acts_ok D' (<[irq := a']> A) Mk' (at_line L irq l).
Proof.
  intros [H1 H2 H3] Hi Ha HM HD Hb Hm. split.
  - intros i Hvi. destruct (decide (i = irq)) as [->|Hne]; [rewrite lookup_insert_eq; by exists a'|].
    rewrite lookup_insert_ne by done. by apply H1.
  - intros i a j Hvi Ea Hj Hbit. destruct (decide (i = irq)) as [->|Hne].
    + rewrite lookup_insert_eq in Ea. injection Ea as <-. rewrite at_line_same. by apply Hb.
    + rewrite lookup_insert_ne in Ea by done. rewrite at_line_other by done.
      destruct (H2 i a j Hvi Ea Hj Hbit) as (h & d & Hh & Hd & E). exists h, d. split_and!; [done|by eapply HD|done].
  - intros i a Hvi Hx Hl Ea. destruct (decide (i = irq)) as [->|Hne].
    + rewrite lookup_insert_eq in Ea. injection Ea as <-. rewrite at_line_same in Hl. auto.
    + rewrite lookup_insert_ne in Ea by done. rewrite at_line_other in Hl by done. rewrite HM by done. by apply H3.
Qed.

Lemma irqs_ok_ext t L L' x : (forall i, L i = L' i) -> irqs_ok t L x -> irqs_ok t L' x.
Proof.
  intros E [H1 [A1 A2 A3 A4 A5] [B1 B2 B3]]. split.
  - intros i Hi. rewrite <- E. by apply H1.
  - split; [done|..].
    + intros i h Hi. rewrite <- E. by apply A2.
    + intros h d Hd Hu Hx. rewrite <- E. by apply A3.
    + intros i h h' d d' Hi. rewrite <- !E. by apply A4.
    + done.
  - split; [done|..].
    + intros i a j Hi. unfold has_bit. rewrite <- E. by apply B2.
    + intros i a Hi Hm. rewrite <- E. by apply B3.
Qed.

Lemma at_line_id L irq i : at_line L irq (L irq) i = L i.
Proof. unfold at_line. by destruct (Z.eqb_spec i irq) as [->|]. Qed.

(** The active hooks of a line change, the line does not. *)
Lemma acts_same_line D A Mk Mk' L irq a' :
  acts_ok D A Mk L -> vector irq -> 0 <= a' ->
  (forall i, i <> irq -> Mk' !! i = Mk !! i) ->
  (forall j, 0 <= j -> Z.testbit a' j = true -> has_bit D (L irq) j) ->
  (IS_MSIX_IRQ irq = false -> L irq <> [] -> Mk' !! irq = Some (negb (a' =? 0))) ->
  acts_ok D (<[irq := a']> A) Mk' L.
Proof.
  intros H Hi Ha HM Hb Hm. destruct (acts_line D D A Mk Mk' L (L irq) irq a') as [B1 B2 B3]; try done. split.
  - done.
  - intros i b n Hvi Eb Hn Hbit. specialize (B2 i b n Hvi Eb Hn Hbit). by rewrite at_line_id in B2.
  - intros i b Hvi Hx Hl Eb. apply B3; [done|done|by rewrite at_line_id|done].
Qed.

(** Clearing the bit of a hook, and what follows for the controller. *)
Definition enabled (irq id a : Z) (t : irqs) : irqs :=
  let a' := flag_clr a id in
  mkIrqs (q_hooks t) (q_heads t) (<[irq := a']> (q_act t)) (if a' =? 0 then <[irq := false]> (q_mask t) else q_mask t).

Lemma enable_irq_run s t h k a :
  q_hooks t !! h = Some k -> q_act t !! h_irq k = Some a ->
  enable_irq h (with_irqs t s) = Done tt (with_irqs (enabled (h_irq k) (h_id k) a t) s).
Proof.
  intros Hk Ha. unfold enable_irq, enabled. rewrite (bind_done _ _ _ _ _ (get_hook_run s t h k Hk)).
  rewrite (bind_done _ _ _ _ _ (get_act_run s t _ a Ha)), (bind_done _ _ _ _ _ (put_act_run s t _ _)).
  by destruct (flag_clr a (h_id k) =? 0).
Qed.

Lemma clr_nonzero a f : flag_clr a f <> 0 -> a <> 0.
Proof. intros H ->. by unfold flag_clr in H; rewrite Z.land_0_l in H. Qed.

Lemma enabled_acts D t L irq a j :
  acts_ok D (q_act t) (q_mask t) L -> vector irq -> q_act t !! irq = Some a -> 0 <= j ->
  acts_ok D (q_act (enabled irq (2 ^ j) a t)) (q_mask (enabled irq (2 ^ j) a t)) L.
Proof.
  intros H Hi Ha Hj. destruct (ac_some _ _ _ _ H irq Hi) as (a0 & Ha0 & Hnn). rewrite Ha in Ha0. injection Ha0 as <-.
  unfold enabled. cbn [q_act q_mask]. apply (acts_same_line D _ (q_mask t)); try done.
  - by apply flag_clr_nonneg.
  - intros i Hne. destruct (_ =? 0); [by rewrite lookup_insert_ne|done].
  - intros i Hi0 [Hb _]%clr_bit; [|lia|lia]. by eapply ac_bits.
  - intros Hx Hl. destruct (Z.eqb_spec (flag_clr a (2 ^ j)) 0) as [E|Hne]; [by rewrite lookup_insert_eq|].
    rewrite (ac_mask _ _ _ _ H irq a Hi Hx Hl Ha). by rewrite (proj2 (Z.eqb_neq _ _) (clr_nonzero _ _ Hne)).
Qed.

Definition disabled (irq id a : Z) (t : irqs) : irqs :=
  mkIrqs (q_hooks t) (q_heads t) (<[irq := flag_set a id]> (q_act t)) (<[irq := true]> (q_mask t)).

Lemma disable_irq_run s t h k a :
  q_hooks t !! h = Some k -> q_act t !! h_irq k = Some a ->
  disable_irq h (with_irqs t s)
  = if has a (h_id k) then Done false (with_irqs t s) else Done true (with_irqs (disabled (h_irq k) (h_id k) a t) s).
Proof.
  intros Hk Ha. unfold disable_irq. rewrite (bind_done _ _ _ _ _ (get_hook_run s t h k Hk)).
  rewrite (bind_done _ _ _ _ _ (get_act_run s t _ a Ha)). by destruct (has a (h_id k)).
Qed.

Lemma set_nonzero a j : 0 <= a -> 0 <= j -> flag_set a (2 ^ j) =? 0 = false.
Proof.
  intros Ha Hj. apply Z.eqb_neq. intros E. assert (Z.testbit (flag_set a (2 ^ j)) j = true) as Hb by (apply set_bit; auto).
  by rewrite E, Z.bits_0 in Hb.
Qed.

Lemma disabled_acts D t L irq a h d j :
  acts_ok D (q_act t) (q_mask t) L -> vector irq -> q_act t !! irq = Some a -> 0 <= j ->
  h ∈ L irq -> D !! h = Some d -> h_id d = 2 ^ j ->
  acts_ok D (q_act (disabled irq (2 ^ j) a t)) (q_mask (disabled irq (2 ^ j) a t)) L.
Proof.
  intros H Hi Ha Hj Hh Hd Hid. destruct (ac_some _ _ _ _ H irq Hi) as (a0 & Ha0 & Hnn). rewrite Ha in Ha0. injection Ha0 as <-.
  apply (acts_same_line D _ (q_mask t)); try done.
  - apply flag_set_nonneg; [done|]. apply Z.pow_nonneg. lia.
  - intros i Hne. cbn. by rewrite lookup_insert_ne.
  - intros i Hi0 [Hb| ->]%set_bit; [by eapply ac_bits| |done]. by exists h, d.
  - intros _ _. cbn. by rewrite lookup_insert_eq, set_nonzero.
Qed.

(** ** A hook joins a line *)

Lemma linked_rest irq hook id l k t : q_act (linked irq hook id l k t) = q_act t /\ q_mask (linked irq hook id l k t) = q_mask t.
Proof. unfold linked. destruct (write_line_rest irq l (Some hook) (put_hooks (<[hook := set_h_id id (set_h_irq irq (set_h_next None k))]> (q_hooks t)) t)) as [-> ->]. done. Qed.

Lemma hid_data t h d : hdata t !! h = Some d -> hid t h = h_id d.
Proof. intros (k & Hk & ->)%hdata_inv. unfold hid. by rewrite Hk. Qed.

(** Everything about the new hook but its line and id. *)
Definition fits t L hook k : Prop :=
  irqs_ok t L (Some hook) /\ q_hooks t !! hook = Some k /\ h_proc_nr_e k <> NONE /\ 0 <= h_notify_id k < 64
  /\ forall h e, hdata t !! h = Some e -> h <> hook -> h_proc_nr_e e = h_proc_nr_e k -> h_notify_id e <> h_notify_id k.

Lemma linked_ok t L irq hook k j :
  fits t L hook k -> vector irq -> 0 <= j < 32 -> (forall h, h ∈ L irq -> hid t h <> 2 ^ j) ->
  lines (linked irq hook (2 ^ j) (L irq) k t) (at_line L irq (L irq ++ [hook]))
  /\ hooks_ok (hdata (linked irq hook (2 ^ j) (L irq) k t)) (at_line L irq (L irq ++ [hook])) None.
Proof.
  intros (H & Hk & Hp & Hn & Hown) Hi Hj Hne. split; [by apply linked_lines|]. rewrite linked_data.
  apply (linked_hooks _ _ _ _ _ j); try done.
  - apply H.
  - rewrite (hdata_lookup _ _ _ Hk). by eexists.
  - intros h e Hh He. rewrite <- (hid_data t h e He). auto.
Qed.

Lemma linked_others t L hook d i h e :
  irqs_ok t L (Some hook) -> vector i -> h ∈ L i -> hdata t !! h = Some e -> <[hook := d]> (hdata t) !! h = Some e.
Proof. intros H Hi Hh He. rewrite lookup_insert_ne; [done|]. intros ->. by eapply off_lines. Qed.

Lemma bits_in t L x irq a j :
  irqs_ok t L x -> vector irq -> q_act t !! irq = Some a -> 0 <= j ->
  (forall h, h ∈ L irq -> hid t h <> 2 ^ j) -> Z.testbit a j = false.
Proof.
  intros H Hi Ha Hj Hne. apply not_true_iff_false. intros Hb.
  destruct (ac_bits _ _ _ _ (iq_acts _ _ _ H) irq a j Hi Ha Hj Hb) as (h & d & Hh & Hd & E).
  apply (Hne h Hh). by rewrite (hid_data t h d Hd).
Qed.

Lemma linked_bits t L hook irq d a l j :
  irqs_ok t L (Some hook) -> vector irq -> q_act t !! irq = Some a -> 0 <= j -> Z.testbit a j = true ->
  has_bit (<[hook := d]> (hdata t)) (L irq ++ l) j.
Proof.
  intros H Hi Ha Hj Hb. destruct (ac_bits _ _ _ _ (iq_acts _ _ _ H) irq a j Hi Ha Hj Hb) as (h & e & Hh & He & E).
  exists h, e. split_and!; [set_solver|by eapply linked_others|done].
Qed.

(** [put_irq_handler]: the line gets the hook and is unmasked unless a driver
    has yet to enable it. *)
Lemma put_irq_handler_run s t L irq hook k :
  fits t L hook k -> vector irq -> (length (L irq) < 32)%nat ->
  exists t', put_irq_handler hook irq (with_irqs t s) = Done tt (with_irqs t' s)
    /\ irqs_ok t' (at_line L irq (L irq ++ [hook])) None
    /\ exists id, hdata t' = <[hook := set_h_id id (set_h_irq irq (set_h_next None k))]> (hdata t).
Proof.
  intros Hfit Hi Hlen. pose proof Hfit as (H & Hk & _).
  destruct (link_hook_run s t L irq hook k H Hi Hlen Hk) as (j & Hj & Hne & E).
  destruct (linked_ok t L irq hook k j Hfit Hi Hj Hne) as [HL HH]. set (t1 := linked _ _ _ _ _ _) in *.
  destruct (linked_rest irq hook (2 ^ j) (L irq) k t) as [Ra Rm]. fold t1 in Ra, Rm.
  assert (hdata t1 !! hook = Some (set_h_id (2 ^ j) (set_h_irq irq (set_h_next None k)))) as Hd1
    by (unfold t1; rewrite linked_data; apply lookup_insert_eq).
  destruct (hdata_inv _ _ _ Hd1) as (k1 & Hk1 & Ek1).
  assert (h_irq k1 = irq /\ h_id k1 = 2 ^ j) as [Ei Eid] by (split; [exact (f_equal h_irq (eq_sym Ek1))|exact (f_equal h_id (eq_sym Ek1))]).
  destruct (ac_some _ _ _ _ (iq_acts _ _ _ H) irq Hi) as (a & Ha & Hnn).
  exists (enabled irq (2 ^ j) a t1). unfold put_irq_handler. rewrite (bind_done _ _ _ _ _ E). split.
  { rewrite (enable_irq_run s t1 hook k1 a); rewrite ?Ei, ?Eid, ?Ra; done. }
  split; [|exists (2 ^ j); exact (linked_data irq hook (2 ^ j) (L irq) k t)].
  split; [exact HL|exact HH|]. unfold enabled. cbn [q_act q_mask hdata]. rewrite Ra, Rm.
  change (hdata (mkIrqs (q_hooks t1) _ _ _)) with (hdata t1). unfold t1. rewrite linked_data.
  apply (acts_line (hdata t) _ _ (q_mask t)); [apply H|done|by apply flag_clr_nonneg|..].
  - intros i Hni. destruct (_ =? 0); [by rewrite lookup_insert_ne|done].
  - intros i h e Hvi Hni Hh He. by eapply linked_others.
  - intros i Hi0 [Hb _]%clr_bit; [|lia|lia]. by eapply linked_bits.
  - intros Hx _. destruct (Z.eqb_spec (flag_clr a (2 ^ j)) 0) as [|Hz]; [by rewrite lookup_insert_eq|].
    apply clr_nonzero in Hz. rewrite (ac_mask _ _ _ _ (iq_acts _ _ _ H) irq a Hi Hx); [by rewrite (proj2 (Z.eqb_neq _ _) Hz)| |done].
    intros Hl. 
    apply Hz. apply Z.bits_inj'. intros n Hn0. rewrite Z.bits_0. apply not_true_iff_false. intros Hb.
    destruct (ac_bits _ _ _ _ (iq_acts _ _ _ H) irq a n Hi Ha Hn0 Hb) as (h & _ & Hh & _). rewrite Hl in Hh. by apply elem_of_nil in Hh.
Qed.

Lemma put_msix_handler_run s t L irq hook k :
  fits t L hook k -> vector irq -> IS_MSIX_IRQ irq = true -> (length (L irq) < 32)%nat ->
  exists t', put_msix_handler hook irq (with_irqs t s) = Done tt (with_irqs t' s)
    /\ irqs_ok t' (at_line L irq (L irq ++ [hook])) None
    /\ exists id, hdata t' = <[hook := set_h_id id (set_h_irq irq (set_h_next None k))]> (hdata t).
Proof.
  intros Hfit Hi Hx Hlen. pose proof Hfit as (H & Hk & _).
  destruct (link_hook_run s t L irq hook k H Hi Hlen Hk) as (j & Hj & Hne & E).
  destruct (linked_ok t L irq hook k j Hfit Hi Hj Hne) as [HL HH].
  destruct (linked_rest irq hook (2 ^ j) (L irq) k t) as [Ra Rm].
  destruct (ac_some _ _ _ _ (iq_acts _ _ _ H) irq Hi) as (a & Ha & Hnn).
  exists (linked irq hook (2 ^ j) (L irq) k t). unfold put_msix_handler. rewrite Hx. cbn [negb]. rewrite bind_ret, (bind_done _ _ _ _ _ E).
  split; [done|]. split; [|exists (2 ^ j); by rewrite linked_data]. split; [exact HL|exact HH|]. rewrite Ra, Rm, linked_data. rewrite <- (insert_id (q_act t) irq a Ha).
  apply (acts_line (hdata t) _ _ (q_mask t)); [apply H|done|done|done|..].
  - intros i h e Hvi Hni Hh He. by eapply linked_others.
  - intros i Hi0 Hb. by eapply linked_bits.
  - by rewrite Hx.
Qed.

(** ** A hook leaves its line *)

Lemma rm_skip s t irq id : forall mid pre suf fuel,
  chain (qnext t) (q_heads t !! irq) (pre ++ mid ++ suf) -> (forall y, y ∈ pre ++ mid ++ suf -> is_Some (q_hooks t !! y)) ->
  (forall h, h ∈ mid -> hid t h <> id) ->
  rm_loop (length mid + fuel) irq id (loc_of irq pre) (with_irqs t s)
  = rm_loop fuel irq id (loc_of irq (pre ++ mid)) (with_irqs t s).
Proof.
  induction mid as [|h mid IH]; intros pre suf fuel Hc Hs Hne; [by rewrite app_nil_r|]. cbn [length Nat.add rm_loop].
  rewrite (bind_done _ _ _ _ _ (read_line s t irq pre _ Hc ltac:(intros; apply Hs; set_solver))). cbn [app head].
  destruct (Hs h) as [k Hk]; [set_solver|]. rewrite (bind_done _ _ _ _ _ (get_hook_run s t h k Hk)).
  assert (h_id k =? id = false) as ->.
  { apply Z.eqb_neq. intros E. apply (Hne h); [set_solver|]. unfold hid. by rewrite Hk. }
  rewrite <- (loc_snoc irq pre h). rewrite (cons_middle h pre mid), app_assoc. cbn [app] in Hc, Hs.
  rewrite (cons_middle h pre (mid ++ suf)), app_assoc in Hc, Hs.
  apply (IH (pre ++ [h]) suf); [done|done|]. intros y Hy. apply Hne. set_solver.
Qed.

Lemma rm_end s t irq id suf pre fuel :
  chain (qnext t) (q_heads t !! irq) (pre ++ suf) -> (forall y, y ∈ pre ++ suf -> is_Some (q_hooks t !! y)) ->
  (forall h, h ∈ suf -> hid t h <> id) -> (length suf < fuel)%nat ->
  rm_loop fuel irq id (loc_of irq pre) (with_irqs t s) = Done tt (with_irqs t s).
Proof.
  intros Hc Hs Hne Hf. replace fuel with (length suf + S (fuel - length suf - 1))%nat by lia.
  rewrite <- (app_nil_r suf) in Hc, Hs. rewrite (rm_skip s t irq id suf pre [] _ Hc Hs Hne). cbn [rm_loop].
  rewrite app_assoc in Hc, Hs.
  by rewrite (bind_done _ _ _ _ _ (read_line s t irq (pre ++ suf) [] Hc ltac:(intros; apply Hs; set_solver))).
Qed.

(** The hook [h] taken off behind [pre], with its active bit. *)
Definition unlinked_at (irq : Z) (pre suf : list Z) (id a : Z) (t : irqs) : irqs :=
  put_acts (<[irq := flag_clr a id]> (q_act t)) (write_line irq pre (head suf) t).

Lemma unlinked_hid irq pre suf id a t h : hid (unlinked_at irq pre suf id a t) h = hid t h.
Proof.
  unfold unlinked_at, write_line, hid. cbn. destruct (last pre) as [y|]; [|done].
  destruct (q_hooks t !! y) as [k|] eqn:Hk; [|done]. cbn.
  destruct (decide (h = y)) as [->|]; [by rewrite lookup_insert_eq, Hk|by rewrite lookup_insert_ne].
Qed.

Lemma unlinked_data irq pre suf id a t : hdata (unlinked_at irq pre suf id a t) = hdata t.
Proof. exact (write_line_data irq pre (head suf) t). Qed.

Lemma hdata_some t t' h : hdata t' = hdata t -> is_Some (q_hooks t !! h) -> is_Some (q_hooks t' !! h).
Proof.
  intros E [k Hk]. apply hdata_lookup in Hk. rewrite <- E in Hk. destruct (hdata_inv _ _ _ Hk) as (k' & ? & _). by exists k'.
Qed.

Lemma put_act_if s t irq a id j :
  q_act t !! irq = Some a -> id = 2 ^ j -> 0 <= j ->
  (if has a id then put_act irq (flag_clr a id) else ret tt) (with_irqs t s)
  = Done tt (with_irqs (put_acts (<[irq := flag_clr a id]> (q_act t)) t) s).
Proof.
  intros Ha -> Hj. destruct (has a (2 ^ j)) eqn:E; [done|].
  rewrite (@flag_clr_id (2 ^ j) (Build_SingleBit (2 ^ j) j Hj eq_refl)), insert_id by done. by destruct t.
Qed.

Lemma rm_loop_run s t L x irq h k pre suf a :
  irqs_ok t L x -> vector irq -> L irq = pre ++ h :: suf -> q_hooks t !! h = Some k -> q_act t !! irq = Some a ->
  rm_loop line_fuel irq (h_id k) (IrqHead irq) (with_irqs t s)
  = Done tt (with_irqs (unlinked_at irq pre suf (h_id k) a t) s)
  /\ lines (unlinked_at irq pre suf (h_id k) a t) (at_line L irq (pre ++ suf)).
Proof.
  intros H Hi Hl Hk Ha. pose proof (iq_lines _ _ _ H irq Hi) as Hc. pose proof (chain_NoDup _ _ _ Hc) as Hnd.
  assert (forall y, y ∈ L irq -> is_Some (q_hooks t !! y)) as Hs by (intros y; by apply (hook_some _ _ _ _ _ H)).
  assert (forall y, y ∈ L irq -> y <> h -> hid t y <> h_id k) as Hne.
  { intros y Hy Hyh E. apply Hyh. destruct (Hs y Hy) as [ky Hky]. unfold hid in E. rewrite Hky in E.
    apply (ho_ids _ _ _ (iq_hooks _ _ _ H) irq y h _ _ Hi Hy ltac:(rewrite Hl; set_solver) (hdata_lookup _ _ _ Hky) (hdata_lookup _ _ _ Hk) E). }
  destruct (hid_bit _ _ _ _ h H Hi ltac:(rewrite Hl; set_solver)) as (j & Hj & Ej). unfold hid in Ej. rewrite Hk in Ej.
  pose proof (line_length _ _ _ _ H Hi) as Hlen. rewrite Hl in Hc, Hs, Hnd, Hlen, Hne. rewrite length_app in Hlen. cbn [length] in Hlen.
  set (t2 := unlinked_at _ _ _ _ _ _). apply NoDup_app in Hnd as (_ & Hdis & [Hhs _]%NoDup_cons).
  assert (lines t2 (at_line L irq (pre ++ suf))) as HL.
  { apply (write_line_lines t L irq pre (h :: suf) suf (head suf)); try done.
    - apply H.
    - rewrite Hl. exact Hs.
    - pose proof (chain_peek _ _ (pre ++ [h]) suf ltac:(by rewrite <- app_assoc)) as Hp. unfold peek in Hp. rewrite last_snoc in Hp.
      apply chain_app in Hc as (m & _ & _ & Hc). by rewrite <- Hp.
    - intros y Hy Hy'. apply (Hdis y Hy). set_solver.
    - by apply (other_lines _ _ _ _ H). }
  split; [|exact HL]. unfold line_fuel. replace (S (Z.to_nat NR_IRQ_HOOKS)) with (length pre + S (Z.to_nat NR_IRQ_HOOKS - length pre))%nat by lia.
  change (IrqHead irq) with (loc_of irq []). rewrite (rm_skip s t irq _ pre [] (h :: suf)); [|done|done|].
  2:{ intros y Hy. apply Hne; [set_solver|]. intros ->. apply (Hdis h Hy). set_solver. }
  cbn [app rm_loop]. rewrite (bind_done _ _ _ _ _ (read_line s t irq pre _ Hc ltac:(intros; apply Hs; set_solver))). cbn [head].
  rewrite (bind_done _ _ _ _ _ (get_hook_run s t h k Hk)), Z.eqb_refl.
  assert (h_next k = head suf) as Hnx.
  { pose proof (chain_peek _ _ (pre ++ [h]) suf ltac:(by rewrite <- app_assoc)) as Hp. unfold peek, qnext in Hp.
    by rewrite last_snoc, Hk in Hp. }
  rewrite Hnx, (bind_done _ _ _ _ _ (write_line_run s t irq pre _ ltac:(intros; apply Hs; set_solver))).
  destruct (write_line_rest irq pre (head suf) t) as [Ra Rm].
  rewrite (bind_done _ _ _ _ _ (get_act_run s _ irq a ltac:(by rewrite Ra))).
  rewrite (bind_done _ _ _ _ _ (put_act_if s _ irq a (h_id k) j ltac:(by rewrite Ra) Ej ltac:(lia))). rewrite Ra. fold (unlinked_at irq pre suf (h_id k) a t). fold t2.
  apply rm_end with suf; [| | |lia].
  - specialize (HL irq Hi). by rewrite at_line_same in HL.
  - intros y Hy. apply (hdata_some t); [apply unlinked_data|]. apply Hs. set_solver.
  - intros y Hy. unfold t2. rewrite unlinked_hid. apply Hne; [set_solver|]. by intros ->.
Qed.

Lemma NoDup_middle (pre suf : list Z) h : NoDup (pre ++ h :: suf) -> h ∉ pre ++ suf.
Proof. intros (_ & Hd & [Hn _]%NoDup_cons)%NoDup_app [H|H]%elem_of_app; [|done]. apply (Hd h H). by left. Qed.

Lemma hooks_leave D L irq h pre suf :
  hooks_ok D L None -> vector irq -> L irq = pre ++ h :: suf -> h ∉ pre ++ suf ->
  hooks_ok D (at_line L irq (pre ++ suf)) (Some h).
Proof.
  intros H Hi Hl Hh.
  assert (forall i y, vector i -> y ∈ at_line L irq (pre ++ suf) i -> y ∈ L i /\ y <> h) as Hin.
  { intros i y Hvi Hy. destruct (Z.eq_dec i irq) as [->|Hne].
    - rewrite at_line_same in Hy. rewrite Hl. split; [set_solver|]. by intros ->.
    - rewrite at_line_other in Hy by done. split; [done|]. intros ->. apply Hne.
      apply (on_one_line D L None i irq h H Hvi Hi Hy). rewrite Hl. set_solver. }
  split.
  - apply (ho_tab _ _ _ H).
  - intros i y Hvi Hy. destruct (Hin i y Hvi Hy) as [Hy' Hne]. split; [congruence|]. by apply (ho_on _ _ _ H).
  - intros y d Hd Hu Hne. destruct (ho_used _ _ _ H y d Hd Hu) as (Hv & Hy & Hn); [done|]. split; [done|]. split; [|done].
    unfold at_line. destruct (Z.eqb_spec (h_irq d) irq) as [E|]; [|done]. rewrite E, Hl in Hy.
    apply elem_of_app in Hy as [?|[->|?]%elem_of_cons]; [set_solver|done|set_solver].
  - intros i y y' d d' Hvi Hy Hy'. apply (ho_ids _ _ _ H i y y' d d' Hvi); by apply Hin.
  - intros y y' d d' Hd Hd' _ _. by apply (ho_own _ _ _ H y y' d d').
Qed.

Definition removed (irq : Z) (pre suf : list Z) (id a : Z) (t : irqs) : irqs :=
  put_masks (match pre ++ suf with
             | [] => <[irq := true]> (q_mask t)
             | _ => if flag_clr a id =? 0 then <[irq := false]> (q_mask t) else q_mask t
             end) (unlinked_at irq pre suf id a t).

Lemma rm_irq_handler_run s t L h k :
  irqs_ok t L None -> q_hooks t !! h = Some k -> h_proc_nr_e k <> NONE ->
  exists pre suf a, L (h_irq k) = pre ++ h :: suf /\ vector (h_irq k) /\ q_act t !! h_irq k = Some a
    /\ rm_irq_handler h (with_irqs t s) = Done tt (with_irqs (removed (h_irq k) pre suf (h_id k) a t) s)
    /\ irqs_ok (removed (h_irq k) pre suf (h_id k) a t) (at_line L (h_irq k) (pre ++ suf)) (Some h).
Proof.
  intros H Hk Hu. destruct (ho_used _ _ _ (iq_hooks _ _ _ H) h _ (hdata_lookup _ _ _ Hk) Hu) as (Hi & Hin & _); [done|].
  change (h_irq (set_h_next None k)) with (h_irq k) in Hi, Hin. set (irq := h_irq k) in *.
  apply list_elem_of_split in Hin as (pre & suf & Hl). destruct (ac_some _ _ _ _ (iq_acts _ _ _ H) irq Hi) as (a & Ha & Hnn).
  destruct (hid_bit _ _ _ _ h H Hi ltac:(rewrite Hl; set_solver)) as (j & Hj & Ej). unfold hid in Ej. rewrite Hk in Ej.
  destruct (rm_loop_run s t L None irq h k pre suf a H Hi Hl Hk Ha) as [E HL].
  pose proof (chain_NoDup _ _ _ (iq_lines _ _ _ H irq Hi)) as Hnd. rewrite Hl in Hnd.
  pose proof (NoDup_middle _ _ _ Hnd) as Hoff.
  exists pre, suf, a. split; [done|]. split; [done|]. split; [done|]. split.
  - unfold rm_irq_handler. rewrite (bind_done _ _ _ _ _ (get_hook_run s t h k Hk)). fold irq. cbn zeta.
    rewrite vector_bound by done. rewrite bind_ret, (bind_done _ _ _ _ _ E). unfold removed.
    set (t2 := unlinked_at irq pre suf (h_id k) a t) in *. pose proof (HL irq Hi) as Hc. rewrite at_line_same in Hc.
    rewrite (bind_done _ _ _ _ _ (read_line s t2 irq [] (pre ++ suf) Hc ltac:(by intros y ?%elem_of_nil))).
    assert (q_mask t2 = q_mask t) as Hm by apply (write_line_rest irq pre (head suf) t). rewrite <- Hm.
    destruct (pre ++ suf) as [|y l]; cbn [head]; [done|].
    rewrite (bind_done _ _ _ _ _ (get_act_run s t2 irq (flag_clr a (h_id k)) ltac:(apply lookup_insert_eq))).
    destruct (flag_clr a (h_id k) =? 0); [done|]. by destruct t2.
  - split; [exact HL| |].
    + change (hdata (removed irq pre suf (h_id k) a t)) with (hdata (unlinked_at irq pre suf (h_id k) a t)).
      rewrite unlinked_data. by apply hooks_leave; [apply H|..].
    + change (hdata (removed irq pre suf (h_id k) a t)) with (hdata (unlinked_at irq pre suf (h_id k) a t)).
      rewrite unlinked_data. cbn [removed q_act q_mask put_masks unlinked_at put_acts].
      apply (acts_line (hdata t) _ _ (q_mask t)); [apply H|done|by apply flag_clr_nonneg| |done|..].
      * intros i Hne. destruct (pre ++ suf); [by rewrite lookup_insert_ne|]. destruct (_ =? 0); [by rewrite lookup_insert_ne|done].
      * rewrite Ej. intros i Hi0 [Hb Hij]%clr_bit; [|lia|lia].
        destruct (ac_bits _ _ _ _ (iq_acts _ _ _ H) irq a i Hi Ha Hi0 Hb) as (y & d & Hy & Hd & Ed). exists y, d. split; [|done].
        rewrite Hl in Hy. apply elem_of_app in Hy as [Hy|[->|Hy]%elem_of_cons]; [apply elem_of_app; by left| |apply elem_of_app; by right].
        rewrite (hdata_lookup _ _ _ Hk) in Hd. injection Hd as <-. cbn in Ed. rewrite Ej in Ed.
        apply Z.pow_inj_r in Ed; [congruence|lia..].
      * intros Hx Hne. destruct (pre ++ suf) as [|y l]; [done|].
        destruct (Z.eqb_spec (flag_clr a (h_id k)) 0) as [|Hz]; [by rewrite lookup_insert_eq|].
        rewrite (ac_mask _ _ _ _ (iq_acts _ _ _ H) irq a Hi Hx ltac:(rewrite Hl; by destruct pre) Ha).
        by rewrite (proj2 (Z.eqb_neq _ _) (clr_nonzero _ _ Hz)).
Qed.

(** A hook off all lines can be written to. *)
Lemma transit_upd t L h k k' :
  irqs_ok t L (Some h) -> q_hooks t !! h = Some k -> irqs_ok (put_hooks (<[h := k']> (q_hooks t)) t) L (Some h).
Proof.
  intros H Hk. assert (hdata (put_hooks (<[h := k']> (q_hooks t)) t) = <[h := set_h_next None k']> (hdata t)) as ED
    by (unfold hdata; cbn; apply fmap_insert).
  assert (forall irq y, vector irq -> y ∈ L irq -> y <> h) as Hoff by (intros irq y Hi Hy ->; by eapply off_lines).
  split; rewrite ?ED.
  - intros irq Hi. eapply chain_ext; [|apply (iq_lines _ _ _ H irq Hi)]. intros y Hy. unfold qnext. cbn.
    rewrite lookup_insert_ne; [done|]. intros <-. by eapply Hoff.
  - destruct (iq_hooks _ _ _ H) as [A1 A2 A3 A4 A5]. split.
    + intros y. rewrite <- A1. destruct (decide (y = h)) as [->|]; [|by rewrite lookup_insert_ne].
      rewrite lookup_insert_eq, (hdata_lookup _ _ _ Hk). split; by eexists.
    + intros irq y Hi Hy. rewrite lookup_insert_ne; [by apply A2|]. intros <-. by eapply Hoff.
    + intros y d Hd Hu Hx. rewrite lookup_insert_ne in Hd by congruence. by apply A3.
    + intros irq y y' d d' Hi Hy Hy' Hd Hd'. rewrite lookup_insert_ne in Hd by (intros E; by apply (Hoff irq y Hi Hy)).
      rewrite lookup_insert_ne in Hd' by (intros E; by apply (Hoff irq y' Hi Hy')). by eapply A4.
    + intros y y' d d' Hd Hd' Hx Hx'. rewrite lookup_insert_ne in Hd by congruence. rewrite lookup_insert_ne in Hd' by congruence.
      by apply A5.
  - destruct (iq_acts _ _ _ H) as [B1 B2 B3]. split; [exact B1| |exact B3].
    intros irq a j Hi Ha Hj Hb. destruct (B2 irq a j Hi Ha Hj Hb) as (y & d & Hy & Hd & E). exists y, d. split_and!; try done.
    rewrite lookup_insert_ne; [done|]. intros <-. by eapply Hoff.
Qed.

(** A free hook may be off all lines, and the other way round. *)
Lemma transit_free t L h k :
  q_hooks t !! h = Some k -> h_proc_nr_e k = NONE -> irqs_ok t L None <-> irqs_ok t L (Some h).
Proof.
  intros Hk Hf. split; intros [H1 [A1 A2 A3 A4 A5] H3]; (split; [done| |done]); split; try done.
  - intros irq y Hi Hy. destruct (A2 irq y Hi Hy) as (_ & d & j & Hd & Hr). split; [|by exists d, j].
    intros [= ->]. rewrite (hdata_lookup _ _ _ Hk) in Hd. injection Hd as <-. cbn in Hr. by destruct Hr as (_ & ? & _).
  - intros y d Hd Hu _. by apply A3.
  - intros y y' d d' Hd Hd' _ _. by apply A5.
  - intros irq y Hi Hy. destruct (A2 irq y Hi Hy) as (_ & ?). done.
  - intros y d Hd Hu _. apply A3; [done|done|]. intros [= ->]. rewrite (hdata_lookup _ _ _ Hk) in Hd. by injection Hd as <-.
  - intros y y' d d' Hd Hd' _ _ Hu E En. assert (h_proc_nr_e d' <> NONE) as Hu' by congruence.
    apply (A5 y y' d d'); try done; intros [= ->];
      [rewrite (hdata_lookup _ _ _ Hk) in Hd; by injection Hd as <-|rewrite (hdata_lookup _ _ _ Hk) in Hd'; by injection Hd' as <-].
Qed.

(** ** Deciding the invariant of concrete tables *)
Definition line_of (t : irqs) (irq : Z) : list Z := walk line_fuel (qnext t) (q_heads t !! irq).

Definition bitb (D : gmap Z irq_hook) (l : list Z) (j : Z) : bool :=
  existsb (fun h => match D !! h with Some d => h_id d =? 2 ^ j | None => false end) l.

Definition lineb (t : irqs) (irq : Z) : bool :=
  let D := hdata t in
  let l := line_of t irq in
  chainb (qnext t) (q_heads t !! irq) l
  && forallb (fun h => match D !! h with
       | Some d => (h_irq d =? irq) && negb (h_proc_nr_e d =? NONE) && existsb (fun j => h_id d =? 2 ^ j) (seqZ 0 32)
       | None => false
       end) l
  && bool_decide (NoDup (map (fun h => h_id <$> D !! h) l))
  && match q_act t !! irq with
     | Some a => (0 <=? a) && (a <? 2 ^ 32) && forallb (fun j => negb (Z.testbit a j) || bitb D l j) (seqZ 0 32)
         && (IS_MSIX_IRQ irq || bool_decide (l = []) || bool_decide (q_mask t !! irq = Some (negb (a =? 0))))
     | None => false
     end.

Definition usedb (t : irqs) (h : Z) : bool :=
  match hdata t !! h with Some d => negb (h_proc_nr_e d =? NONE) | None => false end.

Definition irqs_okb (t : irqs) : bool :=
  let D := hdata t in
  bool_decide (dom D = list_to_set irq_hook_table)
  && forallb (lineb t) irq_vectors
  && forallb (fun h => match D !! h with
       | Some d => (h_proc_nr_e d =? NONE) || ((0 <=? h_irq d) && (h_irq d <? NR_IRQ_VECTORS) && bool_decide (h ∈ line_of t (h_irq d))
                     && (0 <=? h_notify_id d) && (h_notify_id d <? 64))
       | None => true
       end) irq_hook_table
  && bool_decide (NoDup (map (fun h => (fun d => (h_proc_nr_e d, h_notify_id d)) <$> D !! h) (filter (fun h => usedb t h = true) irq_hook_table))).

Lemma NoDup_map_inj {X Y : Type} (f : X -> Y) (l : list X) u w : NoDup (map f l) -> u ∈ l -> w ∈ l -> f u = f w -> u = w.
Proof.
  induction l as [|a l IH]; intros Hnd Hu Hw E; [by apply elem_of_nil in Hu|]. cbn in Hnd. apply NoDup_cons in Hnd as [Hn Hnd].
  apply elem_of_cons in Hu as [->|Hu]; apply elem_of_cons in Hw as [->|Hw]; [done|..|by apply IH].
  - destruct Hn. rewrite E. by apply list_elem_of_fmap_2.
  - destruct Hn. rewrite <- E. by apply list_elem_of_fmap_2.
Qed.

Lemma forallb_elem {X : Type} (f : X -> bool) l u : forallb f l = true -> u ∈ l -> f u = true.
Proof. rewrite forallb_forall. intros H Hu. by apply H, list_elem_of_In. Qed.

Lemma vector_elem irq : vector irq -> irq ∈ irq_vectors.
Proof.
  intros H. unfold irq_vectors. apply list_elem_of_fmap. exists (Z.to_nat irq). unfold vector, NR_IRQ_VECTORS in *.
  split; [lia|]. apply elem_of_seq. lia.
Qed.

Section Checker.
Context (t : irqs) (Hb : irqs_okb t = true).

Lemma irqs_okb_parts :
  dom (hdata t) = list_to_set irq_hook_table /\ (forall irq, vector irq -> lineb t irq = true)
  /\ (forall h d, h ∈ irq_hook_table -> hdata t !! h = Some d -> h_proc_nr_e d <> NONE ->
       vector (h_irq d) /\ h ∈ line_of t (h_irq d) /\ 0 <= h_notify_id d < 64)
  /\ NoDup (map (fun h => (fun d => (h_proc_nr_e d, h_notify_id d)) <$> hdata t !! h) (filter (fun h => usedb t h = true) irq_hook_table)).
Proof.
  unfold irqs_okb in Hb. apply andb_true_iff in Hb as [H1 H4%bool_decide_eq_true]. apply andb_true_iff in H1 as [H1 H3].
  apply andb_true_iff in H1 as [H1%bool_decide_eq_true H2]. split; [done|]. split; [|split; [|done]].
  - intros irq Hi%vector_elem. by apply (forallb_elem _ _ _ H2).
  - intros h d Hh Hd Hu. pose proof (forallb_elem _ _ _ H3 Hh) as E. cbn beta in E. rewrite Hd in E.
    rewrite (proj2 (Z.eqb_neq _ _) Hu) in E. cbn [orb] in E. rewrite !andb_true_iff in E.
    destruct E as ((((E1%Z.leb_le & E2%Z.ltb_lt) & E3%bool_decide_eq_true) & E4%Z.leb_le) & E5%Z.ltb_lt). by split.
Qed.

Lemma lineb_parts irq :
  vector irq -> chain (qnext t) (q_heads t !! irq) (line_of t irq)
  /\ (forall h, h ∈ line_of t irq -> exists d j, hdata t !! h = Some d /\ h_irq d = irq /\ h_proc_nr_e d <> NONE /\ 0 <= j < 32 /\ h_id d = 2 ^ j)
  /\ NoDup (map (fun h => h_id <$> hdata t !! h) (line_of t irq))
  /\ exists a, q_act t !! irq = Some a /\ 0 <= a /\ (forall j, 0 <= j -> Z.testbit a j = true -> has_bit (hdata t) (line_of t irq) j)
     /\ (IS_MSIX_IRQ irq = false -> line_of t irq <> [] -> q_mask t !! irq = Some (negb (a =? 0))).
Proof.
  intros Hi. pose proof (proj1 (proj2 irqs_okb_parts) irq Hi) as H. unfold lineb in H.
  apply andb_true_iff in H as [H Ha]. apply andb_true_iff in H as [H Hids%bool_decide_eq_true]. apply andb_true_iff in H as [Hc%chainb_sound Hon].
  split; [done|]. split; [|split; [done|]].
  - intros h Hh. pose proof (forallb_elem _ _ _ Hon Hh) as E. cbn beta in E. destruct (hdata t !! h) as [d|]; [|done].
    rewrite !andb_true_iff, existsb_exists in E. destruct E as ((E1%Z.eqb_eq & E2%negb_true_iff%Z.eqb_neq) & j & Hj%list_elem_of_In%elem_of_seqZ & Ej%Z.eqb_eq).
    exists d, j. split_and!; try done; lia.
  - destruct (q_act t !! irq) as [a|]; [|done]. rewrite !andb_true_iff in Ha. destruct Ha as (((A1%Z.leb_le & A2%Z.ltb_lt) & A3) & A4).
    exists a. split_and!; try done.
    + intros j Hj Hbit. assert (j < 32) as Hlt.
      { destruct (Z_lt_le_dec j 32) as [|Hge]; [done|]. destruct (Z.eq_dec a 0) as [->|Hz]; [by rewrite Z.bits_0 in Hbit|].
        rewrite Z.bits_above_log2 in Hbit; [done|done|]. apply Z.log2_lt_pow2; [lia|]. eapply Z.lt_le_trans; [exact A2|]. by apply Z.pow_le_mono_r. }
      pose proof (forallb_elem _ _ _ A3 (proj2 (elem_of_seqZ 0 32 j) ltac:(lia))) as E. cbn beta in E. rewrite Hbit in E. cbn in E.
      unfold bitb in E. rewrite existsb_exists in E. destruct E as (h & Hh%list_elem_of_In & E). destruct (hdata t !! h) as [d|] eqn:Hd; [|done].
      exists h, d. split_and!; [done|done|by apply Z.eqb_eq].
    + intros Hx Hl. rewrite Hx in A4. cbn [orb] in A4. apply orb_true_iff in A4 as [?%bool_decide_eq_true|?%bool_decide_eq_true]; done.
Qed.

Lemma irqs_okb_sound : irqs_ok t (line_of t) None.
Proof.
  destruct irqs_okb_parts as (Hdom & _ & Hused & Hown).
  assert (forall h d, hdata t !! h = Some d -> h ∈ irq_hook_table) as Htab.
  { intros h d Hd. apply (elem_of_list_to_set (C := gset Z)). rewrite <- Hdom. by apply elem_of_dom_2 in Hd. }
  split; [intros irq Hi; apply (lineb_parts irq Hi)| |].
  - split.
    + intros h. rewrite <- elem_of_dom, Hdom, elem_of_list_to_set. unfold irq_hook_table. rewrite list_elem_of_fmap. split.
      * intros (i & -> & Hi%elem_of_seq). unfold NR_IRQ_HOOKS in *. lia.
      * intros H. exists (Z.to_nat h). split; [lia|]. apply elem_of_seq. unfold NR_IRQ_HOOKS in *. lia.
    + intros irq h Hi Hh. split; [done|]. by apply (lineb_parts irq Hi).
    + intros h d Hd Hu _. by apply Hused; [eapply Htab|..].
    + intros irq h h' d d' Hi Hh Hh' Hd Hd' E. eapply (NoDup_map_inj (fun h => h_id <$> hdata t !! h)); [apply (lineb_parts irq Hi)|done|done|].
      cbn. rewrite Hd, Hd'. cbn. congruence.
    + intros h h' d d' Hd Hd' _ _ Hu Ep En.
      eapply (NoDup_map_inj (fun h => (fun d => (h_proc_nr_e d, h_notify_id d)) <$> hdata t !! h)); [exact Hown|..].
      * apply list_elem_of_filter. split; [|by eapply Htab]. unfold usedb. by rewrite Hd, (proj2 (Z.eqb_neq _ _) Hu).
      * apply list_elem_of_filter. split; [|by eapply Htab]. unfold usedb. by rewrite Hd', (proj2 (Z.eqb_neq _ _)) by congruence.
      * cbn. rewrite Hd, Hd'. cbn. congruence.
  - split.
    + intros irq Hi. destruct (lineb_parts irq Hi) as (_ & _ & _ & a & Ha & Hn & _). by exists a.
    + intros irq a j Hi Ha. destruct (lineb_parts irq Hi) as (_ & _ & _ & a' & Ha' & _ & Hbits & _). rewrite Ha in Ha'. injection Ha' as <-. apply Hbits.
    + intros irq a Hi Hx Hl Ha. destruct (lineb_parts irq Hi) as (_ & _ & _ & a' & Ha' & _ & _ & Hm). rewrite Ha in Ha'. injection Ha' as <-. auto.
Qed.
End Checker.
