(* ===== verification/Grants.v ===== *)
(** * Memory grants

    Models [kernel/system/do_safecopy.c], [do_safememset.c], [do_umap.c] and
    [do_umap_remote.c]: a process may copy from or to the memory of another
    when that process has granted it the access, directly, through a chain of
    indirect grants, or by a magic grant of VFS or MIB.  The grant tables are
    in the memory of their owners; a table entry the kernel cannot read is
    absent from [gtab].  The kinds of grant share the words of a union, read
    here the way the kernel reads them.

    The copy itself ([Vm]), the filling of memory and the lookup in page tables
    are arguments. *)

From S2P Require Import Prelude Monad Timers Endpoint Chain Kernel Sched Init Ipc System Vm.

Definition ELOOP : Z := -62.
Definition MIB_PROC_NR : Z := 7.
Definition MAX_INDIRECT_DEPTH : nat := 5.
Definition MEM_TOP : Z := 0xffffffff.
Definition SIZEOF_GRANT : Z := 40.
Definition SCPVEC_NR : Z := 64.
Definition SEGMENT_TYPE : Z := 0xff00.
Definition SEGMENT_INDEX : Z := 0x00ff.
Definition LOCAL_VM_SEG : Z := 0x1000.
Definition MEM_GRANT : Z := 3.
Definition VIR_ADDR : Z := 1.

Definition GRANT_INVALID : Z := -1.
Definition GRANT_VALID (g : Z) : bool := GRANT_INVALID <? g.
Definition GRANT_SHIFT : Z := 20.
Definition GRANT_MAX_SEQ : Z := Z.shiftl 1 (31 - GRANT_SHIFT).
Definition GRANT_MAX_IDX : Z := Z.shiftl 1 GRANT_SHIFT.
Definition GRANT_ID (idx seq : Z) : Z := i32 (Z.lor (Z.shiftl seq GRANT_SHIFT) idx).
Definition GRANT_SEQ (g : Z) : Z := Z.land (Z.shiftr g GRANT_SHIFT) (GRANT_MAX_SEQ - 1).
Definition GRANT_IDX (g : Z) : Z := Z.land g (GRANT_MAX_IDX - 1).

Definition CPF_READ : Z := 0x1.
Definition CPF_WRITE : Z := 0x2.
Definition CPF_TRY : Z := 0x10.
Definition CPF_USED : Z := 0x100.
Definition CPF_DIRECT : Z := 0x200.
Definition CPF_INDIRECT : Z := 0x400.
Definition CPF_MAGIC : Z := 0x800.
Definition CPF_VALID : Z := 0x1000.
Definition GRANT_FAULTED : Z := 1.
#[export] Instance bit_cpf_used : SingleBit CPF_USED. Proof. flag_instance 8. Defined.
#[export] Instance bit_cpf_valid : SingleBit CPF_VALID. Proof. flag_instance 12. Defined.

(** ** The union of a grant *)
Definition direct_who_to (g : cp_grant) : Z := cp_w0 g.
Definition direct_start (g : cp_grant) : Z := cp_w8 g.
Definition direct_len (g : cp_grant) : Z := cp_w16 g.
Definition indirect_who_to (g : cp_grant) : Z := cp_w0 g.
Definition indirect_who_from (g : cp_grant) : Z := cp_w4 g.
Definition indirect_grant (g : cp_grant) : Z := i32 (cp_w8 g).
Definition magic_who_from (g : cp_grant) : Z := cp_w0 g.
Definition magic_who_to (g : cp_grant) : Z := cp_w4 g.
Definition magic_start (g : cp_grant) : Z := cp_w8 g.
Definition magic_len (g : cp_grant) : Z := cp_w16 g.

(** ** Verification *)

(** [struct cp_sfinfo], with the fields that are set when [sf_try] is. *)
Record cp_sfinfo := mkSf { sf_try : bool; sf_endpt : Z; sf_addr : Z; sf_value : Z }.

(** What [verify_grant] writes through its pointers. *)
Record verified := mkVf { vf_offset : Z; vf_granter : Z; vf_sfinfo : cp_sfinfo }.

Definition HASGRANTTABLE (pv : priv) : bool := negb (s_grant_table pv =? 0).

(** The address of a table entry, in the address space of the granter. *)
Definition grant_addr (pv : priv) (grant : Z) : Z := u64 (s_grant_table pv + SIZEOF_GRANT * GRANT_IDX grant).

Definition read_grant (granter addr : Z) : K (option cp_grant) := gets (fun s => gtab s !! (granter, addr)).

(** [offset_in + bytes] fits in the grant of [len] bytes. *)
Definition bad_range (offset_in bytes len : Z) : bool :=
  (u64 (offset_in + bytes) <? offset_in) || (len <? u64 (offset_in + bytes)).

(** The checks on the grant at the end of the chain; the answer [Some v] is
    what is written on success. *)
Definition verify_final (granter grantee grant bytes access offset_in : Z) (pv : priv) (g : cp_grant)
    : Z * option verified :=
  let sf := mkSf (has (cp_flags g) CPF_TRY) granter (u64 (grant_addr pv grant + 32)) grant in
  if negb (Z.land (cp_flags g) access =? access) then (EPERM, None)
  else if has (cp_flags g) CPF_DIRECT then
    if u64 (MEM_TOP - direct_len g + 1) <? direct_start g then (EPERM, None)
    else if negb (direct_who_to g =? grantee) && negb (grantee =? ANY) && negb (direct_who_to g =? ANY)
    then (EPERM, None)
    else if bad_range offset_in bytes (direct_len g) then (EPERM, None)
    else (OK, Some (mkVf (u64 (direct_start g + offset_in)) granter sf))
  else if has (cp_flags g) CPF_MAGIC then
    if negb (granter =? VFS_PROC_NR) && negb (granter =? MIB_PROC_NR) then (EPERM, None)
    else if negb (magic_who_to g =? grantee) && negb (grantee =? ANY) && negb (direct_who_to g =? ANY)
    then (EPERM, None)
    else if bad_range offset_in bytes (magic_len g) then (EPERM, None)
    else (OK, Some (mkVf (u64 (magic_start g + offset_in)) (magic_who_from g) sf))
  else (EPERM, None).

(** The checks on one grant of the chain; [indirect g] goes on with an indirect
    one.  With [access = 0] and a temporary grant table, the answer is [OK] and
    nothing is written. *)
Definition verify_step (indirect : cp_grant -> K (Z * option verified))
    (granter grantee grant bytes access offset_in : Z) : K (Z * option verified) :=
  ok <- isokendpt granter ;;
  match ok with
  | None => ret (EINVAL, None)
  | Some proc_nr =>
      if negb (GRANT_VALID grant) then ret (EINVAL, None)
      else
        p <- get_proc proc_nr ;; pv <- priv_of p ;;
        let temporary := negb (s_grant_endpoint pv =? p_endpoint p) in
        if temporary && (access =? 0) then ret (OK, None)
        else if temporary && (negb (HASGRANTTABLE pv) || negb (grantee =? s_grant_endpoint pv))
        then ret (ENOTREADY, None)
        else if negb (HASGRANTTABLE pv) then ret (EPERM, None)
        else if s_grant_entries pv <=? GRANT_IDX grant then ret (EPERM, None)
        else
          r <- read_grant granter (grant_addr pv grant) ;;
          match r with
          | None => ret (EPERM, None)
          | Some g =>
              if negb (Z.land (cp_flags g) (Z.lor CPF_USED CPF_VALID) =? Z.lor CPF_USED CPF_VALID)
              then ret (EPERM, None)
              else if negb (cp_seq g =? GRANT_SEQ grant) then ret (EPERM, None)
              else if has (cp_flags g) CPF_INDIRECT then indirect g
              else ret (verify_final granter grantee grant bytes access offset_in pv g)
          end
  end.

(** [left] is the number of indirect grants that may still be followed. *)
Fixpoint verify_loop (left : nat) (granter grantee grant bytes access offset_in : Z)
    : K (Z * option verified) :=
  verify_step (fun g =>
    match left with
    | O => ret (ELOOP, None)
    | S left' =>
        if negb (indirect_who_to g =? grantee) && negb (grantee =? ANY) && negb (indirect_who_to g =? ANY)
        then ret (EPERM, None)
        else verify_loop left' (indirect_who_from g) granter (indirect_grant g) bytes access offset_in
    end) granter grantee grant bytes access offset_in.

Definition verify_grant (granter grantee grant bytes access offset_in : Z) : K (Z * option verified) :=
  verify_loop MAX_INDIRECT_DEPTH granter grantee grant bytes access offset_in.

(** ** Copies under a grant *)

(** [struct vscp_vec]. *)
Record vscp_vec := mkVec {
  v_from : Z;
  v_to : Z;
  v_gid : Z;
  v_offset : Z;
  v_addr : Z;
  v_bytes : Z
}.

(** Mark the grant at [sf_addr] as faulted; whether that works is only
    reported. *)
Definition mark_faulted (sf : cp_sfinfo) : K unit :=
  modify (fun s => set_gtab (alter (set_cp_faulted (sf_value sf)) (sf_endpt sf, u64 (sf_addr sf - 32)) (gtab s)) s).

Section Safecopy.
Context (lin_lin_copy : option Z -> Z -> option Z -> Z -> Z -> K Z).

Definition safecopy (caller granter grantee grantid bytes g_offset addr access : Z) : K Z :=
  if (granter =? NONE) || (grantee =? NONE) then ret EFAULT
  else
    v <- verify_grant granter grantee grantid bytes access g_offset ;;
    let '(r, res) := v in
    if negb (r =? OK) then ret r
    else match res with
         | None => halt BadAccess
         | Some vf =>
             let granted := mkVir (vf_granter vf) (vf_offset vf) in
             let own := mkVir grantee addr in
             let '(src, dst) := if has access CPF_READ then (granted, own) else (own, granted) in
             if sf_try (vf_sfinfo vf) then
               r <- virtual_copy lin_lin_copy src dst bytes ;;
               if (r =? EFAULT_SRC) || (r =? EFAULT_DST) then mark_faulted (vf_sfinfo vf) ;; ret EFAULT
               else ret r
             else virtual_copy_vmcheck lin_lin_copy caller src dst bytes
         end.

Definition do_safecopy_to (caller from_to gid bytes offset address : Z) : K Z :=
  c <- get_proc caller ;; safecopy caller from_to (p_endpoint c) gid bytes offset address CPF_WRITE.

Definition do_safecopy_from (caller from_to gid bytes offset address : Z) : K Z :=
  c <- get_proc caller ;; safecopy caller from_to (p_endpoint c) gid bytes offset address CPF_READ.

Fixpoint vsafecopy_loop (caller e : Z) (vec : list vscp_vec) : K Z :=
  match vec with
  | [] => ret OK
  | x :: vec' =>
      let sel := if v_from x =? SELF then Some (CPF_WRITE, v_to x)
                 else if v_to x =? SELF then Some (CPF_READ, v_from x) else None in
      match sel with
      | None => ret EINVAL
      | Some (access, granter) =>
          r <- safecopy caller granter e (v_gid x) (v_bytes x) (v_offset x) (v_addr x) access ;;
          if negb (r =? OK) then ret r else vsafecopy_loop caller e vec'
      end
  end.

(** [do_vsafecopy]; [read_vec e addr els] is the vector of the caller as the
    copy of [els] elements into the static array [vec] leaves it.  The array
    has room for [SCPVEC_NR] elements, and the number is not checked: a copy of
    more that succeeded has been written past its end. *)
Definition do_vsafecopy (read_vec : Z -> Z -> Z -> list vscp_vec) (caller vec_addr vec_size : Z) : K Z :=
  c <- get_proc caller ;;
  assert (negb (p_endpoint c =? NONE)) ;;
  let bytes := u64 (vec_size * 40) in
  r <- virtual_copy_vmcheck lin_lin_copy caller (mkVir (p_endpoint c) vec_addr) (mkVir KERNEL 0) bytes ;;
  if negb (r =? OK) then ret r
  else if SCPVEC_NR * 40 <? bytes then halt BadAccess
  else vsafecopy_loop caller (p_endpoint c) (read_vec (p_endpoint c) vec_addr vec_size).
End Safecopy.

(** [vm_memset caller who addr pattern len] fills memory. *)
Definition do_safememset (vm_memset : Z -> Z -> Z -> Z -> Z -> K Z)
    (caller dst_endpt grantid g_offset pattern len : Z) : K Z :=
  c <- get_proc caller ;;
  let caller_endpt := p_endpoint c in
  if (dst_endpt =? NONE) || (caller_endpt =? NONE) then ret EFAULT
  else
    d <- endpoint_lookup dst_endpt ;;
    match d with
    | None => ret EINVAL
    | Some dst_p =>
        pv <- priv_at dst_p ;;
        if negb (HASGRANTTABLE pv) then ret EINVAL
        else
          v <- verify_grant dst_endpt caller_endpt grantid len CPF_WRITE g_offset ;;
          let '(r, res) := v in
          if negb (r =? OK) then ret r
          else match res with
               | None => halt BadAccess
               | Some vf => vm_memset caller (vf_granter vf) (vf_offset vf) pattern len
               end
    end.

(** ** Physical addresses *)
Section Umap.
(** [vm_lookup p addr] is the physical address of a mapped page,
    [vm_lookup_range p addr n] the length of the contiguous range there, when
    VM runs. *)
Context (vm_lookup : Z -> Z -> option Z) (vm_lookup_range : Z -> Z -> Z -> option Z).

(** The physical address is part of the reply when it is written. *)
Definition do_umap_remote (caller segment src_addr nr_bytes src_endpt dst_endpt : Z) : K (Z * option Z) :=
  let seg_type := Z.land segment SEGMENT_TYPE in
  let seg_index := Z.land segment SEGMENT_INDEX in
  c <- get_proc caller ;;
  ok <- (if src_endpt =? SELF then n <- okendpt (p_endpoint c) ;; ret (Some n) else isokendpt src_endpt) ;;
  match ok with
  | None => ret (EINVAL, None)
  | Some target =>
      g <- (if dst_endpt =? SELF then ret (Some (p_endpoint c))
            else if (dst_endpt =? NONE) || (dst_endpt =? ANY) || negb (seg_index =? MEM_GRANT) then ret None
            else ok <- isokendpt dst_endpt ;;
                 ret (match ok with Some _ => Some dst_endpt | None => None end)) ;;
      match g with
      | None => ret (EINVAL, None)
      | Some grantee =>
          if negb (seg_type =? LOCAL_VM_SEG) then ret (EINVAL, None)
          else
            where_ <- (if seg_index =? MEM_GRANT then
                         t <- get_proc target ;;
                         v <- verify_grant (p_endpoint t) grantee (i32 src_addr) (u64 nr_bytes) 0 0 ;;
                         let '(r, res) := v in
                         if negb (r =? OK) then ret None
                         else match res with
                              | None => halt BadAccess
                              | Some vf =>
                                  n <- isokendpt (vf_granter vf) ;;
                                  ret (match n with Some n => Some (vf_offset vf, n) | None => None end)
                              end
                       else if seg_index =? VIR_ADDR then ret (Some (src_addr, target))
                       else ret None) ;;
            match where_ with
            | None => ret (EFAULT, None)
            | Some (lin_addr, targetpr) =>
                if lin_addr =? 0 then ret (EFAULT, None)
                else match vm_lookup targetpr lin_addr with
                     | None => ret (EFAULT, None)
                     | Some phys_addr =>
                         if phys_addr =? 0 then halt Panic
                         else match vm_lookup_range targetpr lin_addr (u64 nr_bytes) with
                              | Some n => if n =? u64 nr_bytes then ret (OK, Some phys_addr) else ret (EFAULT, None)
                              | None => ret (OK, Some phys_addr)
                              end
                     end
            end
      end
  end.

Definition do_umap (caller segment src_addr nr_bytes src_endpt : Z) : K (Z * option Z) :=
  if negb (Z.land segment SEGMENT_INDEX =? MEM_GRANT) && negb (src_endpt =? SELF) then ret (EPERM, None)
  else do_umap_remote caller segment src_addr nr_bytes src_endpt SELF.
End Umap.
