(* ===== verification/Boot.v ===== *)
(** * The system start

    Models the part of the start that fills the tables: [kmain], [cstart],
    [bsp_finish_booting] (kernel/main.c) with the boot image of kernel/table.c,
    [init_clock] (kernel/clock.c), [irq_thread_init] (kernel/irq_thread.c) and
    [system_init] (kernel/system.c); then the kernel calls by which VM
    ([exec_bootproc], servers/vm/main.c) and RS ([sef_cb_init_fresh],
    servers/rs/main.c) let the processes of the boot image run.  Page tables,
    the timer and the interrupt controller belong to the machine.  The boot
    parameter [hz], the number of boot modules and whether the loading of VM and
    of the other programs works are arguments; [boot] is the start in which it
    does. *)

From Stdlib Require Import Ascii.
From S2P Require Import Prelude Monad Timers Endpoint AuditRing DrvQueue Chain Kernel Sched Init Ipc System Clock Vm AuditCall Privctl Irq Grants.

Definition MEM_PROC_NR : Z := 3.
Definition TTY_PROC_NR : Z := 5.
Definition DS_PROC_NR : Z := 6.
Definition PFS_PROC_NR : Z := 9.
Definition MFS_PROC_NR : Z := 10.
Definition INIT_PROC_NR : Z := 11.
Definition NR_BOOT_MODULES : Z := INIT_PROC_NR + 1.
Definition DEFAULT_HZ : Z := 100.

(** [kernel/table.c] *)
Definition image : list (Z * string) :=
  [(ASYNCM, "asyncm"); (IDLE, "idle"); (CLOCK, "clock"); (SYSTEM, "system"); (HARDWARE, "kernel");
   (DS_PROC_NR, "ds"); (RS_PROC_NR, "rs"); (PM_PROC_NR, "pm"); (SCHED_PROC_NR, "sched"); (VFS_PROC_NR, "vfs");
   (MEM_PROC_NR, "memory"); (TTY_PROC_NR, "tty"); (MIB_PROC_NR, "mib"); (VM_PROC_NR, "vm"); (PFS_PROC_NR, "pfs");
   (MFS_PROC_NR, "mfs"); (INIT_PROC_NR, "init")]%string.

(** Default privileges ([include/minix/priv.h]). *)
Definition ROOT_SYS_PROC : Z := 0x100.
Definition VM_SYS_PROC : Z := 0x200.
Definition RSYS_F : Z := Z.lor SRV_F ROOT_SYS_PROC.
Definition VM_F : Z := Z.lor SYS_PROC VM_SYS_PROC.
Definition TSK_I : Z := 0.
Definition SRV_I : Z := 0.
Definition USR_I : Z := 0.
Definition TSK_T : Z := 0.
Definition SRV_T : Z := -1.
Definition USR_T : Z := Z.shiftl 1 SENDREC.
Definition SRV_SM : Z := RS_PROC_NR.
Definition USR_SM : Z := PM_PROC_NR.
Definition MAX_USER_Q : Z := 0.
Definition MIN_USER_Q : Z := NR_SCHED_QUEUES - 1.
Definition USER_Q : Z := (MIN_USER_Q - MAX_USER_Q) / 2 + MAX_USER_Q.
Definition USER_QUANTUM : Z := 200.
Definition NO_CALLS : list Z := replicate SYS_CALL_MASK_SIZE 0.

Definition static_priv_id (n : Z) : Z := NR_TASKS + n.

(** ** [cstart] *)
Definition init_clock (hz : option Z) : K unit :=
  modify (fun s =>
    set_system_hz (match hz with
                   | Some h => if (h <? 2) || (50000 <? h) then DEFAULT_HZ else h
                   | None => DEFAULT_HZ
                   end)
      (set_kloadinfo (mkLoad 0 ∅ 0) (set_k_realtime 0 (set_k_boottime 0 (set_k_monotonic 0 s))))).

Definition irq_thread_row (i : Z) : irq_thread :=
  mkIthr i (IRQ_PRIO_MAX - Z.quot (i * (IRQ_PRIO_MAX - IRQ_PRIO_MIN)) (NR_IRQ_THREADS - 1)) NONE false 0 None 0 0 0 0 0 0.

(** The process of an interrupt thread. *)
Definition irq_thread_name (i : Z) : string :=
  let digit n := String (ascii_of_nat (48 + Z.to_nat n)) EmptyString in
  ("irqd_" ++ digit (i / 10) ++ digit (i mod 10))%string.
Definition irq_thread_proc (i proc_nr : Z) : proc :=
  set_p_name (irq_thread_name i)
    (set_p_kthread 1 (set_p_rts_flags RTS_SLOT_FREE (set_p_cpu cpuid
      (set_p_endpoint (ENDPOINT 0 proc_nr) (set_p_nr proc_nr (set_p_magic PMAGIC proc_zero)))))).

(** One thread; nothing happens when the slot is not marked as free. *)
Definition irq_thread_create (i : Z) : K unit :=
  let proc_nr := IRQ_THREAD_BASE + i in
  p <- get_proc proc_nr ;;
  if negb (isemptyp p) then ret tt
  else
    upd_proc proc_nr (fun _ => irq_thread_proc i proc_nr) ;;
    r <- get_priv proc_nr NULL_PRIV_ID ;;
    if negb (r =? OK) then ret tt
    else
      upd_priv proc_nr (fun pv => set_s_sig_mgr SELF (set_s_trap_mask CSK_T (set_s_flags (Z.lor SYS_PROC PREEMPTIBLE) pv))) ;;
      sv <- priv_at SYSTEM ;;
      fill_sendto_mask proc_nr (set_sys_bit map_zero (s_id sv)) ;;
      upd_priv proc_nr (set_s_k_call_mask ALL_CALLS) ;;
      upd_proc proc_nr arch_proc_reset ;;
      t <- get_thread i ;;
      sched_rt_set_class proc_nr SCHED_FIFO (it_rt_prio t) 0 ;;
      q <- ms_2_cpu_time 1000000 ;;
      upd_proc proc_nr (fun p => set_p_cpu_time_left q (set_p_quantum_size_ms 0 p)) ;;
      upd_proc proc_nr (fun p =>
        set_p_rts_flags (flag_clr (p_rts_flags p)
          (Z.lor RTS_SLOT_FREE (Z.lor RTS_VMINHIBIT (Z.lor RTS_BOOTINHIBIT RTS_PROC_STOP)))) p) ;;
      p <- get_proc proc_nr ;;
      upd_thread i (fun t => set_it_endpoint (p_endpoint p) (set_it_proc (Some proc_nr) t)).

Definition irq_thread_mmio_init : K unit :=
  modify (fun s => set_irq_mmio ((fun x => mkMmio 0 (mm_phys_addr x) (mm_virt_addr x)) <$> irq_mmio s) s).

Definition irq_thread_init : K unit :=
  for_each irq_vectors (fun i => modify (fun s => set_irq_threads (<[i := irq_thread_row i]> (irq_threads s)) s)) ;;
  for_each irq_vectors irq_thread_create ;;
  irq_thread_mmio_init.

(** [arch_init], as far as it concerns these tables. *)
Definition arch_init : K unit :=
  modify (fun s => set_drv_queues (drvqueue_init (drv_queues s)) s) ;;
  irq_thread_init.

Definition cstart (hz : option Z) : K unit := init_clock hz ;; arch_init.

(** ** [kmain] *)
Definition isrootsysn (n : Z) : bool := n =? RS_PROC_NR.
Definition schedulable_proc (n : Z) : bool := iskerneln n || isrootsysn n || (n =? VM_PROC_NR).

(** The privileges of a process that runs at once; the value is whether all
    targets and calls are allowed ([SRV_M], [SRV_KC]). *)
Definition boot_priv (n : Z) : K bool :=
  if n =? VM_PROC_NR then
    upd_priv n (fun pv => set_s_sig_mgr SELF (set_s_trap_mask SRV_T (set_s_flags VM_F pv))) ;;
    upd_proc n (fun p => set_p_quantum_size_ms USER_QUANTUM (set_p_priority USER_Q p)) ;;
    ret true
  else if iskerneln n then
    upd_priv n (fun pv =>
      set_s_trap_mask (if (n =? CLOCK) || (n =? SYSTEM) then CSK_T else TSK_T)
        (set_s_init_flags TSK_I (set_s_flags (if n =? IDLE then IDL_F else TSK_F) pv))) ;;
    ret false
  else
    assert (isrootsysn n) ;;
    upd_priv n (fun pv =>
      set_s_sig_mgr SRV_SM (set_s_trap_mask SRV_T (set_s_init_flags SRV_I (set_s_flags RSYS_F pv)))) ;;
    upd_proc n (fun p => set_p_quantum_size_ms USER_QUANTUM (set_p_priority USER_Q p)) ;;
    ret true.

Definition full_caps (pv : priv) : priv :=
  set_s_cap_bound CAP_FULL (set_s_cap_permitted CAP_FULL (set_s_cap_effective CAP_FULL pv)).

Definition boot_privileges (n : Z) : K unit :=
  get_priv n (static_priv_id n) ;;
  all <- boot_priv n ;;
  (if iskerneln n || isrootsysn n || (n =? VM_PROC_NR) then upd_priv n full_caps else ret tt) ;;
  fill_sendto_mask n (if (all : bool) then ALL_TARGETS else map_zero) ;;
  upd_priv n (set_s_k_call_mask (if all then ALL_CALLS else NO_CALLS)).

(** [arch_boot_proc] loads VM. *)
Definition arch_boot_proc (vm_loads : bool) (n : Z) (name : string) : K unit :=
  if n =? VM_PROC_NR then
    (if negb vm_loads then halt Panic else ret tt) ;;
    upd_proc n (fun p => set_p_name name (arch_proc_reset p))
  else ret tt.

(** One entry of the boot image; [proc_ptr] is null before the first. *)
Definition boot_proc (vm_loads : bool) (i : Z) (ip : Z * string) : K unit :=
  let (n, name) := ip in
  upd_proc n (fun rp =>
    reset_proc_accounting ((if i <? NR_TASKS then set_p_name name else id) (set_p_cpu_time_left 0 rp))) ;;
  (if schedulable_proc n then boot_privileges n else RTS_SET n (Z.lor RTS_NO_PRIV RTS_NO_QUANTUM)) ;;
  arch_boot_proc vm_loads n name ;;
  (if i =? 0 then modify (set_proc_ptr n) else ret tt) ;;
  upd_proc n (fun rp =>
    let f := p_rts_flags rp in
    let f := if negb (n =? VM_PROC_NR) && (0 <=? n) then flag_set (flag_set f RTS_VMINHIBIT) RTS_BOOTINHIBIT else f in
    set_p_rts_flags (flag_clr (flag_set f RTS_PROC_STOP) RTS_SLOT_FREE) rp).

(** The part of [system_init] before the table of kernel calls. *)
Definition system_init : K unit :=
  modify (fun s =>
    set_irq_hooks (set_h_proc_nr_e NONE <$> irq_hooks s)
      (set_k_timers (mkTq ((fun t => mkTmr None (tmr_exp_time t) None (tmr_arg t)) <$> t_tab (k_timers s)) (t_head (k_timers s))) s)).

(** [bsp_finish_booting], up to [switch_to_user]. *)
Definition bsp_finish_booting : K unit :=
  modify (fun s => set_proc_ptr idle_proc (set_bill_ptr idle_proc s)) ;;
  for_each (seqZ 0 (NR_BOOT_PROCS - NR_TASKS)) (fun i => RTS_UNSET i RTS_PROC_STOP).

Definition kmain (hz : option Z) (mods_count : Z) (vm_loads : bool) : K unit :=
  cstart hz ;;
  proc_init ;;
  modify (set_ipc_filter_pool pool_zero) ;;
  (if negb (NR_BOOT_MODULES =? mods_count) then halt Panic else ret tt) ;;
  for_each (zip (seqZ 0 NR_BOOT_PROCS) image) (fun e => boot_proc vm_loads (fst e) (snd e)) ;;
  system_init ;;
  bsp_finish_booting.

(** ** Kernel calls of VM *)

Definition VMCTL_GET_PDBR : Z := 13.
Definition VMCTL_FLUSHTLB : Z := 26.
Definition VMCTL_I386_INVLPG : Z := 25.
Definition VMCTL_SETADDRSPACE : Z := 29.

(** [arch_do_vmctl] (kernel/arch/x86_64): a process that gets a page table is no
    longer held back for it. *)
Definition setcr3 (p cr3 : Z) : K unit :=
  assert (negb (cr3 =? 0)) ;;
  RTS_UNSET p RTS_VMINHIBIT.
Definition arch_do_vmctl (param value p : Z) : K Z :=
  if param =? VMCTL_SETADDRSPACE then setcr3 p value ;; ret OK
  else if (param =? VMCTL_GET_PDBR) || (param =? VMCTL_FLUSHTLB) || (param =? VMCTL_I386_INVLPG) then ret OK
  else ret EINVAL.

(** [do_exec]; [name] is what the copy of the name gives, if it works. *)
Definition do_exec (caller endpt : Z) (name : option string) : K Z :=
  r <- isokendpt endpt ;;
  match r with
  | None => ret EINVAL
  | Some n =>
      upd_proc n (fun p => set_p_misc_flags (flag_clr (p_misc_flags p) MF_DELIVERMSG) p) ;;
      upd_proc n (fun p => set_p_name (default "<unset>"%string name) (arch_proc_reset p)) ;;
      RTS_UNSET n RTS_RECEIVING ;;
      upd_proc n (fun p => set_p_misc_flags (flag_clr (p_misc_flags p) MF_FPU_INITIALIZED) p) ;;
      ret OK
  end.

(** A call that must work. *)
Definition or_panic (call : K Z) : K unit := r <- call ;; if negb (r =? OK) then halt Panic else ret tt.
Definition vmctl (who param value : Z) : K Z := r <- do_vmctl arch_do_vmctl VM_PROC_NR who param value ;; ret (fst r).

(** [exec_bootproc]: [pt_bind] sets the page table [root]; [loads] is whether
    the page table can be made, and the program and its stack loaded. *)
Definition exec_bootproc (loads : Z -> bool) (root : Z -> Z) (ip : Z * string) : K unit :=
  let (n, name) := ip in
  p <- get_proc n ;;
  let e := p_endpoint p in
  or_panic (vmctl e VMCTL_SETADDRSPACE (root n)) ;;
  (if negb (loads n) then halt Panic else ret tt) ;;
  or_panic (do_exec VM_PROC_NR e (Some name)) ;;
  or_panic (vmctl e VMCTL_BOOTINHIBIT_CLEAR 0).

(** The loop over the boot image of [init_vm]. *)
Definition init_vm (loads : Z -> bool) (root : Z -> Z) : K unit :=
  for_each image (fun ip =>
    if (fst ip <? 0) || (fst ip =? VM_PROC_NR) then ret tt else exec_bootproc loads root ip).

(** ** Kernel calls of RS *)

(** [servers/rs/table.c] *)
Definition boot_image_priv_table : list (Z * Z) :=
  [(RS_PROC_NR, RSYS_F); (VM_PROC_NR, VM_F); (PM_PROC_NR, SRV_F); (SCHED_PROC_NR, SRV_F); (VFS_PROC_NR, SRV_F);
   (DS_PROC_NR, SRV_F); (TTY_PROC_NR, SRV_F); (MEM_PROC_NR, SRV_F); (MIB_PROC_NR, SRV_F); (PFS_PROC_NR, SRV_F);
   (MFS_PROC_NR, SRV_F); (INIT_PROC_NR, USR_F)].

(** The privileges RS asks for, in a structure that is zero otherwise. *)
Definition SRV_OR_USR {A} (flags : Z) (x y : A) : A := if has flags SYS_PROC then x else y.
Definition rs_priv (endpoint flags : Z) : priv :=
  set_s_k_call_mask (SRV_OR_USR flags ALL_CALLS NO_CALLS)
    (set_s_bak_sig_mgr NONE (set_s_sig_mgr (SRV_OR_USR flags SRV_SM USR_SM)
      (set_s_ipc_to ALL_TARGETS (set_s_trap_mask (SRV_OR_USR flags SRV_T USR_T)
        (set_s_init_flags (SRV_OR_USR flags SRV_I USR_I) (set_s_flags flags
          (set_s_id (static_priv_id (ENDPOINT_P endpoint)) priv_zero))))))).

Definition rs_privctl (endpoint request : Z) (arg : option priv) : K Z :=
  do_privctl (fun _ _ => match arg with Some pv => inr (mkUpriv pv 0 0 0) | None => inl EFAULT_SRC end)
    (fun _ _ => inl EFAULT_SRC) (fun _ _ => inl EFAULT_SRC) (fun _ _ => inl EFAULT_SRC) (mkIo 0 0) 0
    RS_PROC_NR (mkPrivctl endpoint request (match arg with Some _ => 1 | None => 0 end) 0 0).

(** Step 1: set the privileges of every service but RS and VM. *)
Definition rs_set_privileges : K unit :=
  for_each boot_image_priv_table (fun b =>
    let (endpoint, flags) := b in
    if (endpoint =? RS_PROC_NR) || (endpoint =? VM_PROC_NR) then ret tt
    else or_panic (rs_privctl endpoint SYS_PRIV_SET_SYS (Some (rs_priv endpoint flags)))).

(** [sched_init_proc]: the kernel schedules the services of the boot image. *)
Definition rs_sched_init (endpoint flags : Z) : K unit :=
  if has flags SYS_PROC then or_panic (do_schedctl RS_PROC_NR SCHEDCTL_FLAG_KERNEL endpoint USER_Q USER_QUANTUM 0)
  else ret tt.

(** Step 2: let them run. *)
Definition rs_allow : K unit :=
  for_each boot_image_priv_table (fun b =>
    let (endpoint, flags) := b in
    if (endpoint =? RS_PROC_NR) || (endpoint =? VM_PROC_NR) then ret tt
    else
      rs_sched_init endpoint flags ;;
      or_panic (rs_privctl endpoint SYS_PRIV_ALLOW None)).

Definition boot (hz : option Z) (root : Z -> Z) : K unit :=
  kmain hz NR_BOOT_MODULES true ;; init_vm (fun _ => true) root ;; rs_set_privileges ;; rs_allow.
