(* ===== verification/Cancel.v ===== *)
(** * Cancelling asynchronous messages

    [cancel_async] marks the messages a process has pending for another one as
    undeliverable, and [cancel_pending] repeats it until nothing is pending:
    each round clears one bit of the pending map, so the loop of
    [clear_ipc_refs] ends. *)

From S2P Require Import Prelude Monad Timers Endpoint Chain Kernel Sched RunQueue Init SchedProps Ipc IpcInv Deadlock IpcStep Notify IpcSend IpcRecv IpcPend IpcAsync IpcCall System.

Implicit Types (V : views) (P : gmap Z priv) (v w : ipcv).

(** ** What the notifications of the asynchronous-message task change *)

(** The receive of a process is completed only when it accepts a message of
    [ASYNCM]. *)
Definition wakes V V' : Prop :=
  forall n v v', V !! n = Some v -> V' !! n = Some v' ->
    v_ret v' = v_ret v /\ v_vmwait v' = v_vmwait v /\ v_vmreq v' = v_vmreq v
    /\ (v_recv v' = v_recv v \/ exists e, v_recv v = Some e /\ (e = ANY \/ ENDPOINT_P e = ASYNCM)).

#[export] Instance wakes_refl : Reflexive wakes.
Proof. intros V n v v' H H'. rewrite H in H'. injection H' as <-. auto. Qed.

Lemma wakes_trans V1 V2 V3 : relax V1 V2 -> wakes V1 V2 -> wakes V2 V3 -> wakes V1 V3.
Proof.
  intros HR H1 H2 n v1 v3 E1 E3. specialize (HR n). rewrite E1 in HR. destruct (V2 !! n) as [v2|] eqn:E2; [|done].
  destruct (H1 n v1 v2 E1 E2) as (A1 & B1 & C1 & D1), (H2 n v2 v3 E2 E3) as (A2 & B2 & C2 & D2).
  split_and!; [congruence..|]. destruct D1 as [D1|D1]; [|by right]. rewrite D1 in D2. exact D2.
Qed.

(** The flags and the pending asynchronous messages of a structure. *)
Definition af (pv : priv) : Z * sys_map := (s_flags pv, s_asyn_pending pv).

Lemma af_insert P id pv pv' : P !! id = Some pv -> af pv' = af pv -> af <$> <[id := pv']> P = af <$> P.
Proof. intros H E. rewrite fmap_insert, E, insert_id; [done|]. by rewrite lookup_fmap, H. Qed.

Record hushed (s s' : kstate) : Prop := {
  h_moved : moved s s';
  h_wakes : wakes (view s) (view s')
}.

Lemma hushed_refl s : ready s -> hushed s s.
Proof. intros H. split; [by apply moved_refl|done]. Qed.
Lemma hushed_trans s1 s2 s3 : hushed s1 s2 -> hushed s2 s3 -> hushed s1 s3.
Proof.
  intros [A1 B1] [A2 B2]. split; [by eapply moved_trans|]. eapply wakes_trans; [apply A1|done|done].
Qed.
Lemma hushed_view s s' : notified s s' -> view s' = view s -> hushed s s'.
Proof. intros N E. split; [apply N|by rewrite E]. Qed.

Lemma asyn_notify_hushed s e (b : bool) :
  ready s ->
  exists s', (if b then _ <- mini_notify ASYNCM e ;; ret tt else ret tt) s = Done tt s' /\ hushed s s'
    /\ af <$> privs s' = af <$> privs s.
Proof.
  intros Hr. destruct b; [|exists s; split_and!; [done|by apply hushed_refl|done]].
  pose proof Hr as [Hb Hc Hnf Hm]. destruct (c_task _ _ Hc ASYNCM) as [v Hv]; [done|done|].
  destruct (live_proc_of s ASYNCM v Hv) as (c & Hcp & Ec). rewrite <- Ec in Hv.
  destruct (live_priv_of s Hc Hnf ASYNCM c Hcp Hv) as (cid & cpv & Hcid & _).
  destruct (mini_notify_ready s ASYNCM _ e Hr Hv) as (r & s' & E & N).
  rewrite (bind_done _ _ _ _ _ E). exists s'. split; [done|].
  assert (wakes (view s) (view s') /\ af <$> privs s' = af <$> privs s) as [HW HA]; [|split; [split; [apply N|done]|done]].
  destruct (mini_notify_spec s ASYNCM c cid e Hr Hcp Hv Hcid)
    as [[_ E']|(dst & vd & id & pv & s2 & Hl & He & Hid & Hpv & E' & HG)]; rewrite E in E'.
  { injection E' as _ ->. done. }
  injection E' as _ ->. destruct (_ && _) eqn:Ew; rewrite (g_view _ _ _ _ HG), (g_privs _ _ _ _ HG).
  - split; [|by apply (af_insert _ _ pv)]. intros n v1 v2 E1 E2. destruct (decide (n = dst)) as [->|Hne].
    + rewrite (proj1 (proj2 Hl)) in E1. injection E1 as <-. rewrite lookup_insert_eq in E2. injection E2 as <-.
      apply andb_true_iff in Ew as [Ew _]. unfold v_wake, v_status_add, will in *. cbn.
      split_and!; [by destruct (has _ _)..|]. right. destruct (v_send vd); [done|].
      destruct (v_recv vd) as [g|]; [|done]. exists g. split; [done|]. apply orb_true_iff in Ew as [Ew%Z.eqb_eq|Ew%Z.eqb_eq].
      * by left.
      * right. subst g. by destruct (c_ep _ _ Hc ASYNCM _ Hv) as (? & _).
    + rewrite lookup_insert_ne in E2 by done. by apply (wakes_refl (view s) n).
  - split; [done|]. by apply (af_insert _ _ pv).
Qed.

(** ** [cancel_async] *)

Lemma cancel_loop_run src w dst vd t :
  forall n s i done nt, ready s -> live (view s) src w -> live (view s) dst vd ->
  exists o s', cancel_loop n src dst t i done nt s = Done o s' /\ tabled s s'.
Proof.
  induction n as [|n IH]; intros s i dn nt Hr Hw Hd; cbn [cancel_loop].
  { eexists _, s. split; [done|by apply tabled_refl]. }
  destruct (A_RETR_run s src w t i Hw) as (o & Eo & Ho). rewrite (bind_done _ _ _ _ _ Eo).
  destruct o as [e|]; [|eexists _, s; split; [done|by apply tabled_refl]]. specialize (Ho e eq_refl).
  destruct (am_flags e =? 0); [by apply IH|].
  destruct (negb (bad_flags (am_flags e)) && has (am_flags e) AMF_DONE); [by apply IH|].
  destruct (live_proc_of s dst vd Hd) as (d & Hdp & Ed). erewrite bind_get_proc by done.
  destruct (am_dst e =? p_endpoint d); cbn [negb]; [|by apply IH].
  destruct (store_result_run s src w t i e (am_flags e)
    (if bad_flags (am_flags e) then EINVAL else EDEADSRCDST) Hr Hw Ho) as (b & s1 & E1 & T1 & _).
  rewrite (bind_done _ _ _ _ _ E1).
  destruct (IH s1 (i + 1) dn (nt || b)) as (o & s2 & E2 & T2);
    [apply (tb_notified _ _ T1)|by rewrite (tb_view _ _ T1)..|].
  exists o, s2. split; [done|]. destruct T1 as [A1 B1 C1], T2 as [A2 B2 C2].
  split; [congruence..|by eapply notified_trans].
Qed.

(** Resetting the table of a sender. *)
Lemma asyn_table_run s p id pv size tab :
  ready s -> p_priv p = Some id -> privs s !! id = Some pv ->
  exists s', upd_priv_of p (fun pv => set_s_asynsize size (set_s_asyntab tab pv)) s = Done tt s'
    /\ hushed s s' /\ view s' = view s /\ af <$> privs s' = af <$> privs s /\ procs s' = procs s.
Proof.
  intros Hr Hid Hpv.
  destruct (priv_step s p id pv (fun pv => set_s_asynsize size (set_s_asyntab tab pv)) Hr Hid Hpv)
    as (s' & E & N & EV & EP & EQ); [by apply (prelax_same _ _ _ pv)|].
  exists s'. split_and!; [done|by apply hushed_view|done|rewrite EP; by apply (af_insert _ _ pv)|done].
Qed.

Section Cancel.
Context (s : kstate) (src rc : Z) (w vr : ipcv) (id idr : Z) (pv : priv).
Context (Hr : ready s) (Hw : live (view s) src w) (Hrc : live (view s) rc vr).
Context (Hid : v_priv w = Some id) (Hpv : privs s !! id = Some pv) (Hidr : v_priv vr = Some idr).

(** The scan of the table and what follows it. *)
Lemma cancel_scan p d t size :
  p_priv p = Some id -> p_nr d = rc ->
  exists r s', (may <- may_send_to src (p_nr d) ;;
      if negb may then ret ECALLDENIED
      else
        o <- cancel_loop (Z.to_nat size) src rc t 0 true false ;;
        match o with
        | ScanFault => ret OK
        | ScanEnd _ done do_notify =>
            (if do_notify then _ <- mini_notify ASYNCM (p_endpoint p) ;; ret tt else ret tt) ;;
            (if negb done then upd_priv_of p (fun pv => set_s_asynsize size (set_s_asyntab t pv))
             else ret tt) ;;
            ret OK
        end) s = Done r s' /\ hushed s s' /\ af <$> privs s' = af <$> privs s.
Proof.
  intros Hp Hnr. rewrite Hnr. destruct (may_send_run s src w rc vr (r_core _ Hr) Hw Hrc) as [b Eb].
  rewrite (bind_done _ _ _ _ _ Eb). destruct b; cbn [negb]; [|eexists _, s; split_and!; [done|by apply hushed_refl|done]].
  destruct (cancel_loop_run src w rc vr t (Z.to_nat size) s 0 true false Hr Hw Hrc) as (o & s1 & E1 & T1).
  rewrite (bind_done _ _ _ _ _ E1). pose proof (hushed_view s s1 (tb_notified _ _ T1) (tb_view _ _ T1)) as H1.
  destruct o as [|x dn nt]; [eexists _, s1; split_and!; [done|done|by rewrite (tb_privs _ _ T1)]|].
  destruct (asyn_notify_hushed s1 (p_endpoint p) nt) as (s2 & E2 & H2 & A2); [apply H1|].
  rewrite (bind_done _ _ _ _ _ E2).
  assert (hushed s s2) as H02 by (by eapply hushed_trans).
  assert (af <$> privs s2 = af <$> privs s) as A02 by (by rewrite A2, (tb_privs _ _ T1)).
  destruct dn; cbn [negb]; [eexists _, s2; by split_and!|].
  destruct (prelax_lookup _ _ _ _ _ (m_prelax _ _ (h_moved _ _ H02)) Hpv) as (pv2 & Hpv2 & _).
  destruct (asyn_table_run s2 p id pv2 size t) as (s3 & E3 & H3 & _ & A3 & _); [apply H02|done|done|].
  rewrite (bind_done _ _ _ _ _ E3). eexists _, s3. split_and!; [done|by eapply hushed_trans|congruence].
Qed.
End Cancel.

Lemma cancel_async_run s src rc w vr id idr pv :
  ready s -> live (view s) src w -> live (view s) rc vr -> v_priv w = Some id -> privs s !! id = Some pv ->
  v_priv vr = Some idr -> has (s_flags pv) SYS_PROC = true ->
  exists r s', cancel_async src rc s = Done r s' /\ hushed s s'
    /\ af <$> privs s' = af <$> alter (asyn_unmark id) idr (privs s).
Proof.
  intros Hr Hw Hrc Hid Hpv Hidr Hsys. pose proof Hr as [Hb Hc Hnf Hm]. unfold cancel_async.
  destruct (live_proc_of s src w Hw) as (p & Hp & Ep). erewrite bind_get_proc by done.
  assert (p_priv p = Some id) as Hpid by (by rewrite (f_equal v_priv Ep : p_priv p = v_priv w)).
  rewrite (bind_priv_of p id pv) by done. rewrite Hsys. cbn [negb].
  assert (bit_ok id) as Hok.
  { destruct (c_priv _ _ Hc src w Hw) as (? & ? & E & ? & _). rewrite Hid in E. by injection E as <-. }
  destruct (c_privs _ _ Hc id pv Hok Hpv) as (-> & _).
  destruct (asyn_table_run s p id pv 0 (-1) Hr Hpid Hpv) as (s1 & E1 & H1 & V1 & A1 & Q1).
  rewrite (bind_done _ _ _ _ _ E1). destruct (live_proc_of s rc vr Hrc) as (d & Hd & Ed).
  rewrite <- Q1 in Hd. erewrite bind_get_proc by done.
  assert (p_priv d = Some idr) as Hdid by (by rewrite (f_equal v_priv Ed : p_priv d = v_priv vr)).
  assert (is_Some (privs s1 !! idr)) as [pvr Hpvr].
  { destruct (c_priv _ _ Hc rc vr Hrc) as (i & q & E & _ & Hq & _). rewrite Hidr in E. injection E as <-.
    destruct (prelax_lookup _ _ _ _ _ (m_prelax _ _ (h_moved _ _ H1)) Hq) as (q' & ? & _). by exists q'. }
  destruct (priv_step s1 d idr pvr (asyn_unmark id)) as (s2 & E2 & N2 & V2 & P2 & Q2);
    [apply H1|done|done|by apply asyn_unmark_relax|].
  change (upd_priv_of d (fun pv => set_s_asyn_pending (unset_sys_bit (s_asyn_pending pv) id) pv))
    with (upd_priv_of d (asyn_unmark id)). rewrite (bind_done _ _ _ _ _ E2).
  assert (hushed s s2) as H02 by (eapply hushed_trans; [done|by apply hushed_view]).
  assert (af <$> privs s2 = af <$> alter (asyn_unmark id) idr (privs s)) as A2.
  { rewrite P2. apply map_eq. intros i. pose proof (f_equal (fun m => m !! i) A1) as Ai. cbn in Ai.
    rewrite !lookup_fmap in *. destruct (decide (i = idr)) as [->|Hne].
    - rewrite lookup_insert_eq, lookup_alter_eq. rewrite Hpvr in Ai. destruct (privs s !! idr) as [q|]; [|done].
      cbn in *. unfold af in *. cbn. injection Ai as -> ->. done.
    - by rewrite lookup_insert_ne, lookup_alter_ne by done. }
  destruct (s_asynsize pv =? 0); [by eexists _, s2|].
  rewrite <- V1, <- V2 in Hw, Hrc.
  destruct (prelax_lookup _ _ _ _ _ (m_prelax _ _ (h_moved _ _ H02)) Hpv) as (pv2 & Hpv2 & _).
  destruct (cancel_scan s2 src rc w vr id pv2 (m_ready _ _ (h_moved _ _ H02)) Hw Hrc Hpv2 p d (s_asyntab pv) (s_asynsize pv)
    Hpid) as (r & s3 & E3 & H3 & A3).
  { destruct (c_ep _ _ (r_core _ (m_ready _ _ (h_moved _ _ H02))) rc vr Hrc) as (_ & _ & <-). by rewrite <- Ed. }
  exists r, s3. split_and!; [done|by eapply hushed_trans|congruence].
Qed.

(** ** [cancel_pending] *)

(** The senders of the asynchronous messages pending in [map] are system
    processes, each the owner of its privilege structure. *)
Definition senders_ok V P (map : sys_map) : Prop :=
  forall b, bit_ok b -> get_sys_bit map b = true ->
    exists pb w, P !! b = Some pb /\ live V (s_proc_nr pb) w /\ v_priv w = Some b
      /\ has (s_flags pb) SYS_PROC = true.

(** The number of pending bits. *)
Definition count_bits (map : sys_map) : nat := length (filter (fun b => get_sys_bit map b = true) priv_table).

Lemma filter_length_lt {A} (P Q : A -> Prop) `{!forall x, Decision (P x), !forall x, Decision (Q x)} (l : list A) y :
  (forall x, Q x -> P x) -> y ∈ l -> P y -> ~ Q y -> (length (filter Q l) < length (filter P l))%nat.
Proof.
  intros HQP. assert (forall l, length (filter Q l) <= length (filter P l))%nat as Hle.
  { induction l0 as [|x l0 IH]; [done|]. rewrite !filter_cons. repeat case_decide; cbn; naive_solver lia. }
  intros Hy HP HnQ. apply list_elem_of_split in Hy as (l1 & l2 & ->). rewrite !filter_app, !filter_cons.
  rewrite decide_False, decide_True by done. rewrite !length_app. cbn.
  pose proof (Hle l1). pose proof (Hle l2). lia.
Qed.

Lemma count_bits_unset map b :
  map_ok map -> bit_ok b -> get_sys_bit map b = true -> (count_bits (unset_sys_bit map b) < count_bits map)%nat.
Proof.
  intros Hm Hb Hg. unfold count_bits.
  assert (forall l, (forall x, In x l -> bit_ok x) ->
    filter (fun x => get_sys_bit (unset_sys_bit map b) x = true) l
    = filter (fun x => get_sys_bit map x = true /\ b <> x) l) as Hf.
  { induction l as [|x l IH]; intros Hl; [done|]. rewrite !filter_cons, IH by (intros; apply Hl; by right).
    rewrite get_unset_sys_bit by (done || by apply Hl; left).
    destruct (get_sys_bit map x), (Z.eqb_spec b x); cbn; repeat case_decide; naive_solver. }
  rewrite Hf.
  - apply (filter_length_lt _ _ _ b); [naive_solver|by apply list_elem_of_In, elem_of_priv_table|done|naive_solver].
  - intros x Hx. unfold priv_table in Hx. apply in_map_iff in Hx as (k & <- & Hk%in_seq). unfold bit_ok, NR_SYS_PROCS in *. lia.
Qed.

Lemma count_bits_le map : (count_bits map <= Z.to_nat NR_SYS_PROCS)%nat.
Proof.
  unfold count_bits. etrans; [apply length_filter|]. by vm_compute.
Qed.

Section Pending.
Context (rc idr : Z).

Lemma pending_round s vr pvr b :
  ready s -> live (view s) rc vr -> v_priv vr = Some idr -> bit_ok idr -> privs s !! idr = Some pvr ->
  senders_ok (view s) (privs s) (s_asyn_pending pvr) -> bit_ok b -> get_sys_bit (s_asyn_pending pvr) b = true ->
  exists n r s1 vr1 pvr1, id_to_nr b s = Done n s /\ cancel_async n rc s = Done r s1 /\ hushed s s1
    /\ live (view s1) rc vr1 /\ v_priv vr1 = Some idr /\ privs s1 !! idr = Some pvr1
    /\ s_asyn_pending pvr1 = unset_sys_bit (s_asyn_pending pvr) b
    /\ senders_ok (view s1) (privs s1) (s_asyn_pending pvr1).
Proof.
  intros Hr Hrc Hidr Hokr Hpvr HS Hb Hg. destruct (HS b Hb Hg) as (pb & w & Hpb & Hw & Hwb & Hsys).
  destruct (cancel_async_run s (s_proc_nr pb) rc w vr b idr pb Hr Hw Hrc Hwb Hpb Hidr Hsys) as (r & s1 & E1 & H1 & A1).
  destruct (relax_live _ _ _ _ (m_relax _ _ (h_moved _ _ H1)) Hrc) as (vr1 & Hrc1 & K1).
  assert (forall i q, privs s !! i = Some q -> exists q', privs s1 !! i = Some q' /\ s_proc_nr q' = s_proc_nr q
    /\ s_flags q' = s_flags q
    /\ s_asyn_pending q' = if decide (i = idr) then unset_sys_bit (s_asyn_pending q) b else s_asyn_pending q) as HP.
  { intros i q Hq. destruct (prelax_lookup _ _ _ _ _ (m_prelax _ _ (h_moved _ _ H1)) Hq) as (q' & Hq' & En).
    exists q'. pose proof (f_equal (fun m => m !! i) A1) as Ai. cbn in Ai. rewrite !lookup_fmap, Hq' in Ai.
    case_decide as D; [subst i; rewrite lookup_alter_eq, Hq in Ai|rewrite lookup_alter_ne, Hq in Ai by done];
      cbn in Ai; unfold af in Ai; cbn in Ai; injection Ai as -> ->; done. }
  destruct (HP idr pvr Hpvr) as (pvr1 & Hpvr1 & _ & _ & Ea). rewrite decide_True in Ea by done.
  exists (s_proc_nr pb), r, s1, vr1, pvr1. split_and!; try done.
  - unfold id_to_nr. by rewrite (bind_done _ _ pb s s) by (unfold get_priv_id; by rewrite Hpb).
  - by rewrite (k_priv _ _ K1).
  - destruct (c_privs _ _ (r_core _ Hr) idr pvr Hokr Hpvr) as (_ & _ & Hmap).
    intros b' Hb' Hg'. rewrite Ea, get_unset_sys_bit in Hg' by done. apply andb_true_iff in Hg' as [Hg' _].
    destruct (HS b' Hb' Hg') as (pb' & w' & Hpb' & Hw' & Hwb' & Hsys').
    destruct (HP b' pb' Hpb') as (q' & Hq' & En & Ef & _).
    destruct (relax_live _ _ _ _ (m_relax _ _ (h_moved _ _ H1)) Hw') as (w1 & Hw1 & Kw).
    exists q', w1. rewrite En, Ef. split_and!; try done. by rewrite (k_priv _ _ Kw).
Qed.

Lemma cancel_pending_run : forall fuel s vr pvr,
  ready s -> live (view s) rc vr -> v_priv vr = Some idr -> bit_ok idr -> privs s !! idr = Some pvr ->
  senders_ok (view s) (privs s) (s_asyn_pending pvr) -> (count_bits (s_asyn_pending pvr) < fuel)%nat ->
  exists s', cancel_pending fuel rc s = Done tt s' /\ hushed s s'
    /\ forall pv', privs s' !! idr = Some pv' -> forall b, bit_ok b -> get_sys_bit (s_asyn_pending pv') b = false.
Proof.
  induction fuel as [|fuel IH]; intros s vr pvr Hr Hrc Hidr Hokr Hpvr HS Hcnt; [lia|].
  cbn [cancel_pending]. unfold has_pending_asend. rewrite bind_assoc.
  destruct (live_proc_of s rc vr Hrc) as (d & Hd & Ed). erewrite bind_get_proc by done. rewrite bind_assoc.
  rewrite (bind_priv_of d idr pvr) by (done || by rewrite (f_equal v_priv Ed : p_priv d = v_priv vr)).
  destruct (c_privs _ _ (r_core _ Hr) idr pvr Hokr Hpvr) as (_ & _ & Hmap).
  destruct (has_pending_any (s_asyn_pending pvr) s Hmap) as (b & Eb & Hfp). rewrite (bind_done _ _ _ _ _ Eb).
  destruct Hfp as [[-> Hz]|(Hb & Hg & _)].
  { exists s. rewrite Z.eqb_refl. split_and!; [done|by apply hushed_refl|]. intros pv' Hpv'.
    rewrite Hpvr in Hpv'. injection Hpv' as <-. done. }
  destruct (Z.eqb_spec b NULL_PRIV_ID) as [E|_]; [unfold bit_ok in Hb; rewrite E in Hb; by destruct Hb|].
  destruct (pending_round s vr pvr b Hr Hrc Hidr Hokr Hpvr HS Hb Hg)
    as (n & r & s1 & vr1 & pvr1 & E0 & E1 & H1 & Hrc1 & Hid1 & Hpvr1 & Ea & HS1).
  rewrite (bind_done _ _ _ _ _ E0), (bind_done _ _ _ _ _ E1).
  destruct (IH s1 vr1 pvr1) as (s2 & E2 & H2 & Z2); try done; [apply H1| |].
  - rewrite Ea. pose proof (count_bits_unset _ b Hmap Hb Hg). lia.
  - exists s2. split_and!; [done|by eapply hushed_trans|done].
Qed.
End Pending.
