(* ===== verification/Clear.v ===== *)
(** * A process goes away

    [clear_endpoint] takes a process out of message passing: it leaves the
    queue it waits in, every process that waits for it is released with
    [EDEADSRCDST], and its notifications and asynchronous messages are
    forgotten.  The invariant kept on the way is the one of [IpcInv] except
    that the queue link of a process outside a queue may be stale, which the
    last theorem shows to be visible. *)

From S2P Require Import Prelude Monad Timers Endpoint Chain Kernel Sched RunQueue Init SchedProps Ipc IpcInv Deadlock IpcStep Notify IpcSend IpcRecv IpcPend IpcAsync IpcCall System Cancel.

Implicit Types (V : views) (P : gmap Z priv) (v w : ipcv).

(** ** Queues up to stale links *)

(** Forget the link of a process that is in no queue, and the mark of a process
    that is being cleared. *)
Definition norm v : ipcv :=
  if v_empty v then v
  else match v_send v with
       | None => set_v_link None (set_v_noend false v)
       | Some _ => set_v_noend false v
       end.
Definition linked V : Prop := links (norm <$> V).

Lemma norm_same v :
  v_ep (norm v) = v_ep v /\ v_send (norm v) = v_send v /\ v_recv (norm v) = v_recv v
  /\ v_empty (norm v) = v_empty v /\ v_cq (norm v) = v_cq v.
Proof. unfold norm. destruct (v_empty v) eqn:E, (v_send v) eqn:E'; by rewrite ?E, ?E'. Qed.

Lemma norm_noend v : v_empty v = false -> v_noend (norm v) = false.
Proof. intros E. unfold norm. rewrite E. by destruct (v_send v). Qed.

Lemma norm_live V n v : live V n v -> live (norm <$> V) n (norm v).
Proof.
  intros (Hn & Hv & He). destruct (norm_same v) as (_ & _ & _ & E & _).
  split_and!; [done|by rewrite lookup_fmap, Hv|by rewrite E].
Qed.
Lemma norm_live_r V n v' : live (norm <$> V) n v' -> exists v, live V n v /\ v' = norm v.
Proof.
  intros (Hn & Hv & He). rewrite lookup_fmap in Hv. destruct (V !! n) as [v|] eqn:E; [|done].
  injection Hv as <-. destruct (norm_same v) as (_ & _ & _ & E' & _). exists v. split; [|done].
  split_and!; [done..|]. by rewrite <- E'.
Qed.

Lemma norm_blk V n : blk (norm <$> V) n = blk V n.
Proof.
  unfold blk. rewrite lookup_fmap. destruct (V !! n) as [v|]; [|done]. cbn. unfold v_blocked.
  by destruct (norm_same v) as (_ & -> & -> & _).
Qed.

Lemma norm_qlink V n w e : live V n w -> v_send w = Some e -> qlink (norm <$> V) n = qlink V n.
Proof.
  intros (_ & Hw & He) Hs. unfold qlink. rewrite lookup_fmap, Hw. cbn. unfold norm. by rewrite He, Hs.
Qed.

Lemma norm_waits V e b : waits_for V e b -> waits_for (norm <$> V) e true.
Proof.
  intros (m & w & Hw & E & _). exists m, (norm w). destruct (norm_same w) as (-> & _).
  split_and!; [by apply norm_live|done|]. intros _. apply norm_noend, Hw.
Qed.

Lemma links_linked V : links V -> linked V.
Proof.
  intros HL. destruct (l_queue _ HL) as [C HC]. split.
  - exists C. intros n v' (v & Hv & ->)%norm_live_r. destruct (norm_same v) as (-> & _ & _ & _ & ->).
    destruct (HC n v Hv) as [Hch Hm]. split.
    + eapply chain_ext; [|exact Hch]. intros x Hx. apply Hm in Hx as (w & Hw & E). by eapply norm_qlink.
    + intros m. rewrite Hm. split.
      * intros (w & Hw & E). exists (norm w). destruct (norm_same w) as (_ & -> & _). split; [by apply norm_live|done].
      * intros (w' & (w & Hw & ->)%norm_live_r & E). destruct (norm_same w) as (_ & Es & _). rewrite Es in E. eauto.
  - intros n v' (v & Hv & ->)%norm_live_r. destruct (norm_same v) as (_ & -> & _). intros Hs.
    unfold norm. by rewrite (proj2 (proj2 Hv)), Hs.
  - intros n v' e (v & Hv & ->)%norm_live_r. destruct (norm_same v) as (_ & -> & _). intros Hs.
    by eapply norm_waits, l_send.
  - intros n v' e (v & Hv & ->)%norm_live_r. destruct (norm_same v) as (_ & _ & -> & _). intros Hr.
    destruct (l_recv _ HL n v e Hv Hr) as [?|Hw]; [by left|right].
    apply norm_waits in Hw as (m & w & ? & ? & _). by exists m, w.
  - intros n v' e e' (v & Hv & ->)%norm_live_r. destruct (norm_same v) as (_ & -> & -> & _). by apply (l_both _ HL n v).
  - intros n v' (v & Hv & ->)%norm_live_r Hn. by rewrite norm_noend in Hn by apply Hv.
  - intros n v' e (v & Hv & ->)%norm_live_r. destruct (norm_same v) as (_ & -> & _). by apply (l_task _ HL n v).
  - intros n v' (v & Hv & ->)%norm_live_r. destruct (l_acyc _ HL n v Hv) as [l Hl]. exists l.
    eapply chain_ext; [|exact Hl]. intros x _. apply norm_blk.
Qed.

(** Changes that do not touch the queues and keep receives or complete them. *)
Lemma keeps_norm v v' : keeps v v' -> keeps (norm v) (norm v').
Proof.
  intros H. pose proof H as []. unfold norm. rewrite k_empty. destruct (v_empty v) eqn:E; [done|].
  rewrite k_send. destruct (v_send v) eqn:Es; split; cbn; congruence || done.
Qed.
Lemma relax_norm V V' : relax V V' -> relax (norm <$> V) (norm <$> V').
Proof.
  intros H n. specialize (H n). rewrite !lookup_fmap. destruct (V !! n), (V' !! n); try done. by apply keeps_norm.
Qed.
Lemma linked_relax V V' : relax V V' -> linked V -> linked V'.
Proof. intros H. apply links_relax. by apply relax_norm. Qed.

(** ** [clear_ipc] *)

(** The process leaves the queue [loc] points into and stops waiting. *)
Definition unwait v : ipcv := set_v_recv None (set_v_send None v).
Definition cleared V (loc : cq_loc) (n : Z) : views := alter unwait n (put_cq loc (qlink V n) V).

Section Cleared.
Context (V : views) (C : Z -> list Z) (t n : Z) (vt vn : ipcv) (l1 l2 : list Z).
Context (HL : linked V) (HC : queues_ok (norm <$> V) C).
Context (Hep : forall m v, live V m v -> ENDPOINT_P (v_ep v) = m).
Context (Hlt : live V t vt) (Hln : live V n vn) (Hq : C t = l1 ++ n :: l2).

Lemma queue_sends x : x ∈ C t -> exists w, live V x w /\ v_send w = Some (v_ep vt).
Proof.
  intros Hx. apply (HC t _ (norm_live _ _ _ Hlt)) in Hx as (w' & (w & Hw & ->)%norm_live_r & E).
  destruct (norm_same w) as (_ & E' & _). destruct (norm_same vt) as (E'' & _). exists w. split; [done|congruence].
Qed.

Lemma queue_nodup : NoDup (l1 ++ n :: l2).
Proof. rewrite <- Hq. eapply chain_NoDup, (HC t _ (norm_live _ _ _ Hlt)). Qed.

Lemma cleared_norm :
  norm <$> cleared V (loc_of t l1) n = alter (set_v_recv None) n (release (norm <$> V) (loc_of t l1) n).
Proof.
  assert (n ∈ C t) as Hin by (rewrite Hq; set_solver).
  destruct (queue_sends n Hin) as (w & Hw & Es).
  assert (w = vn) as -> by (destruct Hw as (_ & ? & _), Hln as (_ & ? & _); congruence).
  assert (qlink (alter (set_v_send None) n (norm <$> V)) n = qlink V n) as Eq.
  { unfold qlink. rewrite alter_lookup, decide_True, lookup_fmap, (proj1 (proj2 Hln)) by done. cbn.
    unfold norm. by rewrite (proj2 (proj2 Hln)), Es. }
  apply map_eq. intros m. unfold cleared, release, unqueue. rewrite Eq.
  unfold loc_of. destruct (last l1) as [y|] eqn:Ey; cbn [put_cq];
    rewrite ?lookup_fmap, ?alter_lookup, ?lookup_fmap.
  - assert (y <> n) as Hyn.
    { intros ->. pose proof queue_nodup as Hnd. apply last_Some in Ey as (? & ->).
      rewrite <- app_assoc in Hnd. apply NoDup_app in Hnd as (_ & _ & Hnd). cbn in Hnd.
      apply NoDup_cons in Hnd as [Hnd _]. set_solver. }
    assert (y ∈ C t) as Hy by (rewrite Hq; apply last_Some in Ey as (? & ->); set_solver).
    destruct (queue_sends y Hy) as (wy & Hwy & Ey').
    destruct (decide (m = n)) as [->|Hmn].
    + rewrite !(decide_False (P := n = y)) by done. rewrite (proj1 (proj2 Hln)). cbn. unfold norm. cbn. by rewrite (proj2 (proj2 Hln)), Es.
    + destruct (decide (m = y)) as [->|Hmy]; [|done]. rewrite (proj1 (proj2 Hwy)). cbn.
      unfold norm. cbn. by rewrite (proj2 (proj2 Hwy)), Ey'.
  - destruct (decide (m = n)) as [->|Hmn].
    + rewrite (proj1 (proj2 Hln)). unfold norm. case_decide; cbn; by rewrite (proj2 (proj2 Hln)), Es.
    + destruct (decide (m = t)) as [->|Hmt]; [|done]. rewrite (proj1 (proj2 Hlt)). cbn. unfold norm. cbn.
      rewrite (proj2 (proj2 Hlt)). by destruct (v_send vt).
Qed.

Lemma linked_cleared : linked (cleared V (loc_of t l1) n).
Proof.
  unfold linked. rewrite cleared_norm. eapply links_relax.
  2:{ apply (links_release (norm <$> V) C t n (norm vt) (norm vn) l1 l2 HL HC); [|by apply norm_live..|done].
      intros m v' (v & Hv & ->)%norm_live_r. destruct (norm_same v) as (-> & _). by apply Hep. }
  intros m. rewrite alter_lookup. destruct (release _ _ _ !! m) as [v|]; case_decide; try done.
  cbn. split; try done. by right.
Qed.
End Cleared.

(** What clearing leaves alone in every process. *)
Record still v v' : Prop := {
  st_ident : ident v v';
  st_noend : v_noend v' = v_noend v;
  st_misc : v_misc v' = v_misc v;
  st_vmwait : v_vmwait v' = v_vmwait v;
  st_vmreq : v_vmreq v' = v_vmreq v
}.
#[export] Instance still_refl : Reflexive still.
Proof. by intros v. Qed.
#[export] Instance still_trans : Transitive still.
Proof. intros a b c [] []. split; [by etrans|congruence..]. Qed.

(** The processes of [X] stop waiting, with [code] in the return register when
    there is one; the others keep waiting for whom they wait. *)
Definition unwaits (X : Z -> ipcv -> bool) (code : option Z) V V' : Prop :=
  forall m, match V !! m, V' !! m with
            | Some v, Some v' =>
                still v v'
                /\ v_send v' = (if X m v then None else v_send v)
                /\ v_recv v' = (if X m v then None else v_recv v)
                /\ v_ret v' = (if X m v then default (v_ret v) code else v_ret v)
            | None, None => True
            | _, _ => False
            end.

Lemma unwaits_idents X code V V' : unwaits X code V V' -> idents V V'.
Proof. intros H' m. specialize (H' m). destruct (V !! m), (V' !! m); try done. by destruct H' as [[] _]. Qed.

Lemma unwaits_dlv X code V V' : unwaits X code V V' -> dlv_ok V -> dlv_ok V'.
Proof.
  intros H' Hd m v' (Hm & Hv' & He). specialize (H' m). rewrite Hv' in H'.
  destruct (V !! m) as [v|] eqn:Hv; [|done]. destruct H' as ([[] _ -> _ _] & _ & -> & _).
  destruct (X m v); [done|]. apply (Hd m). split_and!; [done..|congruence].
Qed.

Lemma clear_loop_run s n vn :
  view s !! n = Some vn ->
  forall l1 loc h fuel l2, read_cq loc s = Done h s -> chain (qlink (view s)) h (l1 ++ n :: l2) -> n ∉ l1 ->
  (forall x, x ∈ l1 -> is_Some (view s !! x)) -> (length l1 < fuel)%nat ->
  clear_ipc_loop fuel n loc s = write_cq (next_loc loc l1) (qlink (view s) n) s.
Proof.
  intros Hn. induction l1 as [|x l1 IH]; intros loc h fuel l2 Hrd Hch Hni Hin Hf;
    (destruct fuel as [|fuel]; [cbn in Hf; lia|]); cbn [clear_ipc_loop]; rewrite (bind_done _ _ _ _ _ Hrd);
    destruct Hch as [-> Hch].
  - rewrite Z.eqb_refl. destruct (view_lookup_inv _ _ _ Hn) as (p & Hp & E). erewrite bind_get_proc by done.
    unfold qlink. rewrite Hn, <- E. done.
  - rewrite (proj2 (Z.eqb_neq x n)) by set_solver. destruct (Hin x) as [w Hw]; [set_solver|].
    rewrite <- (next_loc_cons loc x l1). eapply IH; [by apply read_cq_link|..].
    + unfold qlink in Hch at 2. rewrite Hw in Hch. exact Hch.
    + set_solver.
    + intros y Hy. apply Hin. set_solver.
    + cbn in Hf. lia.
Qed.

Lemma put_cq_unwaits V loc y n :
  unwaits (fun m _ => m =? n) None V (alter unwait n (put_cq loc y V)).
Proof.
  intros m. destruct loc; cbn [put_cq]; rewrite !alter_lookup; destruct (V !! m) as [v|];
    destruct (Z.eqb_spec m n); repeat case_decide; subst; try done; cbn; by split_and!.
Qed.

Lemma unwait_recv v : v_send v = None -> set_v_recv None v = unwait v.
Proof. destruct v. cbn. by intros ->. Qed.

Lemma set_ret_still code v : still v (set_v_ret code v).
Proof. by split. Qed.

(** [clear_ipc] of a process that is not sending. *)
Lemma clear_ipc_idle s n vn :
  ready s -> live (view s) n vn -> v_send vn = None ->
  exists s', clear_ipc n s = Done tt s' /\ goes s s' (alter unwait n (view s)) (privs s).
Proof.
  intros [Hb Hc Hnf Hm] Hn Hs. destruct (c_ep _ _ Hc n vn Hn) as (_ & Hf & _). unfold clear_ipc.
  destruct (live_proc_of s n vn Hn) as (p & Hp & Ep). erewrite bind_get_proc by done.
  assert (RTS_ISSET p RTS_SENDING = false) as ->.
  { unfold RTS_ISSET. rewrite isset_has by apply _. rewrite <- Ep in Hs. unfold ipc_of in Hs. cbn in Hs.
    by destruct (has (p_rts_flags p) RTS_SENDING). }
  rewrite bind_ret. destruct (v_unset_recv_step s n vn Hf Hb (proj1 (proj2 Hn))) as (s' & E & G).
  exists s'. split; [done|]. rewrite (alter_as_insert _ _ _ vn) by apply Hn. by rewrite <- unwait_recv.
Qed.

Section ClearSender.
Context (s : kstate) (C : Z -> list Z) (t n : Z) (vt vn : ipcv) (l1 l2 : list Z).
Context (Hr : ready s) (HL : linked (view s)) (HC : queues_ok (norm <$> view s) C).
Context (Ht : live (view s) t vt) (Hn : live (view s) n vn) (Hs : v_send vn = Some (v_ep vt)).
Context (Hq : C t = l1 ++ n :: l2).

Lemma sender_chain : chain (qlink (view s)) (v_cq vt) (l1 ++ n :: l2).
Proof.
  destruct (HC t _ (norm_live _ _ _ Ht)) as [Hch _]. destruct (norm_same vt) as (_ & _ & _ & _ & E).
  rewrite E, Hq in Hch. eapply chain_ext; [|exact Hch]. intros x Hx. rewrite <- Hq in Hx.
  destruct (queue_sends _ C t vt HC Ht x Hx) as (w & Hw & Ew). symmetry. by eapply norm_qlink.
Qed.

Lemma sender_short : (length (l1 ++ n :: l2) <= table_size)%nat.
Proof.
  apply table_length; [exact (chain_NoDup _ _ _ sender_chain)|]. intros x Hx. rewrite <- Hq in Hx.
  destruct (queue_sends _ C t vt HC Ht x Hx) as (w & Hw & _). apply Hw.
Qed.

Lemma clear_ipc_sender :
  exists s', clear_ipc n s = Done tt s' /\ goes s s' (cleared (view s) (loc_of t l1) n) (privs s).
Proof.
  pose proof Hr as [Hb Hc Hnf Hm]. destruct (c_ep _ _ Hc n vn Hn) as (_ & Hf & _). unfold clear_ipc.
  destruct (live_proc_of s n vn Hn) as (p & Hp & Ep). erewrite bind_get_proc by done.
  assert (RTS_ISSET p RTS_SENDING = true /\ p_sendto_e p = v_ep vt) as [-> ->].
  { unfold RTS_ISSET. rewrite isset_has by apply _. rewrite <- Ep in Hs. unfold ipc_of in Hs. cbn in Hs.
    destruct (has (p_rts_flags p) RTS_SENDING); [|done]. by injection Hs. }
  rewrite !bind_assoc, (bind_done _ _ _ _ _ (okendpt_live s Hc t vt Ht)), bind_assoc.
  assert (n ∉ l1) as Hni.
  { pose proof (chain_NoDup _ _ _ sender_chain) as Hnd. apply NoDup_app in Hnd as (_ & Hd & _).
    intros Hx. apply (Hd n Hx). set_solver. }
  assert (forall x, x ∈ l1 ++ n :: l2 -> is_Some (view s !! x)) as Hin.
  { intros x Hx. rewrite <- Hq in Hx. destruct (queue_sends _ C t vt HC Ht x Hx) as (w & (_ & Hw & _) & _). by exists w. }
  pose proof (clear_loop_run s n vn (proj1 (proj2 Hn)) l1 (CqHead t) (v_cq vt) cq_fuel l2
    (read_cq_head s t vt (proj1 (proj2 Ht))) sender_chain Hni) as El.
  change (next_loc (CqHead t) l1) with (loc_of t l1) in El.
  destruct (write_cq_run s (loc_of t l1) (qlink (view s) n) Hb) as (s1 & E1 & G1).
  { intros m. unfold loc_of. destruct (last l1) as [y|] eqn:Ey; intros [[= <-]|[= <-]].
    - apply Hin. apply last_Some in Ey as (? & ->). set_solver.
    - exists vt. apply Ht. }
  rewrite <- El in E1; [|by intros x ?; apply Hin; set_solver|].
  2:{ pose proof sender_short as Hl. rewrite length_app in Hl. cbn in Hl. unfold cq_fuel. fold table_size. lia. }
  rewrite (bind_done _ _ _ _ _ E1).
  destruct (put_cq_lookup (loc_of t l1) (qlink (view s) n) (view s) n) as [v1 Hv1]; [exists vn; apply Hn|].
  assert (v_fbit v1 = false) as Hf1.
  { rewrite <- Hf. revert Hv1. pose proof (proj1 (proj2 Hn)) as Hvn. destruct (loc_of t l1); cbn [put_cq];
      rewrite alter_lookup; case_decide; rewrite Hvn; by intros [= <-]. }
  rewrite <- (insert_id _ n v1 Hv1) in G1.
  vstep s s1 n (set_v_send None v1) G1 (v_unset_send_step s1 n v1 Hf1) s2 G2.
  destruct (v_unset_recv_step s2 n (set_v_send None v1) Hf1 (g_base _ _ _ _ G2)) as (s3 & E3 & G3);
    [by eapply goes_lookup|].
  exists s3. split; [done|]. unfold cleared. rewrite (alter_as_insert _ _ _ v1 Hv1).
  rewrite (g_view _ _ _ _ G2), (g_privs _ _ _ _ G2), insert_insert_eq in G3. by eapply goes_trans.
Qed.
End ClearSender.

Lemma unwait_unwaits V n : unwaits (fun m _ => m =? n) None V (alter unwait n V).
Proof.
  intros m. rewrite alter_lookup. destruct (V !! m) as [v|];
    destruct (Z.eqb_spec m n); repeat case_decide; subst; try done; cbn; by split_and!.
Qed.

Lemma unwait_relax V n vn : V !! n = Some vn -> v_send vn = None -> relax V (alter unwait n V).
Proof.
  intros Hn Hs m. rewrite alter_lookup. case_decide as E; [subst; rewrite Hn; cbn|by destruct (V !! m)].
  split; try done. by right.
Qed.

(** The state after clearing: message passing goes on. *)
Record calm (s s' : kstate) : Prop := {
  cm_ready : ready s';
  cm_linked : linked (view s');
  cm_rest : rest0 s' = rest0 s
}.

Lemma calm_trans s1 s2 s3 : calm s1 s2 -> calm s2 s3 -> calm s1 s3.
Proof. intros [] []. split; [done..|congruence]. Qed.

Lemma unwaits_calm s s' X code :
  ready s -> goes s s' (view s') (privs s) -> unwaits X code (view s) (view s') -> linked (view s') -> calm s s'.
Proof.
  intros Hr G HU HL. split; [|done|exact (f_equal (set_atab ∅) (g_rest _ _ _ _ G))].
  eapply ready_goes; [done|exact G|by eapply unwaits_idents|].
  eapply unwaits_dlv; [done|exact (c_dlv _ _ (r_core _ Hr))].
Qed.

Lemma clear_ipc_run s n vn :
  ready s -> linked (view s) -> live (view s) n vn ->
  exists s', clear_ipc n s = Done tt s' /\ calm s s' /\ privs s' = privs s
    /\ unwaits (fun m _ => m =? n) None (view s) (view s').
Proof.
  intros Hr HL Hn. destruct (v_send vn) as [e|] eqn:Hs.
  - assert (exists t vt, live (view s) t vt /\ v_ep vt = e) as (t & vt & Ht & <-).
    { destruct (l_send _ HL n (norm vn) e (norm_live _ _ _ Hn)) as (t & w' & (w & Hw & ->)%norm_live_r & E & _).
      - by destruct (norm_same vn) as (_ & -> & _).
      - destruct (norm_same w) as (E' & _). exists t, w. split; [done|congruence]. }
    destruct (l_queue _ HL) as [C HC].
    assert (n ∈ C t) as Hin.
    { apply (HC t _ (norm_live _ _ _ Ht)). exists (norm vn). split; [by apply norm_live|].
      destruct (norm_same vn) as (_ & -> & _), (norm_same vt) as (-> & _). done. }
    apply list_elem_of_split in Hin as (l1 & l2 & Hq).
    destruct (clear_ipc_sender s C t n vt vn l1 l2 Hr HL HC Ht Hn Hs Hq) as (s' & E & G).
    exists s'. pose proof (g_view _ _ _ _ G) as EV. rewrite <- EV in G.
    assert (unwaits (fun m _ => m =? n) None (view s) (view s')) as HU by (rewrite EV; apply put_cq_unwaits).
    split_and!; [done| |apply G|done]. eapply unwaits_calm; [done|exact G|exact HU|]. rewrite EV.
    eapply linked_cleared; try done. intros m v Hv. by apply (c_ep _ _ (r_core _ Hr)).
  - destruct (clear_ipc_idle s n vn Hr Hn Hs) as (s' & E & G). exists s'.
    pose proof (g_view _ _ _ _ G) as EV. rewrite <- EV in G.
    assert (unwaits (fun m _ => m =? n) None (view s) (view s')) as HU by (rewrite EV; apply unwait_unwaits).
    split_and!; [done| |apply G|done]. eapply unwaits_calm; [done|exact G|exact HU|]. rewrite EV.
    eapply linked_relax; [eapply unwait_relax; [apply Hn|done]|done].
Qed.

(** ** Forgetting references *)

Definition unpend (b : Z) (pv : priv) : priv :=
  set_s_asyn_pending (unset_sys_bit (s_asyn_pending pv) b)
    (set_s_notify_pending (unset_sys_bit (s_notify_pending pv) b) pv).

Lemma pending_unpend b pv b' :
  map_ok (s_notify_pending pv) -> map_ok (s_asyn_pending pv) -> bit_ok b -> bit_ok b' ->
  pending (unpend b pv) b' = pending pv b' && negb (b =? b').
Proof.
  intros M1 M2 Hb Hb'. unfold pending. cbn. rewrite !get_unset_sys_bit by done.
  by destruct (get_sys_bit (s_notify_pending pv) b'), (get_sys_bit (s_asyn_pending pv) b'), (b =? b').
Qed.

Lemma unpend_relax V P id pv b : P !! id = Some pv -> bit_ok b -> prelax V P (<[id := unpend b pv]> P).
Proof.
  intros Hp Hb. apply (prelax_insert V P id pv); try done.
  - cbn. apply map_ok_unset.
  - cbn. apply map_ok_unset.
  - intros M1 M2 b' Hb' H. rewrite pending_unpend in H by done. left. by apply andb_true_iff in H as [? _].
Qed.

(** No structure gets the bit [b]. *)
Definition fades (b : Z) P P' : Prop :=
  forall id pv', P' !! id = Some pv' -> exists pv, P !! id = Some pv /\ (pending pv b = false -> pending pv' b = false).

#[export] Instance fades_refl b : Reflexive (fades b).
Proof. intros P id pv H. by exists pv. Qed.
#[export] Instance fades_trans b : Transitive (fades b).
Proof.
  intros P1 P2 P3 H1 H2 id pv3 H3. destruct (H2 id pv3 H3) as (pv2 & E2 & F2).
  destruct (H1 id pv2 E2) as (pv1 & E1 & F1). exists pv1. auto.
Qed.

Lemma v_blocked_proc p : P_BLOCKEDON p = v_blocked (ipc_of p).
Proof. unfold P_BLOCKEDON, v_blocked, ipc_of. cbn. by repeat destruct (has _ _). Qed.

(** The process in slot [m] waits for [e]. *)
Definition waits_on (e m k : Z) v : bool := (k =? m) && negb (v_empty v) && (v_blocked v =? e).

Lemma unwaits_false (X : Z -> ipcv -> bool) code V :
  (forall m v, V !! m = Some v -> X m v = false) -> unwaits X code V V.
Proof. intros H m. destruct (V !! m) as [v|] eqn:E; [|done]. by rewrite (H m v E). Qed.

(** Setting the return register and clearing. *)
Lemma unwaits_ret V V' n vn code :
  V !! n = Some vn -> unwaits (fun m _ => m =? n) None (<[n := set_v_ret code vn]> V) V' ->
  unwaits (fun m _ => m =? n) (Some code) V V'.
Proof.
  intros Hn H m. specialize (H m). destruct (decide (m = n)) as [->|Hne].
  - rewrite lookup_insert_eq in H. rewrite Hn, Z.eqb_refl in *. destruct (V' !! n) as [v'|]; [|done].
    destruct H as (HS & -> & -> & ->). split_and!; try done. etrans; [apply set_ret_still|done].
  - rewrite lookup_insert_ne in H by done. by rewrite (proj2 (Z.eqb_neq _ _) Hne) in *.
Qed.

Lemma unwaits_ext (X Y : Z -> ipcv -> bool) code V V' :
  (forall m v, V !! m = Some v -> Y m v = X m v) -> unwaits X code V V' -> unwaits Y code V V'.
Proof.
  intros H HU m. specialize (HU m). destruct (V !! m) as [v|] eqn:E; [|done]. by rewrite (H m v E).
Qed.

(** The return register of a waiting process is set, and the process released. *)
Lemma release_waiter s m vm code :
  ready s -> linked (view s) -> live (view s) m vm ->
  exists s', bind (upd_proc m (set_p_retreg code)) (fun _ => clear_ipc m) s = Done tt s' /\ calm s s'
    /\ privs s' = privs s /\ unwaits (fun k _ => k =? m) (Some code) (view s) (view s').
Proof.
  intros Hr HL Hm. pose proof Hr as [Hb Hc Hnf Hmg].
  destruct (v_upd s m vm (set_p_retreg code) (set_v_ret code) Hb (proj1 (proj2 Hm))) as (s1 & E1 & G1); [done..|].
  rewrite (bind_done _ _ _ _ _ E1). pose proof (g_view _ _ _ _ G1) as V1.
  assert (relax (view s) (view s1)) as R.
  { rewrite V1. eapply relax_insert; [apply Hm|]. split; try done. by left. }
  assert (ready s1) as R1.
  { eapply ready_goes; [exact Hr| |by apply relax_idents, R|]; [by rewrite V1|].
    rewrite V1. apply dlv_insert; [exact (c_dlv _ _ Hc)|]. cbn.
    destruct (v_recv vm) as [x|] eqn:Ex; [right|by left]. apply (c_dlv _ _ Hc m _ Hm). congruence. }
  assert (linked (view s1)) as L1 by (by eapply linked_relax).
  assert (live (view s1) m (set_v_ret code vm)) as Hl1.
  { split_and!; [apply Hm|rewrite V1; apply lookup_insert_eq|apply Hm]. }
  destruct (clear_ipc_run s1 m _ R1 L1 Hl1) as (s2 & E2 & K2 & P2 & U2).
  exists s2. rewrite V1 in U2. split_and!; [done| |by rewrite P2, (g_privs _ _ _ _ G1)|].
  - eapply calm_trans; [|exact K2]. split; [done..|]. exact (f_equal (set_atab ∅) (g_rest _ _ _ _ G1)).
  - by apply (unwaits_ret _ _ _ _ _ (proj1 (proj2 Hm))).
Qed.

(** The references of the live process [m] to the process with endpoint [e] and
    privilege structure [b] are gone. *)
Lemma refs_calm s s1 m vm id pv b :
  ready s -> linked (view s) -> live (view s) m vm -> bit_ok b -> bit_ok id ->
  privs s !! id = Some pv -> notified s s1 -> view s1 = view s -> privs s1 = <[id := unpend b pv]> (privs s) ->
  calm s s1 /\ fades b (privs s) (privs s1) /\ forall pv', privs s1 !! id = Some pv' -> pending pv' b = false.
Proof.
  intros Hr HL Hm Hb Hid Hpv N EV EP.
  destruct (c_privs _ _ (r_core _ Hr) id pv Hid Hpv) as (_ & M1 & M2).
  assert (pending (unpend b pv) b = false) as Hz.
  { rewrite pending_unpend by done. by rewrite Z.eqb_refl, andb_false_r. }
  split_and!.
  - split; [apply N|by rewrite EV|apply N].
  - rewrite EP. intros i pv' Hi. destruct (Z.eq_dec i id) as [->|Hne].
    + rewrite lookup_insert_eq in Hi. injection Hi as <-. by exists pv.
    + rewrite lookup_insert_ne in Hi by done. by exists pv'.
  - intros pv'. rewrite EP, lookup_insert_eq. by intros [= <-].
Qed.

Section Refs.
Context (rc code b e : Z).

(** The process being cleared, whose structure is [b] and endpoint [e]. *)
Definition subject (s : kstate) : Prop :=
  exists vr, live (view s) rc vr /\ v_priv vr = Some b /\ v_ep vr = e.

Lemma subject_idents s s' : idents (view s) (view s') -> subject s -> subject s'.
Proof.
  intros HI (vr & Hl & Hp & He). destruct (idents_live _ _ _ _ HI Hl) as (v' & Hl' & Hi).
  exists v'. split_and!; [done|by rewrite (i_priv _ _ Hi)|by rewrite (i_ep _ _ Hi)].
Qed.

Lemma clear_refs_of_run s m :
  ready s -> linked (view s) -> subject s -> isokprocn m = true ->
  exists s', clear_refs_of rc code m s = Done tt s' /\ calm s s'
    /\ unwaits (waits_on e m) (Some code) (view s) (view s')
    /\ fades b (privs s) (privs s')
    /\ forall w id pv, live (view s') m w -> v_priv w = Some id -> privs s' !! id = Some pv -> pending pv b = false.
Proof.
  intros Hr HL (vr & Hrc & Hb & He) Hm. pose proof Hr as [Hbs Hc Hnf Hmg]. unfold clear_refs_of.
  destruct (slot_some _ (ws_slots _ (b_sched _ Hbs)) _ Hm) as [p Hp]. erewrite bind_get_proc by done.
  destruct (isemptyp p) eqn:Hemp.
  { exists s. split_and!; [done|by split| |done|].
    - apply unwaits_false. intros k v Hk. unfold waits_on. destruct (Z.eqb_spec k m) as [->|]; [|done].
      rewrite (view_lookup s m p Hp) in Hk. injection Hk as <-. unfold ipc_of. cbn. by rewrite Hemp.
    - intros w id pv (_ & Hw & Hlw). rewrite (view_lookup s m p Hp) in Hw. injection Hw as <-.
      unfold ipc_of in Hlw. cbn in Hlw. congruence. }
  assert (live (view s) m (ipc_of p)) as Hlm by (split_and!; [done|by apply view_lookup|done]).
  destruct (live_proc_of s rc vr Hrc) as (c & Hcp & Ec). erewrite bind_get_proc by done.
  destruct (c_priv _ _ Hc rc vr Hrc) as (b' & cpv & Hb' & Hbok & Hcpv & _).
  rewrite Hb in Hb'. injection Hb' as <-. destruct (c_privs _ _ Hc b cpv Hbok Hcpv) as (Hsid & _).
  rewrite (bind_priv_of c b cpv) by (done || by rewrite (f_equal v_priv Ec : p_priv c = v_priv vr)).
  rewrite Hsid. destruct (c_priv _ _ Hc m _ Hlm) as (id & pv & Hid & Hidok & Hpv & _).
  destruct (priv_step s p id pv (unpend b) Hr Hid Hpv) as (s1 & E1 & N1 & EV1 & EP1 & EQ1); [by apply unpend_relax|].
  change (upd_priv_of p (fun pv => set_s_asyn_pending (unset_sys_bit (s_asyn_pending pv) b)
        (set_s_notify_pending (unset_sys_bit (s_notify_pending pv) b) pv))) with (upd_priv_of p (unpend b)).
  rewrite (bind_done _ _ _ _ _ E1).
  destruct (refs_calm s s1 m _ id pv b Hr HL Hlm Hbok Hidok Hpv N1 EV1 EP1) as (K1 & F1 & Z1).
  rewrite v_blocked_proc, (f_equal v_ep Ec : p_endpoint c = v_ep vr), He.
  destruct (Z.eqb_spec (v_blocked (ipc_of p)) e) as [Ebl|Nbl].
  - rewrite <- EV1 in Hlm. destruct (release_waiter s1 m _ code (cm_ready _ _ K1) (cm_linked _ _ K1) Hlm)
      as (s3 & E3 & K3 & EP3 & U3). rewrite EV1 in Hlm, U3.
    exists s3. split_and!; [done|by eapply calm_trans| |by rewrite EP3|].
    + eapply unwaits_ext; [|exact U3]. intros k v Hk. unfold waits_on. destruct (Z.eqb_spec k m) as [->|]; [|done].
      rewrite (proj1 (proj2 Hlm)) in Hk. injection Hk as <-. rewrite Ebl, Z.eqb_refl, (proj2 (proj2 Hlm)). done.
    + intros w i pv' (_ & Hw & _) Hi. rewrite EP3. specialize (U3 m). rewrite Hw, (proj1 (proj2 Hlm)) in U3.
      destruct U3 as (HS & _). rewrite (i_priv _ _ (st_ident _ _ HS)), Hid in Hi. injection Hi as <-. apply Z1.
  - exists s1. split_and!; [done|done| |done|].
    + rewrite EV1. apply unwaits_false. intros k v Hk. unfold waits_on. destruct (Z.eqb_spec k m) as [->|]; [|done].
      rewrite (proj1 (proj2 Hlm)) in Hk. injection Hk as <-. by rewrite (proj2 (Z.eqb_neq _ _) Nbl), andb_false_r.
    + intros w i pv'. rewrite EV1. intros (_ & Hw & _) Hi. rewrite (proj1 (proj2 Hlm)) in Hw. injection Hw as <-.
      rewrite Hid in Hi. injection Hi as <-. apply Z1.
Qed.

(** The processes of the list [L] that wait for [e]. *)
Definition waits_in (L : list Z) (k : Z) v : bool :=
  bool_decide (k ∈ L) && negb (v_empty v) && (v_blocked v =? e).

Lemma unwaits_cons m L V1 V2 V3 :
  e <> NONE -> m ∉ L ->
  unwaits (waits_on e m) (Some code) V1 V2 -> unwaits (waits_in L) (Some code) V2 V3 ->
  unwaits (waits_in (m :: L)) (Some code) V1 V3.
Proof.
  intros He HmL H1 H2 k. specialize (H1 k). specialize (H2 k).
  destruct (V1 !! k) as [v1|], (V2 !! k) as [v2|], (V3 !! k) as [v3|]; try done.
  destruct H1 as (S1 & A1 & B1 & C1), H2 as (S2 & A2 & B2 & C2).
  assert (v_empty v2 = v_empty v1) as Ee by apply S1.
  unfold waits_on, waits_in, v_blocked in *. rewrite Ee in *.
  destruct (Z.eqb_spec k m) as [->|Hne].
  - rewrite (bool_decide_eq_true_2 (m ∈ m :: L)) by set_solver.
    rewrite (bool_decide_eq_false_2 (m ∈ L)) in * by done. cbn [andb] in *.
    split; [by etrans|]. by rewrite A2, B2, C2.
  - cbn [andb] in *. rewrite A1, B1, C1 in *.
    replace (bool_decide (k ∈ m :: L)) with (bool_decide (k ∈ L)) by (apply bool_decide_ext; set_solver).
    split; [by etrans|done].
Qed.

Lemma clear_refs_loop L :
  e <> NONE -> NoDup L -> (forall m, m ∈ L -> isokprocn m = true) ->
  forall s, ready s -> linked (view s) -> subject s ->
  exists s', for_each L (clear_refs_of rc code) s = Done tt s' /\ calm s s'
    /\ unwaits (waits_in L) (Some code) (view s) (view s')
    /\ fades b (privs s) (privs s')
    /\ forall m w id pv, m ∈ L -> live (view s') m w -> v_priv w = Some id -> privs s' !! id = Some pv ->
         pending pv b = false.
Proof.
  intros He. induction L as [|m L IH]; intros Hnd Hok s Hr HL Hs; cbn [for_each].
  { exists s. split_and!; [done|by split|by apply unwaits_false|done|]. intros m w id pv Hm. by apply elem_of_nil in Hm. }
  apply NoDup_cons in Hnd as [HmL Hnd].
  destruct (clear_refs_of_run s m Hr HL Hs) as (s1 & E1 & K1 & U1 & F1 & Z1); [apply Hok; set_solver|].
  rewrite (bind_done _ _ _ _ _ E1).
  destruct (IH Hnd) with (s := s1) as (s2 & E2 & K2 & U2 & F2 & Z2); [set_solver|apply K1..| |].
  { eapply subject_idents; [by eapply unwaits_idents|done]. }
  exists s2. split_and!; [done|by eapply calm_trans|by eapply unwaits_cons|by etrans|].
  intros k w id pv Hk Hw Hid Hpv. destruct (decide (k ∈ L)) as [HkL|HkL]; [by eapply Z2|].
  assert (k = m) as -> by set_solver. destruct (F2 id pv Hpv) as (pv1 & Hpv1 & Hz). apply Hz.
  destruct (idents_live_r _ _ _ _ (unwaits_idents _ _ _ _ U2) Hw) as (w1 & Hw1 & Hi).
  rewrite (i_priv _ _ Hi) in Hid. by eapply Z1.
Qed.
End Refs.

(** ** The list of processes waiting for VM *)

Definition vmlink V (n : Z) : option Z := match V !! n with Some v => v_vmnext v | None => None end.

(** [l] is that list. *)
Definition vm_list (s : kstate) (l : list Z) : Prop :=
  chain (vmlink (view s)) (vmrequest s) l
  /\ forall n, n ∈ l -> isokprocn n = true /\ exists w, view s !! n = Some w /\ v_vmwait w = true.

(** Only the fields of that list change. *)
Definition vm_only V V' : Prop :=
  forall n, match V !! n, V' !! n with
            | Some v, Some v' => v' = set_v_vmreq (v_vmreq v') (set_v_vmwait (v_vmwait v') v)
            | None, None => True
            | _, _ => False
            end.

#[export] Instance vm_only_refl : Reflexive vm_only.
Proof. intros V n. destruct (V !! n) as [[]|]; done. Qed.
Lemma vm_only_insert V n v v' :
  V !! n = Some v -> v' = set_v_vmreq (v_vmreq v') (set_v_vmwait (v_vmwait v') v) -> vm_only V (<[n := v']> V).
Proof.
  intros Hv E m. destruct (decide (m = n)) as [->|Hne].
  - by rewrite Hv, lookup_insert_eq.
  - rewrite lookup_insert_ne by done. apply vm_only_refl.
Qed.
#[export] Instance vm_only_trans : Transitive vm_only.
Proof.
  intros V1 V2 V3 H1 H2 n. specialize (H1 n). specialize (H2 n).
  destruct (V1 !! n), (V2 !! n), (V3 !! n); try done. rewrite H1 in H2. exact H2.
Qed.

Lemma vm_only_relax V V' : vm_only V V' -> relax V V' /\ (dlv_ok V -> dlv_ok V').
Proof.
  intros H. split.
  - intros n. specialize (H n). destruct (V !! n), (V' !! n); try done. rewrite H. split; try done. by left.
  - intros Hd n v' (Hn & Hv' & He). specialize (H n). rewrite Hv' in H. destruct (V !! n) as [v|] eqn:Hv; [|done].
    rewrite H in He |- *. apply (Hd n v). by split_and!.
Qed.

Lemma base_vmrequest s x : base s -> base (set_vmrequest x s).
Proof.
  intros [[HQ Hpr Hs Hcur] Hc Hp]. split; [|exact Hc|exact Hp].
  split; [destruct HQ as [L HQ]; exists L; by destruct HQ; split|exact Hpr|by destruct Hs; split|exact Hcur].
Qed.

(** Steps on the list keep the rest of the state. *)
Record vm_step (s s' : kstate) : Prop := {
  vs_base : base s';
  vs_only : vm_only (view s) (view s');
  vs_privs : privs s' = privs s
}.

Lemma vm_step_ready s s' : ready s -> vm_step s s' -> ready s'.
Proof.
  intros [Hb Hc Hnf Hm] [B O E]. destruct (vm_only_relax _ _ O) as [HR HD]. split; rewrite ?E; [done| |done|].
  - eapply core_relax; [done| |done]. apply HD. exact (c_dlv _ _ Hc).
  - eapply mgr_relax; [by apply relax_idents|apply prelax_refl|done].
Qed.

Lemma vm_step_trans s1 s2 s3 : vm_step s1 s2 -> vm_step s2 s3 -> vm_step s1 s3.
Proof. intros [] []. split; [done|by etrans|congruence]. Qed.

Lemma goes_vm_step s s' V : goes s s' V (privs s) -> vm_only (view s) V -> vm_step s s'.
Proof. intros G H. split; [apply G|by rewrite (g_view _ _ _ _ G)|apply G]. Qed.

Definition vm_next (rpp : vm_loc) (l1 : list Z) : vm_loc :=
  match last l1 with None => rpp | Some y => VmNext y end.
Lemma vm_next_cons rpp y l1 : vm_next (VmNext y) l1 = vm_next rpp (y :: l1).
Proof. unfold vm_next. destruct l1 as [|z l1]; [done|]. by rewrite last_cons_cons, last_default. Qed.

Lemma read_vm_next s n w : view s !! n = Some w -> read_vm (VmNext n) s = Done (vmlink (view s) n) s.
Proof.
  intros Hw. unfold vmlink. rewrite Hw. destruct (view_lookup_inv _ _ _ Hw) as (p & Hp & <-). unfold read_vm.
  by erewrite bind_get_proc by done.
Qed.

Lemma memreq_loop_run s rc vr :
  view s !! rc = Some vr ->
  forall l rpp h fuel, read_vm rpp s = Done h s -> chain (vmlink (view s)) h l ->
  (forall x, x ∈ l -> is_Some (view s !! x)) -> (length l < fuel)%nat ->
  (rc ∉ l /\ clear_memreq_loop fuel rc rpp s = Done tt s)
  \/ exists l1 l2, l = l1 ++ rc :: l2 /\ rc ∉ l1
       /\ clear_memreq_loop fuel rc rpp s = write_vm (vm_next rpp l1) (vmlink (view s) rc) s.
Proof.
  intros Hrc. induction l as [|x l IH]; intros rpp h fuel Hrd Hch Hin Hf;
    (destruct fuel as [|fuel]; [cbn in Hf; lia|]); cbn [clear_memreq_loop]; rewrite (bind_done _ _ _ _ _ Hrd).
  - change (h = None) in Hch. subst h. left. split; [set_solver|done].
  - destruct Hch as [-> Hch]. destruct (Z.eqb_spec x rc) as [->|Hne].
    + right. exists [], l. split_and!; [done|set_solver|]. unfold vmlink. rewrite Hrc.
      destruct (view_lookup_inv _ _ _ Hrc) as (p & Hp & <-). by erewrite bind_get_proc by done.
    + destruct (Hin x) as [w Hw]; [set_solver|].
      destruct (IH (VmNext x) (vmlink (view s) x) fuel) as [[Hni E]|(l1 & l2 & -> & Hni & E)].
      * by eapply read_vm_next.
      * done.
      * intros y Hy. apply Hin. set_solver.
      * cbn in Hf. lia.
      * left. split; [set_solver|done].
      * right. exists (x :: l1), l2. rewrite (vm_next_cons rpp) in E. split_and!; [done|set_solver|done].
Qed.

Lemma vmlink_insert V n v y m :
  V !! n = Some v -> vmlink (<[n := set_v_vmnext y v]> V) m = upd (vmlink V) n y m.
Proof.
  intros Hv. unfold vmlink, upd. destruct (Z.eqb_spec m n) as [->|Hne].
  - by rewrite lookup_insert_eq.
  - by rewrite lookup_insert_ne.
Qed.

(** Unlinking [rc] from the list [l1 ++ rc :: l2]. *)
Lemma write_vm_run s rc l1 l2 :
  base s -> chain (vmlink (view s)) (vmrequest s) (l1 ++ rc :: l2) ->
  (forall x, x ∈ l1 -> is_Some (view s !! x)) ->
  exists s', write_vm (vm_next VmHead l1) (vmlink (view s) rc) s = Done tt s' /\ vm_step s s'
    /\ chain (vmlink (view s')) (vmrequest s') (l1 ++ l2)
    /\ forall n w, view s !! n = Some w -> exists w', view s' !! n = Some w' /\ v_vmwait w' = v_vmwait w.
Proof.
  intros Hb Hch Hin. unfold vm_next. destruct (last l1) as [z|] eqn:Ez; cbn [write_vm].
  - pose proof Ez as (l & El)%last_Some. destruct (Hin z) as [v Hv]; [rewrite El; set_solver|].
    destruct (v_upd s z v (fun p => set_p_vmrequest (set_vr_nextrequestor (vmlink (view s) rc) (p_vmrequest p)) p)
      (set_v_vmnext (vmlink (view s) rc)) Hb Hv) as (s' & E & G); [done..|].
    exists s'. split; [done|]. split_and!.
    + eapply goes_vm_step; [exact G|]. by eapply vm_only_insert.
    + rewrite (g_view _ _ _ _ G), (goes_field vmrequest _ _ _ _ (fun _ => eq_refl) G).
      rewrite El, <- app_assoc in *. eapply chain_ext; [intros x _; by apply vmlink_insert|]. by apply chain_unlink.
    + intros n w Hw. rewrite (g_view _ _ _ _ G). destruct (decide (n = z)) as [->|Hne].
      * rewrite lookup_insert_eq. rewrite Hv in Hw. injection Hw as <-. by eexists.
      * rewrite lookup_insert_ne by done. by eexists.
  - apply last_None in Ez as ->. eexists. split; [done|]. split_and!.
    + split; [by apply base_vmrequest|done|done].
    + exact (proj2 Hch).
    + intros n w Hw. by exists w.
Qed.

(** The walk over the whole list. *)
Lemma memreq_unlink s rc vr l :
  base s -> view s !! rc = Some vr -> vm_list s l ->
  exists s1, clear_memreq_loop cq_fuel rc VmHead s = Done tt s1 /\ vm_step s s1
    /\ chain (vmlink (view s1)) (vmrequest s1) (remove1 rc l)
    /\ forall n w, view s !! n = Some w -> exists w', view s1 !! n = Some w' /\ v_vmwait w' = v_vmwait w.
Proof.
  intros Hb Hrc [Hch Hl]. assert (length l <= table_size)%nat as Hlen.
  { apply table_length; [by eapply chain_NoDup|]. intros n Hn. by apply Hl. }
  destruct (memreq_loop_run s rc vr Hrc l VmHead (vmrequest s) cq_fuel)
    as [[Hni E]|(l1 & l2 & -> & Hni & E)]; [done|done| |unfold cq_fuel; fold table_size; lia|..].
  - intros x Hx. destruct (Hl x Hx) as (_ & w & ? & _). by exists w.
  - exists s. rewrite remove1_notin by done. split_and!; [done|by split|done|]. intros n w Hw. by exists w.
  - destruct (write_vm_run s rc l1 l2 Hb Hch) as (s1 & E1 & S1 & C1 & W1).
    { intros x Hx. destruct (Hl x) as (_ & w & ? & _); [set_solver|]. by exists w. }
    exists s1. rewrite E. split_and!; [done|done| |done]. rewrite remove1_split; [done|done|].
    pose proof (chain_NoDup _ _ _ Hch) as Hnd. apply NoDup_app in Hnd as (_ & _ & Hnd). by apply NoDup_cons in Hnd as [? _].
Qed.

Lemma clear_memreq_run s rc vr l :
  ready s -> live (view s) rc vr -> vm_list s l ->
  exists s', clear_memreq rc s = Done tt s' /\ vm_step s s' /\ vm_list s' (remove1 rc l)
    /\ exists vr', view s' !! rc = Some vr' /\ v_vmwait vr' = false.
Proof.
  intros Hr Hrc [Hch Hl]. pose proof Hr as [Hb Hc Hnf Hm]. unfold clear_memreq.
  destruct (live_proc_of s rc vr Hrc) as (p & Hp & Ep). erewrite bind_get_proc by done.
  assert (RTS_ISSET p RTS_VMREQUEST = v_vmwait vr) as ->.
  { unfold RTS_ISSET. rewrite isset_has by apply _. by rewrite <- Ep. }
  destruct (v_vmwait vr) eqn:Hvw; cbn [negb].
  2:{ exists s. assert (rc ∉ l) as Hni.
      { intros Hi. destruct (Hl rc Hi) as (_ & w & Hw & E). rewrite (proj1 (proj2 Hrc)) in Hw. congruence. }
      split_and!; [done|by split|rewrite remove1_notin by done; by split|]. exists vr. split; [apply Hrc|done]. }
  destruct (memreq_unlink s rc vr l Hb (proj1 (proj2 Hrc)) (conj Hch Hl)) as (s1 & E1 & S1 & C1 & W1).
  rewrite (bind_done _ _ _ _ _ E1). destruct (W1 rc vr (proj1 (proj2 Hrc))) as (v1 & Hv1 & _).
  destruct (view_lookup_inv _ _ _ Hv1) as (p1 & Hp1 & Ep1).
  assert (has (p_rts_flags p1) RTS_SLOT_FREE = false) as Hf1.
  { destruct (relax_live _ _ _ _ (proj1 (vm_only_relax _ _ (vs_only _ _ S1))) Hrc) as (v & Hv & _).
    destruct (c_ep _ _ (r_core _ (vm_step_ready _ _ Hr S1)) rc v Hv) as (_ & Hf & _).
    rewrite (proj1 (proj2 Hv)) in Hv1. injection Hv1 as ->. by rewrite <- Ep1 in Hf. }
  destruct (step_unset s1 rc p1 RTS_VMREQUEST (vs_base _ _ S1) Hp1 eq_refl) as (s2 & E2 & G2).
  rewrite ipc_unset_vmwait, Ep1 in G2 by done. exists s2.
  assert (vm_step s1 s2) as S2 by (eapply goes_vm_step; [exact G2|by eapply vm_only_insert; [exact Hv1|]]).
  split_and!; [done|by eapply vm_step_trans| |].
  - split.
    + rewrite (g_view _ _ _ _ G2), (goes_field vmrequest _ _ _ _ (fun _ => eq_refl) G2).
      eapply chain_ext; [|exact C1]. intros x _. unfold vmlink. destruct (decide (x = rc)) as [->|Hne].
      * by rewrite lookup_insert_eq, Hv1.
      * by rewrite lookup_insert_ne.
    + intros n [Hne Hn]%elem_of_remove1. destruct (Hl n Hn) as (Hok & w & Hw & Ew). split; [done|].
      destruct (W1 n w Hw) as (w' & Hw' & Ew'). exists w'. rewrite (g_view _ _ _ _ G2), lookup_insert_ne by done.
      split; [done|congruence].
  - eexists. rewrite (g_view _ _ _ _ G2), lookup_insert_eq. by split.
Qed.

(** ** [clear_ipc_refs] and [clear_endpoint] *)

Lemma norm_set_noend v : v_empty v = false -> norm (set_v_noend true v) = norm v.
Proof. intros E. unfold norm. cbn. rewrite E. by destruct (v_send v). Qed.

Lemma linked_noend V n v : live V n v -> linked V -> linked (<[n := set_v_noend true v]> V).
Proof.
  intros (_ & Hv & He). unfold linked. rewrite fmap_insert, norm_set_noend by done.
  by rewrite insert_id by (by rewrite lookup_fmap, Hv).
Qed.

(** The process can no longer be sent to. *)
Lemma set_noend_run s rc vr :
  ready s -> linked (view s) -> live (view s) rc vr ->
  exists s', RTS_SET rc RTS_NO_ENDPOINT s = Done tt s' /\ calm s s' /\ privs s' = privs s
    /\ view s' = <[rc := set_v_noend true vr]> (view s).
Proof.
  intros Hr HL Hrc. pose proof Hr as [Hb Hc Hnf Hm]. destruct (live_proc_of s rc vr Hrc) as (p & Hp & Ep).
  destruct (step_set s rc p RTS_NO_ENDPOINT Hb Hp eq_refl) as (s' & E & G).
  rewrite ipc_set_noend, Ep in G.
  2:{ destruct (c_ep _ _ Hc rc vr Hrc) as (_ & Hf & _). by rewrite <- Ep in Hf. }
  exists s'. pose proof (g_view _ _ _ _ G) as EV. split_and!; [done| |apply G|done].
  split; [|rewrite EV; by apply linked_noend|exact (f_equal (set_atab ∅) (g_rest _ _ _ _ G))].
  eapply ready_goes; [exact Hr|exact G|by eapply idents_insert; [apply Hrc|]|].
  apply dlv_insert; [exact (c_dlv _ _ Hc)|]. cbn.
  destruct (v_recv vr) as [x|] eqn:Ex; [right|by left]. apply (c_dlv _ _ Hc rc vr Hrc). congruence.
Qed.

Lemma moved_calm s s' : moved s s' -> linked (view s) -> calm s s'.
Proof. intros [A B C D E] HL. split; [done|by eapply linked_relax|done]. Qed.

Lemma NoDup_proc_table : NoDup proc_table.
Proof. by vm_compute; apply (bool_decide_eq_true_1 (NoDup proc_table)). Qed.

(** What is left of the references to a process. *)
Record unreferenced (s' : kstate) (b e : Z) : Prop := {
  ur_wait : forall n w, live (view s') n w -> v_blocked w <> e;
  ur_pend : forall n w id pv, live (view s') n w -> v_priv w = Some id -> privs s' !! id = Some pv ->
    pending pv b = false
}.

Lemma clear_ipc_refs_run s rc vr idr pvr code :
  ready s -> linked (view s) -> live (view s) rc vr -> v_priv vr = Some idr -> bit_ok idr ->
  privs s !! idr = Some pvr -> senders_ok (view s) (privs s) (s_asyn_pending pvr) ->
  exists s1 s', clear_ipc_refs rc code s = Done tt s' /\ hushed s s1 /\ calm s s'
    /\ unwaits (waits_in (v_ep vr) proc_table) (Some code) (view s1) (view s')
    /\ unreferenced s' idr (v_ep vr).
Proof.
  intros Hr HL Hrc Hid Hok Hpvr HS. unfold clear_ipc_refs.
  destruct (cancel_pending_run rc idr pending_fuel s vr pvr Hr Hrc Hid Hok Hpvr HS) as (s1 & E1 & H1 & _).
  { unfold pending_fuel. pose proof (count_bits_le (s_asyn_pending pvr)). lia. }
  rewrite (bind_done _ _ _ _ _ E1). pose proof (moved_calm _ _ (h_moved _ _ H1) HL) as K1.
  destruct (live_ep s (r_core _ Hr) rc vr Hrc) as [_ Hne].
  destruct (clear_refs_loop rc code idr (v_ep vr) proc_table Hne NoDup_proc_table) with (s := s1)
    as (s2 & E2 & K2 & U2 & F2 & Z2).
  - intros m. apply elem_of_proc_table.
  - apply K1.
  - apply K1.
  - apply (subject_idents rc idr (v_ep vr) s); [apply relax_idents, (m_relax _ _ (h_moved _ _ H1))|]. by exists vr.
  - exists s1, s2. split_and!; [done|done|by eapply calm_trans|done|]. split.
    + intros n w (Hn & Hw & He) Ew. specialize (U2 n). rewrite Hw in U2.
      destruct (view s1 !! n) as [w1|]; [|done]. destruct U2 as (HS' & A & B & _).
      unfold waits_in in A, B. rewrite bool_decide_eq_true_2 in A, B by (by apply elem_of_proc_table).
      rewrite <- (i_empty _ _ (st_ident _ _ HS')), He in A, B. cbn in A, B. unfold v_blocked in Ew.
      destruct (Z.eqb_spec (v_blocked w1) (v_ep vr)) as [E|E]; rewrite A, B in Ew; [congruence|]. by apply E.
    + intros n w id pv Hw. apply (Z2 n w id pv); [apply elem_of_proc_table, Hw|done].
Qed.

(** Forgetting the table of asynchronous messages of the process itself. *)
Lemma reset_asyn_run s rc vr idr pvr :
  ready s -> live (view s) rc vr -> v_priv vr = Some idr -> privs s !! idr = Some pvr ->
  exists s', (pv <- priv_at rc ;;
      if has (s_flags pv) SYS_PROC then upd_priv rc (set_s_asynsize 0) else ret tt) s = Done tt s'
    /\ notified s s' /\ view s' = view s
    /\ exists pvr', privs s' = <[idr := pvr']> (privs s) /\ s_proc_nr pvr' = s_proc_nr pvr /\ af pvr' = af pvr.
Proof.
  intros Hr Hrc Hid Hpvr. destruct (live_proc_of s rc vr Hrc) as (p & Hp & Ep). unfold priv_at, upd_priv.
  assert (p_priv p = Some idr) as Hpid by (by rewrite (f_equal v_priv Ep : p_priv p = v_priv vr)).
  rewrite bind_assoc. erewrite bind_get_proc by done. rewrite (bind_priv_of p idr pvr) by done.
  destruct (has (s_flags pvr) SYS_PROC).
  - destruct (priv_step s p idr pvr (set_s_asynsize 0) Hr Hpid Hpvr) as (s' & E & N & EV & EP & _);
      [by apply (prelax_same _ _ _ pvr)|].
    exists s'. erewrite bind_get_proc by done. split_and!; [done..|]. by exists (set_s_asynsize 0 pvr).
  - exists s. split_and!; [done|by apply notified_refl|done|]. exists pvr. by rewrite insert_id.
Qed.

Lemma senders_ok_mono V V' P id pv pv' map :
  idents V V' -> P !! id = Some pv -> s_proc_nr pv' = s_proc_nr pv -> af pv' = af pv ->
  senders_ok V P map -> senders_ok V' (<[id := pv']> P) map.
Proof.
  intros HI Hpv En Ea HS b Hb Hg. destruct (HS b Hb Hg) as (pb & w & Hpb & Hw & Hwb & Hsys).
  destruct (idents_live _ _ _ _ HI Hw) as (w' & Hw' & Hi). injection Ea as Ef _.
  destruct (decide (b = id)) as [->|Hne].
  - rewrite Hpv in Hpb. injection Hpb as <-. exists pv', w'. rewrite lookup_insert_eq, En, Ef.
    split_and!; [done..|by rewrite (i_priv _ _ Hi)|done].
  - exists pb, w'. rewrite lookup_insert_ne by done. split_and!; [done..|by rewrite (i_priv _ _ Hi)|done].
Qed.

(** The fields of the list of VM requests stay. *)
Definition vm_same V V' : Prop :=
  forall n v, V !! n = Some v -> exists v', V' !! n = Some v' /\ v_vmwait v' = v_vmwait v /\ v_vmreq v' = v_vmreq v.

#[export] Instance vm_same_trans : Transitive vm_same.
Proof.
  intros V1 V2 V3 H1 H2 n v Hv. destruct (H1 n v Hv) as (v2 & Hv2 & ? & ?).
  destruct (H2 n v2 Hv2) as (v3 & Hv3 & ? & ?). exists v3. split_and!; [done|congruence..].
Qed.
Lemma vm_same_unwaits X code V V' : unwaits X code V V' -> vm_same V V'.
Proof.
  intros H n v Hv. specialize (H n). rewrite Hv in H. destruct (V' !! n) as [v'|]; [|done].
  destruct H as ([] & _). by exists v'.
Qed.
Lemma vm_same_hushed s s' : hushed s s' -> vm_same (view s) (view s').
Proof.
  intros [M W] n v Hv. pose proof (m_relax _ _ M n) as H. rewrite Hv in H.
  destruct (view s' !! n) as [v'|] eqn:Hv'; [|done]. destruct (W n v v' Hv Hv') as (_ & ? & ? & _). by exists v'.
Qed.
Lemma vm_list_same s s' l : vm_same (view s) (view s') -> vmrequest s' = vmrequest s -> vm_list s l -> vm_list s' l.
Proof.
  intros H E [Hch Hl]. split.
  - rewrite E. eapply chain_ext; [|exact Hch]. intros x Hx. destruct (Hl x Hx) as (_ & w & Hw & _).
    destruct (H x w Hw) as (w' & Hw' & _ & En). unfold vmlink, v_vmnext. by rewrite Hw, Hw', En.
  - intros n Hn. destruct (Hl n Hn) as (Hok & w & Hw & Ew). destruct (H n w Hw) as (w' & Hw' & Ew' & _).
    split; [done|]. exists w'. split; [done|congruence].
Qed.

(** How another process comes out of the clearing. *)
Definition outcome_of (e : Z) w w' : Prop :=
  if v_blocked w =? e then v_send w' = None /\ v_recv w' = None /\ v_ret w' = EDEADSRCDST
  else v_send w' = v_send w /\ v_ret w' = v_ret w
       /\ (v_recv w' = v_recv w \/ exists g, v_recv w = Some g /\ (g = ANY \/ ENDPOINT_P g = ASYNCM)).

Record removed (s s' : kstate) (rc : Z) (vr : ipcv) (idr : Z) (l : list Z) : Prop := {
  rm_ready : ready s';
  rm_linked : linked (view s');
  rm_self : exists v', live (view s') rc v' /\ v_noend v' = true /\ v_send v' = None /\ v_recv v' = None
    /\ v_vmwait v' = false;
  rm_refs : unreferenced s' idr (v_ep vr);
  rm_others : forall n w, live (view s) n w -> n <> rc ->
    exists w', live (view s') n w' /\ outcome_of (v_ep vr) w w';
  rm_vm : vm_list s' (remove1 rc l)
}.

(** The last step does not touch message passing. *)
Lemma vm_step_removed s s' n w :
  vm_step s s' -> live (view s) n w ->
  exists w', live (view s') n w' /\ v_send w' = v_send w /\ v_recv w' = v_recv w /\ v_ret w' = v_ret w
    /\ v_noend w' = v_noend w /\ v_priv w' = v_priv w.
Proof.
  intros [_ O _] (Hn & Hw & He). specialize (O n). rewrite Hw in O. destruct (view s' !! n) as [w'|] eqn:E; [|done].
  exists w'. split; [split_and!; [done..|by rewrite O]|]. by rewrite O.
Qed.
Lemma vm_step_live_r s s' n w' :
  vm_step s s' -> live (view s') n w' ->
  exists w, live (view s) n w /\ v_blocked w' = v_blocked w /\ v_priv w' = v_priv w.
Proof.
  intros [_ O _] (Hn & Hw & He). specialize (O n). rewrite Hw in O. destruct (view s !! n) as [w|] eqn:E; [|done].
  exists w. split; [split_and!; [done..|by rewrite O in He]|]. by rewrite O.
Qed.

(** The fate of a process that does not go away, up to the last step. *)
Lemma outcome_run V1 V4 V5 rc n w e :
  isokprocn n = true -> n <> rc -> e <> NONE -> e <> ANY -> ENDPOINT_P e <> ASYNCM ->
  relax V1 V4 -> wakes V1 V4 -> unwaits (waits_in e proc_table) (Some EDEADSRCDST) V4 V5 ->
  live V1 n w -> exists w', live V5 n w' /\ outcome_of e w w'.
Proof.
  intros Hn Hne HeN HeA HeS R W U Hw. destruct (relax_live _ _ _ _ R Hw) as (w4 & Hw4 & K4).
  destruct (W n w w4 (proj1 (proj2 Hw)) (proj1 (proj2 Hw4))) as (Er & _ & _ & Ev).
  specialize (U n). rewrite (proj1 (proj2 Hw4)) in U. destruct (V5 !! n) as [w5|] eqn:E5; [|done].
  destruct U as (HS & A & B & C). unfold waits_in in A, B, C.
  rewrite bool_decide_eq_true_2, (proj2 (proj2 Hw4)) in A, B, C by (by apply elem_of_proc_table). cbn in A, B, C.
  exists w5. split.
  { split_and!; [done..|]. rewrite (i_empty _ _ (st_ident _ _ HS)). apply Hw4. }
  unfold outcome_of, v_blocked in *. rewrite (k_send _ _ K4), Er in *.
  destruct (v_send w) as [x|] eqn:Es.
  - destruct (x =? e); rewrite A, B, C; split_and!; done.
  - destruct Ev as [Ev|(g & Eg & Hg)].
    + rewrite Ev in A, B, C. destruct ((match v_recv w with Some x => x | None => NONE end) =? e);
        rewrite A, B, C; split_and!; try done. by left.
    + rewrite Eg in *. destruct (Z.eqb_spec g e) as [->|Hge]; [naive_solver|].
      destruct (k_recv _ _ K4) as [E|E]; rewrite E in A, B, C; rewrite ?Eg in A, B, C.
      * rewrite (proj2 (Z.eqb_neq _ _) Hge) in A, B, C. rewrite A, C. split_and!; [done..|]. right. by exists g.
      * rewrite (proj2 (Z.eqb_neq NONE e)) in A, B, C by done. rewrite A, C. split_and!; [done..|]. right. by exists g.
Qed.

(** The first half: the process leaves message passing. *)
Record left_ipc (s s3 : kstate) (rc : Z) : Prop := {
  lf_calm : calm s s3;
  lf_idents : idents (view s) (view s3);
  lf_vm : vm_same (view s) (view s3);
  lf_self : exists v3, live (view s3) rc v3 /\ v_noend v3 = true /\ v_send v3 = None /\ v_recv v3 = None;
  lf_others : forall n w, live (view s) n w -> n <> rc -> exists w3, live (view s3) n w3
    /\ v_send w3 = v_send w /\ v_recv w3 = v_recv w /\ v_ret w3 = v_ret w
}.

Lemma left_ipc_intro s s1 s2 s3 rc vr :
  live (view s) rc vr -> calm s s1 -> view s1 = <[rc := set_v_noend true vr]> (view s) ->
  notified s1 s2 -> view s2 = view s1 -> calm s2 s3 ->
  unwaits (fun m _ => m =? rc) None (view s2) (view s3) -> left_ipc s s3 rc.
Proof.
  intros Hrc K1 V1 N2 V2 K3 U3. rewrite V2, V1 in U3. split.
  - eapply calm_trans; [exact K1|]. eapply calm_trans; [|exact K3].
    split; [apply N2|rewrite V2; apply K1|apply N2].
  - etrans; [|by eapply unwaits_idents]. by eapply idents_insert; [apply Hrc|].
  - etrans; [|by eapply vm_same_unwaits]. intros n v Hv. destruct (decide (n = rc)) as [->|Hne].
    + rewrite lookup_insert_eq. rewrite (proj1 (proj2 Hrc)) in Hv. injection Hv as <-. by eexists.
    + rewrite lookup_insert_ne by done. by exists v.
  - pose proof (U3 rc) as U. rewrite lookup_insert_eq, Z.eqb_refl in U. destruct (view s3 !! rc) as [v3|] eqn:E; [|done].
    destruct U as (HS & A & B & _). exists v3. split_and!; try done; [|by rewrite (st_noend _ _ HS)].
    split_and!; [apply Hrc|done|]. rewrite (i_empty _ _ (st_ident _ _ HS)). apply Hrc.
  - intros n w Hw Hne. pose proof (U3 n) as U. rewrite lookup_insert_ne, (proj1 (proj2 Hw)) in U by done.
    rewrite (proj2 (Z.eqb_neq _ _) Hne) in U. destruct (view s3 !! n) as [w3|] eqn:E; [|done].
    destruct U as (HS & A & B & C). exists w3. split_and!; try done.
    split_and!; [apply Hw|done|]. rewrite (i_empty _ _ (st_ident _ _ HS)). apply Hw.
Qed.

(** The second half, put together. *)
Lemma removed_intro s s3 s4 s5 s6 rc vr idr l :
  ipc_ok s -> live (view s) rc vr -> 0 <= rc -> left_ipc s s3 rc -> hushed s3 s4 -> calm s3 s5 ->
  unwaits (waits_in (v_ep vr) proc_table) (Some EDEADSRCDST) (view s4) (view s5) ->
  unreferenced s5 idr (v_ep vr) -> vm_step s5 s6 -> vm_list s6 (remove1 rc l) ->
  (exists v6, view s6 !! rc = Some v6 /\ v_vmwait v6 = false) ->
  removed s s6 rc vr idr l.
Proof.
  intros Hok Hrc H0 [K3 I3 _ (v3 & Hv3 & A3 & B3 & C3) O3] H4 K5 U5 [W5 P5] S6 L6 (v6 & Hv6 & Evm).
  destruct (live_ep s (wf_c _ (ok_wf _ Hok)) rc vr Hrc) as [HeA HeN].
  assert (ENDPOINT_P (v_ep vr) <> ASYNCM) as HeS.
  { destruct (c_ep _ _ (wf_c _ (ok_wf _ Hok)) rc vr Hrc) as (-> & _). unfold ASYNCM. lia. }
  split; [by eapply vm_step_ready, S6; apply K5| |..|done].
  - eapply linked_relax; [apply vm_only_relax, S6|apply K5].
  - destruct (relax_live _ _ _ _ (m_relax _ _ (h_moved _ _ H4)) Hv3) as (v4 & Hv4 & K4).
    pose proof (U5 rc) as U. rewrite (proj1 (proj2 Hv4)) in U. destruct (view s5 !! rc) as [v5|] eqn:E5; [|done].
    destruct U as (HS & A & B & _). assert (v_recv v4 = None) as R4 by (destruct (k_recv _ _ K4); congruence).
    rewrite (k_send _ _ K4), B3 in A. rewrite R4 in B.
    assert (live (view s5) rc v5) as Hv5.
    { split_and!; [apply Hv4|done|]. rewrite (i_empty _ _ (st_ident _ _ HS)). apply Hv4. }
    destruct (vm_step_removed s5 s6 rc v5 S6 Hv5) as (v6' & Hv6' & D1 & D2 & _ & D3 & _).
    rewrite (proj1 (proj2 Hv6')) in Hv6. injection Hv6 as <-. exists v6'.
    rewrite D1, D2, D3, A, B, (st_noend _ _ HS), (k_noend _ _ K4). by split_and!; try (by destruct (waits_in _ _ _ _)).
  - split.
    + intros n w6 Hw6. destruct (vm_step_live_r s5 s6 n w6 S6 Hw6) as (w & Hw & -> & _). by eapply W5.
    + intros n w6 id pv Hw6 Hid Hpv. destruct (vm_step_live_r s5 s6 n w6 S6 Hw6) as (w & Hw & _ & Ep).
      rewrite (vs_privs _ _ S6) in Hpv. rewrite Ep in Hid. by eapply P5.
  - intros n w Hw Hne. destruct (O3 n w Hw Hne) as (w3 & Hw3 & D1 & D2 & D3).
    destruct (outcome_run (view s3) (view s4) (view s5) rc n w3 (v_ep vr)) as (w5 & Hw5 & HO);
      [apply Hw|done..|apply H4|apply H4|exact U5|exact Hw3|].
    destruct (vm_step_removed s5 s6 n w5 S6 Hw5) as (w6 & Hw6 & F1 & F2 & F3 & _). exists w6. split; [done|].
    unfold outcome_of, v_blocked in *. by rewrite D1, D2, D3, <- F1, <- F2, <- F3 in HO.
Qed.

(** C4: [clear_endpoint] takes a process out of message passing.  When every
    process that is marked as having asynchronous messages for it still is a
    system process ([senders_ok]; otherwise the loop that cancels them never
    ends), it completes: afterwards no process waits for it or has a
    notification or an asynchronous message of it pending, every process that
    waited for it is released with [EDEADSRCDST], the others keep waiting for whom they waited
    (or got a notification of [ASYNCM]), the caller queues hold exactly the
    blocked senders, and it has left the list of processes waiting for VM. *)
Theorem clear_endpoint_correct s rc vr idr pvr l :
  ipc_ok s -> live (view s) rc vr -> 0 <= rc -> v_priv vr = Some idr -> privs s !! idr = Some pvr ->
  senders_ok (view s) (privs s) (s_asyn_pending pvr) -> vm_list s l ->
  exists s', clear_endpoint rc s = Done tt s' /\ removed s s' rc vr idr l.
Proof.
  intros Hok Hrc H0 Hid Hpvr HS Hvm. pose proof (ipc_ok_ready s Hok) as Hr.
  pose proof (links_linked _ (wf_l _ (ok_wf _ Hok))) as HL. unfold clear_endpoint.
  destruct (live_proc_of s rc vr Hrc) as (p & Hp & Ep). erewrite bind_get_proc by done.
  assert (isemptyp p = false) as -> by (pose proof (proj2 (proj2 Hrc)) as E; by rewrite <- Ep in E).
  rewrite bind_ret. destruct (set_noend_run s rc vr Hr HL Hrc) as (s1 & E1 & K1 & P1 & V1).
  rewrite (bind_done _ _ _ _ _ E1).
  assert (live (view s1) rc (set_v_noend true vr)) as Hrc1.
  { split_and!; [apply Hrc|rewrite V1; apply lookup_insert_eq|apply Hrc]. }
  rewrite <- P1 in Hpvr.
  destruct (reset_asyn_run s1 rc _ idr pvr (cm_ready _ _ K1) Hrc1 Hid Hpvr)
    as (s2 & E2 & N2 & V2 & pvr2 & P2 & En2 & Ea2).
  rewrite <- (bind_assoc (priv_at rc)). rewrite (bind_done _ _ _ _ _ E2).
  rewrite <- V2 in Hrc1.
  destruct (clear_ipc_run s2 rc (set_v_noend true vr) (m_ready _ _ N2)) as (s3 & E3 & K3 & P3 & U3);
    [rewrite V2; apply K1|done|]. rewrite (bind_done _ _ _ _ _ E3).
  pose proof (left_ipc_intro s s1 s2 s3 rc vr Hrc K1 V1 N2 V2 K3 U3) as L3.
  destruct (idents_live _ _ _ _ (lf_idents _ _ _ L3) Hrc) as (vr3 & Hrc3 & I3).
  assert (bit_ok idr) as Hb.
  { destruct (c_priv _ _ (r_core _ Hr) rc vr Hrc) as (? & ? & E & ? & _). rewrite Hid in E. by injection E as <-. }
  destruct (clear_ipc_refs_run s3 rc vr3 idr pvr2 EDEADSRCDST) as (s4 & s5 & E5 & H4 & K5 & U5 & R5).
  { apply K3. } { apply K3. } { done. } { by rewrite (i_priv _ _ I3). } { done. }
  { rewrite P3, P2. apply lookup_insert_eq. }
  { rewrite P3, P2, P1. pose proof Ea2 as Ea. injection Ea as _ ->.
    eapply senders_ok_mono; [apply L3|rewrite <- P1; exact Hpvr|exact En2|exact Ea2|exact HS]. }
  rewrite (bind_done _ _ _ _ _ E5). rewrite (i_ep _ _ I3) in U5, R5.
  destruct (idents_live (view s) (view s5) rc vr) as (vr5 & Hrc5 & _).
  { etrans; [apply L3|]. etrans; [apply relax_idents, (m_relax _ _ (h_moved _ _ H4))|by eapply unwaits_idents]. }
  { done. }
  destruct (clear_memreq_run s5 rc vr5 l (cm_ready _ _ K5) Hrc5) as (s6 & E6 & S6 & L6 & W6).
  { apply (vm_list_same s); [|etrans; [exact (f_equal vmrequest (cm_rest _ _ K5))|
      exact (f_equal vmrequest (cm_rest _ _ (lf_calm _ _ _ L3)))]|done].
    etrans; [apply L3|]. etrans; [by eapply vm_same_hushed|by eapply vm_same_unwaits]. }
  exists s6. split; [done|]. by eapply (removed_intro s s3 s4 s5 s6).
Qed.

(** ** Examples *)

(** RS, the driver 14 and three user processes: 11 and 12 are blocked sending
    to 14, in this order, 13 waits for a message of 14, and an asynchronous
    message of RS to 14 is pending. *)
Definition clear_example : kstate :=
  run_state (do_sync_ipc 11 SEND (ENDPOINT 1 14) (mkPtr 0x1000 None) ;;
             do_sync_ipc 12 SEND (ENDPOINT 1 14) (mkPtr 0x1000 None) ;;
             do_sync_ipc 13 RECEIVE (ENDPOINT 1 14) (mkPtr 0x2000 None) ;;
             mini_senda RS_PROC_NR 0x5000 1)
    (set_atab (<[(RS_PROC_NR, 0x5000) := mkAsyn (Z.lor AMF_VALID AMF_NOTIFY) (ENDPOINT 1 14) 0 (mkMsg 0 99 (M_raw [7]))]> ∅)
    (set_umem (<[(ENDPOINT 1 11, 0x1000) := mkMsg 0 77 (M_raw [1; 2; 3])]>
              (<[(ENDPOINT 1 12, 0x1000) := mkMsg 0 78 (M_raw [4])]> ∅))
      (example [live_proc RS_PROC_NR 7 0 4; live_proc 11 16 0 7; live_proc 12 16 0 7; live_proc 13 16 0 7;
                live_proc 14 20 0 5]
        [live_priv RS_PROC_NR 7 SRV_F; live_priv 11 16 USR_F; live_priv 14 20 SRV_F] RS_PROC_NR))).

(** Deciding [senders_ok]. *)
Definition senders_okb V P (map : sys_map) : bool :=
  forallb (fun b => negb (get_sys_bit map b) ||
    match P !! b with
    | Some pb => match V !! s_proc_nr pb with
        | Some w => liveb V (s_proc_nr pb) && bool_decide (v_priv w = Some b) && has (s_flags pb) SYS_PROC
        | None => false
        end
    | None => false
    end) priv_table.

Lemma senders_okb_sound V P map : senders_okb V P map = true -> senders_ok V P map.
Proof.
  unfold senders_okb. rewrite forallb_forall. intros H b Hb Hg. specialize (H b (elem_of_priv_table b Hb)).
  rewrite Hg in H. cbn in H. destruct (P !! b) as [pb|]; [|done].
  destruct (V !! s_proc_nr pb) as [w|] eqn:Hw; [|done]. rewrite !andb_true_iff in H. destruct H as [[Hl Hp] Hs].
  apply liveb_spec in Hl as [w' Hl]. apply bool_decide_eq_true in Hp. exists pb, w.
  assert (w' = w) as -> by (destruct Hl as (_ & E & _); congruence). by split_and!.
Qed.

Lemma clear_endpoint_correct_witness :
  exists s', clear_endpoint 14 clear_example = Done tt s'
    /\ removed clear_example s' 14 (ipc_of (slot clear_example 14)) 20 [].
Proof.
  apply (clear_endpoint_correct clear_example 14 (ipc_of (slot clear_example 14)) 20 (pslot clear_example 20) []).
  - by_ok.
  - by_live.
  - lia.
  - by_vm.
  - by_pslot.
  - apply senders_okb_sound. by_vm.
  - split; [by_vm|]. intros n Hn. by apply elem_of_nil in Hn.
Defined.

(** The state after the driver is gone. *)
Definition clear_after : kstate := run_state (clear_endpoint 14) clear_example.

(** Property: the queue link of a cleared sender is stale.  When the driver 14 goes
    away, 11 and 12 are released and can run again, but 11 keeps its link to
    12; the next time 11 has to wait in a queue, sending to RS, [mini_send]
    fails its assertion that the link is null and the kernel panics, while 12,
    which was last in the queue, is queued as it should. *)
Theorem clear_ipc_stale_link :
  clear_endpoint 14 clear_example = Done tt clear_after
  /\ p_q_link (slot clear_after 11) = Some 12
  /\ RTS_ISSET (slot clear_after 11) RTS_SENDING = false
  /\ do_sync_ipc 11 SEND RS_PROC_NR (mkPtr 0x1000 None) clear_after = Stop Panic
  /\ ends_with (do_sync_ipc 12 SEND RS_PROC_NR (mkPtr 0x1000 None)) clear_after OK = true.
Proof.
  split; [unfold clear_after; apply (run_done (clear_endpoint 14) clear_example tt); by_vm|].
  split_and!; by_vm.
Qed.
