(* ===== verification/SysProps.v ===== *)
(** * Privileges and capabilities

    What [System] guarantees: capability sets only shrink and stay nested, and
    send masks are filled on both sides. *)

From S2P Require Import Prelude Monad Timers Endpoint Chain Kernel Sched RunQueue Init SchedProps Ipc IpcInv Deadlock IpcStep Notify IpcSend IpcRecv IpcPend IpcAsync IpcCall System Cancel Clear.

(** ** Reading a process and its structure *)
Section At.
Context {A : Type} (s : kstate) (n id : Z) (p : proc) (pv : priv).
Context (Hp : procs s !! n = Some p) (Hid : p_priv p = Some id) (Hpv : privs s !! id = Some pv).

Lemma priv_at_run (k : priv -> K A) : bind (priv_at n) k s = k pv s.
Proof. unfold priv_at. rewrite bind_assoc. erewrite bind_get_proc by done. by erewrite bind_priv_of by done. Qed.

Lemma upd_priv_run f (k : unit -> K A) :
  bind (upd_priv n f) k s = k tt (set_privs (<[id := f pv]> (privs s)) s).
Proof.
  unfold upd_priv. rewrite bind_assoc. erewrite bind_get_proc by done. unfold upd_priv_of. rewrite Hid.
  unfold bind, upd_priv_id. by rewrite Hpv.
Qed.
End At.

(** ** Capabilities *)

(** [x] is a subset of [y]. *)
Definition subset (x y : Z) : Prop := Z.land x y = x.

(** The sets of a structure are 64-bit masks, each included in the next. *)
Record caps_ok (pv : priv) : Prop := {
  co_eff : subset (s_cap_effective pv) (s_cap_permitted pv);
  co_per : subset (s_cap_permitted pv) (s_cap_bound pv);
  co_range : 0 <= s_cap_bound pv < 2 ^ 64
}.

Lemma subset_land x y z : subset x y -> subset (Z.land x z) (Z.land y z).
Proof.
  unfold subset. intros H. rewrite <- H at 2. apply Z.bits_inj'. intros n _. rewrite !Z.land_spec.
  by destruct (Z.testbit x n), (Z.testbit y n), (Z.testbit z n).
Qed.
Lemma subset_land_r x y : subset (Z.land x y) y.
Proof. unfold subset. rewrite <- Z.land_assoc. by rewrite Z.land_diag. Qed.
Lemma subset_trans x y z : subset x y -> subset y z -> subset x z.
Proof. unfold subset. intros <- H. by rewrite <- Z.land_assoc, H. Qed.

Lemma not_in_complement caps x : 0 <= caps < 2 ^ 64 -> has caps (u64_not x) = false -> subset caps x.
Proof.
  unfold has, u64_not, u64, subset. intros Hc H. apply negb_false_iff, Z.eqb_eq in H.
  apply Z.bits_inj'. intros n Hn. rewrite Z.land_spec. destruct (Z.testbit caps n) eqn:E; [|done].
  assert (n < 64) as Hlt.
  { destruct (Z.lt_ge_cases n 64) as [|Hge]; [done|]. exfalso.
    rewrite Z.bits_above_log2 in E; [done|lia|]. destruct (Z.eq_dec caps 0) as [->|]; [by rewrite Z.bits_0 in E|].
    apply Z.log2_lt_pow2; [lia|]. pose proof (Z.pow_le_mono_r 2 64 n). lia. }
  pose proof (f_equal (fun z => Z.testbit z n) H) as Hb. cbn beta in Hb.
  rewrite Z.land_spec, E, Z.mod_pow2_bits_low, Z.lnot_spec, Z.bits_0 in Hb by lia. by destruct (Z.testbit x n).
Qed.

(** The structures after a capability call: the target's sets changed, nothing
    else did. *)
Inductive cap_change (s : kstate) (caller : Z) : kstate -> Prop :=
| cap_same : cap_change s caller s
| cap_set n id pv caps :
    p_priv <$> procs s !! n = Some (Some id) -> privs s !! id = Some pv -> subset caps (s_cap_permitted pv) ->
    (n = caller \/ exists cid cpv, p_priv <$> procs s !! caller = Some (Some cid) /\ privs s !! cid = Some cpv
       /\ has (s_cap_effective cpv) CAP_SYS_ADMIN = true) ->
    cap_change s caller (set_privs (<[id := set_s_cap_effective caps pv]> (privs s)) s)
| cap_bound id pv caps cid cpv :
    privs s !! id = Some pv -> p_priv <$> procs s !! caller = Some (Some cid) -> privs s !! cid = Some cpv ->
    has (s_cap_effective cpv) CAP_SYS_ADMIN = true ->
    cap_change s caller (set_privs (<[id := restrict_caps caps pv]> (privs s)) s).

Lemma capctl_run s caller c cid cpv endpt op caps :
  ready s -> live (view s) caller (ipc_of c) -> procs s !! caller = Some c -> p_priv c = Some cid ->
  privs s !! cid = Some cpv -> 0 <= caps < 2 ^ 64 ->
  exists r s', do_capctl caller endpt op caps s = Done r s' /\ cap_change s caller s'.
Proof.
  intros Hr Hlc Hcp Hcid Hcpv Hcaps. unfold do_capctl.
  rewrite (priv_at_run s caller cid c cpv Hcp Hcid Hcpv). destruct (has (s_flags cpv) SYS_PROC); cbn [negb];
    [|eexists _, s; split; [done|constructor]].
  erewrite bind_get_proc by done.
  assert (exists o, (if endpt =? SELF then n <- okendpt (p_endpoint c) ;; ret (Some n) else isokendpt endpt) s
    = Done o s /\ forall n, o = Some n -> exists v, live (view s) n v) as (o & Eo & Ho).
  { destruct (endpt =? SELF).
    - rewrite (bind_done _ _ _ _ _ (okendpt_live s (r_core _ Hr) caller (ipc_of c) Hlc)).
      exists (Some caller). split; [done|]. intros n [= <-]. by eexists.
    - destruct (isokendpt_total s (r_base _ Hr) endpt) as [o Eo]. exists o. split; [done|]. intros n ->.
      destruct (isokendpt_live s endpt n Eo) as (v & Hv & _). by exists v. }
  rewrite (bind_done _ _ _ _ _ Eo). destruct o as [n|]; [|eexists _, s; split; [done|constructor]].
  destruct (Ho n eq_refl) as [v Hv]. destruct (live_proc_of s n v Hv) as (p & Hp & Ep). rewrite <- Ep in Hv.
  destruct (c_priv _ _ (r_core _ Hr) n _ Hv) as (id & pv & Hid & _ & Hpv & _).
  rewrite (priv_at_run s n id p pv Hp Hid Hpv).
  assert (p_priv <$> procs s !! n = Some (Some id)) as Hpn by (rewrite Hp; cbn; by f_equal).
  assert (p_priv <$> procs s !! caller = Some (Some cid)) as Hpc by (rewrite Hcp; cbn; by f_equal).
  destruct (op =? CAP_OP_GET); [eexists _, s; split; [done|constructor]|]. destruct (op =? CAP_OP_SET).
  { destruct (has caps (u64_not (s_cap_permitted pv))) eqn:Hs1; [eexists _, s; split; [done|constructor]|].
    destruct (has caps (u64_not (s_cap_bound pv))); [eexists _, s; split; [done|constructor]|].
    destruct (negb (caller =? n) && negb (has (s_cap_effective cpv) CAP_SYS_ADMIN)) eqn:Ha;
      [eexists _, s; split; [done|constructor]|].
    rewrite (upd_priv_run s n id p pv Hp Hid Hpv). eexists _, _. split; [done|].
    eapply cap_set; [done|done|by apply not_in_complement|].
    apply andb_false_iff in Ha as [Ha|Ha]; apply negb_false_iff in Ha.
    - left. symmetry. by apply Z.eqb_eq.
    - right. by exists cid, cpv. }
  destruct (op =? CAP_OP_BOUND_GET); [eexists _, s; split; [done|constructor]|]. destruct (op =? CAP_OP_BOUND_SET).
  { destruct (has (s_cap_effective cpv) CAP_SYS_ADMIN) eqn:Ha; cbn [negb]; [|eexists _, s; split; [done|constructor]].
    destruct (negb (has (s_cap_bound pv) (u64_not caps)) && negb (caps =? s_cap_bound pv));
      [eexists _, s; split; [done|constructor]|].
    rewrite (upd_priv_run s n id p pv Hp Hid Hpv). eexists _, _. split; [done|]. by eapply cap_bound. }
  destruct (op =? CAP_OP_LIST); eexists _, s; (split; [done|constructor]).
Qed.

(** The relation between a structure and what a capability call makes of it. *)
Record caps_shrink (pv pv' : priv) : Prop := {
  cs_ok : caps_ok pv -> caps_ok pv';
  cs_per : caps_ok pv -> subset (s_cap_permitted pv') (s_cap_permitted pv);
  cs_bound : subset (s_cap_bound pv') (s_cap_bound pv)
}.

Lemma caps_shrink_refl pv : caps_shrink pv pv.
Proof. split; [done|..]; intros; apply Z.land_diag. Qed.

Lemma caps_shrink_set pv caps : subset caps (s_cap_permitted pv) -> caps_shrink pv (set_s_cap_effective caps pv).
Proof. intros H. split; cbn; intros; try apply Z.land_diag. by destruct H0; split. Qed.

Lemma land_range x y : 0 <= x < 2 ^ 64 -> 0 <= Z.land x y < 2 ^ 64.
Proof.
  intros Hx. replace (Z.land x y) with (Z.land x y mod 2 ^ 64); [apply Z.mod_pos_bound; lia|].
  rewrite <- Z.land_ones, (Z.land_comm x), <- Z.land_assoc, Z.land_ones by lia. by rewrite (Z.mod_small x).
Qed.

Lemma caps_shrink_restrict pv caps : caps_shrink pv (restrict_caps caps pv).
Proof.
  split; cbn; intros; [destruct H as [H1 H2 [H3 H4]]; split; cbn|..].
  - by apply subset_land.
  - apply subset_land_r.
  - by apply land_range.
  - unfold subset. rewrite (Z.land_comm (s_cap_permitted pv)), <- Z.land_assoc. by rewrite Z.land_diag.
  - unfold subset. rewrite Z.land_comm, Z.land_assoc. by rewrite Z.land_diag.
Qed.

(** C14: capabilities never grow.  [do_capctl] of a live caller always
    completes; in every structure the effective set stays inside the permitted
    and the permitted inside the bounding set, and neither the permitted nor
    the bounding set gains a capability.  A structure changes only when the
    caller is the target itself or holds [CAP_SYS_ADMIN]. *)
Theorem capctl_never_raises s caller c cid cpv endpt op caps :
  ready s -> live (view s) caller (ipc_of c) -> procs s !! caller = Some c -> p_priv c = Some cid ->
  privs s !! cid = Some cpv -> 0 <= caps < 2 ^ 64 ->
  exists r s', do_capctl caller endpt op caps s = Done r s'
    /\ (forall id pv, privs s !! id = Some pv -> exists pv', privs s' !! id = Some pv' /\ caps_shrink pv pv')
    /\ (has (s_cap_effective cpv) CAP_SYS_ADMIN = false ->
         forall id, id <> cid -> privs s' !! id = privs s !! id).
Proof.
  intros Hr Hlc Hcp Hcid Hcpv Hcaps.
  destruct (capctl_run s caller c cid cpv endpt op caps Hr Hlc Hcp Hcid Hcpv Hcaps) as (r & s' & E & Hch).
  exists r, s'. split; [done|].
  assert (forall i pv q, privs s !! i = Some pv -> caps_shrink pv q -> forall id pv0, privs s !! id = Some pv0 ->
    exists pv', <[i := q]> (privs s) !! id = Some pv' /\ caps_shrink pv0 pv') as Hins.
  { intros i pv q Hi Hq id pv0 Hpv0. destruct (decide (id = i)) as [->|Hne].
    - rewrite lookup_insert_eq. exists q. rewrite Hi in Hpv0. by injection Hpv0 as <-.
    - rewrite lookup_insert_ne by done. exists pv0. split; [done|apply caps_shrink_refl]. }
  destruct Hch as [|n id pv x Hpn Hpv Hx Hwho|id pv x cid' cpv' Hpv Hpc Hcpv' Ha].
  - split; [|done]. intros id pv Hpv. exists pv. split; [done|apply caps_shrink_refl].
  - split; [by apply (Hins id pv); [|apply caps_shrink_set]|]. intros Hna i Hi. cbn.
    destruct Hwho as [->|(cid' & cpv' & Hpc & Hcpv' & Ha)].
    + rewrite Hcp in Hpn. cbn in Hpn. rewrite Hcid in Hpn. injection Hpn as <-. by rewrite lookup_insert_ne.
    + rewrite Hcp in Hpc. cbn in Hpc. congruence.
  - split; [by apply (Hins id pv); [|apply caps_shrink_restrict]|]. intros Hna.
    rewrite Hcp in Hpc. cbn in Hpc. congruence.
Qed.

Definition caps_example : kstate :=
  set_privs (alter (fun pv => set_s_cap_bound 0xff (set_s_cap_permitted 0x7f (set_s_cap_effective 0x10 pv))) 7
    (privs ipc_example)) ipc_example.

Lemma capctl_never_raises_witness :
  exists r s', do_capctl RS_PROC_NR SELF CAP_OP_SET 0x41 caps_example = Done r s'
    /\ (forall id pv, privs caps_example !! id = Some pv -> exists pv', privs s' !! id = Some pv' /\ caps_shrink pv pv')
    /\ (has (s_cap_effective (pslot caps_example 7)) CAP_SYS_ADMIN = false ->
         forall id, id <> 7 -> privs s' !! id = privs caps_example !! id).
Proof.
  apply (capctl_never_raises caps_example RS_PROC_NR (slot caps_example RS_PROC_NR) 7 (pslot caps_example 7)
    SELF CAP_OP_SET 0x41);
    [apply ipc_ok_ready; by_ok|by_live|by_slot|by_vm|by_pslot|lia].
Defined.

(** ** Send masks *)

Implicit Types (P : gmap Z priv).

Definition ipc_bit P (x y : Z) : bool :=
  match P !! x with Some pv => get_sys_bit (s_ipc_to pv) y | None => false end.

Definition masks_ok P : Prop :=
  forall x, bit_ok x -> exists pv, P !! x = Some pv /\ s_id pv = x /\ map_ok (s_ipc_to pv).

(** A structure apart from its send mask. *)
Definition meta (pv : priv) : priv := set_s_ipc_to [] pv.

Definition flip (on : bool) : Z -> priv -> priv := if on then set_ipc_to else unset_ipc_to.

Lemma flip_masks P x b on : masks_ok P -> bit_ok x -> bit_ok b ->
  masks_ok (alter (flip on b) x P) /\ meta <$> alter (flip on b) x P = meta <$> P
  /\ forall u v, bit_ok u -> bit_ok v ->
     ipc_bit (alter (flip on b) x P) u v = if (u =? x) && (v =? b) then on else ipc_bit P u v.
Proof.
  intros HM Hx Hb. split_and!.
  - intros y Hy. destruct (HM y Hy) as (pv & Hpv & Hid & Hm). destruct (decide (y = x)) as [->|Hne].
    + rewrite lookup_alter_eq, Hpv. eexists. split; [done|]. destruct on; cbn;
        (split; [done|]); [by apply map_ok_set|by apply map_ok_unset].
    + rewrite lookup_alter_ne by done. by exists pv.
  - apply map_eq. intros y. rewrite !lookup_fmap. destruct (decide (y = x)) as [->|Hne].
    + rewrite lookup_alter_eq. destruct (P !! x); [|done]. by destruct on.
    + by rewrite lookup_alter_ne.
  - intros u v Hu Hv. unfold ipc_bit. destruct (Z.eqb_spec u x) as [->|Hne]; [|by rewrite lookup_alter_ne].
    rewrite lookup_alter_eq. destruct (HM x Hx) as (pv & -> & _ & Hm). cbn. destruct on; cbn.
    + rewrite get_set_sys_bit by done. rewrite (Z.eqb_sym v b). destruct (b =? v); [apply orb_true_r|apply orb_false_r].
    + rewrite get_unset_sys_bit by done. rewrite (Z.eqb_sym v b). destruct (b =? v); [apply andb_false_r|apply andb_true_r].
Qed.

Section Masks.
Context (rp own : Z) (p : proc) (map : sys_map) (Hown : bit_ok own) (Hid : p_priv p = Some own).

(** The structure of [rp] lets it send to [i]: the mask asks for it, a process
    owns [i], and it is not its own. *)
Definition wanted P (i : Z) : bool :=
  get_sys_bit map i
  && match P !! i with Some pv => negb (s_proc_nr pv =? NONE) | None => false end && negb (i =? own).

(** Whether [i] may send to [rp], when it could before ([old]). *)
Definition reply P (i : Z) (old : bool) : bool :=
  get_sys_bit map i
  && (match P !! i with
      | Some pv => negb (s_proc_nr pv =? NONE) && has (s_trap_mask pv) (Z.lnot (Z.shiftl 1 RECEIVE))
      | None => false
      end || old).

Definition mask_step (i : Z) : K unit := if get_sys_bit map i then set_sendto_bit rp i else unset_sendto_bit rp i.

Lemma upd_own s f : procs s !! rp = Some p -> masks_ok (privs s) ->
  upd_priv rp f s = Done tt (set_privs (alter f own (privs s)) s).
Proof.
  intros Hp HM. unfold upd_priv. erewrite bind_get_proc by done. unfold upd_priv_of, upd_priv_id. rewrite Hid.
  destruct (HM own Hown) as (pv & Hpv & _). rewrite Hpv. do 2 f_equal. apply map_eq. intros y.
  destruct (decide (y = own)) as [->|]; [by rewrite lookup_insert_eq, lookup_alter_eq, Hpv|].
  by rewrite lookup_insert_ne, lookup_alter_ne.
Qed.

Lemma upd_struct s i f : masks_ok (privs s) -> bit_ok i ->
  upd_priv_id i f s = Done tt (set_privs (alter f i (privs s)) s).
Proof.
  intros HM Hi. unfold upd_priv_id. destruct (HM i Hi) as (pv & Hpv & _). rewrite Hpv. do 2 f_equal.
  apply map_eq. intros y. destruct (decide (y = i)) as [->|]; [by rewrite lookup_insert_eq, lookup_alter_eq, Hpv|].
  by rewrite lookup_insert_ne, lookup_alter_ne.
Qed.

(** The bits after one step. *)
Definition stepped P P' (i : Z) : Prop :=
  masks_ok P' /\ meta <$> P' = meta <$> P
  /\ forall u v, bit_ok u -> bit_ok v ->
     ipc_bit P' u v = if (u =? own) && (v =? i) then wanted P i
                      else if (u =? i) && (v =? own) then reply P i (ipc_bit P i own)
                      else ipc_bit P u v.

Lemma stepped_intro P i on1 on2 : masks_ok P -> bit_ok i ->
  on1 = wanted P i ->
  (i <> own -> match on2 with Some b => b | None => ipc_bit P i own end = reply P i (ipc_bit P i own)) ->
  (i = own -> on2 <> Some true) ->
  stepped P (match on2 with
             | Some b => alter (flip b own) i (alter (flip on1 i) own P)
             | None => alter (flip on1 i) own P
             end) i.
Proof.
  intros HM Hi H1 H2 H3. destruct (flip_masks P own i on1 HM Hown Hi) as (M1 & T1 & B1).
  assert (wanted P own = false) as Hwo by (unfold wanted; by rewrite Z.eqb_refl, andb_false_r).
  destruct on2 as [b|].
  - destruct (flip_masks _ i own b M1 Hi Hown) as (M2 & T2 & B2). split_and!; [done|congruence|].
    intros u v Hu Hv. rewrite B2, B1 by done.
    destruct (Z.eqb_spec i own) as [->|Hne].
    + destruct ((u =? own) && (v =? own)) eqn:E; [|done]. rewrite Hwo. destruct b; [by destruct (H3 eq_refl)|done].
    + destruct (Z.eqb_spec u i) as [->|], (Z.eqb_spec v own) as [->|]; cbn; try (by rewrite <- H1);
        rewrite ?(proj2 (Z.eqb_neq i own)) by done; try done. by apply H2.
  - split_and!; [done|done|]. intros u v Hu Hv. rewrite B1 by done. rewrite H1.
    destruct ((u =? own) && (v =? i)) eqn:E; [done|].
    destruct (Z.eqb_spec u i) as [->|], (Z.eqb_spec v own) as [->|]; cbn; try done.
    destruct (Z.eqb_spec i own) as [->|Hne]; [by rewrite Z.eqb_refl in E|]. by apply H2.
Qed.

Lemma mask_step_run s i : procs s !! rp = Some p -> masks_ok (privs s) -> bit_ok i ->
  exists P', mask_step i s = Done tt (set_privs P' s) /\ stepped (privs s) P' i.
Proof.
  intros Hp HM Hi. destruct (HM own Hown) as (pv & Hpv & Hsid & _). destruct (HM i Hi) as (tv & Htv & Htid & _).
  unfold mask_step. destruct (get_sys_bit map i) eqn:Hmap.
  - unfold set_sendto_bit, id_to_nr. rewrite bind_assoc.
    rewrite (bind_done _ _ tv s s) by (unfold get_priv_id; by rewrite Htv). rewrite bind_ret.
    rewrite (priv_at_run s rp own p pv Hp Hid Hpv), Hsid, (Z.eqb_sym own i).
    destruct ((s_proc_nr tv =? NONE) || (i =? own)) eqn:Hc.
    + rewrite (upd_own s _ Hp HM). eexists. split; [done|].
      apply (stepped_intro (privs s) i false None HM Hi).
      * unfold wanted. rewrite Hmap, Htv. by destruct (s_proc_nr tv =? NONE), (i =? own).
      * intros Hne. unfold reply. rewrite Hmap, Htv. apply orb_true_iff in Hc as [->|Hc%Z.eqb_eq]; done.
      * done.
    + apply orb_false_iff in Hc as [Hn Ho]. rewrite (bind_done _ _ _ _ _ (upd_own s _ Hp HM)).
      destruct (flip_masks (privs s) own i true HM Hown Hi) as (M1 & _ & _).
      assert (alter (set_ipc_to i) own (privs s) !! i = Some tv) as Htv1.
      { rewrite lookup_alter_ne; [done|]. intros <-. by rewrite Z.eqb_refl in Ho. }
      rewrite (bind_done _ _ tv _ _) by (unfold get_priv_id; cbn; by rewrite Htv1).
      assert (wanted (privs s) i = true) as Hw by (unfold wanted; by rewrite Hmap, Htv, Hn, Ho).
      destruct (has (s_trap_mask tv) (Z.lnot (Z.shiftl 1 RECEIVE))) eqn:Ht.
      * rewrite upd_struct by done. eexists. split; [done|].
        apply (stepped_intro (privs s) i true (Some true) HM Hi); [done| |].
        -- intros _. unfold reply. by rewrite Hmap, Htv, Hn, Ht.
        -- intros ->. by rewrite Z.eqb_refl in Ho.
      * eexists. split; [done|]. apply (stepped_intro (privs s) i true None HM Hi); [done| |done].
        intros _. unfold reply. by rewrite Hmap, Htv, Hn, Ht.
  - unfold unset_sendto_bit. rewrite (bind_done _ _ _ _ _ (upd_own s _ Hp HM)).
    destruct (flip_masks (privs s) own i false HM Hown Hi) as (M1 & _ & _).
    assert (exists pv1, alter (unset_ipc_to i) own (privs s) !! own = Some pv1 /\ s_id pv1 = own) as (pv1 & Hpv1 & Hs1).
    { rewrite lookup_alter_eq, Hpv. by eexists. }
    rewrite (priv_at_run (set_privs (alter (unset_ipc_to i) own (privs s)) s) rp own p pv1 Hp Hid Hpv1), Hs1. rewrite upd_struct by done. eexists. split; [done|].
    apply (stepped_intro (privs s) i false (Some false) HM Hi); [| |done].
    + unfold wanted. by rewrite Hmap.
    + intros _. unfold reply. by rewrite Hmap.
Qed.

Lemma wanted_meta P P' i : meta <$> P' = meta <$> P -> wanted P' i = wanted P i.
Proof.
  intros H. pose proof (f_equal (fun m => m !! i) H) as Hi. cbn in Hi. rewrite !lookup_fmap in Hi. unfold wanted.
  destruct (P !! i), (P' !! i); try done. apply Some_inj in Hi. pose proof (f_equal s_proc_nr Hi) as E1. pose proof (f_equal s_trap_mask Hi) as E2.
  cbn in E1, E2. by rewrite ?E1, ?E2.
Qed.
Lemma reply_meta P P' i old : meta <$> P' = meta <$> P -> reply P' i old = reply P i old.
Proof.
  intros H. pose proof (f_equal (fun m => m !! i) H) as Hi. cbn in Hi. rewrite !lookup_fmap in Hi. unfold reply.
  destruct (P !! i), (P' !! i); try done. apply Some_inj in Hi. pose proof (f_equal s_proc_nr Hi) as E1. pose proof (f_equal s_trap_mask Hi) as E2.
  cbn in E1, E2. by rewrite ?E1, ?E2.
Qed.

Lemma fill_loop_run L : NoDup L -> Forall bit_ok L -> forall s,
  procs s !! rp = Some p -> masks_ok (privs s) ->
  exists P', for_each L mask_step s = Done tt (set_privs P' s) /\ masks_ok P' /\ meta <$> P' = meta <$> privs s
    /\ forall u v, bit_ok u -> bit_ok v ->
       ipc_bit P' u v = if (u =? own) && bool_decide (v ∈ L) then wanted (privs s) v
                        else if (v =? own) && bool_decide (u ∈ L) then reply (privs s) u (ipc_bit (privs s) u own)
                        else ipc_bit (privs s) u v.
Proof.
  induction L as [|i L IH]; intros Hnd HL s Hp HM; cbn [for_each].
  { exists (privs s). split_and!; [by destruct s|done|done|]. intros u v _ _. by rewrite !andb_false_r. }
  apply NoDup_cons in Hnd as [HiL Hnd]. apply Forall_cons in HL as [Hi HL].
  destruct (mask_step_run s i Hp HM Hi) as (P1 & E1 & M1 & T1 & B1). rewrite (bind_done _ _ _ _ _ E1).
  destruct (IH Hnd HL (set_privs P1 s) Hp M1) as (P2 & E2 & M2 & T2 & B2).
  exists P2. split_and!; [done|done|cbn in T2; congruence|]. intros u v Hu Hv. rewrite B2 by done. cbn.
  rewrite (wanted_meta (privs s) P1), (reply_meta (privs s) P1) by done.
  assert (forall x, bool_decide (x ∈ i :: L) = (x =? i) || bool_decide (x ∈ L)) as Hcons.
  { intros x. destruct (Z.eqb_spec x i) as [->|Hx]; cbn [orb].
    - apply bool_decide_eq_true_2. by left.
    - apply bool_decide_ext. rewrite elem_of_cons. naive_solver. }
  pose proof (bool_decide_eq_false_2 (i ∈ L) HiL) as Hi0. rewrite !Hcons, (B1 u v), (B1 u own) by done.
  destruct (Z.eqb_spec u own) as [->|Huo]; cbn [andb].
  - destruct (Z.eqb_spec v i) as [->|Hvi]; cbn [orb].
    + rewrite Hi0. destruct (Z.eqb_spec i own) as [->|]; cbn [andb]; [|done]. by rewrite Hi0.
    + destruct (bool_decide (v ∈ L)) eqn:HvL; [done|].
      destruct (Z.eqb_spec v own) as [->|]; cbn [andb]; [|by rewrite andb_false_r].
      rewrite HvL, (proj2 (Z.eqb_neq own i)) by done. done.
  - destruct (Z.eqb_spec v own) as [->|]; cbn [andb]; [|by rewrite andb_false_r].
    destruct (Z.eqb_spec u i) as [->|]; cbn [andb orb]; [by rewrite Hi0|done].
Qed.
End Masks.

Lemma priv_table_bits : Forall bit_ok priv_table.
Proof.
  apply Forall_forall. intros x Hx%list_elem_of_In. unfold priv_table in Hx.
  apply in_map_iff in Hx as (k & <- & Hk%in_seq). unfold bit_ok, NR_SYS_PROCS in *. lia.
Qed.
Lemma priv_table_NoDup : NoDup priv_table.
Proof. by vm_compute; apply (bool_decide_eq_true_1 (NoDup priv_table)). Qed.

Lemma fill_mask_run s rp p own map :
  procs s !! rp = Some p -> p_priv p = Some own -> bit_ok own -> masks_ok (privs s) ->
  exists P', fill_sendto_mask rp map s = Done tt (set_privs P' s) /\ masks_ok P' /\ meta <$> P' = meta <$> privs s
    /\ (forall j, bit_ok j -> ipc_bit P' own j = wanted own map (privs s) j)
    /\ (forall i, bit_ok i -> i <> own -> ipc_bit P' i own = reply map (privs s) i (ipc_bit (privs s) i own))
    /\ (forall i j, bit_ok i -> bit_ok j -> i <> own -> j <> own -> ipc_bit P' i j = ipc_bit (privs s) i j).
Proof.
  intros Hp Hid Hown HM.
  destruct (fill_loop_run rp own p map Hown Hid priv_table priv_table_NoDup priv_table_bits s Hp HM)
    as (P' & E & M & T & B).
  assert (forall x, bit_ok x -> bool_decide (x ∈ priv_table) = true) as Hin.
  { intros x Hx. apply bool_decide_eq_true_2. by apply list_elem_of_In, elem_of_priv_table. }
  exists P'. split_and!; [exact E|done|done|..].
  - intros j Hj. by rewrite B, Z.eqb_refl, Hin by done.
  - intros i Hi Hne. by rewrite B, (proj2 (Z.eqb_neq _ _) Hne), Z.eqb_refl, !Hin by done.
  - intros i j Hi Hj Hio Hjo. rewrite B by done. by rewrite (proj2 (Z.eqb_neq i own) Hio), (proj2 (Z.eqb_neq j own) Hjo).
Qed.

(** C13: [fill_sendto_mask] sets the send mask of a process exactly: it may
    send to a structure iff the given map has its bit, the structure belongs to
    a process, and it is not its own; every other structure may send to it iff
    the map has that structure's bit and the structure either belongs to a
    process that can make calls other than [RECEIVE], or could send to it
    before; and the masks between two other structures do not change. *)
Theorem fill_sendto_mask_correct s rp p own map :
  procs s !! rp = Some p -> p_priv p = Some own -> bit_ok own -> masks_ok (privs s) ->
  exists P', fill_sendto_mask rp map s = Done tt (set_privs P' s) /\ masks_ok P'
    /\ (forall j, bit_ok j -> ipc_bit P' own j = wanted own map (privs s) j)
    /\ (forall i, bit_ok i -> i <> own -> ipc_bit P' i own = reply map (privs s) i (ipc_bit (privs s) i own))
    /\ (forall i j, bit_ok i -> bit_ok j -> i <> own -> j <> own -> ipc_bit P' i j = ipc_bit (privs s) i j).
Proof.
  intros Hp Hid Hown HM. destruct (fill_mask_run s rp p own map Hp Hid Hown HM) as (P' & E & M & _ & B). by exists P'.
Qed.

Definition masks_okb P : bool :=
  forallb (fun x => match P !! x with
    | Some pv => (s_id pv =? x) && map_okb (s_ipc_to pv)
    | None => false
    end) priv_table.
Lemma masks_okb_sound P : masks_okb P = true -> masks_ok P.
Proof.
  unfold masks_okb. rewrite forallb_forall. intros H x Hx. specialize (H x (elem_of_priv_table x Hx)).
  destruct (P !! x) as [pv|]; [|done]. apply andb_true_iff in H as [H1%Z.eqb_eq H2%map_okb_sound]. by exists pv.
Qed.

Lemma fill_sendto_mask_correct_witness :
  exists P', fill_sendto_mask 14 [0x80; 0; 0; 0] clear_example = Done tt (set_privs P' clear_example) /\ masks_ok P'
    /\ (forall j, bit_ok j -> ipc_bit P' 20 j = wanted 20 [0x80; 0; 0; 0] (privs clear_example) j)
    /\ (forall i, bit_ok i -> i <> 20 ->
          ipc_bit P' i 20 = reply [0x80; 0; 0; 0] (privs clear_example) i (ipc_bit (privs clear_example) i 20))
    /\ (forall i j, bit_ok i -> bit_ok j -> i <> 20 -> j <> 20 -> ipc_bit P' i j = ipc_bit (privs clear_example) i j).
Proof.
  apply (fill_sendto_mask_correct clear_example 14 (slot clear_example 14) 20 [0x80; 0; 0; 0]).
  - by_slot.
  - by_vm.
  - unfold bit_ok, NR_SYS_PROCS. lia.
  - apply masks_okb_sound. by_vm.
Defined.
