(* ===== verification/GrantProps.v ===== *)
(** * What grants allow

    [authorised] says declaratively when a process may access memory under a
    grant: a valid table entry of the granter names it, covers the range and
    the access, or refers to such a grant given to the granter.  [verify_grant]
    decides exactly that, without changing anything, and [safecopy] copies
    exactly the authorised range or nothing. *)

From S2P Require Import Prelude Monad Timers Endpoint Chain Kernel Sched RunQueue Init SchedProps Ipc IpcInv Deadlock IpcStep Notify IpcSend System Vm Grants.

(** ** The specification *)

(** The entry [g] for [grant] in the table of [granter]: the table is final, or
    a temporary one that belongs to [grantee]; the entry is in use, valid and
    of the same sequence number. *)
Record table_entry (s : kstate) (granter grantee grant access : Z) (pv : priv) (g : cp_grant) : Prop := {
  te_proc : exists n p id, isokendpt granter s = Done (Some n) s /\ procs s !! n = Some p
    /\ p_priv p = Some id /\ privs s !! id = Some pv
    /\ (s_grant_endpoint pv = p_endpoint p \/ s_grant_endpoint pv = grantee /\ access <> 0);
  te_table : s_grant_table pv <> 0;
  te_grant : 0 <= grant;
  te_index : GRANT_IDX grant < s_grant_entries pv;
  te_entry : gtab s !! (granter, grant_addr pv grant) = Some g;
  te_flags : has (cp_flags g) CPF_USED = true /\ has (cp_flags g) CPF_VALID = true;
  te_seq : cp_seq g = GRANT_SEQ grant
}.

Definition for_grantee (who_to grantee : Z) : Prop := who_to = grantee \/ grantee = ANY \/ who_to = ANY.

(** The end of a direct grant, as the kernel checks it on addresses of 32 bits
    kept in 64. *)
Definition grant_fits (start len : Z) : Prop :=
  if len <=? 2 ^ 32 then start + len <= 2 ^ 32 else start + len <= 2 ^ 64 + 2 ^ 32.

Definition sf_of (granter grant : Z) (pv : priv) (g : cp_grant) : cp_sfinfo :=
  mkSf (has (cp_flags g) CPF_TRY) granter (u64 (grant_addr pv grant + 32)) grant.

Section Authorised.
Context (s : kstate) (bytes access offset : Z).

(** With at most [n] indirect grants, [grantee] may access the given range. *)
Inductive authorised : nat -> Z -> Z -> Z -> verified -> Prop :=
| auth_direct n granter grantee grant pv g :
    table_entry s granter grantee grant access pv g -> has (cp_flags g) CPF_INDIRECT = false ->
    Z.land (cp_flags g) access = access -> has (cp_flags g) CPF_DIRECT = true ->
    grant_fits (direct_start g) (direct_len g) -> for_grantee (direct_who_to g) grantee ->
    offset + bytes <= direct_len g ->
    authorised n granter grantee grant
      (mkVf (u64 (direct_start g + offset)) granter (sf_of granter grant pv g))
| auth_magic n granter grantee grant pv g :
    table_entry s granter grantee grant access pv g -> has (cp_flags g) CPF_INDIRECT = false ->
    Z.land (cp_flags g) access = access -> has (cp_flags g) CPF_DIRECT = false ->
    has (cp_flags g) CPF_MAGIC = true -> granter = VFS_PROC_NR \/ granter = MIB_PROC_NR ->
    magic_who_to g = grantee \/ grantee = ANY \/ magic_who_from g = ANY ->
    offset + bytes <= magic_len g ->
    authorised n granter grantee grant
      (mkVf (u64 (magic_start g + offset)) (magic_who_from g) (sf_of granter grant pv g))
| auth_indirect n granter grantee grant pv g v :
    table_entry s granter grantee grant access pv g -> has (cp_flags g) CPF_INDIRECT = true ->
    for_grantee (indirect_who_to g) grantee ->
    authorised n (indirect_who_from g) granter (indirect_grant g) v ->
    authorised (S n) granter grantee grant v.
End Authorised.

(** ** Deciding it *)

Lemma u64_small x : 0 <= x < 2 ^ 64 -> u64 x = x.
Proof. apply Z.mod_small. Qed.

Lemma bad_range_spec offset bytes len :
  0 <= offset < 2 ^ 64 -> 0 <= bytes < 2 ^ 64 -> 0 <= len < 2 ^ 64 ->
  bad_range offset bytes len = negb (offset + bytes <=? len).
Proof.
  intros Ho Hb Hl. unfold bad_range, u64. destruct (Z.lt_ge_cases (offset + bytes) (2 ^ 64)) as [Hlt|Hge].
  - rewrite Z.mod_small by lia. rewrite (proj2 (Z.ltb_ge _ _)) by lia. cbn. apply Z.ltb_antisym.
  - replace ((offset + bytes) mod 2 ^ 64) with (offset + bytes - 2 ^ 64)
      by (apply Z.mod_unique with 1; lia).
    rewrite (proj2 (Z.ltb_lt _ _)) by lia. rewrite (proj2 (Z.leb_gt _ _)) by lia. done.
Qed.

Lemma grant_fits_spec start len :
  0 <= start < 2 ^ 64 -> 0 <= len < 2 ^ 64 ->
  (u64 (MEM_TOP - len + 1) <? start) = false <-> grant_fits start len.
Proof.
  intros Hs Hl. unfold grant_fits, u64, MEM_TOP. rewrite Z.ltb_ge. destruct (Z.leb_spec len (2 ^ 32)) as [Hle|Hgt].
  - rewrite Z.mod_small by lia. lia.
  - replace ((0xffffffff - len + 1) mod 2 ^ 64) with (0xffffffff - len + 1 + 2 ^ 64)
      by (apply Z.mod_unique with (-1); lia). lia.
Qed.

Lemma not_for_grantee who_to grantee any :
  negb (who_to =? grantee) && negb (grantee =? ANY) && negb (any =? ANY) = false
  <-> who_to = grantee \/ grantee = ANY \/ any = ANY.
Proof.
  destruct (Z.eqb_spec who_to grantee), (Z.eqb_spec grantee ANY), (Z.eqb_spec any ANY); cbn; naive_solver.
Qed.

(** The values of the C types: 64-bit addresses and lengths in the tables. *)
Definition grants_typed (s : kstate) : Prop :=
  forall k g, gtab s !! k = Some g -> 0 <= cp_w8 g < 2 ^ 64 /\ 0 <= cp_w16 g < 2 ^ 64.

Lemma used_valid x :
  (Z.land x (Z.lor CPF_USED CPF_VALID) =? Z.lor CPF_USED CPF_VALID) = has x CPF_USED && has x CPF_VALID.
Proof.
  rewrite (has_testbit CPF_USED), (has_testbit CPF_VALID).
  apply eq_true_iff_eq. rewrite Z.eqb_eq, andb_true_iff. change (Z.lor CPF_USED CPF_VALID) with (Z.lor (2 ^ 8) (2 ^ 12)).
  change (bit_of CPF_USED) with 8. change (bit_of CPF_VALID) with 12. split.
  - intros H. assert (forall k, Z.testbit (Z.lor (2 ^ 8) (2 ^ 12)) k = true -> Z.testbit x k = true) as Hk.
    { intros k Hk. rewrite <- H, Z.land_spec in Hk. by apply andb_true_iff in Hk as [? _]. }
    split; by apply Hk.
  - intros [H8 H12]. apply Z.bits_inj'. intros j Hj. rewrite Z.land_spec.
    destruct (Z.eq_dec j 8) as [->|]; [by rewrite H8|]. destruct (Z.eq_dec j 12) as [->|]; [by rewrite H12|].
    rewrite Z.lor_spec, !Z.pow2_bits_false by lia. apply andb_false_r.
Qed.

Lemma auth_entry s bytes access offset n granter grantee grant v :
  authorised s bytes access offset n granter grantee grant v ->
  exists pv g, table_entry s granter grantee grant access pv g.
Proof. intros []; eauto. Qed.

(** The answers that stand for a refusal. *)
Definition refused (access : Z) (r : Z * option verified) : Prop :=
  r = (OK, None) /\ access = 0 \/ r.1 ∈ [EINVAL; EPERM; ENOTREADY; ELOOP] /\ r.2 = None.

(** [r] decides the authorisation. *)
Definition decides (access : Z) (P : verified -> Prop) (r : Z * option verified) : Prop :=
  match r with
  | (c, Some v) => c = OK /\ P v
  | _ => refused access r
  end /\ forall v, P v -> r = (OK, Some v).

Lemma decides_refused access (P : verified -> Prop) r :
  refused access r -> (forall v, ~ P v) -> decides access P r.
Proof.
  intros Hr HP. split; [|intros v Hv; by apply HP in Hv].
  destruct r as [c [v|]]; [|done]. by destruct Hr as [[[=] _]|[_ [=]]].
Qed.

Section Entry.
Context (s : kstate) (granter grantee grant access n id : Z) (p : proc) (pv : priv).
Context (Hn : isokendpt granter s = Done (Some n) s) (Hp : procs s !! n = Some p).
Context (Hid : p_priv p = Some id) (Hpv : privs s !! id = Some pv).

Lemma entry_same pv' g : table_entry s granter grantee grant access pv' g -> pv' = pv
  /\ (s_grant_endpoint pv = p_endpoint p \/ s_grant_endpoint pv = grantee /\ access <> 0).
Proof.
  intros [(n' & p' & id' & Hn' & Hp' & Hid' & Hpv' & Ht) _ _ _ _ _ _].
  rewrite Hn in Hn'. injection Hn' as <-. rewrite Hp in Hp'. injection Hp' as <-.
  rewrite Hid in Hid'. injection Hid' as <-. rewrite Hpv in Hpv'. by injection Hpv' as <-.
Qed.

(** An entry that passes the checks of the loop. *)
Lemma entry_intro g :
  (s_grant_endpoint pv = p_endpoint p \/ s_grant_endpoint pv = grantee /\ access <> 0) ->
  HASGRANTTABLE pv = true -> GRANT_VALID grant = true -> (s_grant_entries pv <=? GRANT_IDX grant) = false ->
  gtab s !! (granter, grant_addr pv grant) = Some g ->
  has (cp_flags g) CPF_USED && has (cp_flags g) CPF_VALID = true -> (cp_seq g =? GRANT_SEQ grant) = true ->
  table_entry s granter grantee grant access pv g.
Proof.
  intros Ht Hh Hg Hi He Hf Hs. split; try done.
  - by exists n, p, id.
  - unfold HASGRANTTABLE in Hh. by apply negb_true_iff, Z.eqb_neq in Hh.
  - unfold GRANT_VALID, GRANT_INVALID in Hg. apply Z.ltb_lt in Hg. lia.
  - by apply Z.leb_gt.
  - by apply andb_true_iff.
  - by apply Z.eqb_eq.
Qed.
End Entry.

Lemma decides_some access (P : verified -> Prop) v0 :
  P v0 -> (forall v, P v -> v = v0) -> decides access P (OK, Some v0).
Proof. intros H0 HP. split; [done|]. intros v Hv. by rewrite (HP v Hv). Qed.

Lemma eperm_refused access : refused access (EPERM, None).
Proof. right. split; [set_solver|done]. Qed.

Lemma negb_leb a b : negb (a <=? b) = true <-> b < a.
Proof. rewrite negb_true_iff. apply Z.leb_gt. Qed.

(** The last grant of the chain. *)
Section Final.
Context (s : kstate) (bytes access offset : Z) (n : nat) (granter grantee grant : Z) (pv : priv) (g : cp_grant).
Context (Ho : 0 <= offset < 2 ^ 64) (Hb : 0 <= bytes < 2 ^ 64).
Context (H8 : 0 <= cp_w8 g < 2 ^ 64) (H16 : 0 <= cp_w16 g < 2 ^ 64).
Context (Hte : table_entry s granter grantee grant access pv g) (Hni : has (cp_flags g) CPF_INDIRECT = false).
Context (Huniq : forall pv' g', table_entry s granter grantee grant access pv' g' -> pv' = pv /\ g' = g).

Notation auth := (authorised s bytes access offset n granter grantee grant).
Notation sf := (sf_of granter grant pv g).

Lemma auth_inv v : auth v ->
  Z.land (cp_flags g) access = access
  /\ if has (cp_flags g) CPF_DIRECT
     then grant_fits (direct_start g) (direct_len g) /\ for_grantee (direct_who_to g) grantee
          /\ offset + bytes <= direct_len g /\ v = mkVf (u64 (direct_start g + offset)) granter sf
     else has (cp_flags g) CPF_MAGIC = true /\ (granter = VFS_PROC_NR \/ granter = MIB_PROC_NR)
          /\ (magic_who_to g = grantee \/ grantee = ANY \/ magic_who_from g = ANY)
          /\ offset + bytes <= magic_len g /\ v = mkVf (u64 (magic_start g + offset)) (magic_who_from g) sf.
Proof.
  intros Hv. destruct Hv as [m gr ge gt pv' g' Ht Hi Ha Hd|m gr ge gt pv' g' Ht Hi Ha Hd|m gr ge gt pv' g' v Ht Hi];
    destruct (Huniq pv' g' Ht) as [-> ->]; [..|congruence]; rewrite Hd; by split_and!.
Qed.

Lemma verify_direct : has (cp_flags g) CPF_DIRECT = true -> Z.land (cp_flags g) access = access ->
  decides access auth (verify_final granter grantee grant bytes access offset pv g).
Proof.
  intros Hd Ha. unfold verify_final. fold sf. rewrite Hd, Ha, Z.eqb_refl. cbn [negb].
  assert (forall v, auth v -> grant_fits (direct_start g) (direct_len g) /\ for_grantee (direct_who_to g) grantee
    /\ offset + bytes <= direct_len g /\ v = mkVf (u64 (direct_start g + offset)) granter sf) as Hinv.
  { intros v Hv. apply auth_inv in Hv as [_ Hv]. by rewrite Hd in Hv. }
  destruct (u64 (MEM_TOP - direct_len g + 1) <? direct_start g) eqn:E1.
  { apply decides_refused; [apply eperm_refused|]. intros v (Hf & _)%Hinv.
    apply grant_fits_spec in Hf; [congruence|done..]. }
  apply grant_fits_spec in E1; [|done..]. destruct (_ && _) eqn:E2.
  { apply decides_refused; [apply eperm_refused|]. intros v (_ & Hf & _)%Hinv.
    apply not_for_grantee in Hf. congruence. }
  apply not_for_grantee in E2. rewrite bad_range_spec by done. destruct (Z.leb_spec (offset + bytes) (direct_len g)); cbn [negb].
  - apply decides_some; [|by intros v (_ & _ & _ & ?)%Hinv]. by apply auth_direct.
  - apply decides_refused; [apply eperm_refused|]. intros v (_ & _ & ? & _)%Hinv. lia.
Qed.

Lemma verify_magic : has (cp_flags g) CPF_DIRECT = false -> Z.land (cp_flags g) access = access ->
  decides access auth (verify_final granter grantee grant bytes access offset pv g).
Proof.
  intros Hd Ha. unfold verify_final. fold sf. rewrite Hd, Ha, Z.eqb_refl. cbn [negb].
  assert (forall v, auth v -> has (cp_flags g) CPF_MAGIC = true /\ (granter = VFS_PROC_NR \/ granter = MIB_PROC_NR)
    /\ (magic_who_to g = grantee \/ grantee = ANY \/ magic_who_from g = ANY)
    /\ offset + bytes <= magic_len g /\ v = mkVf (u64 (magic_start g + offset)) (magic_who_from g) sf) as Hinv.
  { intros v Hv. apply auth_inv in Hv as [_ Hv]. by rewrite Hd in Hv. }
  destruct (has (cp_flags g) CPF_MAGIC) eqn:Hm.
  2:{ apply decides_refused; [apply eperm_refused|]. by intros v ([=] & _)%Hinv. }
  destruct (negb _ && negb _) eqn:E1.
  { apply decides_refused; [apply eperm_refused|]. intros v (_ & Hg & _)%Hinv.
    by destruct Hg as [Hg|Hg]; rewrite Hg in E1. }
  destruct (negb _ && negb _ && negb _) eqn:E2.
  { apply decides_refused; [apply eperm_refused|]. intros v (_ & _ & Hf & _)%Hinv.
    apply not_for_grantee in Hf. change (direct_who_to g) with (magic_who_from g) in E2. congruence. }
  apply not_for_grantee in E2. rewrite bad_range_spec by done. destruct (Z.leb_spec (offset + bytes) (magic_len g)); cbn [negb].
  - apply decides_some; [|by intros v (_ & _ & _ & _ & ?)%Hinv]. apply auth_magic; try done.
    apply andb_false_iff in E1 as [E1|E1]; apply negb_false_iff, Z.eqb_eq in E1; auto.
  - apply decides_refused; [apply eperm_refused|]. intros v (_ & _ & _ & ? & _)%Hinv. lia.
Qed.

Lemma verify_final_decides : decides access auth (verify_final granter grantee grant bytes access offset pv g).
Proof.
  destruct (Z.eq_dec (Z.land (cp_flags g) access) access) as [Ha|Ha].
  - destruct (has (cp_flags g) CPF_DIRECT) eqn:Hd; [by apply verify_direct|by apply verify_magic].
  - unfold verify_final. rewrite (proj2 (Z.eqb_neq _ _) Ha). cbn [negb].
    apply decides_refused; [apply eperm_refused|]. by intros v [? _]%auth_inv.
Qed.
End Final.

(** ** The chain of indirect grants *)
Section Chain.
Context (s : kstate) (Hr : ready s) (HT : grants_typed s).
Context (bytes access offset : Z) (Ho : 0 <= offset < 2 ^ 64) (Hb : 0 <= bytes < 2 ^ 64).

Lemma live_slot granter n : isokendpt granter s = Done (Some n) s ->
  exists p id pv, procs s !! n = Some p /\ p_priv p = Some id /\ privs s !! id = Some pv.
Proof.
  intros Hn. destruct (isokendpt_live s granter n Hn) as (v & Hv & _).
  destruct (live_proc_of s n v Hv) as (p & Hp & <-).
  destruct (c_priv _ _ (r_core _ Hr) n _ Hv) as (id & pv & Hid & _ & Hpv & _). by exists p, id, pv.
Qed.

Lemma eloop_refused : refused access (ELOOP, None).
Proof. right. split; [set_solver|done]. Qed.

(** An indirect grant hands the question on to the grant it names. *)
Lemma decides_indirect m granter grantee grant pv g r :
  table_entry s granter grantee grant access pv g -> has (cp_flags g) CPF_INDIRECT = true ->
  (forall pv' g', table_entry s granter grantee grant access pv' g' -> pv' = pv /\ g' = g) ->
  for_grantee (indirect_who_to g) grantee ->
  decides access (authorised s bytes access offset m (indirect_who_from g) granter (indirect_grant g)) r ->
  decides access (authorised s bytes access offset (S m) granter grantee grant) r.
Proof.
  intros Hte Hi Huniq Hw [H1 H2]. split.
  - destruct r as [c [v|]]; [|done]. destruct H1 as [-> Hv]. split; [done|]. by eapply auth_indirect.
  - intros v Hv. apply H2. inversion Hv as [? ? ? ? pv' g' Ht|? ? ? ? pv' g' Ht|? ? ? ? pv' g' ? Ht]; subst;
      destruct (Huniq pv' g' Ht) as [-> ->]; [congruence..|done].
Qed.

Lemma no_indirect granter grantee grant pv g v :
  table_entry s granter grantee grant access pv g -> has (cp_flags g) CPF_INDIRECT = true ->
  (forall pv' g', table_entry s granter grantee grant access pv' g' -> pv' = pv /\ g' = g) ->
  ~ authorised s bytes access offset 0 granter grantee grant v.
Proof.
  intros Hte Hi Huniq Hv. inversion Hv as [? ? ? ? pv' g' Ht|? ? ? ? pv' g' Ht|]; subst;
    destruct (Huniq pv' g' Ht) as [-> ->]; congruence.
Qed.

Lemma bad_grantee m granter grantee grant pv g v :
  table_entry s granter grantee grant access pv g -> has (cp_flags g) CPF_INDIRECT = true ->
  (forall pv' g', table_entry s granter grantee grant access pv' g' -> pv' = pv /\ g' = g) ->
  ~ for_grantee (indirect_who_to g) grantee -> ~ authorised s bytes access offset m granter grantee grant v.
Proof.
  intros Hte Hi Huniq Hw Hv. inversion Hv as [? ? ? ? pv' g' Ht|? ? ? ? pv' g' Ht|? ? ? ? pv' g' ? Ht ? Hw']; subst;
    destruct (Huniq pv' g' Ht) as [-> ->]; [congruence..|done].
Qed.

(** The round ends with an error, for no entry passes the check. *)
Ltac no_entry := left; eexists; split; [done|]; split; [right; split; [set_solver|done]|].

(** One round: refused for want of an entry, or decided by the entry. *)
Lemma verify_step_run kont granter grantee grant :
  (exists r, verify_step kont granter grantee grant bytes access offset s = Done r s /\ refused access r
     /\ forall pv g, ~ table_entry s granter grantee grant access pv g)
  \/ exists pv g, table_entry s granter grantee grant access pv g
     /\ (forall pv' g', table_entry s granter grantee grant access pv' g' -> pv' = pv /\ g' = g)
     /\ verify_step kont granter grantee grant bytes access offset s
        = (if has (cp_flags g) CPF_INDIRECT then kont g
           else ret (verify_final granter grantee grant bytes access offset pv g)) s.
Proof.
  unfold verify_step. destruct (isokendpt_total s (r_base _ Hr) granter) as [[n|] En]; rewrite (bind_done _ _ _ _ _ En).
  2:{ no_entry. intros pv g [(n & ? & ? & En' & _) _ _ _ _ _ _]. congruence. }
  destruct (live_slot granter n En) as (p & id & pv & Hp & Hid & Hpv).
  assert (forall pv' g, table_entry s granter grantee grant access pv' g -> pv' = pv
    /\ (s_grant_endpoint pv = p_endpoint p \/ s_grant_endpoint pv = grantee /\ access <> 0)) as Hsame
    by (intros pv' g; by apply (entry_same s granter grantee grant access n id p pv)).
  destruct (GRANT_VALID grant) eqn:Hg; cbn [negb].
  2:{ no_entry. intros pv' g [_ _ H0 _ _ _ _].
      unfold GRANT_VALID, GRANT_INVALID in Hg. apply Z.ltb_ge in Hg. lia. }
  erewrite bind_get_proc by done. erewrite bind_priv_of by done. cbn zeta.
  destruct (negb (s_grant_endpoint pv =? p_endpoint p) && (access =? 0)) eqn:E1.
  { left. eexists. split; [done|]. apply andb_true_iff in E1 as [E1%negb_true_iff%Z.eqb_neq E2%Z.eqb_eq].
    split; [by left|]. intros pv' g [_ [H|[_ H]]]%Hsame; done. }
  assert (s_grant_endpoint pv = p_endpoint p \/ access <> 0) as Hfin.
  { apply andb_false_iff in E1 as [E1%negb_false_iff%Z.eqb_eq|E1%Z.eqb_neq]; auto. }
  destruct (negb (s_grant_endpoint pv =? p_endpoint p)
    && (negb (HASGRANTTABLE pv) || negb (grantee =? s_grant_endpoint pv))) eqn:E2.
  { no_entry. intros pv' g Hte.
    apply andb_true_iff in E2 as [Hne%negb_true_iff%Z.eqb_neq E2]. pose proof (te_table _ _ _ _ _ _ _ Hte) as Htab.
    destruct (Hsame _ _ Hte) as [-> [H|[H _]]]; [done|]. rewrite <- H, Z.eqb_refl, orb_false_r in E2. cbn in E2.
    by apply negb_true_iff, negb_false_iff, Z.eqb_eq in E2. }
  destruct (HASGRANTTABLE pv) eqn:Hh; cbn [negb].
  2:{ no_entry. intros pv' g Hte.
      pose proof (te_table _ _ _ _ _ _ _ Hte) as Htab. destruct (Hsame _ _ Hte) as [-> _].
      by apply negb_false_iff, Z.eqb_eq in Hh. }
  assert (s_grant_endpoint pv = p_endpoint p \/ s_grant_endpoint pv = grantee /\ access <> 0) as Hfin'.
  { destruct Hfin as [?|Ha]; [by left|]. apply andb_false_iff in E2 as [E2|E2].
    - left. by apply negb_false_iff, Z.eqb_eq in E2.
    - right. split; [|done]. symmetry. by apply negb_false_iff, Z.eqb_eq in E2. }
  destruct (s_grant_entries pv <=? GRANT_IDX grant) eqn:Hi.
  { no_entry. intros pv' g Hte.
    pose proof (te_index _ _ _ _ _ _ _ Hte) as Hlt. destruct (Hsame _ _ Hte) as [-> _]. apply Z.leb_le in Hi. lia. }
  unfold read_grant. rewrite (bind_done _ _ (gtab s !! (granter, grant_addr pv grant)) s s) by done.
  destruct (gtab s !! (granter, grant_addr pv grant)) as [g|] eqn:Hent.
  2:{ no_entry. intros pv' g Hte.
      pose proof (te_entry _ _ _ _ _ _ _ Hte) as He. destruct (Hsame _ _ Hte) as [-> _]. congruence. }
  assert (forall pv' g', table_entry s granter grantee grant access pv' g' -> pv' = pv /\ g' = g) as Huniq.
  { intros pv' g' Hte. pose proof (te_entry _ _ _ _ _ _ _ Hte) as He. destruct (Hsame _ _ Hte) as [-> _].
    split; [done|congruence]. }
  rewrite used_valid. destruct (has (cp_flags g) CPF_USED && has (cp_flags g) CPF_VALID) eqn:Hf; cbn [negb].
  2:{ no_entry. intros pv' g' Hte.
      destruct (Huniq _ _ Hte) as [-> ->]. pose proof (te_flags _ _ _ _ _ _ _ Hte) as [F1 F2]. by rewrite F1, F2 in Hf. }
  destruct (cp_seq g =? GRANT_SEQ grant) eqn:Hs; cbn [negb].
  2:{ no_entry. intros pv' g' Hte.
      destruct (Huniq _ _ Hte) as [-> ->]. apply Z.eqb_neq in Hs. apply Hs, Hte. }
  right. exists pv, g. split; [|done]. by apply (entry_intro s granter grantee grant access n id p pv).
Qed.

Lemma verify_loop_decides m granter grantee grant :
  exists r, verify_loop m granter grantee grant bytes access offset s = Done r s
    /\ decides access (authorised s bytes access offset m granter grantee grant) r.
Proof.
  revert granter grantee grant. induction m as [|m IH]; intros granter grantee grant; cbn [verify_loop];
    match goal with |- context [verify_step ?k _ _ _ _ _ _ _] =>
      destruct (verify_step_run k granter grantee grant) as [(r & E & Hr1 & Hno)|(pv & g & Hte & Huniq & E)] end;
    try (exists r; split; [done|]; apply decides_refused; [done|]; intros v (pv & g & Hte)%auth_entry; by eapply Hno);
    rewrite E; destruct (HT _ _ (te_entry _ _ _ _ _ _ _ Hte)) as [H8 H16];
    destruct (has (cp_flags g) CPF_INDIRECT) eqn:Hi;
    try (eexists; split; [done|]; by apply verify_final_decides).
  - eexists. split; [done|]. apply decides_refused; [apply eloop_refused|]. intros v. by eapply no_indirect.
  - destruct (negb _ && negb _ && negb _) eqn:Hw.
    + eexists. split; [done|]. apply decides_refused; [apply eperm_refused|]. intros v.
      eapply bad_grantee; [done|done|done|]. intros Hf%not_for_grantee. congruence.
    + apply not_for_grantee in Hw. destruct (IH (indirect_who_from g) granter (indirect_grant g)) as (r & E' & Hd).
      exists r. split; [done|]. by eapply decides_indirect.
Qed.
End Chain.

(** C26: [verify_grant] decides authorisation.  For every granter, grantee, grant
    and range it finishes without changing anything; it succeeds exactly when
    the access is authorised through at most [MAX_INDIRECT_DEPTH] indirect
    grants, with the address and owner of the authorised range, and refuses
    with an error otherwise (or with nothing to write when no access was asked
    for and the table is temporary). *)
Theorem verify_grant_correct s granter grantee grant bytes access offset :
  ready s -> grants_typed s -> 0 <= offset < 2 ^ 64 -> 0 <= bytes < 2 ^ 64 ->
  exists r, verify_grant granter grantee grant bytes access offset s = Done r s
    /\ (forall v, r = (OK, Some v)
         <-> authorised s bytes access offset MAX_INDIRECT_DEPTH granter grantee grant v)
    /\ (r.2 = None -> refused access r).
Proof.
  intros Hr HT Ho Hb.
  destruct (verify_loop_decides s Hr HT bytes access offset Ho Hb MAX_INDIRECT_DEPTH granter grantee grant)
    as (r & E & H1 & H2). exists r. split; [done|]. split.
  - intros v. split; [|apply H2]. intros ->. apply H1.
  - destruct r as [c [v|]]; [done|by intros _].
Qed.

(** RS has granted process 11 the page at 0x8000, to read. *)
Definition page_grant : cp_grant :=
  mkGrant (Z.lor CPF_READ (Z.lor CPF_DIRECT (Z.lor CPF_USED CPF_VALID))) 3 (ENDPOINT 1 11) 0 0x8000 0x1000 (-1).
Definition grants_example : kstate :=
  set_gtab {[ (RS_PROC_NR, 0x5000) := page_grant ]}
    (set_privs (alter (fun pv =>
      set_s_grant_endpoint RS_PROC_NR (set_s_grant_entries 1 (set_s_grant_table 0x5000 pv))) 7
      (privs ipc_example)) ipc_example).

Lemma grants_example_typed : grants_typed grants_example.
Proof.
  intros k g Hk. change (({[ (RS_PROC_NR, 0x5000) := page_grant ]} : gmap (Z * Z) cp_grant) !! k = Some g) in Hk.
  apply lookup_singleton_Some in Hk as [_ <-]. cbn. lia.
Qed.
Definition answer {A} (m : K A) (s : kstate) : option A := match m s with Done a _ => Some a | Stop _ => None end.
Lemma answer_done {A} (m : K A) s s' a b : m s = Done a s' -> answer m s = Some b -> a = b.
Proof. intros E. unfold answer. rewrite E. by intros [= ->]. Qed.

Lemma verify_grant_correct_witness :
  exists v, vf_offset v = 0x8010 /\ vf_granter v = RS_PROC_NR
    /\ authorised grants_example 16 CPF_READ 16 MAX_INDIRECT_DEPTH RS_PROC_NR (ENDPOINT 1 11) (GRANT_ID 0 3) v.
Proof.
  destruct (verify_grant_correct grants_example RS_PROC_NR (ENDPOINT 1 11) (GRANT_ID 0 3) 16 CPF_READ 16)
    as (r & E & H & _); [apply ipc_ok_ready; by_ok|exact grants_example_typed|lia|lia|].
  pose proof (answer_done _ _ _ _ (OK, Some (mkVf 0x8010 RS_PROC_NR (mkSf false RS_PROC_NR 0x5020 (GRANT_ID 0 3))))
    E ltac:(by_vm)) as Hr. clear E. eexists. split; [|split; [|apply H; exact Hr]]; reflexivity.
Defined.

(** ** Copies under a grant *)
Section Mediated.
Context (lin_lin_copy : option Z -> Z -> option Z -> Z -> Z -> K Z).

(** The copy of an authorised range. *)
Definition granted_copy (caller grantee addr bytes access : Z) (v : verified) : K Z :=
  let granted := mkVir (vf_granter v) (vf_offset v) in
  let own := mkVir grantee addr in
  let src := if access =? CPF_READ then granted else own in
  let dst := if access =? CPF_READ then own else granted in
  if sf_try (vf_sfinfo v) then
    r <- virtual_copy lin_lin_copy src dst bytes ;;
    if (r =? EFAULT_SRC) || (r =? EFAULT_DST) then mark_faulted (vf_sfinfo v) ;; ret EFAULT else ret r
  else virtual_copy_vmcheck lin_lin_copy caller src dst bytes.

(** C27: memory is accessed only under a grant.  [safecopy], in either
    direction, either refuses with an error and changes nothing, and then the
    access is not authorised, or the access is authorised and it performs
    exactly the copy between the authorised range and the caller's buffer, in
    the requested direction. *)
Theorem safecopy_mediated s caller granter grantee grant bytes offset addr access :
  ready s -> grants_typed s -> 0 <= offset < 2 ^ 64 -> 0 <= bytes < 2 ^ 64 ->
  granter <> NONE -> grantee <> NONE -> access = CPF_READ \/ access = CPF_WRITE ->
  (exists r, r <> OK /\ safecopy lin_lin_copy caller granter grantee grant bytes offset addr access s = Done r s
     /\ forall v, ~ authorised s bytes access offset MAX_INDIRECT_DEPTH granter grantee grant v)
  \/ exists v, authorised s bytes access offset MAX_INDIRECT_DEPTH granter grantee grant v
     /\ safecopy lin_lin_copy caller granter grantee grant bytes offset addr access s
        = granted_copy caller grantee addr bytes access v s.
Proof.
  intros Hr HT Ho Hb Hg1 Hg2 Ha.
  destruct (verify_loop_decides s Hr HT bytes access offset Ho Hb MAX_INDIRECT_DEPTH granter grantee grant)
    as ([c res] & E & H1 & H2).
  unfold safecopy. rewrite (proj2 (Z.eqb_neq _ _) Hg1), (proj2 (Z.eqb_neq _ _) Hg2). cbn [orb].
  unfold verify_grant. rewrite (bind_done _ _ _ _ _ E). destruct res as [v|].
  - destruct H1 as [-> Hv]. right. exists v. split; [done|]. cbn [negb Z.eqb OK]. unfold granted_copy.
    by destruct Ha as [-> | ->].
  - left. exists c. assert (c <> OK) as Hc.
    { destruct H1 as [[[= ->] ->]|[Hin _]]; [by destruct Ha as [Ha|Ha]|]. cbn in Hin. intros ->. set_solver. }
    split; [done|]. rewrite (proj2 (Z.eqb_neq _ _) Hc). split; [done|]. intros v Hv. by discriminate (H2 v Hv).
Qed.
End Mediated.

(** With a copy that always works, 11 reads 16 bytes of the page. *)
Lemma safecopy_mediated_witness :
  let copy := fun _ _ _ _ _ => ret OK in
  exists v, authorised grants_example 16 CPF_READ 16 MAX_INDIRECT_DEPTH RS_PROC_NR (ENDPOINT 1 11) (GRANT_ID 0 3) v
    /\ safecopy copy 11 RS_PROC_NR (ENDPOINT 1 11) (GRANT_ID 0 3) 16 16 0x2000 CPF_READ grants_example
       = granted_copy copy 11 (ENDPOINT 1 11) 0x2000 16 CPF_READ v grants_example.
Proof.
  intros copy.
  destruct (safecopy_mediated copy grants_example 11 RS_PROC_NR (ENDPOINT 1 11) (GRANT_ID 0 3) 16 16 0x2000 CPF_READ)
    as [(r & Hr & E & _)|H]; [apply ipc_ok_ready; by_ok|exact grants_example_typed|lia|lia|done|done|by left| |exact H].
  exfalso. apply Hr. exact (answer_done _ _ _ _ OK E ltac:(by_vm)).
Defined.

(** ** The vectored copy *)

Lemma vir_proc_live s n v off :
  ready s -> live (view s) n v -> v_ep v <> NONE -> vir_proc (mkVir (v_ep v) off) s = Done (Some (Some n)) s.
Proof.
  intros Hr Hv He. unfold vir_proc. cbn [proc_nr_e]. rewrite (proj2 (Z.eqb_neq _ _) He).
  by rewrite (bind_done _ _ _ _ _ (live_isokendpt s (r_core _ Hr) _ _ Hv)).
Qed.

