(* ===== verification/GrantLib.v ===== *)
(** * The grant library of a process

    Models [lib/libsys/safecopies.c]: a process keeps a table of grants in its
    own memory, with the free entries linked through the union, and tells the
    kernel where it is.  The state is the library's variables together with
    the kernel, whose [gtab] holds the memory of the table; a kernel call of
    the process runs [do_setgrant].  [malloc] is an argument of the operations
    that may call it: the block it returns, or [None]. *)

From S2P Require Import Prelude Monad Timers Endpoint Chain Kernel Sched Init Ipc System Vm Grants.

Definition NR_STATIC_GRANTS : Z := 3.

(** The process in slot [gc_me], with [grants], [ngrants], [freelist], [errno]
    and the address of [static_grants]. *)
Record gclient := mkGc {
  gc_me : Z;
  gc_static : Z;
  gc_grants : Z;
  gc_ngrants : Z;
  gc_freelist : Z;
  gc_errno : Z;
  gc_kernel : kstate
}.
Definition eta_gclient (r : gclient) : gclient :=
  mkGc (gc_me r) (gc_static r) (gc_grants r) (gc_ngrants r) (gc_freelist r) (gc_errno r) (gc_kernel r).
Definition set_gc_grants : Z -> gclient -> gclient := ltac:(setter eta_gclient gc_grants).
Definition set_gc_ngrants : Z -> gclient -> gclient := ltac:(setter eta_gclient gc_ngrants).
Definition set_gc_freelist : Z -> gclient -> gclient := ltac:(setter eta_gclient gc_freelist).
Definition set_gc_errno : Z -> gclient -> gclient := ltac:(setter eta_gclient gc_errno).
Definition set_gc_kernel : kstate -> gclient -> gclient := ltac:(setter eta_gclient gc_kernel).

Notation G := (M gclient).

(** A block of memory: its address and what it holds, entry by entry. *)
Record block := mkBlock { blk_addr : Z; blk_junk : Z -> cp_grant }.

(** ** The memory of the table *)
Definition entry_addr (base i : Z) : Z := u64 (base + SIZEOF_GRANT * i).

(** The endpoint of the process, which names its address space. *)
Definition my_endpoint : G Z := fun s =>
  match procs (gc_kernel s) !! gc_me s with Some p => Done (p_endpoint p) s | None => Stop BadAccess end.

Definition get_entry (base i : Z) : G cp_grant :=
  e <- my_endpoint ;;
  fun s => match gtab (gc_kernel s) !! (e, entry_addr base i) with
           | Some g => Done g s
           | None => Stop BadAccess
           end.
Definition put_entry (base i : Z) (g : cp_grant) : G unit :=
  e <- my_endpoint ;;
  modify (fun s => set_gc_kernel (set_gtab (<[(e, entry_addr base i) := g]> (gtab (gc_kernel s))) (gc_kernel s)) s).
Definition upd_entry (base i : Z) (f : cp_grant -> cp_grant) : G unit :=
  g <- get_entry base i ;; put_entry base i (f g).

(** The integers from [a] up to, and not including, [b]. *)
Definition zrange (a b : Z) : list Z := map (fun i => a + Z.of_nat i) (seq 0 (Z.to_nat (b - a))).

(** ** Kernel calls *)
Definition gcall {A} (m : Z -> K A) : G A := fun s =>
  match m (gc_me s) (gc_kernel s) with
  | Done a k => Done a (set_gc_kernel k s)
  | Stop w => Stop w
  end.
Definition sys_setgrant (grants ngrants : Z) : G Z := gcall (fun me => do_setgrant me grants ngrants).

(** ** Growing the table *)

(** The new size and the new block, mapped; [None] when the table cannot grow. *)
Definition new_block (alloc : option block) (count : Z) : G (option (Z * Z)) :=
  ngrants <- gets gc_ngrants ;;
  if (ngrants =? 0) && (count <=? NR_STATIC_GRANTS) then
    static <- gets gc_static ;; ret (Some (NR_STATIC_GRANTS, static))
  else if GRANT_MAX_IDX <=? ngrants then ret None
  else
    let new_size :=
      if negb (count =? 0) then ngrants + (if GRANT_MAX_IDX - ngrants <? count then GRANT_MAX_IDX - ngrants else count)
      else (1 + ngrants) * 2 in
    let new_size := if GRANT_MAX_IDX <=? new_size then GRANT_MAX_IDX else new_size in
    assert (ngrants <? new_size) ;;
    match alloc with
    | None => ret None
    | Some b =>
        for_each (zrange 0 new_size) (fun i => put_entry (blk_addr b) i (blk_junk b i)) ;;
        ret (Some (new_size, blk_addr b))
    end.

(** [new_grants[g]] as a free entry, linked to the next one or to the old list. *)
Definition free_entry (new_size freelist g : Z) (e : cp_grant) : cp_grant :=
  set_cp_w0 (if g <? new_size - 1 then g + 1 else freelist) (set_cp_seq 0 (set_cp_flags 0 e)).

(** Move the table to the new block and tell the kernel. *)
Definition grow (new_size new_grants : Z) : G unit :=
  s <- get ;;
  (if negb (gc_grants s =? 0) && (0 <? gc_ngrants s) then
     for_each (zrange 0 (gc_ngrants s)) (fun i => g <- get_entry (gc_grants s) i ;; put_entry new_grants i g)
   else ret tt) ;;
  for_each (zrange (gc_ngrants s) new_size) (fun g =>
    upd_entry new_grants g (free_entry new_size (gc_freelist s) g)) ;;
  r <- sys_setgrant new_grants new_size ;;
  if negb (r =? 0) then ret tt
  else modify (fun s' => set_gc_ngrants new_size (set_gc_grants new_grants (set_gc_freelist (gc_ngrants s) s'))).

Definition cpf_prealloc (alloc : option block) (count : Z) : G unit :=
  r <- new_block alloc count ;;
  match r with
  | None => ret tt
  | Some (new_size, new_grants) => grow new_size new_grants
  end.

Definition cpf_new_grantslot (alloc : option block) : G Z :=
  g0 <- gets gc_freelist ;;
  (if g0 =? -1 then cpf_prealloc alloc 0 else ret tt) ;;
  g <- gets gc_freelist ;;
  if g =? -1 then modify (set_gc_errno ENOSPC) ;; ret (-1)
  else
    assert (0 <=? g) ;;
    ngrants <- gets gc_ngrants ;;
    assert (g <? ngrants) ;;
    grants <- gets gc_grants ;;
    e <- get_entry grants g ;;
    assert (negb (has (cp_flags e) CPF_USED)) ;;
    modify (set_gc_freelist (cp_w0 e)) ;;
    ret g.

(** ** Making grants *)
Definition bad_access (access : Z) : bool :=
  has access (Z.lnot (Z.lor CPF_READ (Z.lor CPF_WRITE CPF_TRY))).
Definition einval : G Z := modify (set_gc_errno EINVAL) ;; ret (-1).

(** Fill in the new slot and answer its id. *)
Definition fill_slot (g : Z) (f : cp_grant -> cp_grant) : G Z :=
  grants <- gets gc_grants ;;
  upd_entry grants g f ;;
  e <- get_entry grants g ;;
  ret (GRANT_ID g (cp_seq e)).

Definition cpf_grant_direct (alloc : option block) (who_to addr bytes access : Z) : G Z :=
  if bad_access access then einval
  else
    g <- cpf_new_grantslot alloc ;;
    if g <? 0 then ret (-1)
    else fill_slot g (fun e =>
      set_cp_flags (Z.lor access (Z.lor CPF_DIRECT (Z.lor CPF_USED CPF_VALID)))
        (set_cp_faulted GRANT_INVALID (set_cp_w16 bytes (set_cp_w8 addr (set_cp_w0 who_to e))))).

(** The grant id fills the lower half of a long. *)
Definition cpf_grant_indirect (alloc : option block) (who_to who_from gr : Z) : G Z :=
  g <- cpf_new_grantslot alloc ;;
  if g <? 0 then ret (-1)
  else fill_slot g (fun e =>
    set_cp_flags (Z.lor CPF_USED (Z.lor CPF_INDIRECT CPF_VALID))
      (set_cp_faulted GRANT_INVALID
        (set_cp_w8 (cp_w8 e - cp_w8 e mod 2 ^ 32 + u32 gr) (set_cp_w4 who_from (set_cp_w0 who_to e))))).

Definition cpf_grant_magic (alloc : option block) (who_to who_from addr bytes access : Z) : G Z :=
  if bad_access access then einval
  else
    g <- cpf_new_grantslot alloc ;;
    if g <? 0 then ret (-1)
    else fill_slot g (fun e =>
      set_cp_flags (Z.lor CPF_USED (Z.lor CPF_MAGIC (Z.lor CPF_VALID access)))
        (set_cp_faulted GRANT_INVALID
          (set_cp_w16 bytes (set_cp_w8 addr (set_cp_w0 who_from (set_cp_w4 who_to e)))))).

(** [GID_CHECK]: whether the id names an entry of the table with its sequence
    number. *)
Definition gid_ok (gid : Z) : G bool :=
  s <- get ;;
  if negb (GRANT_VALID gid) || (gc_ngrants s <=? GRANT_IDX gid) then ret false
  else e <- get_entry (gc_grants s) (GRANT_IDX gid) ;; ret (GRANT_SEQ gid =? cp_seq e).

Definition cpf_revoke (grant : Z) : G Z :=
  ok <- gid_ok grant ;;
  if negb ok then einval
  else
    let g := GRANT_IDX grant in
    grants <- gets gc_grants ;;
    e <- get_entry grants g ;;
    if negb (has (cp_flags e) CPF_USED) then einval
    else
      let r := if has (cp_flags e) CPF_TRY && (cp_faulted e =? grant) then GRANT_FAULTED else 0 in
      freelist <- gets gc_freelist ;;
      upd_entry grants g (fun e =>
        set_cp_w0 freelist
          (set_cp_seq (if cp_seq e <? GRANT_MAX_SEQ - 1 then cp_seq e + 1 else 0) (set_cp_flags 0 e))) ;;
      modify (set_gc_freelist g) ;;
      ret r.

(** ** The deprecated interface *)

(** The ids of the slots that could be had; every call may grow the table. *)
Fixpoint cpf_getgrants (allocs : list (option block)) : G (list Z) :=
  match allocs with
  | [] => ret []
  | alloc :: allocs' =>
      g <- cpf_new_grantslot alloc ;;
      if g <? 0 then ret []
      else
        grants <- gets gc_grants ;;
        upd_entry grants g (fun e => set_cp_seq 0 (set_cp_flags CPF_USED e)) ;;
        rest <- cpf_getgrants allocs' ;;
        ret (g :: rest)
  end.

(** The entry that is written is [grants[gid]], not the one of [GRANT_IDX]. *)
Definition setgrant (gid : Z) (f : cp_grant -> cp_grant) : G Z :=
  grants <- gets gc_grants ;; upd_entry grants gid f ;; ret 0.

Definition cpf_setgrant_direct (gid who addr bytes access : Z) : G Z :=
  ok <- gid_ok gid ;;
  if negb ok then einval
  else if bad_access access then einval
  else setgrant gid (fun e =>
    set_cp_w16 bytes (set_cp_w8 addr (set_cp_w0 who
      (set_cp_flags (Z.lor access (Z.lor CPF_DIRECT (Z.lor CPF_USED CPF_VALID))) e)))).

Definition cpf_setgrant_indirect (gid who_to who_from his_gid : Z) : G Z :=
  ok <- gid_ok gid ;;
  if negb ok then einval
  else setgrant gid (fun e =>
    set_cp_w8 (cp_w8 e - cp_w8 e mod 2 ^ 32 + u32 his_gid) (set_cp_w4 who_from (set_cp_w0 who_to
      (set_cp_flags (Z.lor CPF_USED (Z.lor CPF_INDIRECT CPF_VALID)) e)))).

Definition cpf_setgrant_magic (gid who_to who_from addr bytes access : Z) : G Z :=
  ok <- gid_ok gid ;;
  if negb ok then einval
  else if bad_access access then einval
  else setgrant gid (fun e =>
    set_cp_w16 bytes (set_cp_w8 addr (set_cp_w0 who_from (set_cp_w4 who_to
      (set_cp_flags (Z.lor CPF_USED (Z.lor CPF_MAGIC (Z.lor CPF_VALID access))) e))))).

Definition cpf_setgrant_disable (gid : Z) : G Z :=
  ok <- gid_ok gid ;;
  if negb ok then einval else setgrant gid (set_cp_flags CPF_USED).

Definition cpf_reload : G unit :=
  s <- get ;;
  if negb (gc_grants s =? 0) then sys_setgrant (gc_grants s) (gc_ngrants s) ;; ret tt else ret tt.
