(* ===== verification/ClockProps.v ===== *)
(** * The clock interrupt, alarms and the time of day

    [timer_int_handler] completes from every well-formed state and keeps the
    invariant of message passing and of the timer queue; it runs exactly the
    alarms that are due, and their owners are told.  So an alarm goes off after
    the requested number of ticks, whatever the wrap-around of the clock.  The
    load history counts the runnable processes, and [adjtime] makes up its
    ticks without turning the clock back. *)

From S2P Require Import Prelude Monad Timers TimerProps Endpoint Chain Kernel Sched RunQueue Init SchedProps Ipc IpcInv Deadlock IpcStep Notify IpcSend IpcRecv IpcPend IpcAsync IpcCall System Clock.

(** ** Fields that the invariants do not look at *)

Record same_tables (s s' : kstate) : Prop := {
  st_procs : procs s' = procs s;
  st_privs : privs s' = privs s;
  st_head : run_q_head s' = run_q_head s;
  st_tail : run_q_tail s' = run_q_tail s;
  st_cur : proc_ptr s' = proc_ptr s;
  st_bill : bill_ptr s' = bill_ptr s
}.

Lemma same_base s s' : same_tables s s' -> base s -> base s'.
Proof.
  destruct s, s'. intros [H1 H2 H3 H4 H5 _] [[[L HQ] Hpr Hs Hcur] Hc Hp]. cbn in *. subst.
  split; [|exact Hc|exact Hp]. split; [|exact Hpr|by destruct Hs; split|exact Hcur].
  exists L. by destruct HQ; split.
Qed.

Lemma same_view s s' : same_tables s s' -> view s' = view s.
Proof. intros []. unfold view. congruence. Qed.

Lemma same_ready s s' : same_tables s s' -> ready s -> ready s'.
Proof.
  intros H [Hb Hc Hn Hm]. pose proof (same_view _ _ H) as Hv. pose proof (st_privs _ _ H) as Hp.
  split; [by eapply same_base|by rewrite ?Hv, ?Hp..].
Qed.

Lemma same_ipc_ok s s' : same_tables s s' -> ipc_ok s -> ipc_ok s'.
Proof.
  intros H [[Hb Hc Hl] Hn Hm]. pose proof (same_view _ _ H) as Hv. pose proof (st_privs _ _ H) as Hp.
  split; [split; [by eapply same_base|by rewrite ?Hv, ?Hp..]|by rewrite ?Hv, ?Hp..].
Qed.

(** ** Virtual timers *)

(** Nothing the clock has to do for the process: it neither waits for a
    message nor has a virtual timer, like the idle process. *)
Definition no_vtimer (V : views) (n : Z) : Prop :=
  exists v, V !! n = Some v /\ v_recv v = None
    /\ has (v_misc v) MF_VIRT_TIMER = false /\ has (v_misc v) MF_PROF_TIMER = false.
(** A process whose time the clock may count. *)
Definition charged (V : views) (n : Z) : Prop :=
  no_vtimer V n \/ (exists v, live V n v) /\ 0 <= n.

(** Processes other than [n] that wait for nothing are left alone. *)
Definition others_awake (n : Z) (V V' : views) : Prop :=
  forall m v, m <> n -> V !! m = Some v -> v_recv v = None -> V' !! m = Some v.

Lemma charged_other n m V V' : relax V V' -> others_awake n V V' -> m <> n -> charged V m -> charged V' m.
Proof.
  intros HR HO Hne [(v & Hv & Hr & Hf)|[[v Hv] H0]].
  - left. exists v. split; [by apply HO|done].
  - right. destruct (relax_live _ _ _ _ HR Hv) as (v' & Hv' & _). split; [by exists v'|done].
Qed.

Lemma vt_flag_cases w : vt_flag w = MF_VIRT_TIMER \/ vt_flag w = MF_PROF_TIMER.
Proof. unfold vt_flag. destruct (w =? VT_VIRTUAL); auto. Qed.

Lemma no_vtimer_flag V n v w : V !! n = Some v -> no_vtimer V n -> has (v_misc v) (vt_flag w) = false.
Proof.
  intros Hv (v' & Hv' & _ & H1 & H2). rewrite Hv in Hv'. injection Hv' as <-.
  by destruct (vt_flag_cases w) as [-> | ->].
Qed.

Lemma dlv_flag_clr x w : has x MF_DELIVERMSG = false -> has (flag_clr x (vt_flag w)) MF_DELIVERMSG = false.
Proof.
  intros H. rewrite (has_testbit MF_DELIVERMSG) in *. unfold flag_clr. by rewrite Z.land_spec, H.
Qed.

(** Switching a virtual timer off. *)
Lemma vt_stop_moved s n p w :
  ready s -> procs s !! n = Some p ->
  exists s', upd_proc n (vt_off w) s = Done tt s' /\ moved s s' /\ others_awake n (view s) (view s').
Proof.
  intros Hr Hp. set (f := vt_off w).
  assert (sched_same p (f p)) as Hs by (unfold f, vt_off, set_vt_left; destruct (w =? VT_VIRTUAL); by split).
  assert (ipc_of (f p) = set_v_misc (flag_clr (v_misc (ipc_of p)) (vt_flag w)) (ipc_of p)) as Hi
    by (unfold f, vt_off, set_vt_left; by destruct (w =? VT_VIRTUAL)).
  destruct (step_upd s n p f (r_base _ Hr) Hp Hs) as (s' & E & HG & _);
    [unfold f, vt_off, set_vt_left; by destruct (w =? VT_VIRTUAL)|].
  rewrite Hi in HG. exists s'. split; [done|]. split.
  - eapply goes_moved; [done|exact HG| | |apply prelax_refl].
    + eapply relax_insert; [by apply view_lookup|]. split; try done. by left.
    + intros m v Hl Hrv. destruct (decide (m = n)) as [->|Hne].
      * destruct Hl as (Hn & Hv & He). rewrite lookup_insert_eq in Hv. injection Hv as <-. cbn in *.
        apply dlv_flag_clr. apply (c_dlv _ _ (r_core _ Hr) n (ipc_of p)); [|done].
        split_and!; [done|by apply view_lookup|done].
      * destruct Hl as (Hn & Hv & He). rewrite lookup_insert_ne in Hv by done.
        by apply (c_dlv _ _ (r_core _ Hr) m v).
  - intros m v Hne Hv Hrv. rewrite (g_view _ _ _ _ HG). by rewrite lookup_insert_ne.
Qed.

Lemma vtimer_check_one_run s n w sig :
  ready s -> charged (view s) n -> SIGS_IS_LETHAL sig = false ->
  exists s', vtimer_check_one n w sig s = Done tt s' /\ moved s s' /\ others_awake n (view s) (view s')
    /\ charged (view s') n.
Proof.
  intros Hr Hch Hsig. unfold vtimer_check_one.
  assert (exists p, procs s !! n = Some p) as [p Hp].
  { destruct Hch as [(v & Hv & _)|[[v (_ & Hv & _)] _]]; destruct (view_lookup_inv _ _ _ Hv) as (p & ? & _); eauto. }
  erewrite bind_get_proc by done. pose proof (view_lookup _ _ _ Hp) as Hv.
  destruct (has (p_misc_flags p) (vt_flag w) && (vt_left w p =? 0)) eqn:Hexp.
  2:{ exists s. split_and!; [done|by apply moved_refl|by intros ????|done]. }
  apply andb_true_iff in Hexp as [Hf _]. destruct Hch as [Hn|[[v0 Hl] H0]].
  { exfalso. exact (eq_true_false_abs _ Hf (no_vtimer_flag _ _ _ w Hv Hn)). }
  destruct (vt_stop_moved s n p w Hr Hp) as (s1 & E1 & M1 & A1). rewrite (bind_done _ _ _ _ _ E1).
  destruct (relax_live _ _ _ _ (m_relax _ _ M1) Hl) as (v1 & Hl1 & _).
  assert (p_nr p = n) as -> by (apply (slot_magic _ (ws_slots _ (b_sched _ (r_base _ Hr))) n p Hp), Hl).
  destruct (cause_sig_ready s1 n v1 sig (m_ready _ _ M1) Hl1 H0 Hsig) as (s2 & E2 & N2).
  exists s2. split_and!; [done|by eapply moved_trans, N2| |].
  - intros m v Hne Hvm Hrv. apply (n_awake _ _ N2); [by apply A1|done].
  - right. destruct (relax_live _ _ _ _ (m_relax _ _ (n_moved _ _ N2)) Hl1) as (v2 & ? & _). eauto.
Qed.

Lemma vtimer_check_run s n :
  ready s -> charged (view s) n ->
  exists s', vtimer_check n s = Done tt s' /\ moved s s' /\ others_awake n (view s) (view s')
    /\ charged (view s') n.
Proof.
  intros Hr Hch. unfold vtimer_check.
  destruct (vtimer_check_one_run s n VT_VIRTUAL SIGVTALRM Hr Hch eq_refl) as (s1 & E1 & M1 & A1 & C1).
  rewrite (bind_done _ _ _ _ _ E1).
  destruct (vtimer_check_one_run s1 n VT_PROF SIGPROF (m_ready _ _ M1) C1 eq_refl) as (s2 & E2 & M2 & A2 & C2).
  exists s2. split_and!; [done|by eapply moved_trans| |done]. intros m v Hne Hv Hrv. apply A2; auto.
Qed.

(** ** Load *)

Lemma count_queue_run s fuel h l n :
  chain (nextready s) h l -> (forall x, x ∈ l -> is_Some (procs s !! x)) -> (length l < fuel)%nat ->
  count_queue fuel h n s = Done (n + Z.of_nat (length l)) s.
Proof.
  revert h l n. induction fuel as [|fuel IH]; intros h l n Hc Hin Hf; [lia|]. cbn.
  destruct l as [|x l]; [cbn in Hc; subst h; unfold ret; do 2 f_equal; cbn; lia|].
  destruct Hc as [-> Hc]. destruct (Hin x) as [p Hp]; [set_solver|]. erewrite bind_get_proc by done.
  assert (nextready s x = p_nextready p) as E by (unfold nextready; by rewrite Hp).
  rewrite E in Hc. rewrite (IH _ l (n + 1)); [f_equal; cbn; lia|done|set_solver|cbn in Hf; lia].
Qed.

Lemma count_queues_run s L R qs n :
  queued s L R -> (forall m, R m -> is_Some (procs s !! m)) -> (forall q, q ∈ qs -> rdyq_ok q = true) ->
  count_queues qs n s = Done (n + Z.of_nat (length (concat (map L qs)))) s.
Proof.
  intros HQ HR. revert n. induction qs as [|q qs IH]; intros n Hqs; cbn.
  { unfold ret. do 2 f_equal. lia. }
  assert (rdyq_ok q = true) as Hq by (apply Hqs; set_solver).
  unfold get_head. rewrite Hq. destruct (queued_rqs _ _ _ HQ q Hq) as [Hc _].
  rewrite (bind_done _ _ (run_q_head s !! q) s s) by done.
  rewrite (bind_done _ _ _ _ _ (count_queue_run s (S rq_fuel) _ (L q) n Hc
    ltac:(intros x [Hx _]%(queued_mem _ _ _ HQ); auto)
    ltac:(pose proof (rqs_length _ _ _ _ HQ Hq); unfold rq_fuel; lia))).
  rewrite IH by set_solver. cbn [map concat]. rewrite length_app. f_equal. lia.
Qed.

Definition is_runnable (s : kstate) (n : Z) : bool :=
  match procs s !! n with Some p => p_rts_flags p =? 0 | None => false end.
(** The runnable processes of the table. *)
Definition runnable_procs (s : kstate) : list Z := filter (fun n => is_runnable s n = true) proc_table.

Lemma elem_of_runnable s n : n ∈ runnable_procs s <-> runnable s n.
Proof.
  unfold runnable_procs, runnable, is_runnable. rewrite list_elem_of_filter, elem_of_proc_table.
  split.
  - intros [H Hn]. split; [done|]. destruct (procs s !! n) as [p|]; [|done]. exists p. by apply Z.eqb_eq in H.
  - intros (Hn & p & -> & ->). done.
Qed.

Lemma queued_disjoint s L R q q' n :
  queued s L R -> rdyq_ok q = true -> rdyq_ok q' = true -> n ∈ L q -> n ∈ L q' -> q = q'.
Proof.
  intros HQ Hq Hq' [_ H]%(queued_mem _ _ _ HQ q n Hq) [_ H']%(queued_mem _ _ _ HQ q' n Hq'). congruence.
Qed.

Lemma elem_of_concat_map (L : Z -> list Z) qs n : n ∈ concat (map L qs) <-> exists q, q ∈ qs /\ n ∈ L q.
Proof.
  rewrite list_elem_of_In, in_concat. setoid_rewrite in_map_iff. setoid_rewrite list_elem_of_In. naive_solver.
Qed.

(** The queues together are the runnable processes. *)
Lemma queues_runnable s L :
  queued s L (runnable s) -> prio_ok s -> Permutation (concat (map L sched_queues)) (runnable_procs s).
Proof.
  intros HQ Hpr. apply NoDup_Permutation.
  - assert (NoDup sched_queues) as Hnd by (apply (bool_decide_unpack _); vm_compute; exact I).
    assert (forall q, q ∈ sched_queues -> rdyq_ok q = true) as Hin by (intros q; apply elem_of_queues).
    revert Hnd Hin. generalize sched_queues. intros qs. induction qs as [|q qs IH]; intros Hnd Hin; [constructor|].
    apply NoDup_cons in Hnd as [Hq Hnd]. cbn. apply NoDup_app. split_and!.
    + eapply chain_NoDup. apply (queued_rqs _ _ _ HQ q). set_solver.
    + intros n Hn (q' & Hq' & Hnl)%elem_of_concat_map.
      apply Hq. by rewrite (queued_disjoint s L _ q q' n HQ ltac:(set_solver) ltac:(set_solver) Hn Hnl).
    + apply IH; set_solver.
  - apply NoDup_filter, (bool_decide_unpack _). vm_compute. exact I.
  - intros n. rewrite elem_of_runnable. split.
    + intros (q & Hq & Hnl)%elem_of_concat_map. apply elem_of_queues in Hq. by apply (queued_mem _ _ _ HQ q n Hq) in Hnl as [? _].
    + intros Hn. pose proof Hn as (_ & p & Hp & _). pose proof (Hpr n p Hp Hn) as Hq.
      apply elem_of_concat_map. exists (p_priority p). split; [by apply elem_of_queues|].
      apply (queued_mem _ _ _ HQ); [done|]. split; [done|]. by rewrite Hp.
Qed.

(** The slot of the load history for the current time. *)
Definition load_slot (s : kstate) : Z := u16 ((k_monotonic s / system_hz s / LOAD_UNIT_SECS) mod LOAD_HISTORY).
(** What the history says after counting [n] processes: a slot that starts now
    is emptied first. *)
Definition load_add (slot n now : Z) (k : loadinfo) : loadinfo :=
  mkLoad slot
    (<[slot := u16 ((if slot =? proc_last_slot k then default 0 (proc_load_history k !! slot) else 0) + n)]>
       (proc_load_history k)) now.

Lemma load_update_run s :
  base s ->
  load_update s =
    Done tt (set_kloadinfo (load_add (load_slot s) (Z.of_nat (length (runnable_procs s))) (k_monotonic s)
               (kloadinfo s)) s).
Proof.
  intros Hb. destruct (ws_queues _ (b_sched _ Hb)) as [L HQ].
  pose proof (queues_runnable s L HQ (ws_prio _ (b_sched _ Hb))) as HP. apply Permutation_length in HP.
  unfold load_update. rewrite (bind_done _ _ s s s) by done. fold (load_slot s). set (slot := load_slot s).
  assert (forall s', same_tables s s' -> count_queues sched_queues 0 s'
    = Done (Z.of_nat (length (runnable_procs s))) s') as HC.
  { intros s' Hs'. pose proof (same_base _ _ Hs' Hb) as Hb'. destruct (ws_queues _ (b_sched _ Hb')) as [L' HQ'].
    pose proof (queues_runnable s' L' HQ' (ws_prio _ (b_sched _ Hb'))) as HP'. apply Permutation_length in HP'.
    rewrite (count_queues_run s' L' (runnable s') _ 0 HQ').
    - rewrite HP'. unfold runnable_procs, is_runnable. by rewrite (st_procs _ _ Hs').
    - by intros m (_ & p & ? & _).
    - intros q. apply elem_of_queues. }
  unfold load_add. destruct (slot =? proc_last_slot (kloadinfo s)) eqn:E; cbn [negb].
  - rewrite bind_ret. cbn beta. rewrite (bind_done _ _ _ _ _ (HC s ltac:(by split))). unfold modify.
    apply Z.eqb_eq in E. unfold set_last_clock, set_proc_load_history. cbn. by rewrite <- E.
  - rewrite (bind_done (modify _) _ tt s _ eq_refl).
    cbn beta. erewrite bind_done by (apply HC; by split). unfold modify, set_last_clock, set_proc_load_history. cbn.
    by rewrite lookup_insert_eq, insert_insert_eq.
Qed.

(** ** Charging the tick *)

Lemma charge_upd s n f :
  ready s -> is_Some (procs s !! n) -> f = charge_user \/ f = charge_sys \/ (exists w, f = vt_tick w) ->
  exists s', upd_proc n f s = Done tt s' /\ moved s s' /\ view s' = view s.
Proof.
  intros Hr [p Hp] Hf.
  assert (ipc_of (f p) = ipc_of p /\ sched_same p (f p) /\ p_priority (f p) = p_priority p) as (H1 & H2 & H3).
  { destruct Hf as [->|[->|[w ->]]]; [by split_and!..|].
    unfold vt_tick, set_vt_left. by destruct (_ && _), (w =? VT_VIRTUAL); split_and!. }
  destruct (upd_notified s n p f Hr Hp H1 H2 H3) as (s' & E & N & V). exists s'. split_and!; [done|apply N|done].
Qed.

Lemma view_some s s' n : view s' = view s -> is_Some (procs s !! n) -> is_Some (procs s' !! n).
Proof.
  intros HV [p Hp]. pose proof (view_lookup _ _ _ Hp) as H. rewrite <- HV in H.
  destruct (view_lookup_inv _ _ _ H) as (p' & ? & _). by exists p'.
Qed.

Lemma charged_some s n : charged (view s) n -> is_Some (procs s !! n).
Proof.
  intros [(v & Hv & _)|[[v (_ & Hv & _)] _]]; destruct (view_lookup_inv _ _ _ Hv) as (p & ? & _); by exists p.
Qed.

Lemma charge_if s n f (b : bool) :
  ready s -> is_Some (procs s !! n) -> f = charge_sys \/ (exists w, f = vt_tick w) ->
  exists s', (if b then upd_proc n f else ret tt) s = Done tt s' /\ moved s s' /\ view s' = view s.
Proof.
  intros Hr Hn Hf. destruct b; [apply charge_upd; tauto|]. exists s. split_and!; [done|by apply moved_refl|done].
Qed.

Lemma moved_field {A} (f : kstate -> A) s s' :
  (forall s, f (rest0 s) = f s) -> moved s s' -> f s' = f s.
Proof. intros Hf M. rewrite <- (Hf s'), <- (Hf s). f_equal. apply M. Qed.

Lemma charge_tick_run s b :
  ready s -> is_Some (procs s !! b) ->
  exists s', charge_tick (proc_ptr s) b s = Done tt s' /\ moved s s' /\ view s' = view s.
Proof.
  intros Hr Hb. unfold charge_tick.
  destruct (ws_cur _ (b_sched _ (r_base _ Hr))) as (c & _ & _ & Hc & _).
  destruct (charge_upd s (proc_ptr s) charge_user) as (s1 & E1 & M1 & V1); [done|by exists c|auto|].
  rewrite (bind_done _ _ _ _ _ E1).
  destruct (ws_cur _ (b_sched _ (r_base _ (m_ready _ _ M1)))) as (c1 & id & pv & Hc1 & Hid & Hpv).
  rewrite (moved_field proc_ptr s s1 ltac:(done) M1) in Hc1.
  unfold priv_at. rewrite bind_assoc. erewrite bind_get_proc by done. erewrite bind_priv_of by done.
  set (nb := negb _).
  destruct (charge_if s1 b charge_sys nb) as (s2 & E2 & M2 & V2); [apply M1|by apply (view_some s)|auto|].
  rewrite (bind_done _ _ _ _ _ E2).
  assert (is_Some (procs s2 !! proc_ptr s)) as Hp2 by (apply (view_some s); [by rewrite V2, V1|by exists c]).
  destruct (charge_upd s2 (proc_ptr s) (vt_tick VT_VIRTUAL)) as (s3 & E3 & M3 & V3); [apply M2|done|eauto|].
  rewrite (bind_done _ _ _ _ _ E3).
  destruct (charge_upd s3 (proc_ptr s) (vt_tick VT_PROF)) as (s4 & E4 & M4 & V4);
    [apply M3|by apply (view_some s2)|eauto|].
  rewrite (bind_done _ _ _ _ _ E4).
  destruct (charge_if s4 b (vt_tick VT_PROF) nb) as (s5 & E5 & M5 & V5);
    [apply M4|apply (view_some s); [congruence|done]|eauto|].
  exists s5. split_and!; [done| |congruence].
  eapply moved_trans; [exact M1|]. eapply moved_trans; [exact M2|]. eapply moved_trans; [exact M3|].
  by eapply moved_trans.
Qed.

(** ** Alarms *)

(** The process with endpoint [e] has the clock's notification: recorded in
    its bit map, or in its message buffer when it waited for it. *)
Definition told (s : kstate) (e : Z) : Prop :=
  exists n v id pv vc cid, live (view s) n v /\ v_ep v = e /\ v_priv v = Some id /\ privs s !! id = Some pv
    /\ live (view s) CLOCK vc /\ v_priv vc = Some cid
    /\ (get_sys_bit (s_notify_pending pv) cid = true
        \/ v_recv v = None /\ has (v_misc v) MF_DELIVERMSG = true
           /\ m_source (v_dmsg v) = v_ep vc /\ m_type (v_dmsg v) = NOTIFY_MESSAGE).

Lemma clock_live s : ready s -> exists c cid, procs s !! CLOCK = Some c /\ live (view s) CLOCK (ipc_of c)
  /\ p_priv c = Some cid /\ bit_ok cid.
Proof.
  intros [Hb Hc Hnf Hm]. destruct (c_task _ _ Hc CLOCK eq_refl eq_refl) as [v Hv].
  destruct (live_proc_of s CLOCK v Hv) as (c & Hcp & <-).
  destruct (c_priv _ _ Hc CLOCK _ Hv) as (cid & pv & Hcid & Hok & _). by exists c, cid.
Qed.

Lemma v_wake_status x y z v :
  v_misc (v_wake x y z v) = flag_set (v_misc v) MF_DELIVERMSG /\ v_dmsg (v_wake x y z v) = set_m_source y x
  /\ v_priv (v_wake x y z v) = v_priv v.
Proof. unfold v_wake, v_status_add. cbn [v_misc v_deliver]. by destruct (has _ MF_REPLY_PEND). Qed.

(** Notification bits are only added. *)
Definition bits_grow (P P' : gmap Z priv) : Prop :=
  forall id pv, P !! id = Some pv -> bit_ok id -> exists pv', P' !! id = Some pv'
    /\ forall b, bit_ok b -> get_sys_bit (s_notify_pending pv) b = true -> get_sys_bit (s_notify_pending pv') b = true.

Lemma bits_grow_insert P id pv pv' :
  P !! id = Some pv ->
  (bit_ok id -> forall b, bit_ok b ->
     get_sys_bit (s_notify_pending pv) b = true -> get_sys_bit (s_notify_pending pv') b = true) ->
  bits_grow P (<[id := pv']> P).
Proof.
  intros Hp Hb i q Hq Hi. destruct (decide (i = id)) as [->|Hne].
  - rewrite lookup_insert_eq. exists pv'. split; [done|]. intros b. rewrite Hp in Hq. injection Hq as <-. by apply Hb.
  - rewrite lookup_insert_ne by done. by exists q.
Qed.

Lemma told_grow s s' e : ready s -> notified s s' -> bits_grow (privs s) (privs s') -> told s e -> told s' e.
Proof.
  intros Hr N HB (n & v & id & pv & vc & cid & Hl & He & Hid & Hpv & Hc & Hcid & Ht).
  destruct (notified_live _ _ _ _ N Hl) as (v' & Hl' & K). destruct (notified_live _ _ _ _ N Hc) as (vc' & Hc' & Kc).
  destruct (c_priv _ _ (r_core _ Hr) n v Hl) as (id' & pv0 & Hid' & Hokd & _). rewrite Hid in Hid'. injection Hid' as <-.
  destruct (c_priv _ _ (r_core _ Hr) CLOCK vc Hc) as (cid' & pvc & Hcid' & Hokc & _).
  rewrite Hcid in Hcid'. injection Hcid' as <-. destruct (HB id pv Hpv Hokd) as (pv' & Hpv' & Hbits).
  exists n, v', id, pv', vc', cid. rewrite (k_ep _ _ K), (k_priv _ _ K), (k_priv _ _ Kc), (k_ep _ _ Kc).
  split_and!; try done. destruct Ht as [Ht|(H1 & H2 & H3 & H4)]; [left; auto|right].
  pose proof (n_awake _ _ N n v (proj1 (proj2 Hl)) H1) as Hv. rewrite (proj1 (proj2 Hl')) in Hv.
  injection Hv as ->. done.
Qed.

(** What one notification of the clock does. *)
Lemma clock_notify s s' c cid e dst v id pv :
  ready s -> live (view s) CLOCK (ipc_of c) -> p_priv c = Some cid -> bit_ok cid ->
  live (view s) dst v -> v_ep v = e -> v_priv v = Some id -> privs s !! id = Some pv -> notified s s' ->
  (if will v (p_endpoint c) && negb (has (v_misc v) MF_REPLY_PEND)
   then goes s s' (<[dst := v_wake (notify_msg (k_monotonic s) CLOCK pv) (p_endpoint c)
                              (IPC_STATUS_CALL_TO NOTIFY) v]> (view s)) (<[id := notify_taken CLOCK pv]> (privs s))
   else goes s s' (view s) (<[id := notify_mark cid pv]> (privs s))) ->
  told s' e /\ bits_grow (privs s) (privs s').
Proof.
  intros Hr Hcl Hcid Hbc Hl He Hid Hpv N G. pose proof (r_core _ Hr) as Hc.
  destruct (notified_live _ _ _ _ N Hcl) as (vc & Hcl' & Kc).
  destruct (c_priv _ _ Hc dst v Hl) as (id' & pv0 & Hid' & Hokd & Hpv0 & _).
  rewrite Hid in Hid'. injection Hid' as <-. rewrite Hpv in Hpv0. injection Hpv0 as <-.
  destruct (c_privs _ _ Hc id pv Hokd Hpv) as (_ & Hmap & _).
  destruct (_ && _) in G; rewrite (g_privs _ _ _ _ G).
  - destruct (v_wake_status (notify_msg (k_monotonic s) CLOCK pv) (p_endpoint c) (IPC_STATUS_CALL_TO NOTIFY) v)
      as (W1 & W2 & W3). pose proof (v_wake_keeps (notify_msg (k_monotonic s) CLOCK pv) (p_endpoint c)
      (IPC_STATUS_CALL_TO NOTIFY) v) as K.
    split; [|by apply (bits_grow_insert _ _ pv)].
    eexists dst, _, id, (notify_taken CLOCK pv), vc, cid. split_and!;
      [split_and!; [apply Hl|rewrite (g_view _ _ _ _ G); apply lookup_insert_eq|by rewrite (k_empty _ _ K), (proj2 (proj2 Hl))]
      |by rewrite (k_ep _ _ K)|by rewrite W3|rewrite (g_privs _ _ _ _ G); apply lookup_insert_eq|done
      |by rewrite (k_priv _ _ Kc)|right].
    rewrite W1, W2, (k_ep _ _ Kc). split_and!; [done|apply has_flag_set_same; apply _|done|done].
  - split; [|apply (bits_grow_insert _ _ pv); [done|]; intros _ b Hb; cbn; rewrite get_set_sys_bit by done; by intros ->].
    exists dst, v, id, (notify_mark cid pv), vc, cid. rewrite (g_view _ _ _ _ G), (g_privs _ _ _ _ G) in *.
    split_and!; [done|done|done|apply lookup_insert_eq|done|by rewrite (k_priv _ _ Kc)|left].
    cbn. rewrite get_set_sys_bit by done. by rewrite Z.eqb_refl, orb_true_r.
Qed.

(** One alarm: the owner is told, if it exists, and nobody loses anything. *)
Lemma alarm_run s e :
  ready s ->
  exists s', cause_alarm e s = Done tt s' /\ notified s s'
    /\ ((exists n v, live (view s) n v /\ v_ep v = e) -> told s' e)
    /\ forall e', told s e' -> told s' e'.
Proof.
  intros Hr. destruct (clock_live s Hr) as (c & cid & Hcp & Hcl & Hcid & Hbc). pose proof (r_core _ Hr) as Hc.
  destruct (mini_notify_ready s CLOCK _ e Hr Hcl) as (r & s' & E & N).
  exists s'. unfold cause_alarm. rewrite (bind_done _ _ _ _ _ E). split; [done|]. split; [done|].
  destruct (mini_notify_spec s CLOCK c cid e Hr Hcp Hcl Hcid) as
    [[Hno E']|(dst & v & id & pv & s1 & Hl & He & Hid & Hpv & E' & G)]; rewrite E in E'; injection E' as -> ->.
  { split; [|done]. intros (n & v & Hv & <-). by rewrite (live_isokendpt s Hc n v Hv) in Hno. }
  destruct (clock_notify s s1 c cid e dst v id pv) as [HT HB]; try done.
  split; [done|]. intros e'. by apply told_grow.
Qed.

(** The only watchdog function in use is [cause_alarm]. *)
Definition alarms_ok (q : tqueue) : Prop :=
  forall x t, t_tab q !! x = Some t -> tmr_func t = None \/ tmr_func t = Some CAUSE_ALARM.

Lemma alarms_popped q x t : alarms_ok q -> alarms_ok (popped q x t).
Proof.
  intros H y u. unfold popped. cbn. destruct (decide (y = x)) as [->|Hne].
  - rewrite lookup_insert_eq. intros [= <-]. by left.
  - rewrite lookup_insert_ne by done. apply H.
Qed.

Definition alarm_inv (s : kstate) : Prop := ipc_ok s /\ alarms_ok (k_timers s).

(** One timer goes off. *)
Lemma watchdog_run x t f s :
  alarm_inv s -> t_tab (k_timers s) !! x = Some t -> tmr_func t = Some f ->
  exists s', watchdog f (tmr_arg t) (set_k_timers (popped (k_timers s) x t) s) = Done tt s'
    /\ alarm_inv s' /\ k_timers s' = popped (k_timers s) x t
    /\ notified (set_k_timers (popped (k_timers s) x t) s) s'
    /\ ((exists n v, live (view s) n v /\ v_ep v = tmr_arg t) -> told s' (tmr_arg t))
    /\ forall e, told s e -> told s' e.
Proof.
  intros [Hok Ha] Ht Hf. destruct (Ha x t Ht) as [E|E]; rewrite Hf in E; [done|]. injection E as ->.
  set (s0 := set_k_timers _ s). assert (same_tables s s0) as HS by done.
  pose proof (same_ipc_ok _ _ HS Hok) as Hok0.
  destruct (alarm_run s0 (tmr_arg t) (ipc_ok_ready _ Hok0)) as (s' & E & N & T & G).
  assert (k_timers s' = popped (k_timers s) x t) as Hq by exact (moved_field k_timers s0 s' ltac:(done) (n_moved _ _ N)).
  exists s'. split_and!; [exact E| |done|done|exact T|exact G].
  split; [by eapply moved_ipc_ok, N|]. rewrite Hq. by apply alarms_popped.
Qed.

(** The timers of a list went off one after the other. *)
Lemma fires_told ex s s' :
  fires watchdog ex s s' -> alarm_inv s -> NoDup ex ->
  (forall e, told s e -> told s' e)
  /\ rest0 (set_k_timers (mkTq ∅ None) s') = rest0 (set_k_timers (mkTq ∅ None) s)
  /\ relax (view s) (view s')
  /\ awake (view s) (view s')
  /\ forall x t n v, x ∈ ex -> t_tab (k_timers s) !! x = Some t -> live (view s) n v -> v_ep v = tmr_arg t ->
       told s' (tmr_arg t).
Proof.
  induction 1 as [s|x t f l s s1 s2 Ht Hf Hc Hfs IH]; intros HI Hnd.
  { split_and!; [done|done|done|by intros ???|set_solver]. }
  apply NoDup_cons in Hnd as [Hx Hnd].
  destruct (watchdog_run x t f s HI Ht Hf) as (s1' & E & HI1 & Hq & N & HT & HG).
  assert (Done tt s1' = Done tt s1) as [= ->] by (rewrite <- Hc; symmetry; exact E).
  destruct (IH HI1 Hnd) as (IH1 & IH2 & IH3 & IH4 & IH5). split_and!.
  - auto.
  - rewrite IH2. exact (f_equal (set_k_timers (mkTq ∅ None)) (m_rest _ _ (n_moved _ _ N))).
  - etrans; [exact (m_relax _ _ (n_moved _ _ N))|done].
  - intros n v Hv Hr. apply IH4; [|done]. by apply (n_awake _ _ N).
  - intros y u n v [->|Hy]%elem_of_cons Hu Hl He.
    + assert (u = t) as -> by (change (t_tab (ts_get s)) with (t_tab (k_timers s)) in Ht; congruence).
      apply IH1, HT. by exists n, v.
    + destruct (relax_live _ _ _ _ (m_relax _ _ (n_moved _ _ N)) Hl) as (v1 & Hl1 & K).
      apply (IH5 y u n v1); [done| |done|by rewrite (k_ep _ _ K)].
      rewrite Hq. cbn. rewrite lookup_insert_ne; [done|]. by intros ->.
Qed.

(** The timers that are due go off, in order. *)
Lemma run_timers_run s b l :
  alarm_inv s -> tq_ok b (k_timers s) l -> ticks_to b (k_monotonic s) <= TMRDIFF_MAX ->
  exists ex rest s', l = ex ++ rest /\ run_timers s = Done tt s' /\ alarm_inv s' /\ fires watchdog ex s s'
    /\ tq_ok b (k_timers s') rest
    /\ (forall x, x ∈ ex -> due b (k_timers s) x <= ticks_to b (k_monotonic s))
    /\ (forall x, x ∈ rest -> ticks_to b (k_monotonic s) < due b (k_timers s') x)
    /\ (forall x, x ∉ ex -> t_tab (k_timers s') !! x = t_tab (k_timers s) !! x).
Proof.
  intros HI Hq Hw. set (fuel := S (size (t_tab (k_timers s)))).
  assert (length l < fuel)%nat as Hf by (apply fuel_enough; [by eapply chain_NoDup, Hq|by eapply tq_in_tab]).
  destruct (exp_loop_run watchdog alarm_inv) with (fuel := fuel) (b := b) (now := k_monotonic s) (l := l) (s := s)
    as (ex & rest & s' & Hl & Hr & HI' & Hfs & Hq' & H1 & H2 & H3); [|done..|].
  { intros x t f s1 HI1 Ht Hf1. destruct (watchdog_run x t f s1 HI1 Ht Hf1) as (s2 & E & HI2 & Hq2 & _). by exists s2. }
  exists ex, rest, s'. split_and!; try done. unfold run_timers.
  assert (read_tmr TmrHead s = Done (head l) s) as Hread by exact (read_tmr_at (S := kstate) s [] l (tq_chain _ _ _ Hq) ltac:(easy)).
  rewrite (bind_done _ _ _ _ _ Hread). pose proof Hr as Hr'. unfold fuel in Hr'. cbn [exp_loop] in Hr'.
  rewrite (bind_done _ _ _ _ _ Hread) in Hr'.
  destruct (head l) as [tp|] eqn:Hh; [|by injection Hr' as <-].
  destruct (tq_tab _ _ _ Hq tp) as [[t Ht] _]; [destruct l; [done|]; injection Hh as ->; set_solver|].
  assert (get_tmr tp s = Done t s) as Hget by exact (get_tmr_run (S := kstate) s tp t Ht).
  rewrite (bind_done _ _ _ _ _ Hget). rewrite (bind_done _ _ _ _ _ Hget) in Hr'. unfold get_monotonic.
  rewrite (bind_done _ _ (k_monotonic s) s s) by done.
  destruct (tmr_has_expired t (k_monotonic s)) eqn:Hexp; [|by injection Hr' as <-].
  rewrite (bind_done tmr_fuel _ fuel s s) by done. unfold tmrs_exptimers.
  pose proof (head_time_run (S := kstate) s' rest (tq_chain _ _ _ Hq') (tq_in_tab _ _ _ Hq')) as Hh'.
  rewrite bind_assoc, (bind_done _ _ _ _ _ Hr). by rewrite (bind_done _ _ _ _ _ Hh').
Qed.

(** ** The clock interrupt *)

(** What the clock relies on: message passing is well formed, the timer queue
    is, counting from the current time, and the processes it charges exist. *)
Record clock_ok (s : kstate) (l : list Z) : Prop := {
  ck_ipc : ipc_ok s;
  ck_alarms : alarms_ok (k_timers s);
  ck_queue : tq_ok (k_monotonic s) (k_timers s) l;
  ck_cur : charged (view s) (proc_ptr s);
  ck_bill : charged (view s) (bill_ptr s)
}.

Lemma ticks_next b : ticks_to b (u32 (b + 1)) = 1.
Proof. unfold ticks_to, u32. rewrite Zminus_mod_idemp_l. by replace (b + 1 - b) with 1 by lia. Qed.

Lemma tick_same s : same_tables s (tick_time s).
Proof. unfold tick_time. by destruct (_ && _). Qed.
Lemma tick_fields s : k_monotonic (tick_time s) = u32 (k_monotonic s + 1) /\ k_timers (tick_time s) = k_timers s.
Proof. unfold tick_time. by destruct (_ && _). Qed.

(** Checking the virtual timers of the current and the billed process. *)
Lemma vtimers_run s :
  ready s -> charged (view s) (proc_ptr s) -> charged (view s) (bill_ptr s) ->
  exists s', (forall B (k : K B), (vtimer_check (proc_ptr s) ;;
      (if negb (proc_ptr s =? bill_ptr s) then vtimer_check (bill_ptr s) else ret tt) ;; k) s = k s')
    /\ moved s s' /\ charged (view s') (proc_ptr s) /\ charged (view s') (bill_ptr s).
Proof.
  intros Hr Hp Hb. destruct (vtimer_check_run s _ Hr Hp) as (s1 & E1 & M1 & A1 & C1).
  destruct (Z.eqb_spec (proc_ptr s) (bill_ptr s)) as [E|Hne]; cbn [negb].
  - exists s1. split; [|by rewrite <- E]. intros B k. by rewrite (bind_done _ _ _ _ _ E1).
  - assert (charged (view s1) (bill_ptr s)) as Hb1 by (eapply charged_other; [apply M1|done|congruence|done]).
    destruct (vtimer_check_run s1 _ (m_ready _ _ M1) Hb1) as (s2 & E2 & M2 & A2 & C2).
    exists s2. split_and!; [|by eapply moved_trans|by eapply charged_other; [apply M2|..]|done].
    intros B k. rewrite (bind_done _ _ _ _ _ E1). by rewrite (bind_done _ _ _ _ _ E2).
Qed.

Lemma charged_awake m V V' : relax V V' -> awake V V' -> charged V m -> charged V' m.
Proof.
  intros HR HA [(v & Hv & Hr & Hf)|[[v Hv] H0]].
  - left. exists v. split; [by apply HA|done].
  - right. destruct (relax_live _ _ _ _ HR Hv) as (v' & Hv' & _). split; [by exists v'|done].
Qed.

(** Everything before the timers: time, accounting, virtual timers, load. *)
Lemma tick_front s l :
  clock_ok s l ->
  exists s', timer_int_handler s = (run_timers ;; ret 1) s'
    /\ clock_ok (set_k_monotonic (k_monotonic s) s') l /\ relax (view s) (view s')
    /\ k_monotonic s' = u32 (k_monotonic s + 1) /\ k_timers s' = k_timers s.
Proof.
  intros [Hok Ha Hq Hcur Hbill]. unfold timer_int_handler.
  set (s0 := tick_time s). pose proof (tick_same s) as HS. fold s0 in HS.
  destruct (tick_fields s) as [Hm Ht]. fold s0 in Hm, Ht.
  rewrite (bind_done (modify tick_time) _ tt s s0 eq_refl).
  rewrite (bind_done (gets proc_ptr) _ _ s0 s0 eq_refl), (bind_done (gets bill_ptr) _ _ s0 s0 eq_refl).
  pose proof (same_ipc_ok _ _ HS Hok) as Hok0. pose proof (ipc_ok_ready _ Hok0) as Hr0.
  rewrite <- (same_view _ _ HS), <- (st_cur _ _ HS) in Hcur. rewrite <- (same_view _ _ HS), <- (st_bill _ _ HS) in Hbill.
  destruct (charge_tick_run s0 (bill_ptr s0) Hr0) as (s1 & E1 & M1 & V1); [by apply charged_some|].
  rewrite (bind_done _ _ _ _ _ E1).
  assert (proc_ptr s1 = proc_ptr s0 /\ bill_ptr s1 = bill_ptr s0) as [P1 B1]
    by (split; by apply (moved_field _ s0 s1)).
  rewrite <- V1, <- P1 in Hcur. rewrite <- V1, <- B1 in Hbill.
  destruct (vtimers_run s1 (m_ready _ _ M1) Hcur Hbill) as (s2 & E2 & M2 & C2 & D2). rewrite P1, B1 in *.
  rewrite E2. pose proof (moved_ipc_ok _ _ (moved_ipc_ok _ _ Hok0 M1) M2) as Hok2.
  rewrite (bind_done _ _ _ _ _ (load_update_run s2 (wf_b _ (ok_wf _ Hok2)))).
  set (s3 := set_kloadinfo _ s2). assert (same_tables s2 s3) as HS3 by done.
  pose proof (moved_trans _ _ _ M1 M2) as M.
  pose proof (moved_field k_monotonic s0 s2 ltac:(done) M) as Hm2.
  pose proof (moved_field k_timers s0 s2 ltac:(done) M) as Ht2.
  exists s3. split; [done|]. split_and!.
  - split; cbn.
    + eapply same_ipc_ok; [|exact Hok2]. done.
    + by rewrite Ht2, Ht.
    + by rewrite Ht2, Ht.
    + rewrite (moved_field proc_ptr s0 s2 ltac:(done) M). exact C2.
    + rewrite (moved_field bill_ptr s0 s2 ltac:(done) M). exact D2.
  - change (view s3) with (view s2). rewrite <- (same_view _ _ HS). apply M.
  - cbn. congruence.
  - cbn. congruence.
Qed.

Lemma tick_run s l :
  clock_ok s l ->
  exists ex rest s', l = ex ++ rest /\ timer_int_handler s = Done 1 s' /\ clock_ok s' rest
    /\ k_monotonic s' = u32 (k_monotonic s + 1)
    /\ (forall x, x ∈ ex -> due (k_monotonic s) (k_timers s) x <= 1)
    /\ (forall x, x ∈ rest -> 1 < due (k_monotonic s) (k_timers s) x)
    /\ (forall x, x ∉ ex -> t_tab (k_timers s') !! x = t_tab (k_timers s) !! x)
    /\ (forall n v, live (view s) n v -> exists v', live (view s') n v' /\ v_ep v' = v_ep v)
    /\ (forall x t n v, x ∈ ex -> t_tab (k_timers s) !! x = Some t -> live (view s) n v -> v_ep v = tmr_arg t ->
         told s' (tmr_arg t)).
Proof.
  intros Hck. destruct (tick_front s l Hck) as (s3 & E & [Hok Ha Hq Hcur Hbill] & HR & Hm & Ht). cbn in *.
  change (view (set_k_monotonic (k_monotonic s) s3)) with (view s3) in *.
  pose proof (same_ipc_ok (set_k_monotonic (k_monotonic s) s3) s3 ltac:(done) Hok) as Hok3.
  pose proof (ticks_next (k_monotonic s)) as Hone. rewrite <- Hm in Hone.
  destruct (run_timers_run s3 (k_monotonic s) l) as (ex & rest & s' & -> & Er & [HI1 HI2] & Hf & Hq' & H1 & H2 & H3);
    [done|done|by rewrite Hone|]. assert (alarm_inv s3) as HI3 by done. rewrite Hone, Ht in *.
  pose proof (chain_NoDup _ _ _ (tq_chain _ _ _ Hq)) as Hnd.
  destruct (fires_told ex s3 s' Hf) as (_ & F2 & F3 & F4 & F5); [exact HI3|by apply NoDup_app in Hnd as [? _]|].
  assert (forall A (f : kstate -> A), (forall s, f (rest0 (set_k_timers (mkTq ∅ None) s)) = f s) -> f s' = f s3) as HF.
  { intros A f Hff. rewrite <- (Hff s'), <- (Hff s3). by rewrite F2. }
  assert (forall x, x ∈ rest -> due (k_monotonic s) (k_timers s') x = due (k_monotonic s) (k_timers s) x) as Hd.
  { intros x Hx. unfold due. rewrite H3; [done|]. intros Hx'. apply NoDup_app in Hnd as (_ & Hnd & _). by apply (Hnd x). }
  exists ex, rest, s'. rewrite E, (bind_done _ _ _ _ _ Er). split; [done|]. split; [done|].
  assert (k_monotonic s' = k_monotonic s3) as Hm' by (by apply HF). split_and!.
  - split; [done|done| | |].
    + rewrite Hm'. eapply tq_shift; [exact Hq'|]. intros x Hx. rewrite Hone. specialize (H2 x Hx). lia.
    + rewrite (HF _ proc_ptr) by done. by eapply charged_awake.
    + rewrite (HF _ bill_ptr) by done. by eapply charged_awake.
  - by rewrite Hm'.
  - done.
  - intros x Hx. rewrite <- Hd by done. auto.
  - done.
  - intros n v Hl. destruct (relax_live _ _ _ _ HR Hl) as (v1 & Hl1 & K1).
    destruct (relax_live _ _ _ _ F3 Hl1) as (v2 & Hl2 & K2). exists v2.
    by rewrite (k_ep _ _ K2), (k_ep _ _ K1).
  - intros x t n v Hx Hxt Hl He. destruct (relax_live _ _ _ _ HR Hl) as (v1 & Hl1 & K1).
    apply (F5 x t n v1); [done|by rewrite Ht|done|by rewrite (k_ep _ _ K1)].
Qed.

(** C22: the clock interrupt is safe and complete.  From a well-formed state,
    [timer_int_handler] finishes, advances the clock by one tick and keeps all
    invariants.  It takes off the queue exactly the timers that are due at the
    new time, whatever the wrap-around of the clock, leaves the others as they
    are, and the owner of every alarm taken off is told. *)
Theorem timer_int_handler_correct s l :
  clock_ok s l ->
  exists ex rest s', l = ex ++ rest /\ timer_int_handler s = Done 1 s' /\ clock_ok s' rest
    /\ k_monotonic s' = u32 (k_monotonic s + 1)
    /\ (forall x, x ∈ ex -> due (k_monotonic s) (k_timers s) x <= 1)
    /\ (forall x, x ∈ rest -> 1 < due (k_monotonic s) (k_timers s) x)
    /\ (forall x, x ∉ ex -> t_tab (k_timers s') !! x = t_tab (k_timers s) !! x)
    /\ (forall x t n v, x ∈ ex -> t_tab (k_timers s) !! x = Some t -> live (view s) n v -> v_ep v = tmr_arg t ->
         told s' (tmr_arg t)).
Proof.
  intros Hck. destruct (tick_run s l Hck) as (ex & rest & s' & H1 & H2 & H3 & H4 & H5 & H6 & H7 & _ & H8).
  by exists ex, rest, s'.
Qed.

(** Clock interrupts in a row. *)
Fixpoint ticks (n : nat) : K unit :=
  match n with O => ret tt | S n' => timer_int_handler ;; ticks n' end.

Lemma ticks_pending n s l x t :
  clock_ok s l -> x ∈ l -> t_tab (k_timers s) !! x = Some t -> (exists m v, live (view s) m v /\ v_ep v = tmr_arg t) ->
  Z.of_nat n < Z.max 1 (due (k_monotonic s) (k_timers s) x) ->
  exists s' l', (forall A (k : K A), (ticks n ;; k) s = k s') /\ clock_ok s' l' /\ x ∈ l' /\ t_tab (k_timers s') !! x = Some t
    /\ (exists m v, live (view s') m v /\ v_ep v = tmr_arg t)
    /\ Z.max 1 (due (k_monotonic s') (k_timers s') x) = Z.max 1 (due (k_monotonic s) (k_timers s) x) - Z.of_nat n.
Proof.
  revert s l. induction n as [|n IH]; intros s l Hck Hx Ht (m & v & Hl & He) Hn.
  { exists s, l. split_and!; try done; [by exists m, v|lia]. }
  destruct (tick_run s l Hck) as (ex & rest & s1 & -> & E1 & Hck1 & Hm1 & H5 & H6 & H7 & H8 & _).
  assert (x ∉ ex) as Hxe by (intros Hxe; specialize (H5 x Hxe); lia).
  assert (x ∈ rest) as Hxr by set_solver.
  assert (due (k_monotonic s1) (k_timers s1) x = due (k_monotonic s) (k_timers s) x - 1) as Hd.
  { destruct (tq_tab _ _ _ (ck_queue _ _ Hck) x Hx) as [Hs Hmax]. specialize (H6 x Hxr).
    rewrite Hm1. replace (due _ (k_timers s1) x) with (due (u32 (k_monotonic s + 1)) (k_timers s) x)
      by (unfold due; by rewrite H7). rewrite (due_shift (k_monotonic s)), ticks_next; [done|done|done|].
    rewrite ticks_next. lia. }
  specialize (H6 x Hxr). destruct (H8 m v Hl) as (v1 & Hl1 & Ev1).
  destruct (IH s1 rest Hck1 Hxr) as (s' & l' & Er & Hck' & Hx' & Ht' & Hlv & Hd');
    [by rewrite H7|exists m, v1; split; [done|congruence]|lia|].
  exists s', l'. split_and!; try done; [|lia]. intros A k. cbn [ticks]. rewrite bind_assoc, (bind_done _ _ _ _ _ E1).
  apply Er.
Qed.

Lemma ticks_snoc n s : ticks (S n) s = (ticks n ;; timer_int_handler ;; ret tt) s.
Proof.
  revert s. induction n as [|n IH]; intros s; [done|].
  change (ticks (S (S n)) s) with ((timer_int_handler ;; ticks (S n)) s). cbn [ticks]. rewrite bind_assoc.
  unfold bind at 1. unfold bind at 2. destruct (timer_int_handler s); [|done]. apply IH.
Qed.

(** C23: alarms go off on time.  An alarm due in [d] ticks is still set after
    fewer than [d] clock interrupts (and at least one), and after exactly that
    many it has been taken off the queue and its owner has been told. *)
Theorem alarm_on_time s l x t :
  clock_ok s l -> x ∈ l -> t_tab (k_timers s) !! x = Some t ->
  (exists m v, live (view s) m v /\ v_ep v = tmr_arg t) ->
  let d := Z.max 1 (due (k_monotonic s) (k_timers s) x) in
  (forall n, Z.of_nat n < d -> exists s' l', ticks n s = Done tt s' /\ clock_ok s' l' /\ x ∈ l')
  /\ exists s' l', ticks (Z.to_nat d) s = Done tt s' /\ clock_ok s' l' /\ x ∉ l' /\ told s' (tmr_arg t).
Proof.
  intros Hck Hx Ht Hlv d. split.
  - intros n Hn. destruct (ticks_pending n s l x t Hck Hx Ht Hlv Hn) as (s' & l' & E & ? & ? & _).
    exists s', l'. split; [|done]. specialize (E unit (ret tt)). unfold bind in E.
    by destruct (ticks n s) as [[] ?|].
  - replace (Z.to_nat d) with (S (Z.to_nat (d - 1))) by lia. rewrite ticks_snoc.
    destruct (ticks_pending (Z.to_nat (d - 1)) s l x t Hck Hx Ht Hlv) as (s1 & l1 & E & Hck1 & Hx1 & Ht1 & (m & v & Hl & He) & Hd);
      [subst d; lia|].
    rewrite E. destruct (tick_run s1 l1 Hck1) as (ex & rest & s2 & -> & E2 & Hck2 & _ & H5 & H6 & H7 & _ & H8).
    rewrite (bind_done _ _ _ _ _ E2). exists s2, rest. split; [done|]. split; [done|].
    assert (x ∉ rest) as Hxr by (intros Hxr; specialize (H6 x Hxr); subst d; lia).
    split; [done|]. apply (H8 x t m v); [set_solver|done..].
Qed.

Definition alarms_okb (q : tqueue) : bool :=
  forallb (fun xt => match tmr_func (snd xt) with Some f => f =? CAUSE_ALARM | None => true end)
    (map_to_list (t_tab q)).

Lemma alarms_okb_sound q : alarms_okb q = true -> alarms_ok q.
Proof.
  unfold alarms_okb. rewrite forallb_forall. intros H x t Hx. specialize (H (x, t)). cbn in H.
  destruct (tmr_func t); [right|by left]. f_equal. apply Z.eqb_eq, H, list_elem_of_In. by apply elem_of_map_to_list.
Qed.

(** RS asks for an alarm in three ticks, shortly before the clock wraps
    around; process 11 runs. *)
Definition clock_example : kstate :=
  run_state (do_setalarm RS_PROC_NR 3 0)
    (set_k_monotonic 0xfffffffe (set_bill_ptr 11 (set_system_hz 100 ipc_example))).

Definition clock_okb (s : kstate) (l : list Z) : bool :=
  ipc_okb s && alarms_okb (k_timers s) && tq_okb (k_monotonic s) (k_timers s) l
  && liveb (view s) (proc_ptr s) && (0 <=? proc_ptr s) && liveb (view s) (bill_ptr s) && (0 <=? bill_ptr s).

Lemma clock_okb_sound s l : clock_okb s l = true -> clock_ok s l.
Proof.
  unfold clock_okb. rewrite !andb_true_iff, !Z.leb_le. intros ((((((H1 & H2) & H3) & H4) & H5) & H6) & H7).
  split; [by apply ipc_okb_sound|by apply alarms_okb_sound|by apply tq_okb_sound|..]; right;
    (split; [by apply liveb_spec|done]).
Qed.

Lemma clock_example_ok : clock_ok clock_example [7].
Proof. apply clock_okb_sound. by_vm. Qed.

Lemma timer_int_handler_correct_witness :
  exists ex rest s', [7] = ex ++ rest /\ timer_int_handler clock_example = Done 1 s' /\ clock_ok s' rest.
Proof.
  destruct (timer_int_handler_correct clock_example [7] clock_example_ok)
    as (ex & rest & s' & H1 & H2 & H3 & _). exists ex, rest, s'. exact (conj H1 (conj H2 H3)).
Defined.

Lemma alarm_on_time_witness : exists s' l', ticks 3 clock_example = Done tt s' /\ clock_ok s' l' /\ 7 ∉ l' /\ told s' RS_PROC_NR.
Proof.
  destruct (alarm_on_time clock_example [7] 7 (mkTmr None 1 (Some CAUSE_ALARM) RS_PROC_NR)) as [_ H].
  - exact clock_example_ok.
  - left.
  - by_vm.
  - exists RS_PROC_NR, (ipc_of (slot clock_example RS_PROC_NR)). split; [by_live|by_vm].
  - exact H.
Defined.

(** ** [adjtime] *)

Lemma uptime_odd x : negb (Z.land (u32 x) 1 =? 0) = Z.odd x.
Proof.
  rewrite <- (Z.bit0_odd x), <- (Z.mod_pow2_bits_low x 32 0) by lia. fold (u32 x).
  change 1 with (Z.ones 1). rewrite Z.land_ones, Z.bit0_odd by lia. change (2 ^ 1) with 2. rewrite Zmod_odd.
  by destruct (Z.odd (u32 x)).
Qed.

(** One tick of an odd uptime brings the rest of the adjustment closer to 0;
    the time of day takes what the adjustment loses. *)
Lemma tick_delta s :
  let step := if Z.odd (k_monotonic s + 1) then Z.sgn (adjtime_delta s) else 0 in
  adjtime_delta (tick_time s) = adjtime_delta s - step
  /\ k_realtime (tick_time s) = u32 (k_realtime s + 1 + step).
Proof.
  cbn zeta. unfold tick_time. rewrite uptime_odd.
  destruct (Z.eqb_spec (adjtime_delta s) 0) as [E|Hd]; cbn [negb andb].
  { cbn. rewrite E. destruct (Z.odd _); cbn; (split; [done|f_equal; lia]). }
  destruct (Z.odd (k_monotonic s + 1)); cbn; [|split; [lia|f_equal; lia]].
  destruct (Z.ltb_spec 0 (adjtime_delta s)); cbn; (split; [lia|f_equal; lia]).
Qed.

Lemma iter_tick_time n s :
  k_monotonic (Nat.iter n tick_time s) mod 2 ^ 32 = (k_monotonic s + Z.of_nat n) mod 2 ^ 32.
Proof.
  induction n as [|n IH]; [by rewrite Z.add_0_r|]. rewrite !Nat.iter_succ. rewrite (proj1 (tick_fields _)). unfold u32.
  rewrite Zmod_mod, Zplus_mod, IH, <- Zplus_mod. f_equal. lia.
Qed.

Lemma iter_tick_sum n s :
  (k_realtime (Nat.iter n tick_time s) + adjtime_delta (Nat.iter n tick_time s)) mod 2 ^ 32
  = (k_realtime s + adjtime_delta s + Z.of_nat n) mod 2 ^ 32.
Proof.
  induction n as [|n IH]; [by rewrite Z.add_0_r|]. rewrite !Nat.iter_succ. set (s' := Nat.iter n tick_time s) in *.
  destruct (tick_delta s') as [-> ->]. set (st := if Z.odd _ then _ else _). unfold u32.
  rewrite Zplus_mod_idemp_l. replace (_ + (_ - _)) with (k_realtime s' + adjtime_delta s' + 1) by lia.
  rewrite Zplus_mod, IH, <- Zplus_mod. f_equal. lia.
Qed.

Lemma two_ticks s :
  Z.abs (adjtime_delta (tick_time (tick_time s))) = Z.max 0 (Z.abs (adjtime_delta s) - 1).
Proof.
  destruct (tick_delta (tick_time s)) as [-> _]. destruct (tick_delta s) as [-> _].
  rewrite (proj1 (tick_fields s)).
  assert (Z.odd (u32 (k_monotonic s + 1) + 1) = negb (Z.odd (k_monotonic s + 1))) as ->.
  { rewrite Z.odd_add, <- (uptime_odd (k_monotonic s + 1)), <- (uptime_odd (u32 (k_monotonic s + 1))).
    unfold u32. rewrite Zmod_mod. by destruct (negb _). }
  destruct (Z.odd (k_monotonic s + 1)); cbn [negb]; lia.
Qed.

Lemma iter_tick_delta n s :
  Z.abs (adjtime_delta (Nat.iter (n + n) tick_time s)) = Z.max 0 (Z.abs (adjtime_delta s) - Z.of_nat n).
Proof.
  induction n as [|n IH]; [cbn; lia|]. replace (S n + S n)%nat with (S (S (n + n))) by lia.
  rewrite !Nat.iter_succ. rewrite two_ticks, IH. lia.
Qed.

(** Property: [adjtime] adjusts the time of day completely and without turning it
    back.  After at least twice as many ticks as there were to make up or lose,
    nothing is left of the adjustment and the time of day has advanced by the
    number of ticks plus the adjustment; and every single tick advances it by
    none, one or two. *)
Theorem adjtime_slew s n :
  0 <= k_realtime s < 2 ^ 32 -> 2 * Z.abs (adjtime_delta s) <= Z.of_nat n ->
  adjtime_delta (Nat.iter n tick_time s) = 0
  /\ k_realtime (Nat.iter n tick_time s) = u32 (k_realtime s + Z.of_nat n + adjtime_delta s)
  /\ forall m, let now := k_realtime (Nat.iter m tick_time s) in
       exists d, 0 <= d <= 2 /\ k_realtime (Nat.iter (S m) tick_time s) = u32 (now + d).
Proof.
  intros Hrt Hn.
  assert (adjtime_delta (Nat.iter n tick_time s) = 0) as H0.
  { pose proof (iter_tick_delta (n / 2) s) as Hd. pose proof (Nat.div_mod_eq n 2) as Hdm.
    pose proof (Nat.mod_upper_bound n 2 ltac:(lia)) as Hm.
    destruct (n mod 2)%nat as [|[|]] eqn:E; [| |lia].
    - replace n with (n / 2 + n / 2)%nat by lia. lia.
    - replace n with (S (n / 2 + n / 2)) by lia. rewrite !Nat.iter_succ.
      destruct (tick_delta (Nat.iter (n / 2 + n / 2) tick_time s)) as [-> _]. destruct (Z.odd _); lia. }
  split; [done|]. split.
  - pose proof (iter_tick_sum n s) as Hs. rewrite H0, Z.add_0_r in Hs.
    rewrite <- (Z.mod_small (k_realtime (Nat.iter n tick_time s)) (2 ^ 32)).
    + rewrite Hs. unfold u32. f_equal. lia.
    + destruct n as [|n]; [done|]. rewrite !Nat.iter_succ. destruct (tick_delta (Nat.iter n tick_time s)) as [_ ->].
      apply Z.mod_pos_bound. lia.
  - intros m. cbn zeta. rewrite !Nat.iter_succ. set (s' := Nat.iter m tick_time s).
    destruct (tick_delta s') as [_ ->]. set (st := if Z.odd _ then _ else _). exists (1 + st).
    split; [|f_equal; lia]. subst st. destruct (Z.odd _); lia.
Qed.

Lemma adjtime_slew_witness :
  let s := set_adjtime_delta (-3) (set_k_realtime 1000 clock_example) in
  adjtime_delta (Nat.iter 10 tick_time s) = 0 /\ k_realtime (Nat.iter 10 tick_time s) = 1007.
Proof.
  destruct (adjtime_slew (set_adjtime_delta (-3) (set_k_realtime 1000 clock_example)) 10) as (H1 & H2 & _);
    [cbn; lia|cbn; lia|]. split; [exact H1|exact H2].
Defined.

(** Property: the load history counts the runnable processes.  [load_update] adds to
    the slot of the current time, emptied when it starts, exactly the number
    of processes that are runnable, and changes nothing else. *)
Theorem load_update_counts s :
  base s ->
  load_update s =
    Done tt (set_kloadinfo (load_add (load_slot s) (Z.of_nat (length (runnable_procs s))) (k_monotonic s)
               (kloadinfo s)) s).
Proof. apply load_update_run. Qed.

Lemma load_update_counts_witness :
  exists s', load_update clock_example = Done tt s' /\ s' = set_kloadinfo
    (load_add (load_slot clock_example) (Z.of_nat (length (runnable_procs clock_example)))
       (k_monotonic clock_example) (kloadinfo clock_example)) clock_example.
Proof.
  eexists. split; [|reflexivity]. apply (load_update_counts clock_example). apply baseb_sound. by_vm.
Defined.

(** ** Setting an alarm *)

Lemma clock_ok_timers s l q l' :
  clock_ok s l -> alarms_ok q -> tq_ok (k_monotonic s) q l' -> clock_ok (set_k_timers q s) l'.
Proof. intros [H1 H2 H3 H4 H5] Ha Hq. split; try done. eapply same_ipc_ok; [|exact H1]. done. Qed.

Lemma alarms_data q q' x t :
  alarms_ok q -> data q' = <[x := t]> (data q) -> tmr_func t = None \/ tmr_func t = Some CAUSE_ALARM -> alarms_ok q'.
Proof.
  intros H Hd Ht y u Hu. assert (data q' !! y = Some (unlinked u)) as Hy by (unfold data; by rewrite lookup_fmap, Hu).
  rewrite Hd in Hy. destruct (decide (y = x)) as [->|Hne].
  - rewrite lookup_insert_eq in Hy. injection Hy as ->. exact Ht.
  - rewrite lookup_insert_ne in Hy by done. unfold data in Hy. rewrite lookup_fmap in Hy.
    apply fmap_Some in Hy as (w & Hw & E). destruct (H y w Hw) as [Ef|Ef]; [left|right];
      rewrite <- Ef; by injection E as _ -> _.
Qed.

(** The ticks left of an alarm, as [do_setalarm] reports them. *)
Definition time_left (s : kstate) (l : list Z) (tp : Z) : Z :=
  if bool_decide (tp ∈ l) then due (k_monotonic s) (k_timers s) tp else TMR_NEVER.

Lemma time_left_spec s l tp t :
  tq_ok (k_monotonic s) (k_timers s) l -> t_tab (k_timers s) !! tp = Some t ->
  (if negb (tmr_is_set t) then TMR_NEVER
   else if tmr_is_first (k_monotonic s) (tmr_exp_time t) then u32 (tmr_exp_time t - k_monotonic s) else 0)
  = time_left s l tp.
Proof.
  intros Hq Ht. unfold time_left, tmr_is_set. pose proof (tq_used _ _ _ Hq tp t Ht) as Hu.
  destruct (tmr_func t) as [f|]; cbn [negb].
  - assert (tp ∈ l) as Hin by (apply Hu; by exists f). rewrite bool_decide_eq_true_2 by done.
    destruct (tq_tab _ _ _ Hq tp Hin) as [_ Hd]. unfold due in *. rewrite Ht in *.
    unfold ticks_to in *. unfold tmr_is_first. by rewrite (proj2 (Z.leb_le _ _) Hd).
  - rewrite bool_decide_eq_false_2; [done|]. rewrite Hu. by intros [].
Qed.

Lemma remove1_insert (x : Z) l1 l2 l : remove1 x l = l1 ++ l2 -> remove1 x (l1 ++ x :: l2) = remove1 x l.
Proof.
  intros E. assert (x ∉ l1 ++ l2) as H by (rewrite <- E; by intros [? _]%elem_of_remove1).
  rewrite E. apply remove1_split; set_solver.
Qed.

Lemma do_setalarm_run s l caller c tp pv t exp_time abs_time :
  clock_ok s l -> procs s !! caller = Some c -> p_priv c = Some tp -> privs s !! tp = Some pv ->
  has (s_flags pv) SYS_PROC = true -> t_tab (k_timers s) !! tp = Some t ->
  let at_time := u32 (if abs_time =? 0 then exp_time + k_monotonic s else exp_time) in
  ticks_to (k_monotonic s) at_time <= TMRDIFF_MAX ->
  exists l' q, do_setalarm caller exp_time abs_time s = Done (OK, Some (time_left s l tp, k_monotonic s)) (set_k_timers q s)
    /\ clock_ok (set_k_timers q s) l' /\ remove1 tp l' = remove1 tp l
    /\ if (abs_time =? 0) && (exp_time =? 0)
       then tp ∉ l' /\ data q = <[tp := unlinked (set_tmr_func None t)]> (data (k_timers s))
       else tp ∈ l' /\ data q = <[tp := mkTmr None at_time (Some CAUSE_ALARM) (p_endpoint c)]> (data (k_timers s)).
Proof.
  intros Hck Hc Hid Hpv Hsys Ht at_time Hw. pose proof Hck as [Hok Ha Hq _ _]. unfold do_setalarm.
  erewrite bind_get_proc by done. erewrite bind_priv_of by done. rewrite Hsys, Hid. cbn [negb].
  unfold get_monotonic. rewrite (bind_done _ _ (k_monotonic s) s s) by done.
  assert (get_tmr tp s = Done t s) as Hget by exact (get_tmr_run (S := kstate) s tp t Ht).
  rewrite (bind_done _ _ _ _ _ Hget). rewrite (time_left_spec s l tp t Hq Ht).
  destruct ((abs_time =? 0) && (exp_time =? 0)).
  - destruct (@settimer_stop kstate kernel_timers s (k_monotonic s) l tp t Hq Ht) as (q & t' & E & Hq' & Ht' & Hf & Hd).
    unfold reset_kernel_timer. rewrite bind_assoc, (bind_done _ _ _ _ _ Hget), (bind_done _ _ _ _ _ E).
    exists (remove1 tp l), q. split; [done|]. split_and!.
    + apply (clock_ok_timers _ _ _ _ Hck); [|done]. eapply alarms_data; [exact Ha|exact Hd|by left].
    + apply remove1_notin. by intros [? _]%elem_of_remove1.
    + by intros [? _]%elem_of_remove1.
    + exact Hd.
  - destruct (@tmrs_settimer_run kstate kernel_timers s (k_monotonic s) l tp t at_time CAUSE_ALARM (p_endpoint c) Hq Ht Hw)
      as (q & l1 & l2 & E & Hl & Hq' & Hd & _).
    unfold set_kernel_timer. fold at_time. rewrite bind_assoc, (bind_done _ _ _ _ _ E).
    exists (l1 ++ tp :: l2), q. split; [done|]. split_and!.
    + apply (clock_ok_timers _ _ _ _ Hck); [|done]. eapply alarms_data; [exact Ha|exact Hd|by right].
    + by apply remove1_insert.
    + set_solver.
    + exact Hd.
Qed.

(** Property: [do_setalarm] does what it documents.  A system process gets the ticks
    left of its previous alarm and the current time; a relative time of 0 takes
    its alarm off the queue, any other time within half the range of the clock
    puts it there, due at that time and addressed to the caller; the alarms of
    the other processes stay as they are and in the same order, and the
    invariants of the clock are kept. *)
Theorem do_setalarm_correct s l caller c tp pv t exp_time abs_time :
  clock_ok s l -> procs s !! caller = Some c -> p_priv c = Some tp -> privs s !! tp = Some pv ->
  has (s_flags pv) SYS_PROC = true -> t_tab (k_timers s) !! tp = Some t ->
  let at_time := u32 (if abs_time =? 0 then exp_time + k_monotonic s else exp_time) in
  ticks_to (k_monotonic s) at_time <= TMRDIFF_MAX ->
  exists l' q, do_setalarm caller exp_time abs_time s = Done (OK, Some (time_left s l tp, k_monotonic s)) (set_k_timers q s)
    /\ clock_ok (set_k_timers q s) l' /\ remove1 tp l' = remove1 tp l
    /\ if (abs_time =? 0) && (exp_time =? 0)
       then tp ∉ l' /\ data q = <[tp := unlinked (set_tmr_func None t)]> (data (k_timers s))
       else tp ∈ l' /\ data q = <[tp := mkTmr None at_time (Some CAUSE_ALARM) (p_endpoint c)]> (data (k_timers s)).
Proof. apply do_setalarm_run. Qed.

Lemma do_setalarm_correct_witness :
  exists l' s', do_setalarm RS_PROC_NR 50 0 clock_example = Done (OK, Some (time_left clock_example [7] 7, 0xfffffffe)) s'
    /\ clock_ok s' l'.
Proof.
  destruct (do_setalarm_correct clock_example [7] RS_PROC_NR (slot clock_example RS_PROC_NR) 7 (pslot clock_example 7)
    (mkTmr None 1 (Some CAUSE_ALARM) RS_PROC_NR) 50 0) as (l' & q & E & H & _);
    [exact clock_example_ok|by_slot|by_vm|by_pslot|by_vm|by_vm|by vm_compute|].
  exists l', (set_k_timers q clock_example). split; [exact E|exact H].
Defined.
