(* ===== verification/AlarmLib.v ===== *)
(** * Watchdog timers of a service

    Models [lib/libsys/timers.c]: a service keeps a queue of watchdog timers
    ([Timers]) and one alarm at the kernel ([Clock]) for the first of them.
    The state is the queue of the service together with the kernel; a kernel
    call of the service runs [do_setalarm], [getticks] reads the kernel's
    uptime from the page it shares with all processes.  [set_timer] keeps the
    alarm at the first timer; cancelling the last timer does not stop it. *)

From S2P Require Import Prelude Monad Timers TimerProps Endpoint Chain Kernel Sched RunQueue Init SchedProps Ipc IpcInv Deadlock IpcStep Notify IpcSend IpcRecv IpcPend IpcAsync IpcCall System Clock ClockProps.

(** [timers] and [expiring] of the service in slot [sv_me]. *)
Record service := mkSv {
  sv_timers : tqueue;
  sv_expiring : bool;
  sv_me : Z;
  sv_kernel : kstate
}.
Definition eta_service (r : service) : service :=
  mkSv (sv_timers r) (sv_expiring r) (sv_me r) (sv_kernel r).
Definition set_sv_timers : tqueue -> service -> service := ltac:(setter eta_service sv_timers).
Definition set_sv_expiring : bool -> service -> service := ltac:(setter eta_service sv_expiring).
Definition set_sv_kernel : kstate -> service -> service := ltac:(setter eta_service sv_kernel).

#[export] Program Instance service_timers : TimerStore service :=
  { ts_get := sv_timers; ts_put := set_sv_timers }.
Next Obligation. done. Qed.
Next Obligation. done. Qed.
Next Obligation. by intros []. Qed.

(** What a process in user space needs for kernel calls: its slot, and the
    kernel in its state. *)
Class KernelClient (S : Type) := {
  kc_me : S -> Z;
  kc_kernel : S -> kstate;
  kc_put : kstate -> S -> S
}.
#[export] Instance service_client : KernelClient service :=
  { kc_me := sv_me; kc_kernel := sv_kernel; kc_put := set_sv_kernel }.

(** A kernel call. *)
Definition kcall {S} `{!KernelClient S} {A} (m : Z -> K A) : M S A := fun s =>
  match m (kc_me s) (kc_kernel s) with
  | Done a k => Done a (kc_put k s)
  | Stop w => Stop w
  end.

Definition getticks : M service Z := gets (fun s => k_monotonic (sv_kernel s)).

(** [sys_setalarm], the macro over [sys_setalarm2] without the old values. *)
Definition sys_setalarm {S} `{!KernelClient S} (exp_time : Z) (abs_time : bool) : M S Z :=
  r <- kcall (fun me => do_setalarm me exp_time (if abs_time then 1 else 0)) ;; ret (fst r).

Definition init_timer (tp : Z) : M service unit :=
  upd_tmr tp (fun t => set_tmr_next None (set_tmr_func None t)).

Definition set_timer (tp ticks watchdog arg : Z) : M service unit :=
  if TMRDIFF_MAX <? ticks then halt Panic
  else
    now <- getticks ;;
    x <- tmrs_settimer tp (u32 (now + ticks)) watchdog arg ;;
    let '(had_timers, prev_time, next_time) := x in
    expiring <- gets sv_expiring ;;
    if negb expiring && (negb had_timers || negb (bool_decide (next_time = prev_time))) then
      match next_time with
      | None => halt BadAccess
      | Some t => r <- sys_setalarm t true ;; assert (r =? OK)
      end
    else ret tt.

Definition cancel_timer (tp : Z) : M service unit :=
  t <- get_tmr tp ;;
  if negb (tmr_is_set t) then ret tt
  else
    x <- tmrs_clrtimer tp ;;
    let '(have_timers, prev_time, next_time) := x in
    expiring <- gets sv_expiring ;;
    if negb expiring then
      r <- (if negb have_timers then sys_setalarm 0 false
            else if negb (bool_decide (prev_time = Some next_time)) then sys_setalarm next_time true
            else ret OK) ;;
      assert (r =? OK)
    else ret tt.

(** [call f arg] runs a watchdog function of the service. *)
Definition expire_timers (fuel : nat) (call : Z -> Z -> M service unit) (now : Z) : M service unit :=
  modify (set_sv_expiring true) ;;
  next_time <- tmrs_exptimers fuel call now ;;
  modify (set_sv_expiring false) ;;
  match next_time with
  | None => ret tt
  | Some t => r <- sys_setalarm t true ;; assert (r =? OK)
  end.

(** ** The alarm follows the first timer *)

(** The time of the service's alarm at the kernel, if it is set. *)
Definition alarm_of (k : kstate) (me : Z) : option Z :=
  match (procs k !! me ≫= p_priv) ≫= (fun tp => t_tab (k_timers k) !! tp) with
  | Some t => if tmr_is_set t then Some (tmr_exp_time t) else None
  | None => None
  end.

(** The service may set alarms: a system process with an alarm timer. *)
Definition may_alarm (k : kstate) (me : Z) : Prop :=
  exists c tp pv, procs k !! me = Some c /\ p_priv c = Some tp /\ privs k !! tp = Some pv
    /\ has (s_flags pv) SYS_PROC = true /\ is_Some (t_tab (k_timers k) !! tp).

Definition now_of (s : service) : Z := k_monotonic (sv_kernel s).

(** No watchdog function runs, both queues are well formed, and the alarm at
    the kernel is the time of the first timer. *)
Record armed (s : service) (l : list Z) : Prop := {
  ar_queue : tq_ok (now_of s) (sv_timers s) l;
  ar_idle : sv_expiring s = false;
  ar_kernel : exists kl, clock_ok (sv_kernel s) kl;
  ar_may : may_alarm (sv_kernel s) (sv_me s);
  ar_alarm : alarm_of (sv_kernel s) (sv_me s) = u32 <$> first_due (sv_timers s) l
}.

Lemma ticks_u32 b x : ticks_to b (u32 x) = ticks_to b x.
Proof. unfold ticks_to, u32. by rewrite Zminus_mod_idemp_l. Qed.

Lemma first_due_in b q l e :
  tq_ok b q l -> first_due q l = Some e -> ticks_to b e <= TMRDIFF_MAX.
Proof.
  intros Hq He. unfold first_due in He. destruct l as [|x l]; [done|]. cbn in He.
  destruct (tq_tab _ _ _ Hq x) as [[t Ht] Hd]; [set_solver|]. rewrite Ht in He. cbn in He. injection He as <-.
  unfold due in Hd. by rewrite Ht in Hd.
Qed.

Lemma data_timer q q' x u : data q' = <[x := u]> (data q) ->
  exists t, t_tab q' !! x = Some t /\ tmr_exp_time t = tmr_exp_time u /\ tmr_func t = tmr_func u.
Proof.
  intros Hd. assert (data q' !! x = Some u) as H by (rewrite Hd; apply lookup_insert_eq). unfold data in H.
  rewrite lookup_fmap in H. apply fmap_Some in H as (t & Ht & ->). by exists t.
Qed.

(** Setting the kernel's alarm. *)
Lemma sys_setalarm_run s kl e :
  clock_ok (sv_kernel s) kl -> may_alarm (sv_kernel s) (sv_me s) -> ticks_to (now_of s) e <= TMRDIFF_MAX ->
  exists k', sys_setalarm e true s = Done OK (set_sv_kernel k' s)
    /\ (exists kl', clock_ok k' kl') /\ may_alarm k' (sv_me s) /\ k_monotonic k' = now_of s
    /\ alarm_of k' (sv_me s) = Some (u32 e).
Proof.
  intros Hck (c & tp & pv & Hc & Htp & Hpv & Hsys & [t Ht]) Hw.
  destruct (do_setalarm_run (sv_kernel s) kl (sv_me s) c tp pv t e 1 Hck Hc Htp Hpv Hsys Ht)
    as (kl' & q & E & Hck' & _ & _ & Hd); [by rewrite ticks_u32|].
  destruct (data_timer _ _ _ _ Hd) as (t' & Ht' & He' & Hf').
  exists (set_k_timers q (sv_kernel s)). unfold sys_setalarm, kcall. cbn [kc_me kc_kernel kc_put service_client].
  rewrite (bind_done _ _ (OK, Some (time_left (sv_kernel s) kl tp, k_monotonic (sv_kernel s)))
    s (set_sv_kernel (set_k_timers q (sv_kernel s)) s)) by (by rewrite E).
  split_and!; [done|by exists kl'| |done|].
  - by exists c, tp, pv.
  - unfold alarm_of. cbn. rewrite Hc. cbn. rewrite Htp. cbn. rewrite Ht'. unfold tmr_is_set. rewrite Hf', He'. done.
Qed.

(** The rest of [set_timer] and [expire_timers]: a service whose queue is well
    formed sets the alarm to the first timer. *)
Lemma arm_first s kl l e :
  tq_ok (now_of s) (sv_timers s) l -> sv_expiring s = false -> clock_ok (sv_kernel s) kl ->
  may_alarm (sv_kernel s) (sv_me s) -> first_due (sv_timers s) l = Some e ->
  exists k', (r <- sys_setalarm e true ;; assert (r =? OK)) s = Done tt (set_sv_kernel k' s)
    /\ armed (set_sv_kernel k' s) l.
Proof.
  intros Hq Hx Hck Hmay He.
  destruct (sys_setalarm_run s kl e Hck Hmay (first_due_in _ _ _ _ Hq He)) as (k' & E & Hck' & Hmay' & Hm & Ha).
  exists k'. rewrite (bind_done _ _ _ _ _ E). split; [done|]. split; try done.
  - unfold now_of. cbn. by rewrite Hm.
  - cbn. by rewrite Ha, He.
Qed.

(** C25: a service's alarm follows its timers.  With the alarm at the time of
    the first timer, [set_timer] of up to [TMRDIFF_MAX] ticks succeeds, puts the
    timer in the queue at that time without touching the others, and leaves the
    alarm at the time of the then first timer. *)
Theorem set_timer_arms s l tp t n f a :
  armed s l -> t_tab (sv_timers s) !! tp = Some t -> 0 <= n <= TMRDIFF_MAX ->
  exists s' l', set_timer tp n f a s = Done tt s' /\ armed s' l' /\ tp ∈ l' /\ remove1 tp l' = remove1 tp l
    /\ data (sv_timers s') = <[tp := mkTmr None (u32 (now_of s + n)) (Some f) a]> (data (sv_timers s)).
Proof.
  intros [Hq Hx [kl Hck] Hmay Ha] Ht Hn. unfold set_timer.
  rewrite (proj2 (Z.ltb_ge TMRDIFF_MAX n)) by lia. unfold getticks.
  rewrite (bind_done (gets _) _ (now_of s) s s eq_refl).
  destruct (@tmrs_settimer_run service service_timers s (now_of s) l tp t (u32 (now_of s + n)) f a Hq Ht)
    as (q & l1 & l2 & E & Hl & Hq' & Hd & _).
  { rewrite ticks_u32. unfold ticks_to, u32, TMRDIFF_MAX, INT_MAX in *.
    replace (now_of s + n - now_of s) with n by lia. rewrite Z.mod_small by lia. lia. }
  rewrite (bind_done _ _ _ _ _ E). cbn iota beta zeta.
  rewrite (bind_done (gets sv_expiring) _ false (set_sv_timers q s) (set_sv_timers q s)) by (unfold gets; cbn; by rewrite Hx).
  change (ts_put q s) with (set_sv_timers q s). change (ts_get s) with (sv_timers s) in *. cbn [negb andb].
  set (l' := l1 ++ tp :: l2) in *. pose proof (first_due_some q l' (tq_in_tab _ _ _ Hq')) as Hs.
  rewrite bool_decide_eq_true_2 in Hs by (intros El; subst l'; by destruct l1).
  destruct (first_due q l') as [e|] eqn:He; [|done]. assert (tp ∈ l') as Hin by (subst l'; set_solver).
  destruct (negb _ || negb _) eqn:Hb.
  - destruct (arm_first (set_sv_timers q s) kl l' e) as (k' & Er & Hr); try done.
    exists (set_sv_kernel k' (set_sv_timers q s)), l'. split_and!; try done. by apply remove1_insert.
  - apply orb_false_iff in Hb as [_ Hb%negb_false_iff%bool_decide_eq_true].
    exists (set_sv_timers q s), l'. split_and!; try done; [|by apply remove1_insert].
    split; try done; [by exists kl|].
    change (alarm_of (sv_kernel s) (sv_me s) = u32 <$> first_due q l'). by rewrite Ha, He, Hb.
Qed.

(** Property: cancelling a timer moves the alarm on.  [cancel_timer] of a timer that
    is not the last one takes it out of the queue, leaves the others alone and
    the alarm at the time of the then first timer. *)
Theorem cancel_timer_rearms s l tp t :
  armed s l -> tp ∈ l -> t_tab (sv_timers s) !! tp = Some t -> remove1 tp l <> [] ->
  exists s', cancel_timer tp s = Done tt s' /\ armed s' (remove1 tp l)
    /\ data (sv_timers s') = <[tp := unlinked (set_tmr_func None t)]> (data (sv_timers s)).
Proof.
  intros [Hq Hx [kl Hck] Hmay Ha] Hin Ht Hne. unfold cancel_timer.
  assert (get_tmr tp s = Done t s) as Hget by exact (@get_tmr_run service service_timers s tp t Ht).
  rewrite (bind_done _ _ _ _ _ Hget).
  destruct (proj1 (tq_used _ _ _ Hq tp t Ht) Hin) as [f Hf]. unfold tmr_is_set. rewrite Hf. cbn [negb].
  destruct (@tmrs_clrtimer_run service service_timers s (now_of s) l tp t Hq Ht) as (q & E & Hq' & Hd).
  rewrite (bind_done _ _ _ _ _ E). cbn iota beta zeta.
  rewrite (bind_done (gets sv_expiring) _ false (set_sv_timers q s) (set_sv_timers q s)) by (unfold gets; cbn; by rewrite Hx).
  change (ts_put q s) with (set_sv_timers q s). change (ts_get s) with (sv_timers s) in *.
  rewrite bool_decide_eq_true_2 by (by intros ->). cbn [negb].
  pose proof (first_due_some q (remove1 tp l) (tq_in_tab _ _ _ Hq')) as Hs. rewrite bool_decide_eq_true_2 in Hs by done.
  destruct (first_due q (remove1 tp l)) as [e|] eqn:He; [|done]. cbn [default].
  destruct (negb _) eqn:Hb.
  - destruct (arm_first (set_sv_timers q s) kl (remove1 tp l) e) as (k' & Er & Hr); try done.
    exists (set_sv_kernel k' (set_sv_timers q s)). by split_and!.
  - apply negb_false_iff, bool_decide_eq_true in Hb. exists (set_sv_timers q s). split_and!; try done.
    split; try done; [by exists kl|].
    change (alarm_of (sv_kernel s) (sv_me s) = u32 <$> first_due q (remove1 tp l)). by rewrite Ha, He, Hb.
Qed.

(** RS with three watchdog timers, none set, on the kernel of [clock_example]
    at time 1000. *)
Definition service_example : service :=
  mkSv (mkTq (list_to_map [(1, mkTmr None 0 None 0); (2, mkTmr None 0 None 0); (3, mkTmr None 0 None 0)]) None)
    false RS_PROC_NR
    (run_state (do_setalarm RS_PROC_NR 0 0) (set_k_monotonic 1000 clock_example)).

Definition run_service {A} (m : M service A) (s : service) : service :=
  match m s with Done _ s' => s' | Stop _ => s end.

(** Timers 1 and 2 are set, due in 50 and 70 ticks. *)
Definition two_timers : service := run_service (set_timer 1 50 1 0 ;; set_timer 2 70 1 0) service_example.

Lemma two_timers_armed : armed two_timers [1; 2].
Proof.
  split.
  - apply tq_okb_sound. by_vm.
  - by_vm.
  - exists [7]. apply clock_okb_sound. by_vm.
  - exists (slot (sv_kernel two_timers) RS_PROC_NR), 7, (pslot (sv_kernel two_timers) 7).
    split; [by_slot|]. split; [by_vm|]. split; [by_pslot|]. split; [by_vm|].
    exists (mkTmr None 1050 (Some CAUSE_ALARM) RS_PROC_NR). by_vm.
  - by_vm.
Qed.

Lemma set_timer_arms_witness :
  exists s' l', set_timer 3 20 1 9 two_timers = Done tt s' /\ armed s' l' /\ 3 ∈ l'.
Proof.
  destruct (set_timer_arms two_timers [1; 2] 3 (mkTmr None 0 None 0) 20 1 9) as (s' & l' & H1 & H2 & H3 & _);
    [exact two_timers_armed|by_vm|by vm_compute|]. exists s', l'. exact (conj H1 (conj H2 H3)).
Defined.

Lemma cancel_timer_rearms_witness : exists s', cancel_timer 1 two_timers = Done tt s' /\ armed s' [2].
Proof.
  destruct (cancel_timer_rearms two_timers [1; 2] 1 (mkTmr (Some 2) 1050 (Some 1) 0)) as (s' & H1 & H2 & _);
    [exact two_timers_armed|left|by_vm|by vm_compute|]. exists s'. exact (conj H1 H2).
Defined.

(** Both timers are cancelled again, then the clock ticks once. *)
Definition none_left : service := run_service (cancel_timer 1 ;; cancel_timer 2) two_timers.

(** Property: cancelling the last timer leaves an alarm behind.  After a service has
    cancelled all its timers, the kernel still holds an alarm for it, at time
    0, because [tmrs_clrtimer] reports that there was a timer before and not,
    as documented, whether there is one left; the alarm goes off at the next
    tick. *)
Theorem cancel_last_leaves_alarm :
  (cancel_timer 1 ;; cancel_timer 2) two_timers = Done tt none_left
  /\ t_head (sv_timers none_left) = None
  /\ alarm_of (sv_kernel none_left) RS_PROC_NR = Some 0
  /\ get_sys_bit (s_notify_pending (pslot (sv_kernel none_left) 7)) (CLOCK + NR_TASKS) = false
  /\ get_sys_bit (s_notify_pending (pslot (run_state timer_int_handler (sv_kernel none_left)) 7)) (CLOCK + NR_TASKS) = true.
Proof.
  split.
  - assert (match (cancel_timer 1 ;; cancel_timer 2) two_timers with Done _ _ => true | Stop _ => false end = true)
      as H by by_vm. unfold none_left, run_service. revert H.
    by destruct ((cancel_timer 1 ;; cancel_timer 2) two_timers) as [[] ?|].
  - split; [by_vm|]. split; [by_vm|]. split; by_vm.
Qed.
