(* ===== verification/GrantLibProps.v ===== *)
(** * Grants from the library to the kernel

    The grant library keeps its table well formed: every entry of the table is
    readable, the free list holds exactly the unused entries, and the kernel
    knows the table.  A grant made by [cpf_grant_direct] lets the grantee
    access the granted range, as [verify_grant] decides; after [cpf_revoke]
    the id is refused. *)

From S2P Require Import Prelude Monad Timers TimerProps Endpoint Chain Kernel Sched RunQueue Init SchedProps Ipc IpcInv Deadlock IpcStep Notify IpcSend IpcRecv IpcPend IpcAsync IpcCall System Clock Vm Grants ClockProps GrantProps GrantLib.

(** ** Grant ids *)

Lemma grant_id_val idx seq :
  0 <= idx < GRANT_MAX_IDX -> 0 <= seq < GRANT_MAX_SEQ -> GRANT_ID idx seq = seq * 2 ^ 20 + idx.
Proof.
  change GRANT_MAX_IDX with (2 ^ 20). change GRANT_MAX_SEQ with (2 ^ 11). unfold GRANT_ID, GRANT_SHIFT. intros Hi Hs.
  assert (Z.lor (Z.shiftl seq 20) idx = seq * 2 ^ 20 + idx) as ->.
  { rewrite <- Z.add_lor_land, Z.shiftl_mul_pow2 by lia.
    replace (Z.land (seq * 2 ^ 20) idx) with 0; [lia|]. symmetry. apply Z.bits_inj'. intros n Hn.
    rewrite Z.land_spec, Z.bits_0. destruct (Z.lt_ge_cases n 20).
    - by rewrite Z.mul_pow2_bits_low.
    - rewrite <- (Z.mod_small idx (2 ^ 20)), Z.mod_pow2_bits_high by lia. apply andb_false_r. }
  unfold i32. rewrite Z.mod_small by lia. lia.
Qed.

Lemma grant_id_split idx seq :
  0 <= idx < GRANT_MAX_IDX -> 0 <= seq < GRANT_MAX_SEQ ->
  0 <= GRANT_ID idx seq < 2 ^ 31 /\ GRANT_IDX (GRANT_ID idx seq) = idx /\ GRANT_SEQ (GRANT_ID idx seq) = seq.
Proof.
  intros Hi Hs. rewrite grant_id_val by done. unfold GRANT_IDX, GRANT_SEQ, GRANT_SHIFT.
  change GRANT_MAX_IDX with (2 ^ 20) in *. change GRANT_MAX_SEQ with (2 ^ 11) in *. split; [lia|].
  change (2 ^ 20 - 1) with (Z.ones 20). change (2 ^ 11 - 1) with (Z.ones 11).
  rewrite !Z.land_ones, Z.shiftr_div_pow2 by lia. split.
  - rewrite Z.add_comm, Z_mod_plus_full. apply Z.mod_small. lia.
  - rewrite Z.div_add_l, (Z.div_small idx), Z.add_0_r by lia. apply Z.mod_small. lia.
Qed.

(** ** The memory of the process *)

Definition ep_of (s : gclient) : Z :=
  match procs (gc_kernel s) !! gc_me s with Some p => p_endpoint p | None => NONE end.
(** The state with other contents of the memory. *)
Definition with_mem (s : gclient) (T : gmap (Z * Z) cp_grant) : gclient :=
  set_gc_kernel (set_gtab T (gc_kernel s)) s.
Definition mem (s : gclient) : gmap (Z * Z) cp_grant := gtab (gc_kernel s).
Definition has_me (s : gclient) : Prop := is_Some (procs (gc_kernel s) !! gc_me s).

Lemma with_mem_id s : with_mem s (mem s) = s.
Proof. by destruct s as [? ? ? ? ? ? []]. Qed.

Section Memory.
Context (s : gclient) (Hme : has_me s).

Lemma my_endpoint_run T : my_endpoint (with_mem s T) = Done (ep_of s) (with_mem s T).
Proof. destruct Hme as [p Hp]. unfold my_endpoint, ep_of. cbn. by rewrite Hp. Qed.

Lemma get_entry_run T base i g :
  T !! (ep_of s, entry_addr base i) = Some g -> get_entry base i (with_mem s T) = Done g (with_mem s T).
Proof. intros H. unfold get_entry. rewrite (bind_done _ _ _ _ _ (my_endpoint_run T)). cbn. by rewrite H. Qed.

Lemma put_entry_run T base i g :
  put_entry base i g (with_mem s T) = Done tt (with_mem s (<[(ep_of s, entry_addr base i) := g]> T)).
Proof. unfold put_entry. by rewrite (bind_done _ _ _ _ _ (my_endpoint_run T)). Qed.

Lemma upd_entry_run T base i g f :
  T !! (ep_of s, entry_addr base i) = Some g ->
  upd_entry base i f (with_mem s T) = Done tt (with_mem s (<[(ep_of s, entry_addr base i) := f g]> T)).
Proof. intros H. unfold upd_entry. rewrite (bind_done _ _ _ _ _ (get_entry_run T base i g H)). apply put_entry_run. Qed.

(** A loop that writes the entries of a range, each from what the memory held
    before the loop. *)
Lemma mem_loop body base (F : Z -> cp_grant) T0 L :
  (forall i j, i ∈ L -> j ∈ L -> entry_addr base i = entry_addr base j -> i = j) -> NoDup L ->
  (forall i T, i ∈ L ->
     (forall key, (forall j, j ∈ L -> key <> (ep_of s, entry_addr base j)) -> T !! key = T0 !! key) ->
     T !! (ep_of s, entry_addr base i) = T0 !! (ep_of s, entry_addr base i) ->
     body i (with_mem s T) = Done tt (with_mem s (<[(ep_of s, entry_addr base i) := F i]> T))) ->
  exists T', for_each L body (with_mem s T0) = Done tt (with_mem s T')
    /\ (forall i, i ∈ L -> T' !! (ep_of s, entry_addr base i) = Some (F i))
    /\ (forall key, (forall j, j ∈ L -> key <> (ep_of s, entry_addr base j)) -> T' !! key = T0 !! key).
Proof.
  intros Hinj Hnd Hbody.
  assert (forall done_ todo T, L = done_ ++ todo ->
    (forall key, (forall j, j ∈ L -> key <> (ep_of s, entry_addr base j)) -> T !! key = T0 !! key) ->
    (forall i, i ∈ todo -> T !! (ep_of s, entry_addr base i) = T0 !! (ep_of s, entry_addr base i)) ->
    (forall i, i ∈ done_ -> T !! (ep_of s, entry_addr base i) = Some (F i)) ->
    exists T', for_each todo body (with_mem s T) = Done tt (with_mem s T')
      /\ (forall i, i ∈ L -> T' !! (ep_of s, entry_addr base i) = Some (F i))
      /\ (forall key, (forall j, j ∈ L -> key <> (ep_of s, entry_addr base j)) -> T' !! key = T0 !! key)) as H.
  2:{ apply (H [] L T0); [done|done|done|set_solver]. }
  intros done_ todo. revert done_. induction todo as [|i todo IH]; intros done_ T HL Ho Ht Hd.
  { exists T. rewrite app_nil_r in HL. subst. by split_and!. }
  cbn [for_each]. assert (i ∈ L) as Hi by (rewrite HL; set_solver).
  rewrite (bind_done _ _ _ _ _ (Hbody i T Hi Ho (Ht i ltac:(set_solver)))).
  rewrite HL in Hnd. apply NoDup_app in Hnd as (_ & Hdis & [Hit _]%NoDup_cons).
  apply (IH (done_ ++ [i])); [by rewrite <- app_assoc|..].
  - intros key Hkey. rewrite lookup_insert_ne; [by apply Ho|]. intros E. by apply (Hkey i Hi).
  - intros j Hj. rewrite lookup_insert_ne; [apply Ht; set_solver|]. intros [= E].
    apply Hinj in E; [by rewrite <- E in Hj|done|rewrite HL; set_solver].
  - intros j Hj. apply elem_of_app in Hj as [Hj| ->%list_elem_of_singleton]; [|apply lookup_insert_eq].
    rewrite lookup_insert_ne; [by apply Hd|]. intros [= E].
    apply Hinj in E; [rewrite <- E in Hj; apply (Hdis i Hj); set_solver|done|rewrite HL; set_solver].
Qed.
End Memory.

(** What holds of all entries before the loop and of all that it writes holds
    afterwards. *)
Lemma loop_all (P : cp_grant -> Prop) (e base : Z) (F : Z -> cp_grant) (T0 T1 : gmap (Z * Z) cp_grant) (L : list Z) :
  (forall i, i ∈ L -> T1 !! (e, entry_addr base i) = Some (F i)) ->
  (forall key, (forall j, j ∈ L -> key <> (e, entry_addr base j)) -> T1 !! key = T0 !! key) ->
  (forall k g, T0 !! k = Some g -> P g) -> (forall i, i ∈ L -> P (F i)) ->
  forall k g, T1 !! k = Some g -> P g.
Proof.
  intros H1 H2 H0 HF k g Hk.
  destruct (decide (Exists (fun j => k = (e, entry_addr base j)) L)) as [(j & Hj & ->)%Exists_exists|Hno].
  - rewrite (H1 j Hj) in Hk. injection Hk as <-. by apply HF.
  - rewrite H2 in Hk; [by eapply H0|]. intros j Hj ->. apply Hno, Exists_exists. by exists j.
Qed.

(** ** Well-formed tables *)

(** Entry [i] of the table. *)
Definition ent (s : gclient) (i : Z) : option cp_grant := mem s !! (ep_of s, entry_addr (gc_grants s) i).

(** The free list ends with -1. *)
Definition link (x : Z) : option Z := if x =? -1 then None else Some x.
Definition next_free (s : gclient) (i : Z) : option Z :=
  match ent s i with Some g => link (cp_w0 g) | None => None end.

Record lib_ok (s : gclient) (l : list Z) : Prop := {
  lo_ready : ready (gc_kernel s);
  lo_typed : grants_typed (gc_kernel s);
  lo_me : exists p id pv, procs (gc_kernel s) !! gc_me s = Some p /\ live (view (gc_kernel s)) (gc_me s) (ipc_of p)
    /\ p_priv p = Some id /\ privs (gc_kernel s) !! id = Some pv /\ has (p_rts_flags p) RTS_NO_PRIV = false
    /\ (0 < gc_ngrants s -> s_grant_table pv = gc_grants s /\ s_grant_entries pv = gc_ngrants s
        /\ s_grant_endpoint pv = p_endpoint p);
  lo_size : 0 <= gc_ngrants s <= GRANT_MAX_IDX;
  lo_mem : 0 < gc_ngrants s -> 0 < gc_grants s /\ gc_grants s + SIZEOF_GRANT * gc_ngrants s < 2 ^ 64;
  lo_ent : forall i, 0 <= i < gc_ngrants s -> exists g, ent s i = Some g /\ 0 <= cp_seq g < GRANT_MAX_SEQ;
  lo_free : chain (next_free s) (link (gc_freelist s)) l;
  lo_range : forall i, i ∈ l -> 0 <= i < gc_ngrants s;
  lo_used : forall i g, 0 <= i < gc_ngrants s -> ent s i = Some g -> i ∈ l <-> has (cp_flags g) CPF_USED = false
}.

Lemma entry_addr_small base i n :
  0 < base -> 0 <= i < n -> base + SIZEOF_GRANT * n < 2 ^ 64 -> entry_addr base i = base + SIZEOF_GRANT * i.
Proof. unfold entry_addr, u64, SIZEOF_GRANT. intros. apply Z.mod_small. lia. Qed.

Section Table.
Context (s : gclient) (l : list Z) (Hok : lib_ok s l).

Lemma lib_has_me : has_me s.
Proof. destruct (lo_me _ _ Hok) as (p & _ & _ & Hp & _). by exists p. Qed.

(** What the kernel sees of an entry. *)
Lemma kernel_table i g :
  0 <= i < gc_ngrants s -> ent s i = Some g ->
  exists p id pv, procs (gc_kernel s) !! gc_me s = Some p /\ p_priv p = Some id /\ privs (gc_kernel s) !! id = Some pv
    /\ isokendpt (ep_of s) (gc_kernel s) = Done (Some (gc_me s)) (gc_kernel s)
    /\ s_grant_endpoint pv = p_endpoint p /\ HASGRANTTABLE pv = true /\ s_grant_entries pv = gc_ngrants s
    /\ forall id, GRANT_IDX id = i -> gtab (gc_kernel s) !! (ep_of s, grant_addr pv id) = Some g.
Proof.
  intros Hi Hg. destruct (lo_me _ _ Hok) as (p & id & pv & Hp & Hl & Hid & Hpv & _ & Ht).
  destruct Ht as (Ht1 & Ht2 & Ht3); [lia|]. destruct (lo_mem _ _ Hok) as [Hb _]; [lia|].
  exists p, id, pv. split_and!; try done.
  - unfold ep_of. rewrite Hp. apply (live_isokendpt _ (r_core _ (lo_ready _ _ Hok)) _ _ Hl).
  - unfold HASGRANTTABLE. rewrite Ht1. apply negb_true_iff, Z.eqb_neq. lia.
  - intros x Hx. unfold grant_addr. rewrite Ht1, Hx. exact Hg.
Qed.

Lemma entry_of i g access grantee :
  0 <= i < gc_ngrants s -> ent s i = Some g -> has (cp_flags g) CPF_USED = true -> has (cp_flags g) CPF_VALID = true ->
  exists pv, table_entry (gc_kernel s) (ep_of s) grantee (GRANT_ID i (cp_seq g)) access pv g.
Proof.
  intros Hi Hg Hu Hv. destruct (kernel_table i g Hi Hg) as (p & id & pv & Hp & Hid & Hpv & Hok' & He & Ht & Hn & Hgt).
  destruct (lo_ent _ _ Hok i Hi) as (g' & Hg' & Hs). rewrite Hg in Hg'. injection Hg' as <-.
  pose proof (lo_size _ _ Hok) as Hsz. destruct (grant_id_split i (cp_seq g)) as (Hid1 & Hid2 & Hid3); [lia|done|].
  exists pv. split.
  - exists (gc_me s), p, id. split_and!; try done. by left.
  - unfold HASGRANTTABLE in Ht. by apply negb_true_iff, Z.eqb_neq in Ht.
  - lia.
  - rewrite Hid2, Hn. lia.
  - by apply Hgt.
  - done.
  - by rewrite Hid3.
Qed.

(** A direct grant of the table: who may access what. *)
Lemma direct_exact i g grantee bytes access offset :
  0 <= i < gc_ngrants s -> ent s i = Some g ->
  has (cp_flags g) CPF_USED = true -> has (cp_flags g) CPF_VALID = true ->
  has (cp_flags g) CPF_INDIRECT = false -> has (cp_flags g) CPF_DIRECT = true ->
  0 <= offset < 2 ^ 64 -> 0 <= bytes < 2 ^ 64 ->
  exists r sf, verify_grant (ep_of s) grantee (GRANT_ID i (cp_seq g)) bytes access offset (gc_kernel s)
      = Done r (gc_kernel s)
    /\ forall v, r = (OK, Some v) <-> Z.land (cp_flags g) access = access
        /\ grant_fits (direct_start g) (direct_len g) /\ for_grantee (direct_who_to g) grantee
        /\ offset + bytes <= direct_len g /\ v = mkVf (u64 (direct_start g + offset)) (ep_of s) sf.
Proof.
  intros Hi Hg Hu Hv Hni Hd Ho Hb. destruct (entry_of i g access grantee Hi Hg Hu Hv) as (pv & Hte).
  destruct (verify_loop_decides (gc_kernel s) (lo_ready _ _ Hok) (lo_typed _ _ Hok) bytes access offset
    Ho Hb MAX_INDIRECT_DEPTH (ep_of s) grantee (GRANT_ID i (cp_seq g))) as (r & E & Hr & Hdec).
  exists r, (sf_of (ep_of s) (GRANT_ID i (cp_seq g)) pv g). split; [done|]. intros v. split.
  - intros ->. destruct Hr as [_ Ha]. apply (auth_inv _ _ _ _ _ _ _ _ pv g Hte Hni) in Ha; [by rewrite Hd in Ha|].
    destruct (te_proc _ _ _ _ _ _ _ Hte) as (n & p & id & Hn & Hp & Hid & Hpv & _).
    intros pv' g' Hte'. destruct (entry_same _ _ _ _ _ n id p pv Hn Hp Hid Hpv _ _ Hte') as [-> _]. split; [done|].
    pose proof (te_entry _ _ _ _ _ _ _ Hte') as H1. rewrite (te_entry _ _ _ _ _ _ _ Hte) in H1. by injection H1.
  - intros (Ha & Hf & Hw & Hl & ->). apply Hdec. by apply auth_direct.
Qed.

(** An id whose entry is unused, or of another sequence number, is refused. *)
Lemma stale_refused id g grantee bytes access offset :
  0 <= id -> GRANT_IDX id < gc_ngrants s -> ent s (GRANT_IDX id) = Some g ->
  has (cp_flags g) CPF_USED = false \/ cp_seq g <> GRANT_SEQ id ->
  verify_grant (ep_of s) grantee id bytes access offset (gc_kernel s) = Done (EPERM, None) (gc_kernel s).
Proof.
  intros H0 Hlt Hg Hbad.
  assert (0 <= GRANT_IDX id) as Hi0 by (unfold GRANT_IDX; apply Z.land_nonneg; lia).
  destruct (kernel_table (GRANT_IDX id) g) as (p & pid & pv & Hp & Hid & Hpv & Hok' & He & Ht & Hn & Hgt); [lia|done|].
  unfold verify_grant. destruct MAX_INDIRECT_DEPTH; cbn [verify_loop]; unfold verify_step;
  rewrite (bind_done _ _ _ _ _ Hok');
  (assert (GRANT_VALID id = true) as -> by (unfold GRANT_VALID, GRANT_INVALID; apply Z.ltb_lt; lia)); cbn [negb];
  erewrite bind_get_proc by done; erewrite bind_priv_of by done; cbn zeta;
  rewrite He, Z.eqb_refl, Ht; cbn [negb andb]; rewrite (proj2 (Z.leb_gt _ _)) by lia;
  unfold read_grant; rewrite (bind_done _ _ (Some g) (gc_kernel s) (gc_kernel s)) by (unfold gets; by rewrite (Hgt id eq_refl));
  cbn beta iota; rewrite used_valid; (destruct Hbad as [-> |Hs]; [done|]); (destruct (_ && _); cbn [negb]; [|done]);
  by rewrite (proj2 (Z.eqb_neq _ _) Hs).
Qed.
End Table.

(** ** Changing one entry *)

Definition grant_typed (g : cp_grant) : Prop :=
  0 <= cp_w8 g < 2 ^ 64 /\ 0 <= cp_w16 g < 2 ^ 64 /\ 0 <= cp_seq g < GRANT_MAX_SEQ.

(** The state with entry [i] replaced and another head of the free list. *)
Definition with_entry (s : gclient) (i : Z) (g : cp_grant) (f : Z) : gclient :=
  set_gc_freelist f (with_mem s (<[(ep_of s, entry_addr (gc_grants s) i) := g]> (mem s))).

Lemma with_mem_same s T : same_tables (gc_kernel s) (gc_kernel (with_mem s T)).
Proof. done. Qed.

Section Entry.
Context (s : gclient) (l : list Z) (Hok : lib_ok s l).

Lemma lib_inj i j :
  0 <= i < gc_ngrants s -> 0 <= j < gc_ngrants s ->
  entry_addr (gc_grants s) i = entry_addr (gc_grants s) j -> i = j.
Proof.
  intros Hi Hj. destruct (lo_mem _ _ Hok) as [H1 H2]; [lia|].
  rewrite !(entry_addr_small _ _ (gc_ngrants s)) by done. unfold SIZEOF_GRANT. lia.
Qed.

Lemma ent_with_entry i j g f :
  0 <= i < gc_ngrants s -> 0 <= j < gc_ngrants s ->
  ent (with_entry s i g f) j = if j =? i then Some g else ent s j.
Proof.
  intros Hi Hj. change (<[(ep_of s, entry_addr (gc_grants s) i) := g]> (mem s) !! (ep_of s, entry_addr (gc_grants s) j)
    = if j =? i then Some g else ent s j). destruct (Z.eqb_spec j i) as [-> |Hne]; [apply lookup_insert_eq|].
  apply lookup_insert_ne. intros [= E]. by apply lib_inj in E.
Qed.

Lemma next_with_entry i j g f :
  0 <= i < gc_ngrants s -> 0 <= j < gc_ngrants s ->
  next_free (with_entry s i g f) j = upd (next_free s) i (link (cp_w0 g)) j.
Proof. intros Hi Hj. unfold next_free, upd. rewrite ent_with_entry by done. by destruct (j =? i). Qed.

Lemma lib_update i g f l' :
  0 <= i < gc_ngrants s -> grant_typed g ->
  chain (upd (next_free s) i (link (cp_w0 g))) (link f) l' ->
  (forall j, j <> i -> j ∈ l' <-> j ∈ l) -> (i ∈ l' <-> has (cp_flags g) CPF_USED = false) ->
  lib_ok (with_entry s i g f) l'.
Proof.
  intros Hi (H8 & H16 & Hs) Hch Hl Hil.
  assert (forall j, j ∈ l' -> 0 <= j < gc_ngrants s) as Hrange.
  { intros j Hj. destruct (Z.eq_dec j i) as [-> |Hne]; [done|]. by apply (lo_range _ _ Hok), Hl. }
  split; [..|exact Hrange|].
  - eapply same_ready; [apply with_mem_same|apply (lo_ready _ _ Hok)].
  - intros k g' Hk. cbn in Hk. apply lookup_insert_Some in Hk as [[_ <-]|[_ Hk]]; [done|].
    by apply (lo_typed _ _ Hok) in Hk.
  - exact (lo_me _ _ Hok).
  - exact (lo_size _ _ Hok).
  - exact (lo_mem _ _ Hok).
  - intros j Hj. rewrite ent_with_entry by done. destruct (j =? i); [by exists g|]. by apply (lo_ent _ _ Hok).
  - eapply chain_ext; [|exact Hch]. intros j Hj. apply next_with_entry; [done|by apply Hrange].
  - intros j g' Hj. rewrite ent_with_entry by done. destruct (Z.eqb_spec j i) as [-> |Hne]; [by intros [= <-]|].
    intros Hg. rewrite (Hl j Hne). by apply (lo_used _ _ Hok).
Qed.

Lemma lib_get_entry i g :
  ent s i = Some g -> get_entry (gc_grants s) i s = Done g s.
Proof. intros Hg. pose proof (get_entry_run s (lib_has_me s l Hok) (mem s) _ _ _ Hg) as H. by rewrite with_mem_id in H. Qed.

Lemma lib_upd_entry i g f :
  ent s i = Some g ->
  upd_entry (gc_grants s) i f s = Done tt (with_mem s (<[(ep_of s, entry_addr (gc_grants s) i) := f g]> (mem s))).
Proof.
  intros Hg. pose proof (upd_entry_run s (lib_has_me s l Hok) (mem s) _ _ _ f Hg) as H. by rewrite with_mem_id in H.
Qed.
End Entry.

(** ** Revoking *)

(** The id of a grant in use. *)
Definition in_use (s : gclient) (id : Z) : Prop :=
  0 <= id /\ GRANT_IDX id < gc_ngrants s /\
  exists g, ent s (GRANT_IDX id) = Some g /\ cp_seq g = GRANT_SEQ id /\ has (cp_flags g) CPF_USED = true.

Lemma grant_idx_nonneg id : 0 <= GRANT_IDX id.
Proof. unfold GRANT_IDX. apply Z.land_nonneg. right. by vm_compute. Qed.

Lemma gid_ok_run s l id :
  lib_ok s l ->
  exists b, gid_ok id s = Done b s
    /\ (b = true <-> 0 <= id /\ GRANT_IDX id < gc_ngrants s
        /\ exists g, ent s (GRANT_IDX id) = Some g /\ cp_seq g = GRANT_SEQ id).
Proof.
  intros Hok. unfold gid_ok. rewrite (bind_done _ _ s s s) by done. cbn beta.
  assert (GRANT_VALID id = true <-> 0 <= id) as HV by (unfold GRANT_VALID, GRANT_INVALID; rewrite Z.ltb_lt; lia).
  destruct (GRANT_VALID id); cbn [negb orb].
  2:{ exists false. split; [done|]. split; [done|]. intros (H & _). by apply HV. }
  destruct (Z.leb_spec (gc_ngrants s) (GRANT_IDX id)).
  { exists false. split; [done|]. split; [done|]. lia. }
  destruct (lo_ent _ _ Hok (GRANT_IDX id)) as (g & Hg & _); [pose proof (grant_idx_nonneg id); lia|].
  rewrite (bind_done _ _ _ _ _ (lib_get_entry s l Hok _ _ Hg)). eexists. split; [done|]. rewrite Z.eqb_eq. split.
  - intros E. split_and!; [by apply HV|done|]. by exists g.
  - intros (_ & _ & g' & Hg' & E). by simplify_eq.
Qed.

Definition revoked (f : Z) (g : cp_grant) : cp_grant :=
  set_cp_w0 f (set_cp_seq (if cp_seq g <? GRANT_MAX_SEQ - 1 then cp_seq g + 1 else 0) (set_cp_flags 0 g)).

Lemma link_some i : 0 <= i -> link i = Some i.
Proof. intros. unfold link. by rewrite (proj2 (Z.eqb_neq _ _)) by lia. Qed.

Lemma revoked_ok s l i g :
  lib_ok s l -> 0 <= i < gc_ngrants s -> ent s i = Some g -> has (cp_flags g) CPF_USED = true ->
  lib_ok (with_entry s i (revoked (gc_freelist s) g) i) (i :: l).
Proof.
  intros Hok Hi Hg Hu. assert (i ∉ l) as Hni by (rewrite (lo_used _ _ Hok i g Hi Hg); congruence).
  destruct (lo_typed _ _ Hok _ _ Hg) as [H8 H16]. destruct (lo_ent _ _ Hok i Hi) as (g' & Hg' & Hs).
  rewrite Hg in Hg'. injection Hg' as <-. apply (lib_update s l Hok); [done|..].
  - split_and!; try apply H8; try apply H16; cbn;
      change GRANT_MAX_SEQ with (2 ^ 11) in *; destruct (Z.ltb_spec (cp_seq g) (2 ^ 11 - 1)); lia.
  - change (cp_w0 (revoked (gc_freelist s) g)) with (gc_freelist s). rewrite (link_some i) by lia.
    apply chain_push; [exact (lo_free _ _ Hok)|done].
  - set_solver.
  - change (cp_flags (revoked (gc_freelist s) g)) with 0. rewrite (has_zero CPF_USED). set_solver.
Qed.

(** C29: revoking a grant ends it.  For a grant in use, [cpf_revoke] finishes, answers
    [GRANT_FAULTED] exactly when a copy under a [CPF_TRY] grant faulted, and
    from then on the kernel refuses the id for every grantee, range and
    access, while all other entries are as before and the table stays well
    formed.  For any other id it fails with [EINVAL] and changes nothing else. *)
Theorem cpf_revoke_correct s l id :
  lib_ok s l ->
  (in_use s id /\ exists g s',
     ent s (GRANT_IDX id) = Some g
     /\ cpf_revoke id s = Done (if has (cp_flags g) CPF_TRY && (cp_faulted g =? id) then GRANT_FAULTED else 0) s'
     /\ lib_ok s' (GRANT_IDX id :: l) /\ ep_of s' = ep_of s
     /\ (forall j, 0 <= j < gc_ngrants s -> j <> GRANT_IDX id -> ent s' j = ent s j)
     /\ forall grantee bytes access offset,
          verify_grant (ep_of s') grantee id bytes access offset (gc_kernel s') = Done (EPERM, None) (gc_kernel s'))
  \/ (~ in_use s id /\ cpf_revoke id s = Done (-1) (set_gc_errno EINVAL s)).
Proof.
  intros Hok. destruct (gid_ok_run s l id Hok) as (b & E & Hb). unfold cpf_revoke. rewrite (bind_done _ _ _ _ _ E).
  destruct b; cbn [negb].
  2:{ right. split; [|done]. intros (H1 & H2 & g & H3 & H4 & _). cut (false = true); [done|]. apply Hb. eauto. }
  destruct (proj1 Hb eq_refl) as (H0 & Hlt & g & Hg & Hs). pose proof (grant_idx_nonneg id) as Hi0.
  rewrite (bind_done _ _ (gc_grants s) s s) by done. rewrite (bind_done _ _ _ _ _ (lib_get_entry s l Hok _ _ Hg)).
  destruct (has (cp_flags g) CPF_USED) eqn:Hu; cbn [negb].
  2:{ right. split; [|done]. intros (_ & _ & g' & Hg' & _ & Hu'). simplify_eq. congruence. }
  left. split; [by split_and!; [..|exists g]|]. exists g, (with_entry s (GRANT_IDX id) (revoked (gc_freelist s) g) (GRANT_IDX id)).
  assert (lib_ok (with_entry s (GRANT_IDX id) (revoked (gc_freelist s) g) (GRANT_IDX id)) (GRANT_IDX id :: l)) as Hok'
    by (apply revoked_ok; [done|lia|done|done]).
  split_and!; try done.
  - rewrite (bind_done _ _ (gc_freelist s) s s) by done.
    by rewrite (bind_done _ _ _ _ _ (lib_upd_entry s l Hok _ _ (revoked (gc_freelist s)) Hg)).
  - intros j Hj Hne. rewrite (ent_with_entry s l Hok) by lia. by rewrite (proj2 (Z.eqb_neq _ _) Hne).
  - intros grantee bytes access offset. eapply stale_refused; [exact Hok'|done|done| |].
    + rewrite (ent_with_entry s l Hok) by lia. by rewrite Z.eqb_refl.
    + left. exact (has_zero CPF_USED).
Qed.

(** ** Growing the table *)

Lemma elem_of_zrange a b i : i ∈ zrange a b <-> a <= i < b.
Proof.
  unfold zrange. rewrite list_elem_of_fmap. split.
  - intros (k & -> & Hk%elem_of_seq). lia.
  - intros Hi. exists (Z.to_nat (i - a)). split; [lia|]. apply elem_of_seq. lia.
Qed.

Lemma zrange_NoDup a b : NoDup (zrange a b).
Proof. unfold zrange. apply NoDup_fmap_2; [intros x y H; lia|apply NoDup_seq]. Qed.

Lemma zrange_cons a b : a < b -> zrange a b = a :: zrange (a + 1) b.
Proof.
  intros H. unfold zrange. replace (Z.to_nat (b - a)) with (S (Z.to_nat (b - (a + 1)))) by lia.
  cbn [seq map]. f_equal; [lia|]. rewrite <- seq_shift, map_map. apply map_ext. intros. lia.
Qed.
Lemma zrange_nil a b : b <= a -> zrange a b = [].
Proof. intros H. unfold zrange. by replace (Z.to_nat (b - a)) with 0%nat by lia. Qed.

(** A list of the numbers from [a] on, each linked to the next and the last to
    [f]. *)
Lemma chain_range next a b f l :
  0 <= a < b -> (forall i, a <= i < b -> next i = link (if i <? b - 1 then i + 1 else f)) ->
  chain next (link f) l -> chain next (Some a) (zrange a b ++ l).
Proof.
  intros Hab Hn Hl. remember (Z.to_nat (b - a)) as n eqn:En. revert a Hab Hn En.
  induction n as [|n IH]; intros a Hab Hn En; [lia|].
  rewrite zrange_cons by lia. cbn. split; [done|]. rewrite Hn by lia. destruct (Z.ltb_spec a (b - 1)).
  - rewrite link_some by lia. apply IH; [lia| |lia]. intros. apply Hn. lia.
  - by rewrite zrange_nil by lia.
Qed.

(** A new block of [n] entries at [base], with the memory as it is when the
    block has been obtained. *)
Record room (s : gclient) (n base : Z) (T : gmap (Z * Z) cp_grant) : Prop := {
  rm_size : gc_ngrants s < n <= GRANT_MAX_IDX;
  rm_base : 0 < base /\ base + SIZEOF_GRANT * n < 2 ^ 64;
  rm_disj : forall i j, 0 <= i < gc_ngrants s -> 0 <= j < n -> entry_addr (gc_grants s) i <> entry_addr base j;
  rm_map : forall j, 0 <= j < n -> is_Some (T !! (ep_of s, entry_addr base j));
  rm_same : forall i, 0 <= i < gc_ngrants s -> T !! (ep_of s, entry_addr (gc_grants s) i) = ent s i;
  rm_typed : forall k g, T !! k = Some g -> 0 <= cp_w8 g < 2 ^ 64 /\ 0 <= cp_w16 g < 2 ^ 64
}.

Section Grow.
Context (s : gclient) (l : list Z) (Hok : lib_ok s l) (n base : Z) (T : gmap (Z * Z) cp_grant) (Hroom : room s n base T).

Lemma room_inj i j :
  0 <= i < n -> 0 <= j < n -> entry_addr base i = entry_addr base j -> i = j.
Proof.
  intros Hi Hj. destruct (rm_base _ _ _ _ Hroom). rewrite !(entry_addr_small _ _ n) by done. unfold SIZEOF_GRANT. lia.
Qed.

Let old (i : Z) : cp_grant := match ent s i with Some g => g | None => mkGrant 0 0 0 0 0 0 0 end.

(** Copying the old block. *)
Lemma copy_run :
  exists T1, (if negb (gc_grants s =? 0) && (0 <? gc_ngrants s) then
      for_each (zrange 0 (gc_ngrants s)) (fun i => g <- get_entry (gc_grants s) i ;; put_entry base i g)
    else ret tt) (with_mem s T) = Done tt (with_mem s T1)
    /\ (forall i, 0 <= i < gc_ngrants s -> T1 !! (ep_of s, entry_addr base i) = ent s i)
    /\ (forall i, gc_ngrants s <= i < n -> is_Some (T1 !! (ep_of s, entry_addr base i)))
    /\ (forall k g, T1 !! k = Some g -> 0 <= cp_w8 g < 2 ^ 64 /\ 0 <= cp_w16 g < 2 ^ 64).
Proof.
  pose proof (rm_size _ _ _ _ Hroom) as Hn. pose proof (lo_size _ _ Hok) as Hs.
  destruct (Z.ltb_spec 0 (gc_ngrants s)) as [Hpos|Hz].
  2:{ rewrite andb_false_r. exists T. split; [done|]. split_and!; [lia| |exact (rm_typed _ _ _ _ Hroom)].
      intros i Hi. apply (rm_map _ _ _ _ Hroom). lia. }
  destruct (lo_mem _ _ Hok Hpos) as [Hb _]. rewrite (proj2 (Z.eqb_neq _ _)) by lia. cbn [negb andb].
  assert (forall i, 0 <= i < gc_ngrants s -> ent s i = Some (old i)) as Hold.
  { intros i Hi. unfold old. by destruct (lo_ent _ _ Hok i Hi) as (g & -> & _). }
  destruct (mem_loop s (lib_has_me s l Hok) (fun i => g <- get_entry (gc_grants s) i ;; put_entry base i g)
    base old T (zrange 0 (gc_ngrants s))) as (T1 & E & H1 & H2).
  - intros i j Hi%elem_of_zrange Hj%elem_of_zrange. apply room_inj; lia.
  - apply zrange_NoDup.
  - intros i T' Hi%elem_of_zrange Ho _.
    rewrite (bind_done _ _ (old i) (with_mem s T') (with_mem s T')); [by apply (put_entry_run s (lib_has_me s l Hok))|].
    apply (get_entry_run s (lib_has_me s l Hok)).
    rewrite Ho; [rewrite (rm_same _ _ _ _ Hroom) by done; by apply Hold|].
    intros j Hj%elem_of_zrange [= Heq]. by apply (rm_disj _ _ _ _ Hroom i j) in Heq; [|lia..].
  - exists T1. split; [done|]. split_and!.
    + intros i Hi. rewrite H1, Hold; [done|done|]. by apply elem_of_zrange.
    + intros i Hi. rewrite H2; [apply (rm_map _ _ _ _ Hroom); lia|].
      intros j Hj%elem_of_zrange [= Heq]. apply room_inj in Heq; lia.
    + apply (loop_all _ _ _ _ _ _ _ H1 H2); [exact (rm_typed _ _ _ _ Hroom)|].
      intros i Hi%elem_of_zrange. exact (lo_typed _ _ Hok _ _ (Hold i Hi)).
Qed.

(** Clearing the new entries. *)
Lemma clear_run T1 :
  (forall i, gc_ngrants s <= i < n -> is_Some (T1 !! (ep_of s, entry_addr base i))) ->
  (forall k g, T1 !! k = Some g -> 0 <= cp_w8 g < 2 ^ 64 /\ 0 <= cp_w16 g < 2 ^ 64) ->
  exists T2, for_each (zrange (gc_ngrants s) n) (fun g => upd_entry base g (free_entry n (gc_freelist s) g)) (with_mem s T1)
      = Done tt (with_mem s T2)
    /\ (forall i, 0 <= i < gc_ngrants s -> T2 !! (ep_of s, entry_addr base i) = T1 !! (ep_of s, entry_addr base i))
    /\ (forall i, gc_ngrants s <= i < n -> exists g,
         T2 !! (ep_of s, entry_addr base i) = Some (free_entry n (gc_freelist s) i g))
    /\ (forall k g, T2 !! k = Some g -> 0 <= cp_w8 g < 2 ^ 64 /\ 0 <= cp_w16 g < 2 ^ 64).
Proof.
  intros Hmap Htyp. pose proof (rm_size _ _ _ _ Hroom) as Hn. pose proof (lo_size _ _ Hok) as Hs.
  set (was i := match T1 !! (ep_of s, entry_addr base i) with Some g => g | None => mkGrant 0 0 0 0 0 0 0 end).
  assert (forall i, gc_ngrants s <= i < n -> T1 !! (ep_of s, entry_addr base i) = Some (was i)) as Hwas.
  { intros i Hi. unfold was. by destruct (Hmap i Hi) as [g ->]. }
  destruct (mem_loop s (lib_has_me s l Hok) (fun g => upd_entry base g (free_entry n (gc_freelist s) g)) base
    (fun i => free_entry n (gc_freelist s) i (was i)) T1 (zrange (gc_ngrants s) n)) as (T2 & E & H1 & H2).
  - intros i j Hi%elem_of_zrange Hj%elem_of_zrange. apply room_inj; lia.
  - apply zrange_NoDup.
  - intros i T' Hi%elem_of_zrange _ Hi2. apply (upd_entry_run s (lib_has_me s l Hok)). rewrite Hi2. by apply Hwas.
  - exists T2. split; [done|]. split_and!.
    + intros i Hi. apply H2. intros j Hj%elem_of_zrange [= Heq]. apply room_inj in Heq; lia.
    + intros i Hi. exists (was i). by apply H1, elem_of_zrange.
    + apply (loop_all _ _ _ _ _ _ _ H1 H2); [exact Htyp|]. intros i Hi%elem_of_zrange. exact (Htyp _ _ (Hwas i Hi)).
Qed.

(** Telling the kernel. *)
Lemma setgrant_run T2 p id pv :
  procs (gc_kernel s) !! gc_me s = Some p -> p_priv p = Some id -> privs (gc_kernel s) !! id = Some pv ->
  has (p_rts_flags p) RTS_NO_PRIV = false ->
  sys_setgrant base n (with_mem s T2)
  = Done 0 (set_gc_kernel (set_privs (<[id := set_s_grant_endpoint (p_endpoint p)
        (set_s_grant_entries n (set_s_grant_table base pv))]> (privs (gc_kernel s))) (set_gtab T2 (gc_kernel s))) s).
Proof.
  intros Hp Hid Hpv Hnp. unfold sys_setgrant, gcall, do_setgrant. cbn [with_mem set_gc_kernel gc_me gc_kernel].
  erewrite bind_get_proc by exact Hp. unfold RTS_ISSET.
  rewrite (isset_has RTS_NO_PRIV), Hnp, Hid. cbn [orb].
  rewrite bool_decide_false by done. unfold upd_priv_of. rewrite Hid.
  unfold upd_priv_id, bind. cbn [set_gtab privs]. by rewrite Hpv.
Qed.

Lemma told_ready T2 id pv e :
  privs (gc_kernel s) !! id = Some pv ->
  ready (set_privs (<[id := set_s_grant_endpoint e (set_s_grant_entries n (set_s_grant_table base pv))]> (privs (gc_kernel s)))
    (set_gtab T2 (gc_kernel s))).
Proof.
  intros Hpv. assert (ready (set_gtab T2 (gc_kernel s))) as Hr
    by (eapply same_ready; [apply (with_mem_same s T2)|apply (lo_ready _ _ Hok)]).
  destruct (priv_notified _ id pv (fun pv => set_s_grant_endpoint e (set_s_grant_entries n (set_s_grant_table base pv))) Hr Hpv)
    as (s' & E & HN & _); try done.
  unfold upd_priv_id in E. cbn [privs set_gtab] in E. rewrite Hpv in E. injection E as <-. apply HN.
Qed.

(** The whole of it: the new entries come in front of the free list. *)
Lemma grow_run :
  exists s', grow n base (with_mem s T) = Done tt s' /\ lib_ok s' (zrange (gc_ngrants s) n ++ l)
    /\ gc_ngrants s' = n /\ gc_freelist s' = gc_ngrants s /\ ep_of s' = ep_of s /\ gc_errno s' = gc_errno s
    /\ forall i, 0 <= i < gc_ngrants s -> ent s' i = ent s i.
Proof.
  destruct copy_run as (T1 & E1 & Hold & Hmap & Htyp). destruct (clear_run T1 Hmap Htyp) as (T2 & E2 & Hkeep & Hnew & Htyp2).
  destruct (lo_me _ _ Hok) as (p & id & pv & Hp & Hl & Hid & Hpv & Hnp & _).
  pose proof (rm_size _ _ _ _ Hroom) as Hn. pose proof (lo_size _ _ Hok) as Hs.
  set (pv' := set_s_grant_endpoint (p_endpoint p) (set_s_grant_entries n (set_s_grant_table base pv))).
  set (k := set_privs (<[id := pv']> (privs (gc_kernel s))) (set_gtab T2 (gc_kernel s))).
  set (s' := set_gc_ngrants n (set_gc_grants base (set_gc_freelist (gc_ngrants s) (set_gc_kernel k s)))).
  exists s'.
  assert (forall i, ent s' i = T2 !! (ep_of s, entry_addr base i)) as Hent by done.
  assert (forall i, 0 <= i < gc_ngrants s -> ent s' i = ent s i) as Hsame
    by (intros i Hi; rewrite Hent, Hkeep, Hold by done; done).
  split; [|split; [|by split_and!]].
  { unfold grow. rewrite (bind_done _ _ (with_mem s T) (with_mem s T) (with_mem s T)) by done. cbn beta.
    change (gc_grants (with_mem s T)) with (gc_grants s). change (gc_ngrants (with_mem s T)) with (gc_ngrants s).
    change (gc_freelist (with_mem s T)) with (gc_freelist s).
    rewrite (bind_done _ _ _ _ _ E1), (bind_done _ _ _ _ _ E2).
    by rewrite (bind_done _ _ _ _ _ (setgrant_run T2 p id pv Hp Hid Hpv Hnp)). }
  assert (forall i, i ∈ l -> 0 <= i < gc_ngrants s) as Hl0 by exact (lo_range _ _ Hok).
  split.
  - by apply told_ready.
  - exact Htyp2.
  - exists p, id, pv'. split_and!; try done. by apply lookup_insert_eq.
  - change (gc_ngrants s') with n. lia.
  - intros _. exact (rm_base _ _ _ _ Hroom).
  - intros i Hi. change (gc_ngrants s') with n in Hi. destruct (Z.lt_ge_cases i (gc_ngrants s)).
    + rewrite Hsame by lia. apply (lo_ent _ _ Hok). lia.
    + rewrite Hent. destruct (Hnew i) as (g & ->); [lia|]. by eexists.
  - change (gc_freelist s') with (gc_ngrants s). rewrite (link_some (gc_ngrants s)) by lia.
    apply (chain_range _ _ _ (gc_freelist s)); [lia|..].
    + intros i Hi. unfold next_free. rewrite Hent. by destruct (Hnew i Hi) as (g & ->).
    + eapply chain_ext; [|exact (lo_free _ _ Hok)]. intros i Hi. unfold next_free. by rewrite Hsame by auto.
  - intros i. change (gc_ngrants s') with n. rewrite elem_of_app, elem_of_zrange. intros [?|?%Hl0]; lia.
  - intros i g Hi Hg. change (gc_ngrants s') with n in Hi. rewrite elem_of_app, elem_of_zrange.
    destruct (Z.lt_ge_cases i (gc_ngrants s)).
    + rewrite Hsame in Hg by lia. rewrite <- (lo_used _ _ Hok i g) by (lia || done). split; [intros [?|?]; [lia|done]|by right].
    + rewrite Hent in Hg. destruct (Hnew i) as (g' & E'); [lia|]. rewrite E' in Hg. injection Hg as <-.
      split; [|intros _; left; lia]. intros _. exact (has_zero CPF_USED).
Qed.
End Grow.

(** ** Obtaining memory *)

(** The size [cpf_prealloc] asks for. *)
Definition wanted (ngrants count : Z) : Z :=
  Z.min GRANT_MAX_IDX (if count =? 0 then (1 + ngrants) * 2 else ngrants + Z.min (GRANT_MAX_IDX - ngrants) count).

(** What [malloc] promises for a block of [n] entries: it lies in the address
    space, apart from the table. *)
Record malloc_ok (s : gclient) (n : Z) (b : block) : Prop := {
  mk_base : 0 < blk_addr b /\ blk_addr b + SIZEOF_GRANT * n < 2 ^ 64;
  mk_disj : forall i j, 0 <= i < gc_ngrants s -> 0 <= j < n -> entry_addr (gc_grants s) i <> entry_addr (blk_addr b) j;
  mk_typed : forall i, 0 <= cp_w8 (blk_junk b i) < 2 ^ 64 /\ 0 <= cp_w16 (blk_junk b i) < 2 ^ 64
}.

(** The memory the library may use: the static block while there is no table,
    and what [malloc] returned. *)
Record memory_ok (s : gclient) (alloc : option block) (count : Z) : Prop := {
  my_static : gc_ngrants s = 0 -> room s NR_STATIC_GRANTS (gc_static s) (mem s);
  my_malloc : forall b, alloc = Some b -> malloc_ok s (wanted (gc_ngrants s) count) b
}.

Lemma wanted_spec ngrants count :
  (let new_size := if negb (count =? 0)
     then ngrants + (if GRANT_MAX_IDX - ngrants <? count then GRANT_MAX_IDX - ngrants else count)
     else (1 + ngrants) * 2 in
   if GRANT_MAX_IDX <=? new_size then GRANT_MAX_IDX else new_size) = wanted ngrants count.
Proof.
  unfold wanted. destruct (count =? 0); cbn [negb]; cbn zeta; [|destruct (Z.ltb_spec (GRANT_MAX_IDX - ngrants) count)];
    match goal with |- context [GRANT_MAX_IDX <=? ?x] => destruct (Z.leb_spec GRANT_MAX_IDX x) end; lia.
Qed.

Section Obtain.
Context (s : gclient) (l : list Z) (Hok : lib_ok s l).

(** Mapping a block from [malloc]. *)
Lemma map_block b n :
  malloc_ok s n b -> gc_ngrants s < n <= GRANT_MAX_IDX ->
  exists T, for_each (zrange 0 n) (fun i => put_entry (blk_addr b) i (blk_junk b i)) s = Done tt (with_mem s T)
    /\ room s n (blk_addr b) T.
Proof.
  intros [Hb Hd Ht] Hn. pose proof (lo_size _ _ Hok) as Hs.
  destruct (mem_loop s (lib_has_me s l Hok) (fun i => put_entry (blk_addr b) i (blk_junk b i)) (blk_addr b) (blk_junk b)
    (mem s) (zrange 0 n)) as (T & E & H1 & H2).
  - intros i j Hi%elem_of_zrange Hj%elem_of_zrange. rewrite !(entry_addr_small _ _ n) by lia. unfold SIZEOF_GRANT. lia.
  - apply zrange_NoDup.
  - intros i T _ _ _. apply (put_entry_run s (lib_has_me s l Hok)).
  - rewrite with_mem_id in E. exists T. split; [done|]. split; [done|done|done|..].
    + intros j Hj. rewrite H1 by by apply elem_of_zrange. done.
    + intros i Hi. apply H2. intros j Hj%elem_of_zrange [= Heq]. by apply (Hd i j Hi Hj).
    + apply (loop_all _ _ _ _ _ _ _ H1 H2); [exact (lo_typed _ _ Hok)|]. intros i _. apply Ht.
Qed.

Lemma new_block_run alloc count :
  0 <= count -> memory_ok s alloc count ->
  (exists n base T, new_block alloc count s = Done (Some (n, base)) (with_mem s T) /\ room s n base T)
  \/ new_block alloc count s = Done None s /\ (alloc = None \/ gc_ngrants s = GRANT_MAX_IDX).
Proof.
  intros Hc [Hst Hma]. pose proof (lo_size _ _ Hok) as Hs. unfold new_block.
  rewrite (bind_done _ _ (gc_ngrants s) s s) by done.
  destruct ((gc_ngrants s =? 0) && (count <=? NR_STATIC_GRANTS)) eqn:E0.
  { left. apply andb_true_iff in E0 as [E0%Z.eqb_eq _]. exists NR_STATIC_GRANTS, (gc_static s), (mem s).
    rewrite with_mem_id. split; [done|]. by apply Hst. }
  destruct (Z.leb_spec GRANT_MAX_IDX (gc_ngrants s)); [right; split; [done|right; lia]|].
  pose proof (wanted_spec (gc_ngrants s) count) as Ew. cbv zeta in Ew |- *. rewrite Ew. clear Ew.
  assert (gc_ngrants s < wanted (gc_ngrants s) count <= GRANT_MAX_IDX) as Hw.
  { unfold wanted. destruct (Z.eqb_spec count 0); lia. }
  rewrite bind_assert by (apply Z.ltb_lt; lia). destruct alloc as [b|]; [|right; split; [done|by left]].
  left. destruct (map_block b _ (Hma b eq_refl) Hw) as (T & E & HR). exists (wanted (gc_ngrants s) count), (blk_addr b), T.
  by rewrite (bind_done _ _ _ _ _ E).
Qed.

(** Growing the table keeps every entry; when it does not grow nothing
    changes. *)
Lemma prealloc_run alloc count :
  0 <= count -> memory_ok s alloc count ->
  exists s' l', cpf_prealloc alloc count s = Done tt s' /\ lib_ok s' l' /\ ep_of s' = ep_of s /\ gc_errno s' = gc_errno s
    /\ (forall i, 0 <= i < gc_ngrants s -> ent s' i = ent s i)
    /\ (s' = s /\ l' = l /\ (alloc = None \/ gc_ngrants s = GRANT_MAX_IDX)
        \/ gc_ngrants s < gc_ngrants s' /\ l' = zrange (gc_ngrants s) (gc_ngrants s') ++ l).
Proof.
  intros Hc Hm. unfold cpf_prealloc.
  destruct (new_block_run alloc count Hc Hm) as [(n & base & T & E & HR)|[E Hno]]; rewrite (bind_done _ _ _ _ _ E).
  - destruct (grow_run s l Hok n base T HR) as (s' & E' & Hok' & Hn & Hf & He & Her & Hent).
    exists s', (zrange (gc_ngrants s) n ++ l). rewrite Hn. split_and!; try done. right. split; [|done].
    apply (rm_size _ _ _ _ HR).
  - exists s, l. split_and!; try done. left. by split_and!.
Qed.
End Obtain.

(** ** Making grants *)

Lemma slot_run s l i :
  lib_ok s (i :: l) ->
  exists e, 0 <= i < gc_ngrants s /\ ent s i = Some e /\ gc_freelist s = i
    /\ (gc_freelist s =? -1) = false
    /\ (assert (0 <=? gc_freelist s) ;;
        ngrants <- gets gc_ngrants ;;
        assert (gc_freelist s <? ngrants) ;;
        grants <- gets gc_grants ;;
        e <- get_entry grants (gc_freelist s) ;;
        assert (negb (has (cp_flags e) CPF_USED)) ;;
        modify (set_gc_freelist (cp_w0 e)) ;;
        ret (gc_freelist s)) s = Done i (set_gc_freelist (cp_w0 e) s).
Proof.
  intros Hok. assert (0 <= i < gc_ngrants s) as Hi by (apply (lo_range _ _ Hok); set_solver).
  destruct (lo_ent _ _ Hok i Hi) as (e & He & _). exists e.
  assert (gc_freelist s = i) as ->.
  { destruct (lo_free _ _ Hok) as [Hl _]. unfold link in Hl. destruct (_ =? _); [done|by injection Hl]. }
  split_and!; try done; try lia. rewrite bind_assert by (apply Z.leb_le; lia).
  rewrite (bind_done _ _ (gc_ngrants s) s s) by done. rewrite bind_assert by (apply Z.ltb_lt; lia).
  rewrite (bind_done _ _ (gc_grants s) s s) by done. rewrite (bind_done _ _ _ _ _ (lib_get_entry s _ Hok _ _ He)).
  assert (has (cp_flags e) CPF_USED = false) as -> by (apply (lo_used _ _ Hok i e Hi He); set_solver). done.
Qed.

(** What [cpf_new_grantslot] does: a free entry off the list of a table that
    may have grown, or [ENOSPC] when there is none. *)
Lemma new_slot_run s l alloc :
  lib_ok s l -> memory_ok s alloc 0 ->
  (cpf_new_grantslot alloc s = Done (-1) (set_gc_errno ENOSPC s) /\ l = [] /\ (alloc = None \/ gc_ngrants s = GRANT_MAX_IDX))
  \/ exists s1 i l1 e, lib_ok s1 (i :: l1) /\ 0 <= i < gc_ngrants s1 /\ ent s1 i = Some e
    /\ cpf_new_grantslot alloc s = Done i (set_gc_freelist (cp_w0 e) s1) /\ ep_of s1 = ep_of s
    /\ gc_ngrants s <= gc_ngrants s1 /\ forall j, 0 <= j < gc_ngrants s -> ent s1 j = ent s j.
Proof.
  intros Hok Hm. unfold cpf_new_grantslot. rewrite (bind_done _ _ (gc_freelist s) s s) by done. destruct l as [|i l].
  - assert (gc_freelist s = -1) as ->.
    { pose proof (lo_free _ _ Hok) as Hl. cbn in Hl. unfold link in Hl. by destruct (Z.eqb_spec (gc_freelist s) (-1)). }
    destruct (prealloc_run s [] Hok alloc 0 ltac:(lia) Hm) as (s1 & l1 & E & Hok1 & Hep & Her & Hent & [(-> & -> & Hno)|[Hlt Hl1]]);
      cbn [Z.eqb Pos.eqb]; rewrite (bind_done _ _ _ _ _ E).
    + left. rewrite (bind_done _ _ (gc_freelist s) s s) by done. split_and!; try done.
      pose proof (lo_free _ _ Hok) as Hl. cbn in Hl. unfold link in Hl. by destruct (gc_freelist s =? -1).
    + right. rewrite zrange_cons in Hl1 by done. cbn in Hl1. subst l1.
      destruct (slot_run _ _ _ Hok1) as (e & Hi & He & _ & Hf & Es). exists s1, (gc_ngrants s). eexists. exists e.
      rewrite (bind_done _ _ (gc_freelist s1) s1 s1) by done. rewrite Hf. split_and!; try done; lia.
  - right. destruct (slot_run _ _ _ Hok) as (e & Hi & He & _ & Hf & Es). exists s, i, l, e. rewrite Hf.
    rewrite (bind_done _ _ tt s s) by done. rewrite (bind_done _ _ (gc_freelist s) s s) by done. rewrite Hf.
    split_and!; try done; lia.
Qed.

(** Filling in the slot. *)
Lemma fill_run s l i e f :
  lib_ok s (i :: l) -> 0 <= i < gc_ngrants s -> ent s i = Some e -> cp_seq (f e) = cp_seq e -> grant_typed (f e) ->
  has (cp_flags (f e)) CPF_USED = true ->
  fill_slot i f (set_gc_freelist (cp_w0 e) s) = Done (GRANT_ID i (cp_seq e)) (with_entry s i (f e) (cp_w0 e))
  /\ lib_ok (with_entry s i (f e) (cp_w0 e)) l.
Proof.
  intros Hok Hi He Hs Ht Hu.
  pose proof (chain_NoDup _ _ _ (lo_free _ _ Hok)) as Hnd. apply NoDup_cons in Hnd as [Hni _]. split.
  - unfold fill_slot. set (s1 := set_gc_freelist (cp_w0 e) s).
    assert (has_me s1) as Hme by exact (lib_has_me _ _ Hok).
    rewrite (bind_done _ _ (gc_grants s) s1 s1) by done.
    pose proof (upd_entry_run s1 Hme (mem s1) (gc_grants s) i e f He) as E. rewrite with_mem_id in E.
    rewrite (bind_done _ _ _ _ _ E). rewrite (bind_done _ _ (f e) (with_entry s i (f e) (cp_w0 e)) (with_entry s i (f e) (cp_w0 e))).
    + by rewrite Hs.
    + apply (get_entry_run s1 Hme). apply lookup_insert_eq.
  - apply (lib_update s (i :: l) Hok); [done|done|..].
    + destruct (lo_free _ _ Hok) as [_ Hc]. replace (next_free s i) with (link (cp_w0 e)) in Hc by (unfold next_free; by rewrite He).
      eapply chain_ext; [|exact Hc]. intros j Hj. apply upd_other. intros ->. done.
    + intros j Hj. set_solver.
    + rewrite Hu. split; done.
Qed.

(** A new grant, of whatever kind. *)
Lemma grant_run s l alloc f :
  lib_ok s l -> memory_ok s alloc 0 ->
  (forall e, grant_typed e -> cp_seq (f e) = cp_seq e /\ grant_typed (f e) /\ has (cp_flags (f e)) CPF_USED = true) ->
  ((g <- cpf_new_grantslot alloc ;; if g <? 0 then ret (-1) else fill_slot g f) s = Done (-1) (set_gc_errno ENOSPC s)
     /\ l = [] /\ (alloc = None \/ gc_ngrants s = GRANT_MAX_IDX))
  \/ exists i e s' l', (g <- cpf_new_grantslot alloc ;; if g <? 0 then ret (-1) else fill_slot g f) s
        = Done (GRANT_ID i (cp_seq e)) s'
    /\ lib_ok s' l' /\ 0 <= i < gc_ngrants s' /\ ent s' i = Some (f e) /\ 0 <= cp_seq e < GRANT_MAX_SEQ
    /\ cp_seq (f e) = cp_seq e /\ ep_of s' = ep_of s /\ gc_ngrants s <= gc_ngrants s'
    /\ forall j g, 0 <= j < gc_ngrants s -> ent s j = Some g -> has (cp_flags g) CPF_USED = true ->
         j <> i /\ ent s' j = Some g.
Proof.
  intros Hok Hm Hf. destruct (new_slot_run s l alloc Hok Hm) as [(E & Hl & Hno)|(s1 & i & l1 & e & Hok1 & Hi & He & E & Hep & Hle & Hent)];
    rewrite (bind_done _ _ _ _ _ E); [by left|right].
  destruct (lo_ent _ _ Hok1 i Hi) as (e' & He' & Hs). rewrite He in He'. injection He' as <-.
  destruct (lo_typed _ _ Hok1 _ _ He) as [H8 H16]. destruct (Hf e (conj H8 (conj H16 Hs))) as (Hseq & Ht & Hu).
  destruct (fill_run s1 l1 i e f Hok1 Hi He Hseq Ht Hu) as [E2 Hok2].
  rewrite (proj2 (Z.ltb_ge _ _)) by lia. exists i, e, (with_entry s1 i (f e) (cp_w0 e)), l1.
  split_and!; try done; try lia.
  - apply Hi.
  - rewrite (ent_with_entry s1 _ Hok1) by done. by rewrite Z.eqb_refl.
  - intros j g Hj Hg Hgu. assert (j <> i) as Hne.
    { intros ->. rewrite <- Hent in Hg by done. assert (i ∈ i :: l1) as Hin by set_solver.
      rewrite (lo_used _ _ Hok1 i g Hi Hg) in Hin. congruence. }
    split; [done|]. rewrite (ent_with_entry s1 _ Hok1) by (done || lia).
    rewrite (proj2 (Z.eqb_neq _ _) Hne), Hent by done. done.
Qed.

(** Grants in use stay in use, under other ids than a new one. *)
Lemma in_use_kept s s' i q :
  gc_ngrants s <= gc_ngrants s' -> 0 <= i < GRANT_MAX_IDX -> 0 <= q < GRANT_MAX_SEQ ->
  (forall j g, 0 <= j < gc_ngrants s -> ent s j = Some g -> has (cp_flags g) CPF_USED = true -> j <> i /\ ent s' j = Some g) ->
  forall id, in_use s id -> id <> GRANT_ID i q /\ in_use s' id /\ ent s' (GRANT_IDX id) = ent s (GRANT_IDX id).
Proof.
  intros Hle Hi Hq Hkeep id (H0 & Hlt & g & Hg & Hs & Hu). pose proof (grant_idx_nonneg id).
  destruct (Hkeep (GRANT_IDX id) g) as [Hne Hg']; [lia|done|done|]. destruct (grant_id_split i q Hi Hq) as (_ & Hidx & _).
  split; [intros ->; by rewrite Hidx in Hne|]. split; [|by rewrite Hg, Hg']. split_and!; [done|lia|by exists g].
Qed.

Definition direct_entry (who_to addr bytes access : Z) (e : cp_grant) : cp_grant :=
  set_cp_flags (Z.lor access (Z.lor CPF_DIRECT (Z.lor CPF_USED CPF_VALID)))
    (set_cp_faulted GRANT_INVALID (set_cp_w16 bytes (set_cp_w8 addr (set_cp_w0 who_to e)))).

(** The flags of a direct grant, whatever access it gives. *)
Lemma direct_flags access :
  bad_access access = false ->
  let fl := Z.lor access (Z.lor CPF_DIRECT (Z.lor CPF_USED CPF_VALID)) in
  has fl CPF_USED = true /\ has fl CPF_VALID = true /\ has fl CPF_DIRECT = true /\ has fl CPF_INDIRECT = false.
Proof.
  unfold bad_access, has. intros H. apply negb_false_iff, Z.eqb_eq in H.
  assert (forall k, 0 <= k -> Z.testbit (Z.lor CPF_READ (Z.lor CPF_WRITE CPF_TRY)) k = false -> Z.testbit access k = false) as Hk.
  { intros k Hk0 Hk. apply (f_equal (fun z => Z.testbit z k)) in H. rewrite Z.land_spec, Z.lnot_spec, Hk, Z.bits_0 in H by done.
    by rewrite andb_true_r in H. }
  cbv zeta. rewrite !negb_true_iff, negb_false_iff, !Z.eqb_neq, Z.eqb_eq.
  assert (forall k b, 0 <= k -> Z.testbit (Z.lor CPF_DIRECT (Z.lor CPF_USED CPF_VALID)) k = true -> Z.testbit b k = true ->
    Z.land (Z.lor access (Z.lor CPF_DIRECT (Z.lor CPF_USED CPF_VALID))) b <> 0) as Hset.
  { intros k b Hk0 Hk1 Hb E. apply (f_equal (fun z => Z.testbit z k)) in E.
    by rewrite Z.land_spec, Z.lor_spec, Hk1, Hb, orb_true_r, Z.bits_0 in E. }
  split_and!; [by apply (Hset 8)|by apply (Hset 12)|by apply (Hset 9)|].
  apply Z.bits_inj'. intros k Hk0. change CPF_INDIRECT with (2 ^ 10).
  rewrite Z.land_spec, Z.lor_spec, Z.bits_0, Z.pow2_bits_eqb by lia.
  destruct (Z.eqb_spec 10 k) as [<-|]; [|apply andb_false_r]. by rewrite Hk.
Qed.

(** C28: a grant given is a grant honoured, and no more than given.  A direct grant made by
    [cpf_grant_direct], growing the table if there is no free entry, gets an
    id that no grant in use has; the kernel then lets exactly the named
    grantee (or anybody, for [ANY]) access exactly the granted range with the
    granted rights under that id, provided the range passes the kernel's check
    of its end, [grant_fits]: a range of at most 4 GB must end at or below 4 GB,
    and is refused to everybody if it does not.  Every grant that was in use is
    still in use with the same entry.  The call fails only when the table is full
    and cannot grow. *)
Theorem cpf_grant_direct_correct s l alloc who_to addr bytes access :
  lib_ok s l -> memory_ok s alloc 0 -> bad_access access = false -> 0 <= addr < 2 ^ 64 -> 0 <= bytes < 2 ^ 64 ->
  (cpf_grant_direct alloc who_to addr bytes access s = Done (-1) (set_gc_errno ENOSPC s)
     /\ l = [] /\ (alloc = None \/ gc_ngrants s = GRANT_MAX_IDX))
  \/ exists id s' l', cpf_grant_direct alloc who_to addr bytes access s = Done id s'
    /\ lib_ok s' l' /\ in_use s' id /\ ep_of s' = ep_of s
    /\ (forall id', in_use s id' -> id' <> id /\ in_use s' id' /\ ent s' (GRANT_IDX id') = ent s (GRANT_IDX id'))
    /\ forall grantee n acc offset, 0 <= offset < 2 ^ 64 -> 0 <= n < 2 ^ 64 ->
         exists r sf, verify_grant (ep_of s') grantee id n acc offset (gc_kernel s') = Done r (gc_kernel s')
           /\ forall v, r = (OK, Some v) <->
                for_grantee who_to grantee /\ offset + n <= bytes
                /\ Z.land (Z.lor access (Z.lor CPF_DIRECT (Z.lor CPF_USED CPF_VALID))) acc = acc
                /\ grant_fits addr bytes /\ v = mkVf (u64 (addr + offset)) (ep_of s') sf.
Proof.
  intros Hok Hm Ha H0 Hb. destruct (direct_flags access Ha) as (Fu & Fv & Fd & Fi).
  unfold cpf_grant_direct. rewrite Ha.
  destruct (grant_run s l alloc (direct_entry who_to addr bytes access) Hok Hm) as
    [(E & Hl & Hno)|(i & e & s' & l' & E & Hok' & Hi & He & Hq & Hs & Hep & Hle & Hkeep)].
  - intros e (H8 & H16 & Hs). cbn. split_and!; try done; try lia.
  - left. by split_and!.
  - right. pose proof (lo_size _ _ Hok') as Hsz. destruct (grant_id_split i (cp_seq e)) as (Hid0 & Hid1 & Hid2); [lia|done|].
    exists (GRANT_ID i (cp_seq e)), s', l'. split_and!; try done.
    + unfold in_use. rewrite Hid1, Hid2. split_and!; [lia|lia|by eexists].
    + apply in_use_kept; [done|lia|done|done].
    + intros grantee n acc offset Ho Hn. rewrite <- Hs.
      destruct (direct_exact s' l' Hok' i _ grantee n acc offset Hi He Fu Fv Fi Fd Ho Hn) as (r & sf & E' & Hr).
      exists r, sf. split; [exact E'|]. intros v. rewrite (Hr v). cbn. tauto.
Qed.

(** RS before its first grant, with the static block at 0x5000. *)
Definition blank : cp_grant := mkGrant 0 0 0 0 0 0 0.
Definition blank_memory : gmap (Z * Z) cp_grant :=
  <[(RS_PROC_NR, 0x5000) := blank]> (<[(RS_PROC_NR, 0x5028) := blank]> (<[(RS_PROC_NR, 0x5050) := blank]> ∅)).
Definition lib_example : gclient := mkGc RS_PROC_NR 0x5000 0 0 (-1) 0 (set_gtab blank_memory ipc_example).

Lemma blank_typed k g : blank_memory !! k = Some g -> 0 <= cp_w8 g < 2 ^ 64 /\ 0 <= cp_w16 g < 2 ^ 64.
Proof.
  intros Hk. unfold blank_memory in Hk.
  repeat (apply lookup_insert_Some in Hk as [[_ <-]|[_ Hk]]; [cbn; lia|]). by rewrite lookup_empty in Hk.
Qed.

Lemma lib_example_ok : lib_ok lib_example [].
Proof.
  split.
  - apply ipc_ok_ready. by_ok.
  - exact blank_typed.
  - exists (slot (gc_kernel lib_example) RS_PROC_NR), 7, (pslot (gc_kernel lib_example) 7).
    split; [by_slot|]. split; [by_live|]. split; [by_vm|]. split; [by_pslot|]. split; [by_vm|]. intros H. by discriminate H.
  - cbn. split; [done|by vm_compute].
  - intros H. by discriminate H.
  - cbn. lia.
  - reflexivity.
  - set_solver.
  - cbn. lia.
Qed.

Lemma lib_example_memory : memory_ok lib_example None 0.
Proof.
  split; [intros _|done]. split.
  - split; by vm_compute.
  - split; by vm_compute.
  - cbn. lia.
  - intros j Hj. change NR_STATIC_GRANTS with 3 in Hj.
    assert (j = 0 \/ j = 1 \/ j = 2) as [-> |[-> | ->]] by lia; exists blank; by_vm.
  - intros i Hi. cbn in Hi. lia.
  - exact blank_typed.
Qed.

Lemma cpf_grant_direct_correct_witness :
  exists id s' l', cpf_grant_direct None (ENDPOINT 1 11) 0x8000 0x1000 CPF_READ lib_example = Done id s' /\ lib_ok s' l'
    /\ exists r, verify_grant (ep_of s') (ENDPOINT 1 11) id 16 CPF_READ 32 (gc_kernel s') = Done r (gc_kernel s')
      /\ exists sf, r = (OK, Some (mkVf 0x8020 (ep_of s') sf)).
Proof.
  destruct (cpf_grant_direct_correct lib_example [] None (ENDPOINT 1 11) 0x8000 0x1000 CPF_READ) as
    [[E _]|(id & s' & l' & E & Hok & _ & _ & _ & Hv)];
    [exact lib_example_ok|exact lib_example_memory|by_vm|lia|lia|..].
  - exfalso. assert (match cpf_grant_direct None (ENDPOINT 1 11) 0x8000 0x1000 CPF_READ lib_example with
      Done a _ => a | Stop _ => -1 end = 0) as H by by_vm. rewrite E in H. discriminate H.
  - exists id, s', l'. split; [exact E|]. clear E. split; [exact Hok|].
    destruct (Hv (ENDPOINT 1 11) 16 CPF_READ 32) as (r & sf & E & Hr); [lia|lia|]. exists r. split; [exact E|]. exists sf.
    apply Hr. split; [by left|]. split; [lia|]. split; [by vm_compute|]. by split.
Defined.

(** RS after it. *)
Definition granted_example : gclient :=
  match cpf_grant_direct None (ENDPOINT 1 11) 0x8000 0x1000 CPF_READ lib_example with
  | Done _ s => s
  | Stop _ => lib_example
  end.

Lemma granted_example_ok : exists l, lib_ok granted_example l.
Proof.
  destruct (grant_run lib_example [] None (direct_entry (ENDPOINT 1 11) 0x8000 0x1000 CPF_READ)) as
    [(E & _)|(i & e & s' & l' & E & Hok & _)]; [exact lib_example_ok|exact lib_example_memory|..].
  - intros e (_ & _ & Hs). split; [done|]. split; [|by_vm]. split; [cbn; lia|]. split; [cbn; lia|exact Hs].
  - exfalso. assert (match (g <- cpf_new_grantslot None ;;
        if g <? 0 then ret (-1) else fill_slot g (direct_entry (ENDPOINT 1 11) 0x8000 0x1000 CPF_READ)) lib_example with
      Done a _ => a | Stop _ => -1 end = 0) as H by by_vm. rewrite E in H. discriminate H.
  - exists l'. unfold granted_example, cpf_grant_direct. change (bad_access CPF_READ) with false. cbv iota.
    unfold direct_entry in E. rewrite E. exact Hok.
Qed.

Lemma cpf_revoke_correct_witness :
  exists l r s', lib_ok granted_example l /\ cpf_revoke 0 granted_example = Done r s'
    /\ verify_grant (ep_of s') (ENDPOINT 1 11) 0 16 CPF_READ 32 (gc_kernel s') = Done (EPERM, None) (gc_kernel s').
Proof.
  destruct granted_example_ok as (l & Hok).
  destruct (cpf_revoke_correct granted_example l 0 Hok) as [(_ & g & s' & _ & E & _ & _ & _ & Hv)|[Hno _]].
  - exists l. eexists. exists s'. split; [exact Hok|]. split; [exact E|]. apply Hv.
  - exfalso. apply Hno. split; [lia|]. split; [by_vm|].
    exists (direct_entry (ENDPOINT 1 11) 0x8000 0x1000 CPF_READ (mkGrant 0 0 1 0 0 0 0)). split; [by_vm|]. split; by_vm.
Defined.
