(* ===== verification/VmProps.v ===== *)
(** * Requests to the memory server

    A process that is suspended for VM is put in front of the list of
    requests, with its request recorded, and VM is told when the list was
    empty.  VM gets exactly that request, and its reply lets the process go on
    with the result; nothing else changes on the way, so the invariant of
    message passing holds throughout. *)

From S2P Require Import Prelude Monad Timers TimerProps Endpoint Chain Kernel Sched RunQueue Init SchedProps Ipc IpcInv Deadlock IpcStep Notify IpcSend IpcRecv IpcPend IpcAsync IpcCall System Clock Vm Cancel Clear ClockProps.

Implicit Types (V : views) (P : gmap Z priv) (v w : ipcv).

(** ** Signals to a server *)

(** The signal is in the set of the process, with the notification of SYSTEM
    pending, or in the message that it has received. *)
Definition signalled (s : kstate) (n sig : Z) : Prop :=
  exists v id pv vs sid, live (view s) n v /\ v_priv v = Some id /\ privs s !! id = Some pv
    /\ live (view s) SYSTEM vs /\ v_priv vs = Some sid
    /\ (sigismember (s_sig_pending pv) sig = true /\ get_sys_bit (s_notify_pending pv) sid = true
        \/ v_recv v = None /\ has (v_misc v) MF_DELIVERMSG = true /\ m_source (v_dmsg v) = v_ep vs
           /\ exists t set, m_body (v_dmsg v) = M_notify t 0 set /\ sigismember set sig = true).

Lemma sigaddset_member set sig : 1 <= sig -> sigismember (sigaddset set sig) sig = true.
Proof.
  intros H. unfold sigismember, sigaddset. rewrite Z.lor_spec, Z.shiftl_spec by lia.
  replace (sig - 1 - (sig - 1)) with 0 by lia. apply orb_true_r.
Qed.

(** What the notification of SYSTEM does to the destination. *)
Lemma sys_notify s s' c cid dst v id pv sig :
  ready s -> live (view s) SYSTEM (ipc_of c) -> p_priv c = Some cid -> bit_ok cid ->
  live (view s) dst v -> v_priv v = Some id -> privs s !! id = Some pv -> notified s s' ->
  sigismember (s_sig_pending pv) sig = true ->
  (if will v (p_endpoint c) && negb (has (v_misc v) MF_REPLY_PEND)
   then goes s s' (<[dst := v_wake (notify_msg (k_monotonic s) SYSTEM pv) (p_endpoint c)
                              (IPC_STATUS_CALL_TO NOTIFY) v]> (view s)) (<[id := notify_taken SYSTEM pv]> (privs s))
   else goes s s' (view s) (<[id := notify_mark cid pv]> (privs s))) ->
  signalled s' dst sig /\ vm_same (view s) (view s').
Proof.
  intros Hr Hcl Hcid Hbc Hl Hid Hpv N Hsig G. pose proof (r_core _ Hr) as Hc.
  destruct (notified_live _ _ _ _ N Hcl) as (vc & Hcl' & Kc).
  destruct (c_priv _ _ Hc dst v Hl) as (id' & pv0 & Hid' & Hokd & Hpv0 & _).
  rewrite Hid in Hid'. injection Hid' as <-. rewrite Hpv in Hpv0. injection Hpv0 as <-.
  destruct (c_privs _ _ Hc id pv Hokd Hpv) as (_ & Hmap & _).
  destruct (_ && _) in G.
  - set (v' := v_wake _ _ _ _) in G. assert (keeps v v') as K by apply v_wake_keeps.
    destruct (v_wake_status (notify_msg (k_monotonic s) SYSTEM pv) (p_endpoint c) (IPC_STATUS_CALL_TO NOTIFY) v)
      as (W1 & W2 & W3). split.
    + exists v', id, (notify_taken SYSTEM pv), vc, cid. rewrite (g_view _ _ _ _ G), (g_privs _ _ _ _ G) in *. split_and!;
        [split_and!; [apply Hl|apply lookup_insert_eq|by rewrite (k_empty _ _ K), (proj2 (proj2 Hl))]
        |by rewrite (k_priv _ _ K)|apply lookup_insert_eq|done|by rewrite (k_priv _ _ Kc)|right].
      unfold v'. rewrite W1, W2, (k_ep _ _ Kc). split_and!; [done|apply has_flag_set_same; apply _|done|]. by do 2 eexists.
    + intros n w Hw. rewrite (g_view _ _ _ _ G). destruct (decide (n = dst)) as [->|Hne].
      * rewrite lookup_insert_eq. exists v'. rewrite (proj1 (proj2 Hl)) in Hw. injection Hw as <-. split; [done|].
        unfold v', v_wake, v_status_add. by destruct (has _ MF_REPLY_PEND).
      * rewrite lookup_insert_ne by done. by exists w.
  - split; [|rewrite (g_view _ _ _ _ G); intros n w Hw; by exists w].
    exists v, id, (notify_mark cid pv), vc, cid. rewrite (g_view _ _ _ _ G), (g_privs _ _ _ _ G) in *.
    split_and!; [exact Hl|done|apply lookup_insert_eq|exact Hcl'|by rewrite (k_priv _ _ Kc)|left].
    split; [done|]. cbn. rewrite get_set_sys_bit by done. by rewrite Z.eqb_refl, orb_true_r.
Qed.

Lemma send_sig_run s n v sig :
  ready s -> live (view s) n v -> 1 <= sig ->
  exists s', send_sig (v_ep v) sig s = Done OK s' /\ notified s s' /\ signalled s' n sig /\ vm_same (view s) (view s').
Proof.
  intros Hr Hv Hs. destruct (send_sig_ready s n v sig Hr Hv) as (s' & E & N). exists s'. split; [done|]. split; [done|].
  pose proof Hr as [Hb Hc Hnf Hm]. unfold send_sig in E. rewrite (bind_done _ _ _ _ _ (live_isokendpt s Hc n v Hv)) in E.
  destruct (live_proc_of s n v Hv) as (p & Hp & Ep). erewrite bind_get_proc in E by done. rewrite <- Ep in Hv.
  destruct (live_priv_of s Hc Hnf n p Hp Hv) as (id & pv & Hid & _ & Hpv & _). rewrite Hid in E.
  set (f := fun pv => set_s_sig_pending (sigaddset (s_sig_pending pv) sig) pv) in E.
  destruct (priv_notified s id pv f Hr Hpv) as (s1 & E1 & N1 & Hps); try done. rewrite (bind_done _ _ _ _ _ E1) in E.
  unfold upd_priv_id in E1. rewrite Hpv in E1. injection E1 as E1. pose proof (m_ready _ _ N1) as Hr1.
  assert (view s1 = view s) as HV by (unfold view; by rewrite Hps).
  assert (privs s1 !! id = Some (f pv)) as Hpv1 by (subst s1; apply lookup_insert_eq).
  destruct (c_task _ _ (r_core _ Hr1) SYSTEM eq_refl eq_refl) as [vs Hvs].
  destruct (live_proc_of s1 SYSTEM vs Hvs) as (c & Hcp & Ec). rewrite <- Ec in Hvs.
  destruct (c_priv _ _ (r_core _ Hr1) SYSTEM _ Hvs) as (cid & cpv & Hcid & Hok & _).
  destruct (mini_notify_ready s1 SYSTEM _ (v_ep v) Hr1 Hvs) as (r & s2 & E2 & N2).
  change (p_endpoint p) with (v_ep (ipc_of p)) in E. rewrite Ep, (bind_done _ _ _ _ _ E2) in E. injection E as ->.
  destruct (mini_notify_spec s1 SYSTEM c cid (v_ep v) Hr1 Hcp Hvs Hcid) as
    [[Hno _]|(dst & vd & id' & pv' & s3 & Hl & He & Hid' & Hpv' & E' & G)].
  { rewrite <- HV in Hv. rewrite <- Ep, (live_isokendpt s1 (r_core _ Hr1) n _ Hv) in Hno. done. }
  rewrite E2 in E'. injection E' as -> ->.
  assert (dst = n) as ->.
  { destruct (c_ep _ _ (r_core _ Hr1) dst vd Hl) as (<- & _). rewrite He, <- Ep. by destruct (c_ep _ _ Hc n _ Hv). }
  assert (vd = ipc_of p) as ->.
  { destruct Hv as (_ & Hv2 & _), Hl as (_ & Hl2 & _). rewrite HV, Hv2 in Hl2. by injection Hl2. }
  change (p_priv p = Some id') in Hid'. rewrite Hid in Hid'. injection Hid' as <-. rewrite Hpv1 in Hpv'. injection Hpv' as <-.
  destruct (sys_notify s1 s3 c cid n (ipc_of p) id (f pv) sig) as [H1 H2]; try done.
  - by apply sigaddset_member.
  - split; [done|]. by rewrite <- HV.
Qed.

(** ** Suspending *)

Lemma ipc_set_vmwait p :
  has (p_rts_flags p) RTS_SLOT_FREE = false ->
  ipc_of (set_p_rts_flags (flag_set (p_rts_flags p) RTS_VMREQUEST) p) = set_v_vmwait true (ipc_of p).
Proof. rts_view p RTS_VMREQUEST. Qed.

Lemma vmwait_isset p : RTS_ISSET p RTS_VMREQUEST = v_vmwait (ipc_of p).
Proof. unfold RTS_ISSET. by rewrite (isset_has RTS_VMREQUEST). Qed.

Lemma v_set_vmwait_step s n v :
  v_fbit v = false -> base s -> view s !! n = Some v ->
  exists s', RTS_SET n RTS_VMREQUEST s = Done tt s' /\ goes s s' (<[n := set_v_vmwait true v]> (view s)) (privs s).
Proof.
  intros Hf Hb Hv. destruct (view_lookup_inv _ _ _ Hv) as (p & Hp & <-).
  destruct (step_set s n p RTS_VMREQUEST Hb Hp eq_refl) as (s' & E & HG).
  exists s'. split; [done|]. by rewrite ipc_set_vmwait in HG.
Qed.

Lemma v_vmreq_step s n v f :
  base s -> view s !! n = Some v ->
  exists s', upd_vmrequest n f s = Done tt s' /\ goes s s' (<[n := set_v_vmreq (f (v_vmreq v)) v]> (view s)) (privs s).
Proof. intros Hb Hv. by apply (v_upd s n v _ (fun v => set_v_vmreq (f (v_vmreq v)) v)). Qed.

Lemma vm_step_ok s s' : ipc_ok s -> vm_step s s' -> ipc_ok s'.
Proof.
  intros Hok HS. pose proof (vm_step_ready _ _ (ipc_ok_ready _ Hok) HS) as [Hb Hc Hn Hm]. split; [|done|done].
  split; [done|done|]. eapply links_relax; [|exact (wf_l _ (ok_wf _ Hok))].
  exact (proj1 (vm_only_relax _ _ (vs_only _ _ HS))).
Qed.

(** The request of a process for a range of [target]. *)
Definition request (target lin len type writeflag : Z) (next : option Z) (v : vmrequest_t) : vmrequest_t :=
  set_vr_nextrequestor next
    (set_vr_type type (set_vr_writeflag writeflag (set_vr_length len (set_vr_start lin
      (set_vr_target target (set_vr_req_type VMPTYPE_CHECK v)))))).

Section Suspend.
Context (s : kstate) (l : list Z) (caller target lin len type wflag : Z) (vc vt vm : ipcv).
Context (Hok : ipc_ok s) (Hl : vm_list s l).
Context (Hc : live (view s) caller vc) (Hcw : v_vmwait vc = false).
Context (Ht : live (view s) target vt) (Htw : v_vmwait vt = false).
Context (Hvm : live (view s) VM_PROC_NR vm) (Hep : v_ep vm = VM_PROC_NR).

Definition waiting : ipcv :=
  set_v_vmreq (request (v_ep vt) lin len type wflag (vmrequest s) (v_vmreq vc)) (set_v_vmwait true vc).

Lemma caller_not_listed : caller ∉ l.
Proof. intros (_ & w & Hw & E)%(proj2 Hl). rewrite (proj1 (proj2 Hc)) in Hw. injection Hw as <-. by rewrite Hcw in E. Qed.

(** The record is made and linked to the list. *)
Lemma record_run (k : option Z -> K unit) :
  exists s3, (c <- get_proc caller ;;
      assert (negb (RTS_ISSET c RTS_VMREQUEST)) ;;
      t <- get_proc target ;;
      assert (negb (RTS_ISSET t RTS_VMREQUEST)) ;;
      RTS_SET caller RTS_VMREQUEST ;;
      upd_vmrequest caller (fun r =>
        set_vr_type type (set_vr_writeflag wflag (set_vr_length len (set_vr_start lin
          (set_vr_target (p_endpoint t) (set_vr_req_type VMPTYPE_CHECK r)))))) ;;
      head <- read_vm VmHead ;;
      upd_vmrequest caller (set_vr_nextrequestor head) ;;
      k head) s = k (vmrequest s) s3
    /\ goes s s3 (<[caller := waiting]> (view s)) (privs s).
Proof.
  pose proof (ipc_ok_ready _ Hok) as Hr. pose proof (r_base _ Hr) as Hb.
  destruct (live_proc_of s caller vc Hc) as (c & Hcp & Ec). destruct (live_proc_of s target vt Ht) as (t & Htp & Et).
  erewrite bind_get_proc by done. rewrite bind_assert by (by rewrite vmwait_isset, Ec, Hcw).
  erewrite bind_get_proc by done. rewrite bind_assert by (by rewrite vmwait_isset, Et, Htw).
  destruct (c_ep _ _ (r_core _ Hr) caller vc Hc) as (_ & Hfb & _).
  destruct (v_set_vmwait_step s caller vc Hfb Hb (proj1 (proj2 Hc))) as (s1 & E1 & G1). rewrite (bind_done _ _ _ _ _ E1).
  set (f := fun r => set_vr_type type _).
  destruct (step_on s s1 caller _ (set_v_vmreq (f (v_vmreq vc)) (set_v_vmwait true vc)) _ _ (upd_vmrequest caller f)
    (fun _ => head <- read_vm VmHead ;; upd_vmrequest caller (set_vr_nextrequestor head) ;; k head) G1) as (s2 & E2 & G2).
  { intros Hb1 Hv1. exact (v_vmreq_step s1 caller _ f Hb1 Hv1). }
  rewrite E2. rewrite (bind_done _ _ (vmrequest s) s2 s2).
  2:{ unfold read_vm, gets. by rewrite (goes_field vmrequest _ _ _ _ (fun _ => eq_refl) G2). }
  destruct (step_on s s2 caller _ waiting _ _ (upd_vmrequest caller (set_vr_nextrequestor (vmrequest s)))
    (fun _ => k (vmrequest s)) G2) as (s3 & E3 & G3).
  { intros Hb1 Hv1. destruct (v_vmreq_step s2 caller _ (set_vr_nextrequestor (vmrequest s)) Hb1 Hv1) as (s3 & E3 & G3).
    exists s3. split; [done|]. unfold waiting, request. rewrite <- Et. exact G3. }
  exists s3. by split.
Qed.

Lemma waiting_step s3 : goes s s3 (<[caller := waiting]> (view s)) (privs s) -> vm_step s s3.
Proof. intros G. eapply goes_vm_step; [exact G|]. by apply (vm_only_insert _ _ vc); [apply Hc|]. Qed.

Lemma waiting_list s3 s4 :
  view s3 = <[caller := waiting]> (view s) -> vm_same (view s3) (view s4) ->
  vm_list (set_vmrequest (Some caller) s4) (caller :: l).
Proof.
  intros HV HS. pose proof caller_not_listed as Hni.
  assert (exists w, view s4 !! caller = Some w /\ v_vmwait w = true /\ v_vmnext w = vmrequest s) as (w & Hw & Ew & En).
  { destruct (HS caller waiting) as (w & Hw & Ew & Er); [rewrite HV; apply lookup_insert_eq|].
    exists w. split; [done|]. split; [done|]. unfold v_vmnext. by rewrite Er. }
  assert (forall n w, n ∈ l -> view s !! n = Some w ->
    exists w', view s4 !! n = Some w' /\ v_vmwait w' = v_vmwait w /\ v_vmnext w' = v_vmnext w) as Hkeep.
  { intros n w' Hn Hw'. destruct (HS n w') as (w2 & Hw2 & E2 & Er);
      [rewrite HV, lookup_insert_ne by (intros ->; done); done|]. exists w2. unfold v_vmnext. by rewrite Er. }
  split.
  - change (chain (vmlink (view s4)) (Some caller) (caller :: l)). split; [done|].
    replace (vmlink (view s4) caller) with (vmrequest s) by (unfold vmlink; by rewrite Hw, En).
    eapply chain_ext; [|apply Hl].
    intros n Hn. destruct (proj2 Hl n Hn) as (_ & wn & Hwn & _). destruct (Hkeep n wn Hn Hwn) as (w' & Hw' & _ & E').
    unfold vmlink. by rewrite Hw', Hwn, E'.
  - intros n Hn. apply elem_of_cons in Hn as [-> |Hn]; [split; [apply Hc|by exists w]|].
    destruct (proj2 Hl n Hn) as (Hokn & wn & Hwn & Ewn). destruct (Hkeep n wn Hn Hwn) as (w' & Hw' & E' & _).
    split; [done|]. exists w'. split; [done|congruence].
Qed.

Lemma vm_suspend_run :
  exists s', vm_suspend caller target lin len type wflag s = Done tt s' /\ ipc_ok s' /\ vm_list s' (caller :: l)
    /\ relax (view s) (view s') /\ vm_same (<[caller := waiting]> (view s)) (view s')
    /\ (v_recv vc = None -> view s' !! caller = Some waiting)
    /\ (l = [] -> signalled s' VM_PROC_NR SIGKMEM).
Proof.
  unfold vm_suspend. destruct (record_run (fun head => (match head with
     | Some _ => ret tt
     | None => r <- send_sig VM_PROC_NR SIGKMEM ;; if negb (r =? OK) then halt Panic else ret tt
     end) ;; write_vm VmHead (Some caller))) as (s3 & E & G).
  rewrite E. clear E. pose proof (waiting_step s3 G) as S3. pose proof (vm_step_ok s s3 Hok S3) as Hok3.
  pose proof (proj1 (vm_only_relax _ _ (vs_only _ _ S3))) as R3. pose proof (g_view _ _ _ _ G) as V3.
  assert (vmrequest s = None <-> l = []) as Hnil by exact (chain_nil_head _ _ _ (proj1 Hl)).
  destruct (vmrequest s) as [x|] eqn:Ex.
  - exists (set_vmrequest (Some caller) s3). split; [done|]. split; [by apply (same_ipc_ok s3)|].
    split; [eapply waiting_list; [exact V3|by intros n w Hw; exists w]|]. split; [exact R3|].
    split; [rewrite <- V3; by intros n w Hw; exists w|].
    split; [intros _; change (view s3 !! caller = Some waiting); rewrite V3; apply lookup_insert_eq|]. intros Hn. by apply Hnil in Hn.
  - destruct (relax_live _ _ _ _ R3 Hvm) as (vm3 & Hvm3 & K3).
    destruct (send_sig_run s3 VM_PROC_NR vm3 SIGKMEM (ipc_ok_ready _ Hok3) Hvm3 ltac:(done)) as (s4 & E4 & N4 & T4 & S4).
    rewrite (k_ep _ _ K3), Hep in E4. rewrite bind_assoc, (bind_done _ _ _ _ _ E4).
    exists (set_vmrequest (Some caller) s4). split; [done|].
    split; [apply (same_ipc_ok s4); [done|]; by apply (moved_ipc_ok s3), N4|].
    split; [by eapply waiting_list|]. split; [etrans; [exact R3|apply N4]|]. split; [by rewrite <- V3|].
    split; [|intros _; exact T4]. intros Hrc. apply (n_awake _ _ N4 caller waiting); [rewrite V3; apply lookup_insert_eq|done].
Qed.
End Suspend.

(** ** Getting a request *)

Lemma allow_run s vm a b : ready s -> live (view s) VM_PROC_NR vm -> allow_ipc_filtered_memreq a b s = Done true s.
Proof.
  intros Hr Hvm. destruct (live_proc_of s _ vm Hvm) as (p & Hp & Ep). rewrite <- Ep in Hvm.
  destruct (live_priv_of s (r_core _ Hr) (r_nf _ Hr) _ p Hp Hvm) as (id & pv & Hid & _ & Hpv & _ & Hf & _).
  unfold allow_ipc_filtered_memreq, priv_at. rewrite bind_assoc. erewrite bind_get_proc by done.
  erewrite bind_priv_of by done. by rewrite Hf.
Qed.

Lemma memreq_get_empty s fuel : vm_list s [] -> memreq_get (S fuel) VmHead s = Done (ENOENT, None) s.
Proof.
  intros [H _]. cbn in H. cbn [memreq_get]. rewrite (bind_done _ _ None s s); [done|]. unfold read_vm, gets. by rewrite H.
Qed.

Section Get.
Context (s : kstate) (l : list Z) (n t : Z) (w vt vm : ipcv) (fuel : nat).
Context (Hok : ipc_ok s) (Hl : vm_list s (n :: l)) (Hw : view s !! n = Some w).
Context (Ht : live (view s) t vt) (Htg : vr_target (v_vmreq w) = v_ep vt) (Hty : vr_req_type (v_vmreq w) = VMPTYPE_CHECK).
Context (Hvm : live (view s) VM_PROC_NR vm).

Lemma memreq_get_run :
  exists s', memreq_get (S fuel) VmHead s
      = Done (VMPTYPE_CHECK, Some (mkMemreq (v_ep vt) (i32 (vr_start (v_vmreq w))) (i32 (vr_length (v_vmreq w)))
                                   (i16 (vr_writeflag (v_vmreq w))) (v_ep w))) s'
    /\ vm_step s s' /\ vm_list s' l
    /\ view s' = <[n := set_v_vmreq (set_vr_vmresult VMSUSPEND (v_vmreq w)) w]> (view s).
Proof.
  pose proof (ipc_ok_ready _ Hok) as Hr. destruct Hl as [[Hh Hch] Hin].
  destruct (Hin n) as (_ & w' & Hw' & Hwait); [set_solver|]. rewrite Hw in Hw'. injection Hw' as <-.
  cbn [memreq_get]. rewrite (bind_done _ _ (Some n) s s) by (unfold read_vm, gets; by rewrite Hh).
  destruct (view_lookup_inv _ _ _ Hw) as (p & Hp & Ep). erewrite bind_get_proc by done.
  rewrite bind_assert by (by rewrite vmwait_isset, Ep).
  change (p_vmrequest p) with (v_vmreq (ipc_of p)). change (p_endpoint p) with (v_ep (ipc_of p)). rewrite Ep.
  cbn zeta. rewrite Htg, Hty, (bind_done _ _ _ _ _ (okendpt_live s (r_core _ Hr) t vt Ht)).
  rewrite (bind_done _ _ _ _ _ (allow_run s vm n t Hr Hvm)). cbn [negb]. rewrite (bind_done _ _ tt s s) by done.
  destruct (v_vmreq_step s n w (set_vr_vmresult VMSUSPEND) (r_base _ Hr) Hw) as (s1 & E1 & G1).
  rewrite (bind_done _ _ _ _ _ E1). pose proof (g_view _ _ _ _ G1) as V1.
  assert (forall x, vmlink (view s1) x = vmlink (view s) x) as Hlk.
  { intros x. rewrite V1. unfold vmlink. destruct (decide (x = n)) as [-> |Hne];
      [by rewrite lookup_insert_eq, Hw|by rewrite lookup_insert_ne]. }
  exists (set_vmrequest (v_vmnext w) s1). split; [done|]. split_and!.
  - split; [apply base_vmrequest, G1| |apply G1]. change (vm_only (view s) (view s1)). rewrite V1.
    by apply (vm_only_insert _ _ w).
  - split.
    + change (chain (vmlink (view s1)) (v_vmnext w) l). replace (v_vmnext w) with (vmlink (view s) n) by (unfold vmlink; by rewrite Hw).
      eapply chain_ext; [intros x _; apply Hlk|done].
    + intros m Hm. destruct (Hin m) as (Hokm & wm & Hwm & Ewm); [set_solver|]. split; [done|].
      change (exists w0, view s1 !! m = Some w0 /\ v_vmwait w0 = true). rewrite V1.
      destruct (decide (m = n)) as [-> |Hne]; [rewrite lookup_insert_eq; by eexists|rewrite lookup_insert_ne by done; by exists wm].
  - exact V1.
Qed.
End Get.

(** ** The reply *)

Section Reply.
Context (s : kstate) (l : list Z) (n t : Z) (w vt : ipcv) (value : Z).
Context (Hok : ipc_ok s) (Hl : vm_list s l) (Hn : live (view s) n w) (Hni : n ∉ l) (Hwait : v_vmwait w = true).
Context (Hres : vr_vmresult (v_vmreq w) = VMSUSPEND) (Hval : value <> VMSUSPEND).
Context (Ht : live (view s) t vt) (Htg : vr_target (v_vmreq w) = v_ep vt).
Context (Hty : vr_type (v_vmreq w) = VMSTYPE_KERNELCALL \/ vr_type (v_vmreq w) = VMSTYPE_MAP
  \/ vr_type (v_vmreq w) = VMSTYPE_DELIVERMSG /\ has (v_misc w) MF_DELIVERMSG = true /\ t = n).

(** The process afterwards. *)
Definition resumed : ipcv :=
  set_v_vmwait false
    (set_v_misc (if vr_type (v_vmreq w) =? VMSTYPE_KERNELCALL then flag_set (v_misc w) MF_KCALL_RESUME else v_misc w)
      (set_v_vmreq (set_vr_vmresult value (v_vmreq w)) w)).

Lemma v_unset_vmwait_step s1 v :
  v_fbit v = false -> base s1 -> view s1 !! n = Some v ->
  exists s', RTS_UNSET n RTS_VMREQUEST s1 = Done tt s' /\ goes s1 s' (<[n := set_v_vmwait false v]> (view s1)) (privs s1).
Proof.
  intros Hf Hb Hv. destruct (view_lookup_inv _ _ _ Hv) as (p & Hp & <-).
  destruct (step_unset s1 n p RTS_VMREQUEST Hb Hp eq_refl) as (s' & E & HG).
  exists s'. split; [done|]. by rewrite ipc_unset_vmwait in HG.
Qed.

Lemma reply_goes :
  exists s', memreq_reply n value s = Done OK s' /\ goes s s' (<[n := resumed]> (view s)) (privs s).
Proof.
  pose proof (ipc_ok_ready _ Hok) as Hr. pose proof (r_base _ Hr) as Hb. unfold memreq_reply.
  destruct (live_proc_of s n w Hn) as (p & Hp & Ep). erewrite bind_get_proc by done.
  rewrite bind_assert by (by rewrite vmwait_isset, Ep).
  change (p_vmrequest p) with (v_vmreq (ipc_of p)). change (p_misc_flags p) with (v_misc (ipc_of p)). rewrite Ep.
  rewrite bind_assert by (by rewrite Hres). rewrite Htg, (bind_done _ _ _ _ _ (okendpt_live s (r_core _ Hr) t vt Ht)).
  destruct (v_vmreq_step s n w (set_vr_vmresult value) Hb (proj1 (proj2 Hn))) as (s1 & E1 & G1).
  rewrite (bind_done _ _ _ _ _ E1). rewrite bind_assert by (by apply negb_true_iff, Z.eqb_neq).
  destruct (c_ep _ _ (r_core _ Hr) n w Hn) as (_ & Hfb & _). cbn zeta.
  set (w2 := set_v_misc (if vr_type (v_vmreq w) =? VMSTYPE_KERNELCALL then flag_set (v_misc w) MF_KCALL_RESUME else v_misc w)
    (set_v_vmreq (set_vr_vmresult value (v_vmreq w)) w)).
  match goal with |- context [bind ?m ?k s1] =>
    assert (exists s2, bind m k s1 = k tt s2 /\ goes s s2 (<[n := w2]> (view s)) (privs s)) as (s2 & E2 & G2) end.
  { destruct Hty as [E|[E|(E & Hd & ->)]]; rewrite E in *; cbn [Z.eqb Pos.eqb VMSTYPE_KERNELCALL VMSTYPE_MAP VMSTYPE_DELIVERMSG].
    - eapply step_on; [exact G1|]. intros Hb1 Hv1. unfold w2. rewrite E. cbn [Z.eqb Pos.eqb VMSTYPE_KERNELCALL].
      by apply (v_upd s1 n _ _ (fun v => set_v_misc (flag_set (v_misc v) MF_KCALL_RESUME) v) Hb1 Hv1).
    - exists s1. split; [|by subst w2; rewrite E; destruct w].
      by rewrite (bind_done _ _ tt s1 s1) by (unfold assert; by rewrite vmwait_isset, Ep, Hwait).
    - exists s1. split; [|by subst w2; rewrite E; destruct w].
      rewrite (bind_done _ _ tt s1 s1); [done|]. rewrite bind_assert by done. rewrite bind_assert by apply Z.eqb_refl.
      unfold assert. by rewrite vmwait_isset, Ep, Hwait. }
  rewrite E2. destruct (step_on s s2 n w2 resumed _ _ (RTS_UNSET n RTS_VMREQUEST) (fun _ => ret OK) G2) as (s3 & E3 & G3).
  { intros Hb2 Hv2. by apply v_unset_vmwait_step. }
  exists s3. by split.
Qed.

Lemma resumed_dlv : dlv_ok (<[n := resumed]> (view s)).
Proof.
  pose proof (ipc_ok_ready _ Hok) as Hr. apply dlv_insert; [exact (c_dlv _ _ (r_core _ Hr))|]. cbn.
  destruct (v_recv w) eqn:Hrc; [right|by left].
  assert (has (v_misc w) MF_DELIVERMSG = false) as Hd by (apply (c_dlv _ _ (r_core _ Hr) n w Hn); by rewrite Hrc).
  destruct (_ =? _); [|done]. by rewrite (has_flag_set MF_KCALL_RESUME MF_DELIVERMSG), Hd.
Qed.

Lemma reply_run :
  exists s', memreq_reply n value s = Done OK s' /\ ipc_ok s' /\ vm_list s' l
    /\ view s' = <[n := resumed]> (view s).
Proof.
  pose proof (ipc_ok_ready _ Hok) as Hr. destruct reply_goes as (s' & E & G). exists s'. split; [done|].
  assert (keeps w resumed) as K by (split; auto). pose proof (g_view _ _ _ _ G) as HV. split_and!; [| |done].
  - eapply moved_ipc_ok; [exact Hok|]. eapply goes_moved; [done|exact G| |exact resumed_dlv|apply prelax_refl].
    by apply (relax_insert _ _ w); [apply Hn|].
  - destruct Hl as [Hch Hin]. split.
    + rewrite (goes_field vmrequest _ _ _ _ (fun _ => eq_refl) G). eapply chain_ext; [|exact Hch].
      intros x Hx. unfold vmlink. rewrite HV, lookup_insert_ne; [done|]. intros ->. done.
    + intros m Hm. destruct (Hin m Hm) as (Hokm & wm & Hwm & Ewm). split; [done|]. exists wm. split; [|done].
      rewrite HV, lookup_insert_ne; [done|]. intros ->. done.
Qed.
End Reply.

(** ** The life of a request *)

(** [do_vmctl] for VM itself and for a live process. *)
Lemma vmctl_get arch s vm value :
  ready s -> live (view s) VM_PROC_NR vm ->
  do_vmctl arch VM_PROC_NR SELF VMCTL_MEMREQ_GET value s = memreq_get (S cq_fuel) VmHead s.
Proof.
  intros Hr Hvm. unfold do_vmctl. destruct (live_proc_of s _ vm Hvm) as (p & Hp & Ep). erewrite bind_get_proc by done.
  rewrite Z.eqb_refl. change (p_endpoint p) with (v_ep (ipc_of p)). rewrite Ep.
  rewrite (bind_done _ _ _ _ _ (live_isokendpt s (r_core _ Hr) _ vm Hvm)). by erewrite bind_get_proc by done.
Qed.

Lemma vmctl_reply arch s vm n w value :
  ready s -> live (view s) VM_PROC_NR vm -> live (view s) n w -> v_ep w <> SELF ->
  do_vmctl arch VM_PROC_NR (v_ep w) VMCTL_MEMREQ_REPLY value s = bind (memreq_reply n value) (fun r => ret (r, None)) s.
Proof.
  intros Hr Hvm Hw Hne. unfold do_vmctl. destruct (live_proc_of s _ vm Hvm) as (p & Hp & Ep). erewrite bind_get_proc by done.
  rewrite (proj2 (Z.eqb_neq _ _) Hne), (bind_done _ _ _ _ _ (live_isokendpt s (r_core _ Hr) _ w Hw)).
  destruct (live_proc_of s _ w Hw) as (q & Hq & _). by erewrite bind_get_proc by done.
Qed.

(** C30: a request to VM is neither lost nor answered to somebody else.  When
    the kernel suspends a process on a range of another one, for a kernel call, a
    mapping or a delivery, VM is told of it if nothing was waiting.  The newest
    request is served first: the next one VM gets is this one, with the target,
    the process as the requestor, and the address, length and access as they fit
    the fields of the reply, that is, as signed 32-bit and 16-bit integers: a
    range below 2 GB arrives as it is, an address from 2 GB on does not.  VM's
    reply gives the process the result and lets it run again, with the other
    requests still waiting in their order and the invariant of message passing
    kept at every step. *)
Theorem vm_request_roundtrip arch s l caller target lin len type wflag vc vt vm value :
  ipc_ok s -> vm_list s l -> live (view s) caller vc -> v_vmwait vc = false ->
  live (view s) target vt -> v_vmwait vt = false -> live (view s) VM_PROC_NR vm -> v_ep vm = VM_PROC_NR ->
  v_ep vc <> SELF -> value <> VMSUSPEND ->
  (type = VMSTYPE_KERNELCALL \/ type = VMSTYPE_MAP
   \/ type = VMSTYPE_DELIVERMSG /\ target = caller /\ v_recv vc = None /\ has (v_misc vc) MF_DELIVERMSG = true) ->
  exists s1 s2 s3,
    vm_suspend caller target lin len type wflag s = Done tt s1
    /\ ipc_ok s1 /\ vm_list s1 (caller :: l) /\ (l = [] -> signalled s1 VM_PROC_NR SIGKMEM)
    /\ do_vmctl arch VM_PROC_NR SELF VMCTL_MEMREQ_GET 0 s1
       = Done (VMPTYPE_CHECK, Some (mkMemreq (v_ep vt) (i32 lin) (i32 len) (i16 wflag) (v_ep vc))) s2
    /\ ipc_ok s2 /\ vm_list s2 l
    /\ do_vmctl arch VM_PROC_NR (v_ep vc) VMCTL_MEMREQ_REPLY value s2 = Done (OK, None) s3
    /\ ipc_ok s3 /\ vm_list s3 l
    /\ exists v', live (view s3) caller v' /\ keeps vc v' /\ v_vmwait v' = false /\ vr_vmresult (v_vmreq v') = value
       /\ (type = VMSTYPE_KERNELCALL -> has (v_misc v') MF_KCALL_RESUME = true).
Proof.
  intros Hok Hl Hc Hcw Ht Htw Hvm Hep Hself Hval Hty. pose proof (caller_not_listed s l caller vc Hl Hc Hcw) as Hni.
  destruct (vm_suspend_run s l caller target lin len type wflag vc vt vm Hok Hl Hc Hcw Ht Htw Hvm Hep)
    as (s1 & E1 & Hok1 & Hl1 & R1 & S1 & A1 & T1).
  destruct (relax_live _ _ _ _ R1 Hc) as (v1 & Hv1 & K1). destruct (relax_live _ _ _ _ R1 Ht) as (t1 & Ht1 & Kt).
  destruct (relax_live _ _ _ _ R1 Hvm) as (m1 & Hm1 & Km).
  set (W := waiting s lin len type wflag vc vt) in *.
  assert (v_vmreq v1 = v_vmreq W /\ v_vmwait v1 = true) as [Er Ew].
  { destruct (S1 caller W) as (x & Hx & Ew & Ex); [apply lookup_insert_eq|].
    rewrite (proj1 (proj2 Hv1)) in Hx. by injection Hx as ->. }
  destruct (memreq_get_run s1 l caller target v1 t1 m1 cq_fuel) as (s2 & E2 & S2 & Hl2 & V2); try done.
  { apply Hv1. } { by rewrite Er, (k_ep _ _ Kt). } { by rewrite Er. }
  pose proof (vm_step_ok _ _ Hok1 S2) as Hok2. pose proof (proj1 (vm_only_relax _ _ (vs_only _ _ S2))) as R2.
  set (v2 := set_v_vmreq (set_vr_vmresult VMSUSPEND (v_vmreq v1)) v1) in V2.
  assert (live (view s2) caller v2) as Hv2.
  { split_and!; [apply Hv1|rewrite V2; apply lookup_insert_eq|apply Hv1]. }
  destruct (relax_live _ _ _ _ R2 Ht1) as (t2 & Ht2 & Kt2). destruct (relax_live _ _ _ _ R2 Hm1) as (m2 & Hm2 & _).
  destruct (reply_run s2 l caller target v2 t2 value) as (s3 & E3 & Hok3 & Hl3 & V3); try done.
  { change (vr_target (v_vmreq v1) = v_ep t2). by rewrite Er, (k_ep _ _ Kt2), (k_ep _ _ Kt). }
  { change (vr_type (v_vmreq v2)) with (vr_type (v_vmreq v1)). rewrite Er. destruct Hty as [?|[?|(? & Htc & Hrc & Hd)]]; auto.
    right. right. split; [done|]. split; [|done]. specialize (A1 Hrc). rewrite (proj1 (proj2 Hv1)) in A1. by injection A1 as ->. }
  exists s1, s2, s3. rewrite (vmctl_get arch s1 m1) by (done || by apply ipc_ok_ready).
  rewrite <- (k_ep _ _ K1) in Hself |- *. change (v_ep v1) with (v_ep v2) in Hself |- *.
  rewrite (vmctl_reply arch s2 m2 caller v2) by (done || by apply ipc_ok_ready).
  rewrite (bind_done _ _ _ _ _ E3), E2, Er, (k_ep _ _ Kt).
  assert (keeps v1 (resumed v2 value)) as K3 by (split; auto).
  split_and!; try done. exists (resumed v2 value). split_and!.
  - split_and!; [apply Hc|rewrite V3; apply lookup_insert_eq|apply Hv2].
  - by etrans.
  - done.
  - done.
  - intros E. unfold resumed. cbn [set_v_vmwait set_v_misc v_misc]. change (vr_type (v_vmreq v2)) with (vr_type (v_vmreq v1)).
    rewrite Er. cbn. rewrite E. cbn. by apply (has_flag_set_same MF_KCALL_RESUME).
Qed.

Lemma vm_list_nil s : vmrequest s = None -> vm_list s [].
Proof. intros H. split; [done|]. intros n Hn. by apply elem_of_nil in Hn. Qed.

(** VM, RS and two user processes; nobody waits for VM. *)
Definition vm_example : kstate :=
  example [live_proc RS_PROC_NR 7 0 4; live_proc VM_PROC_NR 8 0 4; live_proc 11 16 0 7; live_proc 12 16 0 7]
    [live_priv RS_PROC_NR 7 SRV_F; live_priv VM_PROC_NR 8 SRV_F; live_priv 11 16 USR_F] 11.

Lemma vm_request_roundtrip_witness :
  exists s1 s2 s3,
    vm_suspend 11 12 0x7000 64 VMSTYPE_KERNELCALL 1 vm_example = Done tt s1 /\ signalled s1 VM_PROC_NR SIGKMEM
    /\ do_vmctl (fun _ _ _ => ret EINVAL) VM_PROC_NR SELF VMCTL_MEMREQ_GET 0 s1
       = Done (VMPTYPE_CHECK, Some (mkMemreq (ENDPOINT 1 12) 0x7000 64 1 (ENDPOINT 1 11))) s2
    /\ do_vmctl (fun _ _ _ => ret EINVAL) VM_PROC_NR (ENDPOINT 1 11) VMCTL_MEMREQ_REPLY OK s2 = Done (OK, None) s3
    /\ ipc_ok s3.
Proof.
  destruct (vm_request_roundtrip (fun _ _ _ => ret EINVAL) vm_example [] 11 12 0x7000 64 VMSTYPE_KERNELCALL 1
    (ipc_of (slot vm_example 11)) (ipc_of (slot vm_example 12)) (ipc_of (slot vm_example VM_PROC_NR)) OK)
    as (s1 & s2 & s3 & E1 & _ & _ & T1 & E2 & _ & _ & E3 & Hok & _);
    [by_ok|apply vm_list_nil; by_vm|by_live|by_vm|by_live|by_vm|by_live|by_vm|vm_compute; discriminate|done|by left|].
  replace (v_ep (ipc_of (slot vm_example 11))) with (ENDPOINT 1 11) in E2, E3 by by_vm.
  replace (v_ep (ipc_of (slot vm_example 12))) with (ENDPOINT 1 12) in E2 by by_vm.
  exists s1, s2, s3. split; [exact E1|]. split; [exact (T1 eq_refl)|]. split; [exact E2|]. split; [exact E3|exact Hok].
Defined.
