(* ===== verification/IrqProps.v ===== *)
(** * Interrupts: what drivers can do and what they get

    [do_irqctl] keeps the interrupt tables well formed and lets a driver touch
    its own hooks only; an interrupt reaches the driver of every hook of its
    line and the line stays masked until they are all done. *)

From S2P Require Import Prelude Monad Timers Endpoint AuditRing DrvQueue Chain Kernel Sched RunQueue Init SchedProps Ipc IpcInv Deadlock IpcStep Notify System Clock Cancel Clear ClockProps IpcSend SysProps Irq IrqInv.

(** The process with endpoint [e] is alive and has a privilege structure of its
    own. *)
Definition owner (s : kstate) (e : Z) : Prop :=
  exists n v id pv, live (view s) n v /\ v_ep v = e /\ v_priv v = Some id /\ privs s !! id = Some pv /\ s_proc_nr pv = n.

(** There are no kernel threads for interrupts (see Boot). *)
Definition no_thread (t : irq_thread) : Prop := it_proc t = None /\ it_endpoint t = NONE.

Record irq_ok (s : kstate) (L : Z -> list Z) : Prop := {
  ir_tabs : irqs_ok (irqs_of s) L None;
  ir_own : forall h k, irq_hooks s !! h = Some k -> h_proc_nr_e k <> NONE -> owner s (h_proc_nr_e k);
  ir_thr : forall irq, vector irq -> exists t, irq_threads s !! irq = Some t /\ no_thread t;
  ir_mmio : forall irq, vector irq -> is_Some (irq_mmio s !! irq)
}.

(** ** Finding a hook *)

Lemma hook_table_elem h : h ∈ irq_hook_table <-> 0 <= h < NR_IRQ_HOOKS.
Proof.
  unfold irq_hook_table. rewrite list_elem_of_fmap. split.
  - intros (i & -> & Hi%elem_of_seq). unfold NR_IRQ_HOOKS in *. lia.
  - intros H. exists (Z.to_nat h). split; [lia|]. apply elem_of_seq. unfold NR_IRQ_HOOKS in *. lia.
Qed.

Lemma find_hook_run s t test l :
  (forall h, h ∈ l -> is_Some (q_hooks t !! h)) ->
  exists r, find_hook test l (with_irqs t s) = Done r (with_irqs t s)
    /\ match r with
       | Some h => h ∈ l /\ exists k, q_hooks t !! h = Some k /\ test k = true
       | None => forall h k, h ∈ l -> q_hooks t !! h = Some k -> test k = false
       end.
Proof.
  induction l as [|h l IH]; intros Hs; cbn [find_hook].
  { exists None. split; [done|]. by intros h k ?%elem_of_nil. }
  destruct (Hs h ltac:(set_solver)) as [k Hk]. rewrite (bind_done _ _ _ _ _ (get_hook_run s t h k Hk)).
  destruct (test k) eqn:Et.
  - exists (Some h). split; [done|]. split; [set_solver|]. by exists k.
  - destruct IH as (r & E & Hr); [intros y Hy; apply Hs; set_solver|]. exists r. split; [done|]. destruct r as [y|].
    + destruct Hr as [Hy Hr]. split; [set_solver|done].
    + intros y ky [->|Hy]%elem_of_cons Hky; [congruence|by eapply Hr].
Qed.

Lemma table_some t L x : irqs_ok t L x -> forall h, h ∈ irq_hook_table -> is_Some (q_hooks t !! h).
Proof.
  intros H h Hh%hook_table_elem. apply (ho_tab _ _ _ (iq_hooks _ _ _ H)) in Hh as [d Hd].
  destruct (hdata_inv _ _ _ Hd) as (k & Hk & _). by exists k.
Qed.

(** The tables differ only in hooks that are free or belong to [e]. *)
Definition others_kept (e : Z) (t t' : irqs) : Prop :=
  forall h d, hdata t !! h = Some d -> h_proc_nr_e d <> NONE -> h_proc_nr_e d <> e -> hdata t' !! h = Some d.

#[export] Instance others_kept_refl e : Reflexive (others_kept e).
Proof. by intros t h d ?. Qed.
Lemma others_kept_trans e t1 t2 t3 : others_kept e t1 t2 -> others_kept e t2 t3 -> others_kept e t1 t3.
Proof. intros H1 H2 h d Hd Hu He. apply H2; auto. Qed.
Lemma others_kept_data e t t' : hdata t' = hdata t -> others_kept e t t'.
Proof. intros E h d Hd _ _. by rewrite E. Qed.

Lemma others_kept_upd e t h k k' :
  q_hooks t !! h = Some k -> h_proc_nr_e k = NONE \/ h_proc_nr_e k = e -> others_kept e t (put_hooks (<[h := k']> (q_hooks t)) t).
Proof.
  intros Hk Ho y d Hd Hu He. unfold hdata. cbn. rewrite fmap_insert, lookup_insert_ne; [exact Hd|]. intros <-.
  rewrite (hdata_lookup _ _ _ Hk) in Hd. injection Hd as <-. cbn in *. tauto.
Qed.

(** The hook a policy is set on: off all lines afterwards, and nobody else has
    the caller's notification id. *)
Lemma policy_hook_run s t L e n :
  irqs_ok t L None -> e <> NONE ->
  exists r t', policy_hook e n (with_irqs t s) = Done r (with_irqs t' s)
    /\ match r with
       | None => t' = t
       | Some h => exists L' k, irqs_ok t' L' (Some h) /\ q_hooks t' !! h = Some k /\ hdata t' = hdata t
           /\ (forall irq, (length (L' irq) <= length (L irq))%nat) /\ (h_proc_nr_e k = NONE \/ h_proc_nr_e k = e)
           /\ (h_proc_nr_e k = NONE -> t' = t /\ L' = L)
           /\ forall y d, hdata t' !! y = Some d -> y <> h -> h_proc_nr_e d = e -> h_notify_id d <> n
       end.
Proof.
  intros H He. unfold policy_hook.
  destruct (find_hook_run s t (fun k => (h_proc_nr_e k =? e) && (h_notify_id k =? n)) irq_hook_table (table_some _ _ _ H)) as (r & E & Hr).
  rewrite (bind_done _ _ _ _ _ E). destruct r as [h|].
  - destruct Hr as (_ & k & Hk & [Hp%Z.eqb_eq Hn%Z.eqb_eq]%andb_true_iff).
    destruct (rm_irq_handler_run s t L h k H Hk) as (pre & suf & a & Hl & Hi & Ha & Er & Hok); [congruence|].
    rewrite (bind_done _ _ _ _ _ Er). eexists (Some h), _. split; [done|].
    set (t' := removed _ _ _ _ _ _) in *. assert (hdata t' = hdata t) as ED by (exact (unlinked_data (h_irq k) pre suf (h_id k) a t)).
    destruct (hdata_inv t' h (set_h_next None k)) as (k' & Hk' & Ek); [rewrite ED; by apply hdata_lookup|].
    assert (h_proc_nr_e k' = e) as Hpe by (rewrite <- Hp; exact (f_equal h_proc_nr_e (eq_sym Ek))).
    exists (at_line L (h_irq k) (pre ++ suf)), k'. split_and!; try done; [|by right|congruence|].
    + intros irq. unfold at_line. destruct (Z.eqb_spec irq (h_irq k)) as [->|]; [|done]. rewrite Hl, !length_app. cbn. lia.
    + rewrite ED. intros y d Hd Hne Hde Hdn. apply Hne.
      apply (ho_own _ _ _ (iq_hooks _ _ _ H) y h d (set_h_next None k)); try done; [by apply hdata_lookup|congruence|cbn; congruence|cbn; congruence].
  - destruct (find_hook_run s t (fun k => h_proc_nr_e k =? NONE) irq_hook_table (table_some _ _ _ H)) as (r & E2 & Hr2).
    rewrite E2. exists r, t. split; [done|]. destruct r as [h|]; [|done]. destruct Hr2 as (_ & k & Hk & Hf%Z.eqb_eq).
    exists L, k. split_and!; try done; [by apply (transit_free t L h k Hk Hf)|by left|].
    intros y d Hd Hne Hde Hdn. destruct (hdata_inv _ _ _ Hd) as (ky & Hky & ->).
    assert (y ∈ irq_hook_table) as Hy by (apply hook_table_elem, (ho_tab _ _ _ (iq_hooks _ _ _ H)); by eexists).
    specialize (Hr y ky Hy Hky). cbn in Hde, Hdn. rewrite Hde, Hdn, !Z.eqb_refl in Hr. done.
Qed.

(** ** Requests *)

Lemma bad_id_spec n : - 2 ^ 31 <= n < 2 ^ 31 -> bad_notify_id n = false -> 0 <= n < 64.
Proof.
  intros Hn Hb. unfold bad_notify_id, u64 in Hb. apply Z.ltb_ge in Hb.
  destruct (Z_lt_le_dec n 0) as [Hneg|Hpos]; [|rewrite Z.mod_small in Hb; lia].
  rewrite <- (Z.mod_add n 1), Z.mod_small in Hb; lia.
Qed.

(** Setting the policy on the hook found: afterwards it fits any line. *)
Lemma policy_fits s t L e n h k policy :
  irqs_ok t L (Some h) -> q_hooks t !! h = Some k -> e <> NONE -> 0 <= n < 64 ->
  (forall y d, hdata t !! y = Some d -> y <> h -> h_proc_nr_e d = e -> h_notify_id d <> n) ->
  let k' := set_policy_of e n policy k in
  let t' := put_hooks (<[h := k']> (q_hooks t)) t in
  upd_hook h (set_policy_of e n policy) (with_irqs t s) = Done tt (with_irqs t' s) /\ fits t' L h k'.
Proof.
  intros H Hk He Hn Hu k' t'. split; [by apply upd_hook_run|]. split_and!; try done.
  - by eapply transit_upd.
  - by cbn; rewrite lookup_insert_eq.
  - apply Hn.
  - apply Hn.
  - intros y d Hd Hne. unfold hdata in Hd. cbn in Hd. rewrite fmap_insert, lookup_insert_ne in Hd by done. by apply (Hu y d).
Qed.

(** The state after a request: only the interrupt tables have changed, in
    hooks that are free or the caller's. *)
Record irq_step (e : Z) (s s' : kstate) : Prop := {
  is_ok : exists L', irqs_ok (irqs_of s') L' None;
  is_same : with_irqs (irqs_of s) s' = s;
  is_kept : others_kept e (irqs_of s) (irqs_of s');
  is_own : forall h k, irq_hooks s' !! h = Some k -> h_proc_nr_e k <> NONE ->
    h_proc_nr_e k = e \/ exists k0, irq_hooks s !! h = Some k0 /\ h_proc_nr_e k0 = h_proc_nr_e k
}.

Lemma own_data e t t' h k : hdata t' = hdata t -> q_hooks t' !! h = Some k ->
  h_proc_nr_e k = e \/ exists k0, q_hooks t !! h = Some k0 /\ h_proc_nr_e k0 = h_proc_nr_e k.
Proof.
  intros E Hk. apply hdata_lookup in Hk. rewrite E in Hk. destruct (hdata_inv _ _ _ Hk) as (k0 & Hk0 & Ek).
  right. exists k0. split; [done|]. exact (f_equal h_proc_nr_e (eq_sym Ek)).
Qed.

(** Tables with the same hooks, and one hook of the caller changed. *)
Lemma irq_step_tables e s t' L' :
  irqs_ok t' L' None -> others_kept e (irqs_of s) t' ->
  (forall h k, q_hooks t' !! h = Some k -> h_proc_nr_e k <> NONE ->
     h_proc_nr_e k = e \/ exists k0, irq_hooks s !! h = Some k0 /\ h_proc_nr_e k0 = h_proc_nr_e k) ->
  irq_step e s (with_irqs t' s).
Proof.
  intros Hok Hk Ho. split.
  - exists L'. by rewrite irqs_of_with.
  - by rewrite with_irqs_twice, with_irqs_of.
  - by rewrite irqs_of_with.
  - exact Ho.
Qed.

Lemma irq_step_refl e s L : irqs_ok (irqs_of s) L None -> irq_step e s s.
Proof.
  intros H. rewrite <- (with_irqs_of s) at 2. apply (irq_step_tables _ _ _ L); [done|reflexivity|]. intros h k Hk _. right. by exists k.
Qed.

Lemma put_hook_step s t L e n h k policy irq (msix : bool) :
  irqs_ok t L (Some h) -> q_hooks t !! h = Some k -> e <> NONE -> 0 <= n < 64 -> vector irq ->
  (msix = true -> IS_MSIX_IRQ irq = true) -> (length (L irq) < 32)%nat ->
  (h_proc_nr_e k = NONE \/ h_proc_nr_e k = e) -> hdata t = hdata (irqs_of s) ->
  (forall y d, hdata t !! y = Some d -> y <> h -> h_proc_nr_e d = e -> h_notify_id d <> n) ->
  exists s', (upd_hook h (set_policy_of e n policy) ;;
     if msix then put_msix_handler h irq else put_irq_handler h irq) (with_irqs t s) = Done tt s' /\ irq_step e s s'.
Proof.
  intros H Hk He Hn Hi Hm Hlen Ho ED Hu.
  destruct (policy_fits s t L e n h k policy H Hk He Hn Hu) as [E1 Hfit]. set (k' := set_policy_of e n policy k) in *.
  set (t1 := put_hooks _ t) in *. rewrite (bind_done _ _ _ _ _ E1).
  assert (exists t', (if msix then put_msix_handler h irq else put_irq_handler h irq) (with_irqs t1 s) = Done tt (with_irqs t' s)
    /\ irqs_ok t' (at_line L irq (L irq ++ [h])) None /\ exists j, hdata t' = <[h := set_h_id j (set_h_irq irq (set_h_next None k'))]> (hdata t1)) as (t' & E & Hok & j & Ed).
  { destruct msix.
    - by apply (put_msix_handler_run s t1 L irq h k'); auto.
    - by apply (put_irq_handler_run s t1 L irq h k'). }
  exists (with_irqs t' s). split; [done|].
  assert (hdata t1 = <[h := set_h_next None k']> (hdata t)) as Ed1 by (unfold hdata; cbn; by rewrite fmap_insert).
  apply (irq_step_tables e s t' _ Hok).
  - intros y d Hd Hu' Hd'. rewrite Ed, Ed1, insert_insert_eq, lookup_insert_ne; [by rewrite ED|]. intros <-.
    rewrite <- ED, (hdata_lookup _ _ _ Hk) in Hd. injection Hd as <-. cbn in *. tauto.
  - intros y ky Hky Hu'. apply hdata_lookup in Hky. rewrite Ed, Ed1, insert_insert_eq in Hky.
    destruct (decide (y = h)) as [->|Hne].
    + left. rewrite lookup_insert_eq in Hky. apply Some_inj in Hky. exact (eq_sym (f_equal h_proc_nr_e Hky)).
    + rewrite lookup_insert_ne, ED in Hky by done. destruct (hdata_inv _ _ _ Hky) as (k0 & Hk0 & Ek). right. exists k0.
      split; [done|]. exact (f_equal h_proc_nr_e (eq_sym Ek)).
Qed.

(** A driver: a live process with a privilege structure of its own. *)
Definition driver (s : kstate) (n : Z) (c : proc) : Prop :=
  procs s !! n = Some c /\ live (view s) n (ipc_of c)
  /\ exists id pv, p_priv c = Some id /\ privs s !! id = Some pv /\ s_proc_nr pv = n.

Lemma driver_owner s n c : driver s n c -> owner s (p_endpoint c).
Proof. intros (Hc & Hl & id & pv & Hid & Hpv & Hn). by exists n, (ipc_of c), id, pv. Qed.

Lemma live_not_none s n v : ready s -> live (view s) n v -> v_ep v <> NONE.
Proof.
  intros Hr Hl E. destruct (c_ep _ _ (r_core _ Hr) n v Hl) as (Hn & _). rewrite E in Hn. destruct Hl as (Hok & _).
  by rewrite <- Hn in Hok.
Qed.

(** What a request leaves: everything well formed, the same processes, and the
    hooks of everybody but the caller as they were. *)
Record irqctl_done (e : Z) (s s' : kstate) : Prop := {
  id_ok : exists L', irq_ok s' L';
  id_ready : ready s';
  id_view : view s' = view s;
  id_privs : privs s' = privs s;
  id_kept : others_kept e (irqs_of s) (irqs_of s')
}.

Lemma owner_same s s' e : view s' = view s -> privs s' = privs s -> owner s e -> owner s' e.
Proof. intros E1 E2 H. unfold owner. by rewrite E1, E2. Qed.

Lemma irq_step_done e s s' L : ready s -> irq_ok s L -> owner s e -> irq_step e s s' -> irqctl_done e s s'.
Proof.
  intros Hr [H1 H2 H3 H4] He [[L' Hok] Hs Hk Ho]. set (F A (f : kstate -> A) := f_equal f Hs).
  assert (same_tables s s') as HS by (split; [exact (F _ procs)|exact (F _ privs)|exact (F _ run_q_head)|exact (F _ run_q_tail)|exact (F _ proc_ptr)|exact (F _ bill_ptr)]).
  pose proof (same_view _ _ HS) as HV. pose proof (st_privs _ _ HS) as HP.
  split; [|by eapply same_ready|done|done|done]. exists L'. split; [done| | |].
  - intros h k Hh Hu. apply (owner_same s); [done|done|]. destruct (Ho h k Hh Hu) as [->|(k0 & Hk0 & E0)]; [done|].
    rewrite <- E0. apply (H2 h k0 Hk0). by rewrite E0.
  - intros irq Hi. rewrite (F _ irq_threads : irq_threads s' = irq_threads s). by apply H3.
  - intros irq Hi. rewrite (F _ irq_mmio : irq_mmio s' = irq_mmio s). by apply H4.
Qed.

(** Changes outside the interrupt tables. *)
Lemma irqctl_other e s s' s2 :
  irqctl_done e s s' -> ready s2 -> view s2 = view s' -> privs s2 = privs s' -> irqs_of s2 = irqs_of s' ->
  (forall irq, vector irq -> exists t, irq_threads s2 !! irq = Some t /\ no_thread t) ->
  (forall irq, vector irq -> is_Some (irq_mmio s2 !! irq)) -> irqctl_done e s s2.
Proof.
  intros [[L' [H1 H2 H3 H4]] Hr HV HP Hk] Hr2 EV EP EI HT HM. split; [|done|congruence|congruence|by rewrite EI].
  exists L'. split; [by rewrite EI| |done|done]. intros h k Hh Hu. apply (owner_same s'); [done|done|]. apply (H2 h k); [|done].
  rewrite <- Hh. exact (f_equal (fun t => q_hooks t !! h) (eq_sym EI)).
Qed.

Lemma irqctl_refl e s L : ready s -> irq_ok s L -> irqctl_done e s s.
Proof. intros Hr H. split; [by exists L|done|done|done|reflexivity]. Qed.

Lemma upd_thread_done e s s' irq f :
  irqctl_done e s s' -> vector irq -> (forall t, no_thread t -> no_thread (f t)) ->
  exists s2, upd_thread irq f s' = Done tt s2 /\ irqctl_done e s s2.
Proof.
  intros Hd Hi Hf. pose proof Hd as [[L' H] Hr _ _ _]. destruct (ir_thr _ _ H irq Hi) as (t & Ht & Hn). unfold upd_thread. rewrite Ht.
  eexists. split; [done|]. eapply irqctl_other; [exact Hd|eapply same_ready; [|exact Hr]; done|done|done|done| |apply (ir_mmio _ _ H)].
  intros i Hvi. cbn. destruct (decide (i = irq)) as [->|Hne]; [rewrite lookup_insert_eq; eexists; split; [done|by apply Hf]|].
  rewrite lookup_insert_ne by done. by apply (ir_thr _ _ H).
Qed.

Lemma bad_thread_false irq : bad_thread irq = false -> vector irq.
Proof. unfold bad_thread. intros [H1%Z.ltb_ge H2%Z.leb_gt]%orb_false_iff. split; [done|]. exact H2. Qed.
Lemma vector_thread irq : vector irq -> bad_thread irq = false.
Proof. exact (vector_bound irq). Qed.

Section Requests.
Context (pg_remap_page : Z -> Z -> Z).
Context (s : kstate) (L : Z -> list Z) (caller : Z) (c : proc) (m : irqctl).
Hypothesis Hready : ready s.
Hypothesis Hirq : irq_ok s L.
Hypothesis Hdriver : driver s caller c.
Hypothesis Hid : - 2 ^ 31 <= iq_hook_id m < 2 ^ 31.

Notation e := (p_endpoint c).
Definition finishes (act : K (Z * option Z)) : Prop := exists r s', act s = Done r s' /\ irqctl_done e s s'.

Lemma finishes_ret r : finishes (ret r).
Proof. exists r, s. split; [done|]. by eapply irqctl_refl. Qed.

(** The common part of the two requests that set a policy. *)
Lemma set_policy_run irq (msix : bool) policy :
  vector irq -> (msix = true -> IS_MSIX_IRQ irq = true) -> (length (L irq) < 32)%nat -> bad_notify_id (iq_hook_id m) = false ->
  exists r s', (h <- policy_hook e (iq_hook_id m) ;;
      match h with
      | None => ret None
      | Some h => upd_hook h (set_policy_of e (iq_hook_id m) policy) ;;
                  (if msix then put_msix_handler h irq else put_irq_handler h irq) ;; ret (Some h)
      end) s = Done r s' /\ irqctl_done e s s'.
Proof.
  intros Hi Hm Hlen Hbad. pose proof (bad_id_spec _ Hid Hbad) as Hn. pose proof (ir_tabs _ _ Hirq) as Hok.
  assert (e <> NONE) as He by (exact (live_not_none s caller (ipc_of c) Hready (proj1 (proj2 Hdriver)))).
  destruct (policy_hook_run s (irqs_of s) L e (iq_hook_id m) Hok He) as (r & t1 & E & Hr). rewrite with_irqs_of in E.
  rewrite (bind_done _ _ _ _ _ E). destruct r as [h|].
  - destruct Hr as (L1 & k & Hok1 & Hk & ED & Hle & Ho & _ & Hu). specialize (Hle irq).
    destruct (put_hook_step s t1 L1 e (iq_hook_id m) h k policy irq msix) as (s' & E' & Hs); try done; [lia|].
    exists (Some h), s'. split; [|by eapply irq_step_done; [..|by eapply driver_owner|]].
    revert E'. unfold bind. destruct (upd_hook h _ _) as [[] s1|]; [|done].
    by intros ->.
  - rewrite Hr, with_irqs_of. exists None, s. split; [done|]. by eapply irqctl_refl.
Qed.

Lemma setpolicy_run : (vector (iq_vector m) -> (length (L (iq_vector m)) < 32)%nat) -> finishes (irq_setpolicy caller m).
Proof.
  intros Hlen. unfold irq_setpolicy. destruct ((iq_vector m <? 0) || (NR_IRQ_VECTORS <=? iq_vector m)) eqn:Ev; [apply finishes_ret|].
  assert (vector (iq_vector m)) as Hi by (exact (bad_thread_false _ Ev)). pose proof Hdriver as (Hc & _ & id & pv & Hp & Hpv & _).
  unfold finishes. erewrite bind_get_proc by done. rewrite Hp. unfold get_priv_id at 1. unfold bind at 1. rewrite Hpv.
  destruct (has (s_flags pv) CHECK_IRQ && _); [apply finishes_ret|]. destruct (bad_notify_id (iq_hook_id m)) eqn:Eb; [apply finishes_ret|].
  destruct (set_policy_run (iq_vector m) false (iq_policy m) Hi ltac:(done) (Hlen Hi) Eb) as (r & s1 & E & Hd).
  revert E. unfold bind at 1. unfold bind at 3. destruct (policy_hook e (iq_hook_id m) s) as [[h|] s0|]; [| |done].
  2:{ intros [= <- <-]. by eexists _, s0. }
  unfold bind at 1 2 3. destruct (upd_hook h _ s0) as [[] s2|]; [|done]. unfold bind at 1.
  destruct (put_irq_handler h (iq_vector m) s2) as [[] s3|]; [|done]. intros [= <- <-].
  assert (iq_vector m <? NR_IRQ_THREADS = true) as -> by (apply Z.ltb_lt; apply Hi). unfold irq_thread_register.
  rewrite vector_thread by done.
  destruct (upd_thread_done e s s3 (iq_vector m) (fun t => set_it_registered 1 (set_it_handler true t)) Hd Hi) as (s4 & E4 & Hd4); [done|].
  rewrite bind_assoc, (bind_done _ _ _ _ _ E4). by eexists _, s4.
Qed.

Lemma msix_setpolicy_run : (vector (iq_vector m) -> (length (L (iq_vector m)) < 32)%nat) -> finishes (irq_msix_setpolicy caller m).
Proof.
  intros Hlen. unfold irq_msix_setpolicy, finishes.
  assert (exists b, msix_is_allocated (iq_vector m) s = Done b s) as (b & Eb) by (unfold msix_is_allocated; destruct (_ || _); by eexists).
  rewrite (bind_done _ _ _ _ _ Eb). destruct (negb (IS_MSIX_IRQ (iq_vector m)) || negb b) eqn:Ex; [apply finishes_ret|].
  apply orb_false_iff in Ex as [Hx%negb_false_iff _].
  assert (vector (iq_vector m)) as Hi.
  { unfold IS_MSIX_IRQ, MSIX_IRQ_BASE, NR_MSIX_IRQS in Hx. apply andb_true_iff in Hx as [H1%Z.leb_le H2%Z.ltb_lt].
    unfold vector, NR_IRQ_VECTORS. lia. }
  pose proof Hdriver as (Hc & _ & id & pv & Hp & _). erewrite bind_get_proc by done. rewrite Hp.
  destruct (bad_notify_id (iq_hook_id m)) eqn:Ebad; [apply finishes_ret|].
  destruct (set_policy_run (iq_vector m) true (iq_policy m) Hi ltac:(done) (Hlen Hi) Ebad) as (r & s1 & E & Hd).
  revert E. unfold bind at 1. unfold bind at 3. destruct (policy_hook e (iq_hook_id m) s) as [[h|] s0|]; [| |done].
  2:{ intros [= <- <-]. by eexists _, s0. }
  unfold bind. destruct (upd_hook h _ s0) as [[] s2|]; [|done].
  destruct (put_msix_handler h (iq_vector m) s2) as [[] s3|]; [|done]. intros [= <- <-]. by eexists _, s3.
Qed.

Lemma own_hook_run h act :
  (forall k, irq_hooks s !! h = Some k -> h_proc_nr_e k = e -> e <> NONE -> finishes act) -> finishes (own_hook e h act).
Proof.
  intros Hact. unfold own_hook. destruct ((NR_IRQ_HOOKS <=? h) || (h <? 0)) eqn:Eh; [apply finishes_ret|].
  apply orb_false_iff in Eh as [H1%Z.leb_gt H2%Z.ltb_ge].
  destruct (table_some _ _ _ (ir_tabs _ _ Hirq) h) as [k Hk]; [by apply hook_table_elem|].
  unfold finishes. unfold get_hook at 1. unfold bind at 1. rewrite (Hk : irq_hooks s !! h = Some k).
  destruct (Z.eqb_spec (h_proc_nr_e k) NONE) as [|Hn]; [apply finishes_ret|].
  destruct (Z.eqb_spec (h_proc_nr_e k) e) as [He|]; cbn [negb]; [|apply finishes_ret].
  apply (Hact k Hk He). congruence.
Qed.

(** Steps that leave what the hooks say alone. *)
Lemma same_hooks_done t' L' : irqs_ok t' L' None -> hdata t' = hdata (irqs_of s) -> irqctl_done e s (with_irqs t' s).
Proof.
  intros Hok ED. eapply irq_step_done; [done|exact Hirq|by eapply driver_owner|].
  apply (irq_step_tables e s t' L' Hok); [by apply others_kept_data|]. intros h k Hk _. by apply (own_data e (irqs_of s) t').
Qed.

Lemma hook_line h k :
  irq_hooks s !! h = Some k -> h_proc_nr_e k <> NONE ->
  vector (h_irq k) /\ h ∈ L (h_irq k) /\ exists j, 0 <= j < 32 /\ h_id k = 2 ^ j.
Proof.
  intros Hk Hu. pose proof (ir_tabs _ _ Hirq) as Hok.
  destruct (ho_used _ _ _ (iq_hooks _ _ _ Hok) h _ (hdata_lookup (irqs_of s) h k Hk) Hu) as (Hi & Hin & _); [done|].
  split; [done|]. split; [done|]. destruct (hid_bit _ _ _ _ h Hok Hi Hin) as (j & Hj & E). exists j. split; [done|].
  unfold hid in E. by rewrite (Hk : q_hooks (irqs_of s) !! h = Some k) in E.
Qed.

Lemma enable_run h k : irq_hooks s !! h = Some k -> h_proc_nr_e k <> NONE -> finishes (enable_irq h ;; ret (OK, None)).
Proof.
  intros Hk Hu. destruct (hook_line h k Hk Hu) as (Hi & Hin & j & Hj & Ej). pose proof (ir_tabs _ _ Hirq) as Hok.
  destruct (ac_some _ _ _ _ (iq_acts _ _ _ Hok) (h_irq k) Hi) as (a & Ha & _).
  pose proof (enable_irq_run s (irqs_of s) h k a Hk Ha) as E. rewrite with_irqs_of in E.
  eexists _, _. rewrite (bind_done _ _ _ _ _ E). split; [done|]. apply (same_hooks_done _ L); [|done].
  destruct Hok as [H1 H2 H3]. split; [exact H1|exact H2|]. rewrite Ej. apply (enabled_acts (hdata (irqs_of s)) (irqs_of s)); try done. lia.
Qed.

Lemma disable_run h k : irq_hooks s !! h = Some k -> h_proc_nr_e k <> NONE -> finishes (disable_irq h ;; ret (OK, None)).
Proof.
  intros Hk Hu. destruct (hook_line h k Hk Hu) as (Hi & Hin & j & Hj & Ej). pose proof (ir_tabs _ _ Hirq) as Hok.
  destruct (ac_some _ _ _ _ (iq_acts _ _ _ Hok) (h_irq k) Hi) as (a & Ha & _).
  pose proof (disable_irq_run s (irqs_of s) h k a Hk Ha) as E. rewrite with_irqs_of in E. unfold finishes, bind. rewrite E.
  destruct (has a (h_id k)); [by apply finishes_ret|].
  eexists _, _. split; [done|]. apply (same_hooks_done _ L); [|done].
  destruct Hok as [H1 H2 H3]. split; [exact H1|exact H2|]. rewrite Ej.
  apply (disabled_acts (hdata (irqs_of s)) (irqs_of s) L _ a h (set_h_next None k)); try done; [lia|exact (hdata_lookup (irqs_of s) h k Hk)].
Qed.

(** A hook is given back. *)
Lemma release_run h k :
  irq_hooks s !! h = Some k -> h_proc_nr_e k <> NONE -> h_proc_nr_e k = e ->
  exists t' L' k', (rm_irq_handler h ;; upd_hook h (set_h_proc_nr_e NONE)) s = Done tt (with_irqs t' s)
    /\ irqs_ok t' L' None /\ q_hooks t' !! h = Some k' /\ h_irq k' = h_irq k /\ h_proc_nr_e k' = NONE
    /\ (forall y, y <> h -> hdata t' !! y = hdata (irqs_of s) !! y)
    /\ irqctl_done e s (with_irqs t' s).
Proof.
  intros Hk Hu He. destruct (rm_irq_handler_run s (irqs_of s) L h k (ir_tabs _ _ Hirq) Hk Hu) as (pre & suf & a & Hl & Hi & Ha & E & Hok).
  rewrite with_irqs_of in E. rewrite (bind_done _ _ _ _ _ E). set (t1 := removed _ _ _ _ _ _) in *.
  assert (hdata t1 = hdata (irqs_of s)) as ED by (exact (unlinked_data (h_irq k) pre suf (h_id k) a (irqs_of s))).
  destruct (hdata_inv t1 h (set_h_next None k)) as (k1 & Hk1 & Ek); [rewrite ED; exact (hdata_lookup (irqs_of s) h k Hk)|].
  set (t2 := put_hooks (<[h := set_h_proc_nr_e NONE k1]> (q_hooks t1)) t1).
  assert (q_hooks t2 !! h = Some (set_h_proc_nr_e NONE k1)) as Hk2 by apply lookup_insert_eq.
  assert (irqs_ok t2 (at_line L (h_irq k) (pre ++ suf)) None) as Hok2
    by (apply (transit_free t2 _ h _ Hk2); [done|]; by eapply transit_upd).
  assert (forall y, y <> h -> hdata t2 !! y = hdata (irqs_of s) !! y) as Hy.
  { intros y Hne. rewrite <- ED. unfold hdata. cbn. by rewrite fmap_insert, lookup_insert_ne. }
  exists t2, (at_line L (h_irq k) (pre ++ suf)), (set_h_proc_nr_e NONE k1). split_and!; try done.
  - by rewrite (upd_hook_run s t1 h k1 _ Hk1).
  - exact (f_equal h_irq (eq_sym Ek)).
  - eapply irq_step_done; [done|exact Hirq|by eapply driver_owner|]. apply (irq_step_tables e s t2 _ Hok2).
    + intros y d Hd Hdu Hde. rewrite Hy; [done|]. intros ->. rewrite (hdata_lookup (irqs_of s) h k Hk) in Hd. injection Hd as <-. by cbn in Hde.
    + intros y ky Hky Hyu. destruct (decide (y = h)) as [->|Hne]; [rewrite Hk2 in Hky; by injection Hky as <-|].
      apply hdata_lookup in Hky. rewrite Hy in Hky by done. destruct (hdata_inv _ _ _ Hky) as (k0 & Hk0 & Ek0). right. exists k0.
      split; [done|]. exact (f_equal h_proc_nr_e (eq_sym Ek0)).
Qed.

Lemma unregister_run s1 irq :
  irqctl_done e s s1 -> vector irq -> exists r s2, irq_thread_unregister irq s1 = Done r s2 /\ irqctl_done e s s2.
Proof.
  intros Hd Hi. unfold irq_thread_unregister. rewrite vector_thread by done.
  destruct (upd_thread_done e s s1 irq (fun t => set_it_registered 0 (set_it_handler false t)) Hd Hi) as (s2 & E & Hd2); [done|].
  rewrite (bind_done _ _ _ _ _ E). pose proof Hd2 as [[L2 H2] Hr2 _ _ _]. destruct (ir_mmio _ _ H2 irq Hi) as [mm Hmm].
  rewrite (bind_done get _ s2 s2 s2) by done. rewrite Hmm. destruct (mm_valid mm =? 0); [by eexists _, s2|].
  eexists _, _. split; [done|]. eapply irqctl_other; [exact Hd2|eapply same_ready; [|exact Hr2]; done|done|done|done|apply (ir_thr _ _ H2)|].
  intros i Hvi. cbn. destruct (decide (i = irq)) as [->|]; [by rewrite lookup_insert_eq|]. rewrite lookup_insert_ne by done. by apply (ir_mmio _ _ H2).
Qed.

Lemma rmpolicy_run h k :
  irq_hooks s !! h = Some k -> h_proc_nr_e k = e -> e <> NONE -> finishes (irq_rmpolicy h).
Proof.
  intros Hk He Hn. destruct (hook_line h k Hk ltac:(congruence)) as (Hi & _).
  destruct (release_run h k Hk ltac:(congruence) He) as (t' & L' & k' & E & Hok & Hk' & Ei & _ & _ & Hd).
  unfold irq_rmpolicy, finishes. revert E. unfold bind at 1. unfold bind at 1. destruct (rm_irq_handler h s) as [[] s1|]; [|done]. intros E.
  rewrite (bind_done _ _ _ _ _ E), (bind_done _ _ _ _ _ (get_hook_run s t' h k' Hk')), Ei.
  rewrite (proj2 (Z.leb_le 0 (h_irq k)) (proj1 Hi)), (proj2 (Z.ltb_lt (h_irq k) NR_IRQ_THREADS) (proj2 Hi)). cbn [andb].
  destruct (unregister_run _ _ Hd Hi) as (r & s2 & E2 & Hd2). rewrite bind_assoc, (bind_done _ _ _ _ _ E2). by eexists _, s2.
Qed.

(** Changes of the vector bitmap and of the device mappings. *)
Lemma bitmap_done b : irqctl_done e s (set_msix_bitmap b s).
Proof.
  eapply irqctl_other; [by eapply irqctl_refl|eapply same_ready; [|exact Hready]; done|done|done|done|apply (ir_thr _ _ Hirq)|apply (ir_mmio _ _ Hirq)].
Qed.

Lemma msix_find_run n : forall i, exists r b, msix_find n i s = Done r (set_msix_bitmap b s).
Proof.
  induction n as [|n IH]; intros i; cbn [msix_find]; [exists (-1), (msix_bitmap s); by destruct s|].
  rewrite (bind_done (gets msix_bitmap) _ (msix_bitmap s) s s) by done. destruct (negb _); [by eexists _, _|apply IH].
Qed.

Lemma mmio_run irq phys : vector irq -> exists r s', irq_thread_set_mmio pg_remap_page irq phys s = Done r s' /\ irqctl_done e s s'.
Proof.
  intros Hi. unfold irq_thread_set_mmio. rewrite vector_thread by done. cbn zeta. destruct (negb _); [exists (pg_remap_page (IRQ_THREAD_MMIO_BASE + irq mod IRQ_THREAD_MMIO_PAGES * X86_64_PAGE_SIZE) phys), s; split; [done|by eapply irqctl_refl]|].
  eexists _, _. split; [done|].
  eapply irqctl_other; [by eapply irqctl_refl|eapply same_ready; [|exact Hready]; done|done|done|done|apply (ir_thr _ _ Hirq)|].
  intros i Hvi. cbn. destruct (decide (i = irq)) as [->|]; [by rewrite lookup_insert_eq|]. rewrite lookup_insert_ne by done. by apply (ir_mmio _ _ Hirq).
Qed.

Lemma attach_run cpu : exists r s', drvqueue_attach e cpu s = Done r s' /\ irqctl_done e s s'.
Proof.
  unfold drvqueue_attach. destruct (CONFIG_MAX_CPUS <=? cpu); [exists EINVAL, s; split; [done|by eapply irqctl_refl]|].
  pose proof Hdriver as (Hc & Hl & _). rewrite (bind_done _ _ _ _ _ (live_isokendpt s (r_core _ Hready) caller (ipc_of c) Hl)).
  destruct (step_upd s caller c (set_p_drvqueue (Some cpu)) (r_base _ Hready) Hc) as (s' & E & G & _); [by split|done|].
  rewrite (bind_done _ _ _ _ _ E). exists OK, s'. split; [done|].
  assert (ipc_of (set_p_drvqueue (Some cpu) c) = ipc_of c) as Ei by done. rewrite Ei, insert_id in G by apply Hl.
  assert (notified s s') as N.
  { eapply goes_notified; [done|exact G|done|by intros ???|exact (c_dlv _ _ (r_core _ Hready))|apply prelax_refl]. }
  assert (forall A (f : kstate -> A), (forall s, f (rest0 s) = f s) -> f s' = f s) as HF.
  { intros A f Hf. by apply moved_field; [|apply N]. }
  eapply irqctl_other; [by eapply irqctl_refl|apply N|by rewrite (g_view _ _ _ _ G)|by rewrite (g_privs _ _ _ _ G)| | |].
  - by rewrite (HF _ irqs_of).
  - intros i Hvi. rewrite (HF _ irq_threads) by done. by apply (ir_thr _ _ Hirq).
  - intros i Hvi. rewrite (HF _ irq_mmio) by done. by apply (ir_mmio _ _ Hirq).
Qed.

(** Setting the priority of a thread that does not exist. *)
Lemma priority_run irq prio : exists r, irq_thread_set_priority irq prio s = Done r s.
Proof.
  unfold irq_thread_set_priority. destruct (bad_thread irq) eqn:Eb; [by eexists|]. destruct (_ || _); [by eexists|].
  destruct (ir_thr _ _ Hirq irq (bad_thread_false _ Eb)) as (t & Ht & Hp & _). unfold get_thread, bind. rewrite Ht, Hp. by eexists.
Qed.

Lemma irqctl_run :
  (vector (iq_vector m) -> (length (L (iq_vector m)) < 32)%nat) -> finishes (do_irqctl pg_remap_page caller m).
Proof.
  intros Hlen. unfold do_irqctl, finishes. pose proof Hdriver as (Hc & _). erewrite bind_get_proc by done. cbn zeta.
  destruct (_ =? IRQ_ENABLE); [apply own_hook_run; intros k Hk <- ?; by eapply enable_run|].
  destruct (_ =? IRQ_DISABLE); [apply own_hook_run; intros k Hk <- ?; by eapply disable_run|].
  destruct (_ =? IRQ_SETPOLICY); [by apply setpolicy_run|].
  destruct (_ =? IRQ_RMPOLICY); [apply own_hook_run; intros k Hk ? ?; by eapply rmpolicy_run|].
  destruct (_ =? IRQ_MSIX_ALLOC).
  { destruct (msix_find_run (Z.to_nat NR_MSIX_IRQS) 0) as (r & b & E). fold msix_alloc_irq in E.
    rewrite (bind_done _ _ _ _ _ E). destruct (r <? 0); (eexists _, _; split; [done|apply bitmap_done]). }
  assert (exists b, msix_is_allocated (iq_vector m) s = Done b s) as (b & Eb) by (unfold msix_is_allocated; destruct (_ || _); by eexists).
  destruct (_ =? IRQ_MSIX_FREE).
  { rewrite (bind_done _ _ _ _ _ Eb). destruct (_ || _); [apply finishes_ret|]. unfold msix_free_irq. cbn zeta.
    destruct (_ || _); [apply finishes_ret|]. eexists _, _. split; [done|apply bitmap_done]. }
  destruct (_ =? IRQ_MSIX_SETPOLICY); [by apply msix_setpolicy_run|].
  destruct (_ =? IRQ_THREAD_SET_PRIORITY).
  { destruct (bad_thread _); [apply finishes_ret|]. destruct (_ || _); [apply finishes_ret|].
    destruct (priority_run (iq_vector m) (iq_policy m)) as [r E]. rewrite (bind_done _ _ _ _ _ E). apply finishes_ret. }
  destruct (_ =? IRQ_THREAD_SET_MMIO).
  { destruct (bad_thread _) eqn:Et; [apply finishes_ret|]. destruct (_ =? 0); [apply finishes_ret|].
    destruct (mmio_run (iq_vector m) (u32 (iq_policy m)) (bad_thread_false _ Et)) as (r & s' & E & Hd).
    rewrite (bind_done _ _ _ _ _ E). by eexists _, s'. }
  destruct (_ =? IRQ_DRVQUEUE_SETUP); [|apply finishes_ret].
  destruct (attach_run (u32 (iq_vector m))) as (r & s' & E & Hd). rewrite (bind_done _ _ _ _ _ E). by eexists _, s'.
Qed.
End Requests.

(** ** Delivery *)

(** The process with endpoint [e] has interrupt [n] coming: in its bit maps, or
    in the notification in its message buffer. *)
Definition has_irq (n : Z) (hw_ep cid : Z) (v : ipcv) (pv : priv) : Prop :=
  (get_sys_bit (s_notify_pending pv) cid = true /\ Z.testbit (s_int_pending pv) n = true)
  \/ (v_recv v = None /\ has (v_misc v) MF_DELIVERMSG = true /\ m_source (v_dmsg v) = hw_ep /\ m_type (v_dmsg v) = NOTIFY_MESSAGE
      /\ exists now ints sigs, m_body (v_dmsg v) = M_notify now ints sigs /\ Z.testbit ints n = true).

Definition irq_told (s : kstate) (e n : Z) : Prop :=
  exists m v id pv vh cid, live (view s) m v /\ v_ep v = e /\ v_priv v = Some id /\ privs s !! id = Some pv /\ s_proc_nr pv = m
    /\ live (view s) HARDWARE vh /\ v_priv vh = Some cid /\ has_irq n (v_ep vh) cid v pv.

Lemma hardware_live s : ready s -> exists c cid, procs s !! HARDWARE = Some c /\ live (view s) HARDWARE (ipc_of c)
  /\ p_priv c = Some cid /\ bit_ok cid.
Proof.
  intros [Hb Hc Hnf Hm]. destruct (c_task _ _ Hc HARDWARE eq_refl eq_refl) as [v Hv].
  destruct (live_proc_of s HARDWARE v Hv) as (c & Hcp & <-).
  destruct (c_priv _ _ Hc HARDWARE _ Hv) as (cid & pv & Hcid & Hok & _). by exists c, cid.
Qed.

(** Pending bits and interrupts of a privilege structure are only added. *)
Definition irq_grow (pv pv' : priv) : Prop :=
  s_proc_nr pv' = s_proc_nr pv
  /\ (forall b, bit_ok b -> get_sys_bit (s_notify_pending pv) b = true -> get_sys_bit (s_notify_pending pv') b = true)
  /\ forall n, Z.testbit (s_int_pending pv) n = true -> Z.testbit (s_int_pending pv') n = true.

Lemma told_cid s vh cid :
  ready s -> live (view s) HARDWARE vh -> v_priv vh = Some cid -> bit_ok cid.
Proof.
  intros Hr Hl Hc. destruct (c_priv _ _ (r_core _ Hr) HARDWARE vh Hl) as (cid' & _ & Hc' & Hok & _). congruence.
Qed.

(** Nobody forgets an interrupt when one structure grows. *)
Lemma told_grow_priv s s' i pi pi' :
  ready s -> privs s !! i = Some pi -> irq_grow pi pi' -> goes s s' (view s) (<[i := pi']> (privs s)) ->
  forall e n, irq_told s e n -> irq_told s' e n.
Proof.
  intros Hr Hi (G1 & G2 & G3) HG e n (m & v & id & pv & vh & cid & H1 & H2 & H3 & H4 & H5 & H6 & H7 & H8).
  pose proof (told_cid s vh cid Hr H6 H7) as Hok.
  unfold irq_told. rewrite (g_view _ _ _ _ HG), (g_privs _ _ _ _ HG). destruct (decide (id = i)) as [->|Hne].
  - rewrite Hi in H4. injection H4 as ->. exists m, v, i, pi', vh, cid. rewrite lookup_insert_eq. split_and!; try done; [congruence|].
    destruct H8 as [[? ?]|H8]; [left; auto|by right].
  - exists m, v, id, pv, vh, cid. by rewrite lookup_insert_ne by done.
Qed.

(** A notification from the hardware is delivered. *)
Lemma told_delivered s s' c cid dst v id pv :
  ready s -> live (view s) HARDWARE (ipc_of c) -> p_priv c = Some cid ->
  live (view s) dst v -> v_priv v = Some id -> privs s !! id = Some pv -> s_proc_nr pv = dst -> will v (p_endpoint c) = true ->
  goes s s' (<[dst := v_wake (notify_msg (k_monotonic s) HARDWARE pv) (p_endpoint c) (IPC_STATUS_CALL_TO NOTIFY) v]> (view s))
    (<[id := notify_taken HARDWARE pv]> (privs s)) ->
  (forall n, Z.testbit (s_int_pending pv) n = true -> irq_told s' (v_ep v) n)
  /\ forall e n, irq_told s e n -> irq_told s' e n.
Proof.
  intros Hr Hhw Hcid Hl Hid Hpv Hnr Hw HG. set (w := v_wake _ _ _ v) in *.
  destruct (v_wake_status (notify_msg (k_monotonic s) HARDWARE pv) (p_endpoint c) (IPC_STATUS_CALL_TO NOTIFY) v) as (W1 & W2 & W3). fold w in W1, W2, W3.
  pose proof (v_wake_keeps (notify_msg (k_monotonic s) HARDWARE pv) (p_endpoint c) (IPC_STATUS_CALL_TO NOTIFY) v) as Kw. fold w in Kw.
  assert (live (view s') dst w) as Hlw.
  { split_and!; [apply Hl|rewrite (g_view _ _ _ _ HG); apply lookup_insert_eq|]. rewrite (k_empty _ _ Kw). apply Hl. }
  assert (exists vh', live (view s') HARDWARE vh' /\ v_priv vh' = Some cid /\ v_ep vh' = p_endpoint c) as (vh & Hvh & Hvp & Hve).
  { destruct (decide (HARDWARE = dst)) as [E|Hne].
    - exists w. split; [by rewrite E|]. rewrite <- E in Hl. rewrite (k_priv _ _ Kw), (k_ep _ _ Kw). destruct Hhw as (_ & Hv1 & _), Hl as (_ & Hv2 & _).
      by assert (v = ipc_of c) as -> by congruence.
    - exists (ipc_of c). split; [|done]. split_and!; [apply Hhw|rewrite (g_view _ _ _ _ HG), lookup_insert_ne by done; apply Hhw|apply Hhw]. }
  assert (forall n, Z.testbit (s_int_pending pv) n = true -> irq_told s' (v_ep v) n) as Hnew.
  { intros n Hn. exists dst, w, id, (notify_taken HARDWARE pv), vh, cid.
    rewrite (g_privs _ _ _ _ HG), lookup_insert_eq, (k_ep _ _ Kw), W3. split_and!; try done. right.
    rewrite W1, W2, Hve. split_and!; [done|apply (has_flag_set_same MF_DELIVERMSG)|done|done|]. eexists _, _, _. split; [done|]. exact Hn. }
  split; [exact Hnew|]. intros e n (m & v0 & id0 & pv0 & vh0 & cid0 & H1 & H2 & H3 & H4 & H5 & H6 & H7 & H8).
  assert (vh0 = ipc_of c) as -> by (destruct H6 as (_ & Ha & _), Hhw as (_ & Hb & _); congruence).
  assert (cid0 = cid) as -> by (change (v_priv (ipc_of c)) with (p_priv c) in H7; congruence).
  destruct (decide (m = dst)) as [Em|Hne].
  - assert (v0 = v) as -> by (subst m; destruct H1 as (_ & Ha & _), Hl as (_ & Hb & _); congruence). rewrite <- H2.
    assert (pv0 = pv) as -> by congruence. destruct H8 as [[_ Hb]|(Hrec & _)]; [by apply Hnew|].
    unfold will in Hw. rewrite Hrec in Hw. by destruct (v_send v).
  - exists m, v0, id0, pv0, vh, cid. rewrite (g_view _ _ _ _ HG), (g_privs _ _ _ _ HG).
    rewrite lookup_insert_ne by congruence. split_and!; try done.
    + split_and!; [apply H1|rewrite lookup_insert_ne by done; apply H1|apply H1].
    + by rewrite <- (g_view _ _ _ _ HG).
    + by rewrite Hve.
Qed.

Lemma int_bit_run n s : 0 <= n < 32 -> exists b, int_bit n s = Done b s /\ Z.testbit b n = true.
Proof.
  intros Hn. unfold int_bit. destruct (Z.ltb_spec n 31) as [Hlt|Hge].
  - exists (Z.shiftl 1 n). split; [done|]. rewrite Z.shiftl_spec, Z.sub_diag by lia. done.
  - assert (n = 31) as -> by lia. by exists (u64 (- 2 ^ 31)).
Qed.

(** Recording the interrupt in the structure of its driver. *)
Lemma int_pending_step s m v id pv b :
  ready s -> live (view s) m v -> v_priv v = Some id -> privs s !! id = Some pv ->
  let pv' := set_s_int_pending (Z.lor (s_int_pending pv) b) pv in
  exists s', upd_priv m (fun pv => set_s_int_pending (Z.lor (s_int_pending pv) b) pv) s = Done tt s' /\ notified s s'
    /\ goes s s' (view s) (<[id := pv']> (privs s)) /\ irq_grow pv pv'.
Proof.
  intros Hr Hl Hid Hpv pv'. destruct (live_proc_of s m v Hl) as (p & Hp & <-).
  destruct (priv_notified s id pv (fun pv => set_s_int_pending (Z.lor (s_int_pending pv) b) pv) Hr Hpv) as (s' & E & N & _); [done..|].
  destruct (step_priv s id pv (fun pv => set_s_int_pending (Z.lor (s_int_pending pv) b) pv) (r_base _ Hr) Hpv) as (s1 & E1 & G & _).
  rewrite E in E1. injection E1 as <-. exists s'.
  split; [|split; [done|split; [done|split; [done|split; [done|]]]]].
  - unfold upd_priv. erewrite bind_get_proc by done. unfold upd_priv_of. by rewrite (Hid : p_priv p = Some id).
  - intros n Hn. cbn. by rewrite Z.lor_spec, Hn.
Qed.

(** One hook: its driver has the interrupt, and nobody forgets another one. *)
Lemma generic_handler_run s h k :
  ready s -> irq_hooks s !! h = Some k -> owner s (h_proc_nr_e k) -> 0 <= h_notify_id k < 32 ->
  exists s', generic_handler h s = Done (has (h_policy k) IRQ_REENABLE) s' /\ notified s s'
    /\ irq_told s' (h_proc_nr_e k) (h_notify_id k) /\ forall e n, irq_told s e n -> irq_told s' e n.
Proof.
  intros Hr Hk (m & v & id & pv & Hl & He & Hid & Hpv & Hnr) Hn. unfold generic_handler.
  rewrite (bind_done (get_hook h) _ k s s) by (unfold get_hook; by rewrite Hk).
  pose proof (live_isokendpt s (r_core _ Hr) m v Hl) as Eok. rewrite He in Eok. rewrite (bind_done _ _ _ _ _ Eok).
  destruct (int_bit_run _ s Hn) as (b & Eb & Hb). rewrite (bind_done _ _ _ _ _ Eb).
  destruct (int_pending_step s m v id pv b Hr Hl Hid Hpv) as (s1 & E1 & N1 & G1 & Hg). rewrite (bind_done _ _ _ _ _ E1).
  pose proof (told_grow_priv s s1 id pv _ Hr Hpv Hg G1) as T1. set (pv1 := set_s_int_pending _ pv) in *.
  pose proof (m_ready _ _ (n_moved _ _ N1)) as Hr1. destruct (hardware_live s1 Hr1) as (c & cid & Hc & Hcl & Hcid & Hok).
  assert (live (view s1) m v) as Hl1 by (by rewrite (g_view _ _ _ _ G1)).
  assert (privs s1 !! id = Some pv1) as Hpv1 by (rewrite (g_privs _ _ _ _ G1); apply lookup_insert_eq).
  assert (Z.testbit (s_int_pending pv1) (h_notify_id k) = true) as Hbit by (cbn; by rewrite Z.lor_spec, Hb, orb_true_r).
  destruct (mini_notify_ready s1 HARDWARE _ (h_proc_nr_e k) Hr1 Hcl) as (r & s2 & E2 & N2). rewrite (bind_done _ _ _ _ _ E2).
  exists s2. split; [done|]. split; [by eapply notified_trans|].
  destruct (mini_notify_spec s1 HARDWARE c cid (h_proc_nr_e k) Hr1 Hc Hcl Hcid) as
    [[Hno _]|(dst & v' & id' & pv' & s3 & Hl' & He' & Hid' & Hpv' & E3 & G)].
  { pose proof (live_isokendpt s1 (r_core _ Hr1) m v Hl1) as Eok1. by rewrite He, Hno in Eok1. }
  rewrite E2 in E3. injection E3 as _ <-.
  assert (dst = m) as ->.
  { destruct (c_ep _ _ (r_core _ Hr1) dst v' Hl') as [Ed _]. destruct (c_ep _ _ (r_core _ Hr1) m v Hl1) as [Em _].
    rewrite He' in Ed. rewrite He in Em. congruence. }
  assert (v' = v) as -> by (destruct Hl' as (_ & Ha & _), Hl1 as (_ & Hb' & _); congruence).
  assert (id' = id) as -> by congruence. assert (pv' = pv1) as -> by congruence.
  destruct (will v (p_endpoint c) && negb (has (v_misc v) MF_REPLY_PEND)) eqn:Ew.
  - apply andb_true_iff in Ew as [Ew _].
    destruct (told_delivered s1 s2 c cid m v id pv1 Hr1 Hcl Hcid Hl1 Hid Hpv1 Hnr Ew G) as [T2 T3]. rewrite He in T2.
    split; [by apply T2|]. auto.
  - assert (irq_grow pv1 (notify_mark cid pv1)) as Hg2.
    { destruct (c_priv _ _ (r_core _ Hr1) m v Hl1) as (id0 & pv0 & Hid0 & Hokd & _). 
      destruct (c_privs _ _ (r_core _ Hr1) id pv1 ltac:(congruence) Hpv1) as (_ & Hmap & _).
      split_and!; [done| |done]. intros x Hx. cbn. rewrite get_set_sys_bit by done. by intros ->. }
    pose proof (told_grow_priv s1 s2 id pv1 _ Hr1 Hpv1 Hg2 G) as T2. split; [|auto].
    exists m, v, id, (notify_mark cid pv1), (ipc_of c), cid. rewrite (g_view _ _ _ _ G), (g_privs _ _ _ _ G), lookup_insert_eq.
    split; [exact Hl1|]. split; [done|]. split; [done|]. split; [done|]. split; [done|]. split; [exact Hcl|]. split; [done|]. left. split; [|exact Hbit].
    destruct (c_priv _ _ (r_core _ Hr1) m v Hl1) as (id0 & pv0 & Hid0 & Hokd & _). 
    destruct (c_privs _ _ (r_core _ Hr1) id pv1 ltac:(congruence) Hpv1) as (_ & Hmap & _).
    cbn. rewrite get_set_sys_bit by done. by rewrite Z.eqb_refl, orb_true_r.
Qed.

(** The states apart from the active hooks. *)
Definition strip (s : kstate) : kstate := set_irq_actids ∅ s.

Lemma notified_strip s s' : notified s s' -> notified (strip s) (strip s').
Proof.
  intros [[H1 H2 H3 H4 H5] H6]. split; [|exact H6]. split; [|exact H2|exact H3|exact H4|exact (f_equal (set_irq_actids ∅) H5)].
  eapply same_ready; [|exact H1]. done.
Qed.

Lemma owner_notified s s' e : notified s s' -> owner s e -> owner s' e.
Proof.
  intros N (n & v & id & pv & Hl & He & Hid & Hpv & Hnr). destruct (notified_live _ _ _ _ N Hl) as (v' & Hl' & Kv).
  pose proof (m_prelax _ _ (n_moved _ _ N) id) as HP. rewrite Hpv in HP. destruct (privs s' !! id) as [pv'|] eqn:Hpv'; [|done].
  destruct HP as (_ & E & _). exists n, v', id, pv'. rewrite (k_ep _ _ Kv), (k_priv _ _ Kv). split_and!; try done; [apply Hl'..|congruence].
Qed.

(** What a hook adds to the active ids of its line. *)
Definition act_step (H : gmap Z irq_hook) (a h : Z) : Z :=
  match H !! h with
  | Some k => let a' := flag_set a (h_id k) in if has (h_policy k) IRQ_REENABLE then flag_clr a' (h_id k) else a'
  | None => a
  end.

Lemma handle_loop_run irq : forall suf s fuel a,
  ready s -> chain (qnext (irqs_of s)) (head suf) suf -> (length suf < fuel)%nat -> irq_actids s !! irq = Some a ->
  (forall h, h ∈ suf -> exists k, irq_hooks s !! h = Some k /\ h_irq k = irq /\ owner s (h_proc_nr_e k) /\ 0 <= h_notify_id k < 32) ->
  exists s', handle_loop fuel irq (head suf) s = Done tt s' /\ notified (strip s) (strip s')
    /\ irq_actids s' = <[irq := foldl (act_step (irq_hooks s)) a suf]> (irq_actids s)
    /\ (forall h k, h ∈ suf -> irq_hooks s !! h = Some k -> irq_told s' (h_proc_nr_e k) (h_notify_id k))
    /\ forall e n, irq_told s e n -> irq_told s' e n.
Proof.
  induction suf as [|h suf IH]; intros s fuel a Hr Hc Hf Ha Hs; (destruct fuel as [|fuel]; [cbn in Hf; lia|]).
  { exists s. cbn. split; [done|]. split; [apply notified_refl; eapply same_ready; [|exact Hr]; done|]. rewrite insert_id by done.
    split; [done|]. split; [by intros h k ?%elem_of_nil|done]. }
  destruct (Hs h) as (k & Hk & Hki & Hko & Hkn); [by left|]. cbn [head handle_loop].
  assert (forall s0, irq_hooks s0 = irq_hooks s -> get_hook h s0 = Done k s0) as Hget by (intros s0 E0; unfold get_hook; by rewrite E0, Hk).
  rewrite (bind_done _ _ _ _ _ (Hget s eq_refl)). rewrite (bind_done (get_act irq) _ a s s) by (unfold get_act; by rewrite Ha).
  set (s1 := set_irq_actids (<[irq := flag_set a (h_id k)]> (irq_actids s)) s).
  rewrite (bind_done (put_act irq _) _ tt s s1) by done.
  destruct (generic_handler_run s1 h k) as (s2 & E2 & N2 & T2 & G2); [eapply same_ready; [|exact Hr]; done|done|exact Hko|done|].
  rewrite (bind_done _ _ _ _ _ E2).
  assert (forall A (f : kstate -> A), (forall s, f (rest0 s) = f s) -> f s2 = f s1) as HF
    by (intros A f Hff; by apply moved_field; [|apply N2]).
  assert (irq_hooks s2 = irq_hooks s) as HH2 by (by rewrite (HF _ irq_hooks)).
  assert (irq_actids s2 = <[irq := flag_set a (h_id k)]> (irq_actids s)) as HA2 by (by rewrite (HF _ irq_actids)).
  rewrite (bind_done _ _ _ _ _ (Hget s2 HH2)). set (a' := act_step (irq_hooks s) a h).
  set (s3 := set_irq_actids (<[irq := a']> (irq_actids s)) s2).
  assert ((if has (h_policy k) IRQ_REENABLE then a0 <- get_act (h_irq k) ;; put_act (h_irq k) (flag_clr a0 (h_id k)) else ret tt) s2
    = Done tt s3) as E3.
  { unfold s3, a', act_step. rewrite Hk. cbn zeta. destruct (has (h_policy k) IRQ_REENABLE).
    - rewrite Hki, (bind_done (get_act irq) _ (flag_set a (h_id k)) s2 s2) by (unfold get_act; by rewrite HA2, lookup_insert_eq).
      unfold put_act, modify. by rewrite HA2, insert_insert_eq.
    - rewrite <- HA2. by destruct s2. }
  rewrite (bind_done _ _ _ _ _ E3), (bind_done _ _ _ _ _ (Hget s3 HH2)).
  assert (qnext (irqs_of s) h = head suf) as Hnx by (destruct Hc as [_ Hc]; destruct suf; [done|by destruct Hc]).
  unfold qnext in Hnx. cbn in Hnx. rewrite Hk in Hnx. rewrite Hnx.
  destruct (IH s3 fuel a') as (s' & E & N & HA & T & G).
  - eapply same_ready; [|exact (m_ready _ _ (n_moved _ _ N2))]. done.
  - assert (forall y, qnext (irqs_of s3) y = qnext (irqs_of s) y) as Hq by (intros y; unfold qnext; cbn; by rewrite HH2).
    eapply chain_ext; [intros y _; apply Hq|]. destruct Hc as [_ Hc]. destruct suf; [done|]. destruct Hc as [Hc1 Hc2]. split; [done|exact Hc2].
  - cbn in Hf. lia.
  - cbn. by rewrite lookup_insert_eq.
  - intros y Hy. destruct (Hs y) as (ky & Hky & ? & Hoy & ?); [by right|]. exists ky. cbn. rewrite HH2. split_and!; try done; try lia.
    eapply (owner_notified s1 s2); [exact N2|exact Hoy].
  - exists s'. split; [exact E|]. split; [eapply notified_trans; [exact (notified_strip _ _ N2)|exact N]|]. split; [|split].
    + rewrite HA. cbn [foldl irq_actids s3 set_irq_actids irq_hooks]. change (irq_hooks s3) with (irq_hooks s2). rewrite HH2.
      change (irq_actids s3) with (<[irq := a']> (irq_actids s)). by rewrite insert_insert_eq.
    + intros y ky [->|Hy]%elem_of_cons Hky; [|apply (T y ky Hy); cbn; by rewrite HH2]. rewrite Hk in Hky. injection Hky as <-. apply G, T2.
    + intros e n Ht. apply G. apply (G2 e n). exact Ht.
Qed.

(** The active ids after all hooks of a line have run: bit [j] is set when the
    hook with this id did not ask for the line to be enabled again. *)
Lemma act_step_bit H a h k i j :
  H !! h = Some k -> h_id k = 2 ^ i -> 0 <= i -> 0 <= j ->
  Z.testbit (act_step H a h) j = if j =? i then negb (has (h_policy k) IRQ_REENABLE) else Z.testbit a j.
Proof.
  intros Hk Hi H0 Hj. unfold act_step. rewrite Hk, Hi. cbn zeta. pose proof (set_bit a i j H0) as Hs.
  destruct (has (h_policy k) IRQ_REENABLE); cbn [negb].
  - pose proof (clr_bit (flag_set a (2 ^ i)) i j Hj H0) as Hc. destruct (Z.eqb_spec j i) as [->|Hne].
    + apply not_true_iff_false. rewrite Hc. by intros [_ ?].
    + apply eq_true_iff_eq. rewrite Hc, Hs. naive_solver.
  - destruct (Z.eqb_spec j i) as [->|Hne]; [apply Hs; by right|]. apply eq_true_iff_eq. rewrite Hs. naive_solver.
Qed.

Lemma act_fold H l : forall a,
  NoDup (map (fun h => h_id <$> H !! h) l) ->
  (forall h, h ∈ l -> exists k i, H !! h = Some k /\ 0 <= i /\ h_id k = 2 ^ i) ->
  forall j, 0 <= j ->
  (forall h k, h ∈ l -> H !! h = Some k -> h_id k = 2 ^ j -> Z.testbit (foldl (act_step H) a l) j = negb (has (h_policy k) IRQ_REENABLE))
  /\ ((forall h k, h ∈ l -> H !! h = Some k -> h_id k <> 2 ^ j) -> Z.testbit (foldl (act_step H) a l) j = Z.testbit a j).
Proof.
  induction l as [|h l IH]; intros a Hnd Hs j Hj; cbn [foldl map] in *.
  { split; [by intros h k ?%elem_of_nil|done]. }
  apply NoDup_cons in Hnd as [Hn Hnd]. destruct (Hs h) as (k & i & Hk & Hi & Ei); [by left|].
  destruct (IH (act_step H a h) Hnd ltac:(intros y Hy; apply Hs; by right) j Hj) as [IH1 IH2]. split.
  - intros y ky [->|Hy]%elem_of_cons Hky Ey; [|by eapply IH1]. rewrite Hk in Hky. injection Hky as <-.
    assert (i = j) as -> by (apply (Z.pow_inj_r 2); [lia..|congruence]).
    rewrite IH2, (act_step_bit H a h k j j Hk Ei Hj Hj), Z.eqb_refl; [done|]. intros y ky Hy Hky E. apply Hn.
    apply list_elem_of_fmap. exists y. split; [|done]. rewrite Hk, Hky. cbn. congruence.
  - intros Hne. rewrite IH2, (act_step_bit H a h k i j Hk Ei Hi Hj); [|intros y ky Hy; apply Hne; by right].
    destruct (Z.eqb_spec j i) as [->|]; [|done]. destruct (Hne h k ltac:(by left) Hk Ei).
Qed.

Lemma line_ids_NoDup t L x irq : irqs_ok t L x -> vector irq -> NoDup (map (fun h => h_id <$> q_hooks t !! h) (L irq)).
Proof.
  intros H Hi. apply NoDup_fmap_2_strong; [|by eapply chain_NoDup, H]. intros h h' Hh Hh' E.
  destruct (hook_some _ _ _ _ _ H Hi Hh) as [k Hk]. destruct (hook_some _ _ _ _ _ H Hi Hh') as [k' Hk']. rewrite Hk, Hk' in E. cbn in E.
  apply (ho_ids _ _ _ (iq_hooks _ _ _ H) irq h h' _ _ Hi Hh Hh' (hdata_lookup _ _ _ Hk) (hdata_lookup _ _ _ Hk')). cbn. congruence.
Qed.

Lemma signal_run s irq t : irq_threads s !! irq = Some t -> no_thread t -> irq_thread_signal irq s = Done tt s.
Proof.
  intros Ht [_ He]. unfold irq_thread_signal. destruct (bad_thread irq); [done|]. unfold get_thread, bind. rewrite Ht, He.
  by rewrite Z.eqb_refl, orb_true_r.
Qed.

(** Whether a driver has yet to enable the line. *)
Definition waiting (H : gmap Z irq_hook) (l : list Z) : bool :=
  existsb (fun h => match H !! h with Some k => negb (has (h_policy k) IRQ_REENABLE) | None => false end) l.

Lemma waiting_act H l a :
  NoDup (map (fun h => h_id <$> H !! h) l) -> (forall h, h ∈ l -> exists k i, H !! h = Some k /\ 0 <= i /\ h_id k = 2 ^ i) -> 0 <= a ->
  (forall j, 0 <= j -> Z.testbit a j = true -> exists h k, h ∈ l /\ H !! h = Some k /\ h_id k = 2 ^ j) ->
  (foldl (act_step H) a l =? 0) = negb (waiting H l).
Proof.
  intros Hnd Hs Ha Hb. destruct (waiting H l) eqn:Ew; unfold waiting in Ew; cbn [negb].
  - apply existsb_exists in Ew as (h & Hh%list_elem_of_In & Ew). destruct (Hs h Hh) as (k & i & Hk & Hi & Ei). rewrite Hk in Ew.
    destruct (act_fold H l a Hnd Hs i Hi) as [H1 _]. specialize (H1 h k Hh Hk Ei). rewrite Ew in H1.
    apply Z.eqb_neq. intros E0. by rewrite E0, Z.bits_0 in H1.
  - apply Z.eqb_eq, Z.bits_inj'. intros j Hj. rewrite Z.bits_0. destruct (act_fold H l a Hnd Hs j Hj) as [H1 H2].
    apply not_true_iff_false in Ew. destruct (decide (Exists (fun h => h_id <$> H !! h = Some (2 ^ j)) l)) as [He|Hne].
    + apply Exists_exists in He as (h & Hh & Ei). destruct (Hs h Hh) as (k & i & Hk & _). rewrite Hk in Ei. injection Ei as Ei.
      rewrite (H1 h k Hh Hk Ei). apply not_true_iff_false. intros Er. apply Ew, existsb_exists. exists h. rewrite Hk. split; [by apply list_elem_of_In|done].
    + assert (forall h k, h ∈ l -> H !! h = Some k -> h_id k <> 2 ^ j) as Hn.
      { intros h k Hh Hk E. apply Hne, Exists_exists. exists h. rewrite Hk. cbn. split; [done|congruence]. }
      rewrite H2 by done. apply not_true_iff_false. intros Hbit. destruct (Hb j Hj Hbit) as (h & k & Hh & Hk & E). by apply (Hn h k Hh Hk).
Qed.

(** The active ids of a line after an interrupt. *)
Definition act_after (s : kstate) (l : list Z) (irq : Z) : Z :=
  foldl (act_step (irq_hooks s)) (default 0 (irq_actids s !! irq)) l.

Section Interrupt.
Context (s : kstate) (L : Z -> list Z) (irq : Z).
Hypothesis Hready : ready s.
Hypothesis Hok : irq_ok s L.
Hypothesis Hi : vector irq.
Hypothesis Hids : forall h k, h ∈ L irq -> irq_hooks s !! h = Some k -> h_notify_id k < 32.

Lemma line_hook h : h ∈ L irq ->
  exists k i, irq_hooks s !! h = Some k /\ 0 <= i /\ h_id k = 2 ^ i /\ h_irq k = irq /\ owner s (h_proc_nr_e k) /\ 0 <= h_notify_id k < 32.
Proof.
  intros Hh. pose proof (ir_tabs _ _ Hok) as Ht. destruct (ho_on _ _ _ (iq_hooks _ _ _ Ht) irq h Hi Hh) as (_ & d & j & Hd & Hdi & Hu & Hj & Ej).
  destruct (hdata_inv _ _ _ Hd) as (k & Hk & ->). destruct (ho_used _ _ _ (iq_hooks _ _ _ Ht) h _ Hd Hu) as (_ & _ & Hn); [done|].
  exists k, j. split_and!; try done; try lia; [by eapply (ir_own _ _ Hok)|apply Hn|by eapply Hids].
Qed.

Lemma act_line : exists a, irq_actids s !! irq = Some a /\ 0 <= a
  /\ forall j, 0 <= j -> Z.testbit a j = true -> exists h k, h ∈ L irq /\ irq_hooks s !! h = Some k /\ h_id k = 2 ^ j.
Proof.
  pose proof (iq_acts _ _ _ (ir_tabs _ _ Hok)) as Hac. destruct (ac_some _ _ _ _ Hac irq Hi) as (a & Ha & Hn). exists a. split_and!; try done.
  intros j Hj Hb. destruct (ac_bits _ _ _ _ Hac irq a j Hi Ha Hj Hb) as (h & d & Hh & Hd & E).
  destruct (hdata_inv _ _ _ Hd) as (k & Hk & ->). by exists h, k.
Qed.

(** The tables after the interrupt. *)
Definition irqs_after : irqs :=
  mkIrqs (irq_hooks s) (irq_handlers s) (<[irq := act_after s (L irq) irq]> (irq_actids s))
    (<[irq := waiting (irq_hooks s) (L irq)]> (hw_masked s)).

Lemma after_nonneg a l : 0 <= a -> (forall h, h ∈ l -> exists k i, irq_hooks s !! h = Some k /\ 0 <= i /\ h_id k = 2 ^ i) ->
  0 <= foldl (act_step (irq_hooks s)) a l.
Proof.
  revert a. induction l as [|h l IH]; intros a Ha Hs; [done|]. cbn. apply IH; [|intros y Hy; apply Hs; by right].
  destruct (Hs h) as (k & i & Hk & Hi0 & Ei); [by left|]. unfold act_step. rewrite Hk, Ei.
  assert (0 <= flag_set a (2 ^ i)) by (apply flag_set_nonneg; [done|apply Z.pow_nonneg; lia]).
  destruct (has _ _); [by apply flag_clr_nonneg|done].
Qed.

Lemma irqs_after_ok : irqs_ok irqs_after L None.
Proof.
  pose proof (ir_tabs _ _ Hok) as [H1 H2 H3]. split; [exact H1|exact H2|]. destruct act_line as (a & Ha & Hnn & Hb).
  assert (forall h, h ∈ L irq -> exists k i, irq_hooks s !! h = Some k /\ 0 <= i /\ h_id k = 2 ^ i) as Hs.
  { intros h Hh. destruct (line_hook h Hh) as (k & i & ? & ? & ? & _). by exists k, i. }
  pose proof (line_ids_NoDup _ _ _ _ (ir_tabs _ _ Hok) Hi) as Hnd.
  assert (act_after s (L irq) irq = foldl (act_step (irq_hooks s)) a (L irq)) as Eact by (unfold act_after; by rewrite Ha).
  change (hdata irqs_after) with (hdata (irqs_of s)). unfold irqs_after. cbn [q_act q_mask].
  apply (acts_same_line _ _ (hw_masked s)); [exact H3|done|..].
  - rewrite Eact. by apply after_nonneg.
  - intros i Hne. by rewrite lookup_insert_ne.
  - intros j Hj Hbit. rewrite Eact in Hbit.
    destruct (act_fold (irq_hooks s) (L irq) a Hnd Hs j Hj) as [_ F2].
    destruct (decide (Exists (fun h => h_id <$> irq_hooks s !! h = Some (2 ^ j)) (L irq))) as [He|Hne].
    + apply Exists_exists in He as (h & Hh & E). destruct (Hs h Hh) as (k & _ & Hk & _). rewrite Hk in E. injection E as E.
      exists h, (set_h_next None k). split_and!; [done|exact (hdata_lookup (irqs_of s) h k Hk)|exact E].
    + rewrite F2 in Hbit; [destruct (Hb j Hj Hbit) as (h & k & Hh & Hk & E); exists h, (set_h_next None k); split_and!; [done|exact (hdata_lookup (irqs_of s) h k Hk)|exact E]|].
      intros h k Hh Hk E. apply Hne, Exists_exists. exists h. rewrite Hk. cbn. split; [done|congruence].
  - intros _ _. rewrite Eact, lookup_insert_eq, (waiting_act (irq_hooks s) _ a Hnd Hs Hnn Hb). by rewrite negb_involutive.
Qed.

(** The loop over the hooks of the line. *)
Lemma handlers_run s1 :
  s1 = set_hw_masked (<[irq := true]> (hw_masked s)) s ->
  exists s', handle_loop line_fuel irq (head (L irq)) s1 = Done tt s' /\ notified (strip s1) (strip s')
    /\ irq_actids s' = <[irq := act_after s (L irq) irq]> (irq_actids s)
    /\ (forall h k, h ∈ L irq -> irq_hooks s !! h = Some k -> irq_told s' (h_proc_nr_e k) (h_notify_id k))
    /\ forall e n, irq_told s e n -> irq_told s' e n.
Proof.
  intros ->. set (s1 := set_hw_masked _ s). destruct act_line as (a & Ha & _ & _).
  pose proof (iq_lines _ _ _ (ir_tabs _ _ Hok) irq Hi) as Hc. pose proof (line_length _ _ _ _ (ir_tabs _ _ Hok) Hi) as Hl.
  destruct (handle_loop_run irq (L irq) s1 line_fuel a) as (s' & E & N & HA & T & G).
  - eapply same_ready; [|exact Hready]. done.
  - assert (head (L irq) = irq_handlers s !! irq) as -> by (change (irq_handlers s) with (q_heads (irqs_of s)); destruct (L irq); [by rewrite (Hc : _ = None)|destruct Hc as [Hc _]; by rewrite Hc]).
    exact Hc.
  - unfold line_fuel. lia.
  - done.
  - intros h Hh. destruct (line_hook h Hh) as (k & i & Hk & _ & _ & Hki & Ho & Hn). exists k. split; [done|]. split; [done|]. split; [exact Ho|done].
  - exists s'. unfold act_after. rewrite Ha. split_and!; [exact E|apply N..|exact HA|exact T|exact G].
Qed.

(** Everything an interrupt does. *)
Lemma interrupt_run :
  exists s', irq_handle irq s = Done tt s' /\ ready s' /\ irq_ok s' L
    /\ irqs_of s' = (match L irq with [] => put_masks (<[irq := true]> (hw_masked s)) (irqs_of s) | _ => irqs_after end)
    /\ relax (view s) (view s')
    /\ (forall h k, h ∈ L irq -> irq_hooks s !! h = Some k -> irq_told s' (h_proc_nr_e k) (h_notify_id k))
    /\ forall e n, irq_told s e n -> irq_told s' e n.
Proof.
  unfold irq_handle. rewrite bind_assert by (apply andb_true_iff; split; [apply Z.leb_le|apply Z.ltb_lt]; apply Hi).
  set (s1 := set_hw_masked (<[irq := true]> (hw_masked s)) s). rewrite (bind_done (hw_intr_mask irq) _ tt s s1) by done.
  pose proof (iq_lines _ _ _ (ir_tabs _ _ Hok) irq Hi) as Hc. rewrite (bind_done (read_irq (IrqHead irq)) _ (irq_handlers s !! irq) s1 s1) by done.
  change (q_heads (irqs_of s) !! irq) with (irq_handlers s !! irq) in Hc.
  assert (same_tables s s1) as HS by done.
  assert (L irq = [] \/ exists h0 l0, L irq = h0 :: l0) as [El|(h0 & l0 & El)] by (clear Hc Hids; destruct (L irq); eauto); rewrite El in Hc.
  { rewrite El. rewrite (Hc : _ = None). exists s1. split; [done|]. split; [by eapply same_ready|]. split; [|split; [done|split; [done|split; [by intros h k ?%elem_of_nil|done]]]].
    destruct Hok as [[H1 H2 [B1 B2 B3]] O1 O2 O3]. split; [|exact O1|exact O2|exact O3]. split; [exact H1|exact H2|]. split; [exact B1|exact B2|].
    intros i a Hvi Hx Hl Ha. cbn. rewrite lookup_insert_ne; [by apply B3|]. intros <-. by rewrite El in Hl. }
  destruct (handlers_run s1 eq_refl) as (s2 & E2 & N2 & HA2 & T2 & G2). assert (head (L irq) = Some h0) as Eh by (by rewrite El). rewrite Eh in E2. rewrite (proj1 Hc). rewrite (bind_done _ _ _ _ _ E2).
  assert (forall A (f : kstate -> A), (forall s, f (rest0 (strip s)) = f s) -> f s2 = f s1) as HF.
  { intros A f Hff. rewrite <- (Hff s2), <- (Hff s1). f_equal. apply (m_rest _ _ (n_moved _ _ N2)). }
  destruct (ir_thr _ _ Hok irq Hi) as (t & Ht & Hnt).
  rewrite (bind_done _ _ _ _ _ (signal_run s2 irq t ltac:(by rewrite (HF _ irq_threads)) Hnt)).
  rewrite (bind_done (get_act irq) _ (act_after s (L irq) irq) s2 s2) by (unfold get_act; by rewrite HA2, lookup_insert_eq).
  destruct act_line as (a & Ha & Hnn & Hb).
  assert (act_after s (L irq) irq =? 0 = negb (waiting (irq_hooks s) (L irq))) as Hw.
  { unfold act_after. rewrite Ha. apply waiting_act; [exact (line_ids_NoDup _ _ _ _ (ir_tabs _ _ Hok) Hi)| |done|done].
    intros h Hh. destruct (line_hook h Hh) as (k & i & ? & ? & ? & _). by exists k, i. }
  set (s3 := if act_after s (L irq) irq =? 0 then set_hw_masked (<[irq := false]> (hw_masked s2)) s2 else s2).
  exists s3. split; [unfold s3; by destruct (_ =? 0)|].
  assert (same_tables s2 s3) as HS3 by (unfold s3; by destruct (_ =? 0)).
  assert (ready s2) as Hr2 by (eapply (same_ready (strip s2) s2); [done|apply (m_ready _ _ (n_moved _ _ N2))]).
  assert (irqs_of s3 = irqs_after) as EI.
  { unfold irqs_after, s3. rewrite Hw. unfold irqs_of at 1. destruct (waiting (irq_hooks s) (L irq)); cbn [negb]; cbn -[hw_masked];
      rewrite ?(HF _ irq_hooks), ?(HF _ irq_handlers), ?HA2 by done; f_equal.
    - by rewrite (HF _ hw_masked).
    - change (hw_masked (set_hw_masked ?x s2)) with x. rewrite (HF _ hw_masked) by done. change (hw_masked s1) with (<[irq := true]> (hw_masked s)). by rewrite insert_insert_eq. }
  rewrite El at 1. split; [by eapply same_ready|]. split; [|split; [done|split]].
  - split.
    + rewrite EI. exact irqs_after_ok.
    + intros h k Hk Hu. change (irq_hooks s3) with (q_hooks (irqs_of s3)) in Hk. rewrite EI in Hk. apply (owner_same s2); [by apply same_view|apply HS3|].
      apply (owner_notified (strip s1) (strip s2) _ N2). exact (ir_own _ _ Hok h k Hk Hu).
    + intros i Hvi. assert (irq_threads s3 = irq_threads s) as -> by (transitivity (irq_threads s2); [unfold s3; by destruct (_ =? 0)|by rewrite (HF _ irq_threads)]). by apply (ir_thr _ _ Hok).
    + intros i Hvi. assert (irq_mmio s3 = irq_mmio s) as -> by (transitivity (irq_mmio s2); [unfold s3; by destruct (_ =? 0)|by rewrite (HF _ irq_mmio)]). by apply (ir_mmio _ _ Hok).
  - rewrite (same_view _ _ HS3). apply (m_relax _ _ (n_moved _ _ N2)).
  - assert (forall e n, irq_told s2 e n -> irq_told s3 e n) as H23 by (intros e n; unfold irq_told; by rewrite (same_view _ _ HS3), (st_privs _ _ HS3)).
    split; [intros h k Hh Hk; apply H23; by apply (T2 h k)|]. intros e n Ht'. by apply H23, G2.
Qed.
End Interrupt.

(** ** Example: two drivers on one line *)

(** RS has a hook on line 5 and enables it by hand; the process of slot 14
    (structure 20) shares the line and lets the kernel enable it again. *)
Definition irq_requests : list (Z * irqctl) :=
  [(RS_PROC_NR, mkIrqctl IRQ_SETPOLICY 5 0 3); (14, mkIrqctl IRQ_SETPOLICY 5 IRQ_REENABLE 4)].

Definition send_requests (l : list (Z * irqctl)) : K unit :=
  for_each l (fun r => do_irqctl (fun _ _ => OK) (fst r) (snd r) ;; ret tt).

Definition irq_start : kstate :=
  set_irq_hooks (tab irq_hook_table (mkHook None 0 0 NONE 0 0))
    (set_irq_threads (tab irq_vectors (mkIthr 0 0 NONE false 0 None 0 0 0 0 0 0))
      (example [live_proc RS_PROC_NR 7 0 4; live_proc 14 20 0 7; live_proc 11 16 0 7]
        [live_priv RS_PROC_NR 7 SRV_F; live_priv 14 20 SRV_F; live_priv 11 16 USR_F] 11)).

Definition irq_example : kstate := run_state (send_requests irq_requests) irq_start.

(** Deciding [irq_ok]. *)
Definition ownerb (s : kstate) (e : Z) : bool :=
  let V := view s in
  existsb (fun n => match V !! n with
    | Some v => negb (v_empty v) && (v_ep v =? e)
        && match v_priv v with
           | Some id => match privs s !! id with Some pv => s_proc_nr pv =? n | None => false end
           | None => false
           end
    | None => false
    end) proc_table.

Lemma ownerb_sound s e : ownerb s e = true -> owner s e.
Proof.
  unfold ownerb. cbn zeta. rewrite existsb_exists. intros (n & Hn%list_elem_of_In & H). destruct (view s !! n) as [v|] eqn:Hv; [|done].
  rewrite !andb_true_iff in H. destruct H as [[He Hep%Z.eqb_eq] H]. destruct (v_priv v) as [id|] eqn:Hid; [|done].
  destruct (privs s !! id) as [pv|] eqn:Hpv; [|done]. apply Z.eqb_eq in H. exists n, v, id, pv.
  split; [|done]. split; [by apply elem_of_proc_table|]. split; [done|]. by apply negb_true_iff.
Qed.

Lemma all_hooks (f : Z * irq_hook -> bool) (H : gmap Z irq_hook) h k : forallb f (map_to_list H) = true -> H !! h = Some k -> f (h, k) = true.
Proof. intros Hf Hk. apply (forallb_elem _ _ _ Hf). by apply elem_of_map_to_list. Qed.

Definition irq_okb (s : kstate) : bool :=
  irqs_okb (irqs_of s)
  && forallb (fun ik => if h_proc_nr_e (snd ik) =? NONE then true else ownerb s (h_proc_nr_e (snd ik))) (map_to_list (irq_hooks s))
  && forallb (fun i => match irq_threads s !! i with
       | Some t => bool_decide (it_proc t = None) && (it_endpoint t =? NONE)
       | None => false
       end && bool_decide (is_Some (irq_mmio s !! i))) irq_vectors.

Lemma irq_okb_sound s : irq_okb s = true -> irq_ok s (line_of (irqs_of s)).
Proof.
  unfold irq_okb. rewrite !andb_true_iff. intros [[H1 H2] H3]. split.
  - by apply irqs_okb_sound.
  - intros h k Hk Hu. pose proof (all_hooks _ _ h k H2 Hk) as Ho. cbn [snd] in Ho. apply ownerb_sound.
    by rewrite (proj2 (Z.eqb_neq _ _) Hu) in Ho.
  - intros i Hi%vector_elem. pose proof (forallb_elem _ _ _ H3 Hi) as E. cbn beta in E. apply andb_true_iff in E as [E _].
    destruct (irq_threads s !! i) as [t|]; [|done]. exists t. split; [done|]. apply andb_true_iff in E as [E1%bool_decide_eq_true E2%Z.eqb_eq]. done.
  - intros i Hi%vector_elem. pose proof (forallb_elem _ _ _ H3 Hi) as E. cbn beta in E. apply andb_true_iff in E as [_ E]. by apply bool_decide_eq_true in E.
Qed.

(** ** Theorems *)

(** C34: a request of a driver ([do_irqctl]) always finishes.  Afterwards the
    hooks, lines, active ids and masks are again well formed, every hook in use
    belongs to a live process with privileges of its own, no process and no
    privilege structure has changed for message passing, and the hooks of all
    other drivers are as they were. *)
Theorem do_irqctl_keeps pg_remap_page s L caller c m :
  ready s -> irq_ok s L -> driver s caller c -> - 2 ^ 31 <= iq_hook_id m < 2 ^ 31 ->
  (vector (iq_vector m) -> (length (L (iq_vector m)) < 32)%nat) ->
  exists r s', do_irqctl pg_remap_page caller m s = Done r s' /\ irqctl_done (p_endpoint c) s s'.
Proof. apply irqctl_run. Qed.

Lemma do_irqctl_keeps_witness :
  exists r s', do_irqctl (fun _ _ => OK) 14 (mkIrqctl IRQ_RMPOLICY 0 0 2) irq_example = Done r s'
    /\ irqctl_done (ENDPOINT 1 14) irq_example s'.
Proof.
  apply (do_irqctl_keeps (fun _ _ => OK) irq_example (line_of (irqs_of irq_example)) 14 (slot irq_example 14) (mkIrqctl IRQ_RMPOLICY 0 0 2)).
  - apply ipc_ok_ready. by_ok.
  - apply irq_okb_sound. by_vm.
  - split; [by_slot|]. split; [by_live|]. exists 20, (pslot irq_example 20). split; [by_vm|]. split; [by_pslot|by_vm].
  - cbn. lia.
  - intros _. cbn [iq_vector]. apply Nat.ltb_lt. by_vm.
Defined.

(** C35: an interrupt on a line whose hooks have notification ids below 32 (the
    width of the map of pending interrupts) always finishes.  The driver of every
    hook of the line then has the interrupt, in its pending map together with a
    pending notification from the kernel or in the message it is receiving, and
    no driver loses an interrupt it had not seen yet; the line is masked exactly
    when some hook asked to enable it by hand, or when nobody handles it; and the
    invariants of the scheduler, of message passing and of the interrupt tables
    are kept. *)
Theorem irq_handle_correct s L irq :
  ready s -> irq_ok s L -> vector irq ->
  (forall h k, h ∈ L irq -> irq_hooks s !! h = Some k -> h_notify_id k < 32) ->
  exists s', irq_handle irq s = Done tt s' /\ ready s' /\ irq_ok s' L
    /\ hw_masked s' !! irq = Some (bool_decide (L irq = []) || waiting (irq_hooks s) (L irq))
    /\ irq_hooks s' = irq_hooks s
    /\ (forall h k, h ∈ L irq -> irq_hooks s !! h = Some k -> irq_told s' (h_proc_nr_e k) (h_notify_id k))
    /\ forall e n, irq_told s e n -> irq_told s' e n.
Proof.
  intros Hr Hok Hi Hids. destruct (interrupt_run s L irq Hr Hok Hi Hids) as (s' & E & Hr' & Hok' & Et & _ & T & G).
  exists s'. split; [done|]. split; [done|]. split; [done|].
  change (hw_masked s') with (q_mask (irqs_of s')). change (irq_hooks s') with (q_hooks (irqs_of s')). rewrite Et.
  destruct (L irq) as [|h l] eqn:El.
  - cbn -[bool_decide]. rewrite lookup_insert_eq, bool_decide_eq_true_2 by done. by split_and!.
  - unfold irqs_after. cbn [q_mask q_hooks]. rewrite lookup_insert_eq, bool_decide_eq_false_2, El by done. by split_and!.
Qed.

Lemma irq_handle_correct_witness :
  exists s', irq_handle 5 irq_example = Done tt s' /\ irq_told s' RS_PROC_NR 3 /\ irq_told s' (ENDPOINT 1 14) 4
    /\ hw_masked s' !! 5 = Some true.
Proof.
  destruct (irq_handle_correct irq_example (line_of (irqs_of irq_example)) 5) as (s' & E & _ & _ & Hm & _ & T & _).
  - apply ipc_ok_ready. by_ok.
  - apply irq_okb_sound. by_vm.
  - by vm_compute.
  - assert (line_of (irqs_of irq_example) 5 = [0; 1]) as -> by by_vm.
    intros h k [->|[->|[]%elem_of_nil]%elem_of_cons]%elem_of_cons Hk; vm_compute in Hk; injection Hk as <-; cbn; lia.
  - exists s'. split; [exact E|].
    assert (irq_hooks irq_example !! 0 = Some (mkHook (Some 1) 5 1 RS_PROC_NR 3 0)) as H0 by by_vm.
    assert (irq_hooks irq_example !! 1 = Some (mkHook None 5 2 (ENDPOINT 1 14) 4 IRQ_REENABLE)) as H1 by by_vm.
    assert (line_of (irqs_of irq_example) 5 = [0; 1]) as El by by_vm. rewrite El in T, Hm.
    split; [apply (T 0 _ ltac:(by left) H0)|]. split; [apply (T 1 _ ltac:(right; by left) H1)|]. rewrite Hm. by_vm.
Defined.

(** A free hook for a new notification id. *)
Lemma policy_hook_new s L e n h0 k0 :
  irq_ok s L -> e <> NONE -> irq_hooks s !! h0 = Some k0 -> h_proc_nr_e k0 = NONE ->
  (forall h k, irq_hooks s !! h = Some k -> h_proc_nr_e k = e -> h_notify_id k <> n) ->
  exists h k, policy_hook e n s = Done (Some h) s /\ irq_hooks s !! h = Some k /\ h_proc_nr_e k = NONE.
Proof.
  intros Hok He Hh0 Hf Hnew. pose proof (ir_tabs _ _ Hok) as H. unfold policy_hook.
  destruct (find_hook_run s (irqs_of s) (fun k => (h_proc_nr_e k =? e) && (h_notify_id k =? n)) irq_hook_table (table_some _ _ _ H)) as (r & E & Hr).
  rewrite with_irqs_of in E. rewrite (bind_done _ _ _ _ _ E). destruct r as [h|].
  { destruct Hr as (_ & k & Hk & [Hp%Z.eqb_eq Hn%Z.eqb_eq]%andb_true_iff). by destruct (Hnew h k). }
  destruct (find_hook_run s (irqs_of s) (fun k => h_proc_nr_e k =? NONE) irq_hook_table (table_some _ _ _ H)) as (r & E2 & Hr2).
  rewrite with_irqs_of in E2. rewrite E2. destruct r as [h|].
  - destruct Hr2 as (_ & k & Hk & Hfk%Z.eqb_eq). by exists h, k.
  - assert (h0 ∈ irq_hook_table) as Hin by (apply hook_table_elem, (ho_tab _ _ _ (iq_hooks _ _ _ H)); eexists; by apply hdata_lookup).
    specialize (Hr2 h0 k0 Hin Hh0). cbn beta in Hr2. by rewrite Hf in Hr2.
Qed.

(** Property: a 33rd hook on a line stops the kernel.  When 32 hooks share a line,
    a request of any driver that may use this line for one more of them panics;
    no error is returned. *)
Theorem irq_line_full_panics pg_remap_page s L caller c id pv m h0 k0 :
  ready s -> irq_ok s L -> driver s caller c -> p_priv c = Some id -> privs s !! id = Some pv ->
  iq_request m = IRQ_SETPOLICY -> vector (iq_vector m) -> 0 <= iq_hook_id m < 64 ->
  (has (s_flags pv) CHECK_IRQ = true -> iq_vector m ∈ s_irq_tab pv) ->
  length (L (iq_vector m)) = 32%nat ->
  irq_hooks s !! h0 = Some k0 -> h_proc_nr_e k0 = NONE ->
  (forall h k, irq_hooks s !! h = Some k -> h_proc_nr_e k = p_endpoint c -> h_notify_id k <> iq_hook_id m) ->
  do_irqctl pg_remap_page caller m s = Stop Panic.
Proof.
  intros Hr Hok Hd Hid Hpv Hreq Hi Hn Hirq Hlen Hh0 Hf Hnew. pose proof Hd as (Hc & Hl & _).
  assert (p_endpoint c <> NONE) as He by (exact (live_not_none s caller (ipc_of c) Hr Hl)).
  unfold do_irqctl. erewrite bind_get_proc by done. cbn zeta. rewrite Hreq. cbn -[irq_setpolicy]. unfold irq_setpolicy.
  rewrite (vector_bound _ Hi : (iq_vector m <? 0) || (NR_IRQ_VECTORS <=? iq_vector m) = false). erewrite bind_get_proc by done. rewrite Hid.
  rewrite (bind_done (get_priv_id id) _ pv s s) by (unfold get_priv_id; by rewrite Hpv).
  assert (has (s_flags pv) CHECK_IRQ && negb (bool_decide (iq_vector m ∈ s_irq_tab pv)) = false) as ->.
  { destruct (has _ CHECK_IRQ) eqn:Eh; [|done]. by rewrite bool_decide_eq_true_2 by (by apply Hirq). }
  assert (bad_notify_id (iq_hook_id m) = false) as -> by (apply Z.ltb_ge; unfold u64; rewrite Z.mod_small; lia).
  destruct (policy_hook_new s L _ _ h0 k0 Hok He Hh0 Hf Hnew) as (h & k & E & Hk & Hfk). rewrite (bind_done _ _ _ _ _ E).
  pose proof (proj1 (transit_free (irqs_of s) L h k Hk Hfk) (ir_tabs _ _ Hok)) as Ht.
  destruct (policy_fits s (irqs_of s) L (p_endpoint c) (iq_hook_id m) h k (iq_policy m) Ht Hk He Hn) as [E1 (Ht1 & _)].
  { intros y d Hy _ Hde. destruct (hdata_inv _ _ _ Hy) as (ky & Hky & ->). exact (Hnew y ky Hky Hde). }
  rewrite with_irqs_of in E1. rewrite (bind_done _ _ _ _ _ E1). unfold put_irq_handler, bind.
  by rewrite (link_hook_full s _ L (iq_vector m) h Ht1 Hi Hlen).
Qed.

(** RS fills line 5. *)
Definition full_example : kstate :=
  run_state (send_requests (map (fun i => (RS_PROC_NR, mkIrqctl IRQ_SETPOLICY 5 0 (Z.of_nat i))) (seq 0 32))) irq_start.

Lemma irq_line_full_panics_witness :
  do_irqctl (fun _ _ => OK) 14 (mkIrqctl IRQ_SETPOLICY 5 0 1) full_example = Stop Panic.
Proof.
  apply (irq_line_full_panics (fun _ _ => OK) full_example (line_of (irqs_of full_example)) 14 (slot full_example 14) 20 (pslot full_example 20)
    (mkIrqctl IRQ_SETPOLICY 5 0 1) 40 (mkHook None 0 0 NONE 0 0)); try by_vm.
  - apply ipc_ok_ready. by_ok.
  - apply irq_okb_sound. by_vm.
  - split; [by_slot|]. split; [by_live|]. exists 20, (pslot full_example 20). split; [by_vm|]. split; [by_pslot|by_vm].
  - by vm_compute.
  - cbn. lia.
  - intros H. vm_compute in H. discriminate H.
  - intros h k Hk He. exfalso.
    pose proof (all_hooks (fun hk => negb (h_proc_nr_e (snd hk) =? ENDPOINT 1 14)) (irq_hooks full_example) h k ltac:(by_vm) Hk) as Hf.
    cbn [snd] in Hf. rewrite He in Hf. vm_compute in Hf. discriminate Hf.
Defined.
