(* ===== verification/BootProps.v ===== *)
(** * The system that starts

    The tables the start leaves satisfy the invariants the other theorems
    assume, so these hold of the system as it runs. *)

From S2P Require Import Prelude Monad Timers TimerProps Endpoint AuditRing DrvQueue Chain Kernel Sched RunQueue Init SchedProps Ipc IpcInv IpcStep Notify IpcSend System Clock Vm AuditCall Privctl Irq IrqInv Grants Boot SysProps ClockProps IrqProps.

Lemma for_each_ext {A} (l : list A) (f g : A -> K unit) : (forall x s, f x s = g x s) -> forall s, for_each l f s = for_each l g s.
Proof.
  intros H. induction l as [|x l IH]; intros s; [done|]. cbn. unfold bind. rewrite H. by destruct (g x s).
Qed.

Lemma bind_ext {A B} (m m' : K A) (k k' : A -> K B) s : m s = m' s -> (forall a s, k a s = k' a s) -> bind m k s = bind m' k' s.
Proof. intros E H. unfold bind. rewrite E. by destruct (m' s). Qed.

(** Which page table a process gets does not matter here. *)
Lemma vmctl_root e r : r <> 0 -> forall s, vmctl e VMCTL_SETADDRSPACE r s = vmctl e VMCTL_SETADDRSPACE 1 s.
Proof.
  intros Hr s. unfold vmctl, do_vmctl. apply bind_ext; [|done]. apply bind_ext; [done|]. intros c s1.
  apply bind_ext; [done|]. intros [n|] s2; [|done]. apply bind_ext; [done|]. intros p s3. cbn -[arch_do_vmctl].
  apply bind_ext; [|done]. unfold arch_do_vmctl, setcr3. by rewrite (proj2 (Z.eqb_neq _ _) Hr).
Qed.

Lemma init_vm_root root : (forall n, root n <> 0) -> forall s, init_vm (fun _ => true) root s = init_vm (fun _ => true) (fun _ => 1) s.
Proof.
  intros Hr. apply for_each_ext. intros [n name] s. cbn [fst]. destruct (_ || _); [done|]. unfold exec_bootproc.
  apply bind_ext; [done|]. intros p s1. apply bind_ext; [|done]. apply bind_ext; [|done]. by apply vmctl_root.
Qed.

Definition boot_state (hz : option Z) : kstate := run_state (boot hz (fun _ => 1)) bss.

Lemma boot_run hz root : (forall n, root n <> 0) -> boot hz root bss = Done tt (boot_state hz).
Proof.
  intros Hr. transitivity (boot hz (fun _ => 1) bss).
  2: { assert (ends_with (boot hz (fun _ => 1)) bss tt = true) as E by by_vm. exact (run_done _ _ _ E). }
  apply bind_ext; [done|]. intros _ s. apply bind_ext; [|done]. by apply init_vm_root.
Qed.

#[export] Instance irq_thread_eq_dec : EqDecision irq_thread.
Proof. solve_decision. Defined.

(** ** What the start leaves *)

Definition boot_clockb (s : kstate) : bool :=
  ipc_okb s && alarms_okb (k_timers s) && tq_okb (k_monotonic s) (k_timers s) []
  && (proc_ptr s =? idle_proc) && (bill_ptr s =? idle_proc)
  && match view s !! idle_proc with
     | Some v => bool_decide (v_recv v = None) && negb (has (v_misc v) MF_VIRT_TIMER) && negb (has (v_misc v) MF_PROF_TIMER)
     | None => false
     end.

Lemma boot_clockb_sound s : boot_clockb s = true -> clock_ok s [].
Proof.
  unfold boot_clockb. rewrite !andb_true_iff. intros (((((H1 & H2) & H3) & H4%Z.eqb_eq) & H5%Z.eqb_eq) & H6).
  assert (no_vtimer (view s) idle_proc) as Hi.
  { destruct (view s !! idle_proc) as [v|] eqn:Hv; [|done]. apply andb_true_iff in H6 as [[A%bool_decide_eq_true B%negb_true_iff]%andb_true_iff C%negb_true_iff].
    by exists v. }
  split; [by apply ipc_okb_sound|by apply alarms_okb_sound|by apply tq_okb_sound|..]; left; by rewrite ?H4, ?H5.
Qed.

(** The services of the boot image may send to each other. *)
Definition services : list Z := map fst boot_image_priv_table.
Definition may_send (P : gmap Z priv) (a b : Z) : bool :=
  match P !! static_priv_id a with Some pv => get_sys_bit (s_ipc_to pv) (static_priv_id b) | None => false end.
Definition all_sendb (P : gmap Z priv) : bool :=
  forallb (fun a => forallb (fun b => (a =? b) || may_send P a b) services) services.

Lemma all_sendb_sound P a b : all_sendb P = true -> a ∈ services -> b ∈ services -> a <> b -> may_send P a b = true.
Proof.
  intros H Ha Hb Hne. pose proof (forallb_elem _ _ _ (forallb_elem _ _ _ H Ha) Hb) as E. cbn beta in E.
  by rewrite (proj2 (Z.eqb_neq _ _) Hne) in E.
Qed.

Definition caps_okb (pv : priv) : bool :=
  (Z.land (s_cap_effective pv) (s_cap_permitted pv) =? s_cap_effective pv)
  && (Z.land (s_cap_permitted pv) (s_cap_bound pv) =? s_cap_permitted pv)
  && (0 <=? s_cap_bound pv) && (s_cap_bound pv <? 2 ^ 64).

Lemma all_caps_sound (P : gmap Z priv) id pv : forallb (fun ip => caps_okb (snd ip)) (map_to_list P) = true -> P !! id = Some pv -> caps_ok pv.
Proof.
  intros H Hp. assert ((id, pv) ∈ map_to_list P) as Hin by (by apply elem_of_map_to_list).
  pose proof (forallb_elem _ _ _ H Hin) as E. cbn [snd] in E. unfold caps_okb in E. rewrite !andb_true_iff in E.
  destruct E as [[[A%Z.eqb_eq B%Z.eqb_eq] C%Z.leb_le] D%Z.ltb_lt]. by split.
Qed.

(** C31: the system starts, and starts right.  From the zeroed tables,
    [kmain] and the kernel calls by which VM and RS let the boot image run all
    finish, whatever tick rate is configured.  The state they leave satisfies
    the invariants of scheduling, message passing, clock, interrupts, send masks
    and capabilities; the services are in the run queue of their priority in the
    order in which they were let go; each of them may send to each other; and no
    interrupt thread has been created. *)
Theorem boot_establishes hz root :
  (forall n, root n <> 0) ->
  exists s', boot hz root bss = Done tt s'
    /\ clock_ok s' [] /\ irq_ok s' (line_of (irqs_of s')) /\ masks_ok (privs s')
    /\ (forall id pv, privs s' !! id = Some pv -> caps_ok pv)
    /\ rq s' USER_Q = [VM_PROC_NR; RS_PROC_NR; PM_PROC_NR; SCHED_PROC_NR; VFS_PROC_NR; DS_PROC_NR; TTY_PROC_NR; MEM_PROC_NR;
         MIB_PROC_NR; PFS_PROC_NR; MFS_PROC_NR]
    /\ (forall a b, a ∈ services -> b ∈ services -> a <> b -> may_send (privs s') a b = true)
    /\ forall irq, vector irq -> irq_threads s' !! irq = Some (irq_thread_row irq).
Proof.
  intros Hr. exists (boot_state hz). split; [by apply boot_run|].
  split; [apply boot_clockb_sound; by_vm|]. split; [apply irq_okb_sound; by_vm|]. split; [apply masks_okb_sound; by_vm|].
  split; [intros id pv; apply all_caps_sound; by_vm|]. split; [by_vm|].
  split; [intros a b; apply all_sendb_sound; by_vm|]. intros irq Hi%vector_elem.
  assert (forallb (fun i => bool_decide (irq_threads (boot_state hz) !! i = Some (irq_thread_row i))) irq_vectors = true) as H by by_vm.
  exact (proj1 (bool_decide_eq_true _) (forallb_elem _ _ _ H Hi)).
Qed.

Lemma boot_establishes_witness :
  exists s', boot (Some 60) (fun n => Z.lor (Z.shiftl (n + 16) 12) 1) bss = Done tt s' /\ clock_ok s' [].
Proof.
  destruct (boot_establishes (Some 60) (fun n => Z.lor (Z.shiftl (n + 16) 12) 1)) as (s' & E & H & _).
  - intros n E. apply Z.lor_eq_0_iff in E as [_ E]. discriminate E.
  - exists s'. split; [exact E|exact H].
Defined.
