(* ===== verification/PrivProps.v ===== *)
(** * Giving privileges

    [do_privctl] with [SYS_PRIV_SET_SYS] gives a process that waits for its
    privileges a structure of its own; the invariants of scheduling, message
    passing and the clock survive the copy of the caller's structure, alarm
    timer included. *)

From S2P Require Import Prelude Monad Timers TimerProps Endpoint AuditRing DrvQueue Chain Kernel Sched RunQueue Init SchedProps Ipc IpcInv Deadlock IpcStep Notify IpcSend IpcCall System Clock Vm AuditCall Privctl SysProps ClockProps.

(** ** Another structure for a process *)

Definition unpriv (v : ipcv) : ipcv :=
  mkV (v_nr v) (v_ep v) None (v_cq v) (v_link v) (v_send v) (v_recv v) (v_noend v) (v_empty v) (v_fbit v)
    (v_misc v) (v_dmsg v) (v_dvir v) (v_smsg v) (v_status v) (v_ret v) (v_vmwait v) (v_vmreq v).

Section Repriv.
Context (V V' : views) (HV : unpriv <$> V' = unpriv <$> V).

Lemma repriv_lookup n : unpriv <$> V' !! n = unpriv <$> V !! n.
Proof. rewrite <- !lookup_fmap. by rewrite HV. Qed.

Lemma repriv_live n v : live V n v -> exists v', live V' n v' /\ unpriv v' = unpriv v.
Proof.
  intros (Hn & Hv & He). pose proof (repriv_lookup n) as E. rewrite Hv in E. destruct (V' !! n) as [v'|] eqn:Hv'; [|done].
  apply Some_inj in E. exists v'. split; [|done]. split; [done|]. split; [done|]. rewrite <- He. exact (f_equal v_empty E).
Qed.

Lemma repriv_live_r n v' : live V' n v' -> exists v, live V n v /\ unpriv v' = unpriv v.
Proof.
  intros (Hn & Hv' & He). pose proof (repriv_lookup n) as E. rewrite Hv' in E. destruct (V !! n) as [v|] eqn:Hv; [|done].
  apply Some_inj in E. exists v. split; [|done]. split; [done|]. split; [done|]. rewrite <- He. exact (eq_sym (f_equal v_empty E)).
Qed.

Lemma repriv_waits e b : waits_for V e b -> waits_for V' e b.
Proof.
  intros (m & w & Hw & He & Hn). destruct (repriv_live _ _ Hw) as (w' & Hw' & E). exists m, w'. split; [done|].
  split; [rewrite <- He; exact (f_equal v_ep E)|]. intros Hb. rewrite <- (Hn Hb). exact (f_equal v_noend E).
Qed.

Lemma repriv_queues C : queues_ok V C -> queues_ok V' C.
Proof.
  intros H n v' Hl'. destruct (repriv_live_r _ _ Hl') as (v & Hl & E). destruct (H n v Hl) as [Hc Hm]. split.
  - rewrite (f_equal v_cq E : v_cq v' = v_cq v). eapply chain_ext; [|exact Hc]. intros m _. unfold qlink.
    pose proof (repriv_lookup m) as Em. destruct (V' !! m), (V !! m); try done. apply Some_inj in Em. exact (f_equal v_link Em).
  - intros m. rewrite Hm, (f_equal v_ep E : v_ep v' = v_ep v). split; intros (w & Hw & Hs).
    + destruct (repriv_live _ _ Hw) as (w' & Hw' & Ew). exists w'. split; [done|]. rewrite <- Hs. exact (f_equal v_send Ew).
    + destruct (repriv_live_r _ _ Hw) as (w' & Hw' & Ew). exists w'. split; [done|]. rewrite <- Hs. exact (eq_sym (f_equal v_send Ew)).
Qed.

Lemma repriv_links : links V -> links V'.
Proof.
  intros [[C HC] H2 H3 H4 H5 H6 H7 H8].
  assert (forall n, blk V' n = blk V n) as Hb.
  { intros n. unfold blk. pose proof (repriv_lookup n) as E. destruct (V' !! n) as [v'|], (V !! n) as [v|]; try done. apply Some_inj in E.
    assert (v_blocked v' = v_blocked v) as -> by (unfold v_blocked; by rewrite (f_equal v_send E : v_send v' = v_send v), (f_equal v_recv E : v_recv v' = v_recv v)).
    done. }
  assert (forall n v', live V' n v' -> exists v, live V n v /\ v_send v' = v_send v /\ v_recv v' = v_recv v /\ v_link v' = v_link v
    /\ v_noend v' = v_noend v) as HR.
  { intros n v' Hl'. destruct (repriv_live_r _ _ Hl') as (v & Hl & E). exists v. split; [done|].
    split; [exact (f_equal v_send E)|]. split; [exact (f_equal v_recv E)|]. split; [exact (f_equal v_link E)|exact (f_equal v_noend E)]. }
  split; [exists C; by apply repriv_queues|..].
  - intros n v' Hl'. destruct (HR n v' Hl') as (v & Hl & -> & _ & -> & _). by apply (H2 n).
  - intros n v' e Hl'. destruct (HR n v' Hl') as (v & Hl & -> & _). intros Hs. by apply repriv_waits, (H3 n v).
  - intros n v' e Hl'. destruct (HR n v' Hl') as (v & Hl & _ & -> & _). intros Hs.
    destruct (H4 n v e Hl Hs) as [?|?]; [by left|right; by apply repriv_waits].
  - intros n v' e e' Hl'. destruct (HR n v' Hl') as (v & Hl & -> & -> & _). by apply (H5 n).
  - intros n v' Hl'. destruct (HR n v' Hl') as (v & Hl & -> & _ & _ & ->). by apply (H6 n).
  - intros n v' e Hl'. destruct (HR n v' Hl') as (v & Hl & -> & _). by apply (H7 n).
  - intros n v' Hl'. destruct (HR n v' Hl') as (v & Hl & _). destruct (H8 n v Hl) as [l Hc]. exists l.
    eapply chain_ext; [|exact Hc]. intros m _. apply Hb.
Qed.
End Repriv.

(** ** Installing a structure *)

(** What the new structure of [rp] must satisfy. *)
Record fresh_priv (V : views) (rp id : Z) (pv : priv) : Prop := {
  fp_id : s_id pv = id;
  fp_nr : s_proc_nr pv = rp;
  fp_notify : s_notify_pending pv = map_zero;
  fp_asyn : s_asyn_pending pv = map_zero;
  fp_ipcf : s_ipcf pv = None;
  fp_mgr : s_sig_mgr pv = SELF \/ exists m w, live V m w /\ v_ep w = s_sig_mgr pv
}.

Lemma map_zero_ok : map_ok map_zero.
Proof. apply map_okb_sound. by_vm. Qed.
Lemma map_zero_bit b : bit_ok b -> get_sys_bit map_zero b = false.
Proof.
  intros [H1 H2]. assert (forallb (fun b => negb (get_sys_bit map_zero b)) priv_table = true) as H by by_vm.
  rewrite forallb_forall in H. by apply negb_true_iff, H, elem_of_priv_table.
Qed.

Lemma wf_sched_tables s s' :
  procs s' = procs s -> run_q_head s' = run_q_head s -> run_q_tail s' = run_q_tail s -> cur_ok s' -> wf_sched s -> wf_sched s'.
Proof.
  destruct s, s'. cbn. intros -> -> -> Hc [[L HQ] Hpo Hso _]. split; [|exact Hpo|by destruct Hso; split|exact Hc].
  exists L. by destruct HQ; split.
Qed.

Section Install.
Context (s s' : kstate) (rp id : Z) (p : proc) (pv' : priv).
Hypothesis Hok : ipc_ok s.
Hypothesis Hp : procs s !! rp = Some p.
Hypothesis Hl : live (view s) rp (ipc_of p).
Hypothesis Hid : bit_ok id.
Hypothesis Hfresh : fresh_priv (view s) rp id pv'.
Hypothesis Hprocs : procs s' = <[rp := set_p_priv (Some id) p]> (procs s).
Hypothesis Hprivs : meta <$> privs s' = <[id := meta pv']> (meta <$> privs s).
Hypothesis Hheads : run_q_head s' = run_q_head s.
Hypothesis Htails : run_q_tail s' = run_q_tail s.
Hypothesis Hcur : proc_ptr s' = proc_ptr s.

Lemma install_view : view s' = <[rp := ipc_of (set_p_priv (Some id) p)]> (view s).
Proof. unfold view. by rewrite Hprocs, fmap_insert. Qed.

Lemma install_unpriv : unpriv <$> view s' = unpriv <$> view s.
Proof.
  rewrite install_view, fmap_insert. change (unpriv (ipc_of (set_p_priv (Some id) p))) with (unpriv (ipc_of p)).
  rewrite <- fmap_insert, insert_id; [done|]. by apply view_lookup.
Qed.

(** A structure after the change. *)
Lemma install_priv x pv : privs s' !! x = Some pv ->
  (x = id /\ meta pv = meta pv') \/ (x <> id /\ exists old, privs s !! x = Some old /\ meta pv = meta old).
Proof.
  intros Hx. pose proof (f_equal (fun m => m !! x) Hprivs) as E. cbn beta in E. rewrite lookup_fmap, Hx in E. cbn in E.
  destruct (decide (x = id)) as [->|Hne].
  - rewrite lookup_insert_eq in E. left. split; [done|]. by apply Some_inj in E.
  - rewrite lookup_insert_ne, lookup_fmap in E by done. destruct (privs s !! x) as [old|]; [|done]. right. split; [done|].
    exists old. split; [done|]. by apply Some_inj in E.
Qed.

Lemma install_kept x old : privs s !! x = Some old -> x <> id -> exists pv, privs s' !! x = Some pv /\ meta pv = meta old.
Proof.
  intros Hx Hne. pose proof (f_equal (fun m => m !! x) Hprivs) as E. cbn beta in E.
  rewrite lookup_insert_ne, !lookup_fmap, Hx in E by done. destruct (privs s' !! x) as [pv|]; [|done]. exists pv. split; [done|]. by apply Some_inj in E.
Qed.

Lemma install_new : exists pv, privs s' !! id = Some pv /\ meta pv = meta pv'.
Proof.
  pose proof (f_equal (fun m => m !! id) Hprivs) as E. cbn beta in E. rewrite lookup_insert_eq, lookup_fmap in E.
  destruct (privs s' !! id) as [pv|]; [|done]. exists pv. split; [done|]. by apply Some_inj in E.
Qed.

Lemma install_live n v' : live (view s') n v' ->
  (n = rp /\ v_priv v' = Some id /\ unpriv v' = unpriv (ipc_of p)) \/ (n <> rp /\ live (view s) n v').
Proof.
  intros (Hn & Hv & He). rewrite install_view in Hv. destruct (decide (n = rp)) as [->|Hne].
  - rewrite lookup_insert_eq in Hv. apply Some_inj in Hv as <-. by left.
  - rewrite lookup_insert_ne in Hv by done. right. by split.
Qed.

Lemma install_core : core (view s') (privs s').
Proof.
  pose proof (wf_c _ (ok_wf _ Hok)) as [H1 H2 H3 H4 H5 H6 H7]. pose proof install_unpriv as HU.
  destruct install_new as (pvn & Hnew & Emn).
  assert (s_proc_nr pvn = rp) as Hnr by (rewrite <- (fp_nr _ _ _ _ Hfresh); exact (f_equal s_proc_nr Emn)).
  assert (exists w, live (view s') rp w) as [wr Hwr].
  { destruct (repriv_live _ _ HU rp _ Hl) as (w & Hw & _). by exists w. }
  assert (forall x old, privs s !! x = Some old -> (exists w, live (view s) (s_proc_nr old) w) ->
    exists pv w, privs s' !! x = Some pv /\ live (view s') (s_proc_nr pv) w) as Hkeep.
  { intros x old Hx [w Hw]. destruct (decide (x = id)) as [->|Hne].
    - exists pvn, wr. by rewrite Hnr.
    - destruct (install_kept x old Hx Hne) as (pv & Hpv & Em). destruct (repriv_live _ _ HU _ _ Hw) as (w' & Hw' & _).
      exists pv, w'. split; [done|]. by rewrite (f_equal s_proc_nr Em : s_proc_nr pv = s_proc_nr old). }
  split.
  - intros n v' Hv'. destruct (repriv_live_r _ _ HU n v' Hv') as (v & Hv & E). destruct (H1 n v Hv) as (A & B & D).
    rewrite (f_equal v_ep E : v_ep v' = v_ep v), (f_equal v_fbit E : v_fbit v' = v_fbit v), (f_equal v_nr E : v_nr v' = v_nr v). done.
  - intros n v' Hv'. destruct (install_live n v' Hv') as [(-> & Hpr & _)|(Hne & Hv)].
    + exists id, pvn. rewrite Hnr. split; [done|]. split; [done|]. split; [done|]. by exists wr.
    + destruct (H2 n v' Hv) as (x & old & Hx & Hbx & Hold & w & Hw).
      destruct (Hkeep x old Hold (ex_intro _ w Hw)) as (pv & w' & Hpv & Hw'). exists x, pv.
      split; [done|]. split; [done|]. split; [done|]. by exists w'.
  - intros x pv Hx Hpv. destruct (install_priv x pv Hpv) as [(-> & E)|(Hne & old & Hold & E)].
    + rewrite (f_equal s_id E : s_id pv = s_id pv'), (f_equal s_notify_pending E : s_notify_pending pv = s_notify_pending pv'),
        (f_equal s_asyn_pending E : s_asyn_pending pv = s_asyn_pending pv'), (fp_notify _ _ _ _ Hfresh), (fp_asyn _ _ _ _ Hfresh), (fp_id _ _ _ _ Hfresh).
      split; [done|]. split; apply map_zero_ok.
    + rewrite (f_equal s_id E : s_id pv = s_id old), (f_equal s_notify_pending E : s_notify_pending pv = s_notify_pending old),
        (f_equal s_asyn_pending E : s_asyn_pending pv = s_asyn_pending old). by apply H3.
  - intros x pv b Hx Hpv Hb Hpend. destruct (install_priv x pv Hpv) as [(-> & E)|(Hne & old & Hold & E)].
    + unfold pending in Hpend. rewrite (f_equal s_notify_pending E : s_notify_pending pv = s_notify_pending pv'),
        (f_equal s_asyn_pending E : s_asyn_pending pv = s_asyn_pending pv'), (fp_notify _ _ _ _ Hfresh), (fp_asyn _ _ _ _ Hfresh), !map_zero_bit in Hpend by done. done.
    + assert (pending old b = true) as Hold'.
      { unfold pending in *. by rewrite <- (f_equal s_notify_pending E : s_notify_pending pv = s_notify_pending old), <- (f_equal s_asyn_pending E : s_asyn_pending pv = s_asyn_pending old). }
      destruct (H4 x old b Hx Hold Hb Hold') as (pb & w & Hpb & Hw). by apply (Hkeep b pb Hpb (ex_intro _ w Hw)).
  - intros n v' Hv'. destruct (repriv_live_r _ _ HU n v' Hv') as (v & Hv & E). 
    rewrite (f_equal v_recv E : v_recv v' = v_recv v), (f_equal v_misc E : v_misc v' = v_misc v). by apply (H5 n).
  - intros n H0 Hn. destruct (H6 n H0 Hn) as [v Hv]. destruct (repriv_live _ _ HU n v Hv) as (v' & Hv' & _). by exists v'.
  - intros x Hx. destruct (H7 x Hx) as [old Hold]. destruct (decide (x = id)) as [->|Hne]; [by exists pvn|].
    destruct (install_kept x old Hold Hne) as (pv & Hpv & _). by exists pv.
Qed.

Lemma install_base : base s'.
Proof.
  pose proof (wf_b _ (ok_wf _ Hok)) as [Hw Hc Hpr].
  set (s1 := set_procs (<[rp := set_p_priv (Some id) p]> (procs s)) s).
  assert (cur_ok (set_privs (privs s') s1)) as Hcok.
  { destruct Hw as [_ _ _ (c & x & pv & Hcp & Hx & Hpv)]. unfold cur_ok. cbn. destruct (decide (proc_ptr s = rp)) as [E|Hne].
    - rewrite E, lookup_insert_eq. destruct install_new as (pvn & Hnew & _). by exists (set_p_priv (Some id) p), id, pvn.
    - rewrite lookup_insert_ne by done. destruct (decide (x = id)) as [->|Hnx].
      + destruct install_new as (pvn & Hnew & _). by exists c, id, pvn.
      + destruct (install_kept x pv Hpv Hnx) as (pv1 & Hpv1 & _). by exists c, x, pv1. }
  assert (wf_sched (set_privs (privs s') s1)) as Hw1.
  { apply (upd_kept (set_privs (privs s') s) rp p (set_p_priv (Some id) p)); [done|by split| |exact Hcok].
    eapply wf_sched_tables; [..|exact Hw]; [done..|]. destruct Hw as [_ _ _ (c & x & pv & Hcp & Hx & Hpv)].
    destruct (decide (x = id)) as [->|Hnx].
    - destruct install_new as (pvn & Hnew & _). by exists c, id, pvn.
    - destruct (install_kept x pv Hpv Hnx) as (pv1 & Hpv1 & _). by exists c, x, pv1. }
  assert (base (set_privs (privs s') s1)) as Hb1.
  { split; [done| |].
    - destruct Hc as (c & Hcp & Hf). unfold cur_live. cbn. destruct (decide (proc_ptr s = rp)) as [E|Hne].
      + rewrite E, lookup_insert_eq. eexists. split; [done|]. rewrite E, Hp in Hcp. by apply Some_inj in Hcp as <-.
      + rewrite lookup_insert_ne by done. by exists c.
    - intros n q. cbn. destruct (decide (n = rp)) as [->|Hne].
      + rewrite lookup_insert_eq. intros [= <-]. exact (Hpr rp p Hp).
      + rewrite lookup_insert_ne by done. apply Hpr. }
  destruct Hb1 as [Hws (c & Hcp & Hf) Hpr1]. split.
  - eapply wf_sched_tables; [..|exact Hws]; [done|done|done|]. unfold cur_ok in *. by rewrite Hprocs, Hcur.
  - exists c. by rewrite Hprocs, Hcur.
  - unfold prio_all. by rewrite Hprocs.
Qed.

Lemma install_ok : ipc_ok s'.
Proof.
  pose proof install_unpriv as HU. split.
  - split; [exact install_base|exact install_core|]. eapply repriv_links; [exact HU|]. apply (wf_l _ (ok_wf _ Hok)).
  - intros x pv Hx. destruct (install_priv x pv Hx) as [(-> & E)|(Hne & old & Hold & E)].
    + rewrite <- (fp_ipcf _ _ _ _ Hfresh). exact (f_equal s_ipcf E).
    + rewrite <- (ok_nf _ Hok x old Hold). exact (f_equal s_ipcf E).
  - assert (forall e, (exists m w, live (view s) m w /\ v_ep w = e) -> exists m w, live (view s') m w /\ v_ep w = e) as HL.
    { intros e (m & w & Hw & He). destruct (repriv_live _ _ HU m w Hw) as (w' & Hw' & E). exists m, w'. split; [done|].
      rewrite <- He. exact (f_equal v_ep E). }
    intros n v' x pv Hv' H0 Hx Hpv. destruct (install_priv x pv Hpv) as [(-> & E)|(Hne & old & Hold & E)];
      rewrite (f_equal s_sig_mgr E : s_sig_mgr pv = s_sig_mgr _).
    + destruct (fp_mgr _ _ _ _ Hfresh) as [?|?]; [by left|right; by apply HL].
    + destruct (install_live n v' Hv') as [(_ & Hpr & _)|(_ & Hv)]; [congruence|].
      destruct (ok_mgr _ Hok n v' x old Hv H0 Hx Hold) as [?|?]; [by left|right; by apply HL].
Qed.
End Install.

(** ** The copied timer *)

Section Stray.
Context (b : Z) (q : tqueue) (l : list Z) (tp : Z).
Hypothesis Hq : tq_ok b q l.
Hypothesis Hn : tp ∉ l.

Definition put_tmr (t : minix_timer) : tqueue := mkTq (<[tp := t]> (t_tab q)) (t_head q).

Lemma put_tmr_same t x : x ∈ l -> t_tab (put_tmr t) !! x = t_tab q !! x.
Proof. intros Hx. cbn. apply lookup_insert_ne. by intros <-. Qed.

Lemma put_tmr_chain t : chain (tnext (put_tmr t)) (t_head (put_tmr t)) l.
Proof. eapply chain_ext; [|exact (tq_chain _ _ _ Hq)]. intros x Hx. unfold tnext. by rewrite put_tmr_same. Qed.

Lemma put_tmr_tab t : in_tab (put_tmr t) l.
Proof. intros x Hx. rewrite put_tmr_same by done. by apply (tq_tab _ _ _ Hq). Qed.

Lemma timers_sorted_ext (f g : Z -> Z) (m : list Z) : (forall x, x ∈ m -> g x = f x) ->
  Sorted.StronglySorted (fun x y => f x <= f y) m -> Sorted.StronglySorted (fun x y => g x <= g y) m.
Proof.
  intros Hfg Hs. induction Hs as [|x m Hs IH Hf]; constructor; [apply IH; intros y Hy; apply Hfg; by right|].
  apply Forall_forall. intros y Hy. rewrite Forall_forall in Hf. specialize (Hf y Hy). rewrite !Hfg; [exact Hf|by right|by left].
Qed.

(** A timer that is not set does not matter. *)
Lemma put_tmr_ok t : tmr_func t = None -> tq_ok b (put_tmr t) l.
Proof.
  intros Ht. split; [apply put_tmr_chain| | |].
  - intros x y. cbn. destruct (decide (x = tp)) as [->|Hne]; [|rewrite lookup_insert_ne by done; apply (tq_used _ _ _ Hq)].
    rewrite lookup_insert_eq. intros [= <-]. rewrite Ht. split; [by intros ?%Hn|by intros []].
  - intros x Hx. unfold due. rewrite put_tmr_same by done. by apply (tq_tab _ _ _ Hq).
  - eapply timers_sorted_ext; [|exact (tq_sorted _ _ _ Hq)]. intros x Hx. unfold due. by rewrite put_tmr_same.
Qed.

(** Clearing it is the same whether it looks set or not. *)
Lemma put_tmr_clr s t : tmrs_clrtimer tp (set_k_timers (put_tmr t) s) = tmrs_clrtimer tp (set_k_timers (put_tmr (set_tmr_func None t)) s).
Proof.
  unfold tmrs_clrtimer. set (t' := set_tmr_func None t).
  rewrite (bind_done _ _ _ _ _ (@head_time_run kstate kernel_timers (set_k_timers (put_tmr t) s) l (put_tmr_chain t) (put_tmr_tab t))).
  rewrite (bind_done _ _ _ _ _ (@head_time_run kstate kernel_timers (set_k_timers (put_tmr t') s) l (put_tmr_chain t') (put_tmr_tab t'))).
  rewrite (bind_done _ _ _ _ _ (@upd_tmr_run kstate kernel_timers (set_k_timers (put_tmr t) s) tp t _ (lookup_insert_eq _ _ _))).
  rewrite (bind_done _ _ _ _ _ (@upd_tmr_run kstate kernel_timers (set_k_timers (put_tmr t') s) tp _ _ (lookup_insert_eq _ _ _))).
  assert (first_due (put_tmr t) l = first_due (put_tmr t') l) as E.
  { unfold first_due. pose proof (fun x Hx => eq_trans (put_tmr_same t x Hx) (eq_sym (put_tmr_same t' x Hx))) as Hx.
    destruct l as [|x m]; [done|]. cbn [head]. cbn -[put_tmr]. by rewrite Hx by (by left). }
  cbn -[first_due]. unfold put_tmr in *. cbn -[first_due]. rewrite !insert_insert_eq. by rewrite E.
Qed.

(** A timer that is not in the queue but may look set: resetting it leaves the
    queue as it was. *)
Lemma stray_reset s t :
  exists q', reset_kernel_timer tp (set_k_timers (put_tmr t) s) = Done tt (set_k_timers q' s)
    /\ tq_ok b q' l /\ data q' = <[tp := unlinked (set_tmr_func None t)]> (data q).
Proof.
  unfold reset_kernel_timer.
  rewrite (bind_done _ _ t (set_k_timers (put_tmr t) s) (set_k_timers (put_tmr t) s)) by (unfold get_tmr; cbn; by rewrite lookup_insert_eq).
  destruct (tmr_is_set t) eqn:Es.
  - unfold bind at 1. rewrite put_tmr_clr.
    destruct (@tmrs_clrtimer_run kstate kernel_timers (set_k_timers (put_tmr (set_tmr_func None t)) s) b l tp (set_tmr_func None t)
      (put_tmr_ok (set_tmr_func None t) eq_refl) (lookup_insert_eq _ _ _)) as (q' & Er & Hq' & Hd).
    rewrite remove1_notin in Er, Hq' by done. rewrite Er. exists q'. split; [done|]. split; [done|]. rewrite Hd. unfold data, put_tmr. cbn.
    by rewrite fmap_insert, insert_insert_eq.
  - exists (put_tmr t). split; [done|]. assert (tmr_func t = None) as Ef by (unfold tmr_is_set in Es; by destruct (tmr_func t)).
    split; [by apply put_tmr_ok|]. unfold data, put_tmr. cbn. rewrite fmap_insert. do 2 f_equal. destruct t. cbn in *. by subst.
Qed.
End Stray.

(** ** Finding a structure *)

Definition unowned (P : gmap Z priv) (id : Z) : bool :=
  match P !! id with Some pv => s_proc_nr pv =? NONE | None => false end.

(** The structure [get_priv] takes, or its error. *)
Definition chosen (P : gmap Z priv) (priv_id : Z) : Z + Z :=
  if priv_id =? NULL_PRIV_ID then
    match find (unowned P) dyn_priv_table with Some id => inr id | None => inl ENOSPC end
  else if negb (is_static_priv_id priv_id) then inl EINVAL
  else if unowned P priv_id then inr priv_id else inl EBUSY.

Lemma dyn_table_bit id : In id dyn_priv_table -> bit_ok id.
Proof.
  intros H. assert (In id priv_table) as Hin by (unfold dyn_priv_table in H; rewrite <- (firstn_skipn (Z.to_nat NR_STATIC_PRIV_IDS)); apply in_or_app; by right).
  pose proof priv_table_bits as Hb. rewrite Forall_forall in Hb. by apply Hb, list_elem_of_In.
Qed.

Lemma static_bit id : is_static_priv_id id = true -> bit_ok id.
Proof. intros [H1%Z.leb_le H2%Z.ltb_lt]%andb_true_iff. unfold bit_ok, NR_STATIC_PRIV_IDS, NR_BOOT_PROCS, NR_SYS_PROCS in *. lia. Qed.

Lemma chosen_spec P priv_id id : chosen P priv_id = inr id -> bit_ok id /\ exists pv, P !! id = Some pv /\ s_proc_nr pv = NONE.
Proof.
  intros H. assert (bit_ok id /\ unowned P id = true) as [Hb Hu].
  { unfold chosen in H. destruct (priv_id =? NULL_PRIV_ID).
    - destruct (find _ _) as [x|] eqn:E; [|done]. injection H as ->. apply find_some in E as [Hin Hu]. split; [by apply dyn_table_bit|done].
    - destruct (is_static_priv_id priv_id) eqn:Es; [|done]. cbn in H. destruct (unowned P priv_id) eqn:Eu; [|done]. injection H as ->.
      split; [by apply static_bit|done]. }
  split; [done|]. unfold unowned in Hu. destruct (P !! id) as [pv|]; [|done]. exists pv. split; [done|]. by apply Z.eqb_eq.
Qed.

Lemma find_free_run s ids : (forall id, In id ids -> bit_ok id) -> masks_ok (privs s) ->
  find_free_priv ids s = Done (find (unowned (privs s)) ids) s.
Proof.
  intros Hids HM. induction ids as [|id ids IH]; [done|]. cbn [find_free_priv find].
  destruct (HM id) as (pv & Hpv & _); [apply Hids; by left|].
  rewrite (bind_done _ _ pv s s) by (unfold get_priv_id; by rewrite Hpv). unfold unowned at 1. rewrite Hpv.
  destruct (s_proc_nr pv =? NONE); [done|]. apply IH. intros x Hx. apply Hids. by right.
Qed.

Lemma get_priv_run s rp p priv_id :
  procs s !! rp = Some p -> p_nr p = rp -> masks_ok (privs s) ->
  get_priv rp priv_id s = match chosen (privs s) priv_id with
    | inl e => Done e s
    | inr id => Done OK (set_privs (alter (set_s_proc_nr rp) id (privs s)) (set_procs (<[rp := set_p_priv (Some id) p]> (procs s)) s))
    end.
Proof.
  intros Hp Hnr HM.
  assert (forall id, bit_ok id -> assign_priv rp id s =
    Done OK (set_privs (alter (set_s_proc_nr rp) id (privs s)) (set_procs (<[rp := set_p_priv (Some id) p]> (procs s)) s))) as Ha.
  { intros id Hid. unfold assign_priv. rewrite (bind_done _ _ _ _ _ (upd_proc_done _ _ _ _ Hp)).
    erewrite bind_get_proc by (cbn; apply lookup_insert_eq). change (p_nr (set_p_priv (Some id) p)) with (p_nr p). rewrite Hnr.
    by rewrite (bind_done _ _ _ _ _ (upd_struct (set_procs (<[rp := set_p_priv (Some id) p]> (procs s)) s) id (set_s_proc_nr rp) HM Hid)). }
  unfold get_priv, chosen. destruct (priv_id =? NULL_PRIV_ID).
  - rewrite (bind_done _ _ _ _ _ (find_free_run s dyn_priv_table dyn_table_bit HM)).
    destruct (find _ _) as [id|] eqn:E; [|done]. apply find_some in E as [Hin _]. by apply Ha, dyn_table_bit.
  - destruct (is_static_priv_id priv_id) eqn:Es; [|done]. cbn [negb]. apply static_bit in Es. destruct (HM priv_id Es) as (pv & Hpv & _).
    rewrite (bind_done _ _ pv s s) by (unfold get_priv_id; by rewrite Hpv). unfold unowned. rewrite Hpv.
    destruct (s_proc_nr pv =? NONE); [|done]. by apply Ha.
Qed.

(** ** Keeping track of the structure *)

(** The table [P] is [P0] with [pv] as the structure [id], apart from send masks. *)
Definition holds (P0 : gmap Z priv) (id : Z) (pv : priv) (P : gmap Z priv) : Prop :=
  masks_ok P /\ meta <$> P = <[id := meta pv]> (meta <$> P0).

Lemma holds_lookup P0 id pv P : holds P0 id pv P -> exists x, P !! id = Some x /\ meta x = meta pv.
Proof.
  intros [_ E]. pose proof (f_equal (fun m => m !! id) E) as Ei. cbn beta in Ei. rewrite lookup_insert_eq, lookup_fmap in Ei.
  destruct (P !! id) as [x|]; [|done]. exists x. split; [done|]. by apply Some_inj in Ei.
Qed.

(** Changes that do not look at the send mask. *)
Definition blind (f : priv -> priv) : Prop := forall x y, meta x = meta y -> meta (f x) = meta (f y).

Lemma holds_upd P0 id pv P x f :
  holds P0 id pv P -> P !! id = Some x -> blind f -> s_id (f x) = id -> map_ok (s_ipc_to (f x)) -> holds P0 id (f pv) (<[id := f x]> P).
Proof.
  intros H Hx Hf Hid Hm. destruct (holds_lookup _ _ _ _ H) as (x' & Hx' & Ex). assert (x' = x) as -> by congruence. destruct H as [HM E]. split.
  - intros y Hy. destruct (decide (y = id)) as [->|Hne]; [rewrite lookup_insert_eq; by exists (f x)|]. rewrite lookup_insert_ne by done. by apply HM.
  - rewrite fmap_insert, E, insert_insert_eq. by rewrite (Hf x pv Ex).
Qed.

(** The send masks after [id] got the targets [map], its peers as before. *)
Record masked (P0 : gmap Z priv) (id : Z) (map : sys_map) (P : gmap Z priv) : Prop := {
  mk_own : forall j, bit_ok j -> ipc_bit P id j = wanted id map P0 j;
  mk_peer : forall i, bit_ok i -> i <> id -> ipc_bit P i id = reply map P0 i (ipc_bit P0 i id);
  mk_rest : forall i j, bit_ok i -> bit_ok j -> i <> id -> j <> id -> ipc_bit P i j = ipc_bit P0 i j
}.

(** Where a mask can still be filled in. *)
Definition fillable (P0 : gmap Z priv) (id : Z) (P : gmap Z priv) : Prop :=
  (forall i, bit_ok i -> i <> id -> forall map, reply map P0 i (ipc_bit P i id) = reply map P0 i (ipc_bit P0 i id))
  /\ forall i j, bit_ok i -> bit_ok j -> i <> id -> j <> id -> ipc_bit P i j = ipc_bit P0 i j.

Lemma all_targets_bit i : bit_ok i -> get_sys_bit ALL_TARGETS i = true.
Proof.
  intros Hi. assert (forallb (get_sys_bit ALL_TARGETS) priv_table = true) as H by by_vm.
  rewrite forallb_forall in H. by apply H, elem_of_priv_table.
Qed.

Lemma masked_fillable P0 id P : masked P0 id ALL_TARGETS P -> fillable P0 id P.
Proof.
  intros [H1 H2 H3]. split; [|done]. intros i Hi Hne map. rewrite H2 by done. unfold reply. rewrite all_targets_bit by done. cbn [andb].
  destruct (get_sys_bit map i); [cbn [andb]|done]. destruct (match P0 !! i with Some pv => _ | None => false end); [done|]. by cbn [orb].
Qed.

Section Track.
Context (s : kstate) (rp id : Z) (p : proc) (P0 : gmap Z priv).
Hypothesis Hp : procs s !! rp = Some p.
Hypothesis Hpid : p_priv p = Some id.
Hypothesis Hid : bit_ok id.

(** Changes of other fields. *)
Definition mild (f : priv -> priv) : Prop := blind f /\ forall x, s_id (f x) = s_id x /\ s_ipc_to (f x) = s_ipc_to x.

Lemma track_upd {A} P pv f (k : unit -> K A) :
  holds P0 id pv P -> mild f ->
  exists P1, bind (upd_priv rp f) k (set_privs P s) = k tt (set_privs P1 s) /\ holds P0 id (f pv) P1
    /\ forall i j, ipc_bit P1 i j = ipc_bit P i j.
Proof.
  intros H [Hb Hf]. destruct (holds_lookup _ _ _ _ H) as (x & Hx & Ex). destruct (Hf x) as [F1 F2].
  exists (<[id := f x]> P). split; [by rewrite (upd_priv_run (set_privs P s) rp id p x)|]. split.
  - destruct (proj1 H id Hid) as (x' & Hx' & Hi & Hm). assert (x' = x) as -> by congruence.
    apply holds_upd; [done|done|done|congruence|by rewrite F2].
  - intros i j. unfold ipc_bit. destruct (decide (i = id)) as [->|Hne]; [|by rewrite lookup_insert_ne]. by rewrite lookup_insert_eq, Hx, F2.
Qed.

Lemma fillable_ext P P1 : (forall i j, ipc_bit P1 i j = ipc_bit P i j) -> fillable P0 id P -> fillable P0 id P1.
Proof. intros E [F1 F2]. split; intros; rewrite E; auto. Qed.

Lemma track_fill {A} P pv map (k : unit -> K A) :
  holds P0 id pv P -> fillable P0 id P ->
  exists P1, bind (fill_sendto_mask rp map) k (set_privs P s) = k tt (set_privs P1 s) /\ holds P0 id pv P1 /\ masked P0 id map P1.
Proof.
  intros [HM E] [F1 F2]. destruct (fill_mask_run (set_privs P s) rp p id map Hp Hpid Hid HM) as (P1 & Er & M1 & T1 & B1 & B2 & B3).
  assert (forall j, j <> id -> meta <$> P !! j = meta <$> P0 !! j) as Hj.
  { intros j Hne. rewrite <- !lookup_fmap, E, lookup_insert_ne by done. done. }
  exists P1. split; [by rewrite (bind_done _ _ _ _ _ Er)|]. split; [split; [done|cbn in T1; congruence]|]. split.
  - intros j Hbj. rewrite B1 by done. unfold wanted. destruct (Z.eqb_spec j id) as [->|Hne]; [by rewrite !andb_false_r|].
    specialize (Hj j Hne). cbn. destruct (P !! j) as [x|], (P0 !! j) as [y|]; try done. apply Some_inj in Hj.
    by rewrite (f_equal s_proc_nr Hj : s_proc_nr x = s_proc_nr y).
  - intros i Hi Hne. rewrite B2, <- (F1 i Hi Hne) by done. cbn. unfold reply. specialize (Hj i Hne). destruct (P !! i) as [x|], (P0 !! i) as [y|]; try done.
    apply Some_inj in Hj. by rewrite (f_equal s_proc_nr Hj : s_proc_nr x = s_proc_nr y), (f_equal s_trap_mask Hj : s_trap_mask x = s_trap_mask y).
  - intros i j Hi Hbj Hni Hnj. rewrite B3 by done. by apply F2.
Qed.

Lemma track_tab P pv flag nr max f k flags :
  holds P0 id pv P -> mild f -> (has flags flag = true -> 0 <= nr <= Z.of_nat max) ->
  exists P1, update_tab rp flag nr max f k flags (set_privs P s) = k (set_privs P1 s)
    /\ holds P0 id (if has flags flag then f pv else pv) P1 /\ forall i j, ipc_bit P1 i j = ipc_bit P i j.
Proof.
  intros H Hf Hn. unfold update_tab. destruct (has flags flag) eqn:E; [|by exists P].
  destruct (Hn eq_refl) as [H0 H1]. rewrite (proj2 (Z.ltb_ge _ _) H0), (proj2 (Z.ltb_ge _ _) H1). cbn [orb].
  by apply (track_upd P pv f (fun _ => k)).
Qed.

(** The tables of resources of the argument have counts in range. *)
Definition counts_ok (u : user_priv) : Prop :=
  let flags := s_flags (up_priv u) in
  (has flags CHECK_IRQ = true -> 0 <= up_nr_irq u <= Z.of_nat NR_IRQ)
  /\ (has flags CHECK_IO_PORT = true -> 0 <= up_nr_io_range u <= Z.of_nat NR_IO_RANGE)
  /\ (has flags CHECK_MEM = true -> 0 <= up_nr_mem_range u <= Z.of_nat NR_MEM_RANGE).

(** What [update_priv] makes of a structure, apart from its send mask. *)
Definition updated (u : user_priv) (pv : priv) : priv :=
  let pu := up_priv u in
  let flags := s_flags pu in
  let pv := set_s_bak_sig_mgr (s_bak_sig_mgr pu) (set_s_sig_mgr (s_sig_mgr pu)
    (set_s_init_flags (s_init_flags pu) (set_s_flags flags pv))) in
  let pv := if has flags CHECK_IRQ then set_s_irq_tab (take (Z.to_nat (up_nr_irq u)) (s_irq_tab pu)) pv else pv in
  let pv := if has flags CHECK_IO_PORT then set_s_io_tab (take (Z.to_nat (up_nr_io_range u)) (s_io_tab pu)) pv else pv in
  let pv := if has flags CHECK_MEM then set_s_mem_tab (take (Z.to_nat (up_nr_mem_range u)) (s_mem_tab pu)) pv else pv in
  let pv := set_s_k_call_mask (s_k_call_mask pu) (set_s_trap_mask (s_trap_mask pu) pv) in
  if negb (s_cap_effective pu =? 0) || negb (s_cap_permitted pu =? 0)
  then set_s_cap_permitted (Z.land (s_cap_permitted pu) (s_cap_bound pv))
         (set_s_cap_effective (Z.land (s_cap_effective pu) (s_cap_bound pv)) pv)
  else pv.

Lemma mild_const f : (forall x, meta (f x) = f (meta x)) -> (forall x, s_id (f x) = s_id x /\ s_ipc_to (f x) = s_ipc_to x) -> mild f.
Proof. intros H1 H2. split; [|done]. intros x y E. by rewrite !H1, E. Qed.

Ltac mildness := apply mild_const; intros ?; repeat (destruct (_ || _)); done.
Ltac track_step H P1 H1 B1 :=
  match goal with
  | |- context [bind (upd_priv _ ?f) ?k (set_privs ?P _)] =>
      let E := fresh in
      destruct (track_upd P _ f k H ltac:(mildness)) as (P1 & E & H1 & B1); rewrite E; clear E
  end.
Ltac track_table H C P1 H1 B1 :=
  match goal with
  | |- context [update_tab _ ?flag ?nr ?max ?f ?k ?flags (set_privs ?P _)] =>
      let E := fresh in
      destruct (track_tab P _ flag nr max f k flags H ltac:(mildness) C) as (P1 & E & H1 & B1); rewrite E; clear E
  end.

Lemma update_priv_run P pv u :
  holds P0 id pv P -> fillable P0 id P -> counts_ok u ->
  exists P1, update_priv rp u (set_privs P s) = Done OK (set_privs P1 s) /\ holds P0 id (updated u pv) P1
    /\ masked P0 id (s_ipc_to (up_priv u)) P1.
Proof.
  intros H HF (C1 & C2 & C3). unfold update_priv. cbn zeta.
  track_step H P1 H1 B1. track_table H1 C1 P2 H2 B2. track_table H2 C2 P3 H3 B3. track_table H3 C3 P4 H4 B4. track_step H4 P5 H5 B5.
  assert (fillable P0 id P5) as HF5 by (eapply fillable_ext; [|exact HF]; intros i j; by rewrite B5, B4, B3, B2, B1).
  match goal with |- context [bind (fill_sendto_mask _ _) ?k _] => destruct (track_fill P5 _ (s_ipc_to (up_priv u)) k H5 HF5) as (P6 & E6 & H6 & M6) end.
  rewrite E6. track_step H6 P7 H7 B7. track_step H7 P8 H8 B8. exists P8. split; [done|]. split; [exact H8|].
  destruct M6 as [M1 M2 M3]. split; intros; rewrite B8, B7; auto.
Qed.
End Track.

(** ** The defaults *)
Section SetSys.
Context (s : kstate) (b : Z) (l : list Z) (caller cid rp : Z) (c p : proc) (cpv : priv) (tc : minix_timer).
Hypothesis Hcaller : procs s !! caller = Some c.
Hypothesis Hcid : p_priv c = Some cid.
Hypothesis Hcpv : privs s !! cid = Some cpv.
Hypothesis Hcb : bit_ok cid.
Hypothesis Hcown : s_proc_nr cpv <> NONE.
Hypothesis Htc : t_tab (k_timers s) !! cid = Some tc.
Hypothesis Hrp : procs s !! rp = Some p.
Hypothesis Hnr : p_nr p = rp.
Hypothesis Hne : caller <> rp.
Hypothesis HM : masks_ok (privs s).
Hypothesis Hq : tq_ok b (k_timers s) l.

Notation e := (p_endpoint p).
Definition default_priv (id : Z) : priv := default_resources e (default_masks e (inherited id rp cpv)).
Definition with_priv (id : Z) : gmap Z proc := <[rp := set_p_priv (Some id) p]> (procs s).

Lemma init_sys_priv_run priv_id id :
  chosen (privs s) priv_id = inr id -> id ∉ l ->
  exists q P1, init_sys_priv caller rp rp priv_id s = Done OK (set_privs P1 (set_k_timers q (set_procs (with_priv id) s)))
    /\ tq_ok b q l /\ data q = <[id := unlinked (set_tmr_func None tc)]> (data (k_timers s))
    /\ holds (privs s) id (default_priv id) P1 /\ masked (privs s) id ALL_TARGETS P1.
Proof.
  intros Hch Hnl. destruct (chosen_spec _ _ _ Hch) as (Hid & pv0 & Hpv0 & Hfree). destruct (HM id Hid) as (x & Hx & Hxi & Hxm).
  assert (x = pv0) as -> by congruence. assert (cid <> id) as Hci by (intros ->; congruence).
  unfold init_sys_priv. pose proof (get_priv_run s rp p priv_id Hrp Hnr HM) as E. rewrite Hch in E. rewrite (bind_done _ _ _ _ _ E). cbn [negb Z.eqb OK].
  set (PA := alter (set_s_proc_nr rp) id (privs s)). fold (with_priv id). set (sA := set_procs (with_priv id) s).
  set (p1 := set_p_priv (Some id) p). assert (procs sA !! rp = Some p1) as Hrp1 by apply lookup_insert_eq.
  assert (procs sA !! caller = Some c) as Hc1 by (cbn; unfold with_priv; by rewrite lookup_insert_ne).
  assert (PA !! id = Some (set_s_proc_nr rp pv0)) as HPA by (unfold PA; by rewrite lookup_alter_eq, Hpv0).
  rewrite (priv_at_run (set_privs PA sA) rp id p1 _ Hrp1 eq_refl HPA).
  assert (PA !! cid = Some cpv) as HPc by (unfold PA; by rewrite lookup_alter_ne).
  rewrite (priv_at_run (set_privs PA sA) caller cid c cpv Hc1 Hcid HPc).
  rewrite (bind_get_proc caller c _ (set_privs PA sA) Hc1), (bind_get_proc rp p1 _ (set_privs PA sA) Hrp1), Hcid.
  change (s_id (set_s_proc_nr rp pv0)) with (s_id pv0). rewrite Hxi.
  set (sB := set_k_timers (put_tmr (k_timers s) id tc) sA).
  rewrite (bind_done (copy_timer cid id) _ tt (set_privs PA sA) (set_privs PA sB)).
  2: { unfold copy_timer. rewrite (bind_done _ _ tc (set_privs PA sA) (set_privs PA sA)) by (unfold get_tmr; cbn; by rewrite Htc). done. }
  rewrite (upd_priv_run (set_privs PA sB) rp id p1 _ Hrp1 eq_refl HPA). set (P1 := <[id := _]> (privs (set_privs PA sB))).
  assert (P1 = <[id := inherited id rp cpv]> (privs s)) as EP.
  { unfold P1, PA. cbn. apply map_eq. intros y. destruct (decide (y = id)) as [->|Hny]; [by rewrite !lookup_insert_eq|].
    by rewrite !lookup_insert_ne, lookup_alter_ne. }
  destruct (stray_reset b (k_timers s) l id Hq Hnl (set_privs P1 sA) tc) as (q & Er & Hq' & Hd).
  rewrite (bind_done (reset_kernel_timer id) _ tt (set_privs P1 sB) (set_privs P1 (set_k_timers q sA))) by exact Er.
  set (s1 := set_k_timers q sA). change (p_endpoint p1) with (p_endpoint p).
  destruct (HM cid Hcb) as (cpv' & Hcpv' & Hcpi & Hcpm). assert (cpv' = cpv) as -> by congruence.
  assert (holds (privs s) id (inherited id rp cpv) P1) as H1.
  { rewrite EP. split; [|by rewrite fmap_insert]. intros y Hy. destruct (decide (y = id)) as [->|Hny]; [|rewrite lookup_insert_ne by done; by apply HM].
    rewrite lookup_insert_eq. eexists. split; [done|]. split; [done|exact Hcpm]. }
  assert (forall i j, i <> id -> ipc_bit P1 i j = ipc_bit (privs s) i j) as HB1 by (intros i j Hni; unfold ipc_bit; rewrite EP; by rewrite lookup_insert_ne).
  assert (procs s1 !! rp = Some p1) as Hrp2 by exact Hrp1.
  match goal with |- context [bind (upd_priv _ ?f) ?k _] => destruct (track_upd s1 rp id p1 (privs s) Hrp2 eq_refl Hid P1 _ f k H1) as (P2 & E2 & H2 & B2) end.
  { apply mild_const; done. }
  rewrite E2. assert (fillable (privs s) id P2) as HF by (split; intros; rewrite B2, HB1; auto).
  match goal with |- context [bind (fill_sendto_mask _ _) ?k _] => destruct (track_fill s1 rp id p1 (privs s) Hrp2 eq_refl Hid P2 _ ALL_TARGETS k H2 HF) as (P3 & E3 & H3 & M3) end.
  rewrite E3.
  match goal with |- context [bind (upd_priv _ ?f) ?k _] => destruct (track_upd s1 rp id p1 (privs s) Hrp2 eq_refl Hid P3 _ f k H3) as (P4 & E4 & H4 & B4) end.
  { apply mild_const; done. }
  rewrite E4. exists q, P4. split; [done|]. split; [done|]. split; [done|]. split; [exact H4|].
  destruct M3 as [M1 M2 M4]. split; intros; rewrite B4; auto.
Qed.
End SetSys.

(** The structure [SYS_PRIV_SET_SYS] gives, and the targets in its send mask. *)
Definition given_priv (p : proc) (cpv : priv) (rp id : Z) (a : option user_priv) : priv :=
  match a with Some u => updated u (default_priv rp p cpv id) | None => default_priv rp p cpv id end.
Definition given_targets (a : option user_priv) : sys_map :=
  match a with Some u => s_ipc_to (up_priv u) | None => ALL_TARGETS end.

Lemma updated_keeps u pv :
  s_id (updated u pv) = s_id pv /\ s_proc_nr (updated u pv) = s_proc_nr pv /\ s_notify_pending (updated u pv) = s_notify_pending pv
  /\ s_asyn_pending (updated u pv) = s_asyn_pending pv /\ s_ipcf (updated u pv) = s_ipcf pv.
Proof.
  unfold updated. cbn zeta. destruct (negb _ || negb _); destruct (has _ CHECK_IRQ), (has _ CHECK_IO_PORT), (has _ CHECK_MEM); done.
Qed.

Lemma given_fresh V p cpv rp id a :
  let pv := given_priv p cpv rp id a in
  (s_sig_mgr pv = SELF \/ exists m w, live V m w /\ v_ep w = s_sig_mgr pv) -> fresh_priv V rp id pv.
Proof.
  intros pv Hm. assert (s_id pv = id /\ s_proc_nr pv = rp /\ s_notify_pending pv = map_zero /\ s_asyn_pending pv = map_zero /\ s_ipcf pv = None) as (H1 & H2 & H3 & H4 & H5).
  { unfold pv, given_priv. destruct a as [u|]; [|done]. destruct (updated_keeps u (default_priv rp p cpv id)) as (-> & -> & -> & -> & ->). done. }
  by split.
Qed.

Lemma live_not_self s n v : ipc_ok s -> live (view s) n v -> v_ep v <> SELF.
Proof.
  intros Hok Hl E. destruct (c_ep _ _ (wf_c _ (ok_wf _ Hok)) n v Hl) as (Hn & _). rewrite E in Hn. destruct Hl as (Hi & _). by rewrite <- Hn in Hi.
Qed.

Section Grant.
Context (copy_priv : Z -> Z -> Z + user_priv) (copy_io : Z -> Z -> Z + io_range) (copy_mem : Z -> Z -> Z + mem_range)
  (copy_irq : Z -> Z -> Z + Z) (stack_io : io_range) (stack_irq : Z).
Context (s : kstate) (l : list Z) (caller cid rp : Z) (c p : proc) (cpv : priv) (tc : minix_timer) (m : privctl).
Hypothesis Hclock : clock_ok s l.
Hypothesis HM : masks_ok (privs s).
Hypothesis Hcaller : procs s !! caller = Some c.
Hypothesis Hlc : live (view s) caller (ipc_of c).
Hypothesis Hcid : p_priv c = Some cid.
Hypothesis Hcpv : privs s !! cid = Some cpv.
Hypothesis Hsys : has (s_flags cpv) SYS_PROC = true.
Hypothesis Htc : t_tab (k_timers s) !! cid = Some tc.
Hypothesis Hrp : procs s !! rp = Some p.
Hypothesis Hlp : live (view s) rp (ipc_of p).
Hypothesis Hne : caller <> rp.
Hypothesis Hendpt : pc_endpt m = p_endpoint p.
Hypothesis Hreq : pc_request m = SYS_PRIV_SET_SYS.

Notation call := (do_privctl copy_priv copy_io copy_mem copy_irq stack_io stack_irq caller m).
Notation mac_ok := (forall h, h ∈ k_mac_hooks s -> k_hook_fn s h MAC_PRIVCTL_SET_SYS (mac_privctl (p_endpoint c) (p_endpoint p) SYS_PRIV_SET_SYS) = MAC_ALLOW).

(** The checks before the request. *)
Lemma privctl_checks : call s = priv_set_sys copy_priv caller rp rp m s.
Proof.
  pose proof (ck_ipc _ _ Hclock) as Hok. unfold do_privctl. rewrite (priv_at_run s caller cid c cpv Hcaller Hcid Hcpv). erewrite bind_get_proc by done.
  rewrite Hsys. cbn [negb]. pose proof (live_not_self s rp (ipc_of p) Hok Hlp : p_endpoint p <> SELF) as Hns. rewrite Hendpt, (proj2 (Z.eqb_neq _ _) Hns).
  rewrite (bind_done (isokendpt (p_endpoint p)) _ (Some rp) s s) by exact (live_isokendpt s (wf_c _ (ok_wf _ Hok)) rp (ipc_of p) Hlp). unfold privctl_request. erewrite bind_get_proc by done.
  cbn zeta. by rewrite Hreq.
Qed.

Lemma set_sys_checks : mac_ok ->
  call s = if negb (RTS_ISSET p RTS_NO_PRIV) then Done EPERM s
    else match priv_arg copy_priv c m with
         | inl r => Done r s
         | inr a => (i <- init_sys_priv caller rp rp (asked_id a) ;;
             if negb (i =? OK) then ret i
             else r <- (match a with Some u => update_priv rp u | None => ret OK end) ;;
                  if negb (r =? OK) then ret r
                  else k_audit_log AUDIT_SYSCALL_AUTH OK (p_endpoint c) (p_endpoint p) ;; ret OK) s
         end.
Proof.
  intros Hmac. rewrite privctl_checks. unfold priv_set_sys. do 2 erewrite bind_get_proc by done.
  destruct (mac_kernel_check_run s MAC_PRIVCTL_SET_SYS (mac_privctl (p_endpoint c) (p_endpoint p) SYS_PRIV_SET_SYS)) as (v & Ev & Hv).
  rewrite (bind_done _ _ _ _ _ Ev). rewrite (proj2 Hv Hmac). cbn [negb Z.eqb MAC_ALLOW]. destruct (RTS_ISSET p RTS_NO_PRIV); [|done]. cbn [negb].
  by destruct (priv_arg copy_priv c m).
Qed.

(** A structure other processes own, or none. *)
Lemma caller_owned : s_proc_nr cpv <> NONE /\ bit_ok cid.
Proof.
  destruct (c_priv _ _ (wf_c _ (ok_wf _ (ck_ipc _ _ Hclock))) caller _ Hlc) as (x & pv & Hx & Hb & Hpv & w & (Hw & _)).
  change (v_priv (ipc_of c)) with (p_priv c) in Hx. assert (x = cid) as -> by congruence. assert (pv = cpv) as -> by congruence.
  split; [|done]. intros E. by rewrite E in Hw.
Qed.

Lemma set_sys_run a id :
  mac_ok -> RTS_ISSET p RTS_NO_PRIV = true -> priv_arg copy_priv c m = inr a -> (forall u, a = Some u -> counts_ok u) ->
  chosen (privs s) (asked_id a) = inr id -> id ∉ l ->
  exists q P1 r, call s = Done OK (set_k_audit r (set_privs P1 (set_k_timers q (set_procs (with_priv s rp p id) s))))
    /\ tq_ok (k_monotonic s) q l /\ data q = <[id := unlinked (set_tmr_func None tc)]> (data (k_timers s))
    /\ holds (privs s) id (given_priv p cpv rp id a) P1 /\ masked (privs s) id (given_targets a) P1.
Proof.
  intros Hmac Hnp Ha Hcnt Hch Hnl. rewrite set_sys_checks, Hnp, Ha by done. cbn [negb]. destruct caller_owned as [Hown Hcb].
  assert (p_nr p = rp) as Hnr by (by destruct (c_ep _ _ (wf_c _ (ok_wf _ (ck_ipc _ _ Hclock))) rp _ Hlp) as (_ & _ & E)).
  destruct (init_sys_priv_run s (k_monotonic s) l caller cid rp c p cpv tc Hcaller Hcid Hcpv Hcb Hown Htc Hrp Hnr Hne HM (ck_queue _ _ Hclock) _ id Hch Hnl)
    as (q & P1 & E & Hq & Hd & HP & HB).
  rewrite (bind_done _ _ _ _ _ E). cbn [negb Z.eqb OK]. set (s1 := set_k_timers q (set_procs (with_priv s rp p id) s)) in *.
  assert (forall P, exists r, (k_audit_log AUDIT_SYSCALL_AUTH OK (p_endpoint c) (p_endpoint p) ;; ret OK) (set_privs P s1)
    = Done OK (set_k_audit r (set_privs P s1))) as Hlog.
  { intros P. unfold k_audit_log, get_monotonic, gets, bind. destruct (audit_log _ _ _ _ _ _ _ _) as [rr ring]. by exists ring. }
  destruct (chosen_spec _ _ _ Hch) as (Hid & _). destruct a as [u|].
  - assert (procs s1 !! rp = Some (set_p_priv (Some id) p)) as Hr1 by apply lookup_insert_eq.
    destruct (update_priv_run s1 rp id _ (privs s) Hr1 eq_refl Hid P1 _ u HP (masked_fillable _ _ _ HB) (Hcnt u eq_refl)) as (P2 & E2 & H2 & M2).
    rewrite (bind_done _ _ _ _ _ E2). destruct (Hlog P2) as [r Er]. exists q, P2, r. cbn [negb Z.eqb OK]. by rewrite Er.
  - rewrite bind_ret. destruct (Hlog P1) as [r Er]. exists q, P1, r. cbn [negb Z.eqb OK]. by rewrite Er.
Qed.
End Grant.

(** ** Theorems *)

(** The structure of a new service [rp]: its own, with nothing pending, no
    asynchronous messages, filters, grants or saved state; with the flags, masks,
    managers and resources asked for, or the defaults; and with capabilities
    within the full set. *)
Record set_up (p : proc) (rp id : Z) (a : option user_priv) (pv : priv) : Prop := {
  su_own : s_id pv = id /\ s_proc_nr pv = rp;
  su_pending : forall b, bit_ok b -> get_sys_bit (s_notify_pending pv) b = false /\ get_sys_bit (s_asyn_pending pv) b = false;
  su_signals : s_int_pending pv = 0 /\ s_sig_pending pv = 0 /\ s_diag_sig pv = false;
  su_asyn : s_asyntab pv = u64 (-1) /\ s_asynsize pv = 0 /\ s_asynendpoint pv = p_endpoint p;
  su_none : s_ipcf pv = None /\ s_grant_table pv = 0 /\ s_grant_entries pv = 0 /\ s_grant_endpoint pv = p_endpoint p
    /\ s_state_table pv = 0 /\ s_state_entries pv = 0;
  su_rights : match a with
    | Some u => let pu := up_priv u in
        s_flags pv = s_flags pu /\ s_init_flags pv = s_init_flags pu /\ s_trap_mask pv = s_trap_mask pu
        /\ s_k_call_mask pv = s_k_call_mask pu /\ s_sig_mgr pv = s_sig_mgr pu /\ s_bak_sig_mgr pv = s_bak_sig_mgr pu
    | None => s_flags pv = DSRV_F /\ s_init_flags pv = DSRV_I /\ s_trap_mask pv = DSRV_T
        /\ s_k_call_mask pv = ALL_CALLS /\ s_sig_mgr pv = RS_PROC_NR /\ s_bak_sig_mgr pv = NONE
    end;
  su_resources : match a with
    | Some u => let pu := up_priv u in
        s_irq_tab pv = (if has (s_flags pu) CHECK_IRQ then take (Z.to_nat (up_nr_irq u)) (s_irq_tab pu) else [])
        /\ s_io_tab pv = (if has (s_flags pu) CHECK_IO_PORT then take (Z.to_nat (up_nr_io_range u)) (s_io_tab pu) else [])
        /\ s_mem_tab pv = (if has (s_flags pu) CHECK_MEM then take (Z.to_nat (up_nr_mem_range u)) (s_mem_tab pu) else [])
    | None => s_irq_tab pv = [] /\ s_io_tab pv = [] /\ s_mem_tab pv = []
    end;
  su_caps : s_cap_bound pv = CAP_FULL
    /\ s_cap_effective pv = Z.land (match a with Some u => s_cap_effective (up_priv u) | None => 0 end) CAP_FULL
    /\ s_cap_permitted pv = Z.land (match a with Some u => s_cap_permitted (up_priv u) | None => 0 end) CAP_FULL
}.

Lemma given_set_up p cpv rp id a : set_up p rp id a (given_priv p cpv rp id a).
Proof.
  unfold given_priv. destruct a as [u|]; [|by split; try done; intros b Hb; rewrite !map_zero_bit].
  unfold updated. cbn zeta. destruct (Z.eqb_spec (s_cap_effective (up_priv u)) 0) as [E1|], (Z.eqb_spec (s_cap_permitted (up_priv u)) 0) as [E2|];
    cbn [negb orb];
    destruct (has (s_flags (up_priv u)) CHECK_IRQ) eqn:F1, (has (s_flags (up_priv u)) CHECK_IO_PORT) eqn:F2, (has (s_flags (up_priv u)) CHECK_MEM) eqn:F3;
    (split; [done|intros b Hb; exact (conj (map_zero_bit b Hb) (map_zero_bit b Hb))|done..|cbn; by rewrite ?F1, ?F2, ?F3|cbn; by rewrite ?E1, ?E2]).
Qed.

(** The signal manager asked for. *)
Definition asked_mgr (a : option user_priv) : Z := match a with Some u => s_sig_mgr (up_priv u) | None => RS_PROC_NR end.

(** C32: [SYS_PRIV_SET_SYS] gives a process a structure of its own.  When
    the MAC hooks agree, the target waits for its privileges, the argument can
    be copied and its counts are in range, a structure is free and its alarm not
    set, and the signal manager asked for is live, the call answers [OK].  The
    target then owns that structure, set up from scratch: no notification,
    asynchronous message, interrupt or signal of the caller is pending in it, it
    has no filter and no alarm, the flags, masks and resources asked for and
    capabilities within the full set; its send mask is filled on both sides; no
    other process changes and no other structure but in its send mask; and all
    invariants hold, although the alarm timer of the caller is copied with the
    rest of its structure. *)
Theorem set_sys_correct copy_priv copy_io copy_mem copy_irq stack_io stack_irq s l caller cid rp c p cpv tc m a id :
  clock_ok s l -> masks_ok (privs s) ->
  procs s !! caller = Some c -> live (view s) caller (ipc_of c) -> p_priv c = Some cid -> privs s !! cid = Some cpv ->
  has (s_flags cpv) SYS_PROC = true -> t_tab (k_timers s) !! cid = Some tc ->
  procs s !! rp = Some p -> live (view s) rp (ipc_of p) -> caller <> rp -> RTS_ISSET p RTS_NO_PRIV = true ->
  pc_endpt m = p_endpoint p -> pc_request m = SYS_PRIV_SET_SYS ->
  (forall h, h ∈ k_mac_hooks s ->
    k_hook_fn s h MAC_PRIVCTL_SET_SYS (mac_privctl (p_endpoint c) (p_endpoint p) SYS_PRIV_SET_SYS) = MAC_ALLOW) ->
  priv_arg copy_priv c m = inr a -> (forall u, a = Some u -> counts_ok u) ->
  chosen (privs s) (asked_id a) = inr id -> id ∉ l ->
  (asked_mgr a = SELF \/ exists n v, live (view s) n v /\ v_ep v = asked_mgr a) ->
  exists s' pv, do_privctl copy_priv copy_io copy_mem copy_irq stack_io stack_irq caller m s = Done OK s'
    /\ clock_ok s' l /\ masks_ok (privs s')
    /\ procs s' = <[rp := set_p_priv (Some id) p]> (procs s)
    /\ set_up p rp id a pv /\ meta <$> privs s' = <[id := meta pv]> (meta <$> privs s)
    /\ masked (privs s) id (given_targets a) (privs s')
    /\ data (k_timers s') = <[id := unlinked (set_tmr_func None tc)]> (data (k_timers s)).
Proof.
  intros Hck HM Hc Hlc Hcid Hcpv Hsys Htc Hp Hlp Hne Hnp He Hreq Hmac Ha Hcnt Hch Hnl Hmgr0.
  set (pv := given_priv p cpv rp id a). pose proof (given_set_up p cpv rp id a) as Hup.
  assert (s_sig_mgr pv = SELF \/ exists n v, live (view s) n v /\ v_ep v = s_sig_mgr pv) as Hmgr.
  { destruct Hup as [_ _ _ _ _ Hrt _ _]. fold pv in Hrt. unfold asked_mgr in Hmgr0. destruct a as [u|]; by destruct Hrt as (_ & _ & _ & _ & -> & _). }
  destruct (set_sys_run copy_priv copy_io copy_mem copy_irq stack_io stack_irq s l caller cid rp c p cpv tc m
    Hck HM Hc Hlc Hcid Hcpv Hsys Htc Hp Hlp Hne He Hreq a id Hmac Hnp Ha Hcnt Hch Hnl) as (q & P1 & r & E & Hq & Hd & [HM1 HP] & HB).
  set (s' := set_k_audit r _) in E. exists s', pv. split; [exact E|]. destruct (chosen_spec _ _ _ Hch) as (Hid & _).
  destruct Hck as [Hok Hal Hqq Hcur Hbill].
  assert (ipc_ok s') as Hok' by (by eapply (install_ok s s' rp id p pv Hok); [..|apply given_fresh| | | | |]).
  assert (unpriv <$> view s' = unpriv <$> view s) as HU by (by eapply (install_unpriv s s' rp id p)).
  assert (forall n, charged (view s) n -> charged (view s') n) as HC.
  { intros n [(v & Hv & H1 & H2 & H3)|((v & Hv) & H0)].
    - left. pose proof (repriv_lookup _ _ HU n) as En. rewrite Hv in En. destruct (view s' !! n) as [v'|] eqn:Hv'; [|done]. apply Some_inj in En. exists v'.
      rewrite (f_equal v_recv En : v_recv v' = v_recv v), (f_equal v_misc En : v_misc v' = v_misc v). by split_and!.
    - right. split; [|done]. destruct (repriv_live _ _ HU n v Hv) as (v' & Hv' & _). by exists v'. }
  split; [|split; [done|split; [done|split; [exact Hup|split; [done|split; done]]]]].
  split; [done| |exact Hq|exact (HC _ Hcur)|exact (HC _ Hbill)].
  intros x t Ht. assert (data q !! x = Some (unlinked t)) as Hx by (unfold data; by rewrite lookup_fmap, (Ht : t_tab q !! x = Some t)).
  rewrite Hd in Hx. destruct (decide (x = id)) as [->|Hnx].
  - rewrite lookup_insert_eq in Hx. apply Some_inj in Hx. left. exact (eq_sym (f_equal tmr_func Hx)).
  - rewrite lookup_insert_ne in Hx by done. unfold data in Hx. rewrite lookup_fmap in Hx. destruct (t_tab (k_timers s) !! x) as [t0|] eqn:Ht0; [|done].
    apply Some_inj in Hx. rewrite <- (f_equal tmr_func Hx : tmr_func t0 = tmr_func t). exact (Hal x t0 Ht0).
Qed.

(** RS starts a service: process 14, forked, waits for its privileges. *)
Definition priv_example : kstate :=
  set_bill_ptr RS_PROC_NR
    (example [live_proc RS_PROC_NR 7 0 4; live_proc 11 16 0 7; live_proc 14 16 RTS_NO_PRIV 7]
      [live_priv RS_PROC_NR 7 SRV_F; live_priv 11 16 USR_F] RS_PROC_NR).

Definition service_priv : user_priv :=
  mkUpriv (set_s_cap_permitted 0xffff (set_s_cap_effective 0x4 (set_s_sig_mgr RS_PROC_NR (set_s_trap_mask (-1)
    (set_s_ipc_to ALL_TARGETS (set_s_irq_tab (replicate 16 9) (set_s_flags (Z.lor DSRV_F CHECK_IRQ) priv_zero))))))) 1 0 0.

Lemma set_sys_correct_witness :
  exists s', do_privctl (fun _ _ => inr service_priv) (fun _ _ => inl EFAULT_SRC) (fun _ _ => inl EFAULT_SRC) (fun _ _ => inl EFAULT_SRC)
      (mkIo 0 0) 0 RS_PROC_NR (mkPrivctl (ENDPOINT 1 14) SYS_PRIV_SET_SYS 4096 0 0) priv_example = Done OK s'
    /\ clock_ok s' [] /\ p_priv (slot s' 14) = Some 17 /\ s_cap_permitted (pslot s' 17) = CAP_FULL /\ s_sig_pending (pslot s' 17) = 0.
Proof.
  destruct (set_sys_correct (fun _ _ => inr service_priv) (fun _ _ => inl EFAULT_SRC) (fun _ _ => inl EFAULT_SRC) (fun _ _ => inl EFAULT_SRC)
    (mkIo 0 0) 0 priv_example [] RS_PROC_NR 7 14 (slot priv_example RS_PROC_NR) (slot priv_example 14) (pslot priv_example 7)
    (mkTmr None 0 None 0) (mkPrivctl (ENDPOINT 1 14) SYS_PRIV_SET_SYS 4096 0 0) (Some service_priv) 17) as (s' & pv & E & H & _ & Hp & Hup & Hm & _).
  - apply clock_okb_sound. by_vm.
  - apply masks_okb_sound. by_vm.
  - by_slot.
  - by_live.
  - by_vm.
  - by_pslot.
  - by_vm.
  - by_vm.
  - by_slot.
  - by_live.
  - discriminate.
  - by_vm.
  - by_vm.
  - reflexivity.
  - intros h. assert (k_mac_hooks priv_example = []) as -> by by_vm. by intros ?%elem_of_nil.
  - reflexivity.
  - intros u [= <-]. split; [|split]; intros Hf; vm_compute in Hf; try discriminate Hf. vm_compute. split; discriminate.
  - by_vm.
  - by intros ?%elem_of_nil.
  - right. exists RS_PROC_NR, (ipc_of (slot priv_example RS_PROC_NR)). split; [by_live|by_vm].
  - exists s'. split; [exact E|]. split; [exact H|]. split; [unfold slot; by rewrite Hp, lookup_insert_eq|].
    pose proof (f_equal (fun m => m !! 17) Hm) as E17. cbn beta in E17. rewrite lookup_insert_eq, lookup_fmap in E17. unfold pslot.
    destruct (privs s' !! 17) as [x|]; [|discriminate E17]. apply Some_inj in E17.
    split; [transitivity (s_cap_permitted pv); [exact (f_equal s_cap_permitted E17)|rewrite (proj2 (proj2 (su_caps _ _ _ _ _ Hup))); by_vm]|].
    transitivity (s_sig_pending pv); [exact (f_equal s_sig_pending E17)|apply (su_signals _ _ _ _ _ Hup)].
Defined.

(** C33: [SYS_PRIV_SET_SYS] that is refused changes nothing.  A MAC hook that
    denies gives [EPERM] and only appends one record of the violation, with
    caller, target and time, to the audit log; a target that does not
    wait for its privileges gives [EPERM], an argument that cannot be copied the
    error of the copy, and a structure that is taken, out of range or not to be
    had the error of [get_priv], all without any change. *)
Theorem set_sys_refused copy_priv copy_io copy_mem copy_irq stack_io stack_irq s l caller cid rp c p cpv m :
  clock_ok s l -> masks_ok (privs s) ->
  procs s !! caller = Some c -> p_priv c = Some cid -> privs s !! cid = Some cpv -> has (s_flags cpv) SYS_PROC = true ->
  procs s !! rp = Some p -> live (view s) rp (ipc_of p) ->
  pc_endpt m = p_endpoint p -> pc_request m = SYS_PRIV_SET_SYS ->
  let allowed := forall h, h ∈ k_mac_hooks s ->
    k_hook_fn s h MAC_PRIVCTL_SET_SYS (mac_privctl (p_endpoint c) (p_endpoint p) SYS_PRIV_SET_SYS) = MAC_ALLOW in
  let call := do_privctl copy_priv copy_io copy_mem copy_irq stack_io stack_irq caller m in
  (~ allowed -> forall log, ring_of (k_audit s) log ->
     exists ring, call s = Done EPERM (set_k_audit ring s)
       /\ ring_of ring (log ++ [mkAudit (u32 (Z.of_nat (length log) + 1)) AUDIT_MAC_VIOLATION EPERM (k_monotonic s)
                                 (p_endpoint c) (p_endpoint p) 0 (replicate 32 0)]))
  /\ (allowed -> RTS_ISSET p RTS_NO_PRIV = false -> call s = Done EPERM s)
  /\ (allowed -> RTS_ISSET p RTS_NO_PRIV = true ->
       (forall r, priv_arg copy_priv c m = inl r -> call s = Done r s)
       /\ forall a r, priv_arg copy_priv c m = inr a -> chosen (privs s) (asked_id a) = inl r -> call s = Done r s).
Proof.
  intros Hck HM Hc Hcid Hcpv Hsys Hp Hlp He Hreq allowed call.
  pose proof (set_sys_checks copy_priv copy_io copy_mem copy_irq stack_io stack_irq s l caller cid rp c p cpv m Hck Hc Hcid Hcpv Hsys Hp Hlp He Hreq) as HC.
  fold call in HC. split; [|split].
  - intros Hd log Hlog. unfold call. rewrite (privctl_checks copy_priv copy_io copy_mem copy_irq stack_io stack_irq s l caller cid rp c p cpv m Hck Hc Hcid Hcpv Hsys Hlp He Hreq).
    unfold priv_set_sys. do 2 erewrite bind_get_proc by done.
    destruct (mac_kernel_check_run s MAC_PRIVCTL_SET_SYS (mac_privctl (p_endpoint c) (p_endpoint p) SYS_PRIV_SET_SYS)) as (v & Ev & Hv).
    rewrite (bind_done _ _ _ _ _ Ev). destruct (Z.eqb_spec v MAC_ALLOW) as [E|Hnv]; [by destruct Hd; exact (proj1 Hv E)|]. cbn [negb].
    pose proof (audit_log_run (k_monotonic s) AUDIT_MAC_VIOLATION EPERM (p_endpoint c) (p_endpoint p) None 0 _ _ Hlog) as (ring & Er & Hring).
    unfold k_audit_log, get_monotonic, gets, bind. rewrite Er. by exists ring.
  - intros Hal Hnp. rewrite HC, Hnp by done. done.
  - intros Hal Hnp. specialize (HC Hal). rewrite Hnp in HC. cbn [negb] in HC. split.
    + intros r Hr. by rewrite HC, Hr.
    + intros a r Ha Hch. rewrite HC, Ha. unfold init_sys_priv. rewrite bind_assoc.
      assert (p_nr p = rp) as Hnr by (by destruct (c_ep _ _ (wf_c _ (ok_wf _ (ck_ipc _ _ Hck))) rp _ Hlp) as (_ & _ & E)).
      pose proof (get_priv_run s rp p (asked_id a) Hp Hnr HM) as Eg. rewrite Hch in Eg. rewrite (bind_done _ _ _ _ _ Eg).
      assert (r <> OK) as Hr.
      { unfold chosen in Hch. destruct (_ =? NULL_PRIV_ID); [by destruct (find _ _); [|injection Hch as <-]|].
        destruct (negb _); [by injection Hch as <-|]. by destruct (unowned _ _); [|injection Hch as <-]. }
      rewrite (proj2 (Z.eqb_neq _ _) Hr). cbn [negb]. rewrite bind_ret. by rewrite (proj2 (Z.eqb_neq _ _) Hr).
Qed.

Lemma set_sys_refused_witness :
  do_privctl (fun _ _ => inr service_priv) (fun _ _ => inl EFAULT_SRC) (fun _ _ => inl EFAULT_SRC) (fun _ _ => inl EFAULT_SRC)
    (mkIo 0 0) 0 RS_PROC_NR (mkPrivctl (ENDPOINT 1 11) SYS_PRIV_SET_SYS 4096 0 0) priv_example = Done EPERM priv_example.
Proof.
  destruct (set_sys_refused (fun _ _ => inr service_priv) (fun _ _ => inl EFAULT_SRC) (fun _ _ => inl EFAULT_SRC) (fun _ _ => inl EFAULT_SRC)
    (mkIo 0 0) 0 priv_example [] RS_PROC_NR 7 11 (slot priv_example RS_PROC_NR) (slot priv_example 11) (pslot priv_example 7)
    (mkPrivctl (ENDPOINT 1 11) SYS_PRIV_SET_SYS 4096 0 0)) as (_ & H & _);
    [apply clock_okb_sound; by_vm|apply masks_okb_sound; by_vm|by_slot|by_vm|by_pslot|by_vm|by_slot|by_live|by_vm|reflexivity|].
  apply H; [|by_vm]. intros h. assert (k_mac_hooks priv_example = []) as -> by by_vm. by intros ?%elem_of_nil.
Defined.

(** Property: a refused [SYS_PRIV_UPDATE_SYS] is not undone.  When the number of
    IRQs in the argument is out of range the call answers [EINVAL], but the
    flags, initialisation flags and signal managers of the target are already
    those of the argument. *)
Theorem update_sys_partial copy_priv copy_io copy_mem copy_irq stack_io stack_irq s caller cid rp tid c p cpv pv m u :
  ipc_ok s -> procs s !! caller = Some c -> p_priv c = Some cid -> privs s !! cid = Some cpv -> has (s_flags cpv) SYS_PROC = true ->
  procs s !! rp = Some p -> live (view s) rp (ipc_of p) -> p_priv p = Some tid -> privs s !! tid = Some pv ->
  pc_endpt m = p_endpoint p -> pc_request m = SYS_PRIV_UPDATE_SYS -> pc_arg_ptr m <> 0 ->
  copy_priv (p_endpoint c) (pc_arg_ptr m) = inr u -> has (s_flags (up_priv u)) CHECK_IRQ = true ->
  up_nr_irq u < 0 \/ Z.of_nat NR_IRQ < up_nr_irq u ->
  do_privctl copy_priv copy_io copy_mem copy_irq stack_io stack_irq caller m s
  = Done EINVAL (set_privs (<[tid := set_s_bak_sig_mgr (s_bak_sig_mgr (up_priv u)) (set_s_sig_mgr (s_sig_mgr (up_priv u))
      (set_s_init_flags (s_init_flags (up_priv u)) (set_s_flags (s_flags (up_priv u)) pv)))]> (privs s)) s).
Proof.
  intros Hok Hc Hcid Hcpv Hsys Hp Hlp Htid Hpv He Hreq Hptr Hcopy Hirq Hn.
  unfold do_privctl. rewrite (priv_at_run s caller cid c cpv Hc Hcid Hcpv). erewrite bind_get_proc by done. rewrite Hsys. cbn [negb].
  pose proof (live_not_self s rp (ipc_of p) Hok Hlp : p_endpoint p <> SELF) as Hns. rewrite He, (proj2 (Z.eqb_neq _ _) Hns).
  rewrite (bind_done (isokendpt (p_endpoint p)) _ (Some rp) s s) by exact (live_isokendpt s (wf_c _ (ok_wf _ Hok)) rp (ipc_of p) Hlp).
  unfold privctl_request. erewrite bind_get_proc by done. cbn zeta. rewrite Hreq. cbn -[priv_update_sys]. unfold priv_update_sys.
  do 2 erewrite bind_get_proc by done. rewrite (proj2 (Z.eqb_neq _ _) Hptr), Hcopy. unfold update_priv. cbn zeta. rewrite bind_assoc.
  rewrite (upd_priv_run s rp tid p pv Hp Htid Hpv). unfold update_tab at 1. rewrite Hirq.
  assert ((up_nr_irq u <? 0) || (Z.of_nat NR_IRQ <? up_nr_irq u) = true) as ->; [|done].
  apply orb_true_iff. destruct Hn; [left|right]; by apply Z.ltb_lt.
Qed.

Lemma update_sys_partial_witness :
  exists s', do_privctl (fun _ _ => inr (mkUpriv (up_priv service_priv) 17 0 0)) (fun _ _ => inl EFAULT_SRC) (fun _ _ => inl EFAULT_SRC)
      (fun _ _ => inl EFAULT_SRC) (mkIo 0 0) 0 RS_PROC_NR (mkPrivctl (ENDPOINT 1 11) SYS_PRIV_UPDATE_SYS 4096 0 0) priv_example = Done EINVAL s'
    /\ has (s_flags (pslot priv_example 16)) SYS_PROC = false /\ has (s_flags (pslot s' 16)) SYS_PROC = true.
Proof.
  eexists. split; [|split; [by_vm|]].
  - apply (update_sys_partial (fun _ _ => inr (mkUpriv (up_priv service_priv) 17 0 0)) (fun _ _ => inl EFAULT_SRC) (fun _ _ => inl EFAULT_SRC)
      (fun _ _ => inl EFAULT_SRC) (mkIo 0 0) 0 priv_example RS_PROC_NR 7 11 16 (slot priv_example RS_PROC_NR) (slot priv_example 11)
      (pslot priv_example 7) (pslot priv_example 16) (mkPrivctl (ENDPOINT 1 11) SYS_PRIV_UPDATE_SYS 4096 0 0) (mkUpriv (up_priv service_priv) 17 0 0));
      [by_ok|by_slot|by_vm|by_pslot|by_vm|by_slot|by_live|by_vm|by_pslot|by_vm|reflexivity|discriminate|reflexivity|by_vm|right; by vm_compute].
  - by_vm.
Defined.
