(* ===== verification/Switch.v ===== *)
(** * Leaving the kernel: choosing the process that runs next

    Models [switch_to_user] and [idle] of kernel/proc.c with [arch_do_syscall]
    and [arch_finish_switch_to_user] of kernel/arch/x86_64/arch_system.c.  The
    result is the process that resumes in user mode, or [None] when the
    processor is halted; after the next interrupt the kernel goes on with
    [pick_or_idle].  Address spaces, the FPU and the local timer belong to the
    machine.  [call_vec] is the table of kernel calls and [kaddr] the address of
    the message on the kernel stack. *)

From S2P Require Import Prelude Monad Timers Endpoint AuditRing DrvQueue Chain Kernel Sched Init Ipc System Clock Vm.

Definition proc_is_preempted (p : proc) : bool := has (p_rts_flags p) RTS_PREEMPTED.

(** A process that lost the processor to a better one goes back to its queue,
    to the front when it has time left. *)
Definition requeue_preempted (n : Z) : K unit :=
  p <- get_proc n ;;
  if proc_is_preempted p then
    upd_proc n (fun p => set_p_rts_flags (flag_clr (p_rts_flags p) RTS_PREEMPTED) p) ;;
    p <- get_proc n ;;
    if proc_is_runnable p then
      if negb (p_cpu_time_left p =? 0) then enqueue_head n else enqueue n
    else ret tt
  else ret tt.

(** [idle], up to [halt_cpu]. *)
Definition idle : K unit :=
  modify (set_proc_ptr idle_proc) ;;
  p <- get_proc idle_proc ;;
  pv <- priv_of p ;;
  if has (s_flags pv) BILLABLE then modify (set_bill_ptr idle_proc) else ret tt.

Definition pick_or_idle : K (option Z) :=
  r <- pick_proc ;;
  match r with
  | None => idle ;; ret None
  | Some n => modify (set_proc_ptr n) ;; ret (Some n)
  end.

Definition arch_do_syscall (kerninfo n : Z) : K unit :=
  cur <- gets proc_ptr ;;
  assert (n =? cur) ;;
  p <- get_proc n ;;
  assert (has (p_misc_flags p) MF_SC_DEFER) ;;
  let '(r1, r2, r3) := p_defer p in
  r <- do_ipc kerninfo r1 r2 r3 ;;
  upd_proc n (set_p_retreg r).

Section Switch.
Context (call_vec : Z -> option handler) (kerninfo kaddr : Z).

(** [MF_KCALL_RESUME | MF_DELIVERMSG | MF_SC_DEFER | MF_SC_TRACE | MF_SC_ACTIVE] *)
Definition MISC_WORK : Z :=
  Z.lor MF_KCALL_RESUME (Z.lor MF_DELIVERMSG (Z.lor MF_SC_DEFER (Z.lor MF_SC_TRACE MF_SC_ACTIVE))).

(** One round of the loop over the flags; the answer is whether to leave the
    loop with [break]. *)
Definition misc_round (n : Z) : K bool :=
  p <- get_proc n ;;
  let f := p_misc_flags p in
  if has f MF_KCALL_RESUME then kernel_call_resume call_vec n ;; ret false
  else if has f MF_DELIVERMSG then delivermsg n ;; ret false
  else if has f MF_SC_DEFER then
    assert (negb (has f MF_SC_ACTIVE)) ;;
    arch_do_syscall kerninfo n ;;
    p <- get_proc n ;;
    (if has (p_misc_flags p) MF_SIG_DELAY && negb (RTS_ISSET p RTS_SENDING) then sig_delay_done n else ret tt) ;;
    ret false
  else if has f MF_SC_TRACE then
    if negb (has f MF_SC_ACTIVE) then ret true
    else
      upd_proc n (fun p => set_p_misc_flags (flag_clr (p_misc_flags p) (Z.lor MF_SC_TRACE MF_SC_ACTIVE)) p) ;;
      cause_sig (p_nr p) SIGTRAP ;;
      ret false
  else if has f MF_SC_ACTIVE then
    upd_proc n (fun p => set_p_misc_flags (flag_clr (p_misc_flags p) MF_SC_ACTIVE) p) ;; ret true
  else ret false.

(** The loop; the answer is false when the process can no longer run. *)
Fixpoint misc_loop (fuel : nat) (n : Z) : K bool :=
  match fuel with
  | O => halt NoFuel
  | S fuel' =>
      p <- get_proc n ;;
      if negb (has (p_misc_flags p) MISC_WORK) then ret true
      else
        assert (proc_is_runnable p) ;;
        leave <- misc_round n ;;
        if (leave : bool) then ret true
        else
          p <- get_proc n ;;
          if negb (proc_is_runnable p) then ret false else misc_loop fuel' n
  end.

(** A resumed kernel call, the message it brings, the deferred call, the message
    that one brings, and the two flags of tracing. *)
Definition misc_fuel : nat := 8.

(** [arch_finish_switch_to_user] and the rest of [switch_to_user]. *)
Definition finish_switch : K Z :=
  n <- gets proc_ptr ;;
  p <- get_proc n ;;
  assert (negb (p_cpu_time_left p =? 0)) ;;
  upd_proc n (fun p => set_p_misc_flags (flag_clr (p_misc_flags p) MF_CONTEXT_SET) p) ;;
  ret n.

(** From [check_misc_flags] on; [again] is [not_runnable_pick_new]. *)
Definition check_misc_flags (again : Z -> K (option Z)) (n : Z) : K (option Z) :=
  p <- get_proc n ;;
  assert (proc_is_runnable p) ;;
  ok <- misc_loop misc_fuel n ;;
  if negb ok then again n
  else
    p <- get_proc n ;;
    (if p_cpu_time_left p =? 0 then proc_no_time kaddr n else ret tt) ;;
    p <- get_proc n ;;
    if negb (proc_is_runnable p) then again n
    else r <- finish_switch ;; ret (Some r).

Fixpoint not_runnable_pick_new (fuel : nat) (n : Z) : K (option Z) :=
  match fuel with
  | O => halt NoFuel
  | S fuel' =>
      requeue_preempted n ;;
      r <- pick_or_idle ;;
      match r with
      | None => ret None
      | Some m => check_misc_flags (not_runnable_pick_new fuel') m
      end
  end.

Definition switch_to_user (fuel : nat) : K (option Z) :=
  n <- gets proc_ptr ;;
  p <- get_proc n ;;
  if proc_is_runnable p then check_misc_flags (not_runnable_pick_new fuel) n
  else not_runnable_pick_new fuel n.
End Switch.
