(* ===== verification/SwitchProps.v ===== *)
(** * What runs next

    [switch_to_user] puts a preempted process back into its queue, takes the
    head of the best queue, delivers the message it waits for and renews a
    quantum the kernel manages. *)

From S2P Require Import Prelude Monad Timers Endpoint AuditRing DrvQueue Chain Kernel Sched RunQueue Init SchedProps Ipc IpcInv Deadlock IpcStep Notify IpcSend System Clock Vm ClockProps Switch.

(** ** The front of a queue *)

Lemma rqs_prepend s s2 L R q rp :
  queued s L R -> ~ R rp -> rdyq_ok q = true -> L q <> [] ->
  (forall n, nextready s2 n = upd (nextready s) rp (run_q_head s !! q) n) ->
  run_q_head s2 = <[q := rp]> (run_q_head s) -> run_q_tail s2 = run_q_tail s ->
  rqs s2 (updq L q (rp :: L q)).
Proof.
  intros HQ HnR Hq HL Hn2 Hh Ht q' Hq'. rewrite Hh, Ht. unfold updq.
  destruct (queued_rqs _ _ _ HQ q' Hq') as [Hc' Ht'].
  destruct (Z.eqb_spec q' q) as [->|Hne].
  - rewrite lookup_insert_eq. split.
    + eapply chain_ext; [intros; apply Hn2|]. by apply chain_push; [|eapply queued_fresh].
    + rewrite Ht'. by destruct (L q).
  - rewrite lookup_insert_ne by done. split; [|done].
    eapply chain_ext; [|done]. intros n Hn'. rewrite Hn2. apply upd_other.
    intros ->. by apply (queued_fresh _ _ _ q' rp HQ HnR Hq').
Qed.

Lemma rq_mem_front s L R q rp p :
  rq_mem s L R -> procs s !! rp = Some p -> p_priority p = q ->
  rq_mem s (updq L q (rp :: L q)) (fun n => R n \/ n = rp).
Proof.
  intros H Hp Hpr q' n Hq'. rewrite <- (rq_mem_add s L R q rp p H Hp Hpr q' n Hq').
  unfold updq. destruct (q' =? q); set_solver.
Qed.

(** The accounting of a process does not matter to the scheduler. *)
Lemma upd_account s L n p f :
  wf_sched s -> queued s L (runnable s) -> procs s !! n = Some p ->
  exists s', upd_proc n (fun p => set_p_accounting (f (p_accounting p)) p) s = Done tt s' /\ sframe s s'
    /\ queued s' L (runnable s') /\ wf_sched s'.
Proof.
  intros Hwf HQ Hp. rewrite (upd_proc_done _ _ _ _ Hp).
  match goal with |- context [Done tt ?s'] => set (s1 := s') end.
  assert (sframe s s1) as Hf by by eapply (kframe_set_procs erase).
  assert (queued s1 L (runnable s1)) as HQ1.
  { eapply queued_sframe; [done| |done]. eapply rqs_ext; [..|apply HQ]; [|done..].
    intros m. by eapply nextready_set_same. }
  exists s1. split; [done|]. split; [done|]. split; [done|].
  eapply wf_sched_frame; [done|apply Hwf..|done].
Qed.

(** What [enqueue_head] does before it counts. *)
Lemma front_link_spec s L R rp p q :
  queued s L R -> ~ R rp -> procs s !! rp = Some p -> p_priority p = q ->
  rdyq_ok q = true -> isokprocn rp = true ->
  exists s', (h <- get_head q ;;
      match h with
      | None => put_head q (Some rp) ;; put_tail q (Some rp) ;; upd_proc rp (set_p_nextready None)
      | Some x => upd_proc rp (set_p_nextready (Some x)) ;; put_head q (Some rp)
      end) s = Done tt s'
    /\ queued s' (updq L q (rp :: L q)) (fun n => R n \/ n = rp) /\ sframe s s'.
Proof.
  intros HQ HnR Hp Hpr Hq Hn. destruct (queued_rqs _ _ _ HQ q Hq) as [Hc Ht].
  assert (forall s', sframe s s' -> rqs s' (updq L q (rp :: L q)) ->
    queued s' (updq L q (rp :: L q)) (fun n => R n \/ n = rp) /\ sframe s s') as Hfin.
  { intros s' Hf Hr. split; [split|done]; [done| |].
    - eapply sframe_mem; [by symmetry|]. eapply rq_mem_front; [apply HQ|done..].
    - intros n [HR | ->]; [|done]. by apply (queued_slot _ _ _ HQ). }
  unfold get_head, put_head, put_tail. rewrite Hq. unfold bind, gets, modify.
  destruct (run_q_head s !! q) as [h|] eqn:Hh.
  - destruct (chain_head _ _ _ Hc) as (l' & HL). rewrite (upd_proc_done _ _ _ _ Hp).
    eexists. split; [done|]. apply Hfin; [unfold kframe, erase_k; cbn; by rewrite (er_insert erase _ rp p)|].
    eapply rqs_prepend; [done..|by rewrite HL| |done|done].
    intros n. unfold nextready, upd. cbn. destruct (Z.eqb_spec n rp) as [->|]; [by rewrite lookup_insert_eq|].
    by rewrite lookup_insert_ne.
  - unfold upd_proc. cbn. rewrite Hp. eexists. split; [done|].
    apply Hfin; [unfold kframe, erase_k; cbn; by rewrite (er_insert erase _ rp p)|].
    pose proof (chain_head_None _ _ Hc) as HL.
    assert (updq L q (rp :: L q) = updq L q (L q ++ [rp])) as -> by by rewrite HL.
    eapply rqs_first; [done..| |done|done].
    intros n. unfold nextready, upd. cbn. destruct (Z.eqb_spec n rp) as [->|]; [by rewrite lookup_insert_eq|].
    by rewrite lookup_insert_ne.
Qed.

Lemma enqueue_head_spec s L R rp p :
  queued s L R -> ~ R rp -> (forall m, runnable s m <-> R m \/ m = rp) ->
  prio_ok s -> slots_ok s -> cur_ok s ->
  procs s !! rp = Some p -> p_rts_flags p = 0 -> p_cpu_time_left p <> 0 -> isokprocn rp = true ->
  exists s', enqueue_head rp s = Done tt s' /\ sframe s s'
    /\ queued s' (updq L (p_priority p) (rp :: L (p_priority p))) (runnable s') /\ wf_sched s'.
Proof.
  intros HQ HnR HR Hprio Hslots Hcur Hp Hrts Ht Hn.
  assert (rdyq_ok (p_priority p) = true) as Hq by (eapply Hprio; [done|]; apply HR; by right).
  unfold enqueue_head. erewrite bind_get_proc by done. destruct (slot_magic _ Hslots rp p Hp Hn) as (_ & Hok & _).
  rewrite bind_assert by done. rewrite bind_assert by by apply Z.eqb_eq.
  rewrite bind_assert by by apply negb_true_iff, Z.eqb_neq.
  rewrite bind_assert by (apply rdyq_ok_spec in Hq; apply Z.leb_le; lia).
  rewrite <- bind_assoc.
  destruct (front_link_spec s L R rp p _ HQ HnR Hp eq_refl Hq Hn) as (s1 & E1 & HQ1 & Hf1).
  rewrite (bind_done _ _ _ _ _ E1).
  assert (queued s1 (updq L (p_priority p) (rp :: L (p_priority p))) (runnable s1)) as HQ1'.
  { eapply queued_ext; [|done]. intros m. rewrite <- (sframe_runnable _ _ m Hf1). by rewrite HR. }
  assert (wf_sched s1) as Hwf1 by by eapply wf_sched_frame.
  destruct (note_enter_queue_spec s1 _ Hwf1 HQ1') as (s2 & E2 & Hf2 & HQ2 & Hwf2).
  rewrite (bind_done _ _ _ _ _ E2).
  assert (sframe s s2) as Hf by by etrans.
  destruct (kframe_lookup erase s s2 rp p Hf Hp) as (p2 & Hp2 & _).
  destruct (upd_account s2 _ rp p2 (fun a => set_a_preempted (u64 (a_preempted a + 1))
         (set_a_dequeues (u64 (a_dequeues a - 1)) a)) Hwf2 HQ2 Hp2) as (s3 & E3 & Hf3 & HQ3 & Hwf3).
  exists s3. split; [exact E3|]. split; [by etrans|done].
Qed.

(** ** A preempted process goes back to its queue *)

(** Whether the process becomes runnable, and where it is put. *)
Definition put_back (n : Z) (c : proc) (l : list Z) : list Z :=
  if negb (p_cpu_time_left c =? 0) then n :: l else l ++ [n].
Definition requeued (s : kstate) (n : Z) (c : proc) (q : Z) : list Z :=
  if wakes c RTS_PREEMPTED && (q =? p_priority c) then put_back n c (rq s q) else rq s q.

Lemma wakes_preempted c : proc_is_preempted c = false -> wakes c RTS_PREEMPTED = false.
Proof.
  unfold proc_is_preempted, wakes. intros H. rewrite (flag_clr_id RTS_PREEMPTED _ H). by destruct (_ =? 0).
Qed.

Lemma flag_clr_idem x f : flag_clr (flag_clr x f) f = flag_clr x f.
Proof. unfold flag_clr. by rewrite <- Z.land_assoc, Z.land_diag. Qed.

Lemma wframe_clear s c :
  procs s !! proc_ptr s = Some c ->
  wframe s (with_rts s (proc_ptr s) c (flag_clr (p_rts_flags c) RTS_PREEMPTED)).
Proof.
  intros Hc. split.
  - apply (kframe_set_procs erase_pre s _ c); [done|]. unfold erase_pre. cbn.
    by rewrite flag_clr_idem.
  - intros n Hn. rewrite with_rts_lookup. by rewrite decide_False.
Qed.

Lemma requeue_sched s c :
  base s -> procs s !! proc_ptr s = Some c ->
  exists s', requeue_preempted (proc_ptr s) s = Done tt s' /\ wframe s s' /\ wf_sched s'
    /\ forall q, rdyq_ok q = true -> rq s' q = requeued s (proc_ptr s) c q.
Proof.
  intros [Hwf Hcl Hpr] Hc. unfold requeue_preempted, requeued. erewrite bind_get_proc by done.
  destruct (proc_is_preempted c) eqn:Epre.
  2: { exists s. rewrite (wakes_preempted c Epre). by split_and!. }
  set (n := proc_ptr s) in *. set (v := flag_clr (p_rts_flags c) RTS_PREEMPTED).
  set (s1 := with_rts s n c v). rewrite (bind_upd_proc _ _ _ _ _ Hc). change (set_procs _ s) with s1.
  assert (p_rts_flags c <> 0) as Hnz by (intros E; unfold proc_is_preempted in Epre; by rewrite E in Epre).
  assert (procs s1 !! n = Some (set_p_rts_flags v c)) as Hn by (apply with_rts_self).
  assert (slots_ok s1) as Hslots by (by apply (unset_slots s n c RTS_PREEMPTED)).
  assert (prio_ok s1) as Hprio by (apply with_rts_prio; [apply Hwf|done|intros _; by eapply Hpr]).
  assert (cur_ok s1) as Hcur by (by apply with_rts_cur, Hwf).
  assert (wframe s s1) as Hw by (by apply wframe_clear).
  erewrite bind_get_proc by done. unfold proc_is_runnable. cbn [set_p_rts_flags p_rts_flags p_cpu_time_left].
  unfold wakes. rewrite (proj2 (Z.eqb_neq _ _) Hnz). cbn [negb andb]. fold v. destruct (Z.eqb_spec v 0) as [Ev|Ev].
  2: { destruct (with_rts_same s (rq s) n c v Hwf (wf_queued s Hwf) Hc) as [HQ Hwf1]; [done|done|done|].
       exists s1. split_and!; [done|done|done|]. intros q Hq. by apply (rq_queued s1 _ _ q HQ). }
  assert (isokprocn n = true) as Hisok by (by apply (unset_isok s n c RTS_PREEMPTED Hwf Hc)).
  assert (queued s1 (rq s) (runnable s)) as HQ1.
  { pose proof (wf_queued s Hwf) as HQ. split; [by apply with_rts_rqs, HQ|by apply with_rts_mem, HQ|apply HQ]. }
  assert (~ runnable s n) as Hnr by (intros (_ & x & Hx & ?); rewrite Hc in Hx; by injection Hx as <-).
  assert (forall m, runnable s1 m <-> runnable s m \/ m = n) as HR
    by (intros m; unfold s1; rewrite with_rts_runnable by done; case_decide; naive_solver).
  unfold put_back. destruct (Z.eqb_spec (p_cpu_time_left c) 0) as [Et|Et]; cbn [negb].
  - destruct Hcur as (c1 & id & pv & Hc1 & Hid & Hpv). change (procs s1 !! n = Some c1) in Hc1. rewrite Hn in Hc1. injection Hc1 as <-.
    destruct (enqueue_spec s1 (rq s) (runnable s) n (set_p_rts_flags v c) (set_p_rts_flags v c) id pv)
      as (s' & E & Hf & HQ' & Hwf'); try done.
    rewrite preempts_irrefl in Hf, HQ'. exists s'. split; [exact E|]. split; [etrans; [exact Hw|by apply sframe_wframe]|].
    split; [done|]. intros q Hq. rewrite (rq_queued _ _ _ q HQ' Hq). unfold after_preempt, updq. cbn.
    by destruct (Z.eqb_spec q (p_priority c)) as [->|].
  - destruct (enqueue_head_spec s1 (rq s) (runnable s) n (set_p_rts_flags v c)) as (s' & E & Hf & HQ' & Hwf'); try done.
    exists s'. split; [exact E|]. split; [etrans; [exact Hw|by apply sframe_wframe]|].
    split; [done|]. intros q Hq. rewrite (rq_queued _ _ _ q HQ' Hq). unfold updq. cbn.
    by destruct (Z.eqb_spec q (p_priority c)) as [->|].
Qed.

(** ** The invariants along the way *)

(** Another process gets the processor. *)
Lemma base_cur s n p id pv :
  base s -> procs s !! n = Some p -> p_priv p = Some id -> privs s !! id = Some pv ->
  has (p_rts_flags p) RTS_SLOT_FREE = false -> base (set_proc_ptr n s).
Proof.
  destruct s. intros [[[L HQ] Hpr Hs Hcur] Hc Hp] Hn Hid Hpv Hf. cbn in *.
  split; [|by exists p|exact Hp]. split; [|exact Hpr|by destruct Hs; split|by exists p, id, pv].
  exists L. by destruct HQ; split.
Qed.
Lemma base_bill s n : base s -> base (set_bill_ptr n s).
Proof.
  destruct s. intros [[[L HQ] Hpr Hs Hcur] Hc Hp]. split; [|exact Hc|exact Hp].
  split; [|exact Hpr|by destruct Hs; split|exact Hcur]. exists L. by destruct HQ; split.
Qed.

Lemma ipc_ok_base s s' : ipc_ok s -> base s' -> view s' = view s -> privs s' = privs s -> ipc_ok s'.
Proof. intros [[_ Hc Hl] Hn Hm] Hb Ev Ep. by split; [split|..]; rewrite ?Ev, ?Ep. Qed.

Lemma runnable_live s n p : runnable s n -> procs s !! n = Some p -> live (view s) n (ipc_of p).
Proof.
  intros (Hn & x & Hx & Hr) Hp. rewrite Hp in Hx. injection Hx as <-. split; [done|]. split; [by apply view_lookup|].
  unfold ipc_of, isemptyp. cbn. by rewrite Hr.
Qed.

Lemma ipc_ok_runnable_priv s : ipc_ok s -> runnable_priv s.
Proof.
  intros H n p Hr Hp. destruct (c_priv _ _ (wf_c _ (ok_wf _ H)) n (ipc_of p)) as (id & pv & Hid & _ & Hpv & _);
    [by apply runnable_live|]. by exists id, pv.
Qed.

(** Putting the preempted process back changes nothing for message passing. *)
Lemma requeue_run s c :
  ipc_ok s -> procs s !! proc_ptr s = Some c ->
  exists s', requeue_preempted (proc_ptr s) s = Done tt s' /\ ipc_ok s' /\ wframe s s' /\ rest s' = rest s
    /\ forall q, rdyq_ok q = true -> rq s' q = requeued s (proc_ptr s) c q.
Proof.
  intros Hok Hc. pose proof (wf_b _ (ok_wf _ Hok)) as Hb. destruct (requeue_sched s c Hb Hc) as (s' & E & Hf & Hwf & Hq).
  pose proof (kframe_rest _ _ _ (wframe_k _ _ Hf)) as Hrest.
  exists s'. split; [done|]. split_and!; try done. apply (ipc_ok_base s); [done| |symmetry|symmetry].
  - split; [done| |].
    + eapply (cur_live_frame erase_pre); [apply has_pre_slot_free|apply Hf|apply Hb].
    + eapply (kframe_prio erase_pre); [done|apply Hf|apply Hb].
  - by apply wframe_view; [|apply Hb].
  - by apply rest_privs.
Qed.

(** The kernel works on a runnable process: its flags, its message, its return
    value and its time. *)
Record worked (p p' : proc) : Prop := {
  wk_sched : sched_same p p';
  wk_prio : p_priority p' = p_priority p;
  wk_keeps : keeps (ipc_of p) (ipc_of p')
}.

Lemma work_ok s n p p' :
  ipc_ok s -> runnable s n -> procs s !! n = Some p -> worked p p' ->
  let s' := set_procs (<[n := p']> (procs s)) s in
  ipc_ok s' /\ (forall q, rdyq_ok q = true -> rq s' q = rq s q).
Proof.
  intros Hok Hr Hp [Hs Hpr Hk]. pose proof (wf_b _ (ok_wf _ Hok)) as Hb. cbn zeta.
  destruct (upd_base s n p (fun _ => p') Hb Hp Hs Hpr) as (s' & E & Hb' & Ev & Er & _).
  rewrite (upd_proc_done _ _ _ _ Hp) in E. injection E as E. subst s'.
  split; [|intros q Hq; eapply upd_rq; [done|by apply sched_same_kept|apply Hb|done]].
  set (s' := set_procs _ s) in *. assert (privs s' = privs s) as Ep by done.
  assert (relax (view s) (view s')) as HR.
  { intros m. rewrite Ev. destruct (decide (m = n)) as [->|Hne].
    - rewrite lookup_insert_eq, (view_lookup _ _ _ Hp). done.
    - rewrite lookup_insert_ne by done. by destruct (view s !! m). }
  assert (dlv_ok (view s')) as Hd.
  { intros m v (Hm & Hv & He) Hrecv. rewrite Ev in Hv. destruct (decide (m = n)) as [->|Hne].
    - rewrite lookup_insert_eq in Hv. injection Hv as <-. destruct Hrecv. destruct Hr as (_ & x & Hx & Hr0).
      rewrite Hp in Hx. injection Hx as <-. unfold ipc_of. cbn. by rewrite (ss_rts _ _ Hs), Hr0.
    - rewrite lookup_insert_ne in Hv by done. by eapply (c_dlv _ _ (wf_c _ (ok_wf _ Hok)) m v). }
  destruct Hok as [[_ Hc Hl] Hn Hm]. split; [split; [done|by eapply core_relax|by eapply links_relax]|done|].
  rewrite Ep. eapply mgr_relax; [by apply relax_idents| |exact Hm]. apply prelax_refl.
Qed.

(** ** Delivering the message and leaving the call *)

#[export] Instance bit_kcall_resume : SingleBit MF_KCALL_RESUME. Proof. flag_instance 3. Defined.

Lemma has_lor x f g : has x (Z.lor f g) = has x f || has x g.
Proof.
  unfold has. rewrite Z.land_lor_distr_r. destruct (Z.eqb_spec (Z.land x f) 0) as [->|Hf]; [done|].
  cbn. apply negb_true_iff, Z.eqb_neq. rewrite Z.lor_eq_0_iff. tauto.
Qed.
Lemma has_clr_mask x m g `{!SingleBit g} : has (flag_clr x m) g = has x g && negb (has m g).
Proof.
  rewrite !(has_testbit g). unfold flag_clr. by rewrite Z.land_spec, Z.lnot_spec by apply bit_of_nonneg.
Qed.

(** The process after its message has been copied. *)
Definition got_msg (p : proc) : proc :=
  let p := set_p_misc_flags (flag_clr (p_misc_flags p) (Z.lor MF_DELIVERMSG MF_MSGFAILED))
             (set_p_delivermsg (set_m_source NONE (p_delivermsg p)) p) in
  if negb (has (p_misc_flags p) MF_CONTEXT_SET) then set_p_retreg OK p else p.
Definition after_msg (p : proc) : proc := if has (p_misc_flags p) MF_DELIVERMSG then got_msg p else p.

(** The process after it has left its system call. *)
Definition left_call (p : proc) : proc :=
  if negb (has (p_misc_flags p) MF_SC_TRACE) && has (p_misc_flags p) MF_SC_ACTIVE
  then set_p_misc_flags (flag_clr (p_misc_flags p) MF_SC_ACTIVE) p else p.

(** Nothing but a message is pending: no kernel call to resume, no deferred
    call, no event of a tracer. *)
Definition calm (p : proc) : Prop :=
  has (p_misc_flags p) MF_KCALL_RESUME = false /\ has (p_misc_flags p) MF_SC_DEFER = false
  /\ has (p_misc_flags p) MF_SC_TRACE && has (p_misc_flags p) MF_SC_ACTIVE = false.

(** The memory after the delivery of the message of [p], if it can be
    delivered. *)
Definition delivery (s : kstate) (p : proc) (s1 : kstate) : Prop :=
  if has (p_misc_flags p) MF_DELIVERMSG
  then m_source (p_delivermsg p) <> NONE
    /\ copy_msg_to_user (p_endpoint p) (p_delivermsg_vir p) (p_delivermsg p) s = Done false s1
  else s1 = s.

Lemma delivery_same s p s1 : delivery s p s1 -> same_tables s s1 /\ k_tsc_per_ms s1 = k_tsc_per_ms s.
Proof.
  unfold delivery, copy_msg_to_user. destruct (has _ _); [|by intros ->]. intros [_ H].
  destruct (umem s !! _); [by injection H as <-|]. destruct (atab s !! _); [by injection H as <-|done].
Qed.

Lemma got_msg_flags p : p_misc_flags (got_msg p) = flag_clr (p_misc_flags p) (Z.lor MF_DELIVERMSG MF_MSGFAILED).
Proof. unfold got_msg. cbn zeta. by destruct (negb _). Qed.
Lemma got_msg_has p f `{!SingleBit f} :
  has (Z.lor MF_DELIVERMSG MF_MSGFAILED) f = false -> has (p_misc_flags (got_msg p)) f = has (p_misc_flags p) f.
Proof. intros H. rewrite got_msg_flags, (has_clr_mask _ _ f), H. apply andb_true_r. Qed.

Lemma worked_trans p1 p2 p3 : worked p1 p2 -> worked p2 p3 -> worked p1 p3.
Proof.
  intros [S1 P1 K1] [S2 P2 K2]. split; [|congruence|by etrans].
  destruct S1, S2. split; congruence.
Qed.
Lemma got_msg_worked p : worked p (got_msg p).
Proof. unfold got_msg. cbn zeta. destruct (negb _); (split; [by split|done|split; try done; by left]). Qed.
Lemma after_msg_worked p : worked p (after_msg p).
Proof. unfold after_msg. destruct (has _ _); [apply got_msg_worked|split; [by split|done|split; try done; by left]]. Qed.
Lemma left_call_worked p : worked p (left_call p).
Proof. unfold left_call. destruct (_ && _); (split; [by split|done|split; try done; by left]). Qed.

Section Work.
Context (call_vec : Z -> option handler) (kerninfo kaddr : Z).

(** The process alone changes, on top of [s]. *)
Let at_proc (s : kstate) (n : Z) (p : proc) : kstate := set_procs (<[n := p]> (procs s)) s.

Lemma delivermsg_ok s n p s1 :
  procs s !! n = Some p -> p_rts_flags p = 0 -> has (p_misc_flags p) MF_DELIVERMSG = true -> delivery s p s1 ->
  delivermsg n s = Done tt (at_proc s1 n (got_msg p)).
Proof.
  intros Hp Hr Hd H. pose proof (st_procs _ _ (proj1 (delivery_same _ _ _ H))) as Ep. unfold delivery in H. rewrite Hd in H.
  destruct H as [Hs Hcopy]. unfold delivermsg. erewrite bind_get_proc by done.
  rewrite bind_assert by (unfold RTS_ISSET; by rewrite Hr). rewrite bind_assert by done.
  rewrite bind_assert by by apply negb_true_iff, Z.eqb_neq. rewrite (bind_done _ _ _ _ _ Hcopy).
  assert (procs s1 !! n = Some p) as Hp1 by by rewrite Ep. by rewrite (upd_proc_done _ _ _ _ Hp1).
Qed.

(** A round with nothing to do but to leave the call. *)
Lemma misc_quiet fuel s n p :
  procs s !! n = Some p -> p_rts_flags p = 0 -> calm p -> has (p_misc_flags p) MF_DELIVERMSG = false ->
  misc_loop call_vec kerninfo (S fuel) n s = Done true (at_proc s n (left_call p)).
Proof.
  intros Hp Hr (H1 & H2 & H3) Hd. cbn [misc_loop]. erewrite bind_get_proc by done.
  unfold MISC_WORK. rewrite !has_lor, H1, Hd, H2. cbn [orb]. unfold left_call.
  assert (at_proc s n p = s) as Hid by (unfold at_proc; rewrite insert_id by done; by destruct s).
  destruct (has (p_misc_flags p) MF_SC_TRACE) eqn:Et; cbn [orb negb andb] in *.
  - rewrite bind_assert by by apply Z.eqb_eq. unfold misc_round. rewrite bind_assoc. erewrite bind_get_proc by done.
    rewrite H1, Hd, H2, Et, H3. cbn [negb]. by rewrite Hid.
  - destruct (has (p_misc_flags p) MF_SC_ACTIVE) eqn:Ea; cbn [negb]; [|by rewrite Hid].
    rewrite bind_assert by by apply Z.eqb_eq. unfold misc_round. rewrite bind_assoc. erewrite bind_get_proc by done.
    rewrite H1, Hd, H2, Et, Ea. rewrite bind_assoc. by erewrite bind_upd_proc by done.
Qed.

Lemma misc_loop_calm s n p s1 :
  procs s !! n = Some p -> p_rts_flags p = 0 -> calm p -> delivery s p s1 ->
  misc_loop call_vec kerninfo misc_fuel n s = Done true (at_proc s1 n (left_call (after_msg p))).
Proof.
  intros Hp Hr Hcalm H. unfold after_msg. destruct (has (p_misc_flags p) MF_DELIVERMSG) eqn:Hd.
  2: { unfold delivery in H. rewrite Hd in H. subst s1. by apply misc_quiet. }
  unfold misc_fuel. set (fuel := 7%nat). cbn [misc_loop]. erewrite bind_get_proc by done.
  pose proof Hcalm as (H1 & H2 & H3). unfold MISC_WORK. rewrite !has_lor, H1, Hd. cbn [orb negb].
  rewrite bind_assert by by apply Z.eqb_eq. unfold misc_round. rewrite bind_assoc. erewrite bind_get_proc by done.
  rewrite H1, Hd, bind_assoc, (bind_done _ _ _ _ _ (delivermsg_ok s n p s1 Hp Hr Hd H)), bind_ret.
  assert (procs (at_proc s1 n (got_msg p)) !! n = Some (got_msg p)) as Hp1 by (cbn; apply lookup_insert_eq).
  erewrite bind_get_proc by exact Hp1.
  assert (p_rts_flags (got_msg p) = 0) as Hr1 by (by rewrite (ss_rts _ _ (wk_sched _ _ (got_msg_worked p)))).
  unfold proc_is_runnable. rewrite Hr1. cbn [Z.eqb negb].
  unfold fuel. rewrite (misc_quiet 6 (at_proc s1 n (got_msg p)) n (got_msg p) Hp1 Hr1).
  - unfold at_proc. cbn. by rewrite insert_insert_eq.
  - unfold calm. rewrite (got_msg_has p MF_KCALL_RESUME), (got_msg_has p MF_SC_DEFER), (got_msg_has p MF_SC_TRACE), (got_msg_has p MF_SC_ACTIVE) by done. done.
  - by rewrite got_msg_flags, (has_clr_mask _ _ MF_DELIVERMSG), andb_false_r.
Qed.

(** *** The quantum *)

(** The kernel itself renews the quantum of the process, for this long. *)
Definition kernel_renews (p : proc) (pv : priv) : bool :=
  proc_is_rt p || proc_kernel_scheduler p || negb (has (s_flags pv) PREEMPTIBLE).
Definition quantum_of (s : kstate) (p : proc) : Z :=
  u64 (k_tsc_per_ms s * (if proc_is_rt p && (p_sched_class p =? SCHED_FIFO) then 1000000 else p_quantum_size_ms p)).

Lemma rts_unset_zero s n p f : procs s !! n = Some p -> p_rts_flags p = 0 -> RTS_UNSET n f s = Done tt s.
Proof.
  intros Hp Hr. unfold RTS_UNSET. erewrite bind_get_proc by done. erewrite bind_upd_proc by done.
  rewrite Hr. change (flag_clr 0 f) with 0. cbn [Z.eqb negb andb].
  assert (set_p_rts_flags 0 p = p) as -> by (rewrite <- Hr; by destruct p). rewrite insert_id by done. by destruct s.
Qed.

Lemma no_time_ok s n p id pv :
  procs s !! n = Some p -> p_rts_flags p = 0 -> p_priv p = Some id -> privs s !! id = Some pv ->
  kernel_renews p pv = true ->
  proc_no_time kaddr n s = Done tt (at_proc s n (set_p_cpu_time_left (quantum_of s p) p)).
Proof.
  intros Hp Hr Hid Hpv Hk. unfold proc_no_time, sched_rt_handle_quantum, quantum_of, kernel_renews in *.
  rewrite bind_assoc. erewrite bind_get_proc by done. destruct (proc_is_rt p); cbn [negb andb orb] in *.
  - destruct (p_sched_class p =? SCHED_FIFO); rewrite bind_assoc, bind_ms_2_cpu_time, bind_assoc; erewrite bind_upd_proc by done; [done|].
    rewrite bind_assoc. rewrite (bind_done _ _ tt (at_proc s n (set_p_cpu_time_left (u64 (k_tsc_per_ms s * p_quantum_size_ms p)) p))
      (at_proc s n (set_p_cpu_time_left (u64 (k_tsc_per_ms s * p_quantum_size_ms p)) p))); [done|].
    eapply rts_unset_zero; [apply lookup_insert_eq|done].
  - rewrite bind_ret. erewrite bind_get_proc by done. destruct (proc_kernel_scheduler p); cbn [orb] in Hk.
    + rewrite bind_ret, bind_ms_2_cpu_time. by rewrite (upd_proc_done _ _ _ _ Hp).
    + rewrite bind_assoc. erewrite bind_priv_of by done. apply negb_true_iff in Hk. rewrite Hk, bind_ret, bind_ms_2_cpu_time.
      by rewrite (upd_proc_done _ _ _ _ Hp).
Qed.

Definition renewed (s : kstate) (p : proc) : proc :=
  if p_cpu_time_left p =? 0 then set_p_cpu_time_left (quantum_of s p) p else p.
(** What a process that runs has become. *)
Definition resumed (s : kstate) (p : proc) : proc :=
  let p := renewed s (left_call (after_msg p)) in
  set_p_misc_flags (flag_clr (p_misc_flags p) MF_CONTEXT_SET) p.

Lemma after_msg_field {A} (f : proc -> A) p :
  (forall x p, f (set_p_misc_flags x p) = f p) -> (forall x p, f (set_p_delivermsg x p) = f p) ->
  (forall x p, f (set_p_retreg x p) = f p) -> f (left_call (after_msg p)) = f p.
Proof.
  intros H1 H2 H3. unfold left_call, after_msg, got_msg. cbn zeta.
  destruct (has (p_misc_flags p) MF_DELIVERMSG); repeat destruct (negb _); cbn [andb];
    repeat destruct (has _ _); by rewrite ?H1, ?H2, ?H3, ?H1, ?H2.
Qed.

(** *** From the choice of a process to user mode *)
Lemma check_ok again s n p s1 id pv :
  proc_ptr s = n -> procs s !! n = Some p -> p_rts_flags p = 0 -> p_priv p = Some id -> privs s !! id = Some pv ->
  calm p -> delivery s p s1 ->
  (p_cpu_time_left p = 0 -> kernel_renews p pv = true /\ quantum_of s p <> 0) ->
  check_misc_flags call_vec kerninfo kaddr again n s = Done (Some n) (at_proc s1 n (resumed s p)).
Proof.
  intros Hcur Hp Hr Hid Hpv Hcalm H Ht. destruct (delivery_same _ _ _ H) as [Hst Htsc]. unfold check_misc_flags.
  erewrite bind_get_proc by done. rewrite bind_assert by by apply Z.eqb_eq.
  rewrite (bind_done _ _ _ _ _ (misc_loop_calm s n p s1 Hp Hr Hcalm H)). cbn [negb].
  set (p1 := left_call (after_msg p)).
  assert (forall x, procs (at_proc s1 n x) !! n = Some x) as Hn by (intros x; apply lookup_insert_eq).
  assert (p_rts_flags p1 = 0) as Hr1 by (by unfold p1; rewrite after_msg_field).
  assert (p_cpu_time_left p1 = p_cpu_time_left p) as Et1 by (by unfold p1; rewrite after_msg_field).
  assert (forall x, quantum_of (at_proc s1 n x) p1 = quantum_of s p1) as Eq1 by (intros x; unfold quantum_of; cbn; by rewrite Htsc).
  assert (quantum_of s p1 = quantum_of s p) as Eq by (exact (after_msg_field (quantum_of s) p ltac:(done) ltac:(done) ltac:(done))).
  assert (kernel_renews p1 pv = kernel_renews p pv) as Ek
    by (exact (after_msg_field (fun p => kernel_renews p pv) p ltac:(done) ltac:(done) ltac:(done))).
  erewrite bind_get_proc by apply Hn.
  rewrite (bind_done _ _ tt (at_proc s1 n p1) (at_proc s1 n (renewed s p1))).
  2: { unfold renewed. rewrite Et1. destruct (Z.eqb_spec (p_cpu_time_left p) 0) as [E0|]; [|done].
       rewrite (no_time_ok (at_proc s1 n p1) n p1 id pv); [|apply Hn|done|by unfold p1; rewrite after_msg_field| |].
       - rewrite Eq1. unfold at_proc. cbn. by rewrite insert_insert_eq.
       - cbn. by rewrite (st_privs _ _ Hst).
       - rewrite Ek. by apply Ht. }
  set (p2 := renewed s p1). assert (p_rts_flags p2 = 0) as Hr2 by (unfold p2, renewed; by destruct (_ =? 0)).
  assert (p_cpu_time_left p2 <> 0) as Ht2.
  { unfold p2, renewed. rewrite Et1. destruct (Z.eqb_spec (p_cpu_time_left p) 0) as [E0|]; [|by rewrite Et1].
    cbn. rewrite Eq. by apply Ht. }
  erewrite bind_get_proc by apply Hn. unfold proc_is_runnable. rewrite Hr2. cbn [Z.eqb negb].
  unfold finish_switch. rewrite bind_assoc. rewrite (bind_done _ _ n (at_proc s1 n p2) (at_proc s1 n p2))
    by (unfold gets; cbn; by rewrite (st_cur _ _ Hst), Hcur).
  rewrite bind_assoc. erewrite bind_get_proc by apply Hn. rewrite bind_assoc, bind_assert by by apply negb_true_iff, Z.eqb_neq.
  rewrite bind_assoc. erewrite bind_upd_proc by apply Hn. rewrite bind_ret.
  unfold at_proc. cbn. by rewrite insert_insert_eq.
Qed.
End Work.

(** ** The result *)

(** The head of the first non-empty queue of [Q]. *)
Fixpoint best (Q : Z -> list Z) (k : nat) (q : Z) : option Z :=
  match k with
  | O => None
  | S k' => match head (Q q) with Some n => Some n | None => best Q k' (q + 1) end
  end.

(** Who runs next: the current process as long as it can run, else the best of
    the queues after the current process is back in its own. *)
Definition next_up (s : kstate) (c : proc) : option Z :=
  if proc_is_runnable c then Some (proc_ptr s) else best (requeued s (proc_ptr s) c) 16 0.

Lemma first_ready_best s Q k q :
  (forall q, rdyq_ok q = true -> rq s q = Q q) -> 0 <= q -> q + Z.of_nat k <= 16 -> first_ready s k q = best Q k q.
Proof.
  intros H. revert q. induction k as [|k IH]; intros q H0 Hk; [done|]. cbn [first_ready best].
  rewrite (H q) by (apply rdyq_ok_spec; lia). rewrite IH by lia. done.
Qed.

(** The message of the process, if there is one, can be delivered. *)
Definition can_deliver (s : kstate) (p : proc) : Prop :=
  has (p_misc_flags p) MF_DELIVERMSG = true ->
  m_source (p_delivermsg p) <> NONE /\ is_Some (user_msg s (p_endpoint p) (p_delivermsg_vir p)).
(** A quantum that has run out is one the kernel renews. *)
Definition can_renew (s : kstate) (p : proc) : Prop :=
  p_cpu_time_left p = 0 ->
  quantum_of s p <> 0 /\ exists id pv, p_priv p = Some id /\ privs s !! id = Some pv /\ kernel_renews p pv = true.

Lemma can_deliver_run s p :
  can_deliver s p -> exists s1, delivery s p s1
    /\ (has (p_misc_flags p) MF_DELIVERMSG = true -> user_msg s1 (p_endpoint p) (p_delivermsg_vir p) = Some (p_delivermsg p)).
Proof.
  unfold can_deliver, delivery, user_msg, copy_msg_to_user. destruct (has _ _); [|by exists s].
  intros H. destruct (H eq_refl) as [Hs [m Hm]]. destruct (umem s !! _) as [x|] eqn:E.
  - eexists. split; [done|]. intros _. cbn. by rewrite lookup_insert_eq.
  - destruct (atab s !! _) as [t|] eqn:Ea; [|done]. eexists. split; [done|]. intros _. cbn. by rewrite E, lookup_insert_eq.
Qed.

(** Process [m], which was [p] in [s], runs in [s']. *)
Record runs (s s' : kstate) (m : Z) (p : proc) : Prop := {
  ru_ok : ipc_ok s';
  ru_cur : proc_ptr s' = m;
  ru_proc : exists p', procs s' !! m = Some p' /\ p_rts_flags p' = 0 /\ p_cpu_time_left p' <> 0
    /\ p_priority p' = p_priority p /\ has (p_misc_flags p') MF_DELIVERMSG = false
    /\ has (p_misc_flags p') MF_SC_ACTIVE = false;
  ru_msg : has (p_misc_flags p) MF_DELIVERMSG = true ->
    user_msg s' (p_endpoint p) (p_delivermsg_vir p) = Some (p_delivermsg p);
  ru_others : forall k, k <> m -> view s' !! k = view s !! k
}.

Lemma resumed_worked s p : worked p (resumed s p).
Proof.
  eapply worked_trans; [apply after_msg_worked|]. eapply worked_trans; [apply left_call_worked|].
  unfold resumed, renewed. cbn zeta. destruct (_ =? 0); (split; [by split|done|split; try done; by left]).
Qed.

Lemma renewed_flags s p : p_misc_flags (renewed s p) = p_misc_flags p.
Proof. unfold renewed. by destruct (_ =? 0). Qed.

Lemma resumed_time s p : p_cpu_time_left (resumed s p) = if p_cpu_time_left p =? 0 then quantum_of s p else p_cpu_time_left p.
Proof.
  unfold resumed, renewed. cbn zeta. cbn [set_p_misc_flags p_cpu_time_left].
  assert (p_cpu_time_left (left_call (after_msg p)) = p_cpu_time_left p) as E by (by rewrite after_msg_field).
  assert (quantum_of s (left_call (after_msg p)) = quantum_of s p) as Eq
    by (exact (after_msg_field (quantum_of s) p ltac:(done) ltac:(done) ltac:(done))).
  rewrite E. destruct (_ =? 0); [exact Eq|exact E].
Qed.

Lemma resumed_flags s p :
  calm p -> has (p_misc_flags (resumed s p)) MF_DELIVERMSG = false /\ has (p_misc_flags (resumed s p)) MF_SC_ACTIVE = false.
Proof.
  intros (_ & _ & H3). unfold resumed. cbn zeta. cbn [set_p_misc_flags p_misc_flags]. rewrite renewed_flags.
  rewrite (has_clr_mask _ _ MF_DELIVERMSG), (has_clr_mask _ _ MF_SC_ACTIVE). rewrite !andb_true_r.
  assert (has (p_misc_flags (after_msg p)) MF_DELIVERMSG = false) as H1.
  { unfold after_msg. destruct (has (p_misc_flags p) MF_DELIVERMSG) eqn:E; [|done].
    by rewrite got_msg_flags, (has_clr_mask _ _ MF_DELIVERMSG), andb_false_r. }
  assert (has (p_misc_flags (after_msg p)) MF_SC_TRACE && has (p_misc_flags (after_msg p)) MF_SC_ACTIVE = false) as H2.
  { unfold after_msg. destruct (has (p_misc_flags p) MF_DELIVERMSG); [|done].
    by rewrite (got_msg_has p MF_SC_TRACE), (got_msg_has p MF_SC_ACTIVE) by done. }
  unfold left_call. destruct (has (p_misc_flags (after_msg p)) MF_SC_TRACE) eqn:Et; cbn [negb andb] in *; [done|].
  destruct (has (p_misc_flags (after_msg p)) MF_SC_ACTIVE) eqn:Ea; [|done].
  cbn. rewrite (has_clr_mask _ _ MF_DELIVERMSG), (has_clr_mask _ _ MF_SC_ACTIVE), H1, Ea. done.
Qed.

Lemma run_ok call_vec kerninfo kaddr again s m p :
  ipc_ok s -> proc_ptr s = m -> runnable s m -> procs s !! m = Some p -> calm p -> can_deliver s p -> can_renew s p ->
  exists s', check_misc_flags call_vec kerninfo kaddr again m s = Done (Some m) s' /\ runs s s' m p
    /\ forall q, rdyq_ok q = true -> rq s' q = rq s q.
Proof.
  intros Hok Hcur Hrun Hp Hcalm Hd Ht. pose proof Hrun as (Hm & x & Hx & Hr). rewrite Hp in Hx. injection Hx as <-.
  destruct (ipc_ok_runnable_priv s Hok m p Hrun Hp) as (id & pv & Hid & Hpv).
  destruct (can_deliver_run s p Hd) as (s1 & Hdel & Hmsg). destruct (delivery_same _ _ _ Hdel) as [Hst _].
  pose proof (same_ipc_ok _ _ Hst Hok) as Hok1. assert (procs s1 !! m = Some p) as Hp1 by (by rewrite (st_procs _ _ Hst)).
  assert (runnable s1 m) as Hrun1 by (split; [done|by exists p]).
  destruct (work_ok s1 m p (resumed s p) Hok1 Hrun1 Hp1 (resumed_worked s p)) as [Hok' Hq'].
  pose proof (resumed_worked s p) as [Hs Hpr _]. destruct (resumed_flags s p Hcalm) as [F1 F2].
  eexists. split; [eapply check_ok; try done|].
  { intros E0. destruct (Ht E0) as (Hq & id' & pv' & Hid' & Hpv' & Hk). split; [congruence|done]. }
  split; [split|].
  - exact Hok'.
  - cbn. by rewrite (st_cur _ _ Hst).
  - exists (resumed s p). split; [apply lookup_insert_eq|]. split; [by rewrite (ss_rts _ _ Hs)|].
    split; [|done]. rewrite resumed_time. destruct (Z.eqb_spec (p_cpu_time_left p) 0) as [E0|]; [by apply Ht|done].
  - exact Hmsg.
  - intros k Hk. rewrite view_upd, lookup_insert_ne by done. by rewrite (same_view _ _ Hst).
  - intros q Hq. rewrite Hq' by done. unfold rq, nextready. by rewrite (st_procs _ _ Hst), (st_head _ _ Hst).
Qed.

(** The processor goes to the chosen process. *)
Lemma choose_ok s m p :
  ipc_ok s -> runnable s m -> procs s !! m = Some p ->
  let s' := set_proc_ptr m (billed s m) in
  ipc_ok s' /\ procs s' = procs s /\ rest (set_proc_ptr 0 (set_bill_ptr 0 s')) = rest (set_proc_ptr 0 (set_bill_ptr 0 s))
  /\ (forall q, rq s' q = rq s q).
Proof.
  intros Hok Hrun Hp. pose proof Hrun as (Hm & x & Hx & Hr). rewrite Hp in Hx. injection Hx as <-.
  destruct (ipc_ok_runnable_priv s Hok m p Hrun Hp) as (id & pv & Hid & Hpv). cbn zeta.
  pose proof (wf_b _ (ok_wf _ Hok)) as Hb. unfold billed, SchedProps.priv_at. rewrite Hp, Hid, Hpv.
  destruct (has (s_flags pv) BILLABLE); (split; [|done]); (apply (ipc_ok_base s); [done| |done|done]).
  - eapply (base_cur (set_bill_ptr m s)); [by apply base_bill|done|done|done|by rewrite Hr].
  - eapply base_cur; [done..|by rewrite Hr].
Qed.

(** The idle process exists. *)
Definition idle_ok (s : kstate) : Prop :=
  exists p id pv, procs s !! idle_proc = Some p /\ p_priv p = Some id /\ privs s !! id = Some pv
    /\ has (p_rts_flags p) RTS_SLOT_FREE = false.

Lemma idle_halts s :
  ipc_ok s -> idle_ok s ->
  exists s', idle s = Done tt s' /\ ipc_ok s' /\ proc_ptr s' = idle_proc /\ procs s' = procs s.
Proof.
  intros Hok (p & id & pv & Hp & Hid & Hpv & Hf). pose proof (wf_b _ (ok_wf _ Hok)) as Hb. unfold idle.
  rewrite (bind_done _ _ tt s (set_proc_ptr idle_proc s)) by done.
  erewrite bind_get_proc by exact Hp. erewrite bind_priv_of by done.
  assert (base (set_proc_ptr idle_proc s)) as Hb1 by by eapply base_cur.
  destruct (has (s_flags pv) BILLABLE); (eexists; split; [done|]; split; [|done]);
    (apply (ipc_ok_base s); [done| |done|done]); [by apply base_bill|done].
Qed.

Lemma pick_or_idle_run s :
  ipc_ok s -> idle_ok s ->
  match first_ready s 16 0 with
  | None => (forall m, ~ runnable s m) /\ exists s', pick_or_idle s = Done None s' /\ ipc_ok s' /\ proc_ptr s' = idle_proc
      /\ procs s' = procs s
  | Some m => pick_or_idle s = Done (Some m) (set_proc_ptr m (billed s m)) /\ runnable s m
      /\ forall p k x, procs s !! m = Some p -> runnable s k -> procs s !! k = Some x -> p_priority p <= p_priority x
  end.
Proof.
  intros Hok Hidle. pose proof (b_sched _ (wf_b _ (ok_wf _ Hok))) as Hwf. pose proof (ipc_ok_runnable_priv s Hok) as Hrp.
  destruct (pick_proc_run s Hwf Hrp) as (r & s1 & E & H). pose proof E as E1. unfold pick_proc in E1.
  change (Z.to_nat NR_SCHED_QUEUES) with 16%nat in E1. rewrite pick_proc_loop_spec in E1 by (done || lia).
  set (fr := first_ready s 16 0) in *. clearbody fr. injection E1 as Er _. rewrite Er. unfold pick_or_idle. destruct r as [m|].
  - destruct H as (-> & Hrun & q & Hq & Hh & Hbest). rewrite (bind_done _ _ _ _ _ E). split; [done|]. split; [done|].
    intros p k x Hp Hk Hx. transitivity q; [|by eapply Hbest]. apply head_Some in Hh as [l Hl].
    assert (m ∈ rq s q) as Hin by (rewrite Hl; set_solver). apply (wf_rq_mem s q m Hwf Hq) in Hin as [_ Hin].
    rewrite Hp in Hin. cbn in Hin. injection Hin as ->. lia.
  - destruct H as (-> & Hno). split; [done|]. rewrite (bind_done _ _ _ _ _ E).
    destruct (idle_halts s Hok Hidle) as (s' & E' & H'). exists s'. by rewrite (bind_done _ _ _ _ _ E').
Qed.

(** What the chosen process needs does not depend on the queues. *)
Lemma chosen_same s s1 m p p1 :
  wframe s s1 -> rest s1 = rest s -> erase_pre p = erase_pre p1 ->
  let s2 := set_proc_ptr m (billed s1 m) in
  (calm p -> calm p1) /\ (can_deliver s p -> can_deliver s2 p1) /\ (can_renew s p -> can_renew s2 p1).
Proof.
  intros Hf Hrest He s2.
  assert (umem s2 = umem s /\ atab s2 = atab s /\ privs s2 = privs s /\ k_tsc_per_ms s2 = k_tsc_per_ms s) as (E1 & E2 & E3 & E4).
  { unfold s2, billed. destruct (SchedProps.priv_at s1 m) as [pv|]; [destruct (has _ _)|];
      (split_and!; by apply (rest_field _ s1 s)). }
  split_and!.
  - intros H. unfold calm. by rewrite <- (f_equal p_misc_flags He : p_misc_flags p = p_misc_flags p1).
  - unfold can_deliver, user_msg. rewrite E1, E2.
    by rewrite (f_equal p_misc_flags He : p_misc_flags p = p_misc_flags p1), (f_equal p_delivermsg He : p_delivermsg p = p_delivermsg p1),
      (f_equal p_endpoint He : p_endpoint p = p_endpoint p1), (f_equal p_delivermsg_vir He : p_delivermsg_vir p = p_delivermsg_vir p1).
  - unfold can_renew. intros H E0.
    rewrite <- (f_equal p_cpu_time_left He : p_cpu_time_left p = p_cpu_time_left p1) in E0. destruct (H E0) as (Hq & id & pv & Hid & Hpv & Hk).
    split; [rewrite <- (f_equal (quantum_of s2) He : quantum_of s2 p = quantum_of s2 p1); unfold quantum_of; by rewrite E4|].
    exists id, pv. rewrite E3, <- (f_equal p_priv He : p_priv p = p_priv p1). split_and!; [done|done|].
    by rewrite <- (f_equal (fun p => kernel_renews p pv) He : kernel_renews p pv = kernel_renews p1 pv).
Qed.

Lemma runs_frame s s2 s' m p p1 :
  view s2 = view s -> erase_pre p = erase_pre p1 -> runs s2 s' m p1 -> runs s s' m p.
Proof.
  intros Ev He [H1 H2 H3 H4 H5]. split; [done|done| | |].
  - destruct H3 as (p' & A & B & C & D & F). exists p'. split_and!; try done; try apply F.
    by rewrite (f_equal p_priority He : p_priority p = p_priority p1).
  - rewrite (f_equal p_misc_flags He : p_misc_flags p = p_misc_flags p1), (f_equal p_delivermsg He : p_delivermsg p = p_delivermsg p1),
      (f_equal p_endpoint He : p_endpoint p = p_endpoint p1), (f_equal p_delivermsg_vir He : p_delivermsg_vir p = p_delivermsg_vir p1). exact H4.
  - intros k Hk. rewrite <- Ev. by apply H5.
Qed.

Section Choice.
Context (call_vec : Z -> option handler) (kerninfo kaddr : Z) (fuel : nat) (s : kstate) (c : proc).
Context (Hok : ipc_ok s) (Hc : procs s !! proc_ptr s = Some c) (Hidle : idle_ok s).

Lemma idle_frame s1 : wframe s s1 -> rest s1 = rest s -> idle_ok s1.
Proof.
  intros Hf Hrest. destruct Hidle as (p & id & pv & Hp & Hid & Hpv & Hfr).
  destruct (kframe_lookup erase_pre s s1 _ p (wframe_k _ _ Hf) Hp) as (p1 & Hp1 & He). exists p1, id, pv.
  split; [done|]. split; [by rewrite <- (f_equal p_priv He : p_priv p = p_priv p1)|]. split; [by rewrite (rest_privs _ _ Hrest)|].
  by rewrite <- has_pre_slot_free, <- He, has_pre_slot_free.
Qed.

(** The current process gave up the processor. *)
Lemma pick_new_run :
  match best (requeued s (proc_ptr s) c) 16 0 with
  | None => exists s', not_runnable_pick_new call_vec kerninfo kaddr (S fuel) (proc_ptr s) s = Done None s'
      /\ ipc_ok s' /\ proc_ptr s' = idle_proc /\ forall m, ~ runnable s' m
  | Some m => forall p, procs s !! m = Some p -> calm p -> can_deliver s p -> can_renew s p ->
      exists s', not_runnable_pick_new call_vec kerninfo kaddr (S fuel) (proc_ptr s) s = Done (Some m) s' /\ runs s s' m p
        /\ (forall q, rdyq_ok q = true -> rq s' q = requeued s (proc_ptr s) c q)
        /\ forall k x, runnable s' k -> procs s' !! k = Some x -> p_priority p <= p_priority x
  end.
Proof.
  destruct (requeue_run s c Hok Hc) as (s1 & E1 & Hok1 & Hf & Hrest & Hq1).
  pose proof (pick_or_idle_run s1 Hok1 (idle_frame s1 Hf Hrest)) as Hpick.
  rewrite (first_ready_best s1 (requeued s (proc_ptr s) c) 16 0 Hq1) in Hpick by lia.
  cbn [not_runnable_pick_new]. destruct (best (requeued s (proc_ptr s) c) 16 0) as [m|].
  - destruct Hpick as (E2 & Hrun & Hbest). intros p Hp Hcalm Hd Ht.
    destruct (kframe_lookup erase_pre s s1 _ p (wframe_k _ _ Hf) Hp) as (p1 & Hp1 & He).
    destruct (chosen_same s s1 m p p1 Hf Hrest He) as (Hcalm1 & Hd1 & Ht1).
    destruct (choose_ok s1 m p1 Hok1 Hrun Hp1) as (Hok2 & Ep2 & _ & Hq2). set (s2 := set_proc_ptr m (billed s1 m)) in *.
    rewrite (bind_done _ _ _ _ _ E1), (bind_done _ _ _ _ _ E2).
    destruct (run_ok call_vec kerninfo kaddr (not_runnable_pick_new call_vec kerninfo kaddr fuel) s2 m p1) as (s' & E3 & Hruns & Hq3); try tauto.
    { unfold runnable. by rewrite Ep2. } { by rewrite Ep2. }
    exists s'. split; [exact E3|].
    assert (view s2 = view s) as Ev.
    { unfold view at 1. rewrite Ep2. symmetry. exact (wframe_view s s1 Hf (b_cur _ (wf_b _ (ok_wf _ Hok)))). }
    assert (forall q, rdyq_ok q = true -> rq s' q = requeued s (proc_ptr s) c q) as Hq by (intros q Hq; by rewrite Hq3, Hq2, Hq1).
    split; [by eapply runs_frame|]. split; [exact Hq|]. intros k x Hk Hx.
    pose proof (b_sched _ (wf_b _ (ok_wf _ (ru_ok _ _ _ _ Hruns)))) as Hwf'. pose proof (ws_prio _ Hwf' k x Hx Hk) as Hpx.
    assert (k ∈ rq s' (p_priority x)) as Hin by (apply wf_rq_mem; [done..|]; by rewrite Hx).
    rewrite Hq, <- Hq1 in Hin by done. apply (wf_rq_mem s1 _ k (b_sched _ (wf_b _ (ok_wf _ Hok1))) Hpx) in Hin as [Hk1 Hx1].
    destruct (procs s1 !! k) as [x1|] eqn:Hkx; [|done]. injection Hx1 as Ex.
    rewrite <- Ex, (f_equal p_priority He : p_priority p = p_priority p1). by eapply Hbest.
  - destruct Hpick as (Hno & s' & E2 & Hok' & Hcur & Ep). exists s'. rewrite (bind_done _ _ _ _ _ E1), (bind_done _ _ _ _ _ E2).
    split; [done|]. split; [done|]. split; [done|]. intros m. unfold runnable. rewrite Ep. exact (Hno m).
Qed.
End Choice.

Lemma cur_runnable s c : ipc_ok s -> procs s !! proc_ptr s = Some c -> p_rts_flags c = 0 -> runnable s (proc_ptr s).
Proof.
  intros Hok Hc Hr. pose proof (ws_slots _ (b_sched _ (wf_b _ (ok_wf _ Hok)))) as Hs.
  split; [|by exists c]. destruct (slot_dom _ Hs (proc_ptr s)) as [?|E]; [by eexists|done|].
  assert (proc_ptr s < 0) as Hn by (by rewrite E). pose proof (slot_task _ Hs _ _ Hc Hn) as Ht. by rewrite Hr in Ht.
Qed.

(** C8: [switch_to_user] resumes the right process.  A current process that
    can run goes on; otherwise it goes back to its queue when it was preempted
    (to the front if it has time left, else to the end), and the head of the
    best queue runs.  If what is pending for the chosen process is at most a
    message whose buffer is mapped, and its quantum is not used up or is one the
    kernel renews, it runs with the message in its memory and time left; no
    process that could run has a better priority; the other processes and the
    queues stay as they are, and the invariant of message passing is kept.  If
    nobody can run, the processor is idle. *)
Theorem switch_to_user_correct call_vec kerninfo kaddr fuel s c :
  ipc_ok s -> procs s !! proc_ptr s = Some c -> idle_ok s ->
  match next_up s c with
  | None => exists s', switch_to_user call_vec kerninfo kaddr (S fuel) s = Done None s'
      /\ ipc_ok s' /\ proc_ptr s' = idle_proc /\ forall m, ~ runnable s' m
  | Some m => forall p, procs s !! m = Some p -> calm p -> can_deliver s p -> can_renew s p ->
      exists s', switch_to_user call_vec kerninfo kaddr (S fuel) s = Done (Some m) s' /\ runs s s' m p
        /\ (forall q, rdyq_ok q = true -> rq s' q = requeued s (proc_ptr s) c q)
        /\ (proc_is_runnable c = true \/ forall k x, runnable s' k -> procs s' !! k = Some x -> p_priority p <= p_priority x)
  end.
Proof.
  intros Hok Hc Hidle. unfold next_up, switch_to_user. pose proof (pick_new_run call_vec kerninfo kaddr fuel s c Hok Hc Hidle) as H.
  assert (forall A (k : Z -> K A), bind (gets proc_ptr) k s = k (proc_ptr s) s) as Hg by done.
  destruct (proc_is_runnable c) eqn:Er.
  - intros p Hp Hcalm Hd Ht. rewrite Hc in Hp. injection Hp as <-. apply Z.eqb_eq in Er.
    assert (runnable s (proc_ptr s)) as Hrun by by eapply cur_runnable.
    rewrite Hg. erewrite bind_get_proc by done. unfold proc_is_runnable. rewrite Er. cbn [Z.eqb].
    destruct (run_ok call_vec kerninfo kaddr (not_runnable_pick_new call_vec kerninfo kaddr (S fuel)) s (proc_ptr s) c) as (s' & E & Hruns & Hq); try done.
    exists s'. split; [exact E|]. split; [done|]. split; [|by left]. intros q Hrq. rewrite Hq by done. unfold requeued, wakes. by rewrite Er.
  - rewrite Hg. erewrite bind_get_proc by done. rewrite Er. destruct (best _ 16 0) as [m|]; [|exact H].
    intros p Hp Hcalm Hd Ht. destruct (H p Hp Hcalm Hd Ht) as (s' & E & A & B & C). exists s'. split_and!; try done. by right.
Qed.

(** RS waits for a message while a user process runs; a notification for RS
    arrives, and RS takes the processor. *)
Definition switch_example : kstate :=
  let rs := set_p_getfrom_e ANY (set_p_delivermsg_vir 64 (set_p_quantum_size_ms 200 (live_proc RS_PROC_NR 7 RTS_RECEIVING 4))) in
  let user n := set_p_cpu_time_left 5000 (live_proc n 16 0 7) in
  run_state (mini_notify CLOCK RS_PROC_NR)
    (set_k_tsc_per_ms 1000 (set_umem {[ (RS_PROC_NR, 64) := msg0 ]}
      (example [rs; user 12; user 13] [live_priv RS_PROC_NR 7 SRV_F; live_priv 12 16 USR_F] 12))).

Lemma switch_to_user_correct_witness :
  next_up switch_example (slot switch_example 12) = Some RS_PROC_NR
  /\ exists s', switch_to_user (fun _ => None) 0 0 1 switch_example = Done (Some RS_PROC_NR) s'
    /\ user_msg s' RS_PROC_NR 64 = Some (p_delivermsg (slot switch_example RS_PROC_NR)) /\ rq s' 7 = [12; 13].
Proof.
  assert (next_up switch_example (slot switch_example 12) = Some RS_PROC_NR) as E by by_vm.
  split; [exact E|]. pose proof (switch_to_user_correct (fun _ => None) 0 0 0 switch_example (slot switch_example 12)) as H.
  rewrite E in H. assert (proc_ptr switch_example = 12) as Ec by by_vm.
  assert (idle_ok switch_example) as Hi.
  { exists (slot switch_example idle_proc), idle_priv, (pslot switch_example idle_priv).
    split; [by_slot|]. split; [by_vm|]. split; [by_pslot|by_vm]. }
  specialize (H ltac:(by_ok) ltac:(rewrite Ec; by_slot) Hi (slot switch_example RS_PROC_NR)).
  destruct H as (s' & Es & Hr & Hq & _); [by_slot|..].
  - split; [by_vm|]. split; by_vm.
  - intros _. split; [by vm_compute|]. exists msg0. by_vm.
  - intros _. split; [by vm_compute|]. exists 7, (pslot switch_example 7). split; [by_vm|]. split; [by_pslot|by_vm].
  - exists s'. split; [exact Es|]. split; [exact (ru_msg _ _ _ _ Hr ltac:(by_vm))|]. rewrite Hq; by_vm.
Defined.
