(* ===== verification/SchedSrv.v ===== *)
(** * The scheduling server and its clients

    Models [servers/sched] (SCHED: [schedule.c], [utility.c], the main loop of
    [main.c]), the library calls that reach it ([sched_start], [sched_inherit],
    [sched_boost], [sched_stop] of lib/libsys) and their use by the process
    manager ([servers/pm/schedule.c], [nice_to_priority]).  The state of SCHED
    is its table of processes together with the kernel it calls; for one
    processor.  A request of PM runs the main loop of SCHED once and takes the
    reply. *)

From S2P Require Import Prelude Monad Timers Endpoint AuditRing DrvQueue Chain Kernel Sched Init Ipc System Clock Vm Privctl Irq Boot AlarmLib.

Definition EBADEPT : Z := -216.
Definition EDEADEPT : Z := -215.
Definition EBADCPU : Z := -217.
Definition ENOSYS : Z := -78.
Definition SUSPEND : Z := -998.

Definition SCHEDULING_START : Z := 0xF02.
Definition SCHEDULING_STOP : Z := 0xF03.
Definition SCHEDULING_SET_NICE : Z := 0xF04.
Definition SCHEDULING_INHERIT : Z := 0xF05.
Definition SCHEDULING_BOOST : Z := 0xF0A.

(** ** State *)

Record schedproc := mkSp {
  sp_endpoint : Z;
  sp_parent : Z;
  sp_flags : Z;
  sp_max_priority : Z;
  sp_priority : Z;
  sp_time_slice : Z;
  sp_cpu : Z
}.
Definition eta_schedproc (r : schedproc) : schedproc :=
  mkSp (sp_endpoint r) (sp_parent r) (sp_flags r) (sp_max_priority r) (sp_priority r) (sp_time_slice r) (sp_cpu r).
Definition set_sp_endpoint : Z -> schedproc -> schedproc := ltac:(setter eta_schedproc sp_endpoint).
Definition set_sp_parent : Z -> schedproc -> schedproc := ltac:(setter eta_schedproc sp_parent).
Definition set_sp_flags : Z -> schedproc -> schedproc := ltac:(setter eta_schedproc sp_flags).
Definition set_sp_max_priority : Z -> schedproc -> schedproc := ltac:(setter eta_schedproc sp_max_priority).
Definition set_sp_priority : Z -> schedproc -> schedproc := ltac:(setter eta_schedproc sp_priority).
Definition set_sp_time_slice : Z -> schedproc -> schedproc := ltac:(setter eta_schedproc sp_time_slice).
Definition set_sp_cpu : Z -> schedproc -> schedproc := ltac:(setter eta_schedproc sp_cpu).

Definition IN_USE : Z := 0x00001.

(** [schedproc], [cpu_proc[0]], [balance_timeout], and the kernel. *)
Record sched := mkSched {
  sc_procs : gmap Z schedproc;
  sc_cpu_proc : Z;
  sc_timeout : Z;
  sc_kernel : kstate
}.
Definition eta_sched (r : sched) : sched := mkSched (sc_procs r) (sc_cpu_proc r) (sc_timeout r) (sc_kernel r).
Definition set_sc_procs : gmap Z schedproc -> sched -> sched := ltac:(setter eta_sched sc_procs).
Definition set_sc_cpu_proc : Z -> sched -> sched := ltac:(setter eta_sched sc_cpu_proc).
Definition set_sc_timeout : Z -> sched -> sched := ltac:(setter eta_sched sc_timeout).
Definition set_sc_kernel : kstate -> sched -> sched := ltac:(setter eta_sched sc_kernel).

#[export] Instance sched_client : KernelClient sched :=
  { kc_me _ := SCHED_PROC_NR; kc_kernel := sc_kernel; kc_put := set_sc_kernel }.

Definition get_sp (n : Z) : M sched schedproc := fun s =>
  match sc_procs s !! n with Some r => Done r s | None => Stop BadAccess end.
Definition upd_sp (n : Z) (f : schedproc -> schedproc) : M sched unit := fun s =>
  match sc_procs s !! n with
  | Some r => Done tt (set_sc_procs (<[n := f r]> (sc_procs s)) s)
  | None => Stop BadAccess
  end.

(** A message to SCHED: the fields of [mess_lsys_sched_scheduling_start], of
    which the other requests use the endpoint and the priority. *)
Record sched_msg := mkSm {
  sm_source : Z;
  sm_type : Z;
  sm_endpoint : Z;
  sm_parent : Z;
  sm_maxprio : Z;
  sm_quantum : Z
}.

(** ** utility.c *)

Definition no_sys (who_e call_nr : Z) : Z := ENOSYS.

(** Both answer the result and the slot. *)
Definition sched_isokendpt (endpoint : Z) : M sched (Z * Z) :=
  let proc := ENDPOINT_P endpoint in
  if proc <? 0 then ret (EBADEPT, proc)
  else if NR_PROCS <=? proc then ret (EINVAL, proc)
  else
    r <- get_sp proc ;;
    if negb (endpoint =? sp_endpoint r) then ret (EDEADEPT, proc)
    else if negb (has (sp_flags r) IN_USE) then ret (EDEADEPT, proc)
    else ret (OK, proc).

Definition sched_isemtyendpt (endpoint : Z) : M sched (Z * Z) :=
  let proc := ENDPOINT_P endpoint in
  if proc <? 0 then ret (EBADEPT, proc)
  else if NR_PROCS <=? proc then ret (EINVAL, proc)
  else
    r <- get_sp proc ;;
    if has (sp_flags r) IN_USE then ret (EDEADEPT, proc) else ret (OK, proc).

Definition accept_message (m : sched_msg) : bool :=
  (sm_source m =? PM_PROC_NR) || (sm_source m =? RS_PROC_NR).

(** ** Kernel calls *)

Section KernelCalls.
Context {S : Type} `{!KernelClient S}.

Definition sys_schedule (proc_ep priority quantum cpu : Z) (niced : bool) : M S Z :=
  kcall (fun me => do_schedule me proc_ep priority quantum cpu niced).
Definition sys_schedctl (flags proc_ep priority quantum cpu : Z) : M S Z :=
  kcall (fun me => do_schedctl me flags proc_ep priority quantum cpu).
End KernelCalls.

(** ** schedule.c *)

Definition BALANCE_TIMEOUT : Z := 5.
Definition SCHEDULE_CHANGE_PRIO : Z := 0x1.
Definition SCHEDULE_CHANGE_QUANTUM : Z := 0x2.
Definition SCHEDULE_CHANGE_CPU : Z := 0x4.
Definition SCHEDULE_CHANGE_ALL : Z :=
  Z.lor SCHEDULE_CHANGE_PRIO (Z.lor SCHEDULE_CHANGE_QUANTUM SCHEDULE_CHANGE_CPU).
Definition CPU_DEAD : Z := -1.
Definition DEFAULT_USER_TIME_SLICE : Z := 200.

Definition pick_cpu (n : Z) : M sched unit := upd_sp n (set_sp_cpu 0).

(** [n] is the slot of [rmp]. *)
Definition schedule_process (n flags : Z) : M sched Z :=
  pick_cpu n ;;
  r <- get_sp n ;;
  let new_prio := if has flags SCHEDULE_CHANGE_PRIO then i32 (sp_priority r) else -1 in
  let new_quantum := if has flags SCHEDULE_CHANGE_QUANTUM then i32 (sp_time_slice r) else -1 in
  let new_cpu := if has flags SCHEDULE_CHANGE_CPU then i32 (sp_cpu r) else -1 in
  let niced := USER_Q <? sp_max_priority r in
  sys_schedule (sp_endpoint r) new_prio new_quantum new_cpu niced.

Definition schedule_process_local (n : Z) : M sched Z :=
  schedule_process n (Z.lor SCHEDULE_CHANGE_PRIO SCHEDULE_CHANGE_QUANTUM).

Definition do_noquantum (m : sched_msg) : M sched Z :=
  x <- sched_isokendpt (sm_source m) ;;
  let '(rv, n) := x in
  if negb (rv =? OK) then ret EBADEPT
  else
    r <- get_sp n ;;
    (if sp_priority r <? MIN_USER_Q then upd_sp n (set_sp_priority (sp_priority r + 1)) else ret tt) ;;
    schedule_process_local n.

Definition do_stop_scheduling (m : sched_msg) : M sched Z :=
  if negb (accept_message m) then ret EPERM
  else
    x <- sched_isokendpt (sm_endpoint m) ;;
    let '(rv, n) := x in
    if negb (rv =? OK) then ret EBADEPT
    else upd_sp n (set_sp_flags 0) ;; ret OK.

(** The retries of [do_start_scheduling] while the kernel refuses the processor,
    which it never does with one processor. *)
Fixpoint schedule_retry (fuel : nat) (n : Z) : M sched Z :=
  match fuel with
  | O => halt NoFuel
  | S fuel' =>
      rv <- schedule_process n SCHEDULE_CHANGE_ALL ;;
      if rv =? EBADCPU then
        r <- get_sp n ;;
        (if sp_cpu r =? 0 then modify (set_sc_cpu_proc (u32 CPU_DEAD)) else halt BadAccess) ;;
        pick_cpu n ;;
        schedule_retry fuel' n
      else ret rv
  end.

(** The priority and time slice of a new process, by the type of the request. *)
Definition start_params (m : sched_msg) (n : Z) : M sched Z :=
  r <- get_sp n ;;
  (if sp_endpoint r =? sp_parent r
   then upd_sp n (fun r => set_sp_time_slice DEFAULT_USER_TIME_SLICE (set_sp_priority USER_Q r))
   else ret tt) ;;
  if sm_type m =? SCHEDULING_START then
    upd_sp n (fun r => set_sp_time_slice (u32 (sm_quantum m)) (set_sp_priority (sp_max_priority r) r)) ;;
    ret OK
  else if sm_type m =? SCHEDULING_INHERIT then
    x <- sched_isokendpt (sm_parent m) ;;
    let '(rv, parent) := x in
    if negb (rv =? OK) then ret rv
    else
      pr <- get_sp parent ;;
      upd_sp n (fun r => set_sp_time_slice (sp_time_slice pr) (set_sp_priority (sp_priority pr) r)) ;;
      ret OK
  else halt Panic.

(** SCHED becomes the scheduler of the process and gives it its quantum; the
    answer is the result and the scheduler stored in the message. *)
Definition take_over (n : Z) : M sched (Z * option Z) :=
  r <- get_sp n ;;
  rv <- sys_schedctl 0 (sp_endpoint r) 0 0 0 ;;
  if negb (rv =? OK) then ret (rv, None)
  else
    upd_sp n (set_sp_flags IN_USE) ;;
    pick_cpu n ;;
    rv <- schedule_retry 1 n ;;
    if negb (rv =? OK) then ret (rv, None) else ret (OK, Some SCHED_PROC_NR).

Definition do_start_scheduling (m : sched_msg) : M sched (Z * option Z) :=
  assert ((sm_type m =? SCHEDULING_START) || (sm_type m =? SCHEDULING_INHERIT)) ;;
  if negb (accept_message m) then ret (EPERM, None)
  else
    x <- sched_isemtyendpt (sm_endpoint m) ;;
    let '(rv, n) := x in
    if negb (rv =? OK) then ret (rv, None)
    else
      upd_sp n (fun r => set_sp_max_priority (u32 (sm_maxprio m))
        (set_sp_parent (sm_parent m) (set_sp_endpoint (sm_endpoint m) r))) ;;
      r <- get_sp n ;;
      if NR_SCHED_QUEUES <=? sp_max_priority r then ret (EINVAL, None)
      else
        rv <- start_params m n ;;
        if negb (rv =? OK) then ret (rv, None) else take_over n.

Definition do_boost (m : sched_msg) : M sched Z :=
  if negb (accept_message m) then ret EPERM
  else
    x <- sched_isokendpt (sm_endpoint m) ;;
    let '(rv, n) := x in
    if negb (rv =? OK) then ret EBADEPT
    else
      upd_sp n (fun r => set_sp_time_slice (u32 (sm_quantum m))
        (set_sp_priority (u32 (sm_maxprio m)) (set_sp_max_priority (u32 (sm_maxprio m)) r))) ;;
      schedule_process_local n.

Definition do_nice (m : sched_msg) : M sched Z :=
  if negb (accept_message m) then ret EPERM
  else
    x <- sched_isokendpt (sm_endpoint m) ;;
    let '(rv, n) := x in
    if negb (rv =? OK) then ret EBADEPT
    else
      let new_q := u32 (sm_maxprio m) in
      if NR_SCHED_QUEUES <=? new_q then ret EINVAL
      else
        r <- get_sp n ;;
        let old_q := sp_priority r in
        let old_max_q := sp_max_priority r in
        upd_sp n (fun r => set_sp_max_priority new_q (set_sp_priority new_q r)) ;;
        rv <- schedule_process_local n ;;
        (if negb (rv =? OK)
         then upd_sp n (fun r => set_sp_max_priority old_max_q (set_sp_priority old_q r)) else ret tt) ;;
        ret rv.

(** The end of [init_scheduling] and [balance_queues]. *)
Definition set_balance_alarm : M sched unit :=
  t <- gets sc_timeout ;;
  r <- sys_setalarm t false ;;
  if negb (r =? OK) then halt Panic else ret tt.

(** [hz] is the answer of [sys_hz]. *)
Definition init_scheduling (hz : Z) : M sched unit :=
  modify (set_sc_timeout (u32 (BALANCE_TIMEOUT * hz))) ;;
  set_balance_alarm.

Definition balance_one (n : Z) : M sched unit :=
  r <- get_sp n ;;
  if has (sp_flags r) IN_USE then
    if sp_max_priority r <? sp_priority r then
      upd_sp n (set_sp_priority (sp_priority r - 1)) ;;
      schedule_process_local n ;; ret tt
    else ret tt
  else ret tt.

Definition sched_slots : list Z := map Z.of_nat (seq 0 (Z.to_nat NR_PROCS)).

Definition balance_queues : M sched unit :=
  for_each sched_slots balance_one ;;
  set_balance_alarm.

(** ** main.c *)

Definition IPC_STATUS_CALL (status : Z) : Z := Z.land (Z.shiftr status 0) 0x3F.
Definition IPC_STATUS_FLAGS_TEST (status flgs : Z) : bool := has (Z.shiftr status 16) flgs.
Definition is_ipc_notify (status : Z) : bool := IPC_STATUS_CALL status =? NOTIFY.

(** One request: the result and the scheduler of the reply, if there is one.
    The reply goes to [sm_source]. *)
Definition main_step (m : sched_msg) (ipc_status : Z) : M sched (option (Z * option Z)) :=
  let who_e := sm_source m in
  let call_nr := sm_type m in
  let reply (x : Z * option Z) := if fst x =? SUSPEND then None else Some x in
  if is_ipc_notify ipc_status then
    (if who_e =? CLOCK then balance_queues else ret tt) ;; ret None
  else if (call_nr =? SCHEDULING_INHERIT) || (call_nr =? SCHEDULING_START) then
    x <- do_start_scheduling m ;; ret (reply x)
  else if call_nr =? SCHEDULING_STOP then r <- do_stop_scheduling m ;; ret (reply (r, None))
  else if call_nr =? SCHEDULING_SET_NICE then r <- do_nice m ;; ret (reply (r, None))
  else if call_nr =? SCHEDULING_BOOST then r <- do_boost m ;; ret (reply (r, None))
  else if call_nr =? SCHEDULING_NO_QUANTUM then
    if IPC_STATUS_FLAGS_TEST ipc_status IPC_FLG_MSG_FROM_KERNEL
    then do_noquantum m ;; ret None
    else ret (reply (EPERM, None))
  else ret (reply (no_sys who_e call_nr, None)).

(** ** The library of clients *)

(** [taskcall who m] sends the request and waits for the reply: its type, and its
    first field, where a scheduler stores the endpoint of the new scheduler. *)
Section Clients.
Context {S : Type} `{!KernelClient S} (taskcall : Z -> sched_msg -> M S (Z * Z)).

(** The answers are the result and the value stored in [newscheduler_e]. *)
Definition sched_inherit (scheduler_e schedulee_e parent_e maxprio : Z) : M S (Z * option Z) :=
  assert (0 <=? ENDPOINT_P scheduler_e) ;;
  assert (0 <=? ENDPOINT_P schedulee_e) ;;
  assert (0 <=? ENDPOINT_P parent_e) ;;
  assert (maxprio <? NR_SCHED_QUEUES) ;;
  x <- taskcall scheduler_e (mkSm 0 SCHEDULING_INHERIT schedulee_e parent_e (i32 maxprio) 0) ;;
  let '(rv, scheduler) := x in
  if negb (rv =? 0) then ret (rv, None) else ret (OK, Some scheduler).

Definition sched_start (scheduler_e schedulee_e parent_e maxprio quantum cpu : Z) : M S (Z * option Z) :=
  if scheduler_e =? NONE then ret (OK, None)
  else
    assert (0 <=? ENDPOINT_P schedulee_e) ;;
    assert (0 <=? ENDPOINT_P parent_e) ;;
    assert (0 <=? maxprio) ;;
    assert (maxprio <? NR_SCHED_QUEUES) ;;
    assert (0 <? quantum) ;;
    if scheduler_e =? KERNEL then
      rv <- sys_schedctl SCHEDCTL_FLAG_KERNEL schedulee_e maxprio quantum cpu ;;
      if negb (rv =? OK) then ret (rv, None) else ret (OK, Some scheduler_e)
    else
      x <- taskcall scheduler_e (mkSm 0 SCHEDULING_START schedulee_e parent_e maxprio quantum) ;;
      let '(rv, scheduler) := x in
      if negb (rv =? 0) then ret (rv, None) else ret (OK, Some scheduler).

Definition sched_boost (scheduler_e schedulee_e maxprio quantum : Z) : M S Z :=
  if scheduler_e =? NONE then ret OK
  else
    assert (0 <=? ENDPOINT_P schedulee_e) ;;
    assert (0 <=? maxprio) ;;
    assert (0 <? quantum) ;;
    if scheduler_e =? KERNEL then sys_schedctl SCHEDCTL_FLAG_KERNEL schedulee_e maxprio quantum 0
    else
      x <- taskcall scheduler_e (mkSm 0 SCHEDULING_BOOST schedulee_e schedulee_e maxprio quantum) ;;
      ret (fst x).

Definition sched_stop (scheduler_e schedulee_e : Z) : M S Z :=
  if (scheduler_e =? KERNEL) || (scheduler_e =? NONE) then ret OK
  else
    assert (0 <=? ENDPOINT_P scheduler_e) ;;
    assert (0 <=? ENDPOINT_P schedulee_e) ;;
    x <- taskcall scheduler_e (mkSm 0 SCHEDULING_STOP schedulee_e 0 0 0) ;;
    ret (fst x).
End Clients.

(** ** The process manager *)

Record mproc := mkMp {
  mp_endpoint : Z;
  mp_parent : Z;
  mp_flags : Z;
  mp_nice : Z;
  mp_scheduler : Z
}.
Definition eta_mproc (r : mproc) : mproc :=
  mkMp (mp_endpoint r) (mp_parent r) (mp_flags r) (mp_nice r) (mp_scheduler r).
Definition set_mp_scheduler : Z -> mproc -> mproc := ltac:(setter eta_mproc mp_scheduler).

(** The table of PM, and SCHED with the kernel. *)
Record pm := mkPm {
  pm_mproc : gmap Z mproc;
  pm_sched : sched
}.
Definition eta_pm (r : pm) : pm := mkPm (pm_mproc r) (pm_sched r).
Definition set_pm_mproc : gmap Z mproc -> pm -> pm := ltac:(setter eta_pm pm_mproc).
Definition set_pm_sched : sched -> pm -> pm := ltac:(setter eta_pm pm_sched).

#[export] Instance pm_client : KernelClient pm :=
  { kc_me _ := PM_PROC_NR;
    kc_kernel s := sc_kernel (pm_sched s);
    kc_put k s := set_pm_sched (set_sc_kernel k (pm_sched s)) s }.

Definition get_mp (n : Z) : M pm mproc := fun s =>
  match pm_mproc s !! n with Some r => Done r s | None => Stop BadAccess end.
Definition upd_mp (n : Z) (f : mproc -> mproc) : M pm unit := fun s =>
  match pm_mproc s !! n with
  | Some r => Done tt (set_pm_mproc (<[n := f r]> (pm_mproc s)) s)
  | None => Stop BadAccess
  end.

Definition PRIO_MIN : Z := -20.
Definition PRIO_MAX : Z := 20.
Definition PRIV_PROC : Z := 0x02000.

(** The result and [new_q]. *)
Definition nice_to_priority (nice : Z) : Z * option Z :=
  if (nice <? PRIO_MIN) || (PRIO_MAX <? nice) then (EINVAL, None)
  else
    let q := u32 (MAX_USER_Q + Z.quot ((nice - PRIO_MIN) * (MIN_USER_Q - MAX_USER_Q + 1)) (PRIO_MAX - PRIO_MIN + 1)) in
    let q := if i32 q <? MAX_USER_Q then MAX_USER_Q else q in
    (OK, Some (if MIN_USER_Q <? q then MIN_USER_Q else q)).

(** [_taskcall] of PM: SCHED handles the request and replies; [other] is what
    any other process answers. *)
Section Pm.
Context (other : Z -> sched_msg -> Z * Z).

Definition pm_taskcall (who : Z) (m : sched_msg) : M pm (Z * Z) := fun s =>
  if who =? SCHED_PROC_NR then
    match main_step (mkSm PM_PROC_NR (sm_type m) (sm_endpoint m) (sm_parent m) (sm_maxprio m) (sm_quantum m))
            (IPC_STATUS_CALL_TO SENDREC) (pm_sched s) with
    | Done (Some (rv, sch)) s' => Done (rv, default (sm_endpoint m) sch) (set_pm_sched s' s)
    | Done None _ => Stop NoFuel
    | Stop w => Stop w
    end
  else Done (other who m) s.

Definition sched_init_one (n : Z) : M pm unit :=
  r <- get_mp n ;;
  if has (mp_flags r) IN_USE && negb (has (mp_flags r) PRIV_PROC) then
    assert (ENDPOINT_P (mp_endpoint r) =? INIT_PROC_NR) ;;
    pr <- get_mp (mp_parent r) ;;
    assert (mp_endpoint pr =? mp_endpoint r) ;;
    x <- sched_start pm_taskcall SCHED_PROC_NR (mp_endpoint r) (mp_endpoint pr) USER_Q USER_QUANTUM (-1) ;;
    match snd x with
    | Some e => upd_mp n (set_mp_scheduler e)
    | None => ret tt
    end
  else ret tt.
Definition sched_init : M pm unit := for_each sched_slots sched_init_one.

(** [ep] schedules the process of slot [n]. *)
Definition sched_start_user (ep n : Z) : M pm Z :=
  r <- get_mp n ;;
  match nice_to_priority (mp_nice r) with
  | (rv, None) => ret rv
  | (_, Some maxprio) =>
      pr <- get_mp (mp_parent r) ;;
      inherit_from <- (if has (mp_flags pr) PRIV_PROC
                       then assert (mp_scheduler pr =? NONE) ;; ret INIT_PROC_NR
                       else ret (mp_endpoint pr)) ;;
      x <- sched_inherit pm_taskcall ep (mp_endpoint r) inherit_from maxprio ;;
      (match snd x with
       | Some e => upd_mp n (set_mp_scheduler e)
       | None => ret tt
       end) ;;
      ret (fst x)
  end.

Definition sched_nice (n nice : Z) : M pm Z :=
  r <- get_mp n ;;
  if (mp_scheduler r =? KERNEL) || (mp_scheduler r =? NONE) then ret EINVAL
  else
    match nice_to_priority nice with
    | (rv, None) => ret rv
    | (_, Some maxprio) =>
        x <- pm_taskcall (mp_scheduler r) (mkSm 0 SCHEDULING_SET_NICE (mp_endpoint r) 0 maxprio 0) ;;
        ret (fst x)
    end.
End Pm.
