(* ===== verification/SchedSrvProps.v ===== *)
(** * The scheduling server keeps the system going

    What a kernel call of SCHED does to the kernel ([do_schedule] with the
    invariants of message passing and the clock), that SCHED handles every
    message, that a process whose quantum ended runs again, and that lowered
    priorities come back. *)

From S2P Require Import Prelude Monad Timers TimerProps Endpoint AuditRing DrvQueue Chain Kernel Sched RunQueue Init SchedProps Ipc IpcInv Deadlock IpcStep Notify IpcSend System Clock Vm ClockProps Privctl Irq Boot AlarmLib SchedSrv.

(** ** Rescheduling a process in the kernel *)

Definition put_proc (s : kstate) (n : Z) (p : proc) : kstate := set_procs (<[n := p]> (procs s)) s.

Lemma kframe_put er s s' n p p' :
  kframe er s s' -> er p = er p' -> kframe er (put_proc s n p) (put_proc s' n p').
Proof.
  intros H He. unfold kframe, erase_k, put_proc. cbn. rewrite !fmap_insert, He, (kframe_procs _ _ _ H).
  exact (f_equal (set_procs (<[n := er p']> (er <$> procs s'))) H).
Qed.

Lemma wframe_sframe s1 s2 s3 : sframe s1 s2 -> wframe s2 s3 -> wframe s1 s3.
Proof. intros H1 H2. etrans; [by apply sframe_wframe|done]. Qed.

(** A change of a process that leaves its queue alone keeps the scheduler's
    invariants, whatever its new priority. *)
Lemma put_base s n p p' :
  base s -> procs s !! n = Some p -> sched_same p p' -> rdyq_ok (p_priority p') = true -> base (put_proc s n p').
Proof.
  intros [Hw Hc Hpr] Hp Hs Hq. split.
  - by eapply upd_wf; [|apply sched_same_kept|apply ss_priv|].
  - destruct Hc as (c & Hc & Hf). unfold cur_live, put_proc. cbn.
    destruct (Z.eq_dec (proc_ptr s) n) as [E|Hne].
    + rewrite E, lookup_insert_eq. eexists. split; [done|]. rewrite E, Hp in Hc. injection Hc as <-. by rewrite (ss_rts _ _ Hs).
    + rewrite lookup_insert_ne by done. eauto.
  - intros m q. unfold put_proc. cbn. destruct (Z.eq_dec m n) as [->|Hne].
    + rewrite lookup_insert_eq. by intros [= <-].
    + rewrite lookup_insert_ne by done. apply Hpr.
Qed.

(** Taking a runnable process off its queue. *)
Lemma unqueue_frame s n p :
  base s -> procs s !! n = Some p ->
  exists s1 p1 v, (if proc_is_runnable p then RTS_SET n RTS_NO_QUANTUM else ret tt) s = Done tt s1
    /\ base s1 /\ sframe (put_proc s n (set_p_rts_flags v p)) s1 /\ procs s1 !! n = Some p1
    /\ erase (set_p_rts_flags v p) = erase p1 /\ p_rts_flags p1 = v /\ v <> 0
    /\ flag_clr v RTS_NO_QUANTUM = flag_clr (p_rts_flags p) RTS_NO_QUANTUM.
Proof.
  intros Hb Hp. unfold proc_is_runnable. destruct (Z.eqb_spec (p_rts_flags p) 0) as [E|E].
  - destruct (RTS_SET_view s n p RTS_NO_QUANTUM Hb Hp eq_refl) as (s1 & Hs & Hb1 & _).
    destruct (RTS_SET_spec s n p RTS_NO_QUANTUM _ (b_sched _ Hb) (wf_queued s (b_sched _ Hb)) Hp) as (s1' & Hs' & Hf & _).
    rewrite Hs in Hs'. injection Hs' as <-.
    destruct (kframe_lookup erase _ _ n _ Hf (with_rts_self _ _ _ _)) as (p1 & Hp1 & He).
    exists s1, p1, (flag_set (p_rts_flags p) RTS_NO_QUANTUM). split; [done|]. split; [done|]. split; [done|].
    split; [done|]. split; [done|]. split; [exact (eq_sym (f_equal p_rts_flags He))|]. by rewrite E.
  - exists s, p, (p_rts_flags p). split; [done|]. split; [done|]. split; [|by destruct p].
    symmetry. eapply kframe_set_procs; [done|by destruct p].
Qed.

Lemma sched_updates s n p priority quantum (niced : bool) {A} (k : unit -> K A) :
  procs s !! n = Some p ->
  ((if negb (priority =? -1) then upd_proc n (set_p_priority priority) else ret tt) ;;
   (if negb (quantum =? -1) then
      t <- ms_2_cpu_time quantum ;;
      upd_proc n (fun p => set_p_cpu_time_left t (set_p_quantum_size_ms quantum p))
    else ret tt) ;;
   u <- upd_proc n (fun p => set_p_misc_flags
     (if niced then flag_set (p_misc_flags p) MF_NICED else flag_clr (p_misc_flags p) MF_NICED) p) ;; k u) s
  = k tt (put_proc s n (sched_params p priority quantum (u64 (k_tsc_per_ms s * quantum)) niced)).
Proof.
  intros Hp. unfold sched_params, put_proc, ms_2_cpu_time.
  destruct (negb (priority =? -1)), (negb (quantum =? -1));
    repeat first [rewrite bind_ret | rewrite bind_assoc | erewrite bind_upd_proc by (cbn; by rewrite ?lookup_insert_eq)
                 | erewrite bind_done by done];
    cbn; by rewrite ?insert_insert_eq.
Qed.

(** The process after [sched_proc]. *)
Definition resched (k : kstate) (p : proc) (priority quantum : Z) (niced : bool) : proc :=
  set_p_rts_flags (flag_clr (p_rts_flags p) RTS_NO_QUANTUM)
    (sched_params p priority quantum (u64 (k_tsc_per_ms k * quantum)) niced).

Lemma sched_params_same p priority quantum t niced :
  p_rts_flags p <> 0 -> sched_same p (sched_params p priority quantum t niced).
Proof. intros Hr. unfold sched_params. destruct (negb (priority =? -1)), (negb (quantum =? -1)); by split. Qed.

Lemma resched_erase v p p1 priority quantum t niced :
  erase (set_p_rts_flags v p) = erase p1 -> flag_clr v RTS_NO_QUANTUM = flag_clr (p_rts_flags p) RTS_NO_QUANTUM ->
  erase (set_p_rts_flags (flag_clr (p_rts_flags p) RTS_NO_QUANTUM) (sched_params p priority quantum t niced))
  = erase (set_p_rts_flags (flag_clr (p_rts_flags p1) RTS_NO_QUANTUM) (sched_params p1 priority quantum t niced)).
Proof.
  intros He Hv. pose proof (f_equal p_rts_flags He : v = p_rts_flags p1) as <-. rewrite Hv.
  pose (f p := set_p_rts_flags (flag_clr v RTS_NO_QUANTUM) (sched_params p priority quantum t niced)).
  assert (forall x p, erase (set_p_rts_flags (flag_clr v RTS_NO_QUANTUM) (sched_params p priority quantum t niced))
    = f (erase (set_p_rts_flags x p))) as H.
  { intros x q. unfold f, sched_params. by destruct (negb (priority =? -1)), (negb (quantum =? -1)). }
  rewrite <- Hv, (H v p), He, (H (p_rts_flags p1) p1). by f_equal.
Qed.

Lemma put_put s n p p' : put_proc (put_proc s n p) n p' = put_proc s n p'.
Proof. unfold put_proc. cbn. by rewrite insert_insert_eq. Qed.
Lemma put_self s n p : procs (put_proc s n p) !! n = Some p.
Proof. apply lookup_insert_eq. Qed.
Lemma put_other s n p m : m <> n -> procs (put_proc s n p) !! m = procs s !! m.
Proof. intros. by apply lookup_insert_ne. Qed.

(** Whether [sched_proc] accepts the values; it also accepts one priority too
    many, which is left out here. *)
Definition params_ok (priority quantum : Z) : bool :=
  (-1 <=? priority) && (priority <? NR_SCHED_QUEUES) && ((quantum =? -1) || (1 <=? quantum)).

(** [sched_proc] changes the process as [resched] says, and may preempt the
    running one. *)
Lemma sched_proc_frame s n p priority quantum cpu niced :
  base s -> procs s !! n = Some p -> params_ok priority quantum = true ->
  exists s', sched_proc n priority quantum cpu niced s = Done OK s' /\ base s'
    /\ wframe (put_proc s n (resched s p priority quantum niced)) s'
    /\ (runnable s' n <-> isokprocn n = true /\ flag_clr (p_rts_flags p) RTS_NO_QUANTUM = 0).
Proof.
  intros Hb Hp Hok. unfold params_ok in Hok. rewrite !andb_true_iff, orb_true_iff in Hok.
  destruct Hok as [[H1%Z.leb_le H2%Z.ltb_lt] Hq]. unfold NR_SCHED_QUEUES in H2. unfold sched_proc, TASK_Q, NR_SCHED_QUEUES.
  replace ((_ && _) || _) with false
    by (destruct (Z.ltb_spec priority 0), (Z.eqb_spec priority (-1)), (Z.ltb_spec 16 priority); cbn; lia || done).
  replace ((quantum <? 1) && negb (quantum =? -1)) with false
    by (destruct Hq as [->|?%Z.leb_le]; [by rewrite andb_false_r|destruct (Z.ltb_spec quantum 1); [lia|done]]).
  erewrite bind_get_proc by done.
  destruct (unqueue_frame s n p Hb Hp) as (s1 & p1 & v & E1 & Hb1 & Hf1 & Hp1 & He & Hv & Hv0 & Hc).
  rewrite (bind_done _ _ _ _ _ E1). erewrite bind_get_proc by done. unfold proc_is_runnable at 1.
  rewrite Hv, (proj2 (Z.eqb_neq _ _) Hv0), bind_ret. rewrite (sched_updates s1 n p1 priority quantum niced) by done.
  pose proof (kframe_state erase k_tsc_per_ms _ _ (fun _ => eq_refl) Hf1 : k_tsc_per_ms s = k_tsc_per_ms s1) as Et. rewrite <- Et.
  set (t := u64 (k_tsc_per_ms s * quantum)). set (p2 := sched_params p1 priority quantum t niced).
  destruct (sched_params_fields p1 priority quantum t niced) as [Er2 Epr2]. fold p2 in Er2, Epr2.
  assert (base (put_proc s1 n p2)) as Hb2.
  { eapply put_base; [done..|apply sched_params_same; by rewrite Hv|]. fold p2. rewrite Epr2.
    destruct (Z.eqb_spec priority (-1)); [by eapply (b_prio _ Hb1)|]. apply rdyq_ok_spec. lia. }
  destruct (RTS_UNSET_view _ n p2 RTS_NO_QUANTUM Hb2 (put_self _ _ _) eq_refl) as (s' & E & Hb' & _).
  destruct (RTS_UNSET_spec _ n p2 RTS_NO_QUANTUM _ (b_sched _ Hb2) (wf_queued _ (b_sched _ Hb2)) (put_self _ _ _))
    as (s'' & E' & Hf & _ & Hrun); [done|intros _; by eapply (b_prio _ Hb2), put_self|].
  rewrite E in E'. injection E' as <-. exists s'. erewrite bind_done by exact E. split; [done|]. split; [done|]. split.
  - refine (wframe_sframe _ _ _ _ Hf). change (with_rts ?s n p2 ?x) with (put_proc s n (set_p_rts_flags x p2)). rewrite put_put.
    rewrite <- (put_put s n (set_p_rts_flags v p)). apply kframe_put; [done|]. rewrite Er2. by apply (resched_erase v).
  - rewrite Hrun, with_rts_runnable by apply put_self. by rewrite decide_True, Er2, Hv, Hc by done.
Qed.

(** ** Rescheduling keeps the invariants of message passing and the clock *)

#[export] Instance bit_niced : SingleBit MF_NICED. Proof. flag_instance 20. Defined.
#[export] Instance bit_virt_timer : SingleBit MF_VIRT_TIMER. Proof. flag_instance 1. Defined.
#[export] Instance bit_prof_timer : SingleBit MF_PROF_TIMER. Proof. flag_instance 2. Defined.

(** The flags word of a process, with or without [MF_NICED]. *)
Definition nice_flag (niced : bool) (x : Z) : Z := if niced then flag_set x MF_NICED else flag_clr x MF_NICED.

Lemma has_nice_flag niced x f `{!SingleBit f} : f <> MF_NICED -> has (nice_flag niced x) f = has x f.
Proof.
  intros Hf%not_eq_sym%Z.eqb_neq. unfold nice_flag.
  destruct niced; rewrite ?(has_flag_set MF_NICED f), ?(has_flag_clr MF_NICED f), Hf; [by rewrite orb_false_r|by rewrite andb_true_r].
Qed.

(** Only [MF_NICED] of what the message passing sees changes. *)
Lemma ipc_of_resched k p priority quantum niced :
  has (p_rts_flags p) RTS_SLOT_FREE = false ->
  ipc_of (resched k p priority quantum niced) = set_v_misc (nice_flag niced (p_misc_flags p)) (ipc_of p).
Proof.
  intros Hs. assert (forall f `{!SingleBit f}, f <> RTS_NO_QUANTUM ->
    has (flag_clr (p_rts_flags p) RTS_NO_QUANTUM) f = has (p_rts_flags p) f) as Hf.
  { intros f ? Hne%not_eq_sym%Z.eqb_neq. by rewrite (has_flag_clr RTS_NO_QUANTUM f), Hne, andb_true_r. }
  assert (isemptyp (resched k p priority quantum niced) = isemptyp p) as Hi.
  { rewrite !isemptyp_fbit; [done|done|]. unfold resched. cbn. by rewrite (Hf RTS_SLOT_FREE _). }
  unfold ipc_of. rewrite Hi. unfold resched, sched_params, set_v_misc. cbn.
  rewrite (Hf RTS_SENDING _), (Hf RTS_RECEIVING _), (Hf RTS_NO_ENDPOINT _), (Hf RTS_SLOT_FREE _), (Hf RTS_VMREQUEST _) by done.
  by destruct (negb (priority =? -1)), (negb (quantum =? -1)), niced.
Qed.

Lemma charged_misc V n v x m :
  V !! n = Some v -> (has x MF_VIRT_TIMER = has (v_misc v) MF_VIRT_TIMER) ->
  (has x MF_PROF_TIMER = has (v_misc v) MF_PROF_TIMER) ->
  charged V m -> charged (<[n := set_v_misc x v]> V) m.
Proof.
  intros Hv H1 H2 Hc. destruct (decide (m = n)) as [->|Hne].
  - destruct Hc as [(w & Hw & Hr & Ha & Hb)|[[w (Hn & Hw & He)] H0]]; rewrite Hv in Hw; injection Hw as <-.
    + left. eexists. rewrite lookup_insert_eq. split; [done|]. cbn. by rewrite H1, H2.
    + right. split; [|done]. eexists. split; [done|]. by rewrite lookup_insert_eq.
  - destruct Hc as [(w & Hw & Hr)|[[w (Hn & Hw & He)] H0]].
    + left. exists w. by rewrite lookup_insert_ne.
    + right. split; [|done]. exists w. split; [done|]. by rewrite lookup_insert_ne.
Qed.

(** What message passing sees afterwards. *)
Lemma resched_view k l n p k' priority quantum niced :
  clock_ok k l -> procs k !! n = Some p -> live (view k) n (ipc_of p) -> base k' ->
  wframe (put_proc k n (resched k p priority quantum niced)) k' ->
  view k' = <[n := set_v_misc (nice_flag niced (p_misc_flags p)) (ipc_of p)]> (view k).
Proof.
  intros Hck Hp Hlv Hb' Hf. destruct (c_ep _ _ (wf_c _ (ok_wf _ (ck_ipc _ _ Hck))) n _ Hlv) as (_ & Hfb & _).
  rewrite (wframe_view k' (put_proc k n (resched k p priority quantum niced))); [|by symmetry|apply Hb'].
  rewrite <- (ipc_of_resched k p priority quantum niced) by done. unfold view, put_proc. cbn. by rewrite fmap_insert.
Qed.

Lemma resched_clock k l n p k' priority quantum niced :
  clock_ok k l -> procs k !! n = Some p -> live (view k) n (ipc_of p) -> base k' ->
  wframe (put_proc k n (resched k p priority quantum niced)) k' -> clock_ok k' l.
Proof.
  intros Hck Hp Hlv Hb' Hf. pose proof (resched_view _ _ _ _ _ _ _ _ Hck Hp Hlv Hb' Hf) as EV.
  destruct Hck as [[[Hb Hc Hl] Hnf Hm] Ha Hq Hcur Hbill]. pose proof (view_lookup _ _ _ Hp) as Hv.
  assert (rest k = rest k') as ER by (rewrite <- (kframe_rest _ _ _ (wframe_k _ _ Hf)); done).
  assert (relax (view k) (view k')) as HR.
  { rewrite EV. eapply relax_insert; [done|]. split; try done. by left. }
  pose proof (rest_privs _ _ ER) as EP. pose proof (rest_proc_ptr _ _ ER) as Eptr.
  split; [split|..].
  - split; [done| |by eapply links_relax]. rewrite <- EP. eapply core_relax; [done| |done].
    rewrite EV. intros m v (Hn & Hvm & He) Hrv. destruct (decide (m = n)) as [->|Hne].
    + rewrite lookup_insert_eq in Hvm. injection Hvm as <-. cbn. rewrite (has_nice_flag niced _ MF_DELIVERMSG) by done.
      by apply (c_dlv _ _ Hc n (ipc_of p)).
    + rewrite lookup_insert_ne in Hvm by done. by apply (c_dlv _ _ Hc m v).
  - by rewrite <- EP.
  - rewrite <- EP. eapply mgr_relax; [by apply relax_idents|apply prelax_refl|done].
  - by rewrite <- (rest_field k_timers _ _ (fun _ => eq_refl) ER).
  - by rewrite <- (rest_field k_timers _ _ (fun _ => eq_refl) ER), <- (rest_field k_monotonic _ _ (fun _ => eq_refl) ER).
  - rewrite <- Eptr, EV. apply charged_misc; [done|by apply (has_nice_flag _ _ _)..|done].
  - rewrite <- (rest_field bill_ptr _ _ (fun _ => eq_refl) ER), EV. apply charged_misc; [done|by apply (has_nice_flag _ _ _)..|done].
Qed.

(** Process [n] with endpoint [e] is alive and scheduled by [sch]. *)
Record schedulee (k : kstate) (sch n e : Z) (p : proc) : Prop := {
  se_proc : procs k !! n = Some p;
  se_live : live (view k) n (ipc_of p);
  se_ep : p_endpoint p = e;
  se_sched : p_scheduler p = Some sch
}.

(** What a successful [do_schedule] does to the kernel. *)
Record scheduled (k k' : kstate) (n : Z) (p : proc) (priority quantum : Z) (niced : bool) : Prop := {
  sd_frame : wframe (put_proc k n (resched k p priority quantum niced)) k';
  sd_run : runnable k' n <-> flag_clr (p_rts_flags p) RTS_NO_QUANTUM = 0
}.

Lemma do_schedule_ok k l sch n e p priority quantum cpu niced :
  clock_ok k l -> schedulee k sch n e p -> params_ok priority quantum = true ->
  exists k', do_schedule sch e priority quantum cpu niced k = Done OK k' /\ clock_ok k' l
    /\ scheduled k k' n p priority quantum niced.
Proof.
  intros Hck [Hp Hl <- Hs] Hok. pose proof (wf_b _ (ok_wf _ (ck_ipc _ _ Hck))) as Hb.
  pose proof (wf_c _ (ok_wf _ (ck_ipc _ _ Hck))) as Hc.
  destruct (sched_proc_frame k n p priority quantum cpu niced Hb Hp Hok) as (k' & E & Hb' & Hf & Hr).
  exists k'. split; [|split; [by eapply resched_clock|split; [done|]]].
  - unfold do_schedule. destruct Hl as (Hn & Hv & He).
    rewrite (bind_done _ _ _ _ _ (isokendpt_valid k n p Hp Hn (proj1 (c_ep _ _ Hc n _ (conj Hn (conj Hv He)))) He)).
    erewrite bind_get_proc by done. by rewrite bool_decide_true.
  - rewrite Hr. destruct Hl as (Hn & _). tauto.
Qed.

Definition sched_refused (r : Z) : Prop := r = EINVAL \/ r = EPERM.

(** Any call: it does that, or nothing. *)
Lemma do_schedule_any k l sch e priority quantum cpu niced :
  clock_ok k l -> priority <> NR_SCHED_QUEUES ->
  exists r k', do_schedule sch e priority quantum cpu niced k = Done r k' /\ clock_ok k' l
    /\ ((r = OK /\ exists n p, schedulee k sch n e p /\ scheduled k k' n p priority quantum niced)
        \/ (sched_refused r /\ k' = k)).
Proof.
  intros Hck Hpr. pose proof (wf_b _ (ok_wf _ (ck_ipc _ _ Hck))) as Hb.
  destruct (isokendpt_total k Hb e) as [[n|] E]; unfold do_schedule; rewrite (bind_done _ _ _ _ _ E).
  2:{ exists EINVAL, k. split; [done|]. split; [done|]. right. split; [by left|done]. }
  destruct (isokendpt_live _ _ _ E) as (v & Hl & He). destruct (view_lookup_inv _ _ _ (proj1 (proj2 Hl))) as (p & Hp & <-).
  erewrite bind_get_proc by done. case_bool_decide as Hs.
  2:{ exists EPERM, k. split; [done|]. split; [done|]. right. split; [by right|done]. }
  destruct (params_ok priority quantum) eqn:Hok.
  - destruct (sched_proc_frame k n p priority quantum cpu niced Hb Hp Hok) as (k' & Ek & Hb' & Hf & Hr).
    exists OK, k'. split; [done|]. split; [by eapply resched_clock|]. left. split; [done|].
    exists n, p. split; [by split|]. split; [done|]. rewrite Hr. destruct Hl as (Hn & _). tauto.
  - exists EINVAL, k. split; [|split; [done|right; split; [by left|done]]]. unfold sched_proc. unfold params_ok, NR_SCHED_QUEUES, TASK_Q in *.
    destruct ((priority <? 0) && negb (priority =? -1) || (16 <? priority)) eqn:E1; [done|].
    destruct ((quantum <? 1) && negb (quantum =? -1)) eqn:E2; [done|]. exfalso.
    destruct (Z.ltb_spec priority 0), (Z.eqb_spec priority (-1)), (Z.ltb_spec 16 priority), (Z.ltb_spec quantum 1),
      (Z.eqb_spec quantum (-1)), (Z.leb_spec (-1) priority), (Z.ltb_spec priority 16), (Z.leb_spec 1 quantum); cbn in *; lia || done.
Qed.

(** It is sched_refused exactly for a process of another scheduler and for bad values. *)
Lemma do_schedule_run k l sch e priority quantum cpu niced :
  clock_ok k l -> priority <> NR_SCHED_QUEUES ->
  exists r k', do_schedule sch e priority quantum cpu niced k = Done r k' /\ clock_ok k' l
    /\ ((r = OK /\ exists n p, schedulee k sch n e p /\ scheduled k k' n p priority quantum niced)
        \/ (sched_refused r /\ k' = k /\ forall n p, schedulee k sch n e p -> params_ok priority quantum = false)).
Proof.
  intros Hck Hpr. destruct (do_schedule_any k l sch e priority quantum cpu niced Hck Hpr) as (r & k' & E & Hck' & [H|[Hr Hk]]).
  - exists r, k'. auto.
  - exists r, k'. split; [done|]. split; [done|]. right. split; [done|]. split; [done|]. intros n p Hse.
    apply not_true_iff_false. intros Hok. destruct (do_schedule_ok k l sch n e p priority quantum cpu niced Hck Hse Hok) as (k2 & E2 & _).
    rewrite E in E2. injection E2 as -> _. by destruct Hr.
Qed.

(** ** The state of the server *)

Definition used (r : schedproc) : bool := has (sp_flags r) IN_USE.

(** The priorities of an entry in use are run queues, and it is the entry of
    its endpoint. *)
Definition entry_ok (n : Z) (r : schedproc) : Prop :=
  used r = true -> 0 <= sp_priority r < NR_SCHED_QUEUES /\ 0 <= sp_max_priority r < NR_SCHED_QUEUES
    /\ ENDPOINT_P (sp_endpoint r) = n.

(** The kernel is well formed, and SCHED is a system process with an alarm. *)
Definition kernel_ok (k : kstate) : Prop := (exists l, clock_ok k l) /\ may_alarm k SCHED_PROC_NR.

Record sched_ok (s : sched) : Prop := {
  so_slots : forall n, 0 <= n < NR_PROCS <-> is_Some (sc_procs s !! n);
  so_entry : forall n r, sc_procs s !! n = Some r -> entry_ok n r;
  so_kernel : kernel_ok (sc_kernel s);
  so_timeout : 0 < sc_timeout s <= TMRDIFF_MAX
}.

(** The state with entry [n] and the kernel replaced. *)
Definition put_sp (s : sched) (n : Z) (r : schedproc) (k : kstate) : sched :=
  set_sc_kernel k (set_sc_procs (<[n := r]> (sc_procs s)) s).

Lemma put_sp_ok s n r k :
  sched_ok s -> is_Some (sc_procs s !! n) -> entry_ok n r -> kernel_ok k -> sched_ok (put_sp s n r k).
Proof.
  intros [H1 H2 H3 H4] Hn Hr Hk. split; [| |done|done].
  - intros m. rewrite H1. unfold put_sp. cbn. destruct (decide (m = n)) as [->|Hne]; [|by rewrite lookup_insert_ne].
    rewrite lookup_insert_eq. by split; [eexists|].
  - intros m q. unfold put_sp. cbn. destruct (decide (m = n)) as [->|Hne]; [rewrite lookup_insert_eq; by intros [= <-]|].
    rewrite lookup_insert_ne by done. apply H2.
Qed.

Lemma put_sp_put s n r k r' k' : put_sp (put_sp s n r k) n r' k' = put_sp s n r' k'.
Proof. unfold put_sp. cbn. by rewrite insert_insert_eq. Qed.
Lemma put_sp_self s n r k : sc_procs (put_sp s n r k) !! n = Some r.
Proof. apply lookup_insert_eq. Qed.

Lemma upd_sp_run s n r f : sc_procs s !! n = Some r -> upd_sp n f s = Done tt (put_sp s n (f r) (sc_kernel s)).
Proof. intros H. unfold upd_sp. rewrite H. by destruct s. Qed.
Lemma get_sp_run s n r : sc_procs s !! n = Some r -> get_sp n s = Done r s.
Proof. intros H. unfold get_sp. by rewrite H. Qed.

Lemma sched_isokendpt_run s e :
  sched_ok s -> exists rv, sched_isokendpt e s = Done (rv, ENDPOINT_P e) s
    /\ (rv = OK -> exists r, sc_procs s !! ENDPOINT_P e = Some r /\ sp_endpoint r = e /\ used r = true)
    /\ rv <> SUSPEND.
Proof.
  intros Hs. unfold sched_isokendpt. destruct (Z.ltb_spec (ENDPOINT_P e) 0); [by eexists|].
  destruct (Z.leb_spec NR_PROCS (ENDPOINT_P e)); [by eexists|].
  destruct (proj1 (so_slots _ Hs (ENDPOINT_P e))) as [r Hr]; [done|]. rewrite (bind_done _ _ _ _ _ (get_sp_run _ _ _ Hr)).
  destruct (Z.eqb_spec e (sp_endpoint r)) as [E|]; cbn [negb]; [|by eexists].
  fold (used r). destruct (used r) eqn:Hu; cbn [negb]; [|by eexists].
  exists OK. split; [done|]. split; [|done]. intros _. by exists r.
Qed.

(** The endpoint of an entry in use is accepted. *)
Lemma sched_isokendpt_ok s n r :
  sched_ok s -> sc_procs s !! n = Some r -> used r = true -> sched_isokendpt (sp_endpoint r) s = Done (OK, n) s.
Proof.
  intros Hs Hr Hu. destruct (so_entry _ Hs n r Hr Hu) as (_ & _ & En).
  assert (0 <= n < NR_PROCS) as Hn by (apply (so_slots _ Hs); by eexists).
  unfold sched_isokendpt. rewrite En. destruct (Z.ltb_spec n 0); [lia|].
  destruct (Z.leb_spec NR_PROCS n); [lia|]. rewrite (bind_done _ _ _ _ _ (get_sp_run _ _ _ Hr)), Z.eqb_refl.
  cbn [negb]. fold (used r). by rewrite Hu.
Qed.

(** ** Kernel calls of the server *)

Lemma may_alarm_scheduled k k' n p priority quantum niced me :
  procs k !! n = Some p -> scheduled k k' n p priority quantum niced -> may_alarm k me -> may_alarm k' me.
Proof.
  intros Hp [Hf _] (c & tp & pv & Hc & Ht & Hpv & Hs & Htm).
  pose proof (kframe_field erase_pre p_priv _ _ me (fun _ => eq_refl) (wframe_k _ _ Hf)) as E.
  pose proof (kframe_rest _ _ _ (wframe_k _ _ Hf)) as ER.
  assert (p_priv <$> procs k' !! me = Some (Some tp)) as E'.
  { rewrite <- E. destruct (decide (me = n)) as [->|Hne].
    - rewrite put_self. cbn. rewrite Hp in Hc. injection Hc as <-. rewrite <- Ht. unfold resched, sched_params.
      by destruct (negb (priority =? -1)), (negb (quantum =? -1)).
    - rewrite put_other by done. rewrite Hc. cbn. by rewrite Ht. }
  destruct (procs k' !! me) as [c'|] eqn:Hc'; [|done]. cbn in E'. injection E' as E'. exists c', tp, pv.
  rewrite <- (rest_field k_timers _ _ (fun _ => eq_refl) ER), <- (rest_privs _ _ ER). by split_and!.
Qed.

(** The values SCHED gives the kernel for an entry. *)
Definition new_prio (r : schedproc) (flags : Z) : Z := if has flags SCHEDULE_CHANGE_PRIO then i32 (sp_priority r) else -1.
Definition new_quantum (r : schedproc) (flags : Z) : Z :=
  if has flags SCHEDULE_CHANGE_QUANTUM then i32 (sp_time_slice r) else -1.
Definition is_niced (r : schedproc) : bool := USER_Q <? sp_max_priority r.

(** [schedule_process] changes the kernel as the call says, or not at all. *)
Lemma schedule_process_run s n r flags :
  sc_procs s !! n = Some r -> kernel_ok (sc_kernel s) -> new_prio r flags <> NR_SCHED_QUEUES ->
  exists rv k', schedule_process n flags s = Done rv (put_sp s n (set_sp_cpu 0 r) k') /\ kernel_ok k'
    /\ ((rv = OK /\ exists m p, schedulee (sc_kernel s) SCHED_PROC_NR m (sp_endpoint r) p
           /\ scheduled (sc_kernel s) k' m p (new_prio r flags) (new_quantum r flags) (is_niced r))
        \/ (sched_refused rv /\ k' = sc_kernel s /\ forall m p, schedulee (sc_kernel s) SCHED_PROC_NR m (sp_endpoint r) p ->
              params_ok (new_prio r flags) (new_quantum r flags) = false)).
Proof.
  intros Hr [[l Hck] Hma] Hp. unfold schedule_process, pick_cpu. rewrite (bind_done _ _ _ _ _ (upd_sp_run _ _ _ _ Hr)).
  rewrite (bind_done _ _ _ _ _ (get_sp_run _ _ _ (put_sp_self _ _ _ _))). unfold sys_schedule, kcall. cbn [kc_me kc_kernel kc_put sched_client].
  destruct (do_schedule_run (sc_kernel s) l SCHED_PROC_NR (sp_endpoint r) (new_prio r flags) (new_quantum r flags)
    (if has flags SCHEDULE_CHANGE_CPU then i32 0 else -1) (is_niced r) Hck Hp) as (rv & k' & E & Hck' & H).
  exists rv, k'. unfold new_prio, new_quantum, is_niced in E. cbn. rewrite E.
  split; [done|]. split; [|done]. split; [by eexists|]. destruct H as [(_ & m & p & Hse & Hsd)|(_ & -> & _)]; [|done].
  eapply may_alarm_scheduled; [apply Hse|done..].
Qed.

Lemma i32_small x : 0 <= x < NR_SCHED_QUEUES -> i32 x = x.
Proof. unfold i32, NR_SCHED_QUEUES. intros H. rewrite Z.mod_small; lia. Qed.

Lemma new_prio_in r flags : 0 <= sp_priority r < NR_SCHED_QUEUES -> new_prio r flags <> NR_SCHED_QUEUES.
Proof. intros H. unfold new_prio. rewrite i32_small by done. unfold NR_SCHED_QUEUES in *. destruct (has _ _); lia. Qed.

(** The next alarm for the balancing of the queues. *)
Lemma set_balance_alarm_run s :
  sched_ok s -> exists k', set_balance_alarm s = Done tt (set_sc_kernel k' s) /\ kernel_ok k'
    /\ procs k' = procs (sc_kernel s)
    /\ alarm_of k' SCHED_PROC_NR = Some (u32 (k_monotonic (sc_kernel s) + sc_timeout s)).
Proof.
  intros [_ _ [[l Hck] (c & tp & pv & Hc & Htp & Hpv & Hsys & [t Ht])] Hto]. set (k := sc_kernel s) in *.
  destruct (do_setalarm_run k l SCHED_PROC_NR c tp pv t (sc_timeout s) 0 Hck Hc Htp Hpv Hsys Ht)
    as (l' & q & E & Hck' & _ & H).
  { cbn [Z.eqb]. unfold ticks_to, u32 in *. rewrite Zminus_mod_idemp_l. replace (sc_timeout s + k_monotonic k - k_monotonic k) with (sc_timeout s) by lia.
    unfold TMRDIFF_MAX, INT_MAX in *. rewrite Z.mod_small; lia. }
  rewrite (proj2 (Z.eqb_neq (sc_timeout s) 0)) in H by lia. destruct H as [_ Hd]. cbn [Z.eqb] in Hd.
  destruct (data_timer _ _ _ _ Hd) as (t' & Ht' & He' & Hf').
  exists (set_k_timers q k). unfold set_balance_alarm, sys_setalarm, kcall. cbn [kc_me kc_kernel kc_put sched_client].
  rewrite (bind_done _ _ (sc_timeout s) s s), bind_assoc by done.
  rewrite (bind_done _ _ (OK, Some (time_left k l tp, k_monotonic k)) s (set_sc_kernel (set_k_timers q k) s)) by (fold k; by rewrite E).
  split; [done|]. split; [split; [by eexists|]|split; [done|]].
  - by exists c, tp, pv.
  - unfold alarm_of. cbn. rewrite Hc. cbn. rewrite Htp. cbn. rewrite Ht'. unfold tmr_is_set. rewrite Hf', He'. cbn.
    by rewrite Z.add_comm.
Qed.

(** ** The requests *)

(** The entry after its quantum ended, and after balancing. *)
Definition lowered (r : schedproc) : schedproc :=
  set_sp_cpu 0 (if sp_priority r <? MIN_USER_Q then set_sp_priority (sp_priority r + 1) r else r).
Definition balanced (r : schedproc) : schedproc :=
  if used r && (sp_max_priority r <? sp_priority r) then set_sp_cpu 0 (set_sp_priority (sp_priority r - 1) r) else r.

(** What [schedule_process_local] did with an entry, from kernel [k] to [k']. *)
Definition sched_told (k k' : kstate) (r : schedproc) (rv : Z) : Prop :=
  kernel_ok k' /\
  ((rv = OK /\ exists m p, schedulee k SCHED_PROC_NR m (sp_endpoint r) p
      /\ scheduled k k' m p (i32 (sp_priority r)) (i32 (sp_time_slice r)) (is_niced r))
   \/ (sched_refused rv /\ k' = k /\ forall m p, schedulee k SCHED_PROC_NR m (sp_endpoint r) p ->
         params_ok (i32 (sp_priority r)) (i32 (sp_time_slice r)) = false)).

Lemma sched_told_not_suspend k k' r rv : sched_told k k' r rv -> rv <> SUSPEND.
Proof. by intros [_ [[-> _]|[[-> | ->] _]]]. Qed.

Lemma local_run s n r :
  sc_procs s !! n = Some r -> kernel_ok (sc_kernel s) -> 0 <= sp_priority r < NR_SCHED_QUEUES ->
  exists rv k', schedule_process_local n s = Done rv (put_sp s n (set_sp_cpu 0 r) k') /\ sched_told (sc_kernel s) k' r rv.
Proof.
  intros Hr Hk Hp. destruct (schedule_process_run s n r (Z.lor SCHEDULE_CHANGE_PRIO SCHEDULE_CHANGE_QUANTUM))
    as (rv & k' & E & H); [done|done|by apply new_prio_in|]. by exists rv, k'.
Qed.

Lemma noquantum_run s n r m :
  sched_ok s -> sc_procs s !! n = Some r -> used r = true -> sm_source m = sp_endpoint r ->
  exists rv k', do_noquantum m s = Done rv (put_sp s n (lowered r) k') /\ sched_told (sc_kernel s) k' (lowered r) rv
    /\ sched_ok (put_sp s n (lowered r) k').
Proof.
  intros Hs Hr Hu Em. destruct (so_entry _ Hs n r Hr Hu) as ([H1 H2] & H3 & En). unfold do_noquantum.
  rewrite Em, (bind_done _ _ _ _ _ (sched_isokendpt_ok _ _ _ Hs Hr Hu)). cbn [Z.eqb OK negb].
  rewrite (bind_done _ _ _ _ _ (get_sp_run _ _ _ Hr)). unfold NR_SCHED_QUEUES in *.
  set (r1 := if sp_priority r <? MIN_USER_Q then set_sp_priority (sp_priority r + 1) r else r).
  assert ((if sp_priority r <? MIN_USER_Q then upd_sp n (set_sp_priority (sp_priority r + 1)) else ret tt) s
    = Done tt (put_sp s n r1 (sc_kernel s))) as E1.
  { unfold r1. destruct (_ <? _); [by rewrite (upd_sp_run _ _ _ _ Hr)|]. unfold put_sp. rewrite insert_id by done. by destruct s. }
  assert (entry_ok n r1 /\ 0 <= sp_priority r1 < NR_SCHED_QUEUES) as [He Hp].
  { unfold entry_ok, r1, NR_SCHED_QUEUES. destruct (Z.ltb_spec (sp_priority r) MIN_USER_Q) as [Hlt|]; cbn; [|tauto].
    unfold MIN_USER_Q, NR_SCHED_QUEUES in Hlt. repeat split; lia || tauto. }
  rewrite (bind_done _ _ _ _ _ E1). destruct (local_run (put_sp s n r1 (sc_kernel s)) n r1) as (rv & k' & E & Ht);
    [apply put_sp_self|apply Hs|done|]. rewrite put_sp_put in E. exists rv, k'. split; [done|]. split; [exact Ht|].
  apply put_sp_ok; [done|by eexists|exact He|apply Ht].
Qed.

Lemma noquantum_served s m : sched_ok s -> exists rv s', do_noquantum m s = Done rv s' /\ sched_ok s'.
Proof.
  intros Hs. destruct (sched_isokendpt_run s (sm_source m) Hs) as (rv & E & Hok & _).
  destruct (Z.eqb_spec rv OK) as [->|Hne].
  - destruct (Hok eq_refl) as (r & Hr & Ee & Hu). destruct (noquantum_run s _ r m Hs Hr Hu (eq_sym Ee)) as (rv & k' & Ek & _ & Hs').
    by eexists _, _.
  - unfold do_noquantum. rewrite (bind_done _ _ _ _ _ E), (proj2 (Z.eqb_neq _ _) Hne). by eexists _, _.
Qed.

(** A request is answered, whatever it holds; nobody but PM and RS changes
    anything. *)
Definition answered {A} (s : sched) (m : sched_msg) (f : A -> Z) (x : outcome sched A) : Prop :=
  exists a s', x = Done a s' /\ sched_ok s' /\ f a <> SUSPEND /\ (accept_message m = false -> f a = EPERM /\ s' = s).

Lemma answered_intro {A} s m (f : A -> Z) a s' :
  sched_ok s' -> f a <> SUSPEND -> accept_message m = true -> answered s m f (Done a s').
Proof. intros H1 H2 H3. exists a, s'. rewrite H3. by split_and!. Qed.

(** The requests about a process SCHED knows check the sender and the endpoint. *)
Lemma answered_known s m (body : Z -> M sched Z) :
  sched_ok s ->
  (forall r, sc_procs s !! ENDPOINT_P (sm_endpoint m) = Some r -> used r = true ->
     exists rv s', body (ENDPOINT_P (sm_endpoint m)) s = Done rv s' /\ sched_ok s' /\ rv <> SUSPEND) ->
  answered s m id ((if negb (accept_message m) then ret EPERM
    else x <- sched_isokendpt (sm_endpoint m) ;;
         let '(rv, n) := x in if negb (rv =? OK) then ret EBADEPT else body n) s).
Proof.
  intros Hs Hb. destruct (accept_message m) eqn:Ha; cbn [negb].
  2:{ exists EPERM, s. by split_and!. }
  destruct (sched_isokendpt_run s (sm_endpoint m) Hs) as (rv & E & Hok & _). rewrite (bind_done _ _ _ _ _ E).
  destruct (Z.eqb_spec rv OK) as [->|Hne]; cbn [negb]; [|by apply answered_intro].
  destruct (Hok eq_refl) as (r & Hr & _ & Hu). destruct (Hb r Hr Hu) as (rv & s' & -> & Hs' & Hne). by apply answered_intro.
Qed.

Lemma stop_answered s m : sched_ok s -> answered s m id (do_stop_scheduling m s).
Proof.
  intros Hs. apply (answered_known s m (fun n => upd_sp n (set_sp_flags 0) ;; ret OK) Hs). intros r Hr Hu.
  rewrite (bind_done _ _ _ _ _ (upd_sp_run _ _ _ _ Hr)). eexists _, _. split; [done|]. split; [|done].
  apply put_sp_ok; [done|by eexists|done|apply Hs].
Qed.

Lemma u32_range x : 0 <= u32 x < 2 ^ 32.
Proof. by apply Z.mod_pos_bound. Qed.

Lemma boost_answered s m :
  sched_ok s -> u32 (sm_maxprio m) < NR_SCHED_QUEUES -> answered s m id (do_boost m s).
Proof.
  intros Hs Hq. pose proof (u32_range (sm_maxprio m)) as [H0 _]. eapply (answered_known s m _ Hs).
  intros r Hr Hu. destruct (so_entry _ Hs _ r Hr Hu) as (_ & _ & En).
  rewrite (bind_done _ _ _ _ _ (upd_sp_run _ _ _ _ Hr)).
  match goal with |- context [put_sp s ?n ?r' _] => set (r1 := r'); set (n1 := n) in * end.
  destruct (local_run (put_sp s n1 r1 (sc_kernel s)) n1 r1) as (rv & k' & E & Ht); [apply put_sp_self|apply Hs|done|].
  rewrite put_sp_put in E. rewrite E. eexists _, _. split; [done|]. split; [|by eapply sched_told_not_suspend].
  apply put_sp_ok; [done|by eexists|by intros _|apply Ht].
Qed.

(** The entry after [do_nice], which is put back when the kernel refuses. *)
Definition niced_to (q : Z) (r : schedproc) : schedproc := set_sp_cpu 0 (set_sp_max_priority q (set_sp_priority q r)).

Lemma nice_body s n r q :
  sched_ok s -> sc_procs s !! n = Some r -> used r = true -> 0 <= q < NR_SCHED_QUEUES ->
  exists rv k', (r <- get_sp n ;;
        let old_q := sp_priority r in
        let old_max_q := sp_max_priority r in
        upd_sp n (fun r => set_sp_max_priority q (set_sp_priority q r)) ;;
        rv <- schedule_process_local n ;;
        (if negb (rv =? OK)
         then upd_sp n (fun r => set_sp_max_priority old_max_q (set_sp_priority old_q r)) else ret tt) ;;
        ret rv) s = Done rv (put_sp s n (if rv =? OK then niced_to q r else set_sp_cpu 0 r) k')
    /\ sched_told (sc_kernel s) k' (niced_to q r) rv
    /\ sched_ok (put_sp s n (if rv =? OK then niced_to q r else set_sp_cpu 0 r) k').
Proof.
  intros Hs Hr Hu Hq. destruct (so_entry _ Hs n r Hr Hu) as (H1 & H2 & En).
  rewrite (bind_done _ _ _ _ _ (get_sp_run _ _ _ Hr)). cbv zeta. rewrite (bind_done _ _ _ _ _ (upd_sp_run _ _ _ _ Hr)).
  set (r1 := set_sp_max_priority q (set_sp_priority q r)).
  destruct (local_run (put_sp s n r1 (sc_kernel s)) n r1) as (rv & k' & E & Ht); [apply put_sp_self|apply Hs|done|].
  rewrite put_sp_put in E. rewrite (bind_done _ _ _ _ _ E). exists rv, k'. split; [|split; [exact Ht|]].
  - destruct (rv =? OK); cbn [negb]; [done|].
    rewrite (bind_done _ _ _ _ _ (upd_sp_run _ _ _ _ (put_sp_self _ _ _ _))), put_sp_put. by destruct r.
  - apply put_sp_ok; [done|by eexists| |apply Ht]. by destruct (rv =? OK).
Qed.

Lemma nice_answered s m : sched_ok s -> answered s m id (do_nice m s).
Proof.
  intros Hs. eapply (answered_known s m _ Hs). intros r Hr Hu. pose proof (u32_range (sm_maxprio m)) as [H0 _]. cbv zeta.
  destruct (Z.leb_spec NR_SCHED_QUEUES (u32 (sm_maxprio m))); [by exists EINVAL, s|].
  destruct (nice_body s _ r (u32 (sm_maxprio m)) Hs Hr Hu) as (rv & k' & E & Ht & Hs'); [done|].
  eexists _, _. split; [exact E|]. split; [done|by eapply sched_told_not_suspend].
Qed.

(** ** Taking over a process *)

Lemma view_clock k l k' :
  clock_ok k l -> base k' -> view k' = view k -> rest k' = rest k -> clock_ok k' l.
Proof.
  intros [[[Hb Hc Hl] Hnf Hm] Ha Hq Hcur Hbill] Hb' EV ER.
  pose proof (rest_privs _ _ ER) as EP. pose proof (rest_proc_ptr _ _ ER) as Eptr.
  pose proof (rest_field k_timers _ _ (fun _ => eq_refl) ER) as Et. pose proof (rest_field bill_ptr _ _ (fun _ => eq_refl) ER) as Eb.
  pose proof (rest_field k_monotonic _ _ (fun _ => eq_refl) ER) as Em.
  split; [split; [split|..]|..]; by rewrite ?EV, ?EP, ?Et, ?Em, ?Eptr, ?Eb.
Qed.

(** [sys_schedctl] without flags makes SCHED the scheduler of a live process. *)
Lemma schedctl_run k e :
  kernel_ok k -> exists r k', do_schedctl SCHED_PROC_NR 0 e 0 0 0 k = Done r k' /\ kernel_ok k'
    /\ ((r = OK /\ exists n p, procs k !! n = Some p /\ live (view k) n (ipc_of p) /\ p_endpoint p = e
           /\ k' = put_proc k n (set_p_scheduler (Some SCHED_PROC_NR) p))
        \/ (r = EINVAL /\ k' = k)).
Proof.
  intros [[l Hck] Hma]. pose proof (wf_b _ (ok_wf _ (ck_ipc _ _ Hck))) as Hb. unfold do_schedctl.
  change (has 0 (Z.lnot SCHEDCTL_FLAG_KERNEL)) with false. change (isset 0 SCHEDCTL_FLAG_KERNEL) with false. cbn match.
  destruct (isokendpt_total k Hb e) as [[n|] E]; rewrite (bind_done _ _ _ _ _ E).
  2:{ exists EINVAL, k. split; [done|]. split; [by split; [eexists|]|by right]. }
  destruct (isokendpt_live _ _ _ E) as (v & Hl & He). destruct (view_lookup_inv _ _ _ (proj1 (proj2 Hl))) as (p & Hp & <-).
  set (f := set_p_scheduler (Some SCHED_PROC_NR)). assert (sched_same p (f p)) as Hsame by by split.
  destruct (upd_base k n p f Hb Hp Hsame eq_refl) as (k' & Ek & Hb' & EV & ER & Hpn & Hpo).
  assert (k' = put_proc k n (f p)) as -> by (rewrite (upd_proc_done _ _ _ _ Hp) in Ek; by injection Ek as <-).
  exists OK, (put_proc k n (f p)). split; [by rewrite (bind_done _ _ _ _ _ Ek)|]. split; [split|].
  - exists l. eapply view_clock; [done..| |done]. rewrite EV. change (ipc_of (f p)) with (ipc_of p).
    apply insert_id. by apply view_lookup.
  - destruct Hma as (c & tp & pv & Hc & Ht & Hpv & Hsys & Htm). destruct (decide (SCHED_PROC_NR = n)) as [En|Hne].
    + exists (f p), tp, pv. rewrite En, put_self. rewrite En, Hp in Hc. injection Hc as <-. by split_and!.
    + exists c, tp, pv. rewrite put_other by done. by split_and!.
  - left. split; [done|]. by exists n, p.
Qed.

(** A prospective entry: not in use, for the endpoint of its slot. *)
Record fresh (n : Z) (r : schedproc) : Prop := {
  fr_unused : used r = false;
  fr_ep : ENDPOINT_P (sp_endpoint r) = n;
  fr_max : 0 <= sp_max_priority r < NR_SCHED_QUEUES
}.

Lemma unused_ok n r : used r = false -> entry_ok n r.
Proof. intros H Hu. by rewrite H in Hu. Qed.

Lemma start_params_run s n r m :
  sched_ok s -> sc_procs s !! n = Some r -> fresh n r ->
  (sm_type m =? SCHEDULING_START) || (sm_type m =? SCHEDULING_INHERIT) = true ->
  exists rv r', start_params m n s = Done rv (put_sp s n r' (sc_kernel s)) /\ rv <> SUSPEND
    /\ fresh n r' /\ (rv = OK -> 0 <= sp_priority r' < NR_SCHED_QUEUES)
    /\ (sm_type m = SCHEDULING_START -> rv = OK /\ r' = set_sp_time_slice (u32 (sm_quantum m)) (set_sp_priority (sp_max_priority r) r)).
Proof.
  intros Hs Hr [Hu En Hm] Ht. unfold start_params. rewrite (bind_done _ _ _ _ _ (get_sp_run _ _ _ Hr)).
  set (r1 := if sp_endpoint r =? sp_parent r then set_sp_time_slice DEFAULT_USER_TIME_SLICE (set_sp_priority USER_Q r) else r).
  assert ((if sp_endpoint r =? sp_parent r
    then upd_sp n (fun r => set_sp_time_slice DEFAULT_USER_TIME_SLICE (set_sp_priority USER_Q r))
    else ret tt) s = Done tt (put_sp s n r1 (sc_kernel s))) as E1.
  { unfold r1. destruct (sp_endpoint r =? sp_parent r); [by rewrite (upd_sp_run _ _ _ _ Hr)|]. unfold put_sp. rewrite insert_id by done. by destruct s. }
  assert (fresh n r1) as Hf1 by (unfold r1; destruct (sp_endpoint r =? sp_parent r); by split). rewrite (bind_done _ _ _ _ _ E1).
  set (s1 := put_sp s n r1 (sc_kernel s)). assert (sc_procs s1 !! n = Some r1) as Hr1 by apply put_sp_self.
  assert (sched_ok s1) as Hs1 by (apply put_sp_ok; [done|by eexists|apply unused_ok, Hf1|apply Hs]).
  destruct (Z.eqb_spec (sm_type m) SCHEDULING_START) as [Est|Est].
  - rewrite (bind_done _ _ _ _ _ (upd_sp_run _ _ _ _ Hr1)). exists OK. eexists. unfold s1. rewrite put_sp_put. split; [done|].
    split; [done|]. split; [by split; apply Hf1|]. split; [intros _; apply Hf1|]. intros _. split; [done|].
    unfold r1. by destruct (sp_endpoint r =? sp_parent r).
  - cbn [orb] in Ht. rewrite Ht. destruct (sched_isokendpt_run s1 (sm_parent m) Hs1) as (rv & E & Hok & Hne).
    rewrite (bind_done _ _ _ _ _ E). destruct (Z.eqb_spec rv OK) as [->|Hrv]; cbn [negb].
    + destruct (Hok eq_refl) as (pr & Hpr & _ & Hup). rewrite (bind_done _ _ _ _ _ (get_sp_run _ _ _ Hpr)).
      rewrite (bind_done _ _ _ _ _ (upd_sp_run _ _ _ _ Hr1)). eexists OK, _. unfold s1. rewrite put_sp_put. split; [done|].
      split; [done|]. split; [by split; apply Hf1|]. split; [|done]. intros _. apply (so_entry _ Hs1 _ pr Hpr Hup).
    + exists rv, r1. by split_and!.
Qed.

Lemma retry_run s n r :
  sc_procs s !! n = Some r -> kernel_ok (sc_kernel s) -> 0 <= sp_priority r < NR_SCHED_QUEUES ->
  exists rv k', schedule_retry 1 n s = Done rv (put_sp s n (set_sp_cpu 0 r) k') /\ sched_told (sc_kernel s) k' r rv.
Proof.
  intros Hr Hk Hp. cbn [schedule_retry]. destruct (schedule_process_run s n r SCHEDULE_CHANGE_ALL)
    as (rv & k' & E & Ht); [done|done|by apply new_prio_in|]. exists rv, k'. split; [|done].
  rewrite (bind_done _ _ _ _ _ E). assert (rv =? EBADCPU = false) as ->; [|done].
  by destruct Ht as [_ [[-> _]|[[-> | ->] _]]].
Qed.

(** The entry of a process SCHED took over. *)
Definition entered (r : schedproc) : schedproc := set_sp_cpu 0 (set_sp_flags IN_USE r).

Lemma entered_ok n r : fresh n r -> 0 <= sp_priority r < NR_SCHED_QUEUES -> entry_ok n (entered r).
Proof. intros [_ H1 H2] H. by intros _. Qed.

(** [take_over] fails without a live process; otherwise the entry is in use
    from then on, also when the kernel refuses the quantum. *)
Lemma take_over_run s n r :
  sched_ok s -> sc_procs s !! n = Some r -> fresh n r -> 0 <= sp_priority r < NR_SCHED_QUEUES ->
  exists x s', take_over n s = Done x s' /\ sched_ok s' /\ fst x <> SUSPEND
    /\ ((x = (EINVAL, None) /\ s' = s)
        \/ exists m p k', procs (sc_kernel s) !! m = Some p /\ live (view (sc_kernel s)) m (ipc_of p) /\ p_endpoint p = sp_endpoint r
             /\ s' = put_sp s n (entered r) k' /\ (fst x = OK -> snd x = Some SCHED_PROC_NR)
             /\ sched_told (put_proc (sc_kernel s) m (set_p_scheduler (Some SCHED_PROC_NR) p)) k' (entered r) (fst x)).
Proof.
  intros Hs Hr Hf Hp. unfold take_over. rewrite (bind_done _ _ _ _ _ (get_sp_run _ _ _ Hr)).
  destruct (schedctl_run (sc_kernel s) (sp_endpoint r) (so_kernel _ Hs)) as (rv & k1 & E & Hk1 & H).
  assert (sys_schedctl 0 (sp_endpoint r) 0 0 0 s = Done rv (set_sc_kernel k1 s)) as E1.
  { unfold sys_schedctl, kcall. cbn [kc_me kc_kernel kc_put sched_client]. by rewrite E. }
  rewrite (bind_done _ _ _ _ _ E1). destruct H as [(-> & m & p & Hpm & Hl & He & Ek)|[-> ->]].
  2:{ exists (EINVAL, None), s. split; [by destruct s|]. split; [done|]. split; [done|]. by left. }
  cbn [Z.eqb OK negb]. set (s1 := set_sc_kernel k1 s). assert (sc_procs s1 !! n = Some r) as Hr1 by done.
  rewrite (bind_done _ _ _ _ _ (upd_sp_run _ _ _ _ Hr1)). unfold pick_cpu.
  rewrite (bind_done _ _ _ _ _ (upd_sp_run _ _ _ _ (put_sp_self _ _ _ _))), put_sp_put.
  change (put_sp s1 n (set_sp_cpu 0 (set_sp_flags IN_USE r)) _) with (put_sp s n (entered r) k1).
  destruct (retry_run (put_sp s n (entered r) k1) n (entered r)) as (rv & k' & Er & Ht); [apply put_sp_self|done|done|].
  rewrite put_sp_put in Er. rewrite (bind_done _ _ _ _ _ Er).
  exists (if rv =? OK then (OK, Some SCHED_PROC_NR) else (rv, None)), (put_sp s n (entered r) k').
  assert (fst (if rv =? OK then (OK, Some SCHED_PROC_NR) else (rv, None)) = rv) as Ef by (by destruct (Z.eqb_spec rv OK) as [->|]).
  rewrite Ef. split; [by destruct (rv =? OK)|]. split; [|split; [by eapply sched_told_not_suspend|]].
  - apply put_sp_ok; [done|by eexists|by apply entered_ok|apply Ht].
  - right. exists m, p, k'. rewrite <- Ek. split_and!; try done. intros ->. done.
Qed.

Lemma isemtyendpt_run s e :
  sched_ok s -> exists rv, sched_isemtyendpt e s = Done (rv, ENDPOINT_P e) s /\ rv <> SUSPEND
    /\ (rv = OK -> exists r, sc_procs s !! ENDPOINT_P e = Some r /\ used r = false).
Proof.
  intros Hs. unfold sched_isemtyendpt. destruct (Z.ltb_spec (ENDPOINT_P e) 0); [by eexists|].
  destruct (Z.leb_spec NR_PROCS (ENDPOINT_P e)); [by eexists|].
  destruct (proj1 (so_slots _ Hs (ENDPOINT_P e))) as [r Hr]; [done|]. rewrite (bind_done _ _ _ _ _ (get_sp_run _ _ _ Hr)).
  fold (used r). destruct (used r) eqn:Hu; [by eexists|]. exists OK. split; [done|]. split; [done|]. by exists r.
Qed.

(** The entry [do_start_scheduling] fills in. *)
Definition asked (m : sched_msg) (r : schedproc) : schedproc :=
  set_sp_max_priority (u32 (sm_maxprio m)) (set_sp_parent (sm_parent m) (set_sp_endpoint (sm_endpoint m) r)).

Lemma start_answered s m :
  sched_ok s -> (sm_type m =? SCHEDULING_START) || (sm_type m =? SCHEDULING_INHERIT) = true ->
  answered s m fst (do_start_scheduling m s).
Proof.
  intros Hs Ht. unfold do_start_scheduling. rewrite bind_assert by done. destruct (accept_message m) eqn:Ha; cbn [negb].
  2:{ exists (EPERM, None), s. by split_and!. }
  destruct (isemtyendpt_run s (sm_endpoint m) Hs) as (rv & E & Hne & Hok). rewrite (bind_done _ _ _ _ _ E).
  destruct (Z.eqb_spec rv OK) as [->|Hrv]; cbn [negb]; [|by apply answered_intro].
  destruct (Hok eq_refl) as (r & Hr & Hu). rewrite (bind_done _ _ _ _ _ (upd_sp_run _ _ _ _ Hr)).
  fold (asked m r). set (n := ENDPOINT_P (sm_endpoint m)) in *. set (s1 := put_sp s n (asked m r) (sc_kernel s)).
  assert (sc_procs s1 !! n = Some (asked m r)) as Hr1 by apply put_sp_self. rewrite (bind_done _ _ _ _ _ (get_sp_run _ _ _ Hr1)).
  assert (sched_ok s1) as Hs1 by (apply put_sp_ok; [done|by eexists|by apply unused_ok|apply Hs]).
  destruct (Z.leb_spec NR_SCHED_QUEUES (sp_max_priority (asked m r))) as [|Hmax]; [by apply answered_intro|].
  assert (fresh n (asked m r)) as Hf1 by (split; [done..|split; [apply u32_range|done]]).
  destruct (start_params_run s1 n (asked m r) m Hs1 Hr1 Hf1 Ht) as (rv & r2 & E2 & Hne2 & Hf2 & Hp2 & _).
  rewrite (bind_done _ _ _ _ _ E2). set (s2 := put_sp s1 n r2 (sc_kernel s1)) in *.
  assert (sched_ok s2) as Hs2 by (apply put_sp_ok; [done|by eexists|apply unused_ok, Hf2|apply Hs]).
  destruct (Z.eqb_spec rv OK) as [->|Hrv]; cbn [negb]; [|by apply answered_intro].
  destruct (take_over_run s2 n r2 Hs2 (put_sp_self _ _ _ _) Hf2 (Hp2 eq_refl)) as (x & s' & -> & Hs' & Hx & _). by apply answered_intro.
Qed.

(** ** Balancing *)

Lemma balance_one_run s n r :
  sched_ok s -> sc_procs s !! n = Some r ->
  exists k', balance_one n s = Done tt (put_sp s n (balanced r) k') /\ sched_ok (put_sp s n (balanced r) k')
    /\ ((balanced r = r /\ k' = sc_kernel s)
        \/ (used r = true /\ sp_max_priority r < sp_priority r /\ exists rv, sched_told (sc_kernel s) k' (balanced r) rv)).
Proof.
  intros Hs Hr. unfold balance_one. rewrite (bind_done _ _ _ _ _ (get_sp_run _ _ _ Hr)). unfold balanced. fold (used r).
  assert (put_sp s n r (sc_kernel s) = s) as Hid by (unfold put_sp; rewrite insert_id by done; by destruct s).
  destruct (used r) eqn:Hu; cbn [andb]; [|exists (sc_kernel s); rewrite Hid; by auto].
  destruct (Z.ltb_spec (sp_max_priority r) (sp_priority r)) as [Hlt|]; [|exists (sc_kernel s); rewrite Hid; by auto].
  destruct (so_entry _ Hs n r Hr Hu) as (H1 & H2 & En). rewrite (bind_done _ _ _ _ _ (upd_sp_run _ _ _ _ Hr)).
  set (r1 := set_sp_priority (sp_priority r - 1) r).
  assert (0 <= sp_priority r1 < NR_SCHED_QUEUES) as Hp1 by (cbn; lia).
  destruct (local_run (put_sp s n r1 (sc_kernel s)) n r1) as (rv & k' & E & Ht); [apply put_sp_self|apply Hs|done|].
  rewrite put_sp_put in E. rewrite (bind_done _ _ _ _ _ E). exists k'. split; [done|]. split.
  - apply put_sp_ok; [done|by eexists|by intros _|apply Ht].
  - right. split; [done|]. split; [done|]. by exists rv.
Qed.

Lemma sched_slots_range n : n ∈ sched_slots <-> 0 <= n < NR_PROCS.
Proof.
  unfold sched_slots. rewrite list_elem_of_fmap. split.
  - intros (i & -> & Hi%elem_of_seq). unfold NR_PROCS in *. lia.
  - intros Hn. exists (Z.to_nat n). rewrite elem_of_seq. unfold NR_PROCS in *. lia.
Qed.
Lemma sched_slots_nodup : NoDup sched_slots.
Proof. apply NoDup_fmap_2; [apply _|apply NoDup_seq]. Qed.

(** ** Processes SCHED schedules *)

(** Entry [r] in slot [n] schedules the live process [p], at the same priority. *)
Record attached (s : sched) (n : Z) (r : schedproc) (p : proc) : Prop := {
  at_entry : sc_procs s !! n = Some r;
  at_used : used r = true;
  at_proc : schedulee (sc_kernel s) SCHED_PROC_NR n (sp_endpoint r) p;
  at_prio : p_priority p = sp_priority r
}.

(** The kernel accepts the time slice of the entry. *)
Definition slice_ok (r : schedproc) : Prop := i32 (sp_time_slice r) = -1 \/ 1 <= i32 (sp_time_slice r).

Lemma kernel_base k : kernel_ok k -> base k.
Proof. intros [[l Hck] _]. apply (ck_ipc _ _ Hck). Qed.

Lemma schedulee_slot k sch n e p : kernel_ok k -> schedulee k sch n e p -> ENDPOINT_P e = n.
Proof.
  intros [[l Hck] _] [Hp Hl <- _]. exact (proj1 (c_ep _ _ (wf_c _ (ok_wf _ (ck_ipc _ _ Hck))) n _ Hl)).
Qed.

(** A process other than the one that was rescheduled. *)
Lemma other_kept k k' m q priority quantum niced sch n e p :
  kernel_ok k -> kernel_ok k' -> schedulee k sch m (p_endpoint q) q -> scheduled k k' m q priority quantum niced ->
  schedulee k sch n e p -> n <> m ->
  exists p', schedulee k' sch n e p' /\ erase_pre p' = erase_pre p.
Proof.
  intros [[l Hck] _] Hk' [Hq Hlq _ _] [Hf _] [Hp Hl He Hs] Hne.
  pose proof (resched_view _ _ _ _ _ _ _ _ Hck Hq Hlq (kernel_base _ Hk') Hf) as EV.
  destruct (kframe_lookup erase_pre _ _ n p (wframe_k _ _ Hf)) as (p' & Hp' & E); [by rewrite put_other|].
  exists p'. split; [|done]. pose proof (view_lookup _ _ _ Hp') as Hv'. rewrite EV, lookup_insert_ne in Hv' by done.
  split; [done| | |].
  - rewrite EV. destruct Hl as (Hn & Hv & Hemp). rewrite Hv in Hv'. apply (inj Some) in Hv'. rewrite <- Hv'.
    split; [done|]. split; [by rewrite lookup_insert_ne|done].
  - rewrite <- He. exact (eq_sym (f_equal p_endpoint E)).
  - rewrite <- Hs. exact (eq_sym (f_equal p_scheduler E)).
Qed.

(** The process that was rescheduled. *)
Lemma self_kept k k' priority quantum niced sch n e p :
  kernel_ok k -> kernel_ok k' -> schedulee k sch n e p -> scheduled k k' n p priority quantum niced ->
  exists p', schedulee k' sch n e p' /\ erase_pre p' = erase_pre (resched k p priority quantum niced).
Proof.
  intros [[l Hck] _] Hk' [Hp Hl He Hs] [Hf _].
  pose proof (resched_view _ _ _ _ _ _ _ _ Hck Hp Hl (kernel_base _ Hk') Hf) as EV.
  destruct (kframe_lookup erase_pre _ _ n _ (wframe_k _ _ Hf) (put_self _ _ _)) as (p' & Hp' & E).
  exists p'. split; [|done]. pose proof (view_lookup _ _ _ Hp') as Hv'. rewrite EV, lookup_insert_eq in Hv'. apply (inj Some) in Hv'.
  assert (p_endpoint (resched k p priority quantum niced) = p_endpoint p
    /\ p_scheduler (resched k p priority quantum niced) = p_scheduler p) as [E1 E2].
  { unfold resched, sched_params. by destruct (negb (priority =? -1)), (negb (quantum =? -1)). }
  split; [done| | |].
  - rewrite EV, <- Hv'. destruct Hl as (Hn & Hv & Hemp). split; [done|]. split; [apply lookup_insert_eq|done].
  - rewrite <- He, <- E1. exact (eq_sym (f_equal p_endpoint E)).
  - rewrite <- Hs, <- E2. exact (eq_sym (f_equal p_scheduler E)).
Qed.

(** The kernel accepted the call, when the entry stands for a live process. *)
Lemma sched_told_ok k k' r rv n p :
  sched_told k k' r rv -> schedulee k SCHED_PROC_NR n (sp_endpoint r) p -> kernel_ok k ->
  0 <= sp_priority r < NR_SCHED_QUEUES -> slice_ok r ->
  rv = OK /\ scheduled k k' n p (sp_priority r) (i32 (sp_time_slice r)) (is_niced r).
Proof.
  intros [_ [(-> & m & q & Hq & Hsd)|(_ & _ & H)]] Hse Hk Hp Hsl.
  - split; [done|]. rewrite i32_small in Hsd by done.
    assert (m = n) as -> by (rewrite <- (schedulee_slot _ _ _ _ _ Hk Hq); by apply (schedulee_slot _ _ _ _ _ Hk Hse)).
    assert (q = p) as -> by (apply (inj Some); rewrite <- (se_proc _ _ _ _ _ Hq); apply Hse). done.
  - specialize (H n p Hse). rewrite i32_small in H by done. unfold params_ok, slice_ok in *. exfalso.
    destruct (Z.leb_spec (-1) (sp_priority r)), (Z.ltb_spec (sp_priority r) NR_SCHED_QUEUES),
      (Z.eqb_spec (i32 (sp_time_slice r)) (-1)), (Z.leb_spec 1 (i32 (sp_time_slice r))); cbn in H; lia || done.
Qed.

Lemma attached_other s m r1 k' rv n r p :
  kernel_ok (sc_kernel s) -> sched_told (sc_kernel s) k' r1 rv -> ENDPOINT_P (sp_endpoint r1) = m -> attached s n r p -> n <> m ->
  exists p', attached (put_sp s m r1 k') n r p' /\ erase_pre p' = erase_pre p.
Proof.
  intros Hk [Hk' Ht] Em [Hr Hu Hp Hpr] Hne.
  assert (sc_procs (put_sp s m r1 k') !! n = Some r) as Hr' by (unfold put_sp; cbn; by rewrite lookup_insert_ne).
  destruct Ht as [(_ & m' & q & Hq & Hsd)|(_ & -> & _)]; [|exists p; split; [by split|done]].
  assert (m' = m) as -> by (rewrite <- Em; symmetry; by apply (schedulee_slot _ _ _ _ _ Hk Hq)).
  destruct (other_kept (sc_kernel s) k' m q (i32 (sp_priority r1)) (i32 (sp_time_slice r1)) (is_niced r1) SCHED_PROC_NR n (sp_endpoint r) p)
    as (p' & Hp' & E); try done; [by rewrite (se_ep _ _ _ _ _ Hq)|].
  exists p'. split; [|done]. split; [done|done|done|]. rewrite <- Hpr. exact (f_equal p_priority E).
Qed.

Lemma attached_self s n r1 k' rv r p :
  kernel_ok (sc_kernel s) -> attached s n r p -> sched_told (sc_kernel s) k' r1 rv -> sp_endpoint r1 = sp_endpoint r ->
  used r1 = true -> 0 <= sp_priority r1 < NR_SCHED_QUEUES -> slice_ok r1 ->
  rv = OK /\ scheduled (sc_kernel s) k' n p (sp_priority r1) (i32 (sp_time_slice r1)) (is_niced r1)
  /\ exists p', attached (put_sp s n r1 k') n r1 p'
    /\ erase_pre p' = erase_pre (resched (sc_kernel s) p (sp_priority r1) (i32 (sp_time_slice r1)) (is_niced r1)).
Proof.
  intros Hk [Hr Hu Hp Hpr] Ht Ee Hu1 Hp1 Hsl. rewrite <- Ee in Hp. destruct (sched_told_ok _ _ _ _ _ _ Ht Hp Hk Hp1 Hsl) as [-> Hsd].
  split; [done|]. split; [done|]. destruct (self_kept _ _ _ _ _ _ _ _ _ Hk (proj1 Ht) Hp Hsd) as (p' & Hp' & E).
  exists p'. split; [|done]. split; [apply put_sp_self|done|done|].
  etrans; [exact (f_equal p_priority E)|]. unfold resched, sched_params.
  rewrite (proj2 (Z.eqb_neq (sp_priority r1) (-1))) by lia. by destruct (negb (i32 (sp_time_slice r1) =? -1)).
Qed.

Lemma sched_told_rest k k' r rv : sched_told k k' r rv -> rest k' = rest k.
Proof.
  intros [_ [(_ & m & p & _ & [Hf _])|(_ & -> & _)]]; [|done]. by rewrite <- (kframe_rest _ _ _ (wframe_k _ _ Hf)).
Qed.

(** Balancing one entry raises it, and leaves the others alone. *)
Lemma balance_one_attached s m n r p :
  sched_ok s -> 0 <= m < NR_PROCS -> attached s n r p -> slice_ok r ->
  exists s' p', balance_one m s = Done tt s' /\ attached s' n (if decide (n = m) then balanced r else r) p'.
Proof.
  intros Hs Hm Ha Hsl. destruct (proj1 (so_slots _ Hs m) Hm) as [rm Hrm].
  destruct (balance_one_run s m rm Hs Hrm) as (k' & E & _ & H). exists (put_sp s m (balanced rm) k').
  destruct H as [[Eb ->]|(Hu & Hlt & rv & Ht)].
  - assert (put_sp s m (balanced rm) (sc_kernel s) = s) as Hid by (unfold put_sp; rewrite Eb, insert_id by done; by destruct s).
    rewrite Hid. exists p. rewrite <- Hid at 2. split; [done|]. case_decide as En; [|done]. subst m.
    rewrite (at_entry _ _ _ _ Ha) in Hrm. injection Hrm as ->. by rewrite Eb.
  - destruct (so_entry _ Hs m rm Hrm Hu) as (H1 & H2 & Em).
    assert (sp_endpoint (balanced rm) = sp_endpoint rm /\ used (balanced rm) = true
      /\ 0 <= sp_priority (balanced rm) < NR_SCHED_QUEUES /\ sp_time_slice (balanced rm) = sp_time_slice rm) as (Ee & Hub & Hpb & Et).
    { unfold balanced. rewrite Hu, (proj2 (Z.ltb_lt _ _) Hlt). cbn. split_and!; try done; lia. }
    case_decide as En.
    + subst n. rewrite (at_entry _ _ _ _ Ha) in Hrm. injection Hrm as ->.
      destruct (attached_self s m (balanced rm) k' rv rm p (so_kernel _ Hs) Ha Ht Ee Hub Hpb) as (_ & _ & p' & Ha' & _);
        [unfold slice_ok; by rewrite Et|by exists p'].
    + destruct (attached_other s m (balanced rm) k' rv n r p (so_kernel _ Hs) Ht) as (p' & Ha' & _); [by rewrite Ee|done..|by exists p'].
Qed.

Lemma balance_one_rest s m :
  sched_ok s -> 0 <= m < NR_PROCS ->
  exists s', balance_one m s = Done tt s' /\ sched_ok s' /\ sc_timeout s' = sc_timeout s
    /\ rest (sc_kernel s') = rest (sc_kernel s).
Proof.
  intros Hs Hm. destruct (proj1 (so_slots _ Hs m) Hm) as [rm Hrm]. destruct (balance_one_run s m rm Hs Hrm) as (k' & E & Hs' & H).
  exists (put_sp s m (balanced rm) k'). split_and!; try done. destruct H as [[_ ->]|(_ & _ & rv & Ht)]; [done|by eapply sched_told_rest].
Qed.

Lemma balanced_slice r : slice_ok (balanced r) <-> slice_ok r.
Proof. unfold balanced. by destruct (_ && _). Qed.

Lemma balance_loop l s :
  NoDup l -> (forall n, n ∈ l -> 0 <= n < NR_PROCS) -> sched_ok s ->
  exists s', for_each l balance_one s = Done tt s' /\ sched_ok s' /\ sc_timeout s' = sc_timeout s
    /\ rest (sc_kernel s') = rest (sc_kernel s)
    /\ forall n r p, attached s n r p -> slice_ok r ->
         exists p', attached s' n (if decide (n ∈ l) then balanced r else r) p'.
Proof.
  revert s. induction l as [|m l IH]; intros s Hnd Hl Hs.
  - exists s. split_and!; try done. intros n r p Ha _. exists p. case_decide as Hin; [by apply elem_of_nil in Hin|done].
  - apply NoDup_cons in Hnd as [Hm Hnd]. destruct (balance_one_rest s m Hs) as (s1 & E1 & Hs1 & Et1 & Er1); [apply Hl; set_solver|].
    destruct (IH s1 Hnd) as (s' & E & Hs' & Et & Er & Ha'); [set_solver|done|]. exists s'. cbn [for_each].
    rewrite (bind_done _ _ _ _ _ E1). split_and!; [done|done|congruence|congruence|]. intros n r p Ha Hsl.
    destruct (balance_one_attached s m n r p Hs) as (s1' & p1 & E1' & Ha1); [apply Hl; set_solver|done|done|].
    rewrite E1 in E1'. injection E1' as <-. destruct (Ha' n _ p1 Ha1) as (p' & Hp');
      [case_decide; [by apply balanced_slice|done]|].
    exists p'. destruct (decide (n = m)) as [->|Hne].
    + rewrite decide_False in Hp' by done. by rewrite decide_True by set_solver.
    + destruct (decide (n ∈ l)); [rewrite decide_True by set_solver|rewrite decide_False by set_solver]; done.
Qed.

Lemma balance_run s :
  sched_ok s -> exists s', balance_queues s = Done tt s' /\ sched_ok s'
    /\ alarm_of (sc_kernel s') SCHED_PROC_NR = Some (u32 (k_monotonic (sc_kernel s) + sc_timeout s))
    /\ forall n r p, attached s n r p -> slice_ok r -> exists p', attached s' n (balanced r) p'.
Proof.
  intros Hs. destruct (balance_loop sched_slots s sched_slots_nodup) as (s1 & E1 & Hs1 & Et & Er & Ha);
    [by intros n ?%sched_slots_range|done|]. unfold balance_queues. rewrite (bind_done _ _ _ _ _ E1).
  destruct (set_balance_alarm_run s1 Hs1) as (k' & E & Hk' & Epr & Hal). exists (set_sc_kernel k' s1). split; [done|].
  split; [|split].
  - destruct Hs1. by split.
  - cbn. by rewrite Hal, Et, (rest_field k_monotonic _ _ (fun _ => eq_refl) Er).
  - intros n r p Han Hsl. destruct (Ha n r p Han Hsl) as (p' & [H1 H2 [H3 H4 H5 H6] H7]).
    rewrite decide_True in H1, H2, H5, H7.
    2-5: (apply sched_slots_range, (so_slots _ Hs); exists r; apply Han).
    exists p'. split; [done|done| |done]. cbn. split; [by rewrite Epr|unfold view; by rewrite Epr|done|done].
Qed.

(** ** Every message *)

(** No reply: a notification, or a message of the kernel. *)
Definition silent (m : sched_msg) (status : Z) : bool :=
  is_ipc_notify status
  || ((sm_type m =? SCHEDULING_NO_QUANTUM) && IPC_STATUS_FLAGS_TEST status IPC_FLG_MSG_FROM_KERNEL).

(** What the main loop owes to every message. *)
Definition served (s : sched) (m : sched_msg) (quiet : bool) (x : outcome sched (option (Z * option Z))) : Prop :=
  exists reply s', x = Done reply s' /\ sched_ok s' /\ (reply = None <-> quiet = true)
    /\ (quiet = false -> accept_message m = false ->
        s' = s /\ exists a, reply = Some a /\ (fst a = EPERM \/ fst a = ENOSYS)).

Lemma answered_served {A} s m (h : M sched A) (f : A -> Z) (g : A -> Z * option Z) :
  answered s m f (h s) -> (forall a, fst (g a) = f a) ->
  served s m false ((x <- h ;; ret (if fst (g x) =? SUSPEND then None else Some (g x))) s).
Proof.
  intros (a & s' & E & Hs' & Hne & Hacc) Hg. exists (Some (g a)), s'. rewrite (bind_done _ _ _ _ _ E), Hg.
  rewrite (proj2 (Z.eqb_neq _ _) Hne). split_and!; [done|done|done|]. intros _ Ha. destruct (Hacc Ha) as [Ep ->].
  split; [done|]. exists (g a). split; [done|]. left. by rewrite Hg.
Qed.

Lemma main_served s m status :
  sched_ok s -> (sm_type m = SCHEDULING_BOOST -> u32 (sm_maxprio m) < NR_SCHED_QUEUES) ->
  served s m (silent m status) (main_step m status s).
Proof.
  intros Hs Hb. unfold silent, main_step. cbv zeta. destruct (is_ipc_notify status); cbn [orb].
  { assert (exists s', (if sm_source m =? CLOCK then balance_queues else ret tt) s = Done tt s' /\ sched_ok s') as (s' & E & Hs').
    { destruct (_ =? _); [|by exists s]. destruct (balance_run s Hs) as (s' & ? & ? & _). by exists s'. }
    exists None, s'. rewrite (bind_done _ _ _ _ _ E). by split_and!. }
  destruct ((sm_type m =? SCHEDULING_INHERIT) || (sm_type m =? SCHEDULING_START)) eqn:E1.
  { assert (sm_type m =? SCHEDULING_NO_QUANTUM = false) as ->
      by (apply orb_true_iff in E1 as [->%Z.eqb_eq | ->%Z.eqb_eq]; done).
    apply (answered_served s m (do_start_scheduling m) fst id); [|done]. apply start_answered; [done|by rewrite orb_comm]. }
  destruct (Z.eqb_spec (sm_type m) SCHEDULING_STOP) as [->|_].
  { apply (answered_served s m (do_stop_scheduling m) id (fun r => (r, None))); [by apply stop_answered|done]. }
  destruct (Z.eqb_spec (sm_type m) SCHEDULING_SET_NICE) as [->|_].
  { apply (answered_served s m (do_nice m) id (fun r => (r, None))); [by apply nice_answered|done]. }
  destruct (Z.eqb_spec (sm_type m) SCHEDULING_BOOST) as [Et|_].
  { rewrite Et. apply (answered_served s m (do_boost m) id (fun r => (r, None))); [by apply boost_answered, Hb|done]. }
  destruct (sm_type m =? SCHEDULING_NO_QUANTUM); cbn [andb].
  2:{ exists (Some (ENOSYS, None)), s. split_and!; try done. intros _ _. split; [done|]. eexists. split; [done|by right]. }
  destruct (IPC_STATUS_FLAGS_TEST status IPC_FLG_MSG_FROM_KERNEL).
  - destruct (noquantum_served s m Hs) as (rv & s' & E & Hs'). exists None, s'. rewrite (bind_done _ _ _ _ _ E). by split_and!.
  - exists (Some (EPERM, None)), s. split_and!; try done. intros _ _. split; [done|]. eexists. split; [done|by left].
Qed.

(** C16: SCHED survives every message.  Whatever the sender, type and contents,
    apart from a boost to a priority that is no run queue, the main loop
    finishes and keeps the table of SCHED (priorities are run queues, entries
    belong to their endpoints) and all invariants of the kernel it calls.  Every
    request gets exactly one reply, notifications and the messages of the
    kernel none; a request of a process other than PM and RS is refused and
    changes nothing. *)
Theorem sched_serves s m status :
  sched_ok s -> (sm_type m = SCHEDULING_BOOST -> u32 (sm_maxprio m) < NR_SCHED_QUEUES) ->
  exists reply s', main_step m status s = Done reply s' /\ sched_ok s' /\ (reply = None <-> silent m status = true)
    /\ (silent m status = false -> accept_message m = false ->
        s' = s /\ exists a, reply = Some a /\ (fst a = EPERM \/ fst a = ENOSYS)).
Proof. apply main_served. Qed.

(** C17: balancing undoes what the ends of quanta did.  One round of
    [balance_queues] raises every process whose priority is below its maximum
    by exactly one queue, in the table of SCHED and in the kernel, leaves the
    others where they are, and sets the alarm for the next round; so a process
    that stops using up its quanta is back at its maximum after as many rounds
    as it was lowered. *)
Theorem balance_queues_correct s :
  sched_ok s -> exists s', balance_queues s = Done tt s' /\ sched_ok s'
    /\ alarm_of (sc_kernel s') SCHED_PROC_NR = Some (u32 (k_monotonic (sc_kernel s) + sc_timeout s))
    /\ forall n r p, attached s n r p -> slice_ok r -> exists p', attached s' n (balanced r) p'.
Proof. apply balance_run. Qed.

(** ** The process manager changes a nice value *)

(** The run queue of a nice value. *)
Definition nice_queue (nice : Z) : Z := (nice + 20) * 16 / 41.

Lemma nice_to_priority_run nice :
  nice_to_priority nice = if (PRIO_MIN <=? nice) && (nice <=? PRIO_MAX) then (OK, Some (nice_queue nice)) else (EINVAL, None).
Proof.
  unfold nice_to_priority, PRIO_MIN, PRIO_MAX, MIN_USER_Q, MAX_USER_Q, NR_SCHED_QUEUES, nice_queue.
  destruct (Z.ltb_spec nice (-20)), (Z.ltb_spec 20 nice), (Z.leb_spec (-20) nice), (Z.leb_spec nice 20); cbn [orb andb]; try lia; try done.
  replace (0 + Z.quot _ _) with ((nice + 20) * 16 / 41) by (rewrite Z.quot_div_nonneg by lia; rewrite Z.add_0_l; f_equal; lia).
  assert (0 <= (nice + 20) * 16 / 41 < 16) as Hq by (split; [apply Z.div_pos; lia|apply Z.div_lt_upper_bound; lia]).
  unfold u32. rewrite Z.mod_small by lia. rewrite i32_small by done.
  destruct (Z.ltb_spec ((nice + 20) * 16 / 41) 0); [lia|]. by destruct (Z.ltb_spec (16 - 1) ((nice + 20) * 16 / 41)); [lia|].
Qed.

Lemma nice_queue_range nice : PRIO_MIN <= nice <= PRIO_MAX -> 0 <= nice_queue nice < NR_SCHED_QUEUES.
Proof.
  unfold PRIO_MIN, PRIO_MAX, nice_queue, NR_SCHED_QUEUES. intros H. split; [apply Z.div_pos; lia|apply Z.div_lt_upper_bound; lia].
Qed.

(** C18: from PM to the run queues of the kernel: [sched_nice] with a valid nice
    value succeeds for a process SCHED schedules and moves it to the queue
    [(nice + 20) * 16 / 41], as maximum and current priority, in the table of
    SCHED and in the kernel; any other value is refused without changing
    anything. *)
Theorem sched_nice_correct other s n nice mp r p :
  sched_ok (pm_sched s) -> attached (pm_sched s) n r p -> slice_ok r ->
  pm_mproc s !! n = Some mp -> mp_scheduler mp = SCHED_PROC_NR -> mp_endpoint mp = sp_endpoint r ->
  if (PRIO_MIN <=? nice) && (nice <=? PRIO_MAX) then
    exists s' p', sched_nice other n nice s = Done OK s' /\ sched_ok (pm_sched s') /\ pm_mproc s' = pm_mproc s
      /\ attached (pm_sched s') n (niced_to (nice_queue nice) r) p' /\ 0 <= nice_queue nice < NR_SCHED_QUEUES
  else sched_nice other n nice s = Done EINVAL s.
Proof.
  intros Hs Ha Hsl Hmp Hsch Hep. unfold sched_nice. rewrite (bind_done _ _ mp s s) by (unfold get_mp; by rewrite Hmp).
  rewrite Hsch, nice_to_priority_run. change ((SCHED_PROC_NR =? KERNEL) || (SCHED_PROC_NR =? NONE)) with false.
  destruct ((PRIO_MIN <=? nice) && (nice <=? PRIO_MAX)) eqn:Hn; [|done].
  apply andb_true_iff in Hn as [H1%Z.leb_le H2%Z.leb_le]. pose proof (nice_queue_range nice (conj H1 H2)) as Hq.
  pose proof Ha as [Hr Hu Hse Hpr]. assert (u32 (nice_queue nice) = nice_queue nice) as Eu
    by (unfold u32, NR_SCHED_QUEUES in *; rewrite Z.mod_small; lia).
  destruct (nice_body (pm_sched s) n r (nice_queue nice) Hs Hr Hu Hq) as (rv & k' & E & Ht & Hs').
  destruct (attached_self (pm_sched s) n (niced_to (nice_queue nice) r) k' rv r p (so_kernel _ Hs) Ha Ht eq_refl Hu Hq Hsl)
    as (-> & _ & p' & Ha' & _).
  cbn [Z.eqb OK] in E, Hs'. set (s' := put_sp (pm_sched s) n (niced_to (nice_queue nice) r) k') in *.
  exists (set_pm_sched s' s), p'. split; [|split; [exact Hs'|]; split; [done|]; split; [exact Ha'|exact Hq]].
  set (m := mkSm PM_PROC_NR SCHEDULING_SET_NICE (mp_endpoint mp) 0 (nice_queue nice) 0).
  assert (do_nice m (pm_sched s) = Done OK s') as Ed.
  { unfold do_nice. change (accept_message m) with true. cbn [negb sm_endpoint sm_maxprio m].
    rewrite Hep, (bind_done _ _ _ _ _ (sched_isokendpt_ok _ _ _ Hs Hr Hu)), Eu. cbn [Z.eqb OK negb].
    destruct (Z.leb_spec NR_SCHED_QUEUES (nice_queue nice)); [lia|]. exact E. }
  rewrite (bind_done _ _ (OK, mp_endpoint mp) s (set_pm_sched s' s)); [done|].
  unfold pm_taskcall. cbn [Z.eqb Pos.eqb SCHED_PROC_NR sm_type sm_endpoint sm_parent sm_maxprio sm_quantum]. fold m.
  assert (main_step m (IPC_STATUS_CALL_TO SENDREC) (pm_sched s) = Done (Some (OK, None)) s') as ->; [|done].
  change (main_step m (IPC_STATUS_CALL_TO SENDREC) (pm_sched s))
    with ((r <- do_nice m ;; ret (if r =? SUSPEND then None else Some (r, None : option Z))) (pm_sched s)).
  by rewrite (bind_done _ _ _ _ _ Ed).
Qed.

(** ** An example *)

Definition entry_okb (n : Z) (r : schedproc) : bool :=
  negb (used r) || ((0 <=? sp_priority r) && (sp_priority r <? NR_SCHED_QUEUES) && (0 <=? sp_max_priority r)
    && (sp_max_priority r <? NR_SCHED_QUEUES) && (ENDPOINT_P (sp_endpoint r) =? n)).
Definition may_alarmb (k : kstate) (me : Z) : bool :=
  match procs k !! me ≫= p_priv with
  | Some tp => match privs k !! tp, t_tab (k_timers k) !! tp with
               | Some pv, Some _ => has (s_flags pv) SYS_PROC
               | _, _ => false
               end
  | None => false
  end.
Definition sched_okb (s : sched) (l : list Z) : bool :=
  forallb (fun n => bool_decide (is_Some (sc_procs s !! n))) sched_slots
  && forallb (fun nr => (0 <=? nr.1) && (nr.1 <? NR_PROCS) && entry_okb nr.1 nr.2) (map_to_list (sc_procs s))
  && clock_okb (sc_kernel s) l && may_alarmb (sc_kernel s) SCHED_PROC_NR
  && (0 <? sc_timeout s) && (sc_timeout s <=? TMRDIFF_MAX).

Lemma entry_okb_sound n r : entry_okb n r = true -> entry_ok n r.
Proof.
  unfold entry_okb. intros H Hu. rewrite Hu in H. cbn [negb orb] in H.
  rewrite !andb_true_iff, !Z.leb_le, !Z.ltb_lt, Z.eqb_eq in H. tauto.
Qed.

Lemma may_alarmb_sound k me : may_alarmb k me = true -> may_alarm k me.
Proof.
  unfold may_alarmb, may_alarm. destruct (procs k !! me) as [c|] eqn:Hc; cbn; [|done].
  destruct (p_priv c) as [tp|] eqn:Htp; [|done]. destruct (privs k !! tp) as [pv|] eqn:Hpv; [|done].
  destruct (t_tab (k_timers k) !! tp) as [t|] eqn:Ht; [|done]. intros H. exists c, tp, pv. split_and!; try done.
Qed.

Lemma sched_okb_sound s l : sched_okb s l = true -> sched_ok s.
Proof.
  unfold sched_okb. rewrite !andb_true_iff, Z.ltb_lt, Z.leb_le, !forallb_forall. intros (((((H1 & H2) & H3) & H4) & H5) & H6).
  assert (forall n r, sc_procs s !! n = Some r -> 0 <= n < NR_PROCS /\ entry_okb n r = true) as Hm.
  { intros n r Hr. specialize (H2 (n, r)). cbn in H2. rewrite !andb_true_iff, Z.leb_le, Z.ltb_lt in H2.
    destruct H2 as [[? ?] ?]; [|done]. apply list_elem_of_In. by apply elem_of_map_to_list. }
  split; [|intros n r Hr; apply entry_okb_sound; by apply Hm|split; [exists l; by apply clock_okb_sound|by apply may_alarmb_sound]|done].
  intros n. split; [|intros [r Hr]; by eapply Hm]. intros Hn. specialize (H1 n). rewrite bool_decide_eq_true in H1.
  apply H1, list_elem_of_In. by apply sched_slots_range.
Qed.

(** Two user processes, one of them running and without time, scheduled by
    SCHED, which waits for a message like RS. *)
Definition sched_kernel : kstate :=
  let waits n id := set_p_getfrom_e ANY (live_proc n id RTS_RECEIVING 4) in
  let user n prio := set_p_scheduler (Some SCHED_PROC_NR) (live_proc n 16 0 prio) in
  set_bill_ptr 12 (set_system_hz 100 (set_k_tsc_per_ms 1000
    (example [waits RS_PROC_NR 7; waits SCHED_PROC_NR 8; user 12 8; user 13 7]
       [live_priv RS_PROC_NR 7 SRV_F; live_priv SCHED_PROC_NR 8 SRV_F; live_priv 12 16 USR_F] 12))).
Definition sched_entry (n prio : Z) : schedproc := mkSp (ENDPOINT 1 n) INIT_PROC_NR IN_USE 7 prio 200 0.
Definition sched_example : sched :=
  mkSched (<[12 := sched_entry 12 8]> (<[13 := sched_entry 13 7]>
    (list_to_map (map (fun n => (n, mkSp 0 0 0 0 0 0 0)) sched_slots)))) 0 500 sched_kernel.

Lemma sched_example_ok : sched_ok sched_example.
Proof. apply (sched_okb_sound _ []). by_vm. Qed.

Lemma sched_example_attached : attached sched_example 12 (sched_entry 12 8) (slot sched_kernel 12).
Proof. split; [by_vm|by_vm| |by_vm]. split; [by_slot|by_live|by_vm|by_vm]. Qed.

Lemma sched_serves_witness :
  exists s' a, main_step (mkSm 12 SCHEDULING_SET_NICE (ENDPOINT 1 12) 0 0 0) (IPC_STATUS_CALL_TO SENDREC) sched_example = Done (Some a) s'
    /\ s' = sched_example /\ (fst a = EPERM \/ fst a = ENOSYS).
Proof.
  destruct (sched_serves sched_example (mkSm 12 SCHEDULING_SET_NICE (ENDPOINT 1 12) 0 0 0) (IPC_STATUS_CALL_TO SENDREC)
    sched_example_ok ltac:(intros H; discriminate H)) as (reply & s' & E & _ & _ & H).
  destruct (H eq_refl eq_refl) as [Es (a & Er & Ha)]. exists s', a. rewrite Er in E. exact (conj E (conj Es Ha)).
Defined.

Lemma balance_queues_correct_witness :
  exists s' p', balance_queues sched_example = Done tt s' /\ attached s' 12 (sched_entry 12 7) p'.
Proof.
  destruct (balance_queues_correct sched_example sched_example_ok) as (s' & E & _ & _ & H).
  destruct (H 12 (sched_entry 12 8) (slot sched_kernel 12) sched_example_attached) as [p' Hp']; [right; by vm_compute|].
  exists s', p'. exact (conj E Hp').
Defined.

Definition pm_example : pm := mkPm {[ 12 := mkMp (ENDPOINT 1 12) 11 IN_USE 0 SCHED_PROC_NR ]} sched_example.

Lemma sched_nice_correct_witness :
  exists s' p', sched_nice (fun _ _ => (0, 0)) 12 10 pm_example = Done OK s'
    /\ attached (pm_sched s') 12 (niced_to 11 (sched_entry 12 8)) p'.
Proof.
  destruct (sched_nice_correct (fun _ _ => (0, 0)) pm_example 12 10 (mkMp (ENDPOINT 1 12) 11 IN_USE 0 SCHED_PROC_NR)
    (sched_entry 12 8) (slot sched_kernel 12) sched_example_ok sched_example_attached ltac:(right; by vm_compute) eq_refl eq_refl eq_refl)
    as (s' & p' & E & _ & _ & Ha & _).
  exists s', p'. exact (conj E Ha).
Defined.
