(* ===== verification/Quantum.v ===== *)
(** * The end of a quantum

    Composes the kernel with its scheduling server: the kernel takes a process
    whose time is used up off its queue and sends SCHED a message on its behalf;
    when SCHED has handled the message the process is in a queue again, with the
    time slice of its entry. *)

From S2P Require Import Prelude Monad Timers TimerProps Endpoint AuditRing DrvQueue Chain Kernel Sched RunQueue Init SchedProps Ipc IpcInv Deadlock IpcStep Notify IpcSend System Clock Vm ClockProps Privctl Irq Boot AlarmLib Switch SwitchProps SchedSrv SchedSrvProps.

(** ** The message of the kernel *)

(** A process that waits for any message and for nothing else. *)
Record idles (d : proc) : Prop := {
  id_rts : p_rts_flags d = RTS_RECEIVING;
  id_any : p_getfrom_e d = ANY;
  id_plain : has (p_misc_flags d) MF_REPLY_PEND = false
}.

(** The same process with message [m] sent by the kernel for a process that
    makes [call]. *)
Definition handed (m : message) (call : Z) (d : proc) : proc :=
  set_p_rts_flags 0
    (set_p_misc_flags (flag_clr (flag_set (p_misc_flags d) MF_DELIVERMSG) MF_REPLY_PEND)
      (set_p_ipc_status (Z.lor (Z.lor (p_ipc_status d) (IPC_STATUS_FLAGS IPC_FLG_MSG_FROM_KERNEL)) (IPC_STATUS_CALL_TO call))
        (set_p_delivermsg m d))).

Definition send_kind (c : proc) : Z := if has (p_misc_flags c) MF_REPLY_PEND then SENDREC else SEND.

Lemma deliver_frame s n c sch d m kaddr :
  base s -> core (view s) (privs s) -> procs s !! n = Some c -> procs s !! sch = Some d -> live (view s) sch (ipc_of d) ->
  n <> sch -> idles d ->
  exists s', mini_send_deliver n sch (mkPtr kaddr (Some m)) FROM_KERNEL s = Done OK s'
    /\ wframe (put_proc s sch (handed (set_m_source (p_endpoint c) m) (send_kind c) d)) s' /\ runnable s' sch.
Proof.
  intros Hb Hc Hn Hd Hl Hne [Hr Ha Hpl]. unfold mini_send_deliver. erewrite bind_get_proc by done. erewrite bind_get_proc by done.
  assert (has (p_misc_flags d) MF_DELIVERMSG = false) as Hdl.
  { apply (c_dlv _ _ Hc sch (ipc_of d) Hl). unfold ipc_of. cbn. by rewrite Hr. }
  rewrite bind_assert by by rewrite Hdl. change (has FROM_KERNEL FROM_KERNEL) with true.
  unfold fetch_msg. change (has FROM_KERNEL FROM_KERNEL) with true. cbn [negb ptr_kernel]. rewrite bind_ret.
  unfold IPC_STATUS_ADD_FLAGS, IPC_STATUS_ADD_CALL, IPC_STATUS_ADD, deliver.
  erewrite bind_upd_proc by done. erewrite bind_upd_proc by (cbn; by rewrite lookup_insert_eq).
  erewrite bind_get_proc by (cbn; rewrite !lookup_insert_ne by done; done).
  erewrite bind_upd_proc by (cbn; by rewrite lookup_insert_eq). erewrite bind_upd_proc by (cbn; by rewrite lookup_insert_eq).
  change (has FROM_KERNEL NON_BLOCKING) with false. fold (send_kind c). cbn [procs set_procs].
  rewrite !insert_insert_eq, Hpl. cbn [p_misc_flags set_p_ipc_status set_p_misc_flags set_p_delivermsg].
  rewrite (has_flag_set MF_DELIVERMSG MF_REPLY_PEND), Hpl. cbn [orb]. change (MF_DELIVERMSG =? MF_REPLY_PEND) with false. cbn match.
  match goal with |- context [<[sch := ?x]> (procs s)] => set (d1 := x) end.
  change (set_procs _ _) with (put_proc s sch d1). assert (p_rts_flags d1 = RTS_RECEIVING) as Hr1 by exact Hr.
  assert (base (put_proc s sch d1)) as Hb1 by (eapply put_base; [done..|by split|exact (b_prio _ Hb sch d Hd)]).
  destruct (RTS_UNSET_spec _ sch d1 RTS_RECEIVING _ (b_sched _ Hb1) (wf_queued _ (b_sched _ Hb1)) (put_self _ _ _))
    as (s' & E & Hf & _ & Hrun); [done|intros _; by eapply (b_prio _ Hb1), put_self|].
  exists s'. rewrite (bind_done _ _ _ _ _ E). split; [done|]. split.
  - revert Hf. change (with_rts ?s sch d1 ?x) with (put_proc s sch (set_p_rts_flags x d1)). rewrite put_put, Hr1. done.
  - apply Hrun. rewrite with_rts_runnable by apply put_self. rewrite decide_True, Hr1 by done. split; [apply Hl|done].
Qed.

Lemma handed_erase m call d d2 : erase d = erase d2 -> erase (handed m call d) = erase (handed m call d2).
Proof. intros E. exact (f_equal (handed m call) E). Qed.

(** [mini_send] of the kernel to a process that waits for any message. *)
Lemma send_frame s n c sch d m kaddr :
  ipc_ok s -> procs s !! n = Some c -> live (view s) n (ipc_of c) -> p_rts_flags c = RTS_NO_QUANTUM -> 0 <= n ->
  procs s !! sch = Some d -> live (view s) sch (ipc_of d) -> n <> sch -> idles d ->
  exists s', mini_send n (p_endpoint d) (mkPtr kaddr (Some m)) FROM_KERNEL s = Done OK s' /\ ipc_ok s'
    /\ wframe (put_proc s sch (handed (set_m_source (p_endpoint c) m) (send_kind c) d)) s' /\ runnable s' sch.
Proof.
  intros Hok Hn Hln Hrn H0 Hd Hld Hne Hid. pose proof Hok as [[Hb Hc Hl] Hnf Hm].
  destruct (deliver_frame s n c sch d m kaddr Hb Hc Hn Hd Hld Hne Hid) as (s' & E & Hf & Hrun).
  destruct Hid as [Hr Ha Hpl]. destruct (c_ep _ _ Hc sch _ Hld) as (Ep & _ & _).
  assert (mini_send n (p_endpoint d) (mkPtr kaddr (Some m)) FROM_KERNEL s = Done OK s') as Es.
  { unfold mini_send. change (v_ep (ipc_of d)) with (p_endpoint d) in Ep. rewrite Ep. erewrite bind_get_proc by done.
    unfold RTS_ISSET. rewrite Hr. change (isset RTS_RECEIVING RTS_NO_ENDPOINT) with false. cbn match.
    erewrite bind_get_proc by done.
    rewrite (bind_done _ _ _ _ _ (WILLRECEIVE_nf s Hc Hnf (p_endpoint c) sch (ipc_of d) (FromUser kaddr) Hld)).
    assert (will (ipc_of d) (p_endpoint c) = true) as ->; [|exact E].
    unfold will, ipc_of. cbn. by rewrite Hr, Ha. }
  destruct (mini_send_run s n sch (ipc_of c) (ipc_of d) (mkPtr kaddr (Some m)) FROM_KERNEL Hok Hln Hld Hne) as (r & s2 & E2 & Hsent);
    [by eexists|unfold ipc_of; cbn; by rewrite Hrn..|].
  change (v_ep (ipc_of d)) with (p_endpoint d) in E2. rewrite Es in E2. injection E2 as <- <-.
  exists s'. split; [done|]. split; [|done].
  eapply (sent_ok s n sch (ipc_of c) (ipc_of d)); try done; unfold ipc_of; cbn; by rewrite Hrn.
Qed.

Lemma notify_frame k n p sch d kaddr :
  ipc_ok k -> procs k !! n = Some p -> p_rts_flags p = 0 -> isokprocn n = true -> 0 <= n -> p_scheduler p = Some sch ->
  procs k !! sch = Some d -> live (view k) sch (ipc_of d) -> n <> sch -> idles d ->
  exists k' m, notify_scheduler kaddr n k = Done tt k' /\ ipc_ok k' /\ m_source m = p_endpoint p /\ m_type m = SCHEDULING_NO_QUANTUM
    /\ wframe (put_proc (put_proc k n (set_p_rts_flags RTS_NO_QUANTUM p)) sch (handed m (send_kind p) d)) k' /\ runnable k' sch.
Proof.
  intros Hok Hp Hr Hisok H0 Hsch Hd Hld Hne Hid. pose proof (wf_b _ (ok_wf _ Hok)) as Hb.
  assert (live (view k) n (ipc_of p)) as Hln by (eapply runnable_live; [|done]; split; [done|by exists p]).
  destruct (c_ep _ _ (wf_c _ (ok_wf _ Hok)) n _ Hln) as (_ & _ & Enr). change (v_nr (ipc_of p)) with (p_nr p) in Enr.
  unfold notify_scheduler. erewrite bind_get_proc by done.
  rewrite bind_assert by (unfold proc_kernel_scheduler; rewrite Hsch, Enr; by apply negb_true_iff, Z.eqb_neq, not_eq_sym).
  destruct (RTS_SET_view k n p RTS_NO_QUANTUM Hb Hp eq_refl) as (k1 & E1 & Hb1 & _).
  destruct (RTS_SET_spec k n p RTS_NO_QUANTUM _ (b_sched _ Hb) (wf_queued k (b_sched _ Hb)) Hp) as (k1' & E1' & Hf1 & _).
  rewrite E1 in E1'. injection E1' as <-. rewrite Hr in Hf1. change (flag_set 0 RTS_NO_QUANTUM) with RTS_NO_QUANTUM in Hf1.
  set (pn := set_p_rts_flags RTS_NO_QUANTUM p). change (with_rts k n p RTS_NO_QUANTUM) with (put_proc k n pn) in Hf1.
  rewrite (bind_done _ _ _ _ _ E1). destruct (kframe_lookup erase _ _ n pn Hf1 (put_self _ _ _)) as (p1 & Hp1 & He1).
  erewrite bind_get_proc by done. rewrite (bind_done _ _ k1 k1 k1) by done. cbv zeta. erewrite bind_upd_proc by done.
  change (set_procs _ k1) with (put_proc k1 n (reset_proc_accounting p1)). set (k2 := put_proc k1 n (reset_proc_accounting p1)).
  assert (sframe (put_proc k n pn) k2) as Hf2 by (rewrite <- (put_put k n pn); by apply kframe_put).
  assert (base k2) as Hb2 by (eapply put_base; [done..|by split|exact (b_prio _ Hb1 n p1 Hp1)]).
  assert (view k2 = view k) as EV.
  { rewrite <- (sframe_view _ _ Hf2). unfold view, put_proc. cbn. rewrite fmap_insert. apply insert_id. rewrite lookup_fmap, Hp.
    cbn. f_equal. unfold ipc_of, isemptyp. cbn. by rewrite Hr. }
  assert (ipc_ok k2) as Hok2 by (apply (ipc_ok_base k); [done..|symmetry; exact (rest_privs _ _ (kframe_rest _ _ _ Hf2))]).
  destruct (kframe_lookup erase _ _ sch d Hf2) as (d2 & Hd2 & Ed); [by rewrite put_other by by apply not_eq_sym|].
  pose proof (ipc_of_erase _ _ Ed) as Evd. set (c2 := reset_proc_accounting p1).
  assert (live (view k2) n (ipc_of c2)) as Hl2.
  { split; [done|]. split; [apply view_lookup, put_self|]. unfold ipc_of. cbn. unfold isemptyp. cbn.
    by rewrite <- (f_equal p_rts_flags He1 : RTS_NO_QUANTUM = p_rts_flags p1). }
  rewrite <- (f_equal p_scheduler He1 : p_scheduler p = p_scheduler p1), Hsch. erewrite bind_get_proc by done.
  match goal with |- context [mini_send n _ (mkPtr _ (Some ?x)) _] => set (m := x) end.
  destruct (send_frame k2 n c2 sch d2 m kaddr Hok2 (put_self _ _ _) Hl2 (eq_sym (f_equal p_rts_flags He1)) H0 Hd2) as (k' & E & Hok' & Hf & Hrun);
    [by rewrite EV, <- Evd|done| |].
  { destruct Hid as [I1 I2 I3]. split; [rewrite <- I1; exact (eq_sym (f_equal p_rts_flags Ed))|
      rewrite <- I2; exact (eq_sym (f_equal p_getfrom_e Ed))|rewrite <- I3; exact (eq_sym (f_equal (fun d => has (p_misc_flags d) MF_REPLY_PEND) Ed))]. }
  rewrite (bind_done _ _ _ _ _ E). exists k', (set_m_source (p_endpoint c2) m). split; [done|]. split; [done|].
  split; [exact (eq_sym (f_equal p_endpoint He1))|]. split; [done|]. split; [|done].
  refine (wframe_sframe _ _ _ _ Hf). apply kframe_put; [done|].
  replace (send_kind c2) with (send_kind p) by exact (f_equal send_kind He1). by apply handed_erase.
Qed.

(** ** The kernel gives up the process *)

(** A preempted process that cannot run anyway. *)
Lemma requeue_blocked s n c :
  procs s !! n = Some c -> flag_clr (p_rts_flags c) RTS_PREEMPTED <> 0 ->
  requeue_preempted n s = Done tt (put_proc s n (set_p_rts_flags (flag_clr (p_rts_flags c) RTS_PREEMPTED) c)).
Proof.
  intros Hc Hne. unfold requeue_preempted. erewrite bind_get_proc by done. unfold proc_is_preempted.
  destruct (has (p_rts_flags c) RTS_PREEMPTED) eqn:Ep.
  - erewrite bind_upd_proc by done. erewrite bind_get_proc by (cbn; by rewrite lookup_insert_eq).
    unfold proc_is_runnable. cbn [p_rts_flags set_p_rts_flags]. by rewrite (proj2 (Z.eqb_neq _ _) Hne).
  - rewrite (flag_clr_id RTS_PREEMPTED _ Ep). unfold put_proc.
    assert (set_p_rts_flags (p_rts_flags c) c = c) as -> by by destruct c. rewrite insert_id by done. by destruct s.
Qed.

Lemma no_time_notifies k n p id pv sch kaddr :
  procs k !! n = Some p -> proc_is_rt p = false -> p_scheduler p = Some sch -> sch <> p_nr p -> p_priv p = Some id ->
  privs k !! id = Some pv -> has (s_flags pv) PREEMPTIBLE = true -> proc_no_time kaddr n k = notify_scheduler kaddr n k.
Proof.
  intros Hp Hrt Hs Hne Hid Hpv Hpre. unfold proc_no_time, sched_rt_handle_quantum. rewrite bind_assoc.
  erewrite bind_get_proc by done. rewrite Hrt. cbn [negb]. rewrite bind_ret. erewrite bind_get_proc by done.
  unfold proc_kernel_scheduler. rewrite Hs, (proj2 (Z.eqb_neq _ _) Hne), bind_assoc.
  erewrite bind_priv_of by done. by rewrite bind_ret, Hpre.
Qed.

(** What the kernel does with the running process [n] when its time is up,
    until it chooses another one. *)
Lemma quantum_ends k n p id pv sch d kaddr :
  ipc_ok k -> n = proc_ptr k -> procs k !! n = Some p -> p_rts_flags p = 0 -> isokprocn n = true -> 0 <= n ->
  proc_is_rt p = false -> p_scheduler p = Some sch -> p_priv p = Some id -> privs k !! id = Some pv ->
  has (s_flags pv) PREEMPTIBLE = true ->
  procs k !! sch = Some d -> live (view k) sch (ipc_of d) -> n <> sch -> idles d ->
  exists k' m p', (proc_no_time kaddr n ;; requeue_preempted n) k = Done tt k' /\ ipc_ok k'
    /\ m_source m = p_endpoint p /\ m_type m = SCHEDULING_NO_QUANTUM
    /\ wframe (put_proc (put_proc k n (set_p_rts_flags RTS_NO_QUANTUM p)) sch (handed m (send_kind p) d)) k'
    /\ runnable k' sch /\ procs k' !! n = Some p' /\ p_rts_flags p' = RTS_NO_QUANTUM.
Proof.
  intros Hok Hcur Hp Hr Hisok H0 Hrt Hs Hid Hpv Hpre Hd Hld Hne Hidle.
  destruct (notify_frame k n p sch d kaddr Hok Hp Hr Hisok H0 Hs Hd Hld Hne Hidle) as (k1 & m & E1 & Hok1 & Em & Et & Hf & Hrun).
  assert (live (view k) n (ipc_of p)) as Hln by (eapply runnable_live; [|done]; split; [done|by exists p]).
  pose proof (proj2 (proj2 (c_ep _ _ (wf_c _ (ok_wf _ Hok)) n _ Hln)) : p_nr p = n) as Enr.
  rewrite <- (no_time_notifies k n p id pv sch kaddr) in E1 by (done || by rewrite Enr; apply not_eq_sym).
  rewrite (bind_done _ _ _ _ _ E1). pose proof (wframe_proc_ptr _ _ Hf) as Ecur. change (proc_ptr k = proc_ptr k1) in Ecur.
  destruct (kframe_lookup erase_pre _ _ n (set_p_rts_flags RTS_NO_QUANTUM p) (wframe_k _ _ Hf)) as (p1 & Hp1 & He1);
    [rewrite put_other by done; apply put_self|].
  pose proof (f_equal p_rts_flags He1 : RTS_NO_QUANTUM = flag_clr (p_rts_flags p1) RTS_PREEMPTED) as Er1.
  assert (procs k1 !! proc_ptr k1 = Some p1) as Hc1 by by rewrite <- Ecur, <- Hcur.
  destruct (requeue_run k1 p1 Hok1 Hc1) as (k2 & E2 & Hok2 & Hf2 & _ & _).
  rewrite <- Ecur, <- Hcur in E2. exists k2, m, (set_p_rts_flags RTS_NO_QUANTUM p1).
  pose proof E2 as E3. rewrite (requeue_blocked k1 n p1 Hp1), <- Er1 in E3 by by rewrite <- Er1. injection E3 as <-.
  split_and!; try done; [by etrans| |apply put_self].
  destruct Hrun as (Hi & x & Hx & Hrx). split; [done|]. exists x. rewrite put_other by by apply not_eq_sym. done.
Qed.

(** ** The server gives it a new quantum *)

(** The kernel and its server after the message. *)
Lemma handed_kernel k n p sch d m call k' :
  kernel_ok k -> ipc_ok k' -> procs k !! n = Some p -> p_rts_flags p = 0 -> isokprocn n = true -> 0 <= n -> n = proc_ptr k ->
  procs k !! sch = Some d -> live (view k) sch (ipc_of d) -> 0 <= sch -> n <> sch -> idles d ->
  wframe (put_proc (put_proc k n (set_p_rts_flags RTS_NO_QUANTUM p)) sch (handed m call d)) k' ->
  kernel_ok k'.
Proof.
  intros [[l [Hok Ha Hq Hcur Hbill]] Hma] Hok' Hp Hr Hisok H0 Ecur Hd Hld Hs0 Hne Hid Hf.
  assert (live (view k) n (ipc_of p)) as Hln by (eapply runnable_live; [|done]; split; [done|by exists p]).
  pose proof (kframe_rest _ _ _ (wframe_k _ _ Hf)) as ER. change (rest k = rest k') in ER.
  assert (view k' = <[sch := ipc_of (handed m call d)]> (view k)) as EV.
  { rewrite (wframe_view k' _ (symmetry Hf)) by apply (wf_b _ (ok_wf _ Hok')). unfold view, put_proc. cbn. rewrite !fmap_insert. f_equal.
    apply insert_id. rewrite lookup_fmap, Hp. cbn. f_equal. unfold ipc_of, isemptyp. cbn. by rewrite Hr. }
  assert (forall x, charged (view k) x -> charged (view k') x) as Hch.
  { intros x Hx. rewrite EV. destruct (decide (x = sch)) as [->|Hxs].
    - right. split; [|done]. exists (ipc_of (handed m call d)). split; [apply Hld|]. split; [apply lookup_insert_eq|done].
    - destruct Hx as [(v & Hv & H)|[[v (Hi & Hv & He)] H]].
      + left. exists v. by rewrite lookup_insert_ne.
      + right. split; [|done]. exists v. split; [done|]. by rewrite lookup_insert_ne. }
  pose proof (rest_field k_timers _ _ (fun _ => eq_refl) ER) as Et. split.
  - exists l. split; [done|by rewrite <- Et| | |].
    + by rewrite <- Et, <- (rest_field k_monotonic _ _ (fun _ => eq_refl) ER).
    + rewrite <- (rest_proc_ptr _ _ ER). by apply Hch.
    + rewrite <- (rest_field bill_ptr _ _ (fun _ => eq_refl) ER). by apply Hch.
  - destruct Hma as (c & tp & pv & Hc & Htp & Hpv & Hsys & Htm).
    pose proof (kframe_field erase_pre p_priv _ _ SCHED_PROC_NR (fun _ => eq_refl) (wframe_k _ _ Hf)) as E.
    assert (p_priv <$> procs k' !! SCHED_PROC_NR = Some (Some tp)) as E'.
    { rewrite <- E. unfold put_proc. cbn. destruct (decide (SCHED_PROC_NR = sch)) as [<-|Hns].
      - rewrite lookup_insert_eq. cbn. rewrite Hd in Hc. injection Hc as <-. by f_equal.
      - rewrite lookup_insert_ne by by apply not_eq_sym. destruct (decide (SCHED_PROC_NR = n)) as [<-|Hnn].
        + rewrite lookup_insert_eq. cbn. rewrite Hp in Hc. injection Hc as <-. by f_equal.
        + rewrite lookup_insert_ne by by apply not_eq_sym. rewrite Hc. cbn. by f_equal. }
    destruct (procs k' !! SCHED_PROC_NR) as [c'|] eqn:Hc'; [|done]. cbn in E'. injection E' as E'.
    exists c', tp, pv. rewrite <- Et, <- (rest_privs _ _ ER). by split_and!.
Qed.

Lemma kernel_message_status c :
  let status := Z.lor (Z.lor 0 (IPC_STATUS_FLAGS IPC_FLG_MSG_FROM_KERNEL)) (IPC_STATUS_CALL_TO (send_kind c)) in
  is_ipc_notify status = false /\ IPC_STATUS_FLAGS_TEST status IPC_FLG_MSG_FROM_KERNEL = true.
Proof. unfold send_kind. by destruct (has _ _). Qed.

(** SCHED handles the message of the kernel for an attached process. *)
Lemma renew_run s n r p m status :
  sched_ok s -> attached s n r p -> 1 <= i32 (sp_time_slice r) -> p_rts_flags p = RTS_NO_QUANTUM ->
  sm_source m = sp_endpoint r -> sm_type m = SCHEDULING_NO_QUANTUM ->
  is_ipc_notify status = false -> IPC_STATUS_FLAGS_TEST status IPC_FLG_MSG_FROM_KERNEL = true ->
  exists s' p', main_step m status s = Done None s' /\ sched_ok s' /\ attached s' n (lowered r) p'
    /\ n ∈ rq (sc_kernel s') (sp_priority (lowered r))
    /\ p_cpu_time_left p' = u64 (k_tsc_per_ms (sc_kernel s) * i32 (sp_time_slice r)).
Proof.
  intros Hs Ha Hsl Hr Em Et Hn Hf. pose proof Ha as [Hr1 Hu Hse Hpr].
  destruct (noquantum_run s n r m Hs Hr1 Hu Em) as (rv & k' & E & Ht & Hs').
  destruct (so_entry _ Hs' n (lowered r) (put_sp_self _ _ _ _)) as (Hp1 & _ & _); [unfold lowered; by destruct (_ <? _)|].
  assert (sp_endpoint (lowered r) = sp_endpoint r /\ used (lowered r) = true /\ sp_time_slice (lowered r) = sp_time_slice r)
    as (Ee & Hul & Esl) by (unfold lowered; by destruct (_ <? _)).
  destruct (attached_self s n (lowered r) k' rv r p (so_kernel _ Hs) Ha Ht Ee Hul Hp1) as (-> & Hsd & p' & Ha' & Ep');
    [right; by rewrite Esl|].
  exists (put_sp s n (lowered r) k'), p'. split_and!; [|done|done| |].
  - unfold main_step. cbv zeta. rewrite Hn, Et, Hf.
    change ((SCHEDULING_NO_QUANTUM =? SCHEDULING_INHERIT) || (SCHEDULING_NO_QUANTUM =? SCHEDULING_START)) with false.
    change (SCHEDULING_NO_QUANTUM =? SCHEDULING_STOP) with false. change (SCHEDULING_NO_QUANTUM =? SCHEDULING_SET_NICE) with false.
    change (SCHEDULING_NO_QUANTUM =? SCHEDULING_BOOST) with false. change (SCHEDULING_NO_QUANTUM =? SCHEDULING_NO_QUANTUM) with true.
    cbn match. by rewrite (bind_done _ _ _ _ _ E).
  - apply wf_rq_mem; [apply (b_sched _ (kernel_base _ (so_kernel _ Hs')))|by apply rdyq_ok_spec|]. split.
    + apply (sd_run _ _ _ _ _ _ _ Hsd). by rewrite Hr.
    + rewrite (se_proc _ _ _ _ _ (at_proc _ _ _ _ Ha')). cbn. by rewrite (at_prio _ _ _ _ Ha').
  - etrans; [exact (f_equal p_cpu_time_left Ep')|]. unfold resched, sched_params. rewrite Esl.
    rewrite (proj2 (Z.eqb_neq (i32 (sp_time_slice r)) (-1))) by lia. by destruct (negb (sp_priority (lowered r) =? -1)).
Qed.

(** C9: a process whose time is used up gets a new quantum from an idle SCHED.
    For a running process that SCHED schedules with a time slice of at least 1,
    that is preemptible and of no real-time class, and while SCHED waits for any
    message: the kernel takes the process off its queue and hands SCHED a message
    on its behalf; when SCHED has handled that message
    the process is at its new priority, one lower within the queues, in SCHED's
    table and in the kernel, in the run queue of that priority and with the time
    slice of its entry; no reply is sent and all invariants hold. *)
Theorem quantum_renewed s n r p id pv d kaddr parent maxprio quantum :
  sched_ok s -> attached s n r p -> 1 <= i32 (sp_time_slice r) ->
  n = proc_ptr (sc_kernel s) -> 0 <= n -> n <> SCHED_PROC_NR -> p_rts_flags p = 0 -> proc_is_rt p = false ->
  p_priv p = Some id -> privs (sc_kernel s) !! id = Some pv -> has (s_flags pv) PREEMPTIBLE = true ->
  procs (sc_kernel s) !! SCHED_PROC_NR = Some d -> idles d -> p_ipc_status d = 0 ->
  exists k1 d1, (proc_no_time kaddr n ;; requeue_preempted n) (sc_kernel s) = Done tt k1
    /\ ~ runnable k1 n /\ runnable k1 SCHED_PROC_NR /\ procs k1 !! SCHED_PROC_NR = Some d1
    /\ let m := p_delivermsg d1 in
       exists s' p', main_step (mkSm (m_source m) (m_type m) (p_endpoint p) parent maxprio quantum) (p_ipc_status d1) (set_sc_kernel k1 s)
           = Done None s'
         /\ sched_ok s' /\ attached s' n (lowered r) p' /\ n ∈ rq (sc_kernel s') (sp_priority (lowered r))
         /\ p_cpu_time_left p' = u64 (k_tsc_per_ms (sc_kernel s) * i32 (sp_time_slice r)).
Proof.
  intros Hs [Hr Hu [Hp Hl He Hsc] Hpr] Hsl Hcur H0 Hne Hrts Hrt Hid Hpv Hpre Hd Hidle Hst. pose proof (so_kernel _ Hs) as Hk.
  destruct Hk as [[l Hck] Hma]. set (k := sc_kernel s) in *. pose proof (ck_ipc _ _ Hck) as Hok.
  assert (live (view k) SCHED_PROC_NR (ipc_of d)) as Hld.
  { split; [done|]. split; [by apply view_lookup|]. unfold ipc_of, isemptyp. cbn. by rewrite (id_rts _ Hidle). }
  destruct (quantum_ends k n p id pv SCHED_PROC_NR d kaddr) as (k1 & m & p1 & E & Hok1 & Em & Et & Hf & Hrun & Hp1 & Hr1); try done; [apply Hl|].
  assert (kernel_ok k1) as Hk1 by (eapply (handed_kernel k n p SCHED_PROC_NR d); try done; [by split; [exists l|]|apply Hl]).
  destruct (kframe_lookup erase_pre _ _ SCHED_PROC_NR _ (wframe_k _ _ Hf) (put_self _ _ _)) as (d1 & Hd1 & Ed).
  pose proof (f_equal p_delivermsg Ed : m = p_delivermsg d1) as Edm. pose proof (f_equal p_ipc_status Ed) as Eds.
  change (p_ipc_status (erase_pre d1)) with (p_ipc_status d1) in Eds. destruct (kernel_message_status p) as [Hs1 Hs2].
  destruct (kframe_lookup erase_pre _ _ n (set_p_rts_flags RTS_NO_QUANTUM p) (wframe_k _ _ Hf)) as (p1' & Hp1' & Ep);
    [rewrite put_other by done; apply put_self|]. rewrite Hp1 in Hp1'. injection Hp1' as <-.
  exists k1, d1. split; [done|]. split; [|split; [done|split; [done|]]].
  { intros (_ & x & Hx & Hrx). rewrite Hp1 in Hx. injection Hx as <-. by rewrite Hr1 in Hrx. }
  cbv zeta. rewrite <- Edm, Em, Et, <- Eds. change (p_ipc_status (erase_pre (handed m (send_kind p) d)))
    with (Z.lor (Z.lor (p_ipc_status d) (IPC_STATUS_FLAGS IPC_FLG_MSG_FROM_KERNEL)) (IPC_STATUS_CALL_TO (send_kind p))). rewrite Hst.
  rewrite (kframe_state erase_pre k_tsc_per_ms _ _ (fun _ => eq_refl) (wframe_k _ _ Hf) : k_tsc_per_ms k = k_tsc_per_ms k1).
  apply (renew_run (set_sc_kernel k1 s) n r p1); try done.
  - destruct Hs. by split.
  - split; [done|done| |rewrite <- Hpr; exact (eq_sym (f_equal p_priority Ep))]. split; [done| | |].
    + split; [apply Hl|]. split; [by apply view_lookup|]. unfold ipc_of, isemptyp. cbn. by rewrite Hr1.
    + rewrite <- He. exact (eq_sym (f_equal p_endpoint Ep)).
    + rewrite <- Hsc. exact (eq_sym (f_equal p_scheduler Ep)).
Qed.

Lemma quantum_renewed_witness :
  exists k1 s', (proc_no_time 0 12 ;; requeue_preempted 12) sched_kernel = Done tt k1 /\ ~ runnable k1 12
    /\ sched_ok s' /\ 12 ∈ rq (sc_kernel s') 9.
Proof.
  destruct (quantum_renewed sched_example 12 (sched_entry 12 8) (slot sched_kernel 12) 16 (pslot sched_kernel 16)
    (slot sched_kernel SCHED_PROC_NR) 0 0 0 0 sched_example_ok sched_example_attached) as (k1 & d1 & E & Hr & _ & _ & s' & p' & _ & Hs & _ & Hq & _).
  - by vm_compute.
  - by_vm.
  - done.
  - done.
  - by_vm.
  - by_vm.
  - by_vm.
  - by_pslot.
  - by_vm.
  - by_slot.
  - split; by_vm.
  - by_vm.
  - exists k1, s'. split; [exact E|]. split; [exact Hr|]. split; [exact Hs|exact Hq].
Defined.
