(* ===== verification/Macd.v ===== *)
(** * Mandatory access control: the policy daemon, its compiler and its clients

    Models [servers/macd] (the rules of [policy.c] and the requests of
    [macd.c]), the policy compiler [usr.bin/mac-compile] and the library call
    [mac_request] of lib/libmac.  Files and strings are lists of bytes.
    [lookup] is [minix_rs_lookup], the service that knows which endpoint a label
    stands for; the list of rules is a list, a fresh rule is always obtained from
    [malloc], and output is always written. *)

From Stdlib Require Import Ascii String.
From S2P Require Import Prelude Monad Timers Endpoint AuditRing DrvQueue Chain Kernel Sched Init Ipc System Clock Vm Privctl.

Notation bytes := (list Z).

(** A string literal of the code. *)
Definition str (s : string) : bytes := (fun c => Z.of_nat (nat_of_ascii c)) <$> list_ascii_of_string s.

(** The string stored in a buffer: up to the first 0. *)
Fixpoint cstr (l : bytes) : bytes :=
  match l with
  | c :: l' => if c =? 0 then [] else c :: cstr l'
  | [] => []
  end.

Definition isspace (c : Z) : bool := ((9 <=? c) && (c <=? 13)) || (c =? 32).

(** ** Lines and words *)

(** [fgets(line, n + 1, fp)]: the line, and what is left of the file. *)
Fixpoint fgets (n : nat) (fp : bytes) : bytes * bytes :=
  match n, fp with
  | S n', c :: fp' =>
      if c =? 10 then ([c], fp') else let '(line, rest) := fgets n' fp' in (c :: line, rest)
  | _, _ => ([], fp)
  end.

Definition MACD_CONF_LINE_MAX : nat := 256.

(** The lines of a file, as [fgets] gives them until the end of the file. *)
Fixpoint file_lines (fuel : nat) (fp : bytes) : list bytes :=
  match fuel, fp with
  | S fuel', _ :: _ => let '(line, rest) := fgets (MACD_CONF_LINE_MAX - 1) fp in cstr line :: file_lines fuel' rest
  | _, _ => []
  end.

Fixpoint skip_ws (s : bytes) : bytes :=
  match s with
  | c :: s' => if isspace c then skip_ws s' else s
  | [] => []
  end.
Definition trim_ws (s : bytes) : bytes := rev (skip_ws (rev (skip_ws s))).

(** The characters up to the next white space, and the rest. *)
Fixpoint word (p : bytes) : bytes * bytes :=
  match p with
  | c :: p' => if isspace c then ([], p) else let '(w, rest) := word p' in (c :: w, rest)
  | [] => ([], [])
  end.

Fixpoint tokenize (p : bytes) (max_tokens : nat) : list bytes :=
  match max_tokens with
  | O => []
  | S max' =>
      match skip_ws p with
      | [] => []
      | p' => let '(w, rest) := word p' in w :: tokenize (tail rest) max'
      end
  end.

(** The words of a line, [None] for an empty line and for a comment. *)
Definition line_tokens (line : bytes) : option (list bytes) :=
  match trim_ws line with
  | [] => None
  | c :: t => if c =? 35 then None else Some (tokenize (c :: t) 16)
  end.

(** ** Rules *)

Definition MAC_IPC_RECEIVE : Z := 2.
Definition MAC_FILE_ACCESS : Z := 3.
Definition MAC_DEVICE_BIND : Z := 5.
Definition MAC_PROC_FORK : Z := 6.
Definition MAC_PROC_EXEC : Z := 7.
Definition MAC_PROC_KILL : Z := 8.
Definition MAC_RAWIO : Z := 9.
Definition MAC_LABEL_MAX : nat := 32.

Definition op_table : list (bytes * Z) :=
  [(str "ALL", 0); (str "IPC_SEND", MAC_IPC_SEND); (str "IPC_RECEIVE", MAC_IPC_RECEIVE);
   (str "FILE_ACCESS", MAC_FILE_ACCESS); (str "PRIVCTL_SET_SYS", MAC_PRIVCTL_SET_SYS);
   (str "DEVICE_BIND", MAC_DEVICE_BIND); (str "PROC_FORK", MAC_PROC_FORK); (str "PROC_EXEC", MAC_PROC_EXEC);
   (str "PROC_KILL", MAC_PROC_KILL); (str "RAWIO", MAC_RAWIO)].

Definition lookup_op_type (name : bytes) : Z :=
  match list_find (fun e => e.1 = name) op_table with
  | Some (_, (_, type)) => type
  | None => -1
  end.

(** [struct mac_rule]; an endpoint is [None] while its [_valid] flag is 0. *)
Record mac_rule := mkRule {
  mr_action : Z;
  mr_op_type : Z;
  mr_from_label : bytes;
  mr_to_label : bytes;
  mr_from_endpoint : option Z;
  mr_to_endpoint : option Z
}.
Definition eta_mac_rule (r : mac_rule) : mac_rule :=
  mkRule (mr_action r) (mr_op_type r) (mr_from_label r) (mr_to_label r) (mr_from_endpoint r) (mr_to_endpoint r).
Definition set_mr_from_label : bytes -> mac_rule -> mac_rule := ltac:(setter eta_mac_rule mr_from_label).
Definition set_mr_to_label : bytes -> mac_rule -> mac_rule := ltac:(setter eta_mac_rule mr_to_label).
Definition set_mr_from_endpoint : option Z -> mac_rule -> mac_rule := ltac:(setter eta_mac_rule mr_from_endpoint).
Definition set_mr_to_endpoint : option Z -> mac_rule -> mac_rule := ltac:(setter eta_mac_rule mr_to_endpoint).

(** [strlcpy] into a label. *)
Definition label_copy (src : bytes) : bytes := take (MAC_LABEL_MAX - 1) (cstr src).

(** The label is given and is not [ANY]. *)
Definition restricts (label : bytes) : bool := negb (bool_decide (label = [])) && negb (bool_decide (label = str "ANY")).

Section Lookup.
Context (lookup : bytes -> option Z).

Definition cache_rule_endpoints (rule : mac_rule) : mac_rule :=
  let rule := if restricts (mr_from_label rule)
    then match lookup (mr_from_label rule) with
         | Some e => set_mr_from_endpoint (Some e) rule
         | None => rule
         end
    else rule in
  if restricts (mr_to_label rule)
  then match lookup (mr_to_label rule) with
       | Some e => set_mr_to_endpoint (Some e) rule
       | None => rule
       end
  else rule.

(** The optional [from <label>] and [to <label>]. *)
Fixpoint parse_labels (tokens : list bytes) (rule : mac_rule) : option mac_rule :=
  match tokens with
  | kw :: label :: tokens' =>
      if bool_decide (kw = str "from") then parse_labels tokens' (set_mr_from_label (label_copy label) rule)
      else if bool_decide (kw = str "to") then parse_labels tokens' (set_mr_to_label (label_copy label) rule)
      else None
  | _ => Some rule
  end.

Definition parse_action (t : bytes) : option Z :=
  if bool_decide (t = str "allow") then Some MAC_ALLOW
  else if bool_decide (t = str "deny") then Some MAC_DENY
  else None.

Definition parse_rule (tokens : list bytes) : option mac_rule :=
  match tokens with
  | t0 :: t1 :: tokens' =>
      match parse_action t0 with
      | None => None
      | Some action =>
          if lookup_op_type t1 <? 0 then None
          else match parse_labels tokens' (mkRule action (lookup_op_type t1) [] [] None None) with
               | None => None
               | Some rule => Some (cache_rule_endpoints rule)
               end
      end
  | _ => None
  end.

(** The rules of the lines of a text. *)
Definition text_rules (text : bytes) : list mac_rule :=
  omap (fun line => match line_tokens line with Some ts => parse_rule ts | None => None end)
    (file_lines (length text) text).

(** Storing rules through [nextp = &rule_list]: without any, the list stays. *)
Definition link_rules (old rules : list mac_rule) : list mac_rule :=
  match rules with [] => old | _ => rules end.

Definition allow_all : mac_rule := mkRule MAC_ALLOW 0 [] [] None None.

Definition load_rules (conf : option bytes) (rule_list : list mac_rule) : list mac_rule :=
  match conf with
  | None => [allow_all]
  | Some text => link_rules rule_list (text_rules text)
  end.
End Lookup.

(** ** The binary format *)

Definition MAC_BIN_MAGIC : Z := 0x4D414350.
Definition MAC_BIN_VERSION : Z := 1.

(** [struct mac_rule_bin]; the labels are arrays of [MAC_LABEL_MAX] bytes. *)
Record mac_rule_bin := mkBin {
  rb_action : Z;
  rb_op_type : Z;
  rb_from_label : bytes;
  rb_to_label : bytes
}.
Definition eta_mac_rule_bin (r : mac_rule_bin) : mac_rule_bin :=
  mkBin (rb_action r) (rb_op_type r) (rb_from_label r) (rb_to_label r).
Definition set_rb_from_label : bytes -> mac_rule_bin -> mac_rule_bin := ltac:(setter eta_mac_rule_bin rb_from_label).
Definition set_rb_to_label : bytes -> mac_rule_bin -> mac_rule_bin := ltac:(setter eta_mac_rule_bin rb_to_label).

(** A 32-bit integer in memory, and back. *)
Definition le32 (x : Z) : bytes :=
  [x mod 256; x / 256 mod 256; x / 65536 mod 256; x / 16777216 mod 256].
Definition of_le32 (l : bytes) : Z :=
  match l with
  | a :: b :: c :: d :: _ => a + 256 * b + 65536 * c + 16777216 * d
  | _ => 0
  end.

(** [fread] of [n] bytes, [None] when the file is too short. *)
Definition fread (n : nat) (fp : bytes) : option (bytes * bytes) :=
  if decide (n <= length fp)%nat then Some (take n fp, drop n fp) else None.

Definition bin_bytes (r : mac_rule_bin) : bytes :=
  le32 (rb_action r) ++ le32 (rb_op_type r) ++ rb_from_label r ++ rb_to_label r.
Definition bin_of_bytes (l : bytes) : mac_rule_bin :=
  mkBin (i32 (of_le32 l)) (i32 (of_le32 (drop 4 l))) (take MAC_LABEL_MAX (drop 8 l)) (take MAC_LABEL_MAX (drop 40 l)).

(** The loop of [policy_load_binary] from rule [i] on: the result, and the rules
    stored.  Every round reads 72 bytes. *)
Fixpoint load_bin_rules (lookup : bytes -> option Z) (fuel : nat) (i num_rules : Z) (fp : bytes) : Z * list mac_rule :=
  if i <? num_rules then
    match fuel, fread 72 fp with
    | S fuel', Some (l, fp') =>
        let b := bin_of_bytes l in
        let rule := cache_rule_endpoints lookup
          (mkRule (rb_action b) (rb_op_type b) (label_copy (rb_from_label b)) (label_copy (rb_to_label b)) None None) in
        let '(r, rules) := load_bin_rules lookup fuel' (i + 1) num_rules fp' in
        (r, rule :: rules)
    | _, _ => (-5, [])
    end
  else (i, []).

(** [errno] is the error of [fopen].  [policy.c] does not define [_SYSTEM], so
    that the error numbers are positive: [EIO] is 5, [EINVAL] 22. *)
Definition policy_load_binary (lookup : bytes -> option Z) (errno : Z) (bin : option bytes) (rule_list : list mac_rule)
    : Z * list mac_rule :=
  match bin with
  | None => (- errno, rule_list)
  | Some fp =>
      match fread 12 fp with
      | None => (-5, rule_list)
      | Some (h, fp') =>
          if negb (of_le32 h =? MAC_BIN_MAGIC) then (-22, rule_list)
          else if negb (of_le32 (drop 4 h) =? MAC_BIN_VERSION) then (-22, rule_list)
          else
            let '(r, rules) := load_bin_rules lookup (length fp') 0 (i32 (of_le32 (drop 8 h))) fp' in
            (r, link_rules rule_list rules)
      end
  end.

Definition policy_init (lookup : bytes -> option Z) (errno : Z) (bin conf : option bytes) (rule_list : list mac_rule)
    : list mac_rule :=
  let '(r, rules) := policy_load_binary lookup errno bin rule_list in
  if 0 <? r then rules else load_rules lookup conf rules.

Definition policy_cleanup (rule_list : list mac_rule) : list mac_rule := [].
Definition policy_reload (lookup : bytes -> option Z) (errno : Z) (bin conf : option bytes) (rule_list : list mac_rule)
    : list mac_rule :=
  let '(r, rules) := policy_load_binary lookup errno bin (policy_cleanup rule_list) in
  if r <=? 0 then load_rules lookup conf rules else rules.

(** ** mac-compile *)

(** Whether a line is a rule: [None] for a line that is skipped, [Some false]
    for an error. *)
Definition validate_line (line : bytes) : option bool :=
  match line_tokens line with
  | None => None
  | Some (t0 :: t1 :: _) =>
      Some ((bool_decide (t0 = str "allow") || bool_decide (t0 = str "deny")) && (0 <=? lookup_op_type t1))
  | Some _ => Some false
  end.

Definition count_and_validate (text : bytes) : Z :=
  let checked := omap validate_line (file_lines (length text) text) in
  if forallb id checked then Z.of_nat (length checked) else -1.

(** [strncpy] of at most 31 characters, and a final 0. *)
Definition label_field (src : bytes) : bytes :=
  let s := take (MAC_LABEL_MAX - 1) (cstr src) in s ++ replicate (MAC_LABEL_MAX - length s) 0.

Fixpoint compile_labels (tokens : list bytes) (rule_bin : mac_rule_bin) : option mac_rule_bin :=
  match tokens with
  | kw :: label :: tokens' =>
      if bool_decide (kw = str "from") then compile_labels tokens' (set_rb_from_label (label_field label) rule_bin)
      else if bool_decide (kw = str "to") then compile_labels tokens' (set_rb_to_label (label_field label) rule_bin)
      else None
  | _ => Some rule_bin
  end.

(** [None] is the result -1. *)
Definition compile_rule (t0 t1 : bytes) (tokens : list bytes) : option mac_rule_bin :=
  compile_labels tokens
    (mkBin (if bool_decide (t0 = str "allow") then MAC_ALLOW else MAC_DENY) (lookup_op_type t1)
       (replicate MAC_LABEL_MAX 0) (replicate MAC_LABEL_MAX 0)).

Definition compile_line (line : bytes) : option mac_rule_bin :=
  match line_tokens line with
  | Some (t0 :: t1 :: tokens) => compile_rule t0 t1 tokens
  | _ => None
  end.

(** The result and what was written. *)
Definition compile_file (text : bytes) : Z * bytes :=
  let num_rules := count_and_validate text in
  if num_rules <? 0 then (-1, [])
  else (0, le32 MAC_BIN_MAGIC ++ le32 MAC_BIN_VERSION ++ le32 (u32 num_rules)
             ++ concat (bin_bytes <$> omap compile_line (file_lines (length text) text))).

(** ** Checks *)

(** [mac_context_t]: every member of the union starts with the endpoint that
    acts and the endpoint it acts on. *)
Record mac_ctx := mkCtx { mc_src : Z; mc_dst : Z; mc_word : Z }.

Definition known_hook (what : Z) : bool := (MAC_IPC_SEND <=? what) && (what <=? MAC_PROC_KILL).
Definition ctx_get_src (what : Z) (ctx : mac_ctx) : Z := if known_hook what then mc_src ctx else NONE.
Definition ctx_get_dst (what : Z) (ctx : mac_ctx) : Z := if known_hook what then mc_dst ctx else NONE.

Section Check.
Context (lookup : bytes -> option Z).

Definition resolve_label (label : bytes) : option Z := if restricts label then lookup label else None.

(** Whether the endpoint is the one of the label, and the cached endpoint. *)
Definition side_matches (label : bytes) (cached : option Z) (ep : Z) : bool * option Z :=
  if restricts label then
    let cached := match cached with Some e => Some e | None => resolve_label label end in
    (bool_decide (cached = Some ep), cached)
  else (true, cached).

(** The answer, and the rule with what was found out about its labels. *)
Definition rule_matches (rule : mac_rule) (what : Z) (ctx : mac_ctx) : bool * mac_rule :=
  if negb (mr_op_type rule =? 0) && negb (mr_op_type rule =? what) then (false, rule)
  else
    let '(ok, e) := side_matches (mr_from_label rule) (mr_from_endpoint rule) (ctx_get_src what ctx) in
    let rule := set_mr_from_endpoint e rule in
    if negb ok then (false, rule)
    else
      let '(ok, e) := side_matches (mr_to_label rule) (mr_to_endpoint rule) (ctx_get_dst what ctx) in
      (ok, set_mr_to_endpoint e rule).

Fixpoint policy_check (what : Z) (ctx : mac_ctx) (rule_list : list mac_rule) : Z * list mac_rule :=
  match rule_list with
  | [] => (MAC_DENY, [])
  | rule :: rules =>
      let '(ok, rule') := rule_matches rule what ctx in
      if ok then (mr_action rule, rule' :: rules)
      else let '(r, rules') := policy_check what ctx rules in (r, rule' :: rules')
  end.
End Check.
Definition policy_count_rules (rule_list : list mac_rule) : Z := Z.of_nat (length rule_list).

(** ** The daemon *)

Definition MACD_CHECK : Z := 0x1B00.
Definition MACD_RQ_ENABLE : Z := 0x1B01.
Definition MACD_RQ_DISABLE : Z := 0x1B02.
Definition MACD_RQ_STATUS : Z := 0x1B03.

(** [rule_list] and [mac_enabled]. *)
Record macd := mkMacd { md_rules : list mac_rule; md_enabled : bool }.

(** A message: [m_type] and [m4_l1] to [m4_l4]. *)
Record macd_msg := mkMm { mm_source : Z; mm_type : Z; mm_l1 : Z; mm_l2 : Z; mm_l3 : Z; mm_l4 : Z }.
Definition eta_macd_msg (m : macd_msg) : macd_msg :=
  mkMm (mm_source m) (mm_type m) (mm_l1 m) (mm_l2 m) (mm_l3 m) (mm_l4 m).
Definition set_mm_type : Z -> macd_msg -> macd_msg := ltac:(setter eta_macd_msg mm_type).

Definition handle_mac_check (lookup : bytes -> option Z) (m : macd_msg) (s : macd) : Z * macd :=
  if negb (md_enabled s) then (MAC_ALLOW, s)
  else if known_hook (mm_l1 m) then
    let '(result, rules) := policy_check lookup (mm_l1 m) (mkCtx (mm_l2 m) (mm_l3 m) (mm_l4 m)) (md_rules s) in
    (result, mkMacd rules (md_enabled s))
  else (MAC_ALLOW, s).

Definition handle_mac_enable (enable : bool) (m : macd_msg) (s : macd) : macd_msg * macd :=
  (set_mm_type OK m, mkMacd (md_rules s) enable).

Definition handle_mac_status (m : macd_msg) (s : macd) : macd_msg :=
  mkMm (mm_source m) OK (if md_enabled s then 1 else 0) (policy_count_rules (md_rules s)) (mm_l3 m) (mm_l4 m).

(** One round of the main loop: the reply, which goes to [mm_source]. *)
Definition macd_step (lookup : bytes -> option Z) (m : macd_msg) (s : macd) : macd_msg * macd :=
  if mm_type m =? MACD_CHECK then
    let '(result, s') := handle_mac_check lookup m s in (set_mm_type result m, s')
  else if mm_type m =? MACD_RQ_ENABLE then handle_mac_enable true m s
  else if mm_type m =? MACD_RQ_DISABLE then handle_mac_enable false m s
  else if mm_type m =? MACD_RQ_STATUS then (handle_mac_status m s, s)
  else (set_mm_type EINVAL m, s).

Definition SIGTERM : Z := 15.
Definition macd_signal (signo : Z) (s : macd) : macd :=
  if signo =? SIGTERM then mkMacd (policy_cleanup (md_rules s)) (md_enabled s) else s.

(** ** The library *)

(** [macd_initialized] and [macd_ep] of a client of the library. *)
Record mac_client := mkMc { mc_initialized : bool; mc_macd_ep : Z }.

(** [rs] is the answer of [minix_rs_lookup] for macd; [sendrec] sends the
    message and gives the type of the reply, [None] when it fails. *)
Definition mac_request {S} (rs : option Z) (sendrec : Z -> macd_msg -> S -> option Z * S) (me what : Z) (ctx : option mac_ctx)
    (c : mac_client) (s : S) : Z * mac_client * S :=
  match ctx with
  | None => (MAC_DENY, c, s)
  | Some ctx =>
      let c := if mc_initialized c then c else mkMc true (default NONE rs) in
      if mc_macd_ep c =? NONE then (MAC_ALLOW, c, s)
      else if known_hook what then
        let '(reply, s') := sendrec (mc_macd_ep c) (mkMm me MACD_CHECK what (mc_src ctx) (mc_dst ctx) (mc_word ctx)) s in
        match reply with
        | None => (MAC_ALLOW, c, s')
        | Some t => ((if t =? MAC_ALLOW then MAC_ALLOW else MAC_DENY), c, s')
        end
      else (MAC_ALLOW, c, s)
  end.
