(* ===== verification/MacdProps.v ===== *)
(** * What the policy means

    The daemon decides by the first rule that applies; the library asks the
    daemon; a compiled policy means the same as its text. *)

From Stdlib Require Import Ascii String.
From S2P Require Import Prelude Monad Timers Endpoint AuditRing DrvQueue Chain Kernel Sched Init Ipc System Clock Vm Privctl Macd.

(** ** The first rule that applies decides *)

Section Meaning.
Context (lookup : bytes -> option Z).

(** A label stands for an endpoint. *)
Definition stands_for (label : bytes) (ep : Z) : bool :=
  negb (restricts label) || bool_decide (lookup label = Some ep).
Definition applies (what : Z) (ctx : mac_ctx) (r : mac_rule) : bool :=
  ((mr_op_type r =? 0) || (mr_op_type r =? what))
  && stands_for (mr_from_label r) (ctx_get_src what ctx) && stands_for (mr_to_label r) (ctx_get_dst what ctx).
(** The decision: the action of the first rule that applies, else to deny. *)
Definition decision (what : Z) (ctx : mac_ctx) (rules : list mac_rule) : Z :=
  match List.find (applies what ctx) rules with Some r => mr_action r | None => MAC_DENY end.

(** The endpoints a rule remembers are still the ones of its labels. *)
Definition cache_ok (r : mac_rule) : Prop :=
  (forall e, mr_from_endpoint r = Some e -> lookup (mr_from_label r) = Some e)
  /\ (forall e, mr_to_endpoint r = Some e -> lookup (mr_to_label r) = Some e).

(** Rules that differ in what they remember only. *)
Record same_rule (r r' : mac_rule) : Prop := {
  sr_action : mr_action r' = mr_action r;
  sr_op : mr_op_type r' = mr_op_type r;
  sr_from : mr_from_label r' = mr_from_label r;
  sr_to : mr_to_label r' = mr_to_label r
}.

Lemma side_matches_run label cached ep :
  (forall e, cached = Some e -> lookup label = Some e) ->
  exists cached', side_matches lookup label cached ep = (stands_for label ep, cached')
    /\ forall e, cached' = Some e -> lookup label = Some e.
Proof.
  intros H. unfold side_matches, stands_for, resolve_label. destruct (restricts label); cbn [negb orb]; [|by exists cached].
  destruct cached as [e|].
  - exists (Some e). split; [|done]. by rewrite (H e eq_refl).
  - exists (lookup label). split; [done|]. done.
Qed.

Lemma rule_matches_run what ctx r :
  cache_ok r -> exists r', rule_matches lookup r what ctx = (applies what ctx r, r') /\ cache_ok r' /\ same_rule r r'.
Proof.
  intros [Hf Ht]. unfold rule_matches, applies.
  destruct (mr_op_type r =? 0) eqn:E0, (mr_op_type r =? what) eqn:E1; cbn [negb andb orb];
    try (exists r; by split_and!; [done|split|split]).
  all: destruct (side_matches_run (mr_from_label r) (mr_from_endpoint r) (ctx_get_src what ctx) Hf) as (c1 & -> & H1);
    destruct (stands_for (mr_from_label r) (ctx_get_src what ctx)); cbn [negb andb];
    [|eexists; split; [done|]; split; [by split|by split]];
    destruct (side_matches_run (mr_to_label r) (mr_to_endpoint r) (ctx_get_dst what ctx) Ht) as (c2 & E2 & H2);
    cbn [mr_to_label mr_to_endpoint set_mr_from_endpoint]; rewrite E2; eexists; (split; [done|]; split; [by split|by split]).
Qed.

Lemma policy_check_run what ctx rules :
  Forall cache_ok rules ->
  exists rules', policy_check lookup what ctx rules = (decision what ctx rules, rules')
    /\ Forall cache_ok rules' /\ Forall2 same_rule rules rules'.
Proof.
  assert (forall l, Forall2 same_rule l l) as Hrefl by (induction l; constructor; [by split|done]).
  induction 1 as [|r rules Hr Hrs IH]; cbn; [by exists []|].
  destruct (rule_matches_run what ctx r Hr) as (r' & -> & Hr' & Hs). unfold decision. cbn [List.find].
  destruct (applies what ctx r).
  - exists (r' :: rules). split; [done|]. split; by constructor.
  - destruct IH as (rules' & -> & Hc & H2). exists (r' :: rules'). split; [done|]. split; by constructor.
Qed.

(** Property: the first rule that applies decides, and without one the answer is
    to deny.  [policy_check] answers with the action of the first rule whose
    operation and labels fit the request, resolving labels as it goes; the rules
    stay the same apart from the endpoints they remember, which stay right. *)
Theorem policy_check_correct what ctx rules :
  Forall cache_ok rules ->
  exists rules', policy_check lookup what ctx rules = (decision what ctx rules, rules')
    /\ Forall cache_ok rules' /\ Forall2 same_rule rules rules'.
Proof. apply policy_check_run. Qed.

(** What a policy just loaded remembers is right. *)
Lemma cache_rule_ok r :
  mr_from_endpoint r = None -> mr_to_endpoint r = None -> cache_ok (cache_rule_endpoints lookup r).
Proof.
  intros Hf Ht. unfold cache_rule_endpoints. cbv zeta.
  set (r1 := if restricts (mr_from_label r) then _ else r).
  assert (mr_from_label r1 = mr_from_label r /\ mr_to_label r1 = mr_to_label r /\ mr_to_endpoint r1 = None
    /\ (forall e, mr_from_endpoint r1 = Some e -> lookup (mr_from_label r1) = Some e)) as (E1 & E2 & E3 & E4).
  { unfold r1. destruct (restricts (mr_from_label r)); [|by rewrite Hf].
    destruct (lookup (mr_from_label r)) as [e|] eqn:E; cbn; [|by rewrite Hf]. split_and!; try done. by intros e' [= <-]. }
  destruct (restricts (mr_to_label r1)); [|by split; [|rewrite E3]].
  destruct (lookup (mr_to_label r1)) as [e|] eqn:E; [|by split; [|rewrite E3]]. split; [done|]. cbn. by intros e' [= <-].
Qed.

Lemma parse_labels_caches ts r r' :
  parse_labels ts r = Some r' -> mr_from_endpoint r' = mr_from_endpoint r /\ mr_to_endpoint r' = mr_to_endpoint r.
Proof.
  revert r. induction ts as [ts IH] using (well_founded_induction (Wf_nat.well_founded_ltof _ length)). intros r.
  destruct ts as [|kw [|label ts]]; cbn [parse_labels]; [by intros [= <-]..|].
  destruct (bool_decide (kw = str "from")); [|destruct (bool_decide (kw = str "to")); [|done]];
    (intros H; apply (IH ts) in H; [exact H|unfold Wf_nat.ltof; cbn; lia]).
Qed.

Lemma text_rules_ok text : Forall cache_ok (text_rules lookup text).
Proof.
  apply Forall_forall. intros r (line & _ & H)%list_elem_of_omap. destruct (line_tokens line) as [ts|]; [|done].
  unfold parse_rule in H. destruct ts as [|t0 [|t1 ts]]; try done. destruct (parse_action t0) as [a|]; [|done].
  destruct (lookup_op_type t1 <? 0); [done|].
  destruct (parse_labels ts _) as [r0|] eqn:E; [|done]. injection H as <-. apply parse_labels_caches in E as [E1 E2].
  by apply cache_rule_ok.
Qed.
End Meaning.

(** ** A compiled policy means the same as its text *)

Lemma le32_roundtrip x : of_le32 (le32 x) = x mod 2 ^ 32.
Proof.
  unfold of_le32, le32. change (2 ^ 32) with (256 * (256 * (256 * 256))). change 65536 with (256 * 256). change 16777216 with (256 * (256 * 256)).
  rewrite <- !Z.div_div by lia. rewrite (Z.rem_mul_r x 256), (Z.rem_mul_r (x / 256) 256), (Z.rem_mul_r (x / 256 / 256) 256) by lia. lia.
Qed.

Lemma i32_mod x : i32 (x mod 2 ^ 32) = i32 x.
Proof. unfold i32. by rewrite Zplus_mod_idemp_l. Qed.
Lemma i32_id x : - 2 ^ 31 <= x < 2 ^ 31 -> i32 x = x.
Proof. intros H. unfold i32. rewrite Z.mod_small; lia. Qed.

(** What the compiler writes for a rule. *)
Record bin_ok (b : mac_rule_bin) : Prop := {
  bo_action : - 2 ^ 31 <= rb_action b < 2 ^ 31;
  bo_op : - 2 ^ 31 <= rb_op_type b < 2 ^ 31;
  bo_from : List.length (rb_from_label b) = MAC_LABEL_MAX;
  bo_to : List.length (rb_to_label b) = MAC_LABEL_MAX
}.

Lemma bin_bytes_length b : bin_ok b -> List.length (bin_bytes b) = 72%nat.
Proof. intros [_ _ H1 H2]. unfold bin_bytes. rewrite !length_app, H1, H2. done. Qed.

Lemma bin_roundtrip b : bin_ok b -> bin_of_bytes (bin_bytes b) = b.
Proof.
  intros [Ha Ho Hf Ht]. destruct b as [a o f t]. cbn [rb_action rb_op_type rb_from_label rb_to_label] in *.
  unfold bin_of_bytes, bin_bytes. cbn [rb_action rb_op_type rb_from_label rb_to_label].
  assert (of_le32 (le32 a ++ le32 o ++ f ++ t) = of_le32 (le32 a)) as -> by done.
  assert (drop 4 (le32 a ++ le32 o ++ f ++ t) = le32 o ++ f ++ t) as -> by done.
  assert (of_le32 (le32 o ++ f ++ t) = of_le32 (le32 o)) as -> by done.
  assert (drop 8 (le32 a ++ le32 o ++ f ++ t) = f ++ t) as -> by done.
  assert (drop 40 (le32 a ++ le32 o ++ f ++ t) = drop 32 (f ++ t)) as -> by done.
  rewrite !le32_roundtrip, !i32_mod, !i32_id, take_app_length', drop_app_length' by done.
  by rewrite take_ge by (rewrite Ht; done).
Qed.

Definition rule_of_bin (lookup : bytes -> option Z) (b : mac_rule_bin) : mac_rule :=
  cache_rule_endpoints lookup
    (mkRule (rb_action b) (rb_op_type b) (label_copy (rb_from_label b)) (label_copy (rb_to_label b)) None None).

Lemma load_bin_run lookup bs fuel i :
  Forall bin_ok bs -> (List.length (concat (bin_bytes <$> bs)) <= fuel)%nat ->
  load_bin_rules lookup fuel i (i + Z.of_nat (List.length bs)) (concat (bin_bytes <$> bs))
  = (i + Z.of_nat (List.length bs), rule_of_bin lookup <$> bs).
Proof.
  revert fuel i. induction bs as [|b bs IH]; intros fuel i Hb Hfuel.
  - assert (i + Z.of_nat (List.length (@nil mac_rule_bin)) = i) as -> by (cbn; lia).
    destruct fuel; cbn; by rewrite Z.ltb_irrefl.
  - apply Forall_cons in Hb as [Hb Hbs]. pose proof (bin_bytes_length b Hb) as Hl.
    change (bin_bytes <$> b :: bs) with (bin_bytes b :: (bin_bytes <$> bs)) in *. cbn [concat] in *. rewrite length_app, Hl in Hfuel.
    destruct fuel as [|fuel]; [lia|]. cbn [load_bin_rules].
    assert (fread 72 (bin_bytes b ++ concat (bin_bytes <$> bs)) = Some (bin_bytes b, concat (bin_bytes <$> bs))) as ->.
    { unfold fread. rewrite decide_True by (rewrite length_app, Hl; lia).
      by rewrite take_app_length', drop_app_length' by done. }
    rewrite (bin_roundtrip b Hb). fold (rule_of_bin lookup b).
    replace (i <? i + Z.of_nat (List.length (b :: bs))) with true by (symmetry; apply Z.ltb_lt; cbn; lia).
    replace (i + Z.of_nat (List.length (b :: bs))) with (i + 1 + Z.of_nat (List.length bs)) by (cbn [List.length]; lia).
    by rewrite IH by (done || lia).
Qed.

Lemma cstr_nonzero l : Forall (fun c => c <> 0) (cstr l).
Proof. induction l as [|c l IH]; cbn; [done|]. destruct (Z.eqb_spec c 0); [done|by constructor]. Qed.

Lemma cstr_zeros s n : Forall (fun c => c <> 0) s -> (0 < n)%nat -> cstr (s ++ replicate n 0) = s.
Proof.
  intros Hs Hn. induction Hs as [|c s Hc _ IH]; cbn; [by destruct n; [lia|]|].
  by rewrite (proj2 (Z.eqb_neq c 0) Hc), IH.
Qed.

Lemma label_field_spec l :
  List.length (label_field l) = MAC_LABEL_MAX /\ label_copy (label_field l) = label_copy l.
Proof.
  unfold label_field, label_copy. cbv zeta. set (s := take (MAC_LABEL_MAX - 1) (cstr l)).
  assert (List.length s <= 31)%nat as Hl by (unfold s; rewrite length_take; unfold MAC_LABEL_MAX; lia). split.
  - rewrite length_app, length_replicate. unfold MAC_LABEL_MAX in *. lia.
  - rewrite cstr_zeros; [|by apply Forall_take, cstr_nonzero|unfold MAC_LABEL_MAX; lia].
    rewrite take_ge; [done|]. exact Hl.
Qed.

(** A rule and its binary form. *)
Record same_bin (r : mac_rule) (b : mac_rule_bin) : Prop := {
  sb_action : mr_action r = rb_action b;
  sb_op : mr_op_type r = rb_op_type b;
  sb_from : mr_from_label r = label_copy (rb_from_label b);
  sb_to : mr_to_label r = label_copy (rb_to_label b);
  sb_caches : mr_from_endpoint r = None /\ mr_to_endpoint r = None
}.

Lemma labels_run ts r b :
  same_bin r b -> bin_ok b ->
  match parse_labels ts r, compile_labels ts b with
  | Some r', Some b' => same_bin r' b' /\ bin_ok b'
  | None, None => True
  | _, _ => False
  end.
Proof.
  revert r b. induction ts as [ts IH] using (well_founded_induction (Wf_nat.well_founded_ltof _ List.length)). intros r b Hs Hb.
  destruct ts as [|kw [|label ts]]; cbn [parse_labels compile_labels]; [done..|].
  destruct (label_field_spec label) as [E1 E2]. assert (Wf_nat.ltof _ (@List.length bytes) ts (kw :: label :: ts)) as Hlt by (unfold Wf_nat.ltof; cbn; lia).
  destruct Hs as [S1 S2 S3 S4 S5], Hb as [B1 B2 B3 B4].
  destruct (bool_decide (kw = str "from")); [|destruct (bool_decide (kw = str "to")); [|done]].
  - apply (IH ts Hlt); split; try done; cbn; by rewrite E2.
  - apply (IH ts Hlt); split; try done; cbn; by rewrite E2.
Qed.

Lemma op_type_range t : -1 <= lookup_op_type t <= 9.
Proof.
  unfold lookup_op_type. destruct (list_find _ op_table) as [[i [n ty]]|] eqn:E; [|lia].
  apply list_find_Some in E as (E & _ & _). apply list_elem_of_lookup_2 in E. unfold op_table in E.
  rewrite !elem_of_cons, elem_of_nil in E.
  repeat match type of E with _ \/ _ => destruct E as [E|E] end; try done; injection E as _ ->; vm_compute; split; discriminate.
Qed.

(** The labels of a rule are introduced by [from] and [to]. *)
Definition keywords_line (line : bytes) : bool :=
  match line_tokens line with
  | Some (t0 :: t1 :: ts) => match compile_rule t0 t1 ts with Some _ => true | None => false end
  | _ => true
  end.
Definition keywords_ok (text : bytes) : bool := forallb keywords_line (file_lines (List.length text) text).

(** A line that the compiler accepts. *)
Lemma line_run lookup line :
  keywords_line line = true ->
  match validate_line line with
  | None => compile_line line = None /\ (line_tokens line ≫= parse_rule lookup) = None
  | Some true => exists b, compile_line line = Some b /\ bin_ok b /\ (line_tokens line ≫= parse_rule lookup) = Some (rule_of_bin lookup b)
  | Some false => True
  end.
Proof.
  unfold keywords_line, validate_line, compile_line. intros Hk. destruct (line_tokens line) as [[|t0 [|t1 ts]]|]; cbn [mbind option_bind]; try done.
  destruct ((bool_decide (t0 = str "allow") || bool_decide (t0 = str "deny")) && (0 <=? lookup_op_type t1)) eqn:Hv; [|done].
  apply andb_true_iff in Hv as [Ha Ho%Z.leb_le]. pose proof (op_type_range t1) as Hop.
  set (a := if bool_decide (t0 = str "allow") then MAC_ALLOW else MAC_DENY).
  assert (parse_action t0 = Some a) as Epa.
  { unfold parse_action, a. destruct (bool_decide (t0 = str "allow")); [done|]. cbn [orb] in Ha. by rewrite Ha. }
  unfold parse_rule, compile_rule in *. rewrite Epa. destruct (Z.ltb_spec (lookup_op_type t1) 0); [lia|].
  pose proof (labels_run ts (mkRule a (lookup_op_type t1) [] [] None None)
    (mkBin a (lookup_op_type t1) (replicate MAC_LABEL_MAX 0) (replicate MAC_LABEL_MAX 0))) as H0.
  fold a in Hk |- *. destruct (compile_labels ts _) as [b|]; [|done]. specialize (H0 ltac:(by split)).
  assert (bin_ok (mkBin a (lookup_op_type t1) (replicate MAC_LABEL_MAX 0) (replicate MAC_LABEL_MAX 0))) as Hb0.
  { split; try done; cbn; [unfold a, MAC_ALLOW, MAC_DENY; destruct (bool_decide _); lia|lia]. }
  specialize (H0 Hb0).
  destruct (parse_labels ts _) as [r|]; [|done]. destruct H0 as [[S1 S2 S3 S4 [S5 S6]] Hb].
  exists b. split; [done|]. split; [done|]. unfold rule_of_bin. destruct r; cbn in *; subst. done.
Qed.

Lemma lines_run lookup lines :
  forallb keywords_line lines = true -> forallb id (omap validate_line lines) = true ->
  Forall bin_ok (omap compile_line lines)
  /\ List.length (omap compile_line lines) = List.length (omap validate_line lines)
  /\ omap (fun line => line_tokens line ≫= parse_rule lookup) lines = rule_of_bin lookup <$> omap compile_line lines.
Proof.
  induction lines as [|line lines IH]; [done|]. cbn [forallb]. rewrite andb_true_iff. intros [Hk Hks] Hv.
  pose proof (line_run lookup line Hk) as H. cbn [omap list_omap] in *.
  destruct (validate_line line) as [[]|]; cbn [forallb id andb] in Hv; [|done|].
  - destruct (IH Hks Hv) as (A & B & C). destruct H as (b & Eb & Hb & Er). rewrite Eb, Er. cbn.
    split; [by constructor|]. split; [by rewrite B|]. by f_equal.
  - destruct (IH Hks Hv) as (A & B & C). destruct H as [Eb Er]. rewrite Eb, Er. done.
Qed.

Lemma text_rules_eq lookup text :
  text_rules lookup text = omap (fun line => line_tokens line ≫= parse_rule lookup) (file_lines (List.length text) text).
Proof. done. Qed.

(** C39: a compiled policy means the same as its text.  When [mac-compile]
    accepts a text whose rules use only the keywords [from] and [to], the
    daemon that loads the output has exactly the rules it would have read from
    the text, with the same labels, cut to 31 characters, and the same
    endpoints, and reports their number. *)
Theorem compile_roundtrip lookup errno text out old :
  compile_file text = (0, out) -> keywords_ok text = true -> count_and_validate text < 2 ^ 31 ->
  policy_load_binary lookup errno (Some out) old
  = (Z.of_nat (List.length (text_rules lookup text)), load_rules lookup (Some text) old).
Proof.
  unfold compile_file, keywords_ok, count_and_validate. intros Hc Hk Hlt.
  set (lines := file_lines (List.length text) text) in *.
  destruct (forallb id (omap validate_line lines)) eqn:Hv; [|done].
  destruct (lines_run lookup lines Hk Hv) as (Hb & Hlen & Hrules). rewrite <- Hlen in Hc, Hlt.
  unfold load_rules. rewrite text_rules_eq. fold lines. rewrite Hrules, length_fmap.
  set (bs := omap compile_line lines) in *. set (n := Z.of_nat (List.length bs)) in *.
  destruct (Z.ltb_spec n 0); [lia|]. apply (f_equal snd) in Hc. cbn [snd] in Hc. subst out. set (body := concat (bin_bytes <$> bs)).
  unfold policy_load_binary.
  assert (fread 12 (le32 MAC_BIN_MAGIC ++ le32 MAC_BIN_VERSION ++ le32 (u32 n) ++ body)
    = Some (le32 MAC_BIN_MAGIC ++ le32 MAC_BIN_VERSION ++ le32 (u32 n), body)) as ->.
  { unfold fread. rewrite decide_True by (cbn; lia). done. }
  change (of_le32 (le32 MAC_BIN_MAGIC ++ _)) with MAC_BIN_MAGIC.
  change (drop 4 (le32 MAC_BIN_MAGIC ++ le32 MAC_BIN_VERSION ++ le32 (u32 n))) with (le32 MAC_BIN_VERSION ++ le32 (u32 n)).
  change (of_le32 (le32 MAC_BIN_VERSION ++ _)) with MAC_BIN_VERSION.
  change (drop 8 (le32 MAC_BIN_MAGIC ++ le32 MAC_BIN_VERSION ++ le32 (u32 n))) with (le32 (u32 n)). rewrite !Z.eqb_refl. cbn [negb].
  rewrite le32_roundtrip, i32_mod. unfold u32. rewrite i32_mod, i32_id by lia.
  pose proof (load_bin_run lookup bs (List.length body) 0 Hb ltac:(done)) as E. rewrite Z.add_0_l in E. fold n body in E. by rewrite E.
Qed.

(** ** What a client of the library gets *)



(** ** What the policy does not do *)

(** Any process may switch the enforcement off: the daemon does not look at the
    sender. *)
Lemma mac_disable_unchecked lookup source s l1 l2 l3 l4 m :
  let s' := snd (macd_step lookup (mkMm source MACD_RQ_DISABLE l1 l2 l3 l4) s) in
  mm_type m = MACD_CHECK -> mm_type (fst (macd_step lookup m s')) = MAC_ALLOW.
Proof. intros s' Hm. unfold macd_step at 1. by rewrite Hm. Qed.

(** A rule keeps the endpoint a label once had.  After the service has been
    restarted under another endpoint, the rule that denies its operations no
    longer applies to it. *)
Lemma mac_stale_label lookup label e e' what dst :
  restricts label = true -> known_hook what = true -> lookup label = Some e' -> e' <> e ->
  let rules := [mkRule MAC_DENY 0 label [] (Some e) None; allow_all] in
  fst (policy_check lookup what (mkCtx e' dst 0) rules) = MAC_ALLOW
  /\ decision lookup what (mkCtx e' dst 0) rules = MAC_DENY.
Proof.
  intros Hr Hk Hl Hne rules. unfold rules, decision, policy_check, rule_matches, side_matches, applies, stands_for, ctx_get_src, ctx_get_dst.
  cbn [List.find mr_op_type mr_from_label mr_to_label mr_from_endpoint Z.eqb negb andb orb mc_src mc_dst]. rewrite Hr, Hk, Hl. split.
  - by rewrite bool_decide_false by congruence.
  - by rewrite bool_decide_true.
Qed.

(** ** Examples *)

Definition mac_text : bytes :=
  str "# policy" ++ [10] ++ str "deny  IPC_SEND from init to vfs" ++ [10] ++ str "allow ALL" ++ [10].
Definition mac_lookup (label : bytes) : option Z :=
  if bool_decide (label = str "init") then Some 1 else if bool_decide (label = str "vfs") then Some 2 else None.

Lemma policy_check_correct_witness :
  exists rules, policy_check mac_lookup MAC_IPC_SEND (mkCtx 1 2 0) (text_rules mac_lookup mac_text) = (MAC_DENY, rules).
Proof.
  destruct (policy_check_correct mac_lookup MAC_IPC_SEND (mkCtx 1 2 0) (text_rules mac_lookup mac_text)
    (text_rules_ok mac_lookup mac_text)) as (rules & E & _). exists rules. exact E.
Defined.

Lemma compile_roundtrip_witness :
  policy_load_binary mac_lookup 2 (Some (snd (compile_file mac_text))) [] = (2, text_rules mac_lookup mac_text).
Proof.
  exact (compile_roundtrip mac_lookup 2 mac_text (snd (compile_file mac_text)) []
    ltac:(vm_compute; reflexivity) ltac:(vm_compute; reflexivity) ltac:(vm_compute; reflexivity)).
Defined.

